(* ===== verification/_CoqProject ===== *)
-Q . S2P
Prelude.v
Bytes.v
LwpLock.v
UbikVote.v
UbikBeacon.v
UbikQuorum.v
UbikLog.v
UbikDisk.v
Dir.v
DirSpec.v
DirOps.v
DirSalv.v
DirCheck.v
Acl.v
AclSpec.v
Rings.v
Monad.v
UbikFile.v
PtDb.v
PtSpec.v
PtOps.v
PtUtils.v
PtGroups.v
PtUsers.v
Fcrypt.v
RxkadPacket.v
RxkadSession.v
VlDb.v
VlProcs.v
VlSpec.v
VlOps.v
VlStore.v
VlCreate.v
VlInit.v
VlServe.v
VlGet.v
VlExample.v
Callback.v
CallbackSpec.v
CallbackFiles.v
CallbackOps.v
CallbackAdd.v
CallbackBreak.v
CallbackServe.v
CallbackDelay.v
CallbackLater.v
CallbackVolume.v
Coherence.v
LHash.v
LHashSpec.v
BnodeParse.v
Bnode.v
BnodeSpec.v
BnodeExec.v
BnodeNudge.v
BnodeFs.v
BnodeExit.v
BnodeManage.v
BnodeRun.v
BnodeCollect.v
BnodeCalls.v
BnodeWait.v
BnodeSafe.v
BnodeProps.v
