(* ===== verification/Prelude.v ===== *)
(** * A verification of parts of OpenAFS

    The library models parts of the C code of OpenAFS in Rocq, as executable
    definitions, and proves what makes them correct. File and function names
    below are those under src/ of the repository.

    ** The parts, and how they interact

    Ubik replicates the small databases of a cell (protection, volume location,
    authentication, backup). Its servers elect one sync site, by beacons and
    votes; the sync site alone begins write transactions; every server keeps
    its copy through page buffers, and a log that is replayed at start-up. The
    protection server and the volume location server keep their databases in
    Ubik files: entries in blocks, found through hash tables. The file server
    stores directories, whose format and operations are shared with the clients
    and the salvager, and access lists, which are read from text with the help
    of the protection server, and which decide rights against the lists of
    groups that the protection server gives out; and it promises its clients to
    call them back when a file changes. Calls between them are packets
    of Rx, sealed and enciphered by rxkad. The locks of lwp are used throughout.
    On each machine the bosserver starts, watches and stops these servers, and
    runs the salvager when a file server did not leave its partitions clean.

    ** Files

    - [Prelude] machine integers at their widths, words in network order,
      generic lemmas, the hint database [width] and the tactic [zdiv].
    - [Bytes] memory and files as maps from offsets to bytes.
    - [LwpLock] lwp/lock.h and lwp/lock.c: the lock word and its macros as
      functions, then threads on one lock as a step relation.
    - [UbikVote] ubik/vote.c: the voter's promise; [UbikBeacon] ubik/beacon.c:
      the list of servers, beacons and the end of a round; [UbikQuorum] the
      servers of a cell together: sending, losing and delaying beacons and
      votes, clocks, crashes and restarts as steps.
    - [UbikLog] ubik/phys.c, the records that ubik/disk.c logs, and ReplayLog
      and InitializeDB of ubik/recovery.c; [UbikDisk] the page buffers,
      truncations and transactions of ubik/disk.c, and ubik/lock.c.
    - [Dir] dir/dir.c and dir/dir.h; [DirSpec] the representation of a finite
      map by a directory's bytes; [DirOps] each operation on that map; [DirSalv]
      dir/salvage.c, DirOK and DirSalvage; [DirCheck] what they accept and make.
    - [Acl] libacl/aclprocs.c and libacl/netprocs.c; [AclSpec] their theorems.
    - [Rings] linked lists in memory, chains and circular ones; [Monad] programs
      with a state that may fail.
    - [UbikFile] what the two databases share: the file with the copy of its
      header in memory, the monad of calls to Ubik, strings.
    - [PtDb] ptserver/utils.c; [PtUtils] ptserver/ptutils.c; [PtSpec] the
      images of entries and of the header, the hash chains as maps for any kind
      of key (the class [KindLaws], with an instance for identifiers and one for
      names); [PtOps] the two tables, the store of blocks, identifiers;
      [PtGroups] lists of members; [PtUsers] creating users.
    - [Fcrypt] rxkad/domestic/fcrypt.c, the cipher; [RxkadPacket] preparing and
      checking packets, rxkad_common.c and crypt_conn.c; [RxkadSession] both
      ends of a connection.
    - [VlDb] vlserver/vlutils.c; [VlProcs] the procedures of vlserver/vlprocs.c;
      [VlSpec] images, pieces of the file, chains; [VlOps] threading and
      unthreading; [VlStore] the invariant, blocks taken and given back;
      [VlCreate] SVL_CreateEntryN; [VlInit] CheckInit; [VlServe] the other
      procedures; [VlGet] what is made is what is got; [VlExample] an example.
    - [Callback] viced/callback.c: the tables of files, callbacks and queues, and
      the calls to hosts; [CallbackSpec] the lists by time and by host;
      [CallbackFiles] the lists by file and the hash table; [CallbackOps] the
      promises as a map that the tables keep, taking them back; [CallbackAdd]
      adding one; [CallbackBreak] breaking those of a file; [CallbackServe]
      expiry, making space, the theorems and a small server; [CallbackDelay]
      promises whose breaking was delayed; [CallbackLater] those of a volume that
      are put off, BreakVolumeCallBacksLater and the first half of
      BreakLaterCallBacks, and [CallbackVolume] the calls of its second half;
      [Coherence] the server with its clients as a transition system, in which
      CallPreamble of viced/afsfileprocs.c comes before each request.
    - [LHash] util/afs_lhash.c, a table that grows one chain at a time;
      [LHashSpec] the bag it represents.
    - [BnodeParse] bnode_ParseLine of bozo/bnode.c; [Bnode] bozo/bnode.c, the
      types of fsbnodeops.c and ezbnodeops.c, and calls of bosoprocs.c;
      [BnodeSpec] the protocol for the processes as a property of the log, and
      the invariant; [BnodeExec] to [BnodeRun] the handlers of the types,
      [BnodeCollect] exits, [BnodeCalls] timeouts and status calls, [BnodeWait]
      calls that wait, calls on all bnodes and new ones; [BnodeSafe] the bosserver
      and its system as a transition system; [BnodeProps] the theorems, and runs.

    ** How the code is modelled

    C functions are Rocq functions of the state they use. A struct is a record,
    or the words of its image where the code moves it as a whole ([prentry]); an
    error is a value, or the code that the function returns; what has no defined
    outcome (a failed assertion, a panic, an access outside an object, a loop
    without end) is [None] or [Fault]. Integers are [Z] with the wrap-around of
    their width written out. The two byte orders of hosts are a boolean
    parameter [little] where ntohl and htonl matter. The calls from the
    database servers to Ubik draw their codes from a list, so that the error
    paths are those of the code; the theorems about what operations achieve are
    for the list of successes, the one about a failed write is not.
    The codes of the calls that the file server makes to its clients are drawn
    from a list too, and the calls made are recorded; a theorem about them is for
    every list.
    Fuel: the recursions that follow chains take one more than the number of
    blocks (or blobs, or pages, or entries there is room for) there are, which
    well-formed chains cannot exceed; DirSalvage takes its fuel as a parameter,
    since it does not end on every input; chaining of cipher blocks takes the
    length of the text. Each theorem states that the operation ends with a
    result, or that it does not.

    ** What the theorems show

    - Election: at most one server takes itself for the sync site at any time,
      whatever messages are lost or delayed, with clocks at most MAXSKEW apart;
      the yes votes that one server gives to different sites are apart in time.
    - Log and transactions: on big-endian hosts, a committed transaction is
      restored by the replay, and an uncommitted one is dropped unless the log is
      cut inside its commit record; after a crash in a commit of writes the replay
      gives the state of the commit; an aborted one leaves the disk as it was;
      reads see the transaction's own writes; and the ways a torn or foreign log
      breaks these, and the byte order of other hosts.
    - Locks: with at most 255 threads, exclusion, no lost wake-up while no thread
      wakes unsignalled, exact counts, and the lock that a spurious wake-up leaves
      held for ever.
    - Directories: Create, Delete, Lookup, ChangeFid, MakeDir, EnumerateDir,
      IsEmpty and Length are the operations on a finite map of names; the blobs
      of the entries, the free map and the hash chains stay consistent. DirOK
      accepts what the operations make; what DirSalvage makes of any bytes is
      accepted by DirOK, and from a good directory it has the same map.
    - Access lists: reading what was written gives it back, the rights decided
      are the positive less the negative ones, and the inputs for which the
      reader writes outside its storage.
    - Protection database: the two hash tables are two finite maps under any
      sequence of operations; blocks that are handed out are new and none
      is lost; identifiers that are handed out are unused; lists of members are
      sets; creating a user extends both maps by one entry; a failed write that
      goes unnoticed; the sign of foreign identifiers.
    - Rxkad: deciphering undoes enciphering, in segments too; a packet prepared
      at one end passes the checks at the other, with its length and its bytes.
    - Volume locations: every block of the file is an entry that is in the
      chains of its identifiers and of its name, or free, or an extension block,
      and each operation keeps it so; creating an entry, getting it back, deleting
      it, listing all entries, locks on entries, numbers for new volumes, servers
      that are removed; the header made and read again; and what the operations
      do to a database of the old layout.
    - Callbacks: the tables always keep a map of promises, each on the lists of
      its file, host and time, with all other entries free. Adding, taking back,
      expiring and breaking are operations on that map. After BreakCallBack every
      host knows, or is down with its promise delayed; a client's promise ends
      before the server's; and the wait for an entry, which takes from no other
      host and ends only when a promise has expired.
    - Cache consistency: a world is the server, the versions of the files, and
      what each client has until when; a step is an operation of the server that
      a client, the clock, the network, the volume package or the fsync thread
      leads to, with any outcome of the calls to clients, a failed call leaving
      the client as it was. The promises of a volume that changes are put off, and
      their hosts marked, until the fsync thread breaks them. The invariant says
      that what a client may rely on is backed by a promise for the file or, when
      that was broken or put off, by a delayed one for the file or its volume, or
      that the client will have to forget all; so that a host that is up, and not
      marked while there is still something put off, relies on nothing that has
      changed, and neither does one whose call goes through. It holds of runs in
      which a promise is made while there is room; a run shows why that is needed.
      Room is counted in callback entries and in the file entries that have none,
      since the fsync thread may leave such entries behind.
    - Linear hash tables: entering, removing and searching are those of a bag of
      records, and the split of chains keeps every record where it is looked for.
    - Bosserver: the log of processes started, signalled and collected is judged
      by a view of it alone: who is live, which signals were sent, which
      instances are not known to be clean. In every reachable state, over
      crashes of the machine too, the log keeps to the salvage protocol, and no
      action touches a bnode that is gone (references and deletion, with calls
      that wait). A shutdown asks all, kills the late, and comes to its end;
      restarts of a simple bnode are bounded. It is assumed that SALVAGE files
      can be made, that a name keeps its type, and that at most 14000 calls wait,
      as references are counted in 16 bits; runs show what happens without the
      first, when the call that restarts all meets a deletion, and that the last
      process of a bnode in the error state runs on.

    ** Not modelled, and why

    RPC stubs and the network (rx, the kernel client, the servers' mains) are
    input and output; the server processes around the databases modelled here
    would need models of each other's RPCs. In Ubik: the recovery of a remote
    copy and the remote half of write calls, udisk_Debug and statistics, and the
    real files (each call on a file is a pure function of its bytes). In
    ptserver: supergroups (an optional build), the RPC procedures of ptprocs.c
    and the loading of the database at start-up. In vlserver: the procedures for
    clients of older versions and with uuids, updates of an entry, lists by
    attributes, registering the addresses of a server, authorisation and
    statistics. In rxkad: tickets, challenges and responses. In viced: hosts,
    clients and the RPCs, the saved state, and what happens to the tables while
    a call is out, when the locks are released; BreakVolumeCallBacks is a
    definition that no theorem is about, since nothing in the file server calls
    it (V_BreakVolumeCallbacks is BreakVolumeCallBacksLater). In bozo: cron bnodes,
    notifiers, the configuration file, authorization and the calls on files and
    keys; the calls that restart all bnodes or wait for all of them are no
    actions of the transition system. Windows code, administration commands and
    tests are left out. The manifest lists every part. *)
From stdpp Require Export base numbers list gmap.
From Stdlib Require Export ZArith Lia.
#[global] Open Scope Z_scope.

(** ** Machine integers

    C integers are [Z] values; the wrap-around of each width is explicit.
    [int], [afs_int32] and [long] casts to 32 bits are [s32]; [afs_uint32]
    is [u32]; [unsigned short] is [u16]; plain [char] is signed ([s8]). *)
Definition u8 (z : Z) : Z := z mod 256.
Definition u16 (z : Z) : Z := z mod 65536.
Definition u32 (z : Z) : Z := z mod 4294967296.
Definition s8 (z : Z) : Z := (z + 128) mod 256 - 128.
Definition s32 (z : Z) : Z := (z + 2147483648) mod 4294967296 - 2147483648.

Definition INT_MAX : Z := 2147483647.
Definition INT_MIN : Z := -2147483648.

(** [ntohl]/[htonl] on a little-endian host: the four bytes reversed. *)
Definition bswap32 (z : Z) : Z :=
  (z mod 256) * 16777216 + ((z / 256) mod 256) * 65536
  + ((z / 65536) mod 256) * 256 + (z / 16777216) mod 256.

(** ** Generic tactics *)

(** Case analysis on the boolean tests of a goal, turning each test into
    the proposition it decides. *)
Ltac bool_hyps :=
  repeat match goal with
  | H : (_ && _)%bool = true |- _ => apply andb_prop in H as [? ?]
  | H : (_ || _)%bool = false |- _ => apply orb_false_iff in H as [? ?]
  | H : negb _ = true |- _ => apply negb_true_iff in H
  | H : negb _ = false |- _ => apply negb_false_iff in H
  | H : (_ =? _) = true |- _ => apply Z.eqb_eq in H
  | H : (_ =? _) = false |- _ => apply Z.eqb_neq in H
  | H : (_ <? _) = true |- _ => apply Z.ltb_lt in H
  | H : (_ <? _) = false |- _ => apply Z.ltb_ge in H
  | H : (_ <=? _) = true |- _ => apply Z.leb_le in H
  | H : (_ <=? _) = false |- _ => apply Z.leb_gt in H
  end.

Ltac case_test :=
  match goal with
  | |- context [if ?b then _ else _] =>
      lazymatch type of b with
      | bool => let E := fresh "Etest" in destruct b eqn:E; bool_hyps
      | _ => let E := fresh "Etest" in destruct b as [E | E]
      end
  end.

Ltac case_tests := repeat case_test.

(** Same on a hypothesis. *)
Ltac case_test_in H :=
  match type of H with
  | context [if ?b then _ else _] =>
      lazymatch type of b with
      | bool => let E := fresh "Etest" in destruct b eqn:E; bool_hyps
      | _ => let E := fresh "Etest" in destruct b as [E | E]
      end
  end.

(** Destruct the innermost [match] scrutinee of a hypothesis or goal. *)
Ltac case_match_in H :=
  match type of H with
  | context [match ?x with _ => _ end] =>
      lazymatch x with
      | context [match _ with _ => _ end] => fail
      | _ => let E := fresh "Ematch" in destruct x eqn:E
      end
  end.

Ltac zdiv := Z.div_mod_to_equations; lia.

(** ** Width lemmas *)
Create HintDb width.
Create Rewrite HintDb width.

Lemma u8_small z : 0 <= z < 256 -> u8 z = z.
Proof. apply Z.mod_small. Qed.
Lemma u16_small z : 0 <= z < 65536 -> u16 z = z.
Proof. apply Z.mod_small. Qed.
Lemma u32_small z : 0 <= z < 4294967296 -> u32 z = z.
Proof. apply Z.mod_small. Qed.
Lemma s32_small z : INT_MIN <= z <= INT_MAX -> s32 z = z.
Proof. unfold s32, INT_MIN, INT_MAX. intros. rewrite Z.mod_small; lia. Qed.
Lemma u8_range z : 0 <= u8 z < 256.
Proof. apply Z.mod_pos_bound. lia. Qed.
Lemma u16_range z : 0 <= u16 z < 65536.
Proof. apply Z.mod_pos_bound. lia. Qed.
Lemma u32_range z : 0 <= u32 z < 4294967296.
Proof. apply Z.mod_pos_bound. lia. Qed.
Lemma s32_range z : INT_MIN <= s32 z <= INT_MAX.
Proof.
  unfold s32, INT_MIN, INT_MAX.
  pose proof (Z.mod_pos_bound (z + 2147483648) 4294967296). lia.
Qed.
Lemma s32_u32 z : s32 (u32 z) = s32 z.
Proof. unfold s32, u32. f_equal. rewrite Zplus_mod_idemp_l. done. Qed.
Lemma u32_s32 z : u32 (s32 z) = u32 z.
Proof. unfold s32, u32. zdiv. Qed.

#[export] Hint Resolve u8_range u16_range u32_range s32_range : width.
#[export] Hint Rewrite u8_small u16_small u32_small s32_small using (unfold INT_MIN, INT_MAX in *; lia) : width.

Lemma bswap32_range z : 0 <= bswap32 z < 4294967296.
Proof. unfold bswap32. zdiv. Qed.

Lemma bswap32_involutive z : 0 <= z < 4294967296 -> bswap32 (bswap32 z) = z.
Proof.
  intros Hz. unfold bswap32.
  set (b0 := z mod 256). set (b1 := (z / 256) mod 256).
  set (b2 := (z / 65536) mod 256). set (b3 := (z / 16777216) mod 256).
  assert (Hz' : z = b0 + 256 * b1 + 65536 * b2 + 16777216 * b3)
    by (subst b0 b1 b2 b3; zdiv).
  assert (H0 : 0 <= b0 < 256) by (subst b0; apply Z.mod_pos_bound; lia).
  assert (H1 : 0 <= b1 < 256) by (subst b1; apply Z.mod_pos_bound; lia).
  assert (H2 : 0 <= b2 < 256) by (subst b2; apply Z.mod_pos_bound; lia).
  assert (H3 : 0 <= b3 < 256) by (subst b3; apply Z.mod_pos_bound; lia).
  clearbody b0 b1 b2 b3. rewrite Hz'. clear Hz' Hz z.
  zdiv.
Qed.

Lemma bswap32_inj a b :
  0 <= a < 4294967296 -> 0 <= b < 4294967296 -> bswap32 a = bswap32 b -> a = b.
Proof.
  intros Ha Hb E. rewrite <- (bswap32_involutive a), <- (bswap32_involutive b) by done.
  by rewrite E.
Qed.

#[export] Hint Resolve bswap32_range : width.

(** ** Words in memory

    A memory is read and written by bytes ([Z] in 0..255). [be_bytes] is the
    network order image of a 32-bit word, [be_val] its value. *)
Definition be_bytes (v : Z) : list Z :=
  [(v / 16777216) mod 256; (v / 65536) mod 256; (v / 256) mod 256; v mod 256].

Arguments be_bytes : simpl never.

Fixpoint be_val_from (acc : Z) (l : list Z) : Z :=
  match l with
  | [] => acc
  | b :: l' => be_val_from (acc * 256 + b) l'
  end.
Definition be_val (l : list Z) : Z := be_val_from 0 l.

(** The byte order of the host: [true] is little-endian. An [int] is the
    bytes of its memory image in that order. *)
Definition host_int (little : bool) (l : list Z) : Z :=
  s32 (be_val (if little then rev l else l)).
Definition host_mem (little : bool) (v : Z) : list Z :=
  if little then rev (be_bytes v) else be_bytes v.
Definition htonl (little : bool) (v : Z) : Z :=
  if little then s32 (bswap32 v) else v.
Notation ntohl := htonl.

(** The base-256 digits of a word: their values and their uniqueness. *)
Lemma byte_digits v : exists q,
  v = q * 4294967296 + (v / 16777216) mod 256 * 16777216 + (v / 65536) mod 256 * 65536
      + (v / 256) mod 256 * 256 + v mod 256.
Proof.
  exists (v / 256 / 256 / 256 / 256).
  replace (v / 65536) with (v / 256 / 256) by (by rewrite Z.div_div by lia).
  replace (v / 16777216) with (v / 256 / 256 / 256) by (by rewrite !Z.div_div by lia).
  pose proof (Z.div_mod v 256). pose proof (Z.div_mod (v / 256) 256).
  pose proof (Z.div_mod (v / 256 / 256) 256). pose proof (Z.div_mod (v / 256 / 256 / 256) 256).
  lia.
Qed.

Lemma byte_digits_unique q c3 c2 c1 c0 v :
  0 <= c3 < 256 -> 0 <= c2 < 256 -> 0 <= c1 < 256 -> 0 <= c0 < 256 ->
  v = q * 4294967296 + c3 * 16777216 + c2 * 65536 + c1 * 256 + c0 ->
  (v / 16777216) mod 256 = c3 /\ (v / 65536) mod 256 = c2 /\ (v / 256) mod 256 = c1
  /\ v mod 256 = c0.
Proof.
  intros H3 H2 H1 H0 Hv.
  assert (E1 : v / 256 = q * 16777216 + c3 * 65536 + c2 * 256 + c1)
    by (symmetry; apply (Z.div_unique v 256 _ c0); lia).
  assert (E2 : v / 65536 = q * 65536 + c3 * 256 + c2)
    by (symmetry; apply (Z.div_unique v 65536 _ (c1 * 256 + c0)); lia).
  assert (E3 : v / 16777216 = q * 256 + c3)
    by (symmetry; apply (Z.div_unique v 16777216 _ (c2 * 65536 + c1 * 256 + c0)); lia).
  rewrite E1, E2, E3. repeat split; symmetry.
  - apply (Z.mod_unique _ 256 q); lia.
  - apply (Z.mod_unique _ 256 (q * 256 + c3)); lia.
  - apply (Z.mod_unique _ 256 (q * 65536 + c3 * 256 + c2)); lia.
  - apply (Z.mod_unique _ 256 (q * 16777216 + c3 * 65536 + c2 * 256 + c1)); lia.
Qed.

Lemma byte_range z : 0 <= z mod 256 < 256.
Proof. apply Z.mod_pos_bound. lia. Qed.
#[export] Hint Resolve byte_range : width.

Lemma be_val_bytes v : be_val (be_bytes v) = u32 v.
Proof.
  destruct (byte_digits v) as [q Hq]. unfold be_val, be_bytes, u32. cbn [be_val_from].
  pose proof (byte_range (v / 16777216)). pose proof (byte_range (v / 65536)).
  pose proof (byte_range (v / 256)). pose proof (byte_range v).
  apply (Z.mod_unique v 4294967296 q); lia.
Qed.

(** Words with the same digits have the same image. *)
Lemma be_bytes_eq v w q :
  w = v + q * 4294967296 -> be_bytes w = be_bytes v.
Proof.
  intros Hw. destruct (byte_digits v) as [q' Hq]. unfold be_bytes.
  destruct (byte_digits_unique (q' + q) ((v / 16777216) mod 256) ((v / 65536) mod 256)
              ((v / 256) mod 256) (v mod 256) w) as (-> & -> & -> & ->);
    auto with width. lia.
Qed.

Lemma be_bytes_u32 v : be_bytes (u32 v) = be_bytes v.
Proof.
  apply (be_bytes_eq _ _ (- (v / 4294967296))). unfold u32.
  pose proof (Z.div_mod v 4294967296). lia.
Qed.

Lemma be_bytes_s32 v : be_bytes (s32 v) = be_bytes v.
Proof. rewrite <- (be_bytes_u32 (s32 v)), u32_s32. apply be_bytes_u32. Qed.

Lemma be_bytes_bswap v : rev (be_bytes (bswap32 v)) = be_bytes v.
Proof.
  unfold be_bytes.
  destruct (byte_digits_unique 0 (v mod 256) ((v / 256) mod 256) ((v / 65536) mod 256)
              ((v / 16777216) mod 256) (bswap32 v)) as (-> & -> & -> & ->);
    auto with width.
Qed.

(** Whatever the host, [htonl] stores a word in network order. *)
Lemma host_mem_htonl little v : host_mem little (htonl little v) = be_bytes v.
Proof.
  destruct little; unfold host_mem, htonl; [| done].
  by rewrite be_bytes_s32, be_bytes_bswap.
Qed.

(** Reading such a word back: itself on a big-endian host, byte-swapped on a
    little-endian one. *)
Lemma host_int_be v : host_int false (be_bytes v) = s32 v.
Proof. unfold host_int. by rewrite be_val_bytes, s32_u32. Qed.

Lemma host_int_le v : host_int true (be_bytes v) = s32 (bswap32 v).
Proof.
  unfold host_int. f_equal. unfold be_bytes, be_val, bswap32. simpl. lia.
Qed.

Lemma length_be_bytes v : length (be_bytes v) = 4%nat.
Proof. done. Qed.
