(* ===== verification/Bytes.v ===== *)
(** Memory by bytes: a file or a buffer as a map from offsets to bytes, with
    what was never written reading as 0. Reading and writing of runs of bytes
    and of words in network order. *)
From S2P Require Import Prelude.

Definition byte (m : gmap Z Z) (a : Z) : Z := default 0 (m !! a).
Definition bytes (m : gmap Z Z) (a : Z) (n : nat) : list Z :=
  map (fun i => byte m (a + Z.of_nat i)) (seq 0 n).
Fixpoint put (m : gmap Z Z) (a : Z) (l : list Z) : gmap Z Z :=
  match l with
  | [] => m
  | v :: l' => put (<[a := u8 v]> m) (a + 1) l'
  end.

Lemma byte_put l : forall m a x,
  byte (put m a l) x
  = if decide (a <= x < a + Z.of_nat (length l)) then u8 (nth (Z.to_nat (x - a)) l 0) else byte m x.
Proof.
  unfold byte. induction l as [| v l IH]; intros m a x; cbn [put length].
  { by rewrite decide_False by lia. }
  rewrite IH. destruct (decide (a + 1 <= x < a + 1 + Z.of_nat (length l))) as [H | H].
  - rewrite decide_True by lia. f_equal.
    replace (Z.to_nat (x - a)) with (S (Z.to_nat (x - (a + 1)))) by lia. done.
  - destruct (decide (x = a)) as [-> | Hne].
    + rewrite lookup_insert_eq, decide_True by lia. by rewrite Z.sub_diag.
    + rewrite lookup_insert_ne by done. by rewrite decide_False by lia.
Qed.

Lemma byte_put_ne m a l x : x < a \/ a + Z.of_nat (length l) <= x -> byte (put m a l) x = byte m x.
Proof. intros H. rewrite byte_put. by rewrite decide_False by lia. Qed.

Lemma bytes_length m a n : length (bytes m a n) = n.
Proof. unfold bytes. by rewrite length_map, length_seq. Qed.

(** What is read depends on the bytes read only. *)
Lemma bytes_ext m m' a n :
  (forall x, a <= x < a + Z.of_nat n -> byte m' x = byte m x) -> bytes m' a n = bytes m a n.
Proof. intros H. unfold bytes. apply map_ext_in. intros i Hi. apply in_seq in Hi. apply H. lia. Qed.

Lemma bytes_put m a l : Forall (fun v => 0 <= v < 256) l -> bytes (put m a l) a (length l) = l.
Proof.
  intros Hl. apply list_eq. intros i. destruct (decide (i < length l)%nat) as [Hi | Hi].
  - unfold bytes. rewrite list_lookup_fmap, lookup_seq_lt by done. simpl.
    rewrite byte_put, decide_True by lia.
    replace (Z.to_nat (a + Z.of_nat i - a)) with i by lia.
    destruct (lookup_lt_is_Some_2 l i Hi) as [v Hv]. rewrite (nth_lookup_Some _ _ _ _ Hv), Hv.
    rewrite u8_small; [done |]. rewrite Forall_forall in Hl. apply Hl. by eapply list_elem_of_lookup_2.
  - rewrite !lookup_ge_None_2; [done | lia | rewrite bytes_length; lia].
Qed.

Lemma bytes_S m a n : bytes m a (S n) = byte m a :: bytes m (a + 1) n.
Proof.
  unfold bytes. cbn [seq map]. f_equal; [f_equal; lia |].
  rewrite <- seq_shift, map_map. apply map_ext. intros i. f_equal. lia.
Qed.

Lemma bytes_plus m a n k : bytes m a (n + k) = bytes m a n ++ bytes m (a + Z.of_nat n) k.
Proof.
  revert a. induction n as [| n IH]; intros a; cbn [Nat.add].
  - cbn. f_equal. lia.
  - rewrite !bytes_S, IH. cbn [app]. do 3 f_equal. lia.
Qed.

Lemma put_u8 l : forall a m, put m a (map u8 l) = put m a l.
Proof.
  induction l as [| v l IH]; intros a m; [done |].
  cbn [map put]. rewrite IH. do 2 f_equal. unfold u8. by rewrite Zmod_mod.
Qed.

(** A signed word in network order. *)
Definition get32 (m : gmap Z Z) (a : Z) : Z := s32 (be_val (bytes m a 4)).

Lemma get32_ext m m' a : (forall x, a <= x < a + 4 -> byte m' x = byte m x) -> get32 m' a = get32 m a.
Proof. intros H. unfold get32. by rewrite (bytes_ext m m' a 4). Qed.

Lemma be_bytes_range v : Forall (fun b => 0 <= b < 256) (be_bytes v).
Proof. unfold be_bytes. repeat constructor; apply byte_range. Qed.

Lemma get32_put m a v : get32 (put m a (be_bytes v)) a = s32 v.
Proof.
  unfold get32. change 4%nat with (length (be_bytes v)). rewrite bytes_put by apply be_bytes_range.
  by rewrite be_val_bytes, s32_u32.
Qed.
