(* ===== verification/LwpLock.v ===== *)
(** The read/write/shared locks of src/lwp/lock.h and src/lwp/lock.c: the lock
    word and the obtain and release routines, then threads that use one lock,
    with sleeping and wake-ups as explicit steps. *)
From S2P Require Import Prelude.

Definition READ_LOCK : Z := 1.
Definition WRITE_LOCK : Z := 2.
Definition SHARED_LOCK : Z := 4.
Definition EXCL_LOCKS : Z := Z.lor WRITE_LOCK SHARED_LOCK.

(** Each field is an [unsigned char]. *)
Record lock := Lock {
  wait_states : Z;
  excl_locked : Z;
  readers_reading : Z;
  num_waiting : Z
}.

Definition Lock_Init : lock := Lock 0 0 0 0.

(** The kinds of lock; [MBoosted] is the parameter [BOOSTED_LOCK] of
    [Afs_Lock_Obtain]: a shared lock on its way to a write lock. *)
Inductive mode := MRead | MWrite | MShared | MBoosted.

#[export] Instance mode_eq_dec : EqDecision mode.
Proof. solve_decision. Defined.

(** C's tests of flag words. *)
Definition has (w bit : Z) : bool := negb (Z.land w bit =? 0).

Definition wait_bit (m : mode) : Z :=
  match m with MRead => READ_LOCK | MWrite | MBoosted => WRITE_LOCK | MShared => SHARED_LOCK end.

(** The test the obtain macros make first. *)
Definition fast (m : mode) (l : lock) : bool :=
  match m with
  | MRead => negb (has (excl_locked l) WRITE_LOCK) && (wait_states l =? 0)
  | MWrite => (excl_locked l =? 0) && (readers_reading l =? 0)
  | MShared => (excl_locked l =? 0) && (wait_states l =? 0)
  | MBoosted => readers_reading l =? 0
  end.

(** The test [Afs_Lock_Obtain] makes after each sleep. *)
Definition retest (m : mode) (l : lock) : bool :=
  match m with
  | MRead => negb (has (excl_locked l) WRITE_LOCK)
  | MWrite => (excl_locked l =? 0) && (readers_reading l =? 0)
  | MShared => excl_locked l =? 0
  | MBoosted => readers_reading l =? 0
  end.

Definition grant (m : mode) (l : lock) : lock :=
  match m with
  | MRead => Lock (wait_states l) (excl_locked l) (u8 (readers_reading l + 1)) (num_waiting l)
  | MWrite | MBoosted => Lock (wait_states l) WRITE_LOCK (readers_reading l) (num_waiting l)
  | MShared => Lock (wait_states l) SHARED_LOCK (readers_reading l) (num_waiting l)
  end.

Definition set_wait (m : mode) (l : lock) : lock :=
  Lock (Z.lor (wait_states l) (wait_bit m)) (excl_locked l) (readers_reading l) (num_waiting l).
Definition add_waiting (d : Z) (l : lock) : lock :=
  Lock (wait_states l) (excl_locked l) (readers_reading l) (u8 (num_waiting l + d)).

(** [ObtainReadLock], [ObtainWriteLock], [ObtainSharedLock] and
    [BoostSharedLock]: the lock is taken, or [Afs_Lock_Obtain] goes to sleep. *)
Definition Obtain (m : mode) (l : lock) : lock * bool :=
  if fast m l then (grant m l, true) else (set_wait m (add_waiting 1 l), false).

(** The [NoBlock] macros: code 0, or -1 and nothing changes. *)
Definition ObtainNoBlock (m : mode) (l : lock) : lock * Z :=
  if fast m l then (grant m l, 0) else (l, -1).

(** [Afs_Lock_Obtain] after a sleep: the lock, or another sleep. *)
Definition Afs_Lock_Obtain_wake (m : mode) (l : lock) : lock * bool :=
  if retest m l then (grant m (add_waiting (-1) l), true) else (set_wait m l, false).

(** The event a release signals. *)
Inductive signal := NoSig | SigReaders | SigExcl.

Definition clear_wait (bits : Z) (l : lock) : lock :=
  Lock (Z.ldiff (wait_states l) bits) (excl_locked l) (readers_reading l) (num_waiting l).

Definition Afs_Lock_WakeupR (l : lock) : lock * signal :=
  if has (wait_states l) READ_LOCK then (clear_wait READ_LOCK l, SigReaders) else (l, NoSig).
Definition Afs_Lock_ReleaseR (l : lock) : lock * signal :=
  if has (wait_states l) READ_LOCK then (clear_wait READ_LOCK l, SigReaders)
  else (clear_wait EXCL_LOCKS l, SigExcl).
Definition Afs_Lock_ReleaseW (l : lock) : lock * signal :=
  if has (wait_states l) EXCL_LOCKS then (clear_wait EXCL_LOCKS l, SigExcl)
  else (clear_wait READ_LOCK l, SigReaders).

Definition set_readers (n : Z) (l : lock) : lock :=
  Lock (wait_states l) (excl_locked l) n (num_waiting l).
Definition set_excl (x : Z) (l : lock) : lock :=
  Lock (wait_states l) x (readers_reading l) (num_waiting l).

Definition ReleaseReadLock (l : lock) : lock * signal :=
  let l' := set_readers (u8 (readers_reading l - 1)) l in
  if (readers_reading l' =? 0) && negb (wait_states l' =? 0)
  then Afs_Lock_ReleaseW l' else (l', NoSig).

Definition ReleaseWriteLock (l : lock) : lock * signal :=
  let l' := set_excl (Z.ldiff (excl_locked l) WRITE_LOCK) l in
  if negb (wait_states l' =? 0) then Afs_Lock_ReleaseR l' else (l', NoSig).

Definition ReleaseSharedLock (l : lock) : lock * signal :=
  let l' := set_excl (Z.ldiff (excl_locked l) (Z.lor SHARED_LOCK WRITE_LOCK)) l in
  if negb (wait_states l' =? 0) then Afs_Lock_ReleaseR l' else (l', NoSig).

Definition UnboostSharedLock (l : lock) : lock * signal :=
  let l' := set_excl SHARED_LOCK l in
  if negb (wait_states l' =? 0) then Afs_Lock_ReleaseR l' else (l', NoSig).

Definition ConvertWriteToReadLock (l : lock) : lock * signal :=
  let l' := set_readers (u8 (readers_reading l + 1))
              (set_excl (Z.ldiff (excl_locked l) WRITE_LOCK) l) in
  if has (wait_states l') READ_LOCK then Afs_Lock_WakeupR l' else (l', NoSig).

Definition LockWaiters (l : lock) : Z := num_waiting l.
Definition CheckLock (l : lock) : Z :=
  if negb (excl_locked l =? 0) then -1 else readers_reading l.
Definition WriteLocked (l : lock) : Z := Z.land (excl_locked l) WRITE_LOCK.

(** ** Threads

    A thread sleeps in [LWP_WaitProcess] (or [pthread_cond_wait]) until the
    event it waits for is signalled, and is then [Woken] until it runs again.
    A thread that boosts keeps its shared lock while it waits. *)
Inductive tstatus := Idle | Held (m : mode) | Asleep (m : mode) | Woken (m : mode).

#[export] Instance tstatus_eq_dec : EqDecision tstatus.
Proof. solve_decision. Defined.

Definition wake (g : signal) (s : tstatus) : tstatus :=
  match g, s with
  | SigReaders, Asleep MRead => Woken MRead
  | SigExcl, Asleep MWrite => Woken MWrite
  | SigExcl, Asleep MShared => Woken MShared
  | SigExcl, Asleep MBoosted => Woken MBoosted
  | _, _ => s
  end.

Definition held_mode (m : mode) : mode := match m with MBoosted => MWrite | _ => m end.

Record world := World { lk : lock; threads : list tstatus }.

Inductive event :=
| EObtain (t : nat) (m : mode)       (* the obtain macros, [BoostSharedLock] *)
| ETry (t : nat) (m : mode)          (* the NoBlock macros *)
| EWake (t : nat)                    (* a woken thread runs *)
| ERelease (t : nat)                 (* the release macro of the lock held *)
| EUnboost (t : nat)
| EConvert (t : nat)
| ESpurious (t : nat).               (* a sleeping thread wakes unsignalled *)

Definition settle (m : mode) (ok : bool) : tstatus :=
  if ok then Held (held_mode m) else Asleep m.

Definition signalled (w : world) (t : nat) (s : tstatus) (out : lock * signal) : world :=
  World out.1 (map (wake out.2) (<[t := s]> (threads w))).

Definition may_obtain (m : mode) (s : tstatus) : bool :=
  match m, s with
  | MBoosted, Held MShared => true
  | MBoosted, _ => false
  | _, Idle => true
  | _, _ => false
  end.

Definition exec (w : world) (ev : event) : option world :=
  let st t := default Idle (threads w !! t) in
  let known t := (t <? length (threads w))%nat in
  match ev with
  | EObtain t m =>
      if known t && may_obtain m (st t) then
        let '(l, ok) := Obtain m (lk w) in
        Some (World l (<[t := settle m ok]> (threads w)))
      else None
  | ETry t m =>
      if known t && may_obtain m (st t) && negb (bool_decide (m = MBoosted)) then
        let '(l, code) := ObtainNoBlock m (lk w) in
        Some (World l (if code =? 0 then <[t := Held m]> (threads w) else threads w))
      else None
  | EWake t =>
      match st t with
      | Woken m =>
          let '(l, ok) := Afs_Lock_Obtain_wake m (lk w) in
          Some (World l (<[t := settle m ok]> (threads w)))
      | _ => None
      end
  | ERelease t =>
      match st t with
      | Held MRead => Some (signalled w t Idle (ReleaseReadLock (lk w)))
      | Held MWrite => Some (signalled w t Idle (ReleaseWriteLock (lk w)))
      | Held MShared => Some (signalled w t Idle (ReleaseSharedLock (lk w)))
      | _ => None
      end
  | EUnboost t =>
      match st t with
      | Held MWrite => Some (signalled w t (Held MShared) (UnboostSharedLock (lk w)))
      | _ => None
      end
  | EConvert t =>
      match st t with
      | Held MWrite => Some (signalled w t (Held MRead) (ConvertWriteToReadLock (lk w)))
      | _ => None
      end
  | ESpurious t =>
      match st t with
      | Asleep m => Some (World (lk w) (<[t := Woken m]> (threads w)))
      | _ => None
      end
  end.

Definition is_spurious (ev : event) : bool :=
  match ev with ESpurious _ => true | _ => false end.

(** The runs of [n] threads; [spurious] allows wake-ups nobody signalled. *)
Inductive reachable (spurious : bool) (n : nat) : world -> Prop :=
| reach_init : reachable spurious n (World Lock_Init (replicate n Idle))
| reach_exec w ev w' :
    reachable spurious n w -> (is_spurious ev = true -> spurious = true) ->
    exec w ev = Some w' -> reachable spurious n w'.

Fixpoint run (w : world) (evs : list event) : option world :=
  match evs with
  | [] => Some w
  | ev :: evs' => match exec w ev with Some w' => run w' evs' | None => None end
  end.

(** ** Counting threads *)

Definition cnt (s : tstatus) (T : list tstatus) : Z :=
  Z.of_nat (length (filter (fun x => x = s) T)).

Definition b2z (P : Prop) `{Decision P} : Z := if decide P then 1 else 0.

Lemma cnt_cons s x T : cnt s (x :: T) = b2z (x = s) + cnt s T.
Proof. unfold cnt, b2z. rewrite filter_cons. case_decide; simpl; lia. Qed.

Lemma cnt_nonneg s T : 0 <= cnt s T.
Proof. unfold cnt. lia. Qed.

Lemma cnt_insert s T t old new :
  T !! t = Some old -> cnt s (<[t := new]> T) = cnt s T - b2z (old = s) + b2z (new = s).
Proof.
  revert t. induction T as [| x T IH]; intros t H; [done |].
  destruct t as [| t].
  - injection H as ->. change (<[0%nat:=new]> (old :: T)) with (new :: T). rewrite !cnt_cons. lia.
  - change (<[S t:=new]> (x :: T)) with (x :: <[t:=new]> T). rewrite !cnt_cons, (IH t H). lia.
Qed.

Lemma cnt_lookup s T t : T !! t = Some s -> 1 <= cnt s T.
Proof.
  revert t. induction T as [| x T IH]; intros t H; [done |].
  rewrite cnt_cons. pose proof (cnt_nonneg s T). destruct t as [| t].
  - injection H as ->. unfold b2z. rewrite decide_True by done. lia.
  - apply IH in H. unfold b2z. case_decide; lia.
Qed.

Lemma cnt_exists s T : 1 <= cnt s T -> exists t, T !! t = Some s.
Proof.
  induction T as [| x T IH]; [by unfold cnt |]. rewrite cnt_cons. unfold b2z.
  case_decide as H; [exists 0%nat; by subst |]. intros Hc. destruct IH as [t Ht]; [lia |].
  by exists (S t).
Qed.

Lemma cnt_two s T i j : T !! i = Some s -> T !! j = Some s -> i <> j -> 2 <= cnt s T.
Proof.
  intros Hi Hj Hne.
  assert (Hj' : <[i := Idle]> (<[i := s]> T) !! j = Some s) by by rewrite !list_lookup_insert_ne.
  destruct (decide (s = Idle)) as [-> | Hs].
  - set (X := Held MRead). pose proof (cnt_insert Idle T i Idle X Hi) as E.
    assert (Hx : <[i := X]> T !! j = Some Idle) by by rewrite list_lookup_insert_ne.
    apply cnt_lookup in Hx. unfold b2z in E. rewrite decide_True in E by done.
    rewrite decide_False in E by done. lia.
  - pose proof (cnt_insert s T i s Idle Hi) as E.
    assert (Hx : <[i := Idle]> T !! j = Some s) by by rewrite list_lookup_insert_ne.
    apply cnt_lookup in Hx. unfold b2z in E. rewrite decide_True in E by done.
    rewrite decide_False in E by congruence. lia.
Qed.

(** A signal moves sleepers to [Woken] and leaves the rest. *)
Lemma cnt_wake g s T :
  cnt s (map (wake g) T) =
    match g, s with
    | NoSig, _ => cnt s T
    | SigReaders, Asleep MRead => 0
    | SigReaders, Woken MRead => cnt s T + cnt (Asleep MRead) T
    | SigExcl, Asleep MRead | SigExcl, Woken MRead => cnt s T
    | SigExcl, Asleep _ => 0
    | SigExcl, Woken m => cnt s T + cnt (Asleep m) T
    | _, _ => cnt s T
    end.
Proof.
  induction T as [| x T IH]; [by destruct g, s as [| [] | [] | []] |].
  cbn [map]. rewrite !cnt_cons, IH. clear IH.
  destruct g; [by destruct x as [| [] | [] | []] | |];
    destruct s as [| [] | [] | []]; rewrite ?cnt_cons;
    destruct x as [| [] | [] | []]; cbn; unfold b2z; repeat case_decide; try congruence; lia.
Qed.

(** ** The invariant

    In terms of the numbers of threads in each state: holders [h], sleepers
    [a], woken threads [w], by mode (R, W, S, B). *)

(** The three waiting flags as a byte. *)
Definition wbits (r w s : bool) : Z := Z.b2z r + 2 * Z.b2z w + 4 * Z.b2z s.
Definition xbits (w s : bool) : Z := 2 * Z.b2z w + 4 * Z.b2z s.

Definition some (n : Z) : bool := 1 <=? n.

Record counts_ok (l : lock) (hR hW hS aR aW aS aB wR wW wS wB : Z) : Prop := {
  c_pos : 0 <= hR /\ 0 <= hW /\ 0 <= hS /\ 0 <= aR /\ 0 <= aW /\ 0 <= aS /\ 0 <= aB
          /\ 0 <= wR /\ 0 <= wW /\ 0 <= wS /\ 0 <= wB
          /\ hR + hW + hS + aR + aW + aS + aB + wR + wW + wS + wB <= 255;
  c_readers : readers_reading l = hR;
  c_excl : excl_locked l = xbits (some hW) (some (hS + aB + wB));
  c_owner : hW + hS + aB + wB <= 1;
  c_writer : 1 <= hW -> hR = 0;
  c_wait : wait_states l = wbits (some aR) (some (aW + aB)) (some aS);
  c_num : num_waiting l = aR + aW + aS + aB + wR + wW + wS + wB;
  c_boost : 1 <= aB -> 1 <= hR;
  c_awake : 1 <= aR + aW + aS + aB -> 1 <= hR + hW + hS + wR + wW + wS + wB
}.

Definition world_ok (w : world) : Prop :=
  let c s := cnt s (threads w) in
  c (Held MBoosted) = 0 /\ Z.of_nat (length (threads w)) <= 255 /\
  counts_ok (lk w) (c (Held MRead)) (c (Held MWrite)) (c (Held MShared))
    (c (Asleep MRead)) (c (Asleep MWrite)) (c (Asleep MShared)) (c (Asleep MBoosted))
    (c (Woken MRead)) (c (Woken MWrite)) (c (Woken MShared)) (c (Woken MBoosted)).

Ltac eval_b2z :=
  repeat match goal with
  | |- context [b2z ?P] => let v := eval vm_compute in (b2z P) in change (b2z P) with v
  | H : context [b2z ?P] |- _ => let v := eval vm_compute in (b2z P) in change (b2z P) with v in H
  end.

Lemma cnt_total T :
  cnt Idle T + cnt (Held MRead) T + cnt (Held MWrite) T + cnt (Held MShared) T
  + cnt (Held MBoosted) T
  + cnt (Asleep MRead) T + cnt (Asleep MWrite) T + cnt (Asleep MShared) T + cnt (Asleep MBoosted) T
  + cnt (Woken MRead) T + cnt (Woken MWrite) T + cnt (Woken MShared) T + cnt (Woken MBoosted) T
  = Z.of_nat (length T).
Proof.
  induction T as [| x T IH]; [done |]. rewrite !cnt_cons. simpl length.
  rewrite Nat2Z.inj_succ, <- IH. destruct x as [| [] | [] | []]; eval_b2z; lia.
Qed.

(** The flag operations on such bytes. *)
Lemma wbits_zero r w s : (wbits r w s =? 0) = negb (r || w || s).
Proof. by destruct r, w, s. Qed.
Lemma xbits_zero w s : (xbits w s =? 0) = negb (w || s).
Proof. by destruct w, s. Qed.
Lemma wbits_read r w s : has (wbits r w s) READ_LOCK = r.
Proof. by destruct r, w, s. Qed.
Lemma wbits_excl r w s : has (wbits r w s) EXCL_LOCKS = w || s.
Proof. by destruct r, w, s. Qed.
Lemma xbits_write w s : has (xbits w s) WRITE_LOCK = w.
Proof. by destruct w, s. Qed.
Lemma wbits_set m r w s :
  Z.lor (wbits r w s) (wait_bit m) =
    wbits (bool_decide (m = MRead) || r) (bool_decide (m = MWrite \/ m = MBoosted) || w)
      (bool_decide (m = MShared) || s).
Proof. by destruct m, r, w, s. Qed.
Lemma wbits_clear_read r w s : Z.ldiff (wbits r w s) READ_LOCK = wbits false w s.
Proof. by destruct r, w, s. Qed.
Lemma wbits_clear_excl r w s : Z.ldiff (wbits r w s) EXCL_LOCKS = wbits r false false.
Proof. by destruct r, w, s. Qed.
Lemma xbits_clear_write w s : Z.ldiff (xbits w s) WRITE_LOCK = xbits false s.
Proof. by destruct w, s. Qed.
Lemma xbits_clear_both w s : Z.ldiff (xbits w s) (Z.lor SHARED_LOCK WRITE_LOCK) = xbits false false.
Proof. by destruct w, s. Qed.

Create Rewrite HintDb flags.
#[export] Hint Rewrite wbits_zero xbits_zero wbits_read wbits_excl xbits_write wbits_set
  wbits_clear_read wbits_clear_excl xbits_clear_write xbits_clear_both : flags.

(** Close a goal about the counts: decide every flag. *)
Ltac flags_lia :=
  unfold some in *;
  repeat match goal with
  | H : context [1 <=? ?n] |- _ => destruct (Z.leb_spec 1 n)
  | |- context [1 <=? ?n] => destruct (Z.leb_spec 1 n)
  end; try lia; try reflexivity; try (cbn in *; congruence).

(** The same for the whole record, after an update of the lock word. *)
Ltac word_lia :=
  repeat match goal with
  | E : wait_states _ = _, E' : excl_locked _ = _, E'' : num_waiting _ = _ |- counts_ok _ _ _ _ _ _ _ _ _ _ _ _ =>
      split; unfold grant, set_wait; cbn [readers_reading excl_locked wait_states num_waiting];
      rewrite ?E, ?E', ?E''
  end;
  autorewrite with flags width; try lia;
  repeat (rewrite bool_decide_true by auto);
  repeat (rewrite bool_decide_false by naive_solver); flags_lia.

Lemma Obtain_ok m l l' ok hR hW hS aR aW aS aB wR wW wS wB :
  counts_ok l hR hW hS aR aW aS aB wR wW wS wB -> Obtain m l = (l', ok) ->
  match m with
  | MRead => hR + hW + hS + aR + aW + aS + aB + wR + wW + wS + wB < 255 ->
      if ok then counts_ok l' (hR + 1) hW hS aR aW aS aB wR wW wS wB
      else counts_ok l' hR hW hS (aR + 1) aW aS aB wR wW wS wB
  | MWrite => hR + hW + hS + aR + aW + aS + aB + wR + wW + wS + wB < 255 ->
      if ok then counts_ok l' hR (hW + 1) hS aR aW aS aB wR wW wS wB
      else counts_ok l' hR hW hS aR (aW + 1) aS aB wR wW wS wB
  | MShared => hR + hW + hS + aR + aW + aS + aB + wR + wW + wS + wB < 255 ->
      if ok then counts_ok l' hR hW (hS + 1) aR aW aS aB wR wW wS wB
      else counts_ok l' hR hW hS aR aW (aS + 1) aB wR wW wS wB
  | MBoosted => 1 <= hS ->
      if ok then counts_ok l' hR (hW + 1) (hS - 1) aR aW aS aB wR wW wS wB
      else counts_ok l' hR hW (hS - 1) aR aW aS (aB + 1) wR wW wS wB
  end.
Proof.
  intros H. pose proof H as [? Er Ex ? ? Ew En ? ?]. unfold Obtain, fast, add_waiting.
  rewrite ?Ew, ?Ex, ?Er.
  destruct m; autorewrite with flags; case_test; intros E; injection E as <- <-; intros Hroom;
    word_lia.
Qed.

Lemma Wake_ok m l l' ok hR hW hS aR aW aS aB wR wW wS wB :
  counts_ok l hR hW hS aR aW aS aB wR wW wS wB -> Afs_Lock_Obtain_wake m l = (l', ok) ->
  match m with
  | MRead => 1 <= wR ->
      if ok then counts_ok l' (hR + 1) hW hS aR aW aS aB (wR - 1) wW wS wB
      else counts_ok l' hR hW hS (aR + 1) aW aS aB (wR - 1) wW wS wB
  | MWrite => 1 <= wW ->
      if ok then counts_ok l' hR (hW + 1) hS aR aW aS aB wR (wW - 1) wS wB
      else counts_ok l' hR hW hS aR (aW + 1) aS aB wR (wW - 1) wS wB
  | MShared => 1 <= wS ->
      if ok then counts_ok l' hR hW (hS + 1) aR aW aS aB wR wW (wS - 1) wB
      else counts_ok l' hR hW hS aR aW (aS + 1) aB wR wW (wS - 1) wB
  | MBoosted => 1 <= wB ->
      if ok then counts_ok l' hR (hW + 1) hS aR aW aS aB wR wW wS (wB - 1)
      else counts_ok l' hR hW hS aR aW aS (aB + 1) wR wW wS (wB - 1)
  end.
Proof.
  intros H. pose proof H as [? Er Ex ? ? Ew En ? ?]. unfold Afs_Lock_Obtain_wake, retest, add_waiting.
  rewrite ?Ew, ?Ex, ?Er.
  destruct m; autorewrite with flags; case_test; intros E; injection E as <- <-; intros Hw;
    word_lia.
Qed.

(** The sleepers each signal wakes. *)
Definition counts_after (g : signal) (l : lock) (hR hW hS aR aW aS aB wR wW wS wB : Z) : Prop :=
  match g with
  | NoSig => counts_ok l hR hW hS aR aW aS aB wR wW wS wB
  | SigReaders => counts_ok l hR hW hS 0 aW aS aB (wR + aR) wW wS wB
  | SigExcl => counts_ok l hR hW hS aR 0 0 0 wR (wW + aW) (wS + aS) (wB + aB)
  end.

Ltac release_ok H :=
  pose proof H as [? Er Ex ? ? Ew En ? ?];
  unfold ReleaseReadLock, ReleaseWriteLock, ReleaseSharedLock, UnboostSharedLock,
    ConvertWriteToReadLock, set_readers, set_excl;
  cbn [readers_reading excl_locked wait_states num_waiting];
  rewrite ?Ew, ?Ex, ?Er; autorewrite with flags width;
  unfold Afs_Lock_ReleaseR, Afs_Lock_ReleaseW, Afs_Lock_WakeupR, counts_after, clear_wait;
  cbn [readers_reading excl_locked wait_states num_waiting];
  rewrite ?Ew, ?Ex, ?Er; autorewrite with flags width;
  repeat (case_test; cbn [fst snd]); word_lia.

Lemma ReleaseRead_ok l hR hW hS aR aW aS aB wR wW wS wB :
  counts_ok l hR hW hS aR aW aS aB wR wW wS wB -> 1 <= hR ->
  counts_after (ReleaseReadLock l).2 (ReleaseReadLock l).1 (hR - 1) hW hS aR aW aS aB wR wW wS wB.
Proof. intros H Hr. release_ok H. Qed.

Lemma ReleaseWrite_ok l hR hW hS aR aW aS aB wR wW wS wB :
  counts_ok l hR hW hS aR aW aS aB wR wW wS wB -> 1 <= hW ->
  counts_after (ReleaseWriteLock l).2 (ReleaseWriteLock l).1 hR (hW - 1) hS aR aW aS aB wR wW wS wB.
Proof. intros H Hr. release_ok H. Qed.

Lemma ReleaseShared_ok l hR hW hS aR aW aS aB wR wW wS wB :
  counts_ok l hR hW hS aR aW aS aB wR wW wS wB -> 1 <= hS ->
  counts_after (ReleaseSharedLock l).2 (ReleaseSharedLock l).1 hR hW (hS - 1) aR aW aS aB wR wW wS wB.
Proof. intros H Hr. release_ok H. Qed.

Lemma Unboost_ok l hR hW hS aR aW aS aB wR wW wS wB :
  counts_ok l hR hW hS aR aW aS aB wR wW wS wB -> 1 <= hW ->
  counts_after (UnboostSharedLock l).2 (UnboostSharedLock l).1 hR (hW - 1) (hS + 1) aR aW aS aB wR wW wS wB.
Proof. intros H Hr. release_ok H. Qed.

Lemma Convert_ok l hR hW hS aR aW aS aB wR wW wS wB :
  counts_ok l hR hW hS aR aW aS aB wR wW wS wB -> 1 <= hW ->
  counts_after (ConvertWriteToReadLock l).2 (ConvertWriteToReadLock l).1
    (hR + 1) (hW - 1) hS aR aW aS aB wR wW wS wB.
Proof. intros H Hr. release_ok H. Qed.

(** ** Preservation *)

Lemma counts_ok_eq l hR hW hS aR aW aS aB wR wW wS wB hR' hW' hS' aR' aW' aS' aB' wR' wW' wS' wB' :
  counts_ok l hR hW hS aR aW aS aB wR wW wS wB ->
  hR' = hR -> hW' = hW -> hS' = hS -> aR' = aR -> aW' = aW -> aS' = aS -> aB' = aB ->
  wR' = wR -> wW' = wW -> wS' = wS -> wB' = wB ->
  counts_ok l hR' hW' hS' aR' aW' aS' aB' wR' wW' wS' wB'.
Proof. by intros H -> -> -> -> -> -> -> -> -> -> ->. Qed.

(** The counts after the thread's change of state, and after the signal. *)
Ltac recount Ht :=
  cbn [held_mode settle] in *;
  rewrite ?cnt_wake, ?(cnt_insert _ _ _ _ _ Ht); eval_b2z; lia.

Lemma lookup_default (T : list tstatus) t s :
  default Idle (T !! t) = s -> s <> Idle -> T !! t = Some s.
Proof. intros H Hs. destruct (T !! t); simpl in H; [by rewrite H | congruence]. Qed.

Lemma lookup_known (T : list tstatus) t :
  (t <? length T)%nat = true -> T !! t = Some (default Idle (T !! t)).
Proof.
  intros H. apply Nat.ltb_lt in H. by destruct (lookup_lt_is_Some_2 T t H) as [s ->].
Qed.

Lemma room w t : world_ok w -> threads w !! t = Some Idle ->
  let c s := cnt s (threads w) in
  c (Held MRead) + c (Held MWrite) + c (Held MShared) + c (Asleep MRead) + c (Asleep MWrite)
  + c (Asleep MShared) + c (Asleep MBoosted) + c (Woken MRead) + c (Woken MWrite)
  + c (Woken MShared) + c (Woken MBoosted) < 255.
Proof.
  intros (Hb & Hlen & _) Ht. pose proof (cnt_total (threads w)). apply cnt_lookup in Ht. simpl. lia.
Qed.

Lemma obtain_world w t m l ok s :
  world_ok w -> threads w !! t = Some s -> may_obtain m s = true -> Obtain m (lk w) = (l, ok) ->
  world_ok (World l (<[t := settle m ok]> (threads w))).
Proof.
  intros Hw Ht Hm E. pose proof Hw as (Hb & Hlen & H).
  pose proof (Obtain_ok _ _ _ _ _ _ _ _ _ _ _ _ _ _ _ H E) as HO. clear H E.
  split; [| split]; cbn [threads lk].
  - rewrite (cnt_insert _ _ _ _ _ Ht), Hb. by destruct m, s as [| [] | [] | []], ok.
  - by rewrite length_insert.
  - assert (Hroom : s = Idle -> _) by (intros ->; exact (room w t Hw Ht)). cbv zeta in Hroom.
    assert (HS : s = Held MShared -> 1 <= cnt (Held MShared) (threads w))
      by (intros ->; by apply cnt_lookup in Ht).
    destruct m, s as [| [] | [] | []]; try discriminate; destruct ok;
      (eapply counts_ok_eq; [apply HO; auto |..]); recount Ht.
Qed.

Lemma try_world w t m s :
  world_ok w -> threads w !! t = Some s -> may_obtain m s = true -> m <> MBoosted ->
  let '(l, code) := ObtainNoBlock m (lk w) in
  world_ok (World l (if code =? 0 then <[t := Held m]> (threads w) else threads w)).
Proof.
  intros Hw Ht Hm Hb. unfold ObtainNoBlock. destruct (fast m (lk w)) eqn:E; [| by destruct w].
  change (0 =? 0) with true. cbv iota.
  replace (Held m) with (settle m true) by by destruct m.
  apply (obtain_world w t m _ true s); [done.. |]. unfold Obtain. by rewrite E.
Qed.

Lemma wake_world w t m l ok :
  world_ok w -> threads w !! t = Some (Woken m) -> Afs_Lock_Obtain_wake m (lk w) = (l, ok) ->
  world_ok (World l (<[t := settle m ok]> (threads w))).
Proof.
  intros (Hb & Hlen & H) Ht E.
  pose proof (Wake_ok _ _ _ _ _ _ _ _ _ _ _ _ _ _ _ H E) as HO. clear H E.
  split; [| split]; cbn [threads lk].
  - rewrite (cnt_insert _ _ _ _ _ Ht), Hb. by destruct m, ok.
  - by rewrite length_insert.
  - pose proof (cnt_lookup _ _ _ Ht).
    destruct m; destruct ok; (eapply counts_ok_eq; [apply HO; auto |..]); recount Ht.
Qed.

(** The counts that a release must leave, given the state [s] the releasing
    thread leaves in. *)
Lemma signalled_world w t old s out hR hW hS aR aW aS aB wR wW wS wB :
  world_ok w -> threads w !! t = Some old -> s <> Held MBoosted -> old <> Held MBoosted ->
  counts_after out.2 out.1 hR hW hS aR aW aS aB wR wW wS wB ->
  let c x := cnt x (<[t := s]> (threads w)) in
  c (Held MRead) = hR -> c (Held MWrite) = hW -> c (Held MShared) = hS ->
  c (Asleep MRead) = aR -> c (Asleep MWrite) = aW -> c (Asleep MShared) = aS ->
  c (Asleep MBoosted) = aB -> c (Woken MRead) = wR -> c (Woken MWrite) = wW ->
  c (Woken MShared) = wS -> c (Woken MBoosted) = wB ->
  world_ok (signalled w t s out).
Proof.
  intros (Hb & Hlen & _) Ht Hs Ho Ha c <- <- <- <- <- <- <- <- <- <- <-. subst c.
  unfold signalled. split; [| split]; cbn [threads lk].
  - rewrite cnt_wake.
    transitivity (cnt (Held MBoosted) (<[t := s]> (threads w))); [by destruct out.2 |].
    rewrite (cnt_insert _ _ _ _ _ Ht), Hb. unfold b2z. by rewrite !decide_False.
  - by rewrite length_map, length_insert.
  - destruct out as [l []]; cbn [fst snd counts_after] in *; rewrite !cnt_wake; exact Ha.
Qed.

Lemma exec_world w ev w' :
  world_ok w -> is_spurious ev = false -> exec w ev = Some w' -> world_ok w'.
Proof.
  intros Hw Hsp E. pose proof Hw as (Hb & Hlen & H).
  destruct ev as [t m | t m | t | t | t | t | t]; cbn [exec] in E; try discriminate.
  - case_test_in E; [| done]. destruct (Obtain m (lk w)) as [l ok] eqn:Eo. injection E as <-.
    apply (obtain_world w t m l ok (default Idle (threads w !! t)) Hw); [by apply lookup_known | done | done].
  - case_test_in E; [| done].
    pose proof (try_world w t m _ Hw (lookup_known _ _ ltac:(eassumption)) ltac:(eassumption)
                  ltac:(by eapply bool_decide_eq_false_1)) as Ht.
    destruct (ObtainNoBlock m (lk w)) as [l code]. by injection E as <-.
  - destruct (default Idle (threads w !! t)) as [| | | m] eqn:Es; try discriminate.
    destruct (Afs_Lock_Obtain_wake m (lk w)) as [l ok] eqn:Eo. injection E as <-.
    apply (wake_world w t m l ok Hw); [by apply lookup_default | done].
  - destruct (default Idle (threads w !! t)) as [| m | |] eqn:Es; try discriminate.
    apply lookup_default in Es; [| done]. pose proof (cnt_lookup _ _ _ Es) as Hc.
    destruct m; try discriminate; injection E as <-;
      (eapply signalled_world;
        [exact Hw | exact Es | done | done
        | first [apply (ReleaseRead_ok _ _ _ _ _ _ _ _ _ _ _ _ H Hc)
                | apply (ReleaseWrite_ok _ _ _ _ _ _ _ _ _ _ _ _ H Hc)
                | apply (ReleaseShared_ok _ _ _ _ _ _ _ _ _ _ _ _ H Hc)] |..]);
      recount Es.
  - destruct (default Idle (threads w !! t)) as [| [] | |] eqn:Es; try discriminate.
    apply lookup_default in Es; [| done]. pose proof (cnt_lookup _ _ _ Es) as Hc. injection E as <-.
    eapply signalled_world;
      [exact Hw | exact Es | done | done | apply (Unboost_ok _ _ _ _ _ _ _ _ _ _ _ _ H Hc) |..];
      recount Es.
  - destruct (default Idle (threads w !! t)) as [| [] | |] eqn:Es; try discriminate.
    apply lookup_default in Es; [| done]. pose proof (cnt_lookup _ _ _ Es) as Hc. injection E as <-.
    eapply signalled_world;
      [exact Hw | exact Es | done | done | apply (Convert_ok _ _ _ _ _ _ _ _ _ _ _ _ H Hc) |..];
      recount Es.
Qed.

Lemma cnt_replicate s n : s <> Idle -> cnt s (replicate n Idle) = 0.
Proof.
  intros Hs. induction n as [| n IH]; [done |]. cbn [replicate]. rewrite cnt_cons, IH.
  unfold b2z. by rewrite decide_False.
Qed.

Lemma reachable_world n w : (n <= 255)%nat -> reachable false n w -> world_ok w.
Proof.
  intros Hn. induction 1 as [| w ev w' _ IH Hsp E].
  - split; [by apply cnt_replicate |]. cbn [threads lk]. rewrite length_replicate.
    split; [lia |]. rewrite !cnt_replicate by done. split; try done; try lia; cbn; lia.
  - apply (exec_world w ev w' IH); [| done]. destruct (is_spurious ev); [by specialize (Hsp eq_refl) | done].
Qed.

Lemma lock_run_reachable spurious n evs w w' :
  reachable spurious n w -> forallb (fun ev => spurious || negb (is_spurious ev)) evs = true ->
  run w evs = Some w' -> reachable spurious n w'.
Proof.
  revert w. induction evs as [| ev evs IH]; intros w Hr Hb E; cbn in *; [by injection E as <- |].
  destruct (exec w ev) as [w1 |] eqn:E1; [| done]. apply andb_prop in Hb as [Hb1 Hb2].
  apply (IH w1); [| done | done]. apply (reach_exec _ _ w ev); [done | | done].
  intros Hs. rewrite Hs in Hb1. by destruct spurious.
Qed.

(** ** Theorems *)

(** C9. Mutual exclusion: of at most 255 threads using one lock, in every state
    they can reach without unsignalled wake-ups, a thread with a write (or boosted) lock is alone in
    holding any lock, and at most one thread holds a shared one. *)
Theorem lock_exclusion n w i j mi mj :
  (n <= 255)%nat -> reachable false n w ->
  threads w !! i = Some (Held mi) -> threads w !! j = Some (Held mj) ->
  mi = MWrite \/ mi = MShared /\ mj = MShared -> i = j.
Proof.
  intros Hn Hr Hi Hj Hm. destruct (reachable_world n w Hn Hr) as (Hb & _ & H).
  destruct (decide (i = j)) as [| Hne]; [done | exfalso].
  pose proof (cnt_lookup _ _ _ Hi) as Ci. pose proof (cnt_lookup _ _ _ Hj) as Cj.
  destruct H as [Hp Er Ex Ho Hwr Ew En Hab Haw].
  destruct Hm as [-> | [-> ->]]; [destruct mj |];
    try (pose proof (cnt_two _ _ _ _ Hi Hj Hne)); lia.
Qed.

(** Is the thread inside [Afs_Lock_Obtain]? *)
Definition waiting (s : tstatus) : bool :=
  match s with Asleep _ | Woken _ => true | _ => false end.

Lemma cnt_waiting T :
  Z.of_nat (length (filter (fun s => waiting s = true) T))
  = cnt (Asleep MRead) T + cnt (Asleep MWrite) T + cnt (Asleep MShared) T + cnt (Asleep MBoosted) T
    + cnt (Woken MRead) T + cnt (Woken MWrite) T + cnt (Woken MShared) T + cnt (Woken MBoosted) T.
Proof.
  induction T as [| x T IH]; [done |]. rewrite filter_cons, !cnt_cons.
  destruct x as [| [] | [] | []]; cbn [waiting]; case_decide; try done; simpl length;
    eval_b2z; lia.
Qed.

(** The lock word tells the truth: [CheckLock] is -1 exactly when some
    thread holds a write or shared lock (or waits to boost one), and the
    number of readers otherwise; [WriteLocked] is non-zero exactly when a
    thread holds a write lock; [LockWaiters] is the number of threads inside
    [Afs_Lock_Obtain]. *)
Theorem lock_word_exact n w :
  (n <= 255)%nat -> reachable false n w ->
  let c s := cnt s (threads w) in
  CheckLock (lk w)
    = (if 1 <=? c (Held MWrite) + c (Held MShared) + c (Asleep MBoosted) + c (Woken MBoosted)
       then -1 else c (Held MRead))
  /\ (WriteLocked (lk w) <> 0 <-> exists t, threads w !! t = Some (Held MWrite))
  /\ LockWaiters (lk w) = Z.of_nat (length (filter (fun s => waiting s = true) (threads w))).
Proof.
  intros Hn Hr c. destruct (reachable_world n w Hn Hr) as (Hb & _ & H).
  subst c. cbv beta. destruct H as [Hp Er Ex Ho Hwr Ew En Hab Haw].
  split; [| split].
  - unfold CheckLock. rewrite Ex, xbits_zero, Er. flags_lia.
  - unfold WriteLocked. rewrite Ex. split.
    + intros Hne. apply cnt_exists. unfold some in Hne. destruct (Z.leb_spec 1 (cnt (Held MWrite) (threads w))); [lia |].
      by destruct (1 <=? _) in Hne.
    + intros [t Ht]. apply cnt_lookup in Ht. unfold some.
      destruct (Z.leb_spec 1 (cnt (Held MWrite) (threads w))); [| lia]. by destruct (1 <=? _).
  - unfold LockWaiters. rewrite cnt_waiting. lia.
Qed.

(** C10. No lost wake-up: in every state at most 255 threads can reach without
    unsignalled wake-ups ([spurious_wakeup_strands] is what one can lead to), whenever a thread sleeps, another thread holds the
    lock and will signal when it releases it, or has been woken and is about
    to run; a thread asleep in a boost waits for a reader. *)
Theorem no_lost_wakeup n w t m :
  (n <= 255)%nat -> reachable false n w -> threads w !! t = Some (Asleep m) ->
  exists t' m', t' <> t /\
    (threads w !! t' = Some (Held m') \/ threads w !! t' = Some (Woken m') /\ m <> MBoosted).
Proof.
  intros Hn Hr Ht. destruct (reachable_world n w Hn Hr) as (Hb & _ & H).
  pose proof (cnt_lookup _ _ _ Ht) as Hc.
  destruct H as [Hp Er Ex Ho Hwr Ew En Hab Haw].
  assert (Hex : forall s, 1 <= cnt s (threads w) -> s <> Asleep m ->
            exists t', t' <> t /\ threads w !! t' = Some s).
  { intros s Hs Hne. destruct (cnt_exists _ _ Hs) as [t' Ht']. exists t'. split; [| done].
    intros ->. congruence. }
  destruct (decide (m = MBoosted)) as [-> | Hm].
  { destruct (Hex (Held MRead)) as (t' & ? & ?); [lia | done |]. exists t', MRead. auto. }
  assert (Hany : exists s, 1 <= cnt s (threads w) /\ exists m', s = Held m' \/ s = Woken m').
  { destruct (decide (1 <= cnt (Held MRead) (threads w))); [by eauto |].
    destruct (decide (1 <= cnt (Held MWrite) (threads w))); [by eauto |].
    destruct (decide (1 <= cnt (Held MShared) (threads w))); [by eauto |].
    destruct (decide (1 <= cnt (Woken MRead) (threads w))); [by eauto |].
    destruct (decide (1 <= cnt (Woken MWrite) (threads w))); [by eauto |].
    destruct (decide (1 <= cnt (Woken MShared) (threads w))); [by eauto |].
    exists (Woken MBoosted). split; [destruct m; try done; lia | eauto]. }
  destruct Hany as (s & Hs & m' & Hm'). destruct (Hex s Hs) as (t' & Hne & Ht'); [by destruct Hm'; subst |].
  exists t', m'. split; [done |]. destruct Hm' as [-> | ->]; [by left | by right].
Qed.

(** ** Witnesses and a run with unsignalled wake-ups *)
Module Demo.
Definition init (n : nat) : world := World Lock_Init (replicate n Idle).
(** Thread 0 writes; 1 and 2 wait; 0 releases; 1, a reader, runs. *)
Definition evs : list event :=
  [EObtain 0 MWrite; EObtain 1 MRead; EObtain 2 MWrite; ERelease 0; EWake 1].
Definition w5 : world :=
  World (Lock 2 0 1 1) [Idle; Held MRead; Asleep MWrite].
(** A spurious wake-up leaves the flag of a writer that no longer sleeps:
    thread 1 gets the lock while its flag is still set; the flag later makes
    reader 3 sleep, and the last reader's release signals nobody. *)
Definition stranding : list event :=
  [EObtain 0 MWrite; EObtain 1 MWrite; EObtain 2 MRead; ERelease 0; ESpurious 1; EWake 1;
   EWake 2; ERelease 1; EWake 2; EObtain 3 MRead; ERelease 2].
End Demo.

Lemma demo_reachable : reachable false 3 Demo.w5.
Proof. apply (lock_run_reachable false 3 Demo.evs (Demo.init 3)); [constructor | reflexivity | reflexivity]. Defined.

Lemma lock_exclusion_witness : (1 = 1)%nat.
Proof.
  apply (lock_exclusion 3 (World (Lock 0 2 0 0) [Idle; Held MWrite; Idle]) 1 1 MWrite MWrite);
    [lia | | reflexivity | reflexivity | by left].
  apply (lock_run_reachable false 3 [EObtain 1 MWrite] (Demo.init 3)); [constructor | reflexivity | reflexivity].
Defined.

Lemma lock_word_exact_witness :
  CheckLock (lk Demo.w5) = 1
  /\ (WriteLocked (lk Demo.w5) <> 0 <-> exists t, threads Demo.w5 !! t = Some (Held MWrite))
  /\ LockWaiters (lk Demo.w5) = 1.
Proof. exact (lock_word_exact 3 Demo.w5 ltac:(lia) demo_reachable). Defined.

Lemma no_lost_wakeup_witness : exists t' m', t' <> 2%nat /\
  (threads Demo.w5 !! t' = Some (Held m')
   \/ threads Demo.w5 !! t' = Some (Woken m') /\ MWrite <> MBoosted).
Proof. exact (no_lost_wakeup 3 Demo.w5 2 MWrite ltac:(lia) demo_reachable eq_refl). Defined.

(** [Afs_Lock_Obtain] relies on no spurious wake-ups, which
    [pthread_cond_wait] allows: with one of them four threads reach a state in
    which one sleeps on a read lock nobody holds, no thread is woken, and the
    next reader would sleep too. *)
Theorem spurious_wakeup_strands : exists w,
  reachable true 4 w /\ threads w = [Idle; Idle; Idle; Asleep MRead]
  /\ CheckLock (lk w) = 0 /\ fast MRead (lk w) = false.
Proof.
  eexists. split.
  - apply (lock_run_reachable true 4 Demo.stranding (Demo.init 4)); [constructor | reflexivity |].
    vm_compute. reflexivity.
  - repeat split.
Qed.
