(* ===== verification/UbikVote.v ===== *)
(** Ubik, the vote module (src/ubik/vote.c): the state a server keeps about
    the votes it has given, the handler of a vote request ([SVOTE_Beacon]),
    the decision to run for sync site ([uvote_ShouldIRun]) and the sync site
    a server believes in ([uvote_GetSyncSite]). *)
From S2P Require Import Prelude.

Definition MAXSKEW : Z := 10.
Definition POLLTIME : Z := 15.
Definition RPCTIMEOUT : Z := 20.
Definition BIGTIME : Z := 75.
Definition SMALLTIME : Z := 60.

Definition UBIK_MAX_INTERFACE_ADDR : Z := 256.

(** The initial value of [lastYesHost] and [lowestHost]. *)
Definition NOHOST : Z := 4294967295.

Definition LOCKREAD : Z := 1.
Definition LOCKWRITE : Z := 2.
Definition LOCKWAIT : Z := 3.

(** A database version; a transaction id has the same two words. *)
Record ubik_version := Version { epoch : Z; counter : Z }.
Record ubik_tid := Tid { tid_epoch : Z; tid_counter : Z }.

#[export] Instance ubik_version_eq_dec : EqDecision ubik_version.
Proof. solve_decision. Defined.
#[export] Instance ubik_tid_eq_dec : EqDecision ubik_tid.
Proof. solve_decision. Defined.

(** The macro [vcmp]. *)
Definition vcmp (a b : ubik_version) : Z :=
  if epoch a =? epoch b then s32 (counter a - counter b)
  else s32 (epoch a - epoch b).

(** What a site records of each other server. *)
Record ubik_server := Server {
  addr : list Z;            (* network order; the head is the primary *)
  lastVoteTime : Z;
  lastBeaconSent : Z;
  version : ubik_version;
  lastVote : Z;
  up : bool;
  beaconSinceDown : bool;
  currentDB : bool;
  magic : bool;
  isClone : bool
}.

Definition addr0 (ts : ubik_server) : Z := hd 0 (addr ts).

(** The fields of the current remote write transaction the module reads. *)
Record remote_trans := RTrans { rt_tid : ubik_tid; rt_locktype : Z }.

(** The globals the vote module reads and does not write. *)
Record vote_conf := VConf {
  ubik_host : list Z;
  amIClone : bool;
  ubik_servers : list ubik_server
}.

Definition host0 (c : vote_conf) : Z := hd 0 (ubik_host c).

(** The statics of vote.c with [ubik_dbVersion], [ubik_dbTid] and
    [ubik_currentTrans]. *)
Record vote_state := VState {
  ubik_lastYesTime : Z;
  lastYesHost : Z;
  lastYesClaim : Z;
  lastYesState : Z;
  lowestTime : Z;
  lowestHost : Z;
  syncTime : Z;
  syncHost : Z;
  ubik_dbVersion : ubik_version;
  ubik_dbTid : ubik_tid;
  ubik_currentTrans : option remote_trans
}.

(** The values the statics have when the process starts. *)
Definition vote_boot : vote_state :=
  VState 0 NOHOST 0 0 0 NOHOST 0 0 (Version 0 0) (Tid 0 0) None.

Definition set_lastYesTime t s :=
  VState t (lastYesHost s) (lastYesClaim s) (lastYesState s) (lowestTime s)
    (lowestHost s) (syncTime s) (syncHost s) (ubik_dbVersion s) (ubik_dbTid s)
    (ubik_currentTrans s).
Definition set_lastYesHost h s :=
  VState (ubik_lastYesTime s) h (lastYesClaim s) (lastYesState s) (lowestTime s)
    (lowestHost s) (syncTime s) (syncHost s) (ubik_dbVersion s) (ubik_dbTid s)
    (ubik_currentTrans s).
Definition set_lowest t h s :=
  VState (ubik_lastYesTime s) (lastYesHost s) (lastYesClaim s) (lastYesState s) t
    h (syncTime s) (syncHost s) (ubik_dbVersion s) (ubik_dbTid s)
    (ubik_currentTrans s).
Definition set_sync t h s :=
  VState (ubik_lastYesTime s) (lastYesHost s) (lastYesClaim s) (lastYesState s)
    (lowestTime s) (lowestHost s) t h (ubik_dbVersion s) (ubik_dbTid s)
    (ubik_currentTrans s).
Definition set_currentTrans ct s :=
  VState (ubik_lastYesTime s) (lastYesHost s) (lastYesClaim s) (lastYesState s)
    (lowestTime s) (lowestHost s) (syncTime s) (syncHost s) (ubik_dbVersion s)
    (ubik_dbTid s) ct.

(** [uvote_Init] at time [now]: the restarted server pretends it has just
    voted, for nobody. *)
Definition uvote_Init (now : Z) (s : vote_state) : vote_state :=
  set_lastYesTime now s.

(** [uvote_ShouldIRun] *)
Definition uvote_ShouldIRun (c : vote_conf) (now : Z) (s : vote_state) : bool :=
  if s32 (BIGTIME + ubik_lastYesTime s) <? now then true
  else if negb (lastYesState s =? 0) && negb (lastYesHost s =? host0 c) then false
  else if bswap32 (lastYesHost s) <? bswap32 (host0 c) then false
  else true.

(** [uvote_GetSyncSite]: 0 when no sync site is known. The host is an
    [afs_uint32] returned as an [afs_int32]; the model keeps it unsigned. *)
Definition uvote_GetSyncSite (now : Z) (s : vote_state) : Z :=
  if lastYesState s =? 0 then 0
  else if s32 (SMALLTIME + lastYesClaim s) <? now then 0
  else lastYesHost s.

(** [SVOTE_GetSyncSite]: the address a client is told, in host order. *)
Definition SVOTE_GetSyncSite (now : Z) (s : vote_state) : Z :=
  bswap32 (uvote_GetSyncSite now s).

(** [ubikGetPrimaryInterfaceAddr] (ubik.c): the primary address of the
    server that has [a] among its interfaces, 0 if there is none. *)
Fixpoint ubikGetPrimaryInterfaceAddr (l : list ubik_server) (a : Z) : Z :=
  match l with
  | [] => 0
  | ts :: l' => if existsb (Z.eqb a) (addr ts) then addr0 ts
                else ubikGetPrimaryInterfaceAddr l' a
  end.

(** [urecovery_CheckTid] (recovery.c): drop the current remote transaction
    when the sync site is on another one. The second component is the
    transaction [udisk_end] is called on, if any. *)
Definition urecovery_CheckTid (atid : ubik_tid) (s : vote_state)
  : vote_state * option remote_trans :=
  match ubik_currentTrans s with
  | None => (s, None)
  | Some t =>
      if negb (tid_epoch atid =? tid_epoch (rt_tid t))
         || (tid_counter (rt_tid t) <? tid_counter atid)
      then (set_currentTrans None s,
            if rt_locktype t =? LOCKWAIT then None else Some t)
      else (s, None)
  end.

(** ** [SVOTE_Beacon]

    [rxcall] is [None] for the local call a site makes to vote for itself
    and [Some h] for a request that arrived from interface [h]. *)

(** Who is asking: [None] when the caller is in no server's interface list,
    otherwise its primary address and whether it is a clone. *)
Definition beacon_caller (c : vote_conf) (rxcall : option Z) : option (Z * bool) :=
  match rxcall with
  | None => Some (host0 c, amIClone c)
  | Some h =>
      let p := ubikGetPrimaryInterfaceAddr (ubik_servers c) h in
      if p =? 0 then None
      else Some (p, match list_find (fun ts => addr0 ts = p) (ubik_servers c) with
                    | Some (_, ts) => isClone ts
                    | None => false
                    end)
  end.

(** The lowest host heard from, refreshed or replaced after BIGTIME. *)
Definition beacon_lowest (now h : Z) (clone : bool) (s : vote_state) : vote_state :=
  if negb clone
     && ((bswap32 h <=? bswap32 (lowestHost s))
         || (s32 (lowestTime s + BIGTIME) <? now))
  then set_lowest now h s else s.

(** Who last claimed to be the sync site. *)
Definition beacon_sync (now h astate : Z) (s : vote_state) : vote_state :=
  if negb (astate =? 0) then set_sync now h s
  else if s32 (syncTime s + BIGTIME) <? now then set_sync (syncTime s) 0 s
  else s.

(** No other server than [h] may vote: every other one is a clone. *)
Definition no_other_voter (c : vote_conf) (h : Z) : bool :=
  forallb (fun ts => (addr0 ts =? h) || isClone ts) (ubik_servers c).

(** The votes refused before the promise is looked at ([true]: say no), with
    the fast start of a site that is the only voter. *)
Definition beacon_screen (c : vote_conf) (h astate : Z) (s : vote_state)
  : bool * vote_state :=
  if astate =? 0 then
    if negb (bswap32 (lowestHost s) =? bswap32 h) then (true, s)
    else if negb (syncHost s =? 0) && negb (syncHost s =? h) then (true, s)
    else (false, s)
  else if (lastYesHost s =? NOHOST) && (h =? host0 c) then
    if no_other_voter c h then (false, set_lastYesHost h s) else (false, s)
  else (false, s).

(** The promise: vote yes for the host of the last promise, or for anyone
    once BIGTIME has passed since. *)
Definition beacon_promise (now h astate astart : Z) (avers : ubik_version)
    (atid : ubik_tid) (s : vote_state) : Z * vote_state * option remote_trans :=
  if (s32 (ubik_lastYesTime s + BIGTIME) <? now) || (h =? lastYesHost s) then
    let s1 := VState now h astart astate (lowestTime s) (lowestHost s)
                (syncTime s) (syncHost s) avers atid (ubik_currentTrans s) in
    let '(s2, ended) := urecovery_CheckTid atid s1 in
    (now, s2, ended)
  else (0, s, None).

Definition SVOTE_Beacon (c : vote_conf) (now : Z) (rxcall : option Z)
    (astate astart : Z) (avers : ubik_version) (atid : ubik_tid)
    (s : vote_state) : Z * vote_state * option remote_trans :=
  match beacon_caller c rxcall with
  | None => (0, s, None)
  | Some (h, clone) =>
      let s1 := beacon_lowest now h clone s in
      let s2 := beacon_lowest now (host0 c) (amIClone c) s1 in
      let s3 := beacon_sync now h astate s2 in
      let '(refused, s4) := beacon_screen c h astate s3 in
      if refused then (0, s4, None)
      else if clone then (0, s4, None)
      else beacon_promise now h astate astart avers atid s4
  end.

(** ** The promise *)

(** The two stages before the vote leave the last promise alone. *)
Definition same_promise (s s' : vote_state) : Prop :=
  ubik_lastYesTime s' = ubik_lastYesTime s /\ lastYesHost s' = lastYesHost s
  /\ lastYesState s' = lastYesState s /\ lastYesClaim s' = lastYesClaim s.

#[export] Instance same_promise_preorder : PreOrder same_promise.
Proof.
  split; [by intros s |].
  intros s1 s2 s3 (?&?&?&?) (?&?&?&?). repeat split; congruence.
Qed.

Lemma beacon_lowest_promise now h b s : same_promise s (beacon_lowest now h b s).
Proof. unfold beacon_lowest. case_test; done. Qed.

Lemma beacon_sync_promise now h a s : same_promise s (beacon_sync now h a s).
Proof. unfold beacon_sync. case_tests; done. Qed.

(** The screen only ever moves [lastYesHost], and only at a fast start. *)
Lemma beacon_screen_spec c h astate s b s' :
  beacon_screen c h astate s = (b, s') ->
  ubik_lastYesTime s' = ubik_lastYesTime s
  /\ (lastYesHost s' = lastYesHost s
      \/ (lastYesHost s' = h /\ lastYesHost s = NOHOST /\ h = host0 c
          /\ no_other_voter c h = true /\ astate <> 0)).
Proof.
  unfold beacon_screen.
  destruct (astate =? 0) eqn:Ea; bool_hyps; [case_tests; intros [= <- <-]; auto |].
  destruct ((lastYesHost s =? NOHOST) && (h =? host0 c))%bool eqn:E; bool_hyps.
  - destruct (no_other_voter c h) eqn:En; intros [= <- <-]; simpl; auto 10.
  - intros [= <- <-]; auto.
Qed.

Lemma urecovery_CheckTid_promise tid s s' e :
  urecovery_CheckTid tid s = (s', e) -> same_promise s s'.
Proof.
  unfold urecovery_CheckTid. destruct (ubik_currentTrans s); [case_tests |];
    intros [= <- <-]; done.
Qed.

(** What one beacon does to the promise, whatever its outcome. *)
Lemma SVOTE_Beacon_promise c now call astate astart ver tid s v s' e h clone :
  beacon_caller c call = Some (h, clone) ->
  SVOTE_Beacon c now call astate astart ver tid s = (v, s', e) ->
  (v = 0 /\ ubik_lastYesTime s' = ubik_lastYesTime s
   /\ (lastYesHost s' = lastYesHost s
       \/ (lastYesHost s' = h /\ lastYesHost s = NOHOST /\ h = host0 c
           /\ no_other_voter c h = true /\ astate <> 0)))
  \/ (v = now /\ clone = false /\ ubik_lastYesTime s' = now /\ lastYesHost s' = h
      /\ lastYesState s' = astate /\ lastYesClaim s' = astart
      /\ (s32 (ubik_lastYesTime s + BIGTIME) < now \/ h = lastYesHost s
          \/ (lastYesHost s = NOHOST /\ h = host0 c
              /\ no_other_voter c h = true /\ astate <> 0))).
Proof.
  intros Hc. unfold SVOTE_Beacon. rewrite Hc.
  set (s1 := beacon_lowest now h clone s).
  set (s2 := beacon_lowest now (host0 c) (amIClone c) s1).
  set (s3 := beacon_sync now h astate s2).
  assert (HP : same_promise s s3).
  { transitivity s2; [transitivity s1 |].
    - apply beacon_lowest_promise.
    - apply beacon_lowest_promise.
    - apply beacon_sync_promise. }
  clearbody s3. destruct HP as (Ht & Hh & _ & _).
  destruct (beacon_screen c h astate s3) as [b s4] eqn:Escr.
  pose proof (beacon_screen_spec _ _ _ _ _ _ Escr) as [Ht4 Hh4].
  rewrite Ht in Ht4. rewrite Hh in Hh4.
  destruct b; [intros [= <- <- <-]; left; auto |].
  destruct clone; [intros [= <- <- <-]; left; auto |].
  unfold beacon_promise. rewrite Ht4.
  destruct ((s32 (ubik_lastYesTime s + BIGTIME) <? now) || (h =? lastYesHost s4))%bool
    eqn:E; [| intros [= <- <- <-]; left; rewrite Ht4; auto].
  destruct (urecovery_CheckTid _ _) as [s5 e5] eqn:Ect.
  apply urecovery_CheckTid_promise in Ect as (H1 & H2 & H3 & H4). simpl in *.
  intros [= <- <- <-]. right. repeat split; try done.
  apply orb_prop in E as [E | E]; bool_hyps; [auto |].
  destruct Hh4 as [Hh4 | (? & ? & ? & ? & ?)]; [rewrite Hh4 in E; auto | auto 10].
Qed.

(** A request from an unknown host changes nothing and is voted no. *)
Lemma SVOTE_Beacon_unknown c now call astate astart ver tid s :
  beacon_caller c call = None ->
  SVOTE_Beacon c now call astate astart ver tid s = (0, s, None).
Proof. intros Hc. unfold SVOTE_Beacon. by rewrite Hc. Qed.
