(* ===== verification/UbikBeacon.v ===== *)
(** Ubik, the beacon module (src/ubik/beacon.c): the list of servers and the
    magic host fixed at start-up ([verifyInterfaceAddress],
    [ubeacon_InitServerListCommon], [updateUbikNetworkAddress]), one round of
    vote collection ([ubeacon_Interact]) and the test whether this site is
    the sync site ([ubeacon_AmSyncSite]). *)
From S2P Require Import Prelude UbikVote.

Definition MAXSERVERS : Z := 20.
Definition UNHOSTS : Z := 100002.
Definition UBADHOST : Z := 100009.
Definition RXGEN_OPCODE : Z := -455.
Definition NEVER : Z := 2147483647.

(** The statics of beacon.c with the globals it sets. *)
Record beacon_state := BState {
  syncSiteUntil : Z;
  ubik_amSyncSite : bool;
  nServers : Z;
  amIMagic : bool;
  ubik_singleServer : bool;
  ubik_quorum : Z;
  bconf : vote_conf          (* ubik_host, amIClone, ubik_servers *)
}.

Definition set_amSync (until : Z) (b : bool) (s : beacon_state) : beacon_state :=
  BState until b (nServers s) (amIMagic s) (ubik_singleServer s)
    (ubik_quorum s) (bconf s).
Definition set_servers (l : list ubik_server) (s : beacon_state) : beacon_state :=
  BState (syncSiteUntil s) (ubik_amSyncSite s) (nServers s) (amIMagic s)
    (ubik_singleServer s) (ubik_quorum s)
    (VConf (ubik_host (bconf s)) (amIClone (bconf s)) l).

Definition set_addr a ts :=
  Server a (lastVoteTime ts) (lastBeaconSent ts) (version ts) (lastVote ts)
    (up ts) (beaconSinceDown ts) (currentDB ts) (magic ts) (isClone ts).
Definition set_up b ts :=
  Server (addr ts) (lastVoteTime ts) (lastBeaconSent ts) (version ts)
    (lastVote ts) b (beaconSinceDown ts) (currentDB ts) (magic ts) (isClone ts).
Definition set_magic b ts :=
  Server (addr ts) (lastVoteTime ts) (lastBeaconSent ts) (version ts)
    (lastVote ts) (up ts) (beaconSinceDown ts) (currentDB ts) b (isClone ts).

(** [ubeacon_AmSyncSite] at time [now]. The last component tells whether
    [urecovery_ResetState] is called. *)
Definition ubeacon_AmSyncSite (now : Z) (s : beacon_state)
  : bool * beacon_state * bool :=
  if (nServers s =? 1) && negb (amIClone (bconf s)) then (true, s, false)
  else if negb (ubik_amSyncSite s) || amIClone (bconf s) then (false, s, true)
  else if syncSiteUntil s <=? now
       then (false, set_amSync (syncSiteUntil s) false s, true)
       else (true, s, false).

(** ** Start-up *)

(** A server record as [malloc], [memset] and the assignments leave it. *)
Definition new_server (a : Z) (clone : bool) : ubik_server :=
  Server [a] 0 0 (Version 0 0) 0 true false false false clone.

(** [info]: the cell's server addresses with the clone marks. *)
Definition find_me (ame : Z) (info : list (Z * bool)) : option (nat * bool) :=
  fold_left (fun acc '(i, (a, cl)) =>
      if bswap32 a =? bswap32 ame
      then Some (i, match acc with Some (_, c) => c || cl | None => cl end)
      else acc)
    (zip (seq 0 (length info)) info) None.

(** The loop over [info->numServers]: the accumulator holds the servers made
    so far with their index, [nServers], [magicHost] (host order) and the
    index of [magicServer]. *)
Definition init_acc : Type := list (nat * ubik_server) * Z * Z * option nat.

Definition init_step (me : option nat) (acc : init_acc) (e : nat * (Z * bool))
  : init_acc :=
  let '(servers, n, magicHost, magicServer) := acc in
  let '(i, (a, clone)) := e in
  if decide (me = Some i) then acc
  else if (clone : bool) then ((i, new_server a true) :: servers, n, magicHost, magicServer)
  else if (magicHost =? 0) || (bswap32 a <? magicHost)
       then ((i, new_server a false) :: servers, n + 1, bswap32 a, Some i)
       else ((i, new_server a false) :: servers, n + 1, magicHost, magicServer).

Definition mark_magic (m : option nat) (l : list (nat * ubik_server))
  : list ubik_server :=
  map (fun '(i, ts) => if decide (m = Some i) then set_magic true ts else ts) l.

Definition init_info (ame : Z) (info : list (Z * bool))
  : bool * list ubik_server * Z * bool :=
  let me := find_me ame info in
  let clone := match me with Some (_, c) => c | None => false end in
  let magicHost := if clone then 0 else bswap32 ame in
  let '(servers, n, _, magicServer) :=
    fold_left (init_step (fst <$> me)) (zip (seq 0 (length info)) info)
      ([], 0, magicHost, None) in
  let magicMe := negb clone && negb (bool_decide (is_Some magicServer)) in
  (clone, mark_magic magicServer servers, if clone then n else n + 1, magicMe).

(** The loop over a zero-terminated address list; [None] is [UNHOSTS]. *)
Fixpoint init_list_loop (l : list Z) (i : nat) (servers : list (nat * ubik_server))
    (magicHost : Z) (magicServer : option nat)
  : option (list (nat * ubik_server) * nat * option nat) :=
  match l with
  | [] => Some (servers, i, magicServer)
  | a :: l' =>
      if a =? 0 then Some (servers, i, magicServer)
      else if MAXSERVERS <=? Z.of_nat i then None
      else
        let servers' := (i, new_server a false) :: servers in
        if bswap32 a <? magicHost
        then init_list_loop l' (S i) servers' (bswap32 a) (Some i)
        else init_list_loop l' (S i) servers' magicHost magicServer
  end.

Definition init_list (ame : Z) (aservers : list Z)
  : option (bool * list ubik_server * Z * bool) :=
  match init_list_loop aservers 0 [] (bswap32 ame) None with
  | None => None
  | Some (servers, i, magicServer) =>
      Some (false, mark_magic magicServer servers, Z.of_nat i + 1,
            negb (bool_decide (is_Some magicServer)))
  end.

(** *** [verifyInterfaceAddress] *)

(** Purge the entries of [aservers] that are this host's, closing the gaps:
    the two-pointer loop, [fuel] bounding the exchanges. [end_] may reach -1. *)
Fixpoint skip_used (l : list Z) (start end_ : Z) (fuel : nat) : Z :=
  match fuel with
  | O => start
  | S f => if (start <? end_) && negb (default 0 (l !! Z.to_nat start) =? 0)
           then skip_used l (start + 1) end_ f else start
  end.
Fixpoint skip_free (l : list Z) (end_ : Z) (fuel : nat) : Z :=
  match fuel with
  | O => end_
  | S f => if (0 <=? end_) && (default 0 (l !! Z.to_nat end_) =? 0)
           then skip_free l (end_ - 1) f else end_
  end.
Fixpoint purge (l : list Z) (start end_ : Z) (fuel : nat) : list Z :=
  match fuel with
  | O => l
  | S f =>
      if start <? end_ then
        let start' := skip_used l start end_ (length l) in
        let end' := skip_free l end_ (S (length l)) in
        if end' <=? start' then l
        else purge (<[Z.to_nat end' := 0]>
                     (<[Z.to_nat start' := default 0 (l !! Z.to_nat end')]> l))
               (start' + 1) (end' - 1) f
      else l
  end.

(** The nested loops that look for this host's addresses in the server list:
    the primary address, the list with the matches zeroed, and [found]. *)
Definition claim_addr (hasinfo : bool) (acc : Z * list Z) (a : Z) : Z * list Z :=
  fold_left (fun '(ame, l) i =>
      if default 0 (l !! i) =? a
      then (a, if hasinfo then l else <[i := 0]> l)
      else (ame, l)) (seq 0 (length acc.2)) acc.

Record host_info := HostInfo {
  usednetfiles : bool;      (* NetInfo and NetRestrict were consulted *)
  myAddr : list Z;          (* what they, or rx_getAllAddr, returned *)
  myAddr2 : list Z          (* rx_getAllAddr *)
}.

(** The address [ame] to use, the interfaces [ubik_host] and the purged list;
    [inl] is the error code. *)
Definition verifyInterfaceAddress (ame : Z) (hi : host_info) (info : option (list Z))
    (aservers : list Z) : Z + (Z * list Z * list Z) :=
  match myAddr hi with
  | [] => inl UBADHOST
  | first :: _ =>
      let found := existsb (Z.eqb ame) (myAddr hi) in
      let ame1 := if found then ame else if usednetfiles hi then first else ame in
      if negb found
         && negb (usednetfiles hi && existsb (Z.eqb ame1) (myAddr2 hi))
      then inl UBADHOST
      else
        let l := match info with Some il => il | None => aservers end in
        let hasinfo := bool_decide (is_Some info) in
        let '(ame2, l') := fold_left (claim_addr hasinfo) (myAddr hi) (ame1, l) in
        let l'' := if hasinfo then aservers
                   else purge l' 0 (Z.of_nat (length l') - 1) (length l') in
        inr (ame2, ame2 :: filter (fun a => a <> ame2) (myAddr hi), l'')
  end.

(** *** [updateUbikNetworkAddress]: the reply of each server, in list order
    (a server without one has failed with a negative error). *)
Definition update_reply := (Z + list Z)%type.   (* error, or its addresses (host order) *)

Definition update_server (ts : ubik_server) (r : update_reply) : Z * ubik_server :=
  match r with
  | inr out =>
      if negb (addr0 ts =? bswap32 (hd 0 out)) then (UBADHOST, ts)
      else (0, set_addr (addr0 ts :: map bswap32 (tl out)) ts)
  | inl e => if e =? RXGEN_OPCODE then (0, ts)
             else if e =? UBADHOST then (UBADHOST, ts)
             else (0, set_up false ts)
  end.

Fixpoint update_servers (l : list ubik_server) (rs : list update_reply)
  : list (Z * ubik_server) :=
  match l with
  | [] => []
  | ts :: l' => update_server ts (hd (inl (-1)) rs) :: update_servers l' (tl rs)
  end.

Definition updateUbikNetworkAddress (l : list ubik_server) (rs : list update_reply)
  : Z * list ubik_server :=
  let outs := update_servers l rs in
  (if existsb (fun o => negb (o.1 =? 0)) outs then UBADHOST else 0, map snd outs).

(** *** [ubeacon_InitServerListCommon] *)
Definition ubeacon_InitServerListCommon (ame : Z) (hi : host_info)
    (info : option (list (Z * bool))) (aservers : list Z)
    (rs : list update_reply) : Z + beacon_state :=
  match verifyInterfaceAddress ame hi (map fst <$> info) aservers with
  | inl code => inl code
  | inr (ame', hosts, aservers') =>
      match (match info with
             | Some il => Some (init_info ame' il)
             | None => init_list ame' aservers'
             end) with
      | None => inl UNHOSTS
      | Some (clone, servers, n, magicMe) =>
          let '(code, servers') := updateUbikNetworkAddress servers rs in
          if negb (code =? 0) then inl code
          else
            let conf := VConf hosts clone servers' in
            let single := match info with
                          | Some _ => bool_decide (servers = [])
                          | None => n =? 1
                          end in
            let early := bool_decide (is_Some info) && (n =? 1) && negb clone in
            let sync := early || single in
            inr (BState (if sync then NEVER else 0) sync n magicMe single
                   (Z.shiftr n 1 + 1) conf)
      end
  end.

(** ** One collection phase of [ubeacon_Interact] *)

(** The tally of the replies: [yesVotes] and [oldestYesVote]. *)
Record tally := Tally { yesVotes : Z; oldestYesVote : Z }.
Definition tally0 : tally := Tally 0 NEVER.

(** The servers a beacon is sent to. *)
Definition beacon_targets (c : vote_conf) : list ubik_server :=
  filter (fun ts => up ts = true /\ addr0 ts <> host0 c) (ubik_servers c).

(** One reply: [code] is the vote (a time, 0 for no, negative for an error)
    and [temp] the time it is handled. *)
Definition handle_reply (code temp : Z) (ts : ubik_server) (t : tally)
  : ubik_server * tally :=
  if 0 <? code then
    (Server (addr ts) code temp (version ts) 1 true true (currentDB ts) (magic ts)
       (isClone ts),
     Tally (yesVotes t + (if isClone ts then 0 else 2) + (if magic ts then 1 else 0))
       (if code <? oldestYesVote t then code else oldestYesVote t))
  else if code =? 0 then
    (Server (addr ts) temp temp (version ts) 0 (up ts) true (currentDB ts)
       (magic ts) (isClone ts), t)
  else
    (Server (addr ts) (lastVoteTime ts) temp (version ts) (lastVote ts) false false
       (currentDB ts) (magic ts) (isClone ts), t).

(** The same at its place in [ubik_servers]; the server is the one with
    primary address [p]. *)
Fixpoint reply_from (p code temp : Z) (l : list ubik_server) (t : tally)
  : list ubik_server * tally :=
  match l with
  | [] => ([], t)
  | ts :: l' =>
      if addr0 ts =? p then
        let '(ts', t') := handle_reply code temp ts t in (ts' :: l', t')
      else let '(l'', t') := reply_from p code temp l' t in (ts :: l'', t')
  end.

(** This site's own vote [i]. *)
Definition own_vote (i : Z) (s : beacon_state) (t : tally) : tally :=
  if i =? 0 then t
  else Tally (yesVotes t + 2 + (if amIMagic s then 1 else 0))
         (if i <? oldestYesVote t then i else oldestYesVote t).

(** The decision. *)
Definition decide_sync (t : tally) (s : beacon_state) : beacon_state :=
  if nServers s <? yesVotes t
  then set_amSync (s32 (oldestYesVote t + SMALLTIME)) true s
  else set_amSync (syncSiteUntil s) false s.

(** The transaction id the beacon carries. *)
Definition beacon_tid (epochTime : Z) (writing : bool) (writeTidCounter tidCounter : Z)
  : ubik_tid :=
  Tid epochTime (if writing then writeTidCounter else s32 (tidCounter + 1)).

(** A whole phase at a single site: [replies] are the answers that arrive, in
    their order, as (server, code, arrival time). The clock is read again
    before the phase's own vote ([now2]). Returns the new states and whether
    the site ran. *)
Definition ubeacon_round (now now2 : Z) (ver : ubik_version) (ttid : ubik_tid)
    (replies : list (Z * Z * Z)) (v : vote_state) (s : beacon_state)
  : vote_state * beacon_state :=
  if ubik_singleServer s then (v, s)
  else if negb (uvote_ShouldIRun (bconf s) now v) then (v, s)
  else
    let '(_, s1, _) := ubeacon_AmSyncSite now s in
    let '(servers, t) :=
      fold_left (fun '(l, t) '(p, code, temp) => reply_from p code temp l t)
        replies (ubik_servers (bconf s1), tally0) in
    let s2 := set_servers servers s1 in
    let '(am, s3, _) := ubeacon_AmSyncSite now2 s2 in
    let '(i, v', _) := SVOTE_Beacon (bconf s3) now2 None (if am then 1 else 0)
                          now ver ttid v in
    (v', decide_sync (own_vote i s3 t) s3).

(** ** What start-up establishes

    A cell is the list of its database servers with the clone marks. *)
Definition cell_ok (cell : list (Z * bool)) : Prop :=
  NoDup (map fst cell) /\ Forall (fun e => 0 < e.1 < NOHOST) cell.

Definition voters (cell : list (Z * bool)) : list Z :=
  map fst (filter (fun e => e.2 = false) cell).

(** The magic host: the voter with the lowest address in host order. *)
Definition is_magic (cell : list (Z * bool)) (a : Z) : Prop :=
  a ∈ voters cell /\ forall b, b ∈ voters cell -> bswap32 a <= bswap32 b.

Lemma elem_of_voters cell a : a ∈ voters cell <-> (a, false) ∈ cell.
Proof.
  unfold voters. rewrite list_elem_of_fmap. split.
  - intros ([a' b] & -> & Hin). apply list_elem_of_filter in Hin as [Hb Hin].
    simpl in *. by subst.
  - intros Hin. exists (a, false). split; [done |]. by apply list_elem_of_filter.
Qed.

Lemma cell_range cell a b : cell_ok cell -> (a, b) ∈ cell -> 0 < a < NOHOST.
Proof. intros [_ HF] Hin. rewrite Forall_forall in HF. by apply HF in Hin. Qed.

Lemma cell_unique cell a b b' :
  cell_ok cell -> (a, b) ∈ cell -> (a, b') ∈ cell -> b = b'.
Proof.
  intros [Hnd _] H1 H2. apply list_elem_of_lookup in H1 as [i Hi].
  apply list_elem_of_lookup in H2 as [j Hj].
  assert (i = j) as ->.
  { apply (NoDup_lookup (map fst cell) i j a); [done | |];
      rewrite list_lookup_fmap; [by rewrite Hi | by rewrite Hj]. }
  congruence.
Qed.

Lemma bswap32_pos a : 0 < a < NOHOST -> 0 < bswap32 a.
Proof.
  unfold NOHOST. intros Ha. pose proof (bswap32_range a).
  destruct (decide (bswap32 a = 0)) as [E |]; [| lia].
  assert (Hinv : bswap32 (bswap32 a) = a) by (apply bswap32_involutive; lia).
  rewrite E in Hinv. change (bswap32 0) with 0 in Hinv. lia.
Qed.

Lemma cell_bswap_inj cell a b a' b' :
  cell_ok cell -> (a, b) ∈ cell -> (a', b') ∈ cell -> bswap32 a = bswap32 a' -> a = a'.
Proof.
  intros Hok H1 H2. apply cell_range in H1, H2; [| done..].
  unfold NOHOST in *. intros E. apply bswap32_inj; [lia | lia | exact E].
Qed.

Lemma is_magic_unique cell a b :
  cell_ok cell -> is_magic cell a -> is_magic cell b -> a = b.
Proof.
  intros Hok [Ha Ha'] [Hb Hb'].
  pose proof (Ha' _ Hb). pose proof (Hb' _ Ha).
  apply elem_of_voters in Ha, Hb. eapply cell_bswap_inj; eauto. lia.
Qed.

(** The entries of [info] with their indices from [k]. *)
Definition indexed (k : nat) (l : list (Z * bool)) : list (nat * (Z * bool)) :=
  zip (seq k (length l)) l.

Lemma indexed_cons k e l : indexed k (e :: l) = (k, e) :: indexed (S k) l.
Proof. done. Qed.
Lemma indexed_app k l1 l2 :
  indexed k (l1 ++ l2) = indexed k l1 ++ indexed (k + length l1) l2.
Proof.
  revert k. induction l1 as [| e l1 IH]; intros k; simpl.
  - by rewrite Nat.add_0_r.
  - rewrite !indexed_cons. simpl. f_equal. rewrite IH. f_equal. f_equal. lia.
Qed.
Lemma indexed_snd k l : map snd (indexed k l) = l.
Proof. revert k. induction l as [| e l IH]; intros k; [done |]. simpl. f_equal. apply IH. Qed.
Lemma indexed_range k l i e :
  (i, e) ∈ indexed k l -> (k <= i < k + length l)%nat /\ e ∈ l.
Proof.
  revert k. induction l as [| e' l IH]; intros k Hin; [by apply elem_of_nil in Hin |].
  rewrite indexed_cons in Hin. apply elem_of_cons in Hin as [[= -> ->] | Hin].
  - split; [simpl; lia | left].
  - apply IH in Hin as [? ?]. split; [simpl; lia | by right].
Qed.

Lemma find_me_skip ame k l acc :
  (forall e, e ∈ l -> bswap32 e.1 <> bswap32 ame) ->
  fold_left (fun acc '(i, (a, cl)) =>
      if bswap32 a =? bswap32 ame
      then Some (i, match acc with Some (_, c) => c || cl | None => cl end)
      else acc) (indexed k l) acc = acc.
Proof.
  revert k acc. induction l as [| [a cl] l IH]; intros k acc Hne; [done |].
  rewrite indexed_cons. simpl.
  destruct (Z.eqb_spec (bswap32 a) (bswap32 ame)) as [E |].
  - exfalso. apply (Hne (a, cl)); [left | done].
  - apply IH. intros e He. apply Hne. by right.
Qed.

Lemma find_me_spec ame cl l1 l2 :
  (forall e, e ∈ l1 ++ l2 -> bswap32 e.1 <> bswap32 ame) ->
  find_me ame (l1 ++ (ame, cl) :: l2) = Some (length l1, cl).
Proof.
  intros Hne. unfold find_me.
  change (zip (seq 0 _) ?l) with (indexed 0 l).
  rewrite indexed_app, indexed_cons, fold_left_app. simpl.
  rewrite find_me_skip by (intros e He; apply Hne; set_solver).
  rewrite Z.eqb_refl. rewrite find_me_skip; [done |].
  intros e He. apply Hne. set_solver.
Qed.

(** The invariant of the loop over [info], for the entries [E] done so far
    and the initial [magicHost]. *)
Definition init_inv (mh0 : Z) (E : list (nat * (Z * bool))) (acc : init_acc) : Prop :=
  let '(servers, n, mh, ms) := acc in
  servers = rev (map (fun '(i, (a, cl)) => (i, new_server a cl)) E)
  /\ n = Z.of_nat (length (voters (map snd E)))
  /\ match ms with
     | None => mh = mh0 /\ forall a, a ∈ voters (map snd E) -> mh0 <> 0 /\ mh0 <= bswap32 a
     | Some i => exists a, (i, (a, false)) ∈ E /\ mh = bswap32 a /\ 0 < bswap32 a
                 /\ (mh0 = 0 \/ bswap32 a < mh0)
                 /\ forall b, b ∈ voters (map snd E) -> bswap32 a <= bswap32 b
     end.

Lemma voters_app l1 l2 : voters (l1 ++ l2) = voters l1 ++ voters l2.
Proof. unfold voters. by rewrite filter_app, map_app. Qed.

Lemma init_step_inv mh0 me E acc i a cl :
  0 < a < NOHOST -> me <> Some i ->
  init_inv mh0 E acc ->
  init_inv mh0 (E ++ [(i, (a, cl))]) (init_step me acc (i, (a, cl))).
Proof.
  intros Ha Hme. destruct acc as [[[servers n] mh] ms].
  intros (Hs & Hn & Hm). unfold init_step.
  destruct (decide (me = Some i)); [done |].
  pose proof (bswap32_pos a Ha) as Hpos.
  unfold init_inv. rewrite !map_app, !rev_app_distr, voters_app. simpl.
  destruct cl.
  - split; [by rewrite Hs |]. split; [rewrite app_nil_r; done |].
    rewrite app_nil_r. destruct ms as [j |]; [| done].
    destruct Hm as (b & Hb & H'). exists b. split; [set_solver | done].
  - assert (Hlen : n + 1 = Z.of_nat (length (voters (map snd E) ++ [a])))
      by (rewrite length_app; simpl; lia).
    destruct ((mh =? 0) || (bswap32 a <? mh))%bool eqn:Etest.
    + split; [by rewrite Hs |]. split; [exact Hlen |].
      exists a. split; [set_solver |]. split; [done |]. split; [done |].
      apply orb_prop in Etest. destruct ms as [j |].
      * destruct Hm as (b' & _ & -> & Hp & H0 & Hmin).
        destruct Etest; bool_hyps; [lia |]. split; [lia |].
        intros b Hb. apply elem_of_app in Hb as [Hb | Hb].
        { specialize (Hmin _ Hb). lia. }
        apply list_elem_of_singleton in Hb as ->. simpl; lia.
      * destruct Hm as [-> Hmin].
        split; [destruct Etest; bool_hyps; auto |].
        intros b Hb. apply elem_of_app in Hb as [Hb | Hb].
        { destruct (Hmin _ Hb). destruct Etest; bool_hyps; lia. }
        apply list_elem_of_singleton in Hb as ->. simpl; lia.
    + bool_hyps. split; [by rewrite Hs |]. split; [exact Hlen |].
      destruct ms as [j |].
      * destruct Hm as (b & Hb & -> & Hp & Hz & Hmin). exists b. split; [set_solver |].
        repeat split; try done. intros c Hc. apply elem_of_app in Hc as [Hc | Hc]; [auto |].
        apply list_elem_of_singleton in Hc as ->. simpl; lia.
      * destruct Hm as [-> Hmin]. split; [done |]. intros c Hc.
        apply elem_of_app in Hc as [Hc | Hc]; [auto |].
        apply list_elem_of_singleton in Hc as ->. simpl; lia.
Qed.

Lemma init_fold_inv mh0 me E0 acc E :
  (forall i e, (i, e) ∈ E -> me <> Some i /\ 0 < e.1 < NOHOST) ->
  init_inv mh0 E0 acc ->
  init_inv mh0 (E0 ++ E) (fold_left (init_step me) E acc).
Proof.
  revert E0 acc. induction E as [| [i [a cl]] E IH]; intros E0 acc HE Hinv; simpl.
  - by rewrite app_nil_r.
  - rewrite (cons_middle (i, (a, cl))), app_assoc. apply IH.
    + intros j e He. apply HE. by right.
    + destruct (HE i (a, cl)) as [? ?]; [left |]. by apply init_step_inv.
Qed.

Lemma init_step_me n e acc : init_step (Some n) acc (n, e) = acc.
Proof.
  destruct acc as [[[srv k] mh] ms], e. unfold init_step. by rewrite decide_True.
Qed.

(** [init_info] skips the entry of this host. *)
Lemma init_info_fold ame cl l1 l2 mh0 :
  (forall e, e ∈ l1 ++ l2 -> bswap32 e.1 <> bswap32 ame) ->
  Forall (fun e => 0 < e.1 < NOHOST) (l1 ++ l2) ->
  init_inv mh0 (indexed 0 l1 ++ indexed (S (length l1)) l2)
    (fold_left (init_step (Some (length l1))) (indexed 0 (l1 ++ (ame, cl) :: l2))
       ([], 0, mh0, None)).
Proof.
  intros Hne HF. rewrite indexed_app, indexed_cons, fold_left_app. simpl.
  rewrite Forall_forall in HF.
  assert (H1 : init_inv mh0 (indexed 0 l1)
            (fold_left (init_step (Some (length l1))) (indexed 0 l1) ([], 0, mh0, None))).
  { apply (init_fold_inv mh0 _ []).
    - intros i e Hin. apply indexed_range in Hin as [? ?]. split; [intros [=]; lia |].
      apply HF. set_solver.
    - split; [done |]. split; [done |]. split; [done |].
      intros b Hb. by apply elem_of_nil in Hb. }
  rewrite init_step_me. apply init_fold_inv; [| done].
  intros i e Hin. apply indexed_range in Hin as [? ?]. split; [intros [=]; lia |].
  apply HF. set_solver.
Qed.

(** The static part of a server's configuration, as start-up leaves it. *)
Record conf_ok (cell : list (Z * bool)) (a : Z) (b : beacon_state) : Prop := {
  co_host : host0 (bconf b) = a;
  co_in : (a, amIClone (bconf b)) ∈ cell;
  co_n : nServers b = Z.of_nat (length (voters cell));
  co_magic : amIMagic b = true <-> is_magic cell a;
  co_servers : forall ts, ts ∈ ubik_servers (bconf b) ->
    addr0 ts <> a /\ (addr0 ts, isClone ts) ∈ cell
    /\ (magic ts = true <-> is_magic cell (addr0 ts));
  co_all : forall p cl, (p, cl) ∈ cell -> p <> a ->
    exists ts, ts ∈ ubik_servers (bconf b) /\ addr0 ts = p;
  co_nodup : NoDup (map addr0 (ubik_servers (bconf b)))
}.

(** Where the magic mark goes, for a host [ame] that is a clone or not and
    the other entries [E] of its cell. *)
Section magic.
Context (cell : list (Z * bool)) (ame : Z) (cl : bool).
Context (E : list (nat * (Z * bool))) (ms : option nat) (mh n : Z)
        (servers : list (nat * ubik_server)).
Hypothesis Hok : cell_ok cell.
Hypothesis Hme : (ame, cl) ∈ cell.
Hypothesis Hcell : forall e, e ∈ cell <-> e = (ame, cl) \/ e ∈ map snd E.
Hypothesis Hne : forall e, e ∈ map snd E -> e.1 <> ame.
Hypothesis Hidx : NoDup (map fst E).
Hypothesis Hadr : NoDup (map (fun e => e.2.1) E).
Hypothesis Hinv :
  init_inv (if cl then 0 else bswap32 ame) E (servers, n, mh, ms).

Lemma voter_split b :
  b ∈ voters cell <-> (b = ame /\ cl = false) \/ b ∈ voters (map snd E).
Proof using Hcell. rewrite !elem_of_voters, Hcell. split.
  - intros [[= Hb Hc] | H]; [left; by rewrite Hb, Hc | by right].
  - intros [[Hb Hc] | H]; [left; by rewrite Hb, Hc | by right].
 Qed.

Lemma entry_idx i a c a' c' : (i, (a, c)) ∈ E -> (i, (a', c')) ∈ E -> a = a' /\ c = c'.
Proof using Hidx.
  intros H1 H2. apply list_elem_of_lookup in H1 as [k1 H1], H2 as [k2 H2].
  assert (k1 = k2) as ->.
  { apply (NoDup_lookup (map fst E) k1 k2 i); [done | |];
      rewrite list_lookup_fmap; [by rewrite H1 | by rewrite H2]. }
  split; congruence.
Qed.

Lemma entry_adr i j a c c' : (i, (a, c)) ∈ E -> (j, (a, c')) ∈ E -> i = j.
Proof using Hadr.
  intros H1 H2. apply list_elem_of_lookup in H1 as [k1 H1], H2 as [k2 H2].
  assert (k1 = k2) as ->.
  { apply (NoDup_lookup (map (fun e => e.2.1) E) k1 k2 a); [done | |];
      rewrite list_lookup_fmap; [by rewrite H1 | by rewrite H2]. }
  congruence.
Qed.

Lemma entry_in i a c : (i, (a, c)) ∈ E -> (a, c) ∈ map snd E.
Proof using Type. intros H. by apply (list_elem_of_fmap_2 snd) in H. Qed.

Lemma magic_entry i a c : (i, (a, c)) ∈ E -> ms = Some i <-> is_magic cell a.
Proof.
  intros Hin. pose proof Hinv as (_ & _ & Hm). split.
  - intros ->. destruct Hm as (a' & Hin' & _ & _ & H0 & Hmin).
    destruct (entry_idx _ _ _ _ _ Hin Hin') as [-> ->]. split.
    + apply voter_split. right. apply elem_of_voters. eauto using entry_in.
    + intros b Hb. apply voter_split in Hb as [[Eb Ec] | Hb]; [| auto].
      pose proof (bswap32_pos _ (cell_range _ _ _ Hok Hme)). rewrite Ec in H0.
      subst b. lia.
  - intros [Hv Hmin]. apply voter_split in Hv as [[Ea _] | Hv].
    { exfalso. apply (Hne (a, c)); [eauto using entry_in | exact Ea]. }
    destruct ms as [j |].
    + destruct Hm as (a' & Hin' & _ & _ & _ & Hmin'). f_equal.
      assert (a' = a) as ->.
      { eapply (cell_bswap_inj cell a' false a false Hok).
        - apply Hcell. right. eauto using entry_in.
        - apply Hcell. right. by apply elem_of_voters.
        - apply Z.le_antisymm; [by apply Hmin' |].
          apply Hmin. apply voter_split. right. apply elem_of_voters. eauto using entry_in. }
      eauto using entry_adr.
    + destruct Hm as [_ Hm]. destruct (Hm _ Hv) as [H0 Hle].
      assert (Ecl : cl = false) by (destruct cl; [done | done]).
      rewrite Ecl in Hle, Hme. exfalso. apply (Hne (a, c)); [eauto using entry_in |]. simpl.
      eapply (cell_bswap_inj cell a false ame false Hok).
      * apply Hcell. right. by apply elem_of_voters.
      * done.
      * apply Z.le_antisymm; [| done]. apply Hmin. apply voter_split. auto.
Qed.

Lemma magic_me : (negb cl && negb (bool_decide (is_Some ms)))%bool = true <-> is_magic cell ame.
Proof.
  pose proof Hinv as (_ & _ & Hm). rewrite andb_true_iff, !negb_true_iff, bool_decide_eq_false.
  split.
  - intros [Ecl Hms]. split; [apply voter_split; auto |].
    destruct ms as [j |]; [by destruct Hms; eauto |]. destruct Hm as [_ Hm].
    rewrite Ecl in Hm. intros b Hb.
    apply voter_split in Hb as [[Eb _] | Hb]; [subst b; lia |]. by apply Hm.
  - intros [Hv Hmin]. apply voter_split in Hv as [[_ Ecl] | Hv].
    + rewrite Ecl in Hm. split; [done |]. intros [j Ej]. rewrite Ej in Hm.
      destruct Hm as (a & Hin & _ & _ & H0 & _).
      assert (Ha : a ∈ voters cell).
      { apply voter_split. right. apply elem_of_voters. eauto using entry_in. }
      pose proof (Hmin _ Ha). pose proof (bswap32_pos _ (cell_range _ _ _ Hok Hme)). lia.
    + apply elem_of_voters in Hv. by apply Hne in Hv.
Qed.

Lemma marked_server ts :
  ts ∈ mark_magic ms servers <->
  exists i a c, (i, (a, c)) ∈ E
    /\ ts = (if decide (ms = Some i) then set_magic true (new_server a c) else new_server a c).
Proof.
  pose proof Hinv as (-> & _). unfold mark_magic.
  rewrite list_elem_of_fmap. split.
  - intros ([i ts'] & -> & Hin). apply list_elem_of_In, in_rev, list_elem_of_In in Hin.
    apply list_elem_of_fmap in Hin as ([j [a c]] & [= -> ->] & Hin). eauto 10.
  - intros (i & a & c & Hin & ->). exists (i, new_server a c). split; [done |].
    apply list_elem_of_In. rewrite <- in_rev. apply list_elem_of_In. apply list_elem_of_fmap. by exists (i, (a, c)).
Qed.

Lemma marked_addrs : map addr0 (mark_magic ms servers) = rev (map (fun e => e.2.1) E).
Proof.
  pose proof Hinv as (-> & _). unfold mark_magic. rewrite map_map, map_rev, map_map.
  f_equal. apply map_ext. intros [i [a c]]. by case_decide.
Qed.
End magic.

Lemma indexed_fst k l : map fst (indexed k l) = seq k (length l).
Proof. revert k. induction l as [| e l IH]; intros k; [done |]. rewrite indexed_cons. simpl. f_equal. apply IH. Qed.

Lemma indexed_adr k l : map (fun e : nat * (Z * bool) => e.2.1) (indexed k l) = map fst l.
Proof. revert k. induction l as [| e l IH]; intros k; [done |]. rewrite indexed_cons. simpl. f_equal. apply IH. Qed.

Lemma init_info_spec cell ame cl clone servers n mm :
  cell_ok cell -> (ame, cl) ∈ cell ->
  init_info ame cell = (clone, servers, n, mm) ->
  clone = cl /\ n = Z.of_nat (length (voters cell))
  /\ (mm = true <-> is_magic cell ame)
  /\ (forall ts, ts ∈ servers -> addr0 ts <> ame /\ (addr0 ts, isClone ts) ∈ cell
        /\ (magic ts = true <-> is_magic cell (addr0 ts)))
  /\ (forall p c, (p, c) ∈ cell -> p <> ame -> exists ts, ts ∈ servers /\ addr0 ts = p)
  /\ NoDup (map addr0 servers).
Proof.
  intros Hok Hin. pose proof Hin as Hin'.
  apply list_elem_of_split in Hin as (l1 & l2 & Ecell).
  assert (Hnd : NoDup (map fst l1 ++ map fst l2) /\ ame ∉ map fst l1 ++ map fst l2).
  { destruct Hok as [Hnd _]. rewrite Ecell, map_app in Hnd. simpl in Hnd.
    apply NoDup_Permutation_proper with (y := ame :: map fst l1 ++ map fst l2) in Hnd;
      [| symmetry; apply Permutation_middle].
    apply NoDup_cons in Hnd as [? ?]. done. }
  destruct Hnd as [Hnd Hnot].
  assert (Hne : forall e, e ∈ l1 ++ l2 -> e.1 <> ame).
  { intros e He <-. apply Hnot. rewrite <- map_app. by apply list_elem_of_fmap_2. }
  assert (Hbs : forall e, e ∈ l1 ++ l2 -> bswap32 e.1 <> bswap32 ame).
  { intros [a c] He E. apply (Hne _ He). simpl in *.
    eapply (cell_bswap_inj cell a c ame cl Hok); [rewrite Ecell; set_solver | done | done]. }
  set (E := indexed 0 l1 ++ indexed (S (length l1)) l2).
  assert (HsndE : map snd E = l1 ++ l2) by (unfold E; by rewrite map_app, !indexed_snd).
  assert (Hidx : NoDup (map fst E)).
  { unfold E. rewrite map_app, !indexed_fst. apply NoDup_app. repeat split.
    - apply NoDup_ListNoDup, seq_NoDup.
    - intros i Hi Hi'. apply list_elem_of_In, in_seq in Hi, Hi'. lia.
    - apply NoDup_ListNoDup, seq_NoDup. }
  assert (Hadr : NoDup (map (fun e => e.2.1) E))
    by (unfold E; by rewrite map_app, !indexed_adr).
  assert (Hcell : forall e, e ∈ cell <-> e = (ame, cl) \/ e ∈ map snd E)
    by (intros e; rewrite HsndE, Ecell; set_solver).
  assert (Hlen : length (voters cell) = ((if cl then 0 else 1) + length (voters (map snd E)))%nat).
  { rewrite HsndE, Ecell, !voters_app. change ((ame, cl) :: l2) with ([(ame, cl)] ++ l2).
    rewrite voters_app, !length_app. by destruct cl. }
  assert (HF : Forall (fun e : Z * bool => 0 < e.1 < NOHOST) (l1 ++ l2)).
  { apply Forall_forall. intros [a c] He. simpl. apply (cell_range cell a c); [done |].
    rewrite Ecell. set_solver. }
  pose proof (init_info_fold ame cl l1 l2 (if cl then 0 else bswap32 ame) Hbs HF) as Hinv.
  fold E in Hinv. rewrite <- Ecell in Hinv.
  assert (Hfm : find_me ame cell = Some (length l1, cl)) by (rewrite Ecell; by apply find_me_spec).
  unfold init_info. rewrite Hfm. simpl. fold (indexed 0 cell).
  destruct (fold_left _ _ _) as [[[srv k] mh] ms].
  intros [= <- <- <- <-].
  split; [done |]. split.
  { destruct Hinv as (_ & -> & _). destruct cl; lia. }
  split; [eapply magic_me; eauto; by rewrite HsndE |].
  split; [| split].
  - intros ts Hts. eapply marked_server in Hts as (i & a & c & Hin & ->); [| done].
    assert (Hac : (a, c) ∈ map snd E) by eauto using entry_in.
    assert (Hm : ms = Some i <-> is_magic cell a)
      by (eapply (magic_entry cell ame cl); eauto; by rewrite HsndE).
    rewrite HsndE in Hac. specialize (Hne _ Hac) as Hnea.
    assert ((a, c) ∈ cell) by (apply Hcell; right; by rewrite HsndE).
    case_decide; (split; [exact Hnea | split; [done |]]); change (addr0 _) with a;
      rewrite <- Hm; by split.
  - intros p c Hpc Hp. apply Hcell in Hpc as [[= -> ->] | Hpc]; [done |].
    apply list_elem_of_fmap in Hpc as ([i [a c']] & [= -> ->] & Hin).
    eexists. split; [eapply marked_server; [done |]; eauto |].
    by case_decide.
  - erewrite marked_addrs by done.
    eapply NoDup_Permutation_proper; [apply Permutation_rev | done] || (rewrite <- Permutation_rev; done).
Qed.

(** What never changes in a server record once the list is built. *)
Definition ident (ts : ubik_server) : Z * bool * bool := (addr0 ts, isClone ts, magic ts).

Lemma update_servers_ident l rs : map ident (map snd (update_servers l rs)) = map ident l.
Proof.
  revert rs. induction l as [| ts l IH]; intros rs; [done |]. simpl. f_equal; [| apply IH].
  destruct (hd (inl (-1)) rs) as [e | out]; simpl; case_tests; done.
Qed.

Lemma ident_addrs l l' : map ident l = map ident l' -> map addr0 l = map addr0 l'.
Proof.
  intros E. assert (H : forall k, map addr0 k = map (fun x => x.1.1) (map ident k))
    by (intros k; by rewrite map_map).
  by rewrite !H, E.
Qed.

Lemma ident_elem l l' ts : map ident l = map ident l' -> ts ∈ l -> exists ts', ts' ∈ l' /\ ident ts' = ident ts.
Proof.
  intros E Hin. assert (H : ident ts ∈ map ident l') by (rewrite <- E; by apply list_elem_of_fmap_2).
  apply list_elem_of_fmap in H as (ts' & -> & ?). eauto.
Qed.

(** Replacing the server list by one with the same identities keeps the
    configuration. *)
Lemma conf_ok_ident cell a b b' :
  ubik_host (bconf b') = ubik_host (bconf b) -> amIClone (bconf b') = amIClone (bconf b) ->
  nServers b' = nServers b -> amIMagic b' = amIMagic b ->
  map ident (ubik_servers (bconf b')) = map ident (ubik_servers (bconf b)) ->
  conf_ok cell a b -> conf_ok cell a b'.
Proof.
  intros Eh Ec En Em Es [Hh Hi Hn Hm Hs Ha Hd].
  constructor; rewrite ?Ec, ?En, ?Em; unfold host0 in *; rewrite ?Eh; try done.
  - intros ts Hin. destruct (ident_elem _ _ _ Es Hin) as (ts' & Hin' & [= <- <- <-]). auto.
  - intros p cl Hpc Hp. destruct (Ha _ _ Hpc Hp) as (ts & Hin & <-).
    destruct (ident_elem _ _ _ (eq_sym Es) Hin) as (ts' & Hin' & [= <- _ _]). eauto.
  - by rewrite (ident_addrs _ _ Es).
Qed.

(** A site whose start-up succeeds and whose primary address is in the cell
    has the right vote count, magic host and server list. *)
Lemma ubeacon_InitServerListCommon_conf cell ame hi rs b cl :
  cell_ok cell -> (host0 (bconf b), cl) ∈ cell ->
  ubeacon_InitServerListCommon ame hi (Some cell) [] rs = inr b ->
  conf_ok cell (host0 (bconf b)) b.
Proof.
  intros Hok Hin. unfold ubeacon_InitServerListCommon.
  destruct (verifyInterfaceAddress _ _ _ _) as [| [[ame' hosts] l]] eqn:Ev; [done |].
  assert (Eh : hd 0 hosts = ame').
  { unfold verifyInterfaceAddress in Ev. destruct (myAddr hi) as [| a0 la]; [done |].
    case_test_in Ev; [done |]. destruct (fold_left (claim_addr _) _ _) as [a l']. by simplify_eq. }
  destruct (init_info ame' cell) as [[[clone servers] n] mm] eqn:Ei.
  unfold updateUbikNetworkAddress.
  case_test; [done |]. intros [= <-]. unfold host0 in *. simpl in *. rewrite Eh in *.
  destruct (init_info_spec _ _ _ _ _ _ _ Hok Hin Ei) as (-> & -> & Hm & Hs & Ha & Hd).
  set (b0 := BState 0 false (Z.of_nat (length (voters cell))) mm false 0
               (VConf hosts cl servers)).
  apply (conf_ok_ident _ _ b0); [done.. | simpl; by rewrite update_servers_ident | by constructor].
Qed.

Lemma NoDup_voters cell : cell_ok cell -> NoDup (voters cell).
Proof.
  intros [Hnd _]. unfold voters. induction cell as [| [a c] cell IH]; simpl; [constructor |].
  apply NoDup_cons in Hnd as [Hn Hnd]. rewrite filter_cons. case_decide; [| auto].
  simpl. apply NoDup_cons. split; [| auto].
  intros Hin. apply Hn. apply list_elem_of_fmap in Hin as (e & -> & He).
  apply list_elem_of_filter in He as [_ He]. exact (list_elem_of_fmap_2 fst _ _ He).
Qed.

(** A voter that is alone in its cell counts one server. *)
Lemma conf_ok_alone cell a b :
  cell_ok cell -> conf_ok cell a b -> amIClone (bconf b) = false ->
  (forall p, (p, false) ∈ cell -> p = a) -> nServers b = 1.
Proof.
  intros Hok [Hh Hi Hn _ _ _ _] Hc Hall. rewrite Hn. rewrite Hc in Hi.
  pose proof (NoDup_voters _ Hok) as Hnd.
  assert (Hin : a ∈ voters cell) by by apply elem_of_voters.
  assert (Hv : forall p, p ∈ voters cell -> p = a) by (intros p Hp; apply elem_of_voters in Hp; auto).
  destruct (voters cell) as [| x [| y l]]; [by apply elem_of_nil in Hin | done |].
  apply NoDup_cons in Hnd as [Hnd _]. exfalso. apply Hnd.
  rewrite (Hv x) by left. rewrite (Hv y) by (right; left). left.
Qed.

(** A site that starts as sync site is the only voter, or a clone. *)
Lemma ubeacon_InitServerListCommon_sync cell ame hi rs b cl :
  cell_ok cell -> (host0 (bconf b), cl) ∈ cell ->
  ubeacon_InitServerListCommon ame hi (Some cell) [] rs = inr b ->
  ubik_amSyncSite b = true \/ ubik_singleServer b = true ->
  nServers b = 1 \/ amIClone (bconf b) = true.
Proof.
  intros Hok Hin Hinit Hsync.
  pose proof (ubeacon_InitServerListCommon_conf _ _ _ _ _ _ Hok Hin Hinit) as Hconf.
  destruct (amIClone (bconf b)) eqn:Hcl; [auto | left].
  destruct (decide (ubik_servers (bconf b) = [])) as [Hnil | Hnil].
  { eapply conf_ok_alone; eauto. intros p Hp.
    destruct (decide (p = host0 (bconf b))) as [| Hne]; [done |].
    destruct (co_all _ _ _ Hconf _ _ Hp Hne) as (ts & Hts & _).
    rewrite Hnil in Hts. by apply elem_of_nil in Hts. }
  unfold ubeacon_InitServerListCommon in Hinit.
  destruct (verifyInterfaceAddress _ _ _ _) as [| [[ame' hosts] l]]; [done |].
  destruct (init_info ame' cell) as [[[clone servers] n] mm].
  unfold updateUbikNetworkAddress in Hinit.
  case_test_in Hinit; [done |]. injection Hinit as <-. simpl in *.
  destruct (bool_decide (servers = [])) eqn:Hs.
  - apply bool_decide_eq_true in Hs. subst. by destruct Hnil.
  - destruct ((n =? 1)%Z && negb clone)%bool eqn:E; bool_hyps; [done |].
    by destruct Hsync.
Qed.
