(* ===== verification/UbikQuorum.v ===== *)
(** Ubik, the election as a whole: the servers of a cell with their clocks,
    exchanging vote requests and replies that may be lost or late, crashing
    and restarting. The steps are those of vote.c and beacon.c
    ([UbikVote], [UbikBeacon]); reachability is by a step relation, and
    "at most one sync site" is proved by invariants over it. *)
From S2P Require Import Prelude UbikVote UbikBeacon.

(** ** The system *)

(** A collection phase in progress at a site: the locals of
    [ubeacon_Interact] between the moment the beacons are sent and the
    decision. [r_replies] are the replies on their way. *)
Record round := Round {
  r_syncsite : bool;
  r_start : Z;
  r_pending : list Z;
  r_tally : tally;
  r_replies : gmap Z Z
}.

Record site := Site { vst : vote_state; bst : beacon_state; rnd : option round }.

(** [hist] is a ghost: every yes vote ever given, as (voter, candidate,
    time on the voter's clock). *)
Record sys := Sys {
  sites : gmap Z site;
  clk : Z -> Z;
  hist : list (Z * Z * Z)
}.

Definition set_site (a : Z) (st : site) (g : sys) : sys :=
  Sys (<[a := st]> (sites g)) (clk g) (hist g).

Definition record_vote (q h v : Z) (l : list (Z * Z * Z)) : list (Z * Z * Z) :=
  if 0 <? v then (q, h, v) :: l else l.

(** The clocks of the cell differ by at most MAXSKEW, and times fit a signed
    32-bit word with room for BIGTIME. *)
Definition valid_clk (c : Z -> Z) : Prop :=
  (forall a, 0 < c a <= INT_MAX - BIGTIME) /\ forall a b, c a <= c b + MAXSKEW.

(** A request of site [h] that arrives from interface [ha] is attributed by
    the receiver to [h], or to nobody. *)
Definition source_ok (c : vote_conf) (ha h : Z) : Prop :=
  let p := ubikGetPrimaryInterfaceAddr (ubik_servers c) ha in p = h \/ p = 0.

Definition drop_pending (p : Z) (l : list Z) : list Z := filter (fun q => q <> p) l.

Inductive step (cell : list (Z * bool)) : sys -> sys -> Prop :=
  (* time passes *)
| step_tick g c' :
    (forall a, clk g a <= c' a) -> valid_clk c' ->
    step cell g (Sys (sites g) c' (hist g))
  (* a server process starts, or restarts after a crash *)
| step_boot g a cl ame hi rs b :
    (a, cl) ∈ cell ->
    ubeacon_InitServerListCommon ame hi (Some cell) [] rs = inr b ->
    host0 (bconf b) = a ->
    step cell g (set_site a (Site (uvote_Init (clk g a) vote_boot) b None) g)
  (* a server process stops *)
| step_crash g a :
    step cell g (Sys (delete a (sites g)) (clk g) (hist g))
  (* the beacon process starts a collection phase *)
| step_begin g a st am b' rs :
    sites g !! a = Some st -> rnd st = None ->
    ubik_singleServer (bst st) = false ->
    uvote_ShouldIRun (bconf (bst st)) (clk g a) (vst st) = true ->
    ubeacon_AmSyncSite (clk g a) (bst st) = (am, b', rs) ->
    step cell g (set_site a
      (Site (vst st) b' (Some (Round am (clk g a)
         (map addr0 (beacon_targets (bconf b'))) tally0 ∅))) g)
  (* server [p] handles the beacon of the phase of [a] *)
| step_vote g a p ha st sp r ver tid v s' e :
    sites g !! a = Some st -> rnd st = Some r ->
    p ∈ r_pending r -> r_replies r !! p = None ->
    sites g !! p = Some sp -> source_ok (bconf (bst sp)) ha a ->
    SVOTE_Beacon (bconf (bst sp)) (clk g p) (Some ha)
      (if r_syncsite r then 1 else 0) (r_start r) ver tid (vst sp) = (v, s', e) ->
    step cell g
      (Sys (<[a := Site (vst st) (bst st) (Some (Round (r_syncsite r) (r_start r)
                     (r_pending r) (r_tally r) (<[p := v]> (r_replies r))))]>
             (<[p := Site s' (bst sp) (rnd sp)]> (sites g)))
           (clk g) (record_vote p a v (hist g)))
  (* server [p] handles a beacon of [h] whose sender no longer waits *)
| step_stray g h p ha sp astate astart ver tid v s' e :
    sites g !! p = Some sp -> h <> p -> source_ok (bconf (bst sp)) ha h ->
    SVOTE_Beacon (bconf (bst sp)) (clk g p) (Some ha) astate astart ver tid (vst sp)
      = (v, s', e) ->
    step cell g
      (Sys (<[p := Site s' (bst sp) (rnd sp)]> (sites g)) (clk g)
           (record_vote p h v (hist g)))
  (* a reply arrives, or ([code] < 0) the call fails *)
| step_reply g a p st r code l t :
    sites g !! a = Some st -> rnd st = Some r -> p ∈ r_pending r ->
    r_replies r !! p = Some code \/ code < 0 ->
    reply_from p code (clk g a) (ubik_servers (bconf (bst st))) (r_tally r) = (l, t) ->
    step cell g (set_site a
      (Site (vst st) (set_servers l (bst st))
         (Some (Round (r_syncsite r) (r_start r) (drop_pending p (r_pending r)) t
                  (delete p (r_replies r))))) g)
  (* every call has returned: the site votes for itself and decides *)
| step_finish g a st r am b' rs ver tid v s' e :
    sites g !! a = Some st -> rnd st = Some r -> r_pending r = [] ->
    ubeacon_AmSyncSite (clk g a) (bst st) = (am, b', rs) ->
    SVOTE_Beacon (bconf b') (clk g a) None (if am then 1 else 0) (r_start r)
      ver tid (vst st) = (v, s', e) ->
    step cell g
      (Sys (<[a := Site s' (decide_sync (own_vote v b' (r_tally r)) b') None]> (sites g))
           (clk g) (record_vote a a v (hist g)))
  (* another module asks whether this is the sync site *)
| step_ask g a st am b' rs :
    sites g !! a = Some st -> ubeacon_AmSyncSite (clk g a) (bst st) = (am, b', rs) ->
    step cell g (set_site a (Site (vst st) b' (rnd st)) g)
  (* recovery marks servers up or down, or learns their interfaces *)
| step_env g a st l :
    sites g !! a = Some st -> map ident l = map ident (ubik_servers (bconf (bst st))) ->
    step cell g (set_site a (Site (vst st) (set_servers l (bst st)) (rnd st)) g).

Inductive reachable (cell : list (Z * bool)) : sys -> Prop :=
| reach_init c : valid_clk c -> reachable cell (Sys ∅ c [])
| reach_step g g' : reachable cell g -> step cell g g' -> reachable cell g'.

(** Site [a] holds itself for the sync site. *)
Definition is_sync_site (g : sys) (a : Z) : Prop :=
  exists st, sites g !! a = Some st
    /\ (ubeacon_AmSyncSite (clk g a) (bst st)).1.1 = true.

(** ** Counting votes *)

Definition is_magicb (cell : list (Z * bool)) (a : Z) : bool :=
  bool_decide (a ∈ voters cell)
  && forallb (fun b => bswap32 a <=? bswap32 b) (voters cell).

Lemma is_magicb_true cell a : is_magicb cell a = true <-> is_magic cell a.
Proof.
  unfold is_magicb, is_magic. rewrite andb_true_iff, bool_decide_eq_true, forallb_forall.
  split; intros [H1 H2]; (split; [done |]); intros b Hb.
  - apply list_elem_of_In in Hb. specialize (H2 _ Hb). lia.
  - apply list_elem_of_In in Hb. specialize (H2 _ Hb). lia.
Qed.

(** What the vote of [q] counts. *)
Definition weight (cell : list (Z * bool)) (q : Z) : Z :=
  (if bool_decide (q ∈ voters cell) then 2 else 0) + (if is_magicb cell q then 1 else 0).

Definition wsum (cell : list (Z * bool)) (Q : list Z) : Z :=
  foldr (fun q acc => weight cell q + acc) 0 Q.

Lemma weight_nonneg cell q : 0 <= weight cell q.
Proof. unfold weight. case_tests; lia. Qed.

Lemma wsum_app cell P Q : wsum cell (P ++ Q) = wsum cell P + wsum cell Q.
Proof. induction P as [| q P IH]; simpl; lia. Qed.

Lemma wsum_Permutation cell P Q : P ≡ₚ Q -> wsum cell P = wsum cell Q.
Proof. induction 1; simpl; lia. Qed.

Lemma wsum_submseteq cell P Q : P ⊆+ Q -> wsum cell P <= wsum cell Q.
Proof.
  intros (k & Hk)%submseteq_Permutation. rewrite (wsum_Permutation _ _ _ Hk), wsum_app.
  assert (0 <= wsum cell k); [| lia].
  clear. induction k; simpl; [lia |]. pose proof (weight_nonneg cell a). lia.
Qed.

(** Distinct hosts together have at most two votes for each voter, and one. *)
Lemma wsum_distinct cell l :
  cell_ok cell -> NoDup l ->
  wsum cell l <= 2 * Z.of_nat (length l) + (if existsb (is_magicb cell) l then 1 else 0).
Proof.
  intros Hok. induction 1 as [| q l Hq Hl IH]; [simpl; lia |].
  change (wsum cell (q :: l)) with (weight cell q + wsum cell l).
  cbn [length existsb]. unfold weight.
  destruct (is_magicb cell q) eqn:E1; cbn [orb].
  - replace (existsb (is_magicb cell) l) with false in IH; [case_tests; lia |].
    symmetry. apply not_true_iff_false. rewrite existsb_exists. intros (x & Hx & Hm).
    apply is_magicb_true in E1, Hm. apply list_elem_of_In in Hx.
    by rewrite (is_magic_unique cell q x Hok E1 Hm) in Hq.
  - case_tests; lia.
Qed.

Lemma wsum_filter cell l : wsum cell l = wsum cell (filter (fun q => q ∈ voters cell) l).
Proof.
  induction l as [| q l IH]; [done |]. rewrite filter_cons.
  change (wsum cell (q :: l)) with (weight cell q + wsum cell l).
  case_decide as Hq; [simpl; lia |]. rewrite IH. unfold weight.
  rewrite bool_decide_eq_false_2 by done.
  destruct (is_magicb cell q) eqn:E; [| lia]. apply is_magicb_true in E as [? _]. done.
Qed.

Lemma wsum_bound cell l :
  cell_ok cell -> NoDup l -> wsum cell l <= 2 * Z.of_nat (length (voters cell)) + 1.
Proof.
  intros Hok Hl. rewrite wsum_filter.
  transitivity (wsum cell (voters cell)).
  - apply wsum_submseteq, NoDup_submseteq; [by apply NoDup_filter |].
    intros q Hq. by apply list_elem_of_filter in Hq as [? _].
  - pose proof (wsum_distinct _ _ Hok (NoDup_voters _ Hok)). case_test_in H; lia.
Qed.

(** Two sets of distinct hosts that each have a majority have a host in
    common. *)
Lemma quorums_meet cell P Q :
  cell_ok cell -> NoDup P -> NoDup Q ->
  Z.of_nat (length (voters cell)) < wsum cell P ->
  Z.of_nat (length (voters cell)) < wsum cell Q ->
  exists q, q ∈ P /\ q ∈ Q.
Proof.
  intros Hok HP HQ Hp Hq.
  destruct (decide (Exists (fun q => q ∈ Q) P)) as [He | Hn].
  { apply Exists_exists in He as (q & ? & ?). eauto. }
  exfalso. assert (HPQ : NoDup (P ++ Q)).
  { apply NoDup_app. repeat split; try done. intros q Hq1 Hq2. apply Hn, Exists_exists. eauto. }
  pose proof (wsum_bound cell _ Hok HPQ). rewrite wsum_app in *. lia.
Qed.

(** ** The invariant *)

(** What the votes given so far satisfy: a voter's votes for two different
    candidates are more than BIGTIME apart. *)
Record hist_ok (cell : list (Z * bool)) (c : Z -> Z) (l : list (Z * Z * Z)) : Prop := {
  ho_time : forall q h t, (q, h, t) ∈ l -> 0 < t <= c q;
  ho_cand : forall q h t, (q, h, t) ∈ l -> (h, false) ∈ cell;
  ho_sep : forall q h h' t t', (q, h, t) ∈ l -> (q, h', t') ∈ l -> h <> h' ->
    t + BIGTIME < t' \/ t' + BIGTIME < t
}.

(** How the vote state of [q] remembers its votes. *)
Record promise_ok (c : Z -> Z) (l : list (Z * Z * Z)) (q : Z) (s : vote_state) : Prop := {
  po_clk : 0 <= ubik_lastYesTime s <= c q;
  po_time : forall h t, (q, h, t) ∈ l -> t <= ubik_lastYesTime s;
  po_host : lastYesHost s <> NOHOST -> forall h t, (q, h, t) ∈ l ->
    h <> lastYesHost s -> t + BIGTIME < ubik_lastYesTime s
}.

(** [Q] are distinct hosts of the cell that voted for [a] at [bound] or later. *)
Definition backed (cell : list (Z * bool)) (l : list (Z * Z * Z)) (a bound : Z)
    (Q : list Z) : Prop :=
  NoDup Q /\ forall q, q ∈ Q -> exists t, (q, a, t) ∈ l /\ bound <= t.

Definition round_ok (cell : list (Z * bool)) (l : list (Z * Z * Z)) (a : Z) (r : round) : Prop :=
  exists Q, NoDup (Q ++ r_pending r) /\ a ∉ Q ++ r_pending r
    /\ (forall p, p ∈ Q ++ r_pending r -> exists cl, (p, cl) ∈ cell)
    /\ yesVotes (r_tally r) = wsum cell Q
    /\ backed cell l a (oldestYesVote (r_tally r)) Q
    /\ 0 < oldestYesVote (r_tally r) <= NEVER
    /\ forall p v, r_replies r !! p = Some v -> p ∈ r_pending r /\ (0 < v -> (p, a, v) ∈ l).

Definition sync_ok (cell : list (Z * bool)) (l : list (Z * Z * Z)) (a : Z) (b : beacon_state) : Prop :=
  ubik_amSyncSite b = true -> nServers b = 1 \/ amIClone (bconf b) = true
  \/ exists Q, backed cell l a (syncSiteUntil b - SMALLTIME) Q /\ nServers b < wsum cell Q.

Record site_ok (cell : list (Z * bool)) (c : Z -> Z) (l : list (Z * Z * Z)) (a : Z)
    (st : site) : Prop := {
  so_conf : conf_ok cell a (bst st);
  so_promise : promise_ok c l a (vst st);
  so_round : forall r, rnd st = Some r -> round_ok cell l a r;
  so_sync : sync_ok cell l a (bst st)
}.

Record sys_ok (cell : list (Z * bool)) (g : sys) : Prop := {
  so_clk : valid_clk (clk g);
  so_hist : hist_ok cell (clk g) (hist g);
  so_sites : forall a st, sites g !! a = Some st -> site_ok cell (clk g) (hist g) a st
}.

(** *** One vote *)

Lemma elem_record q h v l x :
  x ∈ record_vote q h v l <-> x ∈ l \/ (x = (q, h, v) /\ 0 < v).
Proof. unfold record_vote. case_test; [rewrite elem_of_cons; naive_solver lia | naive_solver lia]. Qed.

Lemma ubikGetPrimaryInterfaceAddr_in l a :
  ubikGetPrimaryInterfaceAddr l a <> 0 ->
  exists ts, ts ∈ l /\ addr0 ts = ubikGetPrimaryInterfaceAddr l a.
Proof.
  induction l as [| ts l IH]; simpl; [done |]. case_test.
  - intros _. exists ts. split; [left | done].
  - intros Hne. destruct (IH Hne) as (ts' & ? & ?). exists ts'. split; [by right | done].
Qed.

(** The caller a site of the cell resolves is the sender, with its clone mark. *)
Lemma beacon_caller_cell cell a b call h ha cl :
  cell_ok cell -> conf_ok cell a b ->
  match call with Some i => i = ha /\ source_ok (bconf b) ha h | None => h = a end ->
  beacon_caller (bconf b) call = Some cl -> cl.1 = h /\ (h, cl.2) ∈ cell.
Proof.
  intros Hok Hc. unfold beacon_caller. destruct call as [i |].
  2: { intros -> [= <-]. simpl. rewrite (co_host _ _ _ Hc). split; [done | apply Hc]. }
  intros [-> Hs]. unfold source_ok in Hs.
  destruct (Z.eqb_spec (ubikGetPrimaryInterfaceAddr (ubik_servers (bconf b)) ha) 0) as [| Hne]; [done |].
  destruct Hs as [Hs | Hs]; [| done]. intros [= <-]. simpl.
  destruct (ubikGetPrimaryInterfaceAddr_in _ _ Hne) as (ts & Hts & Hadr).
  destruct (list_find _ _) as [[i ts'] |] eqn:Ef.
  - apply list_find_Some in Ef as (Hi & Hp & _).
    apply list_elem_of_lookup_2 in Hi. split; [done |].
    destruct (co_servers _ _ _ Hc _ Hi) as (_ & Hin & _). rewrite Hp in Hin. by rewrite Hs in Hin.
  - apply list_find_None in Ef. rewrite Forall_forall in Ef. by apply Ef in Hts.
Qed.

(** If no other server votes, every candidate is this host. *)
Lemma no_other_voter_cand cell a b h :
  conf_ok cell a b -> no_other_voter (bconf b) a = true -> (h, false) ∈ cell -> cell_ok cell -> h = a.
Proof.
  intros Hc Hno Hin Hok. destruct (decide (h = a)) as [| Hne]; [done |].
  destruct (co_all _ _ _ Hc _ _ Hin Hne) as (ts & Hts & <-).
  destruct (co_servers _ _ _ Hc _ Hts) as (_ & Hcl & _).
  unfold no_other_voter in Hno. rewrite forallb_forall in Hno.
  specialize (Hno ts). rewrite <- list_elem_of_In in Hno. specialize (Hno Hts).
  rewrite <- (cell_unique _ _ _ _ Hok Hin Hcl) in Hno.
  destruct (Z.eqb_spec (addr0 ts) a); [done |]. done.
Qed.

Lemma SVOTE_Beacon_sys cell c l a b call h ha astate astart ver tid s v s' e :
  cell_ok cell -> valid_clk c -> hist_ok cell c l -> conf_ok cell a b ->
  promise_ok c l a s ->
  match call with Some i => i = ha /\ source_ok (bconf b) ha h | None => h = a end ->
  SVOTE_Beacon (bconf b) (c a) call astate astart ver tid s = (v, s', e) ->
  hist_ok cell c (record_vote a h v l) /\ promise_ok c (record_vote a h v l) a s'
  /\ (v = 0 \/ v = c a /\ (h, false) ∈ cell).
Proof.
  intros Hok [Hclk _] Hh Hc Hp Hcall Hv.
  destruct (beacon_caller (bconf b) call) as [[h' clone] |] eqn:Ecall.
  2: { rewrite SVOTE_Beacon_unknown in Hv by done. injection Hv as <- <- <-. auto. }
  destruct (beacon_caller_cell _ _ _ _ _ _ _ Hok Hc Hcall Ecall) as [Eh Hcell].
  simpl in Eh, Hcell. subst h'.
  pose proof (Hclk a) as Hr. destruct Hp as [Hpc Hpt Hph].
  destruct (SVOTE_Beacon_promise _ _ _ _ _ _ _ _ _ _ _ _ _ Ecall Hv)
    as [(-> & Et & Ehost) | (-> & -> & Et & Ehost & _ & _ & Hwhy)].
  - change (record_vote a h 0 l) with l. split; [done |]. split; [| by left].
    constructor; rewrite ?Et; try done.
    destruct Ehost as [-> | (-> & _ & Ea & Hno & _)]; [done |].
    rewrite (co_host _ _ _ Hc) in Ea. rewrite Ea in Hno |- *.
    intros _ h' t Hin Hne. destruct Hne.
    apply (no_other_voter_cand cell a b); [done | done | by eapply ho_cand | done].
  - assert (Hold : forall h' t, (a, h', t) ∈ l -> h' <> h -> t + BIGTIME < c a).
    { intros h' t Hin Hne. specialize (Hpt _ _ Hin) as Ht.
      destruct Hwhy as [Hlate | [E | (_ & Ea & Hno & _)]].
      - rewrite s32_small in Hlate; unfold INT_MAX, INT_MIN, BIGTIME in *; lia.
      - pose proof (cell_range _ _ _ Hok Hcell).
        rewrite E in *. assert (Hno : lastYesHost s <> NOHOST) by lia.
        specialize (Hph Hno _ _ Hin Hne). lia.
      - rewrite (co_host _ _ _ Hc) in Ea. destruct Hne. rewrite Ea in Hno |- *.
        apply (no_other_voter_cand cell a b); [done | done | by eapply ho_cand | done]. }
    split; [| split; [| auto]].
    + destruct Hh as [Hht Hhc Hhs]. constructor.
      * intros q h' t [Hin | [[= -> -> ->] _]]%elem_record; [eauto | lia].
      * intros q h' t [Hin | [[= -> -> ->] _]]%elem_record; [eauto | done].
      * intros q h1 h2 t1 t2 [H1 | [[= E1 E2 E3] _]]%elem_record
          H2%elem_record Hne; subst;
          destruct H2 as [H2 | [H2 _]]; simplify_eq; eauto.
    + constructor; rewrite ?Et, ?Ehost; [lia | |].
      * intros h' t [Hin | [[= -> ->] _]]%elem_record; [specialize (Hpt _ _ Hin); lia | lia].
      * intros _ h' t [Hin | [[= -> ->] _]]%elem_record Hne; [eauto | done].
Qed.

(** *** Monotonicity in the history and the clocks *)

Lemma backed_mono cell l l' a bound bound' Q :
  (forall x, x ∈ l -> x ∈ l') -> bound' <= bound -> backed cell l a bound Q ->
  backed cell l' a bound' Q.
Proof.
  intros Hl Hb [Hnd HQ]. split; [done |]. intros q Hq.
  destruct (HQ _ Hq) as (t & Ht & Hle). exists t. split; [auto | lia].
Qed.

Lemma round_ok_mono cell l l' a r :
  (forall x, x ∈ l -> x ∈ l') -> round_ok cell l a r -> round_ok cell l' a r.
Proof.
  intros Hl (Q & H1 & H2 & H3 & H4 & H5 & H6 & H7). exists Q.
  do 4 (split; [done |]).
  split; [by eapply backed_mono; [| reflexivity |] |]. split; [done |].
  intros p v Hpv. destruct (H7 _ _ Hpv). auto.
Qed.

Lemma sync_ok_mono cell l l' a b :
  (forall x, x ∈ l -> x ∈ l') -> sync_ok cell l a b -> sync_ok cell l' a b.
Proof.
  intros Hl Hs Ham. destruct (Hs Ham) as [| [| (Q & HQ & Hlt)]]; [by left | by right; left |].
  right; right. exists Q. split; [| done]. eapply backed_mono; eauto. lia.
Qed.

Lemma site_ok_mono cell c c' l l' a st :
  (forall x, x ∈ l -> x ∈ l') -> (forall h t, (a, h, t) ∈ l' -> (a, h, t) ∈ l) ->
  c a <= c' a -> site_ok cell c l a st -> site_ok cell c' l' a st.
Proof.
  intros Hl Hnew Hc [H1 [Hp1 Hp2 Hp3] H3 H4]. constructor; [done | | |].
  - constructor; [lia | eauto | eauto].
  - intros r Hr. eapply round_ok_mono; eauto.
  - eapply sync_ok_mono; eauto.
Qed.

Lemma record_vote_sub q h v l x : x ∈ l -> x ∈ record_vote q h v l.
Proof. intros Hx. apply elem_record. by left. Qed.

Lemma record_vote_other q h v l a h' t :
  a <> q -> (a, h', t) ∈ record_vote q h v l -> (a, h', t) ∈ l.
Proof. intros Hne [| [[= ? _ _] _]]%elem_record; [done | congruence]. Qed.

Create HintDb quorum.
#[export] Hint Resolve record_vote_sub record_vote_other : quorum.

(** *** The steps preserve it *)

Lemma sys_ok_set cell g a st :
  sys_ok cell g -> site_ok cell (clk g) (hist g) a st -> sys_ok cell (set_site a st g).
Proof.
  intros [H1 H2 H3] Ha. constructor; [done | done |]. simpl. intros a' st'.
  rewrite lookup_insert. case_decide; [intros [= <-]; by subst | apply H3].
Qed.

(** A vote at [p], for a remote candidate or for itself. *)
Lemma sys_ok_vote cell g p sp call h ha astate astart ver tid v s' e :
  cell_ok cell -> sys_ok cell g -> sites g !! p = Some sp ->
  match call with Some i => i = ha /\ source_ok (bconf (bst sp)) ha h | None => h = p end ->
  SVOTE_Beacon (bconf (bst sp)) (clk g p) call astate astart ver tid (vst sp) = (v, s', e) ->
  sys_ok cell (Sys (<[p := Site s' (bst sp) (rnd sp)]> (sites g)) (clk g)
                 (record_vote p h v (hist g)))
  /\ (v = 0 \/ v = clk g p /\ (h, false) ∈ cell).
Proof.
  intros Hok Hg Hsp Hcall Hv. pose proof (so_sites _ _ Hg _ _ Hsp) as [Hc Hp Hr Hs].
  destruct (SVOTE_Beacon_sys _ _ _ _ _ _ _ _ _ _ _ _ _ _ _ _ Hok (so_clk _ _ Hg)
              (so_hist _ _ Hg) Hc Hp Hcall Hv) as (H1 & H2 & H3).
  split; [| done]. constructor; [apply Hg | done |]. simpl. intros a st.
  rewrite lookup_insert. case_decide as Ha; [intros [= <-]; subst a | intros Hst].
  - constructor; simpl; [done | done | |].
    + intros r Hrnd. eapply round_ok_mono; [| by apply Hr]. eauto with quorum.
    + eapply sync_ok_mono; [| done]. eauto with quorum.
  - eapply site_ok_mono; [| | | by apply Hg]; eauto with quorum. lia.
Qed.

Lemma ubeacon_AmSyncSite_conf now b am b' rs :
  ubeacon_AmSyncSite now b = (am, b', rs) ->
  bconf b' = bconf b /\ nServers b' = nServers b /\ amIMagic b' = amIMagic b
  /\ syncSiteUntil b' = syncSiteUntil b
  /\ (ubik_amSyncSite b' = true -> ubik_amSyncSite b = true).
Proof. unfold ubeacon_AmSyncSite. case_tests; intros [= <- <- <-]; repeat split; done. Qed.

Lemma site_ok_ask cell c l a st now am b' rs :
  ubeacon_AmSyncSite now (bst st) = (am, b', rs) ->
  site_ok cell c l a st -> site_ok cell c l a (Site (vst st) b' (rnd st)).
Proof.
  intros H. destruct (ubeacon_AmSyncSite_conf _ _ _ _ _ H) as (Ec & En & Em & Eu & Ea).
  intros [H1 H2 H3 H4]. constructor; simpl; [| done | done |].
  - apply (conf_ok_ident cell a (bst st)); rewrite ?Ec; done.
  - intros Ham. rewrite En, Ec, Eu. auto.
Qed.

(** A reply adds the weight of the server that sent it. *)
Lemma reply_from_spec cell p code temp l t l' t' :
  (forall ts, ts ∈ l -> addr0 ts = p ->
     (isClone ts = false <-> p ∈ voters cell) /\ (magic ts = true <-> is_magic cell p)) ->
  (exists ts, ts ∈ l /\ addr0 ts = p) ->
  reply_from p code temp l t = (l', t') ->
  map ident l' = map ident l
  /\ ((0 < code /\ yesVotes t' = yesVotes t + weight cell p
       /\ oldestYesVote t' = Z.min (oldestYesVote t) code)
      \/ (code <= 0 /\ t' = t)).
Proof.
  revert l'. induction l as [| ts l IH]; intros l' Hfl (ts0 & Hin0 & Hp0).
  { by apply elem_of_nil in Hin0. }
  simpl. destruct (Z.eqb_spec (addr0 ts) p) as [E | Hne].
  - destruct (Hfl ts) as [Hcl Hm]; [left | done |].
    unfold handle_reply. destruct (Z.ltb_spec 0 code); [| destruct (Z.eqb_spec code 0)];
      intros [= <- <-]; (split; [done |]); [left | right; split; [lia | done] | right; split; [lia | done]].
    split; [done |]. split; [| cbn [oldestYesVote]; case_tests; lia].
    cbn [yesVotes]. unfold weight.
    rewrite <- is_magicb_true in Hm.
    destruct (isClone ts), (magic ts), (is_magicb cell p), (bool_decide (p ∈ voters cell)) eqn:Ev;
      try apply bool_decide_eq_true in Ev; try apply bool_decide_eq_false in Ev; 
      intuition (try lia; try congruence).
  - destruct (reply_from p code temp l t) as [l1 t1] eqn:Er. intros [= <- <-].
    destruct (IH l1) as [Hid Ht]; [| | done | split; [simpl; by rewrite Hid | done]].
    + intros ts' Hts'. apply Hfl. by right.
    + apply elem_of_cons in Hin0 as [-> | ?]; [done |]. eauto.
Qed.

Lemma NoDup_map_filter {A B} (f : A -> B) (P : A -> Prop) `{!forall x, Decision (P x)} (l : list A) :
  NoDup (map f l) -> NoDup (map f (filter P l)).
Proof.
  induction l as [| x l IH]; [done |]. simpl. intros [Hx Hl]%NoDup_cons.
  rewrite filter_cons. case_decide; [| auto]. simpl. apply NoDup_cons. split; [| auto].
  intros Hin. apply Hx. apply list_elem_of_fmap in Hin as (y & -> & Hy).
  apply list_elem_of_filter in Hy as [_ Hy]. exact (list_elem_of_fmap_2 f _ _ Hy).
Qed.

Lemma sys_ok_tick cell g c' :
  (forall a, clk g a <= c' a) -> valid_clk c' -> sys_ok cell g ->
  sys_ok cell (Sys (sites g) c' (hist g)).
Proof.
  intros Hc Hv [H1 [Ht Hcd Hs] H3]. constructor; [done | |].
  - constructor; simpl; [| done | done]. intros q h t Hin. specialize (Ht _ _ _ Hin).
    specialize (Hc q). lia.
  - simpl. intros a st Hst. eapply site_ok_mono; [| | apply Hc | by apply H3]; auto.
Qed.

Lemma site_ok_boot cell g a cl ame hi rs b :
  cell_ok cell -> sys_ok cell g -> (a, cl) ∈ cell ->
  ubeacon_InitServerListCommon ame hi (Some cell) [] rs = inr b -> host0 (bconf b) = a ->
  site_ok cell (clk g) (hist g) a (Site (uvote_Init (clk g a) vote_boot) b None).
Proof.
  intros Hok Hg Hin Hinit <-. constructor; simpl; [| | done |].
  - by eapply ubeacon_InitServerListCommon_conf.
  - constructor; simpl; [| | done].
    + destruct (so_clk _ _ Hg) as [H _]. specialize (H (host0 (bconf b))). lia.
    + intros h t Hh. by apply (ho_time _ _ _ (so_hist _ _ Hg)) in Hh as [_ ?].
  - intros Ham.
    destruct (ubeacon_InitServerListCommon_sync _ _ _ _ _ _ Hok Hin Hinit) as [|]; auto.
Qed.

Lemma round_ok_begin cell l a b now am :
  conf_ok cell a b ->
  round_ok cell l a (Round am now (map addr0 (beacon_targets (bconf b))) tally0 ∅).
Proof.
  intros Hc. exists []. simpl. unfold beacon_targets.
  split; [by apply NoDup_map_filter, Hc |]. split; [| split; [| split; [done | split; [| split; [done |]]]]].
  - intros Hin. apply list_elem_of_fmap in Hin as (ts & Ea & Hts).
    apply list_elem_of_filter in Hts as [[_ Hne] _]. apply Hne. by rewrite (co_host _ _ _ Hc).
  - intros p Hin. apply list_elem_of_fmap in Hin as (ts & -> & Hts).
    apply list_elem_of_filter in Hts as [_ Hts].
    destruct (co_servers _ _ _ Hc _ Hts) as (_ & ? & _). eauto.
  - split; [constructor |]. intros q Hq. by apply elem_of_nil in Hq.
  - intros p v Hpv. by rewrite lookup_empty in Hpv.
Qed.

Lemma round_ok_replies cell l a r p v :
  p ∈ r_pending r -> (0 < v -> (p, a, v) ∈ l) -> round_ok cell l a r ->
  round_ok cell l a (Round (r_syncsite r) (r_start r) (r_pending r) (r_tally r)
                       (<[p := v]> (r_replies r))).
Proof.
  intros Hp Hv (Q & H1 & H2 & H3 & H4 & H5 & H6 & H7). exists Q.
  do 6 (split; [done |]). simpl. intros q w. rewrite lookup_insert.
  case_decide as Hq; [intros [= <-]; by subst | apply H7].
Qed.

(** Adding a voter to the hosts counted. *)
Lemma backed_cons cell l a bound v q Q :
  q ∉ Q -> (q, a, v) ∈ l -> backed cell l a bound Q ->
  backed cell l a (Z.min bound v) (q :: Q).
Proof.
  intros Hq Hv [Hnd HQ]. split; [by apply NoDup_cons |].
  intros q' [-> | Hq']%elem_of_cons; [exists v; split; [done | lia] |].
  destruct (HQ _ Hq') as (t & ? & ?). exists t. split; [done | lia].
Qed.

Lemma NoDup_move_pending (p : Z) (Q l : list Z) :
  p ∈ l -> NoDup (Q ++ l) -> NoDup ((p :: Q) ++ drop_pending p l) /\ NoDup (Q ++ drop_pending p l).
Proof.
  intros Hp (HQ & Hd & Hl)%NoDup_app. unfold drop_pending.
  assert (H : NoDup (Q ++ filter (fun q => q <> p) l)).
  { apply NoDup_app. repeat split; [done | | by apply NoDup_filter].
    intros x Hx [_ Hx']%list_elem_of_filter. by apply (Hd x). }
  split; [| done]. simpl. apply NoDup_cons. split; [| done].
  intros [Hin | [Hne _]%list_elem_of_filter]%elem_of_app; [by apply (Hd p) | done].
Qed.

Lemma round_ok_reply cell l a r p code temp b l' t' :
  cell_ok cell -> conf_ok cell a b ->
  p ∈ r_pending r -> (0 < code -> (p, a, code) ∈ l) -> round_ok cell l a r ->
  reply_from p code temp (ubik_servers (bconf b)) (r_tally r) = (l', t') ->
  map ident l' = map ident (ubik_servers (bconf b))
  /\ round_ok cell l a (Round (r_syncsite r) (r_start r) (drop_pending p (r_pending r))
                         t' (delete p (r_replies r))).
Proof.
  intros Hok Hc Hp Hcode (Q & H1 & H2 & H3 & H4 & H5 & H6 & H7) Hr.
  assert (Hpa : p <> a) by (intros ->; apply H2, elem_of_app; by right).
  assert (HpQ : p ∉ Q).
  { intros HpQ. apply NoDup_app in H1 as (_ & Hd & _). by apply (Hd p). }
  destruct (H3 p) as [clp Hpc]; [apply elem_of_app; by right |].
  destruct (NoDup_move_pending _ _ _ Hp H1) as [Hnd1 Hnd2].
  assert (Hsub : forall x, x ∈ drop_pending p (r_pending r) -> x ∈ r_pending r)
    by (intros x [_ ?]%list_elem_of_filter; done).
  assert (Hrep : forall q v, delete p (r_replies r) !! q = Some v ->
            q ∈ drop_pending p (r_pending r) /\ (0 < v -> (q, a, v) ∈ l)).
  { intros q v [Hne Hq]%lookup_delete_Some. destruct (H7 _ _ Hq) as [? ?].
    split; [| done]. apply list_elem_of_filter. by split. }
  apply (reply_from_spec cell) in Hr as [Hid Ht]; [split; [done |] | | by eapply co_all].
  2: { intros ts Hts <-. destruct (co_servers _ _ _ Hc _ Hts) as (_ & Hcl & Hm).
       split; [| done]. rewrite elem_of_voters. split; [by intros <- |].
       intros Hin. by apply (cell_unique _ _ _ _ Hok Hcl Hin). }
  destruct Ht as [(Hpos & Hy & Ho) | [Hneg ->]].
  - exists (p :: Q). split; [done |]. split; [| split; [| split; [| split; [| split; [| done]]]]];
      cbn [r_pending r_tally r_replies].
    + intros [-> | [Ha | Ha]%elem_of_app]%elem_of_cons; [done | apply H2 ..];
        apply elem_of_app; auto.
    + intros q [-> | [Hq | Hq]%elem_of_app]%elem_of_cons; [eauto | apply H3 ..];
        apply elem_of_app; auto.
    + rewrite Hy, H4. simpl. lia.
    + rewrite Ho. apply backed_cons; auto.
    + rewrite Ho. lia.
  - exists Q. split; [done |]. split; [| split; [| split; [done | split; [done | split; done]]]].
    + intros [Ha | Ha]%elem_of_app; apply H2, elem_of_app; auto.
    + intros q [Hq | Hq]%elem_of_app; apply H3, elem_of_app; auto.
Qed.

(** The phase's own vote and its decision. *)
Lemma sync_ok_decide cell l a r b v :
  conf_ok cell a b -> round_ok cell l a r -> r_pending r = [] ->
  (v = 0 \/ (0 < v /\ (a, false) ∈ cell /\ (a, a, v) ∈ l)) ->
  (forall q h t, (q, h, t) ∈ l -> t <= INT_MAX - BIGTIME) ->
  sync_ok cell l a (decide_sync (own_vote v b (r_tally r)) b).
Proof.
  intros Hc (Q & H1 & H2 & _ & H4 & H5 & H6 & _) Hnil Hv Hmax. rewrite Hnil, app_nil_r in *.
  assert (HQ : exists Q' , yesVotes (own_vote v b (r_tally r)) = wsum cell Q'
    /\ backed cell l a (oldestYesVote (own_vote v b (r_tally r))) Q'
    /\ 0 < oldestYesVote (own_vote v b (r_tally r)) <= NEVER).
  { unfold own_vote. destruct Hv as [-> | (Hpos & Hin & Hl)]; [exists Q; done |].
    destruct (Z.eqb_spec v 0); [lia |]. exists (a :: Q). cbn [yesVotes oldestYesVote].
    split; [| split].
    - simpl. rewrite <- H4. unfold weight. rewrite bool_decide_eq_true_2 by by apply elem_of_voters.
      pose proof (co_magic _ _ _ Hc) as Hm. rewrite <- is_magicb_true in Hm.
      destruct (amIMagic b), (is_magicb cell a); try lia;
        destruct Hm as [Hm1 Hm2]; (by discriminate Hm1) || (by discriminate Hm2).
    - replace (if v <? _ then v else _) with (Z.min (oldestYesVote (r_tally r)) v)
        by (case_test; lia). by apply backed_cons.
    - case_test; unfold NEVER in *; lia. }
  destruct HQ as (Q' & Hy & Hb & Ho). unfold decide_sync.
  case_test; intros Ham; [| done]. right; right. exists Q'. simpl. rewrite <- Hy.
  split; [| done].
  destruct Q' as [| q Q']; [split; [constructor | intros q Hq; by apply elem_of_nil in Hq] |].
  rewrite s32_small; [eapply backed_mono; [done | | done]; lia |].
  destruct Hb as [_ Hb]. destruct (Hb q) as (t & Ht & Hle); [left |].
  specialize (Hmax _ _ _ Ht). unfold INT_MIN, INT_MAX, BIGTIME, SMALLTIME in *. lia.
Qed.

Lemma hist_max cell g q h t :
  sys_ok cell g -> (q, h, t) ∈ hist g -> 0 < t <= INT_MAX - BIGTIME.
Proof.
  intros Hg Hin. apply (ho_time _ _ _ (so_hist _ _ Hg)) in Hin.
  destruct (so_clk _ _ Hg) as [Hclk _]. specialize (Hclk q). lia.
Qed.

Lemma step_sys_ok cell g g' : cell_ok cell -> sys_ok cell g -> step cell g g' -> sys_ok cell g'.
Proof.
  intros Hok Hg Hstep.
  destruct Hstep as [g c' Hc Hv | g a cl ame hi rs b Hin Hinit Hhost | g a
    | g a st am b' rs Hst Hr Hsg Hrun Ham
    | g a p ha st sp r ver tid v s' e Hst Hr Hp Hnr Hsp Hsrc Hv
    | g h p ha sp astate astart ver tid v s' e Hsp Hhp Hsrc Hv
    | g a p st r code l t Hst Hr Hp Hcode Hrep
    | g a st r am b' rs ver tid v s' e Hst Hr Hnil Ham Hv
    | g a st am b' rs Hst Ham | g a st l Hst Hid].
  - by apply sys_ok_tick.
  - apply sys_ok_set; [done |]. by eapply site_ok_boot.
  - destruct Hg as [H1 H2 H3]. constructor; [done.. |].
    simpl. intros a' st' [_ Hst]%lookup_delete_Some. by apply H3.
  - apply sys_ok_set; [done |].
    pose proof (site_ok_ask _ _ _ _ _ _ _ _ _ Ham (so_sites _ _ Hg _ _ Hst)) as [H1 H2 H3 H4].
    constructor; [done.. | | done]. intros r [= <-]. by apply round_ok_begin.
  - pose proof (so_sites _ _ Hg _ _ Hst) as Hsa.
    assert (Hne : a <> p).
    { intros ->. destruct (so_round _ _ _ _ _ Hsa _ Hr) as (Q & _ & Hn & _).
      apply Hn, elem_of_app. by right. }
    destruct (sys_ok_vote cell g p sp (Some ha) a ha _ _ _ _ _ _ _ Hok Hg Hsp
                (conj eq_refl Hsrc) Hv) as [Hg1 Hv0].
    assert (Hst1 : (<[p := Site s' (bst sp) (rnd sp)]> (sites g)) !! a = Some st)
      by by rewrite lookup_insert_ne.
    pose proof (so_sites _ _ Hg1 _ _ Hst1) as [H1 H2 H3 H4]. simpl in *.
    apply (sys_ok_set _ _ a _ Hg1). constructor; [done.. | | done].
    intros r' [= <-]. apply round_ok_replies; [done | | by apply H3].
    intros Hpos. apply elem_record. by right.
  - by destruct (sys_ok_vote cell g p sp (Some ha) h ha _ _ _ _ _ _ _ Hok Hg Hsp
                   (conj eq_refl Hsrc) Hv).
  - pose proof (so_sites _ _ Hg _ _ Hst) as [H1 H2 H3 H4].
    apply sys_ok_set; [done |]. specialize (H3 _ Hr).
    assert (Hc : 0 < code -> (p, a, code) ∈ hist g).
    { intros Hpos. destruct Hcode as [Hcode | ?]; [| lia].
      destruct H3 as (Q & _ & _ & _ & _ & _ & _ & H3). by apply H3. }
    destruct (round_ok_reply _ _ _ _ _ _ _ _ _ _ Hok H1 Hp Hc H3 Hrep) as [Hid Hrd].
    constructor; simpl; [by apply (conf_ok_ident cell a (bst st)) | done | by intros ? [= <-] | done].
  - pose proof (site_ok_ask _ _ _ _ _ _ _ _ _ Ham (so_sites _ _ Hg _ _ Hst)) as Ha1.
    set (st1 := Site (vst st) b' (rnd st)) in *.
    pose proof (sys_ok_set _ _ _ _ Hg Ha1) as Hg1.
    assert (Hst1 : sites (set_site a st1 g) !! a = Some st1) by apply lookup_insert_eq.
    destruct (sys_ok_vote cell (set_site a st1 g) a st1 None a a _ _ _ _ _ _ _ Hok Hg1 Hst1
                eq_refl Hv) as [Hg2 Hv0].
    simpl in Hg2. rewrite insert_insert_eq in Hg2.
    pose proof (so_sites _ _ Hg2 a _ ltac:(apply lookup_insert_eq)) as [H1 H2 H3 H4].
    simpl in *.
    set (b2 := decide_sync _ _).
    assert (Hb2 : bconf b2 = bconf b' /\ nServers b2 = nServers b' /\ amIMagic b2 = amIMagic b')
      by (unfold b2, decide_sync; case_test; done).
    destruct Hb2 as (Ec & En & Em).
    pose proof (sys_ok_set _ _ a (Site s' b2 None) Hg2) as Hfin. unfold set_site in Hfin.
    simpl in Hfin. rewrite insert_insert_eq in Hfin. apply Hfin.
    constructor; simpl; [| done | done |].
    + apply (conf_ok_ident cell a b'); rewrite ?Ec; done.
    + apply sync_ok_decide; [done | by apply H3 | done | | ].
      * destruct Hv0 as [-> | [-> Hcand]]; [by left | right].
        destruct (so_clk _ _ Hg) as [Hclk _]. specialize (Hclk a).
        split; [lia |]. split; [done |]. apply elem_record. right. split; [done | lia].
      * intros q h t Hin. by eapply (hist_max _ _ _ _ _ Hg2).
  - apply sys_ok_set; [done |]. by eapply site_ok_ask; [| apply Hg].
  - apply sys_ok_set; [done |]. pose proof (so_sites _ _ Hg _ _ Hst) as [H1 H2 H3 H4].
    constructor; simpl; [by apply (conf_ok_ident cell a (bst st)) | done | done | done].
Qed.

Lemma reachable_sys_ok cell g : cell_ok cell -> reachable cell g -> sys_ok cell g.
Proof.
  intros Hok. induction 1; [| by eapply step_sys_ok].
  constructor; [done | | intros ? ? Hst; simpl in Hst; by rewrite lookup_empty in Hst].
  constructor; simpl; intros; exfalso; eapply not_elem_of_nil; eassumption.
Qed.

(** ** The theorems *)

(** What stands behind a site that holds itself for the sync site. *)
Lemma sync_backed cell c l a b :
  conf_ok cell a b -> sync_ok cell l a b -> (ubeacon_AmSyncSite (c a) b).1.1 = true ->
  (a, false) ∈ cell
  /\ (nServers b = 1
      \/ exists Q, backed cell l a (syncSiteUntil b - SMALLTIME) Q
           /\ nServers b < wsum cell Q /\ c a < syncSiteUntil b).
Proof.
  intros Hc Hs. unfold ubeacon_AmSyncSite.
  destruct ((nServers b =? 1)%Z && negb (amIClone (bconf b)))%bool eqn:E1.
  { bool_hyps. intros _. split; [| by left]. replace false with (amIClone (bconf b)). apply Hc. }
  destruct (negb (ubik_amSyncSite b) || amIClone (bconf b))%bool eqn:E2; [done |].
  destruct (syncSiteUntil b <=? c a) eqn:E3; [done |]. bool_hyps. intros _.
  split; [replace false with (amIClone (bconf b)); apply Hc |].
  destruct (Hs ltac:(done)) as [| [| (Q & HQ & Hlt)]]; [by left | congruence | right; eauto].
Qed.

(** C1. Election safety: in every state the servers of a cell can reach, with
    clocks at most MAXSKEW apart, no two of them hold themselves for the sync
    site. *)
Theorem at_most_one_sync_site cell g a1 a2 :
  cell_ok cell -> reachable cell g ->
  is_sync_site g a1 -> is_sync_site g a2 -> a1 = a2.
Proof.
  intros Hok Hr (s1 & Hs1 & Ha1) (s2 & Hs2 & Ha2).
  pose proof (reachable_sys_ok _ _ Hok Hr) as Hg.
  destruct (so_sites _ _ Hg _ _ Hs1) as [C1 _ _ S1].
  destruct (so_sites _ _ Hg _ _ Hs2) as [C2 _ _ S2].
  destruct (sync_backed _ _ _ _ _ C1 S1 Ha1) as [A1 B1].
  destruct (sync_backed _ _ _ _ _ C2 S2 Ha2) as [A2 B2].
  rewrite (co_n _ _ _ C1) in B1. rewrite (co_n _ _ _ C2) in B2.
  assert (Hone : Z.of_nat (length (voters cell)) = 1 -> a1 = a2).
  { intros Hlen. apply elem_of_voters in A1, A2.
    destruct (voters cell) as [| x [| y l]]; [simpl in Hlen; lia | | simpl in Hlen; lia].
    apply list_elem_of_singleton in A1, A2. congruence. }
  destruct B1 as [B1 | (Q1 & [N1 K1] & W1 & U1)]; [auto |].
  destruct B2 as [B2 | (Q2 & [N2 K2] & W2 & U2)]; [auto |].
  destruct (decide (a1 = a2)) as [| Hne]; [done | exfalso].
  destruct (quorums_meet _ _ _ Hok N1 N2 W1 W2) as (q & Hq1 & Hq2).
  destruct (K1 _ Hq1) as (t1 & T1 & L1). destruct (K2 _ Hq2) as (t2 & T2 & L2).
  pose proof (ho_time _ _ _ (so_hist _ _ Hg) _ _ _ T1) as R1.
  pose proof (ho_time _ _ _ (so_hist _ _ Hg) _ _ _ T2) as R2.
  destruct (so_clk _ _ Hg) as [_ Hskew].
  pose proof (Hskew q a1). pose proof (Hskew q a2).
  destruct (ho_sep _ _ _ (so_hist _ _ Hg) _ _ _ _ _ T1 T2 Hne);
    unfold BIGTIME, SMALLTIME, MAXSKEW in *; lia.
Qed.

(** C2. The votes of one server: whatever beacons it receives, and however
    often it restarts, two yes votes it gives to different candidates are
    more than BIGTIME seconds apart on its clock. *)
Theorem votes_apart cell g q h1 h2 t1 t2 :
  cell_ok cell -> reachable cell g ->
  (q, h1, t1) ∈ hist g -> (q, h2, t2) ∈ hist g -> h1 <> h2 ->
  t1 + BIGTIME < t2 \/ t2 + BIGTIME < t1.
Proof.
  intros Hok Hr. apply (ho_sep _ _ _ (so_hist _ _ (reachable_sys_ok _ _ Hok Hr))).
Qed.

(** ** Running the system

    The steps other than the passing of time as a function of the event, to
    build runs by computation. *)
Inductive event :=
| EBoot (a ame : Z) (hi : host_info) (rs : list update_reply)
| EBegin (a : Z)
| EVote (a p ha : Z) (ver : ubik_version) (tid : ubik_tid)
| EReply (a p : Z)
| EError (a p code : Z)
| EFinish (a : Z) (ver : ubik_version) (tid : ubik_tid).

Definition exec_vote (g : sys) (a p ha : Z) (ver : ubik_version) (tid : ubik_tid)
    (st : site) (r : round) (sp : site) : option sys :=
  if bool_decide (p ∈ r_pending r) && bool_decide (r_replies r !! p = None)
     && bool_decide (ubikGetPrimaryInterfaceAddr (ubik_servers (bconf (bst sp))) ha = a)
  then
    let '(v, s', _) := SVOTE_Beacon (bconf (bst sp)) (clk g p) (Some ha)
          (if r_syncsite r then 1 else 0) (r_start r) ver tid (vst sp) in
    Some (Sys (<[a := Site (vst st) (bst st) (Some (Round (r_syncsite r) (r_start r)
                     (r_pending r) (r_tally r) (<[p := v]> (r_replies r))))]>
             (<[p := Site s' (bst sp) (rnd sp)]> (sites g)))
           (clk g) (record_vote p a v (hist g)))
  else None.

Definition exec_reply (g : sys) (a p code : Z) (st : site) (r : round) : option sys :=
  if bool_decide (p ∈ r_pending r)
     && (bool_decide (r_replies r !! p = Some code) || (code <? 0))
  then
    let '(l, t) := reply_from p code (clk g a) (ubik_servers (bconf (bst st))) (r_tally r) in
    Some (set_site a
      (Site (vst st) (set_servers l (bst st))
         (Some (Round (r_syncsite r) (r_start r) (drop_pending p (r_pending r)) t
                  (delete p (r_replies r))))) g)
  else None.

Definition exec (cell : list (Z * bool)) (g : sys) (ev : event) : option sys :=
  match ev with
  | EBoot a ame hi rs =>
      match ubeacon_InitServerListCommon ame hi (Some cell) [] rs with
      | inr b =>
          if bool_decide (host0 (bconf b) = a) && bool_decide (a ∈ map fst cell)
          then Some (set_site a (Site (uvote_Init (clk g a) vote_boot) b None) g)
          else None
      | inl _ => None
      end
  | EBegin a =>
      st ← sites g !! a;
      if bool_decide (rnd st = None) && negb (ubik_singleServer (bst st))
         && uvote_ShouldIRun (bconf (bst st)) (clk g a) (vst st)
      then
        let '(am, b', _) := ubeacon_AmSyncSite (clk g a) (bst st) in
        Some (set_site a
          (Site (vst st) b' (Some (Round am (clk g a)
             (map addr0 (beacon_targets (bconf b'))) tally0 ∅))) g)
      else None
  | EVote a p ha ver tid =>
      st ← sites g !! a; r ← rnd st; sp ← sites g !! p;
      exec_vote g a p ha ver tid st r sp
  | EReply a p =>
      st ← sites g !! a; r ← rnd st; code ← r_replies r !! p; exec_reply g a p code st r
  | EError a p code =>
      st ← sites g !! a; r ← rnd st;
      if code <? 0 then exec_reply g a p code st r else None
  | EFinish a ver tid =>
      st ← sites g !! a; r ← rnd st;
      if bool_decide (r_pending r = []) then
        let '(am, b', _) := ubeacon_AmSyncSite (clk g a) (bst st) in
        let '(v, s', _) := SVOTE_Beacon (bconf b') (clk g a) None (if am then 1 else 0)
              (r_start r) ver tid (vst st) in
        Some (Sys (<[a := Site s' (decide_sync (own_vote v b' (r_tally r)) b') None]> (sites g))
               (clk g) (record_vote a a v (hist g)))
      else None
  end.

#[export] Instance round_none_dec (o : option round) : Decision (o = None).
Proof. destruct o; [by right | by left]. Defined.

Ltac exec_guard H :=
  case_test_in H; [| discriminate H];
  repeat match goal with
  | E : bool_decide _ = true |- _ => apply bool_decide_eq_true in E
  | E : (_ || _)%bool = true |- _ => apply orb_prop in E
  end.

Lemma exec_vote_step cell g a p ha ver tid st r sp g' :
  sites g !! a = Some st -> rnd st = Some r -> sites g !! p = Some sp ->
  exec_vote g a p ha ver tid st r sp = Some g' -> step cell g g'.
Proof.
  intros Hst Hr Hsp. unfold exec_vote. intros H. exec_guard H.
  destruct (SVOTE_Beacon _ _ _ _ _ _ _ _) as [[v s'] e] eqn:Ev. injection H as <-.
  eapply step_vote; eauto. by left.
Qed.

Lemma exec_reply_step cell g a p code st r g' :
  sites g !! a = Some st -> rnd st = Some r ->
  exec_reply g a p code st r = Some g' -> step cell g g'.
Proof.
  intros Hst Hr. unfold exec_reply. intros H. exec_guard H.
  destruct (reply_from _ _ _ _ _) as [l t] eqn:Er. injection H as <-.
  eapply step_reply; eauto.
  match goal with E : _ \/ _ |- _ => destruct E as [E | E] end; bool_hyps; [left | by right].
  by eapply bool_decide_eq_true_1.
Qed.

Lemma exec_step cell g ev g' : exec cell g ev = Some g' -> step cell g g'.
Proof.
  destruct ev as [a ame hi rs | a | a p ha ver tid | a p | a p code | a ver tid]; simpl; intros H.
  - destruct (ubeacon_InitServerListCommon _ _ _ _ _) as [| b] eqn:Ei; [done |].
    exec_guard H. injection H as <-.
    match goal with E : _ ∈ map fst cell |- _ =>
      apply list_elem_of_fmap in E as ([a' cl] & -> & Hin) end.
    eapply (step_boot _ _ a' cl); eauto.
  - apply bind_Some in H as (st & Hst & H). exec_guard H.
    destruct (ubeacon_AmSyncSite _ _) as [[am b'] rs] eqn:Ea. injection H as <-.
    by eapply step_begin.
  - apply bind_Some in H as (st & Hst & H). apply bind_Some in H as (r & Hr & H).
    apply bind_Some in H as (sp & Hsp & H). exact (exec_vote_step _ _ _ _ _ _ _ _ _ _ _ Hst Hr Hsp H).
  - apply bind_Some in H as (st & Hst & H). apply bind_Some in H as (r & Hr & H).
    apply bind_Some in H as (code & _ & H). exact (exec_reply_step _ _ _ _ _ _ _ _ Hst Hr H).
  - apply bind_Some in H as (st & Hst & H). apply bind_Some in H as (r & Hr & H).
    exec_guard H. exact (exec_reply_step _ _ _ _ _ _ _ _ Hst Hr H).
  - apply bind_Some in H as (st & Hst & H). apply bind_Some in H as (r & Hr & H).
    exec_guard H.
    destruct (ubeacon_AmSyncSite _ _) as [[am b'] rs] eqn:Ea.
    destruct (SVOTE_Beacon _ _ _ _ _ _ _ _) as [[v s'] e] eqn:Ev. injection H as <-.
    by eapply step_finish.
Qed.

(** A run of events. *)
Fixpoint run (cell : list (Z * bool)) (g : sys) (evs : list event) : option sys :=
  match evs with
  | [] => Some g
  | ev :: evs' => g' ← exec cell g ev; run cell g' evs'
  end.

Lemma run_reachable cell g evs g' :
  reachable cell g -> run cell g evs = Some g' -> reachable cell g'.
Proof.
  revert g. induction evs as [| ev evs IH]; simpl; intros g Hr H; [by injection H as <- |].
  apply bind_Some in H as (g1 & H1 & H). eapply IH; [| done].
  eapply reach_step; [done |]. by eapply exec_step.
Qed.

(** *** A cell of three servers electing one *)
Module Demo.
Definition h1 : Z := 16777226.   (* 10.0.0.1 *)
Definition h2 : Z := 33554442.   (* 10.0.0.2 *)
Definition h3 : Z := 50331658.   (* 10.0.0.3 *)
Definition cell : list (Z * bool) := [(h1, false); (h2, false); (h3, false)].
Definition host (a : Z) : host_info := HostInfo false [a] [a].

Lemma cell_is_ok : cell_ok cell.
Proof.
  split; [by apply (bool_decide_eq_true_1 _); vm_compute |].
  repeat constructor; by vm_compute.
Qed.

Lemma clk_ok t : 0 < t <= INT_MAX - BIGTIME -> valid_clk (fun _ => t).
Proof. intros Ht. split; [done |]. intros _ _. unfold MAXSKEW. lia. Qed.

(** Two servers start at time 1000, the third dies later; at 1100 the first
    runs, is voted for by the second and by itself, and wins. *)
Definition ver0 := Version 1 1.
Definition tid0 := Tid 1 1.
Definition boot2 : list event :=
  [EBoot h1 h1 (host h1) [inr [bswap32 h3]; inr [bswap32 h2]];
   EBoot h2 h2 (host h2) [inr [bswap32 h3]; inr [bswap32 h1]]].
Definition campaign : list event :=
  [EBegin h1; EVote h1 h2 h1 ver0 tid0; EReply h1 h2; EError h1 h3 (-1);
   EFinish h1 ver0 tid0].

Definition booted : sys :=
  default (Sys ∅ (fun _ => 1000) []) (run cell (Sys ∅ (fun _ => 1000) []) boot2).
Definition later : sys := Sys (sites booted) (fun _ => 1100) (hist booted).
Definition won : sys := default later (run cell later campaign).

Lemma won_reachable : reachable cell won.
Proof.
  apply (run_reachable cell later campaign); [| vm_compute; reflexivity].
  apply (reach_step _ booted).
  - apply (run_reachable cell (Sys ∅ (fun _ => 1000) []) boot2); [| vm_compute; reflexivity].
    by apply reach_init, clk_ok.
  - apply step_tick; [| by apply clk_ok]. intros a. by vm_compute.
Qed.

Lemma h1_won : is_sync_site won h1.
Proof. eexists. split; vm_compute; reflexivity. Qed.

(** At 1300 the first server has been silent for long: the second runs,
    reaches nobody and votes for itself, which is not a majority. *)
Definition much_later : sys := Sys (sites won) (fun _ => 1300) (hist won).
Definition lost : sys :=
  default much_later
    (run cell much_later [EBegin h2; EError h2 h1 (-1); EError h2 h3 (-1);
                          EFinish h2 ver0 tid0]).

Lemma lost_reachable : reachable cell lost.
Proof.
  apply (run_reachable cell much_later
           [EBegin h2; EError h2 h1 (-1); EError h2 h3 (-1); EFinish h2 ver0 tid0]);
    [| vm_compute; reflexivity].
  apply (reach_step _ won); [exact won_reachable |].
  apply step_tick; [| by apply clk_ok]. intros a. by vm_compute.
Qed.
End Demo.

Lemma at_most_one_sync_site_witness :
  is_sync_site Demo.won Demo.h1 /\ forall a, is_sync_site Demo.won a -> a = Demo.h1.
Proof.
  split; [exact Demo.h1_won |]. intros a Ha.
  exact (at_most_one_sync_site Demo.cell Demo.won a Demo.h1 Demo.cell_is_ok
           Demo.won_reachable Ha Demo.h1_won).
Defined.

Lemma votes_apart_witness :
  (Demo.h2, Demo.h1, 1100) ∈ hist Demo.lost /\ (Demo.h2, Demo.h2, 1300) ∈ hist Demo.lost
  /\ (1100 + BIGTIME < 1300 \/ 1300 + BIGTIME < 1100).
Proof.
  assert (H1 : (Demo.h2, Demo.h1, 1100) ∈ hist Demo.lost) by (vm_compute; right; right; left).
  assert (H2 : (Demo.h2, Demo.h2, 1300) ∈ hist Demo.lost) by (vm_compute; left).
  split; [exact H1 |]. split; [exact H2 |].
  apply (votes_apart Demo.cell Demo.lost Demo.h2 Demo.h1 Demo.h2 1100 1300 Demo.cell_is_ok
           Demo.lost_reachable H1 H2).
  by vm_compute.
Defined.
