(* ===== verification/UbikLog.v ===== *)
(** Ubik, the disk: the physical files with their headers (src/ubik/phys.c),
    the log records (the [udisk_Log*] routines of src/ubik/disk.c) and the
    replay of the log at start-up ([ReplayLog] and [InitializeDB] of
    src/ubik/recovery.c). *)
From S2P Require Import Prelude UbikVote.

Definition HDRSIZE : Z := 64.
Definition UBIK_MAGIC : Z := 3491141.     (* 0x354545 *)
Definition LOGFILE : Z := -1.

Definition LOGNEW : Z := 100.
Definition LOGEND : Z := 101.
Definition LOGABORT : Z := 102.
Definition LOGDATA : Z := 103.
Definition LOGTRUNCATE : Z := 104.

Definition UIOERROR : Z := 100003.
Definition UBADLOG : Z := 100008.
Definition EIO : Z := 5.

(** ** Files

    Each file is its whole contents, the header included. The Unix calls are
    taken to succeed except where their arguments make them fail. *)
Abbreviation disk := (gmap Z (list Z)).

Definition contents (d : disk) (f : Z) : list Z := default [] (d !! f).

Definition zeros (n : nat) : list Z := replicate n 0.

(** [write] at an offset, which may be past the end, and [ftruncate]. *)
Definition file_write (c : list Z) (off : nat) (b : list Z) : list Z :=
  take off (c ++ zeros (off - length c)) ++ b ++ drop (off + length b) c.
Definition file_truncate (c : list Z) (n : nat) : list Z :=
  take n (c ++ zeros (n - length c)).

Definition uphys_stat (d : disk) (f : Z) : Z :=
  Z.max 0 (Z.of_nat (length (contents d f)) - HDRSIZE).

(** [None] when [lseek] fails. A read returns what there is. *)
Definition uphys_read (d : disk) (f pos len : Z) : option (list Z) :=
  if pos + HDRSIZE <? 0 then None
  else Some (take (Z.to_nat len) (drop (Z.to_nat (pos + HDRSIZE)) (contents d f))).

Definition uphys_write (d : disk) (f pos : Z) (b : list Z) : option disk :=
  if pos + HDRSIZE <? 0 then None
  else Some (<[f := file_write (contents d f) (Z.to_nat (pos + HDRSIZE)) b]> d).

Definition uphys_truncate (d : disk) (f size : Z) : option disk :=
  if size + HDRSIZE <? 0 then None
  else Some (<[f := file_truncate (contents d f) (Z.to_nat (size + HDRSIZE))]> d).

(** The header: magic, a pad the code leaves unset (0 here), the header size
    and the version, all in network order. *)
Definition ubik_hdr (v : ubik_version) : list Z :=
  be_bytes UBIK_MAGIC ++ [0; 0] ++ [HDRSIZE / 256; HDRSIZE mod 256]
  ++ be_bytes (epoch v) ++ be_bytes (counter v).

Definition uphys_setlabel (d : disk) (f : Z) (v : ubik_version) : disk :=
  <[f := file_write (contents d f) 0 (ubik_hdr v)]> d.

Definition uphys_getlabel (d : disk) (f : Z) : Z + ubik_version :=
  let h := take 16 (contents d f) in
  if Nat.eqb (length h) 16 then
    inr (Version (s32 (be_val (take 4 (drop 8 h)))) (s32 (be_val (drop 12 h))))
  else inl EIO.

(** ** Writing the log

    Every record goes to the end of the log, in network order. *)
Definition log_append (d : disk) (b : list Z) : Z * disk :=
  match uphys_write d LOGFILE (uphys_stat d LOGFILE) b with
  | Some d' => (0, d')
  | None => (UIOERROR, d)
  end.

Definition udisk_LogOpcode (little : bool) (d : disk) (aopcode : Z) : Z * disk :=
  log_append d (host_mem little (htonl little aopcode)).

Definition udisk_LogEnd (little : bool) (d : disk) (v : ubik_version) : Z * disk :=
  log_append d (host_mem little (htonl little LOGEND)
    ++ host_mem little (htonl little (epoch v))
    ++ host_mem little (htonl little (counter v))).

Definition udisk_LogTruncate (little : bool) (d : disk) (afile alength : Z) : Z * disk :=
  log_append d (host_mem little (htonl little LOGTRUNCATE)
    ++ host_mem little (htonl little afile)
    ++ host_mem little (htonl little alength)).

(** Two writes: the header, then the data after it. *)
Definition udisk_LogWriteData (little : bool) (d : disk) (afile : Z) (abuffer : list Z)
    (apos : Z) : Z * disk :=
  let lpos := uphys_stat d LOGFILE in
  let hd := host_mem little (htonl little LOGDATA) ++ host_mem little (htonl little afile)
    ++ host_mem little (htonl little apos)
    ++ host_mem little (htonl little (Z.of_nat (length abuffer))) in
  match uphys_write d LOGFILE lpos hd with
  | None => (UIOERROR, d)
  | Some d1 =>
      match uphys_write d1 LOGFILE (lpos + 16) abuffer with
      | None => (UIOERROR, d1)
      | Some d2 => (0, d2)
      end
  end.

(** ** [ReplayLog] *)

(** Read [n] whole words of the log at [tpos] into host integers. *)
Definition read_words (little : bool) (d : disk) (tpos : Z) (n : nat) : option (list Z) :=
  match uphys_read d LOGFILE tpos (4 * Z.of_nat n) with
  | Some b =>
      if Nat.eqb (length b) (4 * n)
      then Some (map (fun i => host_int little (take 4 (drop (4 * i) b))) (seq 0 n))
      else None
  | None => None
  end.

Definition word (ws : list Z) (i : nat) : Z := nth i ws 0.

(** First pass: is there a commit record? [None] when the fuel runs out. *)
Fixpoint scan_log (little : bool) (d : disk) (tpos : Z) (fuel : nat) : option bool :=
  match fuel with
  | O => None
  | S fuel' =>
      match read_words little d tpos 1 with
      | None => Some false
      | Some ws =>
          let opcode := word ws 0 in
          if opcode =? LOGNEW then scan_log little d (s32 (tpos + 4)) fuel'
          else if opcode =? LOGABORT then Some false
          else if opcode =? LOGEND then Some true
          else if opcode =? LOGTRUNCATE then
            match read_words little d (s32 (tpos + 4)) 2 with
            | None => Some false
            | Some _ => scan_log little d (s32 (tpos + 12)) fuel'
            end
          else if opcode =? LOGDATA then
            match read_words little d (s32 (tpos + 4)) 3 with
            | None => Some false
            | Some b => scan_log little d (s32 (tpos + 4 + (word b 2 + 12))) fuel'
            end
          else Some false
      end
  end.

(** What the second pass may come to: a return with a code, the end of the
    loop with or without the commit record, [panic]. *)
Inductive replayed :=
| RReturn (code : Z) (d : disk)
| REnd (logIsGood : bool) (d : disk)
| RPanic
| RFuel.

(** The copy of [len] bytes from the log into file [tfile], 4096 at a time. *)
Fixpoint copy_data (d : disk) (tfile filePos tpos len : Z) (fuel : nat) : option (bool * disk) :=
  match fuel with
  | O => None
  | S fuel' =>
      if len <=? 0 then Some (true, d)
      else
        let thisSize := if 4096 <? len then 4096 else len in
        match uphys_read d LOGFILE tpos thisSize with
        | None => Some (false, d)
        | Some b =>
            if Z.of_nat (length b) =? thisSize then
              match uphys_write d tfile filePos b with
              | None => Some (false, d)
              | Some d' => copy_data d' tfile (s32 (filePos + thisSize))
                             (s32 (tpos + thisSize)) (len - thisSize) fuel'
              end
            else Some (false, d)
        end
  end.

Fixpoint replay_log (little : bool) (d : disk) (tpos : Z) (fuel : nat) : replayed :=
  match fuel with
  | O => RFuel
  | S fuel' =>
      match read_words little d tpos 1 with
      | None => REnd false d
      | Some ws =>
          let opcode := word ws 0 in
          if opcode =? LOGNEW then replay_log little d (s32 (tpos + 4)) fuel'
          else if opcode =? LOGABORT then RPanic
          else if opcode =? LOGEND then
            match read_words little d (s32 (tpos + 4)) 2 with
            | None => RReturn UBADLOG d
            | Some b =>
                REnd true (uphys_setlabel d 0 (Version (word b 0) (word b 1)))
            end
          else if opcode =? LOGTRUNCATE then
            match read_words little d (s32 (tpos + 4)) 2 with
            | None => REnd false d
            | Some b =>
                match uphys_truncate d (ntohl little (word b 0)) (ntohl little (word b 1)) with
                | None => RReturn (-1) d
                | Some d' => replay_log little d' (s32 (tpos + 12)) fuel'
                end
            end
          else if opcode =? LOGDATA then
            match read_words little d (s32 (tpos + 4)) 3 with
            | None => REnd false d
            | Some b =>
                let len := ntohl little (word b 2) in
                match copy_data d (ntohl little (word b 0)) (ntohl little (word b 1))
                        (s32 (tpos + 16)) len (S (Z.to_nat len)) with
                | None => RFuel
                | Some (false, d') => RReturn UBADLOG d'
                | Some (true, d') =>
                    replay_log little d' (s32 (tpos + 16 + Z.max 0 len)) fuel'
                end
            end
          else REnd false d
      end
  end.

(** [ReplayLog]: the code returned and the disk; [None] for [panic] or a loop
    that does not end within the fuel. *)
Definition ReplayLog (little : bool) (d : disk) (fuel : nat) : option (Z * disk) :=
  let finish d := match uphys_truncate d LOGFILE 0 with
                  | Some d' => (0, d') | None => (-1, d) end in
  match scan_log little d 0 fuel with
  | None => None
  | Some false => Some (finish d)
  | Some true =>
      match replay_log little d 0 fuel with
      | RReturn code d' => Some (code, d')
      | REnd true d' => Some (finish d')
      | REnd false d' => Some (UBADLOG, d')
      | RPanic | RFuel => None
      end
  end.

(** [InitializeDB]: the version of the database, which gets the label 1.1
    when it has none. *)
Definition InitializeDB (d : disk) : ubik_version * disk :=
  match uphys_getlabel d 0 with
  | inr v => (v, d)
  | inl _ => (Version 1 1, uphys_setlabel d 0 (Version 1 1))
  end.

(** [urecovery_Initialize] *)
Definition urecovery_Initialize (little : bool) (d : disk) (fuel : nat)
  : option (Z * ubik_version * disk) :=
  match ReplayLog little d fuel with
  | None => None
  | Some (code, d') =>
      if negb (code =? 0) then Some (code, Version 0 0, d')
      else let '(v, d'') := InitializeDB d' in Some (0, v, d'')
  end.

(** ** The log as a list of records *)

Inductive logrec :=
| LNew
| LAbort
| LEnd (v : ubik_version)
| LTrunc (f len : Z)
| LData (f pos : Z) (data : list Z).

Definition words (l : list Z) : list Z := concat (map be_bytes l).

Definition encode (r : logrec) : list Z :=
  match r with
  | LNew => words [LOGNEW]
  | LAbort => words [LOGABORT]
  | LEnd v => words [LOGEND; epoch v; counter v]
  | LTrunc f len => words [LOGTRUNCATE; f; len]
  | LData f pos data => words [LOGDATA; f; pos; Z.of_nat (length data)] ++ data
  end.

Definition log_of (l : list logrec) : list Z := concat (map encode l).

(** The log of a disk: its file without the header. *)
Definition log_bytes (d : disk) : list Z := drop 64 (contents d LOGFILE).

(** The effect a record has on the data files when it is replayed. *)
Definition apply_rec (d : disk) (r : logrec) : disk :=
  match r with
  | LNew | LAbort => d
  | LEnd v => uphys_setlabel d 0 v
  | LTrunc f len => default d (uphys_truncate d f len)
  | LData f pos data => if bool_decide (data = []) then d else default d (uphys_write d f pos data)
  end.
Definition apply_log (d : disk) (l : list logrec) : disk := fold_left apply_rec l d.

(** A record with a data file and numbers an [afs_int32] holds. *)
Definition int32 (z : Z) : Prop := INT_MIN <= z <= INT_MAX.
Definition rec_ok (r : logrec) : Prop :=
  match r with
  | LNew | LAbort => True
  | LEnd v => int32 (epoch v) /\ int32 (counter v)
  | LTrunc f len => 0 <= f <= INT_MAX /\ 0 <= len <= INT_MAX
  | LData f pos data => 0 <= f <= INT_MAX /\ 0 <= pos <= INT_MAX
      /\ pos + Z.of_nat (length data) <= INT_MAX
  end.

(** The records of a transaction between its begin and its end. *)
Definition is_op (r : logrec) : Prop :=
  match r with LTrunc _ _ | LData _ _ _ => True | _ => False end.

Definition log_empty (d : disk) : disk :=
  <[LOGFILE := file_truncate (contents d LOGFILE) 64]> d.

(** *** Appending *)

Lemma contents_insert d f c g :
  contents (<[f := c]> d) g = if decide (f = g) then c else contents d g.
Proof. unfold contents. rewrite lookup_insert. by case_decide. Qed.

Lemma log_append_spec d b :
  exists d', log_append d b = (0, d') /\ log_bytes d' = log_bytes d ++ b
    /\ forall f, f <> LOGFILE -> d' !! f = d !! f.
Proof.
  unfold log_append, uphys_write, uphys_stat, log_bytes.
  set (c := contents d LOGFILE).
  replace (Z.max 0 (Z.of_nat (length c) - HDRSIZE) + HDRSIZE <? 0) with false
    by (symmetry; apply Z.ltb_ge; unfold HDRSIZE; lia).
  eexists. split; [done |]. split; [| intros f Hf; by rewrite lookup_insert_ne].
  rewrite contents_insert, decide_True by done. unfold file_write, HDRSIZE.
  destruct (decide (length c <= 64)%nat) as [Hle | Hgt].
  - replace (Z.to_nat _) with 64%nat by lia. fold c.
    rewrite take_ge by (rewrite length_app; unfold zeros; rewrite length_replicate; lia).
    rewrite (drop_ge c 64) by lia. rewrite (drop_ge c) by lia.
    rewrite app_nil_r. apply drop_app_length'.
    rewrite length_app. unfold zeros. rewrite length_replicate. lia.
  - replace (Z.to_nat _) with (length c) by lia. fold c.
    rewrite Nat.sub_diag. simpl. rewrite app_nil_r, firstn_all.
    rewrite (drop_ge c (length c + length b)) by lia. rewrite app_nil_r.
    by rewrite drop_app_le by lia.
Qed.

Lemma length_file_write c off b : length (file_write c off b) = Nat.max (length c) (off + length b).
Proof.
  unfold file_write, zeros.
  rewrite !length_app, length_take, length_app, length_replicate, length_drop. lia.
Qed.

Lemma log_append_stat d b :
  uphys_stat (snd (log_append d b)) LOGFILE = uphys_stat d LOGFILE + Z.of_nat (length b).
Proof.
  unfold log_append, uphys_write.
  replace (uphys_stat d LOGFILE + HDRSIZE <? 0) with false
    by (symmetry; apply Z.ltb_ge; unfold HDRSIZE, uphys_stat; lia).
  simpl. unfold uphys_stat. rewrite contents_insert, decide_True by done.
  rewrite length_file_write. unfold HDRSIZE. lia.
Qed.

(** Every logging routine appends the record it is named after, whatever the
    byte order of the host, and touches no other file. *)
Definition appends (out : Z * disk) (d : disk) (r : logrec) : Prop :=
  out.1 = 0 /\ log_bytes out.2 = log_bytes d ++ encode r
  /\ forall f, f <> LOGFILE -> out.2 !! f = d !! f.

Lemma log_append_appends d b r : b = encode r -> appends (log_append d b) d r.
Proof.
  intros ->. destruct (log_append_spec d (encode r)) as (d' & -> & ? & ?). done.
Qed.

Lemma udisk_LogOpcode_new little d : appends (udisk_LogOpcode little d LOGNEW) d LNew.
Proof. apply log_append_appends. by rewrite host_mem_htonl. Qed.

Lemma udisk_LogOpcode_abort little d : appends (udisk_LogOpcode little d LOGABORT) d LAbort.
Proof. apply log_append_appends. by rewrite host_mem_htonl. Qed.

Lemma udisk_LogEnd_appends little d v : appends (udisk_LogEnd little d v) d (LEnd v).
Proof. apply log_append_appends. by rewrite !host_mem_htonl. Qed.

Lemma udisk_LogTruncate_appends little d f n :
  appends (udisk_LogTruncate little d f n) d (LTrunc f n).
Proof. apply log_append_appends. by rewrite !host_mem_htonl. Qed.

Lemma udisk_LogWriteData_append little d f b pos :
  udisk_LogWriteData little d f b pos
  = log_append (snd (log_append d (words [LOGDATA; f; pos; Z.of_nat (length b)]))) b.
Proof.
  pose proof (log_append_stat d (words [LOGDATA; f; pos; Z.of_nat (length b)])) as Hs.
  unfold udisk_LogWriteData. rewrite !host_mem_htonl.
  change (be_bytes LOGDATA ++ be_bytes f ++ be_bytes pos ++ be_bytes (Z.of_nat (length b)))
    with (words [LOGDATA; f; pos; Z.of_nat (length b)]).
  unfold log_append in Hs |- * at 2.
  destruct (uphys_write d LOGFILE (uphys_stat d LOGFILE) _) as [d1 |] eqn:E1.
  - simpl in *. unfold log_append. rewrite Hs. by destruct (uphys_write d1 _ _ _).
  - unfold uphys_write in E1. case_test_in E1; [| done]. unfold uphys_stat, HDRSIZE in *. lia.
Qed.

Lemma udisk_LogWriteData_appends little d f b pos :
  appends (udisk_LogWriteData little d f b pos) d (LData f pos b).
Proof.
  rewrite udisk_LogWriteData_append.
  destruct (log_append_spec d (words [LOGDATA; f; pos; Z.of_nat (length b)]))
    as (d1 & -> & H1 & H1'). simpl.
  destruct (log_append_spec d1 b) as (d2 & -> & H2 & H2').
  split; [done |]. simpl. split; [by rewrite H2, H1, <- app_assoc |].
  intros g Hg. by rewrite H2', H1'.
Qed.

(** *** Reading *)

(** What the log holds from [tpos] on. *)
Definition at_log (d : disk) (tpos : Z) (rest : list Z) : Prop :=
  0 <= tpos /\ drop (Z.to_nat tpos) (log_bytes d) = rest
  /\ tpos + Z.of_nat (length rest) <= INT_MAX.

Lemma at_log_skip d tpos b rest n :
  at_log d tpos (b ++ rest) -> n = Z.of_nat (length b) ->
  at_log d (s32 (tpos + n)) rest.
Proof.
  intros (Hpos & Hd & Hmax) ->. rewrite length_app in Hmax.
  rewrite s32_small by (unfold INT_MIN; lia). split; [lia |]. split; [| lia].
  rewrite Z2Nat.inj_add, Nat2Z.id by lia. rewrite <- drop_drop, Hd.
  by apply drop_app_length.
Qed.

Lemma at_log_read d tpos rest n :
  at_log d tpos rest -> uphys_read d LOGFILE tpos n = Some (take (Z.to_nat n) rest).
Proof.
  intros (Hpos & <- & _). unfold uphys_read, HDRSIZE.
  replace (tpos + 64 <? 0) with false by (symmetry; apply Z.ltb_ge; lia).
  unfold log_bytes. rewrite drop_drop. by replace (Z.to_nat (tpos + 64)) with (64 + Z.to_nat tpos)%nat by lia.
Qed.

Lemma length_words l : length (words l) = (4 * length l)%nat.
Proof. induction l as [| v l IH]; [done |]. unfold words in *. simpl. rewrite IH. lia. Qed.

Lemma words_nth little l i :
  (i < length l)%nat ->
  host_int little (take 4 (drop (4 * i) (words l))) = host_int little (be_bytes (nth i l 0)).
Proof.
  revert i. induction l as [| v l IH]; intros i Hi; [simpl in Hi; lia |].
  destruct i as [| i]; [done |].
  replace (4 * S i)%nat with (4 + 4 * i)%nat by lia.
  change (words (v :: l)) with (be_bytes v ++ words l).
  rewrite <- drop_drop, (drop_app_length' _ _ 4) by done. apply IH. simpl in Hi. lia.
Qed.

Lemma read_words_ok little d tpos l rest :
  at_log d tpos (words l ++ rest) ->
  read_words little d tpos (length l) = Some (map (fun v => host_int little (be_bytes v)) l).
Proof.
  intros H. unfold read_words. rewrite (at_log_read _ _ _ _ H).
  replace (Z.to_nat (4 * Z.of_nat (length l))) with (length (words l))
    by (rewrite length_words; lia).
  rewrite take_app_length, length_words, Nat.eqb_refl. f_equal.
  apply list_eq. intros i. rewrite !list_lookup_fmap.
  destruct (decide (i < length l)%nat) as [Hi | Hi].
  - rewrite lookup_seq_lt by done. cbn [fmap option_fmap option_map].
    rewrite Nat.add_0_l, words_nth by done.
    destruct (l !! i) as [v |] eqn:E; [| apply lookup_ge_None in E; lia].
    by rewrite (nth_lookup_Some _ _ _ _ E).
  - rewrite lookup_seq_ge by lia. by rewrite (lookup_ge_None_2 l) by lia.
Qed.

Lemma read_words_short little d tpos rest n :
  at_log d tpos rest -> (length rest < 4 * n)%nat -> read_words little d tpos n = None.
Proof.
  intros H Hlen. unfold read_words. rewrite (at_log_read _ _ _ _ H).
  rewrite take_ge by lia. by replace (Nat.eqb _ _) with false by (symmetry; apply Nat.eqb_neq; lia).
Qed.

(** *** The two passes on a big-endian host *)

Definition rec_len (r : logrec) : Z := Z.of_nat (length (encode r)).

Lemma host_int_word v : int32 v -> host_int false (be_bytes v) = v.
Proof. intros Hv. rewrite host_int_be. by apply s32_small. Qed.

Lemma int32_nonneg z : 0 <= z <= INT_MAX -> int32 z.
Proof. unfold int32, INT_MIN. lia. Qed.
#[local] Hint Resolve int32_nonneg : core.

Lemma opcode_int32 op : LOGNEW <= op <= LOGTRUNCATE -> int32 op.
Proof. unfold LOGNEW, LOGTRUNCATE, int32, INT_MIN, INT_MAX. lia. Qed.

(** Reading the opcode, and the parameters after it. *)
Lemma read_opcode d tpos l rest :
  at_log d tpos (words l ++ rest) -> l <> [] -> int32 (hd 0 l) ->
  read_words false d tpos 1 = Some [hd 0 l].
Proof.
  intros H Hl Hop. destruct l as [| op l]; [done |]. simpl in *.
  pose proof (read_words_ok false d tpos [op] (words l ++ rest)) as Hr.
  simpl in Hr. rewrite Hr; [by rewrite host_int_word |].
  exact H.
Qed.

Lemma read_params d tpos op l rest n :
  at_log d tpos (words (op :: l) ++ rest) -> Forall int32 l -> n = length l ->
  read_words false d (s32 (tpos + 4)) n = Some l.
Proof.
  intros H Hl ->. rewrite (read_words_ok false _ _ _ rest).
  - f_equal. rewrite <- (map_id l) at 2. apply map_ext_Forall.
    eapply Forall_impl; [exact Hl |]. apply host_int_word.
  - apply (at_log_skip d tpos (be_bytes op)); [| done].
    exact H.
Qed.

Lemma at_log_opcode d tpos r rest :
  at_log d tpos (encode r ++ rest) ->
  exists l rest', at_log d tpos (words l ++ rest') /\ l <> []
    /\ hd 0 l = match r with LNew => LOGNEW | LAbort => LOGABORT | LEnd _ => LOGEND
                | LTrunc _ _ => LOGTRUNCATE | LData _ _ _ => LOGDATA end.
Proof.
  destruct r as [| | v | f n | f pos data]; simpl; intros H.
  - exists [LOGNEW], rest. done.
  - exists [LOGABORT], rest. done.
  - exists [LOGEND; epoch v; counter v], rest. done.
  - exists [LOGTRUNCATE; f; n], rest. done.
  - exists [LOGDATA; f; pos; Z.of_nat (length data)], (data ++ rest). by rewrite app_assoc.
Qed.

Lemma rec_len_data f pos data :
  rec_len (LData f pos data) = 16 + Z.of_nat (length data).
Proof. unfold rec_len. simpl. lia. Qed.

Lemma scan_op d tpos r rest fuel :
  at_log d tpos (encode r ++ rest) -> is_op r \/ r = LNew -> rec_ok r ->
  scan_log false d tpos (S fuel) = scan_log false d (s32 (tpos + rec_len r)) fuel.
Proof.
  intros H Hop Hok. cbn [scan_log].
  destruct (at_log_opcode _ _ _ _ H) as (l & rest' & Hl & Hne & Hhd).
  rewrite (read_opcode _ _ _ _ Hl Hne) by (rewrite Hhd; apply opcode_int32; by destruct r).
  rewrite Hhd. unfold word. cbn [nth]. unfold rec_len.
  destruct r as [| | v | f n | f pos data]; try (by destruct Hop); simpl in Hok;
    cbn [Z.eqb LOGNEW LOGABORT LOGEND LOGTRUNCATE LOGDATA Pos.eqb].
  - rewrite (read_params d tpos LOGTRUNCATE [f; n] rest); [done | done | | done].
    repeat constructor; apply int32_nonneg; lia.
  - rewrite (read_params d tpos LOGDATA [f; pos; Z.of_nat (length data)] (data ++ rest)).
    + unfold word. cbn [nth]. f_equal. f_equal. fold (rec_len (LData f pos data)).
      rewrite rec_len_data. lia.
    + rewrite app_assoc. exact H.
    + repeat constructor; apply int32_nonneg; lia.
    + done.
Qed.

Lemma log_of_cons r l : log_of (r :: l) = encode r ++ log_of l.
Proof. done. Qed.
Lemma log_of_snoc l r : log_of (l ++ [r]) = log_of l ++ encode r.
Proof. unfold log_of. rewrite map_app, concat_app. cbn [map concat]. by rewrite app_nil_r. Qed.

Lemma at_log_next d tpos r rest :
  at_log d tpos (encode r ++ rest) ->
  s32 (tpos + rec_len r) = tpos + rec_len r /\ at_log d (tpos + rec_len r) rest.
Proof.
  intros H. pose proof (at_log_skip _ _ _ _ _ H eq_refl) as H'.
  destruct H as (Hpos & _ & Hmax). rewrite length_app in Hmax.
  assert (E : s32 (tpos + rec_len r) = tpos + rec_len r)
    by (apply s32_small; unfold INT_MIN, rec_len; lia).
  fold (rec_len r) in H'. by rewrite E in H'.
Qed.

(** The records of an unfinished transaction: the scan passes over them. *)
Lemma scan_ops d l tpos rest fuel :
  at_log d tpos (log_of l ++ rest) -> Forall (fun r => (is_op r \/ r = LNew) /\ rec_ok r) l ->
  scan_log false d tpos (length l + fuel)
    = scan_log false d (tpos + Z.of_nat (length (log_of l))) fuel
  /\ at_log d (tpos + Z.of_nat (length (log_of l))) rest.
Proof.
  revert tpos. induction l as [| r l IH]; intros tpos H Hl; [by rewrite Z.add_0_r |].
  apply Forall_cons in Hl as [[Hop Hok] Hl].
  rewrite log_of_cons, <- app_assoc in H. destruct (at_log_next _ _ _ _ H) as [E H'].
  simpl length. rewrite Nat.add_succ_l, (scan_op _ _ r _ _ H), E by done.
  destruct (IH _ H' Hl) as [-> H'']. rewrite log_of_cons, length_app.
  replace (tpos + Z.of_nat (length (encode r) + length (log_of l)))
    with (tpos + rec_len r + Z.of_nat (length (log_of l))) by (unfold rec_len; lia).
  done.
Qed.

Lemma scan_end d tpos v rest fuel :
  at_log d tpos (encode (LEnd v) ++ rest) -> scan_log false d tpos (S fuel) = Some true.
Proof.
  intros H. cbn [scan_log].
  rewrite (read_opcode d tpos [LOGEND; epoch v; counter v] rest); [done | exact H | done |].
  apply opcode_int32. done.
Qed.

Lemma scan_short d tpos rest fuel :
  at_log d tpos rest -> (length rest < 4)%nat -> scan_log false d tpos (S fuel) = Some false.
Proof.
  intros H Hlen. cbn [scan_log]. by rewrite (read_words_short _ _ _ _ _ H).
Qed.

(** A cut through some words and data that keeps the words. *)
Lemma cut_words l t rest r :
  words l ++ t = rest ++ r -> (4 * length l <= length rest)%nat ->
  exists t', rest = words l ++ t' /\ t = t' ++ r.
Proof.
  intros E Hlen. apply app_eq_app in E as (k & [[E1 E2] | [E1 E2]]); [| by exists k].
  assert (k = []) as ->.
  { apply nil_length_inv. pose proof (length_words l) as Hw. rewrite E1, length_app in Hw. lia. }
  exists []. rewrite app_nil_r in *. by rewrite E1, E2.
Qed.

(** What follows the complete records of an uncommitted log: the mark of an
    abort, or an operation's record of which [r] never reached the disk. *)
Definition torn (d : disk) (tpos : Z) (rest : list Z) : Prop :=
  (exists r, rest = encode LAbort ++ r)
  \/ (exists op r, is_op op /\ rec_ok op /\ encode op = rest ++ r /\ r <> []
        /\ tpos + rec_len op <= INT_MAX).

Lemma at_log_end d tpos rest n :
  at_log d tpos rest -> Z.of_nat (length rest) <= n -> tpos + n <= INT_MAX ->
  at_log d (s32 (tpos + n)) [].
Proof.
  intros (Hpos & Hd & Hmax) Hn Hfit. rewrite s32_small by (unfold INT_MIN; lia).
  split; [lia |]. split; [| simpl; lia].
  replace (Z.to_nat (tpos + n)) with (Z.to_nat tpos + Z.to_nat n)%nat by lia.
  rewrite <- drop_drop, Hd. apply drop_ge. lia.
Qed.

Lemma scan_torn d tpos rest fuel :
  at_log d tpos rest -> torn d tpos rest -> scan_log false d tpos (S (S fuel)) = Some false.
Proof.
  intros H [[r ->] | (op & r & Hop & Hok & Henc & Hr & Hfit)].
  { cbn [scan_log]. rewrite (read_opcode d tpos [LOGABORT] r); [done | exact H | done |].
    by apply opcode_int32. }
  assert (Hk : (0 < length r)%nat) by (destruct r; [done | simpl; lia]).
  assert (Hlen : Z.of_nat (length rest + length r) = rec_len op)
    by (unfold rec_len; by rewrite Henc, length_app).
  destruct (decide (length rest < 4)%nat) as [Hs | Hs]; [by eapply scan_short |].
  destruct op as [| | v | f n | f pos data]; try done; simpl in Hok.
  - destruct (cut_words [LOGTRUNCATE] (words [f; n]) rest r) as (t & -> & Et);
      [exact Henc | simpl; lia |].
    cbn [scan_log]. rewrite (read_opcode d tpos [LOGTRUNCATE] t); [| exact H | done | by apply opcode_int32].
    unfold word. cbn [nth hd Z.eqb LOGNEW LOGABORT LOGEND LOGTRUNCATE LOGDATA Pos.eqb].
    rewrite (read_words_short false d (s32 (tpos + 4)) t); [done | by apply (at_log_skip _ _ (words [LOGTRUNCATE])) |].
    unfold rec_len in Hlen. rewrite length_app in Hlen. simpl in Hlen. lia.
  - destruct (cut_words [LOGDATA] (words [f; pos; Z.of_nat (length data)] ++ data) rest r)
      as (t & -> & Et); [exact Henc | simpl; lia |].
    cbn [scan_log]. rewrite (read_opcode d tpos [LOGDATA] t); [| exact H | done | by apply opcode_int32].
    unfold word. cbn [nth hd Z.eqb LOGNEW LOGABORT LOGEND LOGTRUNCATE LOGDATA Pos.eqb].
    assert (Ht : at_log d (s32 (tpos + 4)) t) by by apply (at_log_skip _ _ (words [LOGDATA])).
    destruct (decide (length t < 12)%nat) as [Hs' | Hs'].
    { by rewrite (read_words_short false d (s32 (tpos + 4)) t). }
    destruct (cut_words [f; pos; Z.of_nat (length data)] data t r) as (u & -> & Eu);
      [exact Et | simpl; lia |].
    rewrite (read_params d tpos LOGDATA [f; pos; Z.of_nat (length data)] u);
      [| rewrite app_assoc in H; exact H | repeat constructor; apply int32_nonneg; lia | done].
    cbn [nth]. rewrite rec_len_data in Hlen, Hfit.
    apply (scan_short _ _ []); [| simpl; lia].
    replace (tpos + 4 + (Z.of_nat (length data) + 12)) with (tpos + (16 + Z.of_nat (length data))) by lia.
    apply (at_log_end _ _ _ _ H); lia.
Qed.

(** *** Replaying *)

(** A file as a function of the offset, and what a write does to it. *)
Lemma file_write_lookup c off b i :
  file_write c off b !! i =
    if decide (off <= i < off + length b)%nat then b !! (i - off)%nat
    else if decide (i < length c)%nat then c !! i
    else if decide (i < off)%nat then Some 0 else None.
Proof.
  unfold file_write, zeros.
  assert (Ht : length (take off (c ++ replicate (off - length c) 0)) = off)
    by (rewrite length_take, length_app, length_replicate; lia).
  destruct (decide (i < off)%nat) as [Hi | Hi].
  - rewrite lookup_app_l by lia. rewrite lookup_take_lt by lia.
    rewrite decide_False by lia.
    destruct (decide (i < length c)%nat); [by rewrite lookup_app_l |].
    rewrite lookup_app_r by lia. apply lookup_replicate_2. lia.
  - rewrite lookup_app_r by lia. rewrite Ht.
    destruct (decide (i < off + length b)%nat).
    + rewrite decide_True by lia. by rewrite lookup_app_l by lia.
    + rewrite decide_False by lia. rewrite lookup_app_r, lookup_drop by lia.
      replace (off + length b + (i - off - length b))%nat with i by lia.
      case_decide; [done |]. apply lookup_ge_None_2. lia.
Qed.

Lemma file_write_app c off b1 b2 :
  b1 <> [] -> file_write (file_write c off b1) (off + length b1) b2 = file_write c off (b1 ++ b2).
Proof.
  intros Hne. assert (0 < length b1)%nat by (destruct b1; [done | simpl; lia]).
  apply list_eq. intros i. rewrite !file_write_lookup, length_file_write, length_app.
  repeat case_decide; try lia; try done.
  - rewrite lookup_app_r by lia. f_equal. lia.
  - rewrite lookup_app_l by lia. done.
Qed.

Lemma uphys_write_ok d f pos b :
  0 <= pos ->
  uphys_write d f pos b = Some (<[f := file_write (contents d f) (Z.to_nat (pos + 64)) b]> d).
Proof. intros Hpos. unfold uphys_write, HDRSIZE. by destruct (Z.ltb_spec (pos + 64) 0); [lia |]. Qed.

Lemma log_bytes_insert d f c : f <> LOGFILE -> log_bytes (<[f := c]> d) = log_bytes d.
Proof. intros Hf. unfold log_bytes. by rewrite contents_insert, decide_False. Qed.

Lemma at_log_insert d f c tpos rest :
  f <> LOGFILE -> at_log (<[f := c]> d) tpos rest <-> at_log d tpos rest.
Proof. intros Hf. unfold at_log. by rewrite log_bytes_insert. Qed.

Lemma copy_data_spec f fuel : f <> LOGFILE -> forall d pos tpos data rest,
  at_log d tpos (data ++ rest) -> 0 <= pos -> pos + Z.of_nat (length data) <= INT_MAX ->
  (length data < fuel)%nat ->
  copy_data d f pos tpos (Z.of_nat (length data)) fuel = Some (true, apply_rec d (LData f pos data)).
Proof.
  intros Hf. induction fuel as [| fuel IH]; intros d pos tpos data rest H Hpos Hmax Hfuel; [lia |].
  cbn [copy_data]. destruct (Z.leb_spec (Z.of_nat (length data)) 0) as [Hz | Hz].
  { assert (data = []) as -> by (apply nil_length_inv; lia). done. }
  set (n := if 4096 <? Z.of_nat (length data) then 4096 else Z.of_nat (length data)).
  assert (Hn : 0 < n <= Z.of_nat (length data)) by (subst n; case_test; lia). clearbody n.
  set (b := take (Z.to_nat n) data). set (data' := drop (Z.to_nat n) data).
  assert (Hdata : data = b ++ data') by (symmetry; apply take_drop).
  assert (Hb : Z.of_nat (length b) = n) by (unfold b; rewrite length_take; lia).
  rewrite (at_log_read _ _ _ _ H), take_app_le by lia. fold b.
  rewrite Hb, Z.eqb_refl. rewrite (uphys_write_ok d f pos b Hpos).
  assert (Hlen : Z.of_nat (length data) - n = Z.of_nat (length data'))
    by (unfold data'; rewrite length_drop; lia).
  rewrite Hlen. rewrite Hdata, <- app_assoc in H.
  assert (Hpos' : s32 (pos + n) = pos + n) by (apply s32_small; unfold INT_MIN; lia).
  rewrite Hpos'.
  rewrite (IH _ _ _ _ rest); [| apply at_log_insert; [done |]; by apply (at_log_skip _ _ b) | lia | lia | lia].
  f_equal. f_equal. unfold apply_rec.
  assert (Hne : b <> []) by (intros E; rewrite E in Hb; simpl in Hb; lia).
  rewrite (bool_decide_eq_false_2 (data = [])) by (rewrite Hdata; by destruct b).
  rewrite (uphys_write_ok d f pos data Hpos). simpl.
  case_bool_decide as Hd'.
  - rewrite Hdata, Hd', app_nil_r. done.
  - rewrite uphys_write_ok by lia. simpl. rewrite insert_insert_eq, contents_insert, decide_True by done.
    f_equal. rewrite Hdata. rewrite <- file_write_app by done. f_equal. lia.
Qed.

Lemma apply_rec_log d r tpos rest :
  is_op r \/ r = LNew -> rec_ok r -> at_log (apply_rec d r) tpos rest <-> at_log d tpos rest.
Proof.
  intros Hop Hok.
  assert (Hne : forall f, 0 <= f -> f <> LOGFILE) by (unfold LOGFILE; lia).
  destruct r as [| | v | f n | f pos data]; try (by destruct Hop); simpl in *.
  - unfold uphys_truncate. case_test; simpl; [done |]. apply at_log_insert, Hne. lia.
  - case_bool_decide; [done |]. rewrite uphys_write_ok by lia. simpl. apply at_log_insert, Hne. lia.
Qed.

Lemma replay_op d tpos r rest fuel :
  at_log d tpos (encode r ++ rest) -> is_op r \/ r = LNew -> rec_ok r ->
  replay_log false d tpos (S fuel)
  = replay_log false (apply_rec d r) (s32 (tpos + rec_len r)) fuel.
Proof.
  intros H Hop Hok. cbn [replay_log].
  destruct (at_log_opcode _ _ _ _ H) as (l & rest' & Hl & Hne & Hhd).
  rewrite (read_opcode _ _ _ _ Hl Hne) by (rewrite Hhd; apply opcode_int32; by destruct r).
  rewrite Hhd. unfold word. cbn [nth]. clear l rest' Hl Hne Hhd.
  destruct r as [| | v | f n | f pos data]; try (by destruct Hop); simpl in Hok;
    cbn [Z.eqb LOGNEW LOGABORT LOGEND LOGTRUNCATE LOGDATA Pos.eqb].
  - rewrite (read_params d tpos LOGTRUNCATE [f; n] rest); [ | done | | done].
    + cbn [nth htonl]. unfold apply_rec. unfold uphys_truncate.
      destruct (Z.ltb_spec (n + HDRSIZE) 0); [unfold HDRSIZE in *; lia | done].
    + repeat constructor; apply int32_nonneg; lia.
  - rewrite (read_params d tpos LOGDATA [f; pos; Z.of_nat (length data)] (data ++ rest)).
    + cbn [nth htonl].
      rewrite (copy_data_spec f) with (rest := rest); [| unfold LOGFILE; lia | | lia | lia | lia].
      * f_equal. f_equal. rewrite rec_len_data. lia.
      * apply (at_log_skip d tpos (words [LOGDATA; f; pos; Z.of_nat (length data)])); [| done].
        rewrite app_assoc. exact H.
    + rewrite app_assoc. exact H.
    + repeat constructor; apply int32_nonneg; lia.
    + done.
Qed.

Lemma replay_ops l : forall d tpos rest fuel,
  at_log d tpos (log_of l ++ rest) -> Forall (fun r => (is_op r \/ r = LNew) /\ rec_ok r) l ->
  exists tpos', replay_log false d tpos (length l + fuel) = replay_log false (apply_log d l) tpos' fuel
    /\ at_log (apply_log d l) tpos' rest.
Proof.
  induction l as [| r l IH]; intros d tpos rest fuel H Hl; [by exists tpos |].
  apply Forall_cons in Hl as [[Hop Hok] Hl].
  rewrite log_of_cons, <- app_assoc in H.
  simpl length. rewrite Nat.add_succ_l, (replay_op _ _ r _ _ H) by done.
  apply IH; [| done]. apply apply_rec_log; [done.. |]. by apply (at_log_skip _ _ (encode r)).
Qed.

Lemma replay_end d tpos v rest fuel :
  at_log d tpos (encode (LEnd v) ++ rest) -> rec_ok (LEnd v) ->
  replay_log false d tpos (S fuel) = REnd true (apply_rec d (LEnd v)).
Proof.
  intros H [He Hc]. cbn [replay_log].
  rewrite (read_opcode d tpos [LOGEND; epoch v; counter v] rest); [| exact H | done |].
  2: { by apply opcode_int32. }
  unfold word. cbn [nth hd Z.eqb LOGNEW LOGABORT LOGEND LOGTRUNCATE LOGDATA Pos.eqb].
  rewrite (read_params d tpos LOGEND [epoch v; counter v] rest); [| exact H | repeat apply Forall_cons_2; [done | done | apply Forall_nil_2] | done].
  cbn [nth]. by destruct v.
Qed.

(** ** Theorems *)

(** The whole log, as the bytes of a list of records and what follows them. *)
Lemma at_log_start d l rest :
  log_bytes d = log_of l ++ rest -> Z.of_nat (length (log_bytes d)) <= INT_MAX ->
  at_log d 0 (log_of l ++ rest).
Proof. intros E Hmax. split; [lia |]. rewrite <- E. split; [done | lia]. Qed.

Definition trans_records (ops : list logrec) : list logrec := LNew :: ops.

Lemma trans_records_ok ops :
  Forall is_op ops -> Forall rec_ok ops ->
  Forall (fun r => (is_op r \/ r = LNew) /\ rec_ok r) (trans_records ops).
Proof.
  intros H1 H2. apply Forall_cons_2; [split; [by right | done] |].
  rewrite Forall_forall in *. intros r Hr. split; [left |]; auto.
Qed.

Lemma truncate_log d : uphys_truncate d LOGFILE 0 = Some (log_empty d).
Proof. done. Qed.

(** Redo: a log with a commit record is replayed in full. *)
Lemma ReplayLog_redo d ops v rest fuel :
  log_bytes d = log_of (trans_records ops ++ [LEnd v]) ++ rest ->
  Z.of_nat (length (log_bytes d)) <= INT_MAX ->
  Forall is_op ops -> Forall rec_ok ops -> rec_ok (LEnd v) ->
  (length ops + 2 <= fuel)%nat ->
  ReplayLog false d fuel = Some (0, log_empty (apply_log d (trans_records ops ++ [LEnd v]))).
Proof.
  intros E Hmax Hop Hok Hv Hfuel.
  pose proof (trans_records_ok _ Hop Hok) as Hl.
  assert (H : at_log d 0 (log_of (trans_records ops) ++ encode (LEnd v) ++ rest)).
  { rewrite app_assoc, <- log_of_snoc. by apply at_log_start. }
  replace fuel with (length (trans_records ops) + S (fuel - length ops - 2))%nat by (simpl; lia).
  unfold ReplayLog.
  destruct (scan_ops d _ _ _ (S (fuel - length ops - 2)) H Hl) as [-> H1].
  rewrite (scan_end _ _ _ _ _ H1).
  destruct (replay_ops _ d _ _ (S (fuel - length ops - 2)) H Hl) as (t2 & -> & H2).
  rewrite (replay_end _ _ _ _ _ H2) by done.
  rewrite truncate_log. unfold apply_log. by rewrite fold_left_app.
Qed.

(** No undo: without a commit record nothing is replayed. *)
Lemma ReplayLog_no_undo d ops rest fuel :
  log_bytes d = log_of (trans_records ops) ++ rest ->
  Z.of_nat (length (log_bytes d)) <= INT_MAX ->
  Forall is_op ops -> Forall rec_ok ops ->
  (length rest < 4)%nat \/ torn d (Z.of_nat (length (log_of (trans_records ops)))) rest ->
  (length ops + 3 <= fuel)%nat ->
  ReplayLog false d fuel = Some (0, log_empty d).
Proof.
  intros E Hmax Hop Hok Hrest Hfuel.
  pose proof (at_log_start _ _ _ E Hmax) as H.
  replace fuel with (length (trans_records ops) + S (S (fuel - length ops - 3)))%nat by (simpl; lia).
  unfold ReplayLog.
  destruct (scan_ops d _ _ _ (S (S (fuel - length ops - 3))) H (trans_records_ok _ Hop Hok))
    as [-> H1].
  replace (scan_log _ _ _ _) with (Some false); [by rewrite truncate_log |].
  symmetry. destruct Hrest as [Hs | Ht]; [by eapply scan_short | by eapply scan_torn].
Qed.

(** The logging call that makes a record, and the calls of a transaction in
    their order. *)
Definition log_call (little : bool) (d : disk) (r : logrec) : Z * disk :=
  match r with
  | LNew => udisk_LogOpcode little d LOGNEW
  | LAbort => udisk_LogOpcode little d LOGABORT
  | LEnd v => udisk_LogEnd little d v
  | LTrunc f len => udisk_LogTruncate little d f len
  | LData f pos data => udisk_LogWriteData little d f data pos
  end.
Definition log_calls (little : bool) (d : disk) (l : list logrec) : disk :=
  fold_left (fun d r => (log_call little d r).2) l d.

Lemma log_call_appends little d r : appends (log_call little d r) d r.
Proof.
  destruct r; [apply udisk_LogOpcode_new | apply udisk_LogOpcode_abort
    | apply udisk_LogEnd_appends | apply udisk_LogTruncate_appends
    | apply udisk_LogWriteData_appends].
Qed.

Lemma log_calls_spec little l : forall d,
  log_bytes (log_calls little d l) = log_bytes d ++ log_of l
  /\ forall f, f <> LOGFILE -> log_calls little d l !! f = d !! f.
Proof.
  induction l as [| r l IH]; intros d; [by rewrite app_nil_r |].
  destruct (log_call_appends little d r) as (_ & Hb & Hf).
  destruct (IH (log_call little d r).2) as [IH1 IH2]. unfold log_calls in *. cbn [fold_left].
  rewrite IH1, Hb, log_of_cons, <- app_assoc. split; [done |].
  intros f Hne. by rewrite IH2, Hf.
Qed.

(** The data files after a replay depend on the data files before it only. *)
Definition same_files (d1 d2 : disk) : Prop := forall f, f <> LOGFILE -> d1 !! f = d2 !! f.

Lemma apply_rec_same d1 d2 r :
  is_op r \/ r = LNew \/ (exists v, r = LEnd v) -> rec_ok r -> same_files d1 d2 ->
  same_files (apply_rec d1 r) (apply_rec d2 r).
Proof.
  intros Hr Hok H f Hf. unfold same_files, contents in *.
  destruct r as [| | v | g n | g pos data]; simpl in *; try by apply H.
  - unfold uphys_setlabel, contents. rewrite !lookup_insert, (H 0) by done.
    case_decide; [done | by apply H].
  - unfold uphys_truncate, contents. case_test; simpl; [by apply H |].
    rewrite !lookup_insert, (H g) by (unfold LOGFILE; lia). case_decide; [done | by apply H].
  - case_bool_decide; [by apply H |]. rewrite !uphys_write_ok by lia. simpl. unfold contents.
    rewrite !lookup_insert, (H g) by (unfold LOGFILE; lia). case_decide; [done | by apply H].
Qed.

Lemma apply_log_same l : forall d1 d2,
  Forall (fun r => (is_op r \/ r = LNew \/ (exists v, r = LEnd v)) /\ rec_ok r) l ->
  same_files d1 d2 -> same_files (apply_log d1 l) (apply_log d2 l).
Proof.
  induction l as [| r l IH]; intros d1 d2 Hl H; [done |].
  apply Forall_cons in Hl as [[Hr Hok] Hl]. apply (IH _ _ Hl). by apply apply_rec_same.
Qed.

Lemma log_empty_same d : same_files (log_empty d) d.
Proof. intros f Hf. unfold log_empty. by rewrite lookup_insert_ne. Qed.

Lemma same_files_trans d1 d2 d3 : same_files d1 d2 -> same_files d2 d3 -> same_files d1 d3.
Proof. intros H1 H2 f Hf. by rewrite H1, H2. Qed.

(** C3. Redo: on a big-endian host, when the log holds the calls of a committed
    transaction -- [udisk_LogOpcode(LOGNEW)], its [udisk_LogWriteData]s and
    [udisk_LogTruncate]s, [udisk_LogEnd] -- and perhaps more bytes, the replay
    succeeds and every data file gets the writes and truncations of the
    transaction in the order they were logged, the database (file 0) the
    logged version as its label. *)
Theorem ReplayLog_committed d ops v rest d' fuel :
  log_bytes d = [] ->
  d' = (log_append (log_calls false d (trans_records ops ++ [LEnd v])) rest).2 ->
  Z.of_nat (length (log_bytes d')) <= INT_MAX ->
  Forall is_op ops -> Forall rec_ok ops -> rec_ok (LEnd v) -> (length ops + 2 <= fuel)%nat ->
  exists d'', ReplayLog false d' fuel = Some (0, d'') /\ log_bytes d'' = []
    /\ same_files d'' (apply_log d (ops ++ [LEnd v])).
Proof.
  intros Hd -> Hmax Hop Hok Hv Hfuel.
  set (l := trans_records ops ++ [LEnd v]) in *.
  destruct (log_calls_spec false l d) as [Hb Hf].
  destruct (log_append_spec (log_calls false d l) rest) as (d1 & E & Hb1 & Hf1).
  rewrite E in *. cbn [snd] in *. rewrite Hb, Hd in Hb1.
  eexists. split; [by apply (ReplayLog_redo d1 ops v rest) |]. split.
  { unfold log_empty, log_bytes. rewrite contents_insert, decide_True by done.
    apply drop_ge. unfold file_truncate. rewrite length_take. lia. }
  eapply same_files_trans; [apply log_empty_same |].
  change (apply_log d (ops ++ [LEnd v])) with (apply_log d l).
  apply apply_log_same.
  - unfold l, trans_records. apply Forall_app_2; [| apply Forall_cons_2; [| done]].
    + apply Forall_cons_2; [split; [by right; left | done] |].
      rewrite Forall_forall in *. intros r Hr. split; [left |]; auto.
    + split; [right; right; by exists v | done].
  - intros f Hne. by rewrite Hf1, Hf.
Qed.

(** C4. No undo is needed: on a big-endian host a log without a commit
    record, cut anywhere after a complete record or inside the record of an
    operation, or ended by an abort, leaves every data file as it is. A commit
    record that is cut after its opcode is not such a log:
    [ReplayLog_torn_commit]. *)
Theorem ReplayLog_uncommitted d ops rest fuel :
  log_bytes d = log_of (trans_records ops) ++ rest ->
  Z.of_nat (length (log_bytes d)) <= INT_MAX ->
  Forall is_op ops -> Forall rec_ok ops ->
  (length rest < 4)%nat \/ torn d (Z.of_nat (length (log_of (trans_records ops)))) rest ->
  (length ops + 3 <= fuel)%nat ->
  ReplayLog false d fuel = Some (0, log_empty d).
Proof. apply ReplayLog_no_undo. Qed.

(** A commit record cut after its opcode: the first pass takes the opcode
    alone for a commit, so (big-endian host) the second pass applies the whole
    transaction to the data files, then fails to read the version and returns
    [UBADLOG], leaving the old label and the log. *)
Theorem ReplayLog_torn_commit d ops t fuel :
  log_bytes d = log_of (trans_records ops) ++ words [LOGEND] ++ t -> (length t < 8)%nat ->
  Z.of_nat (length (log_bytes d)) <= INT_MAX ->
  Forall is_op ops -> Forall rec_ok ops -> (length ops + 2 <= fuel)%nat ->
  ReplayLog false d fuel = Some (UBADLOG, apply_log d (trans_records ops)).
Proof.
  intros E Ht Hmax Hop Hok Hfuel.
  pose proof (trans_records_ok _ Hop Hok) as Hl. pose proof (at_log_start _ _ _ E Hmax) as H.
  replace fuel with (length (trans_records ops) + S (fuel - length ops - 2))%nat by (simpl; lia).
  unfold ReplayLog.
  destruct (scan_ops d _ _ _ (S (fuel - length ops - 2)) H Hl) as [-> H1].
  destruct (replay_ops _ d _ _ (S (fuel - length ops - 2)) H Hl) as (t2 & -> & H2).
  cbn [scan_log replay_log].
  rewrite (read_opcode _ _ [LOGEND] t H1) by (done || by apply opcode_int32).
  rewrite (read_opcode _ _ [LOGEND] t H2) by (done || by apply opcode_int32).
  unfold word. cbn [nth hd Z.eqb LOGNEW LOGABORT LOGEND LOGTRUNCATE LOGDATA Pos.eqb].
  rewrite (read_words_short false _ (s32 (t2 + 4)) t 2); [done | by apply (at_log_skip _ _ (words [LOGEND])) | lia].
Qed.

(** On a little-endian host the replay loses every committed transaction:
    whatever the log of a transaction holds, commit record included, no record
    is recognised, the data files stay as they are and the log is emptied. *)
Theorem ReplayLog_little_endian d rest fuel :
  log_bytes d = encode LNew ++ rest -> Z.of_nat (length (log_bytes d)) <= INT_MAX ->
  (0 < fuel)%nat ->
  ReplayLog true d fuel = Some (0, log_empty d).
Proof.
  intros E Hmax Hfuel. unfold ReplayLog. destruct fuel as [| fuel]; [lia |].
  assert (H : at_log d 0 (words [LOGNEW] ++ rest)).
  { split; [lia |]. split; [exact E |]. rewrite E in Hmax. exact Hmax. }
  assert (Hs : scan_log true d 0 (S fuel) = Some false).
  { pose proof (read_words_ok true d 0 [LOGNEW] _ H) as Hr.
    change (length [LOGNEW]) with 1%nat in Hr. cbn [scan_log]. by rewrite Hr. }
  by rewrite Hs, truncate_log.
Qed.

(** ** Witnesses *)

Module Demo.
Definition ops : list logrec := [LData 0 2 [7; 8; 9]; LTrunc 0 4; LData 0 4 [5]].
Definition v : ubik_version := Version 3 9.
Definition d0 : disk := {[ 0 := ubik_hdr (Version 3 8) ++ zeros 48 ++ [1; 1; 1]; LOGFILE := [] ]}.
Definition dc : disk := (log_append (log_calls false d0 (trans_records ops ++ [LEnd v])) [0; 0]).2.
(** A log cut inside the second record. *)
Definition dt : disk :=
  <[LOGFILE := zeros 64 ++ log_of (trans_records [LData 0 2 [7; 8; 9]]) ++ [0; 0; 0; 104; 0; 0]]> d0.
End Demo.

Lemma ReplayLog_committed_witness : exists d'',
  ReplayLog false Demo.dc 10 = Some (0, d'') /\ log_bytes d'' = []
  /\ same_files d'' (apply_log Demo.d0 (Demo.ops ++ [LEnd Demo.v])).
Proof.
  apply (ReplayLog_committed Demo.d0 Demo.ops Demo.v [0; 0] Demo.dc 10);
    [reflexivity | reflexivity | vm_compute; discriminate | | | | vm_compute; lia].
  - repeat constructor.
  - unfold Demo.ops, rec_ok, INT_MAX. repeat apply Forall_cons_2; simpl; try lia. apply Forall_nil_2.
  - unfold rec_ok, int32, INT_MIN, INT_MAX. simpl. lia.
Defined.

Lemma ReplayLog_uncommitted_witness : ReplayLog false Demo.dt 10 = Some (0, log_empty Demo.dt).
Proof.
  apply (ReplayLog_uncommitted Demo.dt [LData 0 2 [7; 8; 9]] [0; 0; 0; 104; 0; 0] 10);
    [reflexivity | vm_compute; discriminate | repeat constructor | | | vm_compute; lia].
  - unfold rec_ok, INT_MAX. repeat apply Forall_cons_2; simpl; try lia. apply Forall_nil_2.
  - right. right. exists (LTrunc 0 4), [0; 0; 0; 0; 0; 4].
    split; [done |]. split; [unfold rec_ok, INT_MAX; lia |]. split; [reflexivity |].
    split; [done | vm_compute; discriminate].
Defined.

Lemma ReplayLog_torn_commit_witness :
  let d := <[LOGFILE := zeros 64 ++ log_of (trans_records Demo.ops) ++ words [LOGEND] ++ [0; 0; 0; 3; 0]]>
             Demo.d0 in
  ReplayLog false d 10 = Some (UBADLOG, apply_log d (trans_records Demo.ops)).
Proof.
  intros d. apply (ReplayLog_torn_commit d Demo.ops [0; 0; 0; 3; 0] 10);
    [reflexivity | simpl; lia | vm_compute; discriminate | repeat constructor | | simpl; lia].
  unfold Demo.ops, rec_ok, INT_MAX. repeat apply Forall_cons_2; simpl; try lia. apply Forall_nil_2.
Defined.

Lemma ReplayLog_little_endian_witness :
  let d := log_calls true Demo.d0 (trans_records Demo.ops ++ [LEnd Demo.v]) in
  ReplayLog true d 10 = Some (0, log_empty d).
Proof.
  intros d. apply (ReplayLog_little_endian d (drop 4 (log_bytes d)) 10);
    [reflexivity | vm_compute; discriminate | lia].
Defined.
