(* ===== verification/UbikDisk.v ===== *)
(** Ubik, the transactions on one server: the page buffers, the truncation
    lists and the begin, read, write, truncate, commit, abort and end
    operations of src/ubik/disk.c, and the transaction lock of
    src/ubik/lock.c. *)
From S2P Require Import Prelude UbikVote UbikLog LwpLock.

Definition UBIK_PAGESIZE : Z := 1024.
Definition UBIK_LOGPAGESIZE : Z := 10.
Definition NBUFFERS : nat := 20.
Definition PHSIZE : Z := 128.
Definition BADFID : Z := -1.      (* 0xffffffff in an afs_int32 *)

Definition UBIK_READTRANS : Z := 0.
Definition UBIK_WRITETRANS : Z := 1.

Definition USYNC : Z := 100005.
Definition UBADTYPE : Z := 100010.
Definition UTWOENDS : Z := 100011.
Definition UDONE : Z := 100012.
Definition UEOF : Z := 100014.
Definition EINVAL : Z := 22.
Definition EAGAIN : Z := 11.

(** ** The page buffers

    Buffers are named by their index. [lru] is the circular list read from
    [LruBuffer] along [lru_next]; [phTable] holds the hash chains. There is
    one database. *)
Record buffer := Buffer {
  bfile : Z;
  bpage : Z;
  bdata : list Z;
  lockers : Z;
  dirty : bool;
  hashIndex : Z
}.

Record cache := Cache {
  buffers : list buffer;
  lru : list nat;
  phTable : gmap Z (list nat)
}.

Definition no_buffer : buffer := Buffer BADFID 0 (zeros 1024) 0 false 0.

Definition DInit (abuffers : nat) : cache :=
  Cache (replicate abuffers no_buffer) (seq 0 abuffers) ∅.

Definition getb (c : cache) (i : nat) : buffer := default no_buffer (buffers c !! i).
Definition updb (i : nat) (f : buffer -> buffer) (c : cache) : cache :=
  Cache (alter f i (buffers c)) (lru c) (phTable c).
Definition chain (c : cache) (h : Z) : list nat := default [] (phTable c !! h).

Definition set_bfile (f : Z) (b : buffer) : buffer :=
  Buffer f (bpage b) (bdata b) (lockers b) (dirty b) (hashIndex b).
Definition set_bdata (d : list Z) (b : buffer) : buffer :=
  Buffer (bfile b) (bpage b) d (lockers b) (dirty b) (hashIndex b).
Definition add_lockers (n : Z) (b : buffer) : buffer :=
  Buffer (bfile b) (bpage b) (bdata b) (s8 (lockers b + n)) (dirty b) (hashIndex b).
Definition set_dirty (v : bool) (b : buffer) : buffer :=
  Buffer (bfile b) (bpage b) (bdata b) (lockers b) v (hashIndex b).

Definition pHash (page : Z) : Z := Z.land page (PHSIZE - 1).

(** The list without [i], as the unthreading leaves it. *)
Definition unthread_lru (i : nat) (l : list nat) : list nat := filter (fun j => j <> i) l.

Definition Dlru (i : nat) (c : cache) : cache :=
  if decide (head (lru c) = Some i) then c
  else Cache (buffers c) (i :: unthread_lru i (lru c)) (phTable c).

Definition Dmru (i : nat) (c : cache) : cache :=
  if decide (head (lru c) = Some i)
  then Cache (buffers c) (tail (lru c) ++ [i]) (phTable c)
  else Cache (buffers c) (unthread_lru i (lru c) ++ [i]) (phTable c).

(** Unlink the first occurrence from a hash chain. *)
Fixpoint unlink (i : nat) (l : list nat) : list nat :=
  match l with
  | [] => []
  | j :: l' => if decide (j = i) then l' else j :: unlink i l'
  end.

Definition FixupBucket (i : nat) (c : cache) : cache :=
  let b := getb c i in
  let ph1 := <[hashIndex b := unlink i (chain c (hashIndex b))]> (phTable c) in
  let h := pHash (bpage b) in
  let ph2 := <[h := i :: default [] (ph1 !! h)]> ph1 in
  Cache (alter (fun b => Buffer (bfile b) (bpage b) (bdata b) (lockers b) (dirty b) h) i (buffers c))
    (lru c) ph2.

(** The first unlocked clean buffer in LRU order, renamed to the page. *)
Definition newslot (afid apage : Z) (c : cache) : option (nat * cache) :=
  match list_find (fun i => lockers (getb c i) = 0 /\ dirty (getb c i) = false) (lru c) with
  | None => None
  | Some (_, i) =>
      let c1 := updb i (fun b => Buffer afid apage (bdata b) (lockers b) (dirty b) (hashIndex b)) c in
      Some (i, Dmru i (FixupBucket i c1))
  end.

Definition has_page (fid page : Z) (b : buffer) : bool :=
  (bpage b =? page) && (bfile b =? fid).

(** What a read of a page from the file leaves in a zeroed buffer. *)
Definition page_image (b : list Z) : list Z := b ++ zeros (1024 - length b).

(** The buffer of a page, locked once more; [None] is a null pointer. *)
Definition DRead (d : disk) (fid page : Z) (c : cache) : option nat * cache :=
  let hit i := has_page fid page (getb c i) in
  match last (lru c) with
  | Some i0 =>
      if hit i0 then (Some i0, updb i0 (add_lockers 1) c)
      else
        match list_find (fun i => hit i = true) (chain c (pHash page)) with
        | Some (_, i) => (Some i, updb i (add_lockers 1) (Dmru i c))
        | None =>
            match newslot fid page c with
            | None => (None, c)
            | Some (i, c1) =>
                match uphys_read d fid (page * UBIK_PAGESIZE) UBIK_PAGESIZE with
                | Some b => (Some i, updb i (fun x => add_lockers 1 (set_bdata (page_image b) x)) c1)
                | None => (None, Dlru i (updb i (fun x => set_bfile BADFID (set_bdata (zeros 1024) x)) c1))
                end
            end
        end
  | None => (None, c)
  end.

Definition DNew (fid page : Z) (c : cache) : option nat * cache :=
  match newslot fid page c with
  | None => (None, c)
  | Some (i, c1) => (Some i, updb i (fun x => add_lockers 1 (set_bdata (zeros 1024) x)) c1)
  end.

Definition DRelease (i : nat) (flag : bool) (c : cache) : cache :=
  updb i (fun b => let b' := add_lockers (-1) b in if flag then set_dirty true b' else b') c.

(** The loops over all buffers, in index order. *)
Definition for_buffers (f : nat -> cache -> cache) (c : cache) : cache :=
  fold_left (fun c i => f i c) (seq 0 (length (buffers c))) c.

Definition DTrunc (fid length : Z) (c : cache) : cache :=
  let maxPage := Z.shiftr (s32 (length + UBIK_PAGESIZE - 1)) UBIK_LOGPAGESIZE in
  for_buffers (fun i c =>
    if (maxPage <=? bpage (getb c i)) && (bfile (getb c i) =? fid)
    then Dlru i (updb i (set_bfile BADFID) c) else c) c.

Definition udisk_Invalidate (afid : Z) (c : cache) : cache :=
  for_buffers (fun i c =>
    if bfile (getb c i) =? afid then Dlru i (updb i (set_bfile BADFID) c) else c) c.

Definition DAbort (c : cache) : cache :=
  for_buffers (fun i c =>
    if dirty (getb c i) then Dlru i (updb i (fun b => set_bfile BADFID (set_dirty false b)) c) else c) c.

Fixpoint flush_buffers (l : list buffer) (d : disk) : Z * disk :=
  match l with
  | [] => (0, d)
  | b :: l' =>
      if dirty b then
        match uphys_write d (bfile b) (bpage b * UBIK_PAGESIZE) (bdata b) with
        | Some d' => flush_buffers l' d'
        | None => (UIOERROR, d)
        end
      else flush_buffers l' d
  end.
Definition DFlush (c : cache) (d : disk) : Z * disk := flush_buffers (buffers c) d.

(** One pass of [DSync]: the file it syncs, if any. *)
Definition sync_pass (l : list buffer) : Z * list buffer :=
  fold_left (fun '(file, out) b =>
      if dirty b then
        let file' := if file =? BADFID then bfile b else file in
        if negb (file' =? BADFID) && (bfile b =? file')
        then (file', out ++ [set_dirty false b]) else (file', out ++ [b])
      else (file, out ++ [b])) l (BADFID, []).

Fixpoint sync_loop (l : list buffer) (fuel : nat) : list buffer :=
  match fuel with
  | O => l
  | S fuel' =>
      let '(file, l') := sync_pass l in
      if file =? BADFID then l' else sync_loop l' fuel'
  end.
(** Each pass cleans a buffer, so one pass more than there are is enough. *)
Definition DSync (c : cache) : Z * cache :=
  (0, Cache (sync_loop (buffers c) (S (length (buffers c)))) (lru c) (phTable c)).

(** ** The database and its transactions *)

(** [rwlock] is [None] until [rwlockinit] is cleared; [labelled] is the bit
    [UBIK_RECLABELDB] of [urecovery_state]. *)
Record dbase := Dbase {
  dsk : disk;
  initd : bool;
  cch : cache;
  dver : ubik_version;
  DBWRITING : bool;
  readers : Z;
  activeTrans : list nat;
  labelled : bool;
  epochTime : Z;
  rwlock : option lock
}.

Record trans := Trans {
  tid : nat;
  ttype : Z;
  TRDONE : bool;
  TRABORT : bool;
  activeTruncs : list (Z * Z);       (* file, length *)
  locktype : Z
}.

Definition set_dsk (d : disk) (s : dbase) : dbase :=
  Dbase d (initd s) (cch s) (dver s) (DBWRITING s) (readers s) (activeTrans s) (labelled s)
    (epochTime s) (rwlock s).
Definition set_cch (c : cache) (s : dbase) : dbase :=
  Dbase (dsk s) (initd s) c (dver s) (DBWRITING s) (readers s) (activeTrans s) (labelled s)
    (epochTime s) (rwlock s).
Definition set_dver (v : ubik_version) (s : dbase) : dbase :=
  Dbase (dsk s) (initd s) (cch s) v (DBWRITING s) (readers s) (activeTrans s) (labelled s)
    (epochTime s) (rwlock s).
Definition set_counts (w : bool) (r : Z) (a : list nat) (s : dbase) : dbase :=
  Dbase (dsk s) (initd s) (cch s) (dver s) w r a (labelled s) (epochTime s) (rwlock s).
Definition set_label (e : Z) (s : dbase) : dbase :=
  Dbase (dsk s) (initd s) (cch s) (dver s) (DBWRITING s) (readers s) (activeTrans s) true e (rwlock s).
Definition set_rwlock (l : option lock) (s : dbase) : dbase :=
  Dbase (dsk s) (initd s) (cch s) (dver s) (DBWRITING s) (readers s) (activeTrans s) (labelled s)
    (epochTime s) l.
Definition set_truncs (l : list (Z * Z)) (t : trans) : trans :=
  Trans (tid t) (ttype t) (TRDONE t) (TRABORT t) l (locktype t).
Definition set_flags (done abort : bool) (t : trans) : trans :=
  Trans (tid t) (ttype t) done abort (activeTruncs t) (locktype t).
Definition set_locktype (n : Z) (t : trans) : trans :=
  Trans (tid t) (ttype t) (TRDONE t) (TRABORT t) (activeTruncs t) n.

(** Take a transaction off the active list; code 2 when it is not there. *)
Fixpoint unthread (t : nat) (l : list nat) : Z * list nat :=
  match l with
  | [] => (2, [])
  | u :: l' => if decide (u = t) then (0, l') else let '(c, r) := unthread t l' in (c, u :: r)
  end.

Definition FindTrunc (t : trans) (afile : Z) : option Z :=
  snd <$> (list_find (fun e => e.1 = afile) (activeTruncs t) ≫= fun '(_, e) => Some e).

Definition set_trunc (afile len : Z) (l : list (Z * Z)) : list (Z * Z) :=
  match list_find (fun e => e.1 = afile) l with
  | Some (i, _) => <[i := (afile, len)]> l
  | None => l
  end.

(** The copy loops of [udisk_read] and [udisk_write]; [alen] bounds the
    rounds. *)
Definition round_len (apos alen : Z) : Z :=
  let len := UBIK_PAGESIZE - Z.land apos (UBIK_PAGESIZE - 1) in
  if alen <? len then alen else len.

Fixpoint read_loop (d : disk) (afile apos alen : Z) (fuel : nat) (c : cache) (out : list Z)
  : Z * list Z * cache :=
  match fuel with
  | O => (0, out, c)
  | S fuel' =>
      if alen <=? 0 then (0, out, c)
      else
        match DRead d afile (Z.shiftr apos UBIK_LOGPAGESIZE) c with
        | (None, c') => (UEOF, out, c')
        | (Some i, c') =>
            let offset := Z.land apos (UBIK_PAGESIZE - 1) in
            let len := round_len apos alen in
            let piece := take (Z.to_nat len) (drop (Z.to_nat offset) (bdata (getb c' i))) in
            read_loop d afile (s32 (apos + len)) (alen - len) fuel' (DRelease i false c') (out ++ piece)
        end
  end.

Definition udisk_read (t : trans) (afile apos alen : Z) (s : dbase) : Z * list Z * dbase :=
  if TRDONE t then (UDONE, [], s)
  else
    let '(code, out, c) := read_loop (dsk s) afile apos alen (Z.to_nat alen) (cch s) [] in
    (code, out, set_cch c s).

(** [memcpy] into a page. *)
Definition splice (data : list Z) (off : nat) (b : list Z) : list Z :=
  take off data ++ b ++ drop (off + length b) data.

Fixpoint write_loop (d : disk) (afile : Z) (abuffer : list Z) (apos alen : Z) (fuel : nat) (c : cache)
  : Z * cache :=
  match fuel with
  | O => (0, c)
  | S fuel' =>
      if alen <=? 0 then (0, c)
      else
        let page := Z.shiftr apos UBIK_LOGPAGESIZE in
        let put i c' :=
          let offset := Z.land apos (UBIK_PAGESIZE - 1) in
          let len := round_len apos alen in
          let c2 := updb i (fun b => set_bdata (splice (bdata b) (Z.to_nat offset)
                                       (take (Z.to_nat len) abuffer)) b) c' in
          write_loop d afile (drop (Z.to_nat len) abuffer) (s32 (apos + len)) (alen - len) fuel'
            (DRelease i true c2) in
        match DRead d afile page c with
        | (Some i, c') => put i c'
        | (None, c') =>
            match DNew afile page c' with
            | (Some i, c'') => put i c''
            | (None, c'') => (UIOERROR, c'')
            end
        end
  end.

Section ops.
(** The byte order of the host. *)
Context (little : bool).

Definition udisk_truncate (t : trans) (afile alength : Z) (s : dbase) : Z * trans * dbase :=
  if TRDONE t then (UDONE, t, s)
  else if negb (ttype t =? UBIK_WRITETRANS) then (UBADTYPE, t, s)
  else
    let '(code, d) := udisk_LogTruncate little (dsk s) afile alength in
    let l' := match FindTrunc t afile with
              | None => (afile, alength) :: activeTruncs t
              | Some len => if alength <? len then set_trunc afile alength (activeTruncs t)
                            else activeTruncs t
              end in
    (code, set_truncs l' t, set_dsk d s).

Definition udisk_write (t : trans) (afile : Z) (abuffer : list Z) (apos : Z) (s : dbase)
  : Z * trans * dbase :=
  let alen := Z.of_nat (length abuffer) in
  if TRDONE t then (UDONE, t, s)
  else if negb (ttype t =? UBIK_WRITETRANS) then (UBADTYPE, t, s)
  else
    let '(code, d) := udisk_LogWriteData little (dsk s) afile abuffer apos in
    if negb (code =? 0) then (code, t, set_dsk d s)
    else
      let l' := match FindTrunc t afile with
                | Some len => if len <? s32 (apos + alen)
                              then set_trunc afile (s32 (apos + alen)) (activeTruncs t)
                              else activeTruncs t
                | None => activeTruncs t
                end in
      let '(code, c) := write_loop d afile abuffer apos alen (Z.to_nat alen) (cch s) in
      (code, set_truncs l' t, set_cch c (set_dsk d s)).

(** [fresh] is the name the new transaction gets. *)
Definition udisk_begin (nbuf : nat) (atype : Z) (fresh : nat) (s : dbase)
  : Z * option trans * dbase :=
  let s0 := if initd s then s
            else Dbase (dsk s) true (DInit nbuf) (dver s) (DBWRITING s) (readers s)
                   (activeTrans s) (labelled s) (epochTime s) (rwlock s) in
  let start s1 :=
    let t := Trans fresh atype false false [] 0 in
    (0, Some t,
     if atype =? UBIK_READTRANS
     then set_counts (DBWRITING s1) (readers s1 + 1) (fresh :: activeTrans s1) s1
     else if atype =? UBIK_WRITETRANS
     then set_counts true (readers s1) (fresh :: activeTrans s1) s1
     else set_counts (DBWRITING s1) (readers s1) (fresh :: activeTrans s1) s1) in
  if atype =? UBIK_WRITETRANS then
    if DBWRITING s0 then (USYNC, None, s0)
    else
      let '(code, d) := udisk_LogOpcode little (dsk s0) LOGNEW in
      if negb (code =? 0) then (code, None, set_dsk d s0) else start (set_dsk d s0)
  else start s0.

(** [DoTruncs]: code and the database. *)
Definition DoTruncs (t : trans) (s : dbase) : Z * dbase :=
  fold_left (fun '(rcode, s) '(f, len) =>
      let c := DTrunc f len (cch s) in
      match uphys_truncate (dsk s) f len with
      | Some d => (rcode, set_dsk d (set_cch c s))
      | None => (-1, set_cch c s)
      end) (activeTruncs t) (0, s).

(** The version a first write gets: [amSync] is the answer of
    [ubeacon_AmSyncSite], [now] the clock. *)
Definition relabel (amSync : bool) (now : Z) (s : dbase) : dbase :=
  if amSync && negb (labelled s) then
    let v := Version now 1 in
    set_dver v (set_label now (set_dsk (uphys_setlabel (dsk s) 0 v) s))
  else s.

Definition bump (s : dbase) : dbase :=
  set_dver (Version (epoch (dver s)) (s32 (counter (dver s) + 1))) s.

(** [None] is a panic: recovery is to replay the log. *)
Definition udisk_commit (amSync : bool) (now : Z) (t : trans) (s : dbase)
  : option (Z * trans * dbase) :=
  if TRDONE t then Some (UTWOENDS, t, s)
  else if ttype t =? UBIK_WRITETRANS then
    let s1 := bump (relabel amSync now s) in
    let '(code, d1) := udisk_LogEnd little (dsk s1) (dver s1) in
    if negb (code =? 0)
    then Some (code, t, set_dsk d1 (set_dver (dver (relabel amSync now s)) s1))
    else
      let '(code, d2) := DFlush (cch s1) d1 in
      if negb (code =? 0) then None
      else
        let '(code, c) := DSync (cch s1) in
        if negb (code =? 0) then None
        else
          let '(code, s2) := DoTruncs t (set_cch c (set_dsk d2 s1)) in
          if negb (code =? 0) then None
          else
            let d3 := uphys_setlabel (dsk s2) 0 (dver s2) in
            match uphys_truncate d3 LOGFILE 0 with
            | None => None
            | Some d4 => Some (0, set_flags true (TRABORT t) (set_truncs [] t), set_dsk d4 s2)
            end
  else Some (0, set_flags true (TRABORT t) t, s).

Definition udisk_abort (t : trans) (s : dbase) : option (Z * trans * dbase) :=
  if TRDONE t then Some (UTWOENDS, t, s)
  else
    let t' := set_flags true true t in
    if (ttype t =? UBIK_WRITETRANS) && DBWRITING s then
      let '(_, d1) := udisk_LogOpcode little (dsk s) LOGABORT in
      match uphys_truncate d1 LOGFILE 0 with
      | None => None
      | Some d2 => Some (0, t', set_cch (DAbort (cch s)) (set_dsk d2 s))
      end
    else Some (0, t', s).

(** *** The transaction lock (lock.c) *)

(** The macros as they are written: 0 when the lock is not free. *)
Definition WouldReadBlock (l : lock) : Z :=
  if has (excl_locked l) WRITE_LOCK || negb (wait_states l =? 0) then 0 else 1.
Definition WouldWriteBlock (l : lock) : Z :=
  if has (excl_locked l) WRITE_LOCK || negb (readers_reading l =? 0) then 0 else 1.

(** What [ulock_getLock] comes to: a code, a sleep for the lock (the
    transaction is marked [LOCKWAIT]), or [abort()]. *)
Inductive lock_outcome :=
| LReturn (code : Z) (t : trans) (s : dbase)
| LSleep (m : mode) (t : trans) (s : dbase)
| LAbortProcess.

Definition ulock_getLock (t : trans) (atype : Z) (await : bool) (s : dbase) : lock_outcome :=
  let l := default Lock_Init (rwlock s) in
  let s1 := set_rwlock (Some l) s in
  if negb (atype =? LOCKREAD) && negb (atype =? LOCKWRITE) then LReturn EINVAL t s1
  else if TRDONE t then LReturn UDONE t s1
  else if negb (locktype t =? 0) then LAbortProcess
  else if negb await
          && negb ((if atype =? LOCKREAD then WouldReadBlock l else WouldWriteBlock l) =? 0)
  then LReturn EAGAIN t s1
  else
    let m := if atype =? LOCKREAD then MRead else MWrite in
    let '(l', ok) := Obtain m l in
    if ok then LReturn 0 (set_locktype atype t) (set_rwlock (Some l') s1)
    else LSleep m (set_locktype LOCKWAIT t) (set_rwlock (Some l') s1).

(** The transaction and the database, and the event the release signals. *)
Definition ulock_relLock (t : trans) (s : dbase) : trans * dbase * signal :=
  match rwlock s with
  | None => (t, s, NoSig)
  | Some l =>
      let '(l', g) := if locktype t =? LOCKREAD then ReleaseReadLock l
                      else if locktype t =? LOCKWRITE then ReleaseWriteLock l
                      else (l, NoSig) in
      (set_locktype 0 t, set_rwlock (Some l') s, g)
  end.

Definition udisk_end (t : trans) (s : dbase) : option (Z * dbase * signal) :=
  match (if TRDONE t then Some (0, t, s) else udisk_abort t s) with
  | None => None
  | Some (_, t1, s1) =>
      let '(t2, s2, g) := ulock_relLock t1 s1 in
      let a := snd (unthread (tid t2) (activeTrans s2)) in
      Some (0,
        if (ttype t2 =? UBIK_WRITETRANS) && DBWRITING s2
        then set_counts false (readers s2) a s2
        else set_counts (DBWRITING s2) (readers s2 - 1) a s2, g)
  end.
End ops.

(** ** The bytes of a file

    A file as the transactions see it: its bytes after the header, zero past
    the end. *)
Definition view (d : disk) (f p : Z) : Z := nth (64 + Z.to_nat p) (contents d f) 0.

Lemma nth_file_write c off b i :
  nth i (file_write c off b) 0 =
    if decide (off <= i < off + length b)%nat then nth (i - off) b 0 else nth i c 0.
Proof.
  rewrite !nth_lookup, file_write_lookup. repeat case_decide; try done; try lia.
  - by rewrite (lookup_ge_None_2 c) by lia.
  - by rewrite (lookup_ge_None_2 c) by lia.
Qed.

Lemma view_insert_ne d f c g p : f <> g -> view (<[f := c]> d) g p = view d g p.
Proof. intros Hne. unfold view. by rewrite contents_insert, decide_False. Qed.

Lemma view_write d f pos b d' g p :
  0 <= pos -> 0 <= p -> uphys_write d f pos b = Some d' ->
  view d' g p = if decide (g = f /\ pos <= p < pos + Z.of_nat (length b))
                then nth (Z.to_nat (p - pos)) b 0 else view d g p.
Proof.
  intros Hpos Hp E. rewrite (uphys_write_ok _ _ _ _ Hpos) in E. injection E as <-.
  destruct (decide (g = f)) as [-> | Hne].
  - unfold view at 1. rewrite contents_insert, decide_True by done. rewrite nth_file_write.
    destruct (decide (pos <= p < pos + Z.of_nat (length b))) as [H | H].
    + rewrite !decide_True by (try split; try done; lia). f_equal. lia.
    + rewrite decide_False by lia. rewrite decide_False by (intros [_ ?]; lia). done.
  - rewrite view_insert_ne by done. by rewrite decide_False by (intros [? _]; done).
Qed.

Lemma read_page d f page b :
  0 <= page -> uphys_read d f (page * UBIK_PAGESIZE) UBIK_PAGESIZE = Some b ->
  length (page_image b) = 1024%nat
  /\ forall k, 0 <= k < 1024 -> nth (Z.to_nat k) (page_image b) 0 = view d f (1024 * page + k).
Proof.
  unfold uphys_read, UBIK_PAGESIZE, HDRSIZE. intros Hp E. case_test_in E; [done |].
  injection E as <-. unfold page_image, view, zeros.
  set (x := take (Z.to_nat 1024) _).
  assert (Hx : (length x <= 1024)%nat) by (subst x; rewrite length_take; lia).
  split; [rewrite length_app, length_replicate; lia |].
  intros k Hk. rewrite !nth_lookup.
  replace (64 + Z.to_nat (1024 * page + k))%nat
    with (Z.to_nat (page * 1024 + 64) + Z.to_nat k)%nat by lia.
  rewrite <- lookup_drop. destruct (decide (Z.to_nat k < length x)%nat) as [Hl | Hl].
  - rewrite lookup_app_l by done. subst x. by rewrite lookup_take_lt by lia.
  - rewrite lookup_app_r by lia. rewrite lookup_replicate_2 by lia.
    subst x. rewrite length_take in Hl. by rewrite (lookup_ge_None_2 (drop _ _)) by lia.
Qed.

(** ** The invariant of the buffers *)

(** The LRU list and the hash chains: every buffer is once on the list; the
    chains hold a buffer under its [hashIndex] only; a buffer with a page is
    in the chain of that page. *)
Record links_ok (c : cache) : Prop := {
  l_lru : lru c ≡ₚ seq 0 (length (buffers c));
  l_index : forall h i, i ∈ chain c h -> hashIndex (getb c i) = h;
  l_nodup : forall h, NoDup (chain c h);
  l_chain : forall i b, buffers c !! i = Some b -> bfile b <> BADFID -> i ∈ chain c (pHash (bpage b))
}.

Definition page_ok (T : Z -> Z -> Z) (b : buffer) : Prop :=
  0 <= bfile b /\ 0 <= bpage b /\ length (bdata b) = 1024%nat
  /\ forall k, 0 <= k < 1024 -> nth (Z.to_nat k) (bdata b) 0 = T (bfile b) (1024 * bpage b + k).

(** The buffers hold the contents [T] that the transaction sees: the page of
    a file is in at most one buffer, and where no dirty buffer has it, [T] is
    what the disk holds. *)
Record data_ok (l : list buffer) (d : disk) (T : Z -> Z -> Z) : Prop := {
  k_page : forall i b, l !! i = Some b -> bfile b <> BADFID -> page_ok T b;
  k_dirty : forall i b, l !! i = Some b -> dirty b = true -> bfile b <> BADFID;
  k_unique : forall i j bi bj, l !! i = Some bi -> l !! j = Some bj ->
    bfile bi <> BADFID -> bfile bi = bfile bj -> bpage bi = bpage bj -> i = j;
  k_rest : forall f p, 0 <= f -> 0 <= p ->
    (forall i b, l !! i = Some b -> dirty b = true -> bfile b = f -> bpage b <> p / 1024) ->
    T f p = view d f p
}.

Definition unlocked (l : list buffer) : Prop := Forall (fun b => lockers b = 0) l.

Definition bkey (b : buffer) : Z * Z * Z := (bfile b, bpage b, hashIndex b).

Lemma getb_lookup c i b : buffers c !! i = Some b -> getb c i = b.
Proof. unfold getb. by intros ->. Qed.

Lemma chain_get c i b h :
  links_ok c -> buffers c !! i = Some b -> i ∈ chain c h -> hashIndex b = h.
Proof. intros H Hb Hi. apply (l_index _ H) in Hi. by rewrite (getb_lookup _ _ _ Hb) in Hi. Qed.

Lemma map_key_lookup l l' i b' :
  map bkey l' = map bkey l -> l' !! i = Some b' ->
  exists b, l !! i = Some b /\ bkey b' = bkey b.
Proof.
  intros E H. assert (Hk : map bkey l' !! i = Some (bkey b')) by by rewrite list_lookup_fmap, H.
  rewrite E, list_lookup_fmap in Hk. destruct (l !! i) as [b |]; [| done].
  exists b. split; [done |]. simpl in Hk. congruence.
Qed.

Lemma links_ext c l :
  links_ok c -> map bkey l = map bkey (buffers c) -> links_ok (Cache l (lru c) (phTable c)).
Proof.
  intros H E. assert (Hlen : length l = length (buffers c))
    by (by rewrite <- (length_map bkey l), E, length_map).
  split; cbn [buffers lru phTable].
  - rewrite Hlen. apply (l_lru _ H).
  - intros h i Hi. rewrite <- (l_index _ H h i Hi). unfold getb. cbn [buffers].
    destruct (l !! i) as [b' |] eqn:Eb.
    + destruct (map_key_lookup _ _ _ _ E Eb) as (b & -> & Hk). unfold bkey in Hk. simpl. congruence.
    + apply lookup_ge_None_1 in Eb. rewrite lookup_ge_None_2 by lia. done.
  - apply (l_nodup _ H).
  - intros i b' Hb Hf. destruct (map_key_lookup _ _ _ _ E Hb) as (b & Hb' & Hk).
    unfold bkey in Hk. injection Hk as K1 K2 K3. rewrite K2. apply (l_chain _ H _ _ Hb'). congruence.
Qed.

Lemma lru_lookup c i : links_ok c -> i ∈ lru c -> is_Some (buffers c !! i).
Proof.
  intros H Hi. rewrite (l_lru _ H) in Hi. apply elem_of_seq in Hi. apply lookup_lt_is_Some. lia.
Qed.

Lemma unthread_lru_perm i l : NoDup l -> i ∈ l -> i :: unthread_lru i l ≡ₚ l.
Proof.
  intros Hn Hi. apply NoDup_Permutation; [| done |].
  - constructor; [| by apply NoDup_filter]. unfold unthread_lru. rewrite list_elem_of_filter. naive_solver.
  - intros x. unfold unthread_lru. rewrite elem_of_cons, list_elem_of_filter.
    destruct (decide (x = i)); naive_solver.
Qed.

Lemma lru_nodup c : links_ok c -> NoDup (lru c).
Proof. intros H. rewrite (l_lru _ H). apply NoDup_seq. Qed.

Lemma links_lru c l : links_ok c -> l ≡ₚ lru c -> links_ok (Cache (buffers c) l (phTable c)).
Proof.
  intros [H1 H2 H3 H4] Hl. split; cbn [buffers lru phTable]; [by rewrite Hl | done..].
Qed.

Lemma Dmru_links c i : links_ok c -> i ∈ lru c -> links_ok (Dmru i c) /\ buffers (Dmru i c) = buffers c.
Proof.
  intros H Hi. unfold Dmru. case_decide as Hh; (split; [| done]); apply links_lru; try done.
  - destruct (lru c) as [| x l]; [done |]. injection Hh as ->. simpl.
    symmetry. apply Permutation_cons_append.
  - rewrite <- (unthread_lru_perm i (lru c)) at 2; [| by apply lru_nodup | done].
    symmetry. apply Permutation_cons_append.
Qed.

Lemma Dlru_links c i : links_ok c -> i ∈ lru c -> links_ok (Dlru i c) /\ buffers (Dlru i c) = buffers c.
Proof.
  intros H Hi. unfold Dlru. case_decide; (split; [| done]); [done |].
  apply links_lru; [done |]. apply unthread_lru_perm; [by apply lru_nodup | done].
Qed.

(** *** Slots *)

Lemma elem_of_unlink i l x : NoDup l -> x ∈ unlink i l <-> x <> i /\ x ∈ l.
Proof.
  induction l as [| j l IH]; intros Hn; simpl; [set_solver |].
  apply NoDup_cons in Hn as [Hj Hn]. case_decide as E.
  - subst. rewrite elem_of_cons. split; [intros Hx; split; [by intros -> | by right] | naive_solver].
  - rewrite !elem_of_cons, IH by done. naive_solver.
Qed.

Lemma NoDup_unlink i l : NoDup l -> NoDup (unlink i l).
Proof.
  induction l as [| j l IH]; intros Hn; simpl; [constructor |].
  apply NoDup_cons in Hn as [Hj Hn]. case_decide; [done |].
  constructor; [rewrite elem_of_unlink by done; naive_solver | auto].
Qed.

(** Renaming buffer [i] to a page and putting it in the page's chain. *)
Definition rename (f p : Z) (b : buffer) : buffer :=
  Buffer f p (bdata b) (lockers b) (dirty b) (pHash p).

Lemma Fixup_rename c i b f p :
  links_ok c -> buffers c !! i = Some b ->
  let c1 := FixupBucket i (updb i (fun b => Buffer f p (bdata b) (lockers b) (dirty b) (hashIndex b)) c) in
  links_ok c1 /\ buffers c1 = <[i := rename f p b]> (buffers c) /\ lru c1 = lru c.
Proof.
  intros H Hb c1.
  assert (Hbuf : buffers c1 = <[i := rename f p b]> (buffers c)).
  { subst c1. unfold FixupBucket, updb, getb. cbn [buffers].
    rewrite list_lookup_alter_eq, Hb. cbn [fmap option_fmap option_map from_option id bpage].
    apply list_eq. intros j. destruct (decide (i = j)) as [<- |].
    - rewrite !list_lookup_alter_eq, Hb, list_lookup_insert_eq by (by eapply lookup_lt_Some). done.
    - by rewrite !list_lookup_alter_ne, list_lookup_insert_ne. }
  split; [| split; [done | done]].
  assert (Hch : forall h x, x ∈ chain c1 h <->
            x = i /\ h = pHash p \/ x <> i /\ x ∈ chain c h).
  { intros h x. subst c1. unfold FixupBucket, updb, getb, chain. cbn [buffers phTable].
    rewrite list_lookup_alter_eq, Hb. cbn [fmap option_fmap option_map from_option id hashIndex bpage].
        set (ph1 := <[hashIndex b := _]> (phTable c)).
    assert (Hph1 : forall h, default [] (ph1 !! h) =
              if decide (h = hashIndex b) then unlink i (chain c (hashIndex b)) else chain c h).
    { intros h'. subst ph1. unfold chain. destruct (decide (h' = hashIndex b)) as [-> | Hne];
        [by rewrite lookup_insert_eq | by rewrite lookup_insert_ne]. }
    assert (Hin : forall h, x ∈ default [] (ph1 !! h) <-> x <> i /\ x ∈ chain c h).
    { intros h'. rewrite Hph1. case_decide as E.
      - subst h'. apply elem_of_unlink, (l_nodup _ H).
      - split; [| naive_solver]. intros Hx. split; [| done]. intros ->.
        apply E. symmetry. by apply (chain_get c i b). }
    destruct (decide (h = pHash p)) as [-> | Hne].
    - rewrite lookup_insert_eq. simpl. rewrite elem_of_cons, Hin. naive_solver.
    - rewrite lookup_insert_ne by done. rewrite Hin. naive_solver. }
  split.
  - rewrite Hbuf, length_insert. apply (l_lru _ H).
  - intros h x Hx. apply Hch in Hx. unfold getb. rewrite Hbuf.
    destruct Hx as [[-> ->] | [Hne Hx]].
    + by rewrite list_lookup_insert_eq by (by eapply lookup_lt_Some).
    + rewrite list_lookup_insert_ne by done. apply (l_index _ H h x Hx).
  - intros h. subst c1. unfold FixupBucket, updb, getb, chain. cbn [buffers phTable].
    rewrite list_lookup_alter_eq, Hb. cbn [fmap option_fmap option_map from_option id hashIndex bpage].
    set (ph1 := <[hashIndex b := _]> (phTable c)).
    assert (Hn1 : forall h, NoDup (default [] (ph1 !! h)) /\ i ∉ default [] (ph1 !! h)).
    { intros h'. subst ph1. destruct (decide (h' = hashIndex b)) as [-> | Hne].
      - rewrite lookup_insert_eq. cbn [from_option id].
        change (default [] (phTable c !! hashIndex b)) with (chain c (hashIndex b)).
        split; [apply NoDup_unlink, (l_nodup _ H) |].
        rewrite (elem_of_unlink _ _ _ (l_nodup _ H _)). naive_solver.
      - rewrite lookup_insert_ne by done. split; [apply (l_nodup _ H) |].
        intros Hi. apply Hne. symmetry. by apply (chain_get c i b). }
    destruct (decide (h = pHash p)) as [-> | Hne].
    + rewrite lookup_insert_eq. simpl. destruct (Hn1 (pHash p)). by constructor.
    + rewrite lookup_insert_ne by done. apply Hn1.
  - intros j bj. rewrite Hbuf. destruct (decide (i = j)) as [<- | Hne].
    + rewrite list_lookup_insert_eq by (by eapply lookup_lt_Some). intros [= <-] _.
      apply Hch. by left.
    + rewrite list_lookup_insert_ne by done. intros Hj Hf. apply Hch. right.
      split; [done |]. by apply (l_chain _ H j).
Qed.

Lemma newslot_spec c f p :
  links_ok c ->
  match newslot f p c with
  | Some (i, c1) => exists b, buffers c !! i = Some b /\ lockers b = 0 /\ dirty b = false
      /\ links_ok c1 /\ buffers c1 = <[i := rename f p b]> (buffers c)
  | None => forall i b, buffers c !! i = Some b -> lockers b = 0 -> dirty b = true
  end.
Proof.
  intros H. unfold newslot. destruct (list_find _ (lru c)) as [[k i] |] eqn:E.
  - apply list_find_Some in E as (Hk & [Hl Hd] & _).
    assert (Hi : i ∈ lru c) by by eapply list_elem_of_lookup_2.
    destruct (lru_lookup _ _ H Hi) as [b Hb].
    rewrite (getb_lookup _ _ _ Hb) in Hl, Hd.
    destruct (Fixup_rename c i b f p H Hb) as (H1 & H2 & H3).
    destruct (Dmru_links _ i H1) as [H4 H5]; [by rewrite H3 |].
    exists b. split; [done |]. split; [done |]. split; [done |]. split; [done |]. by rewrite H5.
  - apply list_find_None in E. intros i b Hb Hl. rewrite Forall_forall in E.
    assert (Hi : i ∈ lru c).
    { rewrite (l_lru _ H). apply elem_of_seq. apply lookup_lt_Some in Hb. lia. }
    specialize (E i Hi). cbv beta in E. rewrite (getb_lookup _ _ _ Hb) in E.
    destruct (dirty b); [done | naive_solver].
Qed.

(** *** [DRead] *)

Lemma has_page_true f p b : has_page f p b = true <-> bpage b = p /\ bfile b = f.
Proof. unfold has_page. rewrite andb_true_iff, !Z.eqb_eq. done. Qed.

(** The buffers between operations: linked, unlocked, holding [T]. *)
Record cache_ok (c : cache) (d : disk) (T : Z -> Z -> Z) : Prop := {
  ck_links : links_ok c;
  ck_data : data_ok (buffers c) d T;
  ck_free : unlocked (buffers c);
  ck_some : buffers c <> []
}.

Lemma alter_alter {A} (f g : A -> A) (i : nat) (l : list A) :
  alter f i (alter g i l) = alter (fun x => f (g x)) i l.
Proof.
  apply list_eq. intros j. rewrite !list_lookup_alter. repeat case_decide; subst; try done.
  by destruct (l !! j).
Qed.

Lemma alter_same {A} (f : A -> A) (i : nat) (l : list A) b :
  l !! i = Some b -> alter f i l = <[i := f b]> l.
Proof.
  intros H. apply list_eq. intros j. rewrite list_lookup_alter. case_decide as E.
  - subst. rewrite H, list_lookup_insert_eq by (by eapply lookup_lt_Some). done.
  - by rewrite list_lookup_insert_ne.
Qed.

Lemma map_bkey_alter f i l :
  (forall b, bkey (f b) = bkey b) -> map bkey (alter f i l) = map bkey l.
Proof.
  intros H. apply list_eq. intros j. rewrite !list_lookup_fmap, list_lookup_alter.
  case_decide; [| done]. subst. destruct (l !! j); simpl; [by rewrite H | done].
Qed.

(** What [DRead] gives the loops: the state with buffer [i] locked, over
    buffers [l] that are unlocked and hold [T]. *)
Definition locked_page (c' : cache) (l : list buffer) (i : nat) (fid page : Z) (d : disk)
    (T : Z -> Z -> Z) : Prop :=
  buffers c' = alter (add_lockers 1) i l /\ links_ok (Cache l (lru c') (phTable c'))
  /\ data_ok l d T /\ unlocked l
  /\ exists b, l !! i = Some b /\ bfile b = fid /\ bpage b = page.

Lemma insert_page d T l i b0 fid page h img :
  data_ok l d T -> 0 <= fid -> 0 <= page -> l !! i = Some b0 -> dirty b0 = false ->
  (forall j b, l !! j = Some b -> bfile b = fid -> bpage b <> page) ->
  length img = 1024%nat ->
  (forall k, 0 <= k < 1024 -> nth (Z.to_nat k) img 0 = view d fid (1024 * page + k)) ->
  data_ok (<[i := Buffer fid page img 0 false h]> l) d T.
Proof.
  intros H Hf Hp Hi Hd Hno Hlen Himg. pose proof (lookup_lt_Some _ _ _ Hi) as Hlt.
  assert (Hl : forall j b, <[i := Buffer fid page img 0 false h]> l !! j = Some b ->
            j = i /\ b = Buffer fid page img 0 false h \/ j <> i /\ l !! j = Some b).
  { intros j b. destruct (decide (i = j)) as [<- | Hne].
    - rewrite list_lookup_insert_eq by done. intros [= <-]. by left.
    - rewrite list_lookup_insert_ne by done. by right. }
  split.
  - intros j b Hj Hne. apply Hl in Hj as [[-> ->] | [Hji Hj]]; [| by apply (k_page _ _ _ H j)].
    split; [done |]. split; [done |]. split; [done |]. cbn [bdata bfile bpage].
    intros k Hk. rewrite (Himg k Hk). symmetry. apply (k_rest _ _ _ H); [done | lia |].
    intros j b Hj Hdb Hfb. replace ((1024 * page + k) / 1024) with page; [by apply (Hno j b) |].
    symmetry. rewrite Z.mul_comm, Z.div_add_l by lia. rewrite Z.div_small; lia.
  - intros j b Hj Hdb. apply Hl in Hj as [[-> ->] | [Hji Hj]]; [done |]. by apply (k_dirty _ _ _ H j).
  - intros j1 j2 b1 b2 H1 H2 Hne Ef Ep.
    apply Hl in H1 as [[-> ->] | [Hj1 H1]]; apply Hl in H2 as [[-> ->] | [Hj2 H2]]; cbn in *.
    + done.
    + exfalso. by apply (Hno j2 b2 H2).
    + exfalso. by apply (Hno j1 b1 H1).
    + by apply (k_unique _ _ _ H j1 j2 b1 b2).
  - intros f p Hf' Hp' Hnd. apply (k_rest _ _ _ H); [done | done |].
    intros j b Hj Hdb. apply (Hnd j b); [| done]. rewrite list_lookup_insert_ne; [done |].
    intros ->. congruence.
Qed.

Lemma s8_one : s8 (0 + 1) = 1 /\ s8 (1 + -1) = 0.
Proof. done. Qed.

Lemma no_page c d T fid page i0 :
  cache_ok c d T -> 0 <= fid ->
  last (lru c) = Some i0 -> has_page fid page (getb c i0) = false ->
  list_find (fun i => has_page fid page (getb c i) = true) (chain c (pHash page)) = None ->
  forall j b, buffers c !! j = Some b -> bfile b = fid -> bpage b <> page.
Proof.
  intros H Hf _ _ Hc j b Hj Ef Ep. apply list_find_None in Hc. rewrite Forall_forall in Hc.
  apply (Hc j).
  - rewrite <- Ep. apply (l_chain _ (ck_links _ _ _ H) j b Hj). unfold BADFID. lia.
  - rewrite (getb_lookup _ _ _ Hj). by apply has_page_true.
Qed.

Lemma DRead_spec c d T fid page :
  cache_ok c d T -> 0 <= fid -> 0 <= page ->
  match DRead d fid page c with
  | (Some i, c') => exists l, locked_page c' l i fid page d T
      /\ map dirty l = map dirty (buffers c)
  | (None, c') => c' = c /\ Forall (fun b => dirty b = true) (buffers c)
  end.
Proof.
  intros H Hf Hp. pose proof H as [HL HD HU HN]. unfold DRead.
  assert (Hlru : lru c <> []).
  { intros E. pose proof (l_lru _ HL) as P. rewrite E in P. symmetry in P.
    apply Permutation_nil_r in P. destruct (buffers c); done. }
  destruct (last (lru c)) as [i0 |] eqn:Elast; [| by apply last_None in Elast].
  assert (Hget : forall i, i ∈ lru c -> has_page fid page (getb c i) = true ->
            forall l' ph', l' ≡ₚ lru c -> ph' = phTable c ->
            locked_page (updb i (add_lockers 1) (Cache (buffers c) l' ph')) (buffers c) i fid page d T).
  { intros i Hi Hh l' ph' Hl' ->. destruct (lru_lookup _ _ HL Hi) as [b Hb].
    rewrite (getb_lookup _ _ _ Hb) in Hh. apply has_page_true in Hh as [E1 E2].
    split; [done |]. split; [exact (links_lru c l' HL Hl') |]. split; [done |]. split; [done |].
    by exists b. }
  destruct (has_page fid page (getb c i0)) eqn:Ehit.
  { exists (buffers c). split; [| done]. destruct c as [bs lr ph].
    apply (Hget i0); [by apply last_Some_elem_of | done | done | done]. }
  destruct (list_find _ (chain c _)) as [[k i] |] eqn:Efind.
  { apply list_find_Some in Efind as (Hk & Hh & _).
    assert (Hi : i ∈ lru c).
    { rewrite (l_lru _ HL). apply elem_of_seq. split; [lia |].
      apply has_page_true in Hh as [_ Hh]. unfold getb in Hh.
      destruct (buffers c !! i) as [b |] eqn:Eb; [apply lookup_lt_Some in Eb; lia |].
      cbn in Hh. unfold BADFID in Hh. lia. }
    exists (buffers c). split; [| done].
    destruct (Dmru_links c i HL Hi) as [HL' Hb'].
    assert (Hperm : lru (Dmru i c) ≡ₚ lru c).
    { rewrite (l_lru _ HL'), (l_lru _ HL), Hb'. done. }
    replace (Dmru i c) with (Cache (buffers c) (lru (Dmru i c)) (phTable c))
      by (unfold Dmru in *; by case_decide). by apply Hget. }
  pose proof (no_page c d T fid page i0 H Hf Elast Ehit Efind) as Hno.
  pose proof (newslot_spec c fid page HL) as HS.
  destruct (newslot fid page c) as [[i c1] |].
  - destruct HS as (b & Hb & Hlk & Hdb & HL1 & Hb1).
    unfold uphys_read at 1. unfold UBIK_PAGESIZE at 1, HDRSIZE at 1.
    destruct (Z.ltb_spec (page * 1024 + 64) 0); [lia |].
    set (img := page_image _).
    destruct (read_page d fid page (take (Z.to_nat 1024) (drop (Z.to_nat (page * UBIK_PAGESIZE + 64))
                (contents d fid)))) as [Hlen Himg]; [done | |].
    { unfold uphys_read, UBIK_PAGESIZE, HDRSIZE. by destruct (Z.ltb_spec (page * 1024 + 64) 0); [lia |]. }
    change (page_image _) with img in Hlen, Himg.
    set (b1 := Buffer fid page img 0 false (pHash page)).
    exists (<[i := b1]> (buffers c)). pose proof (lookup_lt_Some _ _ _ Hb) as Hlt.
    assert (Hl1 : <[i := b1]> (buffers c) !! i = Some b1) by by apply list_lookup_insert_eq.
    split.
    + split.
      { unfold updb. cbn [buffers]. rewrite Hb1, (alter_same _ _ _ _ Hl1), list_insert_insert_eq.
        erewrite alter_same by (by apply list_lookup_insert_eq).
        rewrite list_insert_insert_eq. f_equal. unfold rename, set_bdata, add_lockers, b1. cbn. by rewrite Hlk, Hdb. }
      split.
      { apply (links_ext c1); [done |]. rewrite Hb1. apply list_eq. intros j.
        rewrite !list_lookup_fmap. destruct (decide (i = j)) as [<- |].
        - by rewrite !list_lookup_insert_eq.
        - by rewrite !list_lookup_insert_ne. }
      split; [by apply (insert_page d T _ i b) |].
      split; [by apply Forall_insert | by exists b1].
    + apply list_eq. intros j. rewrite !list_lookup_fmap. destruct (decide (i = j)) as [<- |].
      * rewrite Hl1, Hb. simpl. by rewrite Hdb.
      * by rewrite list_lookup_insert_ne.
  - split; [done |]. apply Forall_forall. intros b Hb. apply list_elem_of_lookup_1 in Hb as [i Hi].
    apply (HS i b Hi). unfold unlocked in HU. rewrite Forall_forall in HU. apply HU.
    by eapply list_elem_of_lookup_2.
Qed.

(** ** Reading *)

Definition bytes (T : Z -> Z -> Z) (f p : Z) (n : nat) : list Z :=
  map (fun k => T f (p + Z.of_nat k)) (seq 0 n).

Lemma bytes_app T f p n m :
  bytes T f p (n + m) = bytes T f p n ++ bytes T f (p + Z.of_nat n) m.
Proof.
  unfold bytes. rewrite seq_app, map_app. f_equal. simpl.
  replace (seq n m) with (map (Nat.add n) (seq 0 m)) by (etrans; [apply fmap_add_seq | f_equal; lia]).
  rewrite map_map. apply map_ext. intros k. f_equal. lia.
Qed.

Lemma bytes_lookup T f p n i : (i < n)%nat -> bytes T f p n !! i = Some (T f (p + Z.of_nat i)).
Proof. intros H. unfold bytes. rewrite list_lookup_fmap, lookup_seq_lt by done. done. Qed.

Lemma length_bytes T f p n : length (bytes T f p n) = n.
Proof. unfold bytes. by rewrite length_map, length_seq. Qed.

(** A position, its page and its offset. *)
Lemma page_split p : 0 <= p ->
  Z.shiftr p UBIK_LOGPAGESIZE = p / 1024 /\ Z.land p (UBIK_PAGESIZE - 1) = p mod 1024
  /\ 0 <= p / 1024 /\ 0 <= p mod 1024 < 1024 /\ p = 1024 * (p / 1024) + p mod 1024.
Proof.
  intros H. unfold UBIK_LOGPAGESIZE, UBIK_PAGESIZE.
  rewrite Z.shiftr_div_pow2 by lia. change (2 ^ 10) with 1024. split; [done |]. split.
  - change (1024 - 1) with (Z.ones 10). by rewrite Z.land_ones by lia.
  - pose proof (Z.mod_pos_bound p 1024). split; [apply Z.div_pos; lia |]. split; [lia |].
    apply Z.div_mod. lia.
Qed.

Lemma round_len_spec apos alen : 0 <= apos -> 0 < alen ->
  0 < round_len apos alen <= alen /\ apos mod 1024 + round_len apos alen <= 1024
  /\ (round_len apos alen < alen -> apos mod 1024 + round_len apos alen = 1024).
Proof.
  intros Hp Ha. unfold round_len. destruct (page_split apos Hp) as (_ & -> & _ & Hm & _).
  unfold UBIK_PAGESIZE. case_test; lia.
Qed.

Lemma piece_bytes T b apos n :
  page_ok T b -> 0 <= apos -> bpage b = apos / 1024 -> apos mod 1024 + Z.of_nat n <= 1024 ->
  take n (drop (Z.to_nat (apos mod 1024)) (bdata b)) = bytes T (bfile b) apos n.
Proof.
  intros (_ & _ & Hlen & Hk) Hp Eb Hn. destruct (page_split apos Hp) as (_ & _ & _ & Hm & Hs).
  apply list_eq. intros i. destruct (decide (i < n)%nat) as [Hi | Hi].
  - rewrite lookup_take_lt, lookup_drop, bytes_lookup by lia.
    specialize (Hk (apos mod 1024 + Z.of_nat i)). rewrite Eb in Hk.
    replace (1024 * (apos / 1024) + (apos mod 1024 + Z.of_nat i)) with (apos + Z.of_nat i) in Hk by lia.
    rewrite <- Hk by lia.
    replace (Z.to_nat (apos mod 1024 + Z.of_nat i)) with (Z.to_nat (apos mod 1024) + i)%nat by lia.
    rewrite nth_lookup.
    destruct (bdata b !! (Z.to_nat (apos mod 1024) + i)%nat) eqn:E; [done |].
    apply lookup_ge_None_1 in E. lia.
  - rewrite lookup_take_ge by lia. symmetry. apply lookup_ge_None_2. rewrite length_bytes. lia.
Qed.

Lemma buffer_unlock b : lockers b = 0 -> add_lockers (-1) (add_lockers 1 b) = b.
Proof. intros H. destruct b. cbn in *. subst. done. Qed.

Lemma release_clean c' l i fid page d T :
  locked_page c' l i fid page d T -> DRelease i false c' = Cache l (lru c') (phTable c').
Proof.
  intros (Hb & _ & _ & HU & b & Hi & _). unfold DRelease, updb. cbn beta iota. f_equal.
  rewrite Hb, alter_alter, (alter_same _ _ _ _ Hi). rewrite buffer_unlock.
  - by apply list_insert_id.
  - unfold unlocked in HU. rewrite Forall_forall in HU. apply HU. by eapply list_elem_of_lookup_2.
Qed.

Lemma locked_data c' l i fid page d T :
  0 <= fid -> locked_page c' l i fid page d T ->
  exists b, l !! i = Some b /\ bfile b = fid /\ bpage b = page /\ page_ok T b
    /\ bdata (getb c' i) = bdata b.
Proof.
  intros Hf (Hb & _ & HD & HU & b & Hi & E1 & E2). exists b. repeat (split; [done |]). split.
  - apply (k_page _ _ _ HD i b Hi). unfold BADFID. lia.
  - unfold getb. by rewrite Hb, list_lookup_alter_eq, Hi.
Qed.

(** Not every buffer is dirty. *)
Definition has_clean (l : list buffer) : Prop := false ∈ map dirty l.

Lemma not_clean l : has_clean l -> Forall (fun b => dirty b = true) l -> False.
Proof.
  unfold has_clean. rewrite list_elem_of_fmap, Forall_forall. intros (b & Hb & Hin) H.
  specialize (H b Hin). congruence.
Qed.

Lemma map_nonempty {A B} (f : A -> B) (l l' : list A) : l <> [] -> map f l' = map f l -> l' <> [].
Proof. intros H E ->. by destruct l. Qed.

Lemma read_loop_spec d T afile : 0 <= afile -> forall fuel c apos alen out,
  cache_ok c d T -> has_clean (buffers c) -> 0 <= apos -> apos + alen <= INT_MAX ->
  (Z.to_nat alen <= fuel)%nat ->
  exists c', read_loop d afile apos alen fuel c out = (0, out ++ bytes T afile apos (Z.to_nat alen), c')
    /\ cache_ok c' d T /\ map dirty (buffers c') = map dirty (buffers c).
Proof.
  intros Hf. induction fuel as [| fuel IH]; intros c apos alen out H Hclean Hp Hmax Hfuel; cbn [read_loop].
  { replace (Z.to_nat alen) with 0%nat by lia. rewrite app_nil_r. by exists c. }
  destruct (Z.leb_spec alen 0) as [Hz | Hz].
  { replace (Z.to_nat alen) with 0%nat by lia. rewrite app_nil_r. by exists c. }
  destruct (page_split apos Hp) as (-> & -> & Hpg & Hm & Hs).
  destruct (round_len_spec apos alen Hp Hz) as (Hl1 & Hl2 & _).
  pose proof (DRead_spec c d T afile (apos / 1024) H Hf Hpg) as HR.
  destruct (DRead d afile (apos / 1024) c) as [[i |] c']; [| by destruct HR as [_ HA]; destruct (not_clean _ Hclean HA)].
  destruct HR as (l & HL & Hdirty).
  destruct (locked_data _ _ _ _ _ _ _ Hf HL) as (b & Hi & E1 & E2 & Hok & ->).
  rewrite (release_clean _ _ _ _ _ _ _ HL).
  rewrite (piece_bytes T b apos) by (try done; lia). rewrite E1.
  set (n := round_len apos alen) in *.
  rewrite (s32_small (apos + n)) by (unfold INT_MIN; lia).
  destruct HL as (_ & HL & HD & HU & _).
  destruct (IH (Cache l (lru c') (phTable c')) (apos + n) (alen - n) (out ++ bytes T afile apos (Z.to_nat n)))
    as (c2 & -> & H2 & Hd2); [| | lia | lia | lia |].
  - split; [done.. |]. apply (map_nonempty dirty (buffers c)); [apply H | done].
  - unfold has_clean. cbn [buffers]. by rewrite Hdirty.
  - exists c2. split; [| by rewrite Hd2].
    rewrite <- app_assoc. f_equal. f_equal. f_equal.
    replace (Z.to_nat alen) with (Z.to_nat n + Z.to_nat (alen - n))%nat by lia.
    rewrite bytes_app. f_equal. f_equal. lia.
Qed.

(** ** Writing *)

(** The contents after [b] is written at [p] of file [f]. *)
Definition upd (T : Z -> Z -> Z) (f p : Z) (b : list Z) : Z -> Z -> Z := fun g q =>
  if decide (g = f /\ p <= q < p + Z.of_nat (length b)) then nth (Z.to_nat (q - p)) b 0 else T g q.

Lemma upd_app T f p b1 b2 g q :
  upd (upd T f p b1) f (p + Z.of_nat (length b1)) b2 g q = upd T f p (b1 ++ b2) g q.
Proof.
  unfold upd. rewrite length_app.
  destruct (decide (g = f)) as [-> | Hg].
  2: { by rewrite !decide_False by (intros [? _]; done). }
  destruct (decide (p <= q < p + Z.of_nat (length b1))) as [H1 | H1].
  - rewrite decide_False by (intros [_ ?]; lia). rewrite !decide_True by (split; [done | lia]).
    by rewrite app_nth1 by lia.
  - rewrite (decide_False (P := f = f /\ p <= q < p + Z.of_nat (length b1))) by (intros [_ ?]; lia).
    destruct (decide (p + Z.of_nat (length b1) <= q < p + Z.of_nat (length b1 + length b2))).
    + rewrite !decide_True by (split; [done | lia]). rewrite app_nth2 by lia. f_equal. lia.
    + by rewrite !decide_False by (intros [_ ?]; lia).
Qed.

Lemma data_ok_ext l d T T' :
  data_ok l d T -> (forall f p, 0 <= f -> 0 <= p -> T' f p = T f p) -> data_ok l d T'.
Proof.
  intros H E. split.
  - intros i b Hi Hne. destruct (k_page _ _ _ H i b Hi Hne) as (Hf & Hp & Hl & Hk).
    repeat (split; [done |]). intros k Hb. by rewrite E, Hk by lia.
  - apply (k_dirty _ _ _ H).
  - apply (k_unique _ _ _ H).
  - intros f p Hf Hp Hn. rewrite E by done. by apply (k_rest _ _ _ H).
Qed.

Lemma cache_ok_ext c d T T' :
  cache_ok c d T -> (forall f p, 0 <= f -> 0 <= p -> T' f p = T f p) -> cache_ok c d T'.
Proof. intros [? H ? ?] E. split; try done. by apply (data_ok_ext _ _ T). Qed.

Lemma nth_splice data off b k :
  (off + length b <= length data)%nat -> (k < length data)%nat ->
  nth k (splice data off b) 0 =
    if decide (off <= k < off + length b)%nat then nth (k - off) b 0 else nth k data 0.
Proof.
  intros Hl Hk. unfold splice.
  assert (Ht : length (take off data) = off) by (rewrite length_take; lia).
  destruct (decide (k < off)%nat).
  - rewrite decide_False by lia. rewrite app_nth1 by lia. rewrite !nth_lookup. by rewrite lookup_take_lt by lia.
  - rewrite app_nth2 by lia. rewrite Ht. destruct (decide (k < off + length b)%nat).
    + rewrite decide_True by lia. by rewrite app_nth1 by lia.
    + rewrite decide_False by lia. rewrite app_nth2 by lia. rewrite !nth_lookup, lookup_drop.
      f_equal. f_equal. lia.
Qed.

Lemma length_splice data off b :
  (off + length b <= length data)%nat -> length (splice data off b) = length data.
Proof. intros H. unfold splice. rewrite !length_app, length_take, length_drop. lia. Qed.

Definition put (off : Z) (piece : list Z) (b : buffer) : buffer :=
  set_dirty true (set_bdata (splice (bdata b) (Z.to_nat off) piece) b).

Lemma put_page l d T i b off piece :
  data_ok l d T -> l !! i = Some b -> page_ok T b -> 0 <= off ->
  off + Z.of_nat (length piece) <= 1024 ->
  data_ok (<[i := put off piece b]> l) d (upd T (bfile b) (1024 * bpage b + off) piece).
Proof.
  intros H Hi (Hf & Hp & Hlen & Hk) Ho Hfit. pose proof (lookup_lt_Some _ _ _ Hi) as Hlt.
  assert (Hl : forall j x, <[i := put off piece b]> l !! j = Some x ->
            j = i /\ x = put off piece b \/ j <> i /\ l !! j = Some x).
  { intros j x. destruct (decide (i = j)) as [<- | Hne].
    - rewrite list_lookup_insert_eq by done. intros [= <-]. by left.
    - rewrite list_lookup_insert_ne by done. by right. }
  assert (Hvalid : bfile b <> BADFID) by (unfold BADFID; lia).
  split.
  - intros j x Hj Hne. apply Hl in Hj as [[-> ->] | [Hji Hj]].
    + split; [done |]. split; [done |]. cbn [bdata put set_dirty set_bdata].
      rewrite length_splice by lia. split; [done |]. intros k Hkk.
      rewrite nth_splice by lia. unfold upd. cbn [bfile bpage put set_dirty set_bdata].
      destruct (decide (off <= k < off + Z.of_nat (length piece))).
      * rewrite !decide_True by (try split; try done; lia). f_equal. lia.
      * rewrite decide_False by lia. rewrite decide_False by (intros [_ ?]; lia). by apply Hk.
    + destruct (k_page _ _ _ H j x Hj Hne) as (Hf' & Hp' & Hlen' & Hk').
      repeat (split; [done |]). intros k Hkk. rewrite (Hk' k Hkk). unfold upd.
      rewrite decide_False; [done |]. intros [Ef Er]. apply Hji. symmetry.
      apply (k_unique _ _ _ H i j b x Hi Hj Hvalid); [done | lia].
  - intros j x Hj Hd. apply Hl in Hj as [[-> ->] | [Hji Hj]]; [done | by apply (k_dirty _ _ _ H j)].
  - intros j1 j2 x1 x2 H1 H2 Hne Ef Ep.
    apply Hl in H1 as [[-> ->] | [Hj1 H1]]; apply Hl in H2 as [[-> ->] | [Hj2 H2]]; cbn in *.
    + done.
    + by apply (k_unique _ _ _ H i j2 b x2).
    + by apply (k_unique _ _ _ H j1 i x1 b).
    + by apply (k_unique _ _ _ H j1 j2 x1 x2).
  - intros f p Hf' Hp' Hn. unfold upd. rewrite decide_False.
    + apply (k_rest _ _ _ H); [done | done |]. intros j x Hj Hd Ef.
      destruct (decide (i = j)) as [<- | Hne].
      * assert (x = b) as -> by congruence.
        apply (Hn i (put off piece b)); [by apply list_lookup_insert_eq | done | done].
      * apply (Hn j x); [by rewrite list_lookup_insert_ne | done | done].
    + intros [-> Hr]. apply (Hn i (put off piece b)); [by apply list_lookup_insert_eq | done | done |].
      cbn. apply (Z.div_unique_pos p 1024 _ (p - 1024 * bpage b)); lia.
Qed.

Lemma release_dirty c' l i fid page d T b off piece :
  locked_page c' l i fid page d T -> l !! i = Some b ->
  DRelease i true (updb i (fun x => set_bdata (splice (bdata x) off piece) x) c')
  = Cache (<[i := set_dirty true (set_bdata (splice (bdata b) off piece) b)]> l) (lru c') (phTable c').
Proof.
  intros (Hb & _ & _ & HU & _) Hi. unfold DRelease, updb. cbn [buffers lru phTable]. f_equal.
  rewrite Hb, !alter_alter, (alter_same _ _ _ _ Hi). f_equal.
  assert (E : lockers b = 0).
  { unfold unlocked in HU. rewrite Forall_forall in HU. apply HU. by eapply list_elem_of_lookup_2. }
  destruct b. cbn in *. subst. done.
Qed.

(** Room for a write: the pages it touches against the clean buffers. *)
Definition pages (apos alen : Z) : Z := (apos mod 1024 + alen + 1023) / 1024.
Definition nclean (l : list buffer) : Z := Z.of_nat (length (filter (fun v => v = false) (map dirty l))).

Lemma nclean_has l : 0 < nclean l -> has_clean l.
Proof.
  unfold nclean, has_clean. intros H.
  destruct (filter (fun v => v = false) (map dirty l)) as [| v k] eqn:E; [simpl in H; lia |].
  assert (Hv : v ∈ filter (fun v => v = false) (map dirty l)) by (rewrite E; left).
  apply list_elem_of_filter in Hv as [-> Hv]. done.
Qed.

Lemma nclean_insert l i b : nclean l - 1 <= nclean (<[i := set_dirty true b]> l).
Proof.
  unfold nclean. revert i. induction l as [| x l IH]; intros i; [done |].
  destruct i as [| i].
  - change (<[0%nat:=set_dirty true b]> (x :: l)) with (set_dirty true b :: l).
    cbn [map dirty set_dirty]. rewrite !filter_cons. repeat case_decide; try done; simpl; lia.
  - change (<[S i:=set_dirty true b]> (x :: l)) with (x :: <[i:=set_dirty true b]> l).
    cbn [map]. rewrite !filter_cons. specialize (IH i). case_decide; simpl; lia.
Qed.

Lemma pages_step apos alen :
  0 <= apos -> 0 < alen -> let n := round_len apos alen in
  1 <= pages apos alen /\ (n < alen -> pages (apos + n) (alen - n) = pages apos alen - 1).
Proof.
  intros Hp Ha n. destruct (round_len_spec apos alen Hp Ha) as (H1 & H2 & H3). fold n in H1, H2, H3.
  unfold pages. pose proof (Z.mod_pos_bound apos 1024). split; [apply Z.div_le_lower_bound; lia |].
  intros Hn. specialize (H3 Hn).
  assert (E : (apos + n) mod 1024 = 0).
  { replace (apos + n) with ((apos / 1024 + 1) * 1024); [apply Z.mod_mul; lia |].
    pose proof (Z.div_mod apos 1024). lia. }
  rewrite E. replace (apos mod 1024 + alen + 1023) with (0 + (alen - n) + 1023 + 1 * 1024) by lia.
  rewrite Z.div_add by lia. lia.
Qed.

Lemma write_loop_spec d afile : 0 <= afile -> forall fuel c T apos abuffer,
  cache_ok c d T -> 0 <= apos -> apos + Z.of_nat (length abuffer) <= INT_MAX ->
  (length abuffer <= fuel)%nat ->
  exists k c', (k <= length abuffer)%nat
    /\ write_loop d afile abuffer apos (Z.of_nat (length abuffer)) fuel c
       = (if Nat.eqb k (length abuffer) then 0 else UIOERROR, c')
    /\ cache_ok c' d (upd T afile apos (take k abuffer))
    /\ (pages apos (Z.of_nat (length abuffer)) <= nclean (buffers c) -> k = length abuffer).
Proof.
  intros Hf. induction fuel as [| fuel IH]; intros c T apos abuffer H Hp Hmax Hfuel.
  { destruct abuffer; [| simpl in Hfuel; lia]. exists 0%nat, c. split; [done |]. split; [done |].
    split; [| done]. apply (cache_ok_ext _ _ T); [done |]. intros f p _ _. unfold upd. simpl.
    by rewrite decide_False by lia. }
  cbn [write_loop]. destruct (Z.leb_spec (Z.of_nat (length abuffer)) 0) as [Hz | Hz].
  { assert (abuffer = []) as -> by (apply nil_length_inv; lia).
    exists 0%nat, c. split; [done |]. split; [done |].
    split; [| done]. apply (cache_ok_ext _ _ T); [done |]. intros f p _ _. unfold upd. simpl.
    by rewrite decide_False by lia. }
  destruct (page_split apos Hp) as (-> & -> & Hpg & Hm & Hs).
  destruct (round_len_spec apos _ Hp Hz) as (Hl1 & Hl2 & _).
  destruct (pages_step apos _ Hp Hz) as [Hpg1 Hpg2].
  pose proof (DRead_spec c d T afile (apos / 1024) H Hf Hpg) as HR.
  destruct (DRead d afile (apos / 1024) c) as [[i |] c'].
  2: { destruct HR as [-> HA]. exists 0%nat, c. split; [lia |].
       assert (HN : DNew afile (apos / 1024) c = (None, c)).
       { unfold DNew. pose proof (newslot_spec c afile (apos / 1024) (ck_links _ _ _ H)) as HS.
         destruct (newslot _ _ c) as [[i c1] |]; [| done].
         destruct HS as (b & Hb & _ & Hd & _). rewrite Forall_forall in HA.
         apply list_elem_of_lookup_2 in Hb. apply HA in Hb. congruence. }
       rewrite HN. split; [by destruct abuffer |]. split.
       - apply (cache_ok_ext _ _ T); [done |]. intros f p _ _. unfold upd. simpl.
         by rewrite decide_False by lia.
       - intros Hroom. destruct (not_clean _ (nclean_has (buffers c) ltac:(lia)) HA). }
  destruct HR as (l & HL & Hdirty).
  destruct (locked_data _ _ _ _ _ _ _ Hf HL) as (b & Hi & E1 & E2 & Hok & _).
  set (n := round_len apos (Z.of_nat (length abuffer))) in *.
  set (b1 := take (Z.to_nat n) abuffer). set (b2 := drop (Z.to_nat n) abuffer).
  assert (Hn1 : length b1 = Z.to_nat n) by (subst b1; rewrite length_take; lia).
  assert (Hn2 : length b2 = (length abuffer - Z.to_nat n)%nat) by (subst b2; by rewrite length_drop).
  assert (Hab : abuffer = b1 ++ b2) by (symmetry; apply take_drop).
  rewrite (release_dirty _ _ _ _ _ _ _ _ _ _ HL Hi).
  rewrite (s32_small (apos + n)) by (unfold INT_MIN; lia).
  replace (Z.of_nat (length abuffer) - n) with (Z.of_nat (length b2)) by lia.
  destruct HL as (_ & HL & HD & HU & _).
  set (l2 := <[i := _]> l).
  assert (H2 : cache_ok (Cache l2 (lru c') (phTable c')) d (upd T afile apos b1)).
  { split; cbn [buffers].
    - apply (links_ext (Cache l (lru c') (phTable c')) l2 HL). cbn [buffers]. subst l2.
      apply list_eq. intros j. rewrite !list_lookup_fmap. destruct (decide (i = j)) as [<- |].
      + rewrite list_lookup_insert_eq by (by eapply lookup_lt_Some). by rewrite Hi.
      + by rewrite list_lookup_insert_ne.
    - pose proof (put_page l d T i b (apos mod 1024) b1 HD Hi Hok ltac:(lia) ltac:(lia)) as HP.
      rewrite E1, E2 in HP. by replace (1024 * (apos / 1024) + apos mod 1024) with apos in HP by lia.
    - apply Forall_insert; [done |]. cbn. unfold unlocked in HU. rewrite Forall_forall in HU.
      apply HU. by eapply list_elem_of_lookup_2.
    - intros E. assert (length l2 = 0%nat) as El by by rewrite E. subst l2. rewrite length_insert in El.
      apply lookup_lt_Some in Hi. lia. }
  destruct (IH _ _ (apos + n) b2 H2) as (k & c2 & Hk & -> & H3 & Hroom); [lia | lia | lia |].
  exists (Z.to_nat n + k)%nat, c2. split; [lia |]. split; [| split].
  - f_equal. rewrite Hn2. destruct (Nat.eqb_spec k (length abuffer - Z.to_nat n));
      destruct (Nat.eqb_spec (Z.to_nat n + k) (length abuffer)); try done; lia.
  - apply (cache_ok_ext _ _ _ _ H3). intros f p _ _.
    rewrite Hab at 1. rewrite <- Hn1, take_app_add, <- upd_app. f_equal. lia.
  - intros Hr. destruct (decide (n < Z.of_nat (length abuffer))) as [Hlt | Hge]; [| lia].
    rewrite Hroom; [lia |].
    assert (Hc2 : nclean (buffers c) - 1 <= nclean l2).
    { unfold nclean at 1. rewrite <- Hdirty. apply (nclean_insert l i). }
    cbn [buffers]. replace (Z.of_nat (length b2)) with (Z.of_nat (length abuffer) - n) by lia.
    rewrite Hpg2; lia.
Qed.

(** ** Forgetting and flushing *)

Lemma links_update c i f :
  links_ok c ->
  (forall b, bpage (f b) = bpage b /\ hashIndex (f b) = hashIndex b
     /\ (bfile (f b) = BADFID \/ bfile (f b) = bfile b)) ->
  links_ok (updb i f c).
Proof.
  intros H Hf. unfold updb. split; cbn [buffers lru phTable].
  - rewrite length_alter. apply (l_lru _ H).
  - intros h j Hj. rewrite <- (l_index _ H h j Hj). unfold getb. cbn [buffers].
    rewrite list_lookup_alter. case_decide as E; [| done]. subst.
    destruct (buffers c !! j); [| done]. apply Hf.
  - apply (l_nodup _ H).
  - intros j b. rewrite list_lookup_alter. case_decide as E.
    + subst. destruct (buffers c !! j) as [b0 |] eqn:Eb; [| done]. intros [= <-] Hne.
      destruct (Hf b0) as (-> & _ & [Hx | Hx]); [done |]. apply (l_chain _ H j b0 Eb). congruence.
    + apply (l_chain _ H).
Qed.

(** A loop over the buffers that treats each on its own. *)
Lemma for_buffers_spec f g c :
  (forall i c, links_ok c -> (i < length (buffers c))%nat ->
     links_ok (f i c) /\ buffers (f i c) = alter g i (buffers c)) ->
  links_ok c -> links_ok (for_buffers f c) /\ buffers (for_buffers f c) = map g (buffers c).
Proof.
  intros Hf H. unfold for_buffers.
  assert (G : forall n c0, (n <= length (buffers c0))%nat -> links_ok c0 ->
    let c1 := fold_left (fun c i => f i c) (seq 0 n) c0 in
    links_ok c1 /\ buffers c1 = map g (take n (buffers c0)) ++ drop n (buffers c0)).
  { induction n as [| n IH]; intros c0 Hn H0; [by split |].
    rewrite seq_S, fold_left_app. cbn [fold_left]. destruct (IH c0) as [I1 I2]; [lia | done |].
    cbv zeta in I1, I2 |- *. set (c1 := fold_left _ _ c0) in *. rewrite Nat.add_0_l.
    assert (Hl : length (map g (take n (buffers c0))) = n) by (rewrite length_map, length_take; lia).
    destruct (Hf n c1 I1) as [J1 J2].
    { rewrite I2, length_app, Hl, length_drop. lia. }
    split; [done |]. rewrite J2, I2.
    destruct (lookup_lt_is_Some_2 (buffers c0) n ltac:(lia)) as [b Hb].
    rewrite (take_S_r _ _ _ Hb), (drop_S _ _ _ Hb), map_app, <- app_assoc. cbn [map app].
    rewrite (alter_same _ _ _ b).
    - rewrite <- Hl at 1. by rewrite insert_app_r_alt, Nat.sub_diag by lia.
    - rewrite lookup_app_r, Hl, Nat.sub_diag by lia. done. }
  destruct (G (length (buffers c)) c) as [G1 G2]; [lia | done |].
  split; [done |]. rewrite G2, firstn_all, drop_all, app_nil_r. done.
Qed.

Definition forget (b : buffer) : buffer :=
  if dirty b then set_bfile BADFID (set_dirty false b) else b.

Lemma Dlru_updb_links c i f :
  links_ok c -> (i < length (buffers c))%nat ->
  (forall b, bpage (f b) = bpage b /\ hashIndex (f b) = hashIndex b
     /\ (bfile (f b) = BADFID \/ bfile (f b) = bfile b)) ->
  links_ok (Dlru i (updb i f c)) /\ buffers (Dlru i (updb i f c)) = alter f i (buffers c).
Proof.
  intros H Hi Hf. pose proof (links_update c i f H Hf) as H1.
  destruct (Dlru_links _ i H1) as [H2 H3]; [| by rewrite H3].
  rewrite (l_lru _ H1). apply elem_of_seq. unfold updb. cbn [buffers]. rewrite length_alter. lia.
Qed.

Lemma alter_if {A} (p : A -> bool) (f : A -> A) (i : nat) (l : list A) b :
  l !! i = Some b -> (if p b then alter f i l else l) = alter (fun x => if p x then f x else x) i l.
Proof.
  intros Hb. apply list_eq. intros j. destruct (decide (i = j)) as [<- |].
  - rewrite list_lookup_alter_eq, Hb. simpl. destruct (p b); [| done].
    by rewrite list_lookup_alter_eq, Hb.
  - rewrite list_lookup_alter_ne by done. destruct (p b); [| done]. by rewrite list_lookup_alter_ne.
Qed.

Lemma DAbort_links c : links_ok c -> links_ok (DAbort c) /\ buffers (DAbort c) = map forget (buffers c).
Proof.
  intros H. unfold DAbort. apply for_buffers_spec; [| done]. clear c H. intros i c H Hi.
  destruct (lookup_lt_is_Some_2 (buffers c) i Hi) as [b Hb]. rewrite (getb_lookup _ _ _ Hb).
  pose proof (alter_if dirty (fun b => set_bfile BADFID (set_dirty false b)) i _ b Hb) as E.
  change (alter _ i (buffers c)) with (alter forget i (buffers c)) in E at 2.
  destruct (dirty b).
  - rewrite <- E. apply Dlru_updb_links; [done | done |]. intros x. repeat split. by left.
  - by rewrite <- E.
Qed.

Lemma DAbort_ok c d T : cache_ok c d T -> cache_ok (DAbort c) d (view d) /\ Forall (fun b => dirty b = false) (buffers (DAbort c)).
Proof.
  intros [HL HD HU HN]. destruct (DAbort_links c HL) as [L1 L2].
  assert (Hd : Forall (fun b => dirty b = false) (buffers (DAbort c))).
  { rewrite L2. apply Forall_forall. intros b (b0 & -> & _)%list_elem_of_fmap. unfold forget.
    by destruct (dirty b0) eqn:E. }
  assert (Hlk : forall i b, map forget (buffers c) !! i = Some b -> bfile b <> BADFID ->
            buffers c !! i = Some b /\ dirty b = false).
  { intros i b Hi Hne. rewrite list_lookup_fmap in Hi. destruct (buffers c !! i) as [b0 |]; [| done].
    injection Hi as <-. unfold forget in *. by destruct (dirty b0) eqn:E. }
  split; [| done]. split; [done | | |].
  - rewrite L2. split.
    + intros i b Hi Hne. destruct (Hlk i b Hi Hne) as [Hb Hdb].
      destruct (k_page _ _ _ HD i b Hb Hne) as (Hf & Hp & Hlen & Hk). repeat (split; [done |]).
      intros k Hkk. rewrite (Hk k Hkk). apply (k_rest _ _ _ HD); [done | lia |].
      intros j bj Hj Hdj Hfj Hpj.
      assert (Hpg : (1024 * bpage b + k) / 1024 = bpage b)
        by (symmetry; apply (Z.div_unique_pos _ _ _ k); lia).
      rewrite Hpg in Hpj.
      assert (j = i) as -> by (apply (k_unique _ _ _ HD j i bj b); congruence). congruence.
    + intros i b Hi Hdb. rewrite L2, Forall_forall in Hd. apply list_elem_of_lookup_2 in Hi.
      apply Hd in Hi. congruence.
    + intros i j bi bj Hi Hj Hne Ef Ep. destruct (Hlk i bi Hi Hne) as [Hi' _].
      destruct (Hlk j bj Hj) as [Hj' _]; [congruence |]. by apply (k_unique _ _ _ HD i j bi bj).
    + done.
  - rewrite L2. apply Forall_forall. intros b (b0 & -> & Hb0)%list_elem_of_fmap. unfold unlocked in HU.
    rewrite Forall_forall in HU. specialize (HU b0 Hb0). unfold forget. by destruct (dirty b0).
  - rewrite L2. by destruct (buffers c).
Qed.

(** The writes of some of the dirty pages. *)
Definition covered (l : list buffer) (f p : Z) : Prop :=
  Exists (fun b => dirty b = true /\ bfile b = f /\ bpage b = p / 1024) l.

Lemma flush_spec T l : Forall (fun b => dirty b = true -> page_ok T b) l -> forall d,
  exists d', flush_buffers l d = (0, d') /\ d' !! LOGFILE = d !! LOGFILE
    /\ forall f p, 0 <= f -> 0 <= p ->
         view d' f p = if decide (covered l f p) then T f p else view d f p.
Proof.
  induction l as [| b l IH]; intros Hl d; cbn [flush_buffers].
  { exists d. split; [done |]. split; [done |]. intros f p _ _. rewrite decide_False; [done |].
    intros H. by apply Exists_nil in H. }
  apply Forall_cons in Hl as [Hb Hl]. destruct (dirty b) eqn:Ed.
  - destruct (Hb eq_refl) as (Hf & Hp & Hlen & Hk).
    destruct (uphys_write d (bfile b) (bpage b * UBIK_PAGESIZE) (bdata b)) as [d1 |] eqn:Ew.
    2: { rewrite uphys_write_ok in Ew by (unfold UBIK_PAGESIZE; lia). done. }
    destruct (IH Hl d1) as (d' & -> & E2 & Hv). exists d'. split; [done |]. split.
    { rewrite E2. rewrite uphys_write_ok in Ew by (unfold UBIK_PAGESIZE; lia). injection Ew as <-.
      apply lookup_insert_ne. unfold LOGFILE. lia. }
    intros f p Hf' Hp'. rewrite (Hv f p Hf' Hp').
    destruct (decide (covered l f p)) as [Hc | Hc].
    { rewrite decide_True; [done |]. by apply Exists_cons_tl. }
    assert (Hpos : 0 <= bpage b * UBIK_PAGESIZE) by (unfold UBIK_PAGESIZE; lia).
    rewrite (view_write d (bfile b) _ (bdata b) d1 f p Hpos Hp' Ew).
    unfold UBIK_PAGESIZE. rewrite Hlen.
    destruct (decide (f = bfile b /\ bpage b * 1024 <= p < bpage b * 1024 + Z.of_nat 1024)) as [[-> Hr] | Hn].
    + rewrite decide_True.
      * rewrite Hk by lia. f_equal. lia.
      * apply Exists_cons_hd. split; [done |]. split; [done |].
        apply (Z.div_unique_pos p 1024 _ (p - 1024 * bpage b)); lia.
    + rewrite decide_False; [done |]. intros [(_ & Ef & Ep) | ?]%Exists_cons; [| done].
      apply Hn. split; [done |]. pose proof (Z.div_mod p 1024). pose proof (Z.mod_pos_bound p 1024). lia.
  - destruct (IH Hl d) as (d' & -> & E2 & Hv). exists d'. split; [done |]. split; [done |].
    intros f p Hf' Hp'. rewrite (Hv f p Hf' Hp').
    destruct (decide (covered l f p)) as [Hc | Hc].
    + rewrite decide_True; [done |]. by apply Exists_cons_tl.
    + rewrite decide_False; [done |]. intros [(? & _) | ?]%Exists_cons; [congruence | done].
Qed.

Lemma flush_pages c d T n : data_ok (buffers c) d T ->
  Forall (fun b => dirty b = true -> page_ok T b) (take n (buffers c)).
Proof.
  intros H. apply Forall_take, Forall_forall. intros b Hb Hd. apply list_elem_of_lookup_1 in Hb as [i Hi].
  apply (k_page _ _ _ H i b Hi), (k_dirty _ _ _ H i b Hi Hd).
Qed.

(** A page that is not yet flushed is either right already or dirty. *)
Lemma flushed_all l d T : data_ok l d T -> forall f p, 0 <= f -> 0 <= p ->
  (if decide (covered l f p) then T f p else view d f p) = T f p.
Proof.
  intros H f p Hf Hp. case_decide as Hc; [done |]. symmetry. apply (k_rest _ _ _ H); [done | done |].
  intros i b Hi Hd Ef Ep. apply Hc, Exists_exists. exists b. split; [by eapply list_elem_of_lookup_2 | done].
Qed.

(** *** [DSync] *)

(** The file a pass settles on, starting with [file]. *)
Fixpoint pass_file (l : list buffer) (file : Z) : Z :=
  match l with
  | [] => file
  | b :: l' => pass_file l' (if dirty b then (if file =? BADFID then bfile b else file) else file)
  end.
Definition clean (file : Z) (b : buffer) : buffer :=
  if dirty b && (bfile b =? file) then set_dirty false b else b.
Definition ndirty (l : list buffer) : nat := length (filter (fun b => dirty b = true) l).

Lemma pass_file_fixed l file : file <> BADFID -> pass_file l file = file.
Proof.
  revert file. induction l as [| b l IH]; intros file H; [done |]. cbn [pass_file].
  apply Z.eqb_neq in H. rewrite H. apply Z.eqb_neq in H. destruct (dirty b); by apply IH.
Qed.

Lemma sync_pass_spec l : Forall (fun b => dirty b = true -> bfile b <> BADFID) l ->
  sync_pass l = (pass_file l BADFID, map (clean (pass_file l BADFID)) l).
Proof.
  intros Hl.
  assert (G : forall file out,
    fold_left (fun '(file, out) b =>
      if dirty b then
        let file' := if file =? BADFID then bfile b else file in
        if negb (file' =? BADFID) && (bfile b =? file')
        then (file', out ++ [set_dirty false b]) else (file', out ++ [b])
      else (file, out ++ [b])) l (file, out)
    = (pass_file l file, out ++ map (clean (pass_file l file)) l)).
  { induction l as [| b l IH]; intros file out; cbn [fold_left map pass_file];
      [by rewrite app_nil_r |].
    apply Forall_cons in Hl as [Hb Hl]. specialize (IH Hl). unfold clean at 1.
    destruct (dirty b) eqn:Ed.
    - specialize (Hb eq_refl). cbv zeta. set (file' := if file =? BADFID then bfile b else file).
      assert (Hf' : file' <> BADFID) by (subst file'; destruct (Z.eqb_spec file BADFID); done).
      rewrite (pass_file_fixed l file' Hf'). apply Z.eqb_neq in Hf' as Hf2. rewrite Hf2.
      cbn [negb andb].
      destruct (bfile b =? file'); rewrite IH, <- app_assoc, (pass_file_fixed l file' Hf'); done.
    - cbn [andb]. by rewrite IH, <- app_assoc. }
  exact (G BADFID []).
Qed.

Lemma pass_file_none l : Forall (fun b => dirty b = true -> bfile b <> BADFID) l ->
  pass_file l BADFID = BADFID -> Forall (fun b => dirty b = false) l.
Proof.
  induction l as [| b l IH]; intros Hl E; [constructor |]. apply Forall_cons in Hl as [Hb Hl].
  cbn [pass_file] in E. destruct (dirty b) eqn:Ed.
  - rewrite Z.eqb_refl in E. specialize (Hb eq_refl). by rewrite pass_file_fixed in E.
  - constructor; auto.
Qed.

Lemma pass_file_some l file : pass_file l file <> file ->
  Exists (fun b => dirty b = true /\ bfile b = pass_file l file) l.
Proof.
  revert file. induction l as [| b l IH]; intros file H; [done |]. cbn [pass_file] in *.
  destruct (dirty b) eqn:Ed; [| by apply Exists_cons_tl, IH].
  destruct (Z.eqb_spec file BADFID) as [-> | Hne]; [| by apply Exists_cons_tl, IH].
  destruct (decide (pass_file l (bfile b) = bfile b)) as [E | E].
  - apply Exists_cons_hd. by rewrite E.
  - by apply Exists_cons_tl, IH.
Qed.

Lemma ndirty_clean file l : (ndirty (map (clean file) l) <= ndirty l)%nat
  /\ (Exists (fun b => dirty b = true /\ bfile b = file) l -> (ndirty (map (clean file) l) < ndirty l)%nat).
Proof.
  unfold ndirty. induction l as [| b l [IH1 IH2]]; [split; [done |]; intros H; by apply Exists_nil in H |].
  assert (Hx : (dirty (clean file b) = true -> dirty b = true)
            /\ (dirty b = true -> bfile b = file -> dirty (clean file b) <> true)).
  { unfold clean. destruct (dirty b) eqn:Ed; cbn [andb]; [| by rewrite Ed].
    destruct (Z.eqb_spec (bfile b) file); [by split | by split]. }
  cbn [map]. rewrite !filter_cons, Exists_cons. destruct Hx as [Hx1 Hx2].
  repeat case_decide; simpl; (split; [try lia; naive_solver |]); intros [[? ?] | HE];
    try (specialize (IH2 HE)); try lia; naive_solver.
Qed.

Lemma sync_loop_spec fuel l : Forall (fun b => dirty b = true -> bfile b <> BADFID) l ->
  (ndirty l < fuel)%nat -> sync_loop l fuel = map (set_dirty false) l.
Proof.
  revert l. induction fuel as [| fuel IH]; intros l Hl Hn; [lia |]. cbn [sync_loop].
  rewrite (sync_pass_spec l Hl). destruct (Z.eqb_spec (pass_file l BADFID) BADFID) as [E | E].
  - pose proof (pass_file_none l Hl E) as Hno. apply map_ext_in. intros b Hb.
    rewrite Forall_forall in Hno. specialize (Hno b ltac:(by apply list_elem_of_In)).
    unfold clean. rewrite Hno. destruct b. cbn in *. by subst.
  - destruct (ndirty_clean (pass_file l BADFID) l) as [_ Hlt].
    specialize (Hlt (pass_file_some l BADFID E)). rewrite IH; [| | lia].
    + rewrite map_map. apply map_ext. intros b. unfold clean. by destruct (_ && _).
    + apply Forall_forall. intros b (b0 & -> & Hb0)%list_elem_of_fmap. rewrite Forall_forall in Hl.
      specialize (Hl b0 Hb0). unfold clean. destruct (dirty b0) eqn:Ed; cbn [andb]; [| by rewrite Ed].
      destruct (bfile b0 =? _); cbn [set_dirty bfile dirty]; auto.
Qed.

Lemma DSync_ok c d T d' :
  cache_ok c d T -> (forall f p, 0 <= f -> 0 <= p -> view d' f p = T f p) ->
  (DSync c).1 = 0 /\ cache_ok (DSync c).2 d' T
  /\ Forall (fun b => dirty b = false) (buffers (DSync c).2).
Proof.
  intros [HL HD HU HN] Hv. split; [done |].
  assert (Hvalid : Forall (fun b => dirty b = true -> bfile b <> BADFID) (buffers c)).
  { apply Forall_forall. intros b Hb Hd. apply list_elem_of_lookup_1 in Hb as [i Hi].
    by apply (k_dirty _ _ _ HD i b). }
  assert (E : buffers (DSync c).2 = map (set_dirty false) (buffers c)).
  { apply sync_loop_spec; [done |]. unfold ndirty. pose proof (length_filter (fun b => dirty b = true) (buffers c)). lia. }
  assert (Hd : Forall (fun b => dirty b = false) (buffers (DSync c).2)).
  { rewrite E. apply Forall_forall. by intros b (b0 & -> & _)%list_elem_of_fmap. }
  assert (Hlk : forall i b, buffers (DSync c).2 !! i = Some b ->
            exists b0, buffers c !! i = Some b0 /\ b = set_dirty false b0).
  { intros i b. rewrite E, list_lookup_fmap. destruct (buffers c !! i) as [b0 |]; [| done].
    intros [= <-]. by exists b0. }
  split; [| done]. split.
  - unfold DSync in *. cbn [snd buffers] in E |- *. rewrite E. apply links_ext; [done |].
    rewrite map_map. by apply map_ext.
  - split.
    + intros i b Hi Hne. destruct (Hlk i b Hi) as (b0 & Hi0 & ->).
      by apply (k_page _ _ _ HD i b0).
    + intros i b Hi Hdb. rewrite Forall_forall in Hd. apply list_elem_of_lookup_2 in Hi.
      apply Hd in Hi. congruence.
    + intros i j bi bj Hi Hj. destruct (Hlk i bi Hi) as (b1 & H1 & ->), (Hlk j bj Hj) as (b2 & H2 & ->).
      exact (k_unique _ _ _ HD i j b1 b2 H1 H2).
    + intros f p Hf Hp _. by symmetry; apply Hv.
  - rewrite E. apply Forall_forall. intros b (b0 & -> & Hb0)%list_elem_of_fmap.
    unfold unlocked in HU. rewrite Forall_forall in HU. exact (HU b0 Hb0).
  - rewrite E. by destruct (buffers c).
Qed.

(** ** A transaction as a list of writes *)

Definition wr : Type := (Z * Z * list Z).     (* file, position, data *)
Definition wr_rec (w : wr) : logrec := LData w.1.1 w.1.2 w.2.

(** The contents after the writes. *)
Definition apply_writes (T : Z -> Z -> Z) (ws : list wr) : Z -> Z -> Z :=
  fold_left (fun T w => upd T w.1.1 w.1.2 w.2) ws T.

Definition wr_ok (w : wr) : Prop := rec_ok (wr_rec w).

Definition touches (w : wr) (f p : Z) : Prop :=
  f = w.1.1 /\ w.1.2 <= p < w.1.2 + Z.of_nat (length w.2).

Lemma apply_writes_snoc T ws w : apply_writes T (ws ++ [w]) = upd (apply_writes T ws) w.1.1 w.1.2 w.2.
Proof. unfold apply_writes. by rewrite fold_left_app. Qed.

(** Where the transaction wrote, its contents do not depend on what was
    there; elsewhere nothing changes. *)
Lemma apply_writes_at ws f p : forall T1 T2,
  apply_writes T1 ws f p = apply_writes T2 ws f p
  \/ apply_writes T1 ws f p = T1 f p /\ apply_writes T2 ws f p = T2 f p.
Proof.
  induction ws as [| w ws IH]; intros T1 T2; [by right |].
  change (apply_writes T1 (w :: ws)) with (apply_writes (upd T1 w.1.1 w.1.2 w.2) ws).
  change (apply_writes T2 (w :: ws)) with (apply_writes (upd T2 w.1.1 w.1.2 w.2) ws).
  destruct (IH (upd T1 w.1.1 w.1.2 w.2) (upd T2 w.1.1 w.1.2 w.2)) as [E | [E1 E2]]; [by left |].
  rewrite E1, E2. unfold upd. case_decide; [by left | by right].
Qed.

Lemma view_setlabel d g v f p : view (uphys_setlabel d g v) f p = view d f p.
Proof.
  unfold view, uphys_setlabel. rewrite contents_insert. case_decide; [subst | done].
  rewrite nth_file_write, decide_False; [done |]. change (length (ubik_hdr v)) with 16%nat. lia.
Qed.

Lemma view_apply_writes ws : forall d f p, Forall wr_ok ws -> 0 <= p ->
  view (apply_log d (map wr_rec ws)) f p = apply_writes (view d) ws f p.
Proof.
  induction ws as [| [[g q] b] ws IH]; intros d f p Hok Hp; [done |].
  apply Forall_cons in Hok as [Hw Hok]. unfold wr_ok, rec_ok in Hw. cbn in Hw.
  change (apply_log d (map wr_rec ((g, q, b) :: ws)))
    with (apply_log (apply_rec d (LData g q b)) (map wr_rec ws)).
  rewrite IH by done. change (apply_writes (view d) ((g, q, b) :: ws))
    with (apply_writes (upd (view d) g q b) ws).
  destruct (apply_writes_at ws f p (view (apply_rec d (LData g q b))) (upd (view d) g q b))
    as [E | [-> ->]]; [done |]. cbn [apply_rec]. unfold upd. case_bool_decide as Hb.
  - subst. cbn [length]. by rewrite decide_False by (intros [_ ?]; simpl in *; lia).
  - rewrite uphys_write_ok by lia. cbn [default from_option id].
    by apply view_write; [lia | done | apply uphys_write_ok; lia].
Qed.

Lemma same_view d d' : (forall f, 0 <= f -> d' !! f = d !! f) ->
  forall f p, 0 <= f -> view d' f p = view d f p.
Proof. intros H f p Hf. unfold view, contents. by rewrite H. Qed.

Lemma data_ok_view l d d' T :
  data_ok l d T -> (forall f p, 0 <= f -> 0 <= p -> view d' f p = view d f p) -> data_ok l d' T.
Proof.
  intros H E. split; [apply (k_page _ _ _ H) | apply (k_dirty _ _ _ H) | apply (k_unique _ _ _ H) |].
  intros f p Hf Hp Hn. rewrite E by done. by apply (k_rest _ _ _ H).
Qed.

Lemma cache_ok_view c d d' T :
  cache_ok c d T -> (forall f p, 0 <= f -> 0 <= p -> view d' f p = view d f p) -> cache_ok c d' T.
Proof. intros [? H ? ?] E. split; try done. by apply (data_ok_view _ d). Qed.

(** The empty cache. *)
Lemma DInit_ok n d : (0 < n)%nat ->
  cache_ok (DInit n) d (view d) /\ Forall (fun b => dirty b = false) (buffers (DInit n)).
Proof.
  intros Hn. assert (Hall : forall i b, buffers (DInit n) !! i = Some b -> b = no_buffer).
  { intros i b Hi. unfold DInit in Hi. cbn [buffers] in Hi. by apply lookup_replicate in Hi as [-> _]. }
  split; [split |].
  - split; cbn [DInit buffers lru].
    + by rewrite length_replicate.
    + intros h i Hi. unfold chain in Hi. cbn in Hi. rewrite lookup_empty in Hi. by apply not_elem_of_nil in Hi.
    + intros h. unfold chain. cbn. rewrite lookup_empty. constructor.
    + intros i b Hi Hne. apply Hall in Hi. by subst.
  - split; try (intros i b Hi; apply Hall in Hi; by subst); [| done].
    intros i j bi bj Hi _ Hne. apply Hall in Hi. by subst.
  - apply Forall_replicate. done.
  - destruct n; [lia | done].
  - by apply Forall_replicate.
Qed.

(** *** States *)

(** No write transaction: the log is empty and the buffers agree with the
    disk. *)
Record idle (s : dbase) : Prop := {
  id_log : log_bytes (dsk s) = [];
  id_writing : DBWRITING s = false;
  id_cache : initd s = true ->
    cache_ok (cch s) (dsk s) (view (dsk s)) /\ Forall (fun b => dirty b = false) (buffers (cch s))
}.

(** In the middle of write transaction [t], which has made [ws] on a database
    whose disk was [d0]. *)
Record in_trans (s : dbase) (t : trans) (d0 : disk) (ws : list wr) : Prop := {
  it_log : log_bytes (dsk s) = log_of (trans_records (map wr_rec ws));
  it_files : same_files (dsk s) d0;
  it_cache : cache_ok (cch s) (dsk s) (apply_writes (view d0) ws);
  it_ok : Forall wr_ok ws;
  it_writing : DBWRITING s = true;
  it_type : ttype t = UBIK_WRITETRANS;
  it_done : TRDONE t = false;
  it_truncs : activeTruncs t = []
}.

Lemma same_files_view d d' : same_files d d' -> forall f p, 0 <= f -> view d f p = view d' f p.
Proof. intros H f p Hf. apply same_view; [| done]. intros g Hg. apply H. unfold LOGFILE. lia. Qed.

Lemma begin_in_trans little nbuf fresh s : (0 < nbuf)%nat -> idle s ->
  exists t s', udisk_begin little nbuf UBIK_WRITETRANS fresh s = (0, Some t, s')
    /\ in_trans s' t (dsk s) [] /\ tid t = fresh.
Proof.
  intros Hn [Hlog Hw Hc]. unfold udisk_begin. change (UBIK_WRITETRANS =? UBIK_WRITETRANS) with true.
  cbv iota. set (s0 := if initd s then s else _).
  assert (H0 : DBWRITING s0 = false /\ dsk s0 = dsk s
            /\ cache_ok (cch s0) (dsk s) (view (dsk s))).
  { subst s0. destruct (initd s); (split; [done |]; split; [done |]);
      [by apply Hc | apply DInit_ok, Hn]. }
  destruct H0 as (-> & -> & Hc0). pose proof (udisk_LogOpcode_new little (dsk s)) as HL.
  destruct (udisk_LogOpcode little (dsk s) LOGNEW) as [code d] eqn:E. destruct HL as (H1 & H2 & H3).
  cbn [fst snd] in H1, H2, H3. subst code. cbn [negb Z.eqb].
  change (UBIK_WRITETRANS =? UBIK_READTRANS) with false. cbv iota.
  eexists _, _. split; [done |]. split; [| done].
  assert (Hsame : same_files d (dsk s)) by (intros f Hf; by apply H3).
  split; try done; cbn [dsk cch set_counts set_dsk].
  - rewrite H2, Hlog. done.
  - apply (cache_ok_view _ (dsk s)); [done |]. intros f p Hf _. by apply same_files_view.
Qed.

Lemma log_of_trans ws w :
  log_of (trans_records (map wr_rec (ws ++ [w]))) = log_of (trans_records (map wr_rec ws)) ++ encode (wr_rec w).
Proof. unfold trans_records. rewrite map_app. apply (log_of_snoc (LNew :: map wr_rec ws)). Qed.

(** A write of a running transaction: it succeeds, or runs out of buffers and
    leaves a prefix of the data in them. *)
Lemma write_in_trans little s t d0 ws f p b : in_trans s t d0 ws -> wr_ok (f, p, b) ->
  exists s' t' k, (k <= length b)%nat
    /\ udisk_write little t f b p s = (if Nat.eqb k (length b) then 0 else UIOERROR, t', s')
    /\ (k = length b -> in_trans s' t' d0 (ws ++ [(f, p, b)]))
    /\ cache_ok (cch s') (dsk s') (upd (apply_writes (view d0) ws) f p (take k b))
    /\ (pages p (Z.of_nat (length b)) <= nclean (buffers (cch s)) -> k = length b).
Proof.
  intros [HL HF HC HO HW HT HD HTr] Hw. unfold wr_ok, rec_ok in Hw. cbn in Hw.
  unfold udisk_write. rewrite HD, HT. change (negb (UBIK_WRITETRANS =? UBIK_WRITETRANS)) with false.
  cbv iota. pose proof (udisk_LogWriteData_appends little (dsk s) f b p) as HA.
  destruct (udisk_LogWriteData little (dsk s) f b p) as [code d]. destruct HA as (H1 & H2 & H3).
  cbn [fst snd] in H1, H2, H3. subst code. cbn [negb Z.eqb].
  unfold FindTrunc. rewrite HTr. cbn [list_find mbind option_bind fmap option_fmap option_map].
  rewrite Nat2Z.id.
  assert (HC1 : cache_ok (cch s) d (apply_writes (view d0) ws)).
  { apply (cache_ok_view _ (dsk s)); [done |]. intros g q Hg _. apply same_view; [| done].
    intros h Hh. apply H3. unfold LOGFILE. lia. }
  destruct (write_loop_spec d f ltac:(lia) (length b) (cch s) _ p b HC1 ltac:(lia) ltac:(lia) ltac:(done))
    as (k & c & Hk & E & Hcache & Hroom).
  rewrite E. eexists _, _, k. split; [done |]. split; [done |].
  split; [| split; [done | done]].
  intros ->. split; try done; cbn [dsk cch set_cch set_dsk].
  - rewrite H2, HL. symmetry. apply (log_of_trans ws (f, p, b)).
  - eapply same_files_trans; [| exact HF]. intros g Hg. by apply H3.
  - rewrite apply_writes_snoc. cbn [fst snd]. by rewrite firstn_all in Hcache.
  - apply Forall_app_2; [done |]. by constructor.
Qed.

(** ** Whole transactions *)

(** [udisk_write]s one after the other; [None] when one fails. *)
Fixpoint run_writes (little : bool) (t : trans) (ws : list wr) (s : dbase) : option (trans * dbase) :=
  match ws with
  | [] => Some (t, s)
  | w :: ws' =>
      let '(code, t', s') := udisk_write little t w.1.1 w.2 w.1.2 s in
      if code =? 0 then run_writes little t' ws' s' else None
  end.

Lemma run_writes_in_trans little d0 ws2 : forall ws1 s t s' t', in_trans s t d0 ws1 -> Forall wr_ok ws2 ->
  run_writes little t ws2 s = Some (t', s') -> in_trans s' t' d0 (ws1 ++ ws2).
Proof.
  induction ws2 as [| [[f p] b] ws2 IH]; intros ws1 s t s' t' H Hok E; cbn [run_writes fst snd] in E.
  { injection E as <- <-. by rewrite app_nil_r. }
  apply Forall_cons in Hok as [Hw Hok].
  destruct (write_in_trans little s t d0 ws1 f p b H Hw) as (s1 & t1 & k & _ & Ew & Hin & _).
  rewrite Ew in E. destruct (Nat.eqb_spec k (length b)) as [Hk | Hk]; [| done].
  change (0 =? 0) with true in E. cbv iota in E.
  rewrite cons_middle, app_assoc. apply (IH _ s1 t1); [by apply Hin | done | done].
Qed.

Lemma begin_run_in_trans little nbuf fresh s t s1 ws t2 s2 : (0 < nbuf)%nat -> idle s ->
  udisk_begin little nbuf UBIK_WRITETRANS fresh s = (0, Some t, s1) -> Forall wr_ok ws ->
  run_writes little t ws s1 = Some (t2, s2) -> in_trans s2 t2 (dsk s) ws.
Proof.
  intros Hn Hi Eb Hok Er. destruct (begin_in_trans little nbuf fresh s Hn Hi) as (t' & s' & E & H & _).
  rewrite Eb in E. injection E as <- <-. by apply (run_writes_in_trans little (dsk s) ws [] s1 t s2 t2).
Qed.

(** *** Labels *)

Lemma getlabel_setlabel d v : int32 (epoch v) -> int32 (counter v) ->
  uphys_getlabel (uphys_setlabel d 0 v) 0 = inr v.
Proof.
  intros He Hc. unfold uphys_getlabel, uphys_setlabel. rewrite contents_insert, decide_True by done.
  assert (E : take 16 (file_write (contents d 0) 0 (ubik_hdr v)) = ubik_hdr v).
  { change (file_write (contents d 0) 0 (ubik_hdr v)) with (ubik_hdr v ++ drop 16 (contents d 0)).
    by apply take_app_length'. }
  rewrite E. change (length (ubik_hdr v)) with 16%nat. cbn [Nat.eqb].
  change (take 4 (drop 8 (ubik_hdr v))) with (be_bytes (epoch v)).
  change (drop 12 (ubik_hdr v)) with (be_bytes (counter v)).
  rewrite !be_val_bytes, !s32_u32, !s32_small by done. by destruct v.
Qed.

Lemma getlabel_insert d f c : f <> 0 -> uphys_getlabel (<[f := c]> d) 0 = uphys_getlabel d 0.
Proof. intros H. unfold uphys_getlabel. by rewrite contents_insert, decide_False. Qed.

Lemma log_bytes_empty d : log_bytes (log_empty d) = [].
Proof.
  unfold log_empty, log_bytes. rewrite contents_insert, decide_True by done.
  apply drop_ge. unfold file_truncate. rewrite length_take. lia.
Qed.

Lemma view_log_empty d f p : 0 <= f -> view (log_empty d) f p = view d f p.
Proof. intros Hf. apply view_insert_ne. unfold LOGFILE. lia. Qed.

Lemma log_bytes_setlabel d v : log_bytes (uphys_setlabel d 0 v) = log_bytes d.
Proof. unfold uphys_setlabel. by apply log_bytes_insert. Qed.

(** *** Commit *)

(** The state in which the commit record is written, and the disk with it. *)
Definition committing (am : bool) (now : Z) (s : dbase) : dbase := bump (relabel am now s).
Definition commit_logged (little am : bool) (now : Z) (s : dbase) : disk :=
  (udisk_LogEnd little (dsk (committing am now s)) (dver (committing am now s))).2.

Lemma committing_same am now s :
  cch (committing am now s) = cch s /\ DBWRITING (committing am now s) = DBWRITING s
  /\ log_bytes (dsk (committing am now s)) = log_bytes (dsk s)
  /\ forall f p, view (dsk (committing am now s)) f p = view (dsk s) f p.
Proof.
  unfold committing, relabel. destruct (_ && _); [| done]. cbn [bump cch DBWRITING dsk set_dver set_label set_dsk].
  split; [done |]. split; [done |]. split; [apply log_bytes_setlabel | intros f p; apply view_setlabel].
Qed.

Lemma commit_logged_spec little am now s :
  let s1 := committing am now s in
  udisk_LogEnd little (dsk s1) (dver s1) = (0, commit_logged little am now s)
  /\ log_bytes (commit_logged little am now s) = log_bytes (dsk s) ++ encode (LEnd (dver s1))
  /\ forall f p, 0 <= f -> view (commit_logged little am now s) f p = view (dsk s) f p.
Proof.
  intros s1. destruct (committing_same am now s) as (_ & _ & Hlog & Hview). fold s1 in Hlog, Hview.
  pose proof (udisk_LogEnd_appends little (dsk s1) (dver s1)) as (H1 & H2 & H3).
  unfold commit_logged. fold s1. destruct (udisk_LogEnd little (dsk s1) (dver s1)) as [code d].
  cbn [fst snd] in *. subst code. split; [done |]. split; [by rewrite H2, Hlog |].
  intros f p Hf. rewrite <- Hview. apply same_view; [| done]. intros g Hg. apply H3. unfold LOGFILE. lia.
Qed.

Lemma commit_spec little am now s t d0 ws : in_trans s t d0 ws ->
  exists t' s', udisk_commit little am now t s = Some (0, t', s')
    /\ TRDONE t' = true /\ log_bytes (dsk s') = []
    /\ (forall f p, 0 <= f -> 0 <= p -> view (dsk s') f p = apply_writes (view d0) ws f p)
    /\ dver s' = dver (committing am now s)
    /\ (exists d, dsk s' = log_empty (uphys_setlabel d 0 (dver s')))
    /\ cache_ok (cch s') (dsk s') (view (dsk s')) /\ Forall (fun b => dirty b = false) (buffers (cch s'))
    /\ DBWRITING s' = true /\ ttype t' = UBIK_WRITETRANS /\ tid t' = tid t.
Proof.
  intros [HL HF HC HO HW HT HD HTr]. unfold udisk_commit. rewrite HD, HT.
  change (UBIK_WRITETRANS =? UBIK_WRITETRANS) with true. cbv iota zeta.
  fold (committing am now s). destruct (commit_logged_spec little am now s) as (E1 & E2 & E3).
  destruct (committing_same am now s) as (Ec & Ew & _ & _). cbv zeta in E1, E2.
  set (s1 := committing am now s) in *. set (d1 := commit_logged little am now s) in *.
  set (T := apply_writes (view d0) ws) in *. rewrite E1. cbn [negb Z.eqb]. rewrite Ec.
  assert (HC1 : cache_ok (cch s) d1 T) by (apply (cache_ok_view _ (dsk s)); [done | auto]).
  pose proof (flush_pages (cch s) d1 T (length (buffers (cch s))) (ck_data _ _ _ HC1)) as HP.
  rewrite firstn_all in HP. destruct (flush_spec T _ HP d1) as (d2 & Ef & Elog & Hv).
  unfold DFlush. rewrite Ef. cbn [negb Z.eqb].
  assert (Hv2 : forall f p, 0 <= f -> 0 <= p -> view d2 f p = T f p).
  { intros f p Hf Hp. rewrite Hv by done. by apply flushed_all, Hp; [apply (ck_data _ _ _ HC1) |]. }
  destruct (DSync_ok (cch s) d1 T d2 HC1 Hv2) as (S1 & S2 & S3).
  destruct (DSync (cch s)) as [code c]. cbn [fst snd] in *. subst code. cbn [negb Z.eqb].
  unfold DoTruncs. rewrite HTr. cbn [fold_left negb Z.eqb].
  rewrite truncate_log. eexists _, _. split; [done |]. cbn [dsk cch dver DBWRITING set_dsk set_cch set_flags set_truncs TRDONE ttype tid].
  set (d4 := log_empty _).
  assert (Hd4 : forall f p, 0 <= f -> view d4 f p = view d2 f p).
  { intros f p Hf. subst d4. rewrite view_log_empty by done. apply view_setlabel. }
  split; [done |]. split; [apply log_bytes_empty |].
  split; [intros f p Hf Hp; by rewrite Hd4, Hv2 |]. split; [done |]. split; [by exists d2 |].
  split; [| split; [done | split; [congruence | done]]].
  apply (cache_ok_ext _ _ T); [| intros f p Hf Hp; by rewrite Hd4, Hv2].
  apply (cache_ok_view _ d2); [done |]. intros f p Hf _. by apply Hd4.
Qed.

(** The disk after a crash during the commit: the log has its commit record,
    and of the dirty pages any bytes may have reached their files. *)
Definition commit_crash (little am : bool) (now : Z) (s : dbase) (d : disk) : Prop :=
  log_bytes d = log_bytes (commit_logged little am now s)
  /\ forall f p, 0 <= f -> 0 <= p ->
       view d f p = view (dsk s) f p
       \/ exists b, b ∈ buffers (cch s) /\ dirty b = true /\ bfile b = f /\ bpage b = p / 1024
            /\ view d f p = nth (Z.to_nat (p mod 1024)) (bdata b) 0.

Lemma trans_records_wr ws : Forall wr_ok ws ->
  Forall is_op (map wr_rec ws) /\ Forall rec_ok (map wr_rec ws).
Proof.
  intros H. split; apply Forall_map; [| done]. by apply Forall_true.
Qed.

Lemma crash_spec am now s t d0 ws d fuel : in_trans s t d0 ws ->
  commit_crash false am now s d -> Z.of_nat (length (log_bytes d)) <= INT_MAX ->
  rec_ok (LEnd (dver (committing am now s))) -> (length ws + 2 <= fuel)%nat ->
  exists d', ReplayLog false d fuel = Some (0, d') /\ log_bytes d' = []
    /\ uphys_getlabel d' 0 = inr (dver (committing am now s))
    /\ forall f p, 0 <= f -> 0 <= p -> view d' f p = apply_writes (view d0) ws f p.
Proof.
  intros [HL HF HC HO HW HT HD HTr] [Hlog Hbytes] Hmax Hv Hfuel.
  destruct (commit_logged_spec false am now s) as (_ & E2 & _). cbv zeta in E2.
  set (v := dver (committing am now s)) in *. destruct (trans_records_wr ws HO) as [Hop Hok].
  assert (Hlog' : log_bytes d = log_of (trans_records (map wr_rec ws) ++ [LEnd v]) ++ []).
  { rewrite Hlog, E2, HL, app_nil_r. symmetry. apply log_of_snoc. }
  eexists. split; [apply (ReplayLog_redo d (map wr_rec ws) v []); try done; by rewrite length_map |].
  split; [apply log_bytes_empty |].
  assert (Ea : apply_log d (trans_records (map wr_rec ws) ++ [LEnd v])
            = uphys_setlabel (apply_log d (map wr_rec ws)) 0 v).
  { unfold apply_log. by rewrite fold_left_app. }
  rewrite Ea. split.
  - unfold log_empty. rewrite getlabel_insert by done. destruct Hv. by apply getlabel_setlabel.
  - intros f p Hf Hp. rewrite view_log_empty, view_setlabel, view_apply_writes by done.
    destruct (apply_writes_at ws f p (view d) (view d0)) as [E | [-> E0]]; [done |].
    rewrite E0. pose proof (same_files_view _ _ HF f p Hf) as Hsame.
    destruct (Hbytes f p Hf Hp) as [-> | (b & Hb & Hdb & Ef & Ep & ->)]; [done |].
    apply list_elem_of_lookup_1 in Hb as [i Hi].
    destruct (k_page _ _ _ (ck_data _ _ _ HC) i b Hi) as (_ & _ & _ & Hk).
    { apply (k_dirty _ _ _ (ck_data _ _ _ HC) i b Hi Hdb). }
    pose proof (Z.mod_pos_bound p 1024). rewrite Hk by lia. rewrite Ef, Ep.
    rewrite <- (Z.div_mod p 1024) by lia. exact E0.
Qed.

(** The disks [DFlush] goes through are such crash states. *)
Lemma flush_prefix_crash little am now s t d0 ws k : in_trans s t d0 ws ->
  commit_crash little am now s
    (flush_buffers (take k (buffers (cch s))) (commit_logged little am now s)).2.
Proof.
  intros H. pose proof (it_cache _ _ _ _ H) as HC. destruct (commit_logged_spec little am now s) as (_ & _ & E3).
  pose proof (flush_pages (cch s) (dsk s) _ k (ck_data _ _ _ HC)) as HP.
  destruct (flush_spec _ _ HP (commit_logged little am now s)) as (d2 & -> & Elog & Hv). cbn [snd].
  split; [unfold log_bytes, contents; by rewrite Elog |].
  intros f p Hf Hp. rewrite Hv by done. case_decide as Hc; [right | left; by apply E3].
  apply Exists_exists in Hc as (b & Hb & Hd & Ef & Ep).
  assert (Hok : page_ok (apply_writes (view d0) ws) b) by (rewrite Forall_forall in HP; by apply HP).
  exists b. split; [by apply list_elem_of_lookup_1 in Hb as [i [Hi _]%lookup_take_Some]; eapply list_elem_of_lookup_2 |].
  split; [done |]. split; [done |]. split; [done |].
  destruct Hok as (_ & _ & _ & Hk). pose proof (Z.mod_pos_bound p 1024). rewrite Hk by lia.
  rewrite Ef, Ep. f_equal. pose proof (Z.div_mod p 1024). lia.
Qed.

(** *** Abort *)

(** What an abort needs of a write transaction. *)
Record abortable (s : dbase) (t : trans) (d0 : disk) : Prop := {
  ab_files : same_files (dsk s) d0;
  ab_cache : exists T, cache_ok (cch s) (dsk s) T;
  ab_writing : DBWRITING s = true;
  ab_type : ttype t = UBIK_WRITETRANS;
  ab_done : TRDONE t = false
}.

Lemma in_trans_abortable s t d0 ws : in_trans s t d0 ws -> abortable s t d0.
Proof. intros [? ? ? ? ? ? ? ?]. split; eauto. Qed.

(** Any operation of a client between begin and end. *)
Inductive op :=
| ORead (f p n : Z)
| OWrite (w : wr)
| OTruncate (f n : Z).

Definition op_ok (o : op) : Prop :=
  match o with
  | ORead f p n => 0 <= f /\ 0 <= p /\ p + n <= INT_MAX
  | OWrite w => wr_ok w
  | OTruncate f n => True
  end.

Definition do_op (little : bool) (ts : trans * dbase) (o : op) : trans * dbase :=
  let '(t, s) := ts in
  match o with
  | ORead f p n => (t, (udisk_read t f p n s).2)
  | OWrite w => let '(_, t', s') := udisk_write little t w.1.1 w.2 w.1.2 s in (t', s')
  | OTruncate f n => let '(_, t', s') := udisk_truncate little t f n s in (t', s')
  end.

Lemma appended_view d d' : same_files d' d -> forall f p, 0 <= f -> 0 <= p -> view d' f p = view d f p.
Proof. intros H f p Hf _. by apply same_files_view. Qed.

Lemma read_loop_ok d T afile : 0 <= afile -> forall fuel c apos alen out,
  cache_ok c d T -> 0 <= apos -> apos + alen <= INT_MAX ->
  cache_ok (read_loop d afile apos alen fuel c out).2 d T.
Proof.
  intros Hf. induction fuel as [| fuel IH]; intros c apos alen out H Hp Hmax; cbn [read_loop]; [done |].
  destruct (Z.leb_spec alen 0) as [Hz | Hz]; [done |].
  destruct (page_split apos Hp) as (-> & _ & Hpg & _). destruct (round_len_spec apos alen Hp Hz) as (Hl & _).
  pose proof (DRead_spec c d T afile (apos / 1024) H Hf Hpg) as HR.
  destruct (DRead d afile (apos / 1024) c) as [[i |] c']; [| by destruct HR as [-> _]].
  destruct HR as (l & HL & Hd). rewrite (release_clean _ _ _ _ _ _ _ HL).
  rewrite s32_small by (unfold INT_MIN; lia). destruct HL as (_ & HL & HD & HU & _).
  apply IH; [| lia | lia]. split; [done.. |]. apply (map_nonempty dirty (buffers c)); [apply H | done].
Qed.

Lemma do_op_abortable little t s d0 o : abortable s t d0 -> op_ok o ->
  abortable (do_op little (t, s) o).2 (do_op little (t, s) o).1 d0.
Proof.
  intros [HF [T HC] HW HT HD] Ho. destruct o as [f p n | [[f p] b] | f n]; cbn [do_op fst snd].
  - destruct Ho as (Hf & Hp & Hn). unfold udisk_read. rewrite HD.
    pose proof (read_loop_ok (dsk s) T f Hf (Z.to_nat n) (cch s) p n [] HC Hp Hn) as HC'.
    destruct (read_loop _ _ _ _ _ _ _) as [[code out] c]. split; try done. by exists T.
  - unfold op_ok, wr_ok, rec_ok in Ho. cbn in Ho. unfold udisk_write. rewrite HD, HT.
    change (negb (UBIK_WRITETRANS =? UBIK_WRITETRANS)) with false. cbv iota.
    pose proof (udisk_LogWriteData_appends little (dsk s) f b p) as (H1 & _ & H3).
    destruct (udisk_LogWriteData little (dsk s) f b p) as [code d]. cbn [fst snd] in H1, H3. subst code.
    cbn [negb Z.eqb]. rewrite Nat2Z.id.
    assert (HS : same_files d (dsk s)) by done.
    destruct (write_loop_spec d f ltac:(lia) (length b) (cch s) T p b
                (cache_ok_view _ _ _ _ HC (appended_view _ _ HS)) ltac:(lia) ltac:(lia) ltac:(done))
      as (k & c & _ & E & HC' & _).
    rewrite E. cbn [fst snd]. split; try done; [by eapply same_files_trans | by eexists].
  - unfold udisk_truncate. rewrite HD, HT.
    change (negb (UBIK_WRITETRANS =? UBIK_WRITETRANS)) with false. cbv iota.
    pose proof (udisk_LogTruncate_appends little (dsk s) f n) as (_ & _ & H3).
    destruct (udisk_LogTruncate little (dsk s) f n) as [code d]. cbn [fst snd] in *.
    assert (HS : same_files d (dsk s)) by done.
    split; try done; [by eapply same_files_trans |]. exists T. cbn [cch dsk set_dsk].
    by apply (cache_ok_view _ (dsk s)), (appended_view _ _ HS).
Qed.

Lemma do_ops_abortable little d0 os : forall t s, abortable s t d0 -> Forall op_ok os ->
  let ts := fold_left (do_op little) os (t, s) in abortable ts.2 ts.1 d0.
Proof.
  induction os as [| o os IH]; intros t s H Hok; [done |]. apply Forall_cons in Hok as [Ho Hok].
  cbn [fold_left]. pose proof (do_op_abortable little t s d0 o H Ho) as H'.
  destruct (do_op little (t, s) o) as [t' s']. by apply IH.
Qed.

Lemma relLock_same t s : let '(t', s', _) := ulock_relLock t s in
  dsk s' = dsk s /\ cch s' = cch s /\ initd s' = initd s /\ DBWRITING s' = DBWRITING s
  /\ ttype t' = ttype t /\ tid t' = tid t /\ dver s' = dver s.
Proof.
  unfold ulock_relLock. destruct (rwlock s) as [l |]; [| done].
  destruct (if locktype t =? LOCKREAD then _ else _) as [l' g]. done.
Qed.

Lemma end_abort_spec little s t d0 : abortable s t d0 ->
  exists s' g, udisk_end little t s = Some (0, s', g) /\ idle s' /\ same_files (dsk s') d0.
Proof.
  intros [HF [T HC] HW HT HD]. unfold udisk_end. rewrite HD. unfold udisk_abort. rewrite HD, HT, HW.
  change ((UBIK_WRITETRANS =? UBIK_WRITETRANS) && true) with true. cbv iota.
  pose proof (udisk_LogOpcode_abort little (dsk s)) as (_ & _ & H3).
  destruct (udisk_LogOpcode little (dsk s) LOGABORT) as [code d1]. cbn [fst snd] in H3.
  rewrite truncate_log. set (s1 := set_cch (DAbort (cch s)) (set_dsk (log_empty d1) s)).
  set (t1 := set_flags true true t).
  pose proof (relLock_same t1 s1) as HR. destruct (ulock_relLock t1 s1) as [[t2 s2] g].
  destruct HR as (E1 & E2 & E3 & E4 & E5 & _). rewrite E4, E5. cbn [t1 s1 ttype set_flags DBWRITING set_cch set_dsk].
  rewrite HT, HW. change ((UBIK_WRITETRANS =? UBIK_WRITETRANS) && true) with true. cbv iota.
  assert (HS : same_files (log_empty d1) d0).
  { eapply same_files_trans; [apply log_empty_same |]. eapply same_files_trans; [| exact HF].
    intros f Hf. by apply H3. }
  eexists _, _. split; [done |]. split; [split |]; cbn [dsk cch initd DBWRITING set_counts].
  - rewrite E1. apply log_bytes_empty.
  - done.
  - intros _. rewrite E1, E2. cbn [s1 cch dsk set_cch set_dsk].
    assert (HV : forall f p, 0 <= f -> 0 <= p -> view (log_empty d1) f p = view (dsk s) f p).
    { intros f p Hf Hp. by rewrite (same_files_view _ _ HS), (same_files_view _ _ HF). }
    destruct (DAbort_ok (cch s) (dsk s) T HC) as [A1 A2]. split; [| done].
    apply (cache_ok_ext _ _ (view (dsk s))); [| by intros; apply HV].
    by apply (cache_ok_view _ (dsk s)).
  - by rewrite E1.
Qed.

Lemma end_done_spec little s t : TRDONE t = true -> ttype t = UBIK_WRITETRANS -> DBWRITING s = true ->
  log_bytes (dsk s) = [] -> cache_ok (cch s) (dsk s) (view (dsk s)) ->
  Forall (fun b => dirty b = false) (buffers (cch s)) ->
  exists s' g, udisk_end little t s = Some (0, s', g) /\ idle s' /\ dsk s' = dsk s /\ dver s' = dver s.
Proof.
  intros HD HT HW HL HC HCl. unfold udisk_end. rewrite HD.
  pose proof (relLock_same t s) as HR. destruct (ulock_relLock t s) as [[t2 s2] g].
  destruct HR as (E1 & E2 & E3 & E4 & E5 & _ & E6). rewrite E4, E5, HT, HW.
  change ((UBIK_WRITETRANS =? UBIK_WRITETRANS) && true) with true. cbv iota.
  eexists _, _. split; [done |]. split; [split |]; cbn [dsk cch initd DBWRITING dver set_counts];
    rewrite ?E1, ?E2; done.
Qed.

(** ** Theorems *)

(** C6. Commit: a write transaction on an idle database whose writes all
    succeed commits with code 0; after [udisk_end] the database is idle again,
    every byte of every file is what the writes, in their order, made of the
    contents before, the log is empty and the database is labelled with the
    new version. *)
Theorem udisk_commit_durable little nbuf fresh am now s t s1 ws t2 s2 :
  (0 < nbuf)%nat -> idle s ->
  udisk_begin little nbuf UBIK_WRITETRANS fresh s = (0, Some t, s1) -> Forall wr_ok ws ->
  run_writes little t ws s1 = Some (t2, s2) -> rec_ok (LEnd (dver (committing am now s2))) ->
  exists t3 s3 s4 g, udisk_commit little am now t2 s2 = Some (0, t3, s3)
    /\ udisk_end little t3 s3 = Some (0, s4, g) /\ idle s4
    /\ (forall f p, 0 <= f -> 0 <= p -> view (dsk s4) f p = apply_writes (view (dsk s)) ws f p)
    /\ uphys_getlabel (dsk s4) 0 = inr (dver (committing am now s2))
    /\ dver s4 = dver (committing am now s2).
Proof.
  intros Hn Hi Eb Hok Er [Hv1 Hv2].
  pose proof (begin_run_in_trans _ _ _ _ _ _ _ _ _ Hn Hi Eb Hok Er) as H.
  destruct (commit_spec little am now s2 t2 _ ws H)
    as (t3 & s3 & E & HD & HL & HV & HDv & [d Hd] & HC & HCl & HW & HT & _).
  destruct (end_done_spec little s3 t3 HD HT HW HL HC HCl) as (s4 & g & E4 & Hi4 & Es & Ev).
  exists t3, s3, s4, g. split; [done |]. split; [done |]. split; [done |].
  split; [intros f p Hf Hp; rewrite Es; by apply HV |]. split; [| congruence].
  rewrite Es, Hd, HDv. unfold log_empty. rewrite getlabel_insert by done. by apply getlabel_setlabel.
Qed.

(** C5. Atomicity of a transaction of writes, without truncations: when the
    server crashes after its commit record has reached the log, with any bytes of the dirty pages written
    and any not, the replay at restart (big-endian host) succeeds and every
    byte of every file is what the whole transaction makes it; the label is
    the new version and the log is empty. *)
Theorem commit_crash_redone nbuf fresh am now s t s1 ws t2 s2 d fuel :
  (0 < nbuf)%nat -> idle s ->
  udisk_begin false nbuf UBIK_WRITETRANS fresh s = (0, Some t, s1) -> Forall wr_ok ws ->
  run_writes false t ws s1 = Some (t2, s2) -> rec_ok (LEnd (dver (committing am now s2))) ->
  commit_crash false am now s2 d -> Z.of_nat (length (log_bytes d)) <= INT_MAX ->
  (length ws + 2 <= fuel)%nat ->
  exists d', ReplayLog false d fuel = Some (0, d') /\ log_bytes d' = []
    /\ uphys_getlabel d' 0 = inr (dver (committing am now s2))
    /\ forall f p, 0 <= f -> 0 <= p -> view d' f p = apply_writes (view (dsk s)) ws f p.
Proof.
  intros Hn Hi Eb Hok Er Hv Hc Hmax Hfuel.
  pose proof (begin_run_in_trans _ _ _ _ _ _ _ _ _ Hn Hi Eb Hok Er) as H.
  by apply (crash_spec am now s2 t2 (dsk s) ws).
Qed.

(** C7. Abort: whatever a client does between beginning a write transaction
    and ending it without a commit, reads, writes and truncations in any order
    and whatever codes they return, [udisk_end] leaves the database idle with
    every data file as it was, and no trace in the buffers. *)
Theorem udisk_end_restores little nbuf fresh s t s1 os :
  (0 < nbuf)%nat -> idle s ->
  udisk_begin little nbuf UBIK_WRITETRANS fresh s = (0, Some t, s1) -> Forall op_ok os ->
  let ts := fold_left (do_op little) os (t, s1) in
  exists s3 g, udisk_end little ts.1 ts.2 = Some (0, s3, g) /\ idle s3 /\ same_files (dsk s3) (dsk s).
Proof.
  intros Hn Hi Eb Hok ts. destruct (begin_in_trans little nbuf fresh s Hn Hi) as (t' & s' & E & H & _).
  rewrite Eb in E. injection E as <- <-.
  apply end_abort_spec, do_ops_abortable; [by eapply in_trans_abortable | done].
Qed.

(** C8. Reads see the transaction's own writes: after any writes that succeed,
    with at least one clean buffer, [udisk_read] returns 0 and exactly the
    bytes that the writes made of the contents at the beginning. *)
Theorem udisk_read_own_writes little nbuf fresh s t s1 ws t2 s2 f p n :
  (0 < nbuf)%nat -> idle s ->
  udisk_begin little nbuf UBIK_WRITETRANS fresh s = (0, Some t, s1) -> Forall wr_ok ws ->
  run_writes little t ws s1 = Some (t2, s2) -> has_clean (buffers (cch s2)) ->
  0 <= f -> 0 <= p -> p + n <= INT_MAX ->
  exists s3, udisk_read t2 f p n s2
    = (0, bytes (apply_writes (view (dsk s)) ws) f p (Z.to_nat n), s3).
Proof.
  intros Hn Hi Eb Hok Er Hc Hf Hp Hmax.
  pose proof (begin_run_in_trans _ _ _ _ _ _ _ _ _ Hn Hi Eb Hok Er) as [HL HF HC HO HW HT HD HTr].
  unfold udisk_read. rewrite HD.
  destruct (read_loop_spec (dsk s2) _ f Hf (Z.to_nat n) (cch s2) p n [] HC Hc Hp Hmax ltac:(done))
    as (c' & -> & _). by eexists.
Qed.

(** A write of a running transaction never does half its work silently: it
    returns 0, or [UIOERROR] when it runs out of buffers, and it returns 0
    whenever there are as many clean buffers as pages it touches. *)
Theorem udisk_write_total little nbuf fresh s t s1 ws t2 s2 f p b :
  (0 < nbuf)%nat -> idle s ->
  udisk_begin little nbuf UBIK_WRITETRANS fresh s = (0, Some t, s1) -> Forall wr_ok ws ->
  run_writes little t ws s1 = Some (t2, s2) -> wr_ok (f, p, b) ->
  let code := (udisk_write little t2 f b p s2).1.1 in
  (code = 0 \/ code = UIOERROR)
  /\ (pages p (Z.of_nat (length b)) <= nclean (buffers (cch s2)) -> code = 0).
Proof.
  intros Hn Hi Eb Hok Er Hw code.
  pose proof (begin_run_in_trans _ _ _ _ _ _ _ _ _ Hn Hi Eb Hok Er) as H.
  destruct (write_in_trans little s2 t2 (dsk s) ws f p b H Hw) as (s3 & t3 & k & _ & E & _ & _ & Hr).
  subst code. rewrite E. cbn [fst snd]. split.
  - destruct (Nat.eqb k (length b)); auto.
  - intros Hroom. by rewrite (Hr Hroom), Nat.eqb_refl.
Qed.

(** [ulock_getLock] without waiting has its tests the wrong way round: it
    answers [EAGAIN] for a lock nobody holds, and for a write-locked one it
    goes to sleep. *)
Theorem getLock_nowait_inverted t s atype :
  (atype = LOCKREAD \/ atype = LOCKWRITE) -> TRDONE t = false -> locktype t = 0 ->
  (rwlock s = Some Lock_Init ->
     ulock_getLock t atype false s = LReturn EAGAIN t s)
  /\ (rwlock s = Some (LwpLock.Lock 0 WRITE_LOCK 0 0) ->
     exists m t' s', ulock_getLock t atype false s = LSleep m t' s').
Proof.
  intros Ha HD Hl. unfold ulock_getLock. rewrite HD, Hl.
  split; intros Hr; rewrite Hr; cbn [default from_option id].
  - destruct s. cbn in Hr. subst. by destruct Ha as [-> | ->].
  - destruct Ha as [-> | ->]; cbn; eauto.
Qed.

(** ** Witnesses *)
Module DiskDemo.
Definition d0 : disk := {[ 0 := ubik_hdr (Version 3 8) ++ zeros 48 ++ [1; 2; 3]; LOGFILE := [] ]}.
Definition s0 : dbase := Dbase d0 false (Cache [] [] ∅) (Version 3 8) false 0 [] true 3 None.
(** The second write crosses a page boundary. *)
Definition ws : list wr := [(0, 1, [7; 8]); (0, 1022, [4; 5; 6]); (0, 2, [9])].
Definition t1 : trans := Trans 1 UBIK_WRITETRANS false false [] 0.
Definition s1 : dbase := (udisk_begin false 3 UBIK_WRITETRANS 1 s0).2.
Definition ts2 : trans * dbase := default (t1, s1) (run_writes false t1 ws s1).
Definition t2 : trans := ts2.1.
Definition s2 : dbase := ts2.2.
(** A crash with the first page written and the second not. *)
Definition dc : disk := (flush_buffers (take 1 (buffers (cch s2))) (commit_logged false true 4 s2)).2.
End DiskDemo.

Lemma demo_idle : idle DiskDemo.s0.
Proof. split; [reflexivity | reflexivity | intros H; discriminate H]. Qed.

Lemma demo_ws_ok : Forall wr_ok DiskDemo.ws.
Proof.
  unfold DiskDemo.ws, wr_ok, rec_ok, INT_MAX. repeat apply Forall_cons_2; cbn; try lia. apply Forall_nil_2.
Qed.

Lemma udisk_commit_durable_witness : exists t3 s3 s4 g,
  udisk_commit false true 4 DiskDemo.t2 DiskDemo.s2 = Some (0, t3, s3)
  /\ udisk_end false t3 s3 = Some (0, s4, g) /\ idle s4
  /\ (forall f p, 0 <= f -> 0 <= p ->
        view (dsk s4) f p = apply_writes (view (dsk DiskDemo.s0)) DiskDemo.ws f p)
  /\ uphys_getlabel (dsk s4) 0 = inr (Version 3 9) /\ dver s4 = Version 3 9.
Proof.
  apply (udisk_commit_durable false 3 1 true 4 DiskDemo.s0 DiskDemo.t1 DiskDemo.s1 DiskDemo.ws
           DiskDemo.t2 DiskDemo.s2); [lia | apply demo_idle | vm_compute; reflexivity | apply demo_ws_ok
    | vm_compute; reflexivity | vm_compute; repeat split; discriminate].
Defined.

Lemma demo_in_trans : in_trans DiskDemo.s2 DiskDemo.t2 DiskDemo.d0 DiskDemo.ws.
Proof.
  apply (begin_run_in_trans false 3 1 DiskDemo.s0 DiskDemo.t1 DiskDemo.s1 DiskDemo.ws);
    [lia | apply demo_idle | vm_compute; reflexivity | apply demo_ws_ok | vm_compute; reflexivity].
Qed.

Lemma commit_crash_redone_witness : exists d',
  ReplayLog false DiskDemo.dc 10 = Some (0, d') /\ log_bytes d' = []
  /\ uphys_getlabel d' 0 = inr (Version 3 9)
  /\ forall f p, 0 <= f -> 0 <= p -> view d' f p = apply_writes (view (dsk DiskDemo.s0)) DiskDemo.ws f p.
Proof.
  apply (commit_crash_redone 3 1 true 4 DiskDemo.s0 DiskDemo.t1 DiskDemo.s1 DiskDemo.ws
           DiskDemo.t2 DiskDemo.s2 DiskDemo.dc 10); [lia | apply demo_idle | vm_compute; reflexivity
    | apply demo_ws_ok | vm_compute; reflexivity | vm_compute; repeat split; discriminate
    | | vm_compute; discriminate | vm_compute; lia].
  apply (flush_prefix_crash false true 4 _ _ _ _ 1 demo_in_trans).
Defined.

Lemma udisk_end_restores_witness :
  let os := [OWrite (0, 1, [7; 8]); OTruncate 0 0; ORead 0 0 5; OWrite (0, 0, zeros 40)] in
  let ts := fold_left (do_op true) os (DiskDemo.t1, (udisk_begin true 3 UBIK_WRITETRANS 1 DiskDemo.s0).2) in
  exists s3 g, udisk_end true ts.1 ts.2 = Some (0, s3, g) /\ idle s3
    /\ same_files (dsk s3) (dsk DiskDemo.s0).
Proof.
  apply (udisk_end_restores true 3 1 DiskDemo.s0 DiskDemo.t1
           (udisk_begin true 3 UBIK_WRITETRANS 1 DiskDemo.s0).2
           [OWrite (0, 1, [7; 8]); OTruncate 0 0; ORead 0 0 5; OWrite (0, 0, zeros 40)]);
    [lia | apply demo_idle | vm_compute; reflexivity |].
  repeat apply Forall_cons_2; [| | | | apply Forall_nil_2]; unfold op_ok, wr_ok, rec_ok, INT_MAX; cbn; lia.
Defined.

Lemma udisk_read_own_writes_witness : exists s3,
  udisk_read DiskDemo.t2 0 0 4 DiskDemo.s2
  = (0, bytes (apply_writes (view (dsk DiskDemo.s0)) DiskDemo.ws) 0 0 4, s3).
Proof.
  apply (udisk_read_own_writes false 3 1 DiskDemo.s0 DiskDemo.t1 DiskDemo.s1 DiskDemo.ws
           DiskDemo.t2 DiskDemo.s2 0 0 4); [lia | apply demo_idle | vm_compute; reflexivity
    | apply demo_ws_ok | vm_compute; reflexivity | | lia | lia | vm_compute; discriminate].
  unfold has_clean. vm_compute. right. right. left.
Defined.

Lemma udisk_write_total_witness :
  let code := (udisk_write false DiskDemo.t2 0 [1; 2] 5 DiskDemo.s2).1.1 in
  (code = 0 \/ code = UIOERROR)
  /\ (pages 5 2 <= nclean (buffers (cch DiskDemo.s2)) -> code = 0).
Proof.
  apply (udisk_write_total false 3 1 DiskDemo.s0 DiskDemo.t1 DiskDemo.s1 DiskDemo.ws
           DiskDemo.t2 DiskDemo.s2 0 5 [1; 2]); [lia | apply demo_idle | vm_compute; reflexivity
    | apply demo_ws_ok | vm_compute; reflexivity | vm_compute; repeat split; discriminate].
Defined.

Lemma getLock_nowait_inverted_witness :
  ulock_getLock DiskDemo.t1 LOCKREAD false (set_rwlock (Some Lock_Init) DiskDemo.s0)
  = LReturn EAGAIN DiskDemo.t1 (set_rwlock (Some Lock_Init) DiskDemo.s0).
Proof.
  apply (getLock_nowait_inverted DiskDemo.t1 (set_rwlock (Some Lock_Init) DiskDemo.s0) LOCKREAD);
    [by left | reflexivity | reflexivity | reflexivity].
Defined.
