(* ===== verification/Dir.v ===== *)
(** Directories: the format of an AFS directory and the operations of
    src/dir/dir.c on it. A directory is its bytes; the pages come from the
    buffer package ([DRead], [DNew]), and a page that is not there makes
    [DRead] fail. *)
From S2P Require Import Prelude Bytes.

Definition AFS_PAGESIZE : Z := 2048.
Definition NHASHENT : Z := 128.
Definition MAXPAGES : Z := 128.
Definition BIGMAXPAGES : Z := 1023.
Definition EPP : Z := 64.
Definition LEPP : Z := 6.
Definition DHE : Z := 12.
Definition FFIRST : Z := 1.

Definition ENOENT : Z := 2.
Definition EIO : Z := 5.
Definition EEXIST : Z := 17.
Definition EINVAL : Z := 22.
Definition EFBIG : Z := 27.

(** The bytes by their offset in the directory, and the pages there are. The
    bytes of a page that is not there are what a new buffer happens to hold. *)
Record dir := Dir { mem : gmap Z Z; dpages : gset Z }.

Definition rd8 (d : dir) (a : Z) : Z := byte (mem d) a.
Definition load (d : dir) (a : Z) (n : nat) : list Z := bytes (mem d) a n.
Definition store (a : Z) (l : list Z) (d : dir) : dir := Dir (put (mem d) a l) (dpages d).

(** Shorts and words in network order, as [ntohs], [htons], [ntohl] and
    [htonl] see them. *)
Definition rd16 (d : dir) (a : Z) : Z := be_val (load d a 2).
Definition wr16 (a v : Z) (d : dir) : dir := store a [v / 256; v] d.
Definition rd32 (d : dir) (a : Z) : Z := get32 (mem d) a.
Definition wr32 (a v : Z) (d : dir) : dir := store a (be_bytes v) d.

Definition DRead (d : dir) (page : Z) : option Z :=
  if decide (page ∈ dpages d) then Some (AFS_PAGESIZE * page) else None.

(** Offsets in a page header, the directory header and an entry. *)
Definition freebitmap (base k : Z) : Z := base + 5 + k.
Definition alloMap (i : Z) : Z := 32 + i.
Definition hashTable (i : Z) : Z := 160 + 2 * i.

Definition rd_allo (d : dir) (i : Z) : Z := s8 (rd8 d (alloMap i)).

(** ** Names *)

Definition NameBlobs (len : Z) : Z := 1 + Z.shiftr (len + 1 + 15) 5.

Definition hash_step (hval tc : Z) : Z := u32 (u32 (hval * 173) + tc).
Definition DirHash (name : list Z) : Z :=
  let hval := fold_left hash_step name 0 in
  let tval := Z.land hval (NHASHENT - 1) in
  if tval =? 0 then tval
  else if 2147483648 <=? hval then NHASHENT - tval else tval.

(** [strcmp] with a name in the directory: equal? *)
Fixpoint str_eq (d : dir) (a : Z) (name : list Z) : bool :=
  match name with
  | [] => rd8 d a =? 0
  | c :: name' => (rd8 d a =? c) && str_eq d (a + 1) name'
  end.

(** The string at an offset; no longer than a page. *)
Fixpoint read_str (d : dir) (a : Z) (fuel : nat) : list Z :=
  match fuel with
  | O => []
  | S f => if rd8 d a =? 0 then [] else rd8 d a :: read_str d (a + 1) f
  end.
Definition name_at (d : dir) (a : Z) : list Z := read_str d a 2048.

(** ** Entries *)

Definition GetBlob (d : dir) (blobno : Z) : option Z :=
  match DRead d (Z.shiftr blobno LEPP) with
  | None => None
  | Some ep => Some (ep + 32 * Z.land blobno (EPP - 1))
  end.

(** Offsets of the fields of an entry. *)
Definition e_next (ep : Z) : Z := ep + 2.
Definition e_vnode (ep : Z) : Z := ep + 4.
Definition e_vunique (ep : Z) : Z := ep + 8.
Definition e_name (ep : Z) : Z := ep + 12.

(** No chain without repetitions is longer than the blobs there can be. *)
Definition chain_fuel (d : dir) : nat := Z.to_nat (EPP * Z.of_nat (size (dpages d))).

(** The walk along a hash chain: the entry and the place of the pointer to
    it. *)
Fixpoint find_loop (d : dir) (ename : list Z) (tp lp : Z) (fuel : nat) : option (Z * Z) :=
  match fuel with
  | O => None
  | S fuel' =>
      if str_eq d (e_name tp) ename then Some (tp, lp)
      else if rd16 d (e_next tp) =? 0 then None
      else
        match GetBlob d (rd16 d (e_next tp)) with
        | None => None
        | Some tp' => find_loop d ename tp' (e_next tp) fuel'
        end
  end.

Definition FindItem (d : dir) (ename : list Z) : option (Z * Z) :=
  let i := DirHash ename in
  match DRead d 0 with
  | None => None
  | Some _ =>
      if rd16 d (hashTable i) =? 0 then None
      else
        match GetBlob d (rd16 d (hashTable i)) with
        | None => None
        | Some tp => find_loop d ename tp (hashTable i) (chain_fuel d)
        end
  end.

(** ** Allocation *)

Definition bit_free (d : dir) (base n : Z) : bool :=
  Z.land (Z.shiftr (rd8 d (freebitmap base (Z.shiftr n 3))) (Z.land n 7)) 1 =? 0.
Definition set_bit (base n : Z) (d : dir) : dir :=
  let a := freebitmap base (Z.shiftr n 3) in
  store a [Z.lor (rd8 d a) (Z.shiftl 1 (Z.land n 7))] d.
Definition clear_bit (base n : Z) (d : dir) : dir :=
  let a := freebitmap base (Z.shiftr n 3) in
  store a [Z.land (rd8 d a) (Z.lnot (Z.shiftl 1 (Z.land n 7)))] d.

Definition for_blobs (f : Z -> dir -> dir) (first : Z) (n : nat) (d : dir) : dir :=
  fold_left (fun d k => f (first + Z.of_nat k) d) (seq 0 n) d.

Definition AddPage (pageno : Z) (d : dir) : dir :=
  let base := AFS_PAGESIZE * pageno in
  let d1 := Dir (mem d) ({[pageno]} ∪ dpages d) in
  let d2 := wr16 (base + 2) 1234 d1 in
  let d3 := if 0 <? pageno then wr16 base 0 d2 else d2 in
  let d4 := store (base + 4) [EPP - 1] d3 in
  store (freebitmap base 0) [1; 0; 0; 0; 0; 0; 0; 0] d4.

(** The first [j] in a page with [nblobs] free entries from it on. *)
Fixpoint first_fit (d : dir) (base nblobs j : Z) (fuel : nat) : option Z :=
  match fuel with
  | O => None
  | S fuel' =>
      if j <=? EPP - nblobs then
        if forallb (fun k => bit_free d base (j + Z.of_nat k)) (seq 0 (Z.to_nat nblobs))
        then Some j
        else first_fit d base nblobs (j + 1) fuel'
      else None
  end.

(** The search of a page; a run longer than a page skips the loop, and the
    flag of failure is not raised. *)
Definition find_run (d : dir) (base nblobs : Z) : option Z :=
  if EPP <? nblobs then Some 0 else first_fit d base nblobs 0 (Z.to_nat (EPP + 1)).

(** Make sure page [i] is there: past the old-style map by [pgcount], in it
    by [alloMap]. *)
Definition grow (i : Z) (d : dir) : dir :=
  if MAXPAGES <=? i then
    let '(pgcount, d1) :=
      if rd16 d 0 =? 0 then (MAXPAGES, wr16 0 MAXPAGES d) else (rd16 d 0, d) in
    if pgcount - 1 <? i then wr16 0 (i + 1) (AddPage i d1) else d1
  else if rd_allo d i =? EPP then
    wr16 0 (i + 1) (store (alloMap i) [EPP - 1] (AddPage i d))
  else d.

Fixpoint find_page (nblobs i : Z) (fuel : nat) (d : dir) : Z * dir :=
  match fuel with
  | O => (-1, d)
  | S fuel' =>
      if BIGMAXPAGES <=? i then (-1, d)
      else if (MAXPAGES <=? i) || (nblobs <=? rd_allo d i) then
        let d1 := grow i d in
        match DRead d1 i with
        | None => (-1, d1)
        | Some base =>
            match find_run d1 base nblobs with
            | Some j =>
                let d2 := if i <? MAXPAGES
                          then store (alloMap i) [rd_allo d1 i - nblobs] d1 else d1 in
                (j + i * EPP, for_blobs (set_bit base) j (Z.to_nat nblobs) d2)
            | None => find_page nblobs (i + 1) fuel' d1
            end
        end
      else find_page nblobs (i + 1) fuel' d
  end.

Definition FindBlobs (nblobs : Z) (d : dir) : Z * dir :=
  match DRead d 0 with
  | None => (-1, d)
  | Some _ => find_page nblobs 0 (Z.to_nat (BIGMAXPAGES + 1)) d
  end.

Definition FreeBlobs (firstblob nblobs : Z) (d : dir) : dir :=
  let page := firstblob / EPP in
  let firstblob := firstblob - EPP * page in
  match DRead d 0 with
  | None => d
  | Some _ =>
      let d1 := if page <? MAXPAGES
                then store (alloMap page) [rd_allo d page + nblobs] d else d in
      match DRead d1 page with
      | Some base => for_blobs (clear_bit base) firstblob (Z.to_nat nblobs) d1
      | None => d1
      end
  end.

(** ** The operations *)

(** A file identifier: vnode and uniquifier. *)
Definition fid : Type := Z * Z.

Definition rd_fid (d : dir) (ep : Z) : fid := (rd32 d (e_vnode ep), rd32 d (e_vunique ep)).
Definition wr_fid (ep : Z) (f : fid) (d : dir) : dir :=
  wr32 (e_vunique ep) f.2 (wr32 (e_vnode ep) f.1 d).

Definition Create (entry : list Z) (vfid : fid) (d : dir) : Z * dir :=
  if bool_decide (entry = []) then (EINVAL, d)
  else
    match FindItem d entry with
    | Some _ => (EEXIST, d)
    | None =>
        let blobs := NameBlobs (Z.of_nat (length entry)) in
        let '(firstelt, d1) := FindBlobs blobs d in
        if firstelt <? 0 then (EFBIG, d1)
        else
          match GetBlob d1 firstelt with
          | None => (EIO, d1)
          | Some ep =>
              let d2 := store (e_name ep) (entry ++ [0]) (wr_fid ep vfid (store ep [FFIRST] d1)) in
              match DRead d2 0 with
              | None => (EIO, d2)
              | Some _ =>
                  let i := DirHash entry in
                  let d3 := wr16 (e_next ep) (rd16 d2 (hashTable i)) d2 in
                  (0, wr16 (hashTable i) firstelt d3)
              end
          end
    end.

Definition Length (d : dir) : Z :=
  match DRead d 0 with
  | None => 0
  | Some _ =>
      let ctr := if negb (rd16 d 0 =? 0) then rd16 d 0
                 else Z.of_nat (length (filter (fun i => rd_allo d (Z.of_nat i) <> EPP)
                                          (seq 0 (Z.to_nat MAXPAGES)))) in
      ctr * AFS_PAGESIZE
  end.

Definition Delete (entry : list Z) (d : dir) : Z * dir :=
  match FindItem d entry with
  | None => (ENOENT, d)
  | Some (firstitem, previtem) =>
      let d1 := wr16 previtem (rd16 d (e_next firstitem)) d in
      let index := firstitem / 32 in
      let nitems := NameBlobs (Z.of_nat (length (name_at d1 (e_name firstitem)))) in
      (0, FreeBlobs index nitems d1)
  end.

Definition Lookup (entry : list Z) (d : dir) : Z * option fid :=
  match FindItem d entry with
  | None => (ENOENT, None)
  | Some (firstitem, _) => (0, Some (rd_fid d firstitem))
  end.

Definition LookupOffset (entry : list Z) (d : dir) : Z * option (fid * Z) :=
  match FindItem d entry with
  | None => (ENOENT, None)
  | Some (firstitem, _) => (0, Some (rd_fid d firstitem, firstitem))
  end.

Definition MakeDir (me parent : fid) (d : dir) : dir :=
  let d1 := Dir (mem d) ({[0]} ∪ dpages d) in
  let d2 := store 4 [EPP - DHE - 1] (wr16 2 1234 (wr16 0 1 d1)) in
  let d3 := store (freebitmap 0 0) [255; 31; 0; 0; 0; 0; 0; 0] d2 in
  let d4 := store (alloMap 0) ((EPP - DHE - 1) :: replicate 127 EPP) d3 in
  let d5 := store (hashTable 0) (replicate 256 0) d4 in
  let d6 := (Create [46] me d5).2 in
  (Create [46; 46] parent d6).2.

(** [hook] is called with its state, the name and the identifier; a code
    other than 0 leaves the chain, not the enumeration. [derrno] is the error
    a failed read leaves in [DErrno]. *)
Section enumerate.
Context {S : Type} (hook : S -> list Z -> fid -> Z * S) (derrno : Z).

Fixpoint enum_chain (d : dir) (num : Z) (s : S) (fuel : nat) : option Z * S :=
  match fuel with
  | O => (None, s)
  | Datatypes.S fuel' =>
      if num =? 0 then (None, s)
      else
        match GetBlob d num with
        | None => (if derrno =? 0 then None else Some derrno, s)
        | Some ep =>
            let '(code, s') := hook s (name_at d (e_name ep)) (rd_fid d ep) in
            if negb (code =? 0) then (None, s')
            else enum_chain d (rd16 d (e_next ep)) s' fuel'
        end
  end.

Fixpoint enum_tables (d : dir) (l : list nat) (s : S) : Z * S :=
  match l with
  | [] => (0, s)
  | i :: l' =>
      match enum_chain d (rd16 d (hashTable (Z.of_nat i))) s (Datatypes.S (chain_fuel d)) with
      | (Some e, s') => (e, s')
      | (None, s') => enum_tables d l' s'
      end
  end.

Definition EnumerateDir (d : dir) (s : S) : Z * S :=
  match DRead d 0 with
  | None => (EIO, s)
  | Some _ => enum_tables d (seq 0 (Z.to_nat NHASHENT)) s
  end.
End enumerate.

Fixpoint only_dots (d : dir) (num : Z) (fuel : nat) : bool :=
  match fuel with
  | O => true
  | S fuel' =>
      if num =? 0 then true
      else
        match GetBlob d num with
        | None => true
        | Some ep =>
            if negb (str_eq d (e_name ep) [46; 46]) && negb (str_eq d (e_name ep) [46]) then false
            else only_dots d (rd16 d (e_next ep)) fuel'
        end
  end.

(** 1 for a directory with entries besides the dots. *)
Definition IsEmpty (d : dir) : Z :=
  match DRead d 0 with
  | None => 0
  | Some _ =>
      if forallb (fun i => only_dots d (rd16 d (hashTable (Z.of_nat i))) (S (chain_fuel d)))
           (seq 0 (Z.to_nat NHASHENT))
      then 0 else 1
  end.

Definition ChangeFid (entry : list Z) (old_fid : option fid) (new_fid : fid) (d : dir) : Z * dir :=
  match FindItem d entry with
  | None => (ENOENT, d)
  | Some (firstitem, _) =>
      let same := match old_fid with
                  | None => true
                  | Some (v, u) => (s32 v =? rd32 d (e_vnode firstitem))
                                   && (s32 u =? rd32 d (e_vunique firstitem))
                  end in
      (0, if same then wr_fid firstitem new_fid d else d)
  end.

Example dir_sample :
  let d := MakeDir (1, 1) (1, 1) (Dir ∅ ∅) in
  let d := (Create [97; 98] (2, 7) d).2 in
  Lookup [97; 98] d = (0, Some (2, 7)) /\ Lookup [46; 46] d = (0, Some (1, 1))
  /\ Lookup [97; 98] (Delete [97; 98] d).2 = (ENOENT, None) /\ IsEmpty d = 1 /\ Length d = 2048.
Proof. vm_compute. repeat split. Qed.
