(* ===== verification/DirSpec.v ===== *)
(** Directories, the specification: the representation of a directory as
    hash chains of entries in disjoint runs of blobs, the invariant that the
    operations of [Dir] keep, and what they do to the names. *)
From S2P Require Import Prelude Bytes Dir.

(** ** Bytes *)

Lemma rd8_store d a l x :
  rd8 (store a l d) x
  = if decide (a <= x < a + Z.of_nat (length l)) then u8 (nth (Z.to_nat (x - a)) l 0) else rd8 d x.
Proof. apply byte_put. Qed.

Lemma rd8_store_ne d a l x : x < a \/ a + Z.of_nat (length l) <= x -> rd8 (store a l d) x = rd8 d x.
Proof. apply byte_put_ne. Qed.

Lemma dpages_store d a l : dpages (store a l d) = dpages d.
Proof. done. Qed.

Lemma load_ext d d' a n :
  (forall x, a <= x < a + Z.of_nat n -> rd8 d' x = rd8 d x) -> load d' a n = load d a n.
Proof. apply bytes_ext. Qed.

Lemma load_store d a l : Forall (fun v => 0 <= v < 256) l -> load (store a l d) a (length l) = l.
Proof. apply bytes_put. Qed.

Lemma rd16_ext d d' a : (forall x, a <= x < a + 2 -> rd8 d' x = rd8 d x) -> rd16 d' a = rd16 d a.
Proof. intros H. unfold rd16. by rewrite (load_ext d d' a 2). Qed.
Lemma rd32_ext d d' a : (forall x, a <= x < a + 4 -> rd8 d' x = rd8 d x) -> rd32 d' a = rd32 d a.
Proof. apply get32_ext. Qed.

Lemma rd16_wr16 d a v : 0 <= v < 65536 -> rd16 (wr16 a v d) a = v.
Proof.
  intros Hv. unfold rd16, wr16, load, store. cbn [mem]. rewrite <- put_u8.
  change 2%nat with (length (map u8 [v / 256; v])). rewrite bytes_put.
  - unfold be_val, u8. cbn. zdiv.
  - repeat constructor; apply u8_range.
Qed.

Lemma rd32_wr32 d a v : rd32 (wr32 a v d) a = s32 v.
Proof. apply get32_put. Qed.

(** Two directories alike outside some bytes. *)
Definition same_but (P : Z -> Prop) (d d' : dir) : Prop :=
  forall x, ~ P x -> rd8 d' x = rd8 d x.

Lemma same_but_trans P d1 d2 d3 : same_but P d1 d2 -> same_but P d2 d3 -> same_but P d1 d3.
Proof. intros H1 H2 x Hx. by rewrite H2, H1. Qed.
Lemma same_but_refl P d : same_but P d d.
Proof. by intros x. Qed.
Lemma same_but_store (P : Z -> Prop) d a l :
  (forall x, a <= x < a + Z.of_nat (length l) -> P x) -> same_but P d (store a l d).
Proof.
  intros H x Hx. apply rd8_store_ne. destruct (decide (x < a)); [by left | right].
  destruct (decide (a + Z.of_nat (length l) <= x)); [done |]. exfalso. apply Hx, H. lia.
Qed.

(** ** Names *)

Definition name_ok (name : list Z) : Prop :=
  Forall (fun c => 0 < c < 256) name /\ (1 <= length name <= 255)%nat.

(** The string [name] is at [a]. *)
Definition str_at (d : dir) (a : Z) (name : list Z) : Prop :=
  load d a (length name + 1) = name ++ [0].

Lemma load_S d a n : load d a (S n) = rd8 d a :: load d (a + 1) n.
Proof. apply bytes_S. Qed.

Lemma str_eq_spec d a name name' : str_at d a name ->
  Forall (fun c => c <> 0) name -> Forall (fun c => c <> 0) name' ->
  str_eq d a name' = bool_decide (name' = name).
Proof.
  unfold str_at. revert a name'. induction name as [| c name IH]; intros a name' H Hn Hn'.
  - cbn [length Nat.add] in H. rewrite load_S in H. injection H as E. destruct name' as [| c' name']; cbn [str_eq]; rewrite E.
    + done.
    + apply Forall_cons in Hn' as [Hc _]. rewrite bool_decide_eq_false_2 by done.
      destruct (Z.eqb_spec 0 c'); [congruence | done].
  - cbn [length Nat.add] in H. rewrite load_S in H. injection H as E Hrest.
    apply Forall_cons in Hn as [Hc Hn].
    destruct name' as [| c' name']; cbn [str_eq]; rewrite E.
    + rewrite bool_decide_eq_false_2 by done. by apply Z.eqb_neq.
    + apply Forall_cons in Hn' as [Hc' Hn']. rewrite (IH _ _ Hrest Hn Hn').
      destruct (Z.eqb_spec c c') as [-> | Hne]; cbn [andb].
      * apply bool_decide_ext. naive_solver.
      * rewrite bool_decide_eq_false_2; [done | congruence].
Qed.

Lemma read_str_spec d a name fuel : str_at d a name -> Forall (fun c => c <> 0) name ->
  (length name < fuel)%nat -> read_str d a fuel = name.
Proof.
  unfold str_at. revert a name. induction fuel as [| fuel IH]; intros a name H Hn Hf; [lia |].
  cbn [read_str]. destruct name as [| c name]; cbn [length Nat.add] in H; rewrite load_S in H.
  - injection H as E. by rewrite E.
  - injection H as E Hrest. rewrite E. apply Forall_cons in Hn as [Hc Hn]. apply Z.eqb_neq in Hc. rewrite Hc. f_equal.
    apply IH; [done | done | simpl in Hf; lia].
Qed.

Lemma name_ok_nonzero name : name_ok name -> Forall (fun c => c <> 0) name.
Proof. intros [H _]. eapply Forall_impl; [exact H |]. cbn. lia. Qed.

Lemma name_at_spec d a name : str_at d a name -> name_ok name -> name_at d a = name.
Proof. intros H [Hc Hl]. apply read_str_spec; [done | by apply name_ok_nonzero | lia]. Qed.

(** The blobs of a name are enough for the entry. *)
Definition nblobs (name : list Z) : Z := NameBlobs (Z.of_nat (length name)).

Lemma nblobs_spec name : name_ok name ->
  1 <= nblobs name <= 9 /\ 12 + Z.of_nat (length name) + 1 <= 32 * nblobs name.
Proof.
  intros [_ Hl]. unfold nblobs, NameBlobs. rewrite Z.shiftr_div_pow2 by lia.
  change (2 ^ 5) with 32. zdiv.
Qed.

Lemma DirHash_range name : 0 <= DirHash name < 128.
Proof.
  unfold DirHash, NHASHENT. set (h := fold_left _ _ _).
  change (128 - 1) with (Z.ones 7). rewrite Z.land_ones by lia. change (2 ^ 7) with 128.
  pose proof (Z.mod_pos_bound h 128). case_tests; lia.
Qed.

(** ** Allocation *)

(** Blobs of a page taken by headers: the page header, and in page 0 the
    rest of the directory header. *)
Definition hdr (p : Z) : Z := if p =? 0 then DHE + 1 else 1.

(** Runs of blobs, as (first, number). *)
Definition blobs (R : list (Z * Z)) : list Z := r ← R; seqZ r.1 r.2.
Fixpoint used (R : list (Z * Z)) (p : Z) : Z :=
  match R with
  | [] => 0
  | r :: R' => (if r.1 / 64 =? p then r.2 else 0) + used R' p
  end.

Definition bit_addr (b : Z) : Z := 2048 * (b / 64) + 5 + (b mod 64) / 8.
Definition bit (d : dir) (b : Z) : bool := Z.testbit (rd8 d (bit_addr b)) (b mod 8).

(** A run inside one page, after its headers. *)
Definition placed (n : Z) (r : Z * Z) : Prop :=
  0 <= r.1 /\ 1 <= r.2 /\ r.1 / 64 < n /\ hdr (r.1 / 64) <= r.1 mod 64 /\ r.1 mod 64 + r.2 <= 64.

(** The allocation state: pages [0] to [n - 1], with exactly the runs [R]
    marked; a directory older than the page count may have none. *)
Record alloc_ok (d : dir) (n : Z) (R : list (Z * Z)) : Prop := {
  a_n : 1 <= n <= BIGMAXPAGES;
  a_pages : forall p, p ∈ dpages d <-> 0 <= p < n;
  a_count : rd16 d 0 = n \/ rd16 d 0 = 0 /\ n <= MAXPAGES;
  a_place : Forall (placed n) R;
  a_disj : NoDup (blobs R);
  a_bits : forall b, 0 <= b < 64 * n ->
    bit d b = true <-> b mod 64 < hdr (b / 64) \/ b ∈ blobs R;
  a_map : forall p, 0 <= p < MAXPAGES ->
    rd_allo d p = if p <? n then EPP - hdr p - used R p else EPP
}.

(** The bytes allocation is recorded in. *)
Definition meta (x : Z) : Prop := 0 <= x < 160 \/ 0 <= x /\ x mod 2048 < 32.

Lemma blob_split b : 0 <= b ->
  b = 64 * (b / 64) + b mod 64 /\ 0 <= b mod 64 < 64 /\ 0 <= b / 64
  /\ b mod 64 = 8 * ((b mod 64) / 8) + b mod 8 /\ 0 <= b mod 8 < 8 /\ 0 <= (b mod 64) / 8 < 8.
Proof. intros H. zdiv. Qed.

Lemma bit_index p j : 0 <= p -> 0 <= j < 64 ->
  (64 * p + j) / 64 = p /\ (64 * p + j) mod 64 = j /\ (64 * p + j) mod 8 = j mod 8.
Proof. intros. zdiv. Qed.

Lemma bit_addr_inj b b' : 0 <= b -> 0 <= b' ->
  bit_addr b = bit_addr b' -> b mod 8 = b' mod 8 -> b = b'.
Proof.
  intros Hb Hb'. unfold bit_addr. pose proof (blob_split b Hb). pose proof (blob_split b' Hb'). lia.
Qed.

(** The C expressions for the place of a bit. *)
Lemma bit_place p j : 0 <= p -> 0 <= j < 64 ->
  freebitmap (AFS_PAGESIZE * p) (Z.shiftr j 3) = bit_addr (64 * p + j)
  /\ Z.land j 7 = (64 * p + j) mod 8.
Proof.
  intros Hp Hj. destruct (bit_index p j Hp Hj) as (E1 & E2 & E3).
  unfold freebitmap, bit_addr, AFS_PAGESIZE. rewrite E1, E2, E3. rewrite Z.shiftr_div_pow2 by lia.
  split; [change (2 ^ 3) with 8; lia |]. change 7 with (Z.ones 3). by rewrite Z.land_ones by lia.
Qed.

Lemma land_one x : Z.land x 1 = Z.b2z (Z.testbit x 0).
Proof.
  change 1 with (Z.ones 1). rewrite Z.land_ones by lia. change (2 ^ 1) with 2.
  rewrite Z.bit0_odd, Zmod_odd. by destruct (Z.odd x).
Qed.

Lemma bit_free_spec d p j : 0 <= p -> 0 <= j < 64 ->
  bit_free d (AFS_PAGESIZE * p) j = negb (bit d (64 * p + j)).
Proof.
  intros Hp Hj. unfold bit_free, bit. destruct (bit_place p j Hp Hj) as [-> ->].
  rewrite land_one, Z.shiftr_spec, Z.add_0_l by lia. by destruct (Z.testbit _ _).
Qed.

Lemma testbit_u8 v k : 0 <= k < 8 -> Z.testbit (u8 v) k = Z.testbit v k.
Proof. intros H. unfold u8. change 256 with (2 ^ 8). by rewrite Z.mod_pow2_bits_low by lia. Qed.

Lemma rd8_store1 d a v x : rd8 (store a [v] d) x = if decide (x = a) then u8 v else rd8 d x.
Proof.
  rewrite rd8_store. change (Z.of_nat (length [v])) with 1.
  destruct (decide (x = a)) as [-> | Hne].
  - rewrite decide_True by lia. by rewrite Z.sub_diag.
  - by rewrite decide_False by lia.
Qed.

Lemma bit_update d p j v b : 0 <= p -> 0 <= j < 64 -> 0 <= b ->
  (forall k, 0 <= k < 8 -> k <> (64 * p + j) mod 8 ->
     Z.testbit v k = Z.testbit (rd8 d (bit_addr (64 * p + j))) k) ->
  bit (store (freebitmap (AFS_PAGESIZE * p) (Z.shiftr j 3)) [v] d) b
  = if decide (b = 64 * p + j) then Z.testbit v ((64 * p + j) mod 8) else bit d b.
Proof.
  intros Hp Hj Hb Hv. destruct (bit_place p j Hp Hj) as [-> _]. unfold bit. rewrite rd8_store1.
  pose proof (blob_split b Hb). case_decide as Ea.
  - rewrite testbit_u8 by lia. case_decide as Eb; [by subst |]. rewrite Ea.
    apply Hv; [lia |]. intros E. apply Eb. apply bit_addr_inj; [lia | lia | done | done].
  - by rewrite decide_False by (intros ->; done).
Qed.

Lemma bit_set d p j b : 0 <= p -> 0 <= j < 64 -> 0 <= b ->
  bit (set_bit (AFS_PAGESIZE * p) j d) b = bool_decide (b = 64 * p + j) || bit d b.
Proof.
  intros Hp Hj Hb. unfold set_bit. destruct (bit_place p j Hp Hj) as [Ea Ek].
  pose proof (blob_split (64 * p + j)).
  rewrite bit_update, Ek by (try done; intros k Hk Hne; rewrite Ea, Ek, Z.lor_spec;
    rewrite Z.shiftl_1_l, Z.pow2_bits_false, orb_false_r by lia; done).
  case_decide as Eb.
  - rewrite bool_decide_eq_true_2 by done. rewrite Z.lor_spec, Z.shiftl_1_l, Z.pow2_bits_true by lia.
    by rewrite orb_true_r.
  - by rewrite bool_decide_eq_false_2.
Qed.

Lemma bit_clear d p j b : 0 <= p -> 0 <= j < 64 -> 0 <= b ->
  bit (clear_bit (AFS_PAGESIZE * p) j d) b = negb (bool_decide (b = 64 * p + j)) && bit d b.
Proof.
  intros Hp Hj Hb. unfold clear_bit. destruct (bit_place p j Hp Hj) as [Ea Ek].
  pose proof (blob_split (64 * p + j)).
  rewrite bit_update, Ek by (try done; intros k Hk Hne; rewrite Ea, Ek, Z.land_spec, Z.lnot_spec by lia;
    rewrite Z.shiftl_1_l, Z.pow2_bits_false, andb_true_r by lia; done).
  case_decide as Eb.
  - rewrite bool_decide_eq_true_2 by done.
    rewrite Z.land_spec, Z.lnot_spec, Z.shiftl_1_l, Z.pow2_bits_true by lia. by rewrite andb_false_r.
  - by rewrite bool_decide_eq_false_2.
Qed.

(** A loop over a run of bits. *)
Lemma for_blobs_S f first n d :
  for_blobs f first (S n) d = f (first + Z.of_nat n) (for_blobs f first n d).
Proof. unfold for_blobs. by rewrite seq_S, fold_left_app. Qed.

Lemma bits_set d p first n b : 0 <= p -> 0 <= first -> first + Z.of_nat n <= 64 -> 0 <= b ->
  bit (for_blobs (set_bit (AFS_PAGESIZE * p)) first n d) b
  = bool_decide (64 * p + first <= b < 64 * p + first + Z.of_nat n) || bit d b.
Proof.
  intros Hp Hf Hn Hb. induction n as [| n IH].
  - rewrite bool_decide_eq_false_2 by lia. done.
  - rewrite for_blobs_S, bit_set, IH by lia. rewrite orb_assoc. f_equal.
    repeat case_bool_decide; cbn; lia || done.
Qed.

Lemma bits_clear d p first n b : 0 <= p -> 0 <= first -> first + Z.of_nat n <= 64 -> 0 <= b ->
  bit (for_blobs (clear_bit (AFS_PAGESIZE * p)) first n d) b
  = negb (bool_decide (64 * p + first <= b < 64 * p + first + Z.of_nat n)) && bit d b.
Proof.
  intros Hp Hf Hn Hb. induction n as [| n IH].
  - rewrite bool_decide_eq_false_2 by lia. done.
  - rewrite for_blobs_S, bit_clear, IH by lia. rewrite andb_assoc. f_equal.
    repeat case_bool_decide; cbn; lia || done.
Qed.

(** These loops change bytes of the page's map only. *)
Definition bitmap (p x : Z) : Prop := 2048 * p + 5 <= x < 2048 * p + 13.

Lemma for_blobs_same f p first n d :
  (forall j d, 0 <= j < 64 -> same_but (bitmap p) d (f j d) /\ dpages (f j d) = dpages d) ->
  0 <= first -> first + Z.of_nat n <= 64 ->
  same_but (bitmap p) d (for_blobs f first n d) /\ dpages (for_blobs f first n d) = dpages d.
Proof.
  intros Hf H0 Hn. induction n as [| n IH]; [by split; [apply same_but_refl |] |].
  rewrite for_blobs_S. destruct IH as [I1 I2]; [lia |].
  destruct (Hf (first + Z.of_nat n) (for_blobs f first n d)) as [J1 J2]; [lia |].
  split; [by eapply same_but_trans | congruence].
Qed.

Lemma store_bit_same p j v d : 0 <= p -> 0 <= j < 64 ->
  same_but (bitmap p) d (store (freebitmap (AFS_PAGESIZE * p) (Z.shiftr j 3)) [v] d)
  /\ dpages (store (freebitmap (AFS_PAGESIZE * p) (Z.shiftr j 3)) [v] d) = dpages d.
Proof.
  intros Hp Hj. split; [| done]. apply same_but_store. intros x Hx. simpl in Hx.
  unfold freebitmap, AFS_PAGESIZE in Hx. rewrite Z.shiftr_div_pow2 in Hx by lia. change (2 ^ 3) with 8 in Hx.
  unfold bitmap. assert (0 <= j / 8 < 8) by zdiv. lia.
Qed.

Lemma bitmap_meta p x : 0 <= p -> bitmap p x -> meta x.
Proof. unfold bitmap, meta. intros Hp H. right. zdiv. Qed.

(** *** Runs *)

Lemma elem_of_blobs R b : b ∈ blobs R <-> exists r, r ∈ R /\ r.1 <= b < r.1 + r.2.
Proof.
  unfold blobs. rewrite list_elem_of_bind. setoid_rewrite elem_of_seqZ.
  split; intros (r & ? & ?); exists r; naive_solver.
Qed.

Lemma blobs_cons r R : blobs (r :: R) = seqZ r.1 r.2 ++ blobs R.
Proof. done. Qed.

Lemma placed_mono n n' r : n <= n' -> placed n r -> placed n' r.
Proof. unfold placed. lia. Qed.

Lemma placed_blob n r b : placed n r -> r.1 <= b < r.1 + r.2 ->
  b / 64 = r.1 / 64 /\ hdr (r.1 / 64) <= b mod 64 /\ 0 <= b < 64 * n.
Proof.
  intros (H0 & H1 & H2 & H3 & H4) Hb. pose proof (blob_split r.1 H0).
  assert (E : b = 64 * (r.1 / 64) + (r.1 mod 64 + (b - r.1))) by lia.
  destruct (bit_index (r.1 / 64) (r.1 mod 64 + (b - r.1))) as (E1 & E2 & _); [lia | lia |].
  rewrite <- E in E1, E2. rewrite E1, E2. lia.
Qed.

Lemma blobs_range n R b : Forall (placed n) R -> b ∈ blobs R -> 0 <= b < 64 * n.
Proof.
  intros HP (r & Hr & Hb)%elem_of_blobs. rewrite Forall_forall in HP.
  by apply (placed_blob n r b (HP r Hr) Hb).
Qed.

Lemma used_perm R R' p : R ≡ₚ R' -> used R p = used R' p.
Proof. induction 1; cbn [used]; lia. Qed.

Lemma used_nonneg n R p : Forall (placed n) R -> 0 <= used R p.
Proof.
  induction R as [| r R IH]; intros H; cbn [used]; [lia |].
  apply Forall_cons in H as [(_ & H1 & _) H]. specialize (IH H). case_match; lia.
Qed.

Lemma used_past n R p : Forall (placed n) R -> n <= p -> used R p = 0.
Proof.
  intros H Hp. induction R as [| r R IH]; cbn [used]; [done |].
  apply Forall_cons in H as [(_ & _ & H2 & _) H]. rewrite (IH H).
  destruct (Z.eqb_spec (r.1 / 64) p); lia.
Qed.

Lemma alloc_perm d n R R' : R ≡ₚ R' -> alloc_ok d n R -> alloc_ok d n R'.
Proof.
  intros E [H1 H2 H3 H4 H5 H6 H7]. split; try done.
  - by rewrite <- E.
  - unfold blobs in *. by rewrite <- E.
  - intros b Hb. rewrite (H6 b Hb). unfold blobs. by rewrite E.
  - intros p Hp. by rewrite <- (used_perm R R' p E), H7.
Qed.

Lemma hdr_range p : 1 <= hdr p <= 13.
Proof. unfold hdr, DHE. case_match; lia. Qed.

Lemma bit_ext d d' b : rd8 d' (bit_addr b) = rd8 d (bit_addr b) -> bit d' b = bit d b.
Proof. unfold bit. by intros ->. Qed.

Lemma bit_addr_page b : 0 <= b -> 2048 * (b / 64) + 5 <= bit_addr b < 2048 * (b / 64) + 13.
Proof. intros H. unfold bit_addr. pose proof (blob_split b H). lia. Qed.

(** Allocation depends on the bytes it is recorded in. *)
Lemma alloc_frame P d d' n R :
  (forall x, P x -> ~ meta x) -> same_but P d d' -> dpages d' = dpages d ->
  alloc_ok d n R -> alloc_ok d' n R.
Proof.
  intros HP HS Hd [H1 H2 H3 H4 H5 H6 H7]. unfold BIGMAXPAGES, MAXPAGES in *.
  assert (HM : forall x, meta x -> rd8 d' x = rd8 d x) by (intros x Hx; apply HS; intros Hp; by apply (HP x)).
  split; try done.
  - by rewrite Hd.
  - rewrite (rd16_ext d d'); [done |]. intros x Hx. apply HM. left. lia.
  - intros b Hb. rewrite <- H6 by done. rewrite (bit_ext d d'); [done |]. apply HM.
    pose proof (bit_addr_page b). assert (0 <= b / 64) by (apply Z.div_pos; lia).
    apply (bitmap_meta (b / 64)); [done |]. unfold bitmap. lia.
  - intros p Hp. unfold MAXPAGES in Hp. rewrite <- H7 by done. unfold rd_allo, alloMap.
    by rewrite HM by (left; lia).
Qed.

(** *** Growing *)

Lemma AddPage_spec d n : 1 <= n ->
  same_but (fun x => 2048 * n <= x < 2048 * n + 13) d (AddPage n d)
  /\ dpages (AddPage n d) = {[n]} ∪ dpages d
  /\ forall k, 0 <= k < 8 -> rd8 (AddPage n d) (2048 * n + 5 + k) = if k =? 0 then 1 else 0.
Proof.
  intros Hn. unfold AddPage, AFS_PAGESIZE, freebitmap. destruct (Z.ltb_spec 0 n); [| lia].
  split; [| split; [done |]].
  - unfold wr16. do 4 (eapply same_but_trans; [| apply same_but_store; cbn [length]; lia]).
    by intros x.
  - intros k Hk. rewrite rd8_store. cbn [length]. rewrite decide_True by lia.
    replace (2048 * n + 5 + k - (2048 * n + 5 + 0)) with k by lia.
    assert (k = 0 \/ k = 1 \/ k = 2 \/ k = 3 \/ k = 4 \/ k = 5 \/ k = 6 \/ k = 7) as Hc by lia.
    by repeat destruct Hc as [-> | Hc]; [.. | subst].
Qed.

(** The directory with page [n] added, however the count was kept. *)
Lemma add_page_ok d d' n R :
  alloc_ok d n R -> n + 1 <= BIGMAXPAGES ->
  same_but (fun x => 0 <= x < 2 \/ x = 32 + n /\ n < 128) (AddPage n d) d' ->
  dpages d' = dpages (AddPage n d) -> rd16 d' 0 = n + 1 ->
  (n < 128 -> rd_allo d' n = 63) ->
  alloc_ok d' (n + 1) R /\ same_but meta d d'.
Proof.
  intros [H1 H2 H3 H4 H5 H6 H7] Hmax HS Hd Hc Hm. unfold BIGMAXPAGES, MAXPAGES, EPP in *.
  destruct (AddPage_spec d n) as (S1 & S2 & S3); [lia |].
  assert (HS' : same_but (fun x => 0 <= x < 2 \/ x = 32 + n /\ n < 128 \/ 2048 * n <= x < 2048 * n + 13) d d').
  { intros x Hx. rewrite HS by tauto. apply S1. tauto. }
  split.
  - split; unfold BIGMAXPAGES, MAXPAGES, EPP in *.
    + lia.
    + intros p. rewrite Hd, S2, elem_of_union, elem_of_singleton, H2. lia.
    + by left.
    + eapply Forall_impl; [exact H4 |]. intros r. apply placed_mono. lia.
    + done.
    + intros b Hb. pose proof (blob_split b ltac:(lia)) as Hsp. pose proof (bit_addr_page b ltac:(lia)) as Ha.
      destruct (decide (b / 64 = n)) as [E | E].
      * assert (Hnb : b ∉ blobs R).
        { intros Hb'. apply (blobs_range n R) in Hb'; [lia | done]. }
        unfold hdr. destruct (Z.eqb_spec (b / 64) 0); [lia |].
        unfold bit. rewrite HS by lia. unfold bit_addr. rewrite E, S3 by lia.
        destruct (Z.eqb_spec ((b mod 64) / 8) 0) as [E0 | E0].
        -- assert (b mod 64 = b mod 8) by lia. change 1 with (2 ^ 0). rewrite Z.pow2_bits_eqb by lia.
           rewrite Z.eqb_eq. change (2 ^ 0) with 1. split; [intros; left; lia | intros [? | ?]; [lia | done]].
        -- rewrite Z.bits_0. split; [done |]. intros [? | ?]; [lia | done].
      * rewrite (bit_ext d d'); [apply H6; lia |]. apply HS'. lia.
    + intros p Hp. destruct (decide (p = n)) as [-> | Hne].
      * rewrite Hm by lia. destruct (Z.ltb_spec n (n + 1)); [| lia].
        rewrite (used_past n R n H4) by lia. unfold hdr. destruct (Z.eqb_spec n 0); lia.
      * unfold rd_allo in *. rewrite HS' by (unfold alloMap; lia). rewrite H7 by done.
        destruct (Z.ltb_spec p n), (Z.ltb_spec p (n + 1)); try done; lia.
  - intros x Hx. apply HS'. intros Hx'. apply Hx. unfold meta. destruct Hx' as [? | [? | ?]]; [left; lia | left; lia | right].
    zdiv.
Qed.

Lemma s8_small z : -128 <= z <= 127 -> s8 z = z.
Proof. intros H. unfold s8. rewrite Z.mod_small; lia. Qed.

Lemma s8_u8 z : s8 (u8 z) = s8 z.
Proof. unfold s8, u8. f_equal. rewrite Zplus_mod_idemp_l. done. Qed.

Lemma rd_allo_store d i v : rd_allo (store (alloMap i) [v] d) i = s8 v.
Proof. unfold rd_allo. by rewrite rd8_store1, decide_True, s8_u8. Qed.

Lemma wr16_same a v d : same_but (fun x => a <= x < a + 2) d (wr16 a v d).
Proof. apply same_but_store. cbn [length]. lia. Qed.

Lemma grow_spec d n R i : alloc_ok d n R -> 0 <= i <= n -> i < BIGMAXPAGES ->
  exists n', alloc_ok (grow i d) n' R /\ same_but meta d (grow i d)
    /\ i < n' /\ n <= n' <= n + 1 /\ (i < n -> n' = n).
Proof.
  intros H Hi Hmax. pose proof H as [H1 H2 H3 H4 H5 H6 H7]. unfold grow.
  destruct (Z.leb_spec MAXPAGES i) as [Hb | Hb].
  - assert (Hadd : forall d1, same_but (fun x => 0 <= x < 2) d d1 -> dpages d1 = dpages d -> i = n ->
              alloc_ok (wr16 0 (i + 1) (AddPage i d1)) (n + 1) R
              /\ same_but meta d (wr16 0 (i + 1) (AddPage i d1))).
    { intros d1 Hs Hd ->. destruct (AddPage_spec d n) as (S1 & S2 & S3); [lia |].
      destruct (AddPage_spec d1 n) as (T1 & T2 & T3); [lia |].
      apply add_page_ok; [done | lia | | by transitivity (dpages (AddPage n d1)); [| rewrite T2, Hd, S2] | | unfold MAXPAGES in Hb; lia].
      - intros x Hx. rewrite (wr16_same 0) by lia.
        destruct (decide (2048 * n + 5 <= x < 2048 * n + 13)).
        + replace x with (2048 * n + 5 + (x - (2048 * n + 5))) by lia. by rewrite S3, T3 by lia.
        + unfold AddPage, AFS_PAGESIZE, freebitmap. destruct (Z.ltb_spec 0 n); [| lia].
          rewrite !(rd8_store_ne _ (2048 * n + 5 + 0)) by (cbn [length]; lia). unfold wr16.
          rewrite !rd8_store. cbn [length]. repeat case_decide; try done. apply Hs. lia.
      - rewrite rd16_wr16; [done |]. unfold BIGMAXPAGES in *. lia. }
    destruct (Z.eqb_spec (rd16 d 0) 0) as [E0 | E0].
    + assert (i = n) as -> by (unfold MAXPAGES in *; lia).
      destruct (Z.ltb_spec (MAXPAGES - 1) n); [| lia].
      exists (n + 1). destruct (Hadd (wr16 0 MAXPAGES d)) as [A1 A2]; [apply wr16_same | done | done |].
      split; [done |]. split; [done |]. lia.
    + destruct H3 as [H3 | H3]; [| lia]. rewrite H3. destruct (Z.ltb_spec (n - 1) i).
      * assert (i = n) as -> by lia. exists (n + 1). destruct (Hadd d) as [A1 A2]; [apply same_but_refl | done | done |].
        split; [done |]. split; [done |]. lia.
      * exists n. split; [done |]. split; [apply same_but_refl |]. lia.
  - rewrite H7 by lia. pose proof (hdr_range i). pose proof (used_nonneg n R i H4).
    destruct (Z.ltb_spec i n) as [Hin | Hin].
    + destruct (Z.eqb_spec (EPP - hdr i - used R i) EPP); [lia |].
      exists n. split; [done |]. split; [apply same_but_refl |]. lia.
    + rewrite Z.eqb_refl. assert (i = n) as -> by lia. exists (n + 1). unfold MAXPAGES in Hb.
      destruct (add_page_ok d (wr16 0 (n + 1) (store (alloMap n) [EPP - 1] (AddPage n d))) n R)
        as [A1 A2]; [done | lia | | done | | |].
      * unfold alloMap. eapply same_but_trans; apply same_but_store; cbn [length]; lia.
      * rewrite rd16_wr16; [done |]. unfold BIGMAXPAGES in *. lia.
      * intros _. unfold rd_allo. rewrite (wr16_same 0) by (unfold alloMap; lia).
        by rewrite rd8_store1, decide_True.
      * split; [done |]. split; [done |]. lia.
Qed.

(** *** Finding and freeing *)

Definition fits (d : dir) (p nb j : Z) : Prop :=
  0 <= j /\ j + nb <= 64 /\ forall k, 0 <= k < nb -> bit d (64 * p + (j + k)) = false.

Lemma fit_test d p nb j : 0 <= p -> 0 <= j -> 1 <= nb -> j + nb <= 64 ->
  forallb (fun k => bit_free d (AFS_PAGESIZE * p) (j + Z.of_nat k)) (seq 0 (Z.to_nat nb)) = true
  <-> fits d p nb j.
Proof.
  intros Hp Hj Hnb Hle. rewrite forallb_forall. split.
  - intros H. split; [done |]. split; [done |]. intros k Hk.
    specialize (H (Z.to_nat k)). rewrite in_seq in H.
    specialize (H ltac:(lia)). rewrite bit_free_spec in H by lia. apply negb_true_iff in H.
    by rewrite Z2Nat.id in H by lia.
  - intros (_ & _ & H) k Hk%in_seq. rewrite bit_free_spec by lia. apply negb_true_iff. apply H. lia.
Qed.

Lemma first_fit_spec d p nb : 0 <= p -> 1 <= nb -> forall fuel j, 0 <= j -> 64 - j < Z.of_nat fuel ->
  match first_fit d (AFS_PAGESIZE * p) nb j fuel with
  | Some j' => fits d p nb j'
  | None => forall j', j <= j' -> ~ fits d p nb j'
  end.
Proof.
  intros Hp Hnb. induction fuel as [| fuel IH]; intros j Hj Hf; [intros j' Hj' (_ & ? & _); lia |].
  cbn [first_fit]. destruct (Z.leb_spec j (EPP - nb)) as [Hle | Hle]; unfold EPP in Hle.
  - pose proof (fit_test d p nb j Hp Hj Hnb ltac:(lia)) as Ht.
    destruct (forallb _ _); [by apply Ht |].
    specialize (IH (j + 1) ltac:(lia) ltac:(lia)).
    destruct (first_fit _ _ _ (j + 1) fuel); [done |]. intros j' Hj' Hfit.
    destruct (decide (j' = j)) as [-> | Hne]; [by apply Ht in Hfit | by apply (IH j'); [lia |]].
  - intros j' Hj' (_ & ? & _). lia.
Qed.

Lemma filter_const {A} (P : A -> Prop) `{!forall x, Decision (P x)} (l : list A) :
  (forall x, x ∈ l -> P x) -> filter P l = l.
Proof.
  induction l as [| x l IH]; intros Hall; [done |]. rewrite filter_cons, decide_True by (apply Hall; left).
  f_equal. apply IH. intros y Hy. apply Hall. by right.
Qed.
Lemma filter_none {A} (P : A -> Prop) `{!forall x, Decision (P x)} (l : list A) :
  (forall x, x ∈ l -> ~ P x) -> filter P l = [].
Proof.
  induction l as [| x l IH]; intros Hall; [done |]. rewrite filter_cons, decide_False by (apply Hall; left).
  apply IH. intros y Hy. apply Hall. by right.
Qed.

Lemma used_length n R p : Forall (placed n) R ->
  used R p = Z.of_nat (length (filter (fun b => b / 64 = p) (blobs R))).
Proof.
  induction R as [| r R IH]; intros H; [done |]. apply Forall_cons in H as [Hr H].
  cbn [used]. rewrite (IH H), blobs_cons, filter_app, length_app, Nat2Z.inj_add. f_equal.
  assert (Hpg : forall b, b ∈ seqZ r.1 r.2 -> b / 64 = r.1 / 64).
  { intros b Hb%elem_of_seqZ. by apply (placed_blob n). }
  destruct Hr as (_ & Hr & _). destruct (Z.eqb_spec (r.1 / 64) p) as [E | E].
  - rewrite filter_const, length_seqZ; [lia |]. intros b Hb. by rewrite Hpg.
  - rewrite filter_none; [done |]. intros b Hb. by rewrite Hpg.
Qed.

Lemma used_bound n R p : Forall (placed n) R -> NoDup (blobs R) -> 0 <= p -> 0 <= used R p <= 64 - hdr p.
Proof.
  intros H Hn Hp. pose proof (hdr_range p). rewrite (used_length n R p H). split; [lia |].
  assert (Hs : filter (fun b => b / 64 = p) (blobs R) ⊆+ seqZ (64 * p + hdr p) (64 - hdr p)).
  { apply NoDup_submseteq; [by apply NoDup_filter |]. intros b [E Hb]%list_elem_of_filter.
    apply elem_of_blobs in Hb as (r & Hr & Hb). rewrite Forall_forall in H.
    destruct (placed_blob n r b (H r Hr) Hb) as (Eb & Hh & _). rewrite <- Eb, E in Hh.
    apply elem_of_seqZ. pose proof (Z.div_mod b 64). pose proof (Z.mod_pos_bound b 64). lia. }
  apply submseteq_length in Hs. rewrite length_seqZ in Hs. lia.
Qed.

(** Marking a run that fits. *)
Lemma reserve_ok d n R p nb j : alloc_ok d n R -> 0 <= p < n -> 1 <= nb <= 63 -> fits d p nb j ->
  let d2 := if p <? MAXPAGES then store (alloMap p) [rd_allo d p - nb] d else d in
  let d3 := for_blobs (set_bit (AFS_PAGESIZE * p)) j (Z.to_nat nb) d2 in
  alloc_ok d3 n ((j + p * EPP, nb) :: R) /\ same_but meta d d3.
Proof.
  intros [H1 H2 H3 H4 H5 H6 H7] Hp Hnb (Hj & Hle & Hfree) d2 d3. unfold BIGMAXPAGES, MAXPAGES, EPP in *.
  assert (S2 : same_but (fun x => x = 32 + p /\ p < 128) d d2).
  { subst d2. destruct (Z.ltb_spec p 128); [| apply same_but_refl].
    apply same_but_store. unfold alloMap. cbn [length]. lia. }
  assert (S3 : same_but (bitmap p) d2 d3 /\ dpages d3 = dpages d2).
  { apply for_blobs_same; [| lia | lia]. intros k d' Hk. apply store_bit_same; lia. }
  destruct S3 as [S3 Hpg3]. assert (Hpg2 : dpages d2 = dpages d) by (subst d2; by case_match).
  assert (Hbit2 : forall b, 0 <= b -> bit d2 b = bit d b).
  { intros b Hb. apply bit_ext, S2. intros [E ?]. pose proof (bit_addr_page b Hb).
    assert (b / 64 = 0) by lia. lia. }
  assert (Hbit3 : forall b, 0 <= b -> bit d3 b
            = bool_decide (64 * p + j <= b < 64 * p + j + nb) || bit d b).
  { intros b Hb. subst d3. rewrite bits_set, Hbit2 by lia. by rewrite Z2Nat.id by lia. }
  assert (Hhdr : hdr p <= j).
  { destruct (decide (hdr p <= j)) as [| Hlt]; [done | exfalso].
    specialize (Hfree 0 ltac:(lia)). rewrite Z.add_0_r in Hfree.
    destruct (bit_index p j) as (E1 & E2 & _); [lia | lia |].
    assert (Ht : bit d (64 * p + j) = true); [| congruence].
    apply H6; [lia |]. left. rewrite E1, E2. lia. }
  assert (Hnew : placed n (j + p * 64, nb)).
  { unfold placed. cbn [fst snd]. replace (j + p * 64) with (64 * p + j) by lia.
    destruct (bit_index p j) as (-> & -> & _); lia. }
  assert (Hmem : forall b, b ∈ seqZ (j + p * 64) nb <-> 64 * p + j <= b < 64 * p + j + nb).
  { intros b. rewrite elem_of_seqZ. lia. }
  assert (Ha : forall x, x = 32 + p /\ p < 128 -> ~ bitmap p x).
  { unfold bitmap. intros x [-> ?]. assert (p = 0 \/ 1 <= p) as [-> | ?] by lia; lia. }
  assert (Hdisj : NoDup (blobs ((j + p * 64, nb) :: R))).
  { rewrite blobs_cons. apply NoDup_app. split; [apply NoDup_seqZ |]. split; [| done].
    intros b Hb Hb'. apply Hmem in Hb. pose proof (blobs_range n R b H4 Hb').
    assert (bit d b = true) by (apply H6; [done | by right]).
    specialize (Hfree (b - (64 * p + j)) ltac:(lia)).
    replace (64 * p + (j + (b - (64 * p + j)))) with b in Hfree by lia. congruence. }
  split.
  - split; unfold BIGMAXPAGES, MAXPAGES, EPP in *.
    + done.
    + by rewrite Hpg3, Hpg2.
    + rewrite (rd16_ext d d3); [done |]. intros x Hx. rewrite S3, S2; [done | lia | unfold bitmap; lia].
    + by constructor.
    + done.
    + intros b Hb. rewrite Hbit3, orb_true_iff, bool_decide_eq_true, H6, blobs_cons, elem_of_app by lia.
      cbn [fst snd]. rewrite Hmem. tauto.
    + intros q Hq. cbn [used fst snd]. replace (j + p * 64) with (64 * p + j) by lia.
      destruct (bit_index p j) as (-> & _); [lia | lia |].
      assert (Hq3 : rd_allo d3 q = rd_allo d2 q).
      { unfold rd_allo, alloMap. rewrite S3; [done |]. unfold bitmap. lia. }
      rewrite Hq3. destruct (Z.eqb_spec p q) as [<- | Hne].
      * subst d2. destruct (Z.ltb_spec p 128); [| lia]. rewrite rd_allo_store, H7 by lia.
        destruct (Z.ltb_spec p n); [| lia].
        pose proof (hdr_range p).
        assert (Hu : 0 <= used ((j + p * 64, nb) :: R) p <= 64 - hdr p)
          by (apply (used_bound n); [by constructor | done | lia]).
        cbn [used fst snd] in Hu. replace (j + p * 64) with (64 * p + j) in Hu by lia.
        destruct (bit_index p j) as (E1 & _); [lia | lia |]. rewrite E1, Z.eqb_refl in Hu.
        rewrite s8_small; lia.
      * rewrite <- H7 by done. unfold rd_allo, alloMap. rewrite S2; [lia |]. lia.
  - intros x Hx. rewrite S3, S2; [done | |].
    + intros [-> ?]. apply Hx. left. lia.
    + intros Hb. apply Hx, (bitmap_meta p); [lia | done].
Qed.

Lemma fresh_fits d n n' R nb : alloc_ok d n' R -> Forall (placed n) R -> 1 <= n < n' -> 1 <= nb <= 63 ->
  fits d n nb 1.
Proof.
  intros H HR Hn Hnb. split; [lia |]. split; [lia |]. intros k Hk.
  destruct (bit_index n (1 + k)) as (E1 & E2 & _); [lia | lia |].
  destruct (bit d (64 * n + (1 + k))) eqn:E; [exfalso | done].
  apply (a_bits _ _ _ H) in E; [| lia]. rewrite E1, E2 in E. unfold hdr in E.
  destruct (Z.eqb_spec n 0); [lia |]. destruct E as [E | E]; [lia |].
  apply (blobs_range n) in E; [lia | done].
Qed.

(** A page with a run of free blobs counts them. *)
Lemma fits_counted d n R p nb j : alloc_ok d n R -> 0 <= p < n -> p < MAXPAGES -> 1 <= nb <= 63 ->
  fits d p nb j -> nb <= rd_allo d p.
Proof.
  intros H Hp Hm Hnb HF. destruct (reserve_ok d n R p nb j H Hp Hnb HF) as [H' _].
  destruct HF as (Hj & Hle & _).
  pose proof (used_bound n _ p (a_place _ _ _ H') (a_disj _ _ _ H') ltac:(lia)) as Hu.
  cbn [used fst snd] in Hu. replace (j + p * EPP) with (64 * p + j) in Hu by (unfold EPP; lia).
  destruct (bit_index p j) as (E1 & _); [lia | lia |]. rewrite E1, Z.eqb_refl in Hu.
  rewrite (a_map _ _ _ H p ltac:(lia)). destruct (Z.ltb_spec p n); [unfold EPP; lia | lia].
Qed.

Lemma grow_old d n R i : alloc_ok d n R -> 0 <= i < n -> grow i d = d.
Proof.
  intros H Hi. unfold grow. destruct (Z.leb_spec MAXPAGES i) as [Hb | Hb].
  - destruct (a_count _ _ _ H) as [E | [_ ?]]; [| lia]. rewrite E.
    destruct (Z.eqb_spec n 0); [lia |]. by rewrite (proj2 (Z.ltb_ge _ _)) by lia.
  - rewrite (a_map _ _ _ H i ltac:(lia)). pose proof (hdr_range i).
    pose proof (used_nonneg n R i (a_place _ _ _ H)). rewrite (proj2 (Z.ltb_lt i n)) by lia.
    by destruct (Z.eqb_spec (EPP - hdr i - used R i) EPP); [lia |].
Qed.

Definition found (d : dir) (n : Z) (R : list (Z * Z)) (nb i b : Z) (d' : dir) : Prop :=
  b = -1 /\ d' = d /\ n = BIGMAXPAGES /\ (forall p j, i <= p < BIGMAXPAGES -> ~ fits d p nb j)
  \/ 0 <= b /\ same_but meta d d' /\ exists n', n <= n' <= n + 1 /\ alloc_ok d' n' ((b, nb) :: R).

Lemma find_page_spec nb : 1 <= nb <= 51 -> forall fuel d n R i,
  alloc_ok d n R -> 0 <= i <= n -> BIGMAXPAGES - i < Z.of_nat fuel ->
  let '(b, d') := find_page nb i fuel d in found d n R nb i b d'.
Proof.
  intros Hnb. induction fuel as [| fuel IH]; intros d n R i H Hi Hf; [pose proof (a_n _ _ _ H); lia |].
  cbn [find_page]. pose proof (a_n _ _ _ H) as Hn.
  destruct (Z.leb_spec BIGMAXPAGES i) as [Hend | Hend].
  { left. split; [done |]. split; [done |]. split; [lia |]. lia. }
  assert (Hskip : i < n -> (forall j, ~ fits d i nb j) ->
            let '(b, d') := find_page nb (i + 1) fuel d in found d n R nb i b d').
  { intros Hin Hno. specialize (IH d n R (i + 1) H ltac:(lia) ltac:(lia)).
    destruct (find_page nb (i + 1) fuel d) as [b d']. destruct IH as [(-> & -> & -> & IH) | IH]; [left | by right].
    repeat split; try done. intros p j Hp. destruct (decide (p = i)) as [-> |]; [apply Hno | apply IH; lia]. }
  destruct (_ || _) eqn:Ec.
  - destruct (grow_spec d n R i H Hi Hend) as (n1 & G1 & G2 & G3 & G4 & G5).
    pose proof (grow_old d n R i H) as Gid. set (d1 := grow i d) in *.
    unfold DRead, find_run. rewrite decide_True by (apply (a_pages _ _ _ G1); lia).
    rewrite (proj2 (Z.ltb_ge EPP nb)) by (unfold EPP; lia).
    pose proof (first_fit_spec d1 i nb ltac:(lia) ltac:(lia) (Z.to_nat (EPP + 1)) 0 ltac:(lia)
                  ltac:(unfold EPP; lia)) as HF.
    destruct (first_fit d1 _ nb 0 _) as [j |].
    + destruct (reserve_ok d1 n1 R i nb j G1 ltac:(lia) ltac:(lia) HF) as [A1 A2]. cbv zeta in A1, A2.
      right. split; [destruct HF as (? & _); unfold EPP; lia |]. split; [by eapply same_but_trans |]. by exists n1.
    + assert (Hno : forall j, ~ fits d1 i nb j).
      { intros j Hj. apply (HF j); [by destruct Hj | done]. }
      destruct (decide (i < n)) as [Hin | Hin].
      * rewrite Gid in Hno |- * by lia. by apply Hskip.
      * exfalso. replace i with n in Hno by lia. apply (Hno 1).
        apply (fresh_fits d1 n n1 R); [done | apply (a_place _ _ _ H) | lia | lia].
  - bool_hyps. pose proof (a_map _ _ _ H i ltac:(unfold MAXPAGES in *; lia)) as Hm.
    assert (Hin : i < n) by (destruct (Z.ltb_spec i n); [done | unfold EPP in Hm; lia]).
    apply Hskip; [done |]. intros j Hj.
    pose proof (fits_counted d n R i nb j H ltac:(lia) ltac:(lia) ltac:(lia) Hj). lia.
Qed.

(** [FindBlobs] marks a new run, or there is none and no page to add. *)
Lemma FindBlobs_spec d n R nb : alloc_ok d n R -> 1 <= nb <= 51 ->
  let '(b, d') := FindBlobs nb d in found d n R nb 0 b d'.
Proof.
  intros H Hnb. unfold FindBlobs, DRead. pose proof (a_n _ _ _ H).
  rewrite decide_True by (apply (a_pages _ _ _ H); lia).
  apply (find_page_spec nb Hnb _ d n R 0 H); [lia |]. unfold BIGMAXPAGES. lia.
Qed.

Lemma FreeBlobs_ok d n R b nb : alloc_ok d n ((b, nb) :: R) ->
  alloc_ok (FreeBlobs b nb d) n R /\ same_but meta d (FreeBlobs b nb d).
Proof.
  intros [H1 H2 H3 H4 H5 H6 H7]. unfold BIGMAXPAGES, MAXPAGES, EPP in *.
  apply Forall_cons in H4 as [Hpl H4]. pose proof Hpl as (P1 & P2 & P3 & P4 & P5). cbn [fst snd] in *.
  set (p := b / 64) in *. pose proof (blob_split b P1) as Hsp. fold p in Hsp.
  unfold FreeBlobs, DRead, MAXPAGES, EPP. fold p. rewrite decide_True by (apply H2; lia).
  set (d1 := if p <? 128 then _ else d). replace (b - 64 * p) with (b mod 64) by lia.
  assert (Hpg1 : dpages d1 = dpages d) by (subst d1; by case_match).
  rewrite Hpg1, decide_True by (apply H2; lia).
  set (d2 := for_blobs _ _ _ d1).
  assert (S1 : same_but (fun x => x = 32 + p /\ p < 128) d d1).
  { subst d1. destruct (Z.ltb_spec p 128); [| apply same_but_refl].
    apply same_but_store. unfold alloMap. cbn [length]. lia. }
  assert (S2 : same_but (bitmap p) d1 d2 /\ dpages d2 = dpages d1).
  { apply for_blobs_same; [| lia | lia]. intros k d' Hk. apply store_bit_same; lia. }
  destruct S2 as [S2 Hpg2].
  assert (Hbit : forall c, 0 <= c -> bit d2 c = negb (bool_decide (b <= c < b + nb)) && bit d c).
  { intros c Hc. subst d2. rewrite bits_clear by lia. rewrite Z2Nat.id by lia.
    replace (64 * p + b mod 64) with b by lia. f_equal. apply bit_ext, S1. intros [E ?].
    pose proof (bit_addr_page c Hc). assert (c / 64 = 0) by lia. lia. }
  rewrite blobs_cons in H5. cbn [fst snd] in H5. apply NoDup_app in H5 as (_ & Hd & H5).
  split.
  - split; unfold BIGMAXPAGES, MAXPAGES, EPP in *.
    + done.
    + by rewrite Hpg2, Hpg1.
    + rewrite (rd16_ext d d2); [done |]. intros x Hx. rewrite S2, S1; [done | lia | unfold bitmap; lia].
    + done.
    + done.
    + intros c Hc. rewrite Hbit, andb_true_iff, negb_true_iff, bool_decide_eq_false, H6 by lia.
      rewrite blobs_cons, elem_of_app. cbn [fst snd]. rewrite elem_of_seqZ.
      assert (Hnh : b <= c < b + nb -> ~ c mod 64 < hdr (c / 64)).
      { intros Hr. destruct (placed_blob n (b, nb) c Hpl Hr) as (E1 & E2 & _). cbn [fst] in E1, E2.
        rewrite E1. lia. }
      assert (Hnr : b <= c < b + nb -> c ∉ blobs R) by (intros Hr; apply Hd, elem_of_seqZ; lia).
      tauto.
    + intros q Hq.
      assert (Hq2 : rd_allo d2 q = rd_allo d1 q).
      { unfold rd_allo, alloMap. rewrite S2; [done |]. unfold bitmap. lia. }
      rewrite Hq2. pose proof (H7 q Hq) as Hold. cbn [used fst snd] in Hold. fold p in Hold.
      destruct (Z.eqb_spec p q) as [<- | Hne].
      * subst d1. destruct (Z.ltb_spec p 128); [| lia]. rewrite rd_allo_store, Hold.
        destruct (Z.ltb_spec p n); [| lia].
        pose proof (hdr_range p). pose proof (used_bound n R p H4 H5 ltac:(lia)). rewrite s8_small; lia.
      * rewrite Z.add_0_l in Hold. rewrite <- Hold. unfold rd_allo, alloMap. rewrite S1; [done |]. lia.
  - intros x Hx. rewrite S2, S1; [done | |].
    + intros [-> ?]. apply Hx. left. lia.
    + intros Hb. apply Hx, (bitmap_meta p); [lia | done].
Qed.

(** ** Chains *)

(** An entry: its first blob, its name and its identifier. *)
Record ent := Ent { eb : Z; en : list Z; ef : fid }.
Definition run (e : ent) : Z * Z := (eb e, nblobs (en e)).
Definition ent_addr (e : ent) : Z := 32 * eb e.

Fixpoint linked (d : dir) (a : Z) (l : list ent) : Prop :=
  match l with
  | [] => rd16 d a = 0
  | e :: l' => rd16 d a = eb e /\ linked d (e_next (ent_addr e)) l'
  end.

Definition ent_at (d : dir) (e : ent) : Prop :=
  str_at d (e_name (ent_addr e)) (en e) /\ rd_fid d (ent_addr e) = ef e.

(** The chains of the hash table, by bucket. *)
Record chains_ok (d : dir) (C : list (list ent)) : Prop := {
  c_len : length C = 128%nat;
  c_linked : forall h l, C !! h = Some l -> linked d (hashTable (Z.of_nat h)) l;
  c_ents : forall h l e, C !! h = Some l -> e ∈ l ->
    ent_at d e /\ name_ok (en e) /\ DirHash (en e) = Z.of_nat h;
  c_names : forall h l, C !! h = Some l -> NoDup (map en l)
}.

Definition dir_ok (d : dir) (n : Z) (C : list (list ent)) : Prop :=
  alloc_ok d n (map run (concat C)) /\ chains_ok d C.

(** *** Reading a chain *)

Lemma GetBlob_spec d n R b : alloc_ok d n R -> 0 <= b < 64 * n -> GetBlob d b = Some (32 * b).
Proof.
  intros H Hb. unfold GetBlob, DRead, LEPP, EPP, AFS_PAGESIZE. pose proof (blob_split b).
  rewrite Z.shiftr_div_pow2 by lia. change (2 ^ 6) with 64.
  rewrite decide_True by (apply (a_pages _ _ _ H); lia).
  change (64 - 1) with (Z.ones 6). rewrite Z.land_ones by lia. change (2 ^ 6) with 64. f_equal. lia.
Qed.

Lemma placed_head n r : placed n r -> 1 <= r.1 < 64 * n.
Proof.
  intros (H0 & H1 & H2 & H3 & H4). pose proof (blob_split r.1 H0). pose proof (hdr_range (r.1 / 64)). lia.
Qed.

Lemma ent_placed d n R e : alloc_ok d n R -> run e ∈ R -> placed n (run e).
Proof. intros H He. pose proof (a_place _ _ _ H) as HP. rewrite Forall_forall in HP. by apply HP. Qed.

(** The place of the pointer to what follows [l1] in a chain from [lp]. *)
Definition ptr (lp : Z) (l1 : list ent) : Z :=
  match last l1 with Some e => e_next (ent_addr e) | None => lp end.

Lemma ptr_cons lp e l1 : ptr lp (e :: l1) = ptr (e_next (ent_addr e)) l1.
Proof. unfold ptr. rewrite last_cons. by destruct (last l1). Qed.

Definition ent_fine (d : dir) (n : Z) (e : ent) : Prop :=
  ent_at d e /\ name_ok (en e) /\ 1 <= eb e < 64 * n.

Lemma find_loop_spec d n R name : alloc_ok d n R -> name_ok name -> forall l e lp fuel,
  linked d lp (e :: l) -> Forall (ent_fine d n) (e :: l) -> (length l < fuel)%nat ->
  match find_loop d name (ent_addr e) lp fuel with
  | Some (tp, lp') => exists l1 x l2, e :: l = l1 ++ x :: l2 /\ en x = name
      /\ tp = ent_addr x /\ lp' = ptr lp l1
  | None => name ∉ map en (e :: l)
  end.
Proof.
  intros H Hname. induction l as [| e' l IH]; intros e lp fuel [Hp Hl] Hall Hf;
    (destruct fuel as [| fuel]; [simpl in Hf; lia |]); cbn [find_loop];
    apply Forall_cons in Hall as [[[Hstr Hfid] [Hn Hb]] Hall];
    rewrite (str_eq_spec d _ (en e) name Hstr) by (by apply name_ok_nonzero);
    case_bool_decide as En.
  - exists [], e, []. by subst.
  - cbn [linked] in Hl. rewrite Hl. cbn. rewrite elem_of_cons. by intros [? | ?%not_elem_of_nil].
  - exists [], e, (e' :: l). by subst.
  - destruct Hl as [Hl Hl']. rewrite Hl.
    pose proof Hall as Hall'. apply Forall_cons in Hall' as [(_ & _ & Hb') _].
    destruct (Z.eqb_spec (eb e') 0); [lia |]. rewrite (GetBlob_spec d n R) by (done || lia).
    change (32 * eb e') with (ent_addr e').
    specialize (IH e' (e_next (ent_addr e)) fuel (conj Hl Hl') Hall ltac:(simpl in Hf; lia)).
    destruct (find_loop d name (ent_addr e') _ fuel) as [[tp lp'] |].
    + destruct IH as (l1 & x & l2 & E & Ex & -> & ->). exists (e :: l1), x, l2.
      split; [by rewrite E |]. rewrite ptr_cons. done.
    + cbn [map] in *. rewrite elem_of_cons. intros [? | ?]; done.
Qed.

Lemma size_pages d n R : alloc_ok d n R -> Z.of_nat (size (dpages d)) = n.
Proof.
  intros H. pose proof (a_n _ _ _ H).
  assert (E : dpages d ≡ list_to_set (seqZ 0 n)).
  { intros p. rewrite elem_of_list_to_set, elem_of_seqZ, (a_pages _ _ _ H). lia. }
  rewrite E, size_list_to_set by apply NoDup_seqZ. rewrite length_seqZ. lia.
Qed.

Lemma heads_nodup n R : Forall (placed n) R -> NoDup (blobs R) -> NoDup (map fst R).
Proof.
  induction R as [| r R IH]; intros HP HN; [constructor |]. apply Forall_cons in HP as [Hr HP].
  rewrite blobs_cons in HN. apply NoDup_app in HN as (_ & Hd & HN). cbn [map]. constructor; [| auto].
  intros (r' & E & Hr')%list_elem_of_fmap. apply (Hd r.1).
  - apply elem_of_seqZ. destruct Hr as (_ & ? & _). lia.
  - apply elem_of_blobs. exists r'. split; [done |]. rewrite Forall_forall in HP.
    destruct (HP r' Hr') as (_ & ? & _). lia.
Qed.

Lemma nodup_sub {A} (l k : list A) : NoDup k -> l ⊆+ k -> NoDup l.
Proof.
  intros Hk (k' & E)%submseteq_Permutation. rewrite E in Hk. by apply NoDup_app in Hk as (? & _).
Qed.

Lemma chain_length d n R l : alloc_ok d n R -> map run l ⊆+ R -> (length l <= chain_fuel d)%nat.
Proof.
  intros H Hs. unfold chain_fuel. rewrite (size_pages d n R H). unfold EPP.
  assert (Hsub : map fst (map run l) ⊆+ seqZ 0 (64 * n)).
  { apply NoDup_submseteq.
    - apply (nodup_sub _ (map fst R)); [| by apply (fmap_submseteq fst)].
      by apply (heads_nodup n); apply H.
    - intros b (r & -> & Hr)%list_elem_of_fmap. apply elem_of_seqZ.
      assert (HrR : r ∈ R) by by apply (elem_of_submseteq (map run l) R).
      pose proof (a_place _ _ _ H) as HP. rewrite Forall_forall in HP.
      pose proof (placed_head n r (HP r HrR)). lia. }
  apply submseteq_length in Hsub. rewrite !length_map, length_seqZ in Hsub. lia.
Qed.

(** *** The entries of a directory *)

Definition others (h : nat) (C : list (list ent)) : list (list ent) := take h C ++ drop (S h) C.

Lemma concat_split C h l : C !! h = Some l -> concat C ≡ₚ l ++ concat (others h C).
Proof.
  intros H. rewrite <- (take_drop_middle C h l H) at 1. unfold others.
  rewrite !concat_app. cbn [concat]. rewrite !app_assoc. f_equiv. apply Permutation_app_comm.
Qed.

Lemma concat_insert C h l l' : C !! h = Some l -> concat (<[h := l']> C) ≡ₚ l' ++ concat (others h C).
Proof.
  intros H. pose proof (lookup_lt_Some _ _ _ H). rewrite (concat_split _ h l').
  - unfold others. rewrite take_insert_ge by lia. by rewrite drop_insert_lt by lia.
  - by apply list_lookup_insert_eq.
Qed.

Lemma elem_concat (C : list (list ent)) (e : ent) : e ∈ concat C <-> exists h l, C !! h = Some l /\ e ∈ l.
Proof.
  rewrite (list_elem_of_In (concat C) e), in_concat. split.
  - intros (l & Hl & He). apply list_elem_of_In, list_elem_of_lookup_1 in Hl as [h Hh].
    exists h, l. by rewrite (list_elem_of_In l e).
  - intros (h & l & Hh & He). exists l. split; apply list_elem_of_In; [| done].
    by eapply list_elem_of_lookup_2.
Qed.

Section reading.
Context (d : dir) (n : Z) (C : list (list ent)) (Hd : dir_ok d n C).

Lemma entry_run e : e ∈ concat C -> placed n (run e).
Proof. intros He. apply (ent_placed d n _ e (proj1 Hd)). by apply list_elem_of_fmap_2. Qed.

Lemma chain_fine h l : C !! h = Some l -> Forall (ent_fine d n) l.
Proof.
  intros Hl. apply Forall_forall. intros e He. destruct (c_ents _ _ (proj2 Hd) h l e Hl He) as (H1 & H2 & _).
  split; [done |]. split; [done |].
  pose proof (placed_head n (run e) (entry_run e ltac:(apply elem_concat; eauto))). done.
Qed.

Lemma chain_run h l : C !! h = Some l -> map run l ⊆+ map run (concat C).
Proof. intros Hl. apply (fmap_submseteq run). rewrite (concat_split C h l Hl). by apply submseteq_inserts_r. Qed.

Lemma bucket name : exists l, C !! Z.to_nat (DirHash name) = Some l.
Proof.
  pose proof (DirHash_range name). apply lookup_lt_is_Some_2. rewrite (c_len _ _ (proj2 Hd)). lia.
Qed.

Lemma FindItem_spec name : name_ok name ->
  match FindItem d name with
  | Some (tp, lp) => exists l1 x l2, C !! Z.to_nat (DirHash name) = Some (l1 ++ x :: l2)
      /\ en x = name /\ tp = ent_addr x /\ lp = ptr (hashTable (DirHash name)) l1
  | None => forall x, x ∈ concat C -> en x <> name
  end.
Proof.
  intros Hn. unfold FindItem, DRead. pose proof (a_n _ _ _ (proj1 Hd)).
  rewrite decide_True by (apply (a_pages _ _ _ (proj1 Hd)); lia).
  destruct (bucket name) as [l Hl]. pose proof (DirHash_range name) as Hr.
  pose proof (c_linked _ _ (proj2 Hd) _ _ Hl) as Hlk. rewrite Z2Nat.id in Hlk by lia.
  assert (Hnone : name ∉ map en l -> forall x, x ∈ concat C -> en x <> name).
  { intros Hno x (h & l' & Hh & Hx)%elem_concat E. apply Hno.
    destruct (c_ents _ _ (proj2 Hd) h l' x Hh Hx) as (_ & _ & Eh). rewrite E in Eh.
    rewrite Eh, Nat2Z.id, Hh in Hl. injection Hl as <-. apply list_elem_of_fmap. by exists x. }
  destruct l as [| e l]; cbn [linked] in Hlk.
  - rewrite Hlk, Z.eqb_refl. apply Hnone. apply not_elem_of_nil.
  - destruct Hlk as [He Hlk]. pose proof (chain_fine _ _ Hl) as Hf.
    pose proof Hf as Hf'. apply Forall_cons in Hf' as [(_ & _ & Hb) _].
    rewrite He. destruct (Z.eqb_spec (eb e) 0); [lia |].
    rewrite (GetBlob_spec d n _ (eb e) (proj1 Hd)) by lia. change (32 * eb e) with (ent_addr e).
    pose proof (chain_length d n _ (e :: l) (proj1 Hd) (chain_run _ _ Hl)) as Hlen. simpl in Hlen.
    pose proof (find_loop_spec d n _ name (proj1 Hd) Hn l e (hashTable (DirHash name)) (chain_fuel d)
                  (conj He Hlk) Hf ltac:(lia)) as HF.
    destruct (find_loop d name _ _ _) as [[tp lp] |].
    + destruct HF as (l1 & x & l2 & E & HF). exists l1, x, l2. by rewrite <- E.
    + by apply Hnone.
Qed.
End reading.

(** *** What the chains depend on *)

Definition ent_bytes (e : ent) (x : Z) : Prop := 32 * eb e <= x < 32 * (eb e + nblobs (en e)).
Definition table_bytes (x : Z) : Prop := 160 <= x < 416.

Lemma run_bytes n b nb x : placed n (b, nb) -> 32 * b <= x < 32 * (b + nb) -> ~ meta x /\ ~ table_bytes x.
Proof.
  intros (H0 & H1 & H2 & H3 & H4) Hx. cbn [fst snd] in *. pose proof (blob_split b H0) as Hs.
  unfold meta, table_bytes. pose proof (hdr_range (b / 64)).
  assert (E : x = 2048 * (b / 64) + (32 * (b mod 64) + (x - 32 * b))) by lia.
  assert (Em : x mod 2048 = 32 * (b mod 64) + (x - 32 * b)).
  { symmetry. apply (Z.mod_unique_pos x 2048 (b / 64)); lia. }
  unfold hdr, DHE in *. destruct (Z.eqb_spec (b / 64) 0); lia.
Qed.

Lemma table_not_meta x : table_bytes x -> ~ meta x.
Proof. unfold table_bytes, meta. intros H [? | [? ?]]; [lia |]. rewrite Z.mod_small in *; lia. Qed.

Lemma linked_frame d d' l : forall a, linked d a l -> rd16 d' a = rd16 d a ->
  (forall e, e ∈ l -> rd16 d' (e_next (ent_addr e)) = rd16 d (e_next (ent_addr e))) -> linked d' a l.
Proof.
  induction l as [| e l IH]; intros a H Ha He; cbn [linked] in *; [congruence |].
  destruct H as [H1 H2]. split; [congruence |]. apply IH; [done | apply He; left |].
  intros x Hx. apply He. by right.
Qed.

(** The fixed part of an entry, and its pointer. *)
Lemma ent_at_frame d d' e : name_ok (en e) ->
  (forall x, ent_addr e + 4 <= x < 32 * (eb e + nblobs (en e)) -> rd8 d' x = rd8 d x) ->
  ent_at d e -> ent_at d' e.
Proof.
  intros Hn H [H1 H2]. pose proof (nblobs_spec _ Hn). unfold ent_addr, e_name in *. split.
  - unfold str_at in *. rewrite (load_ext d d'); [done |]. intros x Hx. apply H. unfold e_name, ent_addr in *. lia.
  - unfold rd_fid, e_vnode, e_vunique in *. unfold ent_addr in *.
    rewrite (rd32_ext d d' (32 * eb e + 4)), (rd32_ext d d' (32 * eb e + 8)); [done | |];
      intros x Hx; apply H; lia.
Qed.

Lemma hashTable_bytes h x : (h < 128)%nat -> hashTable (Z.of_nat h) <= x < hashTable (Z.of_nat h) + 2 ->
  table_bytes x.
Proof. unfold hashTable, table_bytes. lia. Qed.

Lemma chains_frame d d' C : chains_ok d C ->
  (forall x, table_bytes x -> rd8 d' x = rd8 d x) ->
  (forall e x, e ∈ concat C -> ent_bytes e x -> rd8 d' x = rd8 d x) ->
  chains_ok d' C.
Proof.
  intros [H1 H2 H3 H4] Ht He.
  assert (Hin : forall h l e, C !! h = Some l -> e ∈ l -> e ∈ concat C) by (intros; apply elem_concat; eauto).
  split; try done.
  - intros h l Hl. apply (linked_frame d); [by apply H2 | |].
    + apply rd16_ext. intros x Hx. apply Ht. apply lookup_lt_Some in Hl.
      by apply (hashTable_bytes h); [lia |].
    + intros e Hel. apply rd16_ext. intros x Hx. apply (He e); [by eapply Hin |].
      destruct (H3 h l e Hl Hel) as (_ & Hn & _). pose proof (nblobs_spec _ Hn).
      unfold ent_bytes, e_next, ent_addr in *. lia.
  - intros h l e Hl Hel. destruct (H3 h l e Hl Hel) as (Ha & Hn & Hh). split; [| done].
    apply (ent_at_frame d); [done | | done]. intros x Hx. apply (He e); [by eapply Hin |].
    unfold ent_bytes, ent_addr in *. lia.
Qed.

Lemma dir_frame d d' n C R : alloc_ok d n R -> map run (concat C) ⊆+ R -> chains_ok d C ->
  same_but meta d d' -> chains_ok d' C.
Proof.
  intros HA Hs HC HS. apply (chains_frame d); [done | |].
  - intros x Hx. apply HS. by apply table_not_meta.
  - intros e x He Hx. apply HS.
    assert (Hp : placed n (run e)).
    { apply (ent_placed d n R e HA). apply (elem_of_submseteq (map run (concat C)) R); [| done].
      by apply list_elem_of_fmap_2. }
    by apply (run_bytes n (eb e) (nblobs (en e))).
Qed.

(** Where the pointer and the rest of an entry are. *)
Lemma next_bytes e x : name_ok (en e) ->
  e_next (ent_addr e) <= x < e_next (ent_addr e) + 2 -> ent_bytes e x.
Proof. intros Hn. pose proof (nblobs_spec _ Hn). unfold ent_bytes, e_next, ent_addr. lia. Qed.

Lemma body_bytes e x : ent_addr e + 4 <= x < 32 * (eb e + nblobs (en e)) -> ent_bytes e x.
Proof. unfold ent_bytes, ent_addr. lia. Qed.

Lemma others_elem h' k h (C : list (list ent)) (e : ent) :
  h' <> h -> C !! h' = Some k -> e ∈ k -> e ∈ concat (others h C).
Proof.
  intros Hne Hk He. unfold others. rewrite concat_app, elem_of_app.
  destruct (decide (h' < h)%nat); [left | right]; apply elem_concat.
  - exists h', k. by rewrite lookup_take_lt.
  - exists (h' - S h)%nat, k. rewrite lookup_drop. by replace (S h + (h' - S h))%nat with h' by lia.
Qed.

(** Runs that do not overlap. *)
Lemma runs_apart b nb R r x y : NoDup (blobs ((b, nb) :: R)) -> r ∈ R ->
  32 * b <= x < 32 * (b + nb) -> 32 * r.1 <= y < 32 * (r.1 + r.2) -> x <> y.
Proof.
  intros HN Hr Hx Hy ->. rewrite blobs_cons in HN. apply NoDup_app in HN as (_ & Hd & _).
  apply (Hd (y / 32)); cbn [fst snd].
  - apply elem_of_seqZ. zdiv.
  - apply elem_of_blobs. exists r. split; [done |]. zdiv.
Qed.

(** ** The abstract directory: a finite map from names to identifiers *)

Definition contents (C : list (list ent)) : gmap (list Z) fid :=
  list_to_map (map (fun e => (en e, ef e)) (concat C)).

Definition dir_rep (d : dir) (M : gmap (list Z) fid) : Prop :=
  exists n C, dir_ok d n C /\ contents C = M.

Lemma names_nodup d C : chains_ok d C -> NoDup (map en (concat C)).
Proof.
  intros [H1 H2 H3 H4].
  assert (G : forall k l, drop k C = l -> NoDup (map en (concat l))
            /\ forall e, e ∈ concat l -> Z.of_nat k <= DirHash (en e)).
  { intros k l. revert k. induction l as [| c l IH]; intros k E.
    - split; [constructor | intros e He; by apply not_elem_of_nil in He].
    - assert (Hc : C !! k = Some c) by (rewrite <- (Nat.add_0_r k), <- lookup_drop, E; done).
      destruct (IH (S k)) as [I1 I2]; [by rewrite <- Nat.add_1_r, <- drop_drop, E |].
      cbn [concat]. rewrite map_app. split.
      + apply NoDup_app. split; [by apply (H4 k) |]. split; [| done].
        intros x (e & -> & He)%list_elem_of_fmap (e' & Ee & He')%list_elem_of_fmap.
        destruct (H3 k c e Hc He) as (_ & _ & Hh). specialize (I2 e' He'). rewrite <- Ee in I2. lia.
      + intros e [He | He]%elem_of_app; [| specialize (I2 e He); lia].
        destruct (H3 k c e Hc He) as (_ & _ & Hh). lia. }
  apply (G 0%nat C). done.
Qed.

Lemma contents_keys C : map fst (map (fun e => (en e, ef e)) (concat C)) = map en (concat C).
Proof. by rewrite map_map. Qed.

Lemma contents_some C e : NoDup (map en (concat C)) -> e ∈ concat C ->
  contents C !! en e = Some (ef e).
Proof.
  intros HN He. apply elem_of_list_to_map_1; [by rewrite contents_keys |].
  by apply (list_elem_of_fmap_2 (fun e => (en e, ef e))).
Qed.

Lemma contents_none C name : (forall e, e ∈ concat C -> en e <> name) -> contents C !! name = None.
Proof.
  intros H. apply not_elem_of_list_to_map_1. rewrite contents_keys.
  intros (e & -> & He)%list_elem_of_fmap. by apply (H e).
Qed.

Lemma contents_perm C C' : NoDup (map en (concat C)) -> concat C ≡ₚ concat C' -> contents C = contents C'.
Proof.
  intros HN E. apply list_to_map_proper; [by rewrite contents_keys |]. by rewrite E.
Qed.

Lemma contents_cons C C' e : NoDup (map en (concat C')) -> concat C' ≡ₚ e :: concat C ->
  contents C' = <[en e := ef e]> (contents C).
Proof.
  intros HN E. unfold contents.
  rewrite (list_to_map_proper _ (map (fun e => (en e, ef e)) (e :: concat C)));
    [done | by rewrite contents_keys | by rewrite E].
Qed.

Lemma contents_remove C C' e : NoDup (map en (concat C)) -> concat C ≡ₚ e :: concat C' ->
  contents C' = delete (en e) (contents C).
Proof.
  intros HN E. rewrite (contents_cons C' C e HN E), delete_insert_id; [done |].
  apply contents_none. intros x Hx Ex. rewrite E in HN. cbn [map] in HN. apply NoDup_cons in HN as [HN _].
  apply HN. rewrite <- Ex. by apply list_elem_of_fmap_2.
Qed.

(** Finding an entry, in terms of the map. *)
Lemma FindItem_rep d n C name : dir_ok d n C -> name_ok name ->
  match FindItem d name with
  | Some (tp, lp) => exists e, e ∈ concat C /\ en e = name /\ tp = ent_addr e
      /\ contents C !! name = Some (ef e) /\ rd_fid d tp = ef e
  | None => contents C !! name = None
  end.
Proof.
  intros Hd Hn. pose proof (FindItem_spec d n C Hd name Hn) as HF.
  pose proof (names_nodup d C (proj2 Hd)) as HN.
  destruct (FindItem d name) as [[tp lp] |]; [| by apply contents_none].
  destruct HF as (l1 & x & l2 & Hl & E & -> & _). exists x.
  assert (Hx : x ∈ l1 ++ x :: l2) by (rewrite elem_of_app; right; left).
  assert (Hin : x ∈ concat C) by (apply elem_concat; eauto).
  split; [done |]. split; [done |]. split; [done |]. subst name. split; [by apply contents_some |].
  by destruct (c_ents _ _ (proj2 Hd) _ _ x Hl Hx) as ([_ Hf] & _).
Qed.

(** *** Creating an entry *)

Lemma rd_fid_wr ep f d : rd_fid (wr_fid ep f d) ep = (s32 f.1, s32 f.2).
Proof.
  unfold rd_fid, wr_fid, e_vnode, e_vunique. f_equal; [| apply rd32_wr32].
  rewrite <- (rd32_wr32 d (ep + 4) f.1) at 1. apply rd32_ext. intros x Hx. unfold wr32 at 1.
  apply rd8_store_ne. cbn [length be_bytes]. lia.
Qed.

(** The bytes the new entry occupies, with the pointer it gets. *)
Lemma fill_entry d b name f next : name_ok name -> 0 <= b -> 0 <= next < 65536 ->
  let ep := 32 * b in
  let d2 := store (e_name ep) (name ++ [0]) (wr_fid ep f (store ep [FFIRST] d)) in
  let d3 := wr16 (e_next ep) next d2 in
  same_but (fun x => 32 * b <= x < 32 * (b + nblobs name)) d d3
  /\ ent_at d3 (Ent b name (s32 f.1, s32 f.2)) /\ rd16 d3 (e_next ep) = next.
Proof.
  intros Hn Hb Hx ep d2 d3. subst ep. destruct (nblobs_spec name Hn) as [Hk1 Hk2].
  assert (S2 : same_but (fun x => 32 * b <= x < 32 * (b + nblobs name)) d d2).
  { subst d2. unfold wr_fid, wr32, e_name, e_vnode, e_vunique.
    do 4 (eapply same_but_trans; [| apply same_but_store; rewrite ?length_app, ?length_be_bytes; cbn [length]; lia]).
    apply same_but_refl. }
  assert (S3 : same_but (fun x => 32 * b + 2 <= x < 32 * b + 4) d2 d3)
    by (intros x Hx'; unfold d3; apply wr16_same; unfold e_next; lia).
  split; [| split].
  - eapply same_but_trans; [exact S2 |]. intros x Hx'. apply S3. lia.
  - apply (ent_at_frame d2); [done | cbn [eb en]; unfold ent_addr; cbn [eb]; intros x Hx'; apply S3; lia |].
    unfold ent_at, ent_addr. cbn [eb en ef]. split.
    + unfold str_at, d2. replace (length name + 1)%nat with (length (name ++ [0])) by (rewrite length_app; done).
      apply load_store. apply Forall_app_2; [| by repeat constructor; lia].
      destruct Hn as [Hc _]. eapply Forall_impl; [exact Hc |]. cbn. lia.
    + transitivity (rd_fid (wr_fid (32 * b) f (store (32 * b) [FFIRST] d)) (32 * b)); [| apply rd_fid_wr].
      unfold rd_fid, d2, e_name, e_vnode, e_vunique.
      f_equal; apply rd32_ext; intros x Hx'; apply rd8_store_ne; lia.
  - by apply rd16_wr16.
Qed.

(** A chain's new contents, the other chains and their entries untouched. *)
Lemma chains_replace d d' C h l l' : chains_ok d C -> C !! h = Some l ->
  linked d' (hashTable (Z.of_nat h)) l' -> NoDup (map en l') ->
  (forall e, e ∈ l' -> ent_at d' e /\ name_ok (en e) /\ DirHash (en e) = Z.of_nat h) ->
  (forall x, table_bytes x -> ~ (hashTable (Z.of_nat h) <= x < hashTable (Z.of_nat h) + 2) ->
    rd8 d' x = rd8 d x) ->
  (forall e x, e ∈ concat (others h C) -> ent_bytes e x -> rd8 d' x = rd8 d x) ->
  chains_ok d' (<[h := l']> C).
Proof.
  intros [H1 H2 H3 H4] Hl Hk HN He Ht Ho.
  assert (Hlk : forall h' k, <[h := l']> C !! h' = Some k -> h' = h /\ k = l' \/ h' <> h /\ C !! h' = Some k).
  { intros h' k. destruct (decide (h = h')) as [<- | Hne].
    - rewrite list_lookup_insert_eq by by eapply lookup_lt_Some. intros [= <-]. by left.
    - rewrite list_lookup_insert_ne by done. by right. }
  assert (Hot : forall h' k e, h' <> h -> C !! h' = Some k -> e ∈ k -> e ∈ concat (others h C)).
  { intros h' k e Hne Hh' He'. apply (others_elem h' k); done. }
  split; [by rewrite length_insert | | |].
  - intros h' k [[-> ->] | [Hne Hh']]%Hlk; [done |]. pose proof (lookup_lt_Some _ _ _ Hh') as Hlt.
    apply (linked_frame d); [by apply H2 | |].
    + apply rd16_ext. intros x Hx. apply Ht; [apply (hashTable_bytes h'); [lia | done] |].
      unfold hashTable in *. lia.
    + intros e Hke. apply rd16_ext. intros x Hx. apply (Ho e); [by eapply Hot |].
      apply next_bytes; [by eapply H3 | done].
  - intros h' k e [[-> ->] | [Hne Hh']]%Hlk Hke; [by apply He |].
    destruct (H3 h' k e Hh' Hke) as (Ha & Hn & Hh). split; [| done].
    apply (ent_at_frame d); [done | | done]. intros x Hx. apply (Ho e); [by eapply Hot |].
    by apply body_bytes.
  - intros h' k [[-> ->] | [Hne Hh']]%Hlk; [done | by apply (H4 h')].
Qed.

(** The chain with a new head. *)
Lemma chain_push d d' C h l e : chains_ok d C -> C !! h = Some l ->
  rd16 d' (hashTable (Z.of_nat h)) = eb e ->
  rd16 d' (e_next (ent_addr e)) = rd16 d (hashTable (Z.of_nat h)) ->
  ent_at d' e -> name_ok (en e) -> DirHash (en e) = Z.of_nat h -> en e ∉ map en l ->
  (forall x, table_bytes x -> ~ (hashTable (Z.of_nat h) <= x < hashTable (Z.of_nat h) + 2) ->
    rd8 d' x = rd8 d x) ->
  (forall y x, y ∈ concat C -> ent_bytes y x -> rd8 d' x = rd8 d x) ->
  chains_ok d' (<[h := e :: l]> C).
Proof.
  intros HC Hl Hhd Hnx He Hn Hh Hnew Ht Ho.
  assert (Hin : forall y, y ∈ l -> y ∈ concat C) by (intros y Hy; apply elem_concat; eauto).
  assert (Hnext : forall y, y ∈ l -> rd16 d' (e_next (ent_addr y)) = rd16 d (e_next (ent_addr y))).
  { intros y Hy. apply rd16_ext. intros x Hx. apply (Ho y); [by apply Hin |].
    apply next_bytes; [| done]. by apply (c_ents _ _ HC h l y). }
  apply (chains_replace d d' C h l); try done.
  - cbn [linked]. split; [done |]. pose proof (c_linked _ _ HC _ _ Hl) as Hlk.
    destruct l as [| y l']; cbn [linked] in *; [congruence |]. destruct Hlk as [L1 L2].
    split; [congruence |]. apply (linked_frame d); [done | apply Hnext; left |].
    intros z Hz. apply Hnext. by right.
  - cbn [map]. constructor; [done |]. by apply (c_names _ _ HC h).
  - intros y [-> | Hy]%elem_of_cons; [done |].
    destruct (c_ents _ _ HC h l y Hl Hy) as (Ha & Hny & Hhy). split; [| done].
    apply (ent_at_frame d); [done | | done]. intros x Hx. apply (Ho y); [by apply Hin | by apply body_bytes].
  - intros y x Hy. apply Ho. rewrite (concat_split C h l Hl), elem_of_app. by right.
Qed.

Lemma linked_range d n a l : linked d a l -> 1 <= n <= BIGMAXPAGES -> Forall (fun e => placed n (run e)) l ->
  0 <= rd16 d a < 65536.
Proof.
  intros Hl Hn HP. unfold BIGMAXPAGES in Hn. destruct l as [| y l']; cbn [linked] in Hl; [lia |].
  destruct Hl as [-> _]. apply Forall_cons in HP as [Hy _]. pose proof (placed_head n _ Hy) as Hr.
  cbn [run fst] in Hr. lia.
Qed.

Lemma link_entry d n C b name f : alloc_ok d n ((b, nblobs name) :: map run (concat C)) ->
  chains_ok d C -> name_ok name -> name ∉ map en (concat C) ->
  exists d', (let ep := 32 * b in
    let d2 := store (e_name ep) (name ++ [0]) (wr_fid ep f (store ep [FFIRST] d)) in
    let d3 := wr16 (e_next ep) (rd16 d2 (hashTable (DirHash name))) d2 in
    wr16 (hashTable (DirHash name)) b d3) = d'
  /\ exists C', dir_ok d' n C' /\ concat C' ≡ₚ Ent b name (s32 f.1, s32 f.2) :: concat C.
Proof.
  intros HA HC Hn Hnew. eexists. split; [reflexivity |]. cbv zeta.
  set (e := Ent b name (s32 f.1, s32 f.2)).
  pose proof (a_place _ _ _ HA) as HP. apply Forall_cons in HP as [Hpl HP].
  pose proof (placed_head _ _ Hpl) as Hb. cbn [fst] in Hb. pose proof (a_n _ _ _ HA) as Hn1.
  unfold BIGMAXPAGES in Hn1. pose proof (DirHash_range name) as Hh.
  set (h := Z.to_nat (DirHash name)). assert (Eh : DirHash name = Z.of_nat h) by lia.
  destruct (lookup_lt_is_Some_2 C h) as [l Hl]; [rewrite (c_len _ _ HC); lia |].
  set (d2 := store (e_name (32 * b)) (name ++ [0]) (wr_fid (32 * b) f (store (32 * b) [FFIRST] d))).
  assert (Hnext : rd16 d2 (hashTable (DirHash name)) = rd16 d (hashTable (DirHash name))).
  { apply rd16_ext. intros x Hx.
    assert (~ (32 * b <= x < 32 * (b + nblobs name))).
    { intros Hx'. destruct (run_bytes n b (nblobs name) x Hpl Hx') as [_ Ht]. apply Ht.
      unfold table_bytes, hashTable in *. lia. }
    destruct (nblobs_spec name Hn). unfold d2, wr_fid, wr32, e_name, e_vnode, e_vunique.
    rewrite !rd8_store_ne; [done |..]; rewrite ?length_app, ?length_be_bytes; cbn [length]; lia. }
  rewrite Hnext.
  assert (Hlink0 : linked d (hashTable (DirHash name)) l) by (rewrite Eh; by apply (c_linked _ _ HC)).
  assert (Hin : forall x, x ∈ l -> x ∈ concat C) by (intros x Hx; apply elem_concat; eauto).
  assert (Hrange : 0 <= rd16 d (hashTable (DirHash name)) < 65536).
  { apply (linked_range d n _ l Hlink0); [done |]. apply Forall_forall. intros y Hy.
    rewrite Forall_forall in HP. apply HP, list_elem_of_fmap_2. by apply Hin. }
  destruct (fill_entry d b name f (rd16 d (hashTable (DirHash name))) Hn ltac:(lia) Hrange) as (S3 & He & Hnx).
  fold d2 in S3, He, Hnx. set (d3 := wr16 (e_next (32 * b)) _ d2) in *.
  set (d4 := wr16 (hashTable (DirHash name)) b d3).
  assert (S4 : same_but table_bytes d3 d4).
  { intros x Hx. apply (wr16_same (hashTable (DirHash name)) b d3). unfold table_bytes, hashTable in *. lia. }
  assert (S4' : forall x, ~ (hashTable (DirHash name) <= x < hashTable (DirHash name) + 2) -> rd8 d4 x = rd8 d3 x)
    by (apply wr16_same).
  assert (Hold : forall y x, y ∈ concat C -> ent_bytes y x -> rd8 d4 x = rd8 d x).
  { intros y x Hy Hx.
    assert (Hyp : placed n (run y)).
    { rewrite Forall_forall in HP. apply HP. by apply list_elem_of_fmap_2. }
    destruct (run_bytes n (eb y) (nblobs (en y)) x Hyp Hx) as [_ Ht].
    rewrite S4 by done. apply S3. intros Hx'.
    by apply (runs_apart b (nblobs name) (map run (concat C)) (run y) x x (a_disj _ _ _ HA)
                (list_elem_of_fmap_2 run _ _ Hy) Hx' Hx). }
  assert (Hnewb : forall x, ent_bytes e x -> rd8 d4 x = rd8 d3 x).
  { intros x Hx. apply S4. by apply (run_bytes n b (nblobs name)). }
  assert (He4 : ent_at d4 e).
  { apply (ent_at_frame d3); [done | | done]. intros x Hx. by apply Hnewb, body_bytes. }
  exists (<[h := e :: l]> C).
  assert (HE : concat (<[h := e :: l]> C) ≡ₚ e :: concat C).
  { rewrite (concat_insert C h l _ Hl), (concat_split C h l Hl). done. }
  split; [split | done].
  - apply (alloc_perm _ _ (run e :: map run (concat C))).
    { change (run e :: map run (concat C)) with (map run (e :: concat C)).
      apply Permutation_map. by symmetry. }
    change (run e) with (b, nblobs name).
    apply (alloc_frame (fun x => table_bytes x \/ 32 * b <= x < 32 * (b + nblobs name)) d); [| | done | done].
    + intros x [Hx | Hx]; [by apply table_not_meta | by apply (run_bytes n b (nblobs name))].
    + intros x Hx. rewrite S4 by tauto. apply S3. tauto.
  - apply (chain_push d); try done.
    + rewrite <- Eh. apply (rd16_wr16 d3 _ b). lia.
    + rewrite <- Eh, <- Hnx. apply rd16_ext. intros x Hx. apply Hnewb. by apply next_bytes.
    + intros Hx. apply Hnew. apply list_elem_of_fmap in Hx as (y & Ey & Hy).
      change name with (en e). rewrite Ey. apply list_elem_of_fmap_2. by apply Hin.
    + intros x Hx Hns. rewrite S4' by by rewrite Eh. apply S3. intros Hx'.
      by destruct (run_bytes n b (nblobs name) x Hpl Hx') as [_ []].
Qed.
