(* ===== verification/DirOps.v ===== *)
(** Directories, the operations: creating, deleting, looking up, listing
    and the empty directory, as operations on the finite map of [DirSpec]. *)
From S2P Require Import Prelude Dir DirSpec.

(** ** Removing an entry from its chain *)

Lemma linked_from d d' l a a' : linked d a l -> rd16 d' a' = rd16 d a ->
  (forall e, e ∈ l -> rd16 d' (e_next (ent_addr e)) = rd16 d (e_next (ent_addr e))) -> linked d' a' l.
Proof.
  destruct l as [| e l]; cbn [linked]; intros H Ha He; [congruence |]. destruct H as [H1 H2].
  split; [congruence |]. apply (linked_frame d); [done | apply He; left |]. intros x Hx. apply He. by right.
Qed.

Lemma unlink_linked d d' x l2 l1 : forall a,
  linked d a (l1 ++ x :: l2) -> NoDup (a :: map (fun e => e_next (ent_addr e)) l1) ->
  rd16 d' (ptr a l1) = rd16 d (e_next (ent_addr x)) ->
  (forall p, p = a \/ (exists e, e ∈ l1 ++ l2 /\ p = e_next (ent_addr e)) -> p <> ptr a l1 ->
    rd16 d' p = rd16 d p) ->
  (forall e, e ∈ l2 -> e_next (ent_addr e) <> ptr a l1) ->
  linked d' a (l1 ++ l2).
Proof.
  induction l1 as [| e l1 IH]; intros a Hl HN Hp Hs H2.
  - cbn in Hl. destruct Hl as [_ Hl]. apply (linked_from d _ _ (e_next (ent_addr x))); [done | done |].
    intros e He. apply Hs; [right; by exists e | by apply H2].
  - rewrite ptr_cons in *. cbn [app linked] in *. destruct Hl as [H1 Hl].
    cbn [map] in HN. apply NoDup_cons in HN as [Ha HN].
    assert (Hne : ptr (e_next (ent_addr e)) l1 ∈ e_next (ent_addr e) :: map (fun e => e_next (ent_addr e)) l1).
    { unfold ptr. destruct (last l1) as [y |] eqn:El; [| left]. right.
      apply list_elem_of_fmap. exists y. split; [done |]. by apply last_Some_elem_of. }
    split.
    + rewrite Hs; [done | by left |]. intros ->. done.
    + apply IH; [done | done | done | | done]. intros p [-> | (y & Hy & ->)] Hpp; apply Hs; try done.
      * right. exists e. split; [left | done].
      * right. exists y. split; [by right | done].
Qed.

(** Runs do not share blobs. *)
Lemma run_unique R : NoDup (blobs R) -> forall r r' b, r ∈ R -> r' ∈ R ->
  r.1 <= b < r.1 + r.2 -> r'.1 <= b < r'.1 + r'.2 -> r = r'.
Proof.
  induction R as [| s R IH]; intros HN r r' b Hr Hr' Hb Hb'; [by apply not_elem_of_nil in Hr |].
  rewrite blobs_cons in HN. apply NoDup_app in HN as (_ & Hd & HN).
  assert (Hno : forall t, t ∈ R -> t.1 <= b < t.1 + t.2 -> ~ s.1 <= b < s.1 + s.2).
  { intros t Ht Htb Hsb. apply (Hd b); [apply elem_of_seqZ; lia | apply elem_of_blobs; eauto]. }
  apply elem_of_cons in Hr as [-> | Hr], Hr' as [-> | Hr']; [done | | | by eapply IH].
  - by destruct (Hno r').
  - by destruct (Hno r).
Qed.

Section entries.
Context (d : dir) (n : Z) (C : list (list ent)) (Hd : dir_ok d n C).

Lemma ent_apart e e' y : e ∈ concat C -> e' ∈ concat C -> ent_bytes e y -> ent_bytes e' y -> eb e = eb e'.
Proof.
  intros He He' Hy Hy'. unfold ent_bytes in *.
  assert (E : run e = run e'); [| by injection E].
  apply (run_unique _ (a_disj _ _ _ (proj1 Hd)) (run e) (run e') (y / 32));
    try (by apply list_elem_of_fmap_2); unfold run; cbn [fst snd]; zdiv.
Qed.

Lemma ent_name_ok e : e ∈ concat C -> name_ok (en e).
Proof. intros (h' & k & Hk & He)%elem_concat. by apply (c_ents _ _ (proj2 Hd) h' k). Qed.

Lemma ent_head e : e ∈ concat C -> 13 <= eb e.
Proof.
  intros He. pose proof (entry_run d n C Hd e He) as (H0 & _ & _ & H3 & _). cbn [run fst] in *.
  pose proof (blob_split (eb e) H0). unfold hdr, DHE in H3. destruct (Z.eqb_spec (eb e / 64) 0); lia.
Qed.

Lemma chain_heads : NoDup (map eb (concat C)).
Proof.
  pose proof (heads_nodup n (map run (concat C)) (a_place _ _ _ (proj1 Hd)) (a_disj _ _ _ (proj1 Hd))) as H.
  by rewrite map_map in H.
Qed.

End entries.

Section unlink.
Context (d : dir) (n : Z) (C : list (list ent)) (Hd : dir_ok d n C).
Context (h : nat) (l1 l2 : list ent) (x : ent) (Hl : C !! h = Some (l1 ++ x :: l2)).

Let slot := hashTable (Z.of_nat h).
Let lp := ptr slot l1.
Let d1 := wr16 lp (rd16 d (e_next (ent_addr x))) d.

Lemma in_chain e : e ∈ l1 ++ x :: l2 -> e ∈ concat C.
Proof. intros He. apply elem_concat. eauto. Qed.

Lemma lp_place : lp = slot \/ exists e, e ∈ l1 /\ lp = e_next (ent_addr e).
Proof.
  unfold lp, ptr. destruct (last l1) as [y |] eqn:El; [right | by left].
  exists y. split; [by apply last_Some_elem_of | done].
Qed.

Lemma slot_range : 160 <= slot < 416.
Proof.
  unfold slot, hashTable. pose proof (lookup_lt_Some _ _ _ Hl) as H. rewrite (c_len _ _ (proj2 Hd)) in H. lia.
Qed.

(** An entry the pointer is in is the entry before [x]. *)
Lemma lp_entry e y : e ∈ concat C -> ent_bytes e y -> lp <= y < lp + 2 ->
  exists e', e' ∈ l1 /\ eb e = eb e' /\ lp = e_next (ent_addr e').
Proof.
  intros He Hy Hlp. destruct lp_place as [E | (e' & He' & E)].
  - exfalso. pose proof slot_range. pose proof (ent_head d n C Hd e He). unfold ent_bytes in Hy.
    unfold slot, hashTable in *. lia.
  - exists e'. split; [done |]. split; [| done].
    assert (Hin : e' ∈ concat C) by (apply in_chain, elem_of_app; by left).
    apply (ent_apart d n C Hd e e' y); try done. apply next_bytes; [by apply (ent_name_ok d n C Hd) | by rewrite <- E].
Qed.

Lemma others_untouched e y : e ∈ concat (others h C) -> ent_bytes e y -> rd8 d1 y = rd8 d y.
Proof.
  intros He Hy. apply (wr16_same lp). intros Hlp.
  pose proof (concat_split C h _ Hl) as EC.
  assert (Hin : e ∈ concat C) by (rewrite EC, elem_of_app; by right).
  destruct (lp_entry e y Hin Hy Hlp) as (e' & He' & Eb & _).
  pose proof (chain_heads d n C Hd) as HN. rewrite EC, map_app in HN. apply NoDup_app in HN as (_ & HN & _).
  apply (HN (eb e)); [| by apply list_elem_of_fmap_2]. rewrite Eb. apply list_elem_of_fmap_2.
  apply elem_of_app. by left.
Qed.

Lemma body_untouched e : e ∈ concat C -> ent_at d e -> ent_at d1 e.
Proof.
  intros He. apply ent_at_frame; [by apply (ent_name_ok d n C Hd) |]. intros y Hy. apply (wr16_same lp). intros Hlp.
  destruct (lp_entry e y He (body_bytes e y Hy) Hlp) as (e' & _ & Eb & E).
  rewrite E in Hlp. unfold e_next, ent_addr in *. lia.
Qed.

Lemma removed_next : 0 <= rd16 d (e_next (ent_addr x)) < 65536.
Proof.
  pose proof (c_linked _ _ (proj2 Hd) _ _ Hl) as Hk. pose proof (a_n _ _ _ (proj1 Hd)).
  assert (G : forall k a, linked d a (k ++ x :: l2) -> linked d (e_next (ent_addr x)) l2).
  { induction k as [| y k IH]; intros a Ha; destruct Ha as [_ Ha]; [done | by eapply IH]. }
  apply (linked_range d n _ l2 (G _ _ Hk)); [done |]. apply Forall_forall. intros e He.
  apply (entry_run d n C Hd), in_chain. apply elem_of_app. right. by right.
Qed.

Lemma unlink_chain : linked d1 slot (l1 ++ l2).
Proof.
  pose proof (chain_heads d n C Hd) as HN. rewrite (concat_split C h _ Hl), !map_app in HN.
  apply NoDup_app in HN as (HN & _). apply NoDup_app in HN as (HN1 & HN2 & _).
  pose proof slot_range as Hs.
  assert (Hhd : forall e, e ∈ l1 ++ l2 -> 13 <= eb e).
  { intros e He. apply (ent_head d n C Hd), in_chain. set_solver. }
  assert (Hpl : lp = slot \/ lp mod 32 = 2 /\ 416 <= lp).
  { destruct lp_place as [E | (e & He & E)]; [by left | right]. rewrite E. unfold e_next, ent_addr.
    pose proof (Hhd e ltac:(apply elem_of_app; by left)). zdiv. }
  apply (unlink_linked d d1 x).
  - apply (c_linked _ _ (proj2 Hd) _ _ Hl).
  - constructor.
    + intros (e & E & He)%list_elem_of_fmap. specialize (Hhd e ltac:(apply elem_of_app; by left)).
      unfold e_next, ent_addr in E. lia.
    + revert HN1. clear. induction l1 as [| e k IH]; cbn [map]; intros HN; [constructor |].
      apply NoDup_cons in HN as [HN HN']. constructor; [| by apply IH].
      intros (e' & E & He)%list_elem_of_fmap. apply HN. apply list_elem_of_fmap. exists e'.
      split; [unfold e_next, ent_addr in E; lia | done].
  - apply rd16_wr16, removed_next.
  - fold lp. intros p Hp Hne. apply rd16_ext. intros y Hy. apply (wr16_same lp).
    destruct Hp as [-> | (e & He & ->)].
    + destruct Hpl as [? | ?]; [done | unfold slot, hashTable in *; lia].
    + specialize (Hhd e He). unfold e_next, ent_addr in *. destruct Hpl as [-> | ?]; zdiv.
  - fold lp. intros e He E. specialize (Hhd e ltac:(apply elem_of_app; by right)).
    destruct lp_place as [E' | (e' & He' & E')]; [unfold e_next, ent_addr in *; lia |].
    apply (HN2 (eb e)); [| apply list_elem_of_fmap_2; by right].
    apply list_elem_of_fmap. exists e'. split; [unfold e_next, ent_addr in *; lia | done].
Qed.

Lemma unlink_ok : alloc_ok d1 n (map run (concat C)) /\ chains_ok d1 (<[h := l1 ++ l2]> C) /\ ent_at d1 x.
Proof.
  assert (Hx : x ∈ l1 ++ x :: l2) by (apply elem_of_app; right; left).
  split; [| split].
  - apply (alloc_frame (fun y => lp <= y < lp + 2) d); [| apply wr16_same | done | apply Hd].
    intros y Hy. destruct lp_place as [E | (e & He & E)].
    + apply table_not_meta. unfold table_bytes. pose proof slot_range. unfold slot, hashTable in *.
      pose proof (lookup_lt_Some _ _ _ Hl). rewrite (c_len _ _ (proj2 Hd)) in *. lia.
    + assert (He' : e ∈ concat C) by (apply in_chain, elem_of_app; by left).
      apply (run_bytes n (eb e) (nblobs (en e))); [by apply (entry_run d n C Hd) |].
      apply next_bytes; [by apply (ent_name_ok d n C Hd) | by rewrite <- E].
  - apply (chains_replace d d1 C h (l1 ++ x :: l2)); [apply Hd | done | apply unlink_chain | | | | apply others_untouched].
    + pose proof (c_names _ _ (proj2 Hd) _ _ Hl) as HN. rewrite map_app in *. cbn [map] in HN.
      rewrite <- Permutation_middle in HN. by apply NoDup_cons in HN as [_ HN].
    + intros e He. assert (He' : e ∈ l1 ++ x :: l2) by set_solver.
      destruct (c_ents _ _ (proj2 Hd) _ _ _ Hl He') as (Ha & Hn). split; [| done].
      by apply body_untouched; [apply in_chain |].
    + intros y Hy Hns. apply (wr16_same lp). destruct lp_place as [E | (e & He & E)]; [by rewrite E |].
      pose proof (ent_head d n C Hd e ltac:(apply in_chain, elem_of_app; by left)).
      unfold table_bytes, e_next, ent_addr in *. lia.
  - apply body_untouched; [by apply in_chain |]. by apply (c_ents _ _ (proj2 Hd) _ _ _ Hl).
Qed.
End unlink.

(** ** Creating *)

Lemma dir_base d n C : dir_ok d n C -> DRead d 0 = Some 0.
Proof.
  intros Hd. unfold DRead. pose proof (a_n _ _ _ (proj1 Hd)).
  by rewrite decide_True by (apply (a_pages _ _ _ (proj1 Hd)); lia).
Qed.

Lemma name_neq_nil name : name_ok name -> bool_decide (name = []) = false.
Proof. intros [_ Hl]. apply bool_decide_eq_false_2. intros ->. simpl in Hl. lia. Qed.

(** No page has the free blobs for the name, and there is no page to add. *)
Definition no_room (d : dir) (name : list Z) : Prop :=
  Z.of_nat (size (dpages d)) = BIGMAXPAGES
  /\ forall p j, 0 <= p < BIGMAXPAGES -> ~ fits d p (nblobs name) j.

Definition put (f : fid) : fid := (s32 f.1, s32 f.2).

Lemma Create_new d n C name f : dir_ok d n C -> name_ok name -> contents C !! name = None ->
  let '(code, d') := Create name f d in
  code = 0 /\ (exists n' C' b, dir_ok d' n' C' /\ n <= n' <= n + 1 /\ concat C' ≡ₚ Ent b name (put f) :: concat C
                 /\ b = (FindBlobs (nblobs name) d).1)
  \/ code = EFBIG /\ d' = d /\ no_room d name.
Proof.
  intros Hd Hn Hnone. unfold Create. rewrite (name_neq_nil name Hn).
  pose proof (FindItem_rep d n C name Hd Hn) as HF.
  destruct (FindItem d name) as [[tp lp] |]; [destruct HF as (e & _ & _ & _ & ? & _); congruence |].
  fold (nblobs name). destruct (nblobs_spec name Hn) as [Hk _].
  pose proof (FindBlobs_spec d n _ (nblobs name) (proj1 Hd) ltac:(lia)) as HB.
  destruct (FindBlobs (nblobs name) d) as [b d1].
  destruct HB as [(-> & -> & -> & HB) | (Hb & HS & n' & Hn' & HA)].
  { right. split; [done |]. split; [done |]. split; [by apply (size_pages d _ _ (proj1 Hd)) | done]. }
  destruct (Z.ltb_spec b 0); [lia |].
  assert (HC1 : chains_ok d1 C) by by apply (dir_frame d d1 n C _ (proj1 Hd)); [| apply Hd |].
  pose proof (a_place _ _ _ HA) as HP. apply Forall_cons in HP as [Hpl _].
  pose proof (placed_head _ _ Hpl) as Hr. cbn [fst] in Hr.
  rewrite (GetBlob_spec d1 n' _ b HA) by lia.
  destruct (link_entry d1 n' C b name f HA HC1 Hn) as (d' & E & C' & Hd' & HE).
  { intros (e & E & He)%list_elem_of_fmap.
    rewrite E, (contents_some C e) in Hnone by (done || by apply (names_nodup d), Hd). done. }
  unfold DRead. rewrite decide_True.
  - cbv zeta in E |- *. rewrite E. left. split; [done |]. by exists n', C', b.
  - change (0 ∈ dpages d1). apply (a_pages _ _ _ HA). pose proof (a_n _ _ _ HA). lia.
Qed.

Lemma rep_create d M name f : dir_rep d M -> name_ok name -> M !! name = None ->
  let '(code, d') := Create name f d in
  code = 0 /\ dir_rep d' (<[name := put f]> M) \/ code = EFBIG /\ d' = d /\ no_room d name.
Proof.
  intros (n & C & Hd & <-) Hn E. pose proof (Create_new d n C name f Hd Hn E) as HC.
  destruct (Create name f d) as [code d'].
  destruct HC as [[-> (n' & C' & b & Hd' & Hle & HE & _)] | HC]; [left | by right]. split; [done |].
  exists n', C'. split; [done |].
  apply (contents_cons C C' (Ent b name (put f))); [by apply (names_nodup d'), Hd' | done].
Qed.

(** C19. [Create] adds the name with its identifier. It refuses a name that is
    there, an empty one, and one for which there is no room; then nothing
    changes. *)
Theorem Create_spec d M name f : dir_rep d M -> name_ok name ->
  Create [] f d = (EINVAL, d) /\
  match M !! name with
  | Some _ => Create name f d = (EEXIST, d)
  | None =>
      let '(code, d') := Create name f d in
      code = 0 /\ dir_rep d' (<[name := put f]> M) \/ code = EFBIG /\ d' = d /\ no_room d name
  end.
Proof.
  intros Hd Hn. split; [done |]. destruct (M !! name) as [g |] eqn:E; [| by apply rep_create].
  destruct Hd as (n & C & Hd & <-).
  unfold Create. rewrite (name_neq_nil name Hn). pose proof (FindItem_rep d n C name Hd Hn) as HF.
  destruct (FindItem d name) as [[tp lp] |]; [done | congruence].
Qed.

(** ** Deleting *)

Lemma Delete_found d n C name e : dir_ok d n C -> name_ok name -> e ∈ concat C -> en e = name ->
  exists d' C', Delete name d = (0, d') /\ dir_ok d' n C' /\ concat C ≡ₚ e :: concat C'
  /\ exists l1 l2 v, C !! Z.to_nat (DirHash name) = Some (l1 ++ e :: l2)
     /\ d' = FreeBlobs (eb e) (nblobs (en e)) (wr16 (ptr (hashTable (DirHash name)) l1) v d).
Proof.
  intros Hd Hn He En. unfold Delete. pose proof (FindItem_spec d n C Hd name Hn) as HF.
  destruct (FindItem d name) as [[tp lp] |]; [| by destruct (HF e He)].
  destruct HF as (l1 & x & l2 & Hl & Ex & -> & ->).
  assert (Hx : x ∈ concat C) by (apply (in_chain C _ l1 l2 x Hl), elem_of_app; right; left).
  assert (x = e) as ->.
  { pose proof (names_nodup d C (proj2 Hd)) as HN.
    assert (G : forall l : list ent, NoDup (map en l) -> x ∈ l -> e ∈ l -> x = e); [| by apply (G (concat C))].
    induction l as [| y l IH]; intros HNl Hxl Hel; [by apply not_elem_of_nil in Hxl |].
    apply NoDup_cons in HNl as [Hy HNl].
    apply elem_of_cons in Hxl as [-> | Hxl], Hel as [-> | Hel]; [done | | | by apply IH];
      (exfalso; apply Hy; apply list_elem_of_fmap); [exists e | exists x]; split; congruence || done. }
  destruct (unlink_ok d n C Hd _ l1 l2 e Hl) as (HA1 & HC1 & He1).
  rewrite Z2Nat.id in HA1, HC1, He1 by apply DirHash_range.
  set (d1 := wr16 _ _ d) in *. assert (Hok : name_ok (en e)) by by subst name.
  rewrite (name_at_spec d1 _ (en e)) by (apply He1 || done). fold (nblobs (en e)).
  unfold ent_addr. rewrite Z.mul_comm, Z.div_mul by lia.
  set (C' := <[Z.to_nat (DirHash name) := l1 ++ l2]> C) in *.
  assert (HE : concat C ≡ₚ e :: concat C').
  { unfold C'. rewrite (concat_insert C _ _ (l1 ++ l2) Hl), (concat_split C _ _ Hl).
    by rewrite <- Permutation_middle. }
  assert (HA2 : alloc_ok d1 n (run e :: map run (concat C'))).
  { apply (alloc_perm _ _ (map run (concat C))); [| done]. by rewrite HE. }
  destruct (FreeBlobs_ok d1 n _ _ _ HA2) as [HA3 HS].
  exists (FreeBlobs (eb e) (nblobs (en e)) d1), C'. split; [done |]. split; [| split; [done | by eauto]]. split; [done |].
  apply (dir_frame d1 _ n C' (run e :: map run (concat C'))); try done.
  - by apply submseteq_cons.
Qed.

(** C20. [Delete] removes the name, and fails without effect for one that is
    not there. *)
Theorem Delete_spec d M name : dir_rep d M -> name_ok name ->
  match M !! name with
  | None => Delete name d = (ENOENT, d)
  | Some _ => exists d', Delete name d = (0, d') /\ dir_rep d' (delete name M)
  end.
Proof.
  intros (n & C & Hd & <-) Hn. pose proof (FindItem_rep d n C name Hd Hn) as HF.
  destruct (FindItem d name) as [[tp lp] |] eqn:EF.
  - destruct HF as (e & He & En & _ & -> & _).
    destruct (Delete_found d n C name e Hd Hn He En) as (d' & C' & E & Hd' & HE & _).
    exists d'. split; [done |]. exists n, C'. split; [done |]. rewrite <- En.
    apply contents_remove; [by apply (names_nodup d), Hd | done].
  - rewrite HF. unfold Delete. by rewrite EF.
Qed.

(** ** Looking up and changing *)

(** [Lookup] and [LookupOffset] answer from the map; the offset is where
    the entry is. *)
Theorem Lookup_spec d M name : dir_rep d M -> name_ok name ->
  match M !! name with
  | None => Lookup name d = (ENOENT, None) /\ LookupOffset name d = (ENOENT, None)
  | Some f => Lookup name d = (0, Some f)
      /\ exists a, LookupOffset name d = (0, Some (f, a)) /\ str_at d (e_name a) name /\ rd_fid d a = f
  end.
Proof.
  intros (n & C & Hd & <-) Hn. pose proof (FindItem_rep d n C name Hd Hn) as HF.
  unfold Lookup, LookupOffset. destruct (FindItem d name) as [[tp lp] |]; [| by rewrite HF].
  destruct HF as (e & He & En & -> & -> & Hf). rewrite Hf. split; [done |].
  exists (ent_addr e). split; [done |]. apply elem_concat in He as (h & l & Hl & He).
  destruct (c_ents _ _ (proj2 Hd) h l e Hl He) as ((Hs & _) & _). by rewrite <- En.
Qed.

Lemma wr_fid_same ep f d : same_but (fun x => ep + 4 <= x < ep + 12) d (wr_fid ep f d).
Proof.
  unfold wr_fid, wr32, e_vnode, e_vunique.
  eapply same_but_trans; apply same_but_store; rewrite length_be_bytes; lia.
Qed.

Lemma linked_ebs d l' : forall l a, map eb l' = map eb l -> linked d a l -> linked d a l'.
Proof.
  induction l' as [| e' l' IH]; intros [| e l] a E H; try done. cbn [map linked] in *.
  injection E as E1 E2. destruct H as [H1 H2]. split; [congruence |].
  apply (IH l); [done |]. unfold ent_addr in *. by rewrite E1.
Qed.

Lemma fid_change d n C h l1 e l2 f : dir_ok d n C -> C !! h = Some (l1 ++ e :: l2) ->
  dir_ok (wr_fid (ent_addr e) f d) n (<[h := l1 ++ Ent (eb e) (en e) (put f) :: l2]> C).
Proof.
  intros Hd Hl. set (e' := Ent (eb e) (en e) (put f)). set (d' := wr_fid _ _ _).
  assert (Hin : forall y, y ∈ l1 ++ e :: l2 -> y ∈ concat C) by (intros y Hy; apply elem_concat; eauto).
  assert (He : e ∈ l1 ++ e :: l2) by (apply elem_of_app; right; left).
  destruct (c_ents _ _ (proj2 Hd) h _ e Hl He) as ((Hs & _) & Hn & Hh).
  destruct (nblobs_spec _ Hn) as [_ Hk].
  assert (Heb : forall x, ent_addr e + 4 <= x < ent_addr e + 12 -> ent_bytes e x) by (unfold ent_bytes, ent_addr; lia).
  assert (Hoth : forall y x, y ∈ concat C -> ent_bytes y x -> eb y <> eb e -> rd8 d' x = rd8 d x).
  { intros y x Hy Hx Hne. apply wr_fid_same. intros Hx'. apply Hne.
    apply (ent_apart d n C Hd y e x Hy (Hin e He) Hx). by apply Heb. }
  pose proof (chain_heads d n C Hd) as HN. rewrite (concat_split C h _ Hl), map_app in HN.
  apply NoDup_app in HN as (HN1 & HN2 & _).
  assert (Hne : forall y, y ∈ l1 ++ l2 -> eb y <> eb e).
  { intros y Hy E. rewrite <- Permutation_middle in HN1. cbn [map] in HN1. apply NoDup_cons in HN1 as [HN1 _].
    apply HN1. rewrite <- E. by apply list_elem_of_fmap_2. }
  split.
  - apply (alloc_perm _ _ (map run (concat C))).
    + rewrite (concat_insert C h _ _ Hl), (concat_split C h _ Hl), !map_app. done.
    + apply (alloc_frame (ent_bytes e) d); [| | done | apply Hd].
      * intros x Hx. by apply (run_bytes n (eb e) (nblobs (en e))); [apply (entry_run d n C Hd), Hin |].
      * intros x Hx. apply wr_fid_same. intros Hx'. by apply Hx, Heb.
  - apply (chains_replace d d' C h (l1 ++ e :: l2)); [apply Hd | done | | | | |].
    + apply (linked_ebs _ _ (l1 ++ e :: l2)); [by rewrite !map_app |].
      apply (linked_frame d); [by apply (c_linked _ _ (proj2 Hd)) | |].
      * apply rd16_ext. intros x Hx. apply wr_fid_same. pose proof (ent_head d n C Hd e (Hin e He)).
        pose proof (lookup_lt_Some _ _ _ Hl) as Hlt. rewrite (c_len _ _ (proj2 Hd)) in Hlt.
        unfold hashTable, ent_addr in *. lia.
      * intros y Hy. apply rd16_ext. intros x Hx. destruct (decide (eb y = eb e)) as [E | E].
        -- apply wr_fid_same. unfold e_next, ent_addr in *. lia.
        -- apply (Hoth y); [by apply Hin | | done]. apply next_bytes; [| done].
           by apply (c_ents _ _ (proj2 Hd) h (l1 ++ e :: l2) y).
    + pose proof (c_names _ _ (proj2 Hd) _ _ Hl) as H. by rewrite map_app in *.
    + intros y Hy. assert (y = e' \/ y ∈ l1 ++ l2) as [-> | Hy'] by set_solver.
      * split; [split |]; [| apply rd_fid_wr | done]. unfold str_at in *. cbn [en e'].
        rewrite <- Hs. apply load_ext. intros x Hx. apply wr_fid_same. unfold e_name, ent_addr in *. cbn [eb] in *. lia.
      * assert (Hyl : y ∈ l1 ++ e :: l2) by set_solver.
        destruct (c_ents _ _ (proj2 Hd) h _ y Hl Hyl) as (Ha & Hny & Hhy). split; [| done].
        apply (ent_at_frame d); [done | | done]. intros x Hx.
        by apply (Hoth y); [apply Hin | apply body_bytes | apply Hne].
    + intros x Hx _. apply wr_fid_same. pose proof (ent_head d n C Hd e (Hin e He)).
      unfold table_bytes, ent_addr in *. lia.
    + intros y x Hy Hx. apply (Hoth y); [| done |].
      * rewrite (concat_split C h _ Hl), elem_of_app. by right.
      * intros E. apply (HN2 (eb e)); [by apply list_elem_of_fmap_2 |]. rewrite <- E. by apply list_elem_of_fmap_2.
Qed.

(** The identifier the caller expects, if any, is the entry's. *)
Definition expected (old : option fid) (f : fid) : bool :=
  match old with None => true | Some o => bool_decide (put o = f) end.

(** [ChangeFid] replaces the identifier of a name, if it is the expected
    one. *)
Theorem ChangeFid_spec d M name old new : dir_rep d M -> name_ok name ->
  match M !! name with
  | None => ChangeFid name old new d = (ENOENT, d)
  | Some f =>
      if expected old f
      then exists d', ChangeFid name old new d = (0, d') /\ dir_rep d' (<[name := put new]> M)
      else ChangeFid name old new d = (0, d)
  end.
Proof.
  intros (n & C & Hd & <-) Hn. pose proof (FindItem_spec d n C Hd name Hn) as HF.
  unfold ChangeFid. destruct (FindItem d name) as [[tp lp] |]; [| by rewrite (contents_none C name HF)].
  destruct HF as (l1 & e & l2 & Hl & <- & -> & _).
  assert (He : e ∈ concat C) by (apply (in_chain C _ l1 l2 e Hl), elem_of_app; right; left).
  pose proof (names_nodup d C (proj2 Hd)) as HN. rewrite (contents_some C e HN He).
  assert (Hf : rd_fid d (ent_addr e) = ef e)
    by (apply elem_concat in He as (h' & l & Hl' & He); by apply (c_ents _ _ (proj2 Hd) h' l)).
  match goal with |- context [if ?b then wr_fid _ _ _ else _] => assert (Es : b = expected old (ef e)) end.
  { destruct old as [[v u] |]; [| done]. cbn [expected]. rewrite <- Hf. unfold rd_fid, put. cbn [fst snd].
    destruct (Z.eqb_spec (s32 v) (rd32 d (e_vnode (ent_addr e)))) as [E1 | E1];
      destruct (Z.eqb_spec (s32 u) (rd32 d (e_vunique (ent_addr e)))) as [E2 | E2]; cbn [andb];
      symmetry; rewrite ?bool_decide_eq_true, ?bool_decide_eq_false; congruence. }
  rewrite Es. destruct (expected old (ef e)); [| done].
  eexists. split; [done |]. exists n, (<[Z.to_nat (DirHash (en e)) := l1 ++ Ent (eb e) (en e) (put new) :: l2]> C).
  pose proof (fid_change d n C _ l1 e l2 new Hd Hl) as Hd'. split; [done |].
  pose proof (names_nodup _ _ (proj2 Hd')) as HN'.
  set (C0 := <[Z.to_nat (DirHash (en e)) := l1 ++ l2]> C).
  rewrite (contents_cons C0 _ (Ent (eb e) (en e) (put new))); [| done |].
  - rewrite (contents_cons C0 C e); [by rewrite insert_insert_eq | done |].
    unfold C0. rewrite (concat_insert C _ _ _ Hl), (concat_split C _ _ Hl). by rewrite <- Permutation_middle.
  - unfold C0. rewrite !(concat_insert C _ _ _ Hl). by rewrite <- Permutation_middle.
Qed.

(** ** Length *)

Lemma rep_size d n C : dir_ok d n C -> Z.of_nat (size (dpages d)) = n.
Proof. intros Hd. apply (size_pages d n _ (proj1 Hd)). Qed.

(** [Length] is the size of the pages there are, whether the header
    counts them or not. *)
Theorem Length_spec d M : dir_rep d M -> Length d = AFS_PAGESIZE * Z.of_nat (size (dpages d)).
Proof.
  intros (n & C & Hd & _). rewrite (rep_size d n C Hd). unfold Length. rewrite (dir_base d n C Hd).
  destruct Hd as [HA _]. pose proof (a_n _ _ _ HA). destruct (a_count _ _ _ HA) as [E | [E Hn]]; rewrite E.
  - destruct (Z.eqb_spec n 0); [lia |]. cbn [negb]. lia.
  - cbn [Z.eqb negb]. rewrite (Z.mul_comm AFS_PAGESIZE). f_equal.
    replace (seq 0 (Z.to_nat MAXPAGES)) with (seq 0 (Z.to_nat n) ++ seq (Z.to_nat n) (Z.to_nat (MAXPAGES - n)))
      by (rewrite <- seq_app; f_equal; lia).
    rewrite filter_app, filter_const, filter_none, length_app, length_seq; [cbn [length]; lia | |].
    + intros i Hi%elem_of_seq Hne. apply Hne. rewrite (a_map _ _ _ HA) by lia. by rewrite (proj2 (Z.ltb_ge _ _)) by lia.
    + intros i Hi%elem_of_seq. rewrite (a_map _ _ _ HA) by lia. rewrite (proj2 (Z.ltb_lt _ _)) by lia.
      pose proof (hdr_range (Z.of_nat i)). pose proof (used_nonneg n _ (Z.of_nat i) (a_place _ _ _ HA)). lia.
Qed.

(** ** Listing *)

(** A chain: until the hook returns a code. *)
Fixpoint visit {S : Type} (hook : S -> list Z -> fid -> Z * S) (l : list (list Z * fid)) (s : S) : S :=
  match l with
  | [] => s
  | (name, f) :: l' =>
      let '(code, s') := hook s name f in
      if code =? 0 then visit hook l' s' else s'
  end.

Definition pair_of (e : ent) : list Z * fid := (en e, ef e).

Section listing.
Context (d : dir) (n : Z) (C : list (list ent)) (Hd : dir_ok d n C).

Lemma enum_chain_spec {S} (hook : S -> list Z -> fid -> Z * S) derrno l : Forall (ent_fine d n) l ->
  forall a s fuel, linked d a l -> (length l < fuel)%nat ->
  enum_chain hook derrno d (rd16 d a) s fuel = (None, visit hook (map pair_of l) s).
Proof.
  induction l as [| e l IH]; intros HF a s fuel Hl Hf; (destruct fuel as [| fuel]; [simpl in Hf; lia |]);
    cbn [enum_chain linked map visit pair_of] in *.
  - by rewrite Hl.
  - destruct Hl as [-> Hl]. apply Forall_cons in HF as [([Hs Hfid] & Hn & Hb) HF].
    destruct (Z.eqb_spec (eb e) 0); [lia |]. rewrite (GetBlob_spec d n _ _ (proj1 Hd)) by lia.
    change (32 * eb e) with (ent_addr e). rewrite (name_at_spec d _ (en e) Hs Hn), Hfid.
    unfold pair_of at 1. destruct (hook s (en e) (ef e)) as [code s']. destruct (code =? 0); [| done]. cbn [negb].
    apply IH; [done | done | simpl in Hf; lia].
Qed.

Lemma chain_fuel_ok h l : C !! h = Some l -> (length l < S (chain_fuel d))%nat.
Proof.
  intros Hl. pose proof (chain_length d n _ l (proj1 Hd) (chain_run C h l Hl)). lia.
Qed.

Lemma enum_tables_spec {S} (hook : S -> list Z -> fid -> Z * S) derrno :
  forall k h s, drop h C = k ->
  enum_tables hook derrno d (seq h (length k)) s
  = (0, fold_left (fun s l => visit hook l s) (map (map pair_of) k) s).
Proof.
  induction k as [| l k IH]; intros h s E; [done |].
  assert (Hl : C !! h = Some l) by (rewrite <- (Nat.add_0_r h), <- lookup_drop, E; done).
  cbn [length seq enum_tables map fold_left].
  rewrite (enum_chain_spec hook derrno l (chain_fine d n C Hd h l Hl) _ _ _
             (c_linked _ _ (proj2 Hd) _ _ Hl) (chain_fuel_ok h l Hl)).
  apply IH. by rewrite <- Nat.add_1_r, <- drop_drop, E.
Qed.

Lemma only_dots_spec l : Forall (ent_fine d n) l -> forall a fuel, linked d a l -> (length l < fuel)%nat ->
  only_dots d (rd16 d a) fuel = forallb (fun e => bool_decide (en e = [46] \/ en e = [46; 46])) l.
Proof.
  induction l as [| e l IH]; intros HF a fuel Hl Hf; (destruct fuel as [| fuel]; [simpl in Hf; lia |]);
    cbn [only_dots linked forallb] in *.
  - by rewrite Hl.
  - destruct Hl as [-> Hl]. apply Forall_cons in HF as [([Hs Hfid] & Hn & Hb) HF].
    destruct (Z.eqb_spec (eb e) 0); [lia |]. rewrite (GetBlob_spec d n _ _ (proj1 Hd)) by lia.
    change (32 * eb e) with (ent_addr e).
    rewrite !(str_eq_spec d _ (en e) _ Hs (name_ok_nonzero _ Hn)) by (repeat constructor; lia).
    destruct (decide (en e = [46] \/ en e = [46; 46])) as [E | E].
    + rewrite (bool_decide_eq_true_2 _ E). cbn [andb].
      destruct E as [-> | ->]; cbn; (apply IH; [done | done | simpl in Hf; lia]).
    + rewrite (bool_decide_eq_false_2 _ E), !bool_decide_eq_false_2 by naive_solver. done.
Qed.
End listing.

(** [EnumerateDir] calls the hook once for every name of the map, with its
    identifier, chain by chain. A code the hook returns ends its chain only,
    and is not returned. *)
Theorem EnumerateDir_spec d M : dir_rep d M ->
  exists chains : list (list (list Z * fid)), concat chains ≡ₚ map_to_list M /\ length chains = 128%nat /\
    forall (S : Type) (hook : S -> list Z -> fid -> Z * S) derrno s,
      EnumerateDir hook derrno d s = (0, fold_left (fun s l => visit hook l s) chains s).
Proof.
  intros (n & C & Hd & <-). exists (map (map pair_of) C). split; [| split].
  - rewrite <- concat_map. unfold contents. symmetry. apply map_to_list_to_map.
    change (NoDup (map fst (map (fun e => (en e, ef e)) (concat C)))). rewrite contents_keys. by apply (names_nodup d), Hd.
  - rewrite length_map. apply (c_len _ _ (proj2 Hd)).
  - intros S hook derrno s. unfold EnumerateDir. rewrite (dir_base d n C Hd).
    change (Z.to_nat NHASHENT) with 128%nat. rewrite <- (c_len _ _ (proj2 Hd)).
    by apply (enum_tables_spec d n C Hd hook derrno C 0).
Qed.

Definition dots : gset (list Z) := {[ [46]; [46; 46] ]}.

(** [IsEmpty] is 0 for a directory with no names besides the dots, and 1
    for any other. *)
Theorem IsEmpty_spec d M : dir_rep d M -> IsEmpty d = if decide (dom M ⊆ dots) then 0 else 1.
Proof.
  intros (n & C & Hd & <-). unfold IsEmpty. rewrite (dir_base d n C Hd).
  assert (E : forallb (fun i => only_dots d (rd16 d (hashTable (Z.of_nat i))) (S (chain_fuel d))) (seq 0 (Z.to_nat NHASHENT))
            = true <-> forall e, e ∈ concat C -> en e ∈ dots).
  { rewrite forallb_forall. split.
    - intros H e (h & l & Hl & He)%elem_concat. pose proof (lookup_lt_Some _ _ _ Hl) as Hlt.
      rewrite (c_len _ _ (proj2 Hd)) in Hlt. specialize (H h). rewrite in_seq in H.
      specialize (H ltac:(unfold NHASHENT; lia)).
      rewrite (only_dots_spec d n C Hd l (chain_fine d n C Hd h l Hl) _ _
                 (c_linked _ _ (proj2 Hd) h l Hl) (chain_fuel_ok d n C Hd h l Hl)) in H.
      rewrite forallb_forall in H. apply list_elem_of_In in He. apply H, bool_decide_eq_true in He.
      unfold dots. set_solver.
    - intros H i Hi%in_seq. destruct (lookup_lt_is_Some_2 C i) as [l Hl].
      { rewrite (c_len _ _ (proj2 Hd)). unfold NHASHENT in Hi. lia. }
      rewrite (only_dots_spec d n C Hd l (chain_fine d n C Hd i l Hl) _ _
                 (c_linked _ _ (proj2 Hd) i l Hl) (chain_fuel_ok d n C Hd i l Hl)).
      apply forallb_forall. intros e He%list_elem_of_In. apply bool_decide_eq_true.
      specialize (H e ltac:(apply elem_concat; eauto)). unfold dots in H. set_solver. }
  assert (Ed : dom (contents C) ⊆ dots <-> forall e, e ∈ concat C -> en e ∈ dots).
  { unfold contents. rewrite dom_list_to_map. rewrite contents_keys. split.
    - intros H e He. apply H, elem_of_list_to_set. by apply list_elem_of_fmap_2.
    - intros H x (e & -> & He)%elem_of_list_to_set%list_elem_of_fmap. by apply H. }
  rewrite <- Ed in E. destruct (forallb _ _), (decide _) as [H | H]; try done.
  - destruct H. by apply E.
  - apply E in H. done.
Qed.

(** ** The empty directory *)

Definition empty_dir (d : dir) : dir :=
  let d1 := Dir (mem d) ({[0]} ∪ dpages d) in
  let d2 := store 4 [EPP - DHE - 1] (wr16 2 1234 (wr16 0 1 d1)) in
  let d3 := store (freebitmap 0 0) [255; 31; 0; 0; 0; 0; 0; 0] d2 in
  let d4 := store (alloMap 0) ((EPP - DHE - 1) :: replicate 127 EPP) d3 in
  store (hashTable 0) (replicate 256 0) d4.

Lemma empty_table d x : table_bytes x -> rd8 (empty_dir d) x = 0.
Proof.
  unfold table_bytes. intros Hx. unfold empty_dir. cbv zeta. rewrite rd8_store, decide_True.
  - rewrite (nth_lookup_Some _ _ _ 0); [done |]. apply lookup_replicate_2. unfold hashTable in *. lia.
  - rewrite length_replicate. unfold hashTable. lia.
Qed.

Lemma empty_allo d p : 0 <= p < 128 -> rd_allo (empty_dir d) p = if p =? 0 then 51 else 64.
Proof.
  intros Hp. unfold rd_allo, empty_dir. cbv zeta. rewrite rd8_store_ne by (unfold alloMap, hashTable; lia).
  rewrite rd8_store, decide_True by (cbn [length]; rewrite length_replicate; unfold alloMap; lia).
  destruct (Z.eqb_spec p 0) as [-> | Hne]; [done |].
  replace (Z.to_nat (alloMap p - alloMap 0)) with (S (Z.to_nat (p - 1))) by (unfold alloMap; lia).
  cbn [nth]. rewrite (nth_lookup_Some _ _ _ EPP); [done |]. apply lookup_replicate_2. lia.
Qed.

Lemma empty_bits d b : 0 <= b < 64 -> bit (empty_dir d) b = (b <? 13).
Proof.
  intros Hb. pose proof (blob_split b ltac:(lia)) as Hs.
  unfold bit, bit_addr, empty_dir. cbv zeta.
  rewrite rd8_store_ne by (unfold hashTable; lia). rewrite rd8_store_ne by (unfold alloMap; lia).
  rewrite rd8_store, decide_True by (cbn [length]; unfold freebitmap; lia).
  replace (Z.to_nat _) with (Z.to_nat ((b mod 64) / 8)) by (unfold freebitmap; lia).
  assert (Hall : forallb (fun b => eqb (Z.testbit (u8 (nth (Z.to_nat ((b mod 64) / 8)) [255; 31; 0; 0; 0; 0; 0; 0] 0)) (b mod 8)) (b <? 13))
            (seqZ 0 64) = true) by (vm_compute; done).
  rewrite forallb_forall in Hall. apply eqb_prop, Hall, list_elem_of_In, elem_of_seqZ. lia.
Qed.

Lemma empty_ok d : dpages d ⊆ {[0]} -> dir_ok (empty_dir d) 1 (replicate 128 []).
Proof.
  intros Hp. assert (Ec : concat (replicate 128 ([] : list ent)) = []) by done.
  assert (Hno : forall h l, replicate 128 ([] : list ent) !! h = Some l -> l = [] /\ (h < 128)%nat)
    by (intros h l Hl%lookup_replicate_1; done).
  split; [rewrite Ec; split |]; cbn [map used].
  - unfold BIGMAXPAGES. lia.
  - intros p. unfold empty_dir. cbv zeta. cbn [dpages store wr16]. set_solver by lia.
  - left. transitivity (rd16 (wr16 0 1 d) 0); [| by apply rd16_wr16]. apply rd16_ext. intros x Hx.
    unfold empty_dir. cbv zeta. unfold freebitmap, alloMap, hashTable, wr16.
    rewrite !(rd8_store_ne _ _ _ x) by (rewrite ?length_replicate; cbn [length]; lia).
    rewrite !rd8_store. by case_decide.
  - constructor.
  - constructor.
  - intros b Hb. rewrite empty_bits by lia. rewrite Z.ltb_lt. unfold hdr, DHE.
    rewrite Z.div_small, Z.mod_small by lia. cbn [Z.eqb]. split; [left; lia | intros [? | Hf]; [lia |]].
    by apply not_elem_of_nil in Hf.
  - intros p Hpm. unfold MAXPAGES in Hpm. rewrite empty_allo by lia. unfold hdr, DHE, EPP.
    destruct (Z.eqb_spec p 0), (Z.ltb_spec p 1); lia.
  - split; [done | | |].
    + intros h l [-> Hh]%Hno. cbn [linked]. unfold rd16.
      rewrite (load_ext (store (hashTable (Z.of_nat h)) [0; 0] d)).
      * change 2%nat with (length [0; 0]). by rewrite load_store by (repeat constructor; lia).
      * intros x Hx. rewrite empty_table by (apply (hashTable_bytes h); [done | lia]).
        rewrite rd8_store, decide_True by (cbn [length]; lia).
        by destruct (Z.to_nat (x - hashTable (Z.of_nat h))) as [| [| k]] eqn:E; [| | lia].
    + intros h l e [-> _]%Hno He. by apply not_elem_of_nil in He.
    + intros h l [-> _]%Hno. constructor.
Qed.

Lemma dot_ok : name_ok [46] /\ name_ok [46; 46].
Proof. split; (split; [repeat constructor; lia | simpl; lia]). Qed.

Lemma rep_create_room d M name f : dir_rep d M -> name_ok name -> M !! name = None ->
  Z.of_nat (size (dpages d)) < BIGMAXPAGES -> dir_rep (Create name f d).2 (<[name := put f]> M).
Proof.
  intros Hd Hn E Hs. pose proof (rep_create d M name f Hd Hn E) as HC.
  destruct (Create name f d) as [code d']. destruct HC as [[_ HC] | (_ & _ & [Hf _])]; [done | lia].
Qed.

Lemma rep_make d me parent : dpages d ⊆ {[0]} ->
  dir_rep (MakeDir me parent d) {[ [46] := put me; [46; 46] := put parent ]}.
Proof.
  intros Hp. destruct dot_ok as [H1 H2]. pose proof (empty_ok d Hp) as H0.
  change (MakeDir me parent d) with (Create [46; 46] parent (Create [46] me (empty_dir d)).2).2.
  pose proof (Create_new _ _ _ [46] me H0 H1 eq_refl) as HC. destruct (Create [46] me (empty_dir d)) as [code d6].
  destruct HC as [[_ (n' & C' & b & Hd & Hn & HE & _)] | (_ & _ & [Hs _])]; cbn [snd].
  - rewrite insert_union_singleton_l, (map_union_comm {[ [46] := put me ]}), <- insert_union_singleton_l
      by (by apply map_disjoint_singleton_l_2, lookup_singleton_ne).
    rewrite <- insert_empty. apply rep_create_room; [| done | done |].
    + exists n', C'. split; [done |]. rewrite (contents_cons _ C' _ (names_nodup d6 C' (proj2 Hd)) HE). done.
    + rewrite (rep_size d6 n' C' Hd). unfold BIGMAXPAGES. lia.
  - rewrite (rep_size _ _ _ H0) in Hs. done.
Qed.

(** [MakeDir] on a file with no pages, or a first one only, makes the
    directory of the two dots. *)
Theorem MakeDir_spec d me parent : dpages d ⊆ {[0]} ->
  dir_rep (MakeDir me parent d) {[ [46] := put me; [46; 46] := put parent ]}.
Proof. apply rep_make. Qed.

(** ** Witnesses *)

Definition sample : dir := MakeDir (1, 1) (4, 9) (Dir ∅ ∅).
Definition sample_names : gmap (list Z) fid := {[ [46] := (1, 1); [46; 46] := (4, 9) ]}.

Lemma sample_rep : dir_rep sample sample_names.
Proof. by apply (rep_make (Dir ∅ ∅) (1, 1) (4, 9)). Qed.

Lemma ab_ok : name_ok [97; 98].
Proof. split; [repeat constructor; lia | simpl; lia]. Qed.

Lemma MakeDir_spec_witness : dpages (Dir ∅ ∅) ⊆ {[0]} /\ dir_rep (MakeDir (1, 1) (4, 9) (Dir ∅ ∅)) sample_names.
Proof. split; [done | by apply (MakeDir_spec (Dir ∅ ∅) (1, 1) (4, 9))]. Defined.

Lemma Create_spec_witness :
  Create [46] (2, 7) sample = (EEXIST, sample)
  /\ exists d', Create [97; 98] (2, 7) sample = (0, d') /\ dir_rep d' (<[[97; 98] := (2, 7)]> sample_names).
Proof.
  split; [apply (Create_spec sample sample_names [46] (2, 7) sample_rep (proj1 dot_ok)) |].
  pose proof (Create_spec sample sample_names [97; 98] (2, 7) sample_rep ab_ok) as [_ H].
  replace (sample_names !! [97; 98]) with (@None fid) in H by (vm_compute; done).
  destruct (Create _ _ _) as [code d']. destruct H as [[-> H] | (_ & _ & [Hs _])]; [by exists d' |].
  exfalso. vm_compute in Hs. done.
Defined.

Lemma Delete_spec_witness :
  exists d', Delete [46; 46] sample = (0, d') /\ dir_rep d' (delete [46; 46] sample_names).
Proof. apply (Delete_spec sample sample_names [46; 46] sample_rep (proj2 dot_ok)). Defined.

Lemma Lookup_spec_witness : Lookup [46; 46] sample = (0, Some (4, 9)) /\ Lookup [97; 98] sample = (ENOENT, None).
Proof.
  split.
  - apply (Lookup_spec sample sample_names [46; 46] sample_rep (proj2 dot_ok)).
  - apply (Lookup_spec sample sample_names [97; 98] sample_rep ab_ok).
Defined.

Lemma ChangeFid_spec_witness :
  ChangeFid [46; 46] (Some (4, 8)) (5, 5) sample = (0, sample)
  /\ exists d', ChangeFid [46; 46] (Some (4, 9)) (5, 5) sample = (0, d')
                /\ dir_rep d' (<[[46; 46] := (5, 5)]> sample_names).
Proof.
  split.
  - apply (ChangeFid_spec sample sample_names [46; 46] (Some (4, 8)) (5, 5) sample_rep (proj2 dot_ok)).
  - apply (ChangeFid_spec sample sample_names [46; 46] (Some (4, 9)) (5, 5) sample_rep (proj2 dot_ok)).
Defined.

Lemma Length_spec_witness : Length sample = 2048.
Proof. apply (Length_spec sample sample_names sample_rep). Defined.

Lemma IsEmpty_spec_witness : IsEmpty sample = 0.
Proof. apply (IsEmpty_spec sample sample_names sample_rep). Defined.

(** Counting the names with a hook that always asks to stop: both chains are
    still visited, and the code is 0. *)
Lemma EnumerateDir_spec_witness :
  EnumerateDir (fun (k : Z) _ _ => (1, k + 1)) 0 sample 0 = (0, 2)
  /\ exists chains : list (list (list Z * fid)), concat chains ≡ₚ map_to_list sample_names /\ length chains = 128%nat.
Proof.
  split; [vm_compute; done |].
  destruct (EnumerateDir_spec sample sample_names sample_rep) as (chains & H1 & H2 & _). by exists chains.
Defined.
