(* ===== verification/DirSalv.v ===== *)
(** Directories, the salvager: the check and the reconstruction of
    src/dir/salvage.c. The check has outcomes besides its two answers: [Die],
    which ends the salvager, and an access outside the map of entries or past
    the page of an entry, which has no defined outcome. *)
From S2P Require Import Prelude Bytes Dir.

Definition MAXENAME : Z := 256.
Definition eaSize : Z := BIGMAXPAGES * EPP / 8.

Inductive verdict := Fine | Bad | Dies | Overrun | Loops.

(** The first [i] from [i] on of which the map says that it is not there. *)
Fixpoint first_unused (d : dir) (i : Z) (fuel : nat) : Z :=
  match fuel with
  | O => 0
  | S f => if rd_allo d i =? EPP then i else first_unused d (i + 1) f
  end.

Definition ComputeUsedPages (d : dir) : Z :=
  if negb (rd16 d 0 =? 0) then rd16 d 0
  else
    let usedPages := first_unused d 0 (Z.to_nat MAXPAGES) in
    if usedPages =? 0 then MAXPAGES else usedPages.

(** The map of the header from page [i] on: [k] tells that a page that is not
    there was seen; the number of pages in use, or none if the map is bad. *)
Fixpoint check_map (d : dir) (i : Z) (k : bool) (up : Z) (n : nat) : option Z :=
  match n with
  | O => Some up
  | S n' =>
      let j := rd_allo d i in
      let most := if i =? 0 then EPP - (13 + 2) else EPP in
      if (j <? 0) || (most <? j) then None
      else if k then if negb (j =? EPP) then None else check_map d (i + 1) k up n'
      else if j =? EPP then check_map d (i + 1) true up n'
      else check_map d (i + 1) k (up + 1) n'
  end.

Definition bit_count (v : Z) : Z :=
  foldr (fun b n => n + if Z.land v b =? 0 then 0 else 1) 0 [128; 64; 32; 16; 8; 4; 2; 1].
Definition page_count (d : dir) (base : Z) : Z :=
  foldr (fun j n => n + bit_count (rd8 d (freebitmap base (Z.of_nat j)))) 0 (seq 0 8).

Section check.
Context (derrno : Z) (d : dir).

(** A page that cannot be read. *)
Definition unread : verdict := if derrno =? 0 then Bad else Dies.

(** The pages from [i] on: their tags and the counts of free entries. *)
Fixpoint check_pages (i : Z) (n : nat) : option verdict :=
  match n with
  | O => None
  | S n' =>
      match DRead d i with
      | None => Some unread
      | Some pp =>
          if negb (rd16 d (pp + 2) =? 1234) then Some Bad
          else
            let count := EPP - page_count d pp in
            if (i <? MAXPAGES) && negb (Z.land count 255 =? Z.land (rd8 d (alloMap i)) 255) then Some Bad
            else check_pages (i + 1) n'
      end
  end.

(** The map of entries in memory: what the walk changed, and its initial
    value. *)
Definition ea_init (usedPages i : Z) : Z :=
  if i <? usedPages * (EPP / 8) then
    if i =? 0 then 255 else if i =? 1 then 31 else if i mod 8 =? 0 then 1 else 0
  else 0.
Definition ea_get (usedPages : Z) (m : gmap Z Z) (i : Z) : Z := default (ea_init usedPages i) (m !! i).

Fixpoint mark (usedPages entry : Z) (k : nat) (m : gmap Z Z) : option (gmap Z Z) :=
  match k with
  | O => Some m
  | S k' =>
      let i := Z.shiftr entry 3 in
      if i <? eaSize
      then mark usedPages (entry + 1) k' (<[i := Z.lor (ea_get usedPages m i) (Z.shiftl 1 (Z.land entry 7))]> m)
      else None
  end.

(** The name of an entry, if it ends in its page. *)
Definition name_in_page (ep : Z) : option (list Z) :=
  let room := Z.to_nat (AFS_PAGESIZE - e_name ep mod AFS_PAGESIZE) in
  let s := read_str d (e_name ep) room in
  if (length s <? room)%nat then Some s else None.

Record scan := Scan { entcount : Z; havedot : bool; havedotdot : bool; eaMap : gmap Z Z }.

Fixpoint check_chain (usedPages i entry : Z) (s : scan) (fuel : nat) : verdict + scan :=
  match fuel with
  | O => inl Loops
  | S fuel' =>
      let maxents := usedPages * EPP in
      if entry =? 0 then inr s
      else if (entry <? 0) || (maxents <=? entry) then inl Bad
      else
        match GetBlob d entry with
        | None => inl unread
        | Some ep =>
            let ne := rd16 d (e_next ep) in
            let c := entcount s + 1 in
            if maxents <=? c then inl Bad
            else if rd8 d (e_name ep) =? 0 then inl Bad
            else if negb (rd8 d ep =? FFIRST) then inl Bad
            else
              match name_in_page ep with
              | None => inl Overrun
              | Some nm =>
                  if MAXENAME <=? Z.of_nat (length nm) then inl Bad
                  else
                    match mark usedPages entry (Z.to_nat (NameBlobs (Z.of_nat (length nm)))) (eaMap s) with
                    | None => inl Overrun
                    | Some m =>
                        if negb (DirHash nm =? i) then inl Bad
                        else if (entry =? 13) && negb (bool_decide (nm = [46])) then inl Bad
                        else if (entry =? 14) && negb (bool_decide (nm = [46; 46])) then inl Bad
                        else check_chain usedPages i ne
                               (Scan c (havedot s || (entry =? 13)) (havedotdot s || (entry =? 14)) m) fuel'
                    end
              end
        end
  end.

Fixpoint check_chains (usedPages i : Z) (s : scan) (n : nat) : verdict + scan :=
  match n with
  | O => inr s
  | S n' =>
      match check_chain usedPages i (rd16 d (hashTable i)) s (Z.to_nat (usedPages * EPP + 1)) with
      | inl v => inl v
      | inr s' => check_chains usedPages (i + 1) s' n'
      end
  end.

(** The comparison of the two maps; past the map in memory there is nothing to
    read. *)
Fixpoint compare_maps (usedPages : Z) (m : gmap Z Z) (i : Z) (n : nat) : verdict :=
  match n with
  | O => Fine
  | S n' =>
      match DRead d i with
      | None => unread
      | Some pp =>
          if eaSize <? (i + 1) * (EPP / 8) then Overrun
          else if forallb (fun j => ea_get usedPages m (i * (EPP / 8) + Z.of_nat j) =? rd8 d (freebitmap pp (Z.of_nat j))) (seq 0 8)
          then compare_maps usedPages m (i + 1) n' else Bad
      end
  end.

Definition DirOK : verdict :=
  match DRead d 0 with
  | None => unread
  | Some _ =>
      if negb (rd16 d 2 =? 1234) then Bad
      else
        match check_map d 0 false 0 (Z.to_nat MAXPAGES) with
        | None => Bad
        | Some up =>
            let usedPages := ComputeUsedPages d in
            if usedPages <? up then Bad
            else
              match check_pages 0 (Z.to_nat usedPages) with
              | Some v => v
              | None =>
                  match check_chains usedPages 0 (Scan 0 false false ∅) (Z.to_nat NHASHENT) with
                  | inl v => v
                  | inr s =>
                      if negb (havedot s) || negb (havedotdot s) then Bad
                      else compare_maps usedPages (eaMap s) 0 (Z.to_nat usedPages)
                  end
              end
        end
  end.

(** ** The reconstruction

    [None] for a chain that does not end. *)

Definition salvage_name (s : list Z) : list Z := take (Z.to_nat (MAXENAME - 1)) s.

(** A chain of the old directory into [to]: the code to return if the rest is
    not done, and the new directory. *)
Fixpoint salvage_chain (usedPages entry : Z) (to : dir) (fuel : nat) : option (option Z * dir) :=
  match fuel with
  | O => None
  | S fuel' =>
      if entry =? 0 then Some (None, to)
      else if (entry <? 0) || (usedPages * EPP <=? entry) then Some (None, to)
      else
        match GetBlob d entry with
        | None => Some (if negb (derrno =? 0) then Some derrno else None, to)
        | Some ep =>
            let tname := salvage_name (name_at d (e_name ep)) in
            let next := rd16 d (e_next ep) in
            if bool_decide (tname = [46]) || bool_decide (tname = [46; 46]) then salvage_chain usedPages next to fuel'
            else
              let '(code, to) := Create tname (rd_fid d ep) to in
              if negb (code =? 0) then Some (None, to) else salvage_chain usedPages next to fuel'
        end
  end.

Fixpoint salvage_chains (usedPages i : Z) (to : dir) (n fuel : nat) : option (Z * dir) :=
  match n with
  | O => Some (0, to)
  | S n' =>
      match salvage_chain usedPages (rd16 d (hashTable i)) to fuel with
      | None => None
      | Some (Some code, to) => Some (code, to)
      | Some (None, to) => salvage_chains usedPages (i + 1) to n' fuel
      end
  end.

Definition DirSalvage (to : dir) (vn vu pvn pvu : Z) (fuel : nat) : option (Z * dir) :=
  let to := MakeDir (vn, vu) (pvn, pvu) to in
  match DRead d 0 with
  | None => Some (derrno, to)
  | Some _ => salvage_chains (ComputeUsedPages d) 0 to (Z.to_nat NHASHENT) fuel
  end.
End check.

Example check_sample :
  let d := (Create [97; 98] (2, 7) (MakeDir (1, 1) (1, 1) (Dir ∅ ∅))).2 in
  DirOK 0 d = Fine /\ option_map (fun '(c, t) => (c, Lookup [97; 98] t)) (DirSalvage 0 d (Dir ∅ ∅) 5 6 1 1 10) = Some (0, (0, Some (2, 7))).
Proof. vm_compute. split; reflexivity. Qed.
