(* ===== verification/DirCheck.v ===== *)
(** Directories, what the check of [DirSalv] accepts: every well-formed
    directory, and some that are not. *)
From S2P Require Import Prelude Bytes Dir DirSpec DirOps DirSalv.

(** ** Counting bits *)

Definition cnt (f : Z -> bool) (l : list Z) : Z := Z.of_nat (length (filter (fun b => f b = true) l)).

Lemma cnt_step f x l : cnt f (x :: l) = Z.b2z (f x) + cnt f l.
Proof. unfold cnt. rewrite filter_cons. case_decide as E; [rewrite E | apply not_true_is_false in E; rewrite E]; cbn [Z.b2z length]; lia. Qed.

Lemma cnt_app f l l' : cnt f (l ++ l') = cnt f l + cnt f l'.
Proof. unfold cnt. rewrite filter_app, length_app. lia. Qed.

Lemma land_bit v k : 0 <= k -> (if Z.land v (2 ^ k) =? 0 then 0 else 1) = Z.b2z (Z.testbit v k).
Proof.
  intros Hk. destruct (Z.eqb_spec (Z.land v (2 ^ k)) 0) as [E | E].
  - apply (f_equal (fun x => Z.testbit x k)) in E. rewrite Z.land_spec, Z.pow2_bits_true, andb_true_r, Z.bits_0 in E by lia.
    by rewrite E.
  - destruct (Z.testbit v k) eqn:Ev; [done |]. exfalso. apply E. apply Z.bits_inj'. intros i Hi.
    rewrite Z.land_spec, Z.bits_0, Z.pow2_bits_eqb by lia. destruct (Z.eqb_spec k i) as [<- | ?]; [by rewrite Ev | apply andb_false_r].
Qed.

Lemma bit_count_cnt d p j : 0 <= p -> 0 <= j < 8 ->
  bit_count (rd8 d (freebitmap (AFS_PAGESIZE * p) j)) = cnt (bit d) (seqZ (64 * p + 8 * j) 8).
Proof.
  intros Hp Hj.
  assert (Hb : forall k, 0 <= k < 8 ->
    bit d (k + (64 * p + 8 * j)) = Z.testbit (rd8 d (freebitmap (AFS_PAGESIZE * p) j)) k).
  { intros k Hk. destruct (bit_index p (8 * j + k)) as (E1 & E2 & E3); [lia | lia |]. unfold bit, bit_addr.
    replace (k + (64 * p + 8 * j)) with (64 * p + (8 * j + k)) by lia. rewrite E1, E2, E3. unfold freebitmap, AFS_PAGESIZE.
    replace ((8 * j + k) / 8) with j by zdiv. replace ((8 * j + k) mod 8) with k by zdiv. done. }
  change (seqZ (64 * p + 8 * j) 8) with (map (fun k => k + (64 * p + 8 * j)) [0; 1; 2; 3; 4; 5; 6; 7]).
  cbn [map]. rewrite !cnt_step, !Hb by lia. unfold bit_count. cbn [foldr]. set (v := rd8 d _).
  rewrite <- !land_bit by lia. change (cnt (bit d) []) with 0.
  change (2 ^ 0) with 1. change (2 ^ 1) with 2. change (2 ^ 2) with 4. change (2 ^ 3) with 8. change (2 ^ 4) with 16.
  change (2 ^ 5) with 32. change (2 ^ 6) with 64. change (2 ^ 7) with 128. lia.
Qed.

Lemma page_count_cnt d p : 0 <= p -> page_count d (AFS_PAGESIZE * p) = cnt (bit d) (seqZ (64 * p) 64).
Proof.
  intros Hp. unfold page_count. cbn [foldr seq]. rewrite !bit_count_cnt by lia.
  assert (E : seqZ (64 * p) 64 = seqZ (64 * p + 8 * 0) 8 ++ seqZ (64 * p + 8 * 1) 8 ++ seqZ (64 * p + 8 * 2) 8
    ++ seqZ (64 * p + 8 * 3) 8 ++ seqZ (64 * p + 8 * 4) 8 ++ seqZ (64 * p + 8 * 5) 8
    ++ seqZ (64 * p + 8 * 6) 8 ++ seqZ (64 * p + 8 * 7) 8).
  { unfold seqZ. cbn [fmap list_fmap seq app Z.to_nat Pos.to_nat Pos.iter_op Nat.add]. simpl. repeat first [reflexivity | apply f_equal2; [lia |]]. }
  rewrite E, !cnt_app. change (Z.of_nat 0) with 0. change (Z.of_nat 1) with 1. change (Z.of_nat 2) with 2. change (Z.of_nat 3) with 3. change (Z.of_nat 4) with 4. change (Z.of_nat 5) with 5. change (Z.of_nat 6) with 6. change (Z.of_nat 7) with 7. lia.
Qed.

(** The marked blobs of a page: its headers and the runs in it. *)
Lemma page_count_used d n R p : alloc_ok d n R -> 0 <= p < n ->
  page_count d (AFS_PAGESIZE * p) = hdr p + used R p.
Proof.
  intros H Hp. rewrite page_count_cnt by lia. rewrite (used_length n R p (a_place _ _ _ H)). pose proof (hdr_range p).
  unfold cnt. rewrite <- (Z2Nat.id (hdr p)) by lia. rewrite <- Nat2Z.inj_add. f_equal.
  rewrite <- (length_seqZ (64 * p) (hdr p)), <- length_app. apply Permutation_length, NoDup_Permutation.
  - apply NoDup_filter, NoDup_seqZ.
  - apply NoDup_app. split; [apply NoDup_seqZ |]. split; [| apply NoDup_filter, (a_disj _ _ _ H)].
    intros b Hb%elem_of_seqZ [E Hb']%list_elem_of_filter. apply elem_of_blobs in Hb' as (r & Hr & Hb').
    pose proof (a_place _ _ _ H) as HP. rewrite Forall_forall in HP.
    destruct (placed_blob n r b (HP r Hr) Hb') as (E1 & E2 & E3). rewrite <- E1, E in E2.
    pose proof (blob_split b ltac:(lia)). lia.
  - intros b. rewrite list_elem_of_filter, elem_of_app, list_elem_of_filter, !elem_of_seqZ. split.
    + intros [Hb Hr]. apply (a_bits _ _ _ H) in Hb; [| lia]. pose proof (blob_split b ltac:(lia)).
      assert (b / 64 = p) as E by lia. rewrite E in Hb. destruct Hb as [Hb | Hb]; [left; lia | by right].
    + intros [Hb | [E Hb]].
      * destruct (bit_index p (b - 64 * p)) as (E1 & E2 & _); [lia | lia |].
        replace (64 * p + (b - 64 * p)) with b in E1, E2 by lia.
        split; [| lia]. apply (a_bits _ _ _ H); [lia |]. left. rewrite E1, E2. lia.
      * pose proof (blobs_range n R b (a_place _ _ _ H) Hb). pose proof (blob_split b ltac:(lia)).
        split; [| lia]. apply (a_bits _ _ _ H); [done |]. by right.
Qed.

(** ** The walk over the map of the header *)

Section sound.
Context (d : dir) (n : Z) (R : list (Z * Z)) (H : alloc_ok d n R).

Lemma allo_in p : 0 <= p < n -> p < MAXPAGES -> rd_allo d p = EPP - hdr p - used R p /\ 0 <= rd_allo d p < EPP.
Proof.
  intros Hp Hm. pose proof (used_bound n R p (a_place _ _ _ H) (a_disj _ _ _ H) ltac:(lia)). pose proof (hdr_range p).
  rewrite (a_map _ _ _ H p ltac:(lia)). destruct (Z.ltb_spec p n); unfold EPP; lia.
Qed.

Lemma allo_out p : n <= p < MAXPAGES -> rd_allo d p = EPP.
Proof.
  intros Hp. pose proof (a_n _ _ _ H). rewrite (a_map _ _ _ H p ltac:(lia)). by destruct (Z.ltb_spec p n); [lia |].
Qed.

Lemma check_map_ok m : 2 <= used R 0 -> forall i, 0 <= i -> i + Z.of_nat m = MAXPAGES ->
  check_map d i (bool_decide (n < i)) (i `min` n) m = Some (MAXPAGES `min` n).
Proof.
  intros Hdots. pose proof (a_n _ _ _ H) as Hn. induction m as [| m IH]; intros i Hi Em; cbn [check_map].
  - f_equal. lia.
  - assert (Hr : rd_allo d i = EPP \/ i < n /\ 0 <= rd_allo d i < EPP /\ (i = 0 -> rd_allo d i <= 49)).
    { destruct (decide (i < n)); [right | left; apply allo_out; lia].
      destruct (allo_in i) as [E Hr]; [lia | lia |]. split; [done |]. split; [done |].
      intros ->. rewrite E. unfold EPP, hdr, DHE. cbn. lia. }
    assert (Hi0 : rd_allo d i = EPP -> i <> 0 /\ n <= i).
    { intros E. destruct (decide (i < n)) as [Hin |]; [| lia]. destruct (allo_in i) as [_ ?]; lia. }
    assert (Hb : (rd_allo d i <? 0) || ((if i =? 0 then EPP - (13 + 2) else EPP) <? rd_allo d i) = false).
    { apply orb_false_iff. unfold EPP in *. destruct (Z.eqb_spec i 0); split; apply Z.ltb_ge; lia. }
    rewrite Hb. specialize (IH (i + 1) ltac:(lia) ltac:(lia)).
    destruct (Z.eqb_spec (rd_allo d i) EPP) as [E | E].
    + rewrite (bool_decide_eq_true_2 (n < i + 1)) in IH by (destruct (Hi0 E); lia).
      replace ((i + 1) `min` n) with (i `min` n) in IH by (destruct (Hi0 E); lia). cbn [negb].
      by case_bool_decide.
    + destruct Hr as [? | (Hin & _)]; [done |].
      rewrite bool_decide_eq_false_2 in IH |- * by lia.
      by replace (i `min` n + 1) with ((i + 1) `min` n) by lia.
Qed.

Lemma first_unused_ok m : forall i, 0 <= i <= n -> i + Z.of_nat m = MAXPAGES ->
  first_unused d i m = if n <? MAXPAGES then n else 0.
Proof.
  induction m as [| m IH]; intros i Hi Em; cbn [first_unused].
  - by destruct (Z.ltb_spec n MAXPAGES); [lia |].
  - destruct (decide (i = n)) as [-> |].
    + rewrite (allo_out n), Z.eqb_refl by lia. by destruct (Z.ltb_spec n MAXPAGES); [| lia].
    + destruct (allo_in i) as [_ ?]; [lia | lia |]. destruct (Z.eqb_spec (rd_allo d i) EPP); [lia |].
      apply IH; lia.
Qed.

Lemma used_pages : ComputeUsedPages d = n.
Proof.
  unfold ComputeUsedPages. pose proof (a_n _ _ _ H). destruct (a_count _ _ _ H) as [E | [E Hn]]; rewrite E.
  - by destruct (Z.eqb_spec n 0); [lia |].
  - cbn. rewrite first_unused_ok by (unfold MAXPAGES; lia). unfold MAXPAGES in *.
    destruct (Z.ltb_spec n 128); [by destruct (Z.eqb_spec n 0); [lia |] | cbn; lia].
Qed.

Lemma page_there p : 0 <= p < n -> DRead d p = Some (AFS_PAGESIZE * p).
Proof. intros Hp. unfold DRead. by rewrite decide_True by by apply (a_pages _ _ _ H). Qed.

Lemma check_pages_ok derrno m : (forall p, 0 <= p < n -> rd16 d (AFS_PAGESIZE * p + 2) = 1234) ->
  forall i, 0 <= i -> i + Z.of_nat m = n -> check_pages derrno d i m = None.
Proof.
  intros Ht. induction m as [| m IH]; intros i Hi Em; cbn [check_pages]; [done |].
  rewrite page_there, Ht by lia. cbn [Z.eqb negb]. rewrite (page_count_used d n R i H) by lia.
  destruct (Z.ltb_spec i MAXPAGES) as [Hm |]; cbn [andb]; [| apply IH; lia].
  destruct (allo_in i ltac:(lia) Hm) as [E Hr].
  assert (Ez : Z.land (EPP - (hdr i + used R i)) 255 = Z.land (rd8 d (alloMap i)) 255).
  { change 255 with (Z.ones 8). rewrite !Z.land_ones by lia. change (2 ^ 8) with 256.
    unfold rd_allo, s8 in E. revert E Hr. unfold rd_allo, s8, EPP. zdiv. }
  rewrite Ez, Z.eqb_refl. cbn [negb]. apply IH; lia.
Qed.
End sound.

(** ** The map of entries in memory *)

Definition eabit (up : Z) (m : gmap Z Z) (b : Z) : bool := Z.testbit (ea_get up m (b / 8)) (b mod 8).
Definition bytes_ok (up : Z) (m : gmap Z Z) : Prop := forall i, 0 <= ea_get up m i < 256.

Lemma byte_bits v w : 0 <= v < 256 -> 0 <= w < 256 ->
  (forall k, 0 <= k < 8 -> Z.testbit v k = Z.testbit w k) -> v = w.
Proof.
  intros Hv Hw E. rewrite <- (Z.mod_small v 256), <- (Z.mod_small w 256) by done. change 256 with (2 ^ 8).
  apply Z.bits_inj'. intros k Hk. destruct (decide (k < 8)).
  - rewrite !Z.mod_pow2_bits_low by lia. apply E. lia.
  - by rewrite !Z.mod_pow2_bits_high by lia.
Qed.

Lemma lor_byte v r : 0 <= v < 256 -> 0 <= r < 8 -> 0 <= Z.lor v (Z.shiftl 1 r) < 256.
Proof.
  intros Hv Hr. rewrite Z.shiftl_1_l. pose proof (Z.pow_pos_nonneg 2 r ltac:(lia) ltac:(lia)) as Hp.
  split; [apply Z.lor_nonneg; lia |]. change 256 with (2 ^ 8).
  destruct (Z.eq_dec (Z.lor v (2 ^ r)) 0) as [-> |]; [done |].
  assert (0 < Z.lor v (2 ^ r)) by (pose proof (proj2 (Z.lor_nonneg v (2 ^ r)) ltac:(lia)); lia).
  apply Z.log2_lt_pow2; [done |]. rewrite Z.log2_lor, Z.log2_pow2 by lia.
  apply Z.max_lub_lt; [| lia]. destruct (Z.eq_dec v 0) as [-> |]; [done |]. apply Z.log2_lt_pow2; lia.
Qed.

Lemma ea_get_insert up m i v j : ea_get up (<[i := v]> m) j = if decide (i = j) then v else ea_get up m j.
Proof. unfold ea_get. destruct (decide (i = j)) as [-> |]; [by rewrite lookup_insert_eq | by rewrite lookup_insert_ne]. Qed.

Lemma mark_ok up k : forall entry m, 0 <= entry -> entry + Z.of_nat k <= BIGMAXPAGES * EPP -> bytes_ok up m ->
  exists m', mark up entry k m = Some m' /\ bytes_ok up m'
  /\ forall b, 0 <= b -> eabit up m' b = bool_decide (entry <= b < entry + Z.of_nat k) || eabit up m b.
Proof.
  unfold BIGMAXPAGES, EPP. induction k as [| k IH]; intros entry m He Hk Hm; cbn [mark].
  - exists m. split; [done |]. split; [done |]. intros b Hb. by rewrite bool_decide_eq_false_2 by lia.
  - rewrite Z.shiftr_div_pow2 by lia. change 7 with (Z.ones 3). rewrite Z.land_ones by lia. change (2 ^ 3) with 8.
    set (m1 := <[entry / 8 := _]> m).
    assert (H1 : bytes_ok up m1).
    { intros i. unfold m1. rewrite ea_get_insert. destruct (decide _); [| done]. apply lor_byte; [done |].
      pose proof (Z.mod_pos_bound entry 8). lia. }
    destruct (IH (entry + 1) m1 ltac:(lia) ltac:(lia) H1) as (m' & E & H' & Hb'). exists m'.
    assert (El : entry / 8 <? eaSize = true) by (change eaSize with 8184; apply Z.ltb_lt, Z.div_lt_upper_bound; lia). rewrite El.
    split; [done |]. split; [done |]. intros b Hb. rewrite Hb' by done.
    assert (Eb : eabit up m1 b = bool_decide (b = entry) || eabit up m b).
    { unfold eabit, m1. rewrite ea_get_insert. destruct (decide (entry / 8 = b / 8)) as [E8 | E8].
      - rewrite Z.lor_spec, Z.shiftl_1_l, Z.pow2_bits_eqb, E8 by (pose proof (Z.mod_pos_bound entry 8); lia).
        rewrite orb_comm. f_equal. destruct (Z.eqb_spec (entry mod 8) (b mod 8)); [rewrite bool_decide_eq_true_2 | rewrite bool_decide_eq_false_2]; try done; zdiv.
      - rewrite bool_decide_eq_false_2; [done |]. intros ->. done. }
    rewrite Eb, orb_assoc. f_equal. repeat case_bool_decide; cbn; lia || done.
Qed.

Lemma init_bytes up : bytes_ok up ∅.
Proof. intros i. unfold ea_get, ea_init. rewrite lookup_empty. cbn. repeat case_match; lia. Qed.

(** At the start the headers are marked. *)
Lemma init_bits n b : 0 <= b < 64 * n -> eabit n ∅ b = bool_decide (b mod 64 < hdr (b / 64)).
Proof.
  intros Hb. unfold eabit, ea_get, ea_init, EPP. rewrite lookup_empty. cbn [default].
  change (64 / 8) with 8. rewrite (proj2 (Z.ltb_lt _ _)) by zdiv.
  pose proof (Z.mod_pos_bound b 8 ltac:(lia)) as H8. pose proof (blob_split b ltac:(lia)) as Hs. unfold hdr, DHE.
  assert (E8 : b / 8 = 8 * (b / 64) + (b mod 64) / 8) by zdiv.
  assert (E8' : b / 8 mod 8 = (b mod 64) / 8) by zdiv.
  assert (Hk : forall k, 0 <= k < 8 -> Z.testbit 255 k = true /\ Z.testbit 1 k = (k =? 0) /\ Z.testbit 31 k = (k <? 5)).
  { intros k Hk. assert (k = 0 \/ k = 1 \/ k = 2 \/ k = 3 \/ k = 4 \/ k = 5 \/ k = 6 \/ k = 7) as Hc by lia.
    by repeat destruct Hc as [-> | Hc]; [..| rewrite Hc]. }
  destruct (Hk (b mod 8) H8) as (K1 & K2 & K3).
  destruct (Z.eqb_spec (b / 8) 0); [rewrite K1; symmetry; apply bool_decide_eq_true_2; case_match; lia |].
  destruct (Z.eqb_spec (b / 8) 1).
  { rewrite K3. destruct (Z.eqb_spec (b / 64) 0); [| lia].
    destruct (Z.ltb_spec (b mod 8) 5); [rewrite bool_decide_eq_true_2 | rewrite bool_decide_eq_false_2]; done || lia. }
  destruct (Z.eqb_spec (b / 8 mod 8) 0).
  - rewrite K2. destruct (Z.eqb_spec (b / 64) 0); [lia |].
    destruct (Z.eqb_spec (b mod 8) 0); [rewrite bool_decide_eq_true_2 | rewrite bool_decide_eq_false_2]; done || lia.
  - rewrite Z.bits_0, bool_decide_eq_false_2; [done |]. case_match; lia.
Qed.

(** ** The walk along the chains *)

(** What the walk has seen: the entries [L]. *)
Record walked (n : Z) (s : scan) (L : list ent) : Prop := {
  w_count : entcount s = Z.of_nat (length L);
  w_dot : havedot s = existsb (fun e => eb e =? 13) L;
  w_dotdot : havedotdot s = existsb (fun e => eb e =? 14) L;
  w_bytes : bytes_ok n (eaMap s);
  w_bits : forall b, 0 <= b < 64 * n ->
    eabit n (eaMap s) b = bool_decide (b mod 64 < hdr (b / 64)) || bool_decide (b ∈ blobs (map run L))
}.

Lemma blobs_app R R' : blobs (R ++ R') = blobs R ++ blobs R'.
Proof. unfold blobs. apply bind_app. Qed.

Lemma walked_start n : walked n (Scan 0 false false ∅) [].
Proof.
  split; try done; [apply init_bytes |]. intros b Hb. cbn [eaMap]. rewrite init_bits by done.
  rewrite (bool_decide_eq_false_2 (b ∈ _)) by apply not_elem_of_nil. by rewrite orb_false_r.
Qed.

(** Entry 13 is ".", entry 14 is "..". *)
Definition dots_first (C : list (list ent)) : Prop :=
  (exists e, e ∈ concat C /\ eb e = 13) /\ (exists e, e ∈ concat C /\ eb e = 14)
  /\ forall e, e ∈ concat C -> (eb e = 13 -> en e = [46]) /\ (eb e = 14 -> en e = [46; 46]).

(** The parts of a page and of an entry that only the check reads; memory holds
    bytes. *)
Record tagged (d : dir) (n : Z) (C : list (list ent)) : Prop := {
  t_tag : forall p, 0 <= p < n -> rd16 d (AFS_PAGESIZE * p + 2) = 1234;
  t_flag : forall e, e ∈ concat C -> rd8 d (ent_addr e) = FFIRST;
  t_byte : forall x, 0 <= rd8 d x < 256
}.

Section walk.
Context (derrno : Z) (d : dir) (n : Z) (C : list (list ent)).
Context (Hd : dir_ok d n C) (Ht : tagged d n C) (Hdots : dots_first C).

Lemma name_in_page_ok e : e ∈ concat C -> name_in_page d (ent_addr e) = Some (en e).
Proof.
  intros He. pose proof (entry_run d n C Hd e He) as (H0 & H1 & H2 & H3 & H4). cbn [run fst snd] in *.
  pose proof (ent_name_ok d n C Hd e He) as Hn. destruct (nblobs_spec _ Hn) as [_ Hk].
  pose proof (blob_split (eb e) H0) as Hs.
  assert (Em : e_name (ent_addr e) mod AFS_PAGESIZE = 32 * (eb e mod 64) + 12).
  { unfold e_name, ent_addr, AFS_PAGESIZE. symmetry. apply (Z.mod_unique_pos _ _ (eb e / 64)); lia. }
  assert (Hstr : str_at d (e_name (ent_addr e)) (en e)).
  { apply elem_concat in He as (h & l & Hl & He). by apply (c_ents _ _ (proj2 Hd) h l e Hl He). }
  unfold name_in_page. rewrite Em. unfold AFS_PAGESIZE.
  rewrite (read_str_spec d _ (en e)) by (done || by apply name_ok_nonzero || lia).
  by rewrite (proj2 (Nat.ltb_lt _ _)) by lia.
Qed.

Lemma walk_entry e L s : e ∈ concat C -> Z.of_nat (length L) + 1 < 64 * n -> walked n s L ->
  exists m, mark n (eb e) (Z.to_nat (nblobs (en e))) (eaMap s) = Some m
  /\ walked n (Scan (entcount s + 1) (havedot s || (eb e =? 13)) (havedotdot s || (eb e =? 14)) m) (L ++ [e]).
Proof.
  intros He HL [W1 W2 W3 W4 W5]. pose proof (entry_run d n C Hd e He) as Hp.
  pose proof Hp as (H0 & H1 & H2 & H3 & H4). cbn [run fst snd] in *.
  pose proof (blob_split (eb e) H0) as Hs. pose proof (a_n _ _ _ (proj1 Hd)) as Hn.
  destruct (mark_ok n (Z.to_nat (nblobs (en e))) (eb e) (eaMap s) H0) as (m & E & Hm & Hb); [| done |].
  { unfold BIGMAXPAGES, EPP in *. lia. }
  exists m. split; [done |]. split; cbn [entcount havedot havedotdot eaMap].
  - rewrite W1, length_app. cbn [length]. lia.
  - by rewrite W2, existsb_app; cbn [existsb]; rewrite orb_false_r.
  - by rewrite W3, existsb_app; cbn [existsb]; rewrite orb_false_r.
  - done.
  - intros b Hb'. rewrite Hb, W5 by lia. rewrite map_app, blobs_app. cbn [map].
    rewrite (bool_decide_ext (b ∈ _ ++ _) (b ∈ blobs (map run L) \/ eb e <= b < eb e + nblobs (en e))).
    + rewrite Z2Nat.id by lia. repeat case_bool_decide; cbn; tauto.
    + rewrite elem_of_app, blobs_cons, app_nil_r, elem_of_seqZ. done.
Qed.

Lemma check_chain_ok i l : forall a L s fuel,
  linked d a l -> Forall (fun e => e ∈ concat C /\ DirHash (en e) = i) l ->
  Z.of_nat (length (L ++ l)) < 64 * n -> walked n s L -> (length l < fuel)%nat ->
  exists s', check_chain derrno d n i (rd16 d a) s fuel = inr s' /\ walked n s' (L ++ l).
Proof.
  induction l as [| e l IH]; intros a L s fuel Hk Hall HL Hw Hf; (destruct fuel as [| fuel]; [simpl in Hf; lia |]);
    cbn [check_chain linked] in *.
  - rewrite Hk. cbn. exists s. by rewrite app_nil_r.
  - destruct Hk as [-> Hk]. apply Forall_cons in Hall as [[He Hh] Hall].
    pose proof (placed_head _ _ (entry_run d n C Hd e He)) as Hr. cbn [run fst] in Hr.
    pose proof (ent_name_ok d n C Hd e He) as Hn. rewrite length_app in HL. cbn [length] in HL.
    destruct (walk_entry e L s He ltac:(lia) Hw) as (m & Em & Hw').
    unfold EPP. replace (n * 64) with (64 * n) by lia.
    destruct (Z.eqb_spec (eb e) 0); [lia |].
    assert (Eb : (eb e <? 0) || (64 * n <=? eb e) = false)
      by (apply orb_false_iff; split; [apply Z.ltb_ge | apply Z.leb_gt]; lia).
    rewrite Eb, (GetBlob_spec d n _ (eb e) (proj1 Hd)) by lia. change (32 * eb e) with (ent_addr e).
    rewrite (proj2 (Z.leb_gt _ _)) by (rewrite (w_count _ _ _ Hw); lia).
    pose proof (name_in_page_ok e He) as Enm.
    assert (H1 : rd8 d (e_name (ent_addr e)) =? 0 = false).
    { apply elem_concat in He as (h & k & Hk' & He). destruct (c_ents _ _ (proj2 Hd) h k e Hk' He) as ([Hs _] & _).
      unfold str_at in Hs. destruct (en e) as [| c w] eqn:Ee; [by destruct Hn as [_ Hn]; simpl in Hn; lia |].
      cbn [length Nat.add] in Hs. rewrite load_S in Hs. injection Hs as -> _. apply Z.eqb_neq.
      destruct Hn as [Hn _]. apply Forall_cons in Hn as [Hn _]. lia. }
    rewrite H1, (t_flag _ _ _ Ht e He), Enm. cbn [Z.eqb negb FFIRST Pos.eqb].
    rewrite (proj2 (Z.leb_gt MAXENAME _)) by (destruct Hn as [_ Hn]; unfold MAXENAME; lia).
    fold (nblobs (en e)). rewrite Em, Hh, Z.eqb_refl. cbn [negb].
    destruct Hdots as (_ & _ & Hdt). destruct (Hdt e He) as [D1 D2].
    assert (E13 : (eb e =? 13) && negb (bool_decide (en e = [46])) = false).
    { destruct (Z.eqb_spec (eb e) 13); [by rewrite bool_decide_eq_true_2 by by apply D1 | done]. }
    assert (E14 : (eb e =? 14) && negb (bool_decide (en e = [46; 46])) = false).
    { destruct (Z.eqb_spec (eb e) 14); [by rewrite bool_decide_eq_true_2 by by apply D2 | done]. }
    rewrite E13, E14.
    destruct (IH (e_next (ent_addr e)) (L ++ [e]) _ fuel Hk Hall ltac:(rewrite !length_app in *; cbn [length]; lia) Hw' ltac:(simpl in Hf; lia))
      as (s' & E & Hw2).
    exists s'. split; [exact E |]. by rewrite <- app_assoc in Hw2.
Qed.
End walk.

Section accept.
Context (d : dir) (n : Z) (C : list (list ent)).
Context (Hd : dir_ok d n C) (Ht : tagged d n C) (Hdots : dots_first C).

Lemma ents_count : Z.of_nat (length (concat C)) < 64 * n.
Proof.
  pose proof (a_n _ _ _ (proj1 Hd)). rewrite <- (length_map eb).
  assert (Hs : map eb (concat C) ⊆+ seqZ 13 (64 * n - 13)).
  { apply NoDup_submseteq; [by apply (chain_heads d n C) |]. intros b (e & -> & He)%list_elem_of_fmap.
    apply elem_of_seqZ. pose proof (ent_head d n C Hd e He).
    pose proof (placed_head _ _ (entry_run d n C Hd e He)) as Hr. cbn [run fst] in Hr. lia. }
  apply submseteq_length in Hs. rewrite length_seqZ in Hs. lia.
Qed.

Lemma take_length k : (length (concat (take k C)) <= length (concat C))%nat.
Proof. rewrite <- (take_drop k C) at 2. rewrite concat_app, length_app. lia. Qed.

Lemma check_chains_ok derrno m : forall k s, (k + m = 128)%nat -> walked n s (concat (take k C)) ->
  exists s', check_chains derrno d n (Z.of_nat k) s m = inr s' /\ walked n s' (concat C).
Proof.
  pose proof ents_count as Hc. induction m as [| m IH]; intros k s Ek Hw; cbn [check_chains].
  - exists s. split; [done |]. by rewrite firstn_all2 in Hw by (rewrite (c_len _ _ (proj2 Hd)); lia).
  - destruct (lookup_lt_is_Some_2 C k) as [l Hl]; [rewrite (c_len _ _ (proj2 Hd)); lia |].
    assert (Et : concat (take (S k) C) = concat (take k C) ++ l)
      by (rewrite (take_S_r _ _ _ Hl), concat_app; cbn [concat]; by rewrite app_nil_r).
    pose proof (take_length (S k)) as HL. rewrite Et in HL.
    pose proof HL as HL'. rewrite length_app in HL'.
    destruct (check_chain_ok derrno d n C Hd Ht Hdots (Z.of_nat k) l (hashTable (Z.of_nat k)) (concat (take k C)) s
                (Z.to_nat (n * EPP + 1))) as (s1 & E1 & Hw1).
    + by apply (c_linked _ _ (proj2 Hd)).
    + apply Forall_forall. intros e He. split; [apply elem_concat; eauto |]. by apply (c_ents _ _ (proj2 Hd) k l e Hl He).
    + lia.
    + done.
    + unfold EPP. lia.
    + rewrite E1. rewrite <- Et in Hw1. replace (Z.of_nat k + 1) with (Z.of_nat (S k)) by lia.
      apply IH; [lia | done].
Qed.

Lemma compare_ok derrno m s : walked n s (concat C) -> forall i, 0 <= i -> i + Z.of_nat m = n ->
  compare_maps derrno d n (eaMap s) i m = Fine.
Proof.
  intros Hw. pose proof (a_n _ _ _ (proj1 Hd)) as Hn. unfold BIGMAXPAGES in Hn.
  induction m as [| m IH]; intros i Hi Em; cbn [compare_maps]; [done |].
  rewrite (page_there d n _ (proj1 Hd)) by lia.
  assert (El : eaSize <? (i + 1) * (EPP / 8) = false) by (change eaSize with 8184; change (EPP / 8) with 8; apply Z.ltb_ge; lia).
  rewrite El. match goal with |- context [forallb ?f ?l] => assert (Eb : forallb f l = true) end.
  { apply forallb_forall. intros j [_ Hj]%in_seq. apply Z.eqb_eq. change (EPP / 8) with 8.
    apply byte_bits; [apply (w_bytes _ _ _ Hw) | apply (t_byte _ _ _ Ht) |]. intros k Hk.
    destruct (bit_index i (8 * Z.of_nat j + k)) as (B1 & B2 & B3); [lia | lia |].
    set (b := 64 * i + (8 * Z.of_nat j + k)) in *.
    assert (Hb : 0 <= b < 64 * n) by lia.
    transitivity (eabit n (eaMap s) b); [unfold eabit; f_equal; [f_equal |]; zdiv |].
    transitivity (bit d b).
    - rewrite (w_bits _ _ _ Hw b Hb). apply eq_true_iff_eq. rewrite (a_bits _ _ _ (proj1 Hd) b Hb), orb_true_iff.
      by rewrite !bool_decide_eq_true.
    - unfold bit, bit_addr. rewrite B1, B2. unfold freebitmap, AFS_PAGESIZE. f_equal; [f_equal; zdiv | zdiv]. }
  rewrite Eb. apply IH; lia.
Qed.

Lemma dots_used : 2 <= used (map run (concat C)) 0.
Proof.
  destruct Hdots as ((e1 & He1 & E1) & (e2 & He2 & E2) & _).
  pose proof (a_place _ _ _ (proj1 Hd)) as HP. rewrite (used_length n _ 0 HP).
  assert (Hs : [13; 14] ⊆+ filter (fun b => b / 64 = 0) (blobs (map run (concat C)))).
  { apply NoDup_submseteq; [repeat constructor; set_solver |]. rewrite Forall_forall in HP.
    intros b Hb. apply list_elem_of_filter.
    assert (G : forall e, e ∈ concat C -> eb e = b -> b ∈ blobs (map run (concat C))).
    { intros e He <-. apply elem_of_blobs. exists (run e). split; [by apply list_elem_of_fmap_2 |].
      destruct (HP (run e) ltac:(by apply list_elem_of_fmap_2)) as (_ & ? & _). cbn [run fst snd] in *. lia. }
    apply elem_of_cons in Hb as [-> | Hb]; [split; [done | by apply (G e1)] |].
    apply list_elem_of_singleton in Hb as ->. split; [done | by apply (G e2)]. }
  apply submseteq_length in Hs. simpl in Hs. lia.
Qed.

Lemma DirOK_fine derrno : DirOK derrno d = Fine.
Proof.
  pose proof (a_n _ _ _ (proj1 Hd)) as Hn. unfold DirOK.
  rewrite (page_there d n _ (proj1 Hd)) by lia.
  pose proof (t_tag _ _ _ Ht 0 ltac:(lia)) as E0. change (AFS_PAGESIZE * 0 + 2) with 2 in E0. rewrite E0. cbn [Z.eqb Pos.eqb negb].
  pose proof (check_map_ok d n _ (proj1 Hd) (Z.to_nat MAXPAGES) dots_used 0 ltac:(lia) ltac:(by cbn)) as Em.
  rewrite bool_decide_eq_false_2, Z.min_l in Em by lia. rewrite Em, (used_pages d n _ (proj1 Hd)).
  rewrite (proj2 (Z.ltb_ge _ _)) by lia.
  rewrite (check_pages_ok d n _ (proj1 Hd)) by (apply Ht || lia).
  destruct (check_chains_ok derrno (Z.to_nat NHASHENT) 0 _ ltac:(by cbn) (walked_start n)) as (s & E & Hw).
  change (Z.of_nat 0) with 0 in E. rewrite E, (w_dot _ _ _ Hw), (w_dotdot _ _ _ Hw).
  destruct Hdots as ((e1 & He1 & E1) & (e2 & He2 & E2) & _).
  rewrite (proj2 (existsb_exists (fun e => eb e =? 13) (concat C))) by (exists e1; rewrite <- list_elem_of_In; split; [done | lia]).
  rewrite (proj2 (existsb_exists (fun e => eb e =? 14) (concat C))) by (exists e2; rewrite <- list_elem_of_In; split; [done | lia]).
  cbn [negb orb]. apply compare_ok; [done | lia | lia].
Qed.
End accept.

(** ** The operations keep what the check reads *)

Definition off_tag (a : Z) (k : nat) : Prop :=
  forall x, a <= x < a + Z.of_nat k -> x mod 2048 < 2 \/ 4 <= x mod 2048.

(** Memory holds bytes, and the pages their tags. *)
Definition sane (d : dir) : Prop :=
  (forall x, 0 <= rd8 d x < 256) /\ forall p, p ∈ dpages d -> 0 <= p -> rd16 d (AFS_PAGESIZE * p + 2) = 1234.

Lemma bytes_store a l d : (forall x, 0 <= rd8 d x < 256) -> forall x, 0 <= rd8 (store a l d) x < 256.
Proof. intros H x. rewrite rd8_store. case_decide; [unfold u8; zdiv | done]. Qed.

Lemma sane_store a l d : sane d -> off_tag a (length l) -> sane (store a l d).
Proof.
  intros [H1 H2] Ho. split; [by apply bytes_store |]. intros p Hp H0. rewrite <- (H2 p Hp H0).
  apply rd16_ext. intros x Hx. apply rd8_store_ne. unfold AFS_PAGESIZE in Hx.
  destruct (decide (x < a)); [by left | right]. destruct (decide (a + Z.of_nat (length l) <= x)); [done |].
  specialize (Ho x ltac:(lia)). assert (x mod 2048 = x - 2048 * p); [| lia].
  symmetry. apply (Z.mod_unique_pos x 2048 p); lia.
Qed.

Lemma off_tag_at a k p r : a = 2048 * p + r -> 0 <= r -> r + Z.of_nat k <= 2048 -> r + Z.of_nat k <= 2 \/ 4 <= r -> off_tag a k.
Proof.
  intros -> Hr Hk Hc x Hx. assert (x mod 2048 = x - 2048 * p); [| lia].
  symmetry. apply (Z.mod_unique_pos x 2048 p); lia.
Qed.

Lemma sane_blobs f first n : (forall j d, 0 <= j < 64 -> sane d -> sane (f j d)) ->
  forall d, 0 <= first -> first + Z.of_nat n <= 64 -> sane d -> sane (for_blobs f first n d).
Proof.
  intros Hf d H0 Hn Hd. induction n as [| n IH]; [done |]. rewrite for_blobs_S. apply Hf; [lia |]. apply IH. lia.
Qed.

Lemma sane_bit p j v d : 0 <= j < 64 -> sane d -> sane (store (freebitmap (AFS_PAGESIZE * p) (Z.shiftr j 3)) [v] d).
Proof.
  intros Hj Hd. apply sane_store; [done |]. rewrite Z.shiftr_div_pow2 by lia. change (2 ^ 3) with 8.
  apply (off_tag_at _ _ p (5 + j / 8)); unfold freebitmap, AFS_PAGESIZE; cbn [length]; zdiv.
Qed.

Lemma sane_AddPage i d : 0 <= i -> sane d -> sane (AddPage i d).
Proof.
  intros Hi Hd. unfold AddPage. set (d1 := Dir _ _). set (d2 := wr16 (AFS_PAGESIZE * i + 2) 1234 d1).
  assert (Hs : sane d2).
  { destruct Hd as [H1 H2]. split.
    - apply bytes_store. intros x. apply (H1 x).
    - intros p Hp H0. destruct (decide (p = i)) as [-> | Hne]; [by apply rd16_wr16 |].
      unfold d2, d1, wr16 in *. cbn [dpages store] in Hp. transitivity (rd16 d (AFS_PAGESIZE * p + 2)).
      + apply rd16_ext. intros x Hx. rewrite rd8_store_ne; [done |]. cbn [length]. unfold AFS_PAGESIZE in *. lia.
      + apply H2; [set_solver | done]. }
  assert (Hh : forall a l, sane d2 -> off_tag a (length l) -> sane (store a l d2)) by (intros; by apply sane_store).
  apply sane_store; [apply sane_store |].
  - destruct (0 <? i); [| done]. apply Hh; [done |].
    apply (off_tag_at _ _ i 0); unfold AFS_PAGESIZE; cbn [length]; lia.
  - apply (off_tag_at _ _ i 4); unfold AFS_PAGESIZE; cbn [length]; lia.
  - apply (off_tag_at _ _ i 5); unfold freebitmap, AFS_PAGESIZE; cbn [length]; lia.
Qed.

Lemma sane_count v d : sane d -> sane (wr16 0 v d).
Proof. intros Hd. apply sane_store; [done |]. apply (off_tag_at _ _ 0 0); cbn [length]; lia. Qed.

Lemma sane_allo i v d : 0 <= i < MAXPAGES -> sane d -> sane (store (alloMap i) [v] d).
Proof.
  intros Hi Hd. apply sane_store; [done |]. unfold MAXPAGES in Hi.
  apply (off_tag_at _ _ 0 (32 + i)); unfold alloMap; cbn [length]; lia.
Qed.

Lemma sane_grow i d : 0 <= i -> sane d -> sane (grow i d).
Proof.
  intros Hi Hd. unfold grow. destruct (Z.leb_spec MAXPAGES i).
  - destruct (rd16 d 0 =? 0); (destruct (_ <? i); [apply sane_count, sane_AddPage |]; auto using sane_count).
  - destruct (_ =? EPP); [| done]. apply sane_count, sane_allo; [lia |]. by apply sane_AddPage.
Qed.

Lemma first_fit_range d base nb fuel : 0 <= nb -> forall j j', 0 <= j -> first_fit d base nb j fuel = Some j' ->
  0 <= j' /\ j' + nb <= 64.
Proof.
  intros Hnb. induction fuel as [| fuel IH]; intros j j' Hj E; cbn [first_fit] in E; [done |].
  unfold EPP in E. destruct (Z.leb_spec j (64 - nb)); [| done].
  destruct (forallb _ _); [injection E as <-; lia |]. apply (IH (j + 1)); [lia | done].
Qed.

Lemma sane_find_page nb fuel : 1 <= nb <= 51 -> forall i d, 0 <= i -> sane d -> sane (find_page nb i fuel d).2.
Proof.
  intros Hnb. induction fuel as [| fuel IH]; intros i d Hi Hd; cbn [find_page]; [done |].
  destruct (BIGMAXPAGES <=? i); [done |]. destruct (_ || _); [| apply IH; [lia | done]].
  pose proof (sane_grow i d Hi Hd) as Hg. unfold DRead. destruct (decide _); [| done].
  destruct (find_run _ _ _) as [j |] eqn:Ej; [| apply IH; [lia | done]].
  assert (Hj : 0 <= j /\ j + nb <= 64).
  { unfold find_run in Ej. rewrite (proj2 (Z.ltb_ge EPP nb)) in Ej by (unfold EPP; lia).
    by eapply first_fit_range; [| | exact Ej]; lia. }
  cbn [snd]. apply sane_blobs; [| lia | lia |].
  - intros k d' Hk. by apply sane_bit.
  - destruct (Z.ltb_spec i MAXPAGES); [by apply sane_allo | done].
Qed.

Lemma sane_FindBlobs nb d : 1 <= nb <= 51 -> sane d -> sane (FindBlobs nb d).2.
Proof. intros Hnb Hd. unfold FindBlobs. destruct (DRead d 0); [| done]. by apply sane_find_page. Qed.

Lemma sane_FreeBlobs b nb d n : placed n (b, nb) -> sane d -> sane (FreeBlobs b nb d).
Proof.
  intros (P1 & P2 & P3 & P4 & P5) Hd. cbn [fst snd] in *. unfold FreeBlobs, EPP.
  pose proof (blob_split b P1). destruct (DRead d 0); [| done].
  set (d1 := if _ <? _ then _ else d).
  assert (Hd1 : sane d1) by (unfold d1; destruct (Z.ltb_spec (b / 64) MAXPAGES); [apply sane_allo; [lia | done] | done]).
  unfold DRead. destruct (decide _); [| done]. apply sane_blobs; [| lia | lia | done].
  intros k d' Hk. by apply sane_bit.
Qed.

Lemma FreeBlobs_meta b nb d n : placed n (b, nb) -> same_but meta d (FreeBlobs b nb d).
Proof.
  intros (P1 & P2 & P3 & P4 & P5). cbn [fst snd] in *. unfold FreeBlobs, EPP.
  pose proof (blob_split b P1). destruct (DRead d 0); [| apply same_but_refl].
  set (d1 := if _ <? _ then _ else d).
  assert (H1 : same_but meta d d1).
  { unfold d1. destruct (Z.ltb_spec (b / 64) MAXPAGES); [| apply same_but_refl].
    apply same_but_store. unfold alloMap, MAXPAGES in *. cbn [length]. intros x Hx. left. lia. }
  unfold DRead. destruct (decide _); [| exact H1]. eapply same_but_trans; [exact H1 |].
  set (d2 := for_blobs _ _ _ _). assert (H2 : same_but (bitmap (b / 64)) d1 d2).
  { apply for_blobs_same; [| lia | lia]. intros k d' Hk. apply store_bit_same; lia. }
  intros x Hx. apply H2. intros Hb. apply Hx, (bitmap_meta (b / 64)); [lia | done].
Qed.

(** The bytes of an entry and of the table are not tags. *)
Lemma sane_entry n b nb a l d : placed n (b, nb) -> 32 * b <= a -> a + Z.of_nat (length l) <= 32 * (b + nb) ->
  sane d -> sane (store a l d).
Proof.
  intros (P1 & P2 & P3 & P4 & P5) Ha Hl Hd. cbn [fst snd] in *. pose proof (blob_split b P1). pose proof (hdr_range (b / 64)).
  apply sane_store; [done |]. apply (off_tag_at _ _ (b / 64) (a - 2048 * (b / 64))); lia.
Qed.

Lemma sane_table a l d : 160 <= a -> a + Z.of_nat (length l) <= 416 -> sane d -> sane (store a l d).
Proof. intros Ha Hl Hd. apply sane_store; [done |]. apply (off_tag_at _ _ 0 a); lia. Qed.

(** What [Create] writes when it has found room at [b]. *)
Definition link_in (b : Z) (name : list Z) (f : fid) (d : dir) : dir :=
  let ep := 32 * b in
  let d2 := store (e_name ep) (name ++ [0]) (wr_fid ep f (store ep [FFIRST] d)) in
  let d3 := wr16 (e_next ep) (rd16 d2 (hashTable (DirHash name))) d2 in
  wr16 (hashTable (DirHash name)) b d3.

Lemma Create_link d n C name f : dir_ok d n C -> name_ok name -> contents C !! name = None ->
  let '(b, d1) := FindBlobs (nblobs name) d in
  Create name f d = (EFBIG, d) \/
  Create name f d = (0, link_in b name f d1) /\ same_but meta d d1
  /\ exists n', n <= n' <= n + 1 /\ alloc_ok d1 n' ((b, nblobs name) :: map run (concat C)).
Proof.
  intros Hd Hn Hnone. unfold Create. rewrite (name_neq_nil name Hn).
  pose proof (FindItem_rep d n C name Hd Hn) as HF.
  destruct (FindItem d name) as [[tp lp] |]; [destruct HF as (e & _ & _ & _ & ? & _); congruence |].
  fold (nblobs name). destruct (nblobs_spec name Hn) as [Hk _].
  pose proof (FindBlobs_spec d n _ (nblobs name) (proj1 Hd) ltac:(lia)) as HB.
  destruct (FindBlobs (nblobs name) d) as [b d1].
  destruct HB as [(-> & -> & _) | (Hb & HS & n' & Hn' & HA)]; [by left | right].
  destruct (Z.ltb_spec b 0); [lia |]. pose proof (a_place _ _ _ HA) as HP. apply Forall_cons in HP as [Hpl _].
  pose proof (placed_head _ _ Hpl) as Hr. cbn [fst] in Hr. rewrite (GetBlob_spec d1 n' _ b HA) by lia.
  split; [| split; [done | by exists n']]. unfold DRead. rewrite decide_True; [done |].
  change (0 ∈ dpages d1). apply (a_pages _ _ _ HA). pose proof (a_n _ _ _ HA). lia.
Qed.

Lemma link_keeps n b name f d : placed n (b, nblobs name) -> name_ok name -> sane d ->
  sane (link_in b name f d)
  /\ same_but (fun x => table_bytes x \/ 32 * b <= x < 32 * (b + nblobs name)) d (link_in b name f d)
  /\ rd8 (link_in b name f d) (32 * b) = FFIRST.
Proof.
  intros Hp Hn Hd. destruct (nblobs_spec name Hn) as [Hk1 Hk2]. pose proof (DirHash_range name) as Hh.
  pose proof (run_bytes n b (nblobs name) (32 * b) Hp ltac:(lia)) as [_ Htb].
  pose proof (placed_head _ _ Hp) as Hr. cbn [fst] in Hr.
  assert (H413 : 416 <= 32 * b).
  { destruct Hp as (P1 & _ & _ & P4 & _). cbn [fst] in *. pose proof (blob_split b P1).
    unfold hdr, DHE in P4. destruct (Z.eqb_spec (b / 64) 0); lia. }
  unfold link_in. cbv zeta. set (d2 := store (e_name (32 * b)) _ _). set (v := rd16 d2 _).
  assert (Hl : length (name ++ [0]) = (length name + 1)%nat) by (by rewrite length_app).
  split; [| split].
  - assert (Hent : forall a l d, 32 * b <= a -> a + Z.of_nat (length l) <= 32 * (b + nblobs name) -> sane d -> sane (store a l d))
      by (intros; by eapply sane_entry).
    unfold wr16. apply sane_table; [unfold hashTable; lia | unfold hashTable; cbn [length]; lia |].
    apply Hent; [unfold e_next; lia | unfold e_next; cbn [length]; lia |].
    unfold d2, wr_fid, wr32, e_name, e_vnode, e_vunique.
    repeat (apply Hent; [lia | rewrite ?Hl, ?length_be_bytes; cbn [length]; lia |]). done.
  - unfold d2, wr16, wr_fid, wr32, e_name, e_vnode, e_vunique, e_next, hashTable, table_bytes.
    do 6 (eapply same_but_trans; [| apply same_but_store; rewrite ?Hl, ?length_be_bytes; cbn [length]; lia]).
    apply same_but_refl.
  - unfold d2, wr16, wr_fid, wr32, e_name, e_vnode, e_vunique, e_next, hashTable.
    rewrite !rd8_store_ne by (rewrite ?Hl, ?length_be_bytes; cbn [length]; lia).
    by rewrite rd8_store1, decide_True.
Qed.

Lemma tagged_sane d n C : dir_ok d n C -> tagged d n C -> sane d.
Proof.
  intros Hd [T1 T2 T3]. split; [done |]. intros p Hp _. apply T1. by apply (a_pages _ _ _ (proj1 Hd)).
Qed.

Lemma sane_tagged d n C : dir_ok d n C -> sane d -> (forall e, e ∈ concat C -> rd8 d (ent_addr e) = FFIRST) ->
  tagged d n C.
Proof.
  intros Hd [S1 S2] Hf. split; [| done | done]. intros p Hp. apply S2; [| lia]. by apply (a_pages _ _ _ (proj1 Hd)).
Qed.

Lemma flag_byte e : name_ok (en e) -> ent_bytes e (ent_addr e).
Proof. intros Hn. destruct (nblobs_spec _ Hn) as [Hk _]. unfold ent_bytes, ent_addr. lia. Qed.

(** A directory as the operations make it: [dir_rep] with the dots in their
    places and what only the check reads. *)
Definition valid (d : dir) (M : gmap (list Z) fid) : Prop :=
  exists n C, dir_ok d n C /\ contents C = M /\ tagged d n C /\ dots_first C.

Lemma valid_rep d M : valid d M -> dir_rep d M.
Proof. intros (n & C & Hd & E & _). by exists n, C. Qed.

(** The tags and flags after an entry is added. *)
Lemma Create_tagged d n C name f n' C' b : dir_ok d n C -> tagged d n C -> name_ok name -> contents C !! name = None ->
  (Create name f d).1 = 0 -> dir_ok (Create name f d).2 n' C' -> b = (FindBlobs (nblobs name) d).1 ->
  concat C' ≡ₚ Ent b name (put f) :: concat C -> tagged (Create name f d).2 n' C'.
Proof.
  intros Hd Ht Hn Hnone Hc Hd' -> HE. pose proof (Create_link d n C name f Hd Hn Hnone) as HL.
  destruct (nblobs_spec name Hn) as [Hk _].
  pose proof (sane_FindBlobs (nblobs name) d ltac:(lia) (tagged_sane d n C Hd Ht)) as Hs1.
  destruct (FindBlobs (nblobs name) d) as [b d1]. cbn [fst snd] in *.
  destruct HL as [HL | (HL & HS & n1 & Hn1 & HA)]; [by rewrite HL in Hc |]. rewrite HL in *. cbn [fst snd] in *.
  pose proof (a_place _ _ _ HA) as HP. apply Forall_cons in HP as [Hp HP].
  destruct (link_keeps n1 b name f d1 Hp Hn Hs1) as (K1 & K2 & K3).
  apply sane_tagged; [done | done |]. intros e He. rewrite HE in He. apply elem_of_cons in He as [-> | He]; [exact K3 |].
  pose proof (flag_byte e (ent_name_ok d n C Hd e He)) as Hf.
  destruct (run_bytes n (eb e) (nblobs (en e)) (ent_addr e) (entry_run d n C Hd e He) Hf) as [Hm Htb].
  rewrite K2, HS; [by apply (t_flag _ _ _ Ht) | done |]. intros [? | Hx]; [done |].
  by apply (runs_apart b (nblobs name) (map run (concat C)) (run e) (ent_addr e) (ent_addr e) (a_disj _ _ _ HA)
              (list_elem_of_fmap_2 run _ _ He) Hx Hf).
Qed.

Lemma Create_valid d M name f : valid d M -> name_ok name -> M !! name = None -> (Create name f d).1 = 0 ->
  valid (Create name f d).2 (<[name := put f]> M).
Proof.
  intros (n & C & Hd & <- & Ht & Hdt) Hn Hnone Hc. pose proof (Create_new d n C name f Hd Hn Hnone) as HC.
  pose proof (fun n' C' b => Create_tagged d n C name f n' C' b Hd Ht Hn Hnone Hc) as Htag.
  destruct (Create name f d) as [code d']. cbn [fst snd] in *. subst code.
  destruct HC as [[_ (n' & C' & b & Hd' & _ & HE & Hb)] | [? _]]; [| done].
  exists n', C'. split; [done |]. split; [| split; [by eapply Htag |]].
  { apply (contents_cons C C' (Ent b name (put f))); [by apply (names_nodup d'), Hd' | done]. }
  destruct Hdt as ((e1 & He1 & E1) & (e2 & He2 & E2) & Hall). split; [| split].
  - exists e1. split; [rewrite HE; by right | done].
  - exists e2. split; [rewrite HE; by right | done].
  - intros e He. rewrite HE in He. apply elem_of_cons in He as [-> | He]; [| by apply Hall].
    pose proof (chain_heads d' n' C' Hd') as HN. rewrite HE in HN. cbn [map eb en] in *.
    apply NoDup_cons in HN as [HN _].
    split; intros ->; exfalso; apply HN; apply list_elem_of_fmap; [by exists e1 | by exists e2].
Qed.

(** ** Deleting and changing *)

Lemma sane_pointer d n C h l1 x l2 v : dir_ok d n C -> C !! h = Some (l1 ++ x :: l2) -> sane d ->
  sane (wr16 (ptr (hashTable (Z.of_nat h)) l1) v d).
Proof.
  intros Hd Hl Hs. destruct (lp_place h l1) as [-> | (e & He & ->)].
  - pose proof (slot_range d n C Hd h l1 l2 x Hl). pose proof (lookup_lt_Some _ _ _ Hl) as Hlt.
    rewrite (c_len _ _ (proj2 Hd)) in Hlt. apply sane_table; [lia | unfold hashTable; cbn [length]; lia | done].
  - assert (He' : e ∈ concat C) by (apply (in_chain C h l1 l2 x Hl), elem_of_app; by left).
    destruct (nblobs_spec _ (ent_name_ok d n C Hd e He')) as [Hk _].
    apply (sane_entry n (eb e) (nblobs (en e))); [by apply (entry_run d n C) | | | done];
      unfold e_next, ent_addr; cbn [length]; lia.
Qed.

Lemma pointer_flags d n C h l1 x l2 v e : dir_ok d n C -> C !! h = Some (l1 ++ x :: l2) -> e ∈ concat C ->
  rd8 (wr16 (ptr (hashTable (Z.of_nat h)) l1) v d) (ent_addr e) = rd8 d (ent_addr e).
Proof.
  intros Hd Hl He. apply wr16_same. pose proof (ent_head d n C Hd e He).
  destruct (lp_place h l1) as [-> | (e' & He' & ->)].
  - pose proof (lookup_lt_Some _ _ _ Hl) as Hlt. rewrite (c_len _ _ (proj2 Hd)) in Hlt.
    unfold hashTable, ent_addr. lia.
  - unfold e_next, ent_addr. lia.
Qed.

Lemma Delete_valid d M name : valid d M -> name_ok name -> name ∉ dots -> is_Some (M !! name) ->
  (Delete name d).1 = 0 /\ valid (Delete name d).2 (delete name M).
Proof.
  intros (n & C & Hd & <- & Ht & Hdt) Hn Hnd [f Hf]. pose proof (FindItem_rep d n C name Hd Hn) as HF.
  destruct (FindItem d name) as [[tp lp] |]; [| congruence]. destruct HF as (e & He & En & _).
  destruct (Delete_found d n C name e Hd Hn He En) as (d' & C' & E & Hd' & HE & l1 & l2 & v & Hl & Ed).
  rewrite E. split; [done |]. exists n, C'. split; [done |].
  assert (Hsub : forall x, x ∈ concat C' -> x ∈ concat C) by (intros x Hx; rewrite HE; by right).
  split; [rewrite <- En; by apply contents_remove; [apply (names_nodup d), Hd |] |].
  cbn [snd]. rewrite Ed in *. split.
  - pose proof (entry_run d n C Hd e He) as Hp. apply sane_tagged; [done | |].
    + apply (sane_FreeBlobs _ _ _ n Hp). rewrite <- (Z2Nat.id (DirHash name)) by apply DirHash_range.
      apply (sane_pointer d n C _ l1 e l2); [done | done | by apply (tagged_sane d n C)].
    + intros x Hx. pose proof (Hsub x Hx) as Hx'. rewrite (FreeBlobs_meta _ _ _ n Hp).
      * rewrite <- (Z2Nat.id (DirHash name)) by apply DirHash_range.
        rewrite (pointer_flags d n C _ l1 e l2 v x Hd Hl Hx'). by apply (t_flag _ _ _ Ht).
      * apply (run_bytes n (eb x) (nblobs (en x))); [by apply (entry_run d n C) |].
        by apply flag_byte, (ent_name_ok d n C Hd).
  - destruct Hdt as ((e1 & He1 & E1) & (e2 & He2 & E2) & Hall).
    assert (Hkeep : forall y, y ∈ concat C -> en y ∈ dots -> y ∈ concat C').
    { intros y Hy Hyd. rewrite HE in Hy. apply elem_of_cons in Hy as [-> | Hy]; [by rewrite En in Hyd | done]. }
    split; [| split].
    + exists e1. split; [| done]. apply Hkeep; [done |]. rewrite (proj1 (Hall e1 He1) E1). unfold dots. set_solver.
    + exists e2. split; [| done]. apply Hkeep; [done |]. rewrite (proj2 (Hall e2 He2) E2). unfold dots. set_solver.
    + intros y Hy. by apply Hall, Hsub.
Qed.

Lemma ChangeFid_valid d M name old new : valid d M -> name_ok name -> is_Some (M !! name) ->
  (ChangeFid name old new d).1 = 0 /\ exists M', valid (ChangeFid name old new d).2 M' /\ dom M' = dom M.
Proof.
  intros (n & C & Hd & <- & Ht & Hdt) Hn [g Hg]. pose proof (FindItem_spec d n C Hd name Hn) as HF.
  unfold ChangeFid. destruct (FindItem d name) as [[tp lp] |]; [| by rewrite (contents_none C name HF) in Hg].
  destruct HF as (l1 & e & l2 & Hl & <- & -> & _). split; [done |]. cbn [snd].
  destruct (match old with Some (v, u) => _ | None => true end); [| by exists (contents C); split; [exists n, C |]].
  assert (He : e ∈ concat C) by (apply (in_chain C _ l1 l2 e Hl), elem_of_app; right; left).
  pose proof (fid_change d n C _ l1 e l2 new Hd Hl) as Hd'. set (C' := <[_ := _]> C) in *.
  set (C0 := <[Z.to_nat (DirHash (en e)) := l1 ++ l2]> C).
  assert (HE : concat C ≡ₚ e :: concat C0).
  { unfold C0. rewrite (concat_insert C _ _ _ Hl), (concat_split C _ _ Hl). by rewrite <- Permutation_middle. }
  assert (HE' : concat C' ≡ₚ Ent (eb e) (en e) (put new) :: concat C0).
  { unfold C0, C'. rewrite !(concat_insert C _ _ _ Hl). by rewrite <- Permutation_middle. }
  assert (Hsame : forall y, y ∈ concat C' -> exists x, x ∈ concat C /\ eb x = eb y /\ en x = en y).
  { intros y Hy. rewrite HE' in Hy. apply elem_of_cons in Hy as [-> | Hy]; [by exists e |].
    exists y. split; [rewrite HE; by right | done]. }
  assert (Hsame' : forall x, x ∈ concat C -> exists y, y ∈ concat C' /\ eb y = eb x /\ en y = en x).
  { intros x Hx. rewrite HE in Hx. apply elem_of_cons in Hx as [-> | Hx].
    - eexists. split; [rewrite HE'; by left | done].
    - exists x. split; [rewrite HE'; by right | done]. }
  exists (contents C'). split; [exists n, C'; split; [done |]; split; [done |]; split |].
  - apply sane_tagged; [done | |].
    + destruct (nblobs_spec _ (ent_name_ok d n C Hd e He)) as [_ Hk].
      pose proof (tagged_sane d n C Hd Ht) as Hs. pose proof (entry_run d n C Hd e He) as Hp.
      unfold wr_fid, wr32, e_vnode, e_vunique, ent_addr.
      do 2 (apply (sane_entry n (eb e) (nblobs (en e))); [exact Hp | lia | rewrite length_be_bytes; lia |]). done.
    + intros y Hy. destruct (Hsame y Hy) as (x & Hx & Eb & _). unfold ent_addr. rewrite <- Eb.
      rewrite wr_fid_same by (unfold ent_addr; lia). by apply (t_flag _ _ _ Ht).
  - destruct Hdt as ((e1 & He1 & E1) & (e2 & He2 & E2) & Hall). split; [| split].
    + destruct (Hsame' e1 He1) as (y & Hy & Eb & _). exists y. split; [done | congruence].
    + destruct (Hsame' e2 He2) as (y & Hy & Eb & _). exists y. split; [done | congruence].
    + intros y Hy. destruct (Hsame y Hy) as (x & Hx & <- & <-). by apply Hall.
  - unfold contents. rewrite !dom_list_to_map_L, !contents_keys. apply set_eq. intros x.
    rewrite !elem_of_list_to_set, !list_elem_of_fmap. split; intros (y & -> & Hy).
    + destruct (Hsame y Hy) as (z & Hz & _ & E). by exists z.
    + destruct (Hsame' y Hy) as (z & Hz & _ & E). by exists z.
Qed.

(** ** The new directory *)

Lemma first_fit_least d p k : 0 <= p -> k < 64 -> bit d (64 * p + k) = false ->
  forall fuel j, 0 <= j <= k -> (forall i, j <= i < k -> bit d (64 * p + i) = true) -> k - j < Z.of_nat fuel ->
  first_fit d (AFS_PAGESIZE * p) 1 j fuel = Some k.
Proof.
  intros Hp Hk Hfree. induction fuel as [| fuel IH]; intros j Hj Hset Hf; [lia |]. cbn [first_fit]. unfold EPP.
  rewrite (proj2 (Z.leb_le _ _)) by lia. change (Z.to_nat 1) with 1%nat. cbn [seq forallb]. rewrite andb_true_r, Z.add_0_r.
  rewrite bit_free_spec by lia. destruct (decide (j = k)) as [-> |]; [by rewrite Hfree |].
  rewrite Hset by lia. cbn [negb]. apply IH; [lia | intros i Hi; apply Hset; lia | lia].
Qed.

Lemma first_blob d n C k : dir_ok d n C -> 0 <= k < 64 -> bit d k = false ->
  (forall i, 0 <= i < k -> bit d i = true) -> (FindBlobs 1 d).1 = k.
Proof.
  intros Hd Hk Hfree Hset. pose proof (a_n _ _ _ (proj1 Hd)) as Hn.
  assert (Hfit : fits d 0 1 k).
  { split; [lia |]. split; [lia |]. intros i Hi. by replace (64 * 0 + (k + i)) with k by lia. }
  pose proof (fits_counted d n _ 0 1 k (proj1 Hd) ltac:(lia) ltac:(done) ltac:(lia) Hfit) as Hc.
  unfold FindBlobs. rewrite (page_there d n _ (proj1 Hd)) by lia.
  change (Z.to_nat (BIGMAXPAGES + 1)) with (S (Z.to_nat BIGMAXPAGES)). cbn [find_page].
  change (BIGMAXPAGES <=? 0) with false. rewrite (proj2 (Z.leb_le _ _) Hc), orb_true_r.
  rewrite (grow_old d n _ 0 (proj1 Hd)), (page_there d n _ (proj1 Hd)) by lia.
  unfold find_run. change (EPP <? 1) with false.
  rewrite (first_fit_least d 0 k) by (done || lia || (unfold EPP; lia)). cbn [fst]. lia.
Qed.

Lemma sane_empty d : dpages d ⊆ {[0]} -> (forall x, 0 <= rd8 d x < 256) -> sane (empty_dir d).
Proof.
  intros Hp Hb. unfold empty_dir. cbv zeta. split.
  - unfold wr16. do 6 apply bytes_store. apply Hb.
  - intros p Hpp _. assert (p = 0) as -> by (cbn [dpages store wr16] in Hpp; set_solver).
    change (AFS_PAGESIZE * 0 + 2) with 2.
    match goal with |- rd16 (store _ _ (store _ _ (store _ _ (store _ _ ?d2)))) 2 = _ => transitivity (rd16 d2 2) end.
    + apply rd16_ext. intros x Hx. unfold freebitmap, alloMap, hashTable.
      by rewrite !(rd8_store_ne _ _ _ x) by (rewrite ?length_replicate; cbn [length]; lia).
    + by apply rd16_wr16.
Qed.

(** Adding a name to a directory that has pages to add. *)
Lemma Create_fresh d n C name f b : dir_ok d n C -> n < BIGMAXPAGES -> tagged d n C -> name_ok name ->
  contents C !! name = None -> (FindBlobs (nblobs name) d).1 = b ->
  exists n' C', dir_ok (Create name f d).2 n' C' /\ n <= n' <= n + 1 /\ concat C' ≡ₚ Ent b name (put f) :: concat C
    /\ tagged (Create name f d).2 n' C'.
Proof.
  intros Hd Hm Ht Hn Hnone Eb. pose proof (Create_new d n C name f Hd Hn Hnone) as HC.
  pose proof (fun n' C' b => Create_tagged d n C name f n' C' b Hd Ht Hn Hnone) as Htag.
  destruct (Create name f d) as [code d']. cbn [fst snd] in *.
  destruct HC as [[-> (n' & C' & b' & Hd' & Hle & HE & ->)] | (_ & _ & [Hs _])].
  - rewrite Eb in *. exists n', C'. split; [done |]. split; [done |]. split; [done |]. by apply (Htag n' C' b).
  - rewrite (rep_size d n C Hd) in Hs. lia.
Qed.

Lemma MakeDir_valid d me parent : dpages d ⊆ {[0]} -> (forall x, 0 <= rd8 d x < 256) ->
  valid (MakeDir me parent d) {[ [46] := put me; [46; 46] := put parent ]}
  /\ Z.of_nat (size (dpages (MakeDir me parent d))) <= 3.
Proof.
  intros Hp Hb. destruct dot_ok as [N1 N2]. pose proof (empty_ok d Hp) as H0.
  assert (Ht0 : tagged (empty_dir d) 1 (replicate 128 [])).
  { apply sane_tagged; [done | by apply sane_empty |]. intros e He. by apply not_elem_of_nil in He. }
  destruct (Create_fresh (empty_dir d) 1 _ [46] me 13 H0 ltac:(done) Ht0 N1 eq_refl) as (n1 & C1 & H1 & Hn1 & E1 & Ht1).
  { apply (first_blob _ 1 (replicate 128 [])); [done | lia | by rewrite empty_bits by lia |].
    intros i Hi. rewrite empty_bits by lia. apply Z.ltb_lt; lia. }
  set (d1 := (Create [46] me (empty_dir d)).2) in *. change (concat (replicate 128 [])) with (@nil ent) in E1.
  assert (Hc1 : contents C1 = {[ [46] := put me ]}).
  { rewrite (contents_cons (replicate 128 []) C1 _ (names_nodup d1 C1 (proj2 H1)) E1). done. }
  assert (Hbits : forall b, 0 <= b < 64 -> bit d1 b = (b <? 14)).
  { intros b Hbb. apply eq_true_iff_eq. rewrite (a_bits _ _ _ (proj1 H1) b) by lia.
    rewrite elem_of_blobs, Z.ltb_lt. rewrite Z.div_small, Z.mod_small by lia. unfold hdr, DHE. cbn [Z.eqb].
    assert (Hr : forall r, r ∈ map run (concat C1) <-> r = (13, 1)).
    { intros r. rewrite E1. cbn [map]. rewrite list_elem_of_singleton. done. }
    split.
    - intros [? | (r & Hr' & Hbr)]; [lia |]. apply Hr in Hr' as ->. cbn [fst snd] in Hbr. lia.
    - intros Hlt. destruct (decide (b = 13)) as [-> |]; [right | left; lia]. exists (13, 1). split; [by apply Hr | cbn; lia]. }
  destruct (Create_fresh d1 n1 C1 [46; 46] parent 14 H1 ltac:(unfold BIGMAXPAGES; lia) Ht1 N2) as (n2 & C2 & H2 & Hn2 & E2 & Ht2).
  { rewrite Hc1. by rewrite lookup_singleton_ne. }
  { apply (first_blob _ n1 C1); [done | lia | by rewrite Hbits by lia |].
    intros i Hi. rewrite Hbits by lia. apply Z.ltb_lt. lia. }
  split; [| pose proof (rep_size _ n2 C2 H2) as Hsz; change (Create _ _ d1).2 with (MakeDir me parent d) in Hsz; lia].
  exists n2, C2. split; [exact H2 |]. split; [| split; [exact Ht2 |]].
  - rewrite (contents_cons C1 C2 _ (names_nodup _ C2 (proj2 H2)) E2), Hc1. cbn [en ef].
    by rewrite <- !insert_empty, insert_insert_ne.
  - assert (Hall : forall e, e ∈ concat C2 <-> e = Ent 14 [46; 46] (put parent) \/ e = Ent 13 [46] (put me)).
    { intros e. rewrite E2, elem_of_cons, E1, list_elem_of_singleton. done. }
    split; [| split].
    + exists (Ent 13 [46] (put me)). split; [apply Hall; by right | done].
    + exists (Ent 14 [46; 46] (put parent)). split; [apply Hall; by left | done].
    + intros e [-> | ->]%Hall; split; done.
Qed.

(** ** What [DirOK] accepts *)

Lemma valid_fine d M derrno : valid d M -> DirOK derrno d = Fine.
Proof. intros (n & C & Hd & _ & Ht & Hdt). by apply (DirOK_fine d n C). Qed.

(** Creating in a valid directory: it adds the name, or changes nothing. *)
Lemma Create_any d M name f : valid d M -> name = [] \/ name_ok name ->
  let '(code, d') := Create name f d in
  code = 0 /\ name_ok name /\ M !! name = None /\ valid d' (<[name := put f]> M) \/ code <> 0 /\ d' = d.
Proof.
  intros Hv [-> | Hn]; [by right |]. destruct (M !! name) as [g |] eqn:E.
  - destruct Hv as (n & C & Hd & <- & _). unfold Create. rewrite (name_neq_nil name Hn).
    pose proof (FindItem_rep d n C name Hd Hn) as HF. destruct (FindItem d name) as [[tp lp] |]; [by right | congruence].
  - pose proof (Create_valid d M name f Hv Hn E) as HC. pose proof (rep_create d M name f (valid_rep d M Hv) Hn E) as HR.
    destruct (Create name f d) as [code d']. destruct HR as [[-> _] | (-> & -> & _)]; [left | by right].
    split; [done |]. split; [done |]. split; [done |]. by apply HC.
Qed.

Inductive op := OpCreate (name : list Z) (f : fid) | OpDelete (name : list Z)
  | OpChange (name : list Z) (old : option fid) (new : fid).

(** Names are strings the file server takes, and it does not delete the dots. *)
Definition op_ok (o : op) : Prop :=
  match o with
  | OpCreate name _ | OpChange name _ _ => name_ok name
  | OpDelete name => name_ok name /\ name ∉ dots
  end.

Definition run_op (d : dir) (o : op) : dir :=
  match o with
  | OpCreate name f => (Create name f d).2
  | OpDelete name => (Delete name d).2
  | OpChange name old new => (ChangeFid name old new d).2
  end.

Lemma run_op_valid o d M : valid d M -> op_ok o -> exists M', valid (run_op d o) M'.
Proof.
  intros Hv Ho. destruct o as [name f | name | name old new]; cbn [run_op op_ok] in *.
  - pose proof (Create_any d M name f Hv (or_intror Ho)) as HC. destruct (Create name f d) as [code d'].
    destruct HC as [(_ & _ & _ & HC) | [_ ->]]; eauto.
  - destruct Ho as [Hn Hnd]. destruct (M !! name) as [g |] eqn:E.
    + destruct (Delete_valid d M name Hv Hn Hnd ltac:(by exists g)) as [_ H]. eauto.
    + destruct (valid_rep d M Hv) as (n & C & Hd & Ec). pose proof (FindItem_rep d n C name Hd Hn) as HF. rewrite Ec in HF.
      unfold Delete. destruct (FindItem d name) as [[tp lp] |]; [| by exists M].
      destruct HF as (e & _ & _ & _ & ? & _). congruence.
  - destruct (M !! name) as [g |] eqn:E.
    + destruct (ChangeFid_valid d M name old new Hv Ho ltac:(by exists g)) as (_ & M' & H & _). eauto.
    + destruct (valid_rep d M Hv) as (n & C & Hd & Ec). pose proof (FindItem_rep d n C name Hd Ho) as HF. rewrite Ec in HF.
      unfold ChangeFid. destruct (FindItem d name) as [[tp lp] |]; [| by exists M].
      destruct HF as (e & _ & _ & _ & ? & _). congruence.
Qed.

(** C21. The check accepts every directory the operations make: whatever is
    created, deleted and changed in a new directory, as long as its dots are not
    deleted. *)
Theorem DirOK_accepts derrno d me parent ops :
  dpages d ⊆ {[0]} -> (forall x, 0 <= rd8 d x < 256) -> Forall op_ok ops ->
  DirOK derrno (fold_left run_op ops (MakeDir me parent d)) = Fine.
Proof.
  intros Hp Hb Ho. pose proof (MakeDir_valid d me parent Hp Hb) as [Hv _].
  revert Hv. generalize (MakeDir me parent d). generalize ({[ [46] := put me; [46; 46] := put parent ]} : gmap (list Z) fid).
  induction Ho as [| o ops Ho _ IH]; intros M e Hv; cbn [fold_left]; [by eapply valid_fine |].
  destruct (run_op_valid o e M Hv Ho) as [M' Hv']. by eapply IH.
Qed.

(** ** What [DirSalvage] makes *)

Section salvage.
Context (derrno : Z) (d : dir) (Hbytes : forall x, 0 <= rd8 d x < 256).

Lemma read_str_bytes fuel : forall a, Forall (fun c => 0 < c < 256) (read_str d a fuel).
Proof.
  induction fuel as [| fuel IH]; intros a; cbn [read_str]; [constructor |].
  pose proof (Hbytes a). destruct (Z.eqb_spec (rd8 d a) 0); constructor; [lia | apply IH].
Qed.

Lemma salvage_name_ok a : salvage_name (name_at d a) = [] \/ name_ok (salvage_name (name_at d a)).
Proof.
  unfold salvage_name. set (s := take _ _). destruct s as [| c s'] eqn:E; [by left | right]. rewrite <- E. split.
  - apply Forall_take, read_str_bytes.
  - split; [rewrite E; simpl; lia |]. unfold s. rewrite length_take. unfold MAXENAME. lia.
Qed.

Lemma salvage_chain_valid fuel up : forall entry t M c t', valid t M ->
  salvage_chain derrno d up entry t fuel = Some (c, t') -> exists M', valid t' M' /\ M ⊆ M'.
Proof.
  induction fuel as [| fuel IH]; intros entry t M c t' Hv E; cbn [salvage_chain] in E; [done |].
  destruct (entry =? 0); [injection E as _ <-; eauto |]. destruct (_ || _); [injection E as _ <-; eauto |].
  destruct (GetBlob d entry) as [ep |]; [| injection E as _ <-; eauto].
  destruct (bool_decide _ || _); [by eapply IH |].
  pose proof (Create_any t M _ (rd_fid d ep) Hv (salvage_name_ok (e_name ep))) as HC.
  destruct (Create _ _ t) as [code t1]. destruct HC as [(-> & _ & Hnone & HC) | [Hc ->]].
  - cbn [Z.eqb negb] in E. destruct (IH _ _ _ _ _ HC E) as (M' & Hv' & Hs). exists M'. split; [done |].
    etrans; [by apply insert_subseteq | done].
  - destruct (Z.eqb_spec code 0); [done |]. injection E as _ <-. eauto.
Qed.

Lemma salvage_chains_valid fuel up n : forall i t M c t', valid t M ->
  salvage_chains derrno d up i t n fuel = Some (c, t') -> exists M', valid t' M' /\ M ⊆ M'.
Proof.
  induction n as [| n IH]; intros i t M c t' Hv E; cbn [salvage_chains] in E; [injection E as _ <-; eauto |].
  destruct (salvage_chain _ _ _ _ _ _) as [[[c1 |] t1] |] eqn:E1; [| | done];
    destruct (salvage_chain_valid _ _ _ _ _ _ _ Hv E1) as (M1 & Hv1 & H1); [injection E as _ <-; eauto |].
  destruct (IH _ _ _ _ _ Hv1 E) as (M' & Hv' & H'). exists M'. split; [done | by etrans].
Qed.
End salvage.

(** C22. Whatever the damage of the old directory, and whatever [DirSalvage]
    returns, the new one is a directory that the check accepts, with the dots it
    was told. *)
Theorem DirSalvage_sound derrno derrno' d t vn vu pvn pvu fuel code t' :
  (forall x, 0 <= rd8 d x < 256) -> dpages t ⊆ {[0]} -> (forall x, 0 <= rd8 t x < 256) ->
  DirSalvage derrno d t vn vu pvn pvu fuel = Some (code, t') ->
  DirOK derrno' t' = Fine
  /\ exists M, dir_rep t' M /\ M !! [46] = Some (put (vn, vu)) /\ M !! [46; 46] = Some (put (pvn, pvu)).
Proof.
  intros Hd Hp Ht E. pose proof (MakeDir_valid t (vn, vu) (pvn, pvu) Hp Ht) as [Hv _]. unfold DirSalvage in E.
  assert (G : exists M, valid t' M /\ {[ [46] := put (vn, vu); [46; 46] := put (pvn, pvu) ]} ⊆ M).
  { destruct (DRead d 0); [| injection E as _ <-; eauto]. by apply (salvage_chains_valid derrno d Hd _ _ _ _ _ _ _ _ Hv E). }
  destruct G as (M & Hv' & Hs). split; [by eapply valid_fine |]. exists M. split; [by apply valid_rep |].
  split; (eapply lookup_weaken; [| exact Hs]); [apply lookup_insert_eq |].
  rewrite lookup_insert_ne by done. apply lookup_singleton_eq.
Qed.

(** ** Nothing is lost from a directory that is not damaged *)

Lemma put_idem d a : put (rd_fid d a) = rd_fid d a.
Proof. unfold put, rd_fid, rd32, get32, s32. cbn [fst snd]. f_equal; zdiv. Qed.

(** Adding a name to a directory that can grow. *)
Lemma Create_grows d M name f : valid d M -> name_ok name -> M !! name = None ->
  Z.of_nat (size (dpages d)) < BIGMAXPAGES ->
  exists d', Create name f d = (0, d') /\ valid d' (<[name := put f]> M)
    /\ Z.of_nat (size (dpages d')) <= Z.of_nat (size (dpages d)) + 1.
Proof.
  intros Hv Hn Hnone Hs. pose proof (Create_valid d M name f Hv Hn Hnone) as HC.
  destruct Hv as (n & C & Hd & <- & _). pose proof (Create_new d n C name f Hd Hn Hnone) as HN.
  destruct (Create name f d) as [code d']. destruct HN as [[-> (n' & C' & b & Hd' & Hle & _)] | (_ & _ & [? _])]; [| lia].
  exists d'. split; [done |]. split; [by apply HC |]. rewrite (rep_size d n C Hd), (rep_size d' n' C' Hd'). lia.
Qed.

Section complete.
Context (derrno : Z) (d : dir) (n : Z) (C : list (list ent)) (Hd : dir_ok d n C) (base : gmap (list Z) fid).
Context (Hbase : dom base = dots) (Hsize : Z.of_nat (length (concat C)) + 3 <= BIGMAXPAGES).

(** The new directory after the entries [L] of the old one. *)
Definition rebuilt (t : dir) (L : list ent) : Prop :=
  valid t (base ∪ list_to_map (map pair_of L)) /\ Z.of_nat (size (dpages t)) <= 3 + Z.of_nat (length L).

Lemma rebuilt_snoc L e : NoDup (map en (L ++ [e])) ->
  base ∪ list_to_map (map pair_of (L ++ [e])) =
  if decide (en e ∈ dots) then base ∪ list_to_map (map pair_of L)
  else <[en e := ef e]> (base ∪ list_to_map (map pair_of L)).
Proof.
  intros HN. assert (E : list_to_map (map pair_of (L ++ [e])) = (<[en e := ef e]> (list_to_map (map pair_of L)) : gmap (list Z) fid)).
  { rewrite (list_to_map_proper _ (map pair_of (e :: L))); [done | by rewrite map_map |].
    apply Permutation_map. by rewrite <- Permutation_cons_append. }
  rewrite E. destruct (decide (en e ∈ dots)) as [He | He].
  - rewrite <- Hbase in He. apply elem_of_dom in He as [g Hg].
    apply map_eq. intros i. rewrite !lookup_union. destruct (decide (i = en e)) as [-> | ?].
    + rewrite Hg, lookup_insert_eq. by destruct (list_to_map _ !! en e).
    + by rewrite lookup_insert_ne by done.
  - symmetry. apply insert_union_r. rewrite <- Hbase in He. by apply not_elem_of_dom.
Qed.

Lemma salvage_chain_ok l : forall a t L fuel, linked d a l -> (forall e, e ∈ l -> e ∈ concat C) ->
  NoDup (map en (L ++ l)) -> (length (L ++ l) <= length (concat C))%nat -> rebuilt t L -> (length l < fuel)%nat ->
  exists t', salvage_chain derrno d n (rd16 d a) t fuel = Some (None, t') /\ rebuilt t' (L ++ l).
Proof.
  induction l as [| e l IH]; intros a t L fuel Hk Hin HN HL Hr Hf; (destruct fuel as [| fuel]; [simpl in Hf; lia |]);
    cbn [salvage_chain linked] in *.
  - rewrite Hk. cbn. exists t. by rewrite app_nil_r.
  - destruct Hk as [-> Hk]. pose proof (Hin e ltac:(left)) as He.
    pose proof (placed_head _ _ (entry_run d n C Hd e He)) as Hb. cbn [run fst] in Hb.
    pose proof (ent_name_ok d n C Hd e He) as Hn.
    assert (Hat : ent_at d e) by (apply elem_concat in He as (h & k & Hk' & He'); by apply (c_ents _ _ (proj2 Hd) h k e Hk' He')).
    destruct (Z.eqb_spec (eb e) 0); [lia |].
    assert (Eb : (eb e <? 0) || (n * EPP <=? eb e) = false)
      by (unfold EPP; apply orb_false_iff; split; [apply Z.ltb_ge | apply Z.leb_gt]; lia).
    rewrite Eb, (GetBlob_spec d n _ (eb e) (proj1 Hd)) by lia. change (32 * eb e) with (ent_addr e).
    rewrite (name_at_spec d _ (en e) (proj1 Hat) Hn).
    assert (Es : salvage_name (en e) = en e)
      by (apply firstn_all2; destruct Hn as [_ Hn]; change (Z.to_nat (MAXENAME - 1)) with 255%nat; lia).
    rewrite Es. assert (HN' : NoDup (map en (L ++ [e]))).
    { replace (L ++ e :: l) with ((L ++ [e]) ++ l) in HN by by rewrite <- app_assoc.
      rewrite map_app in HN. by apply NoDup_app in HN as (HN & _). }
    assert (Step : forall t1, rebuilt t1 (L ++ [e]) -> exists t', salvage_chain derrno d n (rd16 d (e_next (ent_addr e))) t1 fuel = Some (None, t') /\ rebuilt t' (L ++ e :: l)).
    { intros t1 Hr1. replace (L ++ e :: l) with ((L ++ [e]) ++ l) in * by by rewrite <- app_assoc.
      apply IH; try done; [| simpl in Hf; lia]. intros x Hx. apply Hin. by right. }
    destruct Hr as [Hv Hsz]. rewrite length_app in HL. cbn [length] in HL.
    pose proof (rebuilt_snoc L e HN') as Er.
    destruct (decide (en e ∈ dots)) as [Hdot | Hdot].
    + assert (Ed : bool_decide (en e = [46]) || bool_decide (en e = [46; 46]) = true).
      { unfold dots in Hdot. apply orb_true_iff. rewrite !bool_decide_eq_true. set_solver. }
      rewrite Ed. apply Step. split; [by rewrite Er |]. rewrite length_app. lia.
    + assert (Ed : bool_decide (en e = [46]) || bool_decide (en e = [46; 46]) = false).
      { unfold dots in Hdot. apply orb_false_iff. rewrite !bool_decide_eq_false. set_solver. }
      rewrite Ed. destruct (Create_grows t _ (en e) (rd_fid d (ent_addr e)) Hv Hn) as (t1 & E1 & Hv1 & Hsz1).
      * apply lookup_union_None. split; [apply not_elem_of_dom; by rewrite Hbase |].
        apply not_elem_of_list_to_map_1. rewrite map_app in HN'. cbn [map] in HN'.
        apply NoDup_app in HN' as (_ & HN' & _). rewrite map_map. intros Hx. apply (HN' (en e)); [done | left].
      * lia.
      * rewrite E1. cbn [Z.eqb negb]. apply Step. split.
        -- rewrite Er. rewrite put_idem, (proj2 Hat) in Hv1. done.
        -- rewrite length_app. cbn [length]. lia.
Qed.

Lemma salvage_chains_ok m fuel : (chain_fuel d < fuel)%nat -> forall k t, (k + m = 128)%nat ->
  rebuilt t (concat (take k C)) ->
  exists t', salvage_chains derrno d n (Z.of_nat k) t m fuel = Some (0, t') /\ rebuilt t' (concat C).
Proof.
  intros Hf. induction m as [| m IH]; intros k t Ek Hr; cbn [salvage_chains].
  - exists t. split; [done |]. by rewrite firstn_all2 in Hr by (rewrite (c_len _ _ (proj2 Hd)); lia).
  - destruct (lookup_lt_is_Some_2 C k) as [l Hl]; [rewrite (c_len _ _ (proj2 Hd)); lia |].
    assert (Et : concat (take (S k) C) = concat (take k C) ++ l)
      by (rewrite (take_S_r _ _ _ Hl), concat_app; cbn [concat]; by rewrite app_nil_r).
    pose proof (names_nodup d C (proj2 Hd)) as HN. pose proof (take_length C (S k)) as HL.
    rewrite <- (take_drop (S k) C), concat_app, map_app in HN. apply NoDup_app in HN as (HN & _). rewrite Et in HN, HL.
    destruct (salvage_chain_ok l (hashTable (Z.of_nat k)) t (concat (take k C)) fuel) as (t1 & E1 & Hr1).
    + by apply (c_linked _ _ (proj2 Hd)).
    + intros e He. apply elem_concat. eauto.
    + done.
    + lia.
    + done.
    + pose proof (chain_fuel_ok d n C Hd k l Hl). lia.
    + rewrite E1. rewrite <- Et in Hr1. replace (Z.of_nat k + 1) with (Z.of_nat (S k)) by lia. apply IH; [lia | done].
Qed.
End complete.

(** C23. From a directory that is not damaged, and can be no larger than the
    format allows, [DirSalvage] takes over every name with its identifier; only
    the dots are new. The fuel is more than the blobs there are. *)
Theorem DirSalvage_complete derrno d M t vn vu pvn pvu fuel :
  dir_rep d M -> Z.of_nat (size M) + 3 <= BIGMAXPAGES ->
  dpages t ⊆ {[0]} -> (forall x, 0 <= rd8 t x < 256) -> (chain_fuel d < fuel)%nat ->
  exists t', DirSalvage derrno d t vn vu pvn pvu fuel = Some (0, t')
  /\ dir_rep t' ({[ [46] := put (vn, vu); [46; 46] := put (pvn, pvu) ]} ∪ M).
Proof.
  intros (n & C & Hd & <-) Hs Hp Ht Hf. unfold DirSalvage. rewrite (dir_base d n C Hd), (used_pages d n _ (proj1 Hd)).
  pose proof (MakeDir_valid t (vn, vu) (pvn, pvu) Hp Ht) as [Hv Hsz]. set (base := {[ [46] := _; _ := _ ]}) in *.
  assert (Hbase : dom base = dots) by (unfold base; rewrite dom_insert_L, dom_singleton_L; done).
  assert (Hsize : Z.of_nat (length (concat C)) + 3 <= BIGMAXPAGES).
  { unfold contents in Hs. rewrite map_size_list_to_map in Hs; [by rewrite length_map in Hs |].
    change (NoDup (map fst (map (fun e => (en e, ef e)) (concat C)))). rewrite contents_keys. by apply (names_nodup d), Hd. }
  destruct (salvage_chains_ok derrno d n C Hd base Hbase Hsize (Z.to_nat NHASHENT) fuel Hf 0
              (MakeDir (vn, vu) (pvn, pvu) t) ltac:(by cbn)) as (t' & E & [Hv' _]).
  { split; [| cbn [take concat length]; lia]. change (list_to_map _) with (∅ : gmap (list Z) fid).
    by rewrite map_union_empty. }
  change (Z.of_nat 0) with 0 in E. exists t'. split; [done |]. by apply valid_rep in Hv'.
Qed.

(** ** What the check lets pass *)

(** A name of 16 characters takes two blobs, but its bytes end in the first;
    [b] has its entry in the second. *)
Definition long_name : list Z := replicate 16 97.
Definition overlapped : dir :=
  link_in 16 [98] (3, 3) (Create long_name (2, 2) sample).2.

(** The name "b" twice in its chain. *)
Definition doubled : dir :=
  link_in 16 [98] (4, 4) (FindBlobs 1 (Create [98] (3, 3) sample).2).2.

(** The check does not see that two entries share a blob: it accepts the
    directory, and after one of the two names is deleted, as [Delete] reports
    with success, it rejects what is left. Nor does it see a name that is there
    twice: it is found after it is deleted. *)
Theorem DirOK_misses :
  DirOK 0 overlapped = Fine /\ Lookup [98] overlapped = (0, Some (3, 3))
  /\ (Delete long_name overlapped).1 = 0 /\ DirOK 0 (Delete long_name overlapped).2 = Bad
  /\ DirOK 0 doubled = Fine /\ Lookup [98] doubled = (0, Some (4, 4))
  /\ (Delete [98] doubled).1 = 0 /\ Lookup [98] (Delete [98] doubled).2 = (0, Some (3, 3)).
Proof. vm_compute. repeat split. Qed.

(** ** A chain that does not end *)

(** The entry of "." made to follow itself. *)
Definition circular : dir := wr16 (e_next (32 * 13)) 13 sample.

Lemma circular_chain fuel : forall t, salvage_chain 0 circular 1 13 t fuel = None.
Proof.
  induction fuel as [| fuel IH]; intros t; cbn [salvage_chain]; [done |].
  change (GetBlob circular 13) with (Some 416). cbn iota beta zeta.
  replace (salvage_name (name_at circular (e_name 416))) with [46] by (vm_compute; done).
  replace (rd16 circular (e_next 416)) with 13 by (vm_compute; done).
  cbn [Z.eqb Z.ltb Z.leb Z.compare orb Pos.compare Pos.compare_cont EPP Z.mul Pos.mul]. rewrite bool_decide_eq_true_2 by done. apply IH.
Qed.

Lemma circular_chains fuel n : forall i t, i <= 46 < i + Z.of_nat n -> 0 <= i ->
  salvage_chains 0 circular 1 i t n fuel = None.
Proof.
  induction n as [| n IH]; intros i t Hi H0; [lia |]. cbn [salvage_chains].
  destruct (decide (i = 46)) as [-> | Hne].
  - replace (rd16 circular (hashTable 46)) with 13 by (vm_compute; done). by rewrite circular_chain.
  - assert (E : rd16 circular (hashTable i) = 0).
    { assert (Hall : forallb (fun j => rd16 circular (hashTable j) =? 0) (seqZ 0 46) = true) by (vm_compute; done).
      rewrite forallb_forall in Hall. apply Z.eqb_eq, Hall, list_elem_of_In, elem_of_seqZ. lia. }
    rewrite E. destruct fuel as [| fuel]; cbn [salvage_chain]; [done |]. apply IH; lia.
Qed.

(** C24. On a directory whose "." follows itself, which the check rejects,
    [DirSalvage] does not return. *)
Theorem DirSalvage_diverges : DirOK 0 circular = Bad
  /\ forall t vn vu pvn pvu fuel, DirSalvage 0 circular t vn vu pvn pvu fuel = None.
Proof.
  split; [vm_compute; done |]. intros t vn vu pvn pvu fuel. unfold DirSalvage.
  change (DRead circular 0) with (Some 0). cbn iota.
  replace (ComputeUsedPages circular) with 1 by (vm_compute; done). apply circular_chains; [| lia]. unfold NHASHENT. lia.
Qed.

(** ** Witnesses *)

Lemma no_bytes : forall x, 0 <= rd8 (Dir ∅ ∅) x < 256.
Proof. intros x. unfold rd8, byte. cbn [mem]. rewrite lookup_empty. cbn. lia. Qed.

Lemma no_pages : dpages (Dir ∅ ∅) ⊆ {[0]}.
Proof. apply empty_subseteq. Qed.

Lemma DirOK_accepts_witness :
  DirOK 0 (fold_left run_op [OpCreate [97; 98] (2, 7); OpCreate long_name (3, 1); OpDelete [97; 98]; OpChange long_name None (4, 4)]
             (MakeDir (1, 1) (4, 9) (Dir ∅ ∅))) = Fine.
Proof.
  apply DirOK_accepts; [apply no_pages | apply no_bytes |]. pose proof ab_ok.
  assert (name_ok long_name) by (split; [repeat constructor; lia | simpl; lia]).
  repeat constructor; cbn; done.
Defined.

Lemma sample_bytes : forall x, 0 <= rd8 sample x < 256.
Proof. destruct (MakeDir_valid (Dir ∅ ∅) (1, 1) (4, 9) no_pages no_bytes) as [(n & C & _ & _ & Ht & _) _]. apply Ht. Qed.

(** The next pointer of ".." out of range: the rest of its chain is lost, and
    the new directory is good. *)
Lemma DirSalvage_sound_witness :
  match DirSalvage 0 (wr16 (e_next (32 * 14)) 999 sample) (Dir ∅ ∅) 1 1 4 9 10 with
  | Some (_, t') => DirOK 0 t' = Fine
      /\ exists M, dir_rep t' M /\ M !! [46] = Some (1, 1) /\ M !! [46; 46] = Some (4, 9)
  | None => False
  end.
Proof.
  destruct (DirSalvage _ _ _ _ _ _ _ _) as [[c t'] |] eqn:E.
  - apply (DirSalvage_sound 0 0 _ (Dir ∅ ∅) 1 1 4 9 10 c t' (bytes_store _ _ _ sample_bytes) no_pages no_bytes E).
  - apply (f_equal (fun o => match o with Some _ => true | None => false end)) in E. vm_compute in E. done.
Defined.

Lemma DirSalvage_complete_witness : exists t',
  DirSalvage 0 sample (Dir ∅ ∅) 8 1 8 1 100 = Some (0, t')
  /\ dir_rep t' ({[ [46] := (8, 1); [46; 46] := (8, 1) ]} ∪ sample_names).
Proof.
  apply (DirSalvage_complete 0 sample sample_names (Dir ∅ ∅) 8 1 8 1 100 sample_rep); [vm_compute; done | apply no_pages | apply no_bytes |].
  vm_compute. lia.
Defined.
