(* ===== verification/Acl.v ===== *)
(** Access lists: src/libacl/aclprocs.c and netprocs.c. An internal list is
    an array of entries with the positive ones at the front and the negative
    ones at the back; the external form is text. [Fault] is a read or write
    outside an object, where the C code has no defined behaviour. *)
From S2P Require Import Prelude.

Definition ACL_MAXENTRIES : Z := 20.
Definition ACL_ACLVERSION : Z := 1.
Definition PR_MAXNAMELEN : Z := 64.
Definition ANONYMOUSID : Z := 32766.
Definition SYSADMINID : Z := -204.

Record accessEntry := Entry { id : Z; rights : Z }.
Record accessList := Acl {
  size_ : Z; version : Z; total : Z; positive : Z; negative : Z;
  entries : list accessEntry
}.

(** ** Outcomes *)

Inductive res (A : Type) := Ok (a : A) | Err (code : Z) | Fault.
Arguments Ok {A} a.
Arguments Err {A} code.
Arguments Fault {A}.

Definition bind {A B} (r : res A) (k : A -> res B) : res B :=
  match r with Ok a => k a | Err c => Err c | Fault => Fault end.
Declare Scope acl_scope.
Notation "'let!' x ':=' r 'in' k" := (bind r (fun x => k))
  (at level 200, x pattern, r at level 100, k at level 200) : acl_scope.
#[local] Open Scope acl_scope.

(** An array read. *)
Definition at_index {A} (l : list A) (i : Z) : res A :=
  if i <? 0 then Fault else match l !! Z.to_nat i with Some a => Ok a | None => Fault end.
(** A change of an element. *)
Definition upd_index {A} (l : list A) (i : Z) (f : A -> A) : res (list A) :=
  let! a := at_index l i in Ok (<[Z.to_nat i := f a]> l).

(** ** Numbers and words in text *)

Notation text := (list Z) (only parsing).
Definition NL : Z := 10.
Definition TAB : Z := 9.

Definition isspace (c : Z) : bool := (c =? 32) || ((9 <=? c) && (c <=? 13)).
Definition isdigit (c : Z) : bool := (48 <=? c) && (c <=? 57).
Definition isupper (c : Z) : bool := (65 <=? c) && (c <=? 90).

(** [sprintf] of a number with [%d]. *)
Fixpoint show_digits (n : Z) (acc : text) (fuel : nat) : text :=
  match fuel with
  | O => acc
  | S fuel' =>
      let acc' := (48 + n mod 10) :: acc in
      if n <? 10 then acc' else show_digits (n / 10) acc' fuel'
  end.
Definition show_int (z : Z) : text :=
  if z <? 0 then 45 :: show_digits (- z) [] 20 else show_digits z [] 20.

Fixpoint skip_space (l : text) : text :=
  match l with
  | c :: l' => if isspace c then skip_space l' else l
  | [] => []
  end.

Fixpoint scan_digits (acc : Z) (l : text) : Z * text :=
  match l with
  | c :: l' => if isdigit c then scan_digits (acc * 10 + (c - 48)) l' else (acc, l)
  | [] => (acc, [])
  end.

Definition LONG_MAX : Z := 9223372036854775807.
Definition LONG_MIN : Z := -9223372036854775808.
(** The conversion of [%d]: of [long] width, out of range values at its
    limits, then cut to an [int]. *)
Definition clamp (z : Z) : Z := s32 (Z.max LONG_MIN (Z.min LONG_MAX z)).

Definition scan_nat (l : text) : option (Z * text) :=
  match l with
  | c :: _ => if isdigit c then Some (scan_digits 0 l) else None
  | [] => None
  end.

(** [%d] of [sscanf]. *)
Definition scan_d (l : text) : option (Z * text) :=
  let l1 := skip_space l in
  match l1 with
  | [] => None
  | c :: l2 =>
      if c =? 45 then match scan_nat l2 with Some (z, r) => Some (clamp (- z), r) | None => None end
      else match scan_nat (if c =? 43 then l2 else l1) with Some (z, r) => Some (clamp z, r) | None => None end
  end.

Fixpoint scan_word (l : text) : text * text :=
  match l with
  | c :: l' => if isspace c then ([], l) else let '(w, r) := scan_word l' in (c :: w, r)
  | [] => ([], [])
  end.

(** [%s] of [sscanf]. *)
Definition scan_s (l : text) : option (text * text) :=
  match scan_word (skip_space l) with
  | ([], _) => None
  | (w, r) => Some (w, r)
  end.

(** ** The protection server

    The two calls go to the server: parameters. [stolower] and the wrappers
    are the client's. *)

Definition tolower (c : Z) : Z := if isupper c then c + 32 else c.
Definition stolower (s : text) : text := map tolower s.

Section server.
Context (PR_NameToID : list text -> Z * list Z).
Context (PR_IDToName : list Z -> Z * list text).

Definition pr_NameToId (names : list text) : Z * list Z := PR_NameToID (map stolower names).
Definition pr_IdToName (ids : list Z) : Z * list text := PR_IDToName ids.

(** ** Internal to external *)

Definition external_size (nEntries : Z) : Z := 20 + nEntries * (PR_MAXNAMELEN + 20).

(** Indexes counting up, and down from the end. *)
Definition up (n : Z) : list Z := map Z.of_nat (seq 0 (Z.to_nat n)).
Definition down (total n : Z) : list Z := map (fun i => total - 1 - i) (up n).

Fixpoint gather {A B} (f : A -> res B) (l : list A) : res (list B) :=
  match l with
  | [] => Ok []
  | x :: l' => let! y := f x in let! ys := gather f l' in Ok (y :: ys)
  end.

Definition entry_line (name : text) (r : Z) : text := name ++ TAB :: show_int r ++ [NL].

Definition acl_Externalize (acl : accessList) : res text :=
  if ACL_MAXENTRIES <? total acl then Err (-1)
  else if total acl <? 0 then Fault
  else
    let order := up (positive acl) ++ down (total acl) (negative acl) in
    if ACL_MAXENTRIES <? Z.of_nat (length order) then Fault
    else
      let! es := gather (at_index (entries acl)) order in
      let lids := map id es ++ replicate (20 - length es) 0 in
      let '(code, lnames) := pr_IdToName (take (Z.to_nat (total acl)) lids) in
      if negb (code =? 0) then Err code
      else
        let! names := gather (at_index lnames) (up (Z.of_nat (length es))) in
        let out := show_int (positive acl) ++ [NL] ++ show_int (negative acl) ++ [NL]
                   ++ concat (zip_with (fun n e => entry_line n (rights e)) names es) in
        if Z.of_nat (length out) <? external_size (total acl) then Ok out else Fault.

(** ** External to internal *)

(** To the end of the line, and past it. *)
Fixpoint next_line (l : text) : option text :=
  match l with
  | c :: l' => if c =? NL then Some l' else next_line l'
  | [] => None
  end.

(** Storage for a list of [n] entries; [body] is what the storage holds. *)
Definition acl_size (nEntries : Z) : Z := 28 + (nEntries - 1) * 8.
Definition acl_NewACL (nEntries : Z) (body : list accessEntry) : accessList :=
  Acl (acl_size nEntries) ACL_ACLVERSION nEntries 0 0 body.

(** The place in the text; [None] once a line had no end. *)
Definition read_line (nextc : option text) : res (text * Z * option text) :=
  match nextc with
  | None => Fault
  | Some l =>
      match scan_s l with
      | None => Err (-1)
      | Some (w, r) =>
          if PR_MAXNAMELEN <=? Z.of_nat (length w) then Fault
          else
            match scan_d r with
            | None => Err (-1)
            | Some (k, _) => Ok (w, k, next_line l)
            end
      end
  end.

(** Entries of the text into the array, from index [j] on. *)
Fixpoint read_entries (n : nat) (j : Z) (st : list text * list accessEntry * option text)
  : res (list text * list accessEntry * option text) :=
  match n with
  | O => Ok st
  | S n' =>
      let '(names, es, nextc) := st in
      let! (w, k, nextc') := read_line nextc in
      let! names' := upd_index names j (fun _ => w) in
      let! es' := upd_index es j (fun e => Entry (id e) k) in
      read_entries n' (j + 1) (names', es', nextc')
  end.

Fixpoint set_ids (lids : list Z) (l : list Z) (es : list accessEntry) : res (list accessEntry) :=
  match l with
  | [] => Ok es
  | i :: l' =>
      let! x := at_index lids i in
      if x =? ANONYMOUSID then Err (-1)
      else let! es' := upd_index es i (fun e => Entry x (rights e)) in set_ids lids l' es'
  end.

Definition CmpPlus (a b : accessEntry) : Z :=
  if id a <? id b then -1 else if id a =? id b then 0 else 1.
Definition CmpMinus (a b : accessEntry) : Z :=
  if id b <? id a then -1 else if id a =? id b then 0 else 1.

Fixpoint qinsert (cmp : accessEntry -> accessEntry -> Z) (x : accessEntry) (l : list accessEntry) :=
  match l with
  | [] => [x]
  | y :: l' => if cmp x y <=? 0 then x :: l else y :: qinsert cmp x l'
  end.
Definition qsort (cmp : accessEntry -> accessEntry -> Z) (l : list accessEntry) : list accessEntry :=
  foldr (qinsert cmp) [] l.

(** [n] elements from the [from]-th on, sorted. *)
Definition sort_part (cmp : accessEntry -> accessEntry -> Z) (from n : Z) (l : list accessEntry) :=
  let f := Z.to_nat from in let k := Z.to_nat n in
  take f l ++ qsort cmp (take k (drop f l)) ++ drop (f + k) l.

Definition acl_Internalize (elist : text) (body : Z -> list accessEntry) : res accessList :=
  match scan_d elist with
  | None => Err (-1)
  | Some (p, rest) =>
      match scan_d rest with
      | None => Err (-1)
      | Some (n, _) =>
          if ACL_MAXENTRIES <? s32 (p + n) then Err (-1)
          else
            let total := s32 (p + n) in
            let a0 := acl_NewACL total (body total) in
            let a1 := Acl (size_ a0) (version a0) total p n (entries a0) in
            if total =? 0 then Ok a1
            else if total <? 0 then Fault
            else
              match next_line elist with
              | None => Fault
              | Some l1 =>
                  match next_line l1 with
                  | None => Fault
                  | Some l2 =>
                      let names0 := replicate (Z.to_nat total) [] in
                      let! st1 := read_entries (Z.to_nat p) 0 (names0, entries a1, Some l2) in
                      let! (lnames, es, _) := read_entries (Z.to_nat n) (Z.max 0 p) st1 in
                      let '(code, lids) := pr_NameToId lnames in
                      if negb (code =? 0) then Err (-1)
                      else
                        let! es1 := set_ids lids (up p) es in
                        let! es2 := set_ids lids (down total n) es1 in
                        let es3 := sort_part CmpPlus 0 p es2 in
                        let es4 := sort_part CmpMinus (total - n) n es3 in
                        Ok (Acl (size_ a1) (version a1) total p n es4)
                  end
              end
      end
  end.
End server.

(** ** Rights *)

Definition CmpInt (x y : Z) : Z := if x <? y then -1 else if x =? y then 0 else 1.

(** The rights found walking the entries from index [a], by [step], while
    [more a], and the groups from index [c]. *)
Fixpoint walk (es : list accessEntry) (groups : list Z) (more : Z -> bool) (step a c acc : Z) (fuel : nat)
  : res Z :=
  match fuel with
  | O => Fault
  | S fuel' =>
      if more a && (c <? Z.of_nat (length groups)) then
        let! e := at_index es a in
        let! g := at_index groups c in
        if CmpInt (id e) g =? -1 then walk es groups more step (a + step) c acc fuel'
        else if CmpInt (id e) g =? 0
        then walk es groups more step (a + step) c (Z.lor acc (rights e)) fuel'
        else walk es groups more step a (c + 1) acc fuel'
      else Ok acc
  end.

Definition walk_fuel (n : Z) (groups : list Z) : nat := S (Z.to_nat n + length groups).

(** Err 1 leaves the rights unset. *)
Definition acl_CheckRights (acl : accessList) (groups : list Z) : res Z :=
  if ACL_MAXENTRIES <? total acl then Err 1
  else if total acl <? 0 then Err 1
  else if 192 <? size_ acl then Err 1
  else if (total acl <=? 0) || (Z.of_nat (length groups) <=? 0) then Ok 0
  else if bool_decide (last groups = Some SYSADMINID) then Ok (-1)
  else
    let! temprights := walk (entries acl) groups (fun a => a <? positive acl) 1 0 0 0
                         (walk_fuel (positive acl) groups) in
    let! negrights := walk (entries acl) groups (fun a => total acl - negative acl - 1 <? a) (-1)
                        (total acl - 1) 0 0 (walk_fuel (negative acl) groups) in
    Ok (Z.land temprights (Z.lnot negrights)).

Definition acl_IsAMember (aid : Z) (cps : list Z) : Z :=
  if bool_decide (aid ∈ cps) then 1 else 0.

(** ** Network order *)

Definition swap_entry (little : bool) (e : accessEntry) : accessEntry :=
  Entry (htonl little (id e)) (htonl little (rights e)).
Fixpoint swap_entries (little : bool) (l : list Z) (es : list accessEntry) : res (list accessEntry) :=
  match l with
  | [] => Ok es
  | i :: l' => let! es' := upd_index es i (swap_entry little) in swap_entries little l' es'
  end.
Definition swap_header (little : bool) (a : accessList) : accessList :=
  Acl (htonl little (size_ a)) (htonl little (version a)) (htonl little (total a))
      (htonl little (positive a)) (htonl little (negative a)) (entries a).
Definition set_entries (es : list accessEntry) (a : accessList) : accessList :=
  Acl (size_ a) (version a) (total a) (positive a) (negative a) es.

Definition acl_HtonACL (little : bool) (acl : accessList) : res accessList :=
  if negb little then Ok acl
  else
    let! es := swap_entries little (up (positive acl)) (entries acl) in
    let! es' := swap_entries little (down (total acl) (negative acl)) es in
    Ok (swap_header little (set_entries es' acl)).

Definition acl_NtohACL (little : bool) (acl : accessList) : res accessList :=
  if negb little then Ok acl
  else
    let a1 := swap_header little acl in
    let! es := swap_entries little (up (positive a1)) (entries a1) in
    let! es' := swap_entries little (down (total a1) (negative a1)) es in
    Ok (set_entries es' a1).

(** ** Storage

    Freed lists are kept, by address and size of the body; new storage comes
    from [malloc]. *)
Record heap := Heap { freeList : list (Z * Z); brk : Z }.

Fixpoint GetFromList (l : list (Z * Z)) (minsize : Z) : option (Z * Z * list (Z * Z)) :=
  match l with
  | [] => None
  | y :: l' =>
      if minsize <=? y.2 then Some (y, l')
      else match GetFromList l' minsize with
           | Some (e, l'') => Some (e, y :: l'')
           | None => None
           end
  end.
Definition AddToList (e : Z * Z) (l : list (Z * Z)) : list (Z * Z) := e :: l.

(** The allocation in acl_NewACL and acl_NewExternalACL. *)
Definition new_block (t : Z) (h : heap) : (Z * Z) * heap :=
  match GetFromList (freeList h) t with
  | Some (e, l) => (e, Heap l (brk h))
  | None => ((brk h, t), Heap (freeList h) (brk h + 1))
  end.
Definition acl_FreeACL (e : Z * Z) (h : heap) : heap := Heap (AddToList e (freeList h)) (brk h).

(** A sample server: the number of a name is its first character. *)
Definition sample_NameToID (names : list text) : Z * list Z := (0, map (fun n => nth 0 n 0) names).
Definition sample_IDToName (ids : list Z) : Z * list text := (0, map (fun i => [i]) ids).

Example acl_sample :
  let t := show_int 2 ++ [NL] ++ show_int 1 ++ [NL] ++ entry_line [98] 3 ++ entry_line [97] 8 ++ entry_line [99] 1 in
  match acl_Internalize sample_NameToID t (fun n => replicate (Z.to_nat n) (Entry 7 7)) with
  | Ok a => entries a = [Entry 97 8; Entry 98 3; Entry 99 1]
            /\ acl_CheckRights a [98; 99] = Ok 2
            /\ acl_Externalize sample_IDToName a
               = Ok (show_int 2 ++ [NL] ++ show_int 1 ++ [NL] ++ entry_line [97] 8 ++ entry_line [98] 3 ++ entry_line [99] 1)
  | _ => False
  end.
Proof. vm_compute. repeat split. Qed.
