(* ===== verification/AclSpec.v ===== *)
(** Access lists, the theorems: the external form and its reading, the rights
    an access list gives, network order and storage. *)
From stdpp Require Import sorting.
From S2P Require Import Prelude Acl.

#[local] Open Scope Z_scope.
#[local] Open Scope acl_scope.

(** ** Text *)

Lemma show_digits_scan fuel : forall n tail, 0 <= n < 10 ^ Z.of_nat fuel -> (1 <= fuel)%nat ->
  scan_digits 0 (show_digits n tail fuel) = scan_digits n tail
  /\ exists c l, show_digits n tail fuel = c :: l /\ isdigit c = true.
Proof.
  induction fuel as [| fuel IH]; intros n tail Hn Hf; [lia |]. cbn [show_digits].
  assert (Hd : forall d, 0 <= d < 10 -> isdigit (48 + d) = true).
  { intros d Hd. unfold isdigit. apply andb_true_intro. split; apply Z.leb_le; lia. }
  destruct (Z.ltb_spec n 10) as [Hs | Hs].
  - rewrite Z.mod_small by lia. split.
    + cbn [scan_digits]. rewrite Hd by lia. f_equal. lia.
    + exists (48 + n), tail. split; [done | apply Hd; lia].
  - destruct fuel as [| fuel]; [cbn in Hn; lia |].
    destruct (IH (n / 10) ((48 + n mod 10) :: tail)) as [I1 I2]; [| lia |].
    + replace (Z.of_nat (S (S fuel))) with (Z.succ (Z.of_nat (S fuel))) in Hn by lia.
      rewrite Z.pow_succ_r in Hn by lia. split; [by apply Z.div_pos; lia | by apply Z.div_lt_upper_bound; lia].
    + split; [| done]. rewrite I1. cbn [scan_digits]. rewrite Hd by (apply Z.mod_pos_bound; lia).
      f_equal. pose proof (Z.div_mod n 10). lia.
Qed.

Lemma show_digits_chars fuel : forall n tail, 0 <= n ->
  Forall (fun c => isdigit c = true) tail -> Forall (fun c => isdigit c = true) (show_digits n tail fuel).
Proof.
  induction fuel as [| fuel IH]; intros n tail Hn Ht; [done |]. cbn [show_digits].
  assert (Hc : Forall (fun c => isdigit c = true) ((48 + n mod 10) :: tail)).
  { constructor; [| done]. pose proof (Z.mod_pos_bound n 10). unfold isdigit.
    apply andb_true_intro. split; apply Z.leb_le; lia. }
  destruct (n <? 10); [done |]. apply IH; [| done]. apply Z.div_pos; lia.
Qed.

Lemma show_digits_length k : forall n tail fuel, 0 <= n < 10 ^ Z.of_nat k -> (1 <= k)%nat ->
  (length (show_digits n tail fuel) <= k + length tail)%nat.
Proof.
  induction k as [| k IH]; intros n tail fuel Hn Hk; [lia |].
  destruct fuel as [| fuel]; cbn [show_digits]; [lia |].
  destruct (Z.ltb_spec n 10); [cbn [length]; lia |].
  destruct k as [| k]; [cbn in Hn; lia |].
  specialize (IH (n / 10) ((48 + n mod 10) :: tail) fuel). cbn [length] in IH.
  replace (Z.of_nat (S (S k))) with (Z.succ (Z.of_nat (S k))) in Hn by lia.
  rewrite Z.pow_succ_r in Hn by lia.
  assert (0 <= n / 10 < 10 ^ Z.of_nat (S k)) by (split; [by apply Z.div_pos; lia | by apply Z.div_lt_upper_bound; lia]).
  specialize (IH ltac:(done) ltac:(lia)). lia.
Qed.

Definition int (z : Z) : Prop := INT_MIN <= z <= INT_MAX.

Lemma clamp_int z : int z -> clamp z = z.
Proof.
  unfold int, clamp, LONG_MIN, LONG_MAX, INT_MIN, INT_MAX. intros H.
  rewrite Z.min_r, Z.max_r by lia. apply s32_small. unfold INT_MIN, INT_MAX. lia.
Qed.

(** What ends a number. *)
Definition ends (l : text) : Prop := match l with c :: _ => isdigit c = false | [] => True end.

Lemma scan_stops n l : ends l -> scan_digits n l = (n, l).
Proof. destruct l as [| c l]; cbn; [done |]. by intros ->. Qed.

Lemma show_digits_app n tail rest fuel : show_digits n tail fuel ++ rest = show_digits n (tail ++ rest) fuel.
Proof.
  revert n tail. induction fuel as [| fuel IH]; intros n tail; [done |]. cbn [show_digits].
  destruct (n <? 10); [done |]. apply IH.
Qed.

Lemma scan_nat_show n rest : 0 <= n <= 2147483648 -> ends rest ->
  scan_nat (show_digits n [] 20 ++ rest) = Some (n, rest).
Proof.
  intros Hn Hr. rewrite show_digits_app. cbn [app].
  destruct (show_digits_scan 20 n rest) as [E (c & l & El & Hc)]; [lia | lia |].
  unfold scan_nat. rewrite El in *. rewrite Hc. rewrite E. by rewrite scan_stops.
Qed.

Lemma scan_d_show z rest : int z -> ends rest -> scan_d (show_int z ++ rest) = Some (z, rest).
Proof.
  intros Hz Hr. pose proof Hz as Hz'. unfold int, INT_MIN, INT_MAX in Hz'.
  unfold show_int, scan_d. destruct (Z.ltb_spec z 0).
  - cbn [app skip_space]. change (isspace 45) with false. cbv iota zeta. change (45 =? 45) with true. cbv iota.
    rewrite scan_nat_show by (done || lia). by rewrite Z.opp_involutive, clamp_int.
  - pose proof (scan_nat_show z rest ltac:(lia) Hr) as HS.
    destruct (show_digits_scan 20 z []) as [_ (c & l & El & Hc)]; [lia | lia |].
    rewrite El in *. cbn [app skip_space] in *. unfold isdigit in Hc. bool_hyps.
    assert (Hsp : isspace c = false).
    { unfold isspace. apply orb_false_intro; [apply Z.eqb_neq; lia |]. apply andb_false_intro2. apply Z.leb_gt. lia. }
    rewrite Hsp. cbv zeta. rewrite (proj2 (Z.eqb_neq c 45)), (proj2 (Z.eqb_neq c 43)) by lia. rewrite HS.
    by rewrite clamp_int.
Qed.

Lemma show_int_length z : int z -> (length (show_int z) <= 11)%nat.
Proof.
  intros Hz. unfold int, INT_MIN, INT_MAX in Hz. unfold show_int. destruct (Z.ltb_spec z 0).
  - pose proof (show_digits_length 10 (- z) [] 20). cbn [length] in *. lia.
  - pose proof (show_digits_length 10 z [] 20). cbn [length] in *. lia.
Qed.

Lemma show_int_noline z : NL ∉ show_int z.
Proof.
  assert (Hd : forall n, 0 <= n -> NL ∉ show_digits n [] 20).
  { intros n Hn Hin. pose proof (show_digits_chars 20 n [] Hn ltac:(constructor)) as H.
    rewrite Forall_forall in H. specialize (H NL Hin). done. }
  unfold show_int. destruct (Z.ltb_spec z 0); [| by apply Hd].
  rewrite not_elem_of_cons. split; [done |]. apply Hd. lia.
Qed.

(** Names that are one word of the text and fit a [prname]. *)
Definition word_ok (w : text) : Prop :=
  w <> [] /\ Forall (fun c => isspace c = false) w /\ Z.of_nat (length w) < PR_MAXNAMELEN.

Lemma scan_word_app w c rest : Forall (fun c => isspace c = false) w -> isspace c = true ->
  scan_word (w ++ c :: rest) = (w, c :: rest).
Proof.
  induction w as [| x w IH]; intros Hw Hc; cbn [app scan_word]; [by rewrite Hc |].
  apply Forall_cons in Hw as [-> Hw]. by rewrite IH.
Qed.

Lemma scan_s_word w c rest : word_ok w -> isspace c = true -> scan_s (w ++ c :: rest) = Some (w, c :: rest).
Proof.
  intros (Hne & Hw & _) Hc. unfold scan_s. destruct w as [| x w]; [done |].
  pose proof Hw as Hw'. apply Forall_cons in Hw' as [Hx _].
  cbn [app skip_space]. rewrite Hx. change (x :: w ++ c :: rest) with ((x :: w) ++ c :: rest).
  by rewrite scan_word_app.
Qed.

Lemma next_line_app l rest : NL ∉ l -> next_line (l ++ NL :: rest) = Some rest.
Proof.
  induction l as [| c l IH]; intros H; cbn [app next_line]; [done |].
  apply not_elem_of_cons in H as [Hc H]. destruct (Z.eqb_spec c NL); [congruence | by apply IH].
Qed.

Lemma word_noline w : word_ok w -> NL ∉ w.
Proof. intros (_ & H & _) Hin. rewrite Forall_forall in H. by specialize (H NL Hin). Qed.

(** A line of the external form: a name and its rights. *)
Notation line := (text * Z)%type (only parsing).
Definition line_ok (l : line) : Prop := word_ok l.1 /\ int l.2.
Definition line_text (l : line) : text := entry_line l.1 l.2.

Lemma read_line_ok l rest : line_ok l ->
  read_line (Some (line_text l ++ rest)) = Ok (l.1, l.2, Some rest).
Proof.
  intros [Hw Hr]. destruct l as [w r]. cbn [fst snd] in *.
  unfold line_text, entry_line. cbn [fst snd].
  assert (E : (w ++ TAB :: show_int r ++ [NL]) ++ rest = w ++ TAB :: show_int r ++ NL :: rest)
    by (rewrite <- app_assoc; cbn [app]; by rewrite <- app_assoc).
  rewrite E. unfold read_line. rewrite scan_s_word by done.
  destruct Hw as (Hne & Hw & Hl). rewrite (proj2 (Z.leb_gt _ _)) by lia.
  assert (Es : scan_d (TAB :: show_int r ++ NL :: rest) = scan_d (show_int r ++ NL :: rest)) by done.
  rewrite Es, scan_d_show by done. f_equal. f_equal.
  change (w ++ TAB :: show_int r ++ NL :: rest) with (w ++ (TAB :: show_int r) ++ NL :: rest). rewrite app_assoc.
  apply next_line_app. rewrite elem_of_app, elem_of_cons. intros [H | [H | H]]; [| done |].
  - by apply (word_noline w).
  - by apply show_int_noline in H.
Qed.

(** *** Arrays *)

Lemma at_index_ok {A} (l : list A) i a : l !! i = Some a -> at_index l (Z.of_nat i) = Ok a.
Proof. intros H. unfold at_index. rewrite (proj2 (Z.ltb_ge _ _)) by lia. by rewrite Nat2Z.id, H. Qed.

Lemma upd_index_ok {A} (l1 l2 : list A) a f :
  upd_index (l1 ++ a :: l2) (Z.of_nat (length l1)) f = Ok (l1 ++ f a :: l2).
Proof.
  unfold upd_index. rewrite (at_index_ok _ _ a) by (by apply list_lookup_middle). cbn [bind].
  rewrite Nat2Z.id. f_equal. by rewrite insert_app_r_alt, Nat.sub_diag by lia.
Qed.

Definition with_rights (e : accessEntry) (l : line) : accessEntry := Entry (id e) l.2.

Lemma read_entries_ok (ls : list line) : Forall line_ok ls -> forall N1 N2 E1 E2 rest,
  length N1 = length E1 -> length N2 = length E2 -> (length ls <= length E2)%nat ->
  read_entries (length ls) (Z.of_nat (length E1)) (N1 ++ N2, E1 ++ E2, Some (concat (map line_text ls) ++ rest))
  = Ok (N1 ++ map fst ls ++ drop (length ls) N2, E1 ++ zip_with with_rights E2 ls ++ drop (length ls) E2, Some rest).
Proof.
  induction ls as [| l ls IH]; intros Hls N1 N2 E1 E2 rest HN1 HN2 Hlen; [by destruct E2 |].
  apply Forall_cons in Hls as [Hl Hls]. destruct E2 as [| e E2], N2 as [| m N2]; try (cbn in *; lia).
  cbn [length map concat read_entries]. rewrite <- app_assoc, read_line_ok by done. cbn [bind].
  rewrite <- HN1 at 1. rewrite upd_index_ok. cbn [bind]. rewrite upd_index_ok. cbn [bind].
  specialize (IH Hls (N1 ++ [l.1]) N2 (E1 ++ [with_rights e l]) E2 rest).
  rewrite !length_app in IH. cbn [length] in IH, Hlen.
  replace (Z.of_nat (length E1) + 1) with (Z.of_nat (length E1 + 1)) by lia.
  rewrite <- !app_assoc in IH. cbn [app] in IH. rewrite HN1 in IH at 1. apply IH; [lia | cbn in *; lia | lia].
Qed.

Lemma read_entries_app a : forall b j st,
  read_entries (a + b) j st = bind (read_entries a j st) (read_entries b (j + Z.of_nat a)).
Proof.
  induction a as [| a IH]; intros b j st; [cbn [Nat.add read_entries bind]; f_equal; lia |].
  cbn [Nat.add read_entries]. destruct st as [[names es] nextc].
  destruct (read_line nextc) as [[[w k] nextc'] | |]; [| done | done]. cbn [bind].
  destruct (upd_index names j _) as [names' | |]; [| done | done]. cbn [bind].
  destruct (upd_index es j _) as [es' | |]; [| done | done]. cbn [bind].
  rewrite IH. f_equal. f_equal. lia.
Qed.

Lemma elem_up n i : i ∈ up n <-> 0 <= i < n.
Proof.
  unfold up. rewrite list_elem_of_fmap. setoid_rewrite elem_of_seq. split.
  - intros (k & -> & Hk). lia.
  - intros H. exists (Z.to_nat i). lia.
Qed.

Lemma elem_down t n i : i ∈ down t n <-> t - n <= i < t.
Proof.
  unfold down. rewrite list_elem_of_fmap. setoid_rewrite elem_up. split.
  - intros (k & -> & Hk). lia.
  - intros H. exists (t - 1 - i). lia.
Qed.

Definition with_id (x : Z) (e : accessEntry) : accessEntry := Entry x (rights e).

Lemma at_index_at {A} (l : list A) i a : 0 <= i -> l !! Z.to_nat i = Some a -> at_index l i = Ok a.
Proof. intros Hi H. unfold at_index. rewrite (proj2 (Z.ltb_ge _ _)) by lia. by rewrite H. Qed.

Lemma upd_index_at {A} (l : list A) i a f : 0 <= i -> l !! Z.to_nat i = Some a ->
  upd_index l i f = Ok (<[Z.to_nat i := f a]> l).
Proof.
  intros Hi H. unfold upd_index. by rewrite (at_index_at _ _ a).
Qed.

Lemma set_ids_ok lids l : forall es, length lids = length es ->
  (forall i, i ∈ l -> 0 <= i < Z.of_nat (length es)) ->
  (forall i x, i ∈ l -> lids !! Z.to_nat i = Some x -> x <> ANONYMOUSID) ->
  exists es', set_ids lids l es = Ok es' /\ length es' = length es
    /\ forall k e, es !! k = Some e ->
       es' !! k = Some (if decide (Z.of_nat k ∈ l) then with_id (nth k lids 0) e else e).
Proof.
  induction l as [| i l IH]; intros es Hlen Hin Hx.
  - exists es. split; [done |]. split; [done |]. intros k e H. by rewrite decide_False by apply not_elem_of_nil.
  - pose proof (Hin i ltac:(left)) as Hi.
    destruct (lookup_lt_is_Some_2 lids (Z.to_nat i)) as [x Ex]; [lia |].
    destruct (lookup_lt_is_Some_2 es (Z.to_nat i)) as [e0 Ee]; [lia |].
    cbn [set_ids]. rewrite (at_index_at _ _ x) by (done || lia). cbn [bind].
    rewrite (proj2 (Z.eqb_neq x ANONYMOUSID)) by (apply (Hx i); [left | done]).
    rewrite (upd_index_at _ _ e0) by (done || lia). cbn [bind].
    destruct (IH (<[Z.to_nat i := Entry x (rights e0)]> es)) as (es' & E & HL & HK).
    + by rewrite length_insert.
    + intros j Hj. rewrite length_insert. apply Hin. by right.
    + intros j y Hj. apply Hx. by right.
    + exists es'. split; [done |]. rewrite length_insert in HL. split; [done |]. intros k e Hk.
      destruct (decide (Z.to_nat i = k)) as [<- | Hne].
      * rewrite (HK _ (Entry x (rights e0))) by (apply list_lookup_insert_eq; lia).
        rewrite Ee in Hk. injection Hk as <-. rewrite (decide_True (P := _ ∈ i :: l)) by (rewrite Z2Nat.id by lia; left).
        rewrite (nth_lookup_Some _ _ _ _ Ex). by case_decide.
      * rewrite (HK _ e) by (by rewrite list_lookup_insert_ne). f_equal. apply decide_ext.
        rewrite elem_of_cons. split; [by right |]. intros [? | ?]; [lia | done].
Qed.

Lemma set_ids_bad lids l : forall es, length lids = length es ->
  (forall i, i ∈ l -> 0 <= i < Z.of_nat (length es)) ->
  (exists i, i ∈ l /\ lids !! Z.to_nat i = Some ANONYMOUSID) -> set_ids lids l es = Err (-1).
Proof.
  induction l as [| i l IH]; intros es Hlen Hin (b & Hb & Eb); [by apply not_elem_of_nil in Hb |].
  pose proof (Hin i ltac:(left)) as Hi.
  destruct (lookup_lt_is_Some_2 lids (Z.to_nat i)) as [x Ex]; [lia |].
  destruct (lookup_lt_is_Some_2 es (Z.to_nat i)) as [e0 Ee]; [lia |].
  cbn [set_ids]. rewrite (at_index_at _ _ x) by (done || lia). cbn [bind].
  destruct (Z.eqb_spec x ANONYMOUSID) as [| Hx]; [done |].
  rewrite (upd_index_at _ _ e0) by (done || lia). cbn [bind]. apply IH.
  - by rewrite length_insert.
  - intros j Hj. rewrite length_insert. apply Hin. by right.
  - exists b. apply elem_of_cons in Hb as [-> | Hb]; [congruence | done].
Qed.

(** *** Sorting *)

Lemma qinsert_perm cmp x l : qinsert cmp x l ≡ₚ x :: l.
Proof.
  induction l as [| y l IH]; cbn [qinsert]; [done |]. destruct (cmp x y <=? 0); [done |].
  rewrite IH. apply Permutation_swap.
Qed.

Lemma qsort_perm cmp l : qsort cmp l ≡ₚ l.
Proof. induction l as [| x l IH]; [done |]. cbn [qsort foldr]. rewrite qinsert_perm. by constructor. Qed.

Lemma qsort_length cmp l : length (qsort cmp l) = length l.
Proof. by rewrite qsort_perm. Qed.

(** An order that a comparison decides. *)
Definition decides (cmp : accessEntry -> accessEntry -> Z) (R : accessEntry -> accessEntry -> Prop) : Prop :=
  (forall a b, cmp a b <= 0 -> R a b) /\ (forall a b, ~ cmp a b <= 0 -> R b a) /\ (forall a b c, R a b -> R b c -> R a c).

Lemma qsort_sorted cmp R l : decides cmp R -> StronglySorted R (qsort cmp l).
Proof.
  intros (H1 & H2 & H3). induction l as [| x l IH]; [constructor |]. cbn [qsort foldr]. fold (qsort cmp l).
  revert IH. generalize (qsort cmp l). induction l0 as [| y l0 IHl]; intros HS; cbn [qinsert]; [repeat constructor |].
  apply StronglySorted_inv in HS as [HS HF]. destruct (Z.leb_spec (cmp x y) 0) as [Hle | Hgt].
  - constructor; [by constructor |]. constructor; [by apply H1 |].
    eapply Forall_impl; [exact HF |]. intros z Hz. eapply H3; [by apply H1 | done].
  - constructor; [by apply IHl |]. rewrite qinsert_perm. constructor; [apply H2; lia | done].
Qed.

Definition id_le (a b : accessEntry) : Prop := id a <= id b.
Definition id_ge (a b : accessEntry) : Prop := id b <= id a.

Lemma CmpPlus_decides : decides CmpPlus id_le.
Proof.
  unfold decides, CmpPlus, id_le.
  split; [| split]; intros a b *; [destruct (Z.ltb_spec (id a) (id b)), (Z.eqb_spec (id a) (id b)); lia.. | lia].
Qed.
Lemma CmpMinus_decides : decides CmpMinus id_ge.
Proof.
  unfold decides, CmpMinus, id_ge.
  split; [| split]; intros a b *; [destruct (Z.ltb_spec (id b) (id a)), (Z.eqb_spec (id a) (id b)); lia.. | lia].
Qed.

Lemma sort_parts p n P N : Z.of_nat (length P) = p -> Z.of_nat (length N) = n ->
  sort_part CmpMinus (p + n - n) n (sort_part CmpPlus 0 p (P ++ N)) = qsort CmpPlus P ++ qsort CmpMinus N.
Proof.
  intros <- <-. unfold sort_part at 2. change (Z.to_nat 0) with 0%nat. cbn [firstn skipn app Nat.add].
  rewrite take_0, drop_0. cbn [app].   rewrite Nat2Z.id, take_app_length, drop_app_length.
  unfold sort_part. replace (Z.to_nat (_ + _ - _)) with (length (qsort CmpPlus P)) by (rewrite qsort_length; lia).
  rewrite Nat2Z.id, take_app_length, drop_app_length.
  rewrite (take_ge N) by lia. rewrite drop_ge by (rewrite length_app; lia). by rewrite app_nil_r.
Qed.

(** *** The whole text *)

Definition external (ps ns : list line) : text :=
  show_int (Z.of_nat (length ps)) ++ [NL] ++ show_int (Z.of_nat (length ns)) ++ [NL]
  ++ concat (map line_text (ps ++ ns)).

Section internalize.
Context (PR_NameToID : list text -> Z * list Z) (name_id : text -> Z).
Context (server : forall names, PR_NameToID names = (0, map name_id names)).

Definition parsed (l : line) : accessEntry := Entry (name_id (stolower l.1)) l.2.
Definition known (l : line) : bool := negb (name_id (stolower l.1) =? ANONYMOUSID).

Definition parsed_acl (ps ns : list line) : accessList :=
  let p := Z.of_nat (length ps) in let n := Z.of_nat (length ns) in
  Acl (acl_size (p + n)) ACL_ACLVERSION (p + n) p n
      (qsort CmpPlus (map parsed ps) ++ qsort CmpMinus (map parsed ns)).

Lemma set_all (ls : list line) (es : list accessEntry) p n : let lids := map name_id (map stolower (map fst ls)) in
  length ls = length es -> 0 <= p -> 0 <= n -> p + n = Z.of_nat (length es) ->
  bind (set_ids lids (up p) (zip_with with_rights es ls)) (set_ids lids (down (p + n) n))
  = if forallb known ls then Ok (map parsed ls) else Err (-1).
Proof.
  intros lids Hlen Hp Hn Ht. set (es0 := zip_with with_rights es ls).
  assert (L0 : length es0 = length ls) by (unfold es0; rewrite length_zip_with; lia).
  assert (Ll : length lids = length es0) by (unfold lids; rewrite !length_map; lia).
  assert (Hlid : forall k, lids !! k = (fun l => name_id (stolower l.1)) <$> ls !! k)
    by (intros k; unfold lids; rewrite !list_lookup_fmap; by destruct (ls !! k)).
  assert (Hu : forall i, i ∈ up p -> 0 <= i < Z.of_nat (length es0)) by (intros i Hi%elem_up; lia).
  assert (Hd : forall i, i ∈ down (p + n) n -> 0 <= i < Z.of_nat (length es0)) by (intros i Hi%elem_down; lia).
  destruct (forallb known ls) eqn:EK.
  - assert (Hk : forall i x, lids !! i = Some x -> x <> ANONYMOUSID).
    { intros i x E. rewrite Hlid in E. destruct (ls !! i) as [l |] eqn:El; [| done]. injection E as <-.
      rewrite forallb_forall in EK. apply list_elem_of_lookup_2, list_elem_of_In in El.
      specialize (EK l El). unfold known in EK. bool_hyps. done. }
    destruct (set_ids_ok lids (up p) es0 Ll Hu ltac:(eauto)) as (e1 & -> & L1 & K1). cbn [bind].
    destruct (set_ids_ok lids (down (p + n) n) e1) as (e2 & -> & L2 & K2); [lia | by rewrite L1 | eauto |].
    f_equal. apply list_eq. intros k. rewrite list_lookup_fmap. destruct (ls !! k) as [l |] eqn:El; cbn.
    + pose proof (lookup_lt_Some _ _ _ El) as Hk'. destruct (lookup_lt_is_Some_2 es k) as [e Ee]; [lia |].
      assert (E0 : es0 !! k = Some (with_rights e l)) by (unfold es0; by rewrite lookup_zip_with, Ee, El).
      rewrite (K2 k _ (K1 k _ E0)).
      assert (En : nth k lids 0 = name_id (stolower l.1)).
      { apply nth_lookup_Some. rewrite Hlid, El. done. }
      rewrite En. repeat case_decide; try done. exfalso. rewrite elem_up, elem_down in *. lia.
    + apply lookup_ge_None_2. apply lookup_ge_None_1 in El. lia.
  - assert (Hb : exists i, lids !! i = Some ANONYMOUSID).
    { apply not_true_iff_false in EK. rewrite forallb_forall in EK.
      destruct (decide (Exists (fun l => known l = false) ls)) as [HE | HE].
      - apply Exists_exists in HE as (l & Hl & Ek). apply list_elem_of_lookup_1 in Hl as [i Hi]. exists i.
        rewrite Hlid, Hi. cbn. f_equal. unfold known in Ek. bool_hyps. done.
      - exfalso. apply EK. intros l Hl%list_elem_of_In. destruct (known l) eqn:E; [done |]. exfalso.
        apply HE, Exists_exists. eauto. }
    destruct Hb as [b Eb]. pose proof (lookup_lt_Some _ _ _ Eb) as Hlt.
    destruct (decide (Exists (fun i => lids !! Z.to_nat i = Some ANONYMOUSID) (up p))) as [Hbad | Hgood];
      rewrite Exists_exists in *.
    + by rewrite set_ids_bad.
    + destruct (set_ids_ok lids (up p) es0 Ll Hu) as (e1 & -> & L1 & _); [intros i x Hi E ->; eauto |]. cbn [bind].
      apply set_ids_bad; [lia | by rewrite L1 |]. exists (Z.of_nat b). rewrite Nat2Z.id. split; [| done].
      apply elem_down. destruct (decide (Z.of_nat b < p)); [| lia]. exfalso. apply Hgood.
      exists (Z.of_nat b). rewrite Nat2Z.id, elem_up. split; [lia | done].
Qed.

Lemma bind_assoc {A B D} (r : res A) (f : A -> res B) (g : B -> res D) :
  bind r (fun x => bind (f x) g) = bind (bind r f) g.
Proof. by destruct r. Qed.

Lemma read_both {A} (ls : list line) a b names es (k : list text * list accessEntry * option text -> res A) :
  length ls = (a + b)%nat -> Forall line_ok ls -> length names = (a + b)%nat -> length es = (a + b)%nat ->
  bind (read_entries a 0 (names, es, Some (concat (map line_text ls))))
    (fun st => bind (read_entries b (Z.max 0 (Z.of_nat a)) st) k)
  = k (map fst ls, zip_with with_rights es ls, Some []).
Proof.
  intros Hl Hok Hn He. rewrite bind_assoc. rewrite Z.max_r by lia.
  replace (Z.of_nat a) with (0 + Z.of_nat a) by lia. rewrite <- read_entries_app, <- Hl.
  pose proof (read_entries_ok ls Hok [] names [] es [] eq_refl ltac:(lia) ltac:(lia)) as H.
  cbn [app length] in H. rewrite app_nil_r in H. change (Z.of_nat 0) with 0 in H. rewrite H. cbn [bind].
  rewrite !drop_ge by lia. by rewrite !app_nil_r.
Qed.

Lemma Internalize_text ps ns body : Forall line_ok ps -> Forall line_ok ns ->
  Z.of_nat (length ps + length ns) <= ACL_MAXENTRIES ->
  (forall n, Z.of_nat (length (body n)) = Z.max 0 n) ->
  acl_Internalize PR_NameToID (external ps ns) body
  = if forallb known (ps ++ ns) then Ok (parsed_acl ps ns) else Err (-1).
Proof.
  intros Hps Hns Hlen Hbody. unfold ACL_MAXENTRIES in Hlen.
  set (p := Z.of_nat (length ps)). set (n := Z.of_nat (length ns)).
  assert (Hint : int p /\ int n) by (unfold int, INT_MIN, INT_MAX; lia).
  assert (Hs : s32 (p + n) = p + n) by (apply s32_small; unfold INT_MIN, INT_MAX; lia).
  unfold acl_Internalize, external. cbn [app]. fold p n.
  rewrite scan_d_show by (done || apply Hint).
  change (scan_d (NL :: ?l)) with (scan_d l). rewrite scan_d_show by (done || apply Hint).
  rewrite Hs. unfold ACL_MAXENTRIES. rewrite (proj2 (Z.ltb_ge 20 (p + n))) by lia. cbv zeta.
  cbn [acl_NewACL size_ version entries].
  assert (Hb : Z.of_nat (length (body (p + n))) = p + n) by (rewrite Hbody; lia).
  destruct (Z.eqb_spec (p + n) 0) as [Hz | Hnz].
  { destruct ps, ns; try (cbn in *; lia). destruct (body (p + n)) as [|] eqn:Eb; [| cbn in Hb; lia].
    cbn. unfold parsed_acl. cbn. done. }
  rewrite (proj2 (Z.ltb_ge (p + n) 0)) by lia.
  rewrite next_line_app by apply show_int_noline. rewrite next_line_app by apply show_int_noline.
  assert (Hlines : Forall line_ok (ps ++ ns)) by by apply Forall_app.
  set (ls := ps ++ ns) in *. assert (Ll : length ls = (length ps + length ns)%nat) by (unfold ls; by rewrite length_app).
  replace (Z.to_nat p) with (length ps) by lia. replace (Z.to_nat n) with (length ns) by lia.
  change (Z.max 0 p) with (Z.max 0 (Z.of_nat (length ps))).
  rewrite (read_both ls (length ps) (length ns)) by (try done; rewrite ?length_replicate; lia). cbv beta iota zeta.
  unfold pr_NameToId. rewrite server. cbn [Z.eqb negb].
  rewrite bind_assoc, set_all by lia. destruct (forallb known ls); [| done]. cbn [bind].
  unfold parsed_acl. fold p n. do 2 f_equal. unfold ls. rewrite map_app. apply sort_parts.
  - by rewrite length_map.
  - rewrite length_map. lia.
Qed.
End internalize.


(** ** The rights of a list of groups *)

(** All the rights of the entries for one of the groups. *)
Definition granted (es : list accessEntry) (groups : list Z) : Z :=
  foldr (fun e r => Z.lor (if bool_decide (id e ∈ groups) then rights e else 0) r) 0 es.

Lemma granted_perm es es' groups : es ≡ₚ es' -> granted es groups = granted es' groups.
Proof.
  induction 1 as [| e l l' _ IH | e e' l | l1 l2 l3 _ I1 _ I2]; cbn [granted foldr] in *; [done | | | congruence].
  - fold (granted l groups) (granted l' groups). by rewrite IH.
  - rewrite !Z.lor_assoc. f_equal. apply Z.lor_comm.
Qed.

Lemma granted_skip es g groups : (forall e, e ∈ es -> id e <> g) -> granted es (g :: groups) = granted es groups.
Proof.
  induction es as [| e es IH]; intros H; [done |]. cbn [granted foldr].
  fold (granted es (g :: groups)) (granted es groups). rewrite IH by (intros x Hx; apply H; by right).
  f_equal. specialize (H e ltac:(left)). repeat case_bool_decide; try done; rewrite elem_of_cons in *; naive_solver.
Qed.

(** The groups in ascending order, as the protection server returns them. *)
Definition ascending (l : list Z) : Prop := StronglySorted Z.le l.

Lemma walk_spec es groups more step fuel : forall L a c acc,
  0 <= c -> ascending (drop (Z.to_nat c) groups) -> StronglySorted id_le L ->
  (forall k : nat, more (a + step * Z.of_nat k) = true <-> (k < length L)%nat) ->
  (forall (k : nat) e, L !! k = Some e -> at_index es (a + step * Z.of_nat k) = Ok e) ->
  (length L + length (drop (Z.to_nat c) groups) < fuel)%nat ->
  walk es groups more step a c acc fuel = Ok (Z.lor acc (granted L (drop (Z.to_nat c) groups))).
Proof.
  induction fuel as [| fuel IH]; intros L a c acc Hc HG HL Hm Hat Hf; [lia |]. cbn [walk].
  pose proof (Hm 0%nat) as Hm0. rewrite Z.mul_0_r, Z.add_0_r in Hm0.
  destruct L as [| e L].
  { destruct (more a); [destruct Hm0 as [Hm0 _]; specialize (Hm0 eq_refl); cbn in Hm0; lia |].
    cbn. by rewrite Z.lor_0_r. }
  rewrite (proj2 Hm0) by (cbn; lia). cbn [andb].
  destruct (drop (Z.to_nat c) groups) as [| g G] eqn:EG.
  { rewrite (proj2 (Z.ltb_ge _ _)).
    - assert (E0 : granted (e :: L) [] = 0).
      { clear. generalize (e :: L). induction l as [| x l IH]; [done |]. cbn [granted foldr]. fold (granted l []).
        rewrite IH, bool_decide_eq_false_2; [done | apply not_elem_of_nil]. }
      by rewrite E0, Z.lor_0_r.
    - apply (f_equal length) in EG. rewrite length_drop in EG. cbn in EG. lia. }
  assert (Hlt : (Z.to_nat c < length groups)%nat).
  { apply (f_equal length) in EG. rewrite length_drop in EG. cbn in EG. lia. }
  rewrite (proj2 (Z.ltb_lt _ _)) by lia.
  pose proof (Hat 0%nat e eq_refl) as He. rewrite Z.mul_0_r, Z.add_0_r in He. rewrite He. cbn [bind].
  assert (Hg : groups !! Z.to_nat c = Some g) by (rewrite <- (Nat.add_0_r (Z.to_nat c)), <- lookup_drop, EG; done).
  rewrite (at_index_at _ _ g) by done. cbn [bind].
  assert (EG' : drop (Z.to_nat (c + 1)) groups = G).
  { replace (Z.to_nat (c + 1)) with (Z.to_nat c + 1)%nat by lia. by rewrite <- drop_drop, EG. }
  assert (Hnext : forall acc', walk es groups more step (a + step) c acc' fuel = Ok (Z.lor acc' (granted L (g :: G)))).
  { intros acc'. apply StronglySorted_inv in HL as [HL _]. rewrite <- EG. apply IH; rewrite ?EG; try done.
    - intros k. replace (a + step + step * Z.of_nat k) with (a + step * Z.of_nat (S k)) by lia.
      rewrite Hm. cbn [length]. lia.
    - intros k x Hk. replace (a + step + step * Z.of_nat k) with (a + step * Z.of_nat (S k)) by lia. by apply Hat.
    - cbn [length] in *. lia. }
  unfold ascending in HG. pose proof HG as HG0. apply StronglySorted_inv in HG0 as [HG' HGF].
  pose proof HL as HL0. apply StronglySorted_inv in HL0 as [HL' HLF].
  rewrite !Forall_forall in *. cbn [granted foldr]. fold (granted L (g :: G)).
  unfold CmpInt. destruct (Z.ltb_spec (id e) g) as [Hlt' | Hge]; cbn [Z.eqb].
  - rewrite Hnext. rewrite (bool_decide_eq_false_2 (id e ∈ _)); [done |].
    rewrite elem_of_cons. intros [? | Hin]; [lia |]. specialize (HGF _ Hin). lia.
  - destruct (Z.eqb_spec (id e) g) as [-> | Hne]; cbn [Z.eqb].
    + rewrite Hnext, bool_decide_eq_true_2 by left. by rewrite Z.lor_assoc.
    + rewrite (IH (e :: L)) by (rewrite ?EG'; try done; cbn [length] in *; lia). rewrite EG'. do 2 f_equal.
      rewrite <- (granted_skip (e :: L) g G); [done |]. intros x [-> | Hx]%elem_of_cons; [lia |].
      specialize (HLF x Hx). unfold id_le in HLF. lia.
Qed.

(** A well-formed list: positive entries [P], then negative entries [N],
    each part sorted as [acl_Internalize] leaves it. *)
Record acl_ok (a : accessList) (P N : list accessEntry) : Prop := {
  ok_pos : positive a = Z.of_nat (length P);
  ok_neg : negative a = Z.of_nat (length N);
  ok_total : total a = positive a + negative a;
  ok_max : total a <= ACL_MAXENTRIES;
  ok_size : size_ a = acl_size (total a);
  ok_version : version a = ACL_ACLVERSION;
  ok_entries : entries a = P ++ N;
  ok_sorted : StronglySorted id_le P;
  ok_down : StronglySorted id_ge N
}.

Lemma sorted_reverse N : StronglySorted id_ge N -> StronglySorted id_le (reverse N).
Proof.
  induction N as [| e N IH]; intros H; [constructor |]. apply StronglySorted_inv in H as [H HF].
  rewrite reverse_cons. apply StronglySorted_app. split; [| split; [by apply IH |]]; [| repeat constructor].
  intros x y Hx ->%list_elem_of_singleton. rewrite elem_of_reverse in Hx. rewrite Forall_forall in HF. exact (HF x Hx).
Qed.

Lemma at_back {A} (P N : list A) (k : nat) e : reverse N !! k = Some e ->
  at_index (P ++ N) (Z.of_nat (length P) + Z.of_nat (length N) - 1 - Z.of_nat k) = Ok e.
Proof.
  intros H. pose proof (lookup_lt_Some _ _ _ H) as Hk. rewrite length_reverse in Hk.
  rewrite reverse_lookup in H by done.
  apply at_index_at; [lia |]. rewrite lookup_app_r by lia. rewrite <- H. f_equal. lia.
Qed.

(** The decision: the rights of the positive entries less those of the
    negative ones. *)
Definition decision (P N : list accessEntry) (groups : list Z) : Z :=
  Z.land (granted P groups) (Z.lnot (granted N groups)).

Lemma granted_nogroups es : granted es [] = 0.
Proof.
  induction es as [| e es IH]; [done |]. cbn [granted foldr]. fold (granted es []).
  rewrite IH, bool_decide_eq_false_2; [done | apply not_elem_of_nil].
Qed.

Lemma rights_ok a P N groups : acl_ok a P N -> ascending groups ->
  acl_CheckRights a groups
  = Ok (if bool_decide (last groups = Some SYSADMINID) && negb (bool_decide (P ++ N = []))
        then -1 else decision P N groups).
Proof.
  intros [Hp Hn Ht Hm Hs _ He HP HN] HG. unfold acl_CheckRights.
  rewrite (proj2 (Z.ltb_ge _ _)), (proj2 (Z.ltb_ge (total a) 0)) by lia.
  rewrite (proj2 (Z.ltb_ge 192 _)) by (rewrite Hs; unfold acl_size, ACL_MAXENTRIES in *; lia).
  destruct (bool_decide (P ++ N = [])) eqn:EPN; bool_hyps.
  - apply bool_decide_eq_true in EPN. apply app_eq_nil in EPN as [-> ->].
    rewrite (proj2 (Z.leb_le (total a) 0)) by (cbn in *; lia). cbn [orb]. by rewrite andb_false_r.
  - apply bool_decide_eq_false in EPN. rewrite (proj2 (Z.leb_gt (total a) 0)).
    2: { destruct P, N; cbn in *; try done; lia. }
    destruct groups as [| g G]; [unfold decision; by rewrite !granted_nogroups |].
    rewrite (proj2 (Z.leb_gt _ _)) by (cbn; lia). cbn [orb negb]. rewrite andb_true_r.
    case_bool_decide; [done |].
    rewrite (walk_spec _ _ _ _ _ P); cbn [bind].
    + rewrite (walk_spec _ _ _ _ _ (reverse N)); cbn [bind].
      * rewrite !Z.lor_0_l. change (Z.to_nat 0) with 0%nat. rewrite drop_0.
        by rewrite (granted_perm (reverse N) N) by apply reverse_Permutation.
      * lia.
      * done.
      * by apply sorted_reverse.
      * intros k. rewrite Z.ltb_lt, length_reverse. lia.
      * intros k e Hk. rewrite He, Ht, Hp, Hn.
        replace (_ + -1 * _) with (Z.of_nat (length P) + Z.of_nat (length N) - 1 - Z.of_nat k) by lia. by apply at_back.
      * change (Z.to_nat 0) with 0%nat. rewrite drop_0, length_reverse. unfold walk_fuel. lia.
    + lia.
    + done.
    + done.
    + intros k. rewrite Z.ltb_lt. lia.
    + intros k e Hk. apply at_index_at; [lia |]. rewrite He. replace (Z.to_nat _) with k by lia.
      by apply lookup_app_l_Some.
    + change (Z.to_nat 0) with 0%nat. rewrite drop_0. unfold walk_fuel. lia.
Qed.

(** C26. The rights of a list of groups are the rights of the positive entries
    for them, less the rights of the negative entries for them. A caller
    whose last group is the administrators' has all rights on a list that is
    not empty. *)
Theorem acl_CheckRights_spec a P N groups : acl_ok a P N -> ascending groups ->
  acl_CheckRights a groups
  = Ok (if bool_decide (last groups = Some SYSADMINID) && negb (bool_decide (P ++ N = []))
        then -1 else decision P N groups).
Proof. apply rights_ok. Qed.

Section text_rights.
Context (PR_NameToID : list text -> Z * list Z) (name_id : text -> Z).
Context (server : forall names, PR_NameToID names = (0, map name_id names)).

Lemma parsed_ok ps ns : Z.of_nat (length ps + length ns) <= ACL_MAXENTRIES ->
  acl_ok (parsed_acl name_id ps ns) (qsort CmpPlus (map (parsed name_id) ps)) (qsort CmpMinus (map (parsed name_id) ns)).
Proof.
  intros H. split; cbn; rewrite ?qsort_length, ?length_map; try done; try lia.
  - apply qsort_sorted, CmpPlus_decides.
  - apply qsort_sorted, CmpMinus_decides.
Qed.

(** An access list given as text is accepted exactly when the server knows
    every name, and then decides by its lines: each positive line gives its
    rights to the groups that contain its name, each negative line takes
    them. *)
Theorem acl_Internalize_rights ps ns body : Forall line_ok ps -> Forall line_ok ns ->
  Z.of_nat (length ps + length ns) <= ACL_MAXENTRIES ->
  (forall n, Z.of_nat (length (body n)) = Z.max 0 n) ->
  match acl_Internalize PR_NameToID (external ps ns) body with
  | Ok a => Forall (fun l => known name_id l = true) (ps ++ ns)
      /\ forall groups, ascending groups -> last groups <> Some SYSADMINID ->
         acl_CheckRights a groups = Ok (decision (map (parsed name_id) ps) (map (parsed name_id) ns) groups)
  | Err c => c = -1 /\ Exists (fun l => known name_id l = false) (ps ++ ns)
  | Fault => False
  end.
Proof.
  intros Hps Hns Hlen Hbody. rewrite (Internalize_text _ name_id server ps ns body Hps Hns Hlen Hbody).
  destruct (forallb _ _) eqn:EK.
  - rewrite forallb_forall in EK. split.
    + apply Forall_forall. intros l Hl. apply EK. by apply list_elem_of_In.
    + intros groups HG Hl. rewrite (rights_ok _ _ _ groups (parsed_ok ps ns Hlen) HG).
      rewrite bool_decide_eq_false_2 by done. cbn [andb]. unfold decision.
      by rewrite !(granted_perm (qsort _ _) _ groups (qsort_perm _ _)).
  - split; [done |]. destruct (decide (Exists (fun l => known name_id l = false) (ps ++ ns))) as [| HE]; [done |].
    exfalso. apply not_true_iff_false in EK. apply EK, forallb_forall. intros l Hl%list_elem_of_In.
    destruct (known name_id l) eqn:E; [done |]. exfalso. apply HE, Exists_exists. eauto.
Qed.
End text_rights.

(** ** Round trip *)

Lemma gather_ok {A B} (f : A -> res B) l ys : Forall2 (fun x y => f x = Ok y) l ys -> gather f l = Ok ys.
Proof. induction 1 as [| x y l ys E _ IH]; [done |]. cbn [gather]. rewrite E. cbn [bind]. by rewrite IH. Qed.

Lemma gather_indexes {A} (l : list A) idx ys : length idx = length ys ->
  (forall (k : nat) i, idx !! k = Some i -> exists y, ys !! k = Some y /\ at_index l i = Ok y) ->
  gather (at_index l) idx = Ok ys.
Proof.
  intros Hlen H. apply gather_ok, Forall2_same_length_lookup. split; [done |].
  intros k i y Hi Hy. destruct (H k i Hi) as (y' & Hy' & E). congruence.
Qed.

Lemma lookup_up n k i : up n !! k = Some i -> i = Z.of_nat k /\ (k < Z.to_nat n)%nat.
Proof. unfold up. rewrite list_lookup_fmap. intros (j & [-> Hj]%lookup_seq & E)%fmap_Some. lia. Qed.

Lemma length_up n : length (up n) = Z.to_nat n.
Proof. unfold up. by rewrite length_map, length_seq. Qed.

Lemma gather_up {A} (l : list A) : gather (at_index l) (up (Z.of_nat (length l))) = Ok l.
Proof.
  apply gather_indexes; [rewrite length_up; lia |]. intros k i [-> Hk]%lookup_up.
  destruct (lookup_lt_is_Some_2 l k) as [y Hy]; [lia |]. exists y. split; [done | by apply at_index_ok].
Qed.

Lemma gather_parts {A} (P N : list A) : let p := Z.of_nat (length P) in let n := Z.of_nat (length N) in
  gather (at_index (P ++ N)) (up p ++ down (p + n) n) = Ok (P ++ reverse N).
Proof.
  intros p n. apply gather_indexes.
  - rewrite !length_app, length_reverse. unfold down. rewrite length_map, !length_up. lia.
  - intros k i Hk. apply lookup_app_Some in Hk as [Hk | [Hge Hk]].
    + apply lookup_up in Hk as [-> Hk]. destruct (lookup_lt_is_Some_2 P k) as [y Hy]; [lia |].
      exists y. split; [by apply lookup_app_l_Some | by apply at_index_ok, lookup_app_l_Some].
    + rewrite length_up in *. unfold down in Hk. rewrite list_lookup_fmap in Hk.
      apply fmap_Some in Hk as (j & [-> Hj]%lookup_up & ->).
      replace (Z.to_nat p) with (length P) in * by lia. set (m := (k - length P)%nat) in *.
      destruct (lookup_lt_is_Some_2 (reverse N) m) as [y Hy]; [rewrite length_reverse; lia |].
      exists y. split; [by rewrite lookup_app_r by lia | by apply at_back].
Qed.

Lemma show_small z : 0 <= z < 100 -> (length (show_int z) <= 2)%nat.
Proof.
  intros Hz. unfold show_int. rewrite (proj2 (Z.ltb_ge z 0)) by lia.
  pose proof (show_digits_length 2 z [] 20 ltac:(lia) ltac:(lia)). cbn [length] in *. lia.
Qed.

Lemma line_length l : line_ok l -> Z.of_nat (length (line_text l)) <= 76.
Proof.
  intros [(_ & _ & Hw) Hr]. unfold line_text, entry_line, PR_MAXNAMELEN in *.
  rewrite length_app. cbn [length]. rewrite length_app. cbn [length].
  pose proof (show_int_length _ Hr). lia.
Qed.

Lemma external_fits ps ns : Forall line_ok ps -> Forall line_ok ns ->
  Z.of_nat (length ps + length ns) <= ACL_MAXENTRIES ->
  Z.of_nat (length (external ps ns)) < external_size (Z.of_nat (length ps) + Z.of_nat (length ns)).
Proof.
  intros Hps Hns Hl. unfold external, external_size, PR_MAXNAMELEN, ACL_MAXENTRIES in *.
  rewrite !length_app. cbn [length].
  assert (Hc : forall ls, Forall line_ok ls -> Z.of_nat (length (concat (map line_text ls))) <= 76 * Z.of_nat (length ls)).
  { induction 1 as [| l ls Hl' _ IH]; [done |]. cbn [map concat]. rewrite length_app.
    pose proof (line_length l Hl'). cbn [length]. lia. }
  pose proof (Hc (ps ++ ns) ltac:(by apply Forall_app)) as H. rewrite length_app in H.
  pose proof (show_small (Z.of_nat (length ps)) ltac:(lia)). pose proof (show_small (Z.of_nat (length ns)) ltac:(lia)).
  lia.
Qed.

Section round_trip.
Context (PR_NameToID : list text -> Z * list Z) (PR_IDToName : list Z -> Z * list text).
Context (name_id : text -> Z) (id_name : Z -> text).
Context (server_ids : forall names, PR_NameToID names = (0, map name_id names)).
Context (server_names : forall ids, PR_IDToName ids = (0, map id_name ids)).

(** An entry the server knows: it gives it a name that fits and that it finds
    again. *)
Definition named (e : accessEntry) : Prop :=
  word_ok (id_name (id e)) /\ name_id (stolower (id_name (id e))) = id e
  /\ id e <> ANONYMOUSID /\ int (rights e).

Definition to_line (e : accessEntry) : text * Z := (id_name (id e), rights e).

Lemma to_line_ok es : Forall named es -> Forall line_ok (map to_line es).
Proof. intros H. apply Forall_fmap. eapply Forall_impl; [exact H |]. intros e (H1 & _ & _ & H2). by split. Qed.

Lemma Externalize_text a P N : acl_ok a P N -> Forall named (P ++ N) ->
  acl_Externalize PR_IDToName a = Ok (external (map to_line P) (map to_line (reverse N))).
Proof.
  intros [Hp Hn Ht Hm _ _ He _ _] HF. unfold acl_Externalize.
  rewrite (proj2 (Z.ltb_ge _ _)), (proj2 (Z.ltb_ge (total a) 0)) by lia. cbv zeta.
  unfold ACL_MAXENTRIES in *. rewrite (proj2 (Z.ltb_ge 20 _)).
  2: { rewrite length_app. unfold down. rewrite length_map, !length_up. lia. }
  rewrite He, Ht, Hp, Hn, gather_parts. cbn [bind].
  set (es := P ++ reverse N).
  assert (Les : length es = (length P + length N)%nat) by (unfold es; by rewrite length_app, length_reverse).
  replace (Z.to_nat (_ + _)) with (length (map id es)) by (rewrite length_map; lia).
  rewrite take_app_length. unfold pr_IdToName. rewrite server_names. cbn [Z.eqb negb].
  replace (length es) with (length (map id_name (map id es))) by (by rewrite !length_map).
  rewrite gather_up. cbn [bind].
  assert (Ez : concat (zip_with (fun n e => entry_line n (rights e)) (map id_name (map id es)) es)
               = concat (map line_text (map to_line P ++ map to_line (reverse N)))).
  { f_equal. rewrite <- map_app. fold es. clear. induction es as [| e l IH]; [done |]. cbn. by rewrite IH. }
  rewrite Ez. set (out := show_int _ ++ _).
  assert (Eo : out = external (map to_line P) (map to_line (reverse N))).
  { unfold out, external. by rewrite !length_map, length_reverse. }
  rewrite Eo, (proj2 (Z.ltb_lt _ _)); [done |].
  pose proof (external_fits (map to_line P) (map to_line (reverse N))) as HX.
  rewrite !length_map, length_reverse in HX. apply Forall_app in HF as [HFP HFN]. apply HX; [by apply to_line_ok | | unfold ACL_MAXENTRIES; lia].
  apply to_line_ok. by rewrite reverse_Permutation.
Qed.

Lemma sorted_same R cmp l l' : decides cmp R -> (forall a b, R a b -> R b a -> id a = id b) ->
  NoDup (map id l) -> StronglySorted R l -> l' ≡ₚ l -> qsort cmp l' = l.
Proof.
  intros Hc Ha HN HS HE. apply (StronglySorted_unique_strong R).
  - intros x y Hx Hy H1 H2. rewrite (qsort_perm cmp l'), HE in Hx. specialize (Ha x y H1 H2).
    clear - HN Hx Hy Ha. induction l as [| z l IH]; [by apply not_elem_of_nil in Hx |].
    cbn [map] in HN. apply NoDup_cons in HN as [Hz HN].
    apply elem_of_cons in Hx as [-> | Hx], Hy as [-> | Hy]; [done | | | by apply IH];
      exfalso; apply Hz, list_elem_of_fmap; eauto.
  - by apply qsort_sorted.
  - done.
  - by rewrite qsort_perm.
Qed.

(** C25. An access list survives being written as text and read back, for
    entries the protection server has names for; neither direction leaves its
    storage. *)
Theorem acl_round_trip a P N body : acl_ok a P N -> Forall named (P ++ N) ->
  NoDup (map id P) -> NoDup (map id N) -> (forall n, Z.of_nat (length (body n)) = Z.max 0 n) ->
  exists t, acl_Externalize PR_IDToName a = Ok t /\ acl_Internalize PR_NameToID t body = Ok a.
Proof.
  intros Ha HF HNP HNN Hb. rewrite (Externalize_text a P N Ha HF). eexists. split; [done |].
  pose proof HF as HF'. apply Forall_app in HF' as [HFP HFN].
  assert (HFR : Forall named (reverse N)) by (by rewrite reverse_Permutation).
  destruct Ha as [Hp Hn Ht Hm Hs Hv He HSP HSN].
  assert (Hk : forall es, Forall named es -> map (parsed name_id) (map to_line es) = es).
  { induction 1 as [| e es (_ & E & _) _ IH]; [done |]. cbn [map]. rewrite IH. f_equal.
    unfold parsed, to_line. cbn [fst snd]. rewrite E. by destruct e. }
  rewrite (Internalize_text _ name_id server_ids); [| by apply to_line_ok | by apply to_line_ok | | done].
  2: { rewrite !length_map, length_reverse. unfold ACL_MAXENTRIES in *. lia. }
  rewrite <- map_app.
  assert (EK : forallb (known name_id) (map to_line (P ++ reverse N)) = true).
  { apply forallb_forall. intros l Hl%list_elem_of_In. apply list_elem_of_fmap in Hl as (e & -> & Hin).
    assert (Hne : named e).
    { rewrite Forall_forall in HF. apply HF. rewrite elem_of_app in *. by rewrite elem_of_reverse in Hin. }
    destruct Hne as (_ & E & Hx & _). unfold known, to_line. cbn [fst]. rewrite E. apply negb_true_iff, Z.eqb_neq. done. }
  rewrite EK. f_equal. unfold parsed_acl. rewrite !Hk by done. rewrite !length_map, length_reverse.
  rewrite (sorted_same id_le CmpPlus P P), (sorted_same id_ge CmpMinus N (reverse N)); try done.
  - destruct a; cbn in *. subst. f_equal; lia || done.
  - apply CmpMinus_decides.
  - unfold id_ge. lia.
  - apply reverse_Permutation.
  - apply CmpPlus_decides.
  - unfold id_le. lia.
Qed.
End round_trip.

(** ** Texts that leave the storage *)

(** The reader does not guard its storage: a first count above the sum of
    the counts writes past the entries of the new list, and a name of 64
    characters or more past the name it is read into, whatever the server
    and the storage. *)
Theorem acl_Internalize_overruns PR_NameToID (body : Z -> list accessEntry) w r :
  (forall n, Z.of_nat (length (body n)) = Z.max 0 n) ->
  Forall (fun c => isspace c = false) w -> PR_MAXNAMELEN <= Z.of_nat (length w) ->
  acl_Internalize PR_NameToID
    (show_int 2 ++ [NL] ++ show_int (-1) ++ [NL] ++ entry_line [97] 1 ++ entry_line [98] 1) body = Fault
  /\ acl_Internalize PR_NameToID (show_int 1 ++ [NL] ++ show_int 0 ++ [NL] ++ entry_line w r) body = Fault.
Proof.
  intros Hb Hw Hl. split.
  - destruct (body 1) as [| e [| e' l]] eqn:E; pose proof (Hb 1) as H1; rewrite E in H1; cbn in H1; try lia.
    vm_compute. rewrite E. vm_compute. done.
  - assert (Hs : scan_s (entry_line w r) = Some (w, TAB :: show_int r ++ [NL])).
    { unfold scan_s, entry_line. destruct w as [| c w]; [unfold PR_MAXNAMELEN in Hl; cbn in Hl; lia |].
      pose proof Hw as Hw'. apply Forall_cons in Hw' as [Hc _]. cbn [app skip_space]. rewrite Hc.
      change (c :: w ++ ?x) with ((c :: w) ++ x). by rewrite scan_word_app. }
    assert (Hi : int 1 /\ int 0) by (unfold int, INT_MIN, INT_MAX; lia).
    unfold acl_Internalize. cbn [app]. rewrite scan_d_show by (done || apply Hi).
    change (scan_d (NL :: ?l)) with (scan_d l). rewrite scan_d_show by (done || apply Hi).
    change (s32 (1 + 0)) with 1. unfold ACL_MAXENTRIES. cbn [Z.ltb Z.eqb Z.compare Pos.compare Pos.compare_cont].
    rewrite !next_line_app by apply show_int_noline. change (Z.to_nat 1) with 1%nat. cbn [read_entries].
    unfold read_line. rewrite Hs. by rewrite (proj2 (Z.leb_le _ _)).
Qed.

(** ** Network order *)

Lemma htonl_twice little z : int z -> htonl little (htonl little z) = z.
Proof.
  intros Hz. destruct little; [| done]. unfold htonl.
  assert (E : bswap32 (s32 (bswap32 z)) = bswap32 (bswap32 z)).
  { assert (Hu : forall x, bswap32 (x + 4294967296) = bswap32 x) by (intros x; unfold bswap32; zdiv).
    pose proof (bswap32_range z) as Hr. unfold s32. 
    destruct (decide (bswap32 z < 2147483648)).
    - rewrite Z.mod_small by lia. f_equal. lia.
    - rewrite <- (Hu (_ - _)). f_equal. zdiv. }
  rewrite E. assert (E2 : bswap32 z = bswap32 (u32 z)).
  { unfold bswap32, u32. zdiv. }
  rewrite E2, bswap32_involutive by apply u32_range. rewrite s32_u32. by apply s32_small.
Qed.

Lemma swap_entries_ok little l : NoDup l -> forall es,
  (forall i, i ∈ l -> 0 <= i < Z.of_nat (length es)) ->
  exists es', swap_entries little l es = Ok es' /\ length es' = length es
    /\ forall k e, es !! k = Some e ->
       es' !! k = Some (if decide (Z.of_nat k ∈ l) then swap_entry little e else e).
Proof.
  induction 1 as [| i l Hi HN IH]; intros es Hin.
  - exists es. split; [done |]. split; [done |]. intros k e H. by rewrite decide_False by apply not_elem_of_nil.
  - pose proof (Hin i ltac:(left)) as Hb.
    destruct (lookup_lt_is_Some_2 es (Z.to_nat i)) as [e0 Ee]; [lia |].
    cbn [swap_entries]. rewrite (upd_index_at _ _ e0) by (done || lia). cbn [bind].
    destruct (IH (<[Z.to_nat i := swap_entry little e0]> es)) as (es' & E & HL & HK).
    + intros j Hj. rewrite length_insert. apply Hin. by right.
    + exists es'. split; [done |]. rewrite length_insert in HL. split; [done |]. intros k e Hk.
      destruct (decide (Z.to_nat i = k)) as [<- | Hne].
      * rewrite (HK _ (swap_entry little e0)) by (apply list_lookup_insert_eq; lia).
        rewrite Ee in Hk. injection Hk as <-. rewrite Z2Nat.id by lia.
        by rewrite decide_False, decide_True by (done || left).
      * rewrite (HK _ e) by (by rewrite list_lookup_insert_ne). f_equal. apply decide_ext.
        rewrite elem_of_cons. split; [by right |]. intros [? | ?]; [lia | done].
Qed.

Lemma nodup_up n : NoDup (up n).
Proof. unfold up. apply NoDup_fmap_2; [intros x y; lia | apply NoDup_seq]. Qed.
Lemma nodup_down t n : NoDup (down t n).
Proof. unfold down. apply NoDup_fmap_2; [intros x y; lia | apply nodup_up]. Qed.

Lemma swap_all little es p n : 0 <= p -> 0 <= n -> p + n = Z.of_nat (length es) ->
  bind (swap_entries little (up p) es) (swap_entries little (down (p + n) n)) = Ok (map (swap_entry little) es).
Proof.
  intros Hp Hn Ht.
  destruct (swap_entries_ok little (up p) (nodup_up p) es) as (e1 & -> & L1 & K1); [intros i Hi%elem_up; lia |].
  cbn [bind].
  destruct (swap_entries_ok little (down (p + n) n) (nodup_down _ _) e1) as (e2 & -> & L2 & K2);
    [intros i Hi%elem_down; lia |].
  f_equal. apply list_eq. intros k. rewrite list_lookup_fmap. destruct (es !! k) as [e |] eqn:E; cbn.
  - rewrite (K2 k _ (K1 k e E)). apply lookup_lt_Some in E.
    repeat case_decide; try done; exfalso; rewrite elem_up, elem_down in *; lia.
  - apply lookup_ge_None_2. apply lookup_ge_None_1 in E. lia.
Qed.

(** The words of a list, in the order of its memory. *)
Definition words (a : accessList) : list Z :=
  [size_ a; version a; total a; positive a; negative a] ++ concat (map (fun e => [id e; rights e]) (entries a)).

(** [acl_HtonACL] leaves every word in network order, on a host of either
    byte order, and [acl_NtohACL] undoes it. *)
Theorem acl_network_order little a : 0 <= positive a -> 0 <= negative a ->
  positive a + negative a = total a -> Z.of_nat (length (entries a)) = total a -> Forall int (words a) ->
  exists b, acl_HtonACL little a = Ok b /\ map (host_mem little) (words b) = map be_bytes (words a)
    /\ acl_NtohACL little b = Ok a.
Proof.
  intros Hp Hn Ht Hl Hw. destruct little; [| by exists a].
  assert (HT : forall z, z ∈ words a -> htonl true (htonl true z) = z).
  { intros z Hz. apply htonl_twice. rewrite Forall_forall in Hw. by apply Hw. }
  assert (Hes : map (swap_entry true) (map (swap_entry true) (entries a)) = entries a).
  { rewrite map_map. rewrite <- (map_id (entries a)) at 2. apply map_ext_in. intros e He%list_elem_of_In.
    assert (Hin : forall z, z ∈ [id e; rights e] -> z ∈ words a).
    { intros z Hz. unfold words. apply elem_of_app. right. apply list_elem_of_In, in_concat.
      exists [id e; rights e]. split; [| by apply list_elem_of_In].
      apply list_elem_of_In. by apply (list_elem_of_fmap_2 (fun e => [id e; rights e])). }
    destruct e as [i r]. unfold swap_entry. cbn [id rights]. rewrite !HT; [done | |]; apply Hin; set_solver. }
  exists (swap_header true (set_entries (map (swap_entry true) (entries a)) a)).
  unfold acl_HtonACL, acl_NtohACL. cbn [negb]. split; [| split].
  - rewrite <- Ht, bind_assoc, swap_all by lia. done.
  - assert (Ew : words (swap_header true (set_entries (map (swap_entry true) (entries a)) a)) = map (htonl true) (words a)).
    { unfold words, swap_header, set_entries. cbn [size_ version total positive negative entries].
      rewrite map_app. cbn [map]. f_equal. rewrite concat_map, !map_map. done. }
    rewrite Ew, map_map. apply map_ext. intros z. apply host_mem_htonl.
  - assert (Hh : swap_header true (swap_header true (set_entries (map (swap_entry true) (entries a)) a))
                 = set_entries (map (swap_entry true) (entries a)) a).
    { unfold swap_header, set_entries. cbn [size_ version total positive negative entries].
      rewrite !HT by (unfold words; set_solver). done. }
    rewrite Hh. unfold set_entries at 1 2 3 4 5. cbn [positive negative total entries].
    rewrite <- Ht, bind_assoc, swap_all by (rewrite ?length_map; lia). cbn [bind]. rewrite Hes.
    by destruct a.
Qed.

(** ** Storage *)

Lemma GetFromList_spec l minsize : match GetFromList l minsize with
  | Some (e, l') => minsize <= e.2 /\ l ≡ₚ e :: l'
  | None => Forall (fun e => e.2 < minsize) l
  end.
Proof.
  induction l as [| y l IH]; cbn [GetFromList]; [constructor |].
  destruct (Z.leb_spec minsize y.2) as [H | H]; [by split |].
  destruct (GetFromList l minsize) as [[e l'] |].
  - destruct IH as [I1 ->]. split; [done | apply Permutation_swap].
  - by constructor.
Qed.

(** Calls: a new list of a size, and the release of a list given before. *)
Inductive call := New (t : Z) | Free (e : Z * Z).

(** The lists the callers hold, through a sequence of calls; a caller only
    releases what it holds. *)
Inductive uses : list call -> list (Z * Z) -> heap -> list (Z * Z) -> heap -> Prop :=
| uses_nil held h : uses [] held h held h
| uses_new t cs held h held' h' :
    uses cs ((new_block t h).1 :: held) (new_block t h).2 held' h' -> uses (New t :: cs) held h held' h'
| uses_free e cs held h held0 held' h' : held ≡ₚ e :: held0 ->
    uses cs held0 (acl_FreeACL e h) held' h' -> uses (Free e :: cs) held h held' h'.

Definition blocks_ok (held : list (Z * Z)) (h : heap) : Prop :=
  NoDup (map fst (held ++ freeList h)) /\ Forall (fun e => e.1 < brk h) (held ++ freeList h).

Lemma new_block_ok t held h : blocks_ok held h ->
  blocks_ok ((new_block t h).1 :: held) (new_block t h).2 /\ t <= (new_block t h).1.2.
Proof.
  intros [HN HF]. unfold new_block. pose proof (GetFromList_spec (freeList h) t) as HG.
  destruct (GetFromList (freeList h) t) as [[e l] |].
  - destruct HG as [Ht E]. split; [| done].
    assert (E' : (e :: held) ++ l ≡ₚ held ++ freeList h) by (rewrite E; apply Permutation_middle).
    split; cbn [fst snd freeList brk]; by rewrite E'.
  - cbn [fst snd]. split; [| lia]. split; cbn [freeList brk app map].
    + constructor; [| done]. intros (e & E & He)%list_elem_of_fmap. rewrite Forall_forall in HF.
      specialize (HF e He). cbn in E. lia.
    + constructor; [cbn; lia |]. eapply Forall_impl; [exact HF |]. cbn. lia.
Qed.

(** However lists are made and released, no storage is held twice or both
    held and free, and a list gets at least the size asked for. *)
Theorem acl_storage cs held h :
  uses cs [] (Heap [] 0) held h ->
  NoDup (map fst (held ++ freeList h)) /\ forall t, t <= (new_block t h).1.2 /\ (new_block t h).1.1 ∉ map fst held.
Proof.
  assert (G : forall cs0 held0 h0 held1 h1, uses cs0 held0 h0 held1 h1 -> blocks_ok held0 h0 -> blocks_ok held1 h1).
  { clear. induction 1 as [| t cs held0 h0 held' h' _ IH | e cs held0 h0 held1 held' h' E _ IH]; intros H; [done | |].
    - apply IH. by apply new_block_ok.
    - apply IH. destruct H as [HN HF].
      assert (E' : held1 ++ freeList (acl_FreeACL e h0) ≡ₚ held0 ++ freeList h0).
      { rewrite E. symmetry. apply Permutation_middle. }
      split; [by rewrite E' |]. rewrite E'. exact HF. }
  intros H. destruct (G _ _ _ _ _ H) as [HN HF]; [split; constructor |]. split; [done |]. intros t.
  destruct (new_block_ok t held h (conj HN HF)) as [[HN' _] Ht]. split; [done |].
  cbn [app map] in HN'. apply NoDup_cons in HN' as [HN' _]. rewrite map_app in HN'. set_solver.
Qed.

(** ** Witnesses *)

Definition demo_id (name : text) : Z := nth 0 name 0.
Definition demo_body (n : Z) : list accessEntry := replicate (Z.to_nat n) (Entry 0 0).

Lemma demo_body_length n : Z.of_nat (length (demo_body n)) = Z.max 0 n.
Proof. unfold demo_body. rewrite length_replicate. lia. Qed.

Definition demo_P : list accessEntry := [Entry 97 8; Entry 98 3].
Definition demo_N : list accessEntry := [Entry 99 1].
Definition demo_acl : accessList := Acl (acl_size 3) 1 3 2 1 (demo_P ++ demo_N).

Lemma demo_ok : acl_ok demo_acl demo_P demo_N.
Proof.
  split; try done.
  - repeat constructor; unfold id_le; cbn; lia.
  - repeat constructor.
Qed.

Lemma demo_named : Forall (named demo_id (fun i => [i])) (demo_P ++ demo_N).
Proof.
  assert (H : forall i r, i ∈ [97; 98; 99] -> int r -> named demo_id (fun i => [i]) (Entry i r)).
  { intros i r Hi Hr. assert (i = 97 \/ i = 98 \/ i = 99) as [-> | [-> | ->]] by set_solver;
      repeat split; try done; repeat constructor; try apply Hr. }
  unfold int, INT_MIN, INT_MAX in H. repeat constructor; apply H; (set_solver || lia).
Qed.

Lemma acl_CheckRights_spec_witness :
  acl_CheckRights demo_acl [98; 99] = Ok 2 /\ acl_CheckRights demo_acl [-205; -204] = Ok (-1).
Proof.
  split.
  - apply (acl_CheckRights_spec demo_acl demo_P demo_N [98; 99] demo_ok). repeat constructor; lia.
  - apply (acl_CheckRights_spec demo_acl demo_P demo_N [-205; -204] demo_ok). repeat constructor; lia.
Defined.

Lemma acl_Internalize_rights_witness :
  exists a, acl_Internalize (fun ns => (0, map demo_id ns)) (external [([98], 3); ([97], 8)] [([99], 1)]) demo_body = Ok a
  /\ acl_CheckRights a [98; 99] = Ok 2.
Proof.
  assert (Hl : forall c r, c ∈ [97; 98; 99] -> int r -> line_ok ([c], r)).
  { intros c r Hc Hr. split; [split; [done |] | done]. split; [| cbn; unfold PR_MAXNAMELEN; lia].
    constructor; [| constructor]. set_unfold. naive_solver. }
  unfold int, INT_MIN, INT_MAX in Hl.
  pose proof (acl_Internalize_rights (fun ns => (0, map demo_id ns)) demo_id (fun _ => eq_refl)
    [([98], 3); ([97], 8)] [([99], 1)] demo_body) as H.
  destruct (acl_Internalize _ _ _) as [a | c |].
  - exists a. split; [done |]. apply H; [| | cbn; unfold ACL_MAXENTRIES; lia | apply demo_body_length | | done].
    + repeat constructor; apply Hl; (set_solver || lia).
    + repeat constructor; apply Hl; (set_solver || lia).
    + repeat constructor; lia.
  - exfalso. destruct H as [_ H]; [repeat constructor; apply Hl; (set_solver || lia).. | cbn; unfold ACL_MAXENTRIES; lia | apply demo_body_length |].
    apply Exists_exists in H as (l & Hin & E). set_unfold. naive_solver.
  - exfalso. apply H; [repeat constructor; apply Hl; (set_solver || lia).. | cbn; unfold ACL_MAXENTRIES; lia | apply demo_body_length].
Defined.

Lemma acl_round_trip_witness :
  exists t, acl_Externalize (fun ids => (0, map (fun i => [i]) ids)) demo_acl = Ok t
  /\ acl_Internalize (fun ns => (0, map demo_id ns)) t demo_body = Ok demo_acl.
Proof.
  apply (acl_round_trip (fun ns => (0, map demo_id ns)) (fun ids => (0, map (fun i => [i]) ids)) demo_id (fun i => [i])
           (fun _ => eq_refl) (fun _ => eq_refl) demo_acl demo_P demo_N demo_body demo_ok demo_named).
  - repeat constructor; set_unfold; lia.
  - repeat constructor; set_unfold; lia.
  - apply demo_body_length.
Defined.

Lemma acl_Internalize_overruns_witness :
  acl_Internalize (fun ns => (0, map demo_id ns)) (show_int 1 ++ [NL] ++ show_int 0 ++ [NL] ++ entry_line (replicate 64 97) 1) demo_body
  = Fault.
Proof.
  apply (acl_Internalize_overruns (fun ns => (0, map demo_id ns)) demo_body (replicate 64 97) 1).
  - apply demo_body_length.
  - apply Forall_replicate. done.
  - rewrite length_replicate. unfold PR_MAXNAMELEN. lia.
Defined.

Lemma acl_network_order_witness :
  exists b, acl_HtonACL true demo_acl = Ok b /\ map (host_mem true) (words b) = map be_bytes (words demo_acl)
    /\ acl_NtohACL true b = Ok demo_acl.
Proof.
  apply (acl_network_order true demo_acl); try (cbn; lia).
  unfold int, INT_MIN, INT_MAX, words. cbn. repeat constructor; unfold acl_size; lia.
Defined.

Lemma acl_storage_witness :
  let h := acl_FreeACL (0, 44) (Heap [] 1) in
  uses [New 44; Free (0, 44)] [] (Heap [] 0) [] h /\ (new_block 36 h).1.1 ∉ map fst ([] : list (Z * Z)).
Proof.
  intros h. assert (H : uses [New 44; Free (0, 44)] [] (Heap [] 0) [] h).
  { apply uses_new. apply (uses_free _ _ _ _ []); [done | apply uses_nil]. }
  split; [done |]. apply (acl_storage _ _ _ H).
Defined.
