(* ===== verification/Rings.v ===== *)
(** Linked lists in memory. Chains that end with 0: an element dropped. Circular
    doubly linked lists, as segments between two nodes: a node added at the end,
    a node taken out, and the lists of a set of nodes by a key that each node
    has. *)
From S2P Require Import Prelude.

(** ** Chains *)

Fixpoint linked (nxt : Z -> Z) (h : Z) (l : list Z) : Prop :=
  match l with
  | [] => h = 0
  | x :: l' => h = x /\ linked nxt (nxt x) l'
  end.

Lemma links_frame nxt nxt' l : forall h, linked nxt h l -> (forall x, x ∈ l -> nxt' x = nxt x) -> linked nxt' h l.
Proof.
  induction l as [| x l IH]; intros h H Hn; [done |]. destruct H as [-> H]. split; [done |].
  rewrite Hn by left. apply IH; [done |]. intros y Hy. apply Hn. by right.
Qed.

(** Dropping an element: its predecessor's pointer, or the head, is what its
    own was. *)
Lemma linked_drop nxt nxt' x l2 l1 : forall h h', linked nxt h (l1 ++ x :: l2) -> NoDup (l1 ++ x :: l2) ->
  (forall y, y ∈ l1 ++ l2 -> nxt' y = if decide (last l1 = Some y) then nxt x else nxt y) ->
  h' = (if decide (l1 = []) then nxt x else h) -> linked nxt' h' (l1 ++ l2).
Proof.
  induction l1 as [| a l1 IH]; intros h h' H HN Hn Hh.
  - cbn in *. destruct H as [-> H]. subst h'. apply (links_frame nxt); [done |].
    intros y Hy. by rewrite Hn.
  - cbn [app linked] in *. destruct H as [-> H]. cbn in Hh. subst h'. split; [done |].
    apply NoDup_cons in HN as [Ha HN]. apply (IH (nxt a)); [done | done | |].
    + intros y Hy. rewrite Hn by (by right). rewrite last_cons. destruct (last l1) as [b |] eqn:El; [done |].
      rewrite decide_False; [done |]. intros [= <-]. apply Ha. set_solver.
    + rewrite Hn by left. rewrite last_cons. destruct l1 as [| b l1]; [by rewrite decide_True |].
      rewrite (decide_False (P := b :: l1 = [])) by done. rewrite decide_False; [done |].
      destruct (last (b :: l1)) as [c |] eqn:El; [| by rewrite last_None in El]. intros [= ->].
      apply Ha. apply elem_of_app. left. by apply last_Some_elem_of.
Qed.

(** An element added at the end. *)
Lemma linked_end nxt nxt' c l : forall h h', linked nxt h l -> NoDup l ->
  (forall y, y ∈ l -> nxt' y = if decide (last l = Some y) then c else nxt y) -> nxt' c = 0 ->
  h' = (if decide (l = []) then c else h) -> linked nxt' h' (l ++ [c]).
Proof.
  induction l as [| x l IH]; intros h h' HL HN Hn Hc Hh; cbn [app linked] in *.
  - subst h'. by rewrite decide_True.
  - destruct HL as [-> HL]. subst h'. rewrite decide_False by done. split; [done |]. apply NoDup_cons in HN as [Hx HN].
    apply (IH (nxt x)); [done | done | | done |].
    + intros y Hy. rewrite Hn by (by right). rewrite last_cons. destruct (last l) eqn:El; [done |].
      apply last_None in El. subst l. by apply not_elem_of_nil in Hy.
    + rewrite Hn by left. rewrite last_cons. destruct l as [| z l]; [by rewrite !decide_True |].
      rewrite (decide_False (P := z :: l = [])) by done. destruct (last (z :: l)) as [y |] eqn:El; [| by apply last_None in El].
      rewrite decide_False; [done |]. intros [= ->]. apply Hx. by apply last_Some_elem_of.
Qed.

(** ** Circular lists *)

(** From [a] through [l] to [e], and back. *)
Fixpoint segment (n p : Z -> Z) (a : Z) (l : list Z) (e : Z) : Prop :=
  match l with
  | [] => n a = e /\ p e = a
  | x :: l' => n a = x /\ p x = a /\ segment n p x l' e
  end.

(** The list of a head, which is 0 when there is none. *)
Definition ring (n p : Z -> Z) (h : Z) (l : list Z) : Prop :=
  match l with
  | [] => h = 0
  | x :: l' => h = x /\ segment n p x l' x
  end.

Lemma segment_app n p l1 : forall a x l2 e, segment n p a (l1 ++ x :: l2) e <-> segment n p a l1 x /\ segment n p x l2 e.
Proof.
  induction l1 as [| y l1 IH]; intros a x l2 e; cbn [app segment]; [naive_solver |]. rewrite IH. naive_solver.
Qed.

Lemma segment_last n p l : forall a e, segment n p a l e -> last (a :: l) = Some (p e).
Proof. induction l as [| x l IH]; cbn [segment]; intros a e H; [by destruct H as [_ ->] |]. destruct H as (_ & _ & H). by apply IH in H. Qed.

(** A segment led to another end. *)
Lemma segment_redirect n p n' p' e e' l : forall a, segment n p a l e -> NoDup (a :: l) ->
  (forall x, x ∈ a :: l -> n' x = if decide (x = p e) then e' else n x) -> (forall x, x ∈ l -> p' x = p x) -> p' e' = p e ->
  segment n' p' a l e'.
Proof.
  induction l as [| x l IH]; intros a H HN Hn Hp He; cbn [segment] in *.
  - destruct H as [H1 H2]. rewrite Hn by left. by rewrite decide_True, He.
  - destruct H as (H1 & H2 & H3). pose proof (segment_last _ _ _ _ _ H3) as Hl. apply NoDup_cons in HN as [Ha HN].
    split; [| split].
    + rewrite Hn by left. rewrite decide_False; [done |]. intros ->. apply Ha. by apply last_Some_elem_of.
    + rewrite Hp by left. done.
    + apply IH; [done | done | intros y Hy; apply Hn; by right | intros y Hy; apply Hp; by right | done].
Qed.

(** A segment whose nodes are as they were. *)
Lemma segment_frame n p n' p' e l : forall a, segment n p a l e -> (forall x, x ∈ a :: l -> n' x = n x) -> (forall x, x ∈ l -> p' x = p x) ->
  p' e = p e -> segment n' p' a l e.
Proof.
  induction l as [| x l IH]; intros a H Hn Hp He; cbn [segment] in *.
  - destruct H as [H1 H2]. by rewrite Hn, He by left.
  - destruct H as (H1 & H2 & H3). rewrite Hn, Hp by left. split; [done | split; [done |]].
    apply IH; [done | intros y Hy; apply Hn; by right | intros y Hy; apply Hp; by right | done].
Qed.

Lemma ring_frame n p n' p' h l : ring n p h l -> (forall x, x ∈ l -> n' x = n x /\ p' x = p x) -> ring n' p' h l.
Proof.
  destruct l as [| x l]; [done |]. intros [-> H] Hx. split; [done |].
  apply (segment_frame n p); [done | intros y Hy; by apply Hx | intros y Hy; apply Hx; by right | apply Hx; left].
Qed.

(** The neighbours of a node are nodes. *)
Lemma ring_near n p h l c : ring n p h l -> c ∈ l -> n c ∈ l /\ p c ∈ l /\ n (p c) = c /\ p (n c) = c.
Proof.
  intros H Hc. apply list_elem_of_split in Hc as (l1 & l2 & ->).
  assert (Hin : forall a l e x, segment n p a l e -> x ∈ a :: l -> n x ∈ l ++ [e] /\ p (n x) = x).
  { clear. intros a l. revert a. induction l as [| y l IH]; cbn [segment app]; intros a e x H Hx.
    - apply elem_of_cons in Hx as [-> | Hx]; [| by apply not_elem_of_nil in Hx]. destruct H as [-> ->]. split; [left | done].
    - destruct H as (H1 & H2 & H3). apply elem_of_cons in Hx as [-> | Hx]; [rewrite H1; split; [left | done] |].
      destruct (IH y e x H3 Hx) as [H4 H5]. split; [by right | done]. }
  assert (Hpr : forall a l e x, segment n p a l e -> x ∈ l ++ [e] -> p x ∈ a :: l /\ n (p x) = x).
  { clear. intros a l. revert a. induction l as [| y l IH]; cbn [segment app]; intros a e x H Hx.
    - apply elem_of_cons in Hx as [-> | Hx]; [| by apply not_elem_of_nil in Hx]. destruct H as [H1 ->]. split; [left | done].
    - destruct H as (H1 & H2 & H3). apply elem_of_cons in Hx as [-> | Hx]; [rewrite H2; split; [left | done] |].
      destruct (IH y e x H3 Hx) as [H4 H5]. split; [by right | done]. }
  destruct l1 as [| x l1]; cbn [app ring] in *; destruct H as [-> H].
  - destruct (Hin c l2 c c H ltac:(left)) as [H1 H2]. destruct (Hpr c l2 c c H ltac:(set_solver)) as [H3 H4]. set_solver.
  - destruct (Hin x (l1 ++ c :: l2) x c H ltac:(set_solver)) as [H1 H2].
    destruct (Hpr x (l1 ++ c :: l2) x c H ltac:(set_solver)) as [H3 H4]. set_solver.
Qed.

(** A node taken out: the head it leaves, and the pointers of its neighbours. *)
Definition head_without (n : Z -> Z) (h c : Z) : Z := if decide (h = c) then (if decide (h = n c) then 0 else n c) else h.

Lemma ring_del n p n' p' h l1 c l2 : ring n p h (l1 ++ c :: l2) -> NoDup (l1 ++ c :: l2) ->
  (forall x, x ∈ l1 ++ l2 -> n' x = (if decide (x = p c) then n c else n x) /\ p' x = if decide (x = n c) then p c else p x) ->
  ring n' p' (head_without n h c) (l1 ++ l2).
Proof.
  intros H HN Hx. unfold head_without. apply NoDup_app in HN as (N1 & N12 & N2). apply NoDup_cons in N2 as [Nc N2].
  assert (Nc1 : c ∉ l1) by (intros Hc; by apply (N12 c Hc); left).
  destruct l1 as [| x l1]; cbn [app ring] in *.
  - destruct H as [-> H]. rewrite decide_True by done. destruct l2 as [| y l2]; cbn [segment ring] in *.
    + destruct H as [-> _]. by rewrite decide_True.
    + destruct H as (H1 & H2 & H3). pose proof (segment_last _ _ _ _ _ H3) as Hl.
      rewrite decide_False by (rewrite H1; intros ->; apply Nc; left). split; [done |].
      assert (Hy : p' (n c) = p c) by (rewrite H1; destruct (Hx y ltac:(left)) as [_ ->]; by rewrite decide_True).
      rewrite <- H1 at 2. apply (segment_redirect n p n' p' c); [done | done | intros z Hz; by apply Hx | | done].
      intros z Hz. destruct (Hx z ltac:(by right)) as [_ ->]. rewrite decide_False; [done |]. rewrite H1. intros ->.
      apply NoDup_cons in N2 as [? _]. done.
  - destruct H as [-> H]. apply segment_app in H as [H1 H2]. pose proof (segment_last _ _ _ _ _ H1) as Hl.
    rewrite decide_False by (intros ->; apply Nc1; left). split; [done |].
    assert (Hpc : p c ∈ x :: l1) by by apply last_Some_elem_of.
    destruct l2 as [| y l2]; cbn [segment] in H2.
    + destruct H2 as [H2 H3]. rewrite app_nil_r in *. rewrite <- H2 at 2.
      assert (Hxx : p' (n c) = p c) by (rewrite H2; destruct (Hx x ltac:(left)) as [_ ->]; by rewrite decide_True).
      apply (segment_redirect n p n' p' c); [done | done | intros z Hz; by apply Hx | | done].
      intros z Hz. destruct (Hx z ltac:(by right)) as [_ ->]. rewrite decide_False; [done |]. rewrite H2. intros ->.
      by apply NoDup_cons in N1 as [? _].
    + destruct H2 as (H2 & H3 & H4). apply segment_app.
      assert (Hyin : y ∉ x :: l1) by (intros Hy; apply (N12 y Hy); right; left).
      split.
      * rewrite <- H2. apply (segment_redirect n p n' p' c); [done | done | intros z Hz; apply Hx; set_solver | |].
        -- intros z Hz. destruct (Hx z ltac:(set_solver)) as [_ ->]. rewrite decide_False; [done |]. rewrite H2. intros ->.
           apply Hyin. by right.
        -- rewrite H2. destruct (Hx y ltac:(set_solver)) as [_ ->]. by rewrite decide_True.
      * apply (segment_frame n p); [done | | |].
        -- intros z Hz. destruct (Hx z ltac:(set_solver)) as [-> _]. rewrite decide_False; [done |]. intros ->.
           apply (N12 (p c) Hpc). by right.
        -- intros z Hz. destruct (Hx z ltac:(set_solver)) as [_ ->]. rewrite decide_False; [done |]. rewrite H2. intros ->.
           by apply NoDup_cons in N2 as [? _].
        -- destruct (Hx x ltac:(left)) as [_ ->]. rewrite decide_False; [done |]. rewrite H2. intros ->. apply Hyin. left.
Qed.

(** A node added at the end. *)
Lemma ring_add n p n' p' h h' l c : ring n p h l -> NoDup l -> c ∉ l ->
  (if decide (l = []) then h' = c /\ n' c = c /\ p' c = c
   else h' = h /\ n' c = h /\ p' c = p h /\ p' h = c
     /\ (forall x, x ∈ l -> n' x = if decide (x = p h) then c else n x) /\ forall x, x ∈ l -> x <> h -> p' x = p x) ->
  ring n' p' h' (l ++ [c]).
Proof.
  intros H HN Hc. destruct l as [| x l]; cbn [ring app] in *.
  - rewrite decide_True by done. intros (-> & H1 & H2). split; [done |]. by cbn [segment].
  - rewrite decide_False by done. destruct H as [-> H]. intros (-> & H1 & H2 & H3 & H4 & H5). split; [done |].
    apply segment_app. cbn [segment]. split; [| done].
    apply (segment_redirect n p n' p' x); [done | done | done | | done].
    intros z Hz. apply H5; [by right |]. intros ->. by apply NoDup_cons in HN as [? _].
Qed.

(** ** The lists of a set of nodes

    One list for each key of those that are [ok]. *)
Record rings (n p key hd : Z -> Z) (ok : Z -> Prop) (C : gset Z) (L : Z -> list Z) : Prop := {
  rg_ring : forall i, ok i -> ring n p (hd i) (L i);
  rg_nodup : forall i, ok i -> NoDup (L i);
  rg_elem : forall i x, ok i -> x ∈ L i <-> x ∈ C /\ key x = i
}.

Lemma rings_frame n p key hd n' p' key' hd' ok C L : rings n p key hd ok C L ->
  (forall x, x ∈ C -> n' x = n x /\ p' x = p x /\ key' x = key x) -> (forall i, ok i -> hd' i = hd i) ->
  rings n' p' key' hd' ok C L.
Proof.
  intros [R1 R2 R3] Hx Hh. split; [| done |].
  - intros i Hi. rewrite Hh by done. apply (ring_frame n p); [by apply R1 |]. intros x Hin. apply R3 in Hin as [Hin _]; [| done].
    by destruct (Hx x Hin) as (-> & -> & _).
  - intros i x Hi. rewrite R3 by done. split; intros [Hin E]; destruct (Hx x Hin) as (_ & _ & E'); rewrite E' in *; done.
Qed.

(** A list of which nothing is taken. *)
Lemma filter_all {A} (Q : A -> Prop) `{forall x, Decision (Q x)} (l : list A) : (forall x, x ∈ l -> Q x) -> filter Q l = l.
Proof.
  induction l as [| x l IH]; intros HQ; [done |]. rewrite filter_cons_True by (apply HQ; left). f_equal. apply IH. intros y Hy. apply HQ. by right.
Qed.

Lemma rings_del_at n p key hd n' p' key' hd' ok C L c : rings n p key hd ok C L -> c ∈ C -> ok (key c) ->
  (forall x, x ∈ C -> x <> c -> n' x = (if decide (x = p c) then n c else n x) /\ (p' x = if decide (x = n c) then p c else p x) /\ key' x = key x) ->
  (forall i, ok i -> hd' i = if decide (i = key c) then head_without n (hd i) c else hd i) ->
  exists L', rings n' p' key' hd' ok (C ∖ {[c]}) L' /\ forall i, ok i -> L' i = filter (fun x => x <> c) (L i).
Proof.
  intros [R1 R2 R3] Hc Hok Hx Hh. assert (Hin : c ∈ L (key c)) by by apply R3.
  pose proof (ring_near n p _ _ c (R1 _ Hok) Hin) as (Nn & Np & _).
  apply list_elem_of_split in Hin as (l1 & l2 & E). pose proof (R2 _ Hok) as HN.
  assert (Hne : forall x, x ∈ l1 ++ l2 -> x ∈ C /\ x <> c /\ key x = key c).
  { intros x Hin. assert (Hin' : x ∈ L (key c)) by (rewrite E; set_solver). apply R3 in Hin' as [H1 H2]; [| done].
    split; [done | split; [| done]]. intros ->. rewrite E in HN. apply NoDup_app in HN as (_ & N1 & N2).
    apply NoDup_cons in N2 as [N2 _]. apply elem_of_app in Hin as [Hin | Hin]; [| done]. apply (N1 c Hin). left. }
  exists (fun i => if decide (i = key c) then l1 ++ l2 else L i). split.
  2:{ intros i Hi. case_decide as Ei.
    - subst i. rewrite E in *. rewrite filter_app, filter_cons_False, !filter_all; [done | | | naive_solver].
      + intros y Hy. apply Hne. set_solver.
      + intros y Hy. apply Hne. set_solver.
    - symmetry. apply filter_all. intros x Hin ->. by apply R3 in Hin as [_ ?]. }
  split.
  - intros i Hi. rewrite Hh by done. case_decide as Ei.
    + subst i. rewrite E in HN. pose proof (R1 _ Hok) as HR. rewrite E in HR. apply (ring_del n p); [done | done |].
      intros x Hin. destruct (Hne x Hin) as (H1 & H2 & _). destruct (Hx x H1 H2) as (-> & -> & _). done.
    + apply (ring_frame n p); [by apply R1 |]. intros x Hin. pose proof Hin as Hin'. apply R3 in Hin as [H1 H2]; [| done].
      assert (x <> c) by (intros ->; congruence). destruct (Hx x H1 ltac:(done)) as (-> & -> & _).
      assert (Hk : forall y, y ∈ L (key c) -> x <> y) by (intros y Hy ->; apply R3 in Hy as [_ Hy]; [| done]; congruence).
      by rewrite !decide_False by (by apply Hk).
  - intros i Hi. case_decide as Ei; [| by apply R2]. rewrite E in HN. apply NoDup_app in HN as (N1 & N2 & N3). apply NoDup_cons in N3 as [N4 N3].
    apply NoDup_app. split; [done | split; [| done]]. intros x H1 H2. apply (N2 x H1). by right.
  - intros i x Hi. assert (HC : forall x, x ∈ C -> x <> c -> key' x = key x) by (intros y Hy Hne'; by apply Hx). case_decide as Ei.
    + subst i. split.
      * intros Hin. destruct (Hne x Hin) as (H1 & H2 & H3). split; [set_solver |]. by rewrite HC.
      * intros [H1 H2]. assert (x ∈ C /\ x <> c) as [H3 H4] by set_solver. rewrite HC in H2 by done.
        assert (Hin : x ∈ L (key c)) by by apply R3. rewrite E in Hin. set_solver.
    + rewrite R3 by done. split.
      * intros [H1 H2]. assert (x <> c) by (intros ->; congruence). split; [set_solver | by rewrite HC].
      * intros [H1 H2]. assert (x ∈ C /\ x <> c) as [H3 H4] by set_solver. by rewrite HC in H2.
Qed.

Lemma rings_del n p key hd n' p' key' hd' ok C L c : rings n p key hd ok C L -> c ∈ C -> ok (key c) ->
  (forall x, x ∈ C -> x <> c -> n' x = (if decide (x = p c) then n c else n x) /\ (p' x = if decide (x = n c) then p c else p x) /\ key' x = key x) ->
  (forall i, ok i -> hd' i = if decide (i = key c) then head_without n (hd i) c else hd i) ->
  exists L', rings n' p' key' hd' ok (C ∖ {[c]}) L'.
Proof.
  intros R Hc Hk Hx Hh. destruct (rings_del_at n p key hd n' p' key' hd' ok C L c R Hc Hk Hx Hh) as (L' & R' & _). by exists L'.
Qed.

Lemma rings_add n p key hd n' p' key' hd' ok C L c : rings n p key hd ok C L -> c ∉ C -> ok (key' c) ->
  (forall x, x ∈ C -> key' x = key x) ->
  (if decide (L (key' c) = []) then hd' (key' c) = c /\ n' c = c /\ p' c = c /\ forall x, x ∈ C -> n' x = n x /\ p' x = p x
   else let h := hd (key' c) in hd' (key' c) = h /\ n' c = h /\ p' c = p h /\ p' h = c
     /\ (forall x, x ∈ C -> n' x = if decide (x = p h) then c else n x) /\ forall x, x ∈ C -> x <> h -> p' x = p x) ->
  (forall i, ok i -> i <> key' c -> hd' i = hd i) ->
  exists L', rings n' p' key' hd' ok ({[c]} ∪ C) L'.
Proof.
  intros [R1 R2 R3] Hc Hok Hk Hx Hh. remember (key' c) as k eqn:Ek.
  assert (HcL : forall i, ok i -> c ∉ L i) by (intros i Hi Hin; by apply R3 in Hin as [? _]).
  assert (HL : forall x, x ∈ L k -> x ∈ C) by (intros x Hin; by apply R3 in Hin as [? _]).
  exists (fun i => if decide (i = k) then L k ++ [c] else L i). split.
  - intros i Hi. destruct (decide (i = k)) as [Ei | Ei].
    + subst i. apply (ring_add n p _ _ (hd k) _ (L k)); [by apply R1 | by apply R2 | by apply HcL |].
      case_decide as El; [naive_solver |]. destruct Hx as (H1 & H2 & H3 & H4 & H5 & H6). naive_solver.
    + rewrite Hh by done. apply (ring_frame n p); [by apply R1 |]. intros x Hin. apply R3 in Hin as [H1 H2]; [| done].
      case_decide as El; [naive_solver |]. destruct Hx as (_ & _ & _ & _ & H5 & H6).
      assert (Hhd : hd k ∈ L k /\ p (hd k) ∈ L k).
      { pose proof (R1 k Hok) as HR. destruct (L k) as [| y l] eqn:Ey; [done |]. destruct HR as [-> HR].
        split; [left |]. apply (ring_near n p y (y :: l)); [by split | left]. }
      assert (Hout : forall y, y ∈ L k -> x <> y) by (intros y Hy ->; apply R3 in Hy as [_ Hy]; [| done]; congruence).
      destruct Hhd as [Hh1 Hh2]. rewrite H5, decide_False, H6; [done | done | by apply Hout | by apply Hout | done].
  - intros i Hi. destruct (decide (i = k)); [| by apply R2]. apply NoDup_app. split; [by apply R2 |].
    split; [| apply NoDup_singleton]. intros x H1 H2%list_elem_of_singleton. subst x. by apply (HcL k).
  - intros i x Hi. destruct (decide (i = k)) as [Ei | Ei].
    + subst i. rewrite elem_of_app, list_elem_of_singleton, R3 by done. split.
      * intros [[H1 H2] | ->]; [split; [set_solver | by rewrite Hk] | split; [set_solver | done]].
      * intros [H1 H2]. destruct (decide (x = c)) as [| Hne]; [by right | left]. assert (x ∈ C) by set_solver. by rewrite Hk in H2.
    + rewrite R3 by done. split.
      * intros [H1 H2]. split; [set_solver | by rewrite Hk].
      * intros [H1 H2]. assert (x <> c) by (intros ->; congruence). assert (x ∈ C) by set_solver. by rewrite Hk in H2.
Qed.

(** One of the lists given up as a whole. *)
Lemma rings_drop n p key hd n' p' key' hd' ok C L k : rings n p key hd ok C L -> ok k ->
  (forall x, x ∈ C -> n' x = n x /\ p' x = p x /\ key' x = key x) -> (forall i, ok i -> hd' i = if decide (i = k) then 0 else hd i) ->
  rings n' p' key' hd' ok (C ∖ list_to_set (L k)) (fun i => if decide (i = k) then [] else L i).
Proof.
  intros R Hk Hx Hh. destruct R as [R1 R2 R3].
  assert (HC : forall x, x ∈ C ∖ list_to_set (L k) <-> x ∈ C /\ key x <> k).
  { intros x. rewrite elem_of_difference, elem_of_list_to_set, R3 by done. naive_solver. }
  split.
  - intros i Hi. rewrite Hh by done. destruct (decide (i = k)); [done |]. apply (ring_frame n p); [by apply R1 |].
    intros x Hin. apply R3 in Hin as [Hin _]; [| done]. by destruct (Hx x Hin) as (-> & -> & _).
  - intros i Hi. destruct (decide (i = k)); [apply NoDup_nil_2 | by apply R2].
  - intros i x Hi. rewrite HC. destruct (decide (i = k)) as [-> | Hik].
    + split; [by intros ?%not_elem_of_nil |]. intros [[H1 H2] H3]. destruct (Hx x H1) as (_ & _ & E). congruence.
    + rewrite R3 by done. split.
      * intros [H1 H2]. destruct (Hx x H1) as (_ & _ & ->). split; [split; [done | congruence] | done].
      * intros [[H1 H2] H3]. destruct (Hx x H1) as (_ & _ & E). by rewrite <- E.
Qed.
