(* ===== verification/Monad.v ===== *)
(** Programs that keep a state and may fail: a function of the state gives a
    value and the next state, or nothing where the code has no defined outcome
    (an access outside an object, a failed assertion, a loop that does not end). *)
From S2P Require Import Prelude.

Section monad.
Context {S : Type}.

Definition SM (A : Type) : Type := S -> option (A * S).
Definition ret {A} (a : A) : SM A := fun s => Some (a, s).
Definition mbind_ {A B} (m : SM A) (k : A -> SM B) : SM B :=
  fun s => match m s with Some (a, s') => k a s' | None => None end.
Definition crash {A} : SM A := fun _ => None.
Definition gets {A} (f : S -> A) : SM A := fun s => Some (f s, s).
Definition modify (f : S -> S) : SM unit := fun s => Some (tt, f s).

Lemma bind_ok {A B} (m : SM A) (k : A -> SM B) s a s' : m s = Some (a, s') -> mbind_ m k s = k a s'.
Proof. unfold mbind_. by intros ->. Qed.

Lemma mbind_assoc {A B D} (m : SM A) (k : A -> SM B) (k' : B -> SM D) s : mbind_ m (fun a => mbind_ (k a) k') s = mbind_ (mbind_ m k) k' s.
Proof. unfold mbind_. by destruct (m s) as [[a s'] |]. Qed.

Lemma bind_ext {A B} (m : SM A) (k k' : A -> SM B) s : (forall a s', k a s' = k' a s') -> mbind_ m k s = mbind_ m k' s.
Proof. intros E. unfold mbind_. destruct (m s) as [[a s'] |]; [apply E | done]. Qed.
End monad.
Arguments SM : clear implicits.

Declare Scope monad_scope.
Notation "'let*' x ':=' m 'in' k" := (mbind_ m (fun x => k))
  (at level 10, x pattern, m at level 100, k at level 200) : monad_scope.
Notation "m ;; k" := (mbind_ m (fun _ => k)) (at level 100, k at level 200, only parsing, right associativity) : monad_scope.
