(* ===== verification/UbikFile.v ===== *)
(** What the databases kept in Ubik files share: the file with the copy of its
    header in memory, the calls to Ubik as a monad that draws their return codes
    from a list, images of words and strings, and chains through the blocks of a
    file. *)
From S2P Require Import Prelude Bytes.
From S2P Require Export Monad Rings.

(** ** The state and its monad *)

Record st (H : Type) := St { cheader : H; file : gmap Z Z; io : list Z }.
Arguments St {H} _ _ _.
Arguments cheader {H} _.
Arguments file {H} _.
Arguments io {H} _.

Section monad.
Context {H : Type}.
Notation st := (st H).
Notation M := (SM st).

Definition get_header : M H := fun s => Some (cheader s, s).
Definition set_header (f : H -> H) : M unit := fun s => Some (tt, St (f (cheader s)) (file s) (io s)).
Definition get_file : M (gmap Z Z) := fun s => Some (file s, s).
Definition set_file (f : gmap Z Z -> gmap Z Z) : M unit := fun s => Some (tt, St (cheader s) (f (file s)) (io s)).

(** A call to Ubik: the next code, 0 when none are left. *)
Definition ubik_call : M Z := fun s =>
  match io s with
  | [] => Some (0, s)
  | c :: l => Some (c, St (cheader s) (file s) l)
  end.
End monad.

Declare Scope ubik_scope.
Notation "'let*' x ':=' m 'in' k" := (mbind_ m (fun x => k))
  (at level 10, x pattern, m at level 100, k at level 200) : ubik_scope.

Section calls.
Context {H : Type}.
Notation st := (st H).
Notation M := (SM st).
#[local] Open Scope ubik_scope.

(** A seek, then a read or a write: each may fail. *)
Definition ubik_calls : M Z :=
  let* code := ubik_call in
  if negb (code =? 0) then ret code else ubik_call.

Lemma ubik_call_ok (s : st) : io s = [] -> ubik_call s = Some (0, s).
Proof. unfold ubik_call. by intros ->. Qed.

Lemma ubik_calls_ok (s : st) : io s = [] -> ubik_calls s = Some (0, s).
Proof. intros E. unfold ubik_calls, mbind_. rewrite ubik_call_ok by done. cbn [Z.eqb negb]. by apply ubik_call_ok. Qed.
End calls.

(** ** Words and strings *)

Definition get_words (m : gmap Z Z) (a : Z) (n : nat) : list Z :=
  map (fun k => get32 m (a + 4 * Z.of_nat k)) (seq 0 n).

Definition int32 (z : Z) : Prop := INT_MIN <= z <= INT_MAX.

Lemma get_words_image ws : forall m a, Forall int32 ws ->
  bytes m a (4 * length ws) = concat (map be_bytes ws) -> get_words m a (length ws) = ws.
Proof.
  induction ws as [| w ws IH]; intros m a Hi H; [done |]. apply Forall_cons in Hi as [Hw Hi].
  replace (4 * length (w :: ws))%nat with (4 + 4 * length ws)%nat in H by (cbn [length]; lia).
  rewrite bytes_plus in H. cbn [map concat] in H. apply app_inj_1 in H as [H1 H2]; [| by rewrite bytes_length].
  unfold get_words. cbn [length seq map]. f_equal.
  - rewrite Z.mul_0_r, Z.add_0_r. unfold get32. rewrite H1, be_val_bytes, s32_u32. apply s32_small. exact Hw.
  - rewrite <- (IH m (a + 4) Hi H2) at 2. unfold get_words. rewrite <- seq_shift, map_map. apply map_ext.
    intros k. f_equal. lia.
Qed.

Lemma get_words_ext m m' a n : (forall x, a <= x < a + 4 * Z.of_nat n -> byte m' x = byte m x) ->
  get_words m' a n = get_words m a n.
Proof.
  intros H. unfold get_words. apply map_ext_in. intros k Hk%in_seq. apply get32_ext. intros x Hx. apply H. lia.
Qed.

Definition byte_file (m : gmap Z Z) : Prop := forall x, 0 <= byte m x < 256.

Lemma byte_file_put m a l : byte_file m -> byte_file (put m a l).
Proof. intros H x. rewrite byte_put. case_decide; [apply u8_range | apply H]. Qed.

(** [strncpy] of a field: up to the end of the string, or the field. *)
Fixpoint cstring (l : list Z) : list Z :=
  match l with
  | [] => []
  | c :: l' => if c =? 0 then [] else c :: cstring l'
  end.

Lemma cstring_nonzero l : Forall (fun c => c <> 0) (cstring l).
Proof.
  induction l as [| c l IH]; cbn [cstring]; [constructor |]. destruct (Z.eqb_spec c 0); [constructor |]. by constructor.
Qed.

Lemma cstring_app l z : Forall (fun c => c <> 0) l -> cstring (l ++ replicate z 0) = l.
Proof.
  induction 1 as [| c l Hc _ IH]; [by destruct z |]. cbn [app cstring]. rewrite (proj2 (Z.eqb_neq c 0)) by done. by rewrite IH.
Qed.

Lemma cstring_sub l : cstring l `sublist_of` l.
Proof.
  induction l as [| c l IH]; [done |]. cbn [cstring]. destruct (c =? 0); [apply sublist_nil_l | by apply sublist_skip].
Qed.

(** ** Lists without repetitions *)

Lemma nodup_map {A B} (f : A -> B) l : NoDup (map f l) -> NoDup l.
Proof.
  induction l as [| x l IH]; intros HN; [constructor |]. cbn [map] in HN. apply NoDup_cons in HN as [Hx HN].
  constructor; [| by apply IH]. intros Hin. by apply Hx, list_elem_of_fmap_2.
Qed.
