(* ===== verification/PtDb.v ===== *)
(** The protection database: the blocks, hash chains, owner chains and
    allocation of src/ptserver/utils.c, over the bytes of the database file.
    The calls to Ubik draw their return codes from a list, so that every error
    path can be followed; a run that fails an assertion or does not end gives
    [None]. *)
From S2P Require Import Prelude Bytes UbikFile.

Definition ENTRYSIZE : Z := 192.
Definition HASHSIZE : Z := 8191.
Definition PRSIZE : Z := 10.
Definition COSIZE : Z := 39.
Definition PR_MAXNAMELEN : Z := 64.
Definition PRBADID : Z := -2147483648.
Definition SYSADMINID : Z := -204.
Definition ANYUSERID : Z := -101.
Definition AUTHUSERID : Z := -102.
Definition ANONYMOUSID : Z := 32766.

Definition PRFREE : Z := 1.
Definition PRGRP : Z := 2.
Definition PRFOREIGN : Z := 16.

(** The error table PT. *)
Definition PREXIST : Z := 267264.
Definition PRIDEXIST : Z := 267265.
Definition PRNOIDS : Z := 267266.
Definition PRDBFAIL : Z := 267267.
Definition PRNOENT : Z := 267268.
Definition PRPERM : Z := 267269.
Definition PRBADNAM : Z := 267272.
Definition PRBADARG : Z := 267273.
Definition PRNOMORE : Z := 267274.
Definition PRDBBAD : Z := 267275.
Definition PRGROUPEMPTY : Z := 267276.
Definition PRINCONSISTENT : Z := 267277.
Definition PRTOOMANY : Z := 267279.
Definition PRSUCCESS : Z := 0.

(** ** Entries

    The 32 words before the name, and the name up to its end. *)
Record prentry := PrEntry { words : list Z; name : list Z }.

Definition word (k : nat) (e : prentry) : Z := nth k (words e) 0.
Definition set_word (k : nat) (v : Z) (e : prentry) : prentry := PrEntry (<[k := v]> (words e)) (name e).

Definition flags : prentry -> Z := word 0.
Definition id : prentry -> Z := word 1.
Definition next : prentry -> Z := word 3.
Definition entries (e : prentry) : list Z := take 10 (drop 9 (words e)).
Definition nextID : prentry -> Z := word 19.
Definition nextName : prentry -> Z := word 20.
Definition owner : prentry -> Z := word 21.
Definition owned : prentry -> Z := word 27.
Definition nextOwned : prentry -> Z := word 28.

Definition zero_entry : prentry := PrEntry (replicate 32 0) [].

(** A continuation block: 48 words. *)
Notation contentry := (list Z).
Definition co_next (c : contentry) : Z := nth 3 c 0.
Definition co_entries (c : contentry) : list Z := take 39 (drop 9 c).

(** *** Their images *)

Definition name_field (s : list Z) : list Z :=
  let s' := take 64 (cstring s) in s' ++ replicate (64 - length s') 0.

(** A host that swaps leaves the reserved words 0. *)
Definition reserve (little : bool) (l : list Z) : list Z := if little then <[8%nat := 0]> l else l.

Definition encode (little : bool) (e : prentry) : list Z :=
  concat (map be_bytes (reserve little (words e))) ++ name_field (name e).

Definition decode (little : bool) (m : gmap Z Z) (a : Z) : prentry :=
  PrEntry (reserve little (get_words m a 32)) (cstring (bytes m (a + 128) 64)).

(** The same for a continuation block, with its five reserved words. *)
Definition reserve_co (little : bool) (c : contentry) : contentry :=
  if little then take 4 c ++ replicate 5 0 ++ drop 9 c else c.
Definition encode_co (little : bool) (c : contentry) : list Z := concat (map be_bytes (reserve_co little c)).
Definition decode_co (little : bool) (m : gmap Z Z) (a : Z) : contentry := reserve_co little (get_words m a 48).

(** ** The header

    The words of [cheader] that these operations use, as host numbers. *)
Record prheader := PrHeader {
  version : Z; headerSize : Z; freePtr : Z; eofPtr : Z; maxGroup : Z; maxID : Z; maxForeign : Z; maxInst : Z;
  orphan : Z; usercount : Z; groupcount : Z; foreigncount : Z; instcount : Z;
  nameHash : gmap Z Z; idHash : gmap Z Z
}.
Definition HEADERSIZE : Z := 72 + 2 * HASHSIZE * 4.
Definition bucket (t : gmap Z Z) (i : Z) : Z := default 0 (t !! i).

Definition set_version v h := PrHeader v (headerSize h) (freePtr h) (eofPtr h) (maxGroup h) (maxID h)
  (maxForeign h) (maxInst h) (orphan h) (usercount h) (groupcount h) (foreigncount h) (instcount h) (nameHash h)
  (idHash h).
Definition set_headerSize v h := PrHeader (version h) v (freePtr h) (eofPtr h) (maxGroup h) (maxID h)
  (maxForeign h) (maxInst h) (orphan h) (usercount h) (groupcount h) (foreigncount h) (instcount h) (nameHash h)
  (idHash h).
Definition set_freePtr v h := PrHeader (version h) (headerSize h) v (eofPtr h) (maxGroup h) (maxID h)
  (maxForeign h) (maxInst h) (orphan h) (usercount h) (groupcount h) (foreigncount h) (instcount h) (nameHash h)
  (idHash h).
Definition set_eofPtr v h := PrHeader (version h) (headerSize h) (freePtr h) v (maxGroup h) (maxID h)
  (maxForeign h) (maxInst h) (orphan h) (usercount h) (groupcount h) (foreigncount h) (instcount h) (nameHash h)
  (idHash h).
Definition set_maxGroup v h := PrHeader (version h) (headerSize h) (freePtr h) (eofPtr h) v (maxID h)
  (maxForeign h) (maxInst h) (orphan h) (usercount h) (groupcount h) (foreigncount h) (instcount h) (nameHash h)
  (idHash h).
Definition set_maxID v h := PrHeader (version h) (headerSize h) (freePtr h) (eofPtr h) (maxGroup h) v
  (maxForeign h) (maxInst h) (orphan h) (usercount h) (groupcount h) (foreigncount h) (instcount h) (nameHash h)
  (idHash h).
Definition set_maxForeign v h := PrHeader (version h) (headerSize h) (freePtr h) (eofPtr h) (maxGroup h)
  (maxID h) v (maxInst h) (orphan h) (usercount h) (groupcount h) (foreigncount h) (instcount h) (nameHash h)
  (idHash h).
Definition set_orphan v h := PrHeader (version h) (headerSize h) (freePtr h) (eofPtr h) (maxGroup h) (maxID h)
  (maxForeign h) (maxInst h) v (usercount h) (groupcount h) (foreigncount h) (instcount h) (nameHash h) (idHash h).
Definition set_usercount v h := PrHeader (version h) (headerSize h) (freePtr h) (eofPtr h) (maxGroup h) (maxID h)
  (maxForeign h) (maxInst h) (orphan h) v (groupcount h) (foreigncount h) (instcount h) (nameHash h) (idHash h).
Definition set_groupcount v h := PrHeader (version h) (headerSize h) (freePtr h) (eofPtr h) (maxGroup h) (maxID h)
  (maxForeign h) (maxInst h) (orphan h) (usercount h) v (foreigncount h) (instcount h) (nameHash h) (idHash h).
Definition set_foreigncount v h := PrHeader (version h) (headerSize h) (freePtr h) (eofPtr h) (maxGroup h)
  (maxID h) (maxForeign h) (maxInst h) (orphan h) (usercount h) (groupcount h) v (instcount h) (nameHash h)
  (idHash h).
Definition set_instcount v h := PrHeader (version h) (headerSize h) (freePtr h) (eofPtr h) (maxGroup h) (maxID h)
  (maxForeign h) (maxInst h) (orphan h) (usercount h) (groupcount h) (foreigncount h) v (nameHash h) (idHash h).
Definition set_nameHash i v h := PrHeader (version h) (headerSize h) (freePtr h) (eofPtr h) (maxGroup h) (maxID h)
  (maxForeign h) (maxInst h) (orphan h) (usercount h) (groupcount h) (foreigncount h) (instcount h) (<[i := v]>
  (nameHash h)) (idHash h).
Definition set_idHash i v h := PrHeader (version h) (headerSize h) (freePtr h) (eofPtr h) (maxGroup h) (maxID h)
  (maxForeign h) (maxInst h) (orphan h) (usercount h) (groupcount h) (foreigncount h) (instcount h) (nameHash h)
  (<[i := v]> (idHash h)).

Definition name_pos (i : Z) : Z := 72 + i * 4.
Definition id_pos (i : Z) : Z := 72 + HASHSIZE * 4 + i * 4.

(** ** Reading and writing *)

Notation st := (UbikFile.st prheader).
Notation M := (SM (UbikFile.st prheader)).
#[local] Open Scope ubik_scope.

Section host.
Context (little : bool).

(** [own] tells that the buffer is the place of the position in [cheader]. *)
Definition pr_Write (pos : Z) (own : bool) (buff : list Z) : M Z :=
  if (pos <? HEADERSIZE) && negb own then ret PRDBFAIL
  else
    let* code := ubik_call in
    if negb (code =? 0) then ret code
    else
      let* code := ubik_call in
      if negb (code =? 0) then ret code
      else let* _ := set_file (fun m => put m pos buff) in ret 0.

Definition pr_ReadEntry (pos : Z) : M (Z * prentry) :=
  let* code := ubik_call in
  if negb (code =? 0) then ret (code, zero_entry)
  else
    let* code := ubik_call in
    if negb (code =? 0) then ret (code, zero_entry)
    else let* m := get_file in ret (0, decode little m pos).

Definition pr_WriteEntry (pos : Z) (e : prentry) : M Z := pr_Write pos false (encode little e).

Definition pr_ReadCoEntry (pos : Z) : M (Z * contentry) :=
  let* code := ubik_call in
  if negb (code =? 0) then ret (code, [])
  else
    let* code := ubik_call in
    if negb (code =? 0) then ret (code, [])
    else let* m := get_file in ret (0, decode_co little m pos).

Definition pr_WriteCoEntry (pos : Z) (c : contentry) : M Z := pr_Write pos false (encode_co little c).

(** The bytes of an entry as they are in the file. *)
Definition pr_Read (pos : Z) (len : nat) : M (Z * list Z) :=
  let* code := ubik_call in
  if negb (code =? 0) then ret (code, [])
  else
    let* code := ubik_call in
    if negb (code =? 0) then ret (code, [])
    else let* m := get_file in ret (0, bytes m pos len).

(** ** Blocks *)

Definition AllocBlock : M Z :=
  let* h := get_header in
  if negb (freePtr h =? 0) then
    let temp := freePtr h in
    let* (code, tentry) := pr_ReadEntry temp in
    if negb (code =? 0) then ret 0
    else
      let* _ := set_header (set_freePtr (next tentry)) in
      let* code := pr_Write 8 true (be_bytes (next tentry)) in
      if negb (code =? 0) then ret 0 else ret temp
  else
    let temp := eofPtr h in
    let* _ := set_header (set_eofPtr (s32 (temp + ENTRYSIZE))) in
    let* code := pr_Write 12 true (be_bytes (temp + ENTRYSIZE)) in
    if negb (code =? 0) then ret 0 else ret temp.

Definition FreeBlock (pos : Z) : M Z :=
  let* h := get_header in
  let tentry := set_word 0 (Z.lor 0 PRFREE) (set_word 3 (freePtr h) zero_entry) in
  let* _ := set_header (set_freePtr pos) in
  let* code := pr_Write 8 true (be_bytes pos) in
  if negb (code =? 0) then ret code
  else
    let* code := pr_WriteEntry pos tentry in
    if negb (code =? 0) then ret code else ret PRSUCCESS.

(** ** Hash chains *)

Definition IDHash (x : Z) : Z := Z.rem (Z.abs x) HASHSIZE.

Definition name_step (c : Z) (hash : Z) : Z := u32 (hash * 31 + (c - 31)).
Definition NameHash (aname : list Z) : Z := foldr name_step 0 aname mod HASHSIZE.

(** One more than the blocks there are. *)
Definition chain_fuel (h : prheader) : nat := S (Z.to_nat ((eofPtr h - HEADERSIZE) / ENTRYSIZE)).

Fixpoint find_chain (same : prentry -> bool) (nxt : prentry -> Z) (entry : Z) (fuel : nat) : M (Z * prentry) :=
  match fuel with
  | O => crash
  | S fuel' =>
      if entry =? 0 then ret (0, zero_entry)
      else
        let* (code, e) := pr_ReadEntry entry in
        if negb (code =? 0) then ret (0, e)
        else if same e then ret (entry, e)
        else if entry =? nxt e then crash
        else find_chain same nxt (nxt e) fuel'
  end.

Definition has_id (aid : Z) (e : prentry) : bool := aid =? id e.
(** [strncmp] over a field, and [strcmp] with it. *)
Definition has_name_n (aname : list Z) (e : prentry) : bool := bool_decide (take 64 aname = name e).
Definition has_name (aname : list Z) (e : prentry) : bool := bool_decide (aname = name e).

Definition FindByID (aid : Z) : M Z :=
  if (aid =? PRBADID) || (aid =? 0) then ret 0
  else
    let* h := get_header in
    let* (entry, _) := find_chain (has_id aid) nextID (bucket (idHash h) (IDHash aid)) (chain_fuel h) in
    ret entry.

Definition FindByName (aname : list Z) : M (Z * prentry) :=
  let* h := get_header in
  find_chain (has_name_n aname) nextName (bucket (nameHash h) (NameHash aname)) (chain_fuel h).

(** The walk before a removal: where the entry is, and what was before it. *)
Fixpoint trail_chain (same : prentry -> bool) (nxt : prentry -> Z) (trail current : Z) (e : prentry) (fuel : nat)
  : M (Z * (Z * Z * prentry)) :=
  match fuel with
  | O => crash
  | S fuel' =>
      if same e then ret (0, (trail, current, e))
      else if trail =? current then crash
      else
        let trail := current in
        let current := nxt e in
        if current =? 0 then ret (0, (trail, 0, e))
        else
          let* (code, e') := pr_ReadEntry current in
          if negb (code =? 0) then ret (PRDBFAIL, (trail, current, e'))
          else trail_chain same nxt trail current e' fuel'
  end.

(** A removal: [k] is the word of the pointer, [pos] the place of the bucket;
    the code and the block that was taken out. *)
Definition remove_chain (same : prentry -> bool) (k : nat) (head pos : Z) (sethead : Z -> prheader -> prheader)
  : M (Z * option Z) :=
  let* h := get_header in
  if head =? 0 then ret (PRSUCCESS, None)
  else
    let* (code, tentry) := pr_ReadEntry head in
    if negb (code =? 0) then ret (PRDBFAIL, None)
    else
      let* (code, found) := trail_chain same (word k) 0 head tentry (chain_fuel h) in
      let '(trail, current, tentry) := found in
      if negb (code =? 0) then ret (PRDBFAIL, None)
      else if current =? 0 then ret (PRSUCCESS, None)
      else if trail =? 0 then
        let* _ := set_header (sethead (word k tentry)) in
        let* code := pr_Write pos true (be_bytes (word k tentry)) in
        if negb (code =? 0) then ret (PRDBFAIL, None) else ret (PRSUCCESS, Some current)
      else
        let* (code, bentry) := pr_ReadEntry trail in
        if negb (code =? 0) then ret (PRDBFAIL, None)
        else
          let* _ := pr_WriteEntry trail (set_word k (word k tentry) bentry) in
          ret (PRSUCCESS, Some current).

Definition RemoveFromIDHash (aid : Z) : M (Z * option Z) :=
  if (aid =? PRBADID) || (aid =? 0) then ret (PRINCONSISTENT, None)
  else
    let i := IDHash aid in
    let* h := get_header in
    remove_chain (has_id aid) 19 (bucket (idHash h) i) (id_pos i) (set_idHash i).

Definition RemoveFromNameHash (aname : list Z) : M (Z * option Z) :=
  let i := NameHash aname in
  let* h := get_header in
  remove_chain (has_name aname) 20 (bucket (nameHash h) i) (name_pos i) (set_nameHash i).

(** An addition at the head of a chain. *)
Definition add_chain (k : nat) (head pos loc : Z) (sethead : Z -> prheader -> prheader) : M Z :=
  let* (code, tentry) := pr_ReadEntry loc in
  if negb (code =? 0) then ret PRDBFAIL
  else
    let* _ := set_header (sethead loc) in
    let* code := pr_WriteEntry loc (set_word k head tentry) in
    if negb (code =? 0) then ret PRDBFAIL
    else
      let* code := pr_Write pos true (be_bytes loc) in
      if negb (code =? 0) then ret PRDBFAIL else ret PRSUCCESS.

Definition AddToIDHash (aid loc : Z) : M Z :=
  if (aid =? PRBADID) || (aid =? 0) then ret PRINCONSISTENT
  else
    let i := IDHash aid in
    let* h := get_header in
    add_chain 19 (bucket (idHash h) i) (id_pos i) loc (set_idHash i).

Definition AddToNameHash (aname : list Z) (loc : Z) : M Z :=
  let i := NameHash aname in
  let* h := get_header in
  add_chain 20 (bucket (nameHash h) i) (name_pos i) loc (set_nameHash i).

(** ** Identifiers and names *)

(** The search of [AllocID]: at most [i] more candidates, each one [step]
    further; the number and the last code. *)
Fixpoint next_id (step aid code : Z) (i : nat) : M (Z * Z) :=
  match i with
  | O => ret (aid, code)
  | S i' =>
      if code =? 0 then ret (aid, code)
      else
        let aid := s32 (aid + step) in
        let* code := FindByID aid in
        next_id step aid code i'
  end.

Definition alloc_id (field : prheader -> Z) (set : Z -> prheader -> prheader) (pos step : Z) : M (Z * Z) :=
  let* h := get_header in
  let* (aid, code) := next_id step (field h) 1 50 in
  if negb (code =? 0) then ret (PRNOIDS, aid)
  else
    let* _ := set_header (set aid) in
    let* code := pr_Write pos true (be_bytes aid) in
    if negb (code =? 0) then ret (PRDBFAIL, aid) else ret (PRSUCCESS, aid).

Definition AllocID (flag : Z) : M (Z * Z) :=
  if negb (Z.land flag PRGRP =? 0) then alloc_id maxGroup set_maxGroup 16 (-1)
  else if negb (Z.land flag PRFOREIGN =? 0) then alloc_id maxForeign set_maxForeign 24 1
  else alloc_id maxID set_maxID 20 1.

Definition IDToName (aid : Z) : M (Z * list Z) :=
  let* temp := FindByID aid in
  if temp =? 0 then ret (PRNOENT, [])
  else
    let* (code, tentry) := pr_ReadEntry temp in
    if negb (code =? 0) then ret (code, []) else ret (PRSUCCESS, name tentry).

Definition NameToID (aname : list Z) : M (Z * option Z) :=
  let* (temp, tentry) := FindByName aname in
  if temp =? 0 then ret (PRNOENT, None) else ret (PRSUCCESS, Some (id tentry)).

Definition IDCmp (a b : Z) : Z := if b <? a then 1 else if a =? b then 0 else -1.

(** ** Owner chains *)

Definition AddToOwnerChain (gid oid : Z) : M Z :=
  let* loc := FindByID oid in
  if loc =? 0 then ret PRNOENT
  else
    let* (code, tentry) := pr_ReadEntry loc in
    if negb (code =? 0) then ret PRDBFAIL
    else if oid =? gid then
      let tentry := set_word 27 loc (set_word 28 (owned tentry) tentry) in
      let* code := pr_WriteEntry loc tentry in
      if negb (code =? 0) then ret PRDBFAIL else ret PRSUCCESS
    else
      let* gloc := FindByID gid in
      let* (code, gentry) := pr_ReadEntry gloc in
      if negb (code =? 0) then ret PRDBFAIL
      else
        let* code := pr_WriteEntry gloc (set_word 28 (owned tentry) gentry) in
        if negb (code =? 0) then ret PRDBFAIL
        else
          let* code := pr_WriteEntry loc (set_word 27 gloc tentry) in
          if negb (code =? 0) then ret PRDBFAIL else ret PRSUCCESS.

(** The walk of RemoveFromOwnerChain: [le] is the entry before, at [lastLoc],
    or the owner's at [loc] with [lastLoc] 0. The two buffers are one when an
    entry follows itself. *)
Fixpoint owner_walk (gid loc nptr lastLoc : Z) (le : prentry) (fuel : nat) : M Z :=
  match fuel with
  | O => crash
  | S fuel' =>
      if nptr =? 0 then ret PRSUCCESS
      else
        let same := nptr =? lastLoc in
        let* (code, te) := (if same then ret (0, le) else pr_ReadEntry nptr) in
        if negb (code =? 0) then ret PRDBFAIL
        else if id te =? gid then
          let le1 := if lastLoc =? 0 then set_word 27 (nextOwned te) le else set_word 28 (nextOwned te) le in
          let dst := if lastLoc =? 0 then loc else lastLoc in
          let te1 := set_word 28 0 te in
          let* code := (if same then ret 0 else pr_WriteEntry nptr te1) in
          if negb (code =? 0) then ret PRDBFAIL
          else
            let* code := pr_WriteEntry dst (if same then set_word 28 0 le1 else le1) in
            if negb (code =? 0) then ret PRDBFAIL else ret PRSUCCESS
        else owner_walk gid loc (nextOwned te) nptr te fuel'
  end.

Definition RemoveFromOwnerChain (gid oid : Z) : M Z :=
  let* loc := FindByID oid in
  if loc =? 0 then ret PRNOENT
  else
    let* (code, e) := pr_ReadEntry loc in
    if negb (code =? 0) then ret PRDBFAIL
    else
      let* h := get_header in
      owner_walk gid loc (owned e) 0 e (chain_fuel h).

Definition AddToOrphan (gid : Z) : M Z :=
  let* loc := FindByID gid in
  if loc =? 0 then ret PRNOENT
  else
    let* (code, tentry) := pr_ReadEntry loc in
    if negb (code =? 0) then ret PRDBFAIL
    else
      let* h := get_header in
      let tentry := set_word 28 (orphan h) tentry in
      let* _ := set_header (set_orphan loc) in
      let* code := pr_Write 32 true (be_bytes loc) in
      if negb (code =? 0) then ret PRDBFAIL
      else
        let* code := pr_WriteEntry loc (set_word 21 0 tentry) in
        if negb (code =? 0) then ret PRDBFAIL else ret PRSUCCESS.

Fixpoint orphan_walk (gid nptr loc : Z) (bentry : prentry) (fuel : nat) : M Z :=
  match fuel with
  | O => crash
  | S fuel' =>
      if nptr =? 0 then ret PRSUCCESS
      else
        let* (code, tentry) := pr_ReadEntry nptr in
        if negb (code =? 0) then ret PRDBFAIL
        else if gid =? id tentry then
          let* code := pr_WriteEntry loc (set_word 28 (nextOwned tentry) bentry) in
          if negb (code =? 0) then ret PRDBFAIL
          else
            let* code := pr_WriteEntry nptr (set_word 28 0 tentry) in
            if negb (code =? 0) then ret PRDBFAIL else ret PRSUCCESS
        else orphan_walk gid (nextOwned tentry) nptr tentry fuel'
  end.

Definition RemoveFromOrphan (gid : Z) : M Z :=
  let* loc := FindByID gid in
  if loc =? 0 then ret PRNOENT
  else
    let* (code, tentry) := pr_ReadEntry loc in
    if negb (code =? 0) then ret PRDBFAIL
    else
      let* h := get_header in
      if orphan h =? loc then
        let* _ := set_header (set_orphan (nextOwned tentry)) in
        let* code := pr_Write 32 true (be_bytes (nextOwned tentry)) in
        if negb (code =? 0) then ret PRDBFAIL
        else
          let* code := pr_WriteEntry loc (set_word 28 0 tentry) in
          if negb (code =? 0) then ret PRDBFAIL else ret PRSUCCESS
      else orphan_walk gid (orphan h) 0 zero_entry (chain_fuel h).

Definition IsOwnerOf (aid gid : Z) : M Z :=
  let* loc := FindByID gid in
  if loc =? 0 then ret 0
  else
    let* (code, tentry) := pr_ReadEntry loc in
    if negb (code =? 0) then ret 0 else ret (if owner tentry =? aid then 1 else 0).

Definition OwnerOf (gid : Z) : M Z :=
  let* loc := FindByID gid in
  if loc =? 0 then ret 0
  else
    let* (code, tentry) := pr_ReadEntry loc in
    if negb (code =? 0) then ret 0 else ret (owner tentry).

(** ** Membership *)

(** A list of members up to the first 0: found, ended, or run out. *)
Inductive scan := Found | Ended | More.
Fixpoint scan_entries (aid : Z) (l : list Z) : scan :=
  match l with
  | [] => More
  | x :: l' => if x =? 0 then Ended else if x =? aid then Found else scan_entries aid l'
  end.

Fixpoint scan_blocks (aid loc : Z) (fuel : nat) : M Z :=
  match fuel with
  | O => crash
  | S fuel' =>
      if loc =? 0 then ret 0
      else
        let* (code, centry) := pr_ReadCoEntry loc in
        if negb (code =? 0) then ret 0
        else
          match scan_entries aid (co_entries centry) with
          | Found => ret 1
          | Ended => ret 0
          | More => scan_blocks aid (co_next centry) fuel'
          end
  end.

Definition IsAMemberOf (aid gid : Z) : M Z :=
  if gid =? ANYUSERID then ret 1
  else if (gid =? AUTHUSERID) && negb (aid =? ANONYMOUSID) then ret 1
  else if (gid =? SYSADMINID) && (aid =? SYSADMINID) then ret 1
  else if (gid =? 0) || (aid =? 0) then ret 0
  else
    let* loc := FindByID gid in
    if loc =? 0 then ret 0
    else
      let* (code, tentry) := pr_ReadEntry loc in
      if negb (code =? 0) then ret 0
      else if Z.land (flags tentry) PRGRP =? 0 then ret 0
      else
        match scan_entries aid (entries tentry) with
        | Found => ret 1
        | Ended => ret 0
        | More => let* h := get_header in scan_blocks aid (next tentry) (chain_fuel h)
        end.
End host.

(** A database of one user, 7, and one group, -5, owned by the user. *)
Definition sample_entry (i : Z) (nm : list Z) : prentry := set_word 1 i (PrEntry (replicate 32 0) nm).
Definition sample_ops : M (Z * Z * Z * Z) :=
  let* a := AllocBlock true in
  let* _ := pr_WriteEntry true a (sample_entry 7 [117]) in
  let* _ := AddToIDHash true 7 a in
  let* _ := AddToNameHash true [117] a in
  let* b := AllocBlock true in
  let* _ := pr_WriteEntry true b (set_word 0 PRGRP (set_word 9 7 (sample_entry (-5) [103]))) in
  let* _ := AddToIDHash true (-5) b in
  let* _ := AddToNameHash true [103] b in
  let* _ := AddToOwnerChain true (-5) 7 in
  let* x := FindByID true (-5) in
  let* (_, y) := NameToID true [117] in
  let* (_, z) := RemoveFromIDHash true 7 in
  let* w := IsAMemberOf true 7 (-5) in
  ret (x - HEADERSIZE, default 0 y, default 0 z - HEADERSIZE, w).

Example pt_sample : option_map fst
  (sample_ops (St (PrHeader 0 HEADERSIZE 0 HEADERSIZE (-200) 0 0 0 0 0 0 0 0 ∅ ∅) ∅ [])) = Some (192, 7, 0, 1).
Proof. vm_compute. reflexivity. Qed.
