(* ===== verification/PtSpec.v ===== *)
(** The protection database, the theorems: what is written is read back, the
    hash chains are maps from identifiers and from names to blocks, the owner
    chains and the orphan list are lists of groups, and blocks and identifiers
    that are handed out are new. *)
From S2P Require Import Prelude Bytes UbikFile PtDb.

#[local] Open Scope ubik_scope.

(** ** Images of entries *)

(** Names that a field holds. *)
Definition field_name (s : list Z) : Prop := Forall (fun c => 0 < c < 256) s /\ (length s <= 64)%nat.

Section codec.
Context (little : bool).

(** The entries that an image represents. *)
Definition canonical (e : prentry) : Prop :=
  length (words e) = 32%nat /\ Forall int32 (words e) /\ reserve little (words e) = words e /\ field_name (name e).

Lemma length_encode e : canonical e -> length (encode little e) = 192%nat.
Proof.
  intros (HL & HI & HR & Hc & Hn). unfold encode, name_field. rewrite HR, !length_app, length_replicate.
  assert (E : length (concat (map be_bytes (words e))) = (4 * length (words e))%nat).
  { generalize (words e). induction l as [| w l IH]; [done |]. cbn [map concat]. rewrite length_app, IH, length_be_bytes. cbn [length]. lia. }
  rewrite E, HL. pose proof (length_take (cstring (name e)) 64). lia.
Qed.

Lemma encode_bytes e : canonical e -> Forall (fun b => 0 <= b < 256) (encode little e).
Proof.
  intros (HL & HI & HR & Hc & Hn). unfold encode, name_field. repeat apply Forall_app_2.
  - apply Forall_concat. apply Forall_fmap, Forall_true. intros w. apply be_bytes_range.
  - apply Forall_take.
    assert (Hs : forall x, x ∈ cstring (name e) -> x ∈ name e) by (intros x Hx; apply (elem_of_sublist _ _ x Hx), cstring_sub).
    apply Forall_forall. intros x Hx%Hs. rewrite Forall_forall in Hc. specialize (Hc x Hx). lia.
  - apply Forall_replicate. lia.
Qed.

Lemma decode_put m a e : canonical e -> decode little (put m a (encode little e)) a = e.
Proof.
  intros He. pose proof (length_encode e He) as HL. pose proof (bytes_put m a _ (encode_bytes e He)) as HB.
  rewrite HL in HB. destruct He as (Hw & HI & HR & Hc & Hn).
  set (m' := put _ _ _) in *. unfold encode in HB. rewrite HR in HB.
  change 192%nat with (4 * 32 + 64)%nat in HB. rewrite bytes_plus in HB.
  apply app_inj_1 in HB as [H1 H2].
  2: { rewrite bytes_length. generalize Hw. generalize (words e), 32%nat. induction l as [| w l IH]; intros n <-; [done |].
       cbn [map concat length]. rewrite length_app, length_be_bytes. specialize (IH _ eq_refl). lia. }
  unfold decode. destruct e as [ws nm]. cbn [words name] in *. f_equal.
  - rewrite <- Hw. rewrite get_words_image; [done | done |]. by rewrite Hw.
  - change (a + Z.of_nat (4 * 32)) with (a + 128) in H2. rewrite H2. unfold name_field.
    assert (Hz : Forall (fun c => c <> 0) nm) by (eapply Forall_impl; [exact Hc |]; cbn; lia).
    assert (E : cstring nm = nm) by (rewrite <- (cstring_app nm 0 Hz) at 2; by rewrite app_nil_r).
    rewrite E, take_ge by lia. by apply cstring_app.
Qed.

Lemma decode_ext m m' a : (forall x, a <= x < a + 192 -> byte m' x = byte m x) ->
  decode little m' a = decode little m a.
Proof.
  intros H. unfold decode. rewrite (get_words_ext m m') by (intros x Hx; apply H; lia).
  by rewrite (bytes_ext m m') by (intros x Hx; apply H; lia).
Qed.

Lemma canonical_decode m a : byte_file m -> canonical (decode little m a).
Proof.
  intros Hb. assert (Hl : length (get_words m a 32) = 32%nat) by (unfold get_words; by rewrite length_map, length_seq).
  assert (Hi : Forall int32 (get_words m a 32)).
  { unfold get_words. apply Forall_fmap, Forall_true. intros k. apply s32_range. }
  unfold canonical, decode. cbn [words name]. split; [| split; [| split; [| split]]].
  - destruct little; cbn [reserve]; [by rewrite length_insert | done].
  - destruct little; cbn [reserve]; [| done]. apply Forall_insert; [done | unfold int32, INT_MIN, INT_MAX; lia].
  - destruct little; cbn [reserve]; [| done]. apply list_insert_insert_eq.
  - apply Forall_forall. intros c Hc. pose proof (cstring_nonzero (bytes m (a + 128) 64)) as Hz.
    rewrite Forall_forall in Hz. specialize (Hz c Hc).
    apply (elem_of_sublist _ _ c) with (2 := cstring_sub _) in Hc. unfold bytes in Hc.
    apply list_elem_of_fmap in Hc as (i & -> & _). specialize (Hb (a + 128 + Z.of_nat i)). lia.
  - pose proof (sublist_length _ _ (cstring_sub (bytes m (a + 128) 64))) as H. by rewrite bytes_length in H.
Qed.

Lemma word_set k v e j : canonical e -> (k < 32)%nat ->
  word j (set_word k v e) = if decide (j = k) then v else word j e.
Proof.
  intros (HL & _) Hk. unfold word, set_word. cbn [words]. case_decide as E.
  - subst. apply nth_lookup_Some, list_lookup_insert_eq. lia.
  - rewrite !nth_lookup. by rewrite list_lookup_insert_ne.
Qed.

Lemma canonical_set k v e : canonical e -> (k < 32)%nat -> k <> 8%nat -> int32 v -> canonical (set_word k v e).
Proof.
  intros (HL & HI & HR & HN) Hk H8 Hv. split; [| split; [| split]]; cbn [words name set_word].
  - by rewrite length_insert.
  - by apply Forall_insert.
  - destruct little; cbn [reserve] in *; [| done]. rewrite list_insert_insert_ne by done. by rewrite HR.
  - done.
Qed.

Lemma word_int k e : canonical e -> int32 (word k e).
Proof.
  intros (HL & HI & _). unfold word. destruct (decide (k < length (words e))%nat) as [H | H].
  - destruct (lookup_lt_is_Some_2 _ _ H) as [v Hv]. rewrite (nth_lookup_Some _ _ _ _ Hv).
    rewrite Forall_forall in HI. apply HI. by eapply list_elem_of_lookup_2.
  - rewrite nth_overflow by lia. unfold int32, INT_MIN, INT_MAX. lia.
Qed.
End codec.

(** ** The header on file *)

Definition header_pos (p : Z) : Prop := 0 <= p < 52 /\ p mod 4 = 0 \/ 72 <= p < HEADERSIZE /\ p mod 4 = 0.

Definition header_word (h : prheader) (p : Z) : Z :=
  if p =? 0 then version h else if p =? 4 then headerSize h else if p =? 8 then freePtr h
  else if p =? 12 then eofPtr h else if p =? 16 then maxGroup h else if p =? 20 then maxID h
  else if p =? 24 then maxForeign h else if p =? 28 then maxInst h else if p =? 32 then orphan h
  else if p =? 36 then usercount h else if p =? 40 then groupcount h else if p =? 44 then foreigncount h
  else if p =? 48 then instcount h
  else if p <? 72 + HASHSIZE * 4 then bucket (nameHash h) ((p - 72) / 4)
  else bucket (idHash h) ((p - 72 - HASHSIZE * 4) / 4).

(** The file has the words of [cheader]. *)
Definition synced (h : prheader) (m : gmap Z Z) : Prop :=
  forall p, header_pos p -> get32 m p = header_word h p.

Lemma synced_put_far h m a l : synced h m -> HEADERSIZE <= a -> synced h (put m a l).
Proof.
  intros H Ha p Hp. rewrite <- H by done. apply get32_ext. intros x Hx. apply byte_put_ne. left.
  destruct Hp as [Hp | [Hp Hm]]; unfold HEADERSIZE, HASHSIZE in *; [lia | zdiv].
Qed.

(** A change of [cheader] that is the change of the word at [p]. *)
Definition sets (f : prheader -> prheader) (p v : Z) : Prop :=
  forall h q, header_pos q -> header_word (f h) q = if decide (q = p) then v else header_word h q.

Lemma synced_put h m f p v : synced h m -> header_pos p -> sets f p v -> int32 v ->
  synced (f h) (put m p (be_bytes v)).
Proof.
  intros H Hp Hf Hv q Hq. rewrite Hf by done. case_decide as E.
  - subst. rewrite get32_put. apply s32_small. exact Hv.
  - rewrite <- H by done. apply get32_ext. intros x Hx. apply byte_put_ne. rewrite length_be_bytes.
    unfold header_pos in *. zdiv.
Qed.

Ltac split_eqs q :=
  repeat match goal with |- context [q =? ?c] => destruct (Z.eqb_spec q c) end; repeat case_decide; subst.

Ltac split_small q :=
  repeat match goal with |- context [q =? ?c] => destruct (Z.eqb_spec q c); [rewrite decide_False by lia; done |] end.

Ltac sets_tac := intros h q Hq; unfold header_word, set_version, set_headerSize, set_freePtr, set_eofPtr, set_maxGroup,
  set_maxID, set_maxForeign, set_orphan, set_usercount, set_groupcount, set_foreigncount, set_instcount;
  cbn [version headerSize freePtr eofPtr maxGroup maxID maxForeign maxInst orphan usercount groupcount foreigncount instcount nameHash idHash];
  split_eqs q; try done; lia.

Lemma sets_version v : sets (set_version v) 0 v.
Proof. sets_tac. Qed.
Lemma sets_headerSize v : sets (set_headerSize v) 4 v.
Proof. sets_tac. Qed.
Lemma sets_freePtr v : sets (set_freePtr v) 8 v.
Proof. sets_tac. Qed.
Lemma sets_eofPtr v : sets (set_eofPtr v) 12 v.
Proof. sets_tac. Qed.
Lemma sets_maxGroup v : sets (set_maxGroup v) 16 v.
Proof. sets_tac. Qed.
Lemma sets_maxID v : sets (set_maxID v) 20 v.
Proof. sets_tac. Qed.
Lemma sets_maxForeign v : sets (set_maxForeign v) 24 v.
Proof. sets_tac. Qed.
Lemma sets_orphan v : sets (set_orphan v) 32 v.
Proof. sets_tac. Qed.
Lemma sets_usercount v : sets (set_usercount v) 36 v.
Proof. sets_tac. Qed.
Lemma sets_groupcount v : sets (set_groupcount v) 40 v.
Proof. sets_tac. Qed.
Lemma sets_foreigncount v : sets (set_foreigncount v) 44 v.
Proof. sets_tac. Qed.
Lemma sets_instcount v : sets (set_instcount v) 48 v.
Proof. sets_tac. Qed.

Lemma bucket_insert t i v j : bucket (<[i := v]> t) j = if decide (j = i) then v else bucket t j.
Proof. unfold bucket. case_decide as E; [by subst; rewrite lookup_insert_eq | by rewrite lookup_insert_ne]. Qed.

Lemma sets_nameHash i v : 0 <= i < HASHSIZE -> sets (set_nameHash i v) (name_pos i) v.
Proof.
  intros Hi h q Hq. unfold header_word, set_nameHash, name_pos, HASHSIZE in *.
  cbn [version headerSize freePtr eofPtr maxGroup maxID maxForeign maxInst orphan usercount groupcount foreigncount
    instcount nameHash idHash].
  split_small q.
  assert (Hm : q mod 4 = 0 /\ q < 72 + 2 * 8191 * 4) by (unfold header_pos, HEADERSIZE, HASHSIZE in Hq; lia).
  destruct Hm as [Hm Hq']. clear Hq.
  destruct (Z.ltb_spec q (72 + 8191 * 4)).
  - rewrite bucket_insert. repeat case_decide; try done; exfalso; zdiv.
  - rewrite decide_False by lia. done.
Qed.

Lemma sets_idHash i v : 0 <= i < HASHSIZE -> sets (set_idHash i v) (id_pos i) v.
Proof.
  intros Hi h q Hq. unfold header_word, set_idHash, id_pos, HASHSIZE in *.
  cbn [version headerSize freePtr eofPtr maxGroup maxID maxForeign maxInst orphan usercount groupcount foreigncount
    instcount nameHash idHash].
  split_small q.
  assert (Hm : q mod 4 = 0 /\ q < 72 + 2 * 8191 * 4) by (unfold header_pos, HEADERSIZE, HASHSIZE in Hq; lia).
  destruct Hm as [Hm Hq']. clear Hq.
  destruct (Z.ltb_spec q (72 + 8191 * 4)).
  - rewrite decide_False by lia. done.
  - rewrite bucket_insert. repeat case_decide; try done; exfalso; zdiv.
Qed.

Lemma name_header_pos i : 0 <= i < HASHSIZE -> header_pos (name_pos i).
Proof. unfold header_pos, name_pos, HEADERSIZE, HASHSIZE. intros H. right. zdiv. Qed.
Lemma id_header_pos i : 0 <= i < HASHSIZE -> header_pos (id_pos i).
Proof. unfold header_pos, id_pos, HEADERSIZE, HASHSIZE. intros H. right. zdiv. Qed.

(** ** Reading and writing *)

(** A block of the file. *)
Definition block (eof x : Z) : Prop := HEADERSIZE <= x /\ (x - HEADERSIZE) mod ENTRYSIZE = 0 /\ x + ENTRYSIZE <= eof.

(** A database no call fails on, with its header on file. *)
Record good (s : st) : Prop := {
  g_io : io s = [];
  g_bytes : byte_file (file s);
  g_synced : synced (cheader s) (file s);
  g_eof : HEADERSIZE <= eofPtr (cheader s) <= INT_MAX;
  g_align : (eofPtr (cheader s) - HEADERSIZE) mod ENTRYSIZE = 0
}.

Definition eof (s : st) : Z := eofPtr (cheader s).

Section io.
Context (little : bool).

Definition ent (s : st) (x : Z) : prentry := decode little (file s) x.

Lemma read_entry_ok s x : io s = [] -> pr_ReadEntry little x s = Some ((0, ent s x), s).
Proof. intros H. unfold pr_ReadEntry, mbind_. rewrite !ubik_call_ok by done. cbn. by rewrite !ubik_call_ok by done. Qed.

Lemma pr_Write_ok s pos own b : io s = [] -> (HEADERSIZE <= pos \/ own = true) ->
  pr_Write pos own b s = Some (0, St (cheader s) (put (file s) pos b) (io s)).
Proof.
  intros H Hp. unfold pr_Write. assert (E : (pos <? HEADERSIZE) && negb own = false).
  { destruct Hp as [Hp | ->]; [by rewrite (proj2 (Z.ltb_ge _ _)) | apply andb_false_r]. }
  rewrite E. unfold mbind_. rewrite !ubik_call_ok by done. cbn. rewrite !ubik_call_ok by done. done.
Qed.

Lemma blocks_apart e x y : block e x -> block e y -> x <> y -> x + 192 <= y \/ y + 192 <= x.
Proof. unfold block, ENTRYSIZE. intros (H1 & H2 & _) (H3 & H4 & _) Hne. zdiv. Qed.

Lemma ent_canonical s x : good s -> canonical little (ent s x).
Proof. intros H. apply canonical_decode, H. Qed.

(** The state after a block, or a word of the header, is written. *)
Definition wrote (x : Z) (e : prentry) (s : st) : st := St (cheader s) (put (file s) x (encode little e)) (io s).
Definition header_set (f : prheader -> prheader) (p v : Z) (s : st) : st :=
  St (f (cheader s)) (put (file s) p (be_bytes v)) (io s).

Lemma write_entry_ok s x e : io s = [] -> HEADERSIZE <= x -> pr_WriteEntry little x e s = Some (0, wrote x e s).
Proof. intros H Hx. unfold pr_WriteEntry. rewrite pr_Write_ok; [done | done | by left]. Qed.

Lemma wrote_good s x e : good s -> block (eof s) x -> canonical little e -> good (wrote x e s).
Proof.
  intros [G1 G2 G3 G4 G5] (Hx & _) He. split; cbn [cheader file io wrote]; try done;
    [by apply byte_file_put | by apply synced_put_far].
Qed.

Lemma wrote_ent s x e y : block (eof s) x -> canonical little e -> block (eof s) y ->
  ent (wrote x e s) y = if decide (y = x) then e else ent s y.
Proof.
  intros Hx He Hy. unfold ent. cbn [file wrote]. case_decide as E; [subst; by apply decode_put |].
  apply decode_ext. intros z Hz. apply byte_put_ne. rewrite length_encode by done.
  destruct (blocks_apart _ _ _ Hx Hy); lia.
Qed.

Lemma header_set_good s f p v : good s -> header_pos p -> sets f p v -> int32 v ->
  HEADERSIZE <= eofPtr (f (cheader s)) <= INT_MAX -> (eofPtr (f (cheader s)) - HEADERSIZE) mod ENTRYSIZE = 0 ->
  good (header_set f p v s).
Proof.
  intros [G1 G2 G3 G4 G5] Hp Hf Hv He1 He2. split; cbn [cheader file io header_set]; try done;
    [by apply byte_file_put | by apply synced_put].
Qed.

Lemma header_set_ent s f p v y : header_pos p -> HEADERSIZE <= y -> ent (header_set f p v s) y = ent s y.
Proof.
  intros Hp Hy. unfold ent. cbn [file header_set]. apply decode_ext. intros z Hz. apply byte_put_ne.
  rewrite length_be_bytes. destruct Hp as [Hp | [Hp Hm]]; unfold HEADERSIZE, HASHSIZE in *; [lia | zdiv].
Qed.
End io.

(** ** Hash chains *)

Section walk.
Context (little : bool) (k : nat) (same : prentry -> bool).

Lemma find_chain_ok s l : io s = [] -> NoDup l -> 0 ∉ l -> forall h fuel,
  linked (fun x => word k (ent little s x)) h l -> (length l < fuel)%nat ->
  exists e, find_chain little same (word k) h fuel s
    = Some ((match list_find (fun x => same (ent little s x) = true) l with
             | Some (_, x) => (x, ent little s x)
             | None => (0, e)
             end), s).
Proof.
  intros Hio. induction l as [| x l IH]; intros HN H0 h fuel Hl Hf; (destruct fuel as [| fuel]; [cbn in Hf; lia |]);
    cbn [find_chain linked] in *.
  - rewrite Hl. by exists zero_entry.
  - destruct Hl as [-> Hl]. apply not_elem_of_cons in H0 as [Hx0 H0]. apply NoDup_cons in HN as [Hx HN].
    rewrite (proj2 (Z.eqb_neq x 0)) by done. unfold mbind_. rewrite read_entry_ok by done. cbn [Z.eqb negb list_find].
    destruct (same (ent little s x)) eqn:E; [rewrite decide_True by done; by exists zero_entry |].
    rewrite decide_False by done.
    assert (Hne : x <> word k (ent little s x)).
    { destruct l as [| y l]; cbn [linked] in Hl; [congruence |]. destruct Hl as [-> _]. intros ->. apply Hx. left. }
    rewrite (proj2 (Z.eqb_neq _ _) Hne).
    destruct (IH HN H0 _ fuel Hl ltac:(cbn in Hf; lia)) as [e He]. exists e. rewrite He.
    by destruct (list_find _ l) as [[i y] |].
Qed.

(** The walk of a removal from the head [h] on. *)
Lemma trail_chain_ok s l : io s = [] -> forall t h fuel, NoDup (t :: h :: l) -> 0 ∉ h :: l ->
  linked (fun x => word k (ent little s x)) (word k (ent little s h)) l -> (length l < fuel)%nat ->
  if forallb (fun x => negb (same (ent little s x))) (h :: l)
  then exists t' e, trail_chain little same (word k) t h (ent little s h) fuel s = Some ((0, (t', 0, e)), s)
  else exists l1 x l2, h :: l = l1 ++ x :: l2 /\ same (ent little s x) = true
    /\ (forall y, y ∈ l1 -> same (ent little s y) = false)
    /\ trail_chain little same (word k) t h (ent little s h) fuel s
       = Some ((0, (default t (last l1), x, ent little s x)), s).
Proof.
  intros Hio. induction l as [| y l IH]; intros t h fuel HN H0 Hl Hf; (destruct fuel as [| fuel]; [cbn in Hf; lia |]);
    cbn [trail_chain forallb linked] in *; destruct (same (ent little s h)) eqn:E; cbn [negb andb].
  - exists [], h, []. repeat split; [done | intros z Hz; by apply not_elem_of_nil in Hz].
  - apply NoDup_cons in HN as [Ht _]. rewrite (proj2 (Z.eqb_neq t h)) by set_solver. rewrite Hl, Z.eqb_refl.
    by eexists _, _.
  - exists [], h, (y :: l). repeat split; [done | intros z Hz; by apply not_elem_of_nil in Hz].
  - apply NoDup_cons in HN as [Ht HN]. rewrite (proj2 (Z.eqb_neq t h)) by set_solver.
    destruct Hl as [-> Hl]. rewrite (proj2 (Z.eqb_neq y 0)) by set_solver. unfold mbind_. rewrite read_entry_ok by done.
    cbn [Z.eqb negb]. specialize (IH h y fuel HN ltac:(set_solver) Hl ltac:(cbn in Hf; lia)).
    cbn [forallb] in IH. destruct (_ && _); [done |].
    destruct IH as (l1 & x & l2 & E1 & E2 & E3 & E4). exists (h :: l1), x, l2. rewrite E1, E4.
    repeat split; [done | | rewrite last_cons; by destruct (last l1)].
    intros z [-> | Hz]%elem_of_cons; [done | by apply E3].
Qed.
End walk.

(** A kind of chain: the key of an entry and its bucket, the word of the
    pointer, and the table in the header. *)
Record kind (K : Type) := Kind {
  key : prentry -> K; hash : K -> Z; ptr : nat;
  head : prheader -> gmap Z Z; sethead : Z -> Z -> prheader -> prheader; pos : Z -> Z
}.
Arguments key {K}. Arguments hash {K}. Arguments ptr {K}. Arguments head {K}. Arguments sethead {K}. Arguments pos {K}.

(** What makes it work. *)
Class KindLaws {K} (c : kind K) : Prop := {
  ptr_word : (ptr c < 32)%nat /\ ptr c <> 8%nat;
  key_ptr : forall v e, key c (set_word (ptr c) v e) = key c e;
  hash_range : forall a, 0 <= hash c a < HASHSIZE;
  pos_ok : forall i, 0 <= i < HASHSIZE -> header_pos (pos c i);
  sethead_sets : forall i v, 0 <= i < HASHSIZE -> sets (sethead c i v) (pos c i) v;
  head_sethead : forall i v h j, bucket (head c (sethead c i v h)) j = if decide (j = i) then v else bucket (head c h) j;
  eof_sethead : forall i v h, eofPtr (sethead c i v h) = eofPtr h
}.

Definition by_id : kind Z := Kind Z id IDHash 19 idHash set_idHash id_pos.
Definition by_name : kind (list Z) := Kind (list Z) name NameHash 20 nameHash set_nameHash name_pos.

Lemma IDHash_range x : 0 <= IDHash x < HASHSIZE.
Proof. unfold IDHash, HASHSIZE. rewrite Z.rem_mod_nonneg by lia. apply Z.mod_pos_bound. lia. Qed.

#[export] Instance by_id_laws : KindLaws by_id.
Proof.
  split; cbn.
  - lia.
  - intros v e. unfold id, word, set_word. cbn [words]. rewrite !nth_lookup. by rewrite list_lookup_insert_ne.
  - apply IDHash_range.
  - apply id_header_pos.
  - apply sets_idHash.
  - intros. apply bucket_insert.
  - done.
Qed.

#[export] Instance by_name_laws : KindLaws by_name.
Proof.
  split; cbn.
  - lia.
  - done.
  - intros a. apply Z.mod_pos_bound. unfold HASHSIZE. lia.
  - apply name_header_pos.
  - apply sets_nameHash.
  - intros. apply bucket_insert.
  - done.
Qed.

(** *** The index of a kind *)

Section index.
Context (little : bool) {K : Type} `{Countable K} (c : kind K) `{!KindLaws c}.

Record chains (s : st) (L : Z -> list Z) : Prop := {
  ch_linked : forall i, 0 <= i < HASHSIZE ->
    linked (fun x => word (ptr c) (ent little s x)) (bucket (head c (cheader s)) i) (L i);
  ch_block : forall i x, 0 <= i < HASHSIZE -> x ∈ L i -> block (eof s) x /\ hash c (key c (ent little s x)) = i;
  ch_keys : forall i, 0 <= i < HASHSIZE -> NoDup (map (fun x => key c (ent little s x)) (L i))
}.

(** The map from keys to blocks. *)
Definition index (s : st) (I : gmap K Z) : Prop :=
  exists L, chains s L /\ forall a x, I !! a = Some x <-> x ∈ L (hash c a) /\ key c (ent little s x) = a.

Lemma chain_nodup s L i : chains s L -> 0 <= i < HASHSIZE -> NoDup (L i).
Proof. intros HC Hi. by apply (nodup_map _ _ (ch_keys _ _ HC i Hi)). Qed.

Lemma chain_nonzero s L i : chains s L -> 0 <= i < HASHSIZE -> 0 ∉ L i.
Proof. intros HC Hi Hin. destruct (ch_block _ _ HC i 0 Hi Hin) as [(? & _) _]. unfold HEADERSIZE, HASHSIZE in *. lia. Qed.

Lemma blocks_length e l : HEADERSIZE <= e -> NoDup l -> (forall x, x ∈ l -> block e x) ->
  (length l <= Z.to_nat ((e - HEADERSIZE) / ENTRYSIZE))%nat.
Proof.
  intros He HN Hb. set (n := Z.to_nat _).
  assert (Hs : map (fun x => (x - HEADERSIZE) / ENTRYSIZE) l ⊆+ seqZ 0 (Z.of_nat n)).
  { apply NoDup_submseteq.
    - apply NoDup_fmap_2_strong; [| done]. intros x y Hx Hy E. apply Hb in Hx as (_ & Hx & _), Hy as (_ & Hy & _).
      unfold ENTRYSIZE in *. zdiv.
    - intros z (x & -> & Hx)%list_elem_of_fmap. apply elem_of_seqZ. apply Hb in Hx as (H1 & H2 & H3).
      subst n. unfold ENTRYSIZE in *. zdiv. }
  apply submseteq_length in Hs. rewrite length_map, length_seqZ in Hs. lia.
Qed.

Lemma chain_short s L i : good s -> chains s L -> 0 <= i < HASHSIZE -> (length (L i) < chain_fuel (cheader s))%nat.
Proof.
  intros HG HC Hi. unfold chain_fuel.
  pose proof (blocks_length (eof s) (L i) ltac:(apply HG) (chain_nodup s L i HC Hi)) as HL.
  specialize (HL ltac:(intros x Hx; by apply (ch_block _ _ HC i x Hi Hx))). unfold eof in HL. lia.
Qed.

Lemma find_unique s L i a : chains s L -> 0 <= i < HASHSIZE ->
  match list_find (fun x => bool_decide (a = key c (ent little s x)) = true) (L i) with
  | Some (_, x) => x ∈ L i /\ key c (ent little s x) = a
  | None => forall x, x ∈ L i -> key c (ent little s x) <> a
  end.
Proof.
  intros HC Hi. destruct (list_find _ _) as [[j x] |] eqn:E.
  - apply list_find_Some in E as (E1 & E2%bool_decide_eq_true & _). split; [by eapply list_elem_of_lookup_2 | done].
  - apply list_find_None in E. rewrite Forall_forall in E. intros x Hx Ea. apply (E x Hx). by apply bool_decide_eq_true.
Qed.

(** Finding. *)
Lemma index_find s I a same : good s -> index s I -> (forall e, same e = bool_decide (a = key c e)) ->
  exists e, find_chain little same (word (ptr c)) (bucket (head c (cheader s)) (hash c a)) (chain_fuel (cheader s)) s
  = Some ((match I !! a with Some x => (x, ent little s x) | None => (0, e) end), s).
Proof.
  intros HG (L & HC & HI) Hsame. pose proof (hash_range (c := c) a) as Hh.
  destruct (find_chain_ok little (ptr c) same s (L (hash c a)) (g_io _ HG) (chain_nodup s L _ HC Hh)
              (chain_nonzero s L _ HC Hh) _ (chain_fuel (cheader s)) (ch_linked _ _ HC _ Hh)
              (chain_short s L _ HG HC Hh)) as [e He].
  pose proof (find_unique s L (hash c a) a HC Hh) as HF.
  assert (El : list_find (fun x => same (ent little s x) = true) (L (hash c a))
               = list_find (fun x => bool_decide (a = key c (ent little s x)) = true) (L (hash c a))).
  { apply list_find_ext. intros x. by rewrite Hsame. }
  rewrite El in He. clear El. exists e. rewrite He. destruct (list_find _ _) as [[j x] |].
  - by rewrite (proj2 (HI a x) HF).
  - destruct (I !! a) as [x |] eqn:EI; [| done]. apply HI in EI as [Hx Ex]. by destruct (HF x Hx).
Qed.

(** *** Changes of the index *)

(** What an operation on these chains leaves alone: the entries but for the
    pointer, the header but for the table, the end of the file. *)
Record frame (s s' : st) : Prop := {
  f_eof : eof s' = eof s;
  f_name : forall y, block (eof s) y -> name (ent little s' y) = name (ent little s y);
  f_word : forall y j, block (eof s) y -> j <> ptr c -> word j (ent little s' y) = word j (ent little s y);
  f_header : cheader s' = cheader s \/ exists i v, 0 <= i < HASHSIZE /\ cheader s' = sethead c i v (cheader s)
}.

Lemma block_int s x : good s -> block (eof s) x -> int32 x.
Proof.
  intros HG (H1 & _ & H3). pose proof (g_eof _ HG). unfold eof, ENTRYSIZE, int32, INT_MIN, HEADERSIZE, HASHSIZE in *. lia.
Qed.

Lemma index_block s I a x : good s -> index s I -> I !! a = Some x -> block (eof s) x /\ key c (ent little s x) = a.
Proof.
  intros HG (L & HC & HI) [Hx Hk]%HI. split; [| done]. apply (ch_block _ _ HC (hash c a) x (hash_range a) Hx).
Qed.

Lemma key_pointer s s' y : (exists v, ent little s' y = set_word (ptr c) v (ent little s y)) \/ ent little s' y = ent little s y ->
  key c (ent little s' y) = key c (ent little s y).
Proof. intros [[v ->] | ->]; [apply key_ptr | done]. Qed.

(** Changing pointers changes no key. *)
Lemma keys_frame s s' y : good s -> good s' -> frame s s' -> block (eof s) y ->
  key c (ent little s' y) = key c (ent little s y).
Proof.
  intros HG HG' HF Hy. pose proof (ent_canonical little s y HG) as (L1 & _).
  pose proof (ent_canonical little s' y HG') as (L2 & _). pose proof (ptr_word (c := c)) as [Hp _].
  assert (E : ent little s' y = set_word (ptr c) (word (ptr c) (ent little s' y)) (ent little s y)); [| rewrite E; apply key_ptr].
  pose proof (f_name _ _ HF y Hy) as En. pose proof (fun j => f_word _ _ HF y j Hy) as Ew.
  destruct (ent little s' y) as [w' n'], (ent little s y) as [w nm]. unfold set_word, word in *. cbn [words name] in *.
  f_equal; [| done]. apply list_eq. intros j. destruct (decide (j < 32)%nat) as [Hj | Hj].
  - destruct (lookup_lt_is_Some_2 w' j) as [v' Hv']; [lia |]. destruct (lookup_lt_is_Some_2 w j) as [v Hv]; [lia |].
    rewrite Hv'. destruct (decide (j = ptr c)) as [-> | Hne].
    + rewrite list_lookup_insert_eq by lia. by rewrite (nth_lookup_Some _ _ _ _ Hv').
    + rewrite list_lookup_insert_ne by done. rewrite Hv. f_equal.
      specialize (Ew j Hne). by rewrite (nth_lookup_Some _ _ _ _ Hv'), (nth_lookup_Some _ _ _ _ Hv) in Ew.
  - rewrite !lookup_ge_None_2; [done | rewrite length_insert; lia | lia].
Qed.

(** The chains after a change: new pointers, and new lists. *)
Lemma index_change s s' L I' L' : good s -> good s' -> frame s s' -> chains s L ->
  (forall j, 0 <= j < HASHSIZE ->
    linked (fun x => word (ptr c) (ent little s' x)) (bucket (head c (cheader s')) j) (L' j)) ->
  (forall j, 0 <= j < HASHSIZE -> NoDup (map (fun x => key c (ent little s x)) (L' j))) ->
  (forall j y, 0 <= j < HASHSIZE -> y ∈ L' j -> block (eof s) y /\ hash c (key c (ent little s y)) = j) ->
  (forall a x, I' !! a = Some x <-> x ∈ L' (hash c a) /\ key c (ent little s x) = a) ->
  index s' I'.
Proof.
  intros HG HG' HF HC Hl HN Hb HI. exists L'.
  assert (Hk : forall j y, 0 <= j < HASHSIZE -> y ∈ L' j -> key c (ent little s' y) = key c (ent little s y)).
  { intros j y Hj Hy. apply keys_frame; [done | done | done |]. by apply (Hb j y). }
  split; [split |].
  - done.
  - intros j y Hj Hy. rewrite (Hk j y Hj Hy), (f_eof _ _ HF). by apply Hb.
  - intros j Hj. specialize (HN j Hj). erewrite map_ext_in; [exact HN |]. intros y Hy%list_elem_of_In. by apply (Hk j).
  - intros a x. rewrite HI. split; intros [Hx Ha]; (split; [done |]); by rewrite (Hk (hash c a) x (hash_range a) Hx) in *.
Qed.

Lemma linked_int nxt h l : linked nxt h l -> (forall x, x ∈ l -> int32 x) -> int32 h.
Proof.
  destruct l as [| x l]; cbn [linked]; [intros -> _; unfold int32, INT_MIN, INT_MAX; lia |].
  intros [-> _] Hl. apply Hl. left.
Qed.

Lemma head_int s L i : good s -> chains s L -> 0 <= i < HASHSIZE -> int32 (bucket (head c (cheader s)) i).
Proof.
  intros HG HC Hi. apply (linked_int _ _ _ (ch_linked _ _ HC i Hi)). intros x Hx.
  apply (block_int s); [done |]. by apply (ch_block _ _ HC i x Hi Hx).
Qed.

(** Adding a block under its own key. *)
Lemma index_add s I a x : good s -> index s I -> I !! a = None -> block (eof s) x -> key c (ent little s x) = a ->
  exists s', add_chain little (ptr c) (bucket (head c (cheader s)) (hash c a)) (pos c (hash c a)) x (sethead c (hash c a)) s
    = Some (PRSUCCESS, s') /\ good s' /\ index s' (<[a := x]> I) /\ frame s s'.
Proof.
  intros HG (L & HC & HI) Hno Hx Hkey. pose proof (hash_range (c := c) a) as Hh.
  pose proof (ptr_word (c := c)) as [Hp32 Hp8].
  set (i := hash c a) in *. set (h := bucket (head c (cheader s)) i). set (e := ent little s x).
  pose proof (head_int s L i HG HC Hh) as Hhi. fold h in Hhi.
  pose proof (ent_canonical little s x HG) as Hcan. fold e in Hcan.
  pose proof (canonical_set little (ptr c) h e Hcan Hp32 Hp8 Hhi) as Hcan'. pose proof Hx as (Hx1 & _).
  set (s1 := wrote little x (set_word (ptr c) h e) s). set (s2 := header_set (sethead c i x) (pos c i) x s1).
  assert (HG1 : good s1) by by apply wrote_good.
  assert (HG2 : good s2).
  { apply header_set_good; [done | by apply pos_ok | by apply sethead_sets | by apply (block_int s) | |];
      rewrite eof_sethead; apply HG. }
  assert (Hent : forall y, block (eof s) y -> ent little s2 y = if decide (y = x) then set_word (ptr c) h e else ent little s y).
  { intros y Hy. unfold s2. rewrite header_set_ent by (by apply pos_ok || apply Hy). by apply wrote_ent. }
  assert (HF : frame s s2).
  { split; [by apply eof_sethead | | | right; by exists i, x].
    - intros y Hy. rewrite Hent by done. by case_decide; subst.
    - intros y j Hy Hj. rewrite Hent by done. case_decide; [| done]. subst y. rewrite (word_set little) by done.
      by rewrite decide_False. }
  assert (Hnot : forall j, 0 <= j < HASHSIZE -> x ∉ L j).
  { intros j Hj Hin. destruct (ch_block _ _ HC j x Hj Hin) as [_ E]. rewrite Hkey in E. subst j.
    pose proof (proj2 (HI a x) (conj Hin Hkey)). congruence. }
  exists s2. split; [| split; [done | split; [| done]]].
  - unfold add_chain, mbind_. rewrite read_entry_ok by apply HG. cbn [Z.eqb negb]. unfold set_header.
    rewrite write_entry_ok; [| apply HG | done]. cbn [Z.eqb negb].
    rewrite pr_Write_ok; [done | apply HG | by right].
  - apply (index_change s s2 L _ (fun j => if decide (j = i) then x :: L i else L j)); try done.
    + intros j Hj. cbn [cheader s2 header_set]. rewrite head_sethead.
      assert (Hrest : forall h', linked (fun y => word (ptr c) (ent little s y)) h' (L j) ->
                linked (fun y => word (ptr c) (ent little s2 y)) h' (L j)).
      { intros h' Hl. apply (links_frame _ _ _ _ Hl). intros y Hy. rewrite Hent by (by apply (ch_block _ _ HC j)).
        rewrite decide_False; [done |]. intros ->. by apply (Hnot j Hj). }
      case_decide as Ej; [subst j | by apply Hrest, (ch_linked _ _ HC)]. cbn [linked]. split; [done |].
      rewrite Hent, decide_True, (word_set little), decide_True by done. apply Hrest, (ch_linked _ _ HC i Hj).
    + intros j Hj. case_decide; [subst j | by apply (ch_keys _ _ HC)]. cbn [map]. constructor; [| by apply (ch_keys _ _ HC)].
      intros (y & E & Hy)%list_elem_of_fmap. rewrite Hkey in E. pose proof (proj2 (HI a y) (conj Hy (eq_sym E))). congruence.
    + intros j y Hj Hy. case_decide; [subst j | by apply (ch_block _ _ HC)].
      apply elem_of_cons in Hy as [-> | Hy]; [split; [done |]; by rewrite Hkey | by apply (ch_block _ _ HC)].
    + intros a' x'. destruct (decide (a' = a)) as [-> | Hne].
      * rewrite lookup_insert_eq. rewrite decide_True by done. rewrite elem_of_cons. split.
        -- intros [= <-]. split; [by left | done].
        -- intros [[-> | Hin] E]; [done |]. pose proof (proj2 (HI a x') (conj Hin E)). congruence.
      * rewrite lookup_insert_ne by done. rewrite HI. case_decide as E; [| done]. rewrite E, elem_of_cons.
        split; [intros [? ?]; split; [by right | done] |]. intros [[-> | ?] Ek]; [congruence | done].
Qed.

(** The chains of [L] without [x], which is after [l1] in its own. *)
Lemma index_drop s s' I L a x l1 l2 : good s -> good s' -> frame s s' -> chains s L ->
  (forall a x, I !! a = Some x <-> x ∈ L (hash c a) /\ key c (ent little s x) = a) ->
  L (hash c a) = l1 ++ x :: l2 -> key c (ent little s x) = a ->
  (forall y, block (eof s) y -> word (ptr c) (ent little s' y)
    = if decide (last l1 = Some y) then word (ptr c) (ent little s x) else word (ptr c) (ent little s y)) ->
  (forall j, bucket (head c (cheader s')) j
    = if decide (j = hash c a /\ l1 = []) then word (ptr c) (ent little s x) else bucket (head c (cheader s)) j) ->
  index s' (delete a I).
Proof.
  intros HG HG' HF HC HI Hl Hkey Hw Hb. pose proof (hash_range (c := c) a) as Hh. set (i := hash c a) in *.
  pose proof (chain_nodup s L i HC Hh) as HN. pose proof (ch_keys _ _ HC i Hh) as HK. rewrite Hl in HN, HK.
  assert (Hin : forall y, y ∈ l1 ++ l2 -> y ∈ L i) by (intros y Hy; rewrite Hl; rewrite elem_of_app in *; rewrite elem_of_cons; tauto).
  assert (Hxk : forall y, y ∈ l1 ++ l2 -> key c (ent little s y) <> a).
  { intros y Hy E. rewrite map_app in HK. cbn [map] in HK. rewrite <- Permutation_middle in HK.
    apply NoDup_cons in HK as [HK _]. apply HK. rewrite <- map_app. apply list_elem_of_fmap. exists y.
    split; [congruence | done]. }
  apply (index_change s s' L _ (fun j => if decide (j = i) then l1 ++ l2 else L j)); try done.
  - intros j Hj. case_decide as Ej.
    + subst j. apply (linked_drop (fun y => word (ptr c) (ent little s y)) _ x l2 l1 (bucket (head c (cheader s)) i)).
      * rewrite <- Hl. by apply (ch_linked _ _ HC).
      * done.
      * intros y Hy. apply Hw. by apply (ch_block _ _ HC i), Hin.
      * rewrite Hb. by repeat case_decide; naive_solver.
    + rewrite Hb, decide_False by naive_solver. apply (links_frame _ _ _ _ (ch_linked _ _ HC j Hj)).
      intros y Hy. rewrite Hw by (by apply (ch_block _ _ HC j)). rewrite decide_False; [done |].
      intros El. apply last_Some_elem_of in El.
      destruct (ch_block _ _ HC j y Hj Hy) as [_ E1].
      assert (Hy' : y ∈ l1 ++ l2) by (apply elem_of_app; by left).
      destruct (ch_block _ _ HC i y Hh (Hin y Hy')) as [_ E2]. congruence.
  - intros j Hj. case_decide; [subst j | by apply (ch_keys _ _ HC)].
    rewrite map_app in *. cbn [map] in HK. rewrite <- Permutation_middle in HK. by apply NoDup_cons in HK as [_ HK].
  - intros j y Hj Hy. case_decide; [subst j; by apply (ch_block _ _ HC i), Hin | by apply (ch_block _ _ HC)].
  - intros a' x'. destruct (decide (a' = a)) as [-> | Hne].
    + rewrite lookup_delete_eq. rewrite decide_True by done. split; [done |]. intros [Hx' E]. by destruct (Hxk x').
    + rewrite lookup_delete_ne by done. rewrite HI. case_decide as E; [| done]. rewrite E, Hl.
      assert (Hxx : x' = x -> key c (ent little s x') = a) by (by intros ->).
      rewrite !elem_of_app, elem_of_cons. split; intros [Hx' Ek]; (split; [| done]); [| tauto].
      destruct Hx' as [? | [E' | ?]]; [by left | | by right]. exfalso. apply Hne. rewrite <- Ek. by apply Hxx.
Qed.

(** Removing the block of a key. *)
Lemma index_remove s I a same : good s -> index s I -> (forall e, same e = bool_decide (a = key c e)) ->
  let r := remove_chain little same (ptr c) (bucket (head c (cheader s)) (hash c a)) (pos c (hash c a))
             (sethead c (hash c a)) s in
  match I !! a with
  | None => r = Some ((PRSUCCESS, None), s)
  | Some x => exists s', r = Some ((PRSUCCESS, Some x), s') /\ good s' /\ index s' (delete a I) /\ frame s s'
  end.
Proof.
  intros HG (L & HC & HI) Hsame r. pose proof (hash_range (c := c) a) as Hh. set (i := hash c a) in *.
  pose proof (ch_linked _ _ HC i Hh) as Hl. pose proof (chain_nodup s L i HC Hh) as HN.
  pose proof (chain_nonzero s L i HC Hh) as H0. pose proof (chain_short s L i HG HC Hh) as Hf.
  assert (Hno : (forall y, y ∈ L i -> key c (ent little s y) <> a) -> I !! a = None).
  { intros Hall. destruct (I !! a) as [x |] eqn:E; [| done]. apply HI in E as [Hx Ex]. by destruct (Hall x Hx). }
  unfold r, remove_chain, mbind_, get_header. destruct (L i) as [| h l] eqn:EL; cbn [linked] in Hl.
  { rewrite Hl, Z.eqb_refl. rewrite Hno; [done |]. intros y Hy. by apply not_elem_of_nil in Hy. }
  destruct Hl as [Ehd Hl]. rewrite Ehd. apply not_elem_of_cons in H0 as [Hh0 H0'].
  rewrite (proj2 (Z.eqb_neq h 0)) by done. rewrite read_entry_ok by apply HG. cbn [Z.eqb negb].
  pose proof (trail_chain_ok little (ptr c) same s l (g_io _ HG) 0 h (chain_fuel (cheader s))) as HT.
  specialize (HT ltac:(constructor; [set_solver | done]) ltac:(set_solver) Hl ltac:(cbn in Hf; lia)).
  destruct (forallb _ (h :: l)) eqn:EF.
  { destruct HT as (t' & e & ->). cbn [Z.eqb negb]. rewrite Hno; [done |]. intros y Hy E.
    rewrite forallb_forall in EF. specialize (EF y ltac:(by apply list_elem_of_In)).
    rewrite Hsame, bool_decide_eq_true_2 in EF by done. done. }
  destruct HT as (l1 & x & l2 & E1 & E2 & E3 & ->). cbn [Z.eqb negb].
  rewrite Hsame in E2. apply bool_decide_eq_true in E2. symmetry in E2.
  assert (Hxin : x ∈ L i) by (rewrite EL, E1; apply elem_of_app; right; left).
  rewrite (proj2 (HI a x) (conj Hxin E2)).
  assert (HB : forall y, y ∈ L i -> block (eof s) y) by (intros y Hy; by apply (ch_block _ _ HC i)).
  assert (Hx0 : x <> 0) by (intros ->; destruct (HB 0 Hxin) as (H' & _); unfold HEADERSIZE, HASHSIZE in H'; lia).
  rewrite (proj2 (Z.eqb_neq x 0)) by done.
  pose proof (word_int little (ptr c) _ (ent_canonical little s x HG)) as Hwi.
  set (v := word (ptr c) (ent little s x)) in *. pose proof (ptr_word (c := c)) as [Hp32 Hp8].
  assert (HR : forall s', good s' -> frame s s' ->
    (forall y, block (eof s) y -> word (ptr c) (ent little s' y) = if decide (last l1 = Some y) then v else word (ptr c) (ent little s y)) ->
    (forall j, bucket (head c (cheader s')) j = if decide (j = i /\ l1 = []) then v else bucket (head c (cheader s)) j) ->
    index s' (delete a I)).
  { intros s' HG' HF' Hw Hb. apply (index_drop s s' I L a x l1 l2); try done. fold i. by rewrite EL, E1. }
  destruct (last l1) as [t |] eqn:Elast;
    [change (default 0 (Some t)) with t | change (default 0 (@None Z)) with 0].
  - assert (Ht : t ∈ l1) by by apply last_Some_elem_of.
    assert (Htb : block (eof s) t) by (apply HB; rewrite EL, E1; apply elem_of_app; by left).
    assert (Ht0 : t <> 0) by (intros ->; destruct Htb as (H' & _); unfold HEADERSIZE, HASHSIZE in H'; lia).
    rewrite (proj2 (Z.eqb_neq t 0)) by done. rewrite read_entry_ok by apply HG. cbn [Z.eqb negb].
    set (e' := set_word (ptr c) v (ent little s t)).
    assert (He' : canonical little e') by (apply canonical_set; [by apply ent_canonical | done..]).
    rewrite write_entry_ok; [| apply HG | apply Htb]. exists (wrote little t e' s).
    assert (HG' : good (wrote little t e' s)) by by apply wrote_good.
    assert (Hw : forall y j, block (eof s) y -> word j (ent little (wrote little t e' s) y)
              = if decide (y = t /\ j = ptr c) then v else word j (ent little s y)).
    { intros y j Hy. rewrite wrote_ent by done. destruct (decide (y = t)) as [-> | Hne].
      - unfold e'. rewrite (word_set little) by (by apply ent_canonical || done). destruct (decide (j = ptr c)) as [-> | Hj]; [by rewrite decide_True |].
        rewrite decide_False; [done | by intros [_ ?]].
      - rewrite decide_False; [done | by intros [? _]]. }
    assert (HF : frame s (wrote little t e' s)).
    { split; [done | | | by left].
      - intros y Hy. rewrite wrote_ent by done. by case_decide; subst.
      - intros y j Hy Hj. rewrite Hw by done. rewrite decide_False; [done | by intros [_ ?]]. }
    split; [done |]. split; [done |]. split; [| done]. apply HR; [done | done | |].
    + intros y Hy. rewrite Hw by done. destruct (decide (y = t)) as [-> | Hne]; [by rewrite !decide_True |].
      rewrite !decide_False; [done | by intros [= ?] | by intros [? _]].
    + intros j. rewrite decide_False; [done |]. intros [_ ->]. by apply not_elem_of_nil in Ht.
  - apply last_None in Elast as ->. cbn [Z.eqb]. unfold set_header.
    rewrite pr_Write_ok; [| apply HG | by right]. cbn [Z.eqb negb].
    exists (header_set (sethead c i v) (pos c i) v s).
    assert (HG' : good (header_set (sethead c i v) (pos c i) v s)).
    { apply header_set_good; [done | by apply pos_ok | by apply sethead_sets | done | |]; rewrite eof_sethead; apply HG. }
    assert (He : forall y, block (eof s) y -> ent little (header_set (sethead c i v) (pos c i) v s) y = ent little s y).
    { intros y Hy. apply header_set_ent; [by apply pos_ok | apply Hy]. }
    assert (HF : frame s (header_set (sethead c i v) (pos c i) v s)).
    { split; [by apply eof_sethead | | | right; by exists i, v]; intros y **; by rewrite He. }
    split; [done |]. split; [done |]. split; [| done]. apply HR; [done | done | |].
    + intros y Hy. rewrite He by done. by rewrite decide_False.
    + intros j. cbn [cheader header_set]. rewrite head_sethead. destruct (decide (j = i)) as [-> | Hne]; [by rewrite decide_True |].
      rewrite decide_False; [done | by intros [? _]].
Qed.
End index.
