(* ===== verification/PtOps.v ===== *)
(** The protection database, the operations: the hash tables as two finite
    maps, identifiers that are handed out, owner chains, membership, and what
    becomes of a failed write. *)
From S2P Require Import Prelude Bytes UbikFile PtDb PtSpec.

#[local] Open Scope ubik_scope.

Lemma eqb_decide a b : (a =? b) = bool_decide (a = b).
Proof. apply eq_true_iff_eq. rewrite bool_decide_eq_true. apply Z.eqb_eq. Qed.

(** ** The two tables together *)

Section tables.
Context (little : bool).

(** What an index depends on. *)
Lemma index_keep {K} `{Countable K} (c : kind K) s s' I : good s -> index little c s I -> eof s <= eof s' ->
  (forall a y, I !! a = Some y -> key c (ent little s' y) = key c (ent little s y)
     /\ word (ptr c) (ent little s' y) = word (ptr c) (ent little s y)) ->
  (forall j, bucket (head c (cheader s')) j = bucket (head c (cheader s)) j) ->
  (forall a, 0 <= hash c a < HASHSIZE) -> index little c s' I.
Proof.
  intros HG (L & HC & HI) He Hy Hb Hr. exists L.
  assert (Hk : forall j y, 0 <= j < HASHSIZE -> y ∈ L j -> key c (ent little s' y) = key c (ent little s y)
     /\ word (ptr c) (ent little s' y) = word (ptr c) (ent little s y)).
  { intros j y Hj Hin. apply (Hy (key c (ent little s y))). apply HI.
    by rewrite (proj2 (ch_block _ _ _ _ HC j y Hj Hin)). }
  split; [split |].
  - intros j Hj. rewrite Hb. apply (links_frame _ _ _ _ (ch_linked _ _ _ _ HC j Hj)). intros y Hin. by apply (Hk j).
  - intros j y Hj Hin. destruct (Hk j y Hj Hin) as [-> _]. destruct (ch_block _ _ _ _ HC j y Hj Hin) as [(B1 & B2 & B3) E].
    split; [| done]. split; [done | split; [done | lia]].
  - intros j Hj. pose proof (ch_keys _ _ _ _ HC j Hj) as HN. erewrite map_ext_in; [exact HN |].
    intros y Hin%list_elem_of_In. by apply (Hk j).
  - intros a x. rewrite HI. split; intros [Hx Ha]; (split; [done |]);
      destruct (Hk (hash c a) x (Hr a) Hx) as [E _]; congruence.
Qed.

(** A database whose tables are the map [I] of identifiers and [N] of names. *)
Record tables (s : st) (I : gmap Z Z) (N : gmap (list Z) Z) : Prop := {
  t_good : good s;
  t_id : index little by_id s I;
  t_name : index little by_name s N
}.

(** The identifiers and the names of the blocks, which the tables' own
    operations leave alone. *)
Definition same_keys (s s' : st) : Prop :=
  eof s' = eof s /\ forall y, block (eof s) y -> id (ent little s' y) = id (ent little s y) /\ name (ent little s' y) = name (ent little s y).

Lemma frame_id_keys s s' : frame little by_id s s' -> same_keys s s'.
Proof. intros HF. split; [apply HF |]. intros y Hy. split; [by apply (f_word _ _ _ _ HF) | by apply (f_name _ _ _ _ HF)]. Qed.

Lemma frame_name_keys s s' : frame little by_name s s' -> same_keys s s'.
Proof. intros HF. split; [apply HF |]. intros y Hy. split; [by apply (f_word _ _ _ _ HF) | by apply (f_name _ _ _ _ HF)]. Qed.

Lemma tables_id s s' I I' N : tables s I N -> good s' -> index little by_id s' I' -> frame little by_id s s' -> tables s' I' N.
Proof.
  intros [HG HI HN] HG' HI' HF. split; [done | done |]. apply (index_keep by_name s s'); [done | done | | | |].
  - rewrite (f_eof _ _ _ _ HF). lia.
  - intros a y Hy. destruct (index_block little by_name s N a y HG HN Hy) as [Hb _].
    split; [by apply (f_name _ _ _ _ HF) | by apply (f_word _ _ _ _ HF)].
  - intros j. destruct (f_header _ _ _ _ HF) as [-> | (i & v & _ & ->)]; done.
  - apply hash_range.
Qed.

Lemma tables_name s s' I N N' : tables s I N -> good s' -> index little by_name s' N' -> frame little by_name s s' -> tables s' I N'.
Proof.
  intros [HG HI HN] HG' HN' HF. split; [done | | done]. apply (index_keep by_id s s'); [done | done | | | |].
  - rewrite (f_eof _ _ _ _ HF). lia.
  - intros a y Hy. destruct (index_block little by_id s I a y HG HI Hy) as [Hb _]. split; by apply (f_word _ _ _ _ HF).
  - intros j. destruct (f_header _ _ _ _ HF) as [-> | (i & v & _ & ->)]; done.
  - apply hash_range.
Qed.

Lemma frame_refl {K} (c : kind K) s : frame little c s s.
Proof. split; [done | done | done | by left]. Qed.

(** *** The operations one by one *)

Definition bad_id (aid : Z) : bool := (aid =? PRBADID) || (aid =? 0).

Lemma find_id s I N aid : tables s I N -> bad_id aid = false ->
  FindByID little aid s = Some (default 0 (I !! aid), s).
Proof.
  intros HT Hb. unfold FindByID. fold (bad_id aid). rewrite Hb. unfold mbind_, get_header.
  destruct (index_find little by_id s I aid (has_id aid)) as [e He];
    [apply HT | apply HT | intros e; apply eqb_decide |].
  change nextID with (word 19). cbn [ptr head hash by_id] in He. rewrite He. by destruct (I !! aid).
Qed.

Lemma find_name s I N aname : tables s I N -> (length aname <= 64)%nat ->
  exists e, FindByName little aname s
  = Some ((match N !! aname with Some x => (x, ent little s x) | None => (0, e) end), s).
Proof.
  intros HT Hl. unfold FindByName, mbind_, get_header. change nextName with (word 20).
  apply (index_find little by_name s N aname); [apply HT | apply HT |]. intros e. unfold has_name_n. by rewrite take_ge.
Qed.

Lemma add_id s I N aid x : tables s I N -> bad_id aid = false -> I !! aid = None -> block (eof s) x -> id (ent little s x) = aid ->
  exists s', AddToIDHash little aid x s = Some (PRSUCCESS, s') /\ tables s' (<[aid := x]> I) N /\ frame little by_id s s'.
Proof.
  intros HT Hb Hno Hx Hk. unfold AddToIDHash. fold (bad_id aid). rewrite Hb. unfold mbind_ at 1, get_header.
  destruct (index_add little by_id s I aid x) as (s' & E & HG' & HI' & HF); [apply HT | apply HT | done..|].
  exists s'. split; [exact E | split; [by apply (tables_id s s' I) | done]].
Qed.

Lemma add_name s I N aname x : tables s I N -> N !! aname = None -> block (eof s) x -> name (ent little s x) = aname ->
  exists s', AddToNameHash little aname x s = Some (PRSUCCESS, s') /\ tables s' I (<[aname := x]> N) /\ frame little by_name s s'.
Proof.
  intros HT Hno Hx Hk. unfold AddToNameHash, mbind_ at 1, get_header.
  destruct (index_add little by_name s N aname x) as (s' & E & HG' & HI' & HF); [apply HT | apply HT | done..|].
  exists s'. split; [exact E | split; [by apply (tables_name s s' I N) | done]].
Qed.

Lemma remove_id s I N aid : tables s I N -> bad_id aid = false ->
  exists s', RemoveFromIDHash little aid s = Some ((PRSUCCESS, I !! aid), s') /\ tables s' (delete aid I) N /\ frame little by_id s s'.
Proof.
  intros HT Hb. unfold RemoveFromIDHash. fold (bad_id aid). rewrite Hb. unfold mbind_ at 1, get_header.
  pose proof (index_remove little by_id s I aid (has_id aid) (t_good _ _ _ HT) (t_id _ _ _ HT)) as HR.
  cbv zeta in HR. specialize (HR ltac:(intros e; apply eqb_decide)). cbn [ptr head hash pos sethead by_id] in HR.
  destruct (I !! aid) as [x |] eqn:E.
  - destruct HR as (s' & -> & HG' & HI' & HF). exists s'. split; [done | split; [by apply (tables_id s s' I) | done]].
  - rewrite HR. exists s. split; [done |]. rewrite delete_id by done. split; [done | apply frame_refl].
Qed.

Lemma remove_name s I N aname : tables s I N ->
  exists s', RemoveFromNameHash little aname s = Some ((PRSUCCESS, N !! aname), s') /\ tables s' I (delete aname N) /\ frame little by_name s s'.
Proof.
  intros HT. unfold RemoveFromNameHash, mbind_ at 1, get_header.
  pose proof (index_remove little by_name s N aname (has_name aname) (t_good _ _ _ HT) (t_name _ _ _ HT)) as HR.
  cbv zeta in HR. specialize (HR ltac:(done)). cbn [ptr head hash pos sethead by_name] in HR.
  destruct (N !! aname) as [x |] eqn:E.
  - destruct HR as (s' & -> & HG' & HN' & HF). exists s'. split; [done | split; [by apply (tables_name s s' I N) | done]].
  - rewrite HR. exists s. split; [done |]. rewrite delete_id by done. split; [done | apply frame_refl].
Qed.
End tables.

(** ** Sequences of operations on the tables *)

Inductive table_op :=
  | AskID (aid : Z) | AskName (aname : list Z)
  | PutID (aid x : Z) | PutName (aname : list Z) (x : Z)
  | DropID (aid : Z) | DropName (aname : list Z).

(** What an operation answers: the code, and the block. *)
Definition answer : Type := Z * option Z.

Section sequences.
Context (little : bool).

Definition found (x : Z) : answer := (PRSUCCESS, if x =? 0 then None else Some x).

Definition table_step (o : table_op) : M answer :=
  match o with
  | AskID aid => let* x := FindByID little aid in ret (found x)
  | AskName aname => let* (x, _) := FindByName little aname in ret (found x)
  | PutID aid x => let* code := AddToIDHash little aid x in ret (code, None)
  | PutName aname x => let* code := AddToNameHash little aname x in ret (code, None)
  | DropID aid => RemoveFromIDHash little aid
  | DropName aname => RemoveFromNameHash little aname
  end.

Fixpoint table_run (l : list table_op) : M (list answer) :=
  match l with
  | [] => ret []
  | o :: l' => let* a := table_step o in let* r := table_run l' in ret (a :: r)
  end.

(** The same on two maps. *)
Definition maps : Type := gmap Z Z * gmap (list Z) Z.

Definition map_step (o : table_op) (D : maps) : answer * maps :=
  let '(ids, names) := D in
  match o with
  | AskID aid => ((PRSUCCESS, ids !! aid), D)
  | AskName aname => ((PRSUCCESS, names !! aname), D)
  | PutID aid x => ((PRSUCCESS, None), (<[aid := x]> ids, names))
  | PutName aname x => ((PRSUCCESS, None), (ids, <[aname := x]> names))
  | DropID aid => ((PRSUCCESS, ids !! aid), (delete aid ids, names))
  | DropName aname => ((PRSUCCESS, names !! aname), (ids, delete aname names))
  end.

Fixpoint map_run (l : list table_op) (D : maps) : list answer * maps :=
  match l with
  | [] => ([], D)
  | o :: l' => let '(a, D1) := map_step o D in let '(r, D2) := map_run l' D1 in (a :: r, D2)
  end.

(** A block is put under the identifier or the name that is in it, which no
    other block of the table has. *)
Definition allowed (s : st) (o : table_op) (D : maps) : Prop :=
  match o with
  | AskID aid | DropID aid => bad_id aid = false
  | AskName aname => (length aname <= 64)%nat
  | PutID aid x => bad_id aid = false /\ D.1 !! aid = None /\ block (eof s) x /\ id (ent little s x) = aid
  | PutName aname x => D.2 !! aname = None /\ block (eof s) x /\ name (ent little s x) = aname
  | DropName _ => True
  end.

Fixpoint all_allowed (s : st) (l : list table_op) (D : maps) : Prop :=
  match l with
  | [] => True
  | o :: l' => allowed s o D /\ all_allowed s l' (map_step o D).2
  end.

Lemma allowed_keys s s' l : same_keys little s s' -> forall D, all_allowed s l D -> all_allowed s' l D.
Proof.
  intros [He Hk]. induction l as [| o l IH]; intros D; [done |]. intros [Ho Hl]. split; [| by apply IH]. clear Hl IH.
  destruct o; cbn [allowed] in *; try done.
  - destruct Ho as (H1 & H2 & H3 & H4). rewrite He. destruct (Hk x H3) as [-> _]. done.
  - destruct Ho as (H2 & H3 & H4). rewrite He. destruct (Hk x H3) as [_ ->]. done.
Qed.

Lemma id_nonzero s I N aid x : tables little s I N -> I !! aid = Some x -> x <> 0.
Proof.
  intros HT Hx. destruct (index_block little by_id s I aid x (t_good _ _ _ _ HT) (t_id _ _ _ _ HT) Hx) as [(Hb & _) _].
  unfold HEADERSIZE, HASHSIZE in Hb. lia.
Qed.

Lemma name_nonzero s I N aname x : tables little s I N -> N !! aname = Some x -> x <> 0.
Proof.
  intros HT Hx. destruct (index_block little by_name s N aname x (t_good _ _ _ _ HT) (t_name _ _ _ _ HT) Hx) as [(Hb & _) _].
  unfold HEADERSIZE, HASHSIZE in Hb. lia.
Qed.

Lemma found_some x : x <> 0 -> found x = (PRSUCCESS, Some x).
Proof. intros H. unfold found. by rewrite (proj2 (Z.eqb_neq x 0)). Qed.

Lemma table_step_ok s I N o : tables little s I N -> allowed s o (I, N) ->
  exists s', table_step o s = Some ((map_step o (I, N)).1, s') /\ tables little s' (map_step o (I, N)).2.1 (map_step o (I, N)).2.2
    /\ same_keys little s s'.
Proof.
  intros HT Ho. assert (Hs : same_keys little s s) by by split.
  destruct o; cbn [table_step map_step allowed fst snd] in *; unfold mbind_.
  - rewrite (find_id little s I N) by done. exists s. split; [| done]. unfold ret. do 2 f_equal.
    destruct (I !! aid) eqn:E; [apply found_some; by eapply id_nonzero | done].
  - destruct (find_name little s I N aname HT Ho) as [e ->]. exists s. split; [| done].
    destruct (N !! aname) eqn:E; [| done]. unfold ret. rewrite found_some; [done | by eapply name_nonzero].
  - destruct Ho as (H1 & H2 & H3 & H4). destruct (add_id little s I N aid x) as (s' & -> & HT' & HF); [done.. |]. exists s'.
    split; [done | split; [done | by apply frame_id_keys]].
  - destruct Ho as (H2 & H3 & H4). destruct (add_name little s I N aname x) as (s' & -> & HT' & HF); [done.. |]. exists s'.
    split; [done | split; [done | by apply frame_name_keys]].
  - destruct (remove_id little s I N aid HT Ho) as (s' & -> & HT' & HF). exists s'.
    split; [done | split; [done | by apply frame_id_keys]].
  - destruct (remove_name little s I N aname HT) as (s' & -> & HT' & HF). exists s'.
    split; [done | split; [done | by apply frame_name_keys]].
Qed.

(** C27. The hash tables of the database, with their chains through the entries'
    pointers, are two finite maps: any sequence of FindByID, FindByName,
    AddToIDHash, AddToNameHash, RemoveFromIDHash and RemoveFromNameHash, in any
    order, ends and answers what look-ups, insertions and deletions on the maps
    answer, and leaves the tables of the maps that result. *)
Theorem tables_refine l : forall s I N, tables little s I N -> all_allowed s l (I, N) ->
  exists s', table_run l s = Some ((map_run l (I, N)).1, s')
    /\ tables little s' (map_run l (I, N)).2.1 (map_run l (I, N)).2.2.
Proof.
  induction l as [| o l IH]; intros s I N HT Hl; [by exists s |]. destruct Hl as [Ho Hl].
  destruct (table_step_ok s I N o HT Ho) as (s1 & E1 & HT1 & Hk).
  cbn [table_run map_run]. unfold mbind_. rewrite E1. destruct (map_step o (I, N)) as [a [I1 N1]]. cbn [fst snd] in *.
  destruct (IH s1 I1 N1 HT1 (allowed_keys s s1 l Hk _ Hl)) as (s2 & E2 & HT2). exists s2. rewrite E2.
  by destruct (map_run l (I1, N1)) as [r [I2 N2]].
Qed.
End sequences.

(** ** The store of blocks *)

Ltac hpos := left; split; [lia | reflexivity].

Section store.
Context (little : bool).

(** Of the blocks only those of [B] are written, the tables not at all. *)
Record only (s s' : st) (B : list Z) : Prop := {
  on_eof : eof s <= eof s';
  on_bytes : forall y z, block (eof s) y -> y ∉ B -> y <= z < y + ENTRYSIZE -> byte (file s') z = byte (file s) z;
  on_names : nameHash (cheader s') = nameHash (cheader s);
  on_ids : idHash (cheader s') = idHash (cheader s)
}.

Lemma block_later e e' y : e <= e' -> block e y -> block e' y.
Proof. intros He (B1 & B2 & B3). split; [done | split; [done | lia]]. Qed.

Lemma only_refl s B : only s s B.
Proof. by split. Qed.

Lemma only_trans s1 s2 s3 B : only s1 s2 B -> only s2 s3 B -> only s1 s3 B.
Proof.
  intros [E1 B1 N1 I1] [E2 B2 N2 I2]. split; [lia | | congruence | congruence].
  intros y z Hy Hn Hz. rewrite (B2 y z); [by apply (B1 y z) | by eapply block_later | done | done].
Qed.

Lemma only_weaken s s' B B' : only s s' B -> (forall y, y ∈ B -> block (eof s) y -> y ∈ B') -> only s s' B'.
Proof. intros [E1 B1 N1 I1] HB. split; [done | | done | done]. intros y z Hy Hn. apply B1; [done |]. naive_solver. Qed.

Lemma only_ent s s' B y : only s s' B -> block (eof s) y -> y ∉ B -> ent little s' y = ent little s y.
Proof. intros HO Hy Hn. apply decode_ext. intros z Hz. by apply (on_bytes _ _ _ HO y z). Qed.

Lemma header_only s f p v : header_pos p -> eof s <= eofPtr (f (cheader s)) ->
  nameHash (f (cheader s)) = nameHash (cheader s) -> idHash (f (cheader s)) = idHash (cheader s) ->
  only s (header_set f p v s) [].
Proof.
  intros Hp He Hn Hi. split; [done | | done | done]. intros y z (Hy & _) _ Hz. cbn [file header_set].
  apply byte_put_ne. rewrite length_be_bytes. destruct Hp as [Hp | [Hp Hm]]; unfold HEADERSIZE, HASHSIZE in *; [lia | zdiv].
Qed.

Lemma block_put_only s x l : block (eof s) x -> length l = 192%nat -> only s (St (cheader s) (put (file s) x l) (io s)) [x].
Proof.
  intros Hx Hl. split; [done | | done | done]. intros y z Hy Hn Hz. cbn [file]. apply byte_put_ne. rewrite Hl.
  unfold ENTRYSIZE in Hz. destruct (blocks_apart _ _ _ Hx Hy); [intros ->; apply Hn; left | lia | lia].
Qed.

(** The free list. *)
Record freed (s : st) (F : list Z) : Prop := {
  fr_linked : linked (fun x => next (ent little s x)) (freePtr (cheader s)) F;
  fr_nodup : NoDup F;
  fr_block : forall x, x ∈ F -> block (eof s) x
}.

(** Every block is in use or free, and not both. *)
Record store (s : st) (U : gset Z) (F : list Z) : Prop := {
  st_good : good s;
  st_freed : freed s F;
  st_used : forall x, x ∈ U -> block (eof s) x /\ x ∉ F;
  st_all : forall x, block (eof s) x -> x ∈ U \/ x ∈ F
}.

Lemma block_nonzero e x : block e x -> x <> 0.
Proof. intros (H & _) ->. unfold HEADERSIZE, HASHSIZE in H. lia. Qed.

Lemma block_eof e x : HEADERSIZE <= e -> (e - HEADERSIZE) mod ENTRYSIZE = 0 ->
  block (e + ENTRYSIZE) x <-> block e x \/ x = e.
Proof. unfold block, ENTRYSIZE. intros H1 H2. split; [intros (H3 & H4 & H5) | intros [H | ->]]; zdiv. Qed.

(** What [set_header] and [pr_Write] of a word of the header do. *)
Lemma header_write_ok s f p v b : io s = [] -> header_pos p -> sets f p v -> be_bytes v = b ->
  (let* _ := set_header f in pr_Write p true b) s = Some (0, header_set f p v s).
Proof.
  intros Hio Hp Hf <-. unfold mbind_, set_header. rewrite pr_Write_ok; [done | done | by right].
Qed.

Lemma freed_frame s s' F : freed s F -> freePtr (cheader s') = freePtr (cheader s) -> eof s <= eof s' ->
  (forall x, x ∈ F -> next (ent little s' x) = next (ent little s x)) -> freed s' F.
Proof.
  intros [H1 H2 H3] Hf He Hn. split; [rewrite Hf; by apply (links_frame _ _ _ _ H1) | done |].
  intros x Hx. destruct (H3 x Hx) as (B1 & B2 & B3). split; [done | split; [done | lia]].
Qed.

(** Room for one more block at the end of the file. *)
Definition room (s : st) (F : list Z) : Prop := F <> [] \/ eof s + ENTRYSIZE <= INT_MAX.

Lemma alloc_ok s U F : store s U F -> room s F ->
  exists x s', AllocBlock little s = Some (x, s') /\ block (eof s') x /\ x ∉ U
    /\ store s' ({[x]} ∪ U) (tail F) /\ only s s' [] /\ maxID (cheader s') = maxID (cheader s).
Proof.
  intros [HG [HL HN HB] HU HA] HR. pose proof HG as [Hio G2 G3 G4 G5]. unfold AllocBlock, mbind_ at 1, get_header.
  destruct F as [| x F]; cbn [linked tail] in *.
  - rewrite HL. cbn [Z.eqb negb]. destruct HR as [HR | HR]; [done |]. unfold eof in *. set (e := eofPtr (cheader s)) in *.
    assert (Hs : s32 (e + ENTRYSIZE) = e + ENTRYSIZE).
    { apply s32_small. unfold INT_MIN, ENTRYSIZE, HEADERSIZE, HASHSIZE in *. lia. }
    rewrite Hs. pose proof (header_write_ok s (set_eofPtr (e + ENTRYSIZE)) 12 (e + ENTRYSIZE) _ Hio
      ltac:(hpos) (sets_eofPtr _) eq_refl) as HW.
    unfold mbind_ in HW |- *. unfold set_header in *. rewrite HW. cbn [Z.eqb negb].
    exists e, (header_set (set_eofPtr (e + ENTRYSIZE)) 12 (e + ENTRYSIZE) s).
    set (s' := header_set _ _ _ _).
    assert (Hon : only s s' []).
    { apply header_only; [hpos | | done | done]. unfold eof. cbn [eofPtr set_eofPtr]. unfold ENTRYSIZE. lia. }
    change (eofPtr (cheader s')) with (e + ENTRYSIZE).
    assert (Hbe : forall x, block (e + ENTRYSIZE) x <-> block e x \/ x = e) by (intros x; apply block_eof; [lia | done]).
    split; [done |]. split; [apply Hbe; by right |]. assert (HeU : e ∉ U).
    { intros Hin. destruct (HU e Hin) as [(_ & _ & B) _]. unfold ENTRYSIZE in B. lia. }
    split; [done |]. split; [split | by split].
    + apply header_set_good; [done | hpos | apply sets_eofPtr | unfold int32, INT_MIN, HEADERSIZE, HASHSIZE, ENTRYSIZE in *; lia | |].
      * cbn [eofPtr set_eofPtr]. unfold ENTRYSIZE, HEADERSIZE, HASHSIZE in *. lia.
      * cbn [eofPtr set_eofPtr]. unfold ENTRYSIZE in *. zdiv.
    + split; [exact HL | constructor | intros x Hx; by apply not_elem_of_nil in Hx].
    + intros x Hx. unfold eof. change (eofPtr (cheader s')) with (e + ENTRYSIZE). rewrite Hbe. split; [| apply not_elem_of_nil].
      apply elem_of_union in Hx as [->%elem_of_singleton | Hx]; [by right | left; by apply HU].
    + intros x. unfold eof. change (eofPtr (cheader s')) with (e + ENTRYSIZE). rewrite Hbe, elem_of_union, elem_of_singleton.
      intros [Hx | ->]; [| by left; left]. destruct (HA x Hx) as [? | H0]; [by left; right | by apply not_elem_of_nil in H0].
  - destruct HL as [Hfp HL]. pose proof (HB x ltac:(left)) as Hx. pose proof (block_nonzero _ _ Hx) as Hx0.
    rewrite Hfp, (proj2 (Z.eqb_neq x 0)) by done. cbn [negb]. unfold mbind_ at 1. rewrite read_entry_ok by done. cbn [Z.eqb negb].
    set (n := next (ent little s x)). pose proof (header_write_ok s (set_freePtr n) 8 n _ Hio
      ltac:(hpos) (sets_freePtr _) eq_refl) as HW.
    unfold mbind_ in HW |- *. unfold set_header in *. rewrite HW. cbn [Z.eqb negb].
    exists x, (header_set (set_freePtr n) 8 n s). set (s' := header_set _ _ _ _).
    assert (Hon : only s s' []) by (apply header_only; [hpos | apply Z.le_refl | done | done]).
    pose proof (fun y Hy => only_ent s s' [] y Hon Hy (not_elem_of_nil y)) as He.
    apply NoDup_cons in HN as [HxF HN]. assert (HxU : x ∉ U).
    { intros Hin. destruct (HU x Hin) as [_ H0]. apply H0. left. }
    split; [done |]. split; [exact Hx |]. split; [done |]. split; [split | by split].
    + apply header_set_good; [done | hpos | apply sets_freePtr | | exact G4 | exact G5].
      unfold n. apply (word_int little 3). by apply ent_canonical.
    + split; [| done | intros y Hy; apply (HB y); by right].
      apply (links_frame _ _ _ _ HL). intros y Hy. rewrite He; [done |]. apply HB. by right.
    + intros y Hy. apply elem_of_union in Hy as [->%elem_of_singleton | Hy]; [done |].
      destruct (HU y Hy) as [B1 B2]. split; [done |]. intros H0. apply B2. by right.
    + intros y Hy. rewrite elem_of_union, elem_of_singleton. destruct (HA y Hy) as [? | [-> | ?]%elem_of_cons]; tauto.
Qed.

Lemma free_ok s U F x : store s U F -> x ∈ U ->
  exists s', FreeBlock little x s = Some (PRSUCCESS, s') /\ store s' (U ∖ {[x]}) (x :: F) /\ eof s' = eof s
    /\ only s s' [x].
Proof.
  intros [HG [HL HN HB] HU HA] Hx. pose proof HG as [Hio G2 G3 G4 G5]. destruct (HU x Hx) as [Hbx HxF].
  unfold FreeBlock, mbind_ at 1, get_header. set (fp := freePtr (cheader s)).
  assert (Hfp : int32 fp) by (apply (linked_int _ _ _ HL); intros y Hy; by apply (block_int s), HB).
  assert (Hz : canonical little zero_entry).
  { split; [done |]. split; [apply Forall_replicate; unfold int32, INT_MIN, INT_MAX; lia |].
    split; [by destruct little |]. split; [constructor | cbn; lia]. }
  set (e := set_word 0 (Z.lor 0 PRFREE) (set_word 3 fp zero_entry)).
  assert (He : canonical little e).
  { apply canonical_set; [by apply canonical_set; [| lia | |] | lia | done | split; vm_compute; discriminate]. }
  assert (Hnext : next e = fp) by reflexivity.
  pose proof (header_write_ok s (set_freePtr x) 8 x _ Hio ltac:(hpos) (sets_freePtr _) eq_refl) as HW.
  unfold mbind_ in HW |- *. unfold set_header in *. rewrite HW. cbn [Z.eqb negb].
  set (s1 := header_set (set_freePtr x) 8 x s).
  assert (HG1 : good s1).
  { apply header_set_good; [done | hpos | apply sets_freePtr | by apply (block_int s) | exact G4 | exact G5]. }
  rewrite write_entry_ok; [| exact Hio | apply Hbx]. cbn [Z.eqb negb]. exists (wrote little x e s1). set (s' := wrote _ _ _ _).
  assert (Hent : forall y, block (eof s) y -> ent little s' y = if decide (y = x) then e else ent little s y).
  { intros y Hy. unfold s'. rewrite wrote_ent by done. case_decide; [done |]. apply header_set_ent; [hpos | apply Hy]. }
  assert (Hon : only s s' [x]).
  { apply (only_trans s s1); [apply (only_weaken _ _ []); [apply header_only; [hpos | apply Z.le_refl | done | done] |] |].
    - intros y Hy. by apply not_elem_of_nil in Hy.
    - apply block_put_only; [done | by apply length_encode]. }
  split; [done |]. split; [split | done].
  - by apply wrote_good.
  - split.
    + split; [done |]. rewrite Hent, decide_True by done. rewrite Hnext. apply (links_frame _ _ _ _ HL).
      intros y Hy. rewrite Hent, decide_False; [done | congruence | by apply HB].
    + by constructor.
    + intros y [-> | Hy]%elem_of_cons; [done | by apply HB].
  - intros y [Hy Hne]%elem_of_difference. destruct (HU y Hy) as [B1 B2]. split; [done |].
    intros [-> | ?]%elem_of_cons; [| done]. by apply Hne, elem_of_singleton.
  - intros y Hy. rewrite elem_of_difference, elem_of_singleton, elem_of_cons.
    destruct (HA y Hy) as [? | ?]; [| tauto]. destruct (decide (y = x)); tauto.
Qed.

(** The store of blocks: AllocBlock succeeds while there is room, gives a
    block that is not in use, from the free list if it can, and FreeBlock gives
    the block to the free list; neither touches a block that stays in use, and
    every block of the file remains either in use or on the free list. *)
Theorem block_store s U F : store s U F ->
  (room s F -> exists x s', AllocBlock little s = Some (x, s') /\ x <> 0 /\ x ∉ U
     /\ (F <> [] -> F !! 0%nat = Some x /\ eof s' = eof s) /\ store s' ({[x]} ∪ U) (tail F)
     /\ forall y, y ∈ U -> ent little s' y = ent little s y)
  /\ (forall x, x ∈ U -> exists s', FreeBlock little x s = Some (PRSUCCESS, s')
     /\ store s' (U ∖ {[x]}) (x :: F) /\ eof s' = eof s
     /\ forall y, y ∈ U -> y <> x -> ent little s' y = ent little s y).
Proof.
  intros HS. split.
  - intros HR. destruct (alloc_ok s U F HS HR) as (x & s' & E & B & HxU & HS' & Hon & _). exists x, s'.
    split; [done |]. split; [by eapply block_nonzero |]. split; [done |].
    split; [| split; [done |]].
    2: { intros y Hy. apply (only_ent s s' []); [done | by apply (st_used _ _ _ HS) | apply not_elem_of_nil]. }
    intros HF. destruct F as [| z F]; [done |]. pose proof (fr_linked _ _ (st_freed _ _ _ HS)) as HL. cbn [linked] in HL.
    destruct HL as [HL _]. pose proof (fr_block _ _ (st_freed _ _ _ HS) z ltac:(left)) as Hz. revert E. unfold AllocBlock, mbind_, get_header.
    rewrite HL, (proj2 (Z.eqb_neq z 0)) by (by eapply block_nonzero). cbn [negb].
    rewrite read_entry_ok by apply HS. cbn [Z.eqb negb]. unfold set_header.
    rewrite pr_Write_ok; [| apply HS | by right]. cbn [Z.eqb negb]. intros [= <- <-]. done.
  - intros x Hx. destruct (free_ok s U F x HS Hx) as (s' & E & HS' & Ee & Hon). exists s'. split; [done |].
    split; [done |]. split; [done |]. intros y Hy Hne. apply (only_ent s s' [x]); [done | by apply (st_used _ _ _ HS) |].
    by rewrite list_elem_of_singleton.
Qed.
End store.

(** *** A small database *)

(** [n] blocks and empty tables. *)
Definition blank (n : Z) : st :=
  let e := HEADERSIZE + n * ENTRYSIZE in
  St (PrHeader 0 0 0 e (-200) 0 0 0 0 0 0 0 0 ∅ ∅) (put (put ∅ 12 (be_bytes e)) 16 (be_bytes (-200))) [].

Lemma byte_file_empty : byte_file ∅.
Proof. intros x. unfold byte. rewrite lookup_empty. cbn. lia. Qed.

Lemma blank_good n : 0 <= n < 1000 -> good (blank n).
Proof.
  intros Hn. unfold blank. split; cbn [io file cheader eofPtr].
  - done.
  - apply byte_file_put, byte_file_put, byte_file_empty.
  - set (h := PrHeader 0 0 0 0 0 0 0 0 0 0 0 0 0 ∅ ∅).
    change (PrHeader _ _ _ _ _ _ _ _ _ _ _ _ _ _ _) with (set_maxGroup (-200) (set_eofPtr (HEADERSIZE + n * ENTRYSIZE) h)).
    apply synced_put; [apply synced_put | hpos | apply sets_maxGroup | split; vm_compute; discriminate].
    + intros p Hp. assert (E : header_word h p = 0).
      { unfold header_word, bucket, h. cbn. rewrite !lookup_empty. cbn. by repeat match goal with |- context [if ?b then _ else _] => destruct b end. }
      rewrite E. reflexivity.
    + hpos.
    + apply sets_eofPtr.
    + unfold int32, INT_MIN, INT_MAX, HEADERSIZE, HASHSIZE, ENTRYSIZE. lia.
  - unfold INT_MAX, HEADERSIZE, HASHSIZE, ENTRYSIZE. lia.
  - unfold ENTRYSIZE. zdiv.
Qed.

Lemma empty_index {K} `{Countable K} little (c : kind K) s : (forall j, bucket (head c (cheader s)) j = 0) -> index little c s ∅.
Proof.
  intros Hb. exists (fun _ => []). split; [split |].
  - intros i _. apply Hb.
  - intros i x _ Hx. by apply not_elem_of_nil in Hx.
  - constructor.
  - intros a x. rewrite lookup_empty. split; [done |]. intros [Hx _]. by apply not_elem_of_nil in Hx.
Qed.

Lemma empty_tables little s : good s -> nameHash (cheader s) = ∅ -> idHash (cheader s) = ∅ -> tables little s ∅ ∅.
Proof.
  intros HG HN HI. split; [done | |]; apply empty_index; intros j; cbn [head by_id by_name]; unfold bucket;
    [rewrite HI | rewrite HN]; by rewrite lookup_empty.
Qed.

Lemma blank_store little n F : 0 <= n < 1000 -> F = [] ->
  store little (blank n) (list_to_set (map (fun k => HEADERSIZE + Z.of_nat k * ENTRYSIZE) (seq 0 (Z.to_nat n)))) F.
Proof.
  intros Hn ->. split.
  - by apply blank_good.
  - split; [done | constructor |]. intros x Hx. by apply not_elem_of_nil in Hx.
  - intros x Hx. split; [| apply not_elem_of_nil]. apply elem_of_list_to_set, list_elem_of_fmap in Hx as (k & -> & Hk%elem_of_seq).
    unfold block, eof, blank, ENTRYSIZE. cbn [cheader eofPtr]. zdiv.
  - intros x (B1 & B2 & B3). left. apply elem_of_list_to_set, list_elem_of_fmap. unfold eof, blank in B3. cbn [cheader eofPtr] in B3.
    exists (Z.to_nat ((x - HEADERSIZE) / ENTRYSIZE)). unfold ENTRYSIZE in *. split; [zdiv |]. apply elem_of_seq. zdiv.
Qed.

(** Two blocks in use: a user and a group. *)
Definition blockA : Z := HEADERSIZE.
Definition blockB : Z := HEADERSIZE + ENTRYSIZE.
Definition user7 : prentry := sample_entry 7 [117].
Definition group5 : prentry := set_word 0 PRGRP (sample_entry (-5) [103; 58; 104]).
Definition two : st := wrote true blockB group5 (wrote true blockA user7 (blank 2)).

Lemma sample_canonical little i nm : int32 i -> field_name nm -> canonical little (sample_entry i nm).
Proof.
  intros Hi Hn. apply canonical_set; [| lia | done | done]. split; [done |]. split; [apply Forall_replicate; split; vm_compute; discriminate |].
  split; [by destruct little | done].
Qed.

Lemma group5_canonical little : canonical little group5.
Proof.
  apply canonical_set; [apply sample_canonical | lia | done |]; [split; vm_compute; discriminate | | split; vm_compute; discriminate].
  split; [repeat constructor; lia | cbn; lia].
Qed.

Lemma user7_canonical little : canonical little user7.
Proof. apply sample_canonical; [split; vm_compute; discriminate |]. split; [repeat constructor; lia | cbn; lia]. Qed.

Lemma two_tables : tables true two ∅ ∅.
Proof.
  assert (B : forall x, x = blockA \/ x = blockB -> block (eof (blank 2)) x).
  { intros x [-> | ->]; unfold block, eof, blockA, blockB, blank, ENTRYSIZE; cbn [cheader eofPtr]; zdiv. }
  apply empty_tables; [| done | done]. apply wrote_good; [apply wrote_good; [by apply blank_good | apply B; by left | apply user7_canonical] | apply B; by right | apply group5_canonical].
Qed.

Definition demo_ops : list table_op :=
  [PutID 7 blockA; PutName [117] blockA; PutID (-5) blockB; AskID 7; AskID 8192; AskName [117]; DropID 7; AskID 7; AskID (-5)].

Lemma tables_refine_witness : exists s', table_run true demo_ops two
  = Some ([(0, None); (0, None); (0, None); (0, Some blockA); (0, None); (0, Some blockA); (0, Some blockA); (0, None); (0, Some blockB)], s').
Proof.
  edestruct (tables_refine true demo_ops two ∅ ∅ two_tables) as (s' & E & _); [| exists s'; exact E].
  repeat split; vm_compute; (reflexivity || discriminate || lia).
Defined.

Lemma block_store_witness : exists x s', AllocBlock true (blank 1) = Some (x, s') /\ x <> blockA
  /\ store true s' ({[x]} ∪ {[blockA]}) [].
Proof.
  assert (HS : store true (blank 1) {[blockA]} []).
  { replace {[blockA]} with (list_to_set (map (fun k => HEADERSIZE + Z.of_nat k * ENTRYSIZE) (seq 0 (Z.to_nat 1))) : gset Z) by reflexivity.
    by apply blank_store. }
  destruct (block_store true (blank 1) _ _ HS) as [HA _]. destruct HA as (x & s' & E & _ & Hx & _ & HS' & _).
  - right. vm_compute. discriminate.
  - exists x, s'. split; [exact E |]. split; [| exact HS']. intros ->. by apply Hx, elem_of_singleton.
Defined.

(** ** Identifiers *)

Definition id_start (flag : Z) (s : st) : Z :=
  if negb (Z.land flag PRGRP =? 0) then maxGroup (cheader s)
  else if negb (Z.land flag PRFOREIGN =? 0) then maxForeign (cheader s) else maxID (cheader s).
Definition id_step (flag : Z) : Z := if negb (Z.land flag PRGRP =? 0) then -1 else 1.

Section ids.
Context (little : bool).

Lemma next_id_ok s I N step : tables little s I N -> forall n a,
  (forall k, 1 <= k <= Z.of_nat n -> int32 (a + step * k) /\ bad_id (a + step * k) = false) ->
  (exists k, 1 <= k <= Z.of_nat n /\ I !! (a + step * k) = None /\ (forall j, 1 <= j < k -> I !! (a + step * j) <> None)
     /\ forall c, c <> 0 -> next_id little step a c n s = Some ((a + step * k, 0), s))
  \/ ((forall k, 1 <= k <= Z.of_nat n -> I !! (a + step * k) <> None)
     /\ forall c, c <> 0 -> exists r, next_id little step a c n s = Some ((a + step * Z.of_nat n, r), s) /\ r <> 0).
Proof.
  intros HT. induction n as [| n IH]; intros a Ha.
  - right. split; [lia |]. intros c Hc. exists c. split; [| done]. cbn [next_id]. unfold ret. do 3 f_equal. lia.
  - destruct (Ha 1 ltac:(lia)) as [Hi Hb]. rewrite Z.mul_1_r in Hi, Hb.
    assert (E : forall c, c <> 0 -> next_id little step a c (S n) s
       = next_id little step (a + step) (default 0 (I !! (a + step))) n s).
    { intros c Hc. cbn [next_id]. rewrite (proj2 (Z.eqb_neq c 0)) by done. rewrite s32_small by exact Hi.
      unfold mbind_. by rewrite (find_id little s I N) by done. }
    destruct (I !! (a + step)) as [x |] eqn:EI.
    + assert (Hx : x <> 0) by by eapply id_nonzero.
      destruct (IH (a + step)) as [(k & Hk & HN & Hj & HE) | [HN HE]].
      { intros k Hk. replace (a + step + step * k) with (a + step * (k + 1)) by lia. apply Ha. lia. }
      * left. exists (k + 1). replace (a + step * (k + 1)) with (a + step + step * k) by lia.
        split; [lia |]. split; [done |]. split; [| intros c Hc; rewrite E by done; by apply HE].
        intros j Hj'. destruct (decide (j = 1)) as [-> | Hne]; [rewrite Z.mul_1_r; congruence |].
        replace (a + step * j) with (a + step + step * (j - 1)) by lia. apply Hj. lia.
      * right. split.
        -- intros k Hk. destruct (decide (k = 1)) as [-> | Hne]; [rewrite Z.mul_1_r; congruence |].
           replace (a + step * k) with (a + step + step * (k - 1)) by lia. apply HN. lia.
        -- intros c Hc. rewrite E by done. replace (a + step * Z.of_nat (S n)) with (a + step + step * Z.of_nat n) by lia.
           by apply HE.
    + left. exists 1. rewrite Z.mul_1_r. split; [lia |]. split; [done |]. split; [lia |].
      intros c Hc. rewrite E by done. cbn [default]. by destruct n.
Qed.

(** A change of a word of the header that no chain depends on. *)
Lemma header_tables s f p v I N : tables little s I N -> header_pos p -> sets f p v -> int32 v ->
  (forall h, eofPtr (f h) = eofPtr h /\ nameHash (f h) = nameHash h /\ idHash (f h) = idHash h) ->
  tables little (header_set f p v s) I N.
Proof.
  intros [HG HI HN] Hp Hf Hv Hh. destruct (Hh (cheader s)) as (E1 & E2 & E3).
  assert (He : forall y, block (eof s) y -> ent little (header_set f p v s) y = ent little s y).
  { intros y Hy. apply header_set_ent; [done | apply Hy]. }
  split.
  - apply header_set_good; try done; rewrite E1; apply HG.
  - apply (index_keep little by_id s); [done | done | unfold eof; cbn [cheader header_set]; lia | | intros j; cbn; by rewrite E3 | apply hash_range].
    intros a y Hy. rewrite He; [done |]. by apply (index_block little by_id s I a y).
  - apply (index_keep little by_name s); [done | done | unfold eof; cbn [cheader header_set]; lia | | intros j; cbn; by rewrite E2 | apply hash_range].
    intros a y Hy. rewrite He; [done |]. by apply (index_block little by_name s N a y).
Qed.

Lemma alloc_id_ok s I N field set p step : tables little s I N -> header_pos p ->
  (forall v, sets (set v) p v) -> (forall v h, field (set v h) = v) ->
  (forall v h, eofPtr (set v h) = eofPtr h /\ nameHash (set v h) = nameHash h /\ idHash (set v h) = idHash h) ->
  (forall k, 1 <= k <= 50 -> int32 (field (cheader s) + step * k) /\ bad_id (field (cheader s) + step * k) = false) ->
  exists code aid s', alloc_id little field set p step s = Some ((code, aid), s') /\ tables little s' I N
  /\ ((code = PRSUCCESS /\ field (cheader s') = aid /\ exists k, 1 <= k <= 50 /\ aid = field (cheader s) + step * k
        /\ I !! aid = None /\ forall j, 1 <= j < k -> I !! (field (cheader s) + step * j) <> None)
     \/ (code = PRNOIDS /\ s' = s /\ forall k, 1 <= k <= 50 -> I !! (field (cheader s) + step * k) <> None)).
Proof.
  intros HT Hp Hs Hf Hh Hr. unfold alloc_id, mbind_ at 1, get_header. unfold mbind_ at 1.
  destruct (next_id_ok s I N step HT 50 (field (cheader s)) Hr) as [(k & Hk & HN & Hj & HE) | [HN HE]].
  - rewrite HE by done. cbn [Z.eqb negb]. set (a := field (cheader s) + step * k) in *.
    pose proof (header_write_ok s (set a) p a _ (g_io _ (t_good _ _ _ _ HT)) Hp (Hs a) eq_refl) as HW.
    unfold mbind_ in HW |- *. unfold set_header in *. rewrite HW. cbn [Z.eqb negb].
    exists PRSUCCESS, a, (header_set (set a) p a s). split; [done |].
    split; [apply header_tables; [done | done | done | by apply Hr | apply Hh] |].
    left. split; [done |]. split; [apply Hf |]. by exists k.
  - destruct (HE 1 ltac:(lia)) as (r & -> & Hr0). rewrite (proj2 (Z.eqb_neq r 0)) by done. cbn [negb].
    exists PRNOIDS, (field (cheader s) + step * Z.of_nat 50), s. split; [done |]. split; [done |]. right. done.
Qed.

(** AllocID ends after at most 50 look-ups whatever the database holds: it
    gives the nearest identifier past the counter of its kind, downward for
    groups and upward otherwise, that no entry has, and moves the counter to
    it; or, when the 50 next identifiers are all taken, says PRNOIDS and
    changes nothing. The tables stay as they were. *)
Theorem AllocID_bounded flag s I N : tables little s I N ->
  (forall k, 1 <= k <= 50 -> int32 (id_start flag s + id_step flag * k) /\ bad_id (id_start flag s + id_step flag * k) = false) ->
  exists code aid s', AllocID little flag s = Some ((code, aid), s') /\ tables little s' I N
  /\ ((code = PRSUCCESS /\ id_start flag s' = aid /\ exists k, 1 <= k <= 50 /\ aid = id_start flag s + id_step flag * k
        /\ I !! aid = None /\ forall j, 1 <= j < k -> I !! (id_start flag s + id_step flag * j) <> None)
     \/ (code = PRNOIDS /\ s' = s /\ forall k, 1 <= k <= 50 -> I !! (id_start flag s + id_step flag * k) <> None)).
Proof.
  intros HT Hr. unfold AllocID, id_start, id_step in *. destruct (negb (Z.land flag PRGRP =? 0)); [| destruct (negb (Z.land flag PRFOREIGN =? 0))].
  - apply alloc_id_ok; try done; [hpos | apply sets_maxGroup].
  - apply alloc_id_ok; try done; [hpos | apply sets_maxForeign].
  - apply alloc_id_ok; try done; [hpos | apply sets_maxID].
Qed.
End ids.

Lemma AllocID_bounded_witness : exists code aid s', AllocID true PRGRP two = Some ((code, aid), s') /\ code = PRSUCCESS /\ aid < -200.
Proof.
  destruct (AllocID_bounded true PRGRP two ∅ ∅ two_tables) as (code & aid & s' & E & _ & H).
  - intros k Hk. change (id_start PRGRP two + id_step PRGRP * k) with (-200 + -1 * k). split; [unfold int32, INT_MIN, INT_MAX; lia |].
    unfold bad_id, PRBADID. rewrite !(proj2 (Z.eqb_neq _ _)) by lia. done.
  - exists code, aid, s'. split; [exact E |]. destruct H as [(H1 & _ & k & Hk & Ha & _) | (_ & _ & H)].
    + split; [exact H1 |]. rewrite Ha. change (id_start PRGRP two + id_step PRGRP * k) with (-200 + -1 * k). lia.
    + destruct (H 1 ltac:(lia)). apply lookup_empty.
Defined.

(** ** A failed write *)

Section failure.
Context (little : bool).

(** Reading while the calls go well. *)
Lemma read_entry_zeros s x l : io s = 0 :: 0 :: l ->
  pr_ReadEntry little x s = Some ((0, ent little s x), St (cheader s) (file s) l).
Proof. intros H. unfold pr_ReadEntry, mbind_, ubik_call. by rewrite H. Qed.

(** RemoveFromIDHash does not look at the code of the write that unlinks an
    entry from the middle of its chain: when that write fails it still answers
    PRSUCCESS with the entry's block, so that its caller goes on to free the
    block, while nothing was written and the chain still leads to the block. *)
Theorem RemoveFromIDHash_ignores_write s aid x y c :
  io s = [0; 0; 0; 0; 0; 0; c] -> c <> 0 -> bad_id aid = false ->
  bucket (idHash (cheader s)) (IDHash aid) = y -> y <> 0 -> nextID (ent little s y) = x -> x <> 0 -> x <> y ->
  id (ent little s y) <> aid -> id (ent little s x) = aid -> HEADERSIZE + ENTRYSIZE <= eof s -> HEADERSIZE <= y ->
  exists s', RemoveFromIDHash little aid s = Some ((PRSUCCESS, Some x), s') /\ file s' = file s /\ cheader s' = cheader s
    /\ io s' = [] /\ FindByID little aid s' = Some (x, s').
Proof.
  intros Hio Hc Hb Hy Hy0 Hx Hx0 Hxy Hky Hkx He HyH.
  assert (Hf : exists n, chain_fuel (cheader s) = S (S n)).
  { exists (Z.to_nat ((eof s - HEADERSIZE) / ENTRYSIZE) - 1)%nat. unfold chain_fuel, eof in *.
    enough (1 <= (eofPtr (cheader s) - HEADERSIZE) / ENTRYSIZE) by lia. unfold ENTRYSIZE in *. zdiv. }
  destruct Hf as [n Hf]. set (s0 := St (cheader s) (file s) []).
  assert (Hhy : has_id aid (ent little s y) = false) by (apply Z.eqb_neq; congruence).
  assert (Hhx : has_id aid (ent little s x) = true) by (apply Z.eqb_eq; congruence).
  exists s0. split; [| repeat split].
  - unfold RemoveFromIDHash. fold (bad_id aid). rewrite Hb. unfold mbind_ at 1, get_header. rewrite Hy.
    unfold remove_chain, mbind_, get_header. rewrite (proj2 (Z.eqb_neq y 0)) by done.
    rewrite (read_entry_zeros s y [0; 0; 0; 0; c]) by done. cbn [Z.eqb negb]. rewrite Hf. cbn [trail_chain].
    rewrite Hhy. change nextID with (word 19) in Hx. rewrite Hx, (proj2 (Z.eqb_neq 0 y)), (proj2 (Z.eqb_neq x 0)) by congruence.
    unfold mbind_. rewrite (read_entry_zeros _ x [0; 0; c]) by done. cbn [Z.eqb negb].
    change (ent little {| cheader := cheader s; file := file s; io := [0; 0; 0; 0; c] |} x) with (ent little s x).
    rewrite Hhx. unfold ret. cbn [Z.eqb negb]. rewrite (proj2 (Z.eqb_neq x 0)), (proj2 (Z.eqb_neq y 0)) by done.
    rewrite (read_entry_zeros _ y [c]) by done. cbn [Z.eqb negb]. unfold pr_WriteEntry, pr_Write.
    rewrite (proj2 (Z.ltb_ge y HEADERSIZE)) by done. cbn [negb andb]. unfold mbind_, ubik_call. cbn [io].
    by rewrite (proj2 (Z.eqb_neq c 0)).
  - unfold FindByID. fold (bad_id aid). rewrite Hb. unfold mbind_, get_header. change (cheader s0) with (cheader s).
    rewrite Hy, Hf. cbn [find_chain]. rewrite (proj2 (Z.eqb_neq y 0)) by done. unfold mbind_.
    rewrite read_entry_ok by done. cbn [Z.eqb negb]. change (ent little s0) with (ent little s).
    rewrite Hhy, Hx, (proj2 (Z.eqb_neq y x)), (proj2 (Z.eqb_neq x 0)) by congruence.
    rewrite read_entry_ok by done. cbn [Z.eqb negb]. change (ent little s0) with (ent little s). by rewrite Hhx.
Qed.
End failure.

(** A chain of two: the user 7, behind 8198 which has the same bucket. *)
Definition chained : st :=
  let s := wrote true blockB (sample_entry 7 [117]) (wrote true blockA (set_word 19 blockB (sample_entry 8198 [118])) (blank 2)) in
  let s := header_set (set_idHash 7 blockA) (id_pos 7) blockA s in
  St (cheader s) (file s) [0; 0; 0; 0; 0; 0; 5].

Lemma RemoveFromIDHash_ignores_write_witness : exists s', RemoveFromIDHash true 7 chained = Some ((PRSUCCESS, Some blockB), s')
  /\ FindByID true 7 s' = Some (blockB, s').
Proof.
  destruct (RemoveFromIDHash_ignores_write true chained 7 blockB blockA 5) as (s' & E & _ & _ & _ & H);
    [vm_compute; (reflexivity || discriminate) .. | exists s'; split; [exact E | exact H]].
Defined.
