(* ===== verification/PtUtils.v ===== *)
(** The protection database: entries of users and groups, their lists of
    members and groups with the continuation blocks, their names and rights, as
    in src/ptserver/ptutils.c without SUPERGROUPS. [AddToEntry] and
    [DeleteEntry] give their code only, since no caller looks at the entry they
    were given afterwards. *)
From S2P Require Import Prelude Bytes UbikFile PtDb.

#[local] Open Scope ubik_scope.

Notation "'check*' c ':=' m 'orelse' r 'in' k" := (mbind_ m (fun c => if negb (c =? 0) then r else k))
  (at level 10, c name, m at level 100, r at level 100, k at level 200) : ubik_scope.

Definition PRCONT : Z := 4.
Definition PRINST : Z := 32.
Definition PRACCESS : Z := Z.shiftl 1 6.
Definition PRQUOTA : Z := Z.shiftl 1 7.
Definition PRP_STATUS_ANY : Z := Z.shiftl 128 16.
Definition PRP_STATUS_MEM : Z := Z.shiftl 64 16.
Definition PRP_OWNED_ANY : Z := Z.shiftl 32 16.
Definition PRP_MEMBER_ANY : Z := Z.shiftl 16 16.
Definition PRP_MEMBER_MEM : Z := Z.shiftl 8 16.
Definition PRP_ADD_ANY : Z := Z.shiftl 4 16.
Definition PRP_ADD_MEM : Z := Z.shiftl 2 16.
Definition PRP_REMOVE_MEM : Z := Z.shiftl 1 16.
Definition PRP_GROUP_DEFAULT : Z := Z.lor PRP_STATUS_ANY PRP_MEMBER_ANY.
Definition PRP_USER_DEFAULT : Z := PRP_STATUS_ANY.
Definition SYSVIEWERID : Z := -203.
Definition PR_MAXGROUPS : Z := 5000.

(** The server's settings: [pr_noAuth], [restricted], [pr_realmNameLen],
    [prp_user_default] and [prp_group_default]. *)
Record settings := Settings {
  pr_noAuth : bool; restricted : bool; pr_realmNameLen : Z; prp_user_default : Z; prp_group_default : Z
}.

(** ** Names *)

Definition COLON : Z := 58.
Definition AT : Z := 64.
Definition NEWLINE : Z := 10.

(** [strchr]: what is before the character, and the rest from it on. *)
Fixpoint strchr (c : Z) (s : list Z) : option (list Z * list Z) :=
  match s with
  | [] => None
  | x :: s' => if x =? c then Some ([], s) else option_map (fun '(a, b) => (x :: a, b)) (strchr c s')
  end.
Definition has_char (c : Z) (s : list Z) : bool := match strchr c s with Some _ => true | None => false end.
Definition strlen (s : list Z) : Z := Z.of_nat (length s).
(** [strcmp] gives 0. *)
Definition same_string (a b : list Z) : bool := bool_decide (a = b).

(** "system" and "system:authuser". *)
Definition system_prefix : list Z := [115; 121; 115; 116; 101; 109].
Definition AUTHUSER_GROUP : list Z := system_prefix ++ [58; 97; 117; 116; 104; 117; 115; 101; 114].

(** ** Raw entries

    An entry that is not converted, as bytes in network order. *)
Definition raw_word (k : nat) (b : list Z) : Z := s32 (be_val (take 4 (drop (4 * k) b))).
Definition raw_set (k : nat) (v : Z) (b : list Z) : list Z := take (4 * k) b ++ be_bytes v ++ drop (4 * k + 4) b.
Definition raw_name (b : list Z) : list Z := cstring (take 64 (drop 128 b)).

(** ** Lists of entries *)

Definition count : prentry -> Z := word 25.
Definition cellid : prentry -> Z := word 2.
Definition creator : prentry -> Z := word 22.
Definition set_entry (i : nat) (v : Z) (e : prentry) : prentry := set_word (9 + i) v e.
Definition co_flags (c : contentry) : Z := nth 0 c 0.
Definition co_id (c : contentry) : Z := nth 1 c 0.
Definition co_set_next (v : Z) (c : contentry) : contentry := <[3%nat := v]> c.
Definition co_set_entry (i : nat) (v : Z) (c : contentry) : contentry := <[(9 + i)%nat := v]> c.

(** Where a list of entries has [aid]: at an index, not before its end, or not
    in this block. *)
Inductive place := At (i : nat) | AtEnd | Nowhere.
Fixpoint find_entry (aid : Z) (l : list Z) (i : nat) : place :=
  match l with
  | [] => Nowhere
  | x :: l' => if x =? aid then At i else if x =? 0 then AtEnd else find_entry aid l' (S i)
  end.

Definition unused (x : Z) : bool := (x =? PRBADID) || (x =? 0).

Section host.
Context (little : bool) (now : Z) (conf : settings).

(** The walk of [RemoveFromEntry] through the continuation blocks; [hloc] is the
    block before, or 0, and [hentry] its contents. *)
Fixpoint remove_walk (aid bid temp : Z) (tentry : prentry) (hloc : Z) (hentry : contentry) (nptr : Z) (fuel : nat) : M Z :=
  match fuel with
  | O => crash
  | S fuel' =>
      if nptr =? 0 then ret PRNOENT
      else
        let* (code, centry) := pr_ReadCoEntry little nptr in
        if negb (code =? 0) then ret code
        else if negb (co_id centry =? bid) || (Z.land (co_flags centry) PRCONT =? 0) then ret PRDBBAD
        else
          match find_entry aid (co_entries centry) 0 with
          | AtEnd => ret PRNOENT
          | Nowhere => remove_walk aid bid temp tentry nptr centry (co_next centry) fuel'
          | At i =>
              let centry := co_set_entry i PRBADID centry in
              let finish (tentry : prentry) : M Z :=
                let tentry := set_word 25 (s32 (count tentry - 1)) tentry in
                check* code := pr_WriteEntry little temp tentry orelse ret PRDBFAIL in ret 0 in
              if forallb unused (co_entries centry) then
                if hloc =? 0 then
                  check* code := FreeBlock little nptr orelse ret code in
                  finish (set_word 3 (co_next centry) tentry)
                else
                  check* code := pr_WriteCoEntry little hloc (co_set_next (co_next centry) hentry) orelse ret code in
                  check* code := FreeBlock little nptr orelse ret code in
                  finish tentry
              else
                check* code := pr_WriteCoEntry little nptr centry orelse ret code in
                finish tentry
          end
  end.

Definition RemoveFromEntry (aid bid : Z) : M Z :=
  if aid =? bid then ret PRINCONSISTENT
  else
    let* temp := FindByID little bid in
    if temp =? 0 then ret PRNOENT
    else
      let* (code, tentry) := pr_ReadEntry little temp in
      if negb (code =? 0) then ret code
      else
        let tentry := set_word 6 now tentry in
        match find_entry aid (entries tentry) 0 with
        | At i =>
            let tentry := set_entry i PRBADID tentry in
            let tentry := set_word 25 (s32 (count tentry - 1)) tentry in
            check* code := pr_WriteEntry little temp tentry orelse ret code in ret PRSUCCESS
        | AtEnd => ret PRNOENT
        | Nowhere =>
            let* h := get_header in
            remove_walk aid bid temp tentry 0 [] (next tentry) (chain_fuel h)
        end.

(** A slot for a new entry: in the entry itself, or in a continuation block. *)
Inductive slot := NoSlot | InEntry (i : nat) | InBlock (cloc : Z) (i : nat).

(** The entry's own list: the last deleted slot, or else the end; [None] if
    [aid] is there. *)
Fixpoint first_slot (aid : Z) (l : list Z) (i : nat) (sl : slot) : option slot :=
  match l with
  | [] => Some sl
  | x :: l' =>
      if x =? aid then None
      else if x =? PRBADID then first_slot aid l' (S i) (InEntry i)
      else if x =? 0 then Some (match sl with NoSlot => InEntry i | _ => sl end)
      else first_slot aid l' (S i) sl
  end.

(** A continuation block's: the first. *)
Fixpoint block_slot (aid cloc : Z) (l : list Z) (i : nat) (sl : slot) : option slot :=
  match l with
  | [] => Some sl
  | x :: l' =>
      if x =? aid then None
      else
        let sl' := match sl with NoSlot => InBlock cloc i | _ => sl end in
        if x =? PRBADID then block_slot aid cloc l' (S i) sl'
        else if x =? 0 then Some sl' else block_slot aid cloc l' (S i) sl
  end.

(** The walk of [AddToEntry]: the code, and the last block with its contents,
    and the slot. *)
Fixpoint add_walk (aid last : Z) (nentry : contentry) (sl : slot) (nptr : Z) (fuel : nat)
  : M (Z * (Z * contentry * slot)) :=
  match fuel with
  | O => crash
  | S fuel' =>
      if nptr =? 0 then ret (0, (last, nentry, sl))
      else
        let* (code, nentry) := pr_ReadCoEntry little nptr in
        if negb (code =? 0) then ret (code, (last, nentry, sl))
        else if Z.land (co_flags nentry) PRCONT =? 0 then ret (PRDBFAIL, (nptr, nentry, sl))
        else
          match block_slot aid nptr (co_entries nentry) 0 sl with
          | None => ret (PRIDEXIST, (nptr, nentry, sl))
          | Some sl => add_walk aid nptr nentry sl (co_next nentry) fuel'
          end
  end.

(** A new continuation block. *)
Definition new_contentry (eid aid : Z) : contentry := <[9%nat := aid]> (<[1%nat := eid]> (<[0%nat := PRCONT]> (replicate 48 0))).

Definition AddToEntry (entry : prentry) (loc aid : Z) : M Z :=
  if id entry =? aid then ret PRINCONSISTENT
  else
    let entry := set_word 5 now entry in
    match first_slot aid (entries entry) 0 NoSlot with
    | None => ret PRIDEXIST
    | Some sl =>
        let* h := get_header in
        let* (code, found) := add_walk aid 0 [] sl (next entry) (chain_fuel h) in
        let '(last, nentry, sl) := found in
        if negb (code =? 0) then ret code
        else
          let counted (e : prentry) : prentry := set_word 25 (s32 (count e + 1)) e in
          match sl with
          | InEntry i =>
              check* code := pr_WriteEntry little loc (set_entry i aid (counted entry)) orelse ret code in
              ret PRSUCCESS
          | InBlock cloc i =>
              check* code := pr_WriteEntry little loc (counted entry) orelse ret code in
              let* (code, aentry) := pr_ReadCoEntry little cloc in
              if negb (code =? 0) then ret code
              else
                check* code := pr_WriteCoEntry little cloc (co_set_entry i aid aentry) orelse ret code in
                ret PRSUCCESS
          | NoSlot =>
              let* nptr := AllocBlock little in
              let finish (entry : prentry) : M Z :=
                check* code := pr_WriteCoEntry little nptr (new_contentry (id entry) aid) orelse ret code in
                pr_WriteEntry little loc (counted entry) in
              if negb (last =? 0) then
                check* code := pr_WriteCoEntry little last (co_set_next nptr nentry) orelse ret code in
                finish entry
              else finish (set_word 3 nptr entry)
          end
    end.
End host.

(** ** Lists for the callers *)

Section lists.
Context (little : bool) (grow : Z -> bool).

(** A list with the room that is allocated; [grow] tells whether an allocation
    succeeds. *)
Record prlist := PrList { prlist_val : list Z; cap : Z }.

Definition PRNOMEM : Z := 267280.

Definition AddToPRList (alist : prlist) (x : Z) : Z * prlist :=
  if cap alist <=? strlen (prlist_val alist) then
    let n := strlen (prlist_val alist) + 100 in
    if grow n then (0, PrList (prlist_val alist ++ [x]) n) else (PRNOMEM, alist)
  else (0, PrList (prlist_val alist ++ [x]) (cap alist)).

(** The entries of a block up to the first 0, but for the deleted ones. *)
Fixpoint collect (alist : prlist) (l : list Z) : Z * prlist :=
  match l with
  | [] => (0, alist)
  | x :: l' =>
      if x =? PRBADID then collect alist l'
      else if x =? 0 then (0, alist)
      else
        let '(code, alist) := AddToPRList alist x in
        if negb (code =? 0) then (code, alist) else collect alist l'
  end.

Fixpoint collect_blocks (alist : prlist) (nptr : Z) (fuel : nat) : M (Z * prlist) :=
  match fuel with
  | O => crash
  | S fuel' =>
      if nptr =? 0 then ret (0, alist)
      else
        let* (code, centry) := pr_ReadCoEntry little nptr in
        if negb (code =? 0) then ret (code, alist)
        else
          let '(code, alist) := collect alist (co_entries centry) in
          if negb (code =? 0) then ret (code, alist) else collect_blocks alist (co_next centry) fuel'
  end.

Definition AddAuthGroup (tentry : prentry) (alist : prlist) : Z * prlist :=
  if has_char AT (name tentry) then (PRSUCCESS, alist) else AddToPRList alist AUTHUSERID.

(** [qsort] with [IDCmp]. *)
Fixpoint insert_id (x : Z) (l : list Z) : list Z :=
  match l with
  | [] => [x]
  | y :: l' => if IDCmp x y <=? 0 then x :: l else y :: insert_id x l'
  end.
Definition sort_ids (l : list Z) : list Z := foldr insert_id [] l.

(** Additions one after the other, up to the first that fails. *)
Fixpoint add_each (adds : list (prlist -> Z * prlist)) (alist : prlist) : Z * prlist :=
  match adds with
  | [] => (0, alist)
  | f :: l => let '(code, alist) := f alist in if negb (code =? 0) then (code, alist) else add_each l alist
  end.

Definition GetList (tentry : prentry) (add : bool) : M (Z * list Z) :=
  let '(code, alist) := collect (PrList [] 0) (entries tentry) in
  if negb (code =? 0) then ret (code, prlist_val alist)
  else
    let* h := get_header in
    let* (code, alist) := collect_blocks alist (next tentry) (chain_fuel h) in
    if negb (code =? 0) then ret (code, prlist_val alist)
    else
      let own := fun l => AddToPRList l (id tentry) in
      let any := fun l => AddToPRList l ANYUSERID in
      let adds := if add then
          if negb (id tentry =? ANONYMOUSID) && negb (id tentry =? ANYUSERID) then [any; AddAuthGroup tentry; own] else [any; own]
        else [] in
      let '(code, alist) := add_each adds alist in
      if negb (code =? 0) then ret (code, prlist_val alist)
      else ret (PRSUCCESS, sort_ids (prlist_val alist)).

(** The groups that an entry owns, from [nxt] on; where it stopped, for the
    caller to go on from. *)
Fixpoint owned_walk (nxt : Z) (alist : prlist) (fuel : nat) : M (Z * Z * prlist) :=
  match fuel with
  | O => crash
  | S fuel' =>
      if nxt =? 0 then ret (PRSUCCESS, 0, PrList (sort_ids (prlist_val alist)) (cap alist))
      else
        let* (code, b) := pr_Read nxt 192 in
        if negb (code =? 0) then ret (code, nxt, alist)
        else
          let '(code, alist) := AddToPRList alist (raw_word 1 b) in
          if PR_MAXGROUPS <=? strlen (prlist_val alist) then ret (PRTOOMANY, nxt, alist)
          else if negb (code =? 0) then ret (code, nxt, alist)
          else owned_walk (raw_word 28 b) alist fuel'
  end.

Definition GetOwnedChain (nxt : Z) : M (Z * Z * prlist) :=
  let* h := get_header in owned_walk nxt (PrList [] 0) (chain_fuel h).
End lists.

Definition GetMax : M (Z * Z) := let* h := get_header in ret (maxID h, maxGroup h).

Definition SetMax (i flag : Z) : M Z :=
  if negb (Z.land flag PRGRP =? 0) then
    let* _ := set_header (set_maxGroup i) in
    check* code := pr_Write 16 true (be_bytes i) orelse ret code in ret PRSUCCESS
  else
    let* _ := set_header (set_maxID i) in
    check* code := pr_Write 20 true (be_bytes i) orelse ret code in ret PRSUCCESS.

(** [inc_header_word]. *)
Definition inc_header_word (field : prheader -> Z) (set : Z -> prheader -> prheader) (pos inc : Z) : M Z :=
  let* h := get_header in
  let v := s32 (field h + inc) in
  let* _ := set_header (set v) in pr_Write pos true (be_bytes v).

(** ** Identifiers of foreign users *)

Section foreign.
Context (little : bool).

Definition foreign_id (i cell : Z) : Z := Z.lor (s32 (Z.shiftl i 16)) cell.

Fixpoint next_foreign (cell i : Z) (fuel : nat) : M Z :=
  match fuel with
  | O => crash
  | S fuel' =>
      let* x := FindByID little (foreign_id i cell) in
      if x =? 0 then ret i
      else let i := i + 1 in if 65535 <? i then ret 0 else next_foreign cell i fuel'
  end.

(** The identifier, or 0, and the cell's group with its count of users. *)
Definition allocNextId (cellEntry : list Z) : M (Z * list Z) :=
  let cell := Z.land (raw_word 1 cellEntry) 65535 in
  let i := s32 (raw_word 24 cellEntry + 1) in
  let* i := next_foreign cell i (S (Z.to_nat (65536 - i))) in
  if i =? 0 then ret (0, cellEntry)
  else ret (foreign_id i cell, raw_set 24 i cellEntry).

Definition inRange (cellEntry : list Z) (aid : Z) : bool * list Z :=
  if negb (Z.land aid 65535 =? Z.land (raw_word 1 cellEntry) 65535) then (false, cellEntry)
  else
    let i := u32 (Z.shiftr aid 16) in
    (true, if u32 (raw_word 24 cellEntry) <? i then raw_set 24 i cellEntry else cellEntry).
End foreign.

(** ** Names and rights *)

Section server.
Context (little : bool) (now : Z) (conf : settings).

Definition CorrectUserName (s : list Z) : bool :=
  if has_char COLON s || has_char NEWLINE s then false
  else
    (* the difference is converted to an unsigned long *)
    let limit := PR_MAXNAMELEN - pr_realmNameLen conf - 1 in
    negb ((0 <=? limit) && (limit <=? strlen s)).

(** [IsAMemberOf] as a condition, looked at only if it matters. *)
Definition is_member (a b : Z) : M bool := let* r := IsAMemberOf little a b in ret (negb (r =? 0)).
Definition and_then (b : bool) (m : M bool) : M bool := if b then m else ret false.
Definition or_else (b : bool) (m : M bool) : M bool := if b then ret true else m.

(** The last check of a group's name. *)
Definition check_name (cname : list Z) : Z :=
  match strchr COLON cname with
  | Some (_, suffix) => if has_char NEWLINE cname || has_char COLON (tail suffix) then PRBADNAM else 0
  | None => if CorrectUserName cname then 0 else PRBADNAM
  end.

(** The name put together from the owner's prefix. *)
Definition group_name (admin : bool) (prefix aname : list Z) : Z * list Z :=
  if same_string prefix system_prefix && negb admin then (PRPERM, [])
  else
    match strchr COLON aname with
    | None => if admin then (check_name aname, aname) else (PRBADNAM, [])
    | Some (_, suffix) =>
        if PR_MAXNAMELEN <=? strlen prefix + strlen suffix then (PRBADNAM, [])
        else (check_name (prefix ++ suffix), prefix ++ suffix)
    end.

Definition CorrectGroupName (aname : list Z) (cid oid : Z) : M (Z * list Z) :=
  if PR_MAXNAMELEN <=? strlen aname then ret (PRBADNAM, [])
  else
    let* admin := or_else (pr_noAuth conf) (is_member cid SYSADMINID) in
    let oid := if oid =? 0 then cid else oid in
    if oid =? SYSADMINID then ret (group_name admin system_prefix aname)
    else
      let* loc := FindByID little oid in
      if loc =? 0 then
        if admin then ret (check_name aname, aname) else ret (PRNOENT, [])
      else
        let* (code, tentry) := pr_Read loc 192 in
        if negb (code =? 0) then ret (code, [])
        else if negb (Z.land (raw_word 0 tentry) PRGRP =? 0) then
          if (raw_word 25 tentry =? 0) && negb admin then ret (PRGROUPEMPTY, [])
          else
            let prefix := match strchr COLON (raw_name tentry) with Some (a, _) => a | None => raw_name tentry end in
            ret (group_name admin prefix aname)
        else ret (group_name admin (raw_name tentry) aname).

(** [tentry] is the object's flags, owner and identifier, or none. *)
Definition AccessOK (cid : Z) (tentry : option prentry) (mem any : Z) : M Z :=
  if pr_noAuth conf then ret 1
  else if cid =? SYSADMINID then ret 1
  else if restricted conf && ((mem =? PRP_ADD_MEM) || (mem =? PRP_REMOVE_MEM)) && (any =? 0) then ret 0
  else
    let '(fl, oid, aid) := match tentry with Some e => (flags e, owner e, id e) | None => (0, 0, 0) end in
    let fl :=
      if Z.land fl PRACCESS =? 0 then
        if negb (Z.land fl PRGRP =? 0) then Z.lor fl (prp_group_default conf) else Z.lor fl (prp_user_default conf)
      else fl in
    if negb (Z.land fl any =? 0) then ret 1
    else
      let* a := and_then (negb (oid =? 0)) (or_else (cid =? oid) (is_member cid oid)) in
      if a then ret 1
      else if (0 <? aid) && (aid =? cid) then ret 1
      else
        let* b := and_then ((aid <? 0) && negb (Z.land fl mem =? 0)) (is_member cid aid) in
        if b then ret 1
        else
          let* c := and_then ((mem =? PRP_STATUS_MEM) || (mem =? PRP_MEMBER_MEM) || (any =? PRP_OWNED_ANY))
                      (is_member cid SYSVIEWERID) in
          if c then ret 1
          else let* d := is_member cid SYSADMINID in ret (if d then 1 else 0).

(** *** Creating an entry

    The code, and the identifier. [aid] is what the caller asks for, which
    counts if [idflag]. *)

(** The quota of the group of a foreign cell, charged for one user. *)
Definition charge_cell (centry : list Z) : option (list Z) :=
  let centry := if Z.land (raw_word 0 centry) PRQUOTA =? 0
    then raw_set 23 30 (raw_set 0 (Z.lor (raw_word 0 centry) PRQUOTA) centry) else centry in
  let n := raw_word 23 centry in
  if (n <=? 0) && negb (pr_noAuth conf) then None else Some (raw_set 23 (s32 (n - 1)) centry).

(** The entry with its identifier written and put in the tables. *)
Definition enter (newEntry : Z) (aname : list Z) (tentry : prentry) (k : M Z) : M Z :=
  check* code := pr_WriteEntry little newEntry tentry orelse ret PRDBFAIL in
  check* code := AddToIDHash little (id tentry) newEntry orelse ret code in
  check* code := AddToNameHash little aname newEntry orelse ret code in k.

(** A foreign user joins the group of its cell, and the other way round. *)
Definition join_cell (cell aid : Z) : M Z :=
  let* pos := FindByID little cell in
  if pos =? 0 then ret PRBADNAM
  else
    let* (code, centry) := pr_ReadEntry little pos in
    if negb (code =? 0) then ret code
    else
      check* code := AddToEntry little now centry pos aid orelse ret code in
      let* pos := FindByID little aid in
      if pos =? 0 then ret PRBADNAM
      else
        let* (code, tentry) := pr_ReadEntry little pos in
        if negb (code =? 0) then ret code
        else check* code := AddToEntry little now tentry pos (cellid tentry) orelse ret code in ret PRSUCCESS.

Definition create_foreign (aname atsign : list Z) (aid : Z) (idflag : bool) (newEntry : Z) (tentry : prentry) (creat : Z)
  : M (Z * Z) :=
  let* (pos, _) := FindByName little (AUTHUSER_GROUP ++ atsign) in
  if pos =? 0 then ret (PRBADNAM, aid)
  else
    let* (code, centry) := pr_Read pos 192 in
    if negb (code =? 0) then ret (code, aid)
    else
      let tentry := set_word 2 (raw_word 1 centry) tentry in
      let* (tid, found) :=
        (if idflag then ret (aid, inRange centry aid)
         else let* (i, centry) := allocNextId little centry in ret (i, (negb (i =? 0), centry))) in
      let '(fine, centry) := found in
      if negb fine then ret (if idflag then PRBADARG else PRNOIDS, aid)
      else
        match charge_cell centry with
        | None => ret (PRNOMORE, aid)
        | Some centry =>
            let* _ := pr_Write pos false centry in
            let tentry := set_word 22 creat (set_word 1 tid tentry) in
            let* code := enter newEntry aname tentry
              (check* code := inc_header_word foreigncount set_foreigncount 44 1 orelse ret PRDBFAIL in
               join_cell (cellid tentry) tid) in
            ret (code, tid)
        end.

(** The creator of a group pays for it; [None] in the answer lets the creation
    go on. *)
Definition charge_creator (creat : Z) : M (option Z) :=
  let* loc := FindByID little creat in
  if loc =? 0 then ret None
  else
    let* (code, centry) := pr_Read loc 192 in
    if negb (code =? 0) then ret (Some code)
    else
      let centry := if Z.land (raw_word 0 centry) PRQUOTA =? 0
        then raw_set 24 20 (raw_set 23 20 (raw_set 0 (Z.lor (raw_word 0 centry) PRQUOTA) centry)) else centry in
      let* admin := or_else (creat =? SYSADMINID) (is_member creat SYSADMINID) in
      let n := raw_word 23 centry in
      if negb admin && (n <=? 0) && negb (pr_noAuth conf) then ret (Some PRNOMORE)
      else
        let centry := if negb admin && (0 <? n) then raw_set 23 (n - 1) centry else centry in
        check* code := pr_Write loc false centry orelse ret (Some code) in ret None.

(** The largest identifiers are remembered. *)
Definition remember_max (group : bool) (i : Z) : M Z :=
  let* h := get_header in
  if group then
    if i <? maxGroup h then let* _ := set_header (set_maxGroup i) in pr_Write 16 true (be_bytes i) else ret 0
  else
    if maxID h <? i then let* _ := set_header (set_maxID i) in pr_Write 20 true (be_bytes i) else ret 0.

(** What is left to do for an entry that has its identifier. *)
Definition create_local (aname : list Z) (aid oid creat : Z) (group : bool) (newEntry : Z) (tentry : prentry) : M (Z * Z) :=
  check* code := remember_max group (id tentry) orelse ret (PRDBFAIL, aid) in
  let* stop := (if group then charge_creator creat else ret None) in
  match stop with
  | Some code => ret (code, aid)
  | None =>
      let tentry := if group then tentry
        else set_word 24 20 (set_word 23 20 (set_word 0 (Z.lor (flags tentry) PRQUOTA) tentry)) in
      let tentry := set_word 22 creat tentry in
      let* code := enter newEntry aname tentry
        (check* code := (if group then AddToOwnerChain little (id tentry) oid else ret 0) orelse ret code in
         check* code := (if group then inc_header_word groupcount set_groupcount 40 1
                         else if negb (Z.land (flags tentry) PRINST =? 0) then inc_header_word instcount set_instcount 48 1
                         else inc_header_word usercount set_usercount 36 1) orelse ret PRDBFAIL in
         ret PRSUCCESS) in
      ret (code, id tentry)
  end.

Definition CreateEntry (aname : list Z) (aid : Z) (idflag : bool) (flag oid creat : Z) : M (Z * Z) :=
  let oid := if (oid =? 0) || (oid =? ANONYMOUSID) then creat else oid in
  let group := negb (Z.land flag PRGRP =? 0) in
  let* code :=
    (if group then
       let* (code, cname) := CorrectGroupName aname creat oid in
       if negb (code =? 0) then ret code else ret (if same_string aname cname then 0 else PRBADNAM)
     else ret (if CorrectUserName aname then 0 else PRBADNAM)) in
  if negb (code =? 0) then ret (code, aid)
  else
    let* (there, _) := FindByName little aname in
    if negb (there =? 0) then ret (PREXIST, aid)
    else
      let* newEntry := AllocBlock little in
      if newEntry =? 0 then ret (PRDBFAIL, aid)
      else if negb group && negb (flag =? 0) then ret (PRBADARG, aid)
      else
        let tentry := set_word 4 now (PrEntry (replicate 32 0) aname) in
        let tentry := if group then set_word 21 oid (set_word 0 PRGRP tentry) else set_word 21 SYSADMINID tentry in
        let pick (k : prentry -> M (Z * Z)) : M (Z * Z) :=
          if idflag then k (set_word 1 aid tentry)
          else
            let* (code, i) := AllocID little flag in
            if negb (code =? PRSUCCESS) then ret (code, aid) else k (set_word 1 i tentry) in
        match strchr AT aname with
        | None => pick (create_local aname aid oid creat group newEntry)
        | Some (before, atsign) =>
            if group then
              if same_string AUTHUSER_GROUP before then pick (create_local aname aid oid creat group newEntry)
              else ret (PRBADNAM, aid)
            else create_foreign aname atsign aid idflag newEntry tentry creat
        end.

(** *** Deleting an entry *)

(** The entry leaves every list that [l] names. *)
Fixpoint leave_all (aid : Z) (l : list Z) : M Z :=
  match l with
  | [] => ret 0
  | x :: l' =>
      if x =? PRBADID then leave_all aid l'
      else if x =? 0 then ret 0
      else check* code := RemoveFromEntry little now aid x orelse ret code in leave_all aid l'
  end.

Fixpoint leave_blocks (aid nptr : Z) (fuel : nat) : M Z :=
  match fuel with
  | O => crash
  | S fuel' =>
      if nptr =? 0 then ret 0
      else
        let* (code, centry) := pr_ReadCoEntry little nptr in
        if negb (code =? 0) then ret PRDBFAIL
        else
          check* code := leave_all aid (co_entries centry) orelse ret code in
          check* code := FreeBlock little nptr orelse ret code in
          leave_blocks aid (co_next centry) fuel'
  end.

(** Adding one to a raw entry's quota. *)
Definition refund (b : list Z) : list Z := raw_set 23 (s32 (raw_word 23 b + 1)) b.

(** The change of the raw entry of [aid], if there is one. *)
Definition update_raw (aid : Z) (f : list Z -> M (list Z)) : M Z :=
  let* loc := FindByID little aid in
  if loc =? 0 then ret 0
  else
    let* (code, b) := pr_Read loc 192 in
    if negb (code =? 0) then ret code
    else let* b := f b in pr_Write loc false b.

Definition DeleteEntry (tentry : prentry) (loc : Z) : M Z :=
  let group := negb (Z.land (flags tentry) PRGRP =? 0) in
  let foreign := has_char AT (name tentry) in
  let* code :=
    (if foreign then
       if group then ret (if count tentry =? 0 then 0 else PRBADARG)
       else update_raw (cellid tentry) (fun b => ret (if Z.land (raw_word 0 b) PRQUOTA =? 0 then b else refund b))
     else ret 0) in
  if negb (code =? 0) then ret code
  else
    check* code := leave_all (id tentry) (entries tentry) orelse ret code in
    let* h := get_header in
    check* code := leave_blocks (id tentry) (next tentry) (chain_fuel h) orelse ret code in
    check* code := (if group then
        if negb (owner tentry =? 0) then RemoveFromOwnerChain little (id tentry) (owner tentry)
        else RemoveFromOrphan little (id tentry)
      else ret 0) orelse ret code in
    let* (code, l1) := RemoveFromIDHash little (id tentry) in
    if negb (code =? PRSUCCESS) then ret code
    else
      let* (code, l2) := RemoveFromNameHash little (name tentry) in
      if negb (code =? PRSUCCESS) then ret code
      else
        (* [loc] is what the last removal that found the entry says *)
        let loc := default (default loc l1) l2 in
        check* code := (if group then
            update_raw (creator tentry) (fun b =>
              let* admin := or_else (creator tentry =? SYSADMINID) (is_member (creator tentry) SYSADMINID) in
              ret (if Z.land (raw_word 0 b) PRQUOTA =? 0 then b
                   else if admin && (20 <=? raw_word 23 b) then b else refund b))
          else ret 0) orelse ret code in
        check* code := (if group then inc_header_word groupcount set_groupcount 40 (-1)
          else if negb (Z.land (flags tentry) PRINST =? 0) then inc_header_word instcount set_instcount 48 (-1)
          else if foreign then inc_header_word foreigncount set_foreigncount 44 (-1)
          else inc_header_word usercount set_usercount 36 (-1)) orelse ret PRDBFAIL in
        FreeBlock little loc.

(** *** Changing an entry

    Its identifier, its owner and its name; the references from the lists of
    members and groups follow. *)

Fixpoint rejoin_all (aid newid : Z) (l : list Z) : M Z :=
  match l with
  | [] => ret 0
  | x :: l' =>
      if x =? PRBADID then rejoin_all aid newid l'
      else if x =? 0 then ret 0
      else
        let* pos := FindByID little x in
        if pos =? 0 then ret PRDBFAIL
        else
          check* code := RemoveFromEntry little now aid x orelse ret code in
          let* (code, tent) := pr_ReadEntry little pos in
          if negb (code =? 0) then ret code
          else check* code := AddToEntry little now tent pos newid orelse ret code in rejoin_all aid newid l'
  end.

Fixpoint rejoin_blocks (aid newid nptr : Z) (fuel : nat) : M Z :=
  match fuel with
  | O => crash
  | S fuel' =>
      if nptr =? 0 then ret 0
      else
        let* (code, centry) := pr_ReadCoEntry little nptr in
        if negb (code =? 0) then ret code
        else
          check* code := rejoin_all aid newid (co_entries centry) orelse ret code in
          rejoin_blocks aid newid (co_next centry) fuel'
  end.

(** The code, the entry and its block. *)
Definition change_id (aid cid newid : Z) (tentry : prentry) (loc : Z) : M (Z * (prentry * Z)) :=
  let* admin := is_member cid SYSADMINID in
  if negb admin && negb (pr_noAuth conf) then ret (PRPERM, (tentry, loc))
  else
    let* pos := FindByID little newid in
    if negb (pos =? 0) then ret (PRIDEXIST, (tentry, loc))
    else if ((aid <? 0) && (0 <? newid)) || ((0 <? aid) && (newid <? 0)) then ret (PRPERM, (tentry, loc))
    else
      let* (code, l) := RemoveFromIDHash little aid in
      if negb (code =? PRSUCCESS) then ret (code, (tentry, loc))
      else
        let loc := default loc l in
        let tentry := set_word 1 newid tentry in
        check* code := pr_WriteEntry little loc tentry orelse ret (code, (tentry, loc)) in
        check* code := AddToIDHash little newid loc orelse ret (code, (tentry, loc)) in
        let* (code, tentry) := pr_ReadEntry little loc in
        if negb (code =? 0) then ret (PRDBFAIL, (tentry, loc))
        else
          check* code := rejoin_all aid newid (entries tentry) orelse ret (code, (tentry, loc)) in
          let* h := get_header in
          let* code := rejoin_blocks aid newid (next tentry) (chain_fuel h) in
          ret (code, (tentry, loc)).

(** The name given is the entry's own if it is empty. *)
Definition change_owner (oid : Z) (foreign : bool) (aname : list Z) (tentry : prentry) (loc : Z)
  : M (Z * (prentry * bool)) :=
  if Z.land (flags tentry) PRGRP =? 0 then ret (PRPERM, (tentry, false))
  else if foreign then ret (PRPERM, (tentry, false))
  else
    let oldowner := owner tentry in
    let tentry := set_word 21 oid tentry in
    check* code := pr_WriteEntry little loc tentry orelse ret (PRDBFAIL, (tentry, false)) in
    check* code := (if negb (oldowner =? 0) then RemoveFromOwnerChain little (id tentry) oldowner
                    else RemoveFromOrphan little (id tentry)) orelse ret (code, (tentry, false)) in
    check* code := AddToOwnerChain little (id tentry) oid orelse ret (code, (tentry, false)) in
    let* (code, tentry) := pr_ReadEntry little loc in
    if negb (code =? 0) then ret (PRDBFAIL, (tentry, false)) else ret (0, (tentry, bool_decide (aname = []))).

(** The name to store, or the code; [None] if nothing is left to do. [own]
    tells that the name is the entry's own. *)
Definition new_name (aname : list Z) (own : bool) (cid : Z) (atsign : option (list Z)) (tentry : prentry)
  : M (Z * option (list Z)) :=
  if negb (Z.land (flags tentry) PRGRP =? 0) then
    match atsign with
    | Some _ => ret (PRPERM, None)
    | None =>
        let* (code, cname) := CorrectGroupName (if own then name tentry else aname) cid (owner tentry) in
        if negb (code =? 0) then ret (code, None)
        else if own then ret (0, if same_string (name tentry) cname then None else Some cname)
        else if same_string aname cname then ret (0, Some aname) else ret (PRBADNAM, None)
    end
  else
    let newat := option_map snd (strchr AT aname) in
    if negb (bool_decide (newat = atsign)) then ret (PRPERM, None)
    else if CorrectUserName aname then ret (0, Some aname) else ret (PRBADNAM, None).

Definition change_name (aname : list Z) (own : bool) (cid : Z) (atsign : option (list Z)) (tentry : prentry) (loc : Z) : M Z :=
  let* (code, nm) := new_name aname own cid atsign tentry in
  if negb (code =? 0) then ret code
  else
    match nm with
    | None => ret PRSUCCESS
    | Some nm =>
        let* (pos, _) := FindByName little nm in
        if negb (pos =? 0) then ret PREXIST
        else
          let* (code, l) := RemoveFromNameHash little (name tentry) in
          if negb (code =? PRSUCCESS) then ret code
          else
            let loc := default loc l in
            check* code := pr_WriteEntry little loc (PrEntry (words tentry) nm) orelse ret PRDBFAIL in
            check* code := AddToNameHash little nm loc orelse ret code in ret PRSUCCESS
    end.

Definition ChangeEntry (aid cid : Z) (aname : list Z) (oid newid : Z) : M Z :=
  let* loc := FindByID little aid in
  if loc =? 0 then ret PRNOENT
  else
    let* (code, tentry) := pr_ReadEntry little loc in
    if negb (code =? 0) then ret PRDBFAIL
    else
      let* admin := or_else (negb (restricted conf)) (is_member cid SYSADMINID) in
      if negb admin then ret PRPERM
      else
        let* fine := or_else (owner tentry =? cid) (is_member cid SYSADMINID) in
        let* fine := or_else fine (is_member cid (owner tentry)) in
        if negb fine && negb (pr_noAuth conf) then ret PRPERM
        else
          let tentry := set_word 7 now tentry in
          let* (code, found) := (if negb (newid =? 0) && negb (newid =? aid) then change_id aid cid newid tentry loc
                                 else ret (0, (tentry, loc))) in
          let '(tentry, loc) := found in
          if negb (code =? 0) then ret code
          else
            let atsign := option_map snd (strchr AT (name tentry)) in
            let* (code, found) := (if negb (oid =? 0) && negb (oid =? owner tentry)
                then change_owner oid (has_char AT (name tentry)) aname tentry loc else ret (0, (tentry, false))) in
            let '(tentry, own) := found in
            if negb (code =? 0) then ret code
            else if own || (negb (bool_decide (aname = [])) && negb (same_string (name tentry) aname))
              then change_name aname own cid atsign tentry loc
            else ret PRSUCCESS.
End server.
