(* ===== verification/PtGroups.v ===== *)
(** The protection database, lists of members and groups: [AddToEntry] and
    [RemoveFromEntry] add to and take from a set, kept in the slots of an entry
    and of its continuation blocks, and [IsAMemberOf] asks the set. *)
From S2P Require Import Prelude Bytes UbikFile PtDb PtSpec PtOps PtUtils.

#[local] Open Scope ubik_scope.

(** ** Continuation blocks on file *)

Section blocks.
Context (little : bool).

Definition co (s : st) (x : Z) : contentry := decode_co little (file s) x.

Definition canonical_co (c : contentry) : Prop :=
  length c = 48%nat /\ Forall int32 c /\ reserve_co little c = c.

Lemma reserve_co_lookup c i : length c = 48%nat ->
  reserve_co little c !! i = if decide (little = true /\ (4 <= i < 9)%nat) then Some 0 else c !! i.
Proof.
  intros HL. unfold reserve_co. destruct little; [| rewrite decide_False; [done | by intros [? _]]]. cbv iota.
  assert (HT : length (take 4 c) = 4%nat) by (rewrite length_take; lia).
  destruct (decide (i < 4)%nat) as [H1 | H1].
  { rewrite lookup_app_l by lia. rewrite lookup_take_lt by lia. rewrite decide_False; [done | lia]. }
  rewrite lookup_app_r by lia. rewrite HT. destruct (decide (i < 9)%nat) as [H2 | H2].
  - rewrite lookup_app_l by (rewrite length_replicate; lia). rewrite decide_True by (split; [done | lia]).
    apply lookup_replicate_2. lia.
  - rewrite lookup_app_r by (rewrite length_replicate; lia). rewrite length_replicate, lookup_drop.
    rewrite decide_False by lia. f_equal. lia.
Qed.

Lemma length_reserve_co c : length c = 48%nat -> length (reserve_co little c) = 48%nat.
Proof.
  intros HL. unfold reserve_co. destruct little; [| done].
  rewrite !length_app, length_take, length_replicate, length_drop. lia.
Qed.

Lemma length_encode_co c : canonical_co c -> length (encode_co little c) = 192%nat.
Proof.
  intros (HL & _ & HR). unfold encode_co. rewrite HR. change 192%nat with (4 * 48)%nat. rewrite <- HL.
  generalize c. clear. induction c as [| w l IH]; [done |]. cbn [map concat]. rewrite length_app, IH, length_be_bytes. cbn [length]. lia.
Qed.

Lemma decode_co_put m a c : canonical_co c -> decode_co little (put m a (encode_co little c)) a = c.
Proof.
  intros Hc. pose proof (length_encode_co c Hc) as HLE. destruct Hc as (HL & HI & HR). unfold decode_co.
  assert (HB : Forall (fun b => 0 <= b < 256) (encode_co little c)).
  { unfold encode_co. apply Forall_concat, Forall_fmap, Forall_true. intros w. apply be_bytes_range. }
  pose proof (bytes_put m a _ HB) as E. rewrite HLE in E. unfold encode_co in E at 2. rewrite HR in E.
  rewrite <- HL, get_words_image; [done | done |]. by rewrite HL.
Qed.

Lemma decode_co_ext m m' a : (forall x, a <= x < a + 192 -> byte m' x = byte m x) -> decode_co little m' a = decode_co little m a.
Proof. intros H. unfold decode_co. by rewrite (get_words_ext m m') by (intros x Hx; apply H; lia). Qed.

Lemma int32_zero : int32 0.
Proof. split; vm_compute; discriminate. Qed.

Lemma canonical_decode_co m a : canonical_co (decode_co little m a).
Proof.
  assert (Hl : length (get_words m a 48) = 48%nat) by (unfold get_words; by rewrite length_map, length_seq).
  assert (Hi : Forall int32 (get_words m a 48)).
  { unfold get_words. apply Forall_fmap, Forall_true. intros k. apply s32_range. }
  unfold decode_co. split; [by apply length_reserve_co | split].
  - apply Forall_lookup. intros i x. rewrite reserve_co_lookup by done. case_decide.
    + intros [= <-]. apply int32_zero.
    + by apply Forall_lookup.
  - apply list_eq. intros i. rewrite !reserve_co_lookup by (by repeat apply length_reserve_co). by case_decide.
Qed.

Lemma canonical_co_set i v c : canonical_co c -> ~ (4 <= i < 9)%nat -> int32 v -> canonical_co (<[i := v]> c).
Proof.
  intros (HL & HI & HR) Hi Hv. split; [by rewrite length_insert | split; [by apply Forall_insert |]].
  apply list_eq. intros j. rewrite reserve_co_lookup by (by rewrite length_insert). case_decide as E; [| done].
  rewrite list_lookup_insert_ne by lia. rewrite <- HR, reserve_co_lookup by done. by rewrite decide_True.
Qed.

Lemma new_contentry_canonical e a : int32 e -> int32 a -> canonical_co (new_contentry e a).
Proof.
  intros He Ha. unfold new_contentry. repeat apply canonical_co_set; try done; try lia.
  split; [done | split; [apply Forall_replicate, int32_zero |]]. by destruct little.
Qed.

(** The state after a continuation block is written. *)
Definition wrote_co (x : Z) (c : contentry) (s : st) : st := St (cheader s) (put (file s) x (encode_co little c)) (io s).

Lemma read_co_ok s x : io s = [] -> pr_ReadCoEntry little x s = Some ((0, co s x), s).
Proof. intros H. unfold pr_ReadCoEntry, mbind_. rewrite !ubik_call_ok by done. cbn. by rewrite !ubik_call_ok by done. Qed.

Lemma write_co_ok s x c : io s = [] -> HEADERSIZE <= x -> pr_WriteCoEntry little x c s = Some (0, wrote_co x c s).
Proof. intros H Hx. unfold pr_WriteCoEntry. rewrite pr_Write_ok; [done | done | by left]. Qed.

Lemma wrote_co_good s x c : good s -> block (eof s) x -> good (wrote_co x c s).
Proof.
  intros [G1 G2 G3 G4 G5] (Hx & _). split; cbn [cheader file io wrote_co]; try done;
    [by apply byte_file_put | by apply synced_put_far].
Qed.

Lemma only_co s s' B y : only s s' B -> block (eof s) y -> y ∉ B -> co s' y = co s y.
Proof. intros HO Hy Hn. apply decode_co_ext. intros z Hz. by apply (on_bytes _ _ _ HO y z). Qed.

Lemma wrote_only s x e : block (eof s) x -> canonical little e -> only s (wrote little x e s) [x].
Proof. intros Hx He. apply block_put_only; [done | by apply length_encode]. Qed.

Lemma wrote_co_only s x c : block (eof s) x -> canonical_co c -> only s (wrote_co x c s) [x].
Proof. intros Hx He. apply block_put_only; [done | by apply length_encode_co]. Qed.

Lemma wrote_ent_at s x e : canonical little e -> ent little (wrote little x e s) x = e.
Proof. intros He. by apply decode_put. Qed.

Lemma wrote_co_at s x c : canonical_co c -> co (wrote_co x c s) x = c.
Proof. intros He. by apply decode_co_put. Qed.

(** A write to a block in use keeps the store. *)
Lemma only_store s s' U F x : store little s U F -> good s' -> only s s' [x] -> eof s' = eof s ->
  freePtr (cheader s') = freePtr (cheader s) -> x ∈ U -> store little s' U F.
Proof.
  intros [HG HF HU HA] HG' HO He Hf Hx. assert (HxF : x ∉ F) by by apply HU.
  split; [done | | rewrite He; exact HU | rewrite He; exact HA].
  apply (freed_frame little s); [done | done | lia |]. intros y Hy.
  rewrite (only_ent little s s' [x]); [done | done | by apply (fr_block _ _ _ HF) |]. rewrite list_elem_of_singleton. by intros ->.
Qed.

Lemma wrote_store s U F x e : store little s U F -> x ∈ U -> canonical little e -> store little (wrote little x e s) U F.
Proof.
  intros HS Hx He. pose proof (proj1 (st_used _ _ _ _ HS x Hx)) as Hb.
  apply (only_store s _ U F x); try done; [apply wrote_good; [apply HS | done | done] | by apply wrote_only].
Qed.

Lemma wrote_co_store s U F x c : store little s U F -> x ∈ U -> canonical_co c -> store little (wrote_co x c s) U F.
Proof.
  intros HS Hx He. pose proof (proj1 (st_used _ _ _ _ HS x Hx)) as Hb.
  apply (only_store s _ U F x); try done; [apply wrote_co_good; [apply HS | done] | by apply wrote_co_only].
Qed.
End blocks.

(** ** Slots

    The slots of an entry and its blocks in order: identifiers, and deleted
    ones among them, then zeros. *)

Definition closed (l : list Z) : Prop :=
  forall i j x, (i < j)%nat -> l !! i = Some 0 -> l !! j = Some x -> x = 0.

(** The identifiers that are there. *)
Definition live (l : list Z) : list Z := filter (fun x => unused x = false) l.

Lemma unused_cases x : unused x = true <-> x = PRBADID \/ x = 0.
Proof. unfold unused. rewrite orb_true_iff, !Z.eqb_eq. done. Qed.

Lemma used_cases x : unused x = false <-> x <> PRBADID /\ x <> 0.
Proof. unfold unused. rewrite orb_false_iff, !Z.eqb_neq. done. Qed.

Lemma live_app l1 l2 : live (l1 ++ l2) = live l1 ++ live l2.
Proof. apply filter_app. Qed.

Lemma live_none l : forallb unused l = true -> live l = [].
Proof.
  induction l as [| x l IH]; [done |]. cbn [forallb]. intros [Hx Hl]%andb_prop. unfold live. rewrite filter_cons_False by congruence. by apply IH.
Qed.

Lemma elem_of_live x l : x ∈ live l <-> x ∈ l /\ unused x = false.
Proof. unfold live. rewrite list_elem_of_filter. tauto. Qed.

Lemma live_insert l j v a : l !! j = Some v -> unused v = true -> unused a = false -> live (<[j := a]> l) ≡ₚ a :: live l.
Proof.
  intros Hj Hv Ha. rewrite insert_take_drop by (by eapply lookup_lt_Some).
  assert (EL : live l = live (take j l) ++ live (drop (S j) l)).
  { rewrite <- (take_drop_middle l j v Hj) at 1. rewrite live_app. f_equal. unfold live. by rewrite filter_cons_False by congruence. }
  assert (EA : live (a :: drop (S j) l) = a :: live (drop (S j) l)) by (unfold live; by rewrite filter_cons_True).
  rewrite EL, live_app, EA. by rewrite Permutation_middle.
Qed.

Lemma closed_insert l j v a : closed l -> l !! j = Some v -> (v = 0 -> forall i, (i < j)%nat -> l !! i <> Some 0) ->
  a <> 0 -> closed (<[j := a]> l).
Proof.
  intros HC Hj H0 Ha p q x Hpq Hp Hq. destruct (decide (p = j)) as [-> | Hpj].
  { rewrite list_lookup_insert_eq in Hp by (by eapply lookup_lt_Some). congruence. }
  rewrite list_lookup_insert_ne in Hp by done. destruct (decide (q = j)) as [-> | Hqj].
  - pose proof (HC p j v Hpq Hp Hj) as ->. by destruct (H0 eq_refl p Hpq).
  - rewrite list_lookup_insert_ne in Hq by done. by apply (HC p q).
Qed.

Lemma closed_app_l l1 l2 : closed (l1 ++ l2) -> closed l1.
Proof. intros HC i j x Hij Hi Hj. apply (HC i j x Hij); by apply lookup_app_l_Some. Qed.

Lemma closed_app_r l1 l2 : closed (l1 ++ l2) -> closed l2.
Proof.
  intros HC i j x Hij Hi Hj. apply (HC (length l1 + i)%nat (length l1 + j)%nat x); [lia | |];
    rewrite lookup_app_r by lia; by rewrite Nat.add_comm, Nat.add_sub.
Qed.

Lemma closed_middle l1 e l2 : closed (l1 ++ e ++ l2) -> closed (l1 ++ l2).
Proof.
  intros HC. set (f i := if decide (i < length l1)%nat then i else (i + length e)%nat).
  assert (Hf : forall i, (l1 ++ l2) !! i = (l1 ++ e ++ l2) !! f i).
  { intros i. unfold f. case_decide as E; [by rewrite !lookup_app_l |].
    rewrite (lookup_app_r l1 l2), (lookup_app_r l1 (e ++ l2)), (lookup_app_r e l2) by lia. f_equal. lia. }
  intros i j x Hij Hi Hj. rewrite Hf in Hi, Hj. apply (HC (f i) (f j)); try done. unfold f. repeat case_decide; lia.
Qed.

(** After a 0 there are only zeros. *)
Lemma closed_tail l k r a : closed (l ++ r) -> l !! k = Some 0 -> (forall k', (k' < k)%nat -> l !! k' <> Some a) ->
  a <> 0 -> a ∉ l ++ r.
Proof.
  intros HC Hk Hb Ha [j Hj]%list_elem_of_lookup. pose proof (lookup_lt_Some _ _ _ Hk) as Hl.
  destruct (decide (j < k)%nat) as [H1 | H1]; [rewrite lookup_app_l in Hj by lia; by apply (Hb j) |].
  assert (Hk' : (l ++ r) !! k = Some 0) by by apply lookup_app_l_Some.
  destruct (decide (j = k)) as [-> | H2]; [congruence |]. by apply Ha, (HC k j a ltac:(lia)).
Qed.

Lemma find_entry_spec aid l : unused aid = false -> forall i,
  match find_entry aid l i with
  | At j => exists k, j = (i + k)%nat /\ l !! k = Some aid
  | AtEnd => exists k, l !! k = Some 0 /\ forall k', (k' < k)%nat -> l !! k' <> Some aid
  | Nowhere => aid ∉ l /\ 0 ∉ l
  end.
Proof.
  intros Ha. induction l as [| x l IH]; intros i; cbn [find_entry]; [split; apply not_elem_of_nil |].
  destruct (Z.eqb_spec x aid) as [-> | Hx]; [by exists 0%nat; split; [lia |] |].
  destruct (Z.eqb_spec x 0) as [-> | Hx0]; [exists 0%nat; split; [done | lia] |].
  specialize (IH (S i)). destruct (find_entry aid l (S i)) as [j | |].
  - destruct IH as (k & -> & Hk). exists (S k). split; [lia | done].
  - destruct IH as (k & Hk & Hb). exists (S k). split; [done |]. intros [| k'] Hk'; cbn; [congruence |]. apply Hb. lia.
  - rewrite !not_elem_of_cons. naive_solver.
Qed.

(** Where a new identifier may go. *)
Definition fits (l : list Z) (j : nat) : Prop :=
  exists v, l !! j = Some v /\ unused v = true /\ (v = 0 -> forall k, (k < j)%nat -> l !! k <> Some 0).

Lemma fits_cons x l j : x <> 0 -> fits l j -> fits (x :: l) (S j).
Proof.
  intros Hx (v & H1 & H2 & H3). exists v. split; [done | split; [done |]]. intros Hv [| k] Hk; cbn; [congruence |]. apply H3; [done | lia].
Qed.

Lemma closed_cons x l : closed (x :: l) -> closed l.
Proof. intros HC. by apply (closed_app_r [x]). Qed.

Lemma closed_zero l : closed (0 :: l) -> forall a, a <> 0 -> a ∉ l.
Proof. intros HC a Ha [j Hj]%list_elem_of_lookup. apply Ha. by apply (HC 0%nat (S j) a ltac:(lia)). Qed.

Lemma first_slot_spec aid l : unused aid = false -> closed l -> forall i sl,
  match first_slot aid l i sl with
  | None => aid ∈ l
  | Some sl' => aid ∉ l /\ ((sl' = sl /\ (sl = NoSlot -> Forall (fun x => unused x = false) l))
                             \/ exists j, sl' = InEntry (i + j) /\ fits l j)
  end.
Proof.
  intros Ha. pose proof (proj1 (used_cases aid) Ha) as [Hab Ha0].
  induction l as [| x l IH]; intros HC i sl; cbn [first_slot]; [split; [apply not_elem_of_nil | by left] |].
  destruct (Z.eqb_spec x aid) as [-> | Hx]; [left |]. specialize (IH (closed_cons _ _ HC)).
  destruct (Z.eqb_spec x PRBADID) as [-> | Hxb].
  - specialize (IH (S i) (InEntry i)). destruct (first_slot aid l (S i) (InEntry i)) as [sl' |]; [| by right].
    destruct IH as [Hn IH]. split; [by apply not_elem_of_cons |]. right. destruct IH as [[-> _] | (j & -> & Hj)].
    + exists 0%nat. split; [f_equal; lia |]. exists PRBADID. split; [done | split; [done | intros; lia]].
    + exists (S j). split; [f_equal; lia | by apply fits_cons].
  - destruct (Z.eqb_spec x 0) as [-> | Hx0].
    + split; [apply not_elem_of_cons; split; [done | by apply closed_zero] |].
      destruct sl; [right; exists 0%nat | by left..]. split; [f_equal; lia |]. exists 0. split; [done | split; [done | intros; lia]].
    + specialize (IH (S i) sl). destruct (first_slot aid l (S i) sl) as [sl' |]; [| by right].
      destruct IH as [Hn IH]. split; [by apply not_elem_of_cons |]. destruct IH as [[-> HF] | (j & -> & Hj)].
      * left. split; [done |]. intros Hs. constructor; [by apply used_cases | by apply HF].
      * right. exists (S j). split; [f_equal; lia | by apply fits_cons].
Qed.

Lemma block_slot_spec aid cloc l : unused aid = false -> closed l -> forall i sl,
  match block_slot aid cloc l i sl with
  | None => aid ∈ l
  | Some sl' => aid ∉ l /\ ((sl <> NoSlot /\ sl' = sl)
      \/ (sl = NoSlot /\ sl' = NoSlot /\ Forall (fun x => unused x = false) l)
      \/ (sl = NoSlot /\ exists j v, sl' = InBlock cloc (i + j) /\ l !! j = Some v /\ unused v = true
            /\ Forall (fun x => unused x = false) (take j l)))
  end.
Proof.
  intros Ha. pose proof (proj1 (used_cases aid) Ha) as [Hab Ha0].
  induction l as [| x l IH]; intros HC i sl; cbn [block_slot].
  { split; [apply not_elem_of_nil |]. destruct sl; [right; left; done | by left..]. }
  destruct (Z.eqb_spec x aid) as [-> | Hx]; [left |]. specialize (IH (closed_cons _ _ HC)).
  assert (Hhere : forall sl', unused x = true -> sl' = match sl with NoSlot => InBlock cloc i | _ => sl end -> aid ∉ x :: l ->
    aid ∉ x :: l /\ ((sl <> NoSlot /\ sl' = sl) \/ (sl = NoSlot /\ sl' = NoSlot /\ Forall (fun x => unused x = false) (x :: l))
      \/ (sl = NoSlot /\ exists j v, sl' = InBlock cloc (i + j) /\ (x :: l) !! j = Some v /\ unused v = true
            /\ Forall (fun x => unused x = false) (take j (x :: l))))).
  { intros sl' Hu -> Hn. split; [done |]. destruct sl; [right; right | by left..]. split; [done |]. exists 0%nat, x.
    split; [f_equal; lia | split; [done | split; [done | constructor]]]. }
  destruct (Z.eqb_spec x PRBADID) as [-> | Hxb].
  - specialize (IH (S i) (match sl with NoSlot => InBlock cloc i | _ => sl end)).
    destruct (block_slot _ _ _ _ _) as [sl' |]; [| by right]. destruct IH as [Hn IH].
    apply Hhere; [done | | by apply not_elem_of_cons]. destruct IH as [[_ ->] | [(E & _) | (E & _)]]; [done | by destruct sl..].
  - destruct (Z.eqb_spec x 0) as [-> | Hx0].
    + apply Hhere; [done | done |]. apply not_elem_of_cons. split; [done | by apply closed_zero].
    + specialize (IH (S i) sl). destruct (block_slot _ _ _ _ _) as [sl' |]; [| by right].
      assert (Hxu : unused x = false) by by apply used_cases.
      destruct IH as [Hn IH]. split; [by apply not_elem_of_cons |]. destruct IH as [H | [(H1 & H2 & H3) | (H1 & j & v & H2 & H3 & H4 & H5)]].
      * by left.
      * right. left. split; [done | split; [done | by constructor]].
      * right. right. split; [done |]. exists (S j), v. split; [rewrite H2; f_equal; lia | split; [done | split; [done | by constructor]]].
Qed.

(** ** Lists of members *)

Lemma word_ne k k' v e : k <> k' -> word k (set_word k' v e) = word k e.
Proof. intros H. unfold word, set_word. cbn [words]. rewrite !nth_lookup. by rewrite list_lookup_insert_ne. Qed.

Lemma word_eq k v e : (k < length (words e))%nat -> word k (set_word k v e) = v.
Proof. intros H. unfold word, set_word. cbn [words]. by apply nth_lookup_Some, list_lookup_insert_eq. Qed.

Lemma entries_lookup e i : entries e !! i = if decide (i < 10)%nat then words e !! (9 + i)%nat else None.
Proof.
  unfold entries. case_decide; [by rewrite lookup_take_lt, lookup_drop |]. by rewrite lookup_take_ge by lia.
Qed.

Lemma entries_set_entry e j v : (j < 10)%nat -> entries (set_entry j v e) = <[j := v]> (entries e).
Proof.
  intros Hj. apply list_eq. intros i. unfold set_entry. rewrite entries_lookup. cbn [words set_word].
  destruct (decide (i = j)) as [-> | Hne].
  - rewrite decide_True by done. destruct (decide (9 + j < length (words e))%nat) as [HL | HL].
    + rewrite list_lookup_insert_eq by done. rewrite list_lookup_insert_eq; [done |].
      unfold entries. rewrite length_take, length_drop. lia.
    + rewrite !lookup_ge_None_2; [done | | rewrite length_insert; lia].
      rewrite length_insert. unfold entries. rewrite length_take, length_drop. lia.
  - rewrite (list_lookup_insert_ne _ j i) by done. rewrite entries_lookup. case_decide; [| done]. apply list_lookup_insert_ne. lia.
Qed.

Lemma entries_set_word e k v : (k < 9 \/ 19 <= k)%nat -> entries (set_word k v e) = entries e.
Proof.
  intros Hk. apply list_eq. intros i. rewrite !entries_lookup. case_decide; [| done]. cbn [words set_word].
  apply list_lookup_insert_ne. lia.
Qed.

Lemma co_entries_lookup (c : contentry) i : co_entries c !! i = if decide (i < 39)%nat then c !! (9 + i)%nat else None.
Proof.
  unfold co_entries. case_decide; [by rewrite lookup_take_lt, lookup_drop |]. by rewrite lookup_take_ge by lia.
Qed.

Lemma co_entries_set_entry (c : contentry) j v : (j < 39)%nat -> co_entries (co_set_entry j v c) = <[j := v]> (co_entries c).
Proof.
  intros Hj. apply list_eq. intros i. unfold co_set_entry. rewrite co_entries_lookup.
  destruct (decide (i = j)) as [-> | Hne].
  - rewrite decide_True by done. destruct (decide (9 + j < length c)%nat) as [HL | HL].
    + rewrite list_lookup_insert_eq by done. rewrite list_lookup_insert_eq; [done |].
      unfold co_entries. rewrite length_take, length_drop. lia.
    + rewrite !lookup_ge_None_2; [done | | rewrite length_insert; lia].
      rewrite length_insert. unfold co_entries. rewrite length_take, length_drop. lia.
  - rewrite (list_lookup_insert_ne _ j i) by done. rewrite co_entries_lookup. case_decide; [| done]. apply list_lookup_insert_ne. lia.
Qed.

Lemma co_entries_set (c : contentry) k v : (k < 9)%nat -> co_entries (<[k := v]> c) = co_entries c.
Proof.
  intros Hk. apply list_eq. intros i. rewrite !co_entries_lookup. case_decide; [| done]. apply list_lookup_insert_ne. lia.
Qed.

Lemma co_word_ne (c : contentry) k k' v : k <> k' -> nth k (<[k' := v]> c) 0 = nth k c 0.
Proof. intros H. rewrite !nth_lookup. by rewrite list_lookup_insert_ne. Qed.

Section groups.
Context (little : bool) (now : Z).

Definition chain_slots (s : st) (C : list Z) : list Z := concat (map (fun x => co_entries (co little s x)) C).
Definition slots (s : st) (loc : Z) (C : list Z) : list Z := entries (ent little s loc) ++ chain_slots s C.
Definition members (s : st) (loc : Z) (C : list Z) : list Z := live (slots s loc C).

(** The entry [eid] is in the block [loc] and goes on in the blocks [C]. *)
Record roster (s : st) (eid loc : Z) (C : list Z) : Prop := {
  ro_block : block (eof s) loc;
  ro_id : id (ent little s loc) = eid;
  ro_linked : linked (fun x => co_next (co little s x)) (next (ent little s loc)) C;
  ro_nodup : NoDup (loc :: C);
  ro_blocks : forall x, x ∈ C -> block (eof s) x;
  ro_marks : forall x, x ∈ C -> co_id (co little s x) = eid /\ Z.land (co_flags (co little s x)) PRCONT <> 0;
  ro_closed : closed (slots s loc C);
  ro_once : NoDup (members s loc C)
}.

Lemma chain_slots_cons s x C : chain_slots s (x :: C) = co_entries (co little s x) ++ chain_slots s C.
Proof. done. Qed.

Lemma chain_slots_app s C1 C2 : chain_slots s (C1 ++ C2) = chain_slots s C1 ++ chain_slots s C2.
Proof. unfold chain_slots. by rewrite map_app, concat_app. Qed.

Lemma chain_slots_ext s s' C : (forall x, x ∈ C -> co little s' x = co little s x) -> chain_slots s' C = chain_slots s C.
Proof. intros H. unfold chain_slots. f_equal. apply map_ext_in. intros x Hx%list_elem_of_In. by rewrite H. Qed.

Lemma roster_fuel s eid loc C : good s -> roster s eid loc C -> (length C < chain_fuel (cheader s))%nat.
Proof.
  intros HG HR. unfold chain_fuel. pose proof (ro_nodup _ _ _ _ HR) as [_ HN]%NoDup_cons.
  pose proof (blocks_length (eof s) C ltac:(apply HG) HN (ro_blocks _ _ _ _ HR)) as HL. unfold eof in HL. lia.
Qed.

Lemma roster_nonzero s eid loc C : roster s eid loc C -> 0 ∉ C.
Proof. intros HR H0. pose proof (ro_blocks _ _ _ _ HR 0 H0) as HB. by apply (block_nonzero _ _ HB). Qed.

(** The walk that looks for a slot. *)
Lemma add_walk_spec s aid C : io s = [] -> unused aid = false -> 0 ∉ C ->
  (forall x, x ∈ C -> Z.land (co_flags (co little s x)) PRCONT <> 0) ->
  closed (chain_slots s C) -> forall nptr lst nentry sl fuel,
  linked (fun x => co_next (co little s x)) nptr C -> (length C < fuel)%nat ->
  exists code lst' nentry' sl', add_walk little aid lst nentry sl nptr fuel s = Some ((code, (lst', nentry', sl')), s)
  /\ ((code = PRIDEXIST /\ aid ∈ chain_slots s C)
      \/ (code = 0 /\ aid ∉ chain_slots s C /\ lst' = default lst (last C) /\ nentry' = match C with [] => nentry | _ => co little s lst' end
          /\ ((sl <> NoSlot /\ sl' = sl)
              \/ (sl = NoSlot /\ sl' = NoSlot /\ Forall (fun x => unused x = false) (chain_slots s C))
              \/ (sl = NoSlot /\ exists C1 x C2 j v, C = C1 ++ x :: C2 /\ sl' = InBlock x j
                    /\ co_entries (co little s x) !! j = Some v /\ unused v = true
                    /\ Forall (fun x => unused x = false) (chain_slots s C1 ++ take j (co_entries (co little s x))))))).
Proof.
  intros Hio Ha. induction C as [| x C IH]; intros H0 Hm HC nptr lst nentry sl fuel Hl Hf;
    (destruct fuel as [| fuel]; [cbn in Hf; lia |]); cbn [add_walk linked] in *.
  - rewrite Hl. exists 0, lst, nentry, sl. split; [done |]. right. split; [done |]. split; [apply not_elem_of_nil |].
    split; [done |]. split; [done |]. destruct sl; [right; left; done | by left..].
  - destruct Hl as [-> Hl]. apply not_elem_of_cons in H0 as [Hx0 H0]. rewrite (proj2 (Z.eqb_neq x 0)) by done.
    unfold mbind_. rewrite read_co_ok by done. cbn [Z.eqb negb].
    rewrite (proj2 (Z.eqb_neq (Z.land _ _) 0)) by (apply Hm; left). rewrite chain_slots_cons in HC |- *.
    pose proof (block_slot_spec aid x _ Ha (closed_app_l _ _ HC) 0 sl) as HB.
    destruct (block_slot _ _ _ _ _) as [sl1 |].
    2: { exists PRIDEXIST, x, (co little s x), sl. split; [done |]. left. split; [done |]. apply elem_of_app. by left. }
    destruct HB as [Hn HB]. specialize (IH H0 ltac:(intros y Hy; apply Hm; by right) (closed_app_r _ _ HC) _ x (co little s x) sl1 fuel Hl ltac:(cbn in Hf; lia)).
    destruct IH as (code & lst' & nentry' & sl' & E & IH). exists code, lst', nentry', sl'. split; [exact E |]. clear E.
    rewrite elem_of_app. destruct IH as [[-> Hin] | (-> & Hn2 & El & En & IH)]; [left; split; [done | by right] |].
    right. split; [done |]. split; [tauto |]. split; [rewrite last_cons; by destruct (last C) |].
    split; [subst nentry' lst'; by destruct C |].
    destruct HB as [[Hs ->] | [(-> & -> & HF) | (-> & j & v & -> & Hj & Hv & HF)]].
    + left. split; [done |]. by destruct IH as [[_ ->] | [(? & _) | (? & _)]].
    + right. destruct IH as [[? _] | [(_ & -> & HF') | (_ & C1 & y & C2 & j & v & -> & -> & Hj & Hv & HF')]]; [done | |].
      * left. split; [done | split; [done | by apply Forall_app]].
      * right. split; [done |]. exists (x :: C1), y, C2, j, v. rewrite chain_slots_cons.
        split; [done |]. split; [done |]. split; [done |]. split; [done |]. rewrite <- app_assoc. by apply Forall_app.
    + right. right. split; [done |]. exists [], x, C, j, v. split; [done |].
      destruct IH as [[_ ->] | [(? & _) | (? & _)]]; [| done..]. done.
Qed.

(** *** A change of the slots *)

Lemma fits_app l r j : fits l j -> fits (l ++ r) j.
Proof.
  intros (v & H1 & H2 & H3). exists v. split; [by apply lookup_app_l_Some | split; [done |]].
  intros Hv k Hk. rewrite lookup_app_l by (apply lookup_lt_Some in H1; lia). by apply H3.
Qed.

Lemma fits_after p e r j v : Forall (fun x => unused x = false) p -> e !! j = Some v -> unused v = true ->
  Forall (fun x => unused x = false) (take j e) -> fits (p ++ e ++ r) (length p + j).
Proof.
  intros Hp Hj Hv Ht. exists v. pose proof (lookup_lt_Some _ _ _ Hj) as Hl. split; [| split; [done |]].
  - rewrite lookup_app_r by lia. rewrite Nat.add_comm, Nat.add_sub. by apply lookup_app_l_Some.
  - intros _ k Hk E. destruct (decide (k < length p)%nat) as [H1 | H1].
    + rewrite lookup_app_l in E by lia. by apply (Forall_lookup_1 _ _ _ _ Hp) in E.
    + rewrite lookup_app_r, lookup_app_l in E by lia. assert (E2 : take j e !! (k - length p)%nat = Some 0) by (rewrite lookup_take_lt by lia; done).
      by apply (Forall_lookup_1 _ _ _ _ Ht) in E2.
Qed.

Lemma fits_insert l j a : closed l -> fits l j -> unused a = false ->
  closed (<[j := a]> l) /\ live (<[j := a]> l) ≡ₚ a :: live l.
Proof.
  intros HC (v & H1 & H2 & H3) Ha. split; [| by apply live_insert with v].
  apply (closed_insert l j v); [done | done | done |]. by apply used_cases in Ha as [_ ?].
Qed.

Lemma insert_after (p e r : list Z) j a : (j < length e)%nat -> <[(length p + j)%nat := a]> (p ++ e ++ r) = p ++ <[j := a]> e ++ r.
Proof. intros Hj. rewrite insert_app_r. f_equal. by rewrite insert_app_l. Qed.

Lemma once_members aid l l' : l' ≡ₚ aid :: live l -> aid ∉ l -> NoDup (live l) -> NoDup l'.
Proof. intros -> Hn HN. constructor; [| done]. rewrite elem_of_live. by intros [? _]. Qed.

(** What stays in the entry itself. *)
Definition same_entry (s s' : st) (loc : Z) : Prop :=
  name (ent little s' loc) = name (ent little s loc)
  /\ forall k, (k < 9 \/ 19 <= k)%nat -> k <> 3%nat -> k <> 5%nat -> k <> 6%nat -> k <> 25%nat ->
       word k (ent little s' loc) = word k (ent little s loc).

(** The outcome of an addition. *)
Definition added (s s' : st) (U : gset Z) (eid loc : Z) (C : list Z) (aid : Z) : Prop :=
  exists C' U' F', roster s' eid loc C' /\ members s' loc C' ≡ₚ aid :: members s loc C
  /\ store little s' U' F' /\ U ⊆ U' /\ (forall x, x ∈ C' -> x ∈ U') /\ only s s' (loc :: C') /\ same_entry s s' loc.

Definition counted (e : prentry) : prentry := set_word 25 (s32 (count e + 1)) e.
Definition stamped (e : prentry) : prentry := set_word 5 now e.

Lemma s32_int z : int32 (s32 z).
Proof. apply s32_range. Qed.

Section add.
Context (s : st) (U : gset Z) (F : list Z) (eid loc : Z) (C : list Z) (aid : Z).
Context (HS : store little s U F) (HR : roster s eid loc C) (Hloc : loc ∈ U) (HC : forall x, x ∈ C -> x ∈ U).
Context (Haid : unused aid = false) (Hint : int32 aid) (Hnow : int32 now) (Hnew : aid ∉ slots s loc C).

Lemma entry_canonical : canonical little (counted (stamped (ent little s loc))).
Proof.
  apply canonical_set; [| lia | done | apply s32_int]. apply canonical_set; [| lia | done | done].
  apply ent_canonical, HS.
Qed.

Lemma C_apart x : x ∈ C -> x ∉ [loc].
Proof. intros Hx. rewrite list_elem_of_singleton. intros ->. by pose proof (ro_nodup _ _ _ _ HR) as [? _]%NoDup_cons. Qed.

(** A slot of the entry itself. *)
Lemma add_here j : (j < 10)%nat -> fits (entries (ent little s loc)) j ->
  added s (wrote little loc (set_entry j aid (counted (stamped (ent little s loc)))) s) U eid loc C aid.
Proof.
  intros Hj Hfit. set (e' := set_entry j aid _). set (s' := wrote _ _ _ _). pose proof (ro_block _ _ _ _ HR) as Hb.
  assert (He' : canonical little e') by (apply canonical_set; [apply entry_canonical | lia | lia | done]).
  assert (HO : only s s' [loc]) by by apply wrote_only.
  assert (Hent : ent little s' loc = e') by by apply wrote_ent_at.
  assert (Hco : forall x, x ∈ C -> co little s' x = co little s x).
  { intros x Hx. apply (only_co little s s' [loc]); [done | by apply (ro_blocks _ _ _ _ HR) | by apply C_apart]. }
  assert (Hslots : slots s' loc C = <[j := aid]> (slots s loc C)).
  { unfold slots. rewrite Hent, (chain_slots_ext s s') by done. unfold e'. rewrite entries_set_entry by done.
    unfold counted, stamped. rewrite !entries_set_word by lia. by rewrite insert_app_l by (destruct Hfit as (v & E & _); by eapply lookup_lt_Some). }
  destruct (fits_insert (slots s loc C) j aid (ro_closed _ _ _ _ HR) (fits_app _ _ _ Hfit) Haid) as [Hcl Hlive].
  rewrite <- Hslots in Hcl, Hlive.
  exists C, U, F. split; [split |].
  - done.
  - rewrite Hent. unfold id, e', set_entry, counted, stamped. rewrite !word_ne by lia. apply HR.
  - rewrite Hent. unfold next, e', set_entry, counted, stamped. rewrite !word_ne by lia.
    apply (links_frame _ _ _ _ (ro_linked _ _ _ _ HR)). intros x Hx. by rewrite Hco.
  - apply HR.
  - apply (ro_blocks _ _ _ _ HR).
  - intros x Hx. rewrite Hco by done. by apply (ro_marks _ _ _ _ HR).
  - done.
  - by apply (once_members aid (slots s loc C)); [done | done | apply HR].
  - split; [done |]. split; [by apply wrote_store |]. split; [done |]. split; [done |]. split.
    + apply (only_weaken _ _ [loc]); [done |]. intros y Hy _. apply list_elem_of_singleton in Hy as ->. left.
    + unfold same_entry. rewrite Hent. split; [done |]. intros k H1 H2 H3 H4 H5. unfold e', set_entry, counted, stamped.
      by rewrite !word_ne by lia.
Qed.

(** A slot of a continuation block. *)
Lemma add_inside C1 x C2 j v : C = C1 ++ x :: C2 -> co_entries (co little s x) !! j = Some v -> unused v = true ->
  Forall (fun x => unused x = false) (entries (ent little s loc) ++ chain_slots s C1 ++ take j (co_entries (co little s x))) ->
  let s1 := wrote little loc (counted (stamped (ent little s loc))) s in
  co little s1 x = co little s x /\ added s (wrote_co little x (co_set_entry j aid (co little s1 x)) s1) U eid loc C aid.
Proof.
  intros EC Hj Hv Hused s1. set (e1 := counted _) in *. pose proof entry_canonical as He1. fold e1 in He1.
  pose proof (ro_block _ _ _ _ HR) as Hb. pose proof (lookup_lt_Some _ _ _ Hj) as Hjl.
  assert (Hj39 : (j < 39)%nat) by (rewrite co_entries_lookup in Hj; by case_decide).
  assert (HO1 : only s s1 [loc]) by by apply wrote_only.
  assert (Hco1 : forall y, y ∈ C -> co little s1 y = co little s y).
  { intros y Hy. apply (only_co little s s1 [loc]); [done | by apply (ro_blocks _ _ _ _ HR) | by apply C_apart]. }
  assert (Hx : x ∈ C) by (rewrite EC; apply elem_of_app; right; left).
  rewrite Hco1 by done. split; [done |]. set (c' := co_set_entry j aid (co little s x)). set (s' := wrote_co _ _ _ _).
  assert (Hbx : block (eof s) x) by by apply (ro_blocks _ _ _ _ HR).
  assert (Hc' : canonical_co little c') by (apply canonical_co_set; [apply canonical_decode_co | lia | done]).
  assert (HO2 : only s1 s' [x]) by by apply wrote_co_only.
  assert (Hlx : loc ∉ [x]) by (rewrite list_elem_of_singleton; intros E; apply (C_apart x Hx); rewrite E; left).
  assert (Hent : ent little s' loc = e1).
  { rewrite (only_ent little s1 s' [x]); [by apply wrote_ent_at | done | done | done]. }
  assert (Hco : forall y, y ∈ C -> co little s' y = if decide (y = x) then c' else co little s y).
  { intros y Hy. case_decide as E; [subst y; by apply wrote_co_at |]. rewrite <- Hco1 by done.
    apply (only_co little s1 s' [x]); [done | by apply (ro_blocks _ _ _ _ HR) | by rewrite list_elem_of_singleton]. }
  assert (HCN : x ∉ C1 ++ C2).
  { pose proof (ro_nodup _ _ _ _ HR) as [_ HN]%NoDup_cons. rewrite EC, <- Permutation_middle in HN. by apply NoDup_cons in HN as [? _]. }
  assert (Hrest : forall D, (forall y, y ∈ D -> y ∈ C1 ++ C2) -> chain_slots s' D = chain_slots s D).
  { intros D HD. apply chain_slots_ext. intros y Hy. specialize (HD y Hy). rewrite Hco.
    - rewrite decide_False; [done |]. by intros ->.
    - rewrite EC. apply elem_of_app in HD. rewrite elem_of_app, elem_of_cons. tauto. }
  set (p := entries (ent little s loc) ++ chain_slots s C1).
  assert (Hsl : slots s loc C = p ++ co_entries (co little s x) ++ chain_slots s C2).
  { unfold slots, p. by rewrite EC, chain_slots_app, chain_slots_cons, <- app_assoc. }
  assert (Hslots : slots s' loc C = <[(length p + j)%nat := aid]> (slots s loc C)).
  { rewrite Hsl, insert_after by done. unfold slots. rewrite Hent, EC, chain_slots_app, chain_slots_cons.
    rewrite Hco, decide_True by done. unfold c'. rewrite co_entries_set_entry by done.
    rewrite (Hrest C1), (Hrest C2) by (intros y Hy; apply elem_of_app; tauto). unfold e1, counted, stamped.
    rewrite !entries_set_word by lia. unfold p. by rewrite <- app_assoc. }
  assert (Hfit : fits (slots s loc C) (length p + j)).
  { rewrite Hsl. rewrite app_assoc in Hused. apply Forall_app in Hused as [H1 H2]. by apply (fits_after _ _ _ _ v). }
  destruct (fits_insert _ _ aid (ro_closed _ _ _ _ HR) Hfit Haid) as [Hcl Hlive]. rewrite <- Hslots in Hcl, Hlive.
  exists C, U, F. split; [split |].
  - done.
  - rewrite Hent. unfold id, e1, counted, stamped. rewrite !word_ne by lia. apply HR.
  - rewrite Hent. unfold next, e1, counted, stamped. rewrite !word_ne by lia.
    apply (links_frame _ _ _ _ (ro_linked _ _ _ _ HR)). intros y Hy. rewrite Hco by done. case_decide as E; [| done].
    subst y. unfold c', co_next, co_set_entry. by rewrite co_word_ne by lia.
  - apply HR.
  - apply (ro_blocks _ _ _ _ HR).
  - intros y Hy. rewrite Hco by done. case_decide as E; [| by apply (ro_marks _ _ _ _ HR)]. subst y.
    unfold c', co_id, co_flags, co_set_entry. rewrite !co_word_ne by lia. by apply (ro_marks _ _ _ _ HR).
  - done.
  - by apply (once_members aid (slots s loc C)); [done | done | apply HR].
  - split; [done |]. split; [by apply wrote_co_store; [apply wrote_store | apply HC |] |]. split; [done |]. split; [done |]. split.
    + apply (only_trans s s1); [apply (only_weaken _ _ [loc]) | apply (only_weaken _ _ [x])]; [done | | done |];
        intros y Hy _; apply list_elem_of_singleton in Hy as ->; [left | by right].
    + unfold same_entry. rewrite Hent. split; [done |]. intros k H1 H2 H3 H4 H5. unfold e1, counted, stamped.
      by rewrite !word_ne by lia.
Qed.

(** A new block behind the others. *)
Definition tacked (s' : st) (x : Z) : Prop :=
  forall y, y ∈ C ++ [x] -> co little s' y
    = if decide (y = x) then new_contentry eid aid
      else if decide (last C = Some y) then co_set_next x (co little s y) else co little s y.

Lemma linked_snoc nxt nxt' x l : forall h h', linked nxt h l -> NoDup l ->
  (forall y, y ∈ l -> nxt' y = if decide (last l = Some y) then x else nxt y) -> nxt' x = 0 ->
  h' = (if decide (l = []) then x else h) -> linked nxt' h' (l ++ [x]).
Proof.
  induction l as [| a l IH]; intros h h' Hl HN Hn Hx Hh; cbn [app linked] in *; [by subst |].
  destruct Hl as [-> Hl]. rewrite decide_False in Hh by done. split; [done |]. apply NoDup_cons in HN as [Ha HN].
  apply (IH (nxt a)); [done | done | | done |].
  - intros y Hy. rewrite Hn by (by right). rewrite last_cons. destruct (last l) eqn:E; [done |].
    apply last_None in E as ->. by apply not_elem_of_nil in Hy.
  - rewrite Hn by left. rewrite last_cons. destruct (last l) as [b |] eqn:E.
    + rewrite decide_False; [| intros [= ->]; by apply Ha, last_Some_elem_of]. by destruct l.
    + apply last_None in E as ->. by rewrite !decide_True.
Qed.

Lemma new_entries e a : co_entries (new_contentry e a) = a :: replicate 38 0.
Proof. reflexivity. Qed.

Lemma closed_full l a n : Forall (fun x => unused x = false) l -> a <> 0 -> closed (l ++ a :: replicate n 0).
Proof.
  intros Hl Ha i j x Hij Hi Hj. destruct (decide (i < length l)%nat) as [H1 | H1].
  { rewrite lookup_app_l in Hi by done. by apply (Forall_lookup_1 _ _ _ _ Hl) in Hi. }
  rewrite lookup_app_r in Hi, Hj by lia. destruct (i - length l)%nat as [| p] eqn:Ep; [cbn in Hi; congruence |].
  destruct (j - length l)%nat as [| q] eqn:Eq; [lia |]. cbn in Hj. by apply lookup_replicate_1 in Hj as [-> _].
Qed.

Lemma live_full l a n : unused a = false -> live (l ++ a :: replicate n 0) ≡ₚ a :: live l.
Proof.
  intros Ha. rewrite live_app. assert (E : live (a :: replicate n 0) = [a]).
  { unfold live. rewrite filter_cons_True by done. f_equal. apply live_none. by induction n. }
  rewrite E. by rewrite <- Permutation_cons_append.
Qed.

Lemma add_tacked s' x e' F' : Forall (fun x => unused x = false) (slots s loc C) ->
  x ∉ U -> block (eof s') x -> store little s' ({[x]} ∪ U) F' -> only s s' (loc :: C ++ [x]) -> tacked s' x ->
  ent little s' loc = e' -> entries e' = entries (ent little s loc) ->
  next e' = (if decide (C = []) then x else next (ent little s loc)) -> same_entry s s' loc ->
  added s s' U eid loc C aid.
Proof.
  intros Hfull HxU Hbx HS' HO Ht Hent Hen Hnx Hsame. pose proof (proj1 (used_cases aid) Haid) as [_ Ha0].
  assert (HxC : forall y, y ∈ C -> y <> x) by (intros y Hy ->; by apply HxU, HC).
  assert (Hcox : co little s' x = new_contentry eid aid) by (rewrite Ht by (apply elem_of_app; right; left); by rewrite decide_True).
  assert (HcoC : forall y, y ∈ C -> co little s' y = if decide (last C = Some y) then co_set_next x (co little s y) else co little s y).
  { intros y Hy. rewrite Ht by (apply elem_of_app; by left). by rewrite decide_False by (by apply HxC). }
  assert (Hslots : slots s' loc (C ++ [x]) = slots s loc C ++ aid :: replicate 38 0).
  { unfold slots. rewrite Hent, Hen, chain_slots_app, <- app_assoc. f_equal. f_equal.
    - unfold chain_slots. f_equal. apply map_ext_in. intros y Hy%list_elem_of_In. rewrite HcoC by done.
      destruct (decide (last C = Some y)); [| done]. apply co_entries_set. lia.
    - unfold chain_slots. cbn [map concat]. by rewrite Hcox, app_nil_r, new_entries. }
  assert (Hlive : members s' loc (C ++ [x]) ≡ₚ aid :: members s loc C) by (unfold members; rewrite Hslots; by apply live_full).
  exists (C ++ [x]), ({[x]} ∪ U), F'. split; [split |].
  - apply (block_later (eof s)); [apply HO | apply HR].
  - destruct Hsame as [_ Hw]. unfold id. rewrite Hw by lia. apply HR.
  - rewrite Hent, Hnx. apply (linked_snoc (fun y => co_next (co little s y)) _ x C (next (ent little s loc)));
      [apply HR | by pose proof (ro_nodup _ _ _ _ HR) as [_ ?]%NoDup_cons | | by rewrite Hcox | done].
    intros y Hy. rewrite HcoC by done. destruct (decide (last C = Some y)); [| done]. unfold co_next, co_set_next.
    apply nth_lookup_Some, list_lookup_insert_eq. destruct (canonical_decode_co little (file s) y) as (HL & _). unfold co. lia.
  - pose proof (ro_nodup _ _ _ _ HR) as HN. change (loc :: C ++ [x]) with ((loc :: C) ++ [x]).
    apply NoDup_app. split; [done |]. split; [| constructor; [apply not_elem_of_nil | constructor]].
    intros y Hy ->%list_elem_of_singleton. apply elem_of_cons in Hy as [E | Hy]; [by rewrite E in HxU | by apply HxU, HC].
  - intros y [Hy | ->%list_elem_of_singleton]%elem_of_app; [| done].
    apply (block_later (eof s)); [apply HO | by apply (ro_blocks _ _ _ _ HR)].
  - intros y [Hy | ->%list_elem_of_singleton]%elem_of_app; [| rewrite Hcox; split; [done | vm_compute; discriminate]].
    rewrite HcoC by done. pose proof (ro_marks _ _ _ _ HR y Hy) as Hm. destruct (decide (last C = Some y)); [| done].
    unfold co_id, co_flags, co_set_next. by rewrite !co_word_ne by lia.
  - rewrite Hslots. by apply closed_full.
  - by apply (once_members aid (slots s loc C)); [done | done | apply HR].
  - split; [done |]. split; [done |]. split; [set_solver |]. split; [| by split].
    intros y [Hy | ->%list_elem_of_singleton]%elem_of_app; [apply elem_of_union; right; by apply HC | by apply elem_of_union_l, elem_of_singleton].
Qed.

Lemma only_nil s1 s2 B : only s1 s2 [] -> only s1 s2 B.
Proof. intros HO. apply (only_weaken _ _ []); [done |]. intros y Hy. by apply not_elem_of_nil in Hy. Qed.

Lemma only_one s1 s2 x B : only s1 s2 [x] -> x ∈ B -> only s1 s2 B.
Proof. intros HO Hx. apply (only_weaken _ _ [x]); [done |]. intros y Hy _. by apply list_elem_of_singleton in Hy as ->. Qed.

(** What is written when there is no slot: [entry] is the entry with its time
    stamp. *)
Definition tack (entry : prentry) (lst : Z) (nentry : contentry) : M Z :=
  let* nptr := AllocBlock little in
  let finish (entry : prentry) : M Z :=
    check* code := pr_WriteCoEntry little nptr (new_contentry (id entry) aid) orelse ret code in
    pr_WriteEntry little loc (counted entry) in
  if negb (lst =? 0) then
    check* code := pr_WriteCoEntry little lst (co_set_next nptr nentry) orelse ret code in
    finish entry
  else finish (set_word 3 nptr entry).

Section room.
Context (Hfull : Forall (fun x => unused x = false) (slots s loc C)) (x : Z) (s1 : st).
Context (Hbx : block (eof s1) x) (HxU : x ∉ U) (HS1 : store little s1 ({[x]} ∪ U) (tail F)) (HO1 : only s s1 []).

Lemma eid_int : int32 eid.
Proof. pose proof (ro_id _ _ _ _ HR) as <-. apply (word_int little 1), ent_canonical, HS. Qed.

Lemma x_int : int32 x.
Proof. apply (block_int s1); [apply HS1 | done]. Qed.

Lemma loc_x : loc <> x.
Proof. intros E. apply HxU. by rewrite <- E. Qed.

(** The last two writes. *)
Lemma tack_finish s2 e : store little s2 ({[x]} ∪ U) (tail F) -> only s1 s2 C -> eof s2 = eof s1 -> canonical little e ->
  let s4 := wrote little loc e (wrote_co little x (new_contentry eid aid) s2) in
  store little s4 ({[x]} ∪ U) (tail F) /\ only s s4 (loc :: C ++ [x]) /\ ent little s4 loc = e
  /\ (forall y, block (eof s1) y -> y <> loc -> co little s4 y = if decide (y = x) then new_contentry eid aid else co little s2 y)
  /\ eof s4 = eof s1.
Proof.
  intros HS2 HO2 He2 He s4. set (c := new_contentry eid aid). set (s3 := wrote_co little x c s2).
  assert (Hc : canonical_co little c) by (apply new_contentry_canonical; [apply eid_int | done]).
  assert (Hl1 : block (eof s1) loc) by (apply (block_later (eof s)); [apply HO1 | apply HR]).
  assert (Hl2 : block (eof s2) loc) by by rewrite He2.
  assert (HO3 : only s2 s3 [x]) by (apply wrote_co_only; [by rewrite He2 | done]).
  assert (HO4 : only s3 s4 [loc]) by (apply wrote_only; [exact Hl2 | done]).
  assert (HS3 : store little s3 ({[x]} ∪ U) (tail F)) by (apply wrote_co_store; [done | set_solver | done]).
  split; [apply wrote_store; [done | set_solver | done] |].
  split; [| split; [by apply wrote_ent_at | split; [| done]]].
  - apply (only_trans s s1); [by apply only_nil |]. apply (only_trans s1 s2); [| apply (only_trans s2 s3)].
    + apply (only_weaken _ _ C); [done |]. intros y Hy _. right. apply elem_of_app. by left.
    + apply (only_one _ _ x); [done |]. right. apply elem_of_app. right. left.
    + apply (only_one _ _ loc); [done | left].
  - intros y Hy Hne. rewrite <- He2 in Hy. rewrite (only_co little s3 s4 [loc]);
      [| done | exact Hy | by rewrite list_elem_of_singleton].
    destruct (decide (y = x)) as [-> | E]; [by apply wrote_co_at |]. apply (only_co little s2 s3 [x]); [done | done |].
    by rewrite list_elem_of_singleton.
Qed.

Lemma tack_ok : exists s', (AllocBlock little s = Some (x, s1) ->
    tack (stamped (ent little s loc)) (default 0 (last C)) (co little s (default 0 (last C))) s = Some (PRSUCCESS, s'))
  /\ added s s' U eid loc C aid.
Proof.
  pose proof entry_canonical as Hcan. set (e := stamped (ent little s loc)) in *.
  assert (Hide : id e = eid) by (unfold id, e, stamped; rewrite word_ne by lia; apply HR).
  assert (Hbl : forall y, y ∈ C -> block (eof s1) y).
  { intros y Hy. apply (block_later (eof s)); [apply HO1 | by apply (ro_blocks _ _ _ _ HR)]. }
  assert (HCloc : forall y, y ∈ C -> y <> loc) by (intros y Hy E; apply (C_apart y Hy); rewrite E; left).
  assert (HCx : forall y, y ∈ C -> y <> x) by (intros y Hy ->; by apply HxU, HC).
  assert (Hl1 : block (eof s1) loc) by (apply (block_later (eof s)); [apply HO1 | apply HR]).
  assert (Hco1 : forall y, y ∈ C -> co little s1 y = co little s y).
  { intros y Hy. apply (only_co little s s1 []); [done | by apply (ro_blocks _ _ _ _ HR) | apply not_elem_of_nil]. }
  destruct (last C) as [t |] eqn:El; [change (default 0 (Some t)) with t | change (default 0 (@None Z)) with 0].
  - assert (Ht : t ∈ C) by by apply last_Some_elem_of.
    assert (Hn0 : C <> []) by (by intros E; rewrite E in El).
    set (ct := co_set_next x (co little s t)). set (s2 := wrote_co little t ct s1).
    assert (Hct : canonical_co little ct) by (apply canonical_co_set; [apply canonical_decode_co | lia | apply x_int]).
    assert (HO2 : only s1 s2 [t]) by (apply wrote_co_only; [by apply Hbl | done]).
    assert (HS2 : store little s2 ({[x]} ∪ U) (tail F)) by (apply wrote_co_store; [done | apply elem_of_union; right; by apply HC | done]).
    destruct (tack_finish s2 (counted e) HS2 (only_one _ _ _ _ HO2 Ht) eq_refl Hcan) as (HS4 & HO4 & Hent & Hco4 & He4).
    set (s4 := wrote _ _ _ _) in *. exists s4. split.
    + intros E. unfold tack, mbind_ at 1. rewrite E. rewrite (proj2 (Z.eqb_neq t 0)) by (eapply block_nonzero; by apply Hbl).
      cbn [negb]. unfold mbind_. rewrite write_co_ok; [| apply HS1 | by apply Hbl]. cbn [Z.eqb negb]. rewrite Hide.
      rewrite write_co_ok; [| apply HS2 | apply Hbx]. cbn [Z.eqb negb]. rewrite write_entry_ok; [done | apply HS1 | apply Hl1].
    + apply (add_tacked s4 x (counted e) (tail F)); try done.
      * intros y [Hy | ->%list_elem_of_singleton]%elem_of_app.
        -- rewrite Hco4 by (by apply Hbl || apply HCloc). rewrite !decide_False by (by apply HCx).
           destruct (decide (last C = Some y)) as [E | E]; rewrite El in E.
           ++ injection E as <-. by apply wrote_co_at.
           ++ rewrite (only_co little s1 s2 [t]); [by apply Hco1 | done | by apply Hbl |]. rewrite list_elem_of_singleton. congruence.
        -- rewrite Hco4; [by rewrite !decide_True | done | apply not_eq_sym, loc_x].
      * unfold counted, e, stamped. by rewrite !entries_set_word by lia.
      * rewrite decide_False by done. unfold next, counted, e, stamped. by rewrite !word_ne by lia.
      * unfold same_entry. rewrite Hent. split; [done |]. intros k H1 H2 H3 H4 H5. unfold counted, e, stamped. by rewrite !word_ne by lia.
  - apply last_None in El. set (e3 := set_word 3 x e).
    assert (Hc3 : canonical little (counted e3)).
    { apply canonical_set; [| lia | done | apply s32_int]. apply canonical_set; [| lia | done | apply x_int].
      apply canonical_set; [apply ent_canonical, HS | lia | done | done]. }
    destruct (tack_finish s1 (counted e3) HS1 (only_refl _ _) eq_refl Hc3) as (HS4 & HO4 & Hent & Hco4 & He4).
    set (s4 := wrote _ _ _ _) in *. exists s4. split.
    + intros E. unfold tack, mbind_ at 1. rewrite E. cbn [Z.eqb negb]. unfold mbind_.
      replace (id (set_word 3 x e)) with eid by (unfold id; rewrite word_ne by lia; done).
      rewrite write_co_ok; [| apply HS1 | apply Hbx]. cbn [Z.eqb negb]. rewrite write_entry_ok; [done | apply HS1 | apply Hl1].
    + apply (add_tacked s4 x (counted e3) (tail F)); try done.
      * unfold tacked. rewrite El. intros y [Hy%not_elem_of_nil | ->%list_elem_of_singleton]%elem_of_app; [done |].
        rewrite Hco4; [by rewrite !decide_True | done | apply not_eq_sym, loc_x].
      * unfold counted, e3, e, stamped. by rewrite !entries_set_word by lia.
      * rewrite decide_True by done. unfold next, counted. rewrite word_ne by lia. apply word_eq.
        unfold e, stamped. cbn [words set_word]. rewrite length_insert. destruct (ent_canonical little s loc (st_good _ _ _ _ HS)) as (HL & _). lia.
      * unfold same_entry. rewrite Hent. split; [done |]. intros k H1 H2 H3 H4 H5. unfold counted, e3, e, stamped. by rewrite !word_ne by lia.
Qed.
End room.

Lemma AddToEntry_run : room s F -> aid <> eid ->
  exists s', AddToEntry little now (ent little s loc) loc aid s = Some (PRSUCCESS, s') /\ added s s' U eid loc C aid.
Proof.
  intros Hroom Hne. pose proof (st_good _ _ _ _ HS) as HG. pose proof (ro_block _ _ _ _ HR) as Hb.
  unfold AddToEntry. replace (id (ent little s loc)) with eid by (symmetry; apply HR). rewrite (proj2 (Z.eqb_neq eid aid)) by congruence.
  change (set_word 5 now (ent little s loc)) with (stamped (ent little s loc)).
  assert (Hen : entries (stamped (ent little s loc)) = entries (ent little s loc)) by (apply entries_set_word; lia).
  assert (Hnx : next (stamped (ent little s loc)) = next (ent little s loc)) by (apply word_ne; lia).
  rewrite Hen, Hnx. pose proof (ro_closed _ _ _ _ HR) as Hcl. pose proof Hnew as Hn. unfold slots in Hcl, Hn. apply not_elem_of_app in Hn as [Hn1 Hn2].
  pose proof (first_slot_spec aid _ Haid (closed_app_l _ _ Hcl) 0 NoSlot) as H1.
  destruct (first_slot _ _ _ _) as [sl |]; [| done]. destruct H1 as [_ H1]. unfold mbind_ at 1, get_header. unfold mbind_ at 1.
  destruct (add_walk_spec s aid C (g_io _ HG) Haid (roster_nonzero _ _ _ _ HR) (fun x Hx => proj2 (ro_marks _ _ _ _ HR x Hx))
    (closed_app_r _ _ Hcl) _ 0 [] sl (chain_fuel (cheader s)) (ro_linked _ _ _ _ HR) (roster_fuel _ _ _ _ HG HR))
    as (code & lst & nentry & sl' & -> & [[_ ?] | (-> & _ & El & En & H2)]); [done |].
  cbn [Z.eqb negb].
  destruct H1 as [[-> Hf1] | (j & -> & Hfit)].
  - destruct H2 as [[? _] | [(_ & -> & Hf2) | (_ & C1 & x & C2 & j & v & EC & -> & Hj & Hv & Hf2)]]; [done | |].
    + destruct (alloc_ok little s U F HS Hroom) as (x & s1 & EA & Hbx & HxU & HS1 & HO1 & _).
      assert (Hfull : Forall (fun x => unused x = false) (slots s loc C)) by (apply Forall_app; split; [by apply Hf1 | done]).
      destruct (tack_ok Hfull x s1 Hbx HxU HS1 HO1) as (s' & HE & HA). exists s'. split; [| exact HA].
      specialize (HE EA). rewrite <- El in HE. unfold tack in HE. destruct C as [| y C']; [| by rewrite <- En in HE].
      cbn in El. subst lst. exact HE.
    + destruct (add_inside C1 x C2 j v EC Hj Hv) as [Hcx HA].
      { rewrite Forall_app. split; [by apply Hf1 | done]. }
      eexists. split; [| exact HA]. change (set_word 25 _ _) with (counted (stamped (ent little s loc))).
      unfold mbind_ at 1. rewrite write_entry_ok; [| apply HG | apply Hb]. cbn [Z.eqb negb].
      unfold mbind_ at 1. rewrite read_co_ok by apply HG. cbn [Z.eqb negb]. unfold mbind_.
      rewrite write_co_ok; [done | apply HG |]. apply (ro_blocks _ _ _ _ HR). rewrite EC. apply elem_of_app. right. left.
  - destruct H2 as [[_ ->] | [(? & _) | (? & _)]]; [| done..].
    assert (Hj : (j < 10)%nat) by (destruct Hfit as (v & E & _); rewrite entries_lookup in E; by case_decide).
    eexists. split; [| by apply (add_here j)]. unfold mbind_. rewrite write_entry_ok; [done | apply HG | apply Hb].
Qed.
End add.

(** An identifier that is there already. *)
Lemma AddToEntry_there s eid loc C aid : good s -> roster s eid loc C -> unused aid = false -> aid <> eid ->
  aid ∈ slots s loc C -> AddToEntry little now (ent little s loc) loc aid s = Some (PRIDEXIST, s).
Proof.
  intros HG HR Haid Hne Hin. unfold AddToEntry. replace (id (ent little s loc)) with eid by (symmetry; apply HR).
  rewrite (proj2 (Z.eqb_neq eid aid)) by congruence. rewrite entries_set_word by lia.
  replace (next (set_word 5 now (ent little s loc))) with (next (ent little s loc)) by (symmetry; apply word_ne; lia).
  pose proof (ro_closed _ _ _ _ HR) as Hcl. unfold slots in Hcl, Hin.
  pose proof (first_slot_spec aid _ Haid (closed_app_l _ _ Hcl) 0 NoSlot) as H1.
  destruct (first_slot _ _ _ _) as [sl |]; [| done]. destruct H1 as [Hn1 _]. apply elem_of_app in Hin as [? | Hin]; [done |].
  unfold mbind_ at 1, get_header. unfold mbind_ at 1.
  destruct (add_walk_spec s aid C (g_io _ HG) Haid (roster_nonzero _ _ _ _ HR) (fun x Hx => proj2 (ro_marks _ _ _ _ HR x Hx))
    (closed_app_r _ _ Hcl) _ 0 [] sl (chain_fuel (cheader s)) (ro_linked _ _ _ _ HR) (roster_fuel _ _ _ _ HG HR))
    as (code & lst & nentry & sl' & -> & [[-> _] | (_ & ? & _)]); [done | done].
Qed.

(** C28. AddToEntry keeps a set: an identifier that is in the slots of the entry
    or of its continuation blocks is refused with PRIDEXIST and nothing
    changes; any other is added, in a slot of a deleted one, behind the last,
    or in a new block chained behind the others. The chain stays well formed,
    nothing but the entry and its blocks is written, and of the entry itself
    only the list, its count, its time stamp and the chain change. *)
Theorem AddToEntry_adds s U F eid loc C aid : store little s U F -> roster s eid loc C -> loc ∈ U ->
  (forall x, x ∈ C -> x ∈ U) -> room s F -> unused aid = false -> int32 aid -> int32 now -> aid <> eid ->
  if decide (aid ∈ members s loc C)
  then AddToEntry little now (ent little s loc) loc aid s = Some (PRIDEXIST, s)
  else exists s', AddToEntry little now (ent little s loc) loc aid s = Some (PRSUCCESS, s') /\ added s s' U eid loc C aid.
Proof.
  intros HS HR Hloc HC Hroom Ha Hi Hn Hne. unfold members. case_decide as E; rewrite elem_of_live in E.
  - destruct E as [E _]. by apply AddToEntry_there with eid C; [apply HS | ..].
  - by apply (AddToEntry_run s U F); [.. | tauto | |].
Qed.

(** ** Removals *)

(** The outcome of a removal. *)
Definition removed (s s' : st) (U : gset Z) (eid loc : Z) (C : list Z) (aid : Z) : Prop :=
  exists C' U' F', roster s' eid loc C' /\ aid :: members s' loc C' ≡ₚ members s loc C
  /\ store little s' U' F' /\ U' ⊆ U /\ loc ∈ U' /\ (forall x, x ∈ C' -> x ∈ C /\ x ∈ U')
  /\ only s s' (loc :: C) /\ same_entry s s' loc.

Definition discounted (e : prentry) : prentry := set_word 25 (s32 (count e - 1)) e.
Definition unstamped (e : prentry) : prentry := set_word 6 now e.

Lemma PRBADID_int : int32 PRBADID.
Proof. split; vm_compute; discriminate. Qed.

Lemma live_delete l j a : l !! j = Some a -> unused a = false -> a :: live (<[j := PRBADID]> l) ≡ₚ live l.
Proof.
  intros Hj Ha. rewrite <- (live_insert (<[j := PRBADID]> l) j PRBADID a); [| | done | done].
  - by rewrite list_insert_insert_eq, list_insert_id.
  - apply list_lookup_insert_eq. by eapply lookup_lt_Some.
Qed.

Lemma closed_delete l j a : closed l -> l !! j = Some a -> a <> 0 -> closed (<[j := PRBADID]> l).
Proof. intros HC Hj Ha. by apply (closed_insert l j a). Qed.

Lemma once_removed (aid : Z) (l l' : list Z) : aid :: l' ≡ₚ l -> NoDup l -> NoDup l'.
Proof. intros <- HN. by apply NoDup_cons in HN as [_ ?]. Qed.

Section remove.
Context (s : st) (U : gset Z) (F : list Z) (eid loc : Z) (C : list Z) (aid : Z).
Context (HS : store little s U F) (HR : roster s eid loc C) (Hloc : loc ∈ U) (HC : forall x, x ∈ C -> x ∈ U).
Context (Haid : unused aid = false) (Hnow : int32 now).

Lemma removed_keep s' n : store little s' U F -> only s s' (loc :: C) -> same_entry s s' loc -> eof s' = eof s ->
  next (ent little s' loc) = next (ent little s loc) ->
  (forall y k, y ∈ C -> (k < 4)%nat -> nth k (co little s' y) 0 = nth k (co little s y) 0) ->
  slots s loc C !! n = Some aid -> slots s' loc C = <[n := PRBADID]> (slots s loc C) -> removed s s' U eid loc C aid.
Proof.
  intros HS' HO Hsame He Hnx Hw Hn Hslots. pose proof (proj1 (used_cases aid) Haid) as [_ Ha0].
  assert (Hlive : aid :: members s' loc C ≡ₚ members s loc C) by (unfold members; rewrite Hslots; by apply live_delete).
  exists C, U, F. split; [split |].
  - rewrite He. apply HR.
  - destruct Hsame as [_ H]. unfold id. rewrite H by lia. apply HR.
  - rewrite Hnx. apply (links_frame _ _ _ _ (ro_linked _ _ _ _ HR)). intros y Hy. apply Hw; [done | lia].
  - apply HR.
  - rewrite He. apply HR.
  - intros y Hy. unfold co_id, co_flags. rewrite !Hw by (done || lia). by apply (ro_marks _ _ _ _ HR).
  - rewrite Hslots. apply (closed_delete _ _ aid); [apply HR | done | done].
  - apply (once_removed aid _ _ Hlive), HR.
  - split; [done |]. split; [done |]. split; [done |]. split; [done |].
    split; [intros x Hx; split; [done | by apply HC] | by split].
Qed.

Lemma removed_drop s' F' C1 x C2 j : C = C1 ++ x :: C2 -> co_entries (co little s x) !! j = Some aid ->
  forallb unused (<[j := PRBADID]> (co_entries (co little s x))) = true ->
  store little s' (U ∖ {[x]}) F' -> only s s' (loc :: C) -> same_entry s s' loc -> eof s' = eof s ->
  entries (ent little s' loc) = entries (ent little s loc) ->
  next (ent little s' loc) = (if decide (C1 = []) then co_next (co little s x) else next (ent little s loc)) ->
  (forall y, y ∈ C1 ++ C2 -> co little s' y
     = if decide (last C1 = Some y) then co_set_next (co_next (co little s x)) (co little s y) else co little s y) ->
  removed s s' U eid loc C aid.
Proof.
  intros EC Hj Hfree HS' HO Hsame He Hen Hnx Hco. pose proof (proj1 (used_cases aid) Haid) as [_ Ha0].
  pose proof (ro_nodup _ _ _ _ HR) as HN. assert (Hin : forall y, y ∈ C1 ++ C2 -> y ∈ C).
  { intros y Hy. rewrite EC. apply elem_of_app in Hy. rewrite elem_of_app, elem_of_cons. tauto. }
  set (e := co_entries (co little s x)) in *. set (p := entries (ent little s loc) ++ chain_slots s C1).
  assert (Hsl : slots s loc C = p ++ e ++ chain_slots s C2).
  { unfold slots, p. by rewrite EC, chain_slots_app, chain_slots_cons, <- app_assoc. }
  assert (Hsl' : slots s' loc (C1 ++ C2) = p ++ chain_slots s C2).
  { unfold slots, p. rewrite Hen, <- app_assoc, <- chain_slots_app. f_equal. unfold chain_slots. f_equal.
    apply map_ext_in. intros y Hy%list_elem_of_In. rewrite Hco by done. destruct (decide (last C1 = Some y)); [| done].
    apply co_entries_set. lia. }
  assert (Hlive : aid :: members s' loc (C1 ++ C2) ≡ₚ members s loc C).
  { unfold members. rewrite Hsl', Hsl, !live_app. rewrite <- (live_delete e j aid Hj Haid), (live_none _ Hfree).
    cbn [app]. by rewrite Permutation_middle. }
  rewrite EC in HN. apply NoDup_cons in HN as [Hl HN]. pose proof HN as HN'. rewrite <- Permutation_middle in HN'.
  apply NoDup_cons in HN' as [HxC HN'].
  exists (C1 ++ C2), (U ∖ {[x]}), F'. split; [split |].
  - rewrite He. apply HR.
  - destruct Hsame as [_ H]. unfold id. rewrite H by lia. apply HR.
  - apply (linked_drop (fun y => co_next (co little s y)) _ x C2 C1 (next (ent little s loc))); [rewrite <- EC; apply HR | done | | by rewrite Hnx].
    intros y Hy. rewrite Hco by done. destruct (decide (last C1 = Some y)); [| done]. unfold co_next, co_set_next.
    apply nth_lookup_Some, list_lookup_insert_eq. destruct (canonical_decode_co little (file s) y) as (HL & _). unfold co. lia.
  - constructor; [| done]. intros Hy. apply Hl. apply elem_of_app in Hy. rewrite elem_of_app, elem_of_cons. tauto.
  - intros y Hy. rewrite He. by apply (ro_blocks _ _ _ _ HR), Hin.
  - intros y Hy. rewrite Hco by done. pose proof (ro_marks _ _ _ _ HR y (Hin y Hy)) as Hm.
    destruct (decide (last C1 = Some y)); [| done]. unfold co_id, co_flags, co_set_next. by rewrite !co_word_ne by lia.
  - rewrite Hsl'. pose proof (ro_closed _ _ _ _ HR) as Hcl. rewrite Hsl in Hcl. by apply closed_middle in Hcl.
  - apply (once_removed aid _ _ Hlive), HR.
  - split; [done |]. split; [done |]. split; [set_solver |].
    assert (Hlx : loc <> x) by (intros E; apply Hl; rewrite E; apply elem_of_app; right; left).
    split; [set_solver |]. split; [| by split]. intros y Hy. split; [by apply Hin |]. apply elem_of_difference.
    split; [by apply HC, Hin |]. rewrite elem_of_singleton. by intros ->.
Qed.

(** What is done once the identifier is found in the block [x], at [i]. *)
Definition remove_at (tentry : prentry) (hloc : Z) (hentry : contentry) (x : Z) (c : contentry) (i : nat) : M Z :=
  let c := co_set_entry i PRBADID c in
  let finish (tentry : prentry) : M Z :=
    check* code := pr_WriteEntry little loc (discounted tentry) orelse ret PRDBFAIL in ret 0 in
  if forallb unused (co_entries c) then
    if hloc =? 0 then
      check* code := FreeBlock little x orelse ret code in finish (set_word 3 (co_next c) tentry)
    else
      check* code := pr_WriteCoEntry little hloc (co_set_next (co_next c) hentry) orelse ret code in
      check* code := FreeBlock little x orelse ret code in finish tentry
  else check* code := pr_WriteCoEntry little x c orelse ret code in finish tentry.

Lemma remove_walk_spec tentry D : 0 ∉ D ->
  (forall x, x ∈ D -> co_id (co little s x) = eid /\ Z.land (co_flags (co little s x)) PRCONT <> 0) ->
  closed (chain_slots s D) -> forall hloc hentry nptr fuel,
  linked (fun x => co_next (co little s x)) nptr D -> (length D < fuel)%nat ->
  (aid ∉ chain_slots s D /\ remove_walk little aid eid loc tentry hloc hentry nptr fuel s = Some (PRNOENT, s))
  \/ exists D1 x D2 i, D = D1 ++ x :: D2 /\ co_entries (co little s x) !! i = Some aid
     /\ remove_walk little aid eid loc tentry hloc hentry nptr fuel s
        = remove_at tentry (default hloc (last D1)) (match last D1 with Some h => co little s h | None => hentry end) x (co little s x) i s.
Proof.
  pose proof (g_io _ (st_good _ _ _ _ HS)) as Hio. pose proof (proj1 (used_cases aid) Haid) as [_ Ha0].
  induction D as [| x D IH]; intros H0 Hm HD hloc hentry nptr fuel Hl Hf; (destruct fuel as [| fuel]; [cbn in Hf; lia |]);
    cbn [linked] in *.
  - left. cbn [remove_walk]. rewrite Hl. split; [apply not_elem_of_nil | done].
  - destruct Hl as [-> Hl]. apply not_elem_of_cons in H0 as [Hx0 H0]. destruct (Hm x ltac:(left)) as [Hm1 Hm2].
    assert (ER : remove_walk little aid eid loc tentry hloc hentry x (S fuel) s
      = match find_entry aid (co_entries (co little s x)) 0 with
        | At i => remove_at tentry hloc hentry x (co little s x) i s
        | AtEnd => Some (PRNOENT, s)
        | Nowhere => remove_walk little aid eid loc tentry x (co little s x) (co_next (co little s x)) fuel s
        end).
    { cbn [remove_walk]. rewrite (proj2 (Z.eqb_neq x 0)) by done. unfold mbind_ at 1. rewrite read_co_ok by done. cbn [Z.eqb negb].
      rewrite Hm1, Z.eqb_refl, (proj2 (Z.eqb_neq _ _) Hm2). cbn [negb orb]. by destruct (find_entry _ _ _). }
    rewrite ER. clear ER. rewrite chain_slots_cons in HD |- *.
    pose proof (find_entry_spec aid (co_entries (co little s x)) Haid 0) as HF.
    destruct (find_entry _ _ _) as [i | |].
    + right. destruct HF as (k & -> & Hk). exists [], x, D, k. split; [done |]. split; [exact Hk |]. reflexivity.
    + left. destruct HF as (k & Hk & Hb). split; [| done]. by apply (closed_tail _ k).
    + destruct HF as [Hn _].
      destruct (IH H0 ltac:(intros y Hy; apply Hm; by right) (closed_app_r _ _ HD) x (co little s x) _ fuel Hl ltac:(cbn in Hf; lia))
        as [[Hn2 E] | (D1 & y & D2 & i & -> & Hi & E)].
      * left. split; [by apply not_elem_of_app | exact E].
      * right. exists (x :: D1), y, D2, i. split; [done |]. split; [done |]. rewrite E, last_cons. by destruct (last D1).
Qed.

Lemma unstamped_canonical : canonical little (unstamped (ent little s loc)).
Proof. apply canonical_set; [apply ent_canonical, HS | lia | done | done]. Qed.

(** The identifier is in the entry itself. *)
Lemma remove_here j : entries (ent little s loc) !! j = Some aid ->
  removed s (wrote little loc (discounted (set_entry j PRBADID (unstamped (ent little s loc)))) s) U eid loc C aid.
Proof.
  intros Hj. assert (Hj10 : (j < 10)%nat) by (rewrite entries_lookup in Hj; by case_decide).
  set (e' := discounted _). set (s' := wrote _ _ _ _). pose proof (ro_block _ _ _ _ HR) as Hb.
  assert (He' : canonical little e').
  { apply canonical_set; [apply canonical_set; [apply unstamped_canonical | lia | lia | apply PRBADID_int] | lia | done | apply s32_int]. }
  assert (HO : only s s' [loc]) by by apply wrote_only.
  assert (Hent : ent little s' loc = e') by by apply wrote_ent_at.
  assert (Hco : forall y, y ∈ C -> co little s' y = co little s y).
  { intros y Hy. apply (only_co little s s' [loc]); [done | by apply (ro_blocks _ _ _ _ HR) |]. rewrite list_elem_of_singleton. intros E.
    pose proof (ro_nodup _ _ _ _ HR) as [HN _]%NoDup_cons. apply HN. by rewrite <- E. }
  apply (removed_keep s' j); try done.
  - by apply wrote_store.
  - apply (only_one _ _ loc); [done | left].
  - unfold same_entry. rewrite Hent. split; [done |]. intros k H1 H2 H3 H4 H5. unfold e', set_entry, discounted, unstamped.
    by rewrite !word_ne by lia.
  - rewrite Hent. unfold next, e', set_entry, discounted, unstamped. by rewrite !word_ne by lia.
  - intros y k Hy _. by rewrite Hco.
  - by apply lookup_app_l_Some.
  - unfold slots. rewrite Hent, (chain_slots_ext s s') by done. unfold e', discounted. rewrite entries_set_word by lia.
    rewrite entries_set_entry by done. unfold unstamped. rewrite entries_set_word by lia.
    by rewrite insert_app_l by (by eapply lookup_lt_Some).
Qed.

Lemma loc_C y : y ∈ C -> y <> loc.
Proof. intros Hy E. pose proof (ro_nodup _ _ _ _ HR) as [HN _]%NoDup_cons. apply HN. by rewrite <- E. Qed.

Section inside.
Context (C1 : list Z) (x : Z) (C2 : list Z) (i : nat) (EC : C = C1 ++ x :: C2) (Hi : co_entries (co little s x) !! i = Some aid).

Lemma x_in_C : x ∈ C.
Proof. rewrite EC. apply elem_of_app. right. left. Qed.

Lemma emptied_canonical : canonical_co little (co_set_entry i PRBADID (co little s x)).
Proof. apply canonical_co_set; [apply canonical_decode_co | lia | apply PRBADID_int]. Qed.

Lemma index_39 : (i < 39)%nat.
Proof. rewrite co_entries_lookup in Hi. by case_decide. Qed.

(** The block is kept. *)
Lemma remove_keeping :
  let s1 := wrote_co little x (co_set_entry i PRBADID (co little s x)) s in
  removed s (wrote little loc (discounted (unstamped (ent little s loc))) s1) U eid loc C aid.
Proof.
  intros s1. set (c' := co_set_entry _ _ _) in *. set (e' := discounted _). set (s' := wrote _ _ _ _).
  pose proof (ro_block _ _ _ _ HR) as Hb. pose proof x_in_C as Hx. pose proof index_39 as Hi39. pose proof emptied_canonical as Hc'. fold c' in Hc'.
  pose proof (ro_blocks _ _ _ _ HR x Hx) as Hbx. pose proof (lookup_lt_Some _ _ _ Hi) as Hil.
  assert (He' : canonical little e') by (apply canonical_set; [apply unstamped_canonical | lia | done | apply s32_int]).
  assert (HO1 : only s s1 [x]) by by apply wrote_co_only.
  assert (HO2 : only s1 s' [loc]) by by apply wrote_only.
  assert (Hent : ent little s' loc = e') by by apply wrote_ent_at.
  assert (Hco : forall y, y ∈ C -> co little s' y = if decide (y = x) then c' else co little s y).
  { intros y Hy. pose proof (ro_blocks _ _ _ _ HR y Hy) as Hby.
    rewrite (only_co little s1 s' [loc]); [| done | exact Hby | rewrite list_elem_of_singleton; by apply loc_C].
    destruct (decide (y = x)) as [-> | Hne]; [by apply wrote_co_at |].
    apply (only_co little s s1 [x]); [done | done | by rewrite list_elem_of_singleton]. }
  set (p := entries (ent little s loc) ++ chain_slots s C1).
  assert (Hsl : slots s loc C = p ++ co_entries (co little s x) ++ chain_slots s C2).
  { unfold slots, p. by rewrite EC, chain_slots_app, chain_slots_cons, <- app_assoc. }
  assert (HN : x ∉ C1 ++ C2).
  { pose proof (ro_nodup _ _ _ _ HR) as [_ HN]%NoDup_cons. rewrite EC, <- Permutation_middle in HN. by apply NoDup_cons in HN as [? _]. }
  assert (Hrest : forall D, (forall y, y ∈ D -> y ∈ C1 ++ C2) -> chain_slots s' D = chain_slots s D).
  { intros D HD. apply chain_slots_ext. intros y Hy. specialize (HD y Hy). rewrite Hco.
    - rewrite decide_False; [done |]. by intros ->.
    - rewrite EC. apply elem_of_app in HD. rewrite elem_of_app, elem_of_cons. tauto. }
  apply (removed_keep s' (length p + i)); try done.
  - apply wrote_store; [apply wrote_co_store; [done | by apply HC | done] | done | done].
  - apply (only_trans s s1); [apply (only_one _ _ x); [done | by right] | apply (only_one _ _ loc); [done | left]].
  - unfold same_entry. rewrite Hent. split; [done |]. intros k H1 H2 H3 H4 H5. unfold e', discounted, unstamped. by rewrite !word_ne by lia.
  - rewrite Hent. unfold next, e', discounted, unstamped. by rewrite !word_ne by lia.
  - intros y k Hy Hk. rewrite Hco by done. destruct (decide (y = x)) as [-> | ?]; [| done]. unfold c', co_set_entry.
    by rewrite co_word_ne by lia.
  - rewrite Hsl, lookup_app_r by lia. rewrite Nat.add_comm, Nat.add_sub. by apply lookup_app_l_Some.
  - rewrite Hsl, insert_after by done. unfold slots. rewrite Hent, EC, chain_slots_app, chain_slots_cons.
    rewrite Hco, decide_True by done. unfold c'. rewrite co_entries_set_entry by done.
    rewrite (Hrest C1), (Hrest C2) by (intros y Hy; apply elem_of_app; tauto). unfold e', discounted, unstamped.
    rewrite !entries_set_word by lia. unfold p. by rewrite <- app_assoc.
Qed.

(** The block is freed: [s1] is the state after its predecessor is written, and
    [e] the entry to write. *)
Lemma remove_freeing s1 e : forallb unused (<[i := PRBADID]> (co_entries (co little s x))) = true ->
  store little s1 U F -> only s s1 C1 -> eof s1 = eof s -> canonical little e ->
  entries e = entries (ent little s loc) -> name e = name (ent little s loc) ->
  (forall k, (k < 9 \/ 19 <= k)%nat -> k <> 3%nat -> k <> 5%nat -> k <> 6%nat -> k <> 25%nat -> word k e = word k (ent little s loc)) ->
  next e = (if decide (C1 = []) then co_next (co little s x) else next (ent little s loc)) ->
  (forall y, y ∈ C1 ++ C2 -> co little s1 y
     = if decide (last C1 = Some y) then co_set_next (co_next (co little s x)) (co little s y) else co little s y) ->
  exists s2, FreeBlock little x s1 = Some (PRSUCCESS, s2) /\ good s2
    /\ removed s (wrote little loc e s2) U eid loc C aid.
Proof.
  intros Hfree HS1 HO1 He1 He Hen Hnm Hw Hnx Hco. pose proof x_in_C as Hx. pose proof (ro_block _ _ _ _ HR) as Hb.
  destruct (free_ok little s1 U F x HS1 ltac:(by apply HC)) as (s2 & EF & HS2 & He2 & HO2). exists s2. split; [done |].
  split; [apply HS2 |]. set (s' := wrote _ _ _ _). assert (Hlx : x <> loc) by by apply loc_C.
  assert (Hb2 : block (eof s2) loc) by (rewrite He2, He1; done).
  assert (HO3 : only s2 s' [loc]) by by apply wrote_only.
  assert (Hent : ent little s' loc = e) by by apply wrote_ent_at.
  assert (HN : x ∉ C1 ++ C2).
  { pose proof (ro_nodup _ _ _ _ HR) as [_ HN]%NoDup_cons. rewrite EC, <- Permutation_middle in HN. by apply NoDup_cons in HN as [? _]. }
  assert (Hin : forall y, y ∈ C1 ++ C2 -> y ∈ C).
  { intros y Hy. rewrite EC. apply elem_of_app in Hy. rewrite elem_of_app, elem_of_cons. tauto. }
  apply (removed_drop s' (x :: F) C1 x C2 i); try done.
  - apply wrote_store; [done | apply elem_of_difference; split; [done | by rewrite elem_of_singleton; apply not_eq_sym] | done].
  - apply (only_trans s s1); [| apply (only_trans s1 s2); [apply (only_one _ _ x); [done | by right] | apply (only_one _ _ loc); [done | left]]].
    apply (only_weaken _ _ C1); [done |]. intros y Hy _. right. apply Hin, elem_of_app. by left.
  - unfold same_entry. by rewrite Hent.
  - change (eof s') with (eof s2). by rewrite He2.
  - by rewrite Hent.
  - by rewrite Hent.
  - intros y Hy. rewrite <- Hco by done. pose proof (ro_blocks _ _ _ _ HR y (Hin y Hy)) as Hby.
    rewrite (only_co little s2 s' [loc]); [| done | rewrite He2, He1; done | rewrite list_elem_of_singleton; by apply loc_C, Hin].
    apply (only_co little s1 s2 [x]); [done | by rewrite He1 |]. rewrite list_elem_of_singleton. by intros ->.
Qed.

Lemma remove_inside : exists s',
  remove_at (unstamped (ent little s loc)) (default 0 (last C1)) (match last C1 with Some h => co little s h | None => [] end)
    x (co little s x) i s = Some (0, s') /\ removed s s' U eid loc C aid.
Proof.
  pose proof (st_good _ _ _ _ HS) as HG. pose proof x_in_C as Hx. pose proof (ro_blocks _ _ _ _ HR x Hx) as Hbx.
  pose proof (ro_block _ _ _ _ HR) as Hb. unfold remove_at. rewrite co_entries_set_entry by apply index_39.
  assert (Enx : co_next (co_set_entry i PRBADID (co little s x)) = co_next (co little s x)) by (unfold co_next, co_set_entry; apply co_word_ne; lia).
  assert (Hxi : int32 (co_next (co little s x))).
  { destruct (canonical_decode_co little (file s) x) as (HL & HI & _). unfold co_next. rewrite Forall_forall in HI. apply HI.
    apply list_elem_of_In, nth_In. lia. }
  set (e := unstamped (ent little s loc)). assert (Hce : canonical little e) by apply unstamped_canonical.
  destruct (forallb unused _) eqn:Hfree.
  2: { eexists. split; [| apply remove_keeping]. unfold mbind_ at 1. rewrite write_co_ok; [| apply HG | apply Hbx]. cbn [Z.eqb negb].
       unfold mbind_. rewrite write_entry_ok; [done | apply HG | apply Hb]. }
  assert (Hkeep : forall e1, name e1 = name e -> (forall k, k <> 3%nat -> word k e1 = word k e) ->
     forall k, (k < 9 \/ 19 <= k)%nat -> k <> 3%nat -> k <> 5%nat -> k <> 6%nat -> k <> 25%nat -> word k (discounted e1) = word k (ent little s loc)).
  { intros e1 _ H1 k K1 K2 K3 K4 K5. unfold discounted. rewrite word_ne, H1 by lia. unfold e, unstamped. by rewrite word_ne by lia. }
  rewrite Enx. destruct (last C1) as [h |] eqn:El; [change (default 0 (Some h)) with h | change (default 0 (@None Z)) with 0].
  - assert (Hh : h ∈ C1) by by apply last_Some_elem_of. assert (HhC : h ∈ C) by (rewrite EC; apply elem_of_app; by left).
    pose proof (ro_blocks _ _ _ _ HR h HhC) as Hbh. rewrite (proj2 (Z.eqb_neq h 0)) by (by eapply block_nonzero).
    set (ch := co_set_next _ _). set (s1 := wrote_co little h ch s).
    assert (Hch : canonical_co little ch) by (apply canonical_co_set; [apply canonical_decode_co | lia | done]).
    destruct (remove_freeing s1 (discounted e)) as (s2 & EF & HG2 & HRm); try done.
    + by apply wrote_co_store; [| apply HC |].
    + apply (only_one _ _ h); [by apply wrote_co_only | done].
    + by apply canonical_set; [| lia | | apply s32_int].
    + unfold discounted, e, unstamped. by rewrite !entries_set_word by lia.
    + by apply Hkeep.
    + rewrite decide_False by (intros E; by rewrite E in El). unfold next, discounted, e, unstamped. by rewrite !word_ne by lia.
    + intros y Hy. assert (HyC : y ∈ C) by (rewrite EC; apply elem_of_app in Hy; rewrite elem_of_app, elem_of_cons; tauto).
      rewrite El. destruct (decide (Some h = Some y)) as [[= <-] | Hne]; [by apply wrote_co_at |].
      apply (only_co little s s1 [h]); [by apply wrote_co_only | by apply (ro_blocks _ _ _ _ HR) |]. rewrite list_elem_of_singleton. congruence.
    + eexists. split; [| exact HRm]. unfold mbind_ at 1. rewrite write_co_ok; [| apply HG | apply Hbh]. cbn [Z.eqb negb].
      change (wrote_co little h _ s) with s1. unfold mbind_ at 1. rewrite EF. cbn [Z.eqb negb PRSUCCESS]. unfold mbind_. rewrite write_entry_ok; [done | apply HG2 | apply Hb].
  - apply last_None in El. cbn [Z.eqb]. set (e3 := set_word 3 _ e).
    assert (Hc3 : canonical little e3) by (by apply canonical_set; [| lia | |]).
    destruct (remove_freeing s (discounted e3)) as (s2 & EF & HG2 & HRm); try done.
    + by apply canonical_set; [| lia | | apply s32_int].
    + unfold discounted, e3, e, unstamped. by rewrite !entries_set_word by lia.
    + apply Hkeep; [done |]. intros k Hk. by apply word_ne.
    + rewrite decide_True by done. unfold next, discounted. rewrite word_ne by lia. apply word_eq. destruct Hce as (HL & _). lia.
    + intros y Hy. by rewrite El, decide_False.
    + eexists. split; [| exact HRm]. unfold mbind_ at 1. rewrite EF. cbn [Z.eqb negb PRSUCCESS]. unfold mbind_.
      rewrite write_entry_ok; [done | apply HG2 | apply Hb].
Qed.
End inside.

Lemma RemoveFromEntry_run I N : tables little s I N -> I !! eid = Some loc -> bad_id eid = false -> aid <> eid ->
  if decide (aid ∈ slots s loc C)
  then exists s', RemoveFromEntry little now aid eid s = Some (PRSUCCESS, s') /\ removed s s' U eid loc C aid
  else RemoveFromEntry little now aid eid s = Some (PRNOENT, s).
Proof.
  intros HT HI Hbad Hne. pose proof (st_good _ _ _ _ HS) as HG. pose proof (ro_block _ _ _ _ HR) as Hb.
  assert (ER : RemoveFromEntry little now aid eid s
    = match find_entry aid (entries (ent little s loc)) 0 with
      | At j => Some (PRSUCCESS, wrote little loc (discounted (set_entry j PRBADID (unstamped (ent little s loc)))) s)
      | AtEnd => Some (PRNOENT, s)
      | Nowhere => remove_walk little aid eid loc (unstamped (ent little s loc)) 0 [] (next (ent little s loc)) (chain_fuel (cheader s)) s
      end).
  { unfold RemoveFromEntry. rewrite (proj2 (Z.eqb_neq aid eid)) by done. unfold mbind_ at 1.
    rewrite (find_id little s I N eid HT Hbad), HI. change (default 0 (Some loc)) with loc.
    rewrite (proj2 (Z.eqb_neq loc 0)) by (by eapply block_nonzero). unfold mbind_ at 1. rewrite read_entry_ok by apply HG. cbn [Z.eqb negb].
    rewrite entries_set_word by lia. destruct (find_entry _ _ _) as [j | |]; [| done |].
    - unfold mbind_. rewrite write_entry_ok; [done | apply HG | apply Hb].
    - unfold mbind_ at 1, get_header. unfold next at 1. by rewrite word_ne by lia. }
  rewrite ER. clear ER. pose proof (ro_closed _ _ _ _ HR) as Hcl. unfold slots in Hcl |- *.
  pose proof (find_entry_spec aid (entries (ent little s loc)) Haid 0) as HF. pose proof (proj1 (used_cases aid) Haid) as [_ Ha0].
  destruct (find_entry _ _ _) as [j | |].
  - destruct HF as (k & -> & Hk). rewrite decide_True by (apply elem_of_app; left; by eapply list_elem_of_lookup_2).
    eexists. split; [done |]. by apply remove_here.
  - destruct HF as (k & Hk & Hbefore). rewrite decide_False; [done |]. by apply (closed_tail _ k).
  - destruct HF as [Hn _].
    destruct (remove_walk_spec (unstamped (ent little s loc)) C (roster_nonzero _ _ _ _ HR) (ro_marks _ _ _ _ HR) (closed_app_r _ _ Hcl) 0 [] _ _
      (ro_linked _ _ _ _ HR) (roster_fuel _ _ _ _ HG HR)) as [[Hn2 ->] | (C1 & x & C2 & i & EC & Hi & ->)].
    + rewrite decide_False; [done |]. by rewrite not_elem_of_app.
    + rewrite decide_True.
      * by apply (remove_inside C1 x C2 i).
      * apply elem_of_app. right. rewrite EC, chain_slots_app, chain_slots_cons. apply elem_of_app. right. apply elem_of_app. left.
        by eapply list_elem_of_lookup_2.
Qed.
End remove.

(** C29. RemoveFromEntry takes from the set: an identifier that is not there is
    answered with PRNOENT and nothing changes; one that is there goes, and
    nothing else does, wherever it is. A continuation block in which nothing is
    left is taken out of the chain and freed, so that it can be handed out
    again; the chain stays well formed and nothing but the entry and its blocks
    is written. *)
Theorem RemoveFromEntry_removes s I N U F eid loc C aid : store little s U F -> tables little s I N -> roster s eid loc C ->
  loc ∈ U -> (forall x, x ∈ C -> x ∈ U) -> unused aid = false -> int32 now -> I !! eid = Some loc -> bad_id eid = false -> aid <> eid ->
  if decide (aid ∈ members s loc C)
  then exists s', RemoveFromEntry little now aid eid s = Some (PRSUCCESS, s') /\ removed s s' U eid loc C aid
  else RemoveFromEntry little now aid eid s = Some (PRNOENT, s).
Proof.
  intros HS HT HR Hloc HC Ha Hn HI Hb Hne.
  pose proof (RemoveFromEntry_run s U F eid loc C aid HS HR Hloc HC Ha Hn I N HT HI Hb Hne) as H.
  unfold members. destruct (decide (aid ∈ slots s loc C)) as [E | E]; case_decide as E'; rewrite elem_of_live in E'; tauto.
Qed.

(** ** Membership *)

Lemma scan_entries_spec aid l : unused aid = false ->
  match scan_entries aid l with
  | Found => aid ∈ l
  | Ended => exists k, l !! k = Some 0 /\ forall k', (k' < k)%nat -> l !! k' <> Some aid
  | More => aid ∉ l
  end.
Proof.
  intros Ha. pose proof (proj1 (used_cases aid) Ha) as [_ Ha0].
  induction l as [| x l IH]; cbn [scan_entries]; [apply not_elem_of_nil |].
  destruct (Z.eqb_spec x 0) as [-> | Hx0]; [exists 0%nat; split; [done | lia] |].
  destruct (Z.eqb_spec x aid) as [-> | Hx]; [left |]. destruct (scan_entries aid l).
  - by right.
  - destruct IH as (k & Hk & Hb). exists (S k). split; [done |]. intros [| k'] Hk'; cbn; [congruence |]. apply Hb. lia.
  - by apply not_elem_of_cons.
Qed.

Lemma scan_blocks_spec s aid D : io s = [] -> unused aid = false -> 0 ∉ D -> closed (chain_slots s D) ->
  forall nptr fuel, linked (fun x => co_next (co little s x)) nptr D -> (length D < fuel)%nat ->
  scan_blocks little aid nptr fuel s = Some (if decide (aid ∈ chain_slots s D) then 1 else 0, s).
Proof.
  intros Hio Ha. pose proof (proj1 (used_cases aid) Ha) as [_ Ha0].
  induction D as [| x D IH]; intros H0 HD nptr fuel Hl Hf; (destruct fuel as [| fuel]; [cbn in Hf; lia |]); cbn [scan_blocks linked] in *.
  - rewrite Hl. by rewrite decide_False by apply not_elem_of_nil.
  - destruct Hl as [-> Hl]. apply not_elem_of_cons in H0 as [Hx0 H0]. rewrite (proj2 (Z.eqb_neq x 0)) by done.
    unfold mbind_. rewrite read_co_ok by done. cbn [Z.eqb negb]. rewrite chain_slots_cons in HD |- *.
    pose proof (scan_entries_spec aid (co_entries (co little s x)) Ha) as HF. destruct (scan_entries _ _).
    + by rewrite decide_True by (apply elem_of_app; by left).
    + destruct HF as (k & Hk & Hb). by rewrite decide_False by (by apply (closed_tail _ k)).
    + rewrite (IH H0 (closed_app_r _ _ HD) _ fuel Hl) by (cbn in Hf; lia). do 2 f_equal. by apply decide_ext; rewrite elem_of_app; tauto.
Qed.

(** The memberships that are not looked up. *)
Definition by_rule (aid gid : Z) : bool :=
  (gid =? ANYUSERID) || ((gid =? AUTHUSERID) && negb (aid =? ANONYMOUSID)) || ((gid =? SYSADMINID) && (aid =? SYSADMINID)).

(** IsAMemberOf answers, for any identifier and any group: everyone is in
    system:anyuser, all but anonymous in system:authuser, the administrators'
    identifier in its own group; otherwise exactly the identifiers in the slots
    of the group's entry and of its continuation blocks are members; a group
    that does not exist, or a user, has none. It ends and changes nothing. *)
Theorem IsAMemberOf_asks s I N aid gid C : tables little s I N -> unused aid = false -> bad_id gid = false ->
  (forall loc, I !! gid = Some loc -> roster s gid loc C) ->
  IsAMemberOf little aid gid s
  = Some (if by_rule aid gid || match I !! gid with
            | Some loc => negb (Z.land (flags (ent little s loc)) PRGRP =? 0) && bool_decide (aid ∈ members s loc C)
            | None => false
            end then 1 else 0, s).
Proof.
  intros HT Ha Hb HC. pose proof (proj1 (used_cases aid) Ha) as [_ Ha0]. unfold IsAMemberOf, by_rule.
  destruct (gid =? ANYUSERID); [done |]. destruct (_ && negb _); [done |]. destruct (_ && (aid =? SYSADMINID)); [done |]. cbn [orb].
  apply orb_false_iff in Hb as Hb0. destruct Hb0 as [_ Hb0]. rewrite Hb0, (proj2 (Z.eqb_neq aid 0)) by done. cbn [orb].
  unfold mbind_ at 1. rewrite (find_id little s I N gid HT Hb). destruct (I !! gid) as [loc |] eqn:EI; [| done].
  change (default 0 (Some loc)) with loc. pose proof (HC loc eq_refl) as HR. pose proof (t_good _ _ _ _ HT) as HG.
  rewrite (proj2 (Z.eqb_neq loc 0)) by (by eapply id_nonzero). unfold mbind_ at 1. rewrite read_entry_ok by apply HG. cbn [Z.eqb negb].
  destruct (Z.land _ PRGRP =? 0); [done |]. cbn [negb andb]. unfold members.
  pose proof (ro_closed _ _ _ _ HR) as Hcl. unfold slots in Hcl |- *.
  assert (Hd : forall b : bool, (b = true <-> aid ∈ entries (ent little s loc) ++ chain_slots s C) ->
    bool_decide (aid ∈ live (entries (ent little s loc) ++ chain_slots s C)) = b).
  { intros b Hbb. apply eq_true_iff_eq. rewrite bool_decide_eq_true, elem_of_live. tauto. }
  pose proof (scan_entries_spec aid (entries (ent little s loc)) Ha) as HF. destruct (scan_entries _ _).
  - rewrite (Hd true); [done |]. rewrite elem_of_app. tauto.
  - destruct HF as (k & Hk & Hbf). rewrite (Hd false); [done |]. split; [done |]. by intros ?%(closed_tail _ k).
  - unfold mbind_, get_header.
    rewrite (scan_blocks_spec s aid C (g_io _ HG) Ha (roster_nonzero _ _ _ _ HR) (closed_app_r _ _ Hcl) _ _ (ro_linked _ _ _ _ HR) (roster_fuel _ _ _ _ HG HR)).
    destruct (decide (aid ∈ chain_slots s C)) as [E | E].
    + rewrite (Hd true); [done |]. rewrite elem_of_app. tauto.
    + rewrite (Hd false); [done |]. rewrite elem_of_app. split; [done | tauto].
Qed.
End groups.

(** ** A group with one member *)

Definition group5m : prentry := set_word 25 1 (set_word 9 7 group5).
Definition grouped : st :=
  wrote true blockB group5m (wrote true blockA user7 (header_set (set_idHash 5 blockB) (id_pos 5) blockB (blank 2))).

Lemma group5m_canonical : canonical true group5m.
Proof.
  apply canonical_set; [| lia | done | split; vm_compute; discriminate].
  apply canonical_set; [apply group5_canonical | lia | done | split; vm_compute; discriminate].
Qed.

Lemma blocks2 x : x = blockA \/ x = blockB -> block (eof (blank 2)) x.
Proof. intros [-> | ->]; unfold block, eof, blockA, blockB, blank, ENTRYSIZE; cbn [cheader eofPtr]; zdiv. Qed.

Lemma grouped_store : store true grouped {[blockA; blockB]} [].
Proof.
  assert (HB : store true (blank 2) {[blockA; blockB]} []).
  { replace ({[blockA; blockB]} : gset Z) with (list_to_set (map (fun k => HEADERSIZE + Z.of_nat k * ENTRYSIZE) (seq 0 (Z.to_nat 2))) : gset Z)
      by (apply set_eq; intros x; cbn; set_solver).
    by apply blank_store. }
  apply wrote_store; [apply wrote_store | set_solver | apply group5m_canonical]; [| set_solver | apply user7_canonical].
  split; [| | apply (st_used _ _ _ _ HB) | apply (st_all _ _ _ _ HB)].
  - apply header_set_good; [apply HB | by apply id_header_pos | by apply sets_idHash | split; vm_compute; discriminate | apply HB | apply HB].
  - split; [done | constructor |]. intros x Hx. by apply not_elem_of_nil in Hx.
Qed.

Lemma grouped_ent : ent true grouped blockB = group5m.
Proof. apply wrote_ent_at, group5m_canonical. Qed.

Lemma grouped_tables : tables true grouped {[-5 := blockB]} ∅.
Proof.
  split; [apply grouped_store | | by apply empty_index; intros j; unfold bucket; cbn; rewrite lookup_empty].
  exists (fun j => if decide (j = 5) then [blockB] else []). split; [split |].
  - intros i Hi. cbn [head by_id ptr]. change (idHash (cheader grouped)) with (<[5 := blockB]> (∅ : gmap Z Z)).
    rewrite bucket_insert. case_decide; [| unfold bucket; by rewrite lookup_empty]. split; [done |]. by rewrite grouped_ent.
  - intros i x Hi Hx. case_decide; [| by apply not_elem_of_nil in Hx]. apply list_elem_of_singleton in Hx as ->.
    split; [apply blocks2; by right |]. cbn [hash key by_id]. rewrite grouped_ent. by subst i.
  - intros i Hi. case_decide; cbn [map]; repeat constructor. apply not_elem_of_nil.
  - intros a x. cbn [hash key by_id]. rewrite lookup_singleton_Some. split.
    + intros [<- <-]. rewrite decide_True by done. rewrite grouped_ent. split; [left | done].
    + intros [Hx Hk]. case_decide; [| by apply not_elem_of_nil in Hx]. apply list_elem_of_singleton in Hx as ->.
      rewrite grouped_ent in Hk. split; [by rewrite <- Hk | done].
Qed.

Lemma grouped_slots : slots true grouped blockB [] = 7 :: replicate 9 0.
Proof. unfold slots, chain_slots. rewrite grouped_ent. reflexivity. Qed.

Lemma grouped_roster : roster true grouped (-5) blockB [].
Proof.
  split.
  - apply blocks2. by right.
  - by rewrite grouped_ent.
  - by rewrite grouped_ent.
  - constructor; [apply not_elem_of_nil | constructor].
  - intros x Hx. by apply not_elem_of_nil in Hx.
  - intros x Hx. by apply not_elem_of_nil in Hx.
  - rewrite grouped_slots. by apply (closed_full [] 7 9).
  - unfold members. rewrite grouped_slots. change (live (7 :: replicate 9 0)) with [7].
    constructor; [apply not_elem_of_nil | constructor].
Qed.

Lemma grouped_members : members true grouped blockB [] = [7].
Proof. unfold members. by rewrite grouped_slots. Qed.

Lemma AddToEntry_adds_witness :
  AddToEntry true 0 (ent true grouped blockB) blockB 7 grouped = Some (PRIDEXIST, grouped)
  /\ exists s', AddToEntry true 0 (ent true grouped blockB) blockB 8 grouped = Some (PRSUCCESS, s')
     /\ exists C', members true s' blockB C' ≡ₚ [8; 7].
Proof.
  assert (H : forall aid, aid = 7 \/ aid = 8 -> unused aid = false /\ int32 aid /\ aid <> -5).
  { intros aid [-> | ->]; (split; [done |]); (split; [split; vm_compute; discriminate | lia]). }
  pose proof (fun aid (Ha : aid = 7 \/ aid = 8) => AddToEntry_adds true 0 grouped {[blockA; blockB]} [] (-5) blockB [] aid grouped_store grouped_roster
    ltac:(set_solver) ltac:(by intros x Hx%not_elem_of_nil) ltac:(right; vm_compute; discriminate) (proj1 (H aid Ha)) (proj1 (proj2 (H aid Ha)))
    int32_zero (proj2 (proj2 (H aid Ha)))) as HA. rewrite grouped_members in HA. split.
  - specialize (HA 7 ltac:(by left)). by rewrite decide_True in HA by left.
  - specialize (HA 8 ltac:(by right)). rewrite decide_False in HA by (rewrite list_elem_of_singleton; lia).
    destruct HA as (s' & E & C' & U' & F' & _ & HP & _). exists s'. split; [exact E |]. exists C'. by rewrite grouped_members in HP.
Defined.

Lemma RemoveFromEntry_removes_witness : exists s', RemoveFromEntry true 0 7 (-5) grouped = Some (PRSUCCESS, s')
  /\ exists C', 7 :: members true s' blockB C' ≡ₚ [7].
Proof.
  pose proof (RemoveFromEntry_removes true 0 grouped {[-5 := blockB]} ∅ {[blockA; blockB]} [] (-5) blockB [] 7 grouped_store grouped_tables grouped_roster
    ltac:(set_solver) ltac:(by intros x Hx%not_elem_of_nil) eq_refl int32_zero eq_refl eq_refl ltac:(lia)) as HA.
  rewrite grouped_members in HA. rewrite decide_True in HA by left. destruct HA as (s' & E & C' & U' & F' & _ & HP & _).
  exists s'. split; [exact E |]. exists C'. by rewrite grouped_members in HP.
Defined.

Lemma IsAMemberOf_asks_witness : IsAMemberOf true 7 (-5) grouped = Some (1, grouped) /\ IsAMemberOf true 8 (-5) grouped = Some (0, grouped).
Proof.
  assert (HC : forall loc, ({[-5 := blockB]} : gmap Z Z) !! (-5) = Some loc -> roster true grouped (-5) loc []).
  { intros loc. rewrite lookup_singleton_eq. intros [= <-]. apply grouped_roster. }
  pose proof (fun aid (Ha : unused aid = false) => IsAMemberOf_asks true grouped {[-5 := blockB]} ∅ aid (-5) [] grouped_tables Ha eq_refl HC) as H.
  rewrite lookup_singleton_eq, grouped_members, grouped_ent in H.
  split; [apply (H 7 eq_refl) | apply (H 8 eq_refl)].
Defined.
