(* ===== verification/PtUsers.v ===== *)
(** The protection database, users: what [CreateEntry] makes of the tables and
    of the store of blocks, and the identifiers of foreign users. *)
From S2P Require Import Prelude Bytes UbikFile PtDb PtSpec PtOps PtUtils PtGroups.

#[local] Open Scope ubik_scope.

(** ** The whole database *)

Section database.
Context (little : bool).

(** The tables lead to blocks in use. *)
Record database (s : st) (I : gmap Z Z) (N : gmap (list Z) Z) (U : gset Z) (F : list Z) : Prop := {
  db_tables : tables little s I N;
  db_store : store little s U F;
  db_ids : forall a x, I !! a = Some x -> x ∈ U;
  db_names : forall a x, N !! a = Some x -> x ∈ U
}.

Lemma only_tables s s' I N B : tables little s I N -> good s' -> only s s' B ->
  (forall a x, I !! a = Some x -> x ∉ B) -> (forall a x, N !! a = Some x -> x ∉ B) -> tables little s' I N.
Proof.
  intros [HG HI HN] HG' HO HBI HBN. split; [done | |].
  - apply (index_keep little by_id s); [done | done | apply HO | | intros j; cbn; by rewrite (on_ids _ _ _ HO) | apply hash_range].
    intros a y Hy. destruct (index_block little by_id s I a y HG HI Hy) as [Hb _].
    by rewrite (only_ent little s s' B y) by (done || by eapply HBI).
  - apply (index_keep little by_name s); [done | done | apply HO | | intros j; cbn; by rewrite (on_names _ _ _ HO) | apply hash_range].
    intros a y Hy. destruct (index_block little by_name s N a y HG HN Hy) as [Hb _].
    by rewrite (only_ent little s s' B y) by (done || by eapply HBN).
Qed.

(** Allocation. *)
Lemma database_alloc s I N U F : database s I N U F -> room s F ->
  exists x s', AllocBlock little s = Some (x, s') /\ x ∉ U /\ database s' I N ({[x]} ∪ U) (tail F)
    /\ maxID (cheader s') = maxID (cheader s).
Proof.
  intros [HT HS HI HN] HR. destruct (alloc_ok little s U F HS HR) as (x & s' & E & _ & HxU & HS' & HO & Hm).
  exists x, s'. split; [done |]. split; [done |]. split; [| done]. split; [| done | |].
  - apply (only_tables s s' I N []); [done | apply HS' | done | |]; intros; apply not_elem_of_nil.
  - intros a y Hy. apply elem_of_union. right. by eapply HI.
  - intros a y Hy. apply elem_of_union. right. by eapply HN.
Qed.

(** A word of the header that neither the tables nor the store depend on. *)
Lemma database_header s f p v I N U F : database s I N U F -> header_pos p -> sets f p v -> int32 v ->
  (forall h, eofPtr (f h) = eofPtr h /\ nameHash (f h) = nameHash h /\ idHash (f h) = idHash h /\ freePtr (f h) = freePtr h) ->
  database (header_set f p v s) I N U F.
Proof.
  intros [HT HS HI HN] Hp Hf Hv Hh. destruct (Hh (cheader s)) as (E1 & E2 & E3 & E4).
  assert (HT' : tables little (header_set f p v s) I N) by (apply header_tables; try done; intros h; split; [apply Hh | split; apply Hh]).
  split; [done | | done | done]. destruct HS as [HG HF HU HA].
  assert (HO : only s (header_set f p v s) []) by (apply header_only; [done | unfold eof; lia | done | done]).
  assert (He : eof (header_set f p v s) = eof s) by done.
  split; [apply HT' | | by rewrite He | by rewrite He].
  apply (freed_frame little s); [done | done | lia |]. intros y Hy.
  rewrite (only_ent little s _ []); [done | done | by apply (fr_block _ _ _ HF) | apply not_elem_of_nil].
Qed.

(** A block that is in use and not in the tables is written. *)
Lemma database_wrote s I N U F x e : database s I N U F -> x ∈ U -> canonical little e ->
  (forall a, I !! a <> Some x) -> (forall a, N !! a <> Some x) -> database (wrote little x e s) I N U F.
Proof.
  intros [HT HS HI HN] Hx He HxI HxN. pose proof (proj1 (st_used _ _ _ _ HS x Hx)) as Hb.
  split; [| by apply wrote_store | done | done].
  apply (only_tables s _ I N [x]); [done | by apply wrote_good; [apply HT | |] | by apply wrote_only | |];
    intros a y Hy E%list_elem_of_singleton; subst y; naive_solver.
Qed.

(** The tables' own writes leave the free list. *)
Lemma frame_store {K} `{Countable K} (c : kind K) s s' U F : ptr c <> 3%nat ->
  (forall i v h, freePtr (sethead c i v h) = freePtr h) ->
  store little s U F -> good s' -> frame little c s s' -> store little s' U F.
Proof.
  intros Hp Hf [HG HF HU HA] HG' HFr. pose proof (f_eof _ _ _ _ HFr) as He.
  split; [done | | by rewrite He | by rewrite He].
  apply (freed_frame little s); [done | destruct (f_header _ _ _ _ HFr) as [-> | (i & v & _ & ->)]; [done | apply Hf] | lia |].
  intros y Hy. apply (f_word _ _ _ _ HFr); [by apply (fr_block _ _ _ HF) | congruence].
Qed.
End database.

(** ** Creating a user *)

Section create.
Context (little : bool) (now : Z) (conf : settings).

Lemma database_add_id s I N U F i x : database little s I N U F -> bad_id i = false -> I !! i = None -> x ∈ U ->
  id (ent little s x) = i ->
  exists s', AddToIDHash little i x s = Some (PRSUCCESS, s') /\ database little s' (<[i := x]> I) N U F /\ frame little by_id s s'.
Proof.
  intros [HT HS HI HN] Hb Hno Hx Hk.
  destruct (add_id little s I N i x HT Hb Hno (proj1 (st_used _ _ _ _ HS x Hx)) Hk) as (s' & E & HT' & HF).
  exists s'. split; [done |]. split; [| done]. split; [done | | | done].
  - apply (frame_store little by_id s); try done. apply HT'.
  - intros a y [[<- <-] | [_ Hy]]%lookup_insert_Some; [done | by eapply HI].
Qed.

Lemma database_add_name s I N U F nm x : database little s I N U F -> N !! nm = None -> x ∈ U ->
  name (ent little s x) = nm ->
  exists s', AddToNameHash little nm x s = Some (PRSUCCESS, s') /\ database little s' I (<[nm := x]> N) U F /\ frame little by_name s s'.
Proof.
  intros [HT HS HI HN] Hno Hx Hk.
  destruct (add_name little s I N nm x HT Hno (proj1 (st_used _ _ _ _ HS x Hx)) Hk) as (s' & E & HT' & HF).
  exists s'. split; [done |]. split; [| done]. split; [done | | done |].
  - apply (frame_store little by_name s); try done. apply HT'.
  - intros a y [[<- <-] | [_ Hy]]%lookup_insert_Some; [done | by eapply HN].
Qed.

(** The entry [e] is in [x], but for the pointers of the chains. *)
Definition holds (s : st) (x : Z) (e : prentry) : Prop :=
  name (ent little s x) = name e /\ forall k, k <> 19%nat -> k <> 20%nat -> word k (ent little s x) = word k e.

Lemma enter_ok s I N U F x e i k : database little s I N U F -> x ∈ U -> canonical little e -> id e = i -> bad_id i = false ->
  I !! i = None -> N !! name e = None -> (forall a, I !! a <> Some x) -> (forall a, N !! a <> Some x) ->
  exists s', enter little x (name e) e k s = k s' /\ database little s' (<[i := x]> I) (<[name e := x]> N) U F /\ holds s' x e.
Proof.
  intros HD Hx He Hi Hb HnoI HnoN HxI HxN. pose proof (st_used _ _ _ _ (db_store _ _ _ _ _ _ HD) x Hx) as [Hbx _].
  pose proof (database_wrote _ _ _ _ _ _ _ _ HD Hx He HxI HxN) as HD1. set (s1 := wrote little x e s) in *.
  assert (Hent1 : ent little s1 x = e) by by apply wrote_ent_at.
  destruct (database_add_id s1 I N U F i x HD1 Hb HnoI Hx ltac:(by rewrite Hent1)) as (s2 & E2 & HD2 & HF2).
  assert (Hbx1 : block (eof s1) x) by exact Hbx.
  assert (Hn2 : name (ent little s2 x) = name e) by (rewrite (f_name _ _ _ _ HF2 x Hbx1); by rewrite Hent1).
  destruct (database_add_name s2 _ N U F (name e) x HD2 HnoN Hx Hn2) as (s3 & E3 & HD3 & HF3).
  assert (Hbx2 : block (eof s2) x) by (rewrite (f_eof _ _ _ _ HF2); exact Hbx).
  exists s3. split; [| split; [done | split]].
  - unfold enter, mbind_ at 1. rewrite write_entry_ok; [| apply HD | apply Hbx]. cbn [Z.eqb negb]. fold s1. rewrite Hi.
    unfold mbind_ at 1. rewrite E2. cbn [Z.eqb negb PRSUCCESS]. unfold mbind_ at 1. by rewrite E3.
  - by rewrite (f_name _ _ _ _ HF3 x Hbx2).
  - intros j H19 H20. rewrite (f_word _ _ _ _ HF3 x j Hbx2) by done. rewrite (f_word _ _ _ _ HF2 x j Hbx1) by done. by rewrite Hent1.
Qed.

Lemma remember_max_ok s I N U F i : database little s I N U F -> int32 i ->
  exists s', remember_max false i s = Some (0, s') /\ database little s' I N U F.
Proof.
  intros HD Hi. pose proof (g_io _ (t_good _ _ _ _ (db_tables _ _ _ _ _ _ HD))) as Hio.
  unfold remember_max, mbind_ at 1, get_header. destruct (maxID (cheader s) <? i).
  - rewrite (header_write_ok s (set_maxID i) 20 i _ Hio ltac:(hpos) (sets_maxID _) eq_refl).
    eexists. split; [done |]. apply database_header; [done | hpos | apply sets_maxID | done | done].
  - by exists s.
Qed.

(** The user's entry. *)
Definition user_entry (e : prentry) (creat : Z) : prentry :=
  set_word 22 creat (set_word 24 20 (set_word 23 20 (set_word 0 (Z.lor (flags e) PRQUOTA) e))).

Lemma PRQUOTA_int : int32 (Z.lor 0 PRQUOTA).
Proof. split; vm_compute; discriminate. Qed.

Lemma create_local_ok s I N U F x e aid oid creat : database little s I N U F -> x ∈ U -> canonical little e -> flags e = 0 ->
  int32 creat -> bad_id (id e) = false -> I !! id e = None -> N !! name e = None ->
  (forall a, I !! a <> Some x) -> (forall a, N !! a <> Some x) ->
  exists s', create_local little conf (name e) aid oid creat false x e s = Some ((PRSUCCESS, id e), s')
    /\ database little s' (<[id e := x]> I) (<[name e := x]> N) U F /\ holds s' x (user_entry e creat).
Proof.
  intros HD Hx He Hfl Hcr Hb HnoI HnoN HxI HxN.
  destruct (remember_max_ok s I N U F (id e) HD ltac:(by apply (word_int little 1))) as (s1 & E1 & HD1).
  assert (H20 : int32 20) by (split; vm_compute; discriminate).
  assert (He' : canonical little (user_entry e creat)).
  { unfold user_entry. rewrite Hfl. repeat apply canonical_set; try done; try lia; apply PRQUOTA_int. }
  assert (Hid : id (user_entry e creat) = id e) by (unfold id, user_entry; by rewrite !word_ne by lia).
  set (k := check* code := ret 0 orelse ret code in check* code := (if negb (Z.land (flags (user_entry e creat)) PRINST =? 0)
       then inc_header_word instcount set_instcount 48 1 else inc_header_word usercount set_usercount 36 1) orelse ret PRDBFAIL in ret PRSUCCESS).
  destruct (enter_ok s1 I N U F x (user_entry e creat) (id e) k HD1 Hx He' Hid Hb HnoI HnoN HxI HxN) as (s2 & E2 & HD2 & HH).
  pose proof (g_io _ (t_good _ _ _ _ (db_tables _ _ _ _ _ _ HD2))) as Hio2.
  assert (Hfl' : flags (user_entry e creat) = PRQUOTA).
  { unfold flags, user_entry. rewrite !word_ne by lia. rewrite word_eq; [by rewrite Hfl |]. destruct He as (HL & _). lia. }
  set (v := s32 (usercount (cheader s2) + 1)).
  exists (header_set (set_usercount v) 36 v s2). split; [| split].
  - unfold create_local, mbind_ at 1. rewrite E1. cbn [Z.eqb negb]. unfold mbind_ at 1. cbn [ret].
    change (set_word 22 creat _) with (user_entry e creat). unfold mbind_ at 1.
    change (enter little x (name e) (user_entry e creat) _ s1) with (enter little x (name (user_entry e creat)) (user_entry e creat) k s1).
    rewrite E2. unfold k. rewrite Hfl'. unfold mbind_ at 1. cbn [ret Z.eqb negb]. change (Z.land PRQUOTA PRINST =? 0) with true. cbn [negb].
    unfold inc_header_word. unfold mbind_ at 1 2, get_header. fold v.
    rewrite (header_write_ok s2 (set_usercount v) 36 v _ Hio2 ltac:(hpos) (sets_usercount _) eq_refl). cbn [Z.eqb negb]. unfold ret. by rewrite Hid.
  - apply database_header; [done | hpos | apply sets_usercount | apply s32_int | done].
  - pose proof (st_used _ _ _ _ (db_store _ _ _ _ _ _ HD2) x Hx) as [(Hbx & _) _]. unfold holds in *. by rewrite header_set_ent by (hpos || done).
Qed.

(** The identifier a user gets: the one asked for, or the first unused one past
    the largest so far, among 50. *)
Definition given (s : st) (I : gmap Z Z) (idflag : bool) (aid i : Z) : Prop :=
  I !! i = None /\ int32 i /\ bad_id i = false
  /\ if idflag then i = aid
     else exists k, 1 <= k <= 50 /\ i = maxID (cheader s) + k /\ forall j, 1 <= j < k -> I !! (maxID (cheader s) + j) <> None.

(** What [AllocID] adds to a database. *)
Lemma database_alloc_id s I N U F i : database little s I N U F -> 0 <= maxID (cheader s) <= INT_MAX - 50 ->
  given s I false 0 i ->
  exists s', AllocID little 0 s = Some ((PRSUCCESS, i), s') /\ database little s' I N U F.
Proof.
  intros HD Hm (HnoI & Hi & Hb & k & Hk & Ei & Htaken). change (AllocID little 0) with (alloc_id little maxID set_maxID 20 1).
  unfold alloc_id, mbind_ at 1, get_header. unfold mbind_ at 1.
  assert (Hr : forall j, 1 <= j <= Z.of_nat 50 -> int32 (maxID (cheader s) + 1 * j) /\ bad_id (maxID (cheader s) + 1 * j) = false).
  { intros j Hj. split; [unfold int32, INT_MIN, INT_MAX in *; lia |]. unfold bad_id, PRBADID, INT_MAX in *.
    by rewrite !(proj2 (Z.eqb_neq _ _)) by lia. }
  destruct (next_id_ok little s I N 1 (db_tables _ _ _ _ _ _ HD) 50 (maxID (cheader s)) Hr) as [(j & Hj & HN & Hj' & HE) | [HN _]].
  - assert (j = k) as ->.
    { destruct (Z.lt_trichotomy j k) as [H | [H | H]]; [| done |].
      - destruct (Htaken j ltac:(lia)). by rewrite Z.mul_1_l in HN.
      - destruct (Hj' k ltac:(lia)). rewrite Z.mul_1_l. by rewrite <- Ei. }
    rewrite HE by done. cbn [Z.eqb negb]. rewrite Z.mul_1_l, <- Ei.
    pose proof (header_write_ok s (set_maxID i) 20 i _ (g_io _ (t_good _ _ _ _ (db_tables _ _ _ _ _ _ HD))) ltac:(hpos) (sets_maxID _) eq_refl) as HW.
    unfold mbind_ in HW |- *. unfold set_header in *. rewrite HW. cbn [Z.eqb negb]. eexists. split; [done |].
    apply database_header; [done | hpos | apply sets_maxID | done | done].
  - destruct (HN k ltac:(lia)). rewrite Z.mul_1_l. by rewrite <- Ei.
Qed.

Lemma strchr_none c s : has_char c s = false -> strchr c s = None.
Proof. unfold has_char. by destruct (strchr c s). Qed.

Lemma fresh_canonical nm i : field_name nm -> int32 i -> int32 now ->
  canonical little (set_word 1 i (set_word 21 SYSADMINID (set_word 4 now (PrEntry (replicate 32 0) nm)))).
Proof.
  intros Hn Hi Ht. repeat apply canonical_set; try done; try lia.
  split; [done | split; [apply Forall_replicate, int32_zero | split; [by destruct little | done]]].
Qed.

(** Creating an ordinary user: a name that is not a user's is refused, a name
    that is taken is refused with PREXIST, and neither changes anything; any
    other name gets the identifier asked for or the next unused one and a block
    that was not in use, and afterwards the tables lead from this identifier
    and this name to that block and from all others to where they did, with the
    user, owned by the administrators and with the initial quota, in it. *)
Theorem CreateEntry_user s I N U F aname aid idflag oid creat : database little s I N U F -> room s F ->
  field_name aname -> has_char AT aname = false -> int32 now -> int32 creat -> 0 <= maxID (cheader s) <= INT_MAX - 50 ->
  let run := CreateEntry little now conf aname aid idflag 0 oid creat s in
  (CorrectUserName conf aname = false -> run = Some ((PRBADNAM, aid), s))
  /\ (CorrectUserName conf aname = true -> N !! aname <> None -> run = Some ((PREXIST, aid), s))
  /\ (CorrectUserName conf aname = true -> N !! aname = None -> forall i, given s I idflag aid i ->
      exists x s', run = Some ((PRSUCCESS, i), s') /\ x ∉ U
      /\ database little s' (<[i := x]> I) (<[aname := x]> N) ({[x]} ∪ U) (tail F)
      /\ name (ent little s' x) = aname /\ id (ent little s' x) = i /\ flags (ent little s' x) = PRQUOTA
      /\ owner (ent little s' x) = SYSADMINID /\ creator (ent little s' x) = creat).
Proof.
  intros HD Hroom Hnm Hat Hnow Hcr Hmax run. pose proof (db_tables _ _ _ _ _ _ HD) as HT.
  destruct (find_name little s I N aname HT (proj2 Hnm)) as [e0 HFN]. unfold run, CreateEntry. change (negb (Z.land 0 PRGRP =? 0)) with false.
  split; [| split]; intros HC; rewrite HC; unfold mbind_ at 1; cbn [ret Z.eqb negb].
  - done.
  - intros HN. destruct (N !! aname) as [y |] eqn:EN; [| done]. unfold mbind_ at 1. rewrite HFN.
    by rewrite (proj2 (Z.eqb_neq y 0)) by (by eapply name_nonzero).
  - intros HN i Hgiven. rewrite HN in HFN. unfold mbind_ at 1. rewrite HFN. cbn [Z.eqb negb].
    destruct (database_alloc little s I N U F HD Hroom) as (x & s1 & EA & HxU & HD1 & Hm1). unfold mbind_ at 1. rewrite EA.
    assert (Hxin : x ∈ {[x]} ∪ U) by (apply elem_of_union; left; by apply elem_of_singleton).
    pose proof (st_used _ _ _ _ (db_store _ _ _ _ _ _ HD1) x Hxin) as [Hbx _].
    rewrite (proj2 (Z.eqb_neq x 0)) by (by eapply block_nonzero). cbn [negb andb Z.eqb]. rewrite (strchr_none _ _ Hat).
    set (e := set_word 1 i (set_word 21 SYSADMINID (set_word 4 now (PrEntry (replicate 32 0) aname)))).
    pose proof Hgiven as (HnoI & Hi & Hb & Hpick).
    assert (Hlocal : forall s2, database little s2 I N ({[x]} ∪ U) (tail F) -> exists s',
      create_local little conf aname aid (if (oid =? 0) || (oid =? ANONYMOUSID) then creat else oid) creat false x e s2 = Some ((PRSUCCESS, i), s')
      /\ database little s' (<[i := x]> I) (<[aname := x]> N) ({[x]} ∪ U) (tail F) /\ holds s' x (user_entry e creat)).
    { intros s2 HD2. apply (create_local_ok s2 I N _ _ x e); try done.
      - by apply fresh_canonical.
      - intros a Ha. apply HxU. by eapply (db_ids _ _ _ _ _ _ HD).
      - intros a Ha. apply HxU. by eapply (db_names _ _ _ _ _ _ HD). }
    assert (Hend : forall s', holds s' x (user_entry e creat) ->
      name (ent little s' x) = aname /\ id (ent little s' x) = i /\ flags (ent little s' x) = PRQUOTA
      /\ owner (ent little s' x) = SYSADMINID /\ creator (ent little s' x) = creat).
    { intros s' [Hn Hw]. unfold id, flags, owner, creator. rewrite Hn, !Hw by lia. done. }
    destruct idflag.
    + subst i. destruct (Hlocal s1 HD1) as (s' & E & HD' & HH). exists x, s'. split; [exact E |]. split; [done |]. split; [done | by apply Hend].
    + destruct (database_alloc_id s1 I N _ _ i HD1 ltac:(by rewrite Hm1)) as (s2 & E2 & HD2).
      { split; [done | split; [done | split; [done |]]]. by rewrite Hm1. }
      destruct (Hlocal s2 HD2) as (s' & E & HD' & HH). exists x, s'. split; [| split; [done | split; [done | by apply Hend]]].
      unfold mbind_ at 1. rewrite E2. cbn [Z.eqb negb PRSUCCESS]. exact E.
Qed.
End create.

Definition plain_settings : settings := Settings false false 11 PRP_USER_DEFAULT PRP_GROUP_DEFAULT.

Lemma blank_database : database true (blank 0) ∅ ∅ ∅ [].
Proof.
  split.
  - apply empty_tables; [by apply blank_good | done | done].
  - by apply (blank_store true 0).
  - intros a x. by rewrite lookup_empty.
  - intros a x. by rewrite lookup_empty.
Qed.

Lemma CreateEntry_user_witness : exists x s',
  CreateEntry true 0 plain_settings [98; 111; 98] 0 false 0 0 SYSADMINID (blank 0) = Some ((PRSUCCESS, 1), s')
  /\ database true s' {[1 := x]} {[[98; 111; 98] := x]} ({[x]} ∪ ∅) [].
Proof.
  destruct (CreateEntry_user true 0 plain_settings (blank 0) ∅ ∅ ∅ [] [98; 111; 98] 0 false 0 SYSADMINID blank_database) as (_ & _ & H).
  - right. vm_compute. discriminate.
  - split; [repeat constructor | cbn; lia].
  - reflexivity.
  - apply int32_zero.
  - split; vm_compute; discriminate.
  - vm_compute. split; discriminate.
  - destruct (H eq_refl eq_refl 1) as (x & s' & E & _ & HD & _).
    + split; [done |]. split; [split; vm_compute; discriminate |]. split; [done |]. exists 1. split; [lia | split; [done | lia]].
    + exists x, s'. split; [exact E | exact HD].
Defined.

(** ** Foreign users *)

Lemma lor_low a c : 0 <= c < 2 ^ 16 -> Z.lor (a * 2 ^ 16) c = a * 2 ^ 16 + c.
Proof.
  intros Hc. symmetry. apply Z.add_nocarry_lor. apply Z.bits_inj'. intros n Hn. rewrite Z.land_spec, Z.bits_0.
  destruct (Z.ltb_spec n 16).
  - by rewrite Z.mul_pow2_bits_low.
  - rewrite <- (Z.mod_small c (2 ^ 16)) by done. rewrite Z.mod_pow2_bits_high by lia. apply andb_false_r.
Qed.

(** The identifier of the user [i] of a cell, for every [i] that allocNextId
    tries. *)
Lemma foreign_id_value i cell : 0 <= cell < 65536 -> 0 <= i < 65536 ->
  foreign_id i cell = if decide (i < 32768) then i * 65536 + cell else (i - 65536) * 65536 + cell.
Proof.
  intros Hc Hi. unfold foreign_id. rewrite Z.shiftl_mul_pow2 by lia. case_decide.
  - rewrite s32_small by (unfold INT_MIN, INT_MAX; lia). by apply (lor_low i).
  - replace (s32 (i * 2 ^ 16)) with ((i - 65536) * 2 ^ 16); [by apply lor_low |]. unfold s32. zdiv.
Qed.

Section foreign.
Context (little : bool) (s : st) (I : gmap Z Z) (N : gmap (list Z) Z) (HT : tables little s I N).
Context (cell : Z) (Hcell : 0 < cell < 65536).

Definition taken (i : Z) : Prop := I !! foreign_id i cell <> None.

Lemma foreign_fine i : 0 <= i < 65536 -> bad_id (foreign_id i cell) = false.
Proof.
  intros Hi. rewrite foreign_id_value by lia. unfold bad_id, PRBADID. case_decide; rewrite !(proj2 (Z.eqb_neq _ _)) by lia; done.
Qed.

Lemma next_foreign_ok n : forall i fuel, 0 <= i -> i + Z.of_nat n = 65535 -> (n < fuel)%nat ->
  (exists j, i <= j <= 65535 /\ ~ taken j /\ (forall k, i <= k < j -> taken k) /\ next_foreign little cell i fuel s = Some (j, s))
  \/ ((forall k, i <= k <= 65535 -> taken k) /\ next_foreign little cell i fuel s = Some (0, s)).
Proof.
  induction n as [| n IH]; intros i fuel Hi Hn Hf; (destruct fuel as [| fuel]; [lia |]); cbn [next_foreign]; unfold mbind_;
    rewrite (find_id little s I N) by (done || by apply foreign_fine; lia);
    destruct (I !! foreign_id i cell) as [x |] eqn:E; try (change (default 0 (Some x)) with x; rewrite (proj2 (Z.eqb_neq x 0)) by (by eapply id_nonzero)).
  - right. rewrite (proj2 (Z.ltb_lt 65535 (i + 1))) by lia. split; [| done]. intros k Hk. assert (k = i) as -> by lia. unfold taken. congruence.
  - left. exists i. split; [lia |]. split; [unfold taken; tauto |]. split; [lia | done].
  - rewrite (proj2 (Z.ltb_ge 65535 (i + 1))) by lia.
    assert (Hti : taken i) by (unfold taken; congruence).
    destruct (IH (i + 1) fuel ltac:(lia) ltac:(lia) ltac:(lia)) as [(j & Hj & Hno & Hall & ->) | [Hall ->]].
    + left. exists j. split; [lia |]. split; [done |]. split; [| done]. intros k Hk.
      destruct (decide (k = i)) as [-> | ?]; [done | apply Hall; lia].
    + right. split; [| done]. intros k Hk. destruct (decide (k = i)) as [-> | ?]; [done | apply Hall; lia].
  - left. exists i. split; [lia |]. split; [unfold taken; tauto |]. split; [lia | done].
Qed.

(** allocNextId ends and gives the identifier of the first unused number of
    the cell past the last one given, or 0 when all numbers to 65535 are used;
    but from the number 32768 on the identifier it gives is negative, as only
    the identifiers of groups are: the shift by 16 goes into the sign. *)
Theorem allocNextId_sign b : Z.land (raw_word 1 b) 65535 = cell -> 0 <= raw_word 24 b < 65535 ->
  (exists i, raw_word 24 b < i <= 65535 /\ ~ taken i /\ (forall k, raw_word 24 b < k < i -> taken k)
     /\ allocNextId little b s = Some ((foreign_id i cell, raw_set 24 i b), s)
     /\ (if decide (i < 32768) then 0 < foreign_id i cell else foreign_id i cell < 0))
  \/ ((forall k, raw_word 24 b < k <= 65535 -> taken k) /\ allocNextId little b s = Some ((0, b), s)).
Proof.
  intros Hc Hn. unfold allocNextId. rewrite Hc. rewrite s32_small by (unfold INT_MIN, INT_MAX; lia).
  set (i0 := raw_word 24 b + 1) in *.
  destruct (next_foreign_ok (Z.to_nat (65535 - i0)) i0 (S (Z.to_nat (65536 - i0))) ltac:(lia) ltac:(lia) ltac:(lia))
    as [(j & Hj & Hno & Hall & E) | [Hall E]].
  - left. exists j. split; [lia |]. split; [done |]. split; [intros k Hk; apply Hall; lia |]. unfold mbind_. rewrite E.
    rewrite (proj2 (Z.eqb_neq j 0)) by lia. split; [done |]. rewrite foreign_id_value by lia. case_decide; lia.
  - right. split; [intros k Hk; apply Hall; lia |]. unfold mbind_. by rewrite E.
Qed.
End foreign.

(** A cell's group -3, with 32767 users so far. *)
Definition full_cell : list Z := raw_set 24 32767 (raw_set 1 (-3) (replicate 192 0)).

Lemma allocNextId_sign_witness : exists x b, allocNextId true full_cell (blank 0) = Some ((x, b), blank 0) /\ x < 0.
Proof.
  destruct (allocNextId_sign true (blank 0) ∅ ∅ (db_tables _ _ _ _ _ _ blank_database) 65533 ltac:(lia) full_cell)
    as [(i & Hi & _ & _ & E & Hs) | [H _]].
  - reflexivity.
  - vm_compute. split; [discriminate | reflexivity].
  - exists (foreign_id i 65533), (raw_set 24 i full_cell). split; [exact E |]. change (raw_word 24 full_cell) with 32767 in Hi.
    rewrite decide_False in Hs by lia. exact Hs.
  - destruct (H 32768); [vm_compute; split; [reflexivity | discriminate] |]. apply lookup_empty.
Defined.
