(* ===== verification/Fcrypt.v ===== *)
(** The cipher of the RPC security class: the key schedule, the block cipher
    and the chaining of src/rxkad/domestic/fcrypt.c, with the tables of
    sboxes.h. A block is its eight bytes; the two words of a chaining vector are
    only copied and combined bit by bit, so they are bytes too, in either byte
    order of the host. *)
From S2P Require Import Prelude Bytes.

Definition sbox0 : list Z := [
  234; 127; 178; 100; 157; 176; 217; 17; 205; 134; 134; 145; 10; 178; 147; 6; 14; 6; 210; 101; 115;
  197; 40; 96; 242; 32; 181; 56; 126; 218; 159; 227; 210; 207; 196; 60; 97; 255; 74; 74; 53; 172;
  170; 95; 43; 187; 188; 83; 78; 157; 120; 163; 220; 9; 50; 16; 198; 111; 102; 214; 171; 169; 175;
  253; 59; 149; 232; 52; 154; 129; 114; 128; 156; 243; 236; 218; 159; 38; 118; 21; 62; 85; 77; 222;
  132; 238; 173; 199; 241; 107; 61; 211; 4; 73; 170; 36; 11; 138; 131; 186; 250; 133; 160; 168;
  177; 212; 1; 216; 112; 100; 240; 81; 210; 195; 167; 117; 140; 165; 100; 239; 16; 78; 183; 198;
  97; 3; 235; 68; 61; 229; 179; 91; 174; 213; 173; 29; 250; 90; 30; 51; 171; 147; 162; 183; 231;
  168; 69; 164; 205; 41; 99; 68; 182; 105; 126; 46; 98; 3; 200; 224; 23; 187; 199; 243; 63; 54;
  186; 113; 142; 151; 101; 96; 105; 182; 246; 230; 110; 224; 129; 89; 232; 175; 221; 149; 34; 153;
  253; 99; 25; 116; 97; 177; 182; 91; 174; 84; 179; 112; 255; 198; 59; 62; 193; 215; 225; 14; 118;
  229; 54; 79; 89; 199; 8; 110; 130; 166; 147; 196; 170; 38; 73; 224; 33; 100; 7; 159; 100; 129;
  156; 191; 249; 209; 67; 248; 182; 185; 241; 36; 117; 3; 228; 176; 153; 70; 61; 245; 209; 57; 114;
  18; 246; 186; 12; 13; 66; 46].

Definition sbox1 : list Z := [
  119; 20; 166; 254; 178; 94; 140; 62; 103; 108; 161; 13; 194; 162; 193; 133; 108; 123; 103; 198;
  35; 227; 242; 137; 80; 156; 3; 183; 115; 230; 225; 57; 49; 44; 39; 159; 165; 105; 68; 214; 35;
  131; 152; 125; 60; 180; 45; 153; 28; 31; 140; 32; 3; 124; 95; 173; 244; 250; 149; 202; 118; 68;
  205; 182; 184; 161; 161; 190; 158; 84; 143; 11; 22; 116; 49; 138; 35; 23; 4; 250; 121; 132; 177;
  245; 19; 171; 181; 46; 170; 12; 96; 107; 91; 196; 75; 188; 226; 175; 69; 115; 250; 201; 73; 205;
  0; 146; 125; 151; 122; 24; 96; 61; 207; 91; 222; 198; 226; 230; 187; 139; 6; 218; 8; 21; 27; 136;
  106; 23; 137; 208; 169; 193; 201; 112; 107; 229; 67; 244; 104; 200; 211; 132; 40; 10; 82; 102;
  163; 202; 242; 227; 127; 122; 49; 247; 136; 148; 94; 156; 99; 213; 36; 102; 252; 179; 87; 37;
  190; 137; 68; 196; 224; 143; 35; 60; 18; 82; 245; 30; 244; 203; 24; 51; 31; 248; 105; 16; 157;
  211; 247; 40; 248; 48; 5; 94; 50; 192; 213; 25; 189; 69; 139; 91; 253; 188; 226; 92; 169; 150;
  239; 112; 207; 194; 42; 179; 97; 173; 128; 72; 129; 183; 29; 67; 217; 215; 69; 240; 216; 138; 89;
  124; 87; 193; 121; 199; 52; 214; 67; 223; 228; 120; 22; 6; 218; 146; 118; 81; 225; 212; 112; 3;
  224; 47; 150; 145; 130; 128].

Definition sbox2 : list Z := [
  240; 55; 36; 83; 42; 3; 131; 134; 209; 236; 80; 240; 66; 120; 47; 109; 191; 128; 135; 39; 149;
  226; 197; 93; 249; 111; 219; 180; 101; 110; 231; 36; 200; 26; 187; 73; 181; 10; 125; 185; 232;
  220; 183; 217; 69; 32; 27; 206; 89; 157; 107; 189; 14; 143; 163; 169; 188; 116; 166; 246; 127;
  95; 177; 104; 132; 188; 169; 253; 85; 80; 233; 182; 19; 94; 7; 184; 149; 2; 192; 208; 106; 26;
  133; 189; 182; 253; 254; 23; 63; 9; 163; 141; 251; 237; 218; 29; 109; 28; 108; 1; 90; 229; 113;
  62; 139; 107; 190; 41; 235; 18; 25; 52; 205; 179; 189; 53; 234; 75; 213; 174; 42; 121; 90; 165;
  50; 18; 123; 220; 44; 208; 34; 75; 177; 133; 89; 128; 192; 48; 159; 115; 211; 20; 72; 64; 7; 45;
  143; 128; 15; 206; 11; 94; 183; 94; 172; 36; 148; 74; 24; 21; 5; 232; 2; 119; 169; 199; 64; 69;
  137; 209; 234; 222; 12; 121; 42; 153; 108; 62; 149; 221; 140; 125; 173; 111; 220; 255; 253; 98;
  71; 179; 33; 138; 236; 142; 25; 24; 180; 110; 61; 253; 116; 84; 30; 4; 133; 216; 188; 31; 86;
  231; 58; 86; 103; 214; 200; 165; 243; 142; 222; 174; 55; 73; 183; 250; 200; 244; 31; 224; 42;
  155; 21; 209; 52; 14; 181; 224; 68; 120; 132; 89; 86; 104; 119; 165; 20; 6; 245; 47; 140; 138;
  115; 128; 118; 180; 16; 134].

Definition sbox3 : list Z := [
  169; 42; 72; 81; 132; 126; 73; 226; 181; 183; 66; 51; 125; 93; 166; 18; 68; 72; 109; 40; 170; 32;
  109; 87; 214; 107; 93; 114; 240; 146; 90; 27; 83; 128; 36; 112; 154; 204; 167; 102; 161; 1; 165;
  65; 151; 65; 49; 130; 241; 20; 207; 83; 13; 160; 16; 204; 42; 125; 210; 191; 75; 26; 219; 22; 71;
  246; 81; 54; 237; 243; 185; 26; 167; 223; 41; 67; 1; 84; 112; 164; 191; 212; 11; 83; 68; 96; 158;
  35; 161; 24; 104; 79; 240; 47; 130; 194; 42; 65; 178; 66; 12; 237; 12; 29; 19; 58; 60; 110; 53;
  220; 96; 101; 133; 233; 100; 2; 154; 63; 159; 135; 150; 223; 190; 242; 203; 229; 108; 212; 90;
  131; 191; 146; 27; 148; 0; 66; 207; 75; 0; 117; 186; 143; 118; 95; 93; 58; 77; 9; 18; 8; 56; 149;
  23; 228; 1; 29; 76; 169; 204; 133; 130; 76; 157; 47; 59; 102; 161; 52; 16; 205; 89; 137; 165; 49;
  207; 5; 200; 132; 250; 199; 186; 78; 139; 26; 25; 241; 161; 59; 24; 18; 23; 176; 152; 141; 11;
  35; 195; 58; 45; 32; 223; 19; 160; 168; 76; 13; 108; 47; 71; 19; 19; 82; 31; 45; 245; 121; 61;
  162; 84; 189; 105; 200; 107; 243; 5; 40; 241; 22; 70; 64; 176; 17; 211; 183; 149; 73; 207; 195;
  29; 143; 216; 225; 115; 219; 173; 200; 201; 169; 161; 194; 197; 227; 186; 252; 14; 37].

Definition ROUNDS : nat := 16.

Definition sub (sbox : list Z) (b : Z) : Z := nth (Z.to_nat b) sbox 0.

(** [P] from [S]: the bytes substituted and permuted, then rotated right by
    five bits. *)
Definition mix (S : Z) : Z :=
  let Schar k := nth k (be_bytes S) 0 in
  let P := be_val [sub sbox3 (Schar 3%nat); sub sbox2 (Schar 2%nat); sub sbox0 (Schar 0%nat); sub sbox1 (Schar 1%nat)] in
  Z.lor (Z.shiftr P 5) (Z.shiftl (Z.land P (2 ^ 5 - 1)) (32 - 5)).

(** ** The key schedule *)

(** The words of the key without its parity bits: the low 32 bits and the high
    24. *)
Definition key_words (key : list Z) : Z * Z :=
  let k i := Z.shiftr (nth i key 0) 1 in
  let push w i := u32 (u32 (Z.shiftl w 7) + k i) in
  let hi := push (push (push (k 0%nat) 1%nat) 2%nat) 3%nat in
  let k1 := Z.shiftr hi 4 in
  let k0 := Z.land hi 15 in
  (push (push (push (push k0 4%nat) 5%nat) 6%nat) 7%nat, k1).

Definition rotate_key (kword : Z * Z) : Z * Z :=
  let '(k0, k1) := kword in
  let temp := Z.land k0 (2 ^ 11 - 1) in
  (Z.lor (Z.shiftr k0 11) (u32 (Z.shiftl (Z.land k1 (2 ^ 11 - 1)) (32 - 11))),
   Z.lor (Z.shiftr k1 11) (u32 (Z.shiftl temp (56 - 32 - 11)))).

Fixpoint schedule_from (kword : Z * Z) (n : nat) : list Z :=
  match n with
  | O => []
  | S n' => kword.1 :: schedule_from (rotate_key kword) n'
  end.

Definition fc_keysched (key : list Z) : list Z := schedule_from (key_words key) ROUNDS.

(** ** The block cipher *)

Section cipher.
Context (schedule : list Z).

Definition sched (i : nat) : Z := nth i schedule 0.

Definition enc_round (LR : Z * Z) (i : nat) : Z * Z :=
  let '(L, R) := LR in
  let L := Z.lxor L (mix (Z.lxor (sched (2 * i)) R)) in
  let R := Z.lxor R (mix (Z.lxor (sched (2 * i + 1)) L)) in
  (L, R).

Definition dec_round (LR : Z * Z) (i : nat) : Z * Z :=
  let '(L, R) := LR in
  let R := Z.lxor R (mix (Z.lxor (sched (ROUNDS - 1 - 2 * i)) L)) in
  let L := Z.lxor L (mix (Z.lxor (sched (ROUNDS - 1 - (2 * i + 1))) R)) in
  (L, R).

Definition fc_ecb_encrypt (clear : list Z) (encrypt : bool) : list Z :=
  let L := be_val (take 4 clear) in
  let R := be_val (take 4 (drop 4 clear)) in
  let '(L, R) := fold_left (if encrypt then enc_round else dec_round) (seq 0 (ROUNDS / 2)) (L, R) in
  be_bytes L ++ be_bytes R.

(** ** Chaining

    [past] is what is in memory after the input: the last block is read whole.
    The result is what is written to the output, a whole number of blocks, and
    the chaining vector that the fifth argument is left with. *)
Context (past : list Z).

Definition xor8 (a b : list Z) : list Z := zip_with Z.lxor a b.
Definition get_block (input : list Z) : list Z := take 8 (input ++ past).
Definition zero_pad (length : Z) (t : list Z) : list Z :=
  take (Z.to_nat (Z.min length 8)) t ++ replicate (Z.to_nat (8 - length)) 0.

Fixpoint cbc_blocks (encrypt : bool) (input : list Z) (length : Z) (xor : list Z) (fuel : nat) : list Z * list Z :=
  match fuel with
  | O => ([], xor)
  | S fuel' =>
      if 0 <? length then
        let '(t_input, t_output) :=
          if encrypt then
            let t := zero_pad length (get_block input) in (t, fc_ecb_encrypt (xor8 xor t) true)
          else
            let t := get_block input in (t, xor8 (fc_ecb_encrypt t false) xor) in
        let '(output, xor') := cbc_blocks encrypt (drop 8 input) (length - 8) (xor8 t_input t_output) fuel' in
        (t_output ++ output, xor')
      else ([], xor)
  end.

Definition fc_cbc_encrypt (input : list Z) (length : Z) (xor : list Z) (encrypt : bool) : list Z * list Z :=
  cbc_blocks encrypt input length xor (Z.to_nat length).
End cipher.

Example block_sample :
  fc_ecb_encrypt (fc_keysched (replicate 8 0)) (replicate 8 0) true = [14; 9; 0; 199; 62; 247; 237; 65]
  /\ fc_ecb_encrypt (fc_keysched [17; 68; 119; 170; 221; 0; 51; 102]) [18; 52; 86; 120; 154; 188; 222; 240] true
     = [216; 237; 120; 116; 119; 236; 6; 128].
Proof. vm_compute. split; reflexivity. Qed.

(** ** Words stay words *)

Definition word (v : Z) : Prop := 0 <= v < 4294967296.
Definition is_byte (v : Z) : Prop := 0 <= v < 256.

Lemma below_pow n x : 0 <= n -> (forall k, n <= k -> Z.testbit x k = false) -> 0 <= x -> x < 2 ^ n.
Proof.
  intros Hn Hk H0. destruct (Z.eq_dec x 0) as [-> | Hne]; [by apply Z.pow_pos_nonneg |].
  apply Z.log2_lt_pow2; [lia |]. destruct (Z.lt_ge_cases (Z.log2 x) n) as [| Hge]; [done |].
  specialize (Hk _ Hge). by rewrite Z.bit_log2 in Hk by lia.
Qed.

Lemma high_bits n v k : 0 <= v < 2 ^ n -> n <= k -> Z.testbit v k = false.
Proof.
  intros Hv Hk. destruct (Z.eq_dec v 0) as [-> |]; [apply Z.bits_0 |].
  apply Z.bits_above_log2; [lia |]. assert (Z.log2 v < n); [| lia]. apply Z.log2_lt_pow2; lia.
Qed.

Lemma lxor_below n v w : 0 <= n -> 0 <= v < 2 ^ n -> 0 <= w < 2 ^ n -> 0 <= Z.lxor v w < 2 ^ n.
Proof.
  intros Hn Hv Hw. assert (H0 : 0 <= Z.lxor v w) by (apply Z.lxor_nonneg; lia). split; [done |].
  apply below_pow; [done | | done]. intros k Hk. by rewrite Z.lxor_spec, !(high_bits n) by lia.
Qed.

Lemma lor_below n v w : 0 <= n -> 0 <= v < 2 ^ n -> 0 <= w < 2 ^ n -> 0 <= Z.lor v w < 2 ^ n.
Proof.
  intros Hn Hv Hw. assert (H0 : 0 <= Z.lor v w) by (apply Z.lor_nonneg; lia). split; [done |].
  apply below_pow; [done | | done]. intros k Hk. by rewrite Z.lor_spec, !(high_bits n) by lia.
Qed.

Lemma lxor_word v w : word v -> word w -> word (Z.lxor v w).
Proof. apply (lxor_below 32). lia. Qed.

Lemma lxor_byte v w : is_byte v -> is_byte w -> is_byte (Z.lxor v w).
Proof. apply (lxor_below 8). lia. Qed.

Lemma lxor_cancel v w : Z.lxor (Z.lxor v w) w = v.
Proof. by rewrite Z.lxor_assoc, Z.lxor_nilpotent, Z.lxor_0_r. Qed.

Lemma sbox_bytes k : Forall (fun t => is_byte (sub t k)) [sbox0; sbox1; sbox2; sbox3].
Proof.
  assert (H : forall t, Forall is_byte t -> is_byte (sub t k)).
  { intros t Ht. unfold sub. destruct (nth_in_or_default (Z.to_nat k) t 0) as [Hin | ->]; [| done].
    rewrite Forall_forall in Ht. by apply Ht, list_elem_of_In. }
  assert (Hc : forall t, forallb (fun v => (0 <=? v) && (v <? 256)) t = true -> Forall is_byte t).
  { intros t Ht. rewrite forallb_forall in Ht. apply Forall_forall. intros v Hv%list_elem_of_In.
    specialize (Ht v Hv). bool_hyps. by split. }
  do 4 (apply Forall_cons; split; [apply H, Hc; vm_compute; reflexivity |]). constructor.
Qed.

Lemma be_val_word l : Forall is_byte l -> (length l <= 4)%nat -> word (be_val l).
Proof.
  unfold word, is_byte, be_val. intros H Hl.
  do 4 (destruct l as [| ? l]; cbn [be_val_from]; [repeat (apply Forall_cons in H as [? H]); cbn [be_val_from]; lia |]).
  destruct l; [| simpl in Hl; lia]. repeat (apply Forall_cons in H as [? H]). cbn [be_val_from]. lia.
Qed.

Lemma mix_word v : word (mix v).
Proof.
  unfold mix. set (P := be_val _).
  assert (HP : word P).
  { apply be_val_word; [| done].
    do 4 (apply Forall_cons; split;
      [match goal with |- is_byte (sub _ ?k) => pose proof (sbox_bytes k) as H; rewrite !Forall_cons in H; tauto end |]).
    constructor. }
  unfold word in *. apply (lor_below 32); [lia | |].
  - rewrite Z.shiftr_div_pow2 by lia. change (2 ^ 5) with 32. split; [apply Z.div_pos; lia |].
    apply Z.div_lt_upper_bound; lia.
  - rewrite Z.shiftl_mul_pow2 by lia. change (2 ^ 5 - 1) with (Z.ones 5). rewrite Z.land_ones by lia.
    change (2 ^ 5) with 32. change (2 ^ (32 - 5)) with 134217728. change (2 ^ 32) with 4294967296. zdiv.
Qed.

(** ** Deciphering undoes enciphering *)

Section inverse.
Context (schedule : list Z).

Lemma round_undo LR j : (j < 8)%nat -> dec_round schedule (enc_round schedule LR j) (7 - j) = LR.
Proof.
  intros Hj. destruct LR as [L R]. unfold enc_round, dec_round, ROUNDS.
  replace (16 - 1 - 2 * (7 - j))%nat with (2 * j + 1)%nat by lia.
  replace (16 - 1 - (2 * (7 - j) + 1))%nat with (2 * j)%nat by lia. by rewrite !lxor_cancel.
Qed.

Lemma rounds_undo n LR : (n <= 8)%nat ->
  fold_left (dec_round schedule) (seq (8 - n) n) (fold_left (enc_round schedule) (seq 0 n) LR) = LR.
Proof.
  induction n as [| n IH]; intros Hn; [done |]. rewrite (seq_S n 0), fold_left_app. cbn [Nat.add fold_left].
  replace (8 - S n)%nat with (7 - n)%nat by lia. cbn [seq fold_left].
  rewrite round_undo by lia. replace (S (7 - n)) with (8 - n)%nat by lia. apply IH. lia.
Qed.

Definition words (LR : Z * Z) : Prop := word LR.1 /\ word LR.2.

Lemma rounds_words (f : Z * Z -> nat -> Z * Z) l LR : (forall i LR, words LR -> words (f LR i)) -> words LR -> words (fold_left f l LR).
Proof. intros Hf. revert LR. induction l as [| i l IH]; intros LR H; [done |]. cbn [fold_left]. by apply IH, Hf. Qed.

Lemma enc_words i LR : words LR -> words (enc_round schedule LR i).
Proof. destruct LR as [L R]. intros [H1 H2]. split; cbn; auto using lxor_word, mix_word. Qed.

Lemma dec_words i LR : words LR -> words (dec_round schedule LR i).
Proof. destruct LR as [L R]. intros [H1 H2]. split; cbn; auto using lxor_word, mix_word. Qed.

Lemma be_bytes_val l : Forall is_byte l -> length l = 4%nat -> be_bytes (be_val l) = l.
Proof.
  intros H Hl. destruct l as [| a [| b [| c [| e [|]]]]]; try done. unfold is_byte in H.
  repeat (apply Forall_cons in H as [? H]). unfold be_bytes, be_val. cbn [be_val_from].
  destruct (byte_digits_unique 0 a b c e ((((0 * 256 + a) * 256 + b) * 256 + c) * 256 + e)) as (-> & -> & -> & ->); done || lia.
Qed.

Lemma be_val_be v : word v -> be_val (be_bytes v) = v.
Proof. intros Hv. rewrite be_val_bytes. by apply u32_small. Qed.

Lemma block_words b : Forall is_byte b -> words (be_val (take 4 b), be_val (take 4 (drop 4 b))).
Proof. intros H. split; apply be_val_word; rewrite ?length_take; auto using Forall_take, Forall_drop; lia. Qed.

Lemma ecb_block b encrypt : length (fc_ecb_encrypt schedule b encrypt) = 8%nat
  /\ Forall is_byte (fc_ecb_encrypt schedule b encrypt).
Proof.
  unfold fc_ecb_encrypt. destruct (fold_left _ _ _) as [L R]. split; [done |].
  apply Forall_app; split; apply Bytes.be_bytes_range.
Qed.

Lemma ecb_undo b : length b = 8%nat -> Forall is_byte b ->
  fc_ecb_encrypt schedule (fc_ecb_encrypt schedule b true) false = b.
Proof.
  intros Hl Hb. unfold fc_ecb_encrypt at 2. pose proof (block_words b Hb) as Hw.
  set (LR := (be_val _, be_val _)) in *. change (ROUNDS / 2)%nat with 8%nat.
  pose proof (rounds_words (enc_round schedule) (seq 0 8) LR enc_words Hw) as He.
  pose proof (rounds_undo 8 LR ltac:(lia)) as Hu.
  destruct (fold_left (enc_round schedule) (seq 0 8) LR) as [L R]. destruct He as [HL HR]. cbn [fst snd] in *.
  unfold fc_ecb_encrypt. change (take 4 (be_bytes L ++ be_bytes R)) with (be_bytes L).
  change (take 4 (drop 4 (be_bytes L ++ be_bytes R))) with (be_bytes R).
  rewrite !be_val_be by done. change (ROUNDS / 2)%nat with 8%nat. change (8 - 8)%nat with 0%nat in Hu. rewrite Hu. unfold LR.
  rewrite !be_bytes_val; rewrite ?length_take, ?length_drop; auto using Forall_take, Forall_drop; try lia.
  by rewrite (firstn_all2 (drop 4 b)) by (rewrite length_drop; lia); rewrite firstn_skipn.
Qed.
End inverse.

(** ** Chaining *)

Lemma length_xor8 a b : length (xor8 a b) = Nat.min (length a) (length b).
Proof. apply length_zip_with. Qed.

Lemma xor8_bytes a b : Forall is_byte a -> Forall is_byte b -> Forall is_byte (xor8 a b).
Proof.
  intros Ha. revert b. induction Ha as [| x a Hx _ IH]; intros [| y b] Hb; try constructor;
    apply Forall_cons in Hb as [Hy Hb]; [by apply lxor_byte | by apply IH].
Qed.

Lemma xor8_cancel a b : length a = length b -> xor8 (xor8 b a) b = a.
Proof.
  revert b. induction a as [| x a IH]; intros [| y b] E; try done. injection E as E. unfold xor8 in *. cbn [zip_with].
  rewrite IH by done. f_equal. by rewrite (Z.lxor_comm y x), lxor_cancel.
Qed.

Section chaining.
Context (schedule past : list Z).

(** The zeros the last block is filled with. *)
Definition padding (n : nat) : list Z := replicate (Nat.modulo (8 - Nat.modulo n 8) 8) 0.

Lemma block_padded input : input <> [] ->
  let t := zero_pad (Z.of_nat (length input)) (get_block past input) in
  length t = 8%nat /\ (length input <= 8 -> t = input ++ padding (length input))%nat
  /\ (8 <= length input -> t = take 8 input)%nat.
Proof.
  intros Hne t. set (n := length input) in *.
  assert (Hn : (1 <= n)%nat) by (unfold n; destruct input; [done | simpl; lia]).
  assert (Hle : (n <= 8)%nat -> t = input ++ padding n).
  { intros H8. unfold t, zero_pad, get_block. rewrite Z.min_l by lia. rewrite Nat2Z.id, take_take, Nat.min_l by lia.
    rewrite take_app_length' by done. f_equal. unfold padding. f_equal.
    destruct (decide (n = 8%nat)) as [-> | Hlt]; [done |].
    rewrite (Nat.mod_small n), (Nat.mod_small (8 - n)) by lia. lia. }
  assert (Hge : (8 <= n)%nat -> t = take 8 input).
  { intros H8. unfold t, zero_pad, get_block. rewrite Z.min_r by lia. change (Z.to_nat 8) with 8%nat.
    rewrite take_take, Nat.min_id. rewrite take_app_le by lia.
    replace (Z.to_nat (8 - Z.of_nat n)) with 0%nat by lia. cbn [replicate]. by rewrite app_nil_r. }
  split; [| by split]. destruct (decide (n <= 8)%nat) as [H8 | H8].
  - rewrite (Hle H8), length_app. fold n. unfold padding. rewrite length_replicate.
    destruct (decide (n = 8%nat)) as [-> | Hlt]; [done |].
    rewrite (Nat.mod_small n), (Nat.mod_small (8 - n)) by lia. lia.
  - rewrite Hge, length_take by lia. fold n. lia.
Qed.

Lemma padding_drop (input : list Z) : (8 <= length input)%nat -> padding (length (drop 8 input)) = padding (length input).
Proof.
  intros H. unfold padding. rewrite length_drop.
  replace (length input mod 8)%nat with ((length input - 8) mod 8)%nat; [done |].
  rewrite <- (Nat.Div0.mod_add (length input - 8) 1 8). f_equal. lia.
Qed.

Lemma cbc_undo fuel : forall input xor, (length input <= fuel)%nat -> Forall is_byte input ->
  length xor = 8%nat -> Forall is_byte xor ->
  let '(output, xor') := cbc_blocks schedule past true input (Z.of_nat (length input)) xor fuel in
  length output = length (input ++ padding (length input)) /\ length xor' = 8%nat /\ Forall is_byte xor'
  /\ forall fuel', (length output <= fuel')%nat ->
     cbc_blocks schedule past false output (Z.of_nat (length output)) xor fuel' = (input ++ padding (length input), xor').
Proof.
  induction fuel as [| fuel IH]; intros input xor Hf Hin Hlx Hx.
  - destruct input; [| simpl in Hf; lia]. cbn. split; [done |]. split; [done |]. split; [done |]. by intros [| fuel'] _.
  - cbn [cbc_blocks]. destruct (decide (input = [])) as [-> | Hne].
    { cbn. split; [done |]. split; [done |]. split; [done |]. by intros [| fuel'] _. }
    pose proof (block_padded input Hne) as (Ht8 & Htle & Htge). cbv zeta in Ht8, Htle, Htge.
    set (t := zero_pad _ _) in *.
    assert (Hn : (1 <= length input)%nat) by (destruct input; [done | simpl; lia]).
    rewrite (proj2 (Z.ltb_lt _ _)) by lia.
    assert (Htb : Forall is_byte t).
    { destruct (decide (length input <= 8)%nat) as [H8 | H8].
      - rewrite Htle by done. apply Forall_app. split; [done |]. apply Forall_replicate. done.
      - rewrite Htge by lia. by apply Forall_take. }
    pose proof (xor8_bytes xor t Hx Htb) as Hxt.
    assert (Hxl : length (xor8 xor t) = 8%nat) by (rewrite length_xor8; lia).
    destruct (ecb_block schedule (xor8 xor t) true) as [Hol Hob]. pose proof (ecb_undo schedule _ Hxl Hxt) as Hu.
    set (o := fc_ecb_encrypt schedule (xor8 xor t) true) in *.
    assert (Hx2 : length (xor8 t o) = 8%nat) by (rewrite length_xor8; lia).
    pose proof (IH (drop 8 input) (xor8 t o) ltac:(rewrite length_drop; lia) (Forall_drop _ _ _ Hin) Hx2 (xor8_bytes _ _ Htb Hob)) as IH'.
    assert (Erest : cbc_blocks schedule past true (drop 8 input) (Z.of_nat (length input) - 8) (xor8 t o) fuel
              = cbc_blocks schedule past true (drop 8 input) (Z.of_nat (length (drop 8 input))) (xor8 t o) fuel).
    { rewrite length_drop. destruct (decide (8 <= length input)%nat); [f_equal; lia |].
      destruct fuel as [| fuel0]; [done |]. cbn [cbc_blocks]. rewrite !(proj2 (Z.ltb_ge _ _)) by lia. done. }
    rewrite Erest. destruct (cbc_blocks _ _ true (drop 8 input) _ _ fuel) as [output xor'] eqn:Eb.
    destruct IH' as (I1 & I2 & I3 & I4).
    assert (Happ : t ++ drop 8 input ++ padding (length (drop 8 input)) = input ++ padding (length input)).
    { destruct (decide (length input <= 8)%nat) as [H8 | H8].
      - rewrite Htle by done. rewrite (drop_ge input) by done. cbn. by rewrite app_nil_r.
      - rewrite Htge, padding_drop by lia. by rewrite app_assoc, firstn_skipn. }
    split; [| split; [done | split; [done |]]].
    + rewrite <- Happ, !length_app, I1, !length_app. lia.
    + intros fuel' Hf'. rewrite length_app, Hol in Hf' |- *. destruct fuel' as [| fuel']; [lia |]. cbn [cbc_blocks].
      rewrite (proj2 (Z.ltb_lt _ _)) by lia.
      assert (Eg : get_block past (o ++ output) = o).
      { unfold get_block. rewrite <- app_assoc. by rewrite take_app_length' by done. }
      rewrite Eg, Hu, (xor8_cancel t xor) by (rewrite Ht8; done).
      rewrite (drop_app_length' o) by done.
      assert (Ex : xor8 o t = xor8 t o).
      { unfold xor8. apply list_eq. intros i. rewrite !lookup_zip_with.
        destruct (o !! i), (t !! i); cbn; try done. by rewrite Z.lxor_comm. }
      rewrite Ex. replace (Z.of_nat (8 + length output) - 8) with (Z.of_nat (length output)) by lia.
      rewrite I4 by lia. by rewrite Happ.
Qed.
End chaining.

(** C30. What [fc_cbc_encrypt] enciphers, it deciphers: the input comes back,
    filled up with zeros to whole blocks, whatever is in memory after it, and
    both leave the same chaining vector. *)
Theorem fc_cbc_round_trip schedule past input xor :
  Forall is_byte input -> length xor = 8%nat -> Forall is_byte xor ->
  let '(output, xor') := fc_cbc_encrypt schedule past input (Z.of_nat (length input)) xor true in
  length output = length (input ++ padding (length input))
  /\ fc_cbc_encrypt schedule past output (Z.of_nat (length output)) xor false
     = (input ++ padding (length input), xor').
Proof.
  intros Hin Hl Hx. unfold fc_cbc_encrypt. rewrite Nat2Z.id.
  pose proof (cbc_undo schedule past (length input) input xor ltac:(lia) Hin Hl Hx) as H.
  destruct (cbc_blocks _ _ true _ _ _ _) as [output xor']. destruct H as (H1 & _ & _ & H2).
  split; [done |]. rewrite Nat2Z.id. by apply H2.
Qed.

(** ** Segments *)

Section segments.
Context (schedule past : list Z) (encrypt : bool).

Lemma cbc_fuel : forall f f' input len xor, (Z.to_nat len <= f)%nat -> (Z.to_nat len <= f')%nat ->
  cbc_blocks schedule past encrypt input len xor f = cbc_blocks schedule past encrypt input len xor f'.
Proof.
  induction f as [| f IH]; intros [| f'] input len xor H H'; cbn [cbc_blocks]; [done | ..];
    (destruct (Z.ltb_spec 0 len); [| done]); [lia | lia |].
  destruct (if encrypt then _ else _) as [t o]. rewrite (IH f'); [done | lia | lia].
Qed.

Lemma block_app a b len : (8 <= length a)%nat -> 8 <= len ->
  zero_pad len (get_block past (a ++ b)) = zero_pad (Z.of_nat (length a)) (get_block past a)
  /\ get_block past (a ++ b) = get_block past a.
Proof.
  intros Ha Hl. assert (E : get_block past (a ++ b) = get_block past a).
  { unfold get_block. rewrite <- app_assoc. by rewrite !take_app_le by done. }
  split; [| done]. rewrite E. unfold zero_pad. rewrite !Z.min_r by lia.
  by replace (Z.to_nat (8 - len)) with (Z.to_nat (8 - Z.of_nat (length a))) by lia.
Qed.

Lemma cbc_app m : forall a b xor f f1 f2, length a = (8 * m)%nat ->
  (length a + length b <= f)%nat -> (length a <= f1)%nat -> (length b <= f2)%nat ->
  cbc_blocks schedule past encrypt (a ++ b) (Z.of_nat (length a + length b)) xor f =
  let '(oa, x1) := cbc_blocks schedule past encrypt a (Z.of_nat (length a)) xor f1 in
  let '(ob, x2) := cbc_blocks schedule past encrypt b (Z.of_nat (length b)) x1 f2 in (oa ++ ob, x2).
Proof.
  induction m as [| m IH]; intros a b xor f f1 f2 Ha Hf H1 H2.
  - destruct a; [| simpl in Ha; lia].
    assert (Ez : cbc_blocks schedule past encrypt [] (Z.of_nat 0) xor f1 = ([], xor)) by (by destruct f1).
    cbn [length app Nat.add]. rewrite Ez, (cbc_fuel f f2 b) by (simpl in *; lia).
    destruct (cbc_blocks schedule past encrypt b (Z.of_nat (length b)) xor f2) as [ob x2]. reflexivity.
  - destruct f as [| f]; [lia |]. destruct f1 as [| f1]; [lia |]. cbn [cbc_blocks].
    rewrite !(proj2 (Z.ltb_lt 0 _)) by lia.
    destruct (block_app a b (Z.of_nat (length a + length b)) ltac:(lia) ltac:(lia)) as [-> ->].
    destruct (if encrypt then _ else _) as [t o]. rewrite drop_app_le by lia.
    replace (Z.of_nat (length a + length b) - 8) with (Z.of_nat (length (drop 8 a) + length b)) by (rewrite length_drop; lia).
    replace (Z.of_nat (length a) - 8) with (Z.of_nat (length (drop 8 a))) by (rewrite length_drop; lia).
    rewrite (IH (drop 8 a) b (xor8 t o) f f1 f2) by (rewrite ?length_drop; lia).
    destruct (cbc_blocks _ _ _ (drop 8 a) _ _ _) as [oa x1]. destruct (cbc_blocks _ _ _ b _ _ _) as [ob x2].
    by rewrite app_assoc.
Qed.
End segments.

(** Data can be enciphered, and deciphered, in segments, each with the
    chaining vector the one before left: all but the last are whole blocks, and
    the result is that of one call. *)
Theorem fc_cbc_segments schedule past encrypt a b xor :
  (length a mod 8 = 0)%nat ->
  fc_cbc_encrypt schedule past (a ++ b) (Z.of_nat (length (a ++ b))) xor encrypt =
  let '(oa, x1) := fc_cbc_encrypt schedule past a (Z.of_nat (length a)) xor encrypt in
  let '(ob, x2) := fc_cbc_encrypt schedule past b (Z.of_nat (length b)) x1 encrypt in (oa ++ ob, x2).
Proof.
  intros Ha. unfold fc_cbc_encrypt. rewrite length_app, !Nat2Z.id.
  assert (E : length a = (8 * (length a / 8))%nat) by (pose proof (Nat.div_mod_eq (length a) 8); lia).
  rewrite (cbc_app schedule past encrypt (length a / 8) a b xor _ (length a) (length b) E) by lia.
  destruct (cbc_blocks _ _ _ a _ _ _) as [oa x1]. reflexivity.
Qed.

(** ** The key schedule *)

(** The 56 bits of the key, and their rotation to the right by 11. *)
Definition key56 (key : list Z) : Z := fold_left (fun a b => a * 128 + b / 2) key 0.
Definition ror11 (x : Z) : Z := x / 2 ^ 11 + x mod 2 ^ 11 * 2 ^ 45.

Lemma lor_add n a b : 0 <= n -> 0 <= a < 2 ^ n -> Z.lor a (b * 2 ^ n) = a + b * 2 ^ n.
Proof.
  intros Hn Ha. rewrite <- Z.add_lor_land.
  assert (E : Z.land a (b * 2 ^ n) = 0); [| rewrite E; lia].
  apply Z.bits_inj'. intros k Hk. rewrite Z.land_spec, Z.bits_0. destruct (decide (k < n)).
  - by rewrite Z.mul_pow2_bits_low, andb_false_r by lia.
  - by rewrite (high_bits n a) by lia.
Qed.

(** The two words of a key are its 56 bits. *)
Definition key_of (kw : Z * Z) (x : Z) : Prop :=
  0 <= kw.1 < 4294967296 /\ 0 <= kw.2 < 16777216 /\ kw.2 * 4294967296 + kw.1 = x.

Lemma rotate_key_of kw x : key_of kw x -> key_of (rotate_key kw) (ror11 x).
Proof.
  destruct kw as [k0 k1]. intros (H0 & H1 & <-). cbn [fst snd] in *. unfold rotate_key.
  change (2 ^ 11 - 1) with (Z.ones 11). rewrite !Z.land_ones, !Z.shiftr_div_pow2, !Z.shiftl_mul_pow2 by lia.
  assert (E0 : Z.lor (k0 / 2 ^ 11) (u32 (k1 mod 2 ^ 11 * 2 ^ (32 - 11))) = k0 / 2048 + k1 mod 2048 * 2097152).
  { rewrite u32_small by (change (2 ^ 11) with 2048; change (2 ^ (32 - 11)) with 2097152; zdiv).
    rewrite lor_add; [done | lia |]. change (2 ^ 11) with 2048. change (2 ^ (32 - 11)) with 2097152. zdiv. }
  assert (E1 : Z.lor (k1 / 2 ^ 11) (u32 (k0 mod 2 ^ 11 * 2 ^ (56 - 32 - 11))) = k1 / 2048 + k0 mod 2048 * 8192).
  { rewrite u32_small by (change (2 ^ 11) with 2048; change (2 ^ (56 - 32 - 11)) with 8192; zdiv).
    rewrite lor_add; [done | lia |]. change (2 ^ 11) with 2048. change (2 ^ (56 - 32 - 11)) with 8192. zdiv. }
  rewrite E0, E1. unfold key_of, ror11. cbn [fst snd]. change (2 ^ 11) with 2048. change (2 ^ 45) with 35184372088832.
  assert (Eq : (k1 * 4294967296 + k0) / 2048 = k1 * 2097152 + k0 / 2048) by zdiv.
  assert (Er : (k1 * 4294967296 + k0) mod 2048 = k0 mod 2048) by zdiv.
  rewrite Eq, Er. pose proof (Z.div_mod k0 2048 ltac:(lia)). pose proof (Z.mod_pos_bound k0 2048 ltac:(lia)).
  pose proof (Z.div_mod k1 2048 ltac:(lia)). pose proof (Z.mod_pos_bound k1 2048 ltac:(lia)). repeat split; lia.
Qed.

Lemma schedule_of n : forall kw x, key_of kw x ->
  schedule_from kw n = map (fun i => u32 (Nat.iter i ror11 x)) (seq 0 n).
Proof.
  induction n as [| n IH]; intros kw x H; [done |]. cbn [schedule_from seq map]. f_equal.
  - destruct H as (H0 & H1 & <-). unfold u32. apply (Z.mod_unique_pos _ 4294967296 kw.2); [done | cbn; lia].
  - rewrite (IH _ _ (rotate_key_of _ _ H)). rewrite <- seq_shift, map_map. apply map_ext. intros i.
    by rewrite Nat.iter_succ_r.
Qed.

(** The schedule is the low 32 bits of the key's 56 bits, rotated right by 11
    from word to word. *)
Theorem fc_keysched_rotates key : length key = 8%nat -> Forall is_byte key ->
  fc_keysched key = map (fun i => u32 (Nat.iter i ror11 (key56 key))) (seq 0 ROUNDS).
Proof.
  intros Hl Hb. apply schedule_of. do 8 (destruct key as [| ? key]; [done |]). destruct key; [| done].
  unfold is_byte in Hb. repeat (apply Forall_cons in Hb as [? Hb]). unfold key_words, key56. cbn [nth fold_left].
  rewrite !Z.shiftr_div_pow2, !Z.shiftl_mul_pow2 by lia. change 15 with (Z.ones 4). rewrite Z.land_ones by lia.
  change (2 ^ 1) with 2. change (2 ^ 4) with 16. change (2 ^ 7) with 128.
  repeat match goal with |- context [?z / 2] => is_var z; let b := fresh "b" in set (b := z / 2) in *;
    assert (0 <= b < 128) by (subst b; zdiv); clearbody b end.
  unfold key_of. cbn [fst snd].
  repeat (match goal with |- context [u32 ?e] => lazymatch e with context [u32 _] => fail | _ => rewrite (u32_small e) by zdiv end end).
  repeat split; zdiv.
Qed.

(** ** Witnesses *)

Definition demo_key : list Z := [17; 68; 119; 170; 221; 0; 51; 102].
Definition demo_data : list Z := [1; 2; 3; 4; 5; 6; 7; 8; 9; 10; 11].

Lemma demo_bytes : Forall is_byte demo_data /\ Forall is_byte demo_key.
Proof. split; repeat (apply Forall_cons; split; [done |]); constructor. Qed.

Lemma fc_cbc_round_trip_witness :
  let '(output, xor') := fc_cbc_encrypt (fc_keysched demo_key) [] demo_data 11 demo_key true in
  length output = 16%nat
  /\ fc_cbc_encrypt (fc_keysched demo_key) [] output (Z.of_nat (length output)) demo_key false
     = (demo_data ++ [0; 0; 0; 0; 0], xor').
Proof. apply (fc_cbc_round_trip (fc_keysched demo_key) [] demo_data demo_key); [apply demo_bytes | done | apply demo_bytes]. Defined.

Lemma fc_cbc_segments_witness :
  fc_cbc_encrypt (fc_keysched demo_key) [] (demo_key ++ demo_data) 19 demo_key true =
  let '(oa, x1) := fc_cbc_encrypt (fc_keysched demo_key) [] demo_key 8 demo_key true in
  let '(ob, x2) := fc_cbc_encrypt (fc_keysched demo_key) [] demo_data 11 x1 true in (oa ++ ob, x2).
Proof. apply (fc_cbc_segments (fc_keysched demo_key) [] true demo_key demo_data demo_key). reflexivity. Defined.

Lemma fc_keysched_rotates_witness :
  fc_keysched demo_key = map (fun i => u32 (Nat.iter i ror11 (key56 demo_key))) (seq 0 ROUNDS).
Proof. apply fc_keysched_rotates; [reflexivity | apply demo_bytes]. Defined.
