(* ===== verification/RxkadPacket.v ===== *)
(** The packets of the RPC security class: src/rxkad/rxkad_common.c
    ([rxkad_PreparePacket], [rxkad_CheckPacket] and what they use) and
    src/rxkad/domestic/crypt_conn.c, over the buffers of a packet. *)
From S2P Require Import Prelude Bytes Fcrypt.

(** A buffer of a packet: all of its memory, and how much of it is in use. *)
Record iovec := Iov { iov_base : list Z; iov_len : Z }.

(** A packet: the fields of the header that matter here, [wirevec] from 1 on,
    the header being 0, and the length, a short. *)
Record packet := Packet {
  seq_ : Z; callNumber : Z; cid : Z; spare : Z;
  wirevec : list iovec; plength : Z
}.

Definition set_wirevec (v : list iovec) (p : packet) : packet :=
  Packet (seq_ p) (callNumber p) (cid p) (spare p) v (plength p).
Definition rx_SetDataSize (size : Z) (p : packet) : packet :=
  Packet (seq_ p) (callNumber p) (cid p) (spare p) (wirevec p) (u16 size).
Definition rx_SetPacketCksum (cksum : Z) (p : packet) : packet :=
  Packet (seq_ p) (callNumber p) (cid p) (u16 cksum) (wirevec p) (plength p).

(** ** Words in a packet *)

(** The bytes [l] stored at [off] in a buffer. *)
Definition poke (base : list Z) (off : nat) (l : list Z) : list Z :=
  take off base ++ l ++ drop (off + length l) base.

(** The buffer a byte of the packet is in. The first buffer has a faster way
    in the macros, to the same effect. *)
Fixpoint rx_GetInt32 (v : list iovec) (off : Z) : list Z :=
  match v with
  | [] => [0; 0; 0; 0]
  | b :: v' =>
      if off <? iov_len b then take 4 (drop (Z.to_nat off) (iov_base b)) else rx_GetInt32 v' (off - iov_len b)
  end.

Fixpoint rx_PutInt32 (v : list iovec) (off : Z) (data : list Z) : list iovec :=
  match v with
  | [] => []
  | b :: v' =>
      if off <? iov_len b then Iov (poke (iov_base b) (Z.to_nat off) data) (iov_len b) :: v'
      else b :: rx_PutInt32 v' (off - iov_len b) data
  end.

(** The last buffer made longer, if it has the room. *)
Fixpoint rxi_RoundUpPacket (v : list iovec) (nb : Z) : list iovec :=
  match v with
  | [] => []
  | [b] => if iov_len b <=? Z.of_nat (length (iov_base b)) - nb then [Iov (iov_base b) (iov_len b + nb)] else [b]
  | b :: v' => b :: rxi_RoundUpPacket v' nb
  end.

(** ** Enciphering *)

Section crypt.
Context (schedule : list Z).

(** The buffers in turn, [len] bytes in all, the chaining vector going on from
    one to the next; the bytes are written where they were read. *)
Fixpoint crypt_vec (encrypt : bool) (v : list iovec) (len : Z) (xor : list Z) : list iovec :=
  match v with
  | [] => []
  | b :: v' =>
      if (len =? 0) || (iov_len b =? 0) then b :: v'
      else
        let tlen := Z.min len (iov_len b) in
        let '(out, xor') := fc_cbc_encrypt schedule (drop (Z.to_nat tlen) (iov_base b))
                              (take (Z.to_nat tlen) (iov_base b)) tlen xor encrypt in
        Iov (poke (iov_base b) 0 out) (iov_len b) :: crypt_vec encrypt v' (len - tlen) xor'
  end.

Definition rxkad_DecryptPacket (ivec : list Z) (len : Z) (p : packet) : packet :=
  set_wirevec (crypt_vec false (wirevec p) len ivec) p.

Definition rxkad_EncryptPacket (ivec : list Z) (len : Z) (p : packet) : packet :=
  set_wirevec (crypt_vec true (rx_PutInt32 (wirevec p) 4 [0; 0; 0; 0]) len ivec) p.

(** The first block of the packet. *)
Definition crypt_first (encrypt : bool) (v : list iovec) : list iovec :=
  match v with
  | [] => []
  | b :: v' => Iov (poke (iov_base b) 0 (fc_ecb_encrypt schedule (take 8 (iov_base b)) encrypt)) (iov_len b) :: v'
  end.

(** The checksum of the header. *)
Definition ComputeSum (p : packet) (aivec : list Z) : Z :=
  let word0 := be_bytes (callNumber p) in
  let word1 := be_bytes (Z.lor (Z.shiftl (Z.land (cid p) 3) 30) (Z.land (seq_ p) 1073741823)) in
  let t := be_val (drop 4 (fc_ecb_encrypt schedule (xor8 (word0 ++ word1) aivec) true)) in
  let t := Z.land (Z.shiftr t 16) 65535 in
  if t =? 0 then 1 else t.
End crypt.

(** ** Connections *)

Inductive rxkad_level := rxkad_clear | rxkad_auth | rxkad_crypt.
Inductive status := Success | RXKADINCONSISTENCY | RXKADEXPIRED | RXKADSEALEDINCON | RXKADDATALEN.

Definition ENCRYPTIONBLOCKSIZE : Z := 8.
Definition round_up_to_ebs (v : Z) : Z := Z.land (v + 7) (Z.lnot 7).

(** The header size that [rxkad_SetLevel] gives a connection of the level. *)
Definition header_size (level : rxkad_level) : Z :=
  match level with rxkad_clear => 0 | rxkad_auth => 4 | rxkad_crypt => 8 end.

(** [rxkad_StringToLevel], with its -1 as [None]. *)
Definition rxkad_StringToLevel (name : list Z) : option rxkad_level :=
  if bool_decide (name = [99; 108; 101; 97; 114]) then Some rxkad_clear
  else if bool_decide (name = [97; 117; 116; 104]) then Some rxkad_auth
  else if bool_decide (name = [99; 114; 121; 112; 116]) then Some rxkad_crypt
  else None.
Definition rxkad_LevelToString (level : rxkad_level) : list Z :=
  match level with
  | rxkad_clear => [99; 108; 101; 97; 114]
  | rxkad_auth => [97; 117; 116; 104]
  | rxkad_crypt => [99; 114; 121; 112; 116]
  end.

(** What an end of a connection keeps. The client's key and level are in its
    security object, of type [client_type]; the server's in the connection, once
    it is authenticated. *)
Record conn := Conn {
  is_server : bool; client_type : bool; authenticated : bool; expirationTime : Z;
  level : rxkad_level; keysched : list Z; ivec : list Z; preSeq : list Z; cksumSeen : bool;
  packetsReceived : Z; packetsSent : Z; bytesReceived : Z; bytesSent : Z
}.

Definition seen (c : conn) : conn :=
  Conn (is_server c) (client_type c) (authenticated c) (expirationTime c) (level c) (keysched c) (ivec c) (preSeq c) true
    (packetsReceived c) (packetsSent c) (bytesReceived c) (bytesSent c).
Definition received (len : Z) (c : conn) : conn :=
  Conn (is_server c) (client_type c) (authenticated c) (expirationTime c) (level c) (keysched c) (ivec c) (preSeq c) (cksumSeen c)
    (u32 (packetsReceived c + 1)) (packetsSent c) (u32 (bytesReceived c + len)) (bytesSent c).
Definition sent (len : Z) (c : conn) : conn :=
  Conn (is_server c) (client_type c) (authenticated c) (expirationTime c) (level c) (keysched c) (ivec c) (preSeq c) (cksumSeen c)
    (packetsReceived c) (u32 (packetsSent c + 1)) (bytesReceived c) (u32 (bytesSent c + len)).

(** Whether the connection can be used, or the code to return. *)
Definition usable (now : Z) (c : conn) : status :=
  if is_server c then if authenticated c && (now <? expirationTime c) then Success else RXKADEXPIRED
  else if client_type c then Success else RXKADINCONSISTENCY.

(** The word over the data: the sequence and call numbers and the length. *)
Definition seal (p : packet) : Z := Z.land (Z.lxor (seq_ p) (callNumber p)) 65535.

Definition rxkad_CheckPacket (now : Z) (c : conn) (p : packet) : status * conn * packet :=
  let len := plength p in
  let c := if spare p =? 0 then c else seen c in
  match usable now c with
  | Success =>
      let c := received len c in
      if cksumSeen c && negb (ComputeSum (keysched c) p (preSeq c) =? spare p) then (RXKADSEALEDINCON, c, p)
      else
        match level c with
        | rxkad_clear => (Success, c, p)
        | lev =>
            let p1 := match lev with
                      | rxkad_crypt => rxkad_DecryptPacket (keysched c) (ivec c) len p
                      | _ => set_wirevec (crypt_first (keysched c) false (wirevec p)) p
                      end in
            let word := be_val (rx_GetInt32 (wirevec p1) 0) in
            if negb (Z.shiftr word 16 =? seal p1) then (RXKADSEALEDINCON, c, p1)
            else
              let nlen := Z.land word 65535 in
              if len <? nlen then (RXKADDATALEN, c, p1) else (Success, c, rx_SetDataSize nlen p1)
        end
  | code => (code, c, p)
  end.

Definition rxkad_PreparePacket (now : Z) (c : conn) (p : packet) : status * conn * packet :=
  let len := plength p in
  match usable now c with
  | Success =>
      let c := sent len c in
      let p := rx_SetPacketCksum (ComputeSum (keysched c) p (preSeq c)) p in
      match level c with
      | rxkad_clear => (Success, c, p)
      | lev =>
          let word := Z.lor (Z.shiftl (seal p) 16) (Z.land len 65535) in
          let v := rx_PutInt32 (wirevec p) 0 (be_bytes word) in
          let full := len + header_size lev in
          let nlen := match lev with rxkad_crypt => round_up_to_ebs full | _ => Z.max ENCRYPTIONBLOCKSIZE full end in
          let v := if full <? nlen then rxi_RoundUpPacket v (nlen - full) else v in
          let p := set_wirevec v p in
          let p := match lev with
                   | rxkad_crypt => rxkad_EncryptPacket (keysched c) (ivec c) nlen p
                   | _ => set_wirevec (crypt_first (keysched c) true (wirevec p)) p
                   end in
          (Success, c, rx_SetDataSize nlen p)
      end
  | code => (code, c, p)
  end.

(** ** The endpoint *)

(** [rxkad_SetupEndpoint]: the bytes of the structure, in network order. *)
Definition rxkad_SetupEndpoint (epoch cid securityIndex : Z) : list Z :=
  be_bytes epoch ++ be_bytes (Z.land cid (-4)) ++ be_bytes 0 ++ be_bytes securityIndex.

Definition rxkad_DeriveXORInfo (epoch cid securityIndex : Z) (schedule aivec : list Z) : list Z :=
  let tendpoint := (fc_cbc_encrypt schedule [] (rxkad_SetupEndpoint epoch cid securityIndex) 16 aivec true).1 in
  drop (16 - 8) tendpoint.
