(* ===== verification/RxkadSession.v ===== *)
(** The packets of the RPC security class, end to end: what one end of a
    connection prepares, the other checks and takes its data out of, at every
    level, however the two ends lay the packet out in buffers. *)
From S2P Require Import Prelude Bytes Fcrypt RxkadPacket.

(** ** Whole blocks *)

Lemma cbc_whole schedule past encrypt m : forall input xor f, length input = (8 * m)%nat -> (length input <= f)%nat ->
  Forall is_byte input -> length xor = 8%nat -> Forall is_byte xor ->
  cbc_blocks schedule past encrypt input (Z.of_nat (length input)) xor f
  = cbc_blocks schedule [] encrypt input (Z.of_nat (length input)) xor f
  /\ let '(out, xor') := cbc_blocks schedule past encrypt input (Z.of_nat (length input)) xor f in
     length out = length input /\ Forall is_byte out /\ length xor' = 8%nat /\ Forall is_byte xor'.
Proof.
  induction m as [| m IH]; intros input xor f Hl Hf Hb Hx Hxb.
  - destruct input; [| simpl in Hl; lia]. by destruct f.
  - destruct f as [| f]; [lia |]. cbn [cbc_blocks]. rewrite (proj2 (Z.ltb_lt 0 _)) by lia.
    assert (Eg : forall past, get_block past input = take 8 input)
      by (intros q; unfold get_block; by rewrite take_app_le by lia).
    assert (Ez : forall past, zero_pad (Z.of_nat (length input)) (get_block past input) = take 8 input).
    { intros q. unfold zero_pad. rewrite Eg, Z.min_r by lia. change (Z.to_nat 8) with 8%nat.
      rewrite take_take, Nat.min_id. replace (Z.to_nat (8 - Z.of_nat (length input))) with 0%nat by lia. apply app_nil_r. }
    rewrite !Ez, !Eg. assert (Ht : length (take 8 input) = 8%nat) by (rewrite length_take; lia).
    pose proof (Forall_take _ 8 _ Hb) as Htb.
    assert (Ho : forall o, length o = 8%nat -> Forall is_byte o ->
      cbc_blocks schedule past encrypt (drop 8 input) (Z.of_nat (length input) - 8) (xor8 (take 8 input) o) f
      = cbc_blocks schedule [] encrypt (drop 8 input) (Z.of_nat (length input) - 8) (xor8 (take 8 input) o) f
      /\ let '(out, xor') := cbc_blocks schedule past encrypt (drop 8 input) (Z.of_nat (length input) - 8) (xor8 (take 8 input) o) f in
         length out = (length input - 8)%nat /\ Forall is_byte out /\ length xor' = 8%nat /\ Forall is_byte xor').
    { intros o Hol Hob. replace (Z.of_nat (length input) - 8) with (Z.of_nat (length (drop 8 input))) by (rewrite length_drop; lia).
      rewrite <- length_drop. apply IH; rewrite ?length_drop; try lia; [by apply Forall_drop | | by apply xor8_bytes].
      rewrite length_xor8, Ht, Hol. done. }
    assert (Hfin : forall o, length o = 8%nat -> Forall is_byte o ->
      (let '(output, xor') := cbc_blocks schedule past encrypt (drop 8 input) (Z.of_nat (length input) - 8) (xor8 (take 8 input) o) f in (o ++ output, xor'))
      = (let '(output, xor') := cbc_blocks schedule [] encrypt (drop 8 input) (Z.of_nat (length input) - 8) (xor8 (take 8 input) o) f in (o ++ output, xor'))
      /\ let '(out, xor') := (let '(output, xor') := cbc_blocks schedule past encrypt (drop 8 input) (Z.of_nat (length input) - 8) (xor8 (take 8 input) o) f in (o ++ output, xor')) in
         length out = length input /\ Forall is_byte out /\ length xor' = 8%nat /\ Forall is_byte xor').
    { intros o Hol Hob. destruct (Ho o Hol Hob) as [E H]. rewrite <- E. split; [done |].
      destruct (cbc_blocks schedule past _ _ _ _ _) as [out x']. destruct H as (H1 & H2 & H3 & H4).
      split; [rewrite length_app; lia |]. split; [by apply Forall_app |]. done. }
    destruct encrypt; cbn iota.
    + apply Hfin; apply ecb_block.
    + destruct (ecb_block schedule (take 8 input) false) as [B1 B2].
      apply Hfin; [rewrite length_xor8, B1, Hx; done | by apply xor8_bytes].
Qed.

(** ** The data of a packet *)

Definition chunk (b : iovec) : list Z := take (Z.to_nat (iov_len b)) (iov_base b).
Definition data (v : list iovec) : list Z := concat (map chunk v).

(** A buffer in use no further than it goes. *)
Definition fits_in (b : iovec) : Prop :=
  0 < iov_len b <= Z.of_nat (length (iov_base b)) /\ Forall is_byte (iov_base b).
Definition blocks_in (b : iovec) : Prop := fits_in b /\ iov_len b mod 8 = 0.

Lemma chunk_length b : fits_in b -> length (chunk b) = Z.to_nat (iov_len b).
Proof. intros [H _]. unfold chunk. rewrite length_take. lia. Qed.

Lemma chunk_bytes b : fits_in b -> Forall is_byte (chunk b).
Proof. intros [_ H]. by apply Forall_take. Qed.

Lemma data_bytes v : Forall fits_in v -> Forall is_byte (data v).
Proof.
  induction 1 as [| b v Hb _ IH]; [constructor |]. apply Forall_app. split; [by apply chunk_bytes | done].
Qed.

Lemma length_poke base off l : (off + length l <= length base)%nat -> length (poke base off l) = length base.
Proof. intros H. unfold poke. rewrite !length_app, length_take, length_drop. lia. Qed.

Lemma poke_bytes base off l : Forall is_byte base -> Forall is_byte l -> Forall is_byte (poke base off l).
Proof. intros H1 H2. unfold poke. repeat apply Forall_app_2; auto using Forall_take, Forall_drop. Qed.

Lemma poke_0 base l : poke base 0 l = l ++ drop (length l) base.
Proof. done. Qed.

Lemma take_poke n base off l : (off + length l <= n)%nat -> (n <= length base)%nat ->
  take n (poke base off l) = poke (take n base) off l.
Proof.
  intros H1 H2. unfold poke. rewrite take_app, length_take, (Nat.min_l off) by lia.
  rewrite take_take, (Nat.min_r n off), (take_take base off n), (Nat.min_l off n) by lia. f_equal.
  rewrite take_app, (firstn_all2 l) by lia. f_equal.
  rewrite skipn_firstn_comm. f_equal. lia.
Qed.

Lemma poke_app base rest off l : (off + length l <= length base)%nat ->
  poke (base ++ rest) off l = poke base off l ++ rest.
Proof. intros H. unfold poke. rewrite take_app_le, drop_app_le by lia. by rewrite <- !app_assoc. Qed.

Lemma put_data b v off l : fits_in b -> 0 <= off -> off + Z.of_nat (length l) <= iov_len b -> (0 < length l)%nat ->
  data (rx_PutInt32 (b :: v) off l) = poke (data (b :: v)) (Z.to_nat off) l.
Proof.
  intros Hb H0 Hl Hn. cbn [rx_PutInt32]. rewrite (proj2 (Z.ltb_lt _ _)) by lia.
  unfold data. cbn [map concat]. unfold chunk at 1. cbn [iov_base iov_len].
  destruct Hb as [Hb1 Hb2]. rewrite take_poke by lia. fold (chunk b). rewrite poke_app; [done |].
  rewrite chunk_length by done. lia.
Qed.

Lemma mod8_nat n : (n mod 8 = 0)%nat <-> Z.of_nat n mod 8 = 0.
Proof. change 8 with (Z.of_nat 8). rewrite <- Nat2Z.inj_mod. lia. Qed.

(** Buffers for whole blocks, the last perhaps with more room than that. *)
Definition whole_blocks (v : list iovec) : Prop := exists pre b, v = pre ++ [b] /\ Forall blocks_in pre /\ fits_in b.

Lemma whole_cons b v : whole_blocks (b :: v) -> fits_in b /\ (v = [] \/ iov_len b mod 8 = 0 /\ whole_blocks v).
Proof.
  intros ([| c pre] & b' & E & Hpre & Hb); cbn [app] in E; injection E as -> ->; [by split; [| left] |].
  apply Forall_cons in Hpre as [[Hc Hc8] Hpre]. split; [done |]. right. split; [done |]. by exists pre, b'.
Qed.

(** Enciphering and deciphering whole blocks at the beginning of the buffers is
    doing so with the data there; what is behind them is left. *)
Lemma crypt_one schedule encrypt b n xor : fits_in b -> (n <= Z.to_nat (iov_len b))%nat -> (n mod 8 = 0)%nat ->
  length xor = 8%nat -> Forall is_byte xor ->
  let '(out, xor') := fc_cbc_encrypt schedule (drop n (iov_base b)) (take n (iov_base b)) (Z.of_nat n) xor encrypt in
  cbc_blocks schedule [] encrypt (take n (chunk b)) (Z.of_nat n) xor n = (out, xor')
  /\ length out = n /\ Forall is_byte out /\ length xor' = 8%nat /\ Forall is_byte xor'.
Proof.
  intros [Hb1 Hb2] Hn H8 Hx Hxb. unfold fc_cbc_encrypt. rewrite Nat2Z.id. unfold chunk. rewrite take_take, Nat.min_l by done.
  assert (Hl : length (take n (iov_base b)) = n) by (rewrite length_take; lia).
  assert (Hm : length (take n (iov_base b)) = (8 * (n / 8))%nat) by (rewrite Hl; pose proof (Nat.div_mod n 8); lia).
  pose proof (cbc_whole schedule (drop n (iov_base b)) encrypt _ (take n (iov_base b)) xor n Hm ltac:(lia) (Forall_take _ n _ Hb2) Hx Hxb) as [E H].
  rewrite Hl in E, H. rewrite <- E. by destruct (cbc_blocks _ (drop _ _) _ _ _ _ _).
Qed.

Lemma crypt_part schedule encrypt v : forall n xor, whole_blocks v -> length xor = 8%nat -> Forall is_byte xor ->
  (n <= length (data v))%nat -> (n mod 8 = 0)%nat ->
  data (crypt_vec schedule encrypt v (Z.of_nat n) xor)
  = (cbc_blocks schedule [] encrypt (take n (data v)) (Z.of_nat n) xor n).1 ++ drop n (data v).
Proof.
  induction v as [| b v IH]; intros n xor Hv Hx Hxb Hn H8; [by destruct Hv as ([|] & ? & ? & _) |].
  destruct (whole_cons b v Hv) as [Hb Hv']. pose proof (chunk_length b Hb) as Hc. pose proof Hb as [Hb1 Hb2].
  change (data (b :: v)) with (chunk b ++ data v) in *. rewrite length_app in Hn. cbn [crypt_vec].
  destruct (Z.eqb_spec (Z.of_nat n) 0) as [E0 | E0]; [by assert (n = 0%nat) as -> by lia |].
  rewrite (proj2 (Z.eqb_neq (iov_len b) 0)) by lia. cbn [orb].
  assert (Hone : forall m, m = Nat.min n (Z.to_nat (iov_len b)) -> (m mod 8 = 0)%nat ->
    data (Iov (poke (iov_base b) 0 (fc_cbc_encrypt schedule (drop m (iov_base b)) (take m (iov_base b)) (Z.of_nat m) xor encrypt).1) (iov_len b)
      :: crypt_vec schedule encrypt v (Z.of_nat n - Z.of_nat m) (fc_cbc_encrypt schedule (drop m (iov_base b)) (take m (iov_base b)) (Z.of_nat m) xor encrypt).2)
    = (cbc_blocks schedule [] encrypt (take m (chunk b)) (Z.of_nat m) xor m).1 ++ drop m (chunk b)
      ++ data (crypt_vec schedule encrypt v (Z.of_nat n - Z.of_nat m) (cbc_blocks schedule [] encrypt (take m (chunk b)) (Z.of_nat m) xor m).2)).
  { intros m Hm Hm8. pose proof (crypt_one schedule encrypt b m xor Hb ltac:(lia) Hm8 Hx Hxb) as H.
    destruct (fc_cbc_encrypt _ _ _ _ _ _) as [out xor']. destruct H as (-> & O1 & _). cbn [fst snd].
    unfold data. cbn [map concat]. rewrite app_assoc. f_equal. unfold chunk at 1. cbn [iov_base iov_len].
    rewrite take_poke by lia. fold (chunk b). by rewrite poke_0, O1. }
  set (tlen := Z.min _ _). assert (Et : tlen = Z.of_nat (Z.to_nat tlen)) by lia. set (m := Z.to_nat tlen) in *. rewrite Et.
  assert (Hm : m = Nat.min n (Z.to_nat (iov_len b))) by lia.
  transitivity (data (Iov (poke (iov_base b) 0 (fc_cbc_encrypt schedule (drop m (iov_base b)) (take m (iov_base b)) (Z.of_nat m) xor encrypt).1) (iov_len b)
      :: crypt_vec schedule encrypt v (Z.of_nat n - Z.of_nat m) (fc_cbc_encrypt schedule (drop m (iov_base b)) (take m (iov_base b)) (Z.of_nat m) xor encrypt).2));
    [by destruct (fc_cbc_encrypt _ _ _ _ _ _) |].
  destruct (Nat.le_gt_cases n (Z.to_nat (iov_len b))) as [Hle | Hgt].
  - assert (m = n) as Em by lia. rewrite Em in *. rewrite (Hone n) by done.
    rewrite take_app_le, drop_app_le by lia. f_equal. f_equal. replace (Z.of_nat n - Z.of_nat n) with 0 by lia. by destruct v.
  - assert (m = length (chunk b)) as Em by lia. destruct Hv' as [-> | [Hb8 Hv']]; [cbn in Hn; lia |].
    assert (Hm8 : (m mod 8 = 0)%nat) by (apply mod8_nat; rewrite Em, Hc, Z2Nat.id by lia; done).
    rewrite (Hone m Hm Hm8), Em, firstn_all, drop_all. cbn [app].
    set (n' := (n - length (chunk b))%nat). replace (Z.of_nat n - Z.of_nat (length (chunk b))) with (Z.of_nat n') by lia.
    assert (Hn8 : (n' mod 8 = 0)%nat).
    { apply mod8_nat in H8, Hm8. apply mod8_nat. rewrite Em in Hm8. unfold n'. zdiv. }
    pose proof (crypt_one schedule encrypt b m xor Hb ltac:(lia) Hm8 Hx Hxb) as H. rewrite Em, firstn_all in H.
    assert (Hcm : length (chunk b) = (8 * (length (chunk b) / 8))%nat) by (rewrite <- Em; pose proof (Nat.div_mod m 8); lia).
    pose proof (cbc_app schedule [] encrypt _ (chunk b) (take n' (data v)) xor n (length (chunk b)) n' Hcm) as HA.
    assert (Hl' : length (take n' (data v)) = n') by (rewrite length_take; lia). rewrite Hl' in HA.
    replace (length (chunk b) + n')%nat with n in HA by lia. rewrite take_app_ge, drop_app_ge by lia. fold n'. rewrite HA by lia.
    destruct (fc_cbc_encrypt _ _ _ _ _ _) as [out xor']. destruct H as (-> & O1 & O2 & O3 & O4). cbn [fst snd].
    rewrite (IH n' xor' Hv' O3 O4) by (done || lia). destruct (cbc_blocks schedule [] encrypt (take n' (data v)) _ xor' _) as [ob x2]. cbn [fst]. by rewrite app_assoc.
Qed.

(** ** Laying out *)

Lemma data_app v w : data (v ++ w) = data v ++ data w.
Proof. unfold data. by rewrite map_app, concat_app. Qed.

Lemma put_first b v off l : off < iov_len b ->
  rx_PutInt32 (b :: v) off l = Iov (poke (iov_base b) (Z.to_nat off) l) (iov_len b) :: v.
Proof. intros H. cbn [rx_PutInt32]. by rewrite (proj2 (Z.ltb_lt _ _)). Qed.

Lemma poke_fits b off l : fits_in b -> (off + length l <= length (iov_base b))%nat -> Forall is_byte l ->
  fits_in (Iov (poke (iov_base b) off l) (iov_len b)).
Proof.
  intros [H1 H2] Hl Hb. split; cbn [iov_base iov_len]; [by rewrite length_poke | by apply poke_bytes].
Qed.

Lemma get_first b v : fits_in b -> 4 <= iov_len b -> rx_GetInt32 (b :: v) 0 = take 4 (data (b :: v)).
Proof.
  intros Hb H4. cbn [rx_GetInt32]. rewrite (proj2 (Z.ltb_lt _ _)) by lia. cbn [Z.to_nat drop].
  unfold data. cbn [map concat]. pose proof (chunk_length b Hb). rewrite take_app_le by lia.
  unfold chunk. rewrite take_take. by rewrite Nat.min_l by lia.
Qed.

(** All buffers but the last hold whole blocks, and so does the memory of the
    last. *)
Definition laid_out (v : list iovec) : Prop :=
  exists pre b, v = pre ++ [b] /\ Forall blocks_in pre /\ fits_in b /\ Z.of_nat (length (iov_base b)) mod 8 = 0.

Lemma round_last pre b nb : iov_len b + nb <= Z.of_nat (length (iov_base b)) ->
  rxi_RoundUpPacket (pre ++ [b]) nb = pre ++ [Iov (iov_base b) (iov_len b + nb)].
Proof.
  intros H. induction pre as [| c pre IH]; cbn [app rxi_RoundUpPacket].
  - by rewrite (proj2 (Z.leb_le _ _)) by lia.
  - rewrite IH. by destruct pre.
Qed.

Lemma blocks_total v : Forall blocks_in v -> Z.of_nat (length (data v)) mod 8 = 0.
Proof.
  induction 1 as [| b v [Hb H8] _ IH]; [done |]. change (data (b :: v)) with (chunk b ++ data v).
  rewrite length_app, (chunk_length b Hb). destruct Hb as [Hb _].
  rewrite Nat2Z.inj_add, Z2Nat.id by lia. rewrite Z.add_mod, H8, IH by lia. done.
Qed.

(** Rounding up: what is added is the memory after the data. *)
Lemma round_data v nb : laid_out v -> 0 <= nb < 8 -> (Z.of_nat (length (data v)) + nb) mod 8 = 0 ->
  Forall blocks_in (rxi_RoundUpPacket v nb)
  /\ exists extra, length extra = Z.to_nat nb /\ data (rxi_RoundUpPacket v nb) = data v ++ extra.
Proof.
  intros (pre & b & -> & Hpre & Hb & Hcap) Hn Hm. pose proof (blocks_total pre Hpre) as Hp.
  pose proof (chunk_length b Hb) as Hc. pose proof Hb as [Hb1 Hb2].
  rewrite data_app in *. change (data [b]) with (chunk b ++ []) in *. rewrite app_nil_r in *.
  rewrite length_app, Hc, Nat2Z.inj_add, Z2Nat.id in Hm by lia.
  assert (Hbm : (iov_len b + nb) mod 8 = 0) by zdiv.
  assert (Hroom : iov_len b + nb <= Z.of_nat (length (iov_base b))) by zdiv.
  rewrite round_last by done. split.
  - apply Forall_app. split; [done |]. constructor; [| done]. split; [| done]. split; [cbn; lia | done].
  - exists (take (Z.to_nat nb) (drop (Z.to_nat (iov_len b)) (iov_base b))).
    split; [rewrite length_take, length_drop; lia |]. rewrite data_app. unfold data at 2. cbn [map concat].
    rewrite app_nil_r, <- app_assoc. f_equal. unfold chunk. cbn [iov_base iov_len].
    rewrite Z2Nat.inj_add by lia. symmetry. apply take_take_drop.
Qed.

Lemma put_laid_out v off l : laid_out v -> 0 <= off -> (0 < length l)%nat -> Forall is_byte l ->
  off + Z.of_nat (length l) <= Z.of_nat (length (data v)) -> off + Z.of_nat (length l) <= 8 ->
  laid_out (rx_PutInt32 v off l) /\ data (rx_PutInt32 v off l) = poke (data v) (Z.to_nat off) l.
Proof.
  intros (pre & b & -> & Hpre & Hb & Hcap) H0 Hn Hl Hle H8. destruct pre as [| c pre]; cbn [app] in *.
  - change (data [b]) with (chunk b ++ []) in Hle. rewrite app_nil_r in Hle. pose proof (chunk_length b Hb). pose proof Hb as [Hb1 _].
    split; [| apply put_data; done || lia]. rewrite put_first by lia. exists [], (Iov (poke (iov_base b) (Z.to_nat off) l) (iov_len b)).
    split; [done |]. split; [constructor |]. split; [apply poke_fits; done || lia |]. cbn [iov_base]. by rewrite length_poke by lia.
  - apply Forall_cons in Hpre as [[Hc Hc8] Hpre]. pose proof Hc as [Hc1 _]. assert (8 <= iov_len c) by zdiv.
    split; [| apply put_data; done || lia]. rewrite put_first by lia.
    exists (Iov (poke (iov_base c) (Z.to_nat off) l) (iov_len c) :: pre), b. split; [done |].
    split; [| done]. constructor; [| done]. split; [apply poke_fits; done || lia | done].
Qed.

Lemma put_blocks v off l : Forall blocks_in v -> v <> [] -> 0 <= off -> (0 < length l)%nat -> Forall is_byte l ->
  off + Z.of_nat (length l) <= 8 ->
  Forall blocks_in (rx_PutInt32 v off l) /\ data (rx_PutInt32 v off l) = poke (data v) (Z.to_nat off) l.
Proof.
  intros Hv Hne H0 Hn Hl H8. destruct v as [| c v]; [done |]. apply Forall_cons in Hv as [[Hc Hc8] Hv].
  pose proof Hc as [Hc1 _]. assert (8 <= iov_len c) by zdiv. split; [| apply put_data; done || lia].
  rewrite put_first by lia. constructor; [| done]. split; [apply poke_fits; done || lia | done].
Qed.

(** The first block alone. *)
Lemma first_data schedule encrypt b v : fits_in b -> 8 <= iov_len b ->
  data (crypt_first schedule encrypt (b :: v))
  = fc_ecb_encrypt schedule (take 8 (data (b :: v))) encrypt ++ drop 8 (data (b :: v)).
Proof.
  intros Hb H8. pose proof (chunk_length b Hb) as Hc. destruct Hb as [Hb1 Hb2].
  destruct (ecb_block schedule (take 8 (iov_base b)) encrypt) as [Hl _]. unfold crypt_first, data. cbn [map concat].
  unfold chunk at 1. cbn [iov_base iov_len]. rewrite take_poke by lia. fold (chunk b). fold (data v).
  rewrite take_app_le, drop_app_le by lia. rewrite poke_0, Hl, <- app_assoc. do 2 f_equal.
  unfold chunk. rewrite take_take. by rewrite Nat.min_l by lia.
Qed.

Lemma whole_blocks_all v : Forall blocks_in v -> v <> [] -> whole_blocks v.
Proof.
  intros Hv Hne. destruct (exists_last Hne) as (pre & b & ->). apply Forall_app in Hv as [Hpre [Hb _]%Forall_cons].
  exists pre, b. split; [done |]. split; [done | apply Hb].
Qed.

(** A block that there is is in the first buffer. *)
Lemma whole_first v : whole_blocks v -> (8 <= length (data v))%nat -> exists b v', v = b :: v' /\ fits_in b /\ 8 <= iov_len b.
Proof.
  destruct v as [| b v]; [by intros ([|] & ? & ? & _) |]. intros Hw Hl. destruct (whole_cons b v Hw) as [Hb Hv].
  exists b, v. split; [done |]. split; [done |]. pose proof (chunk_length b Hb) as Hc. pose proof Hb as [Hb1 _]. destruct Hv as [-> | [Hv _]]; [| zdiv].
  change (data [b]) with (chunk b ++ []) in Hl. rewrite app_nil_r in Hl. lia.
Qed.

(** The first buffer stays what it is. *)
Lemma crypt_head schedule encrypt b v n xor : whole_blocks (b :: v) -> length xor = 8%nat -> Forall is_byte xor ->
  (n <= length (data (b :: v)))%nat -> (n mod 8 = 0)%nat ->
  exists c w, crypt_vec schedule encrypt (b :: v) (Z.of_nat n) xor = c :: w /\ fits_in c /\ iov_len c = iov_len b.
Proof.
  intros Hw Hx Hxb Hn H8. destruct (whole_cons b v Hw) as [Hb Hv]. cbn [crypt_vec]. destruct (_ || _); [by exists b, v |].
  pose proof Hb as [Hb1 Hb2]. pose proof (chunk_length b Hb) as Hc. change (data (b :: v)) with (chunk b ++ data v) in Hn. rewrite length_app in Hn.
  set (tlen := Z.min _ _). assert (Et : tlen = Z.of_nat (Z.to_nat tlen)) by lia. set (m := Z.to_nat tlen) in *. rewrite Et.
  assert (Hm8 : (m mod 8 = 0)%nat).
  { destruct (Nat.le_gt_cases n (Z.to_nat (iov_len b))); [by replace m with n by lia |].
    destruct Hv as [-> | [Hv _]]; [cbn in Hn; lia |]. replace m with (Z.to_nat (iov_len b)) by lia. apply mod8_nat. rewrite Z2Nat.id by lia. done. }
  pose proof (crypt_one schedule encrypt b m xor Hb ltac:(lia) Hm8 Hx Hxb) as H. destruct (fc_cbc_encrypt _ _ _ _ _ _) as [out xor'].
  destruct H as (_ & O1 & O2 & _). eexists _, _. split; [done |]. split; [| done]. apply poke_fits; [done | rewrite O1; lia | done].
Qed.

(** ** The checksum and the seal *)

Lemma ComputeSum_range schedule p aivec : 1 <= ComputeSum schedule p aivec <= 65535.
Proof.
  unfold ComputeSum. cbv zeta. set (t := Z.land _ 65535).
  assert (0 <= t < 65536) by (unfold t; change 65535 with (Z.ones 16); rewrite Z.land_ones by lia; apply Z.mod_pos_bound; lia).
  destruct (Z.eqb_spec t 0); lia.
Qed.

Lemma ComputeSum_header schedule p q aivec : seq_ q = seq_ p -> callNumber q = callNumber p -> cid q = cid p ->
  ComputeSum schedule q aivec = ComputeSum schedule p aivec.
Proof. unfold ComputeSum. by intros -> -> ->. Qed.

Definition seal_word (p : packet) (len : Z) : Z := Z.lor (Z.shiftl (seal p) 16) (Z.land len 65535).

Lemma seal_range p : 0 <= seal p < 65536.
Proof. unfold seal. change 65535 with (Z.ones 16). rewrite Z.land_ones by lia. apply Z.mod_pos_bound. lia. Qed.

Lemma seal_word_parts p len : 0 <= len < 65536 ->
  let word := be_val (be_bytes (seal_word p len)) in
  Z.shiftr word 16 = seal p /\ Z.land word 65535 = len.
Proof.
  intros Hl. pose proof (seal_range p) as Hs. cbv zeta.
  assert (E : seal_word p len = len + seal p * 65536).
  { unfold seal_word. rewrite Z.shiftl_mul_pow2, Z.lor_comm by lia. change 65535 with (Z.ones 16). rewrite Z.land_ones by lia.
    change (2 ^ 16) with 65536. rewrite Z.mod_small by lia. change 65536 with (2 ^ 16). apply lor_add; [lia |].
    change (2 ^ 16) with 65536. lia. }
  rewrite E, be_val_bytes, u32_small by lia. rewrite Z.shiftr_div_pow2 by lia. change 65535 with (Z.ones 16).
  rewrite Z.land_ones by lia. change (2 ^ 16) with 65536. split; zdiv.
Qed.

(** ** One end to the other *)

(** The two ends of a connection, both able to use it. *)
Record session (now now' : Z) (s r : conn) : Prop := {
  s_level : level r = level s;
  s_keysched : keysched r = keysched s;
  s_ivec : ivec r = ivec s;
  s_preSeq : preSeq r = preSeq s;
  s_ivec_ok : length (ivec s) = 8%nat /\ Forall is_byte (ivec s);
  s_send : usable now s = Success;
  s_receive : usable now' r = Success
}.

(** The packet that arrives. Its header is that of the one sent, and its buffers,
    which may be others, begin with the data that were sent: rxi_ReadPacket
    leaves them at the length they had, whatever is behind the data. *)
Record arrived (p q : packet) : Prop := {
  q_seq : seq_ q = seq_ p;
  q_callNumber : callNumber q = callNumber p;
  q_cid : cid q = cid p;
  q_spare : spare q = spare p;
  q_length : plength q = plength p;
  q_data : exists rest, data (wirevec q) = take (Z.to_nat (plength p)) (data (wirevec p)) ++ rest
}.

(** What the levels need of the buffers at the receiver: whole blocks to
    decipher. The buffers that rxi_ReadPacket reads into are of 1416 bytes. *)
Definition receivable (lev : rxkad_level) (v : list iovec) : Prop :=
  match lev with
  | rxkad_clear => True
  | rxkad_auth => exists b v', v = b :: v' /\ fits_in b /\ 8 <= iov_len b
  | rxkad_crypt => whole_blocks v
  end.

(** The check, once the checksum is seen to be right. *)
Lemma CheckPacket_sum now c p : usable now c = Success -> spare p = ComputeSum (keysched c) p (preSeq c) ->
  rxkad_CheckPacket now c p =
  (let c := received (plength p) (seen c) in
   match level c with
   | rxkad_clear => (Success, c, p)
   | lev =>
       let p1 := match lev with
                 | rxkad_crypt => rxkad_DecryptPacket (keysched c) (ivec c) (plength p) p
                 | _ => set_wirevec (crypt_first (keysched c) false (wirevec p)) p
                 end in
       let word := be_val (rx_GetInt32 (wirevec p1) 0) in
       if negb (Z.shiftr word 16 =? seal p1) then (RXKADSEALEDINCON, c, p1)
       else
         let nlen := Z.land word 65535 in
         if plength p <? nlen then (RXKADDATALEN, c, p1) else (Success, c, rx_SetDataSize nlen p1)
   end).
Proof.
  intros Hu Hs. unfold rxkad_CheckPacket. pose proof (ComputeSum_range (keysched c) p (preSeq c)).
  destruct (Z.eqb_spec (spare p) 0); [lia |].
  change (usable now (seen c)) with (usable now c). rewrite Hu.
  change (cksumSeen (received (plength p) (seen c))) with true.
  change (keysched (received (plength p) (seen c))) with (keysched c).
  change (preSeq (received (plength p) (seen c))) with (preSeq c).
  rewrite <- Hs, Z.eqb_refl. done.
Qed.

(** The sealed data as the receiver sees it deciphered. *)
Lemma sealed_data word D extra : length word = 4%nat -> (4 <= length D)%nat ->
  take 4 (poke D 0 word ++ extra) = word /\
  forall (hs L : nat), (4 <= hs)%nat -> (hs + L <= length D)%nat ->
    take L (drop hs (poke D 0 word ++ extra)) = take L (drop hs D).
Proof.
  intros Hw HD. rewrite poke_0, Hw. split.
  - rewrite <- app_assoc. by apply take_app_length'.
  - intros hs L Hh Hl. rewrite <- app_assoc, drop_app, (drop_ge word) by lia. cbn [app]. rewrite Hw.
    rewrite drop_app_le by (rewrite length_drop; lia). rewrite take_app_le by (rewrite !length_drop; lia).
    rewrite drop_drop. do 2 f_equal. lia.
Qed.

(** The lengths a level makes of [len] bytes of user data. *)
Lemma full_lengths lev len : 0 <= len -> lev <> rxkad_clear ->
  let full := len + header_size lev in
  let nlen := match lev with rxkad_crypt => round_up_to_ebs full | _ => Z.max ENCRYPTIONBLOCKSIZE full end in
  full <= nlen < full + 8 /\ 8 <= nlen /\ (full < nlen -> nlen mod 8 = 0) /\ (lev = rxkad_crypt -> nlen mod 8 = 0).
Proof.
  intros Hl Hne full nlen.
  assert (Hr : round_up_to_ebs full = (full + 7) / 8 * 8).
  { unfold round_up_to_ebs. rewrite <- Z.ldiff_land. change 7 with (Z.ones 3) at 2.
    rewrite Z.ldiff_ones_r, Z.shiftr_div_pow2, Z.shiftl_mul_pow2 by lia. done. }
  subst nlen. destruct lev; [done | |]; cbn [header_size] in *; unfold ENCRYPTIONBLOCKSIZE.
  - subst full. cbn [header_size]. repeat split; try lia; [intros ?; replace (Z.max 8 (len + 4)) with 8 by lia; done | done].
  - rewrite Hr. subst full. cbn [header_size]. repeat split; try zdiv.
Qed.

Lemma laid_whole v : laid_out v -> Z.of_nat (length (data v)) mod 8 = 0 -> Forall blocks_in v.
Proof.
  intros (pre & b & -> & Hpre & Hb & Hcap) Hm. pose proof (blocks_total pre Hpre) as Hp.
  pose proof (chunk_length b Hb) as Hc. pose proof Hb as [Hb1 _].
  rewrite data_app, length_app in Hm. change (data [b]) with (chunk b ++ []) in Hm. rewrite app_nil_r, Hc, Nat2Z.inj_add, Z2Nat.id in Hm by lia.
  apply Forall_app. split; [done |]. constructor; [| done]. split; [done | zdiv].
Qed.

Lemma laid_first v : laid_out v -> (8 <= length (data v))%nat ->
  exists b v', v = b :: v' /\ fits_in b /\ 8 <= iov_len b.
Proof.
  intros (pre & b & -> & Hpre & Hb & Hcap) Hl. destruct pre as [| c pre]; cbn [app] in *.
  - exists b, []. change (data [b]) with (chunk b ++ []) in Hl. rewrite app_nil_r, chunk_length in Hl by done.
    split; [done |]. split; [done | lia].
  - apply Forall_cons in Hpre as [[Hc Hc8] _]. pose proof Hc as [Hc1 _]. exists c, (pre ++ [b]).
    split; [done |]. split; [done | zdiv].
Qed.

Lemma blocks_first v : Forall blocks_in v -> v <> [] -> exists b v', v = b :: v' /\ fits_in b /\ 8 <= iov_len b.
Proof.
  intros Hv Hne. destruct v as [| c v]; [done |]. apply Forall_cons in Hv as [[Hc Hc8] _]. pose proof Hc as [Hc1 _].
  exists c, v. split; [done |]. split; [done | zdiv].
Qed.

(** The packet with its seal, rounded up. *)
Lemma prepared lev len v word : lev <> rxkad_clear -> 0 <= len -> laid_out v ->
  Z.of_nat (length (data v)) = len + header_size lev -> length word = 4%nat -> Forall is_byte word ->
  let full := len + header_size lev in
  let nlen := match lev with rxkad_crypt => round_up_to_ebs full | _ => Z.max ENCRYPTIONBLOCKSIZE full end in
  let v1 := rx_PutInt32 v 0 word in
  let v2 := if full <? nlen then rxi_RoundUpPacket v1 (nlen - full) else v1 in
  (exists extra, data v2 = poke (data v) 0 word ++ extra) /\ Z.of_nat (length (data v2)) = nlen
  /\ (exists b v', v2 = b :: v' /\ fits_in b /\ 8 <= iov_len b) /\ (lev = rxkad_crypt -> Forall blocks_in v2).
Proof.
  intros Hne Hl Hv Hd Hw Hwb full nlen v1 v2. destruct (full_lengths lev len Hl Hne) as (F1 & F2 & F3 & F4).
  fold full in F1, F2, F3, F4. fold nlen in F1, F2, F3, F4. assert (Hhs : 4 <= header_size lev) by (destruct lev; cbn; done || lia).
  destruct (put_laid_out v 0 word Hv ltac:(lia) ltac:(lia) Hwb ltac:(lia) ltac:(lia)) as [Hv1 Hd1].
  fold v1 in Hv1, Hd1. change (Z.to_nat 0) with 0%nat in Hd1.
  assert (Hl1 : length (data v1) = length (data v)) by (rewrite Hd1, length_poke; lia).
  unfold v2. destruct (Z.ltb_spec full nlen) as [Hlt | Hge].
  - destruct (round_data v1 (nlen - full) Hv1 ltac:(lia)) as (Hb & extra & He & Hde).
    { rewrite Hl1, Hd. fold full. replace (full + (nlen - full)) with nlen by lia. by apply F3. }
    assert (Hlen : Z.of_nat (length (data (rxi_RoundUpPacket v1 (nlen - full)))) = nlen).
    { rewrite Hde, length_app, Hl1, He. unfold full in *. lia. }
    split; [exists extra; by rewrite Hde, Hd1 |]. split; [done |]. split; [| done].
    apply blocks_first; [done |]. intros E. rewrite E in Hlen. cbn in Hlen. lia.
  - assert (nlen = full) as -> by lia. split; [exists []; by rewrite app_nil_r |]. split; [unfold full; lia |].
    split; [apply laid_first; [done | lia] |]. intros E. apply laid_whole; [done |]. rewrite Hl1, Hd. by apply F4.
Qed.

Lemma crypt_length schedule encrypt v iv : Forall blocks_in v -> v <> [] -> length iv = 8%nat -> Forall is_byte iv ->
  length (data (crypt_vec schedule encrypt v (Z.of_nat (length (data v))) iv)) = length (data v).
Proof.
  intros Hv Hne Hi Hib. pose proof (blocks_total v Hv) as H8%mod8_nat.
  rewrite crypt_part by (done || by apply whole_blocks_all). rewrite firstn_all, drop_all, app_nil_r.
  assert (Hm : length (data v) = (8 * (length (data v) / 8))%nat) by (pose proof (Nat.div_mod (length (data v)) 8); lia).
  assert (Hvb : Forall is_byte (data v)) by (apply data_bytes; eapply Forall_impl; [exact Hv | by intros b [? _]]).
  pose proof (cbc_whole schedule [] encrypt _ (data v) iv (length (data v)) Hm ltac:(lia) Hvb Hi Hib) as [_ H].
  destruct (cbc_blocks _ _ _ _ _ _ _) as [out x']. by destruct H as (H & _).
Qed.

(** Enciphering and deciphering whole packets: what the receiver's buffers have
    behind the packet stays. *)
Lemma crypt_back schedule iv v w rest : Forall blocks_in v -> v <> [] -> whole_blocks w -> length iv = 8%nat -> Forall is_byte iv ->
  data w = data (crypt_vec schedule true v (Z.of_nat (length (data v))) iv) ++ rest ->
  (length (data v) <= length (data w))%nat /\ data (crypt_vec schedule false w (Z.of_nat (length (data v))) iv) = data v ++ rest.
Proof.
  intros Hv Hne Hw Hi Hib E. pose proof (blocks_total v Hv) as H8%mod8_nat.
  rewrite crypt_part in E by (done || by apply whole_blocks_all). rewrite firstn_all, drop_all, app_nil_r in E.
  assert (Hvb : Forall is_byte (data v)) by (apply data_bytes; eapply Forall_impl; [exact Hv | by intros b [? _]]).
  pose proof (cbc_undo schedule [] (length (data v)) (data v) iv ltac:(lia) Hvb Hi Hib) as H.
  destruct (cbc_blocks _ _ true _ _ _ _) as [out x']. destruct H as (H1 & _ & _ & H2). cbn [fst] in E.
  assert (Hpad : padding (length (data v)) = []) by (unfold padding; by rewrite H8).
  rewrite Hpad, app_nil_r in H1, H2. assert (Hl : (length (data v) <= length (data w))%nat) by (rewrite E, length_app; lia). split; [done |].
  rewrite crypt_part by done. rewrite E, take_app_length', drop_app_length' by done. rewrite <- H1. by rewrite H2.
Qed.

(** The first block alone, enciphered and deciphered. *)
Lemma first_back schedule b v c w rest : fits_in b -> 8 <= iov_len b -> fits_in c -> 8 <= iov_len c ->
  data (c :: w) = data (crypt_first schedule true (b :: v)) ++ rest ->
  data (crypt_first schedule false (c :: w)) = data (b :: v) ++ rest.
Proof.
  intros Hb Hb8 Hc Hc8 E. rewrite first_data in E by done. rewrite first_data, E by done.
  destruct (ecb_block schedule (take 8 (data (b :: v))) true) as [Hl _].
  pose proof (chunk_length b Hb) as Hcl. pose proof (chunk_bytes b Hb) as Hcb.
  assert (Ht : take 8 (data (b :: v)) = take 8 (chunk b))
    by (change (data (b :: v)) with (chunk b ++ data v); by rewrite take_app_le by lia).
  rewrite <- app_assoc, take_app_length', drop_app_length' by done. rewrite ecb_undo.
  - by rewrite app_assoc, firstn_skipn.
  - rewrite Ht, length_take. lia.
  - rewrite Ht. by apply Forall_take.
Qed.

(** What is left of the check when the packet is deciphered. *)
Lemma check_end (c : conn) p q len word : seq_ q = seq_ p -> callNumber q = callNumber p ->
  0 <= len < 65536 -> len <= plength q -> word = be_val (be_bytes (seal_word p len)) ->
  (if negb (Z.shiftr word 16 =? seal q) then (RXKADSEALEDINCON, c, q)
   else let nlen := Z.land word 65535 in
        if plength q <? nlen then (RXKADDATALEN, c, q) else (Success, c, rx_SetDataSize nlen q))
  = (Success, c, rx_SetDataSize len q).
Proof.
  intros E1 E2 Hl Hq ->. destruct (seal_word_parts p len Hl) as [-> ->].
  assert (Es : seal q = seal p) by (unfold seal; congruence). rewrite Es, Z.eqb_refl. cbn [negb].
  by rewrite (proj2 (Z.ltb_ge _ _)) by lia.
Qed.

(** What is prepared, given the checksum. *)
Lemma PreparePacket_sum now c p : usable now c = Success ->
  exists sum, sum = ComputeSum (keysched c) p (preSeq c) /\ rxkad_PreparePacket now c p =
  (let p0 := rx_SetPacketCksum sum p in
   match level c with
   | rxkad_clear => (Success, sent (plength p) c, p0)
   | lev =>
       let full := plength p + header_size lev in
       let nlen := match lev with rxkad_crypt => round_up_to_ebs full | _ => Z.max ENCRYPTIONBLOCKSIZE full end in
       let v1 := rx_PutInt32 (wirevec p) 0 (be_bytes (seal_word p (plength p))) in
       let v2 := if full <? nlen then rxi_RoundUpPacket v1 (nlen - full) else v1 in
       let p1 := match lev with
                 | rxkad_crypt => rxkad_EncryptPacket (keysched c) (ivec c) nlen (set_wirevec v2 p0)
                 | _ => set_wirevec (crypt_first (keysched c) true v2) p0
                 end in
       (Success, sent (plength p) c, rx_SetDataSize nlen p1)
   end).
Proof. intros Hu. unfold rxkad_PreparePacket. rewrite Hu. eexists. split; [reflexivity |]. cbv zeta. by destruct (level c) eqn:E; cbn [level sent]; rewrite E. Qed.

(** ** The levels *)

(** What is to be shown: [p], prepared by [s], is taken in by [r]. *)
Definition delivers (now now' : Z) (s r : conn) (p : packet) : Prop :=
  let '(code, s', p') := rxkad_PreparePacket now s p in
  code = Success /\ forall q, arrived p' q -> receivable (level s) (wirevec q) ->
  let '(code', r', q') := rxkad_CheckPacket now' r q in
  code' = Success /\ plength q' = plength p
  /\ forall L, L = Z.to_nat (plength p) ->
     let hs := Z.to_nat (header_size (level s)) in
     take L (drop hs (data (wirevec q'))) = take L (drop hs (data (wirevec p))).

Section levels.
Context (now now' : Z) (s r : conn) (p : packet) (Hs : session now now' s r) (Hlen : 0 <= plength p < 65520).

Lemma sum_arrives sum q : sum = ComputeSum (keysched s) p (preSeq s) ->
  seq_ q = seq_ p -> callNumber q = callNumber p -> cid q = cid p -> spare q = u16 sum ->
  spare q = ComputeSum (keysched r) q (preSeq r).
Proof.
  intros -> E1 E2 E3 ->. rewrite (ComputeSum_header _ p q) by done. rewrite (s_keysched _ _ _ _ Hs), (s_preSeq _ _ _ _ Hs).
  apply u16_small. pose proof (ComputeSum_range (keysched s) p (preSeq s)). lia.
Qed.

Lemma clear_delivers : level s = rxkad_clear -> plength p <= Z.of_nat (length (data (wirevec p))) -> delivers now now' s r p.
Proof.
  intros El Hd.
  destruct Hs as [S1 S2 S3 S4 [S5 S5'] S6 S7]. destruct (PreparePacket_sum now s p S6) as (sum & Esum & Ep).
  unfold delivers. rewrite Ep. rewrite El in *.
  split; [done |]. intros q [Q1 Q2 Q3 Q4 Q5 (rest & Q6)] _.
  cbn [seq_ callNumber cid spare plength wirevec set_wirevec rx_SetDataSize rx_SetPacketCksum] in *. rewrite (CheckPacket_sum now' r q S7 (sum_arrives sum q Esum Q1 Q2 Q3 Q4)). cbv zeta.
  change (level (received (plength q) (seen r))) with (level r). rewrite S1. split; [done |]. split; [done |].
  intros L ->. change (Z.to_nat (header_size rxkad_clear)) with 0%nat. rewrite !drop_0, Q6. apply take_app_length'. rewrite length_take. lia.
Qed.

Context (Hv : laid_out (wirevec p)) (Hd : Z.of_nat (length (data (wirevec p))) = plength p + header_size (level s)).

Lemma auth_delivers : level s = rxkad_auth -> delivers now now' s r p.
Proof.
  intros El.
  destruct Hs as [S1 S2 S3 S4 [S5 S5'] S6 S7]. destruct (PreparePacket_sum now s p S6) as (sum & Esum & Ep).
  unfold delivers. rewrite Ep. rewrite El in *.
  destruct (prepared rxkad_auth (plength p) (wirevec p) (be_bytes (seal_word p (plength p))) ltac:(done) ltac:(lia) Hv Hd
              eq_refl (be_bytes_range _)) as ((extra & Hx) & Hn & (b & v' & Ev & Hb & Hb8) & _).
  destruct (full_lengths rxkad_auth (plength p) ltac:(lia) ltac:(done)) as (F1 & F2 & _).
  cbv zeta in *. set (v2 := if _ <? _ then _ else _) in *. set (nlen := Z.max _ _) in *.
  split; [done |]. intros q [Q1 Q2 Q3 Q4 Q5 (rest & Q6)] (c & w & Ew & Hc & Hc8).
  cbn [seq_ callNumber cid spare plength wirevec set_wirevec rx_SetDataSize rx_SetPacketCksum] in *.
  rewrite (CheckPacket_sum now' r q S7 (sum_arrives sum q Esum Q1 Q2 Q3 Q4)). cbv zeta.
  change (level (received (plength q) (seen r))) with (level r). rewrite S1.
  change (keysched (received (plength q) (seen r))) with (keysched r). rewrite S2.
  cbn [header_size] in *. rewrite u16_small in Q6 by lia. rewrite Ev, Ew, take_ge in Q6.
  2: { rewrite first_data, length_app, length_drop by done. destruct (ecb_block (keysched s) (take 8 (data (b :: v'))) true) as [B1 _].
    rewrite B1, <- Ev. lia. }
  pose proof (first_back (keysched s) b v' c w rest Hb Hb8 Hc Hc8 Q6) as Hback. rewrite <- Ev, Hx, <- app_assoc in Hback.
  cbn [header_size] in *. destruct (sealed_data (be_bytes (seal_word p (plength p))) (data (wirevec p)) (extra ++ rest) eq_refl ltac:(lia)) as [D1 D2].
  set (p1 := set_wirevec (crypt_first (keysched s) false (wirevec q)) q).
  assert (Ep1 : wirevec p1 = crypt_first (keysched s) false (c :: w)) by (cbn; by rewrite Ew).
  rewrite (check_end _ p p1 (plength p)).
  - split; [done |]. split; [apply u16_small; lia |]. intros L ->. change (wirevec (rx_SetDataSize (plength p) p1)) with (wirevec p1).
    rewrite Ep1, Hback. apply D2; lia.
  - done.
  - done.
  - lia.
  - change (plength p1) with (plength q). rewrite Q5, u16_small by lia. lia.
  - rewrite Ep1. unfold crypt_first. rewrite get_first; [| | cbn [iov_len]; lia].
    + change (Iov _ (iov_len c) :: w) with (crypt_first (keysched s) false (c :: w)). by rewrite Hback, D1.
    + destruct (ecb_block (keysched s) (take 8 (iov_base c)) false) as [B1 B2]. pose proof Hc as [Hc1 _].
      apply poke_fits; done || lia.
Qed.

Lemma crypt_delivers : level s = rxkad_crypt -> delivers now now' s r p.
Proof.
  intros El.
  destruct Hs as [S1 S2 S3 S4 [S5 S5'] S6 S7]. destruct (PreparePacket_sum now s p S6) as (sum & Esum & Ep).
  unfold delivers. rewrite Ep. rewrite El in *.
  destruct (prepared rxkad_crypt (plength p) (wirevec p) (be_bytes (seal_word p (plength p))) ltac:(done) ltac:(lia) Hv Hd
              eq_refl (be_bytes_range _)) as ((extra & Hx) & Hn & (b & v' & Ev & Hb & Hb8) & Hblk).
  destruct (full_lengths rxkad_crypt (plength p) ltac:(lia) ltac:(done)) as (F1 & F2 & _ & F4).
  cbv zeta in *. set (v2 := if _ <? _ then _ else _) in *. set (nlen := round_up_to_ebs _) in *.
  destruct (put_blocks v2 4 [0; 0; 0; 0] (Hblk eq_refl) ltac:(by rewrite Ev) ltac:(lia) ltac:(simpl; lia)
              ltac:(repeat (apply Forall_cons; split; [done |]); constructor) ltac:(simpl; lia)) as [Hv3 Hd3].
  unfold rxkad_EncryptPacket. cbn [wirevec set_wirevec rx_SetPacketCksum rx_SetDataSize].
  set (v3 := rx_PutInt32 v2 4 _) in *. change (Z.to_nat 4) with 4%nat in Hd3.
  assert (Hl3 : Z.of_nat (length (data v3)) = nlen) by (rewrite Hd3, length_poke by (cbn [length]; lia); done).
  split; [done |]. intros q [Q1 Q2 Q3 Q4 Q5 (rest & Q6)] Hw.
  cbn [seq_ callNumber cid spare plength wirevec set_wirevec rx_SetDataSize rx_SetPacketCksum receivable] in *.
  rewrite (CheckPacket_sum now' r q S7 (sum_arrives sum q Esum Q1 Q2 Q3 Q4)). cbv zeta.
  change (level (received (plength q) (seen r))) with (level r). rewrite S1.
  change (keysched (received (plength q) (seen r))) with (keysched r). change (ivec (received (plength q) (seen r))) with (ivec r).
  rewrite S2, S3. cbn [header_size] in *. assert (En : plength q = nlen) by (rewrite Q5; apply u16_small; lia).
  assert (Hv3ne : v3 <> []) by (intros E; rewrite E in Hl3; cbn in Hl3; lia).
  rewrite u16_small in Q6 by lia. rewrite <- Hl3, take_ge in Q6 by (rewrite crypt_length by done; lia).
  destruct (crypt_back (keysched s) (ivec s) v3 (wirevec q) rest Hv3 Hv3ne Hw S5 S5' Q6) as [Hql Hback].
  cbn [header_size] in *.
  destruct (sealed_data (be_bytes (seal_word p (plength p))) (data (wirevec p)) (extra ++ rest) eq_refl ltac:(lia)) as [D1 D2].
  set (p1 := rxkad_DecryptPacket (keysched s) (ivec s) (plength q) q).
  assert (Ep1 : data (wirevec p1) = data v3 ++ rest) by (cbn; by rewrite En, <- Hl3).
  assert (Hfirst : take 4 (data v3 ++ rest) = take 4 (data v2 ++ rest) /\ drop 8 (data v3 ++ rest) = drop 8 (data v2 ++ rest)).
  { rewrite Hd3. unfold poke. assert (8 <= length (data v2))%nat by lia. split.
    - rewrite <- !app_assoc, take_app_length' by (rewrite length_take; lia). by rewrite take_app_le by lia.
    - rewrite <- !app_assoc, drop_app, (drop_ge (take 4 _)) by (rewrite length_take; lia). cbn [app]. rewrite length_take, Nat.min_l by lia.
      change (drop (8 - 4) ([0; 0; 0; 0] ++ drop (4 + length [0; 0; 0; 0]) (data v2) ++ rest)) with (drop 8 (data v2) ++ rest).
      by rewrite drop_app_le by lia. }
  destruct Hfirst as [T1 T2]. rewrite Hx, <- app_assoc in T1, T2.
  rewrite (check_end _ p p1 (plength p)).
  - split; [done |]. split; [apply u16_small; lia |]. intros L ->. change (wirevec (rx_SetDataSize (plength p) p1)) with (wirevec p1).
    rewrite Ep1. change (Z.to_nat 8) with 8%nat. rewrite T2. apply D2; lia.
  - done.
  - done.
  - lia.
  - change (plength p1) with (plength q). lia.
  - destruct (whole_first (wirevec q) Hw) as (b' & w' & Ew' & Hb' & Hb8'); [lia |]. rewrite Ew' in Hw.
    destruct (crypt_head (keysched s) false b' w' (length (data v3)) (ivec s) Hw S5 S5') as (c & w & Ec & Hc & Hcl).
    { by rewrite <- Ew'. } { apply mod8_nat. rewrite Hl3. exact (F4 eq_refl). }
    assert (Ew : wirevec p1 = c :: w) by (cbn; by rewrite En, <- Hl3, Ew').
    rewrite Ew, get_first, <- Ew, Ep1 by (done || lia). by rewrite T1, D1.
Qed.
End levels.

(** C31. A packet that one end of a connection prepares passes the other end's
    check, at every level: the check gives back the length of the data and the
    data. The sender's buffers are filled with whole blocks but for the last,
    which has memory to round it up; the receiver's, whatever they have behind
    what arrived, are for whole blocks, but for the last (at level auth only the
    first is looked at, which holds one block; at level clear none is). *)
Theorem prepare_check now now' s r p :
  session now now' s r -> 0 <= plength p < 65520 ->
  (level s = rxkad_clear /\ plength p <= Z.of_nat (length (data (wirevec p)))
   \/ laid_out (wirevec p) /\ Z.of_nat (length (data (wirevec p))) = plength p + header_size (level s)) ->
  let '(code, s', p') := rxkad_PreparePacket now s p in
  code = Success /\ forall q, arrived p' q -> receivable (level s) (wirevec q) ->
  let '(code', r', q') := rxkad_CheckPacket now' r q in
  code' = Success /\ plength q' = plength p
  /\ forall L, L = Z.to_nat (plength p) ->
     let hs := Z.to_nat (header_size (level s)) in
     take L (drop hs (data (wirevec q'))) = take L (drop hs (data (wirevec p))).
Proof.
  intros Hs Hlen [[El Hd] | [Hv Hd]]; change (delivers now now' s r p); [by apply clear_delivers |].
  destruct (level s) eqn:El; [apply clear_delivers; try done; cbn in Hd; lia | ..]; rewrite <- El in Hd; [by apply auth_delivers | by apply crypt_delivers].
Qed.

(** ** A witness *)

Definition demo_seq : list Z := rxkad_DeriveXORInfo 1193046 (-16) 2 (fc_keysched demo_key) demo_key.
Definition demo_client : conn :=
  Conn false true false 0 rxkad_crypt (fc_keysched demo_key) demo_key demo_seq false 0 0 0 0.
Definition demo_server : conn :=
  Conn true false true 100 rxkad_crypt (fc_keysched demo_key) demo_key demo_seq false 0 0 0 0.

(** Five bytes of data, in two buffers; they arrive in one of 24 bytes. *)
Definition demo_packet : packet :=
  Packet 7 3 (-14) 0 [Iov (replicate 8 0) 8; Iov [10; 20; 30; 40; 50; 0; 0; 0] 5] 5.
Definition demo_sent : packet := (rxkad_PreparePacket 0 demo_client demo_packet).2.
Definition demo_arrived : packet :=
  Packet 7 3 (-14) (spare demo_sent) [Iov (data (wirevec demo_sent) ++ [1; 2; 3; 4; 5; 6; 7; 8]) 24] 16.

Lemma demo_session : session 0 50 demo_client demo_server.
Proof. split; [reflexivity | reflexivity | reflexivity | vm_compute; reflexivity | split; [reflexivity | apply demo_bytes] | reflexivity | reflexivity]. Qed.

Lemma demo_arrives : arrived demo_sent demo_arrived.
Proof. split; [vm_compute; reflexivity .. |]. exists [1; 2; 3; 4; 5; 6; 7; 8]. vm_compute. reflexivity. Qed.

Lemma bytes_check l : forallb (fun v => (0 <=? v) && (v <? 256)) l = true -> Forall is_byte l.
Proof.
  intros Hl. rewrite forallb_forall in Hl. apply Forall_forall. intros v Hv%list_elem_of_In.
  specialize (Hl v Hv). bool_hyps. by split.
Qed.

Lemma demo_receivable : receivable rxkad_crypt (wirevec demo_arrived).
Proof.
  exists [], (Iov (data (wirevec demo_sent) ++ [1; 2; 3; 4; 5; 6; 7; 8]) 24). split; [done |]. split; [constructor |].
  split; [vm_compute; done | apply bytes_check; vm_compute; reflexivity].
Qed.

Lemma demo_laid_out : laid_out (wirevec demo_packet).
Proof.
  exists [Iov (replicate 8 0) 8], (Iov [10; 20; 30; 40; 50; 0; 0; 0] 5). split; [done |].
  split; [constructor; [| constructor] |]; repeat split; try done; by apply bytes_check.
Qed.

Lemma prepare_check_witness :
  let '(code, r', q') := rxkad_CheckPacket 50 demo_server demo_arrived in
  code = Success /\ plength q' = 5 /\ take 5 (drop 8 (data (wirevec q'))) = [10; 20; 30; 40; 50].
Proof.
  pose proof (prepare_check 0 50 demo_client demo_server demo_packet demo_session ltac:(done)
                (or_intror (conj demo_laid_out eq_refl))) as H.
  pose proof (eq_refl : (rxkad_PreparePacket 0 demo_client demo_packet).2 = demo_sent) as Ep.
  destruct (rxkad_PreparePacket 0 demo_client demo_packet) as [[code s'] p']. cbn [snd] in Ep. subst p'.
  destruct H as [_ H]. specialize (H demo_arrived demo_arrives demo_receivable).
  destruct (rxkad_CheckPacket 50 demo_server demo_arrived) as [[code' r'] q'].
  destruct H as (H1 & H2 & H3). split; [done |]. split; [done |].
  exact (H3 5%nat eq_refl).
Defined.
