(* ===== verification/VlDb.v ===== *)
(** The volume location database: the blocks, hash chains and the sequence of
    entries of src/vlserver/vlutils.c, over the bytes of the database file. *)
From S2P Require Import Prelude Bytes UbikFile.

#[local] Open Scope ubik_scope.

Definition HASHSIZE : Z := 8191.
Definition NULLO : Z := 0.
Definition MAXTYPES : Z := 3.
Definition MAXSERVERID : Z := 254.
Definition VL_MAXNAMELEN : nat := 65.
Definition NMAXNSERVERS : nat := 13.
Definition OMAXNSERVERS : nat := 8.
Definition RWVOL : Z := 0.
Definition ROVOL : Z := 1.
Definition BACKVOL : Z := 2.

Definition VLFREE : Z := 1.
Definition VLCONTBLOCK : Z := 8.
Definition VL_ADDREXTBLK_SIZE : Z := 8192.

(** The error table VL. *)
Definition VL_IO : Z := 363521.
Definition VL_NOENT : Z := 363524.
Definition VL_BADINDEX : Z := 363528.
Definition VL_IDALREADYHASHED : Z := 363540.

(** ** Entries

    The eleven words before the name ([volumeId], [flags], [LockAfsId],
    [LockTimestamp], [cloneId], [nextIdHash], [nextNameHash]), the 65 bytes of
    the name, and the bytes of the sites. *)
Record nvlentry := NvlEntry {
  words : list Z; name : list Z;
  serverNumber : list Z; serverPartition : list Z; serverFlags : list Z
}.

Definition word (k : nat) (e : nvlentry) : Z := nth k (words e) 0.
Definition set_word (k : nat) (v : Z) (e : nvlentry) : nvlentry :=
  NvlEntry (<[k := v]> (words e)) (name e) (serverNumber e) (serverPartition e) (serverFlags e).
Definition volumeId (voltype : Z) : nvlentry -> Z := word (Z.to_nat voltype).
Definition flags : nvlentry -> Z := word 3.
Definition next_id (voltype : Z) : nat := (7 + Z.to_nat voltype)%nat.
Definition next_name : nat := 10%nat.
Definition set_sites (p q r : list Z) (e : nvlentry) : nvlentry := NvlEntry (words e) (name e) p q r.

Definition zero_entry : nvlentry :=
  NvlEntry (replicate 11 0) (replicate VL_MAXNAMELEN 0) (replicate NMAXNSERVERS 0) (replicate NMAXNSERVERS 0)
    (replicate NMAXNSERVERS 0).

(** Both structures. *)
Definition ENTRYSIZE : Z := 148.

(** The image of [struct nvlentry], and of [struct vlentry], which has room for
    fewer sites, and a spare word before the pointers. *)
Definition image_new (e : nvlentry) : list Z :=
  concat (map be_bytes (words e)) ++ name e ++ serverNumber e ++ serverPartition e ++ serverFlags e.
Definition image_old (e : nvlentry) : list Z :=
  concat (map be_bytes (take 7 (words e) ++ [0] ++ drop 7 (words e) ++ [0; 0])) ++ name e ++ [0]
  ++ take OMAXNSERVERS (serverNumber e) ++ take OMAXNSERVERS (serverPartition e) ++ take OMAXNSERVERS (serverFlags e) ++ [0; 0].

Definition entry_new (m : gmap Z Z) (a : Z) : nvlentry :=
  NvlEntry (get_words m a 11) (bytes m (a + 44) 65) (bytes m (a + 109) 13) (bytes m (a + 122) 13) (bytes m (a + 135) 13).
Definition entry_old (m : gmap Z Z) (a : Z) : nvlentry :=
  NvlEntry (get_words m a 7 ++ get_words m (a + 32) 4) (bytes m (a + 56) 65)
    (bytes m (a + 122) 8 ++ replicate 5 0) (bytes m (a + 130) 8 ++ replicate 5 0) (bytes m (a + 138) 8 ++ replicate 5 0).

(** ** The header

    [cheader] as host numbers (the counters as ntohl shows them, since the code
    counts in network order), and what is kept beside it: [HostAddress] and the
    extension blocks, by words. *)
Record vlheader := VlHeader {
  vldbversion : Z; headersize : Z; freePtr : Z; eofPtr : Z; allocs : Z; frees : Z; MaxVolumeId : Z;
  totalEntries : list Z;
  IpMappedAddr : gmap Z Z; VolnameHash : gmap Z Z; VolidHash : gmap (Z * Z) Z; SIT : Z;
  HostAddress : gmap Z Z; ex_addr : gmap Z (list Z)
}.
Definition VITALSIZE : Z := 40.
Definition mapped_pos (i : Z) : Z := VITALSIZE + i * 4.
Definition volname_pos (i : Z) : Z := mapped_pos (MAXSERVERID + 1) + i * 4.
Definition volid_pos (voltype i : Z) : Z := volname_pos HASHSIZE + (voltype * HASHSIZE + i) * 4.
Definition sit_pos : Z := volid_pos MAXTYPES 0.
Definition HEADERSIZE : Z := sit_pos + 4.

Definition mapped_addr (h : vlheader) (i : Z) : Z := default 0 (IpMappedAddr h !! i).
Definition host_addr (h : vlheader) (i : Z) : Z := default 0 (HostAddress h !! i).
Definition name_bucket (h : vlheader) (i : Z) : Z := default 0 (VolnameHash h !! i).
Definition id_bucket (h : vlheader) (voltype i : Z) : Z := default 0 (VolidHash h !! (voltype, i)).

Definition set_vldbversion v h := VlHeader v (headersize h) (freePtr h) (eofPtr h) (allocs h) (frees h)
  (MaxVolumeId h) (totalEntries h) (IpMappedAddr h) (VolnameHash h) (VolidHash h) (SIT h) (HostAddress h)
  (ex_addr h).
Definition set_freePtr v h := VlHeader (vldbversion h) (headersize h) v (eofPtr h) (allocs h) (frees h)
  (MaxVolumeId h) (totalEntries h) (IpMappedAddr h) (VolnameHash h) (VolidHash h) (SIT h) (HostAddress h)
  (ex_addr h).
Definition set_eofPtr v h := VlHeader (vldbversion h) (headersize h) (freePtr h) v (allocs h) (frees h)
  (MaxVolumeId h) (totalEntries h) (IpMappedAddr h) (VolnameHash h) (VolidHash h) (SIT h) (HostAddress h)
  (ex_addr h).
Definition set_allocs v h := VlHeader (vldbversion h) (headersize h) (freePtr h) (eofPtr h) v (frees h)
  (MaxVolumeId h) (totalEntries h) (IpMappedAddr h) (VolnameHash h) (VolidHash h) (SIT h) (HostAddress h)
  (ex_addr h).
Definition set_frees v h := VlHeader (vldbversion h) (headersize h) (freePtr h) (eofPtr h) (allocs h) v
  (MaxVolumeId h) (totalEntries h) (IpMappedAddr h) (VolnameHash h) (VolidHash h) (SIT h) (HostAddress h)
  (ex_addr h).
Definition set_MaxVolumeId v h := VlHeader (vldbversion h) (headersize h) (freePtr h) (eofPtr h) (allocs h)
  (frees h) v (totalEntries h) (IpMappedAddr h) (VolnameHash h) (VolidHash h) (SIT h) (HostAddress h)
  (ex_addr h).
Definition set_mapped i v h := VlHeader (vldbversion h) (headersize h) (freePtr h) (eofPtr h) (allocs h)
  (frees h) (MaxVolumeId h) (totalEntries h) (<[i := v]> (IpMappedAddr h)) (VolnameHash h) (VolidHash h) (SIT h)
  (HostAddress h) (ex_addr h).
Definition set_volname i v h := VlHeader (vldbversion h) (headersize h) (freePtr h) (eofPtr h) (allocs h)
  (frees h) (MaxVolumeId h) (totalEntries h) (IpMappedAddr h) (<[i := v]> (VolnameHash h)) (VolidHash h) (SIT h)
  (HostAddress h) (ex_addr h).
Definition set_volid voltype i v h := VlHeader (vldbversion h) (headersize h) (freePtr h) (eofPtr h) (allocs h)
  (frees h) (MaxVolumeId h) (totalEntries h) (IpMappedAddr h) (VolnameHash h)
  (<[(voltype, i) := v]> (VolidHash h)) (SIT h) (HostAddress h) (ex_addr h).
Definition set_SIT v h := VlHeader (vldbversion h) (headersize h) (freePtr h) (eofPtr h) (allocs h) (frees h)
  (MaxVolumeId h) (totalEntries h) (IpMappedAddr h) (VolnameHash h) (VolidHash h) v (HostAddress h) (ex_addr h).
Definition set_host i v h := VlHeader (vldbversion h) (headersize h) (freePtr h) (eofPtr h) (allocs h) (frees h)
  (MaxVolumeId h) (totalEntries h) (IpMappedAddr h) (VolnameHash h) (VolidHash h) (SIT h)
  (<[i := v]> (HostAddress h)) (ex_addr h).
Definition set_ex i v h := VlHeader (vldbversion h) (headersize h) (freePtr h) (eofPtr h) (allocs h) (frees h)
  (MaxVolumeId h) (totalEntries h) (IpMappedAddr h) (VolnameHash h) (VolidHash h) (SIT h) (HostAddress h)
  (<[i := v]> (ex_addr h)).

Definition vital (h : vlheader) : list Z :=
  concat (map be_bytes ([vldbversion h; headersize h; freePtr h; eofPtr h; allocs h; frees h; MaxVolumeId h] ++ totalEntries h)).

Notation st := (UbikFile.st vlheader).
Notation M := (SM (UbikFile.st vlheader)).

Section host.
Context (little : bool) (maxnservers : Z).

(** [x++] of a word in network order. *)
Definition bump (v : Z) : Z := htonl little (s32 (htonl little v + 1)).

(** ** Reading and writing *)

Definition vlwrite (offset : Z) (buffer : list Z) : M Z :=
  let* errorcode := ubik_calls in
  if negb (errorcode =? 0) then ret errorcode
  else let* _ := set_file (fun m => put m offset buffer) in ret 0.

Definition vlentrywrite (offset : Z) (e : nvlentry) : M Z :=
  vlwrite offset (if maxnservers =? 13 then image_new e else image_old e).

Definition vlentryread (offset : Z) : M (Z * nvlentry) :=
  let* errorcode := ubik_calls in
  if negb (errorcode =? 0) then ret (errorcode, zero_entry)
  else let* m := get_file in ret (0, if maxnservers =? 13 then entry_new m offset else entry_old m offset).

Definition write_vital_vlheader : M Z :=
  let* h := get_header in
  let* code := vlwrite 0 (vital h) in
  ret (if negb (code =? 0) then VL_IO else 0).

(** An index is compared with unsigned numbers. *)
Definition index_OK (h : vlheader) (blockindex : Z) : bool :=
  negb ((0 <=? blockindex) && (blockindex <? HEADERSIZE)) && (u32 blockindex <? u32 (eofPtr h)).

(** ** Blocks *)

Definition AllocBlock : M (Z * nvlentry) :=
  let* h := get_header in
  let* blockindex :=
    if negb (freePtr h =? 0) then
      let* (code, tentry) := vlentryread (freePtr h) in
      if negb (code =? 0) then ret None
      else let* _ := set_header (set_freePtr (word (next_id 0) tentry)) in ret (Some (freePtr h))
    else
      let* _ := set_header (set_eofPtr (s32 (eofPtr h + ENTRYSIZE))) in ret (Some (eofPtr h)) in
  match blockindex with
  | None => ret (0, zero_entry)
  | Some blockindex =>
      let* _ := set_header (fun h => set_allocs (bump (allocs h)) h) in
      let* code := write_vital_vlheader in
      if negb (code =? 0) then ret (0, zero_entry) else ret (blockindex, zero_entry)
  end.

(** The block is written as a [struct nvlentry], whatever the version. *)
Definition FreeBlock (blockindex : Z) : M Z :=
  let* h := get_header in
  if negb (index_OK h blockindex) then ret VL_BADINDEX
  else
    let tentry := set_word 3 VLFREE (set_word (next_id 0) (freePtr h) zero_entry) in
    let* _ := set_header (set_freePtr blockindex) in
    let* code := vlwrite blockindex (image_new tentry) in
    if negb (code =? 0) then ret VL_IO
    else
      let* _ := set_header (fun h => set_frees (bump (frees h)) h) in
      let* code := write_vital_vlheader in
      if negb (code =? 0) then ret VL_IO else ret 0.

(** ** Hash chains *)

(** [abs] of the least number has no defined value. *)
Definition IDHash (volumeid : Z) : M Z :=
  if volumeid =? INT_MIN then crash else ret (Z.rem (Z.abs volumeid) HASHSIZE).

Definition name_step (c hash : Z) : Z := u32 (u32 (hash * 63) + (c - 63)).
Definition NameHash (volumename : list Z) : Z := foldr name_step 0 volumename mod HASHSIZE.

(** One more than the entries there is room for. *)
Definition chain_fuel (h : vlheader) : nat := S (Z.to_nat ((eofPtr h - HEADERSIZE) / ENTRYSIZE)).

(** The block, its entry, and the error. *)
Fixpoint find_chain (same : nvlentry -> bool) (nxt : nvlentry -> Z) (blockindex : Z) (fuel : nat) : M (Z * nvlentry * Z) :=
  match fuel with
  | O => crash
  | S fuel' =>
      if blockindex =? NULLO then ret (0, zero_entry, 0)
      else
        let* (code, tentry) := vlentryread blockindex in
        if negb (code =? 0) then ret (0, tentry, VL_IO)
        else if same tentry then ret (blockindex, tentry, 0)
        else find_chain same nxt (nxt tentry) fuel'
  end.

Definition has_volid (volid voltype : Z) (e : nvlentry) : bool := volid =? volumeId voltype e.
(** [strcmp], of names that end within their field. *)
Definition has_name (tname : list Z) (e : nvlentry) : bool := bool_decide (tname = cstring (name e)).

Definition find_volid (volid voltype hashindex : Z) : M (Z * nvlentry * Z) :=
  let* h := get_header in
  find_chain (has_volid volid voltype) (word (next_id voltype)) (id_bucket h voltype hashindex) (chain_fuel h).

Fixpoint find_types (volid hashindex : Z) (types : list Z) : M (Z * nvlentry * Z) :=
  match types with
  | [] => ret (0, zero_entry, 0)
  | typeindex :: types' =>
      let* r := find_volid volid typeindex hashindex in
      let '(blockindex, _, error) := r in
      if negb (error =? 0) || negb (blockindex =? 0) then ret r
      else find_types volid hashindex types'
  end.

(** A type out of range is an access outside the tables. *)
Definition FindByID (volid voltype : Z) : M (Z * nvlentry * Z) :=
  let* hashindex := IDHash volid in
  if voltype =? -1 then find_types volid hashindex [0; 1; 2]
  else if (0 <=? voltype) && (voltype <? MAXTYPES) then find_volid volid voltype hashindex
  else crash.

Definition ends_with (suffix s : list Z) : bool := bool_decide (drop (length s - length suffix) s = suffix).
Definition dot_backup : list Z := [46; 98; 97; 99; 107; 117; 112].
Definition dot_readonly : list Z := [46; 114; 101; 97; 100; 111; 110; 108; 121].
Definition strip (volname : list Z) : list Z :=
  if (8 <=? length volname)%nat && ends_with dot_backup volname then take (length volname - 7) volname
  else if (10 <=? length volname)%nat && ends_with dot_readonly volname then take (length volname - 9) volname
  else volname.

(** [tname] holds 65 bytes. *)
Definition FindByName (volname : list Z) : M (Z * nvlentry * Z) :=
  if (VL_MAXNAMELEN <=? length volname)%nat then crash
  else
    let tname := strip volname in
    let* h := get_header in
    find_chain (has_name tname) (word next_name) (name_bucket h (NameHash tname)) (chain_fuel h).

(** The code and the entry with its pointer. *)
Definition HashVolid (voltype blockindex : Z) (tentry : nvlentry) : M (Z * nvlentry) :=
  let* (found, errorcode) := FindByID (volumeId voltype tentry) voltype in
  if negb (found.1 =? 0) then ret (VL_IDALREADYHASHED, tentry)
  else if negb (errorcode =? 0) then ret (errorcode, tentry)
  else
    let* hashindex := IDHash (volumeId voltype tentry) in
    let* h := get_header in
    let tentry := set_word (next_id voltype) (id_bucket h voltype hashindex) tentry in
    let* _ := set_header (set_volid voltype hashindex blockindex) in
    let* code := vlwrite (volid_pos voltype hashindex) (be_bytes blockindex) in
    ret (if negb (code =? 0) then VL_IO else 0, tentry).

Definition HashVolname (blockindex : Z) (aentry : nvlentry) : M (Z * nvlentry) :=
  let hashindex := NameHash (cstring (name aentry)) in
  let* h := get_header in
  let aentry := set_word next_name (name_bucket h hashindex) aentry in
  let* _ := set_header (set_volname hashindex blockindex) in
  let* code := vlwrite (volname_pos hashindex) (be_bytes blockindex) in
  ret (if negb (code =? 0) then VL_IO else 0, aentry).

(** The block before [blockindex], from [nextblockindex] on, which is read even
    if there is none. *)
Fixpoint before_chain (nxt : nvlentry -> Z) (blockindex nextblockindex prevblockindex : Z) (fuel : nat) : M (Z * Z) :=
  match fuel with
  | O => crash
  | S fuel' =>
      if nextblockindex =? blockindex then ret (0, prevblockindex)
      else
        let* (code, tentry) := vlentryread nextblockindex in
        if negb (code =? 0) then ret (VL_IO, nextblockindex)
        else if nxt tentry =? NULLO then ret (VL_NOENT, nextblockindex)
        else before_chain nxt blockindex (nxt tentry) nextblockindex fuel'
  end.

(** Both removals: [k] is the word of the pointer in [struct nvlentry], [head]
    the bucket and [pos] its place in the file. *)
Definition unhash (k : nat) (head pos : Z) (sethead : Z -> vlheader -> vlheader) (blockindex : Z) (aentry : nvlentry)
  : M (Z * nvlentry) :=
  let* h := get_header in
  let* code :=
    if head =? blockindex then
      let* _ := set_header (sethead (word k aentry)) in
      let* code := vlwrite pos (be_bytes (word k aentry)) in
      ret (if negb (code =? 0) then VL_IO else 0)
    else
      let* (code, prevblockindex) := before_chain (word k) blockindex head 0 (chain_fuel h) in
      if negb (code =? 0) then ret code
      else
        let* code := vlwrite (prevblockindex + 4 * Z.of_nat k) (be_bytes (word k aentry)) in
        ret (if negb (code =? 0) then VL_IO else 0) in
  ret (code, if negb (code =? 0) then aentry else set_word k 0 aentry).

Definition UnhashVolid (voltype blockindex : Z) (aentry : nvlentry) : M (Z * nvlentry) :=
  if volumeId voltype aentry =? NULLO then ret (0, aentry)
  else
    let* hashindex := IDHash (volumeId voltype aentry) in
    let* h := get_header in
    unhash (next_id voltype) (id_bucket h voltype hashindex) (volid_pos voltype hashindex) (set_volid voltype hashindex)
      blockindex aentry.

Definition UnhashVolname (blockindex : Z) (aentry : nvlentry) : M (Z * nvlentry) :=
  let hashindex := NameHash (cstring (name aentry)) in
  let* h := get_header in
  unhash next_name (name_bucket h hashindex) (volname_pos hashindex) (set_volname hashindex) blockindex aentry.

(** ** Entries in and out *)

Definition ThreadVLentry (blockindex : Z) (tentry : nvlentry) : M Z :=
  let* h := get_header in
  if negb (index_OK h blockindex) then ret VL_BADINDEX
  else
    let* (errorcode, tentry) := HashVolid RWVOL blockindex tentry in
    if negb (errorcode =? 0) then ret errorcode
    else
      let* (errorcode, tentry) :=
        if negb (volumeId ROVOL tentry =? 0) then HashVolid ROVOL blockindex tentry else ret (0, tentry) in
      if negb (errorcode =? 0) then ret errorcode
      else
        let* (errorcode, tentry) :=
          if negb (volumeId BACKVOL tentry =? 0) then HashVolid BACKVOL blockindex tentry else ret (0, tentry) in
        if negb (errorcode =? 0) then ret errorcode
        else
          let* (_, tentry) := HashVolname blockindex tentry in
          let* code := write_vital_vlheader in
          if negb (code =? 0) then ret VL_IO
          else
            let* code := vlentrywrite blockindex tentry in
            ret (if negb (code =? 0) then VL_IO else 0).

Definition UnthreadVLentry (blockindex : Z) (aentry : nvlentry) : M Z :=
  let* h := get_header in
  if negb (index_OK h blockindex) then ret VL_BADINDEX
  else
    let* (errorcode, aentry) := UnhashVolid RWVOL blockindex aentry in
    if negb (errorcode =? 0) then ret errorcode
    else
      let* (errorcode, aentry) := UnhashVolid ROVOL blockindex aentry in
      if negb (errorcode =? 0) then ret errorcode
      else
        let* (errorcode, aentry) := UnhashVolid BACKVOL blockindex aentry in
        if negb (errorcode =? 0) then ret errorcode
        else
          let* (errorcode, _) := UnhashVolname blockindex aentry in
          if negb (errorcode =? 0) then ret errorcode
          else let* _ := write_vital_vlheader in ret 0.

(** ** The sequence of entries *)

(** The index, the entry, and [remaining]. *)
Fixpoint next_from (blockindex lastblockindex : Z) (fuel : nat) : M (Z * nvlentry * Z) :=
  match fuel with
  | O => crash
  | S fuel' =>
      if blockindex <? lastblockindex then
        let* (code, tentry) := vlentryread blockindex in
        if negb (code =? 0) then ret (0, tentry, -1)
        else if flags tentry =? VLCONTBLOCK then next_from (blockindex + VL_ADDREXTBLK_SIZE) lastblockindex fuel'
        else if negb (flags tentry =? VLFREE) then
          ret (blockindex, tentry, (lastblockindex - blockindex) / ENTRYSIZE - 1)
        else next_from (blockindex + ENTRYSIZE) lastblockindex fuel'
      else ret (0, zero_entry, 0)
  end.

Definition NextEntry (blockindex : Z) : M (Z * nvlentry * Z) :=
  let* h := get_header in
  if blockindex =? 0 then next_from HEADERSIZE (eofPtr h) (chain_fuel h)
  else if negb (index_OK h blockindex) then ret (0, zero_entry, -1)
  else next_from (blockindex + ENTRYSIZE) (eofPtr h) (chain_fuel h).
End host.
