(* ===== verification/VlProcs.v ===== *)
(** The volume location server: the bodies of the remote procedures of
    src/vlserver/vlprocs.c over the database of vlutils.c, with the tables of
    server addresses. Authorisation, statistics and logging are left out; a
    procedure runs between the beginning of a transaction and its end. *)
From S2P Require Import Prelude Bytes UbikFile VlDb.

#[local] Open Scope ubik_scope.

Definition BADSERVERID : Z := 255.
Definition MAXPARTITIONID : Z := 255.
Definition MAXSERVERFLAG : Z := 128.
Definition MAXBUMPCOUNT : Z := 2147483647.
Definition MAXLOCKTIME : Z := 2147483647.
Definition VLDELETED : Z := 2.
Definition VL_MAX_ADDREXTBLKS : Z := 4.
Definition VL_MHSRV_PERBLK : Z := 64.
Definition VL_MAXIPADDRS_PERMH : nat := 15.

Definition LOCKREL_TIMESTAMP : Z := 1.
Definition LOCKREL_OPCODE : Z := 2.
Definition LOCKREL_AFSID : Z := 4.
Definition VLOP_MOVE : Z := 16.
Definition VLOP_RELEASE : Z := 32.
Definition VLOP_BACKUP : Z := 64.
Definition VLOP_DELETE : Z := 128.
Definition VLOP_DUMP : Z := 256.
Definition VLOP_ALLOPERS : Z := 496.

Definition VL_IDEXIST : Z := 363520.
Definition VL_NAMEEXIST : Z := 363522.
Definition VL_CREATEFAIL : Z := 363523.
Definition VL_ENTDELETED : Z := 363526.
Definition VL_BADNAME : Z := 363527.
Definition VL_BADVOLTYPE : Z := 363529.
Definition VL_BADSERVER : Z := 363530.
Definition VL_BADPARTITION : Z := 363531.
Definition VL_BADENTRY : Z := 363538.
Definition VL_BADVOLIDBUMP : Z := 363539.
Definition VL_ENTRYLOCKED : Z := 363541.
Definition VL_BADVOLOPER : Z := 363542.
Definition VL_BADRELLOCKTYPE : Z := 363543.
Definition VL_RERELEASE : Z := 363544.
Definition VL_BADSERVERFLAG : Z := 363545.

(** ** Entries as the clients see them *)

Record nvldbentry := NvldbEntry {
  x_name : list Z; nServers : Z;
  x_serverNumber : list Z; x_serverPartition : list Z; x_serverFlags : list Z;
  x_volumeId : list Z; x_cloneId : Z; x_flags : Z
}.

(** Dot, letters, digits, hyphen and underscore. *)
Definition legal_char (c : Z) : bool :=
  (c =? 46) || ((65 <=? c) && (c <=? 90)) || ((97 <=? c) && (c <=? 122)) || ((48 <=? c) && (c <=? 57)) || (c =? 45) || (c =? 95).

Definition InvalidVolname (volname : list Z) : bool :=
  (VL_MAXNAMELEN <=? length volname)%nat || negb (forallb legal_char volname).

Definition InvalidVoltype (voltype : Z) : bool :=
  negb (voltype =? RWVOL) && negb (voltype =? ROVOL) && negb (voltype =? BACKVOL).

Definition InvalidOperation (voloper : Z) : bool :=
  negb (voloper =? VLOP_MOVE) && negb (voloper =? VLOP_RELEASE) && negb (voloper =? VLOP_BACKUP)
  && negb (voloper =? VLOP_DELETE) && negb (voloper =? VLOP_DUMP).

Definition InvalidReleasetype (releasetype : Z) : bool :=
  (Z.land releasetype LOCKREL_TIMESTAMP =? 0) && (Z.land releasetype LOCKREL_OPCODE =? 0) && (Z.land releasetype LOCKREL_AFSID =? 0).

(** The codes of the sites, in their order. *)
Fixpoint check_sites (parts flgs : list Z) (n : nat) : Z :=
  match n, parts, flgs with
  | S n', p :: parts', f :: flgs' =>
      if (p <? 0) || (MAXPARTITIONID <? p) then VL_BADPARTITION
      else if (f <? 0) || (MAXSERVERFLAG <? f) then VL_BADSERVERFLAG
      else check_sites parts' flgs' n'
  | _, _, _ => 0
  end.

Definition check_nvldbentry (aentry : nvldbentry) : Z :=
  if InvalidVolname (x_name aentry) then VL_BADNAME
  else if (nServers aentry <=? 0) || (Z.of_nat NMAXNSERVERS <? nServers aentry) then VL_BADSERVER
  else check_sites (x_serverPartition aentry) (x_serverFlags aentry) (Z.to_nat (nServers aentry)).

(** ** Server addresses *)

(** An address of the form 255.b.i.i stands for the addresses of an entry in an
    extension block. *)
Definition multihomed (a : Z) : bool := Z.land a 4278190080 =? 4278190080.
Definition mh_base (a : Z) : Z := Z.land (Z.shiftr a 16) 255.
Definition mh_index (a : Z) : Z := Z.land a 65535.

(** The addresses of an entry of a block: words 5 to 19 of 32. *)
Definition ex_addrs (blk : list Z) (index : Z) : list Z :=
  map u32 (take VL_MAXIPADDRS_PERMH (drop (Z.to_nat (32 * index + 5)) blk)).

Definition has_addr (ipaddr : Z) (addrs : list Z) : bool := existsb (fun a => negb (a =? 0) && (a =? ipaddr)) addrs.

(** The first loop of IpAddrToRelAddr: [None] when it runs through. *)
Fixpoint rel_scan (h : vlheader) (ipaddr : Z) (l : list Z) : option Z :=
  match l with
  | [] => None
  | i :: l' =>
      let a := host_addr h i in
      if a =? ipaddr then Some i
      else if multihomed a then
        if VL_MAX_ADDREXTBLKS <=? mh_base a then Some (-1)
        else if VL_MHSRV_PERBLK <=? mh_index a then Some (-1)
        else match ex_addr h !! mh_base a with
             | None => Some (-1)
             | Some blk => if has_addr ipaddr (ex_addrs blk (mh_index a)) then Some i else rel_scan h ipaddr l'
             end
      else rel_scan h ipaddr l'
  end.

Definition server_ids : list Z := map Z.of_nat (seq 0 (Z.to_nat (MAXSERVERID + 1))).

Definition free_slot (h : vlheader) : option Z := list_find (fun i => mapped_addr h i = 0) server_ids ≫= (fun p => Some p.2).

Definition IpAddrToRelAddr (ipaddr : Z) (atrans : bool) : M Z :=
  let* h := get_header in
  match rel_scan h ipaddr server_ids with
  | Some i => ret i
  | None =>
      if atrans then
        match free_slot h with
        | None => ret (-1)
        | Some i =>
            let* _ := set_header (set_mapped i ipaddr) in
            let* code := vlwrite (mapped_pos i) (be_bytes ipaddr) in
            let* _ := set_header (set_host i ipaddr) in
            ret (if negb (code =? 0) then -1 else i)
        end
      else ret (-1)
  end.

(** ** Inside and outside *)

Definition strncpy_field (n : nat) (s : list Z) : list Z := let s' := take n (cstring s) in s' ++ replicate (n - length s') 0.

Definition set_name (s : list Z) (e : nvlentry) : nvlentry :=
  NvlEntry (words e) s (serverNumber e) (serverPartition e) (serverFlags e).
Definition set_site (i : nat) (num part fl : Z) (e : nvlentry) : nvlentry :=
  NvlEntry (words e) (name e) (<[i := num]> (serverNumber e)) (<[i := part]> (serverPartition e)) (<[i := fl]> (serverFlags e)).

Fixpoint set_sites_from (x : nvldbentry) (i n : nat) (e : nvlentry) : M (Z * nvlentry) :=
  match n with
  | O => ret (0, e)
  | S n' =>
      let* serverindex := IpAddrToRelAddr (u32 (nth i (x_serverNumber x) 0)) true in
      if serverindex =? -1 then ret (VL_BADSERVER, e)
      else set_sites_from x (S i) n'
             (set_site i (u8 serverindex) (u8 (nth i (x_serverPartition x) 0)) (u8 (nth i (x_serverFlags x) 0)) e)
  end.

Definition blank_sites (n : nat) (e : nvlentry) : nvlentry :=
  fold_left (fun e i => set_site i BADSERVERID BADSERVERID BADSERVERID e) (seq n (NMAXNSERVERS - n)) e.

Definition nvldbentry_to_vlentry (x : nvldbentry) (e : nvlentry) : M (Z * nvlentry) :=
  let e := if bool_decide (cstring (name e) = x_name x) then e else set_name (strncpy_field VL_MAXNAMELEN (x_name x)) e in
  let n := Z.to_nat (nServers x) in
  let* (code, e) := set_sites_from x 0 n e in
  if negb (code =? 0) then ret (code, e)
  else
    let e := blank_sites n e in
    let e := set_word 0 (nth 0 (x_volumeId x) 0) (set_word 1 (nth 1 (x_volumeId x) 0) (set_word 2 (nth 2 (x_volumeId x) 0) e)) in
    ret (0, set_word 6 (x_cloneId x) (set_word 3 (x_flags x) e)).

(** The address of a site; of a server with several the first. An index outside
    the blocks is an access outside them. *)
Definition site_addr (h : vlheader) (num : Z) : option Z :=
  let a := host_addr h num in
  if multihomed a then
    match ex_addr h !! mh_base a with
    | Some blk =>
        if mh_index a <? VL_MHSRV_PERBLK then Some (default 0 (head (filter (fun v => v <> 0) (ex_addrs blk (mh_index a)))))
        else None
    | None => None
    end
  else Some a.

(** The sites up to the first that is not there. *)
Fixpoint sites_out (h : vlheader) (nums parts flgs : list Z) : option (list (Z * Z * Z)) :=
  match nums, parts, flgs with
  | n :: nums', p :: parts', f :: flgs' =>
      if n =? BADSERVERID then Some []
      else match site_addr h n, sites_out h nums' parts' flgs' with
           | Some a, Some l => Some ((a, p, f) :: l)
           | _, _ => None
           end
  | _, _, _ => Some []
  end.

Definition vlentry_to_nvldbentry (e : nvlentry) : M nvldbentry :=
  let* h := get_header in
  match sites_out h (serverNumber e) (serverPartition e) (serverFlags e) with
  | None => crash
  | Some l =>
      ret (NvldbEntry (cstring (name e)) (Z.of_nat (length l)) (map (fun t => t.1.1) l) (map (fun t => t.1.2) l) (map snd l)
             (take 3 (words e)) (word 6 e) (flags e))
  end.

(** ** Transactions

    ubik_EndTrans, and ubik_AbortTrans with the header that is read again when
    the next transaction begins. *)
Definition transaction {A} (body : M (Z * A)) : M (Z * option A) := fun s =>
  match body s with
  | None => None
  | Some ((code, a), s') =>
      if negb (code =? 0) then Some ((code, None), St (cheader s) (file s) (io s'))
      else
        match ubik_call s' with
        | None => None
        | Some (code, s'') =>
            if negb (code =? 0) then Some ((code, None), St (cheader s) (file s) (io s'')) else Some ((0, Some a), s'')
        end
  end.

Section host.
Context (little : bool) (maxnservers : Z).

(** ** The procedures *)

Definition CreateEntryN_body (newentry : nvldbentry) : M (Z * unit) :=
  let rw := nth 0 (x_volumeId newentry) 0 in
  let* (found, errorcode) := if negb (rw =? 0) then FindByID maxnservers rw RWVOL else ret (0, zero_entry, 0) in
  if negb (found.1 =? 0) then ret (VL_IDEXIST, tt)
  else if negb (errorcode =? 0) then ret (errorcode, tt)
  else
    let* (found, errorcode) := FindByName maxnservers (x_name newentry) in
    if negb (found.1 =? 0) then ret (VL_NAMEEXIST, tt)
    else if negb (errorcode =? 0) then ret (errorcode, tt)
    else
      let* (blockindex, tentry) := AllocBlock little maxnservers in
      if blockindex =? 0 then ret (VL_CREATEFAIL, tt)
      else
        let* (errorcode, tentry) := nvldbentry_to_vlentry newentry zero_entry in
        if negb (errorcode =? 0) then let* _ := FreeBlock little blockindex in ret (errorcode, tt)
        else
          let* errorcode := ThreadVLentry maxnservers blockindex tentry in
          if negb (errorcode =? 0) then let* _ := FreeBlock little blockindex in ret (errorcode, tt)
          else ret (0, tt).

Definition SVL_CreateEntryN (newentry : nvldbentry) : M (Z * option unit) :=
  let code := check_nvldbentry newentry in
  if negb (code =? 0) then ret (code, None) else transaction (CreateEntryN_body newentry).

Definition RemoveEntry (entryptr : Z) (tentry : nvlentry) : M Z :=
  let* errorcode := UnthreadVLentry maxnservers entryptr tentry in
  if negb (errorcode =? 0) then ret errorcode
  else let* errorcode := FreeBlock little entryptr in ret errorcode.

(** The entry of an identifier, for the procedures that begin with it. *)
Definition with_entry {A} (dflt : A) (volid voltype : Z) (k : Z -> nvlentry -> M (Z * A)) : M (Z * A) :=
  let* (found, errorcode) := FindByID maxnservers volid voltype in
  let '(blockindex, tentry) := found in
  if blockindex =? 0 then ret (if errorcode =? 0 then VL_NOENT else errorcode, dflt) else k blockindex tentry.

Definition bad_voltype (voltype : Z) : bool := negb (voltype =? -1) && InvalidVoltype voltype.
Definition deleted (e : nvlentry) : bool := negb (Z.land (flags e) VLDELETED =? 0).

Definition SVL_DeleteEntry (volid voltype : Z) : M (Z * option unit) :=
  if bad_voltype voltype then ret (VL_BADVOLTYPE, None)
  else
    transaction (with_entry tt volid voltype (fun blockindex tentry =>
      if deleted tentry then ret (VL_ENTDELETED, tt)
      else let* errorcode := RemoveEntry blockindex tentry in ret (errorcode, tt))).

Definition GetEntryByID (volid voltype : Z) : M (Z * option (option nvldbentry)) :=
  if bad_voltype voltype then ret (VL_BADVOLTYPE, None)
  else
    transaction (with_entry None volid voltype (fun blockindex tentry =>
      if deleted tentry then ret (VL_ENTDELETED, None)
      else let* x := vlentry_to_nvldbentry tentry in ret (0, Some x))).

Definition NameIsId (aname : list Z) : bool := forallb (fun tc => negb ((57 <? tc) || (tc <? 48))) aname.

(** [atoi] of digits; the overflow that it has no defined outcome for wraps. *)
Definition atoi (aname : list Z) : Z := s32 (fold_left (fun n c => n * 10 + (c - 48)) aname 0).

Definition GetEntryByName (volname : list Z) : M (Z * option (option nvldbentry)) :=
  if NameIsId volname then GetEntryByID (atoi volname) (-1)
  else if InvalidVolname volname then ret (VL_BADNAME, None)
  else
    transaction (
      let* (found, errorcode) := FindByName maxnservers volname in
      let '(blockindex, tentry) := found in
      if blockindex =? 0 then ret (if errorcode =? 0 then VL_NOENT else errorcode, None)
      else if deleted tentry then ret (VL_ENTDELETED, None)
      else let* x := vlentry_to_nvldbentry tentry in ret (0, Some x)).

Definition SVL_GetNewVolumeId (Maxvolidbump : Z) : M (Z * option Z) :=
  if (Maxvolidbump <? 0) || (MAXBUMPCOUNT <? Maxvolidbump) then ret (VL_BADVOLIDBUMP, None)
  else
    transaction (
      let* h := get_header in
      let maxvolumeid := MaxVolumeId h in
      let* _ := set_header (set_MaxVolumeId (s32 (maxvolumeid + Maxvolidbump))) in
      let* code := write_vital_vlheader in
      ret (if negb (code =? 0) then VL_IO else 0, maxvolumeid)).

Definition ReleaseEntry (releasetype : Z) (e : nvlentry) : nvlentry :=
  let e := if negb (Z.land releasetype LOCKREL_TIMESTAMP =? 0) then set_word 5 0 e else e in
  let e := if negb (Z.land releasetype LOCKREL_OPCODE =? 0) then set_word 3 (Z.land (flags e) (Z.lnot VLOP_ALLOPERS)) e else e in
  if negb (Z.land releasetype LOCKREL_AFSID =? 0) then set_word 4 0 e else e.

Definition write_back (blockindex : Z) (e : nvlentry) : M (Z * unit) :=
  let* code := vlentrywrite maxnservers blockindex e in ret (if negb (code =? 0) then VL_IO else 0, tt).

Definition SVL_SetLock (timestamp volid voltype voloper : Z) : M (Z * option unit) :=
  if bad_voltype voltype then ret (VL_BADVOLTYPE, None)
  else if InvalidOperation voloper then ret (VL_BADVOLOPER, None)
  else
    transaction (with_entry tt volid voltype (fun blockindex tentry =>
      if deleted tentry then ret (VL_ENTDELETED, tt)
      else if negb (word 5 tentry =? 0) && (s32 (timestamp - word 5 tentry) <? MAXLOCKTIME) then ret (VL_ENTRYLOCKED, tt)
      else if negb (Z.land (flags tentry) VLOP_RELEASE =? 0) then ret (VL_RERELEASE, tt)
      else
        let e := set_word 4 0 (set_word 5 timestamp tentry) in
        write_back blockindex (set_word 3 (Z.lor (Z.land (flags e) (Z.lnot VLOP_ALLOPERS)) voloper) e))).

Definition SVL_ReleaseLock (volid voltype releasetype : Z) : M (Z * option unit) :=
  if bad_voltype voltype then ret (VL_BADVOLTYPE, None)
  else if negb (releasetype =? 0) && InvalidReleasetype releasetype then ret (VL_BADRELLOCKTYPE, None)
  else
    transaction (with_entry tt volid voltype (fun blockindex tentry =>
      if deleted tentry then ret (VL_ENTDELETED, tt)
      else write_back blockindex (if negb (releasetype =? 0) then ReleaseEntry releasetype tentry else tentry))).

(** An identifier that changes is taken out of its chain ([true]: to be put in
    again), before the entry is changed. *)
Definition unhash_changed (newentry : nvldbentry) (blockindex typeindex : Z) (tentry : nvlentry) : M (Z * nvlentry * bool) :=
  if volumeId typeindex tentry =? nth (Z.to_nat typeindex) (x_volumeId newentry) 0 then ret (0, tentry, false)
  else if volumeId typeindex tentry =? 0 then ret (0, tentry, true)
  else
    let* (errorcode, tentry) := UnhashVolid maxnservers typeindex blockindex tentry in
    ret (errorcode, tentry, true).

Definition rehash (doit : bool) (blockindex typeindex : Z) (tentry : nvlentry) : M (Z * nvlentry) :=
  if doit && negb (volumeId typeindex tentry =? 0) then HashVolid maxnservers typeindex blockindex tentry else ret (0, tentry).

Definition ReplaceEntryN_body (newentry : nvldbentry) (releasetype blockindex : Z) (tentry : nvlentry) : M (Z * unit) :=
  if negb (nth 0 (x_volumeId newentry) 0 =? volumeId RWVOL tentry) then ret (VL_BADENTRY, tt)
  else
    let* (r, hashro) := unhash_changed newentry blockindex ROVOL tentry in
    let '(errorcode, tentry) := r in
    if negb (errorcode =? 0) then ret (errorcode, tt)
    else
      let* (r, hashback) := unhash_changed newentry blockindex BACKVOL tentry in
      let '(errorcode, tentry) := r in
      if negb (errorcode =? 0) then ret (errorcode, tt)
      else
        let hashnewname := negb (bool_decide (x_name newentry = cstring (name tentry))) in
        let* (errorcode, tentry) := if hashnewname then UnhashVolname maxnservers blockindex tentry else ret (0, tentry) in
        if negb (errorcode =? 0) then ret (errorcode, tt)
        else
          let* (errorcode, tentry) := nvldbentry_to_vlentry newentry tentry in
          if negb (errorcode =? 0) then ret (errorcode, tt)
          else
            let* (errorcode, tentry) := rehash hashro blockindex ROVOL tentry in
            if negb (errorcode =? 0) then ret (errorcode, tt)
            else
              let* (errorcode, tentry) := rehash hashback blockindex BACKVOL tentry in
              if negb (errorcode =? 0) then ret (errorcode, tt)
              else
                let* (_, tentry) := if hashnewname then HashVolname blockindex tentry else ret (0, tentry) in
                write_back blockindex (if negb (releasetype =? 0) then ReleaseEntry releasetype tentry else tentry).

Definition SVL_ReplaceEntryN (volid voltype : Z) (newentry : nvldbentry) (releasetype : Z) : M (Z * option unit) :=
  let code := check_nvldbentry newentry in
  if negb (code =? 0) then ret (code, None)
  else if bad_voltype voltype then ret (VL_BADVOLTYPE, None)
  else if negb (releasetype =? 0) && InvalidReleasetype releasetype then ret (VL_BADRELLOCKTYPE, None)
  else transaction (with_entry tt volid voltype (ReplaceEntryN_body newentry releasetype)).

(** The next index, the count that remains, and the entry. *)
Definition SVL_ListEntryN (previous_index : Z) : M (Z * option (Z * Z * option nvldbentry)) :=
  transaction (
    let* (found, count) := NextEntry maxnservers previous_index in
    let '(next_index, tentry) := found in
    if negb (next_index =? 0) then
      let* x := vlentry_to_nvldbentry tentry in ret (0, (next_index, count, Some x))
    else ret (0, (next_index, count, None))).

(** ** Changing addresses *)

(** The slot of an address, and whether it is one of several of a server; slot
    -1 is the error of an entry outside the blocks, [None] a block that is not
    there. *)
Fixpoint addr_slot (h : vlheader) (ipaddr : Z) (l : list Z) : option (Z * bool) :=
  match l with
  | [] => Some (MAXSERVERID + 1, false)
  | i :: l' =>
      let a := host_addr h i in
      if multihomed a then
        if (VL_MAX_ADDREXTBLKS <=? mh_base a) || (VL_MHSRV_PERBLK <=? mh_index a) then Some (-1, false)
        else match ex_addr h !! mh_base a with
             | None => None
             | Some blk => if has_addr ipaddr (ex_addrs blk (mh_index a)) then Some (i, true) else addr_slot h ipaddr l'
             end
      else if a =? ipaddr then Some (i, false)
      else addr_slot h ipaddr l'
  end.

Fixpoint site_on (i : Z) (nums : list Z) : bool :=
  match nums with
  | [] => false
  | n :: l => if n =? BADSERVERID then false else if n =? i then true else site_on i l
  end.

(** Whether an entry has a site on the server. *)
Fixpoint server_used (i blockindex : Z) (fuel : nat) : M bool :=
  match fuel with
  | O => crash
  | S f =>
      let* (found, _) := NextEntry maxnservers blockindex in
      let '(blockindex, tentry) := found in
      if blockindex =? 0 then ret false
      else if site_on i (serverNumber tentry) then ret true
      else server_used i blockindex f
  end.

(** The slot is compared as the code does. *)
Definition ChangeIPAddr (ipaddr1 ipaddr2 : Z) : M Z :=
  if multihomed ipaddr2 then ret VL_BADSERVER
  else
    let '(ipaddr1, ipaddr2) := if ipaddr1 =? 4294967295 then (ipaddr2, 0) else (ipaddr1, ipaddr2) in
    let* h := get_header in
    match addr_slot h ipaddr1 server_ids with
    | None => crash
    | Some (i, mh) =>
        if i =? -1 then ret (-1)
        else if MAXSERVERID <=? i then ret VL_NOENT
        else
          let* used := if ipaddr2 =? 0 then server_used i 0 (chain_fuel h) else ret false in
          if used then ret VL_IDEXIST
          else
            let a := host_addr h i in
            let base := mh_base a in
            let exp := 32 * mh_index a in
            let* code :=
              if mh then
                let blk := default [] (ex_addr h !! base) in
                let* _ := set_header (set_ex base (fold_left (fun b k => <[Z.to_nat (exp + k) := 0]> b) [0; 1; 2; 3] blk)) in
                let contaddr := nth (Z.to_nat (4 + base)) (default [] (ex_addr h !! 0)) 0 in
                vlwrite (contaddr + 4 * exp) (replicate 16 0)
              else ret 0 in
            if negb (code =? 0) then ret VL_IO
            else
              let* _ := set_header (set_mapped i ipaddr2) in
              let* code := vlwrite (mapped_pos i) (be_bytes ipaddr2) in
              let* _ := set_header (set_host i ipaddr2) in
              ret (if negb (code =? 0) then VL_IO else 0)
    end.

Definition SVL_ChangeAddr (ip1 ip2 : Z) : M (Z * option unit) :=
  transaction (let* code := ChangeIPAddr (u32 ip1) (u32 ip2) in ret (code, tt)).
End host.
