(* ===== verification/VlSpec.v ===== *)
(** The volume location database, the representation: images of entries, the
    pieces the file is made of, the header on file, and the hash chains of the
    four kinds (three of volume identifiers, one of names) as indices of a set
    of blocks. *)
From S2P Require Import Prelude Bytes UbikFile VlDb.

#[local] Open Scope ubik_scope.

(** ** Images of entries *)

Definition run_of (n : nat) (l : list Z) : Prop := length l = n /\ Forall (fun b => 0 <= b < 256) l.

(** The entries that an image represents. *)
Record canonical (e : nvlentry) : Prop := {
  c_words : length (words e) = 11%nat;
  c_int : Forall int32 (words e);
  c_name : run_of 65 (name e);
  c_number : run_of 13 (serverNumber e);
  c_partition : run_of 13 (serverPartition e);
  c_flags : run_of 13 (serverFlags e)
}.

Lemma length_be_words ws : length (concat (map be_bytes ws)) = (4 * length ws)%nat.
Proof. induction ws as [| w l IH]; [done |]. cbn [map concat]. rewrite length_app, IH, length_be_bytes. cbn [length]. lia. Qed.

Lemma be_words_range ws : Forall (fun b => 0 <= b < 256) (concat (map be_bytes ws)).
Proof. apply Forall_concat, Forall_fmap, Forall_true. intros w. apply be_bytes_range. Qed.

Lemma bytes_split m a n k l1 l2 : bytes m a (n + k) = l1 ++ l2 -> length l1 = n ->
  bytes m a n = l1 /\ bytes m (a + Z.of_nat n) k = l2.
Proof. rewrite bytes_plus. intros H Hl. apply app_inj_1 in H; [done |]. by rewrite bytes_length. Qed.

Lemma image_new_range e : canonical e -> Forall (fun b => 0 <= b < 256) (image_new e).
Proof.
  intros []. unfold image_new, run_of in *. repeat apply Forall_app_2; [apply be_words_range | apply c_name0 | apply c_number0
    | apply c_partition0 | apply c_flags0].
Qed.

Lemma length_image_new e : canonical e -> length (image_new e) = 148%nat.
Proof.
  intros [Hw _ [Hn _] [H1 _] [H2 _] [H3 _]]. unfold image_new. rewrite !length_app, length_be_words, Hw, Hn, H1, H2, H3. done.
Qed.

Lemma entry_put m a e : canonical e -> entry_new (put m a (image_new e)) a = e.
Proof.
  intros He. pose proof (bytes_put m a _ (image_new_range e He)) as HB. rewrite length_image_new in HB by done.
  destruct He as [Hw Hi [Hn _] [H1 _] [H2 _] [H3 _]]. set (m' := put _ _ _) in *. unfold image_new in HB.
  change 148%nat with (44 + (65 + (13 + (13 + 13))))%nat in HB.
  apply bytes_split in HB as [B0 HB]; [| by rewrite length_be_words, Hw].
  apply bytes_split in HB as [B1 HB]; [| done]. apply bytes_split in HB as [B2 HB]; [| done].
  apply bytes_split in HB as [B3 B4]; [| done]. unfold entry_new. destruct e as [ws nm p q r].
  cbn [words name serverNumber serverPartition serverFlags] in *. f_equal.
  - rewrite <- Hw. apply get_words_image; [done |]. by rewrite Hw.
  - exact B1.
  - rewrite <- B2. f_equal. lia.
  - rewrite <- B3. f_equal. lia.
  - rewrite <- B4. f_equal. lia.
Qed.

Lemma entry_ext m m' a : (forall x, a <= x < a + 148 -> byte m' x = byte m x) -> entry_new m' a = entry_new m a.
Proof.
  intros H. unfold entry_new. rewrite (get_words_ext m m') by (intros; apply H; lia).
  by rewrite !(bytes_ext m m') by (intros; apply H; lia).
Qed.

Lemma get_words_length m a n : length (get_words m a n) = n.
Proof. unfold get_words. by rewrite length_map, length_seq. Qed.

Lemma bytes_run m a n : byte_file m -> run_of n (bytes m a n).
Proof.
  intros H. split; [apply bytes_length |]. unfold bytes. apply Forall_fmap, Forall_true. intros i. apply H.
Qed.

Lemma canonical_entry m a : byte_file m -> canonical (entry_new m a).
Proof.
  intros H. split; cbn [words name serverNumber serverPartition serverFlags entry_new]; try by apply bytes_run.
  - apply get_words_length.
  - unfold get_words. apply Forall_fmap, Forall_true. intros k. apply s32_range.
Qed.

(** One word of the image written. *)
Lemma get_words_set m a n k v : (k < n)%nat ->
  get_words (put m (a + 4 * Z.of_nat k) (be_bytes v)) a n = <[k := s32 v]> (get_words m a n).
Proof.
  intros Hk. apply list_eq. intros i. destruct (decide (i < n)%nat) as [Hi | Hi].
  2: { rewrite !lookup_ge_None_2; [done | rewrite length_insert, get_words_length; lia | rewrite get_words_length; lia]. }
  destruct (decide (i = k)) as [-> | Hne].
  - rewrite list_lookup_insert_eq by by rewrite get_words_length. unfold get_words.
    rewrite list_lookup_fmap, lookup_seq_lt by done. cbn. by rewrite get32_put.
  - rewrite list_lookup_insert_ne by done. unfold get_words. rewrite !list_lookup_fmap, lookup_seq_lt by done. cbn. f_equal.
    apply get32_ext. intros x Hx. apply byte_put_ne. rewrite length_be_bytes. lia.
Qed.

Lemma entry_word_put m a k v : (k < 11)%nat -> int32 v ->
  entry_new (put m (a + 4 * Z.of_nat k) (be_bytes v)) a = set_word k v (entry_new m a).
Proof.
  intros Hk Hv. unfold entry_new, set_word. cbn [words name serverNumber serverPartition serverFlags].
  rewrite get_words_set by done. rewrite s32_small by exact Hv.
  rewrite !(bytes_ext m (put m _ _)); [done | intros x Hx; apply byte_put_ne; rewrite length_be_bytes; lia ..].
Qed.

Lemma vl_word_set k v e j : canonical e -> (k < 11)%nat -> word j (set_word k v e) = if decide (j = k) then v else word j e.
Proof.
  intros He Hk. unfold word, set_word. cbn [words]. case_decide as E.
  - subst. apply nth_lookup_Some, list_lookup_insert_eq. rewrite c_words by done. lia.
  - rewrite !nth_lookup. by rewrite list_lookup_insert_ne.
Qed.

Lemma vl_canonical_set k v e : canonical e -> int32 v -> canonical (set_word k v e).
Proof.
  intros [H1 H2 H3 H4 H5 H6] Hv. split; cbn [words name serverNumber serverPartition serverFlags set_word]; try done.
  - by rewrite length_insert.
  - by apply Forall_insert.
Qed.

Lemma zero_int : int32 0.
Proof. unfold int32, INT_MIN, INT_MAX. lia. Qed.

Lemma vl_word_int k e : canonical e -> int32 (word k e).
Proof.
  intros [_ HI _ _ _ _]. unfold word. destruct (decide (k < length (words e))%nat) as [H | H].
  - destruct (lookup_lt_is_Some_2 _ _ H) as [v Hv]. rewrite (nth_lookup_Some _ _ _ _ Hv).
    rewrite Forall_forall in HI. apply HI. by eapply list_elem_of_lookup_2.
  - rewrite nth_overflow by lia. apply zero_int.
Qed.

Lemma canonical_zero : canonical zero_entry.
Proof.
  split; [done | | | | |]; cbn [words name serverNumber serverPartition serverFlags zero_entry]; [| split; [done |] ..];
    apply Forall_replicate; [apply zero_int | lia ..].
Qed.

(** ** The pieces of the file

    Entries, and the extension blocks of servers with several addresses. *)
Fixpoint tiled (a : Z) (T : list (Z * Z)) (e : Z) : Prop :=
  match T with
  | [] => a = e
  | (x, n) :: T' => x = a /\ (n = ENTRYSIZE \/ n = VL_ADDREXTBLK_SIZE) /\ tiled (a + n) T' e
  end.

Lemma tiled_le T : forall a e, tiled a T e -> a <= e.
Proof.
  induction T as [| [x n] T IH]; cbn [tiled]; intros a e H; [lia |].
  destruct H as (_ & Hn & H). apply IH in H. unfold ENTRYSIZE, VL_ADDREXTBLK_SIZE in Hn. lia.
Qed.

Lemma tiled_range T : forall a e x n, tiled a T e -> (x, n) ∈ T -> a <= x /\ x + n <= e /\ (n = 148 \/ n = 8192).
Proof.
  induction T as [| [y k] T IH]; cbn [tiled]; intros a e x n H Hin; [by apply not_elem_of_nil in Hin |].
  destruct H as (-> & Hk & H). unfold ENTRYSIZE, VL_ADDREXTBLK_SIZE in Hk. apply elem_of_cons in Hin as [[= -> ->] | Hin].
  - apply tiled_le in H. lia.
  - specialize (IH _ _ _ _ H Hin). lia.
Qed.

Lemma tiled_apart T : forall a e x n y k, tiled a T e -> (x, n) ∈ T -> (y, k) ∈ T -> x <> y -> x + n <= y \/ y + k <= x.
Proof.
  induction T as [| [z j] T IH]; cbn [tiled]; intros a e x n y k H Hx Hy Hne; [by apply not_elem_of_nil in Hx |].
  destruct H as (-> & Hj & H). apply elem_of_cons in Hx as [[= -> ->] | Hx], Hy as [[= -> ->] | Hy]; [done | | |].
  - pose proof (tiled_range _ _ _ _ _ H Hy). lia.
  - pose proof (tiled_range _ _ _ _ _ H Hx). lia.
  - by eapply IH.
Qed.

Lemma tiled_end T : forall a e n, tiled a T e -> n = ENTRYSIZE \/ n = VL_ADDREXTBLK_SIZE -> tiled a (T ++ [(e, n)]) (e + n).
Proof.
  induction T as [| [x k] T IH]; cbn [tiled app]; intros a e n H Hn; [by subst |].
  destruct H as (-> & Hk & H). split; [done | split; [done |]]. by apply IH.
Qed.

Lemma tiled_count T : forall a e, tiled a T e -> Z.of_nat (length T) <= (e - a) / ENTRYSIZE.
Proof.
  assert (H : forall a e, tiled a T e -> Z.of_nat (length T) * 148 <= e - a).
  { induction T as [| [x n] T IH]; cbn [tiled length]; intros a e H; [lia |]. destruct H as (_ & Hn & H). apply IH in H.
    unfold ENTRYSIZE, VL_ADDREXTBLK_SIZE in Hn. lia. }
  intros a e Ht. apply H in Ht. unfold ENTRYSIZE. zdiv.
Qed.

Definition block (T : list (Z * Z)) (x : Z) : Prop := (x, ENTRYSIZE) ∈ T.
Definition piece (T : list (Z * Z)) (x : Z) : Prop := exists n, (x, n) ∈ T.

Lemma block_piece T x : block T x -> piece T x.
Proof. by exists ENTRYSIZE. Qed.
#[local] Hint Resolve block_piece : core.

Lemma vl_blocks_length T a e l : tiled a T e -> NoDup l -> (forall x, x ∈ l -> block T x) ->
  (length l <= Z.to_nat ((e - a) / ENTRYSIZE))%nat.
Proof.
  intros HT HN Hb. pose proof (tiled_count T a e HT).
  assert (Hs : map (fun x => (x, ENTRYSIZE)) l ⊆+ T).
  { apply NoDup_submseteq; [apply NoDup_fmap_2_strong; [| done]; by intros x y _ _ [= ->] |].
    intros z (x & -> & Hx)%list_elem_of_fmap. by apply Hb. }
  apply submseteq_length in Hs. rewrite length_map in Hs. lia.
Qed.

(** ** The header on file *)

(** The four kinds of chains: 0, 1, 2 by volume identifier, 3 by name. *)
Definition ptr (k : nat) : nat := (7 + k)%nat.
Definition bucket_pos (k : nat) (i : Z) : Z := if (k =? 3)%nat then volname_pos i else volid_pos (Z.of_nat k) i.
Definition bucket_of (k : nat) (h : vlheader) (i : Z) : Z :=
  if (k =? 3)%nat then name_bucket h i else id_bucket h (Z.of_nat k) i.
Definition set_bucket (k : nat) (i v : Z) (h : vlheader) : vlheader :=
  if (k =? 3)%nat then set_volname i v h else set_volid (Z.of_nat k) i v h.

Definition in_table (i : Z) : Prop := 0 <= i < HASHSIZE.

Lemma bucket_pos_range k i : (k < 4)%nat -> in_table i -> 1060 <= bucket_pos k i /\ bucket_pos k i + 4 <= HEADERSIZE - 4.
Proof.
  intros Hk Hi. unfold bucket_pos, HEADERSIZE, sit_pos, volid_pos, volname_pos, mapped_pos, VITALSIZE, MAXSERVERID, MAXTYPES, in_table, HASHSIZE in *.
  destruct (Nat.eqb_spec k 3); nia.
Qed.

Lemma bucket_pos_apart k i j b : (k < 4)%nat -> (j < 4)%nat -> in_table i -> in_table b -> ~ (k = j /\ i = b) ->
  bucket_pos k i + 4 <= bucket_pos j b \/ bucket_pos j b + 4 <= bucket_pos k i.
Proof.
  intros Hk Hj Hi Hb Hne. unfold bucket_pos, volid_pos, volname_pos, mapped_pos, VITALSIZE, MAXSERVERID, in_table, HASHSIZE in *.
  destruct (Nat.eqb_spec k 3), (Nat.eqb_spec j 3); [subst; lia | nia | nia |].
  assert (k = 0 \/ k = 1 \/ k = 2)%nat as [-> | [-> | ->]] by lia;
    assert (j = 0 \/ j = 1 \/ j = 2)%nat as [-> | [-> | ->]] by lia; lia.
Qed.

Lemma bucket_set k j i b v h : (k < 4)%nat -> (j < 4)%nat ->
  bucket_of k (set_bucket j i v h) b = if decide (k = j /\ b = i) then v else bucket_of k h b.
Proof.
  intros Hk Hj. unfold bucket_of, set_bucket, name_bucket, id_bucket, set_volname, set_volid.
  destruct (Nat.eqb_spec k 3), (Nat.eqb_spec j 3); cbn [VolnameHash VolidHash].
  - destruct (decide (b = i)) as [-> | Hne]; [rewrite lookup_insert_eq | rewrite lookup_insert_ne by done];
      case_decide; try done; exfalso; naive_solver lia.
  - rewrite decide_False; [done | lia].
  - rewrite decide_False; [done | lia].
  - destruct (decide (k = j /\ b = i)) as [[-> ->] | Hne]; [by rewrite lookup_insert_eq |].
    rewrite lookup_insert_ne; [done |]. intros [= E ->]. apply Nat2Z.inj in E. naive_solver.
Qed.

Record synced (h : vlheader) (m : gmap Z Z) : Prop := {
  sy_vital : bytes m 0 40 = vital h;
  sy_bucket : forall k i, (k < 4)%nat -> in_table i -> get32 m (bucket_pos k i) = bucket_of k h i;
  sy_mapped : forall i, 0 <= i <= MAXSERVERID -> u32 (get32 m (mapped_pos i)) = mapped_addr h i;
  sy_sit : get32 m sit_pos = SIT h
}.

(** What of the header is on file beside its first words. *)
Definition tables_of (h : vlheader) := (VolnameHash h, VolidHash h, IpMappedAddr h, SIT h).

(** A database no call fails on, with its header on file and its pieces. *)
Record good (T : list (Z * Z)) (s : st) : Prop := {
  g_io : io s = [];
  g_bytes : byte_file (file s);
  g_tiled : tiled HEADERSIZE T (eofPtr (cheader s));
  g_eof : eofPtr (cheader s) <= INT_MAX;
  g_total : length (totalEntries (cheader s)) = 3%nat;
  g_synced : synced (cheader s) (file s)
}.

Definition ent (s : st) (x : Z) : nvlentry := entry_new (file s) x.

(** The file after a write, and the header with its place. *)
Definition wrote (a : Z) (b : list Z) (s : st) : st := St (cheader s) (put (file s) a b) (io s).
Definition rehead (h : vlheader) (a : Z) (b : list Z) (s : st) : st := St h (put (file s) a b) (io s).

Lemma vl_block_range T s x : good T s -> piece T x -> HEADERSIZE <= x /\ x + 148 <= eofPtr (cheader s).
Proof. intros HG [n Hx]. pose proof (tiled_range _ _ _ _ _ (g_tiled _ _ HG) Hx). lia. Qed.

Lemma vl_block_int T s x : good T s -> piece T x -> int32 x.
Proof.
  intros HG Hx. pose proof (vl_block_range T s x HG Hx). pose proof (g_eof _ _ HG).
  assert (0 <= HEADERSIZE) by done. unfold int32, INT_MIN. lia.
Qed.

Lemma vl_block_nonzero T s x : good T s -> piece T x -> x <> 0.
Proof. intros HG Hx ->. pose proof (vl_block_range T s 0 HG Hx). assert (0 < HEADERSIZE) by done. lia. Qed.

Lemma vl_blocks_apart T s x y : good T s -> piece T x -> piece T y -> x <> y -> x + 148 <= y \/ y + 148 <= x.
Proof.
  intros HG [n Hx] [k Hy] Hne. destruct (tiled_apart _ _ _ _ _ _ _ (g_tiled _ _ HG) Hx Hy Hne);
    pose proof (tiled_range _ _ _ _ _ (g_tiled _ _ HG) Hx); pose proof (tiled_range _ _ _ _ _ (g_tiled _ _ HG) Hy); lia.
Qed.

Lemma vl_ent_canonical T s x : good T s -> canonical (ent s x).
Proof. intros HG. apply canonical_entry, HG. Qed.

Lemma mapped_pos_range i : 0 <= i <= MAXSERVERID -> 40 <= mapped_pos i /\ mapped_pos i + 4 <= 1060.
Proof. unfold mapped_pos, MAXSERVERID, VITALSIZE. lia. Qed.

Lemma synced_far h m a l : synced h m -> HEADERSIZE <= a -> synced h (put m a l).
Proof.
  intros [H1 H2 H3 H4] Ha. assert (E : HEADERSIZE = 132120) by done. assert (Es : sit_pos = 132116) by done. split.
  - rewrite <- H1. apply bytes_ext. intros x Hx. apply byte_put_ne. lia.
  - intros k i Hk Hi. rewrite <- H2 by done. apply get32_ext. intros x Hx. apply byte_put_ne.
    pose proof (bucket_pos_range k i Hk Hi). lia.
  - intros i Hi. rewrite <- H3 by done. f_equal. apply get32_ext. intros x Hx. apply byte_put_ne.
    pose proof (mapped_pos_range i Hi). lia.
  - rewrite <- H4. apply get32_ext. intros x Hx. apply byte_put_ne. lia.
Qed.

Lemma vl_wrote_good T s a l : good T s -> HEADERSIZE <= a -> good T (wrote a l s).
Proof.
  intros [G1 G2 G3 G4 G5 G6] Ha. split; cbn [cheader file io wrote]; try done; [by apply byte_file_put | by apply synced_far].
Qed.

Lemma bucket_good T s k i v : good T s -> (k < 4)%nat -> in_table i -> int32 v ->
  good T (rehead (set_bucket k i v (cheader s)) (bucket_pos k i) (be_bytes v) s).
Proof.
  intros [G1 G2 G3 G4 G5 [S1 S2 S3 S4]] Hk Hi Hv. pose proof (bucket_pos_range k i Hk Hi) as Hp.
  assert (Es : sit_pos = 132116) by done. assert (Eh : HEADERSIZE = 132120) by done.
  assert (Em : forall b, mapped_addr (set_bucket k i v (cheader s)) b = mapped_addr (cheader s) b)
    by (intros b; unfold set_bucket; by destruct (k =? 3)%nat).
  assert (ES : SIT (set_bucket k i v (cheader s)) = SIT (cheader s)) by (unfold set_bucket; by destruct (k =? 3)%nat).
  assert (Ev : vital (set_bucket k i v (cheader s)) = vital (cheader s)) by (unfold set_bucket; by destruct (k =? 3)%nat).
  assert (Ee : eofPtr (set_bucket k i v (cheader s)) = eofPtr (cheader s)) by (unfold set_bucket; by destruct (k =? 3)%nat).
  split; cbn [cheader file io rehead]; try done; [by apply byte_file_put | by rewrite Ee | by rewrite Ee | |].
  - unfold set_bucket. by destruct (k =? 3)%nat.
  - split.
    + rewrite Ev, <- S1. apply bytes_ext. intros x Hx. apply byte_put_ne. lia.
    + intros j b Hj Hb. rewrite bucket_set by done. case_decide as E.
      * destruct E as [-> ->]. rewrite get32_put. apply s32_small. exact Hv.
      * rewrite <- S2 by done. apply get32_ext. intros x Hx. apply byte_put_ne. rewrite length_be_bytes.
        destruct (bucket_pos_apart j b k i Hj Hk Hb Hi E); lia.
    + intros b Hb. rewrite Em, <- S3 by done. f_equal. apply get32_ext. intros x Hx. apply byte_put_ne.
      rewrite length_be_bytes. pose proof (mapped_pos_range b Hb). lia.
    + rewrite ES, <- S4. apply get32_ext. intros x Hx. apply byte_put_ne. rewrite length_be_bytes. lia.
Qed.

Lemma length_vital h : length (totalEntries h) = 3%nat -> length (vital h) = 40%nat.
Proof. intros H. unfold vital. rewrite length_be_words, length_app, H. done. Qed.

Lemma vital_good T T' s h : good T s -> tiled HEADERSIZE T' (eofPtr h) -> eofPtr h <= INT_MAX ->
  length (totalEntries h) = 3%nat -> tables_of h = tables_of (cheader s) -> good T' (rehead h 0 (vital h) s).
Proof.
  intros [G1 G2 G3 G4 G5 [S1 S2 S3 S4]] Ht He Hl Et. injection Et as En Ei Em Es. split; cbn [cheader file io rehead]; try done; [by apply byte_file_put |].
  pose proof (length_vital h Hl) as HL. split.
  - rewrite <- HL. apply bytes_put, be_words_range.
  - intros k i Hk Hi. assert (E : bucket_of k h i = bucket_of k (cheader s) i).
    { unfold bucket_of, name_bucket, id_bucket. by rewrite En, Ei. }
    rewrite E, <- S2 by done. apply get32_ext. intros x Hx. apply byte_put_ne. rewrite HL.
    pose proof (bucket_pos_range k i Hk Hi). lia.
  - intros i Hi. unfold mapped_addr. rewrite Em. fold (mapped_addr (cheader s) i). rewrite <- S3 by done. f_equal.
    apply get32_ext. intros x Hx. apply byte_put_ne. rewrite HL. pose proof (mapped_pos_range i Hi). lia.
  - rewrite Es, <- S4. apply get32_ext. intros x Hx. apply byte_put_ne. rewrite HL. assert (E : sit_pos = 132116) by done. lia.
Qed.

(** What the entries become. *)
Lemma vl_ent_apart s a l y : a + Z.of_nat (length l) <= y \/ y + 148 <= a -> forall h, ent (rehead h a l s) y = ent s y.
Proof. intros H h. apply entry_ext. intros x Hx. cbn [file rehead]. apply byte_put_ne. lia. Qed.

Lemma ent_bucket T s k i v y h : good T s -> (k < 4)%nat -> in_table i -> piece T y ->
  ent (rehead h (bucket_pos k i) (be_bytes v) s) y = ent s y.
Proof.
  intros HG Hk Hi Hy. apply vl_ent_apart. rewrite length_be_bytes. pose proof (bucket_pos_range k i Hk Hi).
  pose proof (vl_block_range T s y HG Hy). lia.
Qed.

Lemma ent_vital s h y : length (totalEntries h) = 3%nat -> HEADERSIZE <= y -> forall h', ent (rehead h' 0 (vital h) s) y = ent s y.
Proof. intros Hl Hy h'. apply vl_ent_apart. rewrite length_vital by done. assert (40 <= HEADERSIZE) by done. lia. Qed.

Lemma ent_wrote T s x e y : good T s -> piece T x -> piece T y -> canonical e ->
  ent (wrote x (image_new e) s) y = if decide (y = x) then e else ent s y.
Proof.
  intros HG Hx Hy He. case_decide as E; [subst; by apply entry_put |].
  apply (vl_ent_apart s x (image_new e) y) with (h := cheader s). rewrite length_image_new by done.
  destruct (vl_blocks_apart T s x y HG Hx Hy); lia.
Qed.

Lemma ent_word T s x k v y : good T s -> piece T x -> piece T y -> (k < 11)%nat -> int32 v ->
  ent (wrote (x + 4 * Z.of_nat k) (be_bytes v) s) y = if decide (y = x) then set_word k v (ent s y) else ent s y.
Proof.
  intros HG Hx Hy Hk Hv. case_decide as E; [subst; by apply entry_word_put |].
  apply (vl_ent_apart s _ (be_bytes v) y) with (h := cheader s). rewrite length_be_bytes.
  destruct (vl_blocks_apart T s x y HG Hx Hy); lia.
Qed.

(** *** The calls *)

Lemma read_ok s x : io s = [] -> vlentryread 13 x s = Some ((0, ent s x), s).
Proof. intros H. unfold vlentryread, mbind_. by rewrite ubik_calls_ok. Qed.

Lemma write_ok s a b : io s = [] -> vlwrite a b s = Some (0, wrote a b s).
Proof. intros H. unfold vlwrite, mbind_. by rewrite ubik_calls_ok. Qed.

Lemma write_vital_ok s : io s = [] -> write_vital_vlheader s = Some (0, rehead (cheader s) 0 (vital (cheader s)) s).
Proof. intros H. unfold write_vital_vlheader, mbind_, get_header. by rewrite write_ok. Qed.

Lemma index_piece T s x : good T s -> piece T x -> index_OK (cheader s) x = true.
Proof.
  intros HG Hx. pose proof (vl_block_range T s x HG Hx). pose proof (g_eof _ _ HG). unfold index_OK, INT_MAX in *.
  assert (0 < HEADERSIZE) by done. rewrite (proj2 (Z.ltb_ge x _)) by lia. rewrite andb_false_r. cbn [negb andb].
  rewrite !u32_small by lia. apply Z.ltb_lt. lia.
Qed.

(** ** Chains as indices

    What an entry is found under in the chains of a kind, whether it is in them,
    and in which. *)
Definition key (k : nat) (e : nvlentry) : list Z := if (k =? 3)%nat then cstring (name e) else [word k e].
Definition keyed (k : nat) (e : nvlentry) : bool := (k =? 3)%nat || negb (word k e =? 0).
Definition hash (k : nat) (e : nvlentry) : Z :=
  if (k =? 3)%nat then NameHash (cstring (name e)) else Z.rem (Z.abs (word k e)) HASHSIZE.

Lemma rem_in_table v : in_table (Z.rem (Z.abs v) HASHSIZE).
Proof. unfold in_table, HASHSIZE. rewrite Z.rem_mod_nonneg by lia. apply Z.mod_pos_bound. lia. Qed.

Lemma name_in_table l : in_table (NameHash l).
Proof. apply Z.mod_pos_bound. done. Qed.

Lemma hash_in_table k e : in_table (hash k e).
Proof. unfold hash. destruct (k =? 3)%nat; [apply name_in_table | apply rem_in_table]. Qed.

(** The pointers are no part of it. *)
Lemma vl_key_pointer k j v e : (k < 4)%nat -> canonical e ->
  key k (set_word (ptr j) v e) = key k e /\ keyed k (set_word (ptr j) v e) = keyed k e
  /\ hash k (set_word (ptr j) v e) = hash k e.
Proof.
  intros Hk He. unfold key, keyed, hash. destruct (Nat.eqb_spec k 3); [done |].
  assert (E : word k (set_word (ptr j) v e) = word k e).
  { unfold word, set_word. cbn [words]. rewrite !nth_lookup. rewrite list_lookup_insert_ne; [done | unfold ptr; lia]. }
  by rewrite E.
Qed.

(** The chains of a kind hold the blocks of [D] that have a key of the kind. *)
Record chain (k : nat) (E : Z -> nvlentry) (h : Z -> Z) (D : gset Z) (L : Z -> list Z) : Prop := {
  ch_linked : forall i, in_table i -> linked (fun x => word (ptr k) (E x)) (h i) (L i);
  ch_nodup : forall i, in_table i -> NoDup (L i);
  ch_elem : forall i x, in_table i -> x ∈ L i <-> x ∈ D /\ keyed k (E x) = true /\ hash k (E x) = i
}.

(** Two entries that the chains of the kind do not tell apart. *)
Definition alike (k : nat) (e e' : nvlentry) : Prop :=
  keyed k e' = keyed k e /\ hash k e' = hash k e /\ word (ptr k) e' = word (ptr k) e.

Lemma chain_frame k E E' h h' D L : chain k E h D L -> (forall x, x ∈ D -> alike k (E x) (E' x)) ->
  (forall i, in_table i -> h' i = h i) -> chain k E' h' D L.
Proof.
  intros [C1 C2 C3] HE Hh. split; [| done |].
  - intros i Hi. rewrite Hh by done. apply (links_frame _ _ _ _ (C1 i Hi)). intros x Hx. apply HE. by apply (C3 i).
  - intros i x Hi. rewrite C3 by done. split; intros (HD & H1 & H2); destruct (HE x HD) as (E1 & E2 & _);
      rewrite E1, E2 in *; done.
Qed.

Lemma chain_add k E E' h h' D L x : chain k E h D L -> x ∉ D -> (forall y, y ∈ D -> alike k (E y) (E' y)) ->
  keyed k (E' x) = true -> word (ptr k) (E' x) = h (hash k (E' x)) ->
  (forall i, in_table i -> h' i = if decide (i = hash k (E' x)) then x else h i) ->
  chain k E' h' ({[x]} ∪ D) (fun i => if decide (i = hash k (E' x)) then x :: L i else L i).
Proof.
  intros HC Hx HE Hk Hp Hh. destruct (chain_frame k E E' h h D L HC HE ltac:(done)) as [C1 C2 C3].
  assert (Hn : forall i, in_table i -> x ∉ L i) by (intros i Hi Hin; apply Hx; by apply (C3 i)). split.
  - intros i Hi. rewrite Hh by done. case_decide as Ei; [| by apply C1]. subst i. cbn [linked]. split; [done |].
    rewrite Hp. by apply C1.
  - intros i Hi. case_decide; [constructor; [by apply Hn | by apply C2] | by apply C2].
  - intros i y Hi. rewrite elem_of_union, elem_of_singleton. destruct (decide (y = x)) as [-> | Hy].
    + case_decide as Ei; [subst i; rewrite elem_of_cons; tauto |].
      split; [by intros ?%(Hn i) | intros (_ & _ & Eh); by destruct Ei].
    + assert (Hcons : y ∈ (if decide (i = hash k (E' x)) then x :: L i else L i) <-> y ∈ L i).
      { case_decide; [rewrite elem_of_cons; tauto | done]. }
      rewrite Hcons, C3 by done. tauto.
Qed.

Lemma chain_skip k E E' h D L x : chain k E h D L -> (forall y, y ∈ D -> alike k (E y) (E' y)) -> x ∉ D ->
  keyed k (E' x) = false -> chain k E' h ({[x]} ∪ D) L.
Proof.
  intros HC HE Hx Hk. destruct (chain_frame k E E' h h D L HC HE ltac:(done)) as [C1 C2 C3]. split; [done | done |].
  intros i y Hi. rewrite C3, elem_of_union, elem_of_singleton by done. split; [tauto |].
  intros ([-> | Hy] & H1 & H2); [congruence | done].
Qed.

(** Without [x], whose chain is [l1], [x], [l2]. *)
Lemma chain_drop k E E' h h' D L x l1 l2 : chain k E h D L -> x ∈ D -> L (hash k (E x)) = l1 ++ x :: l2 ->
  (forall y, y ∈ D -> keyed k (E' y) = keyed k (E y) /\ hash k (E' y) = hash k (E y)
     /\ word (ptr k) (E' y) = if decide (last l1 = Some y) then word (ptr k) (E x) else word (ptr k) (E y)) ->
  (forall i, in_table i -> h' i = if decide (i = hash k (E x) /\ l1 = []) then word (ptr k) (E x) else h i) ->
  chain k E' h' (D ∖ {[x]}) (fun i => if decide (i = hash k (E x)) then l1 ++ l2 else L i).
Proof.
  intros [C1 C2 C3] Hx Hl HE Hh. pose proof (hash_in_table k (E x)) as Ht. set (i0 := hash k (E x)) in *.
  pose proof (C2 i0 Ht) as HN. rewrite Hl in HN.
  assert (Hin : forall y, y ∈ l1 ++ l2 <-> y ∈ L i0 /\ y <> x).
  { intros y. rewrite Hl. rewrite <- Permutation_middle in HN. apply NoDup_cons in HN as [HN _].
    rewrite !elem_of_app in *. rewrite elem_of_cons. split; [| tauto].
    intros Hy. split; [tauto |]. intros ->. tauto. }
  split.
  - intros i Hi. case_decide as Ei.
    + subst i. apply (linked_drop (fun y => word (ptr k) (E y)) _ x l2 l1 (h i0)).
      * rewrite <- Hl. by apply C1.
      * done.
      * intros y Hy. apply HE. apply Hin in Hy as [Hy _]. by apply (C3 i0).
      * rewrite Hh by done. by repeat case_decide; naive_solver.
    + rewrite Hh, decide_False by naive_solver. apply (links_frame _ _ _ _ (C1 i Hi)). intros y Hy.
      apply C3 in Hy as (HD & _ & Ey); [| done]. destruct (HE y HD) as (_ & _ & ->). rewrite decide_False; [done |].
      intros El%last_Some_elem_of. assert (Hy : y ∈ l1 ++ l2) by (apply elem_of_app; by left).
      apply Hin in Hy as [Hy _]. apply C3 in Hy; [| done]. naive_solver.
  - intros i Hi. case_decide; [| by apply C2]. rewrite <- Permutation_middle in HN. by apply NoDup_cons in HN as [_ HN].
  - intros i y Hi. rewrite elem_of_difference, elem_of_singleton.
    assert (HLi : y ∈ (if decide (i = i0) then l1 ++ l2 else L i) <-> y ∈ L i /\ y <> x).
    { case_decide as Ei; [subst i; apply Hin |]. split; [| tauto]. intros Hy. split; [done |]. intros ->.
      apply C3 in Hy; [| done]. naive_solver. }
    rewrite HLi, C3 by done. split.
    + intros [(HD & H1 & H2) Hne]. destruct (HE y HD) as (-> & -> & _). done.
    + intros ([HD Hne] & H1 & H2). destruct (HE y HD) as (E1 & E2 & _). rewrite E1, E2 in *. done.
Qed.
