(* ===== verification/VlOps.v ===== *)
(** The volume location database, the operations: finding, threading and
    unthreading entries, blocks, and the sequence of entries. *)
From S2P Require Import Prelude Bytes UbikFile VlDb VlSpec.

#[local] Open Scope ubik_scope.
#[local] Hint Resolve block_piece : core.

(** ** Walks *)

Section walk.
Context (k : nat).

Lemma vl_find_chain_ok (same : nvlentry -> bool) s l : io s = [] -> 0 ∉ l -> forall h fuel,
  linked (fun x => word k (ent s x)) h l -> (length l < fuel)%nat ->
  exists x e, find_chain 13 same (word k) h fuel s = Some ((x, e, 0), s)
    /\ (x = 0 /\ (forall y, y ∈ l -> same (ent s y) = false) \/ x ∈ l /\ e = ent s x /\ same e = true).
Proof.
  intros Hio. induction l as [| x l IH]; intros H0 h fuel Hl Hf; (destruct fuel as [| fuel]; [cbn in Hf; lia |]);
    cbn [find_chain linked] in *.
  - rewrite Hl. exists 0, zero_entry. split; [done |]. left. split; [done |]. intros y Hy. by apply not_elem_of_nil in Hy.
  - destruct Hl as [-> Hl]. apply not_elem_of_cons in H0 as [Hx0 H0]. unfold NULLO.
    rewrite (proj2 (Z.eqb_neq x 0)) by done. unfold mbind_. rewrite read_ok by done. cbn [Z.eqb negb].
    destruct (same (ent s x)) eqn:E.
    + exists x, (ent s x). split; [done |]. right. split; [left | done].
    + destruct (IH H0 _ fuel Hl ltac:(cbn in Hf; lia)) as (y & e & Hy & HR). exists y, e. split; [done |].
      destruct HR as [[-> HR] | (Hin & -> & HR)]; [left | right; split; [by right | done]].
      split; [done |]. intros z [-> | Hz]%elem_of_cons; auto.
Qed.

(** The walk of a removal comes to the block before [x]. *)
Lemma before_chain_ok s x l2 l1 : io s = [] -> forall prev h fuel, x ∉ l1 -> 0 ∉ l1 -> x <> 0 ->
  linked (fun y => word k (ent s y)) h (l1 ++ x :: l2) -> (length l1 < fuel)%nat ->
  before_chain 13 (word k) x h prev fuel s = Some ((0, default prev (last l1)), s).
Proof.
  intros Hio. induction l1 as [| a l1 IH]; intros prev h fuel Hx H0 Hx0 Hl Hf; (destruct fuel as [| fuel]; [cbn in Hf; lia |]);
    cbn [before_chain app linked] in *; destruct Hl as [-> Hl].
  - by rewrite Z.eqb_refl.
  - apply not_elem_of_cons in Hx as [Hxa Hx], H0 as [Ha0 H0]. rewrite (proj2 (Z.eqb_neq a x)) by done. unfold mbind_.
    rewrite read_ok by done. cbn [Z.eqb negb]. unfold NULLO.
    assert (Hnz : word k (ent s a) <> 0).
    { destruct l1 as [| b l1]; cbn [app linked] in Hl; destruct Hl as [-> _]; [done | set_solver]. }
    rewrite (proj2 (Z.eqb_neq _ 0)) by done. rewrite (IH a _ fuel) by (done || (cbn in Hf; lia)).
    rewrite last_cons. by destruct (last l1).
Qed.
End walk.

(** ** The chains of a database *)

Definition indexed (k : nat) (s : st) (D : gset Z) : Prop := exists L, chain k (ent s) (bucket_of k (cheader s)) D L.

Definition blocks (T : list (Z * Z)) (D : gset Z) : Prop := forall x, x ∈ D -> block T x.

Section chains.
Context (T : list (Z * Z)).

Lemma vl_chain_short k s D L i : good T s -> blocks T D -> chain k (ent s) (bucket_of k (cheader s)) D L -> in_table i ->
  (length (L i) < chain_fuel (cheader s))%nat /\ 0 ∉ L i.
Proof.
  intros HG HD HC Hi. assert (Hb : forall x, x ∈ L i -> block T x) by (intros x Hx; apply HD; by apply (ch_elem _ _ _ _ _ HC i)).
  split.
  - unfold chain_fuel. pose proof (vl_blocks_length T _ _ (L i) (g_tiled _ _ HG) (ch_nodup _ _ _ _ _ HC i Hi) Hb). lia.
  - intros Hin. by apply (vl_block_nonzero T s 0 HG); [apply block_piece, Hb |].
Qed.

(** Finding in one bucket, whatever is looked for. *)
Lemma find_bucket k s D i same : good T s -> blocks T D -> indexed k s D -> in_table i ->
  exists x e, find_chain 13 same (word (ptr k)) (bucket_of k (cheader s) i) (chain_fuel (cheader s)) s = Some ((x, e, 0), s)
    /\ (x = 0 /\ (forall y, y ∈ D -> keyed k (ent s y) = true -> hash k (ent s y) = i -> same (ent s y) = false)
       \/ x ∈ D /\ e = ent s x /\ same e = true).
Proof.
  intros HG HD (L & HC) Hi. destruct (vl_chain_short k s D L i HG HD HC Hi) as [Hf H0].
  destruct (vl_find_chain_ok (ptr k) same s (L i) (g_io _ _ HG) H0 _ _ (ch_linked _ _ _ _ _ HC i Hi) Hf) as (x & e & Hx & HR).
  exists x, e. split; [done |]. destruct HR as [[-> HR] | (Hin & HR)].
  - left. split; [done |]. intros y Hy H1 H2. apply HR. by apply (ch_elem _ _ _ _ _ HC i).
  - right. split; [by apply (ch_elem _ _ _ _ _ HC i) | done].
Qed.

(** The block of an identifier. *)
Definition found_id (s : st) (D : gset Z) (t : nat) (volid : Z) (x : Z) (e : nvlentry) : Prop :=
  x = 0 /\ (forall y, y ∈ D -> word t (ent s y) <> volid) \/ x ∈ D /\ e = ent s x /\ word t e = volid.

Lemma find_volid_ok s D t volid : good T s -> blocks T D -> indexed t s D -> (t < 3)%nat -> volid <> 0 ->
  exists x e, find_volid 13 volid (Z.of_nat t) (Z.rem (Z.abs volid) HASHSIZE) s = Some ((x, e, 0), s)
    /\ found_id s D t volid x e.
Proof.
  intros HG HD HI Ht Hv. pose proof (rem_in_table volid) as Hi.
  destruct (find_bucket t s D _ (has_volid volid (Z.of_nat t)) HG HD HI Hi) as (x & e & Hx & HR).
  exists x, e. unfold find_volid, mbind_, get_header, next_id. rewrite Nat2Z.id. split.
  - rewrite <- Hx. unfold bucket_of, ptr. by rewrite (proj2 (Nat.eqb_neq t 3)) by lia.
  - unfold found_id. destruct HR as [[-> HR] | (H1 & H2 & H3)].
    + left. split; [done |]. intros y Hy E. specialize (HR y Hy). unfold keyed, hash, has_volid, volumeId in HR.
      rewrite Nat2Z.id, (proj2 (Nat.eqb_neq t 3)), E, Z.eqb_refl, (proj2 (Z.eqb_neq volid 0)) in HR by (done || lia).
      by specialize (HR eq_refl eq_refl).
    + right. split; [done | split; [done |]]. unfold has_volid, volumeId in H3. rewrite Nat2Z.id in H3.
      by apply Z.eqb_eq in H3.
Qed.

Lemma IDHash_ok v (s : st) : v <> INT_MIN -> IDHash v s = Some (Z.rem (Z.abs v) HASHSIZE, s).
Proof. intros H. unfold IDHash. by rewrite (proj2 (Z.eqb_neq v INT_MIN)). Qed.

Lemma FindByID_ok s D t volid : good T s -> blocks T D -> indexed t s D -> (t < 3)%nat -> volid <> 0 -> volid <> INT_MIN ->
  exists x e, FindByID 13 volid (Z.of_nat t) s = Some ((x, e, 0), s) /\ found_id s D t volid x e.
Proof.
  intros HG HD HI Ht Hv Hm. destruct (find_volid_ok s D t volid HG HD HI Ht Hv) as (x & e & Hx & HR). exists x, e.
  split; [| done]. unfold FindByID, mbind_. rewrite IDHash_ok by done.
  rewrite (proj2 (Z.eqb_neq (Z.of_nat t) (-1))) by lia. unfold MAXTYPES.
  rewrite (proj2 (Z.leb_le 0 _)), (proj2 (Z.ltb_lt _ 3)) by lia. done.
Qed.
(** The block of a name without its suffix. *)
Definition found_name (s : st) (D : gset Z) (volname : list Z) (x : Z) (e : nvlentry) : Prop :=
  x = 0 /\ (forall y, y ∈ D -> cstring (name (ent s y)) <> strip volname)
  \/ x ∈ D /\ e = ent s x /\ cstring (name e) = strip volname.

Lemma FindByName_ok s D volname : good T s -> blocks T D -> indexed 3 s D -> (length volname < 65)%nat ->
  exists x e, FindByName 13 volname s = Some ((x, e, 0), s) /\ found_name s D volname x e.
Proof.
  intros HG HD HI Hl. unfold FindByName. rewrite (proj2 (Nat.leb_gt _ _)) by (unfold VL_MAXNAMELEN; lia).
  destruct (find_bucket 3 s D (NameHash (strip volname)) (has_name (strip volname)) HG HD HI (name_in_table _)) as (x & e & Hx & HR).
  exists x, e. split; [exact Hx |]. destruct HR as [[-> HR] | (H1 & H2 & H3)].
  - left. split; [done |]. intros y Hy E. assert (Hh : hash 3 (ent s y) = NameHash (strip volname)) by (unfold hash; cbn [Nat.eqb]; by rewrite E).
    specialize (HR y Hy eq_refl Hh). unfold has_name in HR. apply bool_decide_eq_false in HR. by apply HR.
  - right. split; [done | split; [done |]]. unfold has_name in H3. by apply bool_decide_eq_true in H3.
Qed.

(** ** Threading

    An entry without its pointers. *)
Definition plain (e : nvlentry) : nvlentry :=
  NvlEntry (take 7 (words e)) (name e) (serverNumber e) (serverPartition e) (serverFlags e).

Lemma plain_pointer k v e : plain (set_word (ptr k) v e) = plain e.
Proof. unfold plain, set_word. cbn [words name serverNumber serverPartition serverFlags]. by rewrite take_insert_ge by (unfold ptr; lia). Qed.

Lemma plain_word e e' j : plain e = plain e' -> (j < 7)%nat -> word j e = word j e'.
Proof.
  intros E Hj. injection E as E _. unfold word. rewrite !nth_lookup. rewrite <- (lookup_take_lt (words e) 7), E by done.
  by rewrite lookup_take_lt.
Qed.

Lemma plain_key e e' k : plain e = plain e' -> (k < 4)%nat -> key k e = key k e' /\ keyed k e = keyed k e' /\ hash k e = hash k e'.
Proof.
  intros E Hk. unfold key, keyed, hash. destruct (Nat.eqb_spec k 3); [injection E as _ -> _ _ _; done |].
  by rewrite (plain_word e e' k E ltac:(lia)).
Qed.

(** The header but for the tables. *)
Definition rest (h : vlheader) : vlheader :=
  VlHeader (vldbversion h) (headersize h) (freePtr h) (eofPtr h) (allocs h) (frees h) (MaxVolumeId h) (totalEntries h)
    (IpMappedAddr h) ∅ ∅ (SIT h) (HostAddress h) (ex_addr h).

Lemma rest_bucket k i v h : rest (set_bucket k i v h) = rest h.
Proof. unfold set_bucket. by destruct (k =? 3)%nat. Qed.

(** After the first [n] kinds: the buckets are on file, the entry is still in
    memory. *)
Record threading (s0 : st) (x : Z) (e0 : nvlentry) (n : nat) (s : st) (e : nvlentry) : Prop := {
  th_good : good T s;
  th_rest : rest (cheader s) = rest (cheader s0);
  th_ent : forall y, piece T y -> ent s y = ent s0 y;
  th_canonical : canonical e;
  th_plain : plain e = plain e0;
  th_done : forall k, (k < n)%nat -> keyed k e = true -> word (ptr k) e = bucket_of k (cheader s0) (hash k e);
  th_bucket : forall k i, (k < 4)%nat -> in_table i -> bucket_of k (cheader s) i
    = if decide ((k < n)%nat /\ keyed k e = true /\ i = hash k e) then x else bucket_of k (cheader s0) i
}.

Lemma threading_start s0 x e0 : good T s0 -> canonical e0 -> threading s0 x e0 0 s0 e0.
Proof. intros HG He. split; try done. intros k Hk. lia. Qed.

(** The step of a kind: the bucket of the entry leads to it, and it to what the
    bucket led to. *)
Definition hashed (k : nat) (x : Z) (e : nvlentry) (s : st) : st :=
  rehead (set_bucket k (hash k e) x (cheader s)) (bucket_pos k (hash k e)) (be_bytes x) s.
Definition hashed_entry (k : nat) (e : nvlentry) (s : st) : nvlentry :=
  set_word (ptr k) (bucket_of k (cheader s) (hash k e)) e.

Lemma threading_step s0 x e0 n s e : threading s0 x e0 n s e -> (n < 4)%nat -> int32 x -> keyed n e = true ->
  (forall i, in_table i -> int32 (bucket_of n (cheader s0) i)) ->
  threading s0 x e0 (S n) (hashed n x e s) (hashed_entry n e s).
Proof.
  intros [G1 G2 G3 G4 G5 G6 G7] Hn Hx Hk Hint. pose proof (hash_in_table n e) as Ht.
  assert (Eb : bucket_of n (cheader s) (hash n e) = bucket_of n (cheader s0) (hash n e)).
  { rewrite G7 by done. rewrite decide_False; [done | lia]. }
  assert (Hlike : forall k, (k < 4)%nat -> keyed k (hashed_entry n e s) = keyed k e /\ hash k (hashed_entry n e s) = hash k e)
    by (intros k Hk4; by apply vl_key_pointer).
  unfold hashed, hashed_entry in *. split.
  - by apply bucket_good.
  - cbn [cheader rehead]. by rewrite rest_bucket.
  - intros y Hy. rewrite (ent_bucket T s) by done. by apply G3.
  - apply vl_canonical_set; [done |]. rewrite Eb. by apply Hint.
  - by rewrite plain_pointer.
  - intros k Hk4. destruct (Hlike k ltac:(lia)) as [-> ->]. intros Hke. rewrite vl_word_set by (done || unfold ptr; lia).
    destruct (decide (k = n)) as [-> | Hne]; [by rewrite decide_True |]. rewrite decide_False by (unfold ptr; lia).
    apply G6; [lia | done].
  - intros k i Hk4 Hi. destruct (Hlike k Hk4) as [-> ->]. cbn [cheader rehead]. rewrite bucket_set by done.
    rewrite G7 by done. case_decide as E; [destruct E as [-> ->]; rewrite decide_True; [done | split; [lia | done]] |].
    apply decide_ext. split; intros (H1 & H2 & H3); (split; [| done]); [lia |].
    assert (k <> n) by (intros ->; by apply E). lia.
Qed.

Lemma threading_skip s0 x e0 n s e : threading s0 x e0 n s e -> keyed n e = false -> threading s0 x e0 (S n) s e.
Proof.
  intros [G1 G2 G3 G4 G5 G6 G7] Hk. split; try done.
  - intros k Hk4 Hke. destruct (decide (k = n)) as [-> | Hne]; [congruence |]. apply G6; [lia | done].
  - intros k i Hk4 Hi. rewrite G7 by done. apply decide_ext. split; intros (H1 & H2 & H3); (split; [| done]); [lia |].
    assert (k <> n) by (intros ->; congruence). lia.
Qed.

(** The chains while an entry is threaded: those that are not yet done. *)
Lemma threading_indexed s0 x e0 n s e D k : threading s0 x e0 n s e -> blocks T D -> (n <= k < 4)%nat ->
  indexed k s0 D -> indexed k s D.
Proof.
  intros [G1 G2 G3 G4 G5 G6 G7] HD Hk [L HC]. exists L. apply (chain_frame k (ent s0) _ (bucket_of k (cheader s0)) _ D L HC).
  - intros y Hy. by rewrite G3 by (by apply block_piece, HD).
  - intros i Hi. rewrite G7 by (done || lia). rewrite decide_False; [done | lia].
Qed.

(** The entry written, the chains of all kinds have it. *)
Lemma threading_end s0 x e0 s e s' D k : threading s0 x e0 4 s e -> blocks T D -> x ∉ D -> (k < 4)%nat -> indexed k s0 D ->
  (forall y, y ∈ D -> ent s' y = ent s y) -> ent s' x = e -> (forall i, bucket_of k (cheader s') i = bucket_of k (cheader s) i) ->
  indexed k s' ({[x]} ∪ D).
Proof.
  intros [G1 G2 G3 G4 G5 G6 G7] HD Hx Hk [L HC] He Hex Hb.
  assert (Hal : forall y, y ∈ D -> alike k (ent s0 y) (ent s' y)).
  { intros y Hy. rewrite He, G3 by (by apply block_piece, HD || done). done. }
  destruct (keyed k e) eqn:Ek.
  - eexists. apply (chain_add k (ent s0) _ (bucket_of k (cheader s0)) _ D L x HC); rewrite ?Hex; try done.
    + by apply G6.
    + intros i Hi. rewrite Hb, G7 by done. apply decide_ext. split; [by intros (_ & _ & ?) | intros ->; split; [lia | done]].
  - exists L. apply (chain_frame k (ent s') _ (bucket_of k (cheader s0))); [| done |].
    + apply (chain_skip k (ent s0) _ _ D L x); try done. by rewrite Hex.
    + intros i Hi. rewrite Hb, G7 by done. rewrite decide_False; [done | intros (_ & ? & _); congruence].
Qed.
Lemma bucket_int s k i : good T s -> (k < 4)%nat -> in_table i -> int32 (bucket_of k (cheader s) i).
Proof. intros HG Hk Hi. rewrite <- (sy_bucket _ _ (g_synced _ _ HG)) by done. apply s32_range. Qed.

(** No entry of the database has the key. *)
Definition fresh (s : st) (D : gset Z) (e : nvlentry) (k : nat) : Prop :=
  forall y, y ∈ D -> keyed k (ent s y) = true -> key k (ent s y) <> key k e.

Lemma HashVolid_step s0 x e0 n s e D : threading s0 x e0 n s e -> blocks T D -> (n < 3)%nat -> indexed n s0 D ->
  keyed n e = true -> word n e <> INT_MIN -> fresh s0 D e0 n ->
  HashVolid 13 (Z.of_nat n) x e s = Some ((0, hashed_entry n e s), hashed n x e s).
Proof.
  intros HT HD Hn HI Hk Hm Hf. pose proof (threading_indexed s0 x e0 n s e D n HT HD ltac:(lia) HI) as HI'.
  assert (Hn3 : (n =? 3)%nat = false) by by apply Nat.eqb_neq; lia.
  assert (Hw : word n e <> 0) by (unfold keyed in Hk; rewrite Hn3 in Hk; by apply Z.eqb_neq, negb_true_iff).
  unfold HashVolid, mbind_ at 1. unfold volumeId. rewrite !Nat2Z.id.
  destruct (FindByID_ok s D n (word n e) (th_good _ _ _ _ _ _ HT) HD HI' Hn Hw Hm) as (y & ey & -> & HR).
  cbn [fst]. destruct HR as [[-> _] | (Hy & -> & Ey)].
  2: { exfalso. rewrite (th_ent _ _ _ _ _ _ HT) in Ey by by apply block_piece, HD.
    apply (Hf y Hy); unfold keyed, key; rewrite Hn3, Ey; [by apply negb_true_iff, Z.eqb_neq |].
    by rewrite (plain_word e e0 n (th_plain _ _ _ _ _ _ HT)) by lia. }
  cbn [Z.eqb negb]. unfold mbind_. rewrite IDHash_ok by done. unfold get_header, set_header.
  rewrite write_ok by apply HT. cbn [Z.eqb negb]. unfold ret, hashed_entry, hashed, hash, ptr, next_id, bucket_of, set_bucket, bucket_pos.
  rewrite Hn3, Nat2Z.id. done.
Qed.

Lemma HashVolname_step s0 x e0 s e : threading s0 x e0 3 s e ->
  HashVolname x e s = Some ((0, hashed_entry 3 e s), hashed 3 x e s).
Proof.
  intros HT. unfold HashVolname, mbind_, get_header, set_header. rewrite write_ok by apply HT. done.
Qed.

(** One of the three identifiers, hashed if it is there. *)
Lemma hash_step s0 x e0 n s e D : threading s0 x e0 n s e -> blocks T D -> (n < 3)%nat -> indexed n s0 D -> int32 x ->
  good T s0 -> word n e0 <> INT_MIN -> fresh s0 D e0 n ->
  exists s' e', (if negb (volumeId (Z.of_nat n) e =? 0) then HashVolid 13 (Z.of_nat n) x e else ret (0, e)) s = Some ((0, e'), s')
    /\ threading s0 x e0 (S n) s' e'.
Proof.
  intros HT HD Hn HI Hx HG Hm Hf. assert (Hn3 : (n =? 3)%nat = false) by by apply Nat.eqb_neq; lia.
  assert (Ek : keyed n e = negb (volumeId (Z.of_nat n) e =? 0)) by (unfold keyed, volumeId; by rewrite Hn3, Nat2Z.id).
  rewrite <- Ek. destruct (keyed n e) eqn:E.
  - exists (hashed n x e s), (hashed_entry n e s). split.
    + apply (HashVolid_step s0 x e0 n s e D); try done. by rewrite (plain_word e e0 n (th_plain _ _ _ _ _ _ HT)) by lia.
    + apply threading_step; [done | lia | done | done |]. intros i Hi. apply bucket_int; [done | lia | done].
  - exists s, e. split; [done | by apply threading_skip].
Qed.

(** An entry of the database with the same key of a kind. *)
Definition clash (s : st) (D : gset Z) (e : nvlentry) (k : nat) : Prop :=
  exists y, y ∈ D /\ keyed k (ent s y) = true /\ key k (ent s y) = key k e.

(** The same step, when it is not known that the identifier is new. *)
Lemma hash_cases s0 x e0 n s e D : threading s0 x e0 n s e -> blocks T D -> (n < 3)%nat -> indexed n s0 D -> word n e0 <> INT_MIN ->
  fresh s0 D e0 n
  \/ clash s0 D e0 n
     /\ (if negb (volumeId (Z.of_nat n) e =? 0) then HashVolid 13 (Z.of_nat n) x e else ret (0, e)) s = Some ((VL_IDALREADYHASHED, e), s).
Proof.
  intros HT HD Hn HI Hm. assert (Hn3 : (n =? 3)%nat = false) by by apply Nat.eqb_neq; lia.
  pose proof (plain_word e e0 n (th_plain _ _ _ _ _ _ HT) ltac:(lia)) as Ew.
  pose proof (threading_indexed s0 x e0 n s e D n HT HD ltac:(lia) HI) as HI'.
  assert (Hent : forall y, y ∈ D -> ent s y = ent s0 y) by (intros y Hy; by apply HT, block_piece, HD).
  unfold volumeId. rewrite Nat2Z.id. destruct (Z.eqb_spec (word n e) 0) as [E0 | E0]; cbn [negb].
  - left. intros y Hy Hk Ek. unfold key, keyed in *. rewrite Hn3 in *. cbn [orb] in Hk. injection Ek as Ek.
    rewrite Ek, <- Ew, E0 in Hk. done.
  - destruct (FindByID_ok s D n (word n e) (th_good _ _ _ _ _ _ HT) HD HI' Hn E0 ltac:(by rewrite Ew)) as (y & ey & EF & [[-> HR] | (Hy & -> & Ey)]).
    + left. intros y Hy Hk Ek. unfold key in Ek. rewrite Hn3 in Ek. injection Ek as Ek. apply (HR y Hy).
      by rewrite Hent, Ek.
    + right. rewrite Hent in Ey by done. split.
      { exists y. split; [done |]. unfold keyed, key. rewrite Hn3. cbn [orb]. rewrite Ey, Ew.
        split; [by apply negb_true_iff, Z.eqb_neq; rewrite <- Ew | done]. }
      unfold HashVolid, mbind_ at 1, volumeId. rewrite !Nat2Z.id, EF. cbn [fst].
      by rewrite (proj2 (Z.eqb_neq y 0)) by (apply (vl_block_nonzero T s); [apply HT | apply block_piece, HD, Hy]).
Qed.

(** An identifier that the database has already is refused. *)
Lemma thread_clash s x e D : good T s -> blocks T D -> (forall k, (k < 4)%nat -> indexed k s D) -> block T x ->
  canonical e -> word 0 e <> 0 -> (forall k, (k < 3)%nat -> word k e <> INT_MIN) ->
  (forall k, (k < 3)%nat -> fresh s D e k)
  \/ (exists k, (k < 3)%nat /\ clash s D e k) /\ exists s', ThreadVLentry 13 x e s = Some (VL_IDALREADYHASHED, s') /\ io s' = [].
Proof.
  intros HG HD HI Hx He H0 Hm. pose proof (vl_block_int T s x HG (block_piece _ _ Hx)) as Hxi.
  pose proof (threading_start s x e HG He) as HT0.
  assert (H00 : negb (volumeId (Z.of_nat 0) e =? 0) = true) by (change (volumeId (Z.of_nat 0) e) with (word 0 e); by apply negb_true_iff, Z.eqb_neq).
  assert (Hbad : VL_IDALREADYHASHED =? 0 = false) by done.
  unfold ThreadVLentry, mbind_ at 1, get_header. rewrite (index_piece T s) by auto. cbn [negb].
  destruct (hash_cases s x e 0 s e D HT0 HD ltac:(lia) (HI 0%nat ltac:(lia)) (Hm 0%nat ltac:(lia))) as [F0 | [C0 E0]].
  2: { right. split; [exists 0%nat; split; [lia | done] |]. rewrite H00 in E0. exists s. split; [| apply HG].
    unfold mbind_ at 1. change RWVOL with (Z.of_nat 0). by rewrite E0. }
  destruct (hash_step s x e 0 s e D HT0 HD ltac:(lia) (HI 0%nat ltac:(lia)) Hxi HG (Hm 0%nat ltac:(lia)) F0) as (s1 & e1 & E1 & HT1).
  rewrite H00 in E1.
  destruct (hash_cases s x e 1 s1 e1 D HT1 HD ltac:(lia) (HI 1%nat ltac:(lia)) (Hm 1%nat ltac:(lia))) as [F1 | [C1 E2]].
  2: { right. split; [exists 1%nat; split; [lia | done] |]. exists s1. split; [| apply HT1].
    unfold mbind_ at 1. change RWVOL with (Z.of_nat 0). rewrite E1. cbn [Z.eqb negb]. unfold mbind_ at 1.
    change ROVOL with (Z.of_nat 1). by rewrite E2. }
  destruct (hash_step s x e 1 s1 e1 D HT1 HD ltac:(lia) (HI 1%nat ltac:(lia)) Hxi HG (Hm 1%nat ltac:(lia)) F1) as (s2 & e2 & E2 & HT2).
  destruct (hash_cases s x e 2 s2 e2 D HT2 HD ltac:(lia) (HI 2%nat ltac:(lia)) (Hm 2%nat ltac:(lia))) as [F2 | [C2 E3]].
  2: { right. split; [exists 2%nat; split; [lia | done] |]. exists s2. split; [| apply HT2].
    unfold mbind_ at 1. change RWVOL with (Z.of_nat 0). rewrite E1. cbn [Z.eqb negb]. unfold mbind_ at 1.
    change ROVOL with (Z.of_nat 1). rewrite E2. cbn [Z.eqb negb]. unfold mbind_ at 1.
    change BACKVOL with (Z.of_nat 2). by rewrite E3. }
  left. intros k Hk. assert (k = 0 \/ k = 1 \/ k = 2)%nat as [-> | [-> | ->]] by lia; done.
Qed.

(** ThreadVLentry puts the entry in the chains of all its kinds. *)
Lemma thread_ok s x e D : good T s -> blocks T D -> (forall k, (k < 4)%nat -> indexed k s D) -> block T x -> x ∉ D ->
  canonical e -> word 0 e <> 0 -> (forall k, (k < 3)%nat -> word k e <> INT_MIN /\ fresh s D e k) ->
  exists s', ThreadVLentry 13 x e s = Some (0, s') /\ good T s' /\ rest (cheader s') = rest (cheader s)
    /\ (forall k, (k < 4)%nat -> indexed k s' ({[x]} ∪ D)) /\ plain (ent s' x) = plain e
    /\ (forall y, piece T y -> y <> x -> ent s' y = ent s y).
Proof.
  intros HG HD HI Hx HxD He H0 Hf. pose proof (vl_block_int T s x HG (block_piece _ _ Hx)) as Hxi.
  destruct (hash_step s x e 0 s e D (threading_start s x e HG He) HD ltac:(lia) (HI 0%nat ltac:(lia)) Hxi HG) as (s1 & e1 & E1 & HT1);
    [apply (Hf 0%nat); lia .. |].
  destruct (hash_step s x e 1 s1 e1 D HT1 HD ltac:(lia) (HI 1%nat ltac:(lia)) Hxi HG) as (s2 & e2 & E2 & HT2); [apply (Hf 1%nat); lia .. |].
  destruct (hash_step s x e 2 s2 e2 D HT2 HD ltac:(lia) (HI 2%nat ltac:(lia)) Hxi HG) as (s3 & e3 & E3 & HT3); [apply (Hf 2%nat); lia .. |].
  assert (HT4 : threading s x e 4 (hashed 3 x e3 s3) (hashed_entry 3 e3 s3)).
  { apply threading_step; [done | lia | done | done |]. intros i Hi. apply bucket_int; [done | lia | done]. }
  set (s4 := hashed 3 x e3 s3) in *. set (e4 := hashed_entry 3 e3 s3) in *.
  set (s5 := rehead (cheader s4) 0 (vital (cheader s4)) s4). pose proof (th_good _ _ _ _ _ _ HT4) as G4.
  assert (G5 : good T s5) by (apply (vital_good T T); (done || apply G4)).
  assert (Hx' : HEADERSIZE <= x) by (apply (vl_block_range T s); auto).
  exists (wrote x (image_new e4) s5). unfold ThreadVLentry, mbind_ at 1, get_header. rewrite (index_piece T s) by auto.
  assert (E1' : HashVolid 13 RWVOL x e s = Some ((0, e1), s1)).
  { rewrite <- E1. change (volumeId (Z.of_nat 0) e) with (word 0 e). by rewrite (proj2 (Z.eqb_neq (word 0 e) 0)) by done. }
  assert (He5 : forall y, piece T y -> ent s5 y = ent s4 y).
  { intros y Hy. apply (ent_vital s4 (cheader s4)); [apply G4 | by apply (vl_block_range T s)]. }
  split; [| split; [by apply vl_wrote_good | split; [| split; [| split]]]].
  - cbn [negb]. unfold mbind_ at 1. rewrite E1'. cbn [Z.eqb negb]. unfold mbind_ at 1.
    change ROVOL with (Z.of_nat 1). rewrite E2. cbn [Z.eqb negb]. unfold mbind_ at 1.
    change BACKVOL with (Z.of_nat 2). rewrite E3. cbn [Z.eqb negb]. unfold mbind_ at 1.
    rewrite (HashVolname_step s x e) by done. unfold mbind_ at 1. fold s4 e4. rewrite write_vital_ok by apply G4. fold s5. cbn [Z.eqb negb].
    unfold mbind_, vlentrywrite. cbn [Z.eqb]. rewrite write_ok by apply G5. done.
  - apply (th_rest _ _ _ _ _ _ HT4).
  - intros k Hk. apply (threading_end s x e s4 e4 _ D k HT4 HD HxD Hk (HI k Hk)).
    + intros y Hy. pose proof (HD y Hy). rewrite (ent_wrote T s5) by (auto || apply HT4).
      rewrite decide_False by (by intros ->). auto.
    + rewrite (ent_wrote T s5) by (auto || apply HT4). by rewrite decide_True.
    + done.
  - rewrite (ent_wrote T s5) by (auto || apply HT4). rewrite decide_True by done. apply HT4.
  - intros y Hy Hne. rewrite (ent_wrote T s5) by (auto || apply HT4). rewrite decide_False, He5 by done. by apply HT4.
Qed.
(** ** Unthreading *)

(** A removal from the chains of one kind changes pointers of other entries of
    the database, of that kind only. *)
Record unlinked (k : nat) (D : gset Z) (x : Z) (s s' : st) : Prop := {
  un_rest : rest (cheader s') = rest (cheader s);
  un_bucket : forall j i, (j < 4)%nat -> j <> k -> bucket_of j (cheader s') i = bucket_of j (cheader s) i;
  un_ent : forall y, piece T y -> ent s' y = ent s y \/ y ∈ D /\ y <> x /\ exists v, ent s' y = set_word (ptr k) v (ent s y)
}.

Lemma chain_at_hash k s D L x : chain k (ent s) (bucket_of k (cheader s)) D L -> x ∈ D -> keyed k (ent s x) = true ->
  exists l1 l2, L (hash k (ent s x)) = l1 ++ x :: l2 /\ x ∉ l1.
Proof.
  intros HC Hx Hk. pose proof (hash_in_table k (ent s x)) as Ht.
  assert (Hin : x ∈ L (hash k (ent s x))) by by apply (ch_elem _ _ _ _ _ HC).
  apply list_elem_of_split in Hin as (l1 & l2 & E). exists l1, l2. split; [done |].
  pose proof (ch_nodup _ _ _ _ _ HC _ Ht) as HN. rewrite E in HN. apply NoDup_app in HN as (_ & HN & _).
  intros Hin. apply (HN x Hin). left.
Qed.

Lemma unhash_ok k s D x a : good T s -> blocks T D -> indexed k s D -> x ∈ D -> (k < 4)%nat -> keyed k (ent s x) = true ->
  word (ptr k) a = word (ptr k) (ent s x) ->
  exists s', unhash 13 (ptr k) (bucket_of k (cheader s) (hash k (ent s x))) (bucket_pos k (hash k (ent s x)))
               (set_bucket k (hash k (ent s x))) x a s = Some ((0, set_word (ptr k) 0 a), s')
    /\ good T s' /\ indexed k s' (D ∖ {[x]}) /\ unlinked k D x s s'.
Proof.
  intros HG HD [L HC] Hx Hk Hkx Ea. set (i := hash k (ent s x)). pose proof (hash_in_table k (ent s x)) as Ht. fold i in Ht.
  destruct (chain_at_hash k s D L x HC Hx Hkx) as (l1 & l2 & El & Hxl). fold i in El.
  destruct (vl_chain_short k s D L i HG HD HC Ht) as [Hf H0]. rewrite El in Hf, H0.
  pose proof (ch_linked _ _ _ _ _ HC i Ht) as Hl. rewrite El in Hl.
  assert (HiL : forall y, y ∈ l1 ++ x :: l2 -> y ∈ D) by (intros y Hy; rewrite <- El in Hy; by apply (ch_elem _ _ _ _ _ HC i)).
  pose proof (vl_word_int (ptr k) _ (vl_ent_canonical T s x HG)) as Hwi. unfold unhash, mbind_, get_header. rewrite Ea.
  set (v := word (ptr k) (ent s x)) in *. destruct (last l1) as [t |] eqn:Elast.
  - assert (Ht1 : t ∈ l1) by by apply last_Some_elem_of.
    assert (HtD : t ∈ D) by (apply HiL, elem_of_app; by left). pose proof (HD t HtD) as Htb.
    assert (Htx : t <> x) by (by intros ->).
    assert (Hhd : bucket_of k (cheader s) i <> x).
    { destruct l1 as [| b l1]; [done |]. cbn [app linked] in Hl. destruct Hl as [-> _]. intros ->. apply Hxl. left. }
    rewrite (proj2 (Z.eqb_neq _ x)) by done.
    rewrite elem_of_app, elem_of_cons in H0. rewrite length_app in Hf.
    rewrite (before_chain_ok (ptr k) s x l2 l1 (g_io _ _ HG) 0 (bucket_of k (cheader s) i) (chain_fuel (cheader s)) Hxl)
      by (assumption || lia || naive_solver).
    cbn [Z.eqb negb]. rewrite Elast. change (default 0 (Some t)) with t. rewrite write_ok by apply HG. cbn [Z.eqb negb].
    set (s' := wrote _ _ _).
    assert (He : forall y, piece T y -> ent s' y = if decide (y = t) then set_word (ptr k) v (ent s y) else ent s y).
    { intros y Hy. apply (ent_word T); [done | auto | done | unfold ptr; lia | done]. }
    exists s'. split; [done |]. split.
    { apply vl_wrote_good; [done |]. pose proof (vl_block_range T s t HG (block_piece _ _ Htb)). lia. }
    split; [| split; [done | done |]].
    + eexists. apply (chain_drop k (ent s) _ (bucket_of k (cheader s)) _ D L x l1 l2 HC Hx El).
      * intros y Hy. rewrite He by auto.
        destruct (decide (y = t)) as [-> | Hne].
        -- destruct (vl_key_pointer k k v (ent s t) Hk (vl_ent_canonical T s t HG)) as (_ & -> & ->). rewrite Elast, decide_True by done.
           rewrite vl_word_set by ((by apply (vl_ent_canonical T)) || (unfold ptr; lia)). by rewrite decide_True.
        -- rewrite Elast, decide_False by congruence. done.
      * intros j Hj. rewrite decide_False; [done |]. intros [_ ->]. by apply not_elem_of_nil in Ht1.
    + intros y Hy. rewrite He by done. case_decide as E; [| by left]. subst y. right. split; [done | split; [done | by eexists]].
  - apply last_None in Elast as ->. cbn [app linked] in Hl. destruct Hl as [Hh Hl]. rewrite Hh, Z.eqb_refl. unfold set_header.
    rewrite write_ok by apply HG. cbn [Z.eqb negb]. set (s' := wrote _ _ _).
    assert (Es : s' = rehead (set_bucket k i v (cheader s)) (bucket_pos k i) (be_bytes v) s) by done.
    assert (He : forall y, piece T y -> ent s' y = ent s y) by (intros y Hy; rewrite Es; by apply (ent_bucket T)).
    assert (Hb : forall j b, (j < 4)%nat -> bucket_of j (cheader s') b = if decide (j = k /\ b = i) then v else bucket_of j (cheader s) b).
    { intros j b Hj. rewrite Es. cbn [cheader rehead]. by apply bucket_set. }
    exists s'. split; [done |]. split; [rewrite Es; by apply bucket_good |]. split; [| split].
    + eexists. apply (chain_drop k (ent s) _ (bucket_of k (cheader s)) _ D L x [] l2 HC Hx El).
      * intros y Hy. rewrite He by auto. done.
      * intros j Hj. rewrite Hb by done. apply decide_ext. naive_solver.
    + rewrite Es. cbn [cheader rehead]. apply rest_bucket.
    + intros j b Hj Hne. rewrite Hb by done. rewrite decide_False; [done | by intros [? _]].
    + intros y Hy. left. by apply He.
Qed.
Lemma unlinked_indexed k j D D' x s s' : good T s -> unlinked k D x s s' -> (j < 4)%nat -> j <> k -> blocks T D' ->
  indexed j s D' -> indexed j s' D'.
Proof.
  intros HG [_ Hb He] Hj Hne HD' [L HC]. exists L. apply (chain_frame j (ent s) _ (bucket_of j (cheader s)) _ D' L HC).
  - intros y Hy. destruct (He y (block_piece _ _ (HD' y Hy))) as [-> | (_ & _ & v & ->)]; [done |].
    pose proof (vl_ent_canonical T s y HG) as Hc. destruct (vl_key_pointer j k v (ent s y) Hj Hc) as (_ & E1 & E2).
    split; [done | split; [done |]]. destruct (decide (k < 4)%nat) as [Hk | Hk].
    + rewrite vl_word_set by (done || unfold ptr; lia). rewrite decide_False; [done | unfold ptr; lia].
    + unfold word, set_word. cbn [words]. rewrite !nth_lookup. rewrite list_lookup_insert_ne; [done | unfold ptr; lia].
  - intros i Hi. by apply Hb.
Qed.

Lemma indexed_unkeyed k s D x : indexed k s D -> keyed k (ent s x) = false -> indexed k s (D ∖ {[x]}).
Proof.
  intros [L [C1 C2 C3]] Hk. exists L. split; [done | done |]. intros i y Hi. rewrite C3, elem_of_difference, elem_of_singleton by done.
  split; [| tauto]. intros (HD & H1 & H2). split; [| done]. split; [done |]. intros ->. congruence.
Qed.

(** After the first [n] kinds. *)
Record unthreading (s0 : st) (D : gset Z) (x : Z) (n : nat) (s : st) (a : nvlentry) : Prop := {
  ut_good : good T s;
  ut_rest : rest (cheader s) = rest (cheader s0);
  ut_done : forall k, (k < n)%nat -> (k < 4)%nat -> indexed k s (D ∖ {[x]});
  ut_todo : forall k, (n <= k < 4)%nat -> indexed k s D;
  ut_plain : forall y, piece T y -> plain (ent s y) = plain (ent s0 y);
  ut_kept : forall y, piece T y -> y ∉ D ∖ {[x]} -> ent s y = ent s0 y;
  ut_entry : plain a = plain (ent s0 x);
  ut_next : forall k, (n <= k < 4)%nat -> word (ptr k) a = word (ptr k) (ent s0 x)
}.

Lemma unthread_step s0 D x n s a : unthreading s0 D x n s a -> good T s0 -> blocks T D -> x ∈ D -> (n < 4)%nat ->
  keyed n (ent s0 x) = true ->
  exists s', unhash 13 (ptr n) (bucket_of n (cheader s) (hash n a)) (bucket_pos n (hash n a)) (set_bucket n (hash n a)) x a s
     = Some ((0, set_word (ptr n) 0 a), s') /\ unthreading s0 D x (S n) s' (set_word (ptr n) 0 a).
Proof.
  intros [U1 U2 U3 U4 U5 U6 U7 U8] HG HD Hx Hn Hk.
  assert (Hxe : ent s x = ent s0 x) by (apply U6; [auto | set_solver]).
  assert (Eh : hash n a = hash n (ent s x)) by (rewrite Hxe; by apply plain_key). rewrite Eh.
  destruct (unhash_ok n s D x a U1 HD (U4 n ltac:(lia)) Hx Hn) as (s' & E & HG' & HI' & HU); [by rewrite Hxe | rewrite Hxe; by apply U8; lia |].
  exists s'. split; [done |]. pose proof HU as [Hr Hb He]. split.
  - done.
  - by rewrite Hr.
  - intros k Hk1 Hk4. destruct (decide (k = n)) as [-> | Hne]; [done |].
    apply (unlinked_indexed n k D _ x s s'); try done; [intros y Hy; apply HD; set_solver | apply U3; lia].
  - intros k Hk4. apply (unlinked_indexed n k D D x s s'); (done || lia || (apply U4; lia)).
  - intros y Hy. destruct (He y Hy) as [-> | (_ & _ & v & ->)]; [by apply U5 | rewrite plain_pointer; by apply U5].
  - intros y Hy Hn'. destruct (He y Hy) as [-> | (HyD & Hne & _)]; [by apply U6 | set_solver].
  - by rewrite plain_pointer.
  - intros k Hk4. rewrite <- U8 by lia. unfold word, set_word. cbn [words]. rewrite !nth_lookup.
    rewrite list_lookup_insert_ne; [done | unfold ptr; lia].
Qed.

Lemma UnhashVolid_ok s0 D x n s a : unthreading s0 D x n s a -> good T s0 -> blocks T D -> x ∈ D -> (n < 3)%nat ->
  word n (ent s0 x) <> INT_MIN ->
  exists s' a', UnhashVolid 13 (Z.of_nat n) x a s = Some ((0, a'), s') /\ unthreading s0 D x (S n) s' a'.
Proof.
  intros HU HG HD Hx Hn Hm. assert (Hn3 : (n =? 3)%nat = false) by by apply Nat.eqb_neq; lia.
  assert (Ew : word n a = word n (ent s0 x)) by (apply plain_word; [apply HU | lia]).
  unfold UnhashVolid, volumeId, NULLO. rewrite Nat2Z.id, Ew. destruct (Z.eqb_spec (word n (ent s0 x)) 0) as [E | E].
  - exists s, a. split; [done |]. destruct HU as [U1 U2 U3 U4 U5 U6 U7 U8]. split; try done.
    + intros k Hk Hk4. destruct (decide (k = n)) as [-> | Hne]; [| apply U3; lia]. apply indexed_unkeyed; [apply U4; lia |].
      rewrite U6 by (auto || set_solver). unfold keyed. by rewrite Hn3, E.
    + intros k Hk. apply U4. lia.
    + intros k Hk. apply U8. lia.
  - destruct (unthread_step s0 D x n s a HU HG HD Hx ltac:(lia)) as (s' & E' & HU').
    { unfold keyed. by rewrite Hn3, (proj2 (Z.eqb_neq _ 0)). }
    exists s', (set_word (ptr n) 0 a). split; [| done]. unfold mbind_. rewrite IDHash_ok by done. unfold get_header.
    unfold next_id. rewrite Nat2Z.id. rewrite <- E'. unfold bucket_of, bucket_pos, set_bucket, hash. by rewrite Hn3, Ew.
Qed.

(** UnthreadVLentry takes the entry out of the chains of all its kinds. *)
Lemma unthread_ok s x D : good T s -> blocks T D -> (forall k, (k < 4)%nat -> indexed k s D) -> x ∈ D ->
  (forall k, (k < 3)%nat -> word k (ent s x) <> INT_MIN) ->
  exists s', UnthreadVLentry 13 x (ent s x) s = Some (0, s') /\ good T s' /\ rest (cheader s') = rest (cheader s)
    /\ (forall k, (k < 4)%nat -> indexed k s' (D ∖ {[x]}))
    /\ (forall y, piece T y -> plain (ent s' y) = plain (ent s y))
    /\ (forall y, piece T y -> y ∉ D ∖ {[x]} -> ent s' y = ent s y).
Proof.
  intros HG HD HI Hx Hm.
  assert (H0 : unthreading s D x 0 s (ent s x)) by (split; try done; [intros k Hk; lia | intros k Hk; apply HI; lia]).
  destruct (UnhashVolid_ok s D x 0 s _ H0 HG HD Hx ltac:(lia) (Hm 0%nat ltac:(lia))) as (s1 & a1 & E1 & H1).
  destruct (UnhashVolid_ok s D x 1 s1 _ H1 HG HD Hx ltac:(lia) (Hm 1%nat ltac:(lia))) as (s2 & a2 & E2 & H2).
  destruct (UnhashVolid_ok s D x 2 s2 _ H2 HG HD Hx ltac:(lia) (Hm 2%nat ltac:(lia))) as (s3 & a3 & E3 & H3).
  destruct (unthread_step s D x 3 s3 a3 H3 HG HD Hx ltac:(lia) eq_refl) as (s4 & E4 & [U1 U2 U3 U4 U5 U6 U7 U8]).
  set (s5 := rehead (cheader s4) 0 (vital (cheader s4)) s4).
  assert (G5 : good T s5) by (apply (vital_good T T); (done || apply U1)).
  assert (He5 : forall y, piece T y -> ent s5 y = ent s4 y).
  { intros y Hy. apply (ent_vital s4 (cheader s4)); [apply U1 | by apply (vl_block_range T s)]. }
  exists s5. split; [| split; [done | split; [done | split; [| split]]]].
  - unfold UnthreadVLentry, mbind_ at 1, get_header. rewrite (index_piece T s) by auto. cbn [negb]. unfold mbind_ at 1.
    change RWVOL with (Z.of_nat 0). rewrite E1. cbn [Z.eqb negb]. unfold mbind_ at 1.
    change ROVOL with (Z.of_nat 1). rewrite E2. cbn [Z.eqb negb]. unfold mbind_ at 1.
    change BACKVOL with (Z.of_nat 2). rewrite E3. cbn [Z.eqb negb]. unfold mbind_ at 1.
    assert (EN : UnhashVolname 13 x a3 s3 = Some ((0, set_word (ptr 3) 0 a3), s4)) by (rewrite <- E4; done).
    rewrite EN. cbn [Z.eqb negb]. unfold mbind_. rewrite write_vital_ok by apply U1. done.
  - intros k Hk. destruct (U3 k ltac:(lia) Hk) as [L HC]. exists L.
    apply (chain_frame k (ent s4) _ (bucket_of k (cheader s4)) _ _ L HC); [| done].
    intros y Hy. rewrite He5; [done |]. apply block_piece, HD. set_solver.
  - intros y Hy. rewrite He5 by done. by apply U5.
  - intros y Hy Hn. rewrite He5 by done. by apply U6.
Qed.
End chains.
