(* ===== verification/VlStore.v ===== *)
(** The volume location database, the store of blocks and the invariant: every
    block is an entry of the database, in the chains of all its kinds, or on
    the free list; what AllocBlock, FreeBlock and NextEntry do with them; and
    the layout of the old version, in which two of the operations write. *)
From S2P Require Import Prelude Bytes UbikFile VlDb VlProcs VlSpec VlOps.

#[local] Open Scope ubik_scope.
#[local] Hint Resolve block_piece : core.

(** ** The invariant *)

(** The free list. *)
Record freed (T : list (Z * Z)) (s : st) (D : gset Z) (F : list Z) : Prop := {
  fr_linked : linked (fun x => word (ptr 0) (ent s x)) (freePtr (cheader s)) F;
  fr_nodup : NoDup F;
  fr_block : forall x, x ∈ F -> block T x /\ x ∉ D /\ flags (ent s x) = VLFREE
}.

(** What an entry is. *)
Record proper (e : nvlentry) : Prop := {
  pr_rw : word 0 e <> 0;
  pr_int : forall k, (k < 3)%nat -> word k e <> INT_MIN;
  pr_flags : flags e <> VLFREE /\ flags e <> VLCONTBLOCK;
  pr_name : (length (cstring (name e)) < 65)%nat
}.

(** No two entries have a key of the same kind in common. *)
Definition distinct (s : st) (D : gset Z) : Prop :=
  forall k x y, (k < 4)%nat -> x ∈ D -> y ∈ D -> keyed k (ent s x) = true -> keyed k (ent s y) = true ->
  key k (ent s x) = key k (ent s y) -> x = y.

Record vldb (T : list (Z * Z)) (s : st) (D : gset Z) (F : list Z) : Prop := {
  vd_good : good T s;
  vd_blocks : blocks T D;
  vd_index : forall k, (k < 4)%nat -> indexed k s D;
  vd_distinct : distinct s D;
  vd_proper : forall x, x ∈ D -> proper (ent s x);
  vd_freed : freed T s D F;
  vd_all : forall x, block T x -> x ∈ D \/ x ∈ F;
  vd_ext : forall x, (x, VL_ADDREXTBLK_SIZE) ∈ T -> flags (ent s x) = VLCONTBLOCK
}.

Lemma plain_flags e e' : plain e = plain e' -> flags e = flags e'.
Proof. intros E. apply (plain_word e e' 3 E). lia. Qed.

Lemma plain_proper e e' : plain e = plain e' -> proper e -> proper e'.
Proof.
  intros E [H1 H2 H3 H4]. split.
  - by rewrite <- (plain_word e e' 0 E ltac:(lia)).
  - intros k Hk. rewrite <- (plain_word e e' k E ltac:(lia)). by apply H2.
  - by rewrite <- (plain_flags e e' E).
  - injection E as _ <- _ _ _. done.
Qed.

(** The keys of blocks whose entries are the same but for the pointers. *)
Lemma distinct_plain s s' D : (forall x, x ∈ D -> plain (ent s' x) = plain (ent s x)) -> distinct s D -> distinct s' D.
Proof.
  intros He HD k x y Hk Hx Hy. destruct (plain_key _ _ k (He x Hx) Hk) as (-> & -> & _).
  destruct (plain_key _ _ k (He y Hy) Hk) as (-> & -> & _). by apply HD.
Qed.

Lemma indexed_same k s s' D : (forall x, x ∈ D -> ent s' x = ent s x) -> (forall i, bucket_of k (cheader s') i = bucket_of k (cheader s) i) ->
  indexed k s D -> indexed k s' D.
Proof.
  intros He Hb [L HC]. exists L. apply (chain_frame k (ent s) _ (bucket_of k (cheader s)) _ D L HC); [| done].
  intros x Hx. by rewrite He.
Qed.

Lemma tables_bucket k h h' i : tables_of h' = tables_of h -> bucket_of k h' i = bucket_of k h i.
Proof. intros E. injection E as E1 E2 _ _. unfold bucket_of, name_bucket, id_bucket. by rewrite E1, E2. Qed.

Lemma block_not_ext T a e x : tiled a T e -> block T x -> (x, VL_ADDREXTBLK_SIZE) ∉ T.
Proof.
  revert a. unfold block. induction T as [| [y n] T IH]; cbn [tiled]; intros a HT Hx Hy; [by apply not_elem_of_nil in Hx |].
  destruct HT as (-> & Hn & HT). apply elem_of_cons in Hx as [Ex | Hx], Hy as [Ey | Hy].
  - rewrite <- Ey in Ex. injection Ex as E. unfold ENTRYSIZE, VL_ADDREXTBLK_SIZE in E. lia.
  - injection Ex as -> <-. pose proof (tiled_range _ _ _ _ _ HT Hy). unfold ENTRYSIZE in *. lia.
  - injection Ey as -> <-. pose proof (tiled_range _ _ _ _ _ HT Hx). unfold VL_ADDREXTBLK_SIZE in *. lia.
  - by apply (IH (a + n)).
Qed.

(** ** Taking and giving blocks *)


(** AllocBlock hands out a block that nothing uses: the first of the free list,
    or else one at the end of the file, which grows. *)
Lemma AllocBlock_ok little T s D F : vldb T s D F -> eofPtr (cheader s) + 148 <= INT_MAX ->
  exists s' x T' F', AllocBlock little 13 s = Some ((x, zero_entry), s')
    /\ good T' s' /\ (forall y n, (y, n) ∈ T' <-> (y, n) ∈ T \/ y = x /\ n = ENTRYSIZE)
    /\ block T' x /\ x ∉ D /\ x ∉ F' /\ (forall y, y ∈ F' -> y ∈ F) /\ (forall y, block T' y -> y ∈ D \/ y ∈ F' \/ y = x)
    /\ (forall y, piece T y -> ent s' y = ent s y) /\ freed T' s' D F'
    /\ tables_of (cheader s') = tables_of (cheader s) /\ HostAddress (cheader s') = HostAddress (cheader s)
    /\ ex_addr (cheader s') = ex_addr (cheader s).
Proof.
  intros [HG HB HI _ _ [Fl Fn Fb] HA _] He. unfold AllocBlock, mbind_ at 1, get_header.
  destruct F as [| x F]; cbn [linked] in Fl.
  - rewrite Fl. cbn [Z.eqb negb]. set (x := eofPtr (cheader s)). set (T' := T ++ [(x, ENTRYSIZE)]).
    set (h := set_allocs (bump little (allocs (cheader s))) (set_eofPtr (s32 (x + ENTRYSIZE)) (cheader s))).
    exists (rehead h 0 (vital h) s), x, T', [].
    assert (Hx0 : HEADERSIZE <= x) by apply (tiled_le T), HG.
    assert (Ex : s32 (x + ENTRYSIZE) = x + ENTRYSIZE).
    { apply s32_small. assert (0 <= HEADERSIZE) by done. unfold INT_MIN, ENTRYSIZE, x in *. lia. }
    assert (HG' : good T' (rehead h 0 (vital h) s)).
    { apply (vital_good T T'); try done.
      - change (eofPtr h) with (s32 (x + ENTRYSIZE)). rewrite Ex. apply tiled_end; [apply HG | by left].
      - change (eofPtr h) with (s32 (x + ENTRYSIZE)). rewrite Ex. unfold ENTRYSIZE, x in *. lia.
      - apply HG. }
    assert (HT' : forall y n, (y, n) ∈ T' <-> (y, n) ∈ T \/ y = x /\ n = ENTRYSIZE).
    { intros y n. unfold T'. rewrite elem_of_app, list_elem_of_singleton. split; (intros [? | E]; [by left | right]); [by injection E | destruct E; congruence]. }
    assert (HxD : x ∉ D).
    { intros Hx. pose proof (vl_block_range T s x HG (block_piece _ _ (HB x Hx))). unfold x in *. lia. }
    split; [| split; [done | split; [done | split; [| split; [done | split; [apply not_elem_of_nil | split; [done |
      split; [| split; [| split; [| done]]]]]]]]]].
    + unfold mbind_, set_header. cbn [ret]. unfold ret. rewrite write_vital_ok by apply HG. done.
    + apply HT'. by right.
    + intros y Hy. apply HT' in Hy as [Hy | [-> _]]; [| tauto]. destruct (HA y Hy) as [? | Hn]; [by left |]. by apply not_elem_of_nil in Hn.
    + intros y Hy. apply (ent_vital s h); [apply HG | by apply (vl_block_range T s)].
    + split; [done | constructor |]. intros y Hy. by apply not_elem_of_nil in Hy.
  - destruct Fl as [Fx Fl]. rewrite Fx. destruct (Fb x ltac:(left)) as (Hx & HxD & Hxf).
    rewrite (proj2 (Z.eqb_neq x 0)) by (by apply (vl_block_nonzero T s); auto). cbn [negb].
    set (h := set_allocs (bump little (allocs (cheader s))) (set_freePtr (word (next_id 0) (ent s x)) (cheader s))).
    exists (rehead h 0 (vital h) s), x, T, F. apply NoDup_cons in Fn as [HxF Fn].
    assert (He' : forall y, piece T y -> ent (rehead h 0 (vital h) s) y = ent s y).
    { intros y Hy. apply (ent_vital s h); [apply HG | by apply (vl_block_range T s)]. }
    split; [| split; [| split; [| split; [done | split; [done | split; [done | split; [by right |
      split; [| split; [done | split; [| done]]]]]]]]]].
    + unfold mbind_ at 1. unfold mbind_ at 1. rewrite read_ok by apply HG. cbn [Z.eqb negb]. unfold mbind_, set_header, ret.
      rewrite write_vital_ok by apply HG. done.
    + apply (vital_good T T); try done; apply HG.
    + intros y n. split; [tauto |]. by intros [? | [-> ->]].
    + intros y Hy. destruct (HA y Hy) as [? | [-> | ?]%elem_of_cons]; tauto.
    + split; [| done |].
      * apply (links_frame _ _ _ _ Fl). intros y Hy. rewrite He'; [done |]. apply block_piece, Fb. by right.
      * intros y Hy. rewrite He' by (apply block_piece, Fb; by right). apply Fb. by right.
Qed.

(** FreeBlock puts a block that nothing uses at the head of the free list. *)
Lemma FreeBlock_ok little T s D F x : good T s -> freed T s D F -> block T x -> x ∉ D -> x ∉ F ->
  exists s', FreeBlock little x s = Some (0, s') /\ good T s' /\ freed T s' D (x :: F)
    /\ (forall y, piece T y -> y <> x -> ent s' y = ent s y)
    /\ tables_of (cheader s') = tables_of (cheader s) /\ HostAddress (cheader s') = HostAddress (cheader s)
    /\ ex_addr (cheader s') = ex_addr (cheader s).
Proof.
  intros HG [Fl Fn Fb] Hx HxD HxF. pose proof (vl_block_range T s x HG (block_piece _ _ Hx)) as Hxr.
  set (t := set_word 3 VLFREE (set_word (next_id 0) (freePtr (cheader s)) zero_entry)).
  set (h := set_frees (bump little (frees (cheader s))) (set_freePtr x (cheader s))).
  assert (Hfp : int32 (freePtr (cheader s))).
  { destruct F as [| z F]; cbn [linked] in Fl; [rewrite Fl; apply zero_int |]. destruct Fl as [-> _].
    apply (vl_block_int T s z HG), block_piece, Fb. left. }
  assert (Ht : canonical t).
  { apply vl_canonical_set; [apply vl_canonical_set; [apply canonical_zero | done] |]. unfold VLFREE, int32, INT_MIN, INT_MAX. lia. }
  set (s1 := wrote x (image_new t) s). assert (HG1 : good T s1) by (apply vl_wrote_good; [done | apply Hxr]).
  exists (rehead h 0 (vital h) s1).
  assert (He : forall y, piece T y -> ent (rehead h 0 (vital h) s1) y = if decide (y = x) then t else ent s y).
  { intros y Hy. rewrite (ent_vital s1 h) by (exact (g_total _ _ HG) || (apply (vl_block_range T s); auto)). apply (ent_wrote T); auto. }
  split; [| split; [| split; [| split; [| done]]]].
  - unfold FreeBlock, mbind_ at 1, get_header. rewrite (index_piece T s) by auto. cbn [negb]. unfold mbind_ at 1, set_header.
    unfold mbind_ at 1. rewrite write_ok by apply HG. cbn [Z.eqb negb]. unfold mbind_ at 1. unfold mbind_.
    rewrite write_vital_ok by apply HG. done.
  - apply (vital_good T T); try done; apply HG.
  - split.
    + cbn [linked]. split; [done |]. rewrite He, decide_True by auto. change (word (ptr 0) t) with (freePtr (cheader s)).
      apply (links_frame _ _ _ _ Fl). intros y Hy. rewrite He by apply block_piece, Fb, Hy. rewrite decide_False by (by intros ->). done.
    + by constructor.
    + intros y [-> | Hy]%elem_of_cons.
      * rewrite He, decide_True by auto. done.
      * destruct (Fb y Hy) as (B1 & B2 & B3). rewrite He by auto. rewrite decide_False by (by intros ->). done.
  - intros y Hy Hne. rewrite He, decide_False; done.
Qed.

(** ** Entries made and removed *)

(** What is outside the database proper, which no operation on it touches. *)
Definition same_hosts (s s' : st) : Prop :=
  IpMappedAddr (cheader s') = IpMappedAddr (cheader s) /\ SIT (cheader s') = SIT (cheader s)
  /\ HostAddress (cheader s') = HostAddress (cheader s) /\ ex_addr (cheader s') = ex_addr (cheader s).

Lemma same_hosts_trans s1 s2 s3 : same_hosts s1 s2 -> same_hosts s2 s3 -> same_hosts s1 s3.
Proof. intros (A1 & A2 & A3 & A4) (B1 & B2 & B3 & B4). repeat split; congruence. Qed.

Lemma same_tables_hosts s s' : tables_of (cheader s') = tables_of (cheader s) -> HostAddress (cheader s') = HostAddress (cheader s) ->
  ex_addr (cheader s') = ex_addr (cheader s) -> same_hosts s s'.
Proof. intros E. injection E as _ _ E1 E2. by repeat split. Qed.

Lemma rest_hosts s s' : rest (cheader s') = rest (cheader s) -> same_hosts s s'.
Proof. intros E. injection E as. by repeat split. Qed.

(** A database with a block taken, for an entry that is not yet in it. *)
Record awaiting (T : list (Z * Z)) (s : st) (D : gset Z) (F : list Z) (x : Z) : Prop := {
  aw_good : good T s;
  aw_blocks : blocks T D;
  aw_index : forall k, (k < 4)%nat -> indexed k s D;
  aw_distinct : distinct s D;
  aw_proper : forall y, y ∈ D -> proper (ent s y);
  aw_freed : freed T s D F;
  aw_block : block T x;
  aw_out : x ∉ D /\ x ∉ F;
  aw_all : forall y, block T y -> y ∈ D \/ y ∈ F \/ y = x;
  aw_ext : forall y, (y, VL_ADDREXTBLK_SIZE) ∈ T -> flags (ent s y) = VLCONTBLOCK
}.

Lemma vl_alloc_ok little T s D F : vldb T s D F -> eofPtr (cheader s) + 148 <= INT_MAX ->
  exists s' x T' F', AllocBlock little 13 s = Some ((x, zero_entry), s') /\ awaiting T' s' D F' x /\ x <> 0
    /\ (forall y, y ∈ D -> ent s' y = ent s y) /\ same_hosts s s'.
Proof.
  intros HV He. pose proof HV as [HG HB HI HD HP HF HA HE].
  destruct (AllocBlock_ok little T s D F HV He) as (s1 & x & T' & F' & E1 & G1 & HT' & Hx & HxD & HxF & HFF & HA' & He1 & HF1 & Et & Eh & Ee).
  assert (HB1 : blocks T' D) by (intros y Hy; apply HT'; left; by apply HB).
  assert (HDe : forall y, y ∈ D -> ent s1 y = ent s y) by (intros y Hy; by apply He1, block_piece, HB).
  exists s1, x, T', F'. split; [done |]. split; [| split; [by apply (vl_block_nonzero T' s1); auto | split; [done | by apply same_tables_hosts]]].
  split; try done.
  - intros k Hk. apply (indexed_same k s s1 D HDe); [| by apply HI]. intros i. by apply tables_bucket.
  - apply (distinct_plain s); [| done]. intros y Hy. by rewrite HDe.
  - intros y Hy. rewrite HDe by done. by apply HP.
  - intros y Hy. assert (y <> x) by (intros ->; by apply (block_not_ext T' _ _ x (g_tiled _ _ G1) Hx)).
    apply HT' in Hy as [Hy | [? _]]; [| done]. rewrite He1 by by exists VL_ADDREXTBLK_SIZE. by apply HE.
Qed.

Lemma insert_ok T s D F x e : awaiting T s D F x -> canonical e -> proper e -> (forall k, (k < 4)%nat -> fresh s D e k) ->
  exists s', ThreadVLentry 13 x e s = Some (0, s') /\ vldb T s' ({[x]} ∪ D) F
    /\ plain (ent s' x) = plain e /\ (forall y, y ∈ D -> ent s' y = ent s y) /\ same_hosts s s'.
Proof.
  intros [G1 HB HI HD HP [F1 F2 F3] Hx [HxD HxF] HA HE] Hc Hp Hf.
  destruct (thread_ok T s x e D G1 HB HI Hx HxD Hc (pr_rw _ Hp)) as (s2 & E2 & G2 & Hr & HI2 & Hxe & Hye).
  { intros k Hk. split; [by apply Hp | apply Hf; lia]. }
  assert (HyP : forall y, y ∈ D -> ent s2 y = ent s y) by (intros y Hy; by rewrite Hye by (auto || by intros ->)).
  assert (Hxp : plain e = plain (ent s2 x)) by done.
  exists s2. split; [done | split; [| split; [done | split; [done | by apply rest_hosts]]]].
  split; [done | | done | | | | |].
  - intros y [->%elem_of_singleton | Hy]%elem_of_union; [done | by apply HB].
  - intros k y z Hk Hy Hz Ky Kz E. destruct (plain_key _ _ k Hxp Hk) as (P1 & P2 & _).
    apply elem_of_union in Hy as [->%elem_of_singleton | Hy], Hz as [->%elem_of_singleton | Hz]; [done | | |].
    + exfalso. rewrite (HyP z) in * by done. rewrite <- P1 in E. by apply (Hf k Hk z Hz Kz).
    + exfalso. rewrite (HyP y) in * by done. rewrite <- P1 in E. by apply (Hf k Hk y Hy Ky).
    + rewrite !HyP in * by done. by apply (HD k y z).
  - intros y [->%elem_of_singleton | Hy]%elem_of_union; [by apply (plain_proper e) |]. rewrite HyP by done. by apply HP.
  - split; [| done |].
    + injection Hr as _ _ -> _ _ _ _ _ _ _ _ _. apply (links_frame _ _ _ _ F1). intros y Hy.
      rewrite Hye; [done | apply block_piece, F3, Hy | by intros ->].
    + intros y Hy. destruct (F3 y Hy) as (B1 & B2 & B3). assert (y <> x) by (by intros ->).
      rewrite Hye by auto. split; [done | split; [set_solver | done]].
  - intros y Hy. destruct (HA y Hy) as [? | [? | ->]]; set_solver.
  - intros y Hy. assert (y <> x) by (intros ->; by apply (block_not_ext T _ _ x (g_tiled _ _ G2) Hx)).
    rewrite Hye by (done || by exists VL_ADDREXTBLK_SIZE). by apply HE.
Qed.

Lemma RemoveEntry_ok little T s D F x : vldb T s D F -> x ∈ D ->
  exists s', RemoveEntry little 13 x (ent s x) s = Some (0, s') /\ vldb T s' (D ∖ {[x]}) (x :: F)
    /\ (forall y, y ∈ D -> y <> x -> plain (ent s' y) = plain (ent s y)) /\ same_hosts s s'.
Proof.
  intros [HG HB HI HD HP [F1 F2 F3] HA HE] Hx. pose proof (HB x Hx) as Hxb.
  destruct (unthread_ok T s x D HG HB HI Hx (pr_int _ (HP x Hx))) as (s1 & E1 & G1 & Hr & HI1 & Hpl & Hk).
  assert (HxF : x ∉ F) by (intros Hin; by apply F3 in Hin as (_ & ? & _)).
  assert (HF1 : freed T s1 (D ∖ {[x]}) F).
  { split; [| done |].
    - injection Hr as _ _ -> _ _ _ _ _ _ _ _ _. apply (links_frame _ _ _ _ F1). intros y Hy.
      rewrite Hk; [done | apply block_piece, F3, Hy | destruct (F3 y Hy); set_solver].
    - intros y Hy. destruct (F3 y Hy) as (B1 & B2 & B3). rewrite Hk by (auto || set_solver).
      split; [done | split; [set_solver | done]]. }
  destruct (FreeBlock_ok little T s1 _ F x G1 HF1 Hxb ltac:(set_solver) HxF) as (s2 & E2 & G2 & HF2 & Hs & Et & Eh & Ee).
  assert (Hpl2 : forall y, y ∈ D -> y <> x -> plain (ent s2 y) = plain (ent s y)).
  { intros y Hy Hne. rewrite Hs by auto. by apply Hpl, block_piece, HB. }
  exists s2. split; [| split; [| split; [done |]]].
  - unfold RemoveEntry, mbind_. rewrite E1. cbn [Z.eqb negb]. by rewrite E2.
  - split; [done | intros y Hy; apply HB; set_solver | | | | done | |].
    + intros k Hk4. apply (indexed_same k s1 s2); [| by intros i; apply tables_bucket | by apply HI1].
      intros y Hy. apply Hs; [apply block_piece, HB; set_solver | set_solver].
    + apply (distinct_plain s); [intros y Hy; apply Hpl2; set_solver |]. intros k y z Hk4 Hy Hz. apply HD; [done | set_solver ..].
    + intros y Hy. apply (plain_proper (ent s y)); [symmetry; apply Hpl2; set_solver | apply HP; set_solver].
    + intros y Hy. destruct (decide (y = x)) as [-> | Hne]; [right; left |]. destruct (HA y Hy) as [? | ?]; [left; set_solver | right; by right].
    + intros y Hy. assert (Hne : y <> x) by (intros ->; by apply (block_not_ext T _ _ x (g_tiled _ _ HG) Hxb)).
      rewrite Hs by (done || by exists VL_ADDREXTBLK_SIZE).
      rewrite (plain_flags _ _ (Hpl y ltac:(by exists VL_ADDREXTBLK_SIZE))). by apply HE.
  - apply (same_hosts_trans s s1); [by apply rest_hosts | by apply same_tables_hosts].
Qed.
