(* ===== verification/VlCreate.v ===== *)
(** The volume location server, making entries: addresses of servers, entries
    from what a client sends, and SVL_CreateEntryN on every branch. *)
From S2P Require Import Prelude Bytes UbikFile VlDb VlProcs VlSpec VlOps VlStore.

#[local] Open Scope ubik_scope.
#[local] Hint Resolve block_piece : core.

(** ** Addresses

    What giving a slot to an address leaves as it is. *)
Record addressed (s s' : st) : Prop := {
  ad_good : forall T, good T s -> good T s';
  ad_ent : forall y, HEADERSIZE <= y -> ent s' y = ent s y;
  ad_bucket : forall k i, bucket_of k (cheader s') i = bucket_of k (cheader s) i;
  ad_free : freePtr (cheader s') = freePtr (cheader s);
  ad_eof : eofPtr (cheader s') = eofPtr (cheader s);
  ad_io : io s' = io s
}.

#[export] Instance addressed_preorder : PreOrder addressed.
Proof.
  split; [by intros s |]. intros s1 s2 s3 [A1 A2 A3 A4 A5 A6] [B1 B2 B3 B4 B5 B6]. split; try congruence; [auto |].
  intros y Hy. by rewrite B2, A2.
Qed.

Lemma mapped_apart i j : i <> j -> mapped_pos i + 4 <= mapped_pos j \/ mapped_pos j + 4 <= mapped_pos i.
Proof. unfold mapped_pos. lia. Qed.

Definition slotted (i v : Z) (s : st) : st := St (set_host i v (set_mapped i v (cheader s))) (put (file s) (mapped_pos i) (be_bytes v)) (io s).

Lemma slotted_addressed i v s : 0 <= i <= MAXSERVERID -> 0 <= v < 4294967296 -> addressed s (slotted i v s).
Proof.
  intros Hi Hv. pose proof (mapped_pos_range i Hi) as Hp. assert (Es : sit_pos = 132116) by done. split; try done.
  - intros T [G1 G2 G3 G4 G5 [S1 S2 S3 S4]]. split; cbn [cheader file io slotted]; try done; [by apply byte_file_put |]. split.
    + transitivity (vital (cheader s)); [| done]. rewrite <- S1. apply bytes_ext. intros x Hx. apply byte_put_ne. lia.
    + intros k b Hk Hb. transitivity (bucket_of k (cheader s) b); [| done]. rewrite <- S2 by done. apply get32_ext.
      intros x Hx. apply byte_put_ne. rewrite length_be_bytes. pose proof (bucket_pos_range k b Hk Hb). lia.
    + intros j Hj. unfold mapped_addr. cbn [IpMappedAddr set_host set_mapped]. destruct (decide (j = i)) as [-> | Hne].
      * rewrite lookup_insert_eq, get32_put. cbn. rewrite u32_s32. by apply u32_small.
      * rewrite lookup_insert_ne by done. fold (mapped_addr (cheader s) j). rewrite <- S3 by done. f_equal.
        apply get32_ext. intros x Hx. apply byte_put_ne. rewrite length_be_bytes. destruct (mapped_apart i j); [done | lia ..].
    + transitivity (SIT (cheader s)); [| done]. rewrite <- S4. apply get32_ext. intros x Hx. apply byte_put_ne.
      rewrite length_be_bytes. lia.
  - intros y Hy. apply (vl_ent_apart s (mapped_pos i) (be_bytes v) y) with (h := cheader s). rewrite length_be_bytes.
    assert (1060 <= HEADERSIZE) by done. lia.
Qed.

Lemma free_slot_range h i : free_slot h = Some i -> 0 <= i <= MAXSERVERID.
Proof.
  unfold free_slot. destruct (list_find _ _) as [[n j] |] eqn:E; [| done]. intros [= <-].
  apply list_find_Some in E as (E & _ & _). unfold server_ids in E. rewrite list_lookup_fmap in E.
  apply fmap_Some in E as (m & E & ->). apply lookup_seq in E as [-> E]. unfold MAXSERVERID in *. lia.
Qed.

(** The slot of an address, found or given; or -1. *)
Lemma IpAddrToRelAddr_ok ipaddr s : io s = [] -> 0 <= ipaddr < 4294967296 ->
  exists r s', IpAddrToRelAddr ipaddr true s = Some (r, s') /\ addressed s s'.
Proof.
  intros Hio Hip. unfold IpAddrToRelAddr, mbind_, get_header.
  destruct (rel_scan _ _ _) as [r |]; [by exists r, s |]. destruct (free_slot (cheader s)) as [i |] eqn:E; [| by exists (-1), s].
  unfold set_header. rewrite write_ok by done. exists i, (slotted i ipaddr s).
  split; [done | apply slotted_addressed; [by eapply free_slot_range | done]].
Qed.

Lemma addressed_awaiting T s s' D F x : addressed s s' -> awaiting T s D F x -> awaiting T s' D F x.
Proof.
  intros [A1 A2 A3 A4 A5 A6] [H1 H2 H3 H4 H5 [F1 F2 F3] H7 H8 H9 H10].
  assert (He : forall y, piece T y -> ent s' y = ent s y) by (intros y Hy; apply A2; by apply (vl_block_range T s)).
  assert (HD : forall y, y ∈ D -> ent s' y = ent s y) by auto. split; try done.
  - by apply A1.
  - intros k Hk. apply (indexed_same k s s' D HD); [done | by apply H3].
  - apply (distinct_plain s); [| done]. intros y Hy. by rewrite HD.
  - intros y Hy. rewrite HD by done. by apply H5.
  - split; [| done |].
    + rewrite A4. apply (links_frame _ _ _ _ F1). intros y Hy. by rewrite He by (apply block_piece, F3, Hy).
    + intros y Hy. rewrite He by (apply block_piece, F3, Hy). by apply F3.
  - intros y Hy. rewrite He by by exists VL_ADDREXTBLK_SIZE. by apply H10.
Qed.

(** ** Entries from outside *)

(** What a client can send: arrays of their lengths, of machine words. *)
Record sent (x : nvldbentry) : Prop := {
  sn_number : length (x_serverNumber x) = 13%nat;
  sn_partition : length (x_serverPartition x) = 13%nat;
  sn_flags : length (x_serverFlags x) = 13%nat;
  sn_volumeId : length (x_volumeId x) = 3%nat /\ Forall int32 (x_volumeId x);
  sn_ints : int32 (x_cloneId x) /\ int32 (x_flags x);
  sn_name : Forall (fun c => 0 < c < 256) (x_name x)
}.

Lemma canonical_site i a b c e : canonical e -> 0 <= a < 256 -> 0 <= b < 256 -> 0 <= c < 256 -> canonical (set_site i a b c e).
Proof.
  intros [H1 H2 H3 [H4 H4'] [H5 H5'] [H6 H6']] Ha Hb Hc. split; try done; cbn [serverNumber serverPartition serverFlags set_site];
    (split; [by rewrite length_insert | by apply Forall_insert]).
Qed.

(** The sites leave the rest of an entry. *)
Definition same_head (e e' : nvlentry) : Prop := words e' = words e /\ name e' = name e.

#[export] Instance same_head_preorder : PreOrder same_head.
Proof. split; [by intros e |]. intros e1 e2 e3 [? ?] [? ?]. split; congruence. Qed.

Lemma set_sites_ok x n : forall i e s, io s = [] -> canonical e ->
  exists code e' s', set_sites_from x i n e s = Some ((code, e'), s') /\ addressed s s'
    /\ (code = 0 \/ code = VL_BADSERVER) /\ canonical e' /\ same_head e e'.
Proof.
  induction n as [| n IH]; intros i e s Hio He; cbn [set_sites_from].
  - exists 0, e, s. split; [done | split; [done | split; [by left | split; [done | done]]]].
  - unfold mbind_. destruct (IpAddrToRelAddr_ok (u32 (nth i (x_serverNumber x) 0)) s Hio) as (r & s1 & -> & HA); [apply u32_range |].
    destruct (r =? -1).
    + exists VL_BADSERVER, e, s1. split; [done | split; [done | split; [by right | done]]].
    + destruct (IH (S i) (set_site i (u8 r) (u8 (nth i (x_serverPartition x) 0)) (u8 (nth i (x_serverFlags x) 0)) e) s1)
        as (code & e' & s' & E & HA' & Hc & He' & Hh); [by rewrite (ad_io _ _ HA) | apply canonical_site; auto with width |].
      exists code, e', s'. split; [done | split; [by transitivity s1 | split; [done | split; [done | done]]]].
Qed.

Lemma blank_sites_ok n e : canonical e -> canonical (blank_sites n e) /\ same_head e (blank_sites n e).
Proof.
  unfold blank_sites. generalize (seq n (NMAXNSERVERS - n)). intros l. revert e. induction l as [| i l IH]; intros e He; [done |].
  cbn [fold_left]. destruct (IH (set_site i BADSERVERID BADSERVERID BADSERVERID e)) as [H1 H2].
  - apply canonical_site; (done || (unfold BADSERVERID; lia)).
  - split; [done |]. by transitivity (set_site i BADSERVERID BADSERVERID BADSERVERID e).
Qed.

(** *** The servers of the header *)

(** Every slot has the address that is on file. *)
Definition listed (h : vlheader) : Prop := forall i, 0 <= i <= MAXSERVERID -> host_addr h i = mapped_addr h i.

(** It is one address. *)
Definition single (h : vlheader) : Prop :=
  forall i, 0 <= i <= MAXSERVERID -> host_addr h i = mapped_addr h i /\ 0 <= host_addr h i < 4278190080.

(** An address that a slot can have. *)
Definition plain_addr (a : Z) : Prop := 0 < a < 4278190080.
Definition one_address (a : Z) : Prop := 0 < u32 a < 4278190080.

(** The server of slot [i] has the address [a], which may be one of several. *)
Definition serves (h : vlheader) (i a : Z) : Prop :=
  host_addr h i = a
  \/ multihomed (host_addr h i) = true
     /\ exists blk, ex_addr h !! mh_base (host_addr h i) = Some blk /\ has_addr a (ex_addrs blk (mh_index (host_addr h i))) = true.

(** A slot that stands for addresses that are not there. *)
Definition bad_slot (h : vlheader) (i : Z) : Prop :=
  multihomed (host_addr h i) = true
  /\ (VL_MAX_ADDREXTBLKS <= mh_base (host_addr h i) \/ VL_MHSRV_PERBLK <= mh_index (host_addr h i) \/ ex_addr h !! mh_base (host_addr h i) = None).

Definition free_slots (h : vlheader) : list Z := filter (fun i => mapped_addr h i = 0) server_ids.

(** The addresses of [l] cannot all have a slot: more of them are new than
    there are free slots, or the search comes to a bad slot. *)
Definition no_room (h : vlheader) (l : list Z) : Prop :=
  (exists i, i ∈ server_ids /\ bad_slot h i)
  \/ exists new, NoDup new /\ new ⊆ l /\ (forall a i, a ∈ new -> 0 <= i <= MAXSERVERID -> ~ serves h i a)
       /\ (length (free_slots h) < length new)%nat.

Lemma single_addr a : 0 <= a < 4278190080 -> multihomed a = false.
Proof.
  intros Ha. apply Z.eqb_neq. intros E. apply (f_equal (fun z => Z.shiftr z 24)) in E. rewrite Z.shiftr_land in E.
  change (Z.shiftr 4278190080 24) with (Z.ones 8) in E. rewrite Z.land_ones, Z.shiftr_div_pow2 in E by lia.
  change (2 ^ 24) with 16777216 in E. change (2 ^ 8) with 256 in E. change (Z.ones 8) with 255 in E. zdiv.
Qed.

Lemma server_ids_range i : i ∈ server_ids <-> 0 <= i <= MAXSERVERID.
Proof.
  unfold server_ids, MAXSERVERID. split.
  - intros (n & -> & Hn)%list_elem_of_fmap. apply elem_of_seq in Hn. lia.
  - intros Hi. apply list_elem_of_fmap. exists (Z.to_nat i). split; [lia | apply elem_of_seq; lia].
Qed.
Lemma server_ids_nodup : NoDup server_ids.
Proof. apply NoDup_fmap; [exact Nat2Z.inj | apply NoDup_ListNoDup, seq_NoDup]. Qed.

Lemma rel_scan_spec h a l : (forall i, i ∈ l -> i ∈ server_ids) ->
  match rel_scan h a l with
  | None => forall i, i ∈ l -> ~ serves h i a
  | Some r => r = -1 /\ (exists i, i ∈ server_ids /\ bad_slot h i) \/ r ∈ server_ids /\ serves h r a
  end.
Proof.
  induction l as [| i l IH]; intros Hl; cbn [rel_scan]; [by intros i ?%elem_of_nil |].
  specialize (IH ltac:(intros j Hj; apply Hl; by right)). pose proof (Hl i ltac:(left)) as Hi.
  destruct (Z.eqb_spec (host_addr h i) a) as [E | E]; [right; split; [done | by left] |].
  destruct (multihomed (host_addr h i)) eqn:Em.
  - destruct (Z.leb_spec VL_MAX_ADDREXTBLKS (mh_base (host_addr h i))); [left; split; [done |]; exists i; repeat split; auto |].
    destruct (Z.leb_spec VL_MHSRV_PERBLK (mh_index (host_addr h i))); [left; split; [done |]; exists i; repeat split; auto |].
    destruct (ex_addr h !! mh_base (host_addr h i)) as [blk |] eqn:Eb; [| left; split; [done |]; exists i; repeat split; auto].
    destruct (has_addr a _) eqn:Ea; [right; split; [done |]; right; split; [done | by exists blk] |].
    destruct (rel_scan h a l) as [r |]; [done |]. intros j [-> | Hj]%elem_of_cons; [| by apply IH].
    intros [? | (_ & blk' & E1 & E2)]; [done | congruence].
  - destruct (rel_scan h a l) as [r |]; [done |]. intros j [-> | Hj]%elem_of_cons; [| by apply IH].
    intros [? | (? & _)]; congruence.
Qed.

Lemma free_slot_spec h : match free_slot h with Some i => i ∈ free_slots h | None => free_slots h = [] end.
Proof.
  unfold free_slot, free_slots. destruct (list_find _ _) as [[n i] |] eqn:E; cbn.
  - apply list_find_Some in E as (E & E0 & _). apply list_elem_of_filter. split; [done | by eapply list_elem_of_lookup_2].
  - apply list_find_None in E. destruct (filter _ _) as [| i l] eqn:Ef; [done |].
    assert (Hi : i ∈ filter (fun i => mapped_addr h i = 0) server_ids) by (rewrite Ef; left).
    apply list_elem_of_filter in Hi as [H1 H2]. rewrite Forall_forall in E. by apply E in H1.
Qed.

(** The header [h] is [h0] with slots given to the addresses [new]. *)
Record grown (h0 h : vlheader) (new : list Z) : Prop := {
  gr_listed : listed h;
  gr_extents : ex_addr h = ex_addr h0;
  gr_slots : forall i, 0 <= i <= MAXSERVERID -> host_addr h i = host_addr h0 i \/ host_addr h0 i = 0 /\ host_addr h i ∈ new;
  gr_new : forall a, a ∈ new -> plain_addr a /\ (forall i, 0 <= i <= MAXSERVERID -> ~ serves h0 i a)
    /\ exists i, 0 <= i <= MAXSERVERID /\ host_addr h i = a;
  gr_nodup : NoDup new;
  gr_room : (length (free_slots h) + length new = length (free_slots h0))%nat
}.

Lemma grown_refl h : listed h -> grown h h [].
Proof. intros Hl. split; [done | done | by left | by intros a ?%elem_of_nil | constructor | cbn; lia]. Qed.

Lemma grown_serves h0 h new i a : grown h0 h new -> 0 <= i <= MAXSERVERID -> a <> 0 -> serves h0 i a -> serves h i a.
Proof.
  intros G Hi Ha HS. unfold serves in *. destruct (gr_slots _ _ _ G i Hi) as [-> | [E0 _]]; [by rewrite (gr_extents _ _ _ G) |].
  rewrite E0 in HS. destruct HS as [| [H _]]; [congruence | done].
Qed.

Lemma grown_bad h0 h new i : grown h0 h new -> 0 <= i <= MAXSERVERID -> bad_slot h i -> bad_slot h0 i.
Proof.
  intros G Hi HB. unfold bad_slot in *. rewrite (gr_extents _ _ _ G) in HB. destruct (gr_slots _ _ _ G i Hi) as [<- | [_ Hn]]; [done |].
  apply (gr_new _ _ _ G) in Hn as (Hp & _). unfold plain_addr in Hp. rewrite single_addr in HB by lia. by destruct HB.
Qed.

Lemma grown_fresh h0 h new a : grown h0 h new -> plain_addr a -> (forall i, i ∈ server_ids -> ~ serves h i a) ->
  a ∉ new /\ forall i, 0 <= i <= MAXSERVERID -> ~ serves h0 i a.
Proof.
  intros G Ha Hn. split.
  - intros (_ & _ & i & Hi & E)%(gr_new _ _ _ G). apply (Hn i); [by apply server_ids_range | by left].
  - intros i Hi HS. apply (Hn i); [by apply server_ids_range |]. eapply grown_serves; eauto. unfold plain_addr in Ha. lia.
Qed.

(** Headers of servers with one address each. *)
Lemma single_listed h : single h -> listed h.
Proof. intros Hs i Hi. by apply Hs. Qed.
Lemma grown_single h0 h new : single h0 -> grown h0 h new -> single h.
Proof.
  intros Hs G i Hi. split; [by apply G |]. destruct (gr_slots _ _ _ G i Hi) as [-> | [_ Hn]]; [by apply Hs |].
  apply (gr_new _ _ _ G) in Hn as (Hp & _). unfold plain_addr in Hp. lia.
Qed.
Lemma serves_single h i a : single h -> 0 <= i <= MAXSERVERID -> serves h i a -> host_addr h i = a.
Proof. intros Hs Hi [H | [H _]]; [done |]. by rewrite single_addr in H by (by apply Hs). Qed.

Lemma host_set h i a j : host_addr (set_host i a (set_mapped i a h)) j = if decide (j = i) then a else host_addr h j.
Proof. unfold host_addr. cbn. case_decide as E; [subst; by rewrite lookup_insert_eq | by rewrite lookup_insert_ne]. Qed.
Lemma mapped_set h i a j : mapped_addr (set_host i a (set_mapped i a h)) j = if decide (j = i) then a else mapped_addr h j.
Proof. unfold mapped_addr. cbn. case_decide as E; [subst; by rewrite lookup_insert_eq | by rewrite lookup_insert_ne]. Qed.

(** A free slot is given to a new address. *)
Lemma grown_more h0 h new i a : grown h0 h new -> plain_addr a -> (forall i, i ∈ server_ids -> ~ serves h i a) -> i ∈ free_slots h ->
  grown h0 (set_host i a (set_mapped i a h)) (a :: new).
Proof.
  intros G Ha Hn Hf. destruct (grown_fresh _ _ _ _ G Ha Hn) as [Hnew H0]. pose proof Hf as [Hm Hi%server_ids_range]%list_elem_of_filter.
  pose proof (gr_listed _ _ _ G i Hi) as Eh. rewrite Hm in Eh. unfold plain_addr in Ha. split.
  - intros j Hj. rewrite host_set, mapped_set. case_decide; [done | by apply G].
  - apply (gr_extents _ _ _ G).
  - intros j Hj. rewrite host_set. pose proof (gr_slots _ _ _ G j Hj) as HS. case_decide as Ej.
    + subst j. right. split; [| left]. destruct HS as [<- | [? _]]; done.
    + destruct HS as [? | [? ?]]; [by left | right; split; [done | by right]].
  - intros b [-> | Hb]%elem_of_cons.
    + split; [done | split; [done |]]. exists i. by rewrite host_set, decide_True.
    + destruct (gr_new _ _ _ G b Hb) as (P1 & P2 & j & Hj & E). split; [done | split; [done |]]. exists j. split; [done |].
      rewrite host_set, decide_False; [done |]. intros ->. unfold plain_addr in P1. lia.
  - constructor; [done | apply G].
  - rewrite <- (gr_room _ _ _ G). assert (P : free_slots h ≡ₚ i :: free_slots (set_host i a (set_mapped i a h))).
    { assert (Hni : i ∉ free_slots (set_host i a (set_mapped i a h))).
      { intros [E _]%list_elem_of_filter. rewrite mapped_set, decide_True in E by done. lia. }
      apply NoDup_Permutation; [apply NoDup_filter, server_ids_nodup | constructor; [done | apply NoDup_filter, server_ids_nodup] |].
      intros j. rewrite elem_of_cons. unfold free_slots. rewrite !list_elem_of_filter, mapped_set. case_decide as Ej; [subst j | naive_solver].
      split; [by left |]. intros _. by apply list_elem_of_filter in Hf. }
    rewrite P. cbn [length]. lia.
Qed.

Lemma slot_grown h0 a s r s' new : grown h0 (cheader s) new -> io s = [] -> plain_addr a -> IpAddrToRelAddr a true s = Some (r, s') ->
  exists new', grown h0 (cheader s') new' /\ new' ⊆ a :: new
    /\ (r = -1 /\ no_room h0 (a :: new) \/ 0 <= r <= MAXSERVERID /\ serves (cheader s') r a)
    /\ forall i b, 0 <= i <= MAXSERVERID -> b <> 0 -> serves (cheader s) i b -> serves (cheader s') i b.
Proof.
  intros G Hio Ha. unfold IpAddrToRelAddr, mbind_, get_header. pose proof (rel_scan_spec (cheader s) a server_ids ltac:(done)) as HR.
  destruct (rel_scan _ _ _) as [r0 |].
  - intros [= <- <-]. exists new. split; [done | split; [by right | split; [| done]]].
    destruct HR as [[-> (i & Hi & HB)] | [H1%server_ids_range H2]]; [| by right]. left. split; [done |]. left. exists i.
    split; [done |]. eapply grown_bad; [exact G | by apply server_ids_range | done].
  - pose proof (free_slot_spec (cheader s)) as Hf. destruct (free_slot (cheader s)) as [i |].
    + unfold set_header. rewrite write_ok by done. intros [= <- <-]. exists (a :: new). pose proof Hf as [Hm Hi%server_ids_range]%list_elem_of_filter. cbn [Z.eqb negb cheader].
      split; [by apply grown_more | split; [done | split]].
      * right. split; [done |]. left. by rewrite host_set, decide_True.
      * intros j b Hj Hb HS. unfold serves in *. rewrite host_set. cbn [ex_addr set_host set_mapped]. case_decide as Ej; [| done]. subst j.
        rewrite (gr_listed _ _ _ G i Hi), Hm in HS. destruct HS as [| [HS _]]; done.
    + intros [= <- <-]. exists new. split; [done | split; [by right | split; [| done]]]. left. split; [done |]. right.
      destruct (grown_fresh _ _ _ _ G Ha HR) as [Hnew H0]. exists (a :: new). split; [constructor; [done | apply G] | split; [done | split]].
      * intros b j [-> | Hb]%elem_of_cons Hj; [by apply H0 | by apply (gr_new _ _ _ G)].
      * pose proof (gr_room _ _ _ G) as E. rewrite Hf in E. cbn in *. lia.
Qed.

(** What a client sends, with servers that have an address. *)
Record addressable (x : nvldbentry) : Prop := {
  ab_count : 0 < nServers x <= 13;
  ab_address : forall j, (j < Z.to_nat (nServers x))%nat -> one_address (nth j (x_serverNumber x) 0)
}.

(** The addresses that are sent. *)
Definition addresses (x : nvldbentry) : list Z := map (fun j => u32 (nth j (x_serverNumber x) 0)) (seq 0 (Z.to_nat (nServers x))).

Lemma addresses_elem x j : (j < Z.to_nat (nServers x))%nat -> u32 (nth j (x_serverNumber x) 0) ∈ addresses x.
Proof. intros Hj. apply list_elem_of_fmap. exists j. split; [done | apply elem_of_seq; lia]. Qed.

(** A site of the entry is the one that was sent. *)
Definition site_at (h : vlheader) (x : nvldbentry) (e : nvlentry) (j : nat) : Prop :=
  0 <= nth j (serverNumber e) 0 <= MAXSERVERID /\ serves h (nth j (serverNumber e) 0) (u32 (nth j (x_serverNumber x) 0))
  /\ nth j (serverPartition e) 0 = u8 (nth j (x_serverPartition x) 0) /\ nth j (serverFlags e) 0 = u8 (nth j (x_serverFlags x) 0).

Lemma nth_set (l : list Z) i j v : (i < length l)%nat -> nth j (<[i := v]> l) 0 = if decide (j = i) then v else nth j l 0.
Proof.
  intros Hi. case_decide as E; [subst; by apply nth_lookup_Some, list_lookup_insert_eq |].
  rewrite !nth_lookup. by rewrite list_lookup_insert_ne.
Qed.

Lemma nth_site i a b c e j : canonical e -> (i < 13)%nat ->
  nth j (serverNumber (set_site i a b c e)) 0 = (if decide (j = i) then a else nth j (serverNumber e) 0)
  /\ nth j (serverPartition (set_site i a b c e)) 0 = (if decide (j = i) then b else nth j (serverPartition e) 0)
  /\ nth j (serverFlags (set_site i a b c e)) 0 = (if decide (j = i) then c else nth j (serverFlags e) 0).
Proof. intros [_ _ _ [H1 _] [H2 _] [H3 _]] Hi. cbn [serverNumber serverPartition serverFlags set_site]. rewrite !nth_set by lia. done. Qed.

Lemma site_at_frame h h' x e e' j : site_at h x e j -> one_address (nth j (x_serverNumber x) 0) ->
  (forall i b, 0 <= i <= MAXSERVERID -> b <> 0 -> serves h i b -> serves h' i b) ->
  nth j (serverNumber e') 0 = nth j (serverNumber e) 0 -> nth j (serverPartition e') 0 = nth j (serverPartition e) 0 ->
  nth j (serverFlags e') 0 = nth j (serverFlags e) 0 -> site_at h' x e' j.
Proof.
  intros (H1 & H2 & H3 & H4) Ha Hh E1 E2 E3. unfold site_at. rewrite E1, E2, E3. split; [done | split; [| done]].
  apply Hh; [done | | done]. unfold one_address in Ha. lia.
Qed.

Lemma set_sites_grown x h0 n : forall i e s code e' s' new, grown h0 (cheader s) new -> new ⊆ addresses x ->
  io s = [] -> canonical e -> (i + n = Z.to_nat (nServers x))%nat -> (i + n <= 13)%nat ->
  (forall j, (j < i + n)%nat -> one_address (nth j (x_serverNumber x) 0)) -> (forall j, (j < i)%nat -> site_at (cheader s) x e j) ->
  set_sites_from x i n e s = Some ((code, e'), s') ->
  code = VL_BADSERVER /\ no_room h0 (addresses x)
  \/ code = 0 /\ (exists new', grown h0 (cheader s') new' /\ new' ⊆ addresses x) /\ forall j, (j < i + n)%nat -> site_at (cheader s') x e' j.
Proof.
  induction n as [| n IH]; intros i e s code e' s' new G HN Hio He Hn Hl Ha Hj; cbn [set_sites_from].
  - intros [= <- -> ->]. right. split; [done | split; [by exists new |]]. intros j Hlt. apply Hj. lia.
  - pose proof (Ha i ltac:(lia)) as Hai. pose proof (addresses_elem x i ltac:(lia)) as Hin.
    destruct (IpAddrToRelAddr_ok (u32 (nth i (x_serverNumber x) 0)) s Hio (u32_range _)) as (r & s1 & E1 & HA).
    erewrite bind_ok by exact E1. destruct (slot_grown h0 _ s r s1 new G Hio Hai E1) as (new1 & G1 & HN1 & Hr & Hold).
    assert (HN1' : new1 ⊆ addresses x) by set_solver. destruct Hr as [[-> HR] | [Hr HS]].
    + intros [= <- _ _]. left. split; [done |]. destruct HR as [| (D & D1 & D2 & D3)]; [by left | right]. exists D. split; [done | split; [set_solver | done]].
    + rewrite (proj2 (Z.eqb_neq r (-1))), (u8_small r) by (unfold MAXSERVERID in *; lia).
      set (e1 := set_site i r _ _ e). replace (i + S n)%nat with (S i + n)%nat in * by lia.
      intros E. refine (IH (S i) e1 s1 code e' s' new1 G1 HN1' _ _ Hn Hl Ha _ E); [by rewrite (ad_io _ _ HA) | |].
      { apply canonical_site; auto with width; unfold MAXSERVERID in *; lia. }
      intros j Hlt. destruct (nth_site i r (u8 (nth i (x_serverPartition x) 0)) (u8 (nth i (x_serverFlags x) 0)) e j He ltac:(lia)) as (N1 & N2 & N3).
      fold e1 in N1, N2, N3. destruct (decide (j = i)) as [-> | Hne].
      * unfold site_at. by rewrite N1, N2, N3.
      * apply (site_at_frame (cheader s) _ x e); try done; [apply Hj; lia | apply Ha; lia].
Qed.

(** The sites of an entry: as many as were sent, and no more. *)
Definition sited (h : vlheader) (x : nvldbentry) (e : nvlentry) : Prop :=
  (forall j, (j < Z.to_nat (nServers x))%nat -> site_at h x e j)
  /\ forall j, (Z.to_nat (nServers x) <= j < 13)%nat -> nth j (serverNumber e) 0 = BADSERVERID.

Lemma blank_sites_sited h x e : canonical e -> (Z.to_nat (nServers x) <= 13)%nat ->
  (forall j, (j < Z.to_nat (nServers x))%nat -> site_at h x e j) -> sited h x (blank_sites (Z.to_nat (nServers x)) e).
Proof.
  set (n := Z.to_nat (nServers x)). intros He Hn Hj. unfold blank_sites, sited. fold n.
  assert (H : forall m e, canonical e -> (n + m <= 13)%nat -> (forall j, (j < n)%nat -> site_at h x e j) ->
    let e' := fold_left (fun e i => set_site i BADSERVERID BADSERVERID BADSERVERID e) (seq n m) e in
    canonical e' /\ (forall j, (j < n)%nat -> site_at h x e' j) /\ forall j, (n <= j < n + m)%nat -> nth j (serverNumber e') 0 = BADSERVERID).
  { clear. induction m as [| m IH]; intros e He Hm Hj; cbv zeta; [cbn; split; [done | split; [done | lia]] |].
    rewrite seq_S, fold_left_app. cbn [fold_left]. destruct (IH e He ltac:(lia) Hj) as (H1 & H2 & H3).
    set (e' := fold_left _ _ _) in *.
    assert (N := fun j => nth_site (n + m) BADSERVERID BADSERVERID BADSERVERID e' j H1 ltac:(lia)).
    split; [apply canonical_site; (done || (unfold BADSERVERID; lia)) | split].
    - intros j Hlt. destruct (N j) as (N1 & N2 & N3). rewrite decide_False in N1, N2, N3 by lia.
      destruct (H2 j Hlt) as (A1 & A2 & A3 & A4). unfold site_at. by rewrite N1, N2, N3.
    - intros j Hlt. destruct (N j) as (-> & _). case_decide; [done |]. apply H3. lia. }
  destruct (H (NMAXNSERVERS - n)%nat e He ltac:(unfold NMAXNSERVERS; lia) Hj) as (_ & H2 & H3). split; [done |].
  intros j Hlt. apply H3. unfold NMAXNSERVERS. lia.
Qed.

Lemma sited_plain h h' x e e' : plain e = plain e' -> HostAddress h' = HostAddress h -> ex_addr h' = ex_addr h -> sited h x e -> sited h' x e'.
Proof.
  intros E Eh Ex. injection E as _ _ E1 E2 E3. unfold sited, site_at, serves, host_addr. by rewrite Eh, Ex, E1, E2, E3.
Qed.

Lemma strncpy_run s : Forall (fun c => 0 < c < 256) s -> run_of 65 (strncpy_field 65 s) /\ ((length s < 65)%nat -> cstring (strncpy_field 65 s) = s).
Proof.
  intros Hs. assert (Hz : Forall (fun c => c <> 0) s) by (eapply Forall_impl; [exact Hs |]; cbn; lia).
  assert (E : cstring s = s) by (rewrite <- (cstring_app s 0 Hz) at 2; by rewrite app_nil_r).
  unfold strncpy_field. rewrite E. split; [split |].
  - rewrite length_app, length_replicate, length_take. lia.
  - apply Forall_app_2; [apply Forall_take; eapply Forall_impl; [exact Hs |]; cbn; lia | apply Forall_replicate; lia].
  - intros Hl. rewrite take_ge by lia. by apply cstring_app.
Qed.

(** The entry has what the client sent. *)
Definition made_from (x : nvldbentry) (e : nvlentry) : Prop :=
  cstring (name e) = x_name x /\ (forall k, (k < 3)%nat -> word k e = nth k (x_volumeId x) 0) /\ flags e = x_flags x /\ word 6 e = x_cloneId x.

(** What is new of the header and the entry, when the sites are set. *)
Definition entered (h0 h : vlheader) (x : nvldbentry) (e : nvlentry) : Prop :=
  (exists new, grown h0 h new /\ new ⊆ addresses x) /\ sited h x e.

Lemma set_sites_ends x e s code e' s' : listed (cheader s) -> addressable x -> io s = [] -> canonical e ->
  set_sites_from x 0 (Z.to_nat (nServers x)) e s = Some ((code, e'), s') ->
  code = VL_BADSERVER /\ no_room (cheader s) (addresses x)
  \/ code = 0 /\ (exists new, grown (cheader s) (cheader s') new /\ new ⊆ addresses x)
     /\ forall j, (j < Z.to_nat (nServers x))%nat -> site_at (cheader s') x e' j.
Proof.
  intros Hs [HX1 HX2] Hio He. apply (set_sites_grown x (cheader s) (Z.to_nat (nServers x)) 0 e s code e' s' []); [by apply grown_refl | | done | done | lia | lia | done | lia].
  by intros a ?%elem_of_nil.
Qed.

(** The servers of a header. *)
Definition same_servers (h h' : vlheader) : Prop :=
  IpMappedAddr h' = IpMappedAddr h /\ HostAddress h' = HostAddress h /\ ex_addr h' = ex_addr h.

Lemma same_hosts_servers s s' : same_hosts s s' -> same_servers (cheader s) (cheader s').
Proof. by intros (H1 & _ & H2 & H3). Qed.

Lemma listed_same h h' : same_servers h h' -> listed h -> listed h'.
Proof. intros (E1 & E2 & E3). unfold listed, host_addr, mapped_addr. by rewrite E1, E2. Qed.
Lemma no_room_same h h' l : same_servers h h' -> no_room h' l -> no_room h l.
Proof. intros (E1 & E2 & E3). unfold no_room, bad_slot, serves, free_slots, host_addr, mapped_addr. by rewrite E1, E2, E3. Qed.
Lemma grown_same h0 h0' h h' new : same_servers h0 h0' -> same_servers h h' -> grown h0' h new -> grown h0 h' new.
Proof.
  intros (A1 & A2 & A3) (B1 & B2 & B3) [G1 G2 G3 G4 G5 G6].
  split; unfold listed, serves, free_slots, host_addr, mapped_addr in *; rewrite ?A1, ?A2, ?A3, ?B1, ?B2, ?B3 in *; try done.
Qed.
Lemma entered_same h0 h0' h h' x e e' : same_servers h0 h0' -> same_servers h h' -> plain e = plain e' -> entered h0' h x e -> entered h0 h' x e'.
Proof.
  intros H0 H E [(new & G & HN) HS]. split; [exists new; split; [by eapply grown_same | done] |].
  destruct H as (_ & E1 & E2). by apply (sited_plain h _ x e).
Qed.

Lemma to_vlentry_ok x e s : sent x -> (length (x_name x) < 65)%nat -> io s = [] -> canonical e ->
  exists code e' s', nvldbentry_to_vlentry x e s = Some ((code, e'), s') /\ addressed s s'
    /\ (code = VL_BADSERVER /\ (listed (cheader s) -> addressable x -> no_room (cheader s) (addresses x))
       \/ code = 0 /\ canonical e' /\ made_from x e' /\ (listed (cheader s) -> addressable x -> entered (cheader s) (cheader s') x e')).
Proof.
  intros [S1 S2 S3 [S4 S4'] [S5 S6] S7] Hn Hio He. unfold nvldbentry_to_vlentry.
  destruct (strncpy_run (x_name x) S7) as [Hr Hc].
  set (e1 := if bool_decide _ then e else _).
  assert (H1 : canonical e1 /\ cstring (name e1) = x_name x).
  { unfold e1. case_bool_decide as Eb; [done |]. destruct He as [H1 H2 H3 H4 H5 H6]. split; [by split | by apply Hc]. }
  destruct H1 as [He1 Hn1].
  destruct (set_sites_ok x (Z.to_nat (nServers x)) 0 e1 s Hio He1) as (code & e2 & s' & E2 & HA & Hcode & He2 & [Hw2 Hn2]).
  pose proof (fun Hs Hx => set_sites_ends x e1 s code e2 s' Hs Hx Hio He1 E2) as HG.
  erewrite bind_ok by exact E2. destruct Hcode as [-> | ->].
  2: { exists VL_BADSERVER, e2, s'. split; [done | split; [done | left; split; [done |]]]. intros Hs Hx. by destruct (HG Hs Hx) as [[_ ?] | [? _]]. }
  cbn [Z.eqb negb]. destruct (blank_sites_ok (Z.to_nat (nServers x)) e2 He2) as [He3 [Hw3 Hn3]].
  assert (Hs3 : listed (cheader s) -> addressable x -> entered (cheader s) (cheader s') x (blank_sites (Z.to_nat (nServers x)) e2)).
  { intros Hs Hx. destruct (HG Hs Hx) as [[? _] | (_ & HN & Hj)]; [done |]. split; [done |].
    apply blank_sites_sited; [done | destruct Hx; lia | done]. }
  set (e3 := blank_sites _ e2) in *. eexists 0, _, s'. split; [done | split; [done | right; split; [done |]]].
  assert (Hv : forall k, int32 (nth k (x_volumeId x) 0)).
  { intros k. destruct (nth_in_or_default k (x_volumeId x) 0) as [Hin | ->]; [| apply zero_int].
    rewrite Forall_forall in S4'. by apply S4', list_elem_of_In. }
  assert (Hcan : forall k v e, canonical e -> int32 v -> canonical (set_word k v e)) by (intros; by apply vl_canonical_set).
  split; [auto 10 |]. split; [| exact Hs3]. split; [by cbn [name set_word]; rewrite Hn3, Hn2 |].
  assert (HL : length (words e3) = 11%nat) by apply He3. destruct (words e3) as [| w0 [| w1 [| w2 [| w3 [| w4 [| w5 [| w6 ws]]]]]]] eqn:Ew; try done.
  unfold flags, word, set_word. cbn [words]. rewrite Ew. cbn. split; [| done].
  intros k Hk. assert (k = 0 \/ k = 1 \/ k = 2)%nat as [-> | [-> | ->]] by lia; done.
Qed.

(** ** SVL_CreateEntryN *)

Lemma FreeBlock_total little x s : io s = [] -> exists r s', FreeBlock little x s = Some (r, s') /\ io s' = [].
Proof.
  intros Hio. unfold FreeBlock, mbind_ at 1, get_header. destruct (negb (index_OK (cheader s) x)); [by exists VL_BADINDEX, s |].
  unfold mbind_ at 1, set_header. unfold mbind_ at 1. rewrite write_ok by done. cbn [Z.eqb negb]. unfold mbind_.
  rewrite write_vital_ok by done. by eexists 0, _.
Qed.

(** A transaction that fails leaves everything as it was. *)
Lemma aborted {A} (body : M (Z * A)) s code a s' : body s = Some ((code, a), s') -> code <> 0 -> io s = [] -> io s' = [] ->
  transaction body s = Some ((code, None), s).
Proof.
  intros E Hc Hio Hio'. unfold transaction. rewrite E, (proj2 (Z.eqb_neq code 0)) by done. cbn [negb]. rewrite Hio', <- Hio.
  by destruct s.
Qed.

Lemma committed {A} (body : M (Z * A)) s a s' : body s = Some ((0, a), s') -> io s' = [] -> transaction body s = Some ((0, Some a), s').
Proof. intros E Hio. unfold transaction. rewrite E. cbn [Z.eqb negb]. by rewrite ubik_call_ok. Qed.

Lemma check_name x : check_nvldbentry x = 0 -> (length (x_name x) < 65)%nat.
Proof.
  unfold check_nvldbentry, InvalidVolname. destruct (Nat.leb_spec VL_MAXNAMELEN (length (x_name x))); [done |]. done.
Qed.

(** What a client may send to have an entry made: identifiers that can be
    hashed, flags that do not make the block a free one, and a name that no
    suffix is taken off. *)
Record acceptable (x : nvldbentry) : Prop := {
  ac_sent : sent x;
  ac_rw : nth 0 (x_volumeId x) 0 <> 0;
  ac_int : forall k, (k < 3)%nat -> nth k (x_volumeId x) 0 <> INT_MIN;
  ac_flags : x_flags x <> VLFREE /\ x_flags x <> VLCONTBLOCK;
  ac_name : strip (x_name x) = x_name x
}.

Lemma made_proper x e : acceptable x -> made_from x e -> (length (x_name x) < 65)%nat -> proper e.
Proof.
  intros [S1 S2 S3 S4 S5] (M1 & M2 & M3 & M4) Hl. split.
  - by rewrite M2 by lia.
  - intros k Hk. rewrite M2 by done. by apply S3.
  - by rewrite M3.
  - by rewrite M1.
Qed.

(** The database of [D] has the identifier [volid] as one of type [k]. *)
Definition has_id (s : st) (D : gset Z) (k : nat) (volid : Z) : Prop := exists y, y ∈ D /\ word k (ent s y) = volid.
Definition has_named (s : st) (D : gset Z) (n : list Z) : Prop := exists y, y ∈ D /\ cstring (name (ent s y)) = n.

Lemma made_plain x e e' : plain e = plain e' -> made_from x e -> made_from x e'.
Proof.
  intros E (M1 & M2 & M3 & M4). pose proof E as E'. injection E' as _ En _ _ _. split; [by rewrite <- En | split; [| split]].
  - intros k Hk. rewrite <- (plain_word e e' k E ltac:(lia)). by apply M2.
  - by rewrite <- (plain_flags e e' E).
  - by rewrite <- (plain_word e e' 6 E ltac:(lia)).
Qed.

(** The procedure from the allocation on. *)
Definition enter_new (little : bool) (newentry : nvldbentry) (blockindex : Z) (tentry : nvlentry) : M (Z * unit) :=
  let* (errorcode, tentry) := nvldbentry_to_vlentry newentry tentry in
  if negb (errorcode =? 0) then let* _ := FreeBlock little blockindex in ret (errorcode, tt)
  else
    let* errorcode := ThreadVLentry 13 blockindex tentry in
    if negb (errorcode =? 0) then let* _ := FreeBlock little blockindex in ret (errorcode, tt)
    else ret (0, tt).

Lemma give_up_ok little b (code : Z) s : io s = [] ->
  exists s', mbind_ (FreeBlock little b) (fun _ => ret (code, tt)) s = Some ((code, tt), s') /\ io s' = [].
Proof. intros Hio. destruct (FreeBlock_total little b s Hio) as (r & s' & E & H). exists s'. split; [by erewrite bind_ok | done]. Qed.

Lemma enter_new_ok little T s D F b x : awaiting T s D F b -> acceptable x -> (length (x_name x) < 65)%nat ->
  ~ has_id s D 0 (nth 0 (x_volumeId x) 0) -> ~ has_named s D (x_name x) ->
  exists code s', enter_new little x b zero_entry s = Some ((code, tt), s') /\ io s' = [] /\
    (code = VL_BADSERVER /\ (listed (cheader s) -> addressable x -> no_room (cheader s) (addresses x))
     \/ code = VL_IDALREADYHASHED /\ (exists k, (k = 1 \/ k = 2)%nat /\ nth k (x_volumeId x) 0 <> 0 /\ has_id s D k (nth k (x_volumeId x) 0))
     \/ code = 0 /\ vldb T s' ({[b]} ∪ D) F /\ made_from x (ent s' b) /\ (forall y, y ∈ D -> ent s' y = ent s y)
       /\ (listed (cheader s) -> addressable x -> entered (cheader s) (cheader s') x (ent s' b))).
Proof.
  intros HW HA Hn Hid Hnm. unfold enter_new.
  destruct (to_vlentry_ok x zero_entry s (ac_sent _ HA) Hn (g_io _ _ (aw_good _ _ _ _ _ HW)) canonical_zero)
    as (code & e & s1 & E1 & HS & Hc).
  erewrite bind_ok by exact E1. cbn beta iota. pose proof (addressed_awaiting _ _ _ _ _ _ HS HW) as HW1.
  pose proof (g_io _ _ (aw_good _ _ _ _ _ HW1)) as Hio1.
  assert (He : forall y, y ∈ D -> ent s1 y = ent s y).
  { intros y Hy. apply (ad_ent _ _ HS). apply (vl_block_range T s1); [apply HW1 | by apply block_piece, HW1]. }
  destruct Hc as [[-> Hnr] | (-> & Hce & Hme & Hsi)].
  { destruct (give_up_ok little b VL_BADSERVER s1 Hio1) as (s2 & E2 & Hio2). exists VL_BADSERVER, s2.
    split; [exact E2 | split; [done | by left]]. }
  cbn [Z.eqb negb]. pose proof (made_proper x e HA Hme Hn) as Hp. destruct Hme as (M1 & M2 & M3 & M4).
  destruct (thread_clash T s1 b e D (aw_good _ _ _ _ _ HW1) (aw_blocks _ _ _ _ _ HW1) (aw_index _ _ _ _ _ HW1) (aw_block _ _ _ _ _ HW1) Hce (pr_rw _ Hp) (pr_int _ Hp))
    as [Hf | [(k & Hk & y & Hy & Ky & Ey) (s2 & E2 & Hio2)]].
  - destruct (insert_ok T s1 D F b e HW1 Hce Hp) as (s2 & E2 & HV & Hpl & Hsame & HS1%same_hosts_servers).
    { intros k Hk. destruct (decide (k = 3)%nat) as [-> |]; [| apply Hf; lia]. intros y Hy _ E. unfold key in E. cbn [Nat.eqb] in E.
      apply Hnm. exists y. split; [done |]. by rewrite <- He, E. }
    erewrite bind_ok by exact E2. exists 0, s2. split; [done | split; [apply HV | right; right]].
    split; [done | split; [done | split; [by apply (made_plain x e) | split]]].
    + intros y Hy. by rewrite Hsame, He.
    + intros Hs Hx. apply (entered_same (cheader s) (cheader s) (cheader s1) _ x e); [done .. | by apply Hsi].
  - erewrite bind_ok by exact E2. destruct (give_up_ok little b VL_IDALREADYHASHED s2 Hio2) as (s3 & E3 & Hio3).
    exists VL_IDALREADYHASHED, s3. split; [exact E3 | split; [done | right; left; split; [done |]]].
    rewrite He in Ky, Ey by done. unfold key, keyed in Ky, Ey. rewrite (proj2 (Nat.eqb_neq k 3)) in Ky, Ey by lia.
    injection Ey as Ey. rewrite M2 in Ey by done. cbn [orb] in Ky. rewrite Ey in Ky.
    assert (Hk0 : k <> 0%nat) by (intros ->; apply Hid; by exists y).
    exists k. split; [lia | split; [by apply Z.eqb_neq, negb_true_iff | by exists y]].
Qed.

(** Every branch. *)
Definition plain_servers (x : nvldbentry) : Prop := forall j, (j < Z.to_nat (nServers x))%nat -> one_address (nth j (x_serverNumber x) 0).

Lemma check_count x : check_nvldbentry x = 0 -> 0 < nServers x <= 13.
Proof.
  unfold check_nvldbentry. destruct (InvalidVolname _); [done |]. destruct (Z.leb_spec (nServers x) 0); [done |].
  destruct (Z.ltb_spec (Z.of_nat NMAXNSERVERS) (nServers x)); [done |]. unfold NMAXNSERVERS in *. lia.
Qed.

Lemma CreateEntryN_ok little T s D F x : vldb T s D F -> eofPtr (cheader s) + 148 <= INT_MAX -> acceptable x ->
  exists code r s', SVL_CreateEntryN little 13 x s = Some ((code, r), s') /\
    (s' = s /\ (code = check_nvldbentry x /\ code <> 0
       \/ code = VL_IDEXIST /\ has_id s D 0 (nth 0 (x_volumeId x) 0)
       \/ code = VL_NAMEEXIST /\ has_named s D (x_name x)
       \/ code = VL_BADSERVER /\ (listed (cheader s) -> plain_servers x -> no_room (cheader s) (addresses x))
       \/ code = VL_IDALREADYHASHED /\ exists k, (k = 1 \/ k = 2)%nat /\ nth k (x_volumeId x) 0 <> 0 /\ has_id s D k (nth k (x_volumeId x) 0))
     \/ code = 0 /\ check_nvldbentry x = 0 /\ ~ has_id s D 0 (nth 0 (x_volumeId x) 0) /\ ~ has_named s D (x_name x)
       /\ exists T' F' b, vldb T' s' ({[b]} ∪ D) F' /\ b ∉ D /\ made_from x (ent s' b) /\ (forall y, y ∈ D -> ent s' y = ent s y)
            /\ (listed (cheader s) -> plain_servers x -> entered (cheader s) (cheader s') x (ent s' b))).
Proof.
  intros HV He HA. pose proof HV as [HG HB HI _ _ _ _ _]. pose proof (g_io _ _ HG) as Hio.
  unfold SVL_CreateEntryN. destruct (Z.eqb_spec (check_nvldbentry x) 0) as [Hck | Hck]; cbn [negb].
  2: { exists (check_nvldbentry x), None, s. split; [done |]. left. split; [done | by left]. }
  pose proof (check_name x Hck) as Hn. set (rw := nth 0 (x_volumeId x) 0).
  destruct (FindByID_ok T s D 0 rw HG HB (HI 0%nat ltac:(lia)) ltac:(lia) (ac_rw _ HA) (ac_int _ HA 0%nat ltac:(lia))) as (y & ey & EF & Hy).
  destruct (FindByName_ok T s D (x_name x) HG HB (HI 3%nat ltac:(lia)) Hn) as (z & ez & EN & Hz).
  unfold found_name in Hz. rewrite (ac_name _ HA) in Hz.
  assert (Hrw : negb (rw =? 0) = true) by (apply negb_true_iff, Z.eqb_neq, HA).
  assert (Hnz : forall w, w ∈ D -> w =? 0 = false) by (intros w Hw; apply Z.eqb_neq, (vl_block_nonzero T s); auto).
  assert (Hbody : CreateEntryN_body little 13 x s = (if negb (y =? 0) then ret (VL_IDEXIST, tt)
     else if negb (z =? 0) then ret (VL_NAMEEXIST, tt)
     else mbind_ (AllocBlock little 13) (fun p => if p.1 =? 0 then ret (VL_CREATEFAIL, tt) else enter_new little x p.1 zero_entry)) s).
  { unfold CreateEntryN_body. fold rw. rewrite Hrw. change RWVOL with (Z.of_nat 0). erewrite bind_ok by exact EF. cbn [fst].
    destruct (y =? 0); [| done]. cbn [Z.eqb negb]. erewrite bind_ok by exact EN. cbn [fst].
    destruct (z =? 0); [| done]. cbn [Z.eqb negb]. apply bind_ext. by intros [b e]. }
  destruct Hy as [[-> Hy] | (Hy & -> & Ey)].
  2: { exists VL_IDEXIST, None, s. rewrite Hnz in Hbody by done.
    split; [eapply aborted; [exact Hbody | done ..] | left; split; [done | right; left; split; [done | by exists y]]]. }
  destruct Hz as [[-> Hz] | (Hz & -> & Ez)].
  2: { exists VL_NAMEEXIST, None, s. rewrite (Hnz z) in Hbody by done.
    split; [eapply aborted; [exact Hbody | done ..] | left; split; [done | right; right; left; split; [done | by exists z]]]. }
  cbn [Z.eqb negb] in Hbody.
  destruct (vl_alloc_ok little T s D F HV He) as (s1 & b & T' & F' & E1 & HW & Hb0 & He1 & HS1%same_hosts_servers).
  erewrite bind_ok in Hbody by exact E1. cbn [fst] in Hbody. rewrite (proj2 (Z.eqb_neq b 0)) in Hbody by done.
  assert (Hids : forall k v, has_id s1 D k v -> has_id s D k v) by (intros k v (w & Hw & E); exists w; by rewrite <- He1).
  assert (Hno : ~ has_id s D 0 rw) by (intros (w & Hw & E); by apply (Hy w)).
  assert (Hnm : ~ has_named s D (x_name x)) by (intros (w & Hw & E); by apply (Hz w)).
  destruct (enter_new_ok little T' s1 D F' b x HW HA Hn) as (code & s2 & E2 & Hio2 & Hc).
  { intros H. by apply Hno, Hids. }
  { intros (w & Hw & E). apply Hnm. exists w. by rewrite <- He1. }
  rewrite E2 in Hbody. destruct Hc as [[-> Hnr] | [[-> (k & Hk & Hk0 & Hki)] | (-> & HV2 & Hm & Hs & Hsi)]].
  - exists VL_BADSERVER, None, s. split; [eapply aborted; [exact Hbody | done ..] | left; split; [done | do 3 right; left; split; [done |]]].
    intros Hl Hp. apply (no_room_same _ _ _ HS1), Hnr; [by eapply listed_same | split; [by apply check_count | done]].
  - exists VL_IDALREADYHASHED, None, s. split; [eapply aborted; [exact Hbody | done ..] | left; split; [done | do 4 right; split; [done |]]].
    exists k. auto.
  - exists 0, (Some tt), s2. split; [eapply committed; [exact Hbody | done] |]. right. split; [done | split; [done | split; [done | split; [done |]]]].
    exists T', F', b. split; [done | split; [apply (aw_out _ _ _ _ _ HW) | split; [done | split]]].
    + intros w Hw. by rewrite Hs, He1.
    + intros Hl Hp. apply (entered_same _ (cheader s1) (cheader s2) _ x (ent s2 b)); [done .. |]. apply Hsi; [by eapply listed_same | split; [by apply check_count | done]].
Qed.

(** C32. SVL_CreateEntryN on every branch, in a database whose slots have the
    addresses on file, servers with several among them, for an entry with a
    read-write identifier, a name no suffix is taken off and servers with
    addresses a slot can have, when Ubik's calls succeed. What is not valid is
    refused with its code; an identifier or a name of the database, or a
    read-only or backup identifier that is one already, is refused, and so are
    servers when there are more new addresses than free slots or a slot stands
    for addresses that are not there: all with nothing changed. Otherwise the
    database has one more entry, in a block that was not in use, with the name,
    the identifiers and the flags that were sent and as many sites as were
    sent, each of a server with the address, on the partition and with the
    flags that were sent for it; the other entries are as they were, and slots
    are given to new addresses only, the servers known before keeping
    theirs. *)
Theorem CreateEntryN_spec little T s D F x : vldb T s D F -> eofPtr (cheader s) + 148 <= INT_MAX -> acceptable x ->
  listed (cheader s) -> plain_servers x ->
  exists code r s', SVL_CreateEntryN little 13 x s = Some ((code, r), s') /\
    (s' = s /\ (code = check_nvldbentry x /\ code <> 0
       \/ code = VL_IDEXIST /\ has_id s D 0 (nth 0 (x_volumeId x) 0)
       \/ code = VL_NAMEEXIST /\ has_named s D (x_name x)
       \/ code = VL_BADSERVER /\ no_room (cheader s) (addresses x)
       \/ code = VL_IDALREADYHASHED /\ exists k, (k = 1 \/ k = 2)%nat /\ nth k (x_volumeId x) 0 <> 0 /\ has_id s D k (nth k (x_volumeId x) 0))
     \/ code = 0 /\ check_nvldbentry x = 0 /\ ~ has_id s D 0 (nth 0 (x_volumeId x) 0) /\ ~ has_named s D (x_name x)
       /\ exists T' F' b, vldb T' s' ({[b]} ∪ D) F' /\ b ∉ D /\ made_from x (ent s' b) /\ sited (cheader s') x (ent s' b)
            /\ (forall y, y ∈ D -> ent s' y = ent s y)
            /\ exists new, grown (cheader s) (cheader s') new /\ new ⊆ addresses x).
Proof.
  intros HV He HA Hl Hp. destruct (CreateEntryN_ok little T s D F x HV He HA) as (code & r & s' & E & HR). exists code, r, s'.
  split; [done |]. destruct HR as [[-> HR] | (? & ? & ? & ? & T' & F' & b & ? & ? & ? & ? & HE)]; [left | right].
  - split; [done |]. destruct HR as [? | [? | [? | [[? HR] | ?]]]]; auto 10.
  - destruct (HE Hl Hp) as [HG HS]. do 4 (split; [done |]). exists T', F', b. auto 10.
Qed.
