(* ===== verification/VlInit.v ===== *)
(** The volume location server, the header and the extension blocks: CheckInit
    reads the header, or makes it, at the beginning of a transaction; the blocks
    of servers with several addresses are read by readExtents, made by
    GetExtentBlock and searched by FindExtentBlock (src/vlserver/vlutils.c). *)
From S2P Require Import Prelude Bytes UbikFile VlDb VlProcs VlSpec VlOps VlStore VlCreate.

#[local] Open Scope ubik_scope.
#[local] Hint Resolve block_piece : core.

Definition VLDBVERSION_4 : Z := 4.
Definition VLDBVERSION : Z := 3.
Definition OVLDBVERSION : Z := 2.
Definition VL_EMPTY : Z := 363525.
Definition VL_REPSFULL : Z := 363532.
Definition VL_BADVERSION : Z := 363548.
Definition VL_INDEXERANGE : Z := 363549.

(** ** The header from the file *)

Definition table (f : Z -> Z) (n : Z) : gmap Z Z := list_to_map (map (fun i => (Z.of_nat i, f (Z.of_nat i))) (seq 0 (Z.to_nat n))).
Definition id_table (m : gmap Z Z) : gmap (Z * Z) Z :=
  list_to_map (flat_map (fun t => map (fun i => ((t, Z.of_nat i), get32 m (volid_pos t (Z.of_nat i)))) (seq 0 (Z.to_nat HASHSIZE))) [0; 1; 2]).

(** The header that is on file, with what is kept beside it. *)
Definition read_header (m : gmap Z Z) (h : vlheader) : vlheader :=
  VlHeader (get32 m 0) (get32 m 4) (get32 m 8) (get32 m 12) (get32 m 16) (get32 m 20) (get32 m 24) (get_words m 28 3)
    (table (fun i => u32 (get32 m (mapped_pos i))) (MAXSERVERID + 1)) (table (fun i => get32 m (volname_pos i)) HASHSIZE) (id_table m)
    (get32 m sit_pos) (HostAddress h) (ex_addr h).

Definition set_hosts (v : gmap Z Z) (h : vlheader) : vlheader :=
  VlHeader (vldbversion h) (headersize h) (freePtr h) (eofPtr h) (allocs h) (frees h) (MaxVolumeId h) (totalEntries h)
    (IpMappedAddr h) (VolnameHash h) (VolidHash h) (SIT h) v (ex_addr h).
Definition set_exs (v : gmap Z (list Z)) (h : vlheader) : vlheader :=
  VlHeader (vldbversion h) (headersize h) (freePtr h) (eofPtr h) (allocs h) (frees h) (MaxVolumeId h) (totalEntries h)
    (IpMappedAddr h) (VolnameHash h) (VolidHash h) (SIT h) (HostAddress h) v.

(** The header as it is written, all of it. *)
Definition header_image (h : vlheader) : list Z :=
  vital h ++ concat (map be_bytes (map (mapped_addr h) server_ids ++ map (fun i => name_bucket h (Z.of_nat i)) (seq 0 (Z.to_nat HASHSIZE))
    ++ flat_map (fun t => map (fun i => id_bucket h t (Z.of_nat i)) (seq 0 (Z.to_nat HASHSIZE))) [0; 1; 2] ++ [SIT h])).

(** ** Extension blocks

    A block of 64 entries of 32 words: the first is the header of the block,
    with its flags and, in the first block, the addresses of all. *)
Definition EXBLOCK : nat := 2048%nat.
Definition ex_flags (blk : list Z) : Z := nth 3 blk 0.
Definition contaddr (blk : list Z) (i : Z) : Z := u32 (nth (Z.to_nat (4 + i)) blk 0).
Definition set_contaddr (i v : Z) (blk : list Z) : list Z := <[Z.to_nat (4 + i) := v]> blk.
Definition ex_block (h : vlheader) (i : Z) : list Z := default [] (ex_addr h !! i).

Definition read_block (a : Z) : M (Z * list Z) :=
  let* code := ubik_calls in
  if negb (code =? 0) then ret (code, []) else let* m := get_file in ret (0, get_words m a EXBLOCK).

(** The continuation blocks: the error, and whether the first was changed. *)
Fixpoint read_extents (l : list Z) (extent_mod : bool) : M (Z * bool) :=
  match l with
  | [] => ret (0, extent_mod)
  | i :: l' =>
      let* h := get_header in
      let blk0 := ex_block h 0 in
      let drop_it := set_ex 0 (set_contaddr i 0 blk0) in
      if contaddr blk0 i =? 0 then read_extents l' extent_mod
      else if (contaddr blk0 i <? u32 (contaddr blk0 (i - 1) + VL_ADDREXTBLK_SIZE))
              || (u32 (u32 (eofPtr h) - VL_ADDREXTBLK_SIZE) <? contaddr blk0 i) then
        let* _ := set_header drop_it in read_extents l' true
      else
        let* (code, blk) := read_block (contaddr blk0 i) in
        if negb (code =? 0) then let* _ := set_header (fun h => set_exs (delete i (ex_addr h)) h) in ret (VL_IO, extent_mod)
        else if negb (ex_flags blk =? VLCONTBLOCK) then
          let* _ := set_header drop_it in
          let* _ := set_header (fun h => set_exs (delete i (ex_addr h)) h) in read_extents l' true
        else let* _ := set_header (set_ex i blk) in read_extents l' extent_mod
  end.

Definition readExtents : M Z :=
  let* h := get_header in
  let extentAddr := u32 (SIT h) in
  if extentAddr =? 0 then ret 0
  else
    let* (code, blk) := read_block extentAddr in
    if negb (code =? 0) then let* _ := set_header (fun h => set_exs (delete 0 (ex_addr h)) h) in ret VL_IO
    else
      let* _ := set_header (set_ex 0 blk) in
      let* (error, extent_mod) := read_extents [1; 2; 3] false in
      if negb (error =? 0) then ret error
      else if extent_mod then
        let* h := get_header in
        let* _ := vlwrite extentAddr (concat (map be_bytes (ex_block h 0))) in ret 0
      else ret 0.

(** ** CheckInit

    [stale] is what ubik_CacheUpdate says of the header in memory. The error,
    and, without one, the number of sites of an entry. *)
Definition empty_header (h : vlheader) : vlheader :=
  VlHeader VLDBVERSION HEADERSIZE 0 HEADERSIZE 0 0 536870912 [0; 0; 0] ∅ ∅ ∅ 0 ∅ (ex_addr h).

Definition CheckInit (stale builddb : bool) : M (Z * option Z) :=
  let* (ubcode, error) :=
    if stale then
      let* ubcode := ubik_calls in
      let* m := get_file in
      let* _ := set_header (fun h => if ubcode =? 0 then read_header m h else h) in
      let* h := get_header in
      if (ubcode =? 0) && negb (vldbversion h =? 0) then
        let* _ := set_header (fun h => set_hosts (IpMappedAddr h) h) in
        let* code := readExtents in ret (ubcode, code)
      else ret (ubcode, 0)
    else ret (0, 0) in
  if negb (error =? 0) then ret (error, None)
  else
    let* h := get_header in
    let version := vldbversion h in
    let maxnservers := if (version =? 3) || (version =? 4) then 13 else 8 in
    if negb (ubcode =? 0) || (version =? 0) then
      if builddb then
        let* _ := set_header empty_header in
        let* h := get_header in
        let* code := vlwrite 0 (header_image h) in
        if negb (code =? 0) then ret (VL_IO, None) else ret (0, Some maxnservers)
      else ret (VL_EMPTY, None)
    else if negb (version =? VLDBVERSION) && negb (version =? OVLDBVERSION) && negb (version =? VLDBVERSION_4) then
      ret (VL_BADVERSION, None)
    else ret (0, Some maxnservers).

(** ** A database that is made *)

Lemma be_words_zero ws : Forall (eq 0) ws -> Forall (eq 0) (concat (map be_bytes ws)).
Proof.
  intros H. apply Forall_concat, Forall_fmap. eapply Forall_impl; [exact H |]. intros w <-. by repeat constructor.
Qed.

Definition table_words (h : vlheader) : list Z :=
  map (mapped_addr h) server_ids ++ map (fun i => name_bucket h (Z.of_nat i)) (seq 0 (Z.to_nat HASHSIZE))
  ++ flat_map (fun t => map (fun i => id_bucket h t (Z.of_nat i)) (seq 0 (Z.to_nat HASHSIZE))) [0; 1; 2] ++ [SIT h].

Lemma length_table_words h : Z.of_nat (length (table_words h)) = 33020.
Proof.
  unfold table_words, server_ids. cbn [flat_map]. rewrite !length_app, !length_map, !length_seq.
  change (length (@nil Z)) with 0%nat. change (length [SIT h]) with 1%nat. unfold HASHSIZE, MAXSERVERID. lia.
Qed.

Lemma empty_words h : Forall (eq 0) (table_words (empty_header h)).
Proof.
  unfold table_words, mapped_addr, name_bucket, id_bucket. cbn [flat_map]. repeat apply Forall_app_2;
    try (apply Forall_fmap, Forall_true; intros i; cbn; by rewrite ?lookup_empty); [done | by repeat constructor].
Qed.

Lemma empty_bucket h k i : bucket_of k (empty_header h) i = 0.
Proof. unfold bucket_of, name_bucket, id_bucket. cbn. destruct (k =? 3)%nat; by rewrite lookup_empty. Qed.

Lemma empty_mapped h i : mapped_addr (empty_header h) i = 0.
Proof. unfold mapped_addr. cbn. by rewrite lookup_empty. Qed.

Lemma zero_word m p : (forall x, p <= x < p + 4 -> byte m x = 0) -> get32 m p = 0.
Proof. intros H. unfold get32, bytes. cbn [seq map]. rewrite !H by lia. reflexivity. Qed.

Section build.
Context (h0 : vlheader) (m : gmap Z Z).
Let h := empty_header h0.
Let m' := put m 0 (header_image h).

Lemma built_vital : bytes m' 0 40 = vital h.
Proof.
  pose proof (bytes_put m 0 (header_image h)) as H. unfold header_image in H. fold (table_words h) in H.
  rewrite length_app in H. rewrite bytes_plus in H. apply app_inj_1 in H as [H _]; [done | by rewrite bytes_length |].
  apply Forall_app_2; apply be_words_range.
Qed.

Lemma built_zero x : 40 <= x < HEADERSIZE -> byte m' x = 0.
Proof.
  intros Hx. unfold m'. rewrite byte_put. unfold header_image. fold (table_words h).
  rewrite length_app, length_be_words. change (length (vital h)) with 40%nat.
  assert (E : HEADERSIZE = 132120) by done. pose proof (length_table_words h). rewrite decide_True by lia. rewrite app_nth2 by (change (length (vital h)) with 40%nat; lia).
  change (length (vital h)) with 40%nat. pose proof (be_words_zero _ (empty_words h0)) as Hz. fold h in Hz.
  set (l := concat _) in *. set (n := (_ - 40)%nat). destruct (decide (n < length l)%nat) as [Hn | Hn]; [| by rewrite nth_overflow by lia].
  destruct (lookup_lt_is_Some_2 l n Hn) as [v Hv]. rewrite (nth_lookup_Some _ _ _ _ Hv). rewrite Forall_lookup in Hz.
  by rewrite <- (Hz _ _ Hv).
Qed.

Lemma built_word p : 40 <= p -> p + 4 <= HEADERSIZE -> get32 m' p = 0.
Proof. intros H1 H2. apply zero_word. intros x Hx. apply built_zero. lia. Qed.

End build.

(** The database of a header without anything, wherever it comes from. *)
Lemma empty_vldb h0 m : byte_file m -> bytes m 0 40 = vital (empty_header h0) ->
  (forall p, 40 <= p -> p + 4 <= HEADERSIZE -> get32 m p = 0) -> vldb [] (St (empty_header h0) m []) ∅ [].
Proof.
  intros Hm Hv Hw. assert (E : HEADERSIZE = 132120) by done.
  assert (HG : good [] (St (empty_header h0) m [])).
  { split; cbn [cheader file io]; try done. split.
    - exact Hv.
    - intros k i Hk Hi. pose proof (bucket_pos_range k i Hk Hi). rewrite Hw by lia. symmetry. apply empty_bucket.
    - intros i Hi. pose proof (mapped_pos_range i Hi). rewrite Hw by lia. symmetry. apply empty_mapped.
    - assert (sit_pos = 132116) by done. rewrite Hw by lia. done. }
  split; [exact HG | by intros x ?%not_elem_of_empty | | | | | |].
  - intros k Hk. exists (fun _ => []). split; [| intros; constructor |].
    + intros i Hi. apply empty_bucket.
    + intros i x _. split; [by intros ?%not_elem_of_nil | by intros [? _]].
  - intros k x y _ ?%not_elem_of_empty. done.
  - by intros x ?%not_elem_of_empty.
  - split; [done | constructor | by intros x ?%not_elem_of_nil].
  - by intros x ?%not_elem_of_nil.
  - by intros x ?%not_elem_of_nil.
Qed.

Lemma empty_single h : single (empty_header h).
Proof. intros i _. unfold host_addr. rewrite empty_mapped. cbn. rewrite lookup_empty. cbn. lia. Qed.

(** CheckInit on a file without a header: it makes the empty database, the
    first that the invariant holds of, when it is asked to, and refuses
    otherwise, with nothing written; the number of sites of an entry that it
    leaves for this transaction is the one of the old version. *)
Theorem CheckInit_builds s builddb : io s = [] -> byte_file (file s) -> get32 (file s) 0 = 0 ->
  exists r s', CheckInit true builddb s = Some (r, s') /\
    if builddb then r = (0, Some 8) /\ vldb [] s' ∅ [] /\ MaxVolumeId (cheader s') = 536870912 /\ single (cheader s')
    else r = (VL_EMPTY, None) /\ file s' = file s.
Proof.
  intros Hio Hm H0. set (s1 := St (read_header (file s) (cheader s)) (file s) []).
  assert (E : CheckInit true builddb s = (if builddb then mbind_ (set_header empty_header) (fun _ => mbind_ get_header (fun h =>
      mbind_ (vlwrite 0 (header_image h)) (fun code => if negb (code =? 0) then ret (VL_IO, None) else ret (0, Some 8)))) else ret (VL_EMPTY, None)) s1).
  { unfold CheckInit, mbind_, set_header, get_header, get_file. rewrite ubik_calls_ok by done. cbn [Z.eqb andb cheader].
    change (vldbversion (read_header (file s) (cheader s))) with (get32 (file s) 0). rewrite H0. cbn [Z.eqb negb orb].
    unfold ret. cbn [cheader Z.eqb negb]. change (vldbversion (read_header (file s) (cheader s))) with (get32 (file s) 0). rewrite H0, Hio. reflexivity. }
  rewrite E. destruct builddb; [| exists (VL_EMPTY, None), s1; done].
  exists (0, Some 8), (St (empty_header (read_header (file s) (cheader s))) (put (file s) 0 (header_image (empty_header (read_header (file s) (cheader s))))) []).
  split; [| split; [done | split; [| split; [done | apply empty_single]]]].
  - unfold mbind_, set_header, get_header. rewrite write_ok by done. done.
  - apply empty_vldb; [by apply byte_file_put | apply built_vital | apply built_word].
Qed.

(** ** A header that is read again *)

Lemma lookup_table f n i : 0 <= i < n -> default 0 (table f n !! i) = f i.
Proof.
  intros Hi. unfold table. rewrite (elem_of_list_to_map_1 _ i (f i)); [done | |].
  - rewrite <- list_fmap_compose. apply NoDup_fmap_2_strong; [| apply NoDup_seq]. intros x y _ _ E. cbn in E. lia.
  - apply list_elem_of_fmap. exists (Z.to_nat i). rewrite Z2Nat.id by lia. split; [done |]. apply elem_of_seq. lia.
Qed.

Lemma lookup_id_table m t i : t ∈ [0; 1; 2] -> in_table i -> default 0 (id_table m !! (t, i)) = get32 m (volid_pos t i).
Proof.
  intros Ht Hi. unfold id_table. assert (Hn : Z.of_nat (Z.to_nat HASHSIZE) = 8191) by (unfold HASHSIZE; lia).
  unfold in_table in Hi. change HASHSIZE with 8191 in Hi. revert Hn. generalize (Z.to_nat HASHSIZE). intros n Hn.
  erewrite elem_of_list_to_map_1'; [done | |].
  - intros y Hy. apply list_elem_of_In, in_flat_map in Hy as (t' & _ & Hy). apply in_map_iff in Hy as (j & [= <- <- <-] & _). done.
  - apply list_elem_of_In, in_flat_map. exists t. split; [by apply list_elem_of_In |]. apply in_map_iff. exists (Z.to_nat i).
    rewrite Z2Nat.id by lia. split; [done |]. apply in_seq. lia.
Qed.

Definition vital_words (h : vlheader) : list Z :=
  [vldbversion h; headersize h; freePtr h; eofPtr h; allocs h; frees h; MaxVolumeId h] ++ totalEntries h.

Lemma read_words h m : bytes m 0 40 = vital h -> length (totalEntries h) = 3%nat -> Forall int32 (vital_words h) ->
  forall h', vital_words (read_header m h') = vital_words h.
Proof.
  intros Hb Hl Hi h'. unfold vital in Hb. fold (vital_words h) in Hb.
  assert (HL : length (vital_words h) = 10%nat) by (unfold vital_words; rewrite length_app, Hl; done).
  rewrite <- (get_words_image (vital_words h) m 0 Hi); rewrite HL; [done | exact Hb].
Qed.

(** The header read agrees with the one of the database. *)
Lemma read_synced h m h' : byte_file m -> synced h m -> length (totalEntries h) = 3%nat -> Forall int32 (vital_words h) ->
  synced (read_header m h') m /\ (forall k i, (k < 4)%nat -> in_table i -> bucket_of k (read_header m h') i = bucket_of k h i)
  /\ (forall i, 0 <= i <= MAXSERVERID -> mapped_addr (read_header m h') i = mapped_addr h i) /\ SIT (read_header m h') = SIT h.
Proof.
  intros Hm [S1 S2 S3 S4] Hl Hi. pose proof (read_words h m S1 Hl Hi h') as EW.
  assert (HB : forall k i, (k < 4)%nat -> in_table i -> bucket_of k (read_header m h') i = get32 m (bucket_pos k i)).
  { intros k i Hk Hin. unfold bucket_of, bucket_pos. destruct (Nat.eqb_spec k 3).
    - unfold name_bucket. cbn [VolnameHash read_header]. by rewrite lookup_table.
    - unfold id_bucket. cbn [VolidHash read_header]. apply lookup_id_table; [| done].
      assert (k = 0 \/ k = 1 \/ k = 2)%nat as [-> | [-> | ->]] by lia; set_solver. }
  assert (HM : forall i, 0 <= i <= MAXSERVERID -> mapped_addr (read_header m h') i = u32 (get32 m (mapped_pos i))).
  { intros i Hin. unfold mapped_addr. cbn [IpMappedAddr read_header]. rewrite lookup_table by lia. done. }
  split; [split |].
  - rewrite S1. unfold vital. fold (vital_words h). fold (vital_words (read_header m h')). by rewrite EW.
  - intros k i Hk Hin. by rewrite HB.
  - intros i Hin. by rewrite HM.
  - done.
  - split; [intros k i Hk Hin; by rewrite HB, S2 | split; [intros i Hin; by rewrite HM, S3 | exact S4]].
Qed.

(** The invariant is one of the file and of what the header says. *)
Lemma vldb_header T s D F h : vldb T s D F -> synced h (file s) -> (forall k i, (k < 4)%nat -> in_table i -> bucket_of k h i = bucket_of k (cheader s) i) ->
  freePtr h = freePtr (cheader s) -> eofPtr h = eofPtr (cheader s) -> length (totalEntries h) = 3%nat -> vldb T (St h (file s) []) D F.
Proof.
  intros [[G1 G2 G3 G4 G5 G6] HB HI HD HP [F1 F2 F3] HA HE] Hs Hb Ef Ee Hl. split; try done.
  - split; cbn [cheader file io]; try done; by rewrite Ee.
  - intros k Hk. destruct (HI k Hk) as [L HC]. exists L. apply (chain_frame k (ent s) _ (bucket_of k (cheader s)) _ D L HC); [done |].
    intros i Hi. by apply Hb.
  - split; [| done | done]. cbn [cheader]. by rewrite Ef.
Qed.

Lemma synced_hosts h m v : synced h m -> synced (set_hosts v h) m.
Proof. intros [A1 A2 A3 A4]. by split. Qed.

Lemma bucket_hosts k h v i : bucket_of k (set_hosts v h) i = bucket_of k h i.
Proof. done. Qed.

Lemma mapped_hosts h v i : mapped_addr (set_hosts v h) i = mapped_addr h i.
Proof. done. Qed.

(** CheckInit with a header in memory that is not the one on file (another
    server has committed, or a transaction has been aborted): whatever was in
    memory, the database is again the one of the file, with the addresses of
    its servers. *)
Theorem CheckInit_rereads T s D F h' builddb : vldb T s D F -> Forall int32 (vital_words (cheader s)) -> SIT (cheader s) = 0 ->
  vldbversion (cheader s) = VLDBVERSION \/ vldbversion (cheader s) = VLDBVERSION_4 ->
  exists s', CheckInit true builddb (St h' (file s) []) = Some ((0, Some 13), s') /\ file s' = file s /\ vldb T s' D F
    /\ vital_words (cheader s') = vital_words (cheader s)
    /\ forall i, 0 <= i <= MAXSERVERID -> mapped_addr (cheader s') i = mapped_addr (cheader s) i
         /\ host_addr (cheader s') i = mapped_addr (cheader s) i.
Proof.
  intros HV Hi HS Hver. pose proof (vd_good _ _ _ _ HV) as HG. pose proof (g_total _ _ HG) as Hl.
  destruct (read_synced (cheader s) (file s) h' (g_bytes _ _ HG) (g_synced _ _ HG) Hl Hi) as (H1 & H2 & H3 & H4).
  pose proof (read_words (cheader s) (file s) (sy_vital _ _ (g_synced _ _ HG)) Hl Hi h') as EW. pose proof EW as EW'.
  injection EW' as E0 _ E2 E3 _ _ _ ET. set (h1 := read_header (file s) h') in *. set (h2 := set_hosts (IpMappedAddr h1) h1).
  exists (St h2 (file s) []). split; [| split; [done | split; [| split; [done |]]]].
  - assert (Ev : vldbversion h1 = vldbversion (cheader s)) by done.
    assert (Hn0 : negb (vldbversion h1 =? 0) = true) by (rewrite Ev; by destruct Hver as [-> | ->]).
    unfold CheckInit, mbind_, set_header, get_header, get_file. rewrite ubik_calls_ok by done. cbn [Z.eqb andb cheader file]. fold h1.
    rewrite Hn0. unfold readExtents, mbind_, get_header. cbn [cheader]. change (SIT (set_hosts _ h1)) with (SIT h1). rewrite H4, HS.
    change (u32 0 =? 0) with true. cbn [Z.eqb negb ret cheader]. unfold ret. cbn [Z.eqb negb orb cheader]. change (vldbversion (set_hosts _ h1)) with (vldbversion h1).
    rewrite Ev. by destruct Hver as [-> | ->].
  - apply (vldb_header T s D F h2 HV); [| | exact E2 | exact E3 |].
    + by apply synced_hosts.
    + intros k i Hk Hin. unfold h2. rewrite bucket_hosts. by apply H2.
    + change (totalEntries h2) with (get_words (file s) 28 3). apply get_words_length.
  - intros i Hin. change (host_addr _ i) with (mapped_addr h1 i). cbn [cheader]. unfold h2. rewrite mapped_hosts.
    split; by apply H3.
Qed.
