(* ===== verification/VlServe.v ===== *)
(** The volume location server over the database: SVL_DeleteEntry, the sequence
    of entries and the removal of a server, locks on entries, new volume
    identifiers; and what fails: the layout of the old version, and the last
    slot of the server addresses. *)
From S2P Require Import Prelude Bytes UbikFile VlDb VlProcs VlSpec VlOps VlStore VlCreate.

#[local] Open Scope ubik_scope.
#[local] Hint Resolve block_piece : core.

(** ** Entries by identifier *)

(** The type that is asked for, or any. *)
Definition of_type (voltype : Z) (k : nat) : Prop := (k < 3)%nat /\ (voltype = -1 \/ voltype = Z.of_nat k).

Definition found_typed (s : st) (D : gset Z) (voltype volid x : Z) (e : nvlentry) : Prop :=
  x = 0 /\ (forall k, of_type voltype k -> ~ has_id s D k volid)
  \/ x ∈ D /\ e = ent s x /\ exists k, of_type voltype k /\ word k e = volid.

Lemma voltype_cases voltype : bad_voltype voltype = false -> voltype = -1 \/ exists k, (k < 3)%nat /\ voltype = Z.of_nat k.
Proof.
  unfold bad_voltype, InvalidVoltype, RWVOL, ROVOL, BACKVOL. intros H.
  destruct (Z.eqb_spec voltype (-1)); [by left | right]. destruct (Z.eqb_spec voltype 0); [exists 0%nat; lia |].
  destruct (Z.eqb_spec voltype 1); [exists 1%nat; lia |]. destruct (Z.eqb_spec voltype 2); [exists 2%nat; lia | done].
Qed.

(** The types one after the other. *)
Lemma find_types_ok T s D volid types : good T s -> blocks T D -> (forall k, (k < 4)%nat -> indexed k s D) -> volid <> 0 ->
  (forall k, k ∈ types -> (k < 3)%nat) ->
  exists x e, find_types 13 volid (Z.rem (Z.abs volid) HASHSIZE) (map Z.of_nat types) s = Some ((x, e, 0), s) /\
    (x = 0 /\ (forall k, k ∈ types -> ~ has_id s D k volid) \/ x ∈ D /\ e = ent s x /\ exists k, k ∈ types /\ word k e = volid).
Proof.
  intros HG HB HI Hv. induction types as [| t types IH]; intros Ht; cbn [map find_types].
  - exists 0, zero_entry. split; [done | left; split; [done |]]. by intros k ?%not_elem_of_nil.
  - pose proof (Ht t ltac:(left)) as Ht3.
    destruct (find_volid_ok T s D t volid HG HB (HI t ltac:(lia)) Ht3 Hv) as (x & e & E & HR). erewrite bind_ok by exact E.
    cbn [Z.eqb negb orb]. destruct HR as [[-> Hno] | (Hx & -> & Ew)].
    + cbn [Z.eqb negb]. destruct IH as (x & e' & E' & HR); [intros k Hk; apply Ht; by right |].
      exists x, e'. split; [done |]. destruct HR as [[-> Hall] | (Hx & -> & k & Hk & Ew)].
      * left. split; [done |]. intros k [-> | Hk]%elem_of_cons; [| by apply Hall]. intros (y & Hy & Ey). by apply (Hno y).
      * right. split; [done | split; [done |]]. exists k. split; [by right | done].
    + rewrite (proj2 (Z.eqb_neq x 0)) by (apply (vl_block_nonzero T s); auto). cbn [negb]. exists x, (ent s x).
      split; [done | right; split; [done | split; [done |]]]. exists t. split; [by left | done].
Qed.

Lemma FindByID_typed T s D voltype volid : good T s -> blocks T D -> (forall k, (k < 4)%nat -> indexed k s D) ->
  bad_voltype voltype = false -> volid <> 0 -> volid <> INT_MIN ->
  exists x e, FindByID 13 volid voltype s = Some ((x, e, 0), s) /\ found_typed s D voltype volid x e.
Proof.
  intros HG HB HI Hb Hv Hm. destruct (voltype_cases voltype Hb) as [-> | (k & Hk & ->)].
  - destruct (find_types_ok T s D volid [0; 1; 2]%nat HG HB HI Hv) as (x & e & E & HR); [intros k; set_solver by lia |].
    exists x, e. split.
    { unfold FindByID. rewrite (bind_ok _ _ s _ s (IDHash_ok volid s Hm)). exact E. }
    assert (Ht : forall k, of_type (-1) k <-> k ∈ [0; 1; 2]%nat).
    { intros k. unfold of_type. rewrite !elem_of_cons, elem_of_nil. lia. }
    destruct HR as [[-> Hall] | (Hx & -> & k & Hk & Ew)].
    + left. split; [done |]. intros k Hk. by apply Hall, Ht.
    + right. split; [done | split; [done |]]. exists k. by rewrite Ht.
  - destruct (FindByID_ok T s D k volid HG HB (HI k ltac:(lia)) Hk Hv Hm) as (x & e & E & HR). exists x, e. split; [done |].
    destruct HR as [[-> Hall] | (Hx & -> & Ew)].
    + left. split; [done |]. intros j [Hj [? | E']]; [lia |]. apply Nat2Z.inj in E' as <-. intros (y & Hy & Ey). by apply (Hall y).
    + right. split; [done | split; [done |]]. exists k. split; [split; [done | by right] | done].
Qed.

(** A procedure that begins with an entry, on the branches before its own. *)
Lemma with_entry_ok {A} (dflt : A) (k : Z -> nvlentry -> M (Z * A)) T s D F voltype volid :
  vldb T s D F -> bad_voltype voltype = false -> volid <> 0 -> volid <> INT_MIN ->
  with_entry 13 dflt volid voltype k s = Some ((VL_NOENT, dflt), s) /\ (forall j, of_type voltype j -> ~ has_id s D j volid)
  \/ exists x j, x ∈ D /\ of_type voltype j /\ word j (ent s x) = volid /\ with_entry 13 dflt volid voltype k s = k x (ent s x) s.
Proof.
  intros [HG HB HI _ _ _ _ _] Hb Hv Hm. destruct (FindByID_typed T s D voltype volid HG HB HI Hb Hv Hm) as (x & e & E & HR).
  unfold with_entry. erewrite bind_ok by exact E. cbn beta iota. destruct HR as [[-> Hno] | (Hx & -> & j & Hj & Ew)].
  - by left.
  - right. exists x, j. rewrite (proj2 (Z.eqb_neq x 0)) by (apply (vl_block_nonzero T s); auto). done.
Qed.

Lemma no_entry {A} (dflt : A) k s voltype volid :
  with_entry 13 dflt volid voltype k s = Some ((VL_NOENT, dflt), s) -> io s = [] ->
  transaction (with_entry 13 dflt volid voltype k) s = Some ((VL_NOENT, None), s).
Proof. intros E Hio. by eapply aborted. Qed.

(** C34. SVL_DeleteEntry on every branch: an identifier that no entry has, or a
    type that is none, is refused with nothing changed; otherwise the entry of
    the identifier, of the type or of any, is taken out of the database and its
    block is the first of the free list, the other entries being as they
    were. *)
Theorem DeleteEntry_spec little T s D F volid voltype : vldb T s D F -> volid <> 0 -> volid <> INT_MIN ->
  exists code r s', SVL_DeleteEntry little 13 volid voltype s = Some ((code, r), s') /\
    (s' = s /\ (code = VL_BADVOLTYPE /\ bad_voltype voltype = true
       \/ code = VL_NOENT /\ (forall k, of_type voltype k -> ~ has_id s D k volid)
       \/ code = VL_ENTDELETED /\ exists x k, x ∈ D /\ of_type voltype k /\ word k (ent s x) = volid /\ deleted (ent s x) = true)
     \/ code = 0 /\ exists x k, x ∈ D /\ of_type voltype k /\ word k (ent s x) = volid /\ deleted (ent s x) = false
          /\ vldb T s' (D ∖ {[x]}) (x :: F) /\ forall y, y ∈ D -> y <> x -> plain (ent s' y) = plain (ent s y)).
Proof.
  intros HV Hv Hm. pose proof (g_io _ _ (vd_good _ _ _ _ HV)) as Hio. unfold SVL_DeleteEntry.
  destruct (bad_voltype voltype) eqn:Hb; [exists VL_BADVOLTYPE, None, s; auto 6 |].
  set (k := fun b e => _). destruct (with_entry_ok tt k T s D F voltype volid HV Hb Hv Hm) as [[E Hno] | (x & j & Hx & Hj & Ew & E)].
  - exists VL_NOENT, None, s. split; [by apply no_entry | auto 6].
  - unfold k in E at 2. destruct (deleted (ent s x)) eqn:Hd.
    + exists VL_ENTDELETED, None, s. split; [by eapply aborted | left; split; [done | do 2 right; split; [done |]]]. eauto 6.
    + destruct (RemoveEntry_ok little T s D F x HV Hx) as (s' & ER & HV' & Hpl & _). erewrite bind_ok in E by exact ER.
      exists 0, (Some tt), s'. split; [eapply committed; [exact E | apply HV'] |]. right. split; [done |]. exists x, j. auto 7.
Qed.

(** ** The sequence of entries

    What a client does that lists the database: from the first entry on, until
    there is none. *)
Fixpoint walk_entries (blockindex : Z) (fuel : nat) : M (list Z) :=
  match fuel with
  | O => crash
  | S f =>
      let* (found, _) := NextEntry 13 blockindex in
      let '(next, _) := found in
      if next =? 0 then ret [] else let* l := walk_entries next f in ret (next :: l)
  end.

(** The blocks of entries, in their order in the file. *)
Definition entries (T : list (Z * Z)) (D : gset Z) : list Z := filter (fun x => x ∈ D) (map fst T).

(** A piece is an entry or one that the listing passes over, by its size. *)
Lemma piece_flags T s D F x n : vldb T s D F -> (x, n) ∈ T ->
  x ∈ D /\ n = ENTRYSIZE /\ flags (ent s x) <> VLCONTBLOCK /\ flags (ent s x) <> VLFREE
  \/ x ∉ D /\ n = ENTRYSIZE /\ flags (ent s x) = VLFREE \/ x ∉ D /\ n = VL_ADDREXTBLK_SIZE /\ flags (ent s x) = VLCONTBLOCK.
Proof.
  intros [HG HB _ _ HP [_ _ HF] HA HE] Hx. pose proof (tiled_range _ _ _ _ _ (g_tiled _ _ HG) Hx) as (_ & _ & Hn).
  destruct Hn as [-> | ->].
  - destruct (HA x Hx) as [Hin | Hin].
    + left. destruct (pr_flags _ (HP x Hin)). auto.
    + right; left. destruct (HF x Hin) as (_ & ? & ?). auto.
  - right; right. split; [| split; [done | by apply HE]]. intros Hin.
    by apply (block_not_ext T _ _ x (g_tiled _ _ HG) (HB x Hin)).
Qed.

Lemma next_from_ok T s D F : vldb T s D F -> forall T2 a fuel, (forall p, p ∈ T2 -> p ∈ T) -> tiled a T2 (eofPtr (cheader s)) ->
  (length T2 < fuel)%nat ->
  exists x e r, next_from 13 a (eofPtr (cheader s)) fuel s = Some ((x, e, r), s) /\
    (x = 0 /\ entries T2 D = [] \/ x ∈ D /\ e = ent s x /\ exists T3, entries T2 D = x :: entries T3 D
       /\ tiled (x + ENTRYSIZE) T3 (eofPtr (cheader s)) /\ (length T3 < length T2)%nat /\ forall p, p ∈ T3 -> p ∈ T).
Proof.
  intros HV. pose proof (vd_good _ _ _ _ HV) as HG. induction T2 as [| [y n] T2 IH]; intros a fuel HT Ht Hf.
  - destruct fuel as [| fuel]; [lia |]. cbn [tiled] in Ht. subst a. cbn [next_from]. rewrite Z.ltb_irrefl.
    exists 0, zero_entry, 0. split; [done | by left].
  - destruct fuel as [| fuel]; [cbn [length] in Hf; lia |]. pose proof (HT (y, n) ltac:(left)) as Hy.
    assert (Hlt : a < eofPtr (cheader s)) by (pose proof (tiled_range _ _ _ y n Ht ltac:(left)); lia).
    destruct Ht as (-> & _ & Ht). cbn [next_from length] in *. rewrite (proj2 (Z.ltb_lt _ _)) by done.
    erewrite bind_ok by (apply read_ok, HG). cbn [Z.eqb negb].
    assert (HT2 : forall p, p ∈ T2 -> p ∈ T) by (intros p Hp; apply HT; by right).
    assert (Hskip : a ∉ D -> entries ((a, n) :: T2) D = entries T2 D) by (intros; unfold entries; cbn [map fst]; by rewrite filter_cons_False).
    destruct (piece_flags T s D F a n HV Hy) as [(HD & -> & H1 & H2) | [(HD & -> & ->) | (HD & -> & ->)]].
    + rewrite (proj2 (Z.eqb_neq _ _)), (proj2 (Z.eqb_neq _ VLFREE)) by done. cbn [negb]. do 3 eexists. split; [done |].
      right. split; [done | split; [done |]]. exists T2. unfold entries. cbn [map fst]. rewrite filter_cons_True by done. auto with lia.
    + cbn [Z.eqb negb]. rewrite Hskip by done. destruct (IH (a + ENTRYSIZE) fuel HT2 Ht ltac:(lia)) as (x & e & r & E & HR).
      exists x, e, r. split; [done |]. destruct HR as [? | (? & ? & T3 & ? & ? & ? & ?)]; [by left | right].
      split; [done | split; [done |]]. exists T3. auto with lia.
    + rewrite Z.eqb_refl, Hskip by done. destruct (IH (a + VL_ADDREXTBLK_SIZE) fuel HT2 Ht ltac:(lia)) as (x & e & r & E & HR).
      exists x, e, r. split; [done |]. destruct HR as [? | (? & ? & T3 & ? & ? & ? & ?)]; [by left | right].
      split; [done | split; [done |]]. exists T3. auto with lia.
Qed.

Lemma chain_fuel_pieces T s : good T s -> (length T < chain_fuel (cheader s))%nat.
Proof. intros HG. pose proof (tiled_count T _ _ (g_tiled _ _ HG)). unfold chain_fuel. lia. Qed.

(** From an entry, or from none, the next one is the first of those ahead. *)
Definition ahead (T : list (Z * Z)) (s : st) (b : Z) (T2 : list (Z * Z)) : Prop :=
  (forall p, p ∈ T2 -> p ∈ T) /\ (length T2 <= length T)%nat
  /\ NextEntry 13 b s = next_from 13 (if b =? 0 then HEADERSIZE else b + ENTRYSIZE) (eofPtr (cheader s)) (chain_fuel (cheader s)) s
  /\ tiled (if b =? 0 then HEADERSIZE else b + ENTRYSIZE) T2 (eofPtr (cheader s)).

Lemma ahead_start T s : good T s -> ahead T s 0 T.
Proof. intros HG. split; [done | split; [done | split; [done | apply HG]]]. Qed.

Lemma next_ok T s D F b T2 : vldb T s D F -> ahead T s b T2 ->
  exists x e r, NextEntry 13 b s = Some ((x, e, r), s) /\
    (x = 0 /\ entries T2 D = [] \/ x ∈ D /\ x <> 0 /\ e = ent s x /\ exists T3, entries T2 D = x :: entries T3 D /\ ahead T s x T3).
Proof.
  intros HV (HT & Hl & E & Ht). pose proof (vd_good _ _ _ _ HV) as HG. pose proof (chain_fuel_pieces T s HG) as Hf.
  destruct (next_from_ok T s D F HV T2 _ (chain_fuel (cheader s)) HT Ht ltac:(lia)) as (x & e & r & EN & HR).
  exists x, e, r. split; [by rewrite E |]. destruct HR as [? | (Hx & Ee & T3 & E3 & Ht3 & Hl3 & HT3)]; [by left | right].
  pose proof (block_piece _ _ (vd_blocks _ _ _ _ HV x Hx)) as Hp. pose proof (vl_block_nonzero T s x HG Hp) as H0.
  split; [done | split; [done | split; [done |]]]. exists T3. split; [done |]. split; [done | split; [lia |]].
  unfold NextEntry, mbind_ at 1, get_header. rewrite (proj2 (Z.eqb_neq x 0)), (index_piece T s) by done. done.
Qed.

Lemma walk_ok T s D F fuel : vldb T s D F -> forall b T2, ahead T s b T2 -> (length (entries T2 D) < fuel)%nat ->
  walk_entries b fuel s = Some (entries T2 D, s).
Proof.
  intros HV. induction fuel as [| fuel IH]; intros b T2 HA Hf; [lia |]. cbn [walk_entries].
  destruct (next_ok T s D F b T2 HV HA) as (x & e & r & EN & HR). erewrite bind_ok by exact EN. cbn beta iota.
  destruct HR as [[-> ->] | (Hx & H0 & _ & T3 & E3 & HA3)]; [done |]. rewrite E3 in Hf |- *. cbn [length] in Hf.
  rewrite (proj2 (Z.eqb_neq x 0)) by done. erewrite bind_ok by (apply IH; [exact HA3 | lia]). done.
Qed.

Lemma tiled_nodup T : forall a e, tiled a T e -> NoDup (map fst T).
Proof.
  induction T as [| [y n] T IH]; intros a e Ht; [constructor |]. cbn [map fst]. destruct Ht as (-> & Hn & Ht).
  constructor; [| by eapply IH]. intros ((z & k) & Ez & Hz)%list_elem_of_fmap. cbn in Ez. subst z.
  pose proof (tiled_range _ _ _ _ _ Ht Hz). unfold ENTRYSIZE, VL_ADDREXTBLK_SIZE in Hn. lia.
Qed.

Lemma entries_spec T s D F : vldb T s D F -> NoDup (entries T D) /\ forall x, x ∈ entries T D <-> x ∈ D.
Proof.
  intros [HG HB _ _ _ _ _ _]. split; [eapply NoDup_filter, tiled_nodup, HG |].
  intros x. unfold entries. rewrite list_elem_of_filter. split; [by intros [? _] | intros Hx; split; [done |]].
  apply list_elem_of_fmap. exists (x, ENTRYSIZE). split; [done | by apply HB].
Qed.

(** Calling NextEntry from 0 on, each time with the index it gave, ends, and
    gives every entry of the database once and no other block: neither what is
    on the free list nor the blocks of server addresses between them. *)
Theorem NextEntry_lists T s D F fuel : vldb T s D F -> (size D < fuel)%nat ->
  exists l, walk_entries 0 fuel s = Some (l, s) /\ NoDup l /\ (forall x, x ∈ l <-> x ∈ D) /\ length l = size D.
Proof.
  intros HV Hf. destruct (entries_spec T s D F HV) as [HN He].
  assert (Hl : length (entries T D) = size D).
  { assert (E : D = list_to_set (entries T D)) by (apply set_eq; intros x; by rewrite elem_of_list_to_set, He).
    rewrite E at 2. by rewrite size_list_to_set. }
  exists (entries T D). split; [| done].
  apply (walk_ok T s D F); [done | by apply ahead_start, HV | by rewrite Hl].
Qed.

(** ** Removing a server *)

Lemma addressed_vldb T s s' D F : addressed s s' -> vldb T s D F -> vldb T s' D F.
Proof.
  intros [A1 A2 A3 A4 A5 A6] [HG HB HI HD HP [F1 F2 F3] HA HE].
  assert (He : forall y, piece T y -> ent s' y = ent s y) by (intros y Hy; apply A2; by apply (vl_block_range T s)).
  assert (HDe : forall y, y ∈ D -> ent s' y = ent s y) by auto. split; try done.
  - by apply A1.
  - intros k Hk. apply (indexed_same k s s' D HDe); [done | by apply HI].
  - apply (distinct_plain s); [| done]. intros y Hy. by rewrite HDe.
  - intros y Hy. rewrite HDe by done. by apply HP.
  - split; [| done |].
    + rewrite A4. apply (links_frame _ _ _ _ F1). intros y Hy. by rewrite He by (apply block_piece, F3, Hy).
    + intros y Hy. rewrite He by (apply block_piece, F3, Hy). by apply F3.
  - intros y Hy. rewrite He by by exists VL_ADDREXTBLK_SIZE. by apply HE.
Qed.

Definition uses (s : st) (D : gset Z) (i : Z) : Prop := exists x, x ∈ D /\ site_on i (serverNumber (ent s x)) = true.

Lemma server_used_ok T s D F i fuel : vldb T s D F -> forall b T2, ahead T s b T2 -> (length (entries T2 D) < fuel)%nat ->
  exists u, server_used 13 i b fuel s = Some (u, s) /\ if u then uses s D i else forall x, x ∈ entries T2 D -> site_on i (serverNumber (ent s x)) = false.
Proof.
  intros HV. induction fuel as [| fuel IH]; intros b T2 HA Hf; [lia |]. cbn [server_used].
  destruct (next_ok T s D F b T2 HV HA) as (x & e & r & EN & HR). erewrite bind_ok by exact EN. cbn beta iota.
  destruct HR as [[-> E2] | (Hx & H0 & -> & T3 & E3 & HA3)].
  - exists false. rewrite E2. split; [done |]. by intros x ?%not_elem_of_nil.
  - rewrite (proj2 (Z.eqb_neq x 0)) by done. destruct (site_on i (serverNumber (ent s x))) eqn:Es.
    { exists true. split; [done | by exists x]. }
    rewrite E3 in Hf |- *. cbn [length] in Hf. destruct (IH x T3 HA3 ltac:(lia)) as (u & E & HU). exists u. split; [done |].
    destruct u; [done |]. intros y [-> | Hy]%elem_of_cons; [done | by apply HU].
Qed.

(** SVL_ChangeAddr of -1 and an address removes the server of the address,
    if no entry of the database has a site on it; if one has, nothing is
    changed. *)
Theorem ChangeAddr_removes T s D F ip i : vldb T s D F -> 0 <= ip < 4278190080 -> addr_slot (cheader s) ip server_ids = Some (i, false) ->
  0 <= i < MAXSERVERID ->
  exists code r s', SVL_ChangeAddr 13 4294967295 ip s = Some ((code, r), s') /\
    (code = VL_IDEXIST /\ s' = s /\ uses s D i
     \/ code = 0 /\ ~ uses s D i /\ vldb T s' D F /\ mapped_addr (cheader s') i = 0 /\ host_addr (cheader s') i = 0
        /\ forall x, x ∈ D -> ent s' x = ent s x).
Proof.
  intros HV Hip Ha Hi. pose proof (vd_good _ _ _ _ HV) as HG. pose proof (g_io _ _ HG) as Hio.
  destruct (entries_spec T s D F HV) as [_ He].
  assert (Hmh : multihomed ip = false).
  { by apply single_addr. }
  destruct (server_used_ok T s D F i (chain_fuel (cheader s)) HV 0 T (ahead_start T s HG)) as (u & EU & HU).
  { pose proof (chain_fuel_pieces T s HG). unfold entries. pose proof (length_filter (fun x => x ∈ D) (map fst T)).
    rewrite length_map in *. lia. }
  unfold SVL_ChangeAddr. assert (E : mbind_ (ChangeIPAddr 13 (u32 4294967295) (u32 ip)) (fun code => ret (code, tt)) s
      = if u then Some ((VL_IDEXIST, tt), s) else Some ((0, tt), slotted i 0 s)).
  { change (u32 4294967295) with 4294967295. rewrite (u32_small ip) by lia. unfold ChangeIPAddr. rewrite Hmh. cbn [Z.eqb Pos.eqb]. cbn beta iota.
    unfold mbind_ at 1. unfold mbind_ at 1. unfold get_header. rewrite Ha. rewrite (proj2 (Z.eqb_neq i (-1))), (proj2 (Z.leb_gt _ _)) by lia. cbn [Z.eqb].
    unfold mbind_. rewrite EU. destruct u; [done |]. cbn [ret Z.eqb negb]. unfold ret, set_header. cbn [Z.eqb negb].
    rewrite write_ok by done. done. }
  pose proof (slotted_addressed i 0 s ltac:(unfold MAXSERVERID in *; lia) ltac:(lia)) as HS. destruct u.
  - exists VL_IDEXIST, None, s. split; [by eapply aborted | by left].
  - exists 0, (Some tt), (slotted i 0 s). split; [by eapply committed |]. right. split; [done |].
    split; [intros (x & Hx & Hs); apply He in Hx; by rewrite (HU x Hx) in Hs |]. split; [by eapply addressed_vldb |].
    unfold mapped_addr, host_addr. cbn. rewrite !lookup_insert_eq. split; [done | split; [done |]].
    intros x Hx. apply (ad_ent _ _ HS), (vl_block_range T s x HG), block_piece, HV, Hx.
Qed.

(** ** Locks on entries

    A change that leaves the identifiers, the name and the chains. *)
Definition marked (e e' : nvlentry) : Prop := name e' = name e /\ forall k, (k < 3 \/ 6 < k)%nat -> word k e' = word k e.

Lemma marked_word k v e e' : canonical e' -> (3 <= k < 6)%nat -> marked e e' -> marked e (set_word k v e').
Proof.
  intros Hc Hk [Hn Hw]. split; [done |]. intros j Hj. rewrite vl_word_set by (done || lia). rewrite decide_False by lia. by apply Hw.
Qed.

Lemma marked_key k e e' : (k < 4)%nat -> marked e e' -> key k e' = key k e /\ alike k e e'.
Proof.
  intros Hk [Hn Hw]. unfold alike, key, keyed, hash. rewrite Hn, (Hw (ptr k)) by (unfold ptr; lia).
  destruct (Nat.eqb_spec k 3); [done |]. by rewrite (Hw k) by lia.
Qed.

Lemma update_ok T s D F x e : vldb T s D F -> x ∈ D -> canonical e -> proper e -> marked (ent s x) e ->
  vldb T (wrote x (image_new e) s) D F /\ forall y, piece T y -> ent (wrote x (image_new e) s) y = if decide (y = x) then e else ent s y.
Proof.
  intros [HG HB HI HD HP [F1 F2 F3] HA HE] Hx Hc Hp Hm. pose proof (HB x Hx) as Hxb. set (s' := wrote _ _ _).
  assert (He : forall y, piece T y -> ent s' y = if decide (y = x) then e else ent s y) by (intros y Hy; apply (ent_wrote T); auto).
  assert (Ho : forall y, piece T y -> y <> x -> ent s' y = ent s y) by (intros y Hy Hne; by rewrite He, decide_False).
  assert (Hk : forall k y, (k < 4)%nat -> y ∈ D -> key k (ent s' y) = key k (ent s y) /\ alike k (ent s y) (ent s' y)).
  { intros k y Hk Hy. rewrite He by auto. case_decide as E; [subst; by apply marked_key | done]. }
  assert (HF : forall y, y ∈ F -> ent s' y = ent s y).
  { intros y Hy. destruct (F3 y Hy) as (B1 & B2 & _). apply Ho; [auto | by intros ->]. }
  split; [| done]. split; try done.
  - apply vl_wrote_good; [done | by apply (vl_block_range T s); auto].
  - intros k Hk4. destruct (HI k Hk4) as [L HC]. exists L. apply (chain_frame k (ent s) _ (bucket_of k (cheader s)) _ D L HC); [| done].
    intros y Hy. by apply Hk.
  - intros k y z Hk4 Hy Hz. destruct (Hk k y Hk4 Hy) as (-> & -> & _), (Hk k z Hk4 Hz) as (-> & -> & _). by apply HD.
  - intros y Hy. rewrite He by auto. case_decide; [done | by apply HP].
  - split; [| done |].
    + apply (links_frame _ _ _ _ F1). intros y Hy. by rewrite HF.
    + intros y Hy. rewrite HF by done. by apply F3.
  - intros y Hy. assert (y <> x) by (intros ->; by apply (block_not_ext T _ _ x (g_tiled _ _ HG) Hxb)).
    rewrite Ho by (done || by exists VL_ADDREXTBLK_SIZE). by apply HE.
Qed.

Lemma int32_sign v : int32 v <-> Z.shiftr v 31 = 0 \/ Z.shiftr v 31 = -1.
Proof. rewrite Z.shiftr_div_pow2 by lia. change (2 ^ 31) with 2147483648. unfold int32, INT_MIN, INT_MAX. zdiv. Qed.

Lemma int32_lor v w : int32 v -> int32 w -> int32 (Z.lor v w).
Proof.
  rewrite !int32_sign, Z.shiftr_lor. intros [-> | ->] [-> | ->]; [by left | by right ..].
Qed.

Lemma int32_land v w : int32 v -> int32 w -> int32 (Z.land v w).
Proof.
  rewrite !int32_sign, Z.shiftr_land. intros [-> | ->] [-> | ->]; [by left .. | by right].
Qed.

(** The operations, and the entry with a lock and without. *)
Lemma operation_cases voloper : InvalidOperation voloper = false -> voloper ∈ [VLOP_MOVE; VLOP_RELEASE; VLOP_BACKUP; VLOP_DELETE; VLOP_DUMP].
Proof.
  unfold InvalidOperation. repeat match goal with |- context [?a =? ?b] => destruct (Z.eqb_spec a b) as [-> |]; [set_solver |] end.
  done.
Qed.

Definition lock_entry (timestamp voloper : Z) (e : nvlentry) : nvlentry :=
  let e' := set_word 4 0 (set_word 5 timestamp e) in
  set_word 3 (Z.lor (Z.land (flags e') (Z.lnot VLOP_ALLOPERS)) voloper) e'.

Definition entry_locked (timestamp : Z) (e : nvlentry) : bool :=
  negb (word 5 e =? 0) && (s32 (timestamp - word 5 e) <? MAXLOCKTIME).

(** SVL_SetLock on an entry. *)
Definition lock_result (timestamp voloper x : Z) (s : st) : Z * st :=
  let e := ent s x in
  if deleted e then (VL_ENTDELETED, s)
  else if entry_locked timestamp e then (VL_ENTRYLOCKED, s)
  else if negb (Z.land (flags e) VLOP_RELEASE =? 0) then (VL_RERELEASE, s)
  else (0, wrote x (image_new (lock_entry timestamp voloper e)) s).

Lemma lock_entry_ok timestamp voloper e : canonical e -> proper e -> int32 timestamp -> InvalidOperation voloper = false ->
  canonical (lock_entry timestamp voloper e) /\ proper (lock_entry timestamp voloper e) /\ marked e (lock_entry timestamp voloper e)
  /\ word 5 (lock_entry timestamp voloper e) = timestamp /\ flags (lock_entry timestamp voloper e) = Z.lor (Z.land (flags e) (Z.lnot VLOP_ALLOPERS)) voloper.
Proof.
  intros Hc Hp Ht Hv. apply operation_cases in Hv.
  assert (Ho : int32 voloper /\ exists b, 4 <= b <= 8 /\ Z.testbit voloper b = true).
  { unfold VLOP_MOVE, VLOP_RELEASE, VLOP_BACKUP, VLOP_DELETE, VLOP_DUMP in Hv. unfold int32, INT_MIN, INT_MAX.
    repeat (apply elem_of_cons in Hv as [-> | Hv]); [split; [lia |] .. | by apply not_elem_of_nil in Hv];
      [exists 4 | exists 5 | exists 6 | exists 7 | exists 8]; done. }
  destruct Ho as [Hi (b & Hb & Hbit)]. unfold lock_entry. set (e1 := set_word 4 0 (set_word 5 timestamp e)).
  assert (H1 : canonical e1) by (apply vl_canonical_set; [by apply vl_canonical_set | apply zero_int]).
  assert (Ef : flags e1 = flags e).
  { unfold flags, e1. rewrite vl_word_set by (by apply vl_canonical_set || lia). rewrite decide_False by done.
    rewrite vl_word_set by (done || lia). by rewrite decide_False. }
  rewrite Ef. set (v := Z.lor _ voloper).
  assert (Hv32 : int32 v).
  { apply int32_lor; [apply int32_land; [by apply vl_word_int |] | done]. by split; vm_compute. }
  assert (HM : marked e (set_word 3 v e1)).
  { apply marked_word; [done | lia |]. apply marked_word; [by apply vl_canonical_set | lia |]. by apply marked_word; [| lia |]. }
  assert (Hf : flags (set_word 3 v e1) = v) by (unfold flags; rewrite vl_word_set by (done || lia); by rewrite decide_True).
  assert (Hvb : Z.testbit v b = true) by (unfold v; rewrite Z.lor_spec, Hbit; apply orb_true_r).
  split; [by apply vl_canonical_set | split; [| split; [done | split; [| done]]]].
  - destruct Hp as [P1 P2 P3 P4], HM as [M1 M2]. split.
    + by rewrite M2 by lia.
    + intros k Hk. rewrite M2 by lia. by apply P2.
    + rewrite Hf. unfold VLFREE, VLCONTBLOCK. split; intros E; rewrite E in Hvb;
        assert (b = 4 \/ b = 5 \/ b = 6 \/ b = 7 \/ b = 8) as [-> | [-> | [-> | [-> | ->]]]] by lia; done.
    + by rewrite M1.
  - rewrite vl_word_set by (done || lia). rewrite decide_False by done. unfold e1.
    rewrite vl_word_set by (by apply vl_canonical_set || lia). rewrite decide_False by done. rewrite vl_word_set by (done || lia). by rewrite decide_True.
Qed.

(** The entry of an identifier, of a type that is given. *)
Lemma with_entry_at {A} (dflt : A) (f : Z -> nvlentry -> M (Z * A)) T s D F x k :
  vldb T s D F -> x ∈ D -> (k < 3)%nat -> word k (ent s x) <> 0 -> word k (ent s x) <> INT_MIN ->
  with_entry 13 dflt (word k (ent s x)) (Z.of_nat k) f s = f x (ent s x) s.
Proof.
  intros HV Hx Hk H0 Hm. assert (Hb : bad_voltype (Z.of_nat k) = false) by (assert (k = 0 \/ k = 1 \/ k = 2)%nat as [-> | [-> | ->]] by lia; done).
  destruct (with_entry_ok dflt f T s D F (Z.of_nat k) (word k (ent s x)) HV Hb H0 Hm) as [[_ Hno] | (y & j & Hy & [_ [Hj | Hj]] & Ew & E)].
  - exfalso. apply (Hno k); [by split; [| right] | by exists x].
  - lia.
  - apply Nat2Z.inj in Hj as ->. assert (y = x) as ->; [| done]. assert (Hj3 : (j =? 3)%nat = false) by (apply Nat.eqb_neq; lia).
    assert (Hn : forall v, v <> 0 -> negb (v =? 0) = true) by (intros; by apply negb_true_iff, Z.eqb_neq).
    apply (vd_distinct _ _ _ _ HV j); [lia | done | done | ..]; unfold keyed, key; rewrite Hj3, ?Ew; cbn [orb]; auto.
Qed.

Lemma SetLock_at T s D F x k timestamp voloper : vldb T s D F -> x ∈ D -> (k < 3)%nat -> word k (ent s x) <> 0 ->
  word k (ent s x) <> INT_MIN -> InvalidOperation voloper = false ->
  SVL_SetLock 13 timestamp (word k (ent s x)) (Z.of_nat k) voloper s
  = let (code, s') := lock_result timestamp voloper x s in Some ((code, if code =? 0 then Some tt else None), s').
Proof.
  intros HV Hx Hk H0 Hm Hv. pose proof (g_io _ _ (vd_good _ _ _ _ HV)) as Hio. unfold SVL_SetLock.
  assert (bad_voltype (Z.of_nat k) = false) as -> by (assert (k = 0 \/ k = 1 \/ k = 2)%nat as [-> | [-> | ->]] by lia; done).
  rewrite Hv. set (f := fun b e => _). pose proof (with_entry_at tt f T s D F x k HV Hx Hk H0 Hm) as E. unfold f in E at 2.
  unfold lock_result. destruct (deleted (ent s x)); [by eapply aborted |]. unfold entry_locked.
  destruct (negb _ && _); [by eapply aborted |]. destruct (negb _) eqn:El; [by eapply aborted |].
  eapply committed; [| exact Hio]. rewrite E. unfold write_back, mbind_, vlentrywrite. cbn [Z.eqb Pos.eqb].
  rewrite write_ok by done. done.
Qed.

(** What an operation does to the flags, and its release. *)
Lemma flags_release f voloper : InvalidOperation voloper = false ->
  Z.land (Z.lor (Z.land f (Z.lnot VLOP_ALLOPERS)) voloper) (Z.lnot VLOP_ALLOPERS) = Z.land f (Z.lnot VLOP_ALLOPERS)
  /\ Z.land (Z.lor (Z.land f (Z.lnot VLOP_ALLOPERS)) voloper) VLDELETED = Z.land f VLDELETED
  /\ Z.land (Z.land f (Z.lnot VLOP_ALLOPERS)) VLOP_RELEASE = 0.
Proof.
  intros Hv%operation_cases.
  assert (E : Z.land voloper (Z.lnot VLOP_ALLOPERS) = 0 /\ Z.land voloper VLDELETED = 0).
  { repeat (apply elem_of_cons in Hv as [-> | Hv]); [done .. | by apply not_elem_of_nil in Hv]. }
  destruct E as [E1 E2]. rewrite !Z.land_lor_distr_l, E1, E2, !Z.lor_0_r, <- !Z.land_assoc, Z.land_diag.
  change (Z.land (Z.lnot VLOP_ALLOPERS) VLDELETED) with VLDELETED. change (Z.land (Z.lnot VLOP_ALLOPERS) VLOP_RELEASE) with 0.
  by rewrite Z.land_0_r.
Qed.

Definition LOCKREL_BOTH : Z := Z.lor LOCKREL_TIMESTAMP LOCKREL_OPCODE.

Lemma release_entry_ok e : canonical e -> proper e ->
  Z.land (flags e) (Z.lnot VLOP_ALLOPERS) <> VLFREE /\ Z.land (flags e) (Z.lnot VLOP_ALLOPERS) <> VLCONTBLOCK ->
  canonical (ReleaseEntry LOCKREL_BOTH e) /\ proper (ReleaseEntry LOCKREL_BOTH e) /\ marked e (ReleaseEntry LOCKREL_BOTH e)
  /\ word 5 (ReleaseEntry LOCKREL_BOTH e) = 0 /\ flags (ReleaseEntry LOCKREL_BOTH e) = Z.land (flags e) (Z.lnot VLOP_ALLOPERS).
Proof.
  intros Hc Hp Hf. change (ReleaseEntry LOCKREL_BOTH e) with
    (set_word 3 (Z.land (flags (set_word 5 0 e)) (Z.lnot VLOP_ALLOPERS)) (set_word 5 0 e)).
  assert (H1 : canonical (set_word 5 0 e)) by (apply vl_canonical_set; [done | apply zero_int]).
  assert (Ef : flags (set_word 5 0 e) = flags e) by (unfold flags; rewrite vl_word_set by (done || lia); by rewrite decide_False).
  rewrite Ef. set (v := Z.land _ _). assert (Hv32 : int32 v) by (apply int32_land; [by apply vl_word_int | by split; vm_compute]).
  assert (HM : marked e (set_word 3 v (set_word 5 0 e))).
  { apply marked_word; [done | lia |]. by apply marked_word; [| lia |]. }
  assert (Ef' : flags (set_word 3 v (set_word 5 0 e)) = v) by (unfold flags; rewrite vl_word_set by (done || lia); by rewrite decide_True).
  split; [by apply vl_canonical_set | split; [| split; [done | split; [| done]]]].
  - destruct Hp as [P1 P2 P3 P4], HM as [M1 M2]. split.
    + by rewrite M2 by lia.
    + intros k Hk. rewrite M2 by lia. by apply P2.
    + by rewrite Ef'.
    + by rewrite M1.
  - rewrite vl_word_set by (done || lia). rewrite decide_False by done. rewrite vl_word_set by (done || lia). by rewrite decide_True.
Qed.

Lemma ReleaseLock_at T s D F x k : vldb T s D F -> x ∈ D -> (k < 3)%nat -> word k (ent s x) <> 0 -> word k (ent s x) <> INT_MIN ->
  deleted (ent s x) = false ->
  SVL_ReleaseLock 13 (word k (ent s x)) (Z.of_nat k) LOCKREL_BOTH s = Some ((0, Some tt), wrote x (image_new (ReleaseEntry LOCKREL_BOTH (ent s x))) s).
Proof.
  intros HV Hx Hk H0 Hm Hd. pose proof (g_io _ _ (vd_good _ _ _ _ HV)) as Hio. unfold SVL_ReleaseLock.
  assert (bad_voltype (Z.of_nat k) = false) as -> by (assert (k = 0 \/ k = 1 \/ k = 2)%nat as [-> | [-> | ->]] by lia; done).
  change (negb (LOCKREL_BOTH =? 0) && InvalidReleasetype LOCKREL_BOTH) with false. cbn beta iota.
  eapply committed; [| exact Hio]. rewrite (with_entry_at tt _ T s D F x k HV Hx Hk H0 Hm), Hd.
  change (negb (LOCKREL_BOTH =? 0)) with true. cbn beta iota. unfold write_back, mbind_, vlentrywrite. cbn [Z.eqb Pos.eqb].
  rewrite write_ok by done. done.
Qed.

(** C35. A lock on an entry excludes others: once SVL_SetLock has locked it, any
    SVL_SetLock of it, by whichever of its identifiers and for whichever
    operation, is refused with nothing changed, unless the greatest time a lock
    may be kept has passed; and after SVL_ReleaseLock of the lock and the
    operation the entry can be locked again. *)
Theorem lock_excludes T s s1 D F x k r timestamp voloper : vldb T s D F -> x ∈ D -> (k < 3)%nat -> word k (ent s x) <> 0 ->
  InvalidOperation voloper = false -> int32 timestamp -> timestamp <> 0 ->
  Z.land (flags (ent s x)) (Z.lnot VLOP_ALLOPERS) <> VLFREE /\ Z.land (flags (ent s x)) (Z.lnot VLOP_ALLOPERS) <> VLCONTBLOCK ->
  SVL_SetLock 13 timestamp (word k (ent s x)) (Z.of_nat k) voloper s = Some ((0, r), s1) ->
  vldb T s1 D F
  /\ (forall t j o, (j < 3)%nat -> word j (ent s x) <> 0 -> InvalidOperation o = false -> s32 (t - timestamp) < MAXLOCKTIME ->
        SVL_SetLock 13 t (word j (ent s x)) (Z.of_nat j) o s1 = Some ((VL_ENTRYLOCKED, None), s1))
  /\ exists s2, SVL_ReleaseLock 13 (word k (ent s x)) (Z.of_nat k) LOCKREL_BOTH s1 = Some ((0, Some tt), s2) /\ vldb T s2 D F
       /\ forall t o, InvalidOperation o = false -> exists s3, SVL_SetLock 13 t (word k (ent s x)) (Z.of_nat k) o s2 = Some ((0, Some tt), s3).
Proof.
  intros HV Hx Hk H0 Hv Ht Ht0 Hfl E. pose proof (vd_proper _ _ _ _ HV x Hx) as Hp. pose proof (pr_int _ Hp) as Hm.
  rewrite (SetLock_at T s D F x k) in E by auto. unfold lock_result in E. set (e := ent s x) in *.
  destruct (deleted e) eqn:Hd; [done |]. destruct (entry_locked _ _); [done |]. destruct (negb _); [done |].
  injection E as _ <-. pose proof (block_piece _ _ (vd_blocks _ _ _ _ HV x Hx)) as Hxp.
  destruct (lock_entry_ok timestamp voloper e (vl_ent_canonical T s x (vd_good _ _ _ _ HV)) Hp Ht Hv) as (C1 & P1 & M1 & T1 & F1).
  destruct (update_ok T s D F x _ HV Hx C1 P1 M1) as [HV1 He1]. set (s1 := wrote _ _ s) in *.
  specialize (He1 x Hxp). rewrite decide_True in He1 by done. destruct (flags_release (flags e) voloper Hv) as (R1 & R2 & R3).
  assert (Hw : forall j, (j < 3)%nat -> word j (ent s1 x) = word j e) by (intros j Hj; rewrite He1; apply M1; lia).
  assert (Hd1 : deleted (ent s1 x) = false) by (unfold deleted; rewrite He1, F1, R2; exact Hd).
  split; [done | split].
  - intros t j o Hj Hj0 Ho Hlt. rewrite <- (Hw j) in * by done.
    rewrite (SetLock_at T s1 D F x j t o HV1 Hx Hj Hj0 ltac:(rewrite Hw by done; by apply Hm) Ho). unfold lock_result. rewrite Hd1.
    assert (entry_locked t (ent s1 x) = true) as ->; [| done].
    unfold entry_locked. rewrite He1, T1, (proj2 (Z.eqb_neq timestamp 0)), (proj2 (Z.ltb_lt _ _)) by done. done.
  - assert (Hf1 : Z.land (flags (ent s1 x)) (Z.lnot VLOP_ALLOPERS) = Z.land (flags e) (Z.lnot VLOP_ALLOPERS)) by by rewrite He1, F1, R1.
    destruct (release_entry_ok (ent s1 x)) as (C2 & P2 & M2 & T2 & F2);
      [apply (vl_ent_canonical T), HV1 | by apply (vd_proper _ _ _ _ HV1) | by rewrite Hf1 |].
    destruct (update_ok T s1 D F x _ HV1 Hx C2 P2 M2) as [HV2 He2]. set (s2 := wrote _ _ s1) in *.
    specialize (He2 x Hxp). rewrite decide_True in He2 by done. exists s2.
    split; [rewrite <- (Hw k) in * by done; apply (ReleaseLock_at T s1 D F x k HV1 Hx Hk H0 ltac:(rewrite Hw by done; by apply Hm) Hd1) |].
    split; [done |]. intros t o Ho.
    assert (Hw2 : word k (ent s2 x) = word k e) by (rewrite He2, <- Hw by done; apply M2; lia).
    rewrite <- Hw2 in *. rewrite (SetLock_at T s2 D F x k t o HV2 Hx Hk H0 ltac:(rewrite Hw2; by apply Hm) Ho). unfold lock_result.
    unfold deleted, entry_locked. rewrite He2, T2, F2, Hf1. cbn [Z.eqb negb andb]. rewrite R3.
    assert (Z.land (Z.land (flags e) (Z.lnot VLOP_ALLOPERS)) VLDELETED = Z.land (flags e) VLDELETED) as -> by by rewrite <- Z.land_assoc.
    unfold deleted in Hd. rewrite Hd. by eexists.
Qed.

(** ** New identifiers *)

(** The first words of the header changed. *)
Lemma vital_vldb T s D F h : vldb T s D F -> tables_of h = tables_of (cheader s) -> freePtr h = freePtr (cheader s) ->
  eofPtr h = eofPtr (cheader s) -> length (totalEntries h) = 3%nat -> vldb T (rehead h 0 (vital h) s) D F.
Proof.
  intros HV Et Ef Ee Hl. pose proof (vd_good _ _ _ _ HV) as HG. apply (addressed_vldb T s); [| done]. split; try done.
  - intros T' [G1 G2 G3 G4 G5 G6]. apply (vital_good T' T'); [by split | by rewrite Ee | by rewrite Ee | done | done].
  - intros y Hy. by apply ent_vital.
  - intros k i. by apply tables_bucket.
Qed.

(** Identifiers handed out by one call after the other. *)
Fixpoint new_ids (bumps : list Z) : M (list Z) :=
  match bumps with
  | [] => ret []
  | b :: bumps' =>
      let* r := SVL_GetNewVolumeId b in
      match r with
      | (0, Some v) => let* l := new_ids bumps' in ret (v :: l)
      | _ => crash
      end
  end.

Fixpoint starts (v : Z) (bumps : list Z) : list Z :=
  match bumps with
  | [] => []
  | b :: bumps' => v :: starts (v + b) bumps'
  end.

Lemma starts_apart bumps : Forall (fun b => 0 <= b) bumps -> forall v i j a b n, starts v bumps !! i = Some a -> starts v bumps !! j = Some b ->
  bumps !! i = Some n -> (i < j)%nat -> a + n <= b.
Proof.
  assert (Hge : forall bumps v j b, Forall (fun b => 0 <= b) bumps -> starts v bumps !! j = Some b -> v <= b).
  { induction bumps0 as [| b' bs IH]; intros v j b Hb E; [by destruct j |]. apply Forall_cons in Hb as [Hb' Hb].
    destruct j as [| j]; cbn in E; [injection E; lia |]. specialize (IH _ _ _ Hb E). lia. }
  induction 1 as [| c bumps Hc Hb IH]; intros v i j a b n Ei Ej En Hij; [done |]. destruct j as [| j]; [lia |].
  destruct i as [| i]; cbn in *; [injection Ei as ->; injection En as ->; by eapply Hge |]. eapply IH; (done || lia).
Qed.

(** SVL_GetNewVolumeId one call after the other, whatever is asked for,
    gives numbers from the largest on with nothing in common, and leaves
    the database as it is, as long as the sum is in range. *)
Theorem NewVolumeIds_apart T s D F bumps : vldb T s D F -> Forall (fun b => 0 <= b <= MAXBUMPCOUNT) bumps ->
  0 <= MaxVolumeId (cheader s) -> MaxVolumeId (cheader s) + foldr Z.add 0 bumps <= INT_MAX ->
  exists l s', new_ids bumps s = Some (l, s') /\ vldb T s' D F /\ length l = length bumps
    /\ MaxVolumeId (cheader s') = MaxVolumeId (cheader s) + foldr Z.add 0 bumps
    /\ (forall i j a b n, l !! i = Some a -> l !! j = Some b -> bumps !! i = Some n -> (i < j)%nat -> a + n <= b)
    /\ forall i a n, l !! i = Some a -> bumps !! i = Some n -> MaxVolumeId (cheader s) <= a /\ a + n <= MaxVolumeId (cheader s').
Proof.
  intros HV Hb. assert (Hb0 : Forall (fun b => 0 <= b) bumps) by (eapply Forall_impl; [exact Hb |]; cbn; lia).
  enough (H : forall s, vldb T s D F -> 0 <= MaxVolumeId (cheader s) -> MaxVolumeId (cheader s) + foldr Z.add 0 bumps <= INT_MAX ->
    exists s', new_ids bumps s = Some (starts (MaxVolumeId (cheader s)) bumps, s') /\ vldb T s' D F
      /\ MaxVolumeId (cheader s') = MaxVolumeId (cheader s) + foldr Z.add 0 bumps
      /\ forall i a n, starts (MaxVolumeId (cheader s)) bumps !! i = Some a -> bumps !! i = Some n ->
           MaxVolumeId (cheader s) <= a /\ a + n <= MaxVolumeId (cheader s')).
  { intros H0 Hs. destruct (H s HV H0 Hs) as (s' & E & HV' & Em & Hr). eexists _, s'. split; [exact E | split; [done | split; [| split; [done |]]]].
    - generalize (MaxVolumeId (cheader s)). clear. induction bumps as [| b bs IH]; intros v; [done |]. cbn. by rewrite IH.
    - split; [intros *; by apply starts_apart | done]. }
  clear s HV. induction Hb as [| b bumps Hb1 Hb IH]; intros s HV H0 Hs; [exists s; cbn; rewrite Z.add_0_r; done |].
  cbn [foldr] in Hs. apply Forall_cons in Hb0 as [_ Hb0].
  assert (Hsum : 0 <= foldr Z.add 0 bumps) by (clear -Hb0; induction Hb0; cbn; lia).
  set (h := set_MaxVolumeId (MaxVolumeId (cheader s) + b) (cheader s)). set (s1 := rehead h 0 (vital h) s).
  assert (HV1 : vldb T s1 D F) by (apply vital_vldb; (done || apply HV)).
  destruct (IH Hb0 s1 HV1 ltac:(cbn; lia) ltac:(cbn; lia)) as (s2 & E2 & HV2 & Em2 & Hr2).
  exists s2. cbn [cheader s1 rehead h MaxVolumeId set_MaxVolumeId] in Em2, Hr2, E2. split; [| split; [done | split; [cbn [foldr]; lia |]]].
  - cbn [new_ids starts].
    assert (E1 : SVL_GetNewVolumeId b s = Some ((0, Some (MaxVolumeId (cheader s))), s1)).
    { unfold SVL_GetNewVolumeId. rewrite (proj2 (Z.ltb_ge b 0)), (proj2 (Z.ltb_ge _ b)) by lia. cbn [orb].
      pose proof (g_io _ _ (vd_good _ _ _ _ HV)) as Hio. apply committed; [| done].
      unfold mbind_, get_header, set_header. rewrite s32_small by (unfold INT_MIN; lia). by rewrite write_vital_ok. }
    erewrite bind_ok by exact E1. cbn beta iota. by erewrite bind_ok by exact E2.
  - intros [| i] a n Ea En; cbn in Ea, En; [injection Ea as <-; injection En as <-; lia |]. specialize (Hr2 i a n Ea En). lia.
Qed.

(** ** The layout of the old version *)

(** A block that is freed and taken again: in the version of the database
    with thirteen sites to an entry the free list is what it was before; in the
    version with eight, whose entries have the pointer elsewhere, the rest of
    the list is lost. *)
Theorem FreeBlock_AllocBlock little maxnservers T s x : good T s -> block T x -> int32 (freePtr (cheader s)) ->
  maxnservers = 13 \/ maxnservers = 8 ->
  exists s1 s2, FreeBlock little x s = Some (0, s1) /\ AllocBlock little maxnservers s1 = Some ((x, zero_entry), s2)
    /\ freePtr (cheader s2) = if maxnservers =? 13 then freePtr (cheader s) else 0.
Proof.
  intros HG Hx Hf Hv. pose proof (block_piece _ _ Hx) as Hp. pose proof (vl_block_range T s x HG Hp) as Hr.
  pose proof (g_io _ _ HG) as Hio. set (t := set_word 3 VLFREE (set_word (next_id 0) (freePtr (cheader s)) zero_entry)).
  assert (Ht : canonical t).
  { apply vl_canonical_set; [apply vl_canonical_set; [apply canonical_zero | done] |]. unfold VLFREE, int32, INT_MIN, INT_MAX. lia. }
  set (h := set_frees (bump little (frees (cheader s))) (set_freePtr x (cheader s))).
  set (s1 := rehead h 0 (vital h) (wrote x (image_new t) s)).
  assert (He : ent s1 x = t) by (unfold s1; rewrite ent_vital by (apply HG || lia); by apply entry_put).
  exists s1. assert (E1 : FreeBlock little x s = Some (0, s1)).
  { unfold FreeBlock, mbind_ at 1, get_header. rewrite (index_piece T s) by done. cbn [negb]. unfold mbind_ at 1, set_header.
    unfold mbind_ at 1. rewrite write_ok by done. cbn [Z.eqb negb]. unfold mbind_ at 1. unfold mbind_. by rewrite write_vital_ok. }
  set (nxt := word (next_id 0) (if maxnservers =? 13 then entry_new (file s1) x else entry_old (file s1) x)).
  assert (Hn : nxt = if maxnservers =? 13 then freePtr (cheader s) else 0).
  { unfold nxt. destruct Hv as [-> | ->]; cbn [Z.eqb Pos.eqb].
    - change (entry_new (file s1) x) with (ent s1 x). by rewrite He.
    - change (get32 (file s1) (x + 32 + 4 * Z.of_nat 0) = 0). rewrite <- Z.add_assoc. change (32 + 4 * Z.of_nat 0) with (4 * Z.of_nat 8).
      change (word 8 (ent s1 x) = 0). by rewrite He. }
  eexists. split; [done |]. split.
  - unfold AllocBlock, mbind_ at 1, get_header. change (freePtr (cheader s1)) with x.
    rewrite (proj2 (Z.eqb_neq x 0)) by (by apply (vl_block_nonzero T s)). cbn [negb]. unfold mbind_ at 1, vlentryread, mbind_ at 1.
    unfold mbind_ at 1. rewrite ubik_calls_ok by done. cbn [Z.eqb negb]. unfold mbind_, get_file, set_header, ret. fold nxt.
    cbn [Z.eqb negb]. rewrite write_vital_ok by done. done.
  - exact Hn.
Qed.
