(* ===== verification/VlGet.v ===== *)
(** The volume location server, what is made is what is got: GetEntryByID and
    GetEntryByName of an entry that SVL_CreateEntryN has made. *)
From S2P Require Import Prelude Bytes UbikFile VlDb VlProcs VlSpec VlOps VlStore VlCreate VlServe.

#[local] Open Scope ubik_scope.
#[local] Hint Resolve block_piece : core.

(** ** Sites outside *)

Lemma sites_out_ok h (A : nat -> Z) m : forall nums parts flgs : list Z, length parts = length nums -> length flgs = length nums -> (m <= length nums)%nat ->
  (forall j, (j < m)%nat -> nth j nums 0 <> BADSERVERID /\ site_addr h (nth j nums 0) = Some (A j)) ->
  ((m < length nums)%nat -> nth m nums 0 = BADSERVERID) ->
  sites_out h nums parts flgs = Some (map (fun j => (A j, nth j parts 0, nth j flgs 0)) (seq 0 m)).
Proof.
  revert A. induction m as [| m IH]; intros A nums parts flgs Hp Hf Hm Hj He.
  - destruct nums as [| n nums], parts as [| p parts], flgs as [| f flgs]; try done. cbn in *. by rewrite He by lia.
  - destruct nums as [| n nums], parts as [| p parts], flgs as [| f flgs]; try (cbn in *; lia). cbn [sites_out length] in *.
    destruct (Hj 0%nat ltac:(lia)) as [H1 H2]. cbn [nth] in H1, H2. rewrite (proj2 (Z.eqb_neq _ _)), H2 by done.
    rewrite (IH (fun j => A (S j)) nums parts flgs); [| lia | lia | lia | |].
    + cbn [seq map]. f_equal. rewrite <- (seq_shift m 0), map_map. done.
    + intros j Hlt. apply (Hj (S j)). lia.
    + intros Hlt. apply He. lia.
Qed.

(** What a client gets of an entry that it has sent. *)
Definition returned (x : nvldbentry) : nvldbentry :=
  let n := Z.to_nat (nServers x) in
  NvldbEntry (x_name x) (nServers x) (map (fun j => u32 (nth j (x_serverNumber x) 0)) (seq 0 n))
    (map (fun j => u8 (nth j (x_serverPartition x) 0)) (seq 0 n)) (map (fun j => u8 (nth j (x_serverFlags x) 0)) (seq 0 n))
    (x_volumeId x) (x_cloneId x) (x_flags x).

Lemma to_nvldbentry_ok x e s : sent x -> addressable x -> canonical e -> single (cheader s) -> made_from x e -> sited (cheader s) x e ->
  vlentry_to_nvldbentry e s = Some (returned x, s).
Proof.
  intros HS [HX1 HX2] [Hw _ _ [L1 _] [L2 _] [L3 _]] Hs (M1 & M2 & M3 & M4) [Hj Hend]. set (n := Z.to_nat (nServers x)) in *.
  assert (Hn : n = Z.to_nat (nServers x)) by done.
  unfold vlentry_to_nvldbentry, mbind_, get_header.
  rewrite (sites_out_ok (cheader s) (fun j => u32 (nth j (x_serverNumber x) 0)) n); [| lia | lia | lia | |].
  2: { intros j Hlt. destruct (Hj j Hlt) as (R1 & R2 & _). split; [unfold MAXSERVERID, BADSERVERID in *; lia |].
    unfold site_addr. rewrite (single_addr (host_addr _ _)) by (by apply Hs). by rewrite (serves_single _ _ _ Hs R1 R2). }
  2: { intros Hlt. apply Hend. lia. }
  unfold ret, returned. f_equal. fold n. rewrite length_map, length_seq, !map_map, M1, M3, M4. f_equal. f_equal.
  - lia.
  - apply map_ext_in. intros j Hin%in_seq. cbn. apply Hj. lia.
  - apply map_ext_in. intros j Hin%in_seq. cbn. apply Hj. lia.
  - destruct HS as [_ _ _ [HL _] _ _]. unfold word in M2.
    destruct (words e) as [| w0 [| w1 [| w2 ws]]]; try done. destruct (x_volumeId x) as [| v0 [| v1 [| v2 [|]]]]; try done.
    pose proof (M2 0%nat ltac:(lia)) as E0. pose proof (M2 1%nat ltac:(lia)) as E1. pose proof (M2 2%nat ltac:(lia)) as E2.
    cbn in E0, E1, E2 |- *. by rewrite E0, E1, E2.
Qed.

(** C33. What SVL_CreateEntryN makes is what GetEntryByID and GetEntryByName
    give: after a call that succeeds, in a database where no server has several
    addresses, the entry of its read-write identifier, and of its name, is the
    one that was sent, with the addresses of its servers. *)
Theorem CreateEntryN_GetEntry little T s s' D F x r : vldb T s D F -> eofPtr (cheader s) + 148 <= INT_MAX -> acceptable x -> addressable x ->
  single (cheader s) -> Z.land (x_flags x) VLDELETED = 0 -> NameIsId (x_name x) = false ->
  SVL_CreateEntryN little 13 x s = Some ((0, r), s') ->
  GetEntryByID 13 (nth 0 (x_volumeId x) 0) RWVOL s' = Some ((0, Some (Some (returned x))), s')
  /\ GetEntryByName 13 (x_name x) s' = Some ((0, Some (Some (returned x))), s').
Proof.
  intros HV He HA HX Hs Hd Hid E.
  destruct (CreateEntryN_ok little T s D F x HV He HA) as (code & r' & s1 & E1 & HR). rewrite E in E1. injection E1 as <- <- <-.
  destruct HR as [[-> HR] | (_ & Hck & _ & Hnm & T' & F' & b & HV' & Hb & HM & _ & Hsi)].
  { exfalso. naive_solver. }
  destruct (Hsi (single_listed _ Hs) (ab_address _ HX)) as [(new & HN & _) Hsd]. pose proof (grown_single _ _ _ Hs HN) as Hs1. pose proof HM as (M1 & M2 & M3 & M4). pose proof HV' as [HG HB HI _ _ _ _ _].
  assert (Hbm : b ∈ {[b]} ∪ D) by set_solver. pose proof (g_io _ _ HG) as Hio.
  assert (Hdel : deleted (ent s' b) = false) by (unfold deleted; by rewrite M3, Hd).
  assert (HT : vlentry_to_nvldbentry (ent s' b) s' = Some (returned x, s')).
  { apply to_nvldbentry_ok; try done; [apply HA | by apply (vl_ent_canonical T')]. }
  split.
  - unfold GetEntryByID. change (bad_voltype RWVOL) with false. cbn beta iota. apply committed; [| done].
    pose proof (vd_proper _ _ _ _ HV' b Hbm) as Hp. rewrite <- (M2 0%nat) by lia. change RWVOL with (Z.of_nat 0).
    rewrite (with_entry_at None _ T' s' ({[b]} ∪ D) F' b 0 HV' Hbm ltac:(lia) (pr_rw _ Hp) (pr_int _ Hp 0%nat ltac:(lia))).
    rewrite Hdel. by erewrite bind_ok by exact HT.
  - unfold GetEntryByName. rewrite Hid. pose proof (check_name x Hck) as Hl.
    assert (InvalidVolname (x_name x) = false) as -> by (unfold check_nvldbentry in Hck; by destruct (InvalidVolname (x_name x))).
    apply committed; [| done].
    destruct (FindByName_ok T' s' _ (x_name x) HG HB (HI 3%nat ltac:(lia)) Hl) as (z & ez & EN & Hz). erewrite bind_ok by exact EN.
    unfold found_name in Hz. rewrite (ac_name _ HA) in Hz. cbn beta iota. destruct Hz as [[-> Hz] | (Hz & -> & Ez)].
    + exfalso. by apply (Hz b).
    + assert (z = b) as ->.
      { apply (vd_distinct _ _ _ _ HV' 3%nat); [lia | done | done | done | done |]. unfold key. cbn [Nat.eqb]. by rewrite Ez, M1. }
      rewrite (proj2 (Z.eqb_neq b 0)) by (by apply (vl_block_nonzero T' s'); auto). rewrite Hdel. by erewrite bind_ok by exact HT.
Qed.
