(* ===== verification/VlExample.v ===== *)
(** The volume location database, an example: an empty database, a volume with
    two sites entered in it, and the theorems of the server at both. *)
From S2P Require Import Prelude Bytes UbikFile VlDb VlProcs VlSpec VlOps VlStore VlCreate VlInit VlServe VlGet.

#[local] Open Scope ubik_scope.

Definition blank_header : vlheader := VlHeader 0 0 0 0 0 0 0 [0; 0; 0] ∅ ∅ ∅ 0 ∅ ∅.
Definition db0 : st := St (empty_header blank_header) (put ∅ 0 (vital (empty_header blank_header))) [].

Lemma byte_empty x : byte ∅ x = 0.
Proof. unfold byte. by rewrite lookup_empty. Qed.

Lemma vl_byte_file_empty : byte_file ∅.
Proof. intros x. rewrite byte_empty. lia. Qed.

Lemma db0_vldb : vldb [] db0 ∅ [].
Proof.
  apply empty_vldb; [apply byte_file_put, vl_byte_file_empty | by vm_compute |].
  intros p H1 H2. apply zero_word. intros x Hx. rewrite byte_put_ne, byte_empty; [done |]. right. change (Z.of_nat (length _)) with 40. lia.
Qed.

Definition vol1 : nvldbentry :=
  NvldbEntry [114; 111; 111; 116; 46; 97; 102; 115] 2 [167772161; 167772162; 0; 0; 0; 0; 0; 0; 0; 0; 0; 0; 0]
    [0; 1; 0; 0; 0; 0; 0; 0; 0; 0; 0; 0; 0] [4; 2; 0; 0; 0; 0; 0; 0; 0; 0; 0; 0; 0] [536870915; 536870916; 0] 0 12288.

Lemma vol1_acceptable : acceptable vol1.
Proof.
  split; [split; [done | done | done | split; [done |] | | ] | done | | done | by vm_compute].
  - repeat constructor; unfold INT_MIN, INT_MAX; cbn; lia.
  - unfold int32, INT_MIN, INT_MAX. cbn. lia.
  - repeat constructor; cbn; lia.
  - intros k Hk. destruct k as [| [| [| k]]]; done || lia.
Qed.

Lemma vol1_addressable : addressable vol1.
Proof.
  split; [cbn; lia |]. intros j Hj. cbn in Hj. unfold one_address. destruct j as [| [| j]]; [by vm_compute | by vm_compute | lia].
Qed.

Definition db1 : st := match SVL_CreateEntryN false 13 vol1 db0 with Some (_, s) => s | None => db0 end.

Lemma db1_made : SVL_CreateEntryN false 13 vol1 db0 = Some ((0, Some tt), db1).
Proof.
  unfold db1. assert (H : option_map fst (SVL_CreateEntryN false 13 vol1 db0) = Some (0, Some tt)) by (vm_compute; reflexivity).
  destruct (SVL_CreateEntryN false 13 vol1 db0) as [[r s] |]; [| done]. cbn in H. by injection H as ->.
Qed.

#[local] Opaque db1.

(** The parts of an outcome, without a look at them. *)
Lemma outcome_parts {A B} (c c' : Z) (r r' : A) (s s' : B) : Some ((c, r), s) = Some ((c', r'), s') -> c = c' /\ r = r' /\ s = s'.
Proof. by intros [= -> -> ->]. Qed.

Lemma outcome_code {A B} (o : option (Z * A * B)) c r s c' : o = Some ((c, r), s) -> option_map (fun p => fst (fst p)) o = Some c' -> c = c'.
Proof. by intros -> [= ->]. Qed.

Lemma outcome_value {A B} (o : option (A * B)) a s a' : o = Some (a, s) -> option_map fst o = Some a' -> a = a'.
Proof. by intros -> [= ->]. Qed.

Lemma db0_room : eofPtr (cheader db0) + 148 <= INT_MAX.
Proof. by vm_compute. Qed.

Lemma db1_vldb : exists T D F b, vldb T db1 D F /\ b ∈ D /\ made_from vol1 (ent db1 b).
Proof.
  destruct (CreateEntryN_ok false [] db0 ∅ [] vol1 db0_vldb db0_room vol1_acceptable) as (code & r & s' & E & HR).
  rewrite db1_made in E. apply outcome_parts in E as (E1 & E2 & E3). subst code r s'. destruct HR as [[_ HR] | (_ & _ & _ & _ & T & F & b & HV & _ & HM & _)].
  - exfalso. destruct HR as [[_ H] | [[H _] | [[H _] | [[H _] | [H _]]]]]; [exact (H eq_refl) | discriminate H ..].
  - exists T, ({[b]} ∪ ∅), F, b. split; [exact HV | split; [apply elem_of_union_l, elem_of_singleton_2, eq_refl | exact HM]].
Qed.

(** ** The theorems at them *)

Lemma CreateEntryN_spec_witness : exists code r s', SVL_CreateEntryN false 13 vol1 db0 = Some ((code, r), s') /\ code = 0.
Proof.
  destruct (CreateEntryN_spec false [] db0 ∅ [] vol1 db0_vldb db0_room vol1_acceptable (single_listed _ (empty_single blank_header)) (ab_address _ vol1_addressable)) as (code & r & s' & E & HR).
  exists code, r, s'. split; [exact E |]. apply (outcome_code _ _ _ _ _ E). vm_compute. reflexivity.
Defined.

Lemma CheckInit_builds_witness : exists r s', CheckInit true true (St blank_header ∅ []) = Some (r, s') /\ r = (0, Some 8) /\ vldb [] s' ∅ [].
Proof.
  destruct (CheckInit_builds (St blank_header ∅ []) true eq_refl vl_byte_file_empty) as (r & s' & E & Hr & HV & _).
  { by vm_compute. }
  exists r, s'. split; [exact E | split; [exact Hr | exact HV]].
Defined.

Lemma CheckInit_rereads_witness : exists s', CheckInit true false (St blank_header (file db0) []) = Some ((0, Some 13), s') /\ vldb [] s' ∅ [].
Proof.
  destruct (CheckInit_rereads [] db0 ∅ [] blank_header false db0_vldb) as (s' & E & _ & HV & _); [| done | by left |].
  - repeat constructor; unfold INT_MIN, INT_MAX; vm_compute; discriminate.
  - exists s'. split; [exact E | exact HV].
Defined.

Lemma CreateEntryN_GetEntry_witness :
  GetEntryByID 13 536870915 RWVOL db1 = Some ((0, Some (Some (returned vol1))), db1)
  /\ GetEntryByName 13 (x_name vol1) db1 = Some ((0, Some (Some (returned vol1))), db1).
Proof.
  apply (CreateEntryN_GetEntry false [] db0 db1 ∅ [] vol1 (Some tt) db0_vldb db0_room vol1_acceptable vol1_addressable
    (empty_single blank_header)); [done | done | exact db1_made].
Defined.

Lemma DeleteEntry_spec_witness : exists T D F, vldb T db1 D F /\
  exists code r s', SVL_DeleteEntry false 13 536870916 ROVOL db1 = Some ((code, r), s') /\ code = 0.
Proof.
  destruct db1_vldb as (T & D & F & b & HV & _). exists T, D, F. split; [exact HV |].
  destruct (DeleteEntry_spec false T db1 D F 536870916 ROVOL HV) as (code & r & s' & E & _); [done | done |].
  exists code, r, s'. split; [exact E |]. apply (outcome_code _ _ _ _ _ E). vm_compute. reflexivity.
Defined.

Lemma NextEntry_lists_witness : exists T D F, vldb T db1 D F /\ exists l, walk_entries 0 (S (size D)) db1 = Some (l, db1) /\ length l = size D.
Proof.
  destruct db1_vldb as (T & D & F & b & HV & _). exists T, D, F. split; [exact HV |].
  destruct (NextEntry_lists T db1 D F (S (size D)) HV (Nat.lt_succ_diag_r _)) as (l & E & _ & _ & Hl). exists l. split; [exact E | exact Hl].
Defined.

(** The server of the first slot has a site of the volume. *)
Lemma ChangeAddr_removes_witness : exists T D F, vldb T db1 D F /\ addr_slot (cheader db1) 167772161 server_ids = Some (0, false) /\
  exists code r s', SVL_ChangeAddr 13 4294967295 167772161 db1 = Some ((code, r), s') /\ code = VL_IDEXIST.
Proof.
  destruct db1_vldb as (T & D & F & b & HV & _). exists T, D, F. split; [exact HV |].
  assert (Hs : addr_slot (cheader db1) 167772161 server_ids = Some (0, false)) by (vm_compute; reflexivity). split; [exact Hs |].
  destruct (ChangeAddr_removes T db1 D F 167772161 0 HV) as (code & r & s' & E & _); [split; [discriminate | reflexivity] | exact Hs | split; [discriminate | reflexivity] |].
  exists code, r, s'. split; [exact E |].
  apply (outcome_code _ _ _ _ _ E). vm_compute. reflexivity.
Defined.

Lemma NewVolumeIds_apart_witness : exists l s', new_ids [3; 0; 5] db0 = Some (l, s') /\ l = [536870912; 536870915; 536870915].
Proof.
  destruct (NewVolumeIds_apart [] db0 ∅ [] [3; 0; 5] db0_vldb) as (l & s' & E & _); [| by vm_compute | by vm_compute |].
  - repeat constructor; vm_compute; discriminate.
  - exists l, s'. split; [exact E |].
    apply (outcome_value _ _ _ _ E). vm_compute. reflexivity.
Defined.

Lemma lock_excludes_witness : exists T D F x s1, vldb T db1 D F /\ x ∈ D
  /\ SVL_SetLock 13 1000 536870915 RWVOL VLOP_MOVE db1 = Some ((0, Some tt), s1) /\ vldb T s1 D F
  /\ SVL_SetLock 13 2000 536870916 ROVOL VLOP_DUMP s1 = Some ((VL_ENTRYLOCKED, None), s1).
Proof.
  destruct db1_vldb as (T & D & F & x & HV & Hx & M1 & M2 & M3 & _). exists T, D, F, x.
  assert (H : option_map fst (SVL_SetLock 13 1000 536870915 RWVOL VLOP_MOVE db1) = Some (0, Some tt)) by (vm_compute; reflexivity).
  destruct (SVL_SetLock 13 1000 536870915 RWVOL VLOP_MOVE db1) as [[r s1] |] eqn:E; [| done]. cbn in H. injection H as ->.
  exists s1. split; [exact HV | split; [exact Hx | split; [reflexivity |]]].
  assert (lt03 : (0 < 3)%nat) by (clear; lia). assert (lt13 : (1 < 3)%nat) by (clear; lia).
  pose proof (M2 0%nat lt03) as W0. pose proof (M2 1%nat lt13) as W1. 
  change (nth 0 (x_volumeId vol1) 0) with 536870915 in W0. change (nth 1 (x_volumeId vol1) 0) with 536870916 in W1.
  change (x_flags vol1) with 12288 in M3.
  assert (N0 : word 0 (ent db1 x) <> 0) by (rewrite W0; discriminate). assert (N1 : word 1 (ent db1 x) <> 0) by (rewrite W1; discriminate).
  assert (NF : Z.land (flags (ent db1 x)) (Z.lnot VLOP_ALLOPERS) <> VLFREE /\ Z.land (flags (ent db1 x)) (Z.lnot VLOP_ALLOPERS) <> VLCONTBLOCK)
    by (rewrite M3; split; discriminate).
  assert (HE : SVL_SetLock 13 1000 (word 0 (ent db1 x)) (Z.of_nat 0) VLOP_MOVE db1 = Some ((0, Some tt), s1)) by (rewrite W0; exact E).
  destruct (lock_excludes T db1 s1 D F x 0 (Some tt) 1000 VLOP_MOVE HV Hx lt03 N0 eq_refl) as (HV1 & HL & _);
    [split; discriminate | discriminate | exact NF | exact HE |].
  split; [exact HV1 |]. specialize (HL 2000 1%nat VLOP_DUMP lt13 N1 eq_refl eq_refl). rewrite W1 in HL. exact HL.
Defined.

(** The block of the volume, were it freed without being unthreaded. *)
Lemma FreeBlock_AllocBlock_witness : exists T x, good T db1 /\ block T x /\
  exists s1 s2, FreeBlock false x db1 = Some (0, s1) /\ AllocBlock false 8 s1 = Some ((x, zero_entry), s2) /\ freePtr (cheader s2) = 0.
Proof.
  destruct db1_vldb as (T & D & F & x & HV & Hx & _). exists T, x. split; [apply HV | split; [by apply HV |]].
  destruct (FreeBlock_AllocBlock false 8 T db1 x) as (s1 & s2 & E1 & E2 & E3); [apply HV | by apply HV | | by right |].
  - assert (freePtr (cheader db1) = 0) as -> by (vm_compute; reflexivity). by vm_compute.
  - exists s1, s2. split; [exact E1 | split; [exact E2 | exact E3]].
Defined.
