(* ===== verification/Callback.v ===== *)
(** The callbacks of the file server (src/viced/callback.c, callback.h): what
    was promised to which host for which file, in tables of file entries and
    callback entries linked by indices: a list for each file, and circular lists
    for each host and for each time of expiry. *)
From S2P Require Import Prelude Monad.

#[local] Open Scope monad_scope.

(** ** The tables *)

Definition FEHASH_SIZE : Z := 512.
Definition CB_NUM_TIMEOUT_QUEUES : Z := 128.
Definition MAX_CB_HOSTS : nat := 10.
Definition AFSCBMAX : nat := 50.
Definition FE_LATER : Z := 1.
Definition CB_NORMAL : Z := 1.
Definition CB_DELAYED : Z := 2.
Definition CB_VOLUME : Z := 3.
Definition CB_BULK : Z := 4.
Definition ALTADDR : Z := 4.
Definition VENUSDOWN : Z := 8.
Definition HOSTDELETED : Z := 16.
Definition RESETDONE : Z := 64.
Definition HFE_LATER : Z := 128.

Record AFSFid := Fid { Volume : Z; Vnode : Z; Unique : Z }.

Record FileEntry := FileE { fe_fid : AFSFid; fnext : Z; ncbs : Z; firstcb : Z; fstatus : Z }.
Record CallBack := CallB { cnext : Z; fhead : Z; thead : Z; status : Z; hhead : Z; tprev : Z; tnext : Z; hprev : Z; hnext : Z }.

(** What is used of a host: its list, its flags, the time of its last call, and
    whether other threads hold it. *)
Record host := Host { cblist : Z; hostFlags : Z; ActiveCall : Z; otherHolds : bool }.

(** A message to a host: callbacks for some files, or to forget all; and the
    code of the call. *)
Inductive message :=
  | CallBackMsg (h : Z) (fids : list AFSFid) (code : Z)
  | AlternateMsg (h : Z) (fids : list AFSFid) (code : Z)
  | InitCallBackStateMsg (h : Z) (code : Z).

(** The state: the tables, the free entries, first the last freed; the clock;
    the hosts in the order of [hostList]; the codes that the calls to clients
    will have, 0 when none are left; and the calls made, the last first. *)
Record cbstate := CbState {
  FE : gmap Z FileEntry; CB : gmap Z CallBack; HashTable : gmap Z Z; timeout : gmap Z Z; tfirst : Z;
  FEfree : list Z; CBfree : list Z; nblks : Z;
  hosts : gmap Z host; hostList : list Z; now : Z; codes : list Z; calls : list message
}.
Notation M := (SM cbstate).

Definition with_FE (f : gmap Z FileEntry -> gmap Z FileEntry) (s : cbstate) : cbstate :=
  CbState (f (FE s)) (CB s) (HashTable s) (timeout s) (tfirst s) (FEfree s) (CBfree s) (nblks s) (hosts s) (hostList s) (now s) (codes s) (calls s).
Definition with_CB (f : gmap Z CallBack -> gmap Z CallBack) (s : cbstate) : cbstate :=
  CbState (FE s) (f (CB s)) (HashTable s) (timeout s) (tfirst s) (FEfree s) (CBfree s) (nblks s) (hosts s) (hostList s) (now s) (codes s) (calls s).
Definition with_HashTable (f : gmap Z Z -> gmap Z Z) (s : cbstate) : cbstate :=
  CbState (FE s) (CB s) (f (HashTable s)) (timeout s) (tfirst s) (FEfree s) (CBfree s) (nblks s) (hosts s) (hostList s) (now s) (codes s) (calls s).
Definition with_timeout (f : gmap Z Z -> gmap Z Z) (s : cbstate) : cbstate :=
  CbState (FE s) (CB s) (HashTable s) (f (timeout s)) (tfirst s) (FEfree s) (CBfree s) (nblks s) (hosts s) (hostList s) (now s) (codes s) (calls s).
Definition with_tfirst (v : Z) (s : cbstate) : cbstate :=
  CbState (FE s) (CB s) (HashTable s) (timeout s) v (FEfree s) (CBfree s) (nblks s) (hosts s) (hostList s) (now s) (codes s) (calls s).
Definition with_FEfree (v : list Z) (s : cbstate) : cbstate :=
  CbState (FE s) (CB s) (HashTable s) (timeout s) (tfirst s) v (CBfree s) (nblks s) (hosts s) (hostList s) (now s) (codes s) (calls s).
Definition with_CBfree (v : list Z) (s : cbstate) : cbstate :=
  CbState (FE s) (CB s) (HashTable s) (timeout s) (tfirst s) (FEfree s) v (nblks s) (hosts s) (hostList s) (now s) (codes s) (calls s).
Definition with_hosts (f : gmap Z host -> gmap Z host) (s : cbstate) : cbstate :=
  CbState (FE s) (CB s) (HashTable s) (timeout s) (tfirst s) (FEfree s) (CBfree s) (nblks s) (f (hosts s)) (hostList s) (now s) (codes s) (calls s).
Definition with_now (t : Z) (s : cbstate) : cbstate :=
  CbState (FE s) (CB s) (HashTable s) (timeout s) (tfirst s) (FEfree s) (CBfree s) (nblks s) (hosts s) (hostList s) t (codes s) (calls s).
Definition with_calls (codes' : list Z) (m : message) (s : cbstate) : cbstate :=
  CbState (FE s) (CB s) (HashTable s) (timeout s) (tfirst s) (FEfree s) (CBfree s) (nblks s) (hosts s) (hostList s) (now s) codes' (m :: calls s).

(** Fields, changed. *)
Definition set_fnext v f := FileE (fe_fid f) v (ncbs f) (firstcb f) (fstatus f).
Definition set_ncbs v f := FileE (fe_fid f) (fnext f) v (firstcb f) (fstatus f).
Definition set_firstcb v f := FileE (fe_fid f) (fnext f) (ncbs f) v (fstatus f).
Definition set_fstatus v f := FileE (fe_fid f) (fnext f) (ncbs f) (firstcb f) v.
Definition set_cnext v c := CallB v (fhead c) (thead c) (status c) (hhead c) (tprev c) (tnext c) (hprev c) (hnext c).
Definition set_fhead v c := CallB (cnext c) v (thead c) (status c) (hhead c) (tprev c) (tnext c) (hprev c) (hnext c).
Definition set_thead v c := CallB (cnext c) (fhead c) v (status c) (hhead c) (tprev c) (tnext c) (hprev c) (hnext c).
Definition set_status v c := CallB (cnext c) (fhead c) (thead c) v (hhead c) (tprev c) (tnext c) (hprev c) (hnext c).
Definition set_hhead v c := CallB (cnext c) (fhead c) (thead c) (status c) v (tprev c) (tnext c) (hprev c) (hnext c).
Definition set_tprev v c := CallB (cnext c) (fhead c) (thead c) (status c) (hhead c) v (tnext c) (hprev c) (hnext c).
Definition set_tnext v c := CallB (cnext c) (fhead c) (thead c) (status c) (hhead c) (tprev c) v (hprev c) (hnext c).
Definition set_hprev v c := CallB (cnext c) (fhead c) (thead c) (status c) (hhead c) (tprev c) (tnext c) v (hnext c).
Definition set_hnext v c := CallB (cnext c) (fhead c) (thead c) (status c) (hhead c) (tprev c) (tnext c) (hprev c) v.
Definition set_cblist v h := Host v (hostFlags h) (ActiveCall h) (otherHolds h).
Definition set_hostFlags v h := Host (cblist h) v (ActiveCall h) (otherHolds h).

(** Entries by index: index 0, and one outside the tables, is no entry. *)
Definition entry {A} (f : cbstate -> gmap Z A) (i : Z) : M A :=
  fun s => match f s !! i with Some x => Some (x, s) | None => None end.
Definition get_cb : Z -> M CallBack := entry CB.
Definition get_fe : Z -> M FileEntry := entry FE.
Definition get_host : Z -> M host := entry hosts.
Definition mod_cb (i : Z) (f : CallBack -> CallBack) : M unit := get_cb i ;; modify (with_CB (alter f i)).
Definition mod_fe (i : Z) (f : FileEntry -> FileEntry) : M unit := get_fe i ;; modify (with_FE (alter f i)).
Definition mod_host (i : Z) (f : host -> host) : M unit := get_host i ;; modify (with_hosts (alter f i)).

(** [*itot(i)], for an index of one of the queues. *)
Definition in_queues (t : Z) : bool := (1 <=? t) && (t <=? CB_NUM_TIMEOUT_QUEUES).
Definition get_queue (t : Z) : M Z := if in_queues t then gets (fun s => default 0 (timeout s !! t)) else crash.
Definition set_queue (t v : Z) : M unit := if in_queues t then modify (with_timeout <[t := v]>) else crash.

(** A call to a client: it is recorded with the code it has. *)
Definition call_host (m : Z -> message) : M Z := fun s =>
  let code := hd 0 (codes s) in Some (code, with_calls (tl (codes s)) (m code) s).

(** ** The operations on lists *)

Definition FEHash (volume unique : Z) : Z := Z.land (u32 (volume + unique)) (FEHASH_SIZE - 1).
Definition fid_hash (fid : AFSFid) : Z := FEHash (Volume fid) (Unique fid).
Definition bucket (s : cbstate) (h : Z) : Z := default 0 (HashTable s !! h).

#[export] Instance fid_eq_dec : EqDecision AFSFid.
Proof. solve_decision. Defined.

(** One more than the entries there are. *)
Definition fuel_of (s : cbstate) : nat := S (Z.to_nat (nblks s)).

Fixpoint find_fe (fid : AFSFid) (fei : Z) (fuel : nat) : M Z :=
  match fuel with
  | O => crash
  | S fuel' =>
      if fei =? 0 then ret 0
      else
        let* fe := get_fe fei in
        if bool_decide (fe_fid fe = fid) && negb (Z.land (fstatus fe) FE_LATER =? FE_LATER) then ret fei
        else find_fe fid (fnext fe) fuel'
  end.

Definition FindFE (fid : AFSFid) : M Z :=
  let* fei := gets (fun s => bucket s (fid_hash fid)) in
  let* fuel := gets fuel_of in
  find_fe fid fei fuel.

Definition iGetCB : M Z := fun s =>
  match CBfree s with [] => Some (0, s) | i :: l => Some (i, with_CBfree l s) end.
Definition iFreeCB (i : Z) : M unit := modify (fun s => with_CBfree (i :: CBfree s) s).
Definition iGetFE : M Z := fun s =>
  match FEfree s with [] => Some (0, s) | i :: l => Some (i, with_FEfree l s) end.
Definition iFreeFE (i : Z) : M unit := modify (fun s => with_FEfree (i :: FEfree s) s).

Definition TAdd (cb t : Z) : M unit :=
  let* th := get_queue t in
  (if th =? 0 then
     mod_cb cb (fun c => set_tprev cb (set_tnext cb c)) ;; set_queue t cb
   else
     let* thp := get_cb th in
     mod_cb cb (fun c => set_tnext th (set_tprev (tprev thp) c)) ;;
     (if negb (tprev thp =? 0) then mod_cb (tprev thp) (set_tnext cb) else ret tt) ;;
     mod_cb th (set_tprev cb)) ;;
  mod_cb cb (set_thead t).

Definition TDel (cb : Z) : M unit :=
  let* c := get_cb cb in
  let* th := get_queue (thead c) in
  (if th =? cb then set_queue (thead c) (if th =? tnext c then 0 else tnext c) else ret tt) ;;
  (if negb (tprev c =? 0) then mod_cb (tprev c) (set_tnext (tnext c)) else ret tt) ;;
  let* c := get_cb cb in
  (if negb (tnext c =? 0) then mod_cb (tnext c) (set_tprev (tprev c)) else ret tt).

Definition HAdd (cb h : Z) : M unit :=
  mod_cb cb (set_hhead h) ;;
  let* hp := get_host h in
  if cblist hp =? 0 then
    mod_cb cb (fun c => set_hprev cb (set_hnext cb c)) ;; mod_host h (set_cblist cb)
  else
    let* fcb := get_cb (cblist hp) in
    mod_cb cb (fun c => set_hnext (cblist hp) (set_hprev (hprev fcb) c)) ;;
    mod_cb (hprev fcb) (set_hnext cb) ;;
    mod_cb (cblist hp) (set_hprev cb).

Definition HDel (cb : Z) : M unit :=
  let* c := get_cb cb in
  let* hp := get_host (hhead c) in
  (if cblist hp =? cb then mod_host (hhead c) (set_cblist (if cblist hp =? hnext c then 0 else hnext c)) else ret tt) ;;
  mod_cb (hprev c) (set_hnext (hnext c)) ;;
  let* c := get_cb cb in
  mod_cb (hnext c) (set_hprev (hprev c)).

(** FDel: the place that leads to the entry, a bucket or the entry before. *)
Fixpoint unchain (fei p : Z) (nxt : Z) (fuel : nat) : M unit :=
  match fuel with
  | O => crash
  | S fuel' =>
      let* e := get_fe p in
      if fnext e =? fei then mod_fe p (set_fnext nxt) else unchain fei (fnext e) nxt fuel'
  end.

Definition FDel (fei : Z) : M unit :=
  let* fe := get_fe fei in
  let* b := gets (fun s => bucket s (fid_hash (fe_fid fe))) in
  let* fuel := gets fuel_of in
  (if b =? fei then modify (with_HashTable <[fid_hash (fe_fid fe) := fnext fe]>) else unchain fei b (fnext fe) fuel) ;;
  iFreeFE fei.

(** A pointer to an index in the list of a file: its first, or the next of an
    entry. *)
Inductive link := First (fei : Z) | Next (cbi : Z).
Definition read_link (l : link) : M Z :=
  match l with
  | First f => let* fe := get_fe f in ret (firstcb fe)
  | Next c => let* cb := get_cb c in ret (cnext cb)
  end.
Definition write_link (l : link) (v : Z) : M unit :=
  match l with
  | First f => mod_fe f (set_firstcb v)
  | Next c => mod_cb c (set_cnext v)
  end.

(** The list is left at an entry that is wanted or at its end. *)
Fixpoint find_link (wanted : Z -> CallBack -> bool) (l : link) (fuel : nat) : M link :=
  let* v := read_link l in
  if v =? 0 then ret l
  else
    let* cb := get_cb v in
    if wanted v cb then ret l
    else match fuel with O => crash | S fuel' => find_link wanted (Next v) fuel' end.

Definition CDelPtr (fei : Z) (l : link) (deletefe : bool) : M unit :=
  let* v := read_link l in
  if v =? 0 then ret tt
  else
    let* cb := get_cb v in
    write_link l (cnext cb) ;;
    iFreeCB v ;;
    let* fe := get_fe fei in
    let n := u32 (ncbs fe - 1) in
    mod_fe fei (set_ncbs n) ;;
    if (n =? 0) && deletefe then FDel fei else ret tt.

Definition CDel (cbi : Z) (deletefe : bool) : M unit :=
  let* cb := get_cb cbi in
  let* n := gets nblks in
  let* l := find_link (fun v _ => v =? cbi) (First (fhead cb)) (Z.to_nat n + 11) in
  CDelPtr (fhead cb) l deletefe.

Definition FindCBPtr (fei h : Z) : M link :=
  let* n := gets nblks in
  find_link (fun _ cb => hhead cb =? h) (First fei) (S (Z.to_nat n)).

(** ** Times *)

Definition ServerBias : Z := 180.
Definition MinTimeOut : Z := 420.
Definition TimeOuts : list Z := [14400; 3600; 1800; 900; 900; 600; 600; 600].
Definition CBtime (uxtime : Z) : Z := Z.shiftr uxtime 7.
Definition TimeCeiling (uxtime : Z) : Z := Z.land (u32 (uxtime + 127)) (Z.lnot 127).
Definition TimeOut (nusers : Z) : Z := if 64 <=? nusers then MinTimeOut else nth (Z.to_nat (Z.shiftr nusers 3)) TimeOuts 0.
Definition TIndex (cbtime : Z) : Z := Z.land cbtime 127 + 1.
Definition TNorm (tfirst index : Z) : Z := if index <? TIndex tfirst then index + 128 else index.

(** ** Making and removing *)

(** The entries 1 to [n], all free. *)
Definition blank_FE : FileEntry := FileE (Fid 0 0 0) 0 0 0 0.
Definition blank_CB : CallBack := CallB 0 0 0 0 0 0 0 0 0.
Definition InitCallBack (n : Z) (s : cbstate) : cbstate :=
  let ids := map Z.of_nat (seq 1 (Z.to_nat n)) in
  CbState (list_to_map (map (fun i => (i, blank_FE)) ids)) (list_to_map (map (fun i => (i, blank_CB)) ids)) (HashTable s) (timeout s)
    (CBtime (now s)) ids ids n (hosts s) (hostList s) (now s) (codes s) (calls s).

Definition DeleteCallBack (h : Z) (fid : AFSFid) : M unit :=
  let* fe := FindFE fid in
  if fe =? 0 then ret tt
  else
    let* pcb := FindCBPtr fe h in
    let* cb := read_link pcb in
    if cb =? 0 then ret tt
    else HDel cb ;; TDel cb ;; CDelPtr fe pcb true.

(** Every callback of a file, from [cbi] on. *)
Fixpoint delete_list (fei cbi : Z) (fuel : nat) : M unit :=
  match fuel with
  | O => crash
  | S fuel' =>
      if cbi =? 0 then ret tt
      else
        let* cb := get_cb cbi in
        TDel cbi ;; HDel cbi ;; iFreeCB cbi ;;
        mod_fe fei (fun fe => set_ncbs (u32 (ncbs fe - 1)) fe) ;;
        delete_list fei (cnext cb) fuel'
  end.

Definition DeleteFileCallBacks (fid : AFSFid) : M unit :=
  let* fei := FindFE fid in
  if fei =? 0 then ret tt
  else
    let* fe := get_fe fei in
    let* fuel := gets fuel_of in
    delete_list fei (firstcb fe) fuel ;; FDel fei.

(** A circular list, from [cbi] on until [first]. *)
Fixpoint delete_ring (first cbi : Z) (deletefe : bool) (fuel : nat) : M unit :=
  match fuel with
  | O => crash
  | S fuel' =>
      let* cb := get_cb cbi in
      TDel cbi ;; CDel cbi deletefe ;;
      if hnext cb =? first then ret tt else delete_ring first (hnext cb) deletefe fuel'
  end.

Definition DeleteAllCallBacks_r (h : Z) (deletefe : bool) : M unit :=
  let* hp := get_host h in
  if cblist hp =? 0 then ret tt
  else
    let* fuel := gets fuel_of in
    delete_ring (cblist hp) (cblist hp) deletefe fuel ;; mod_host h (set_cblist 0).

(** The entries of one queue. *)
Fixpoint expire_ring (t cbi : Z) (fuel : nat) : M unit :=
  match fuel with
  | O => crash
  | S fuel' =>
      let* cb := get_cb cbi in
      HDel cbi ;; CDel cbi true ;;
      let* th := get_queue t in
      if tnext cb =? th then ret tt else expire_ring t (tnext cb) fuel'
  end.

(** The queues from [tfirst] to the one of the time, [fuel] at most. *)
Fixpoint expire_queues (cbnow : Z) (found : bool) (fuel : nat) : M bool :=
  let* t := gets tfirst in
  if cbnow <? t then ret found
  else match fuel with
  | O => crash
  | S fuel' =>
      let* cbi := get_queue (TIndex t) in
      let* n := gets fuel_of in
      (if negb (cbi =? 0) then expire_ring (TIndex t) cbi n ;; set_queue (TIndex t) 0 else ret tt) ;;
      modify (with_tfirst (t + 1)) ;;
      expire_queues cbnow (found || negb (cbi =? 0)) fuel'
  end.

Definition CleanupTimedOutCallBacks_r : M bool :=
  let* t := gets now in
  let* first := gets tfirst in
  expire_queues (CBtime t) false (Z.to_nat (CBtime t - first + 1)).

Definition set_flag (flag : Z) (h : host) : host := set_hostFlags (Z.lor (hostFlags h) flag) h.
Definition clear_flag (flag : Z) (h : host) : host := set_hostFlags (Z.land (hostFlags h) (Z.lnot flag)) h.
Definition has_flag (flag : Z) (h : host) : bool := negb (Z.land (hostFlags h) flag =? 0).

Definition ClearHostCallbacks_r (hp : Z) : M unit :=
  DeleteAllCallBacks_r hp true ;;
  let* h := get_host hp in
  if has_flag VENUSDOWN h then mod_host hp (clear_flag RESETDONE)
  else
    mod_host hp (clear_flag ALTADDR) ;;
    let* code := call_host (InitCallBackStateMsg hp) in
    mod_host hp (set_flag ALTADDR) ;;
    if negb (code =? 0) then mod_host hp (fun h => clear_flag RESETDONE (set_flag VENUSDOWN h))
    else mod_host hp (set_flag RESETDONE).

(** lih0_r ([fresh]: not for hosts that others hold) and lih1_r, over the hosts
    of the list: the one selected so far, and 0 as no host at all. *)
Definition lih (fresh : bool) (hostp : option Z) (hs : gmap Z host) (sel : option Z) (i : Z) : option Z :=
  match hs !! i with
  | None => sel
  | Some h =>
      let older := match sel with
                   | None => true
                   | Some j => match hs !! j with Some g => ActiveCall h <? ActiveCall g | None => true end
                   end in
      match hostp with
      | None => sel
      | Some p =>
          let newer := match hs !! p with Some g => ActiveCall g <? ActiveCall h | None => true end in
          if negb (cblist h =? 0) && negb (i =? p) && negb (fresh && otherHolds h) && older && newer then Some i else sel
      end
  end.

Definition lih_host (fresh : bool) (hostp : option Z) : M (option Z) :=
  gets (fun s => fold_left (lih fresh hostp (hosts s)) (hostList s) None).

(** The passes over the other hosts: whether space was found. *)
Fixpoint clear_others (pass : nat) (hostp : Z) (hp1 : option Z) (fuel : nat) : M bool :=
  match fuel with
  | O => crash
  | S fuel' =>
      let* hp := lih_host (pass =? 0)%nat hp1 in
      match hp with
      | Some hp => if negb (hp =? hostp) then ClearHostCallbacks_r hp ;; ret true else clear_others pass hostp (Some hp) fuel'
      | None => if (pass =? 0)%nat then clear_others 1 hostp None fuel' else ret false
      end
  end.

Definition GetSomeSpace_r (hostp : Z) : M unit :=
  let* found := CleanupTimedOutCallBacks_r in
  if found then ret tt
  else
    let* n := gets (fun s => length (hostList s)) in
    let* found := clear_others 0 hostp None (2 * n + 3) in
    if found then ret tt else ClearHostCallbacks_r hostp.

(** Waiting for a free entry, the clock showing the times of a list at the tries:
    an entry is got, or there is none yet after the last try. *)
Inductive tries := Got (i : Z) (s : cbstate) | None_yet (s : cbstate) | Fault.

Fixpoint try_entry (get : M Z) (hostp : Z) (clock : list Z) (s : cbstate) : tries :=
  match clock with
  | [] => None_yet s
  | t :: clock' =>
      match get (with_now t s) with
      | None => Fault
      | Some (i, s1) =>
          if negb (i =? 0) then Got i s1
          else match GetSomeSpace_r hostp s1 with None => Fault | Some (_, s2) => try_entry get hostp clock' s2 end
      end
  end.

(** The wait at one time; the fuel bounds the tries. *)
Definition get_entry (get : M Z) (hostp : Z) (fuel : nat) : M Z := fun s =>
  match try_entry get hostp (repeat (now s) (S fuel)) s with Got i s' => Some (i, s') | _ => None end.

(** The time and the queue of a promise. *)
Definition time_out_of (type now ncbs : Z) : option Z :=
  if type =? CB_NORMAL then Some (TimeCeiling (now + TimeOut ncbs + ServerBias))
  else if type =? CB_VOLUME then Some (TimeCeiling (60 * 120 + now + ServerBias))
  else if type =? CB_BULK then Some (TimeCeiling (now + ServerBias + TimeOut (22 + ncbs)))
  else None.

(** The entry of the host in a list, or the place after the last. *)
Definition find_host (fei h : Z) : M link :=
  let* n := gets nblks in find_link (fun _ cb => hhead cb =? h) (First fei) (S (Z.to_nat n)).

Definition new_fe (fei : Z) (fid : AFSFid) : M unit :=
  let* b := gets (fun s => bucket s (fid_hash fid)) in
  mod_fe fei (fun _ => FileE fid b 0 0 0) ;; modify (with_HashTable <[fid_hash fid := fei]>).

Definition AddCallBack1_r (space : nat) (h : Z) (fid : AFSFid) (t type : Z) : M Z :=
  let* newcb := get_entry iGetCB h space in
  let* newfe := get_entry iGetFE h space in
  let* fe := FindFE fid in
  let* n := if fe =? 0 then ret 0 else (let* e := get_fe fe in ret (ncbs e)) in
  let* clock := gets now in
  let time_out := time_out_of type clock n in
  let Thead := match time_out with Some time => TIndex (CBtime time) | None => t end in
  let found := negb (fe =? 0) in
  let fe := if found then fe else newfe in
  (if found then ret tt else new_fe fe fid) ;;
  let* l := find_host fe h in
  let* cb := read_link l in
  (if negb (cb =? 0) then
     let* c := get_cb cb in
     (if negb (status c =? CB_DELAYED) then mod_cb cb (set_status type) else ret tt) ;;
     let* first := gets tfirst in
     (if TNorm first (thead c) <? TNorm first Thead then TDel cb ;; TAdd cb Thead else ret tt) ;;
     (if found then ret tt
      else mod_fe fe (fun e => set_firstcb cb (set_ncbs (u32 (ncbs e + 1)) e)) ;; mod_cb cb (set_fhead fe)) ;;
     iFreeCB newcb
   else
     write_link l newcb ;;
     mod_fe fe (fun e => set_ncbs (u32 (ncbs e + 1)) e) ;;
     mod_cb newcb (fun c => set_status type (set_fhead fe (set_cnext 0 c))) ;;
     HAdd newcb h ;; TAdd newcb Thead) ;;
  (if found then iFreeFE newfe else ret tt) ;;
  ret (match time_out with Some time => u32 (time - ServerBias) | None => 0 end).

(** ** Breaking promises *)

(** The hosts to call, with the queue of what was promised, by index. *)
Fixpoint insert_cba (x : Z * Z) (l : list (Z * Z)) : list (Z * Z) :=
  match l with
  | [] => [x]
  | y :: l' => if x.1 <=? y.1 then x :: l else y :: insert_cba x l'
  end.
Definition sort_cba (l : list (Z * Z)) : list (Z * Z) := foldr insert_cba [] l.

Definition break_one (space : nat) (fid : AFSFid) (x : Z * Z) : M unit :=
  let* hp := get_host x.1 in
  if has_flag HOSTDELETED hp then ret tt
  else
    let* code := call_host (CallBackMsg x.1 [fid]) in
    if (code =? 0) || (x.2 =? 0) then ret tt
    else
      let* code := call_host (AlternateMsg x.1 [fid]) in
      if code =? 0 then ret tt
      else
        mod_host x.1 (set_flag VENUSDOWN) ;;
        let* _ := AddCallBack1_r space x.1 fid x.2 CB_DELAYED in ret tt.

Fixpoint for_each {A} (f : A -> M unit) (l : list A) : M unit :=
  match l with
  | [] => ret tt
  | x :: l' => f x ;; for_each f l'
  end.

Definition MultiBreakCallBack_r (space : nat) (cba : list (Z * Z)) (fid : AFSFid) : M unit :=
  for_each (break_one space fid) (sort_cba cba).

(** One pass over the list of the file, for at most [n] hosts: whom to call,
    and where the pass stopped. *)
Fixpoint collect (xhost : Z) (flag : bool) (cbi : Z) (n : nat) (fuel : nat) : M (list (Z * Z) * Z) :=
  if (cbi =? 0) || (n =? 0)%nat then ret ([], cbi)
  else match fuel with
  | O => crash
  | S fuel' =>
      let* cb := get_cb cbi in
      if (negb (hhead cb =? xhost) || flag) && ((status cb =? CB_BULK) || (status cb =? CB_NORMAL) || (status cb =? CB_VOLUME)) then
        let* hp := get_host (hhead cb) in
        if has_flag VENUSDOWN hp then
          mod_cb cbi (set_status CB_DELAYED) ;; collect xhost flag (cnext cb) n fuel'
        else
          TDel cbi ;; HDel cbi ;; CDel cbi true ;;
          let* r := collect xhost flag (cnext cb) (n - 1) fuel' in
          ret ((hhead cb, thead cb) :: r.1, r.2)
      else collect xhost flag (cnext cb) n fuel'
  end.

(** Nothing is promised, or only to the host that is left out. *)
Definition only_xhost (xhost : Z) (flag : bool) (fe : FileEntry) : M bool :=
  if firstcb fe =? 0 then ret true
  else
    let* cb := get_cb (firstcb fe) in
    ret ((ncbs fe =? 1) && (hhead cb =? xhost) && negb flag).

Fixpoint break_rounds (space : nat) (xhost : Z) (fid : AFSFid) (flag : bool) (fuel : nat) : M unit :=
  match fuel with
  | O => crash
  | S fuel' =>
      let* fei := FindFE fid in
      if fei =? 0 then ret tt
      else
        let* fe := get_fe fei in
        let* only := only_xhost xhost flag fe in
        if only then ret tt
        else
          let* n := gets fuel_of in
          let* r := collect xhost flag (firstcb fe) MAX_CB_HOSTS n in
          if (length r.1 =? 0)%nat then ret tt
          else MultiBreakCallBack_r space r.1 fid ;; break_rounds space xhost fid flag fuel'
  end.

Definition BreakCallBack (space : nat) (xhost : Z) (fid : AFSFid) (flag : bool) : M unit :=
  let* fuel := gets fuel_of in break_rounds space xhost fid flag fuel.

(** ** Promises that were delayed *)

(** One pass over the list of the host, for at most [n] files. *)
Fixpoint collect_delayed (h cbi : Z) (n : nat) (fuel : nat) : M (list AFSFid) :=
  match fuel with
  | O => crash
  | S fuel' =>
      let* hp := get_host h in
      let first := cblist hp in
      let* cb := get_cb cbi in
      let* fids :=
        if status cb =? CB_DELAYED then
          let* fe := get_fe (fhead cb) in
          HDel cbi ;; TDel cbi ;; CDel cbi true ;; ret [fe_fid fe]
        else ret [] in
      let n := (n - length fids)%nat in
      if negb (hnext cb =? 0) && negb (hnext cb =? first) && negb (n =? 0)%nat then
        let* l := collect_delayed h (hnext cb) n fuel' in ret (fids ++ l)
      else ret fids
  end.

Fixpoint break_delayed (h : Z) (fuel : nat) : M unit :=
  match fuel with
  | O => crash
  | S fuel' =>
      let* hp := get_host h in
      if has_flag HOSTDELETED hp then ret tt
      else
        mod_host h (clear_flag VENUSDOWN) ;;
        if cblist hp =? 0 then ret tt
        else
          let* n := gets fuel_of in
          let* fids := collect_delayed h (cblist hp) AFSCBMAX n in
          if (length fids =? 0)%nat then ret tt
          else
            let* code := call_host (CallBackMsg h fids) in
            if negb (code =? 0) then mod_host h (set_flag VENUSDOWN) ;; ClearHostCallbacks_r h
            else if (length fids <? AFSCBMAX)%nat then ret tt
            else break_delayed h fuel'
  end.

Definition BreakDelayedCallBacks_r (h : Z) : M bool :=
  let* hp := get_host h in
  (if negb (has_flag RESETDONE hp) && negb (has_flag HOSTDELETED hp) then
     mod_host h (clear_flag ALTADDR) ;;
     let* code := call_host (InitCallBackStateMsg h) in
     mod_host h (set_flag ALTADDR) ;;
     if negb (code =? 0) then mod_host h (set_flag VENUSDOWN)
     else mod_host h (fun g => clear_flag VENUSDOWN (set_flag RESETDONE g))
   else let* fuel := gets fuel_of in break_delayed h fuel) ;;
  let* hp := get_host h in
  (if negb (has_flag VENUSDOWN hp) then mod_host h (clear_flag HFE_LATER) else ret tt) ;;
  let* hp := get_host h in
  ret (has_flag VENUSDOWN hp).

(** What a call of a client does first, once its host is found: the host is told
    what it has missed, by another of its addresses when need be ([probed]: whether
    MultiProbeAlternateAddress_r finds one); the error of the call. *)
Definition VBUSY : Z := 110.
Definition CallPreamble (probed : bool) (h : Z) : M Z :=
  let* hp := get_host h in
  if has_flag HOSTDELETED hp then ret VBUSY
  else if has_flag VENUSDOWN hp || has_flag HFE_LATER hp then
    let* failed := BreakDelayedCallBacks_r h in
    if failed then
      if negb probed then ret (-1)
      else
        let* failed := BreakDelayedCallBacks_r h in
        ret (if failed then -1 else 0)
    else ret 0
  else ret 0.

(** ** Whole volumes *)

(** The greater queue, as the times go. *)
Definition later_queue (first tthead t : Z) : Z := if (tthead =? 0) || (TNorm first tthead <? TNorm first t) then t else tthead.

(** Everything promised of a file: the hosts, and the latest queue. *)
Fixpoint drop_list (cbi tthead : Z) (fuel : nat) : M (list Z * Z) :=
  match fuel with
  | O => crash
  | S fuel' =>
      if cbi =? 0 then ret ([], tthead)
      else
        let* cb := get_cb cbi in
        let* first := gets tfirst in
        TDel cbi ;; HDel cbi ;; iFreeCB cbi ;;
        let* r := drop_list (cnext cb) (later_queue first tthead (thead cb)) fuel' in
        ret (hhead cb :: r.1, r.2)
  end.

Inductive felink := Bucket (h : Z) | NextFE (fei : Z).
Definition read_felink (l : felink) : M Z :=
  match l with
  | Bucket h => gets (fun s => bucket s h)
  | NextFE i => let* fe := get_fe i in ret (fnext fe)
  end.
Definition write_felink (l : felink) (v : Z) : M unit :=
  match l with
  | Bucket h => modify (with_HashTable <[h := v]>)
  | NextFE i => mod_fe i (set_fnext v)
  end.

(** The entries of a bucket that are of the volume. *)
Fixpoint drop_bucket (volume : Z) (l : felink) (tthead : Z) (fuel : nat) : M (list Z * Z) :=
  match fuel with
  | O => crash
  | S fuel' =>
      let* fei := read_felink l in
      if fei =? 0 then ret ([], tthead)
      else
        let* fe := get_fe fei in
        if Volume (fe_fid fe) =? volume then
          let* n := gets fuel_of in
          let* r := drop_list (firstcb fe) tthead n in
          write_felink l (fnext fe) ;; iFreeFE fei ;;
          let* r' := drop_bucket volume l r.2 fuel' in
          ret (r.1 ++ r'.1, r'.2)
        else drop_bucket volume (NextFE fei) tthead fuel'
  end.

Definition all_buckets : list Z := map Z.of_nat (seq 0 (Z.to_nat FEHASH_SIZE)).

Fixpoint drop_buckets (volume : Z) (hs : list Z) (tthead : Z) : M (list Z * Z) :=
  match hs with
  | [] => ret ([], tthead)
  | h :: hs' =>
      let* n := gets fuel_of in
      let* r := drop_bucket volume (Bucket h) tthead n in
      let* r' := drop_buckets volume hs' r.2 in
      ret (r.1 ++ r'.1, r'.2)
  end.

(** For a host that was held: those to call, after those that were called. *)
Definition MultiBreakVolumeCallBack_r (space : nat) (fid : AFSFid) (tthead : Z) (deletefe : bool) (cba : list (Z * Z)) (h : Z) : M (list (Z * Z)) :=
  let* hp := get_host h in
  if has_flag HOSTDELETED hp then ret cba
  else if has_flag VENUSDOWN hp then
    DeleteAllCallBacks_r h deletefe ;; mod_host h (clear_flag RESETDONE) ;; ret cba
  else if (length cba =? MAX_CB_HOSTS)%nat then MultiBreakCallBack_r space cba fid ;; ret [(h, tthead)]
  else ret (cba ++ [(h, tthead)]).

Fixpoint enumerate_held (f : list (Z * Z) -> Z -> M (list (Z * Z))) (held hs : list Z) (cba : list (Z * Z)) : M (list (Z * Z)) :=
  match hs with
  | [] => ret cba
  | h :: hs' =>
      let* cba := if bool_decide (h ∈ held) then f cba h else ret cba in
      enumerate_held f held hs' cba
  end.

Definition call_volume (space : nat) (volume : Z) (held : list Z) (tthead : Z) (deletefe : bool) : M unit :=
  let fid := Fid volume 0 0 in
  let* hs := gets hostList in
  let* cba := enumerate_held (MultiBreakVolumeCallBack_r space fid tthead deletefe) held hs [] in
  if (length cba =? 0)%nat then ret tt else MultiBreakCallBack_r space cba fid.

Definition BreakVolumeCallBacks (space : nat) (volume : Z) : M unit :=
  let* r := drop_buckets volume all_buckets 0 in
  if r.2 =? 0 then ret tt else call_volume space volume r.1 r.2 true.

(** *** Later *)

Fixpoint delay_list (cbi : Z) (fuel : nat) : M unit :=
  match fuel with
  | O => crash
  | S fuel' =>
      if cbi =? 0 then ret tt
      else
        let* cb := get_cb cbi in
        mod_host (hhead cb) (set_flag HFE_LATER) ;;
        mod_cb cbi (set_status CB_DELAYED) ;;
        delay_list (cnext cb) fuel'
  end.

Fixpoint delay_bucket (volume fei : Z) (fuel : nat) : M bool :=
  match fuel with
  | O => crash
  | S fuel' =>
      if fei =? 0 then ret false
      else
        let* fe := get_fe fei in
        let this := Volume (fe_fid fe) =? volume in
        (if this then
           let* n := gets fuel_of in
           delay_list (firstcb fe) n ;; mod_fe fei (fun e => set_fstatus (Z.lor (fstatus e) FE_LATER) e)
         else ret tt) ;;
        let* found := delay_bucket volume (fnext fe) fuel' in
        ret (this || found)
  end.

Fixpoint delay_buckets (volume : Z) (hs : list Z) : M bool :=
  match hs with
  | [] => ret false
  | h :: hs' =>
      let* b := gets (fun s => bucket s h) in
      let* n := gets fuel_of in
      let* found := delay_bucket volume b n in
      let* found' := delay_buckets volume hs' in
      ret (found || found')
  end.

(** Whether the fsync thread is woken. *)
Definition BreakVolumeCallBacksLater (volume : Z) : M bool := delay_buckets volume all_buckets.

(** The entries to do later of one volume, the first there is ([volume], 0 when
    none is chosen yet), taken out of the buckets: the last found first. *)
Fixpoint unchain_later (l : felink) (volume : Z) (fuel : nat) : M (list Z * Z) :=
  match fuel with
  | O => crash
  | S fuel' =>
      let* fei := read_felink l in
      if fei =? 0 then ret ([], volume)
      else
        let* fe := get_fe fei in
        if negb (Z.land (fstatus fe) FE_LATER =? 0) && ((volume =? 0) || (volume =? Volume (fe_fid fe))) then
          write_felink l (fnext fe) ;;
          let* r := unchain_later l (Volume (fe_fid fe)) fuel' in
          ret (r.1 ++ [fei], r.2)
        else unchain_later (NextFE fei) volume fuel'
  end.

Fixpoint unchain_all (hs : list Z) (volume : Z) : M (list Z * Z) :=
  match hs with
  | [] => ret ([], volume)
  | h :: hs' =>
      let* n := gets fuel_of in
      let* r := unchain_later (Bucket h) volume n in
      let* r' := unchain_all hs' r.2 in
      ret (r'.1 ++ r.1, r'.2)
  end.

Fixpoint free_delayed (cbi tthead : Z) (fuel : nat) : M (list Z * Z) :=
  match fuel with
  | O => crash
  | S fuel' =>
      if cbi =? 0 then ret ([], tthead)
      else
        let* cb := get_cb cbi in
        let* first := gets tfirst in
        if status cb =? CB_DELAYED then
          TDel cbi ;; HDel cbi ;; CDel cbi false ;;
          let* r := free_delayed (cnext cb) (later_queue first tthead (thead cb)) fuel' in
          ret (hhead cb :: r.1, r.2)
        else free_delayed (cnext cb) tthead fuel'
  end.

Fixpoint free_later (feis : list Z) (tthead : Z) : M (list Z * Z) :=
  match feis with
  | [] => ret ([], tthead)
  | fei :: feis' =>
      let* fe := get_fe fei in
      let* n := gets fuel_of in
      let* r := free_delayed (firstcb fe) tthead n in
      iFreeFE fei ;;
      let* r' := free_later feis' r.2 in
      ret (r.1 ++ r'.1, r'.2)
  end.

(** Whether to be called again. *)
Definition BreakLaterCallBacks (space : nat) : M bool :=
  let* r := unchain_all all_buckets 0 in
  let '(feis, volume) := r in
  if (length feis =? 0)%nat then ret false
  else
    let* r := free_later feis 0 in
    (if r.2 =? 0 then ret tt else call_volume space volume r.1 r.2 false) ;;
    ret true.
