(* ===== verification/CallbackSpec.v ===== *)
(** The tables of the file server's callbacks, as they are kept: which callback
    and file entries are in use, the list of each file, the circular lists of
    each host and of each time, the chains of the hash table; and the operations
    on those lists. *)
From S2P Require Import Prelude Rings Monad Callback.

#[local] Open Scope monad_scope.

(** ** Fields *)

Definition cbf {A} (f : CallBack -> A) (s : cbstate) (i : Z) : A := f (default blank_CB (CB s !! i)).
Definition fef {A} (f : FileEntry -> A) (s : cbstate) (i : Z) : A := f (default blank_FE (FE s !! i)).
Definition host_list (s : cbstate) (h : Z) : Z := from_option cblist 0 (hosts s !! h).
Definition queue (s : cbstate) (t : Z) : Z := default 0 (timeout s !! t).
Definition is_cb (s : cbstate) (i : Z) : Prop := is_Some (CB s !! i).
Definition is_fe (s : cbstate) (i : Z) : Prop := is_Some (FE s !! i).

Lemma get_cb_ok s i : is_cb s i -> get_cb i s = Some (cbf id s i, s).
Proof. intros [c E]. unfold get_cb, entry, cbf. by rewrite E. Qed.
Lemma get_fe_ok s i : is_fe s i -> get_fe i s = Some (fef id s i, s).
Proof. intros [c E]. unfold get_fe, entry, fef. by rewrite E. Qed.
Lemma mod_cb_ok s i f : is_cb s i -> mod_cb i f s = Some (tt, with_CB (alter f i) s).
Proof. intros H. unfold mod_cb. by rewrite (bind_ok _ _ _ _ _ (get_cb_ok s i H)). Qed.
Lemma mod_fe_ok s i f : is_fe s i -> mod_fe i f s = Some (tt, with_FE (alter f i) s).
Proof. intros H. unfold mod_fe. by rewrite (bind_ok _ _ _ _ _ (get_fe_ok s i H)). Qed.
Lemma get_queue_ok s t : in_queues t = true -> get_queue t s = Some (queue s t, s).
Proof. unfold get_queue. by intros ->. Qed.
Lemma set_queue_ok s t v : in_queues t = true -> set_queue t v s = Some (tt, with_timeout <[t := v]> s).
Proof. unfold set_queue. by intros ->. Qed.

Lemma is_cb_alter s i f x : is_cb (with_CB (alter f i) s) x <-> is_cb s x.
Proof. unfold is_cb. cbn. rewrite lookup_alter_is_Some. done. Qed.
Lemma is_fe_alter s i f x : is_fe (with_FE (alter f i) s) x <-> is_fe s x.
Proof. unfold is_fe. cbn. rewrite lookup_alter_is_Some. done. Qed.

Lemma cbf_alter {A} (g : CallBack -> A) s i f x : is_cb s i ->
  cbf g (with_CB (alter f i) s) x = if decide (x = i) then g (f (cbf id s i)) else cbf g s x.
Proof.
  intros [c E]. unfold cbf. cbn [CB with_CB]. case_decide as Ex.
  - subst x. by rewrite lookup_alter_eq, E.
  - by rewrite lookup_alter_ne.
Qed.
Lemma fef_alter {A} (g : FileEntry -> A) s i f x : is_fe s i ->
  fef g (with_FE (alter f i) s) x = if decide (x = i) then g (f (fef id s i)) else fef g s x.
Proof.
  intros [c E]. unfold fef. cbn [FE with_FE]. case_decide as Ex.
  - subst x. by rewrite lookup_alter_eq, E.
  - by rewrite lookup_alter_ne.
Qed.

(** A field that a change leaves alone. *)
Lemma cbf_keep {A} (g : CallBack -> A) s i f x : (forall c, g (f c) = g c) -> cbf g (with_CB (alter f i) s) x = cbf g s x.
Proof.
  intros Hg. unfold cbf. cbn [CB with_CB]. destruct (decide (x = i)) as [-> | Hx].
  - rewrite lookup_alter_eq. destruct (CB s !! i); [apply Hg | done].
  - by rewrite lookup_alter_ne.
Qed.
Lemma fef_keep {A} (g : FileEntry -> A) s i f x : (forall c, g (f c) = g c) -> fef g (with_FE (alter f i) s) x = fef g s x.
Proof.
  intros Hg. unfold fef. cbn [FE with_FE]. destruct (decide (x = i)) as [-> | Hx].
  - rewrite lookup_alter_eq. destruct (FE s !! i); [apply Hg | done].
  - by rewrite lookup_alter_ne.
Qed.

Lemma fmap_alter_keep {A B} (g : A -> B) (f : A -> A) (i : Z) (m : gmap Z A) : (forall a, g (f a) = g a) -> g <$> alter f i m = g <$> m.
Proof.
  intros Hg. apply map_eq. intros j. rewrite !lookup_fmap. destruct (decide (j = i)) as [-> | Hj].
  - rewrite lookup_alter_eq. destruct (m !! i); cbn; [by rewrite Hg | done].
  - by rewrite lookup_alter_ne.
Qed.

(** ** What the operations on one kind of list leave alone *)

Definition untimed (s : cbstate) : cbstate := with_timeout (fun _ => ∅) (with_CB (fmap (fun c => set_tprev 0 (set_tnext 0 c))) s).
Definition unhosted (s : cbstate) : cbstate := with_hosts (fmap (set_cblist 0)) (with_CB (fmap (fun c => set_hprev 0 (set_hnext 0 c))) s).
Definition unfiled (s : cbstate) : cbstate :=
  with_FEfree [] (with_HashTable (fun _ => ∅)
    (with_FE (fmap (fun f => set_fnext 0 (set_ncbs 0 (set_firstcb 0 f)))) (with_CB (fmap (set_cnext 0)) s))).

Lemma cbf_fmap {A} (g : CallBack -> A) s f x : (forall c, g (f c) = g c) -> cbf g (with_CB (fmap f) s) x = cbf g s x.
Proof.
  intros Hg. unfold cbf. cbn [CB with_CB]. rewrite lookup_fmap. destruct (CB s !! x); [apply Hg |]. done.
Qed.
Lemma fef_fmap {A} (g : FileEntry -> A) s f x : (forall c, g (f c) = g c) -> fef g (with_FE (fmap f) s) x = fef g s x.
Proof.
  intros Hg. unfold fef. cbn [FE with_FE]. rewrite lookup_fmap. destruct (FE s !! x); [apply Hg |]. done.
Qed.

Lemma untimed_cb {A} (g : CallBack -> A) s s' x : untimed s' = untimed s -> (forall c, g (set_tprev 0 (set_tnext 0 c)) = g c) -> cbf g s' x = cbf g s x.
Proof.
  intros E Hg. rewrite <- (cbf_fmap g s' _ x Hg), <- (cbf_fmap g s _ x Hg). exact (f_equal (fun s => cbf g s x) E).
Qed.
Lemma unhosted_cb {A} (g : CallBack -> A) s s' x : unhosted s' = unhosted s -> (forall c, g (set_hprev 0 (set_hnext 0 c)) = g c) -> cbf g s' x = cbf g s x.
Proof.
  intros E Hg. rewrite <- (cbf_fmap g s' _ x Hg), <- (cbf_fmap g s _ x Hg). exact (f_equal (fun s => cbf g s x) E).
Qed.
Lemma unfiled_cb {A} (g : CallBack -> A) s s' x : unfiled s' = unfiled s -> (forall c, g (set_cnext 0 c) = g c) -> cbf g s' x = cbf g s x.
Proof.
  intros E Hg. rewrite <- (cbf_fmap g s' _ x Hg), <- (cbf_fmap g s _ x Hg). exact (f_equal (fun s => cbf g s x) E).
Qed.
Lemma unfiled_fe {A} (g : FileEntry -> A) s s' x : unfiled s' = unfiled s ->
  (forall f, g (set_fnext 0 (set_ncbs 0 (set_firstcb 0 f))) = g f) -> fef g s' x = fef g s x.
Proof.
  intros E Hg. rewrite <- (fef_fmap g s' _ x Hg), <- (fef_fmap g s _ x Hg). exact (f_equal (fun s => fef g s x) E).
Qed.

Lemma is_cb_fmap s f x : is_cb (with_CB (fmap f) s) x <-> is_cb s x.
Proof. unfold is_cb. cbn. by rewrite lookup_fmap, fmap_is_Some. Qed.
Lemma same_cbs (f : CallBack -> CallBack) s s' x : f <$> CB s' = f <$> CB s -> is_cb s' x <-> is_cb s x.
Proof.
  intros E. apply (f_equal (.!! x)) in E. rewrite !lookup_fmap in E. unfold is_cb.
  destruct (CB s' !! x), (CB s !! x); naive_solver.
Qed.
Lemma untimed_is s s' x : untimed s' = untimed s -> is_cb s' x <-> is_cb s x.
Proof. intros E. apply (same_cbs _ _ _ _ (f_equal CB E)). Qed.
Lemma unhosted_is s s' x : unhosted s' = unhosted s -> is_cb s' x <-> is_cb s x.
Proof. intros E. apply (same_cbs _ _ _ _ (f_equal CB E)). Qed.
Lemma unfiled_is s s' x : unfiled s' = unfiled s -> is_cb s' x <-> is_cb s x.
Proof. intros E. apply (same_cbs _ _ _ _ (f_equal CB E)). Qed.

Ltac fields := cbn [FE CB HashTable timeout tfirst FEfree CBfree nblks hosts hostList now codes calls].

Lemma untimed_alter s i f : (forall c, set_tprev 0 (set_tnext 0 (f c)) = set_tprev 0 (set_tnext 0 c)) -> untimed (with_CB (alter f i) s) = untimed s.
Proof. intros H. unfold untimed, with_timeout, with_CB. fields. by rewrite fmap_alter_keep. Qed.
Lemma unhosted_alter s i f : (forall c, set_hprev 0 (set_hnext 0 (f c)) = set_hprev 0 (set_hnext 0 c)) -> unhosted (with_CB (alter f i) s) = unhosted s.
Proof. intros H. unfold unhosted, with_hosts, with_CB. fields. by rewrite fmap_alter_keep. Qed.
Lemma unfiled_alter s i f : (forall c, set_cnext 0 (f c) = set_cnext 0 c) -> unfiled (with_CB (alter f i) s) = unfiled s.
Proof. intros H. unfold unfiled, with_FE, with_CB, with_HashTable, with_FEfree. fields. by rewrite fmap_alter_keep. Qed.
Lemma unfiled_alter_fe s i f : (forall c, set_fnext 0 (set_ncbs 0 (set_firstcb 0 (f c))) = set_fnext 0 (set_ncbs 0 (set_firstcb 0 c))) ->
  unfiled (with_FE (alter f i) s) = unfiled s.
Proof. intros H. unfold unfiled, with_FE, with_CB, with_HashTable, with_FEfree. fields. by rewrite fmap_alter_keep. Qed.

Lemma fmap_alter_commute {A} (g f : A -> A) (i : Z) (m : gmap Z A) : (forall a, g (f a) = f (g a)) -> g <$> alter f i m = alter f i (g <$> m).
Proof.
  intros Hg. apply map_eq. intros j. rewrite lookup_fmap. destruct (decide (j = i)) as [-> | Hj].
  - rewrite !lookup_alter_eq, lookup_fmap. destruct (m !! i); cbn; [by rewrite Hg | done].
  - by rewrite !lookup_alter_ne, lookup_fmap.
Qed.
Lemma untimed_commute s i f : (forall c, set_tprev 0 (set_tnext 0 (f c)) = f (set_tprev 0 (set_tnext 0 c))) ->
  untimed (with_CB (alter f i) s) = with_CB (alter f i) (untimed s).
Proof. intros H. unfold untimed, with_timeout, with_CB. fields. by rewrite fmap_alter_commute. Qed.
Lemma unhosted_commute s i f : (forall c, set_hprev 0 (set_hnext 0 (f c)) = f (set_hprev 0 (set_hnext 0 c))) ->
  unhosted (with_CB (alter f i) s) = with_CB (alter f i) (unhosted s).
Proof. intros H. unfold unhosted, with_hosts, with_CB. fields. by rewrite fmap_alter_commute. Qed.

(** ** The lists by time and by host *)

Definition known (s : cbstate) (h : Z) : Prop := is_Some (hosts s !! h).

Definition timed_by (s : cbstate) (C : gset Z) (L : Z -> list Z) : Prop :=
  rings (cbf tnext s) (cbf tprev s) (cbf thead s) (queue s) (fun t => in_queues t = true) C L
  /\ forall c, c ∈ C -> c <> 0 /\ is_cb s c /\ in_queues (cbf thead s c) = true.
Definition hosted_by (s : cbstate) (C : gset Z) (L : Z -> list Z) : Prop :=
  rings (cbf hnext s) (cbf hprev s) (cbf hhead s) (host_list s) (known s) C L
  /\ forall c, c ∈ C -> c <> 0 /\ is_cb s c /\ known s (cbf hhead s c).
Definition timed (s : cbstate) (C : gset Z) : Prop := exists L, timed_by s C L.
Definition hosted (s : cbstate) (C : gset Z) : Prop := exists L, hosted_by s C L.

Lemma timed_frame s s' C L : timed_by s C L -> (forall x, is_cb s' x <-> is_cb s x) ->
  (forall x, x ∈ C -> cbf tnext s' x = cbf tnext s x /\ cbf tprev s' x = cbf tprev s x /\ cbf thead s' x = cbf thead s x) ->
  timeout s' = timeout s -> timed_by s' C L.
Proof.
  intros [R Hc] Hi Hx Et. split.
  - apply (rings_frame _ _ _ _ _ _ _ _ _ _ _ R Hx). intros t _. unfold queue. by rewrite Et.
  - intros c Hin. destruct (Hc c Hin) as (H1 & H2 & H3). destruct (Hx c Hin) as (_ & _ & ->). by rewrite Hi.
Qed.

Lemma hosted_frame s s' C L : hosted_by s C L -> (forall x, is_cb s' x <-> is_cb s x) ->
  (forall x, x ∈ C -> cbf hnext s' x = cbf hnext s x /\ cbf hprev s' x = cbf hprev s x /\ cbf hhead s' x = cbf hhead s x) ->
  cblist <$> hosts s' = cblist <$> hosts s -> hosted_by s' C L.
Proof.
  intros [R Hc] Hi Hx Eh.
  assert (Hk : forall h, known s' h <-> known s h).
  { intros h. unfold known. rewrite <- !(fmap_is_Some cblist), <- !lookup_fmap. by rewrite Eh. }
  assert (El : forall h, host_list s' h = host_list s h).
  { intros h. unfold host_list. apply (f_equal (.!! h)) in Eh. rewrite !lookup_fmap in Eh.
    destruct (hosts s' !! h), (hosts s !! h); naive_solver. }
  split.
  - destruct (rings_frame _ _ _ _ _ _ _ (host_list s') _ _ _ R Hx (fun h _ => El h)) as [R1 R2 R3].
    split; [intros i Hh%Hk; by apply R1 | intros i Hh%Hk; by apply R2 | intros i x Hh%Hk; by apply R3].
  - intros c Hin. destruct (Hc c Hin) as (H1 & H2 & H3). destruct (Hx c Hin) as (_ & _ & ->). by rewrite Hi, Hk.
Qed.

Lemma TDel_ok s C c : timed s C -> c ∈ C -> exists s', TDel c s = Some (tt, s') /\ timed s' (C ∖ {[c]}) /\ untimed s' = untimed s.
Proof.
  intros (L & R & Hd) Hc. destruct (Hd c Hc) as (Hc0 & Hcb & Hq).
  set (n := cbf tnext s c). set (p := cbf tprev s c). set (t := cbf thead s c) in *.
  assert (Hin : c ∈ L t) by (by apply (rg_elem _ _ _ _ _ _ _ R)).
  destruct (ring_near _ _ _ _ c (rg_ring _ _ _ _ _ _ _ R t Hq) Hin) as (Nn & Np & _). fold n in Nn. fold p in Np.
  apply (rg_elem _ _ _ _ _ _ _ R) in Nn as [Nn _], Np as [Np _]; [| done | done].
  destruct (Hd n Nn) as (Hn0 & Hnb & _), (Hd p Np) as (Hp0 & Hpb & _).
  set (s1 := if queue s t =? c then with_timeout <[t := if queue s t =? n then 0 else n]> s else s).
  assert (E1 : (if queue s t =? c then set_queue t (if queue s t =? n then 0 else n) else ret tt) s = Some (tt, s1)).
  { unfold s1. destruct (queue s t =? c); [by apply set_queue_ok | done]. }
  assert (S1 : untimed s1 = untimed s /\ CB s1 = CB s) by (unfold s1; by destruct (queue s t =? c)). destruct S1 as [U1 C1].
  assert (F1 : forall A (g : CallBack -> A) x, cbf g s1 x = cbf g s x) by (intros; unfold cbf; by rewrite C1).
  set (s2 := with_CB (alter (set_tnext n) p) s1). set (s3 := with_CB (alter (set_tprev p) n) s2).
  assert (I1 : forall x, is_cb s1 x <-> is_cb s x) by (intros; unfold is_cb; by rewrite C1).
  assert (F2 : forall x, cbf tnext s2 x = if decide (x = p) then n else cbf tnext s x).
  { intros x. unfold s2. rewrite cbf_alter by (by apply (proj2 (I1 p))). by rewrite !F1. }
  assert (F3 : cbf tprev s2 c = p) by (unfold s2; rewrite cbf_keep by done; apply F1).
  assert (F4 : cbf tnext s2 c = n) by (rewrite F2; by case_decide).
  assert (I2 : forall x, is_cb s2 x <-> is_cb s x) by (intros; unfold s2; rewrite is_cb_alter; apply I1).
  exists s3. split; [| split].
  - unfold TDel. rewrite (bind_ok _ _ _ _ _ (get_cb_ok s c Hcb)). change (thead (cbf id s c)) with t.
    change (tnext (cbf id s c)) with n. change (tprev (cbf id s c)) with p.
    rewrite (bind_ok _ _ _ _ _ (get_queue_ok s t Hq)), (bind_ok _ _ _ _ _ E1). rewrite (proj2 (Z.eqb_neq p 0) Hp0). cbn [negb].
    rewrite (bind_ok _ _ _ _ _ (mod_cb_ok s1 p _ (proj2 (I1 p) Hpb))). fold s2.
    rewrite (bind_ok _ _ _ _ _ (get_cb_ok s2 c (proj2 (I2 c) Hcb))). change (tnext (cbf id s2 c)) with (cbf tnext s2 c).
    change (tprev (cbf id s2 c)) with (cbf tprev s2 c). rewrite F4, F3. rewrite (proj2 (Z.eqb_neq n 0) Hn0). cbn [negb].
    apply mod_cb_ok. by apply I2.
  - destruct (rings_del _ _ _ _ (cbf tnext s3) (cbf tprev s3) (cbf thead s3) (queue s3) _ C L c R Hc Hq) as [L' R'].
    + intros x Hx Hxc. fold n. fold p. split; [| split].
      * unfold s3. by rewrite cbf_keep, F2.
      * unfold s3. rewrite cbf_alter by by apply I2. unfold s2. rewrite (cbf_keep tprev) by done. by rewrite F1.
      * unfold s3, s2. by rewrite !cbf_keep, F1.
    + fold t. intros i Hi. change (queue s3 i) with (queue s1 i). unfold s1, head_without. fold n.
      destruct (Z.eqb_spec (queue s t) c) as [Eq | Eq].
      * unfold queue at 1. cbn [timeout with_timeout]. case_decide as Ei.
        -- subst i. rewrite lookup_insert_eq. cbn. rewrite (decide_True (P := queue s t = c)) by done.
           destruct (Z.eqb_spec (queue s t) n); [by rewrite decide_True | by rewrite decide_False].
        -- by rewrite lookup_insert_ne.
      * case_decide; [| done]. subst i. by rewrite decide_False.
    + exists L'. split; [done |]. intros x [Hx Hxc]%elem_of_difference. destruct (Hd x Hx) as (X1 & X2 & X3).
      unfold s3, s2. rewrite !cbf_keep, F1, !is_cb_alter, I1 by done. done.
  - unfold s3, s2. rewrite !untimed_alter by done. exact U1.
Qed.

(** The head of a circular list. *)
Lemma rings_empty n p key hd ok C L i : rings n p key hd ok C L -> ok i -> 0 ∉ C -> hd i = 0 <-> L i = [].
Proof.
  intros R Hi H0. pose proof (rg_ring _ _ _ _ _ _ _ R i Hi) as Hr. destruct (L i) as [| x l] eqn:E; [done |].
  destruct Hr as [-> _]. split; [| done]. intros ->. exfalso. apply H0. apply (rg_elem _ _ _ _ _ _ _ R i); [done |].
  rewrite E. left.
Qed.

Lemma rings_head n p key hd ok C L i : rings n p key hd ok C L -> ok i -> L i <> [] -> hd i ∈ C /\ p (hd i) ∈ C.
Proof.
  intros R Hi HL. pose proof (rg_ring _ _ _ _ _ _ _ R i Hi) as Hr.
  assert (Hh : hd i ∈ L i) by (destruct (L i) as [| x l]; [done |]; destruct Hr as [-> _]; left).
  destruct (ring_near _ _ _ _ _ Hr Hh) as (_ & Hp & _). split; by apply (rg_elem _ _ _ _ _ _ _ R i).
Qed.

Lemma TAdd_ok s C c t : timed s C -> c ∉ C -> c <> 0 -> is_cb s c -> in_queues t = true ->
  exists s', TAdd c t s = Some (tt, s') /\ timed s' ({[c]} ∪ C) /\ untimed s' = untimed (with_CB (alter (set_thead t) c) s).
Proof.
  intros (L & R & Hd) Hc Hc0 Hcb Hq. assert (H0 : 0 ∉ C) by (intros H; by apply Hd in H as [? _]).
  pose proof (rings_empty _ _ _ _ _ _ _ t R Hq H0) as He. unfold TAdd. rewrite (bind_ok _ _ _ _ _ (get_queue_ok s t Hq)).
  set (h := queue s t) in *. destruct (decide (L t = [])) as [Et | Et].
  - rewrite (proj2 He Et). cbn [Z.eqb]. set (s1 := with_CB (alter (fun c' => set_tprev c (set_tnext c c')) c) s).
    set (s2 := with_timeout <[t := c]> s1). set (s3 := with_CB (alter (set_thead t) c) s2).
    assert (Hcb1 : is_cb s1 c) by by apply is_cb_alter.
    exists s3. split; [| split].
    + unfold mbind_. rewrite (mod_cb_ok s c _ Hcb). fold s1. rewrite (set_queue_ok s1 t c Hq). fold s2.
      by rewrite (mod_cb_ok s2 c _ Hcb1).
    + assert (Ft : forall x, cbf thead s3 x = if decide (x = c) then t else cbf thead s x).
      { intros x. unfold s3. rewrite cbf_alter by done. case_decide; [done |]. change (cbf thead s2 x) with (cbf thead s1 x).
        unfold s1. by rewrite cbf_keep. }
      assert (Fn : forall x, cbf tnext s3 x = if decide (x = c) then c else cbf tnext s x).
      { intros x. unfold s3. rewrite cbf_keep by done. change (cbf tnext s2 x) with (cbf tnext s1 x). unfold s1.
        by rewrite cbf_alter. }
      assert (Fp : forall x, cbf tprev s3 x = if decide (x = c) then c else cbf tprev s x).
      { intros x. unfold s3. rewrite cbf_keep by done. change (cbf tprev s2 x) with (cbf tprev s1 x). unfold s1.
        by rewrite cbf_alter. }
      assert (Hk : cbf thead s3 c = t) by (rewrite Ft; by rewrite decide_True).
      assert (Hne : forall x, x ∈ C -> x <> c) by (intros x Hx ->; done).
      destruct (rings_add _ _ _ _ (cbf tnext s3) (cbf tprev s3) (cbf thead s3) (queue s3) _ C L c R Hc) as [L' R'].
      * by rewrite Hk.
      * intros x Hx. rewrite Ft, decide_False by by apply Hne. done.
      * rewrite Hk, decide_True by done. split; [unfold queue; cbn; by rewrite lookup_insert_eq |].
        rewrite Fn, Fp, !decide_True by done. split; [done | split; [done |]]. intros x Hx.
        rewrite Fn, Fp, !decide_False by by apply Hne. done.
      * rewrite Hk. intros i Hi Hit. unfold queue. cbn. by rewrite lookup_insert_ne.
      * exists L'. split; [done |]. intros x [-> %elem_of_singleton | Hx]%elem_of_union; [split; [done | split; [by apply is_cb_alter, is_cb_alter | by rewrite Hk]] |].
        destruct (Hd x Hx) as (X1 & X2 & X3). rewrite Ft, decide_False by by apply Hne. split; [done | split; [| done]].
        unfold s3. apply is_cb_alter. by apply is_cb_alter.
    + unfold s3. rewrite !untimed_commute by done. f_equal. change (untimed s2) with (untimed s1). unfold s1.
      by rewrite untimed_alter.
  - destruct (rings_head _ _ _ _ _ _ _ t R Hq Et) as [Hh Hp]. fold h in Hh, Hp. set (p := cbf tprev s h) in *.
    destruct (Hd h Hh) as (Hh0 & Hhb & _), (Hd p Hp) as (Hp0 & Hpb & _).
    rewrite (proj2 (Z.eqb_neq h 0) Hh0). set (s1 := with_CB (alter (fun c' => set_tnext h (set_tprev p c')) c) s).
    set (s2 := with_CB (alter (set_tnext c) p) s1). set (s3 := with_CB (alter (set_tprev c) h) s2).
    set (s4 := with_CB (alter (set_thead t) c) s3).
    assert (I1 : forall x, is_cb s1 x <-> is_cb s x) by (intros; apply is_cb_alter).
    assert (I2 : forall x, is_cb s2 x <-> is_cb s x) by (intros; rewrite <- I1; apply is_cb_alter).
    assert (I3 : forall x, is_cb s3 x <-> is_cb s x) by (intros; rewrite <- I2; apply is_cb_alter).
    assert (Hne : forall x, x ∈ C -> x <> c) by (intros x Hx ->; done).
    exists s4. split; [| split].
    + rewrite (bind_ok _ _ _ tt s3); [apply mod_cb_ok; by apply I3 |].
      rewrite (bind_ok _ _ _ _ _ (get_cb_ok s h Hhb)). change (tprev (cbf id s h)) with p.
      rewrite (bind_ok _ _ _ _ _ (mod_cb_ok s c _ Hcb)). fold s1. rewrite (proj2 (Z.eqb_neq p 0) Hp0). cbn [negb].
      rewrite (bind_ok _ _ _ _ _ (mod_cb_ok s1 p _ (proj2 (I1 p) Hpb))). fold s2. apply mod_cb_ok. by apply I2.
    + assert (Ft : forall x, cbf thead s4 x = if decide (x = c) then t else cbf thead s x).
      { intros x. unfold s4. rewrite cbf_alter by by apply I3. case_decide; [done |]. unfold s3, s2, s1. by rewrite !cbf_keep. }
      assert (Fn : forall x, cbf tnext s4 x = if decide (x = p) then c else if decide (x = c) then h else cbf tnext s x).
      { intros x. unfold s4, s3. rewrite !cbf_keep by done. unfold s2. rewrite cbf_alter by by apply I1. case_decide; [done |].
        unfold s1. by rewrite cbf_alter. }
      assert (Fp : forall x, cbf tprev s4 x = if decide (x = h) then c else if decide (x = c) then p else cbf tprev s x).
      { intros x. unfold s4. rewrite cbf_keep by done. unfold s3. rewrite cbf_alter by by apply I2. case_decide; [done |].
        unfold s2. rewrite cbf_keep by done. unfold s1. by rewrite cbf_alter. }
      assert (Hk : cbf thead s4 c = t) by (rewrite Ft; by rewrite decide_True).
      pose proof (Hne h Hh) as Hhc. pose proof (Hne p Hp) as Hpc.
      destruct (rings_add _ _ _ _ (cbf tnext s4) (cbf tprev s4) (cbf thead s4) (queue s4) _ C L c R Hc) as [L' R'].
      * by rewrite Hk.
      * intros x Hx. rewrite Ft, decide_False by by apply Hne. done.
      * rewrite Hk, decide_False by done. change (queue s4 t) with h. fold h. cbn zeta. rewrite !Fn, !Fp. fold p.
        rewrite (decide_False (P := c = p)), !(decide_True (P := c = c)), (decide_False (P := c = h)), (decide_True (P := h = h)) by done.
        do 4 (split; [done |]). split; intros x Hx.
        -- rewrite Fn. case_decide; [done |]. by rewrite decide_False by by apply Hne.
        -- intros Hxh. rewrite Fp, decide_False by done. by rewrite decide_False by by apply Hne.
      * done.
      * exists L'. split; [done |]. intros x [-> %elem_of_singleton | Hx]%elem_of_union.
        -- rewrite Hk. split; [done | split; [| done]]. by apply is_cb_alter, I3.
        -- destruct (Hd x Hx) as (X1 & X2 & X3). rewrite Ft, decide_False by by apply Hne. split; [done | split; [| done]].
           by apply is_cb_alter, I3.
    + unfold s4. rewrite !untimed_commute by done. f_equal. unfold s3, s2, s1. by rewrite !untimed_alter.
Qed.

Definition hof (s : cbstate) (h : Z) : host := default (Host 0 0 0 false) (hosts s !! h).
Lemma get_host_ok s h : known s h -> get_host h s = Some (hof s h, s).
Proof. intros [g E]. unfold get_host, entry, hof. by rewrite E. Qed.
Lemma mod_host_ok s h f : known s h -> mod_host h f s = Some (tt, with_hosts (alter f h) s).
Proof. intros H. unfold mod_host. by rewrite (bind_ok _ _ _ _ _ (get_host_ok s h H)). Qed.
Lemma known_alter s h f x : known (with_hosts (alter f h) s) x <-> known s x.
Proof. unfold known. cbn [hosts with_hosts]. by rewrite lookup_alter_is_Some. Qed.
Lemma host_list_hof s h : known s h -> cblist (hof s h) = host_list s h.
Proof. intros [g E]. unfold hof, host_list. by rewrite E. Qed.
Lemma host_list_set s h v x : known s h -> host_list (with_hosts (alter (set_cblist v) h) s) x = if decide (x = h) then v else host_list s x.
Proof.
  intros [g E]. unfold host_list. cbn [hosts with_hosts]. case_decide as Ex; [subst x; by rewrite lookup_alter_eq, E | by rewrite lookup_alter_ne].
Qed.
Lemma unhosted_set s h v : unhosted (with_hosts (alter (set_cblist v) h) s) = unhosted s.
Proof. unfold unhosted, with_hosts, with_CB. fields. by rewrite fmap_alter_keep. Qed.
Lemma unhosted_known s s' h : unhosted s' = unhosted s -> known s' h <-> known s h.
Proof.
  intros E%(f_equal hosts)%(f_equal (.!! h)). unfold unhosted in E. cbn [hosts with_hosts with_CB] in E.
  rewrite !lookup_fmap in E. unfold known. destruct (hosts s' !! h), (hosts s !! h); naive_solver.
Qed.

Lemma HDel_at s C L c : hosted_by s C L -> c ∈ C -> exists s' L', HDel c s = Some (tt, s') /\ hosted_by s' (C ∖ {[c]}) L' /\ unhosted s' = unhosted s
  /\ forall h, known s h -> L' h = filter (fun x => x <> c) (L h).
Proof.
  intros (R & Hd) Hc. destruct (Hd c Hc) as (Hc0 & Hcb & Hq).
  set (n := cbf hnext s c). set (p := cbf hprev s c). set (t := cbf hhead s c) in *.
  assert (Hin : c ∈ L t) by (by apply (rg_elem _ _ _ _ _ _ _ R)).
  destruct (ring_near _ _ _ _ c (rg_ring _ _ _ _ _ _ _ R t Hq) Hin) as (Nn & Np & _). fold n in Nn. fold p in Np.
  apply (rg_elem _ _ _ _ _ _ _ R) in Nn as [Nn _], Np as [Np _]; [| done | done].
  destruct (Hd n Nn) as (Hn0 & Hnb & _), (Hd p Np) as (Hp0 & Hpb & _).
  set (s1 := if host_list s t =? c then with_hosts (alter (set_cblist (if host_list s t =? n then 0 else n)) t) s else s).
  assert (E1 : (if host_list s t =? c then mod_host t (set_cblist (if host_list s t =? n then 0 else n)) else ret tt) s = Some (tt, s1)).
  { unfold s1. destruct (host_list s t =? c); [by apply mod_host_ok | done]. }
  assert (S1 : unhosted s1 = unhosted s /\ CB s1 = CB s).
  { unfold s1. destruct (host_list s t =? c); [| done]. split; [apply unhosted_set | done]. }
  destruct S1 as [U1 C1].
  assert (F1 : forall A (g : CallBack -> A) x, cbf g s1 x = cbf g s x) by (intros; unfold cbf; by rewrite C1).
  set (s2 := with_CB (alter (set_hnext n) p) s1). set (s3 := with_CB (alter (set_hprev p) n) s2).
  assert (I1 : forall x, is_cb s1 x <-> is_cb s x) by (intros; unfold is_cb; by rewrite C1).
  assert (F2 : forall x, cbf hnext s2 x = if decide (x = p) then n else cbf hnext s x).
  { intros x. unfold s2. rewrite cbf_alter by (by apply (proj2 (I1 p))). by rewrite !F1. }
  assert (F3 : cbf hprev s2 c = p) by (unfold s2; rewrite cbf_keep by done; apply F1).
  assert (F4 : cbf hnext s2 c = n) by (rewrite F2; by case_decide).
  assert (I2 : forall x, is_cb s2 x <-> is_cb s x) by (intros; unfold s2; rewrite is_cb_alter; apply I1).
  assert (U3 : unhosted s3 = unhosted s) by (unfold s3, s2; rewrite !unhosted_alter by done; exact U1).
  assert (K3 : forall x, known s3 x <-> known s x) by (intros x; by apply unhosted_known).
  destruct (rings_del_at _ _ _ _ (cbf hnext s3) (cbf hprev s3) (cbf hhead s3) (host_list s3) _ C L c R Hc Hq) as (L' & [R1 R2 R3] & HL').
  { intros x Hx Hxc. fold n. fold p. split; [| split].
    - unfold s3. by rewrite cbf_keep, F2.
    - unfold s3. rewrite cbf_alter by by apply I2. unfold s2. rewrite (cbf_keep hprev) by done. by rewrite F1.
    - unfold s3, s2. by rewrite !cbf_keep, F1. }
  { fold t. intros i Hi. change (host_list s3 i) with (host_list s1 i). unfold s1, head_without. fold n.
    destruct (Z.eqb_spec (host_list s t) c) as [Eq | Eq].
    - rewrite host_list_set by done. case_decide as Ei; [| done]. subst i. rewrite (decide_True (P := host_list s t = c)) by done.
      destruct (Z.eqb_spec (host_list s t) n); [by rewrite decide_True | by rewrite decide_False].
    - case_decide; [| done]. subst i. by rewrite decide_False. }
  exists s3, L'. split; [| split; [| done]].
  - unfold HDel. rewrite (bind_ok _ _ _ _ _ (get_cb_ok s c Hcb)). change (hhead (cbf id s c)) with t.
    change (hnext (cbf id s c)) with n. change (hprev (cbf id s c)) with p.
    rewrite (bind_ok _ _ _ _ _ (get_host_ok s t Hq)), (host_list_hof s t Hq), (bind_ok _ _ _ _ _ E1).
    rewrite (bind_ok _ _ _ _ _ (mod_cb_ok s1 p _ (proj2 (I1 p) Hpb))). fold s2.
    rewrite (bind_ok _ _ _ _ _ (get_cb_ok s2 c (proj2 (I2 c) Hcb))). change (hnext (cbf id s2 c)) with (cbf hnext s2 c).
    change (hprev (cbf id s2 c)) with (cbf hprev s2 c). rewrite F4, F3. apply mod_cb_ok. by apply I2.
  - split.
    + split; [intros i Hi%K3; by apply R1 | intros i Hi%K3; by apply R2 | intros i x Hi%K3; by apply R3].
    + intros x [Hx Hxc]%elem_of_difference. destruct (Hd x Hx) as (X1 & X2 & X3). rewrite K3.
      unfold s3, s2. rewrite !cbf_keep, F1, !is_cb_alter, I1 by done. done.
Qed.

Lemma HDel_ok s C c : hosted s C -> c ∈ C -> exists s', HDel c s = Some (tt, s') /\ hosted s' (C ∖ {[c]}) /\ unhosted s' = unhosted s.
Proof. intros [L H] Hc. destruct (HDel_at s C L c H Hc) as (s' & L' & E & H' & U & _). exists s'. split; [done | split; [by exists L' | done]]. Qed.

Lemma HAdd_ok s C c h : hosted s C -> c ∉ C -> c <> 0 -> is_cb s c -> known s h ->
  exists s', HAdd c h s = Some (tt, s') /\ hosted s' ({[c]} ∪ C) /\ unhosted s' = unhosted (with_CB (alter (set_hhead h) c) s).
Proof.
  intros (L & R & Hd) Hc Hc0 Hcb Hk. assert (H0 : 0 ∉ C) by (intros H; by apply Hd in H as [? _]).
  pose proof (rings_empty _ _ _ _ _ _ _ h R Hk H0) as He. unfold HAdd.
  rewrite (bind_ok _ _ _ _ _ (mod_cb_ok s c _ Hcb)). set (s1 := with_CB (alter (set_hhead h) c) s).
  assert (I1 : forall x, is_cb s1 x <-> is_cb s x) by (intros; apply is_cb_alter).
  assert (Hcb1 : is_cb s1 c) by by apply I1.
  assert (Hne : forall x, x ∈ C -> x <> c) by (intros x Hx ->; done).
  rewrite (bind_ok _ _ _ _ _ (get_host_ok s1 h Hk)), (host_list_hof s1 h Hk). change (host_list s1 h) with (host_list s h).
  set (b := host_list s h) in *. destruct (decide (L h = [])) as [Et | Et].
  - rewrite (proj2 He Et). cbn [Z.eqb]. set (s2 := with_CB (alter (fun c' => set_hprev c (set_hnext c c')) c) s1).
    set (s3 := with_hosts (alter (set_cblist c) h) s2).
    assert (U3 : unhosted s3 = unhosted s1) by (unfold s3; rewrite unhosted_set; unfold s2; by rewrite unhosted_alter).
    assert (K3 : forall x, known s3 x <-> known s x) by (intros x; rewrite (unhosted_known s1 s3); [done | exact U3]).
    exists s3. split; [| split; [| done]].
    + rewrite (bind_ok _ _ _ _ _ (mod_cb_ok s1 c _ Hcb1)). fold s2. by apply mod_host_ok.
    + assert (Ft : forall x, cbf hhead s3 x = if decide (x = c) then h else cbf hhead s x).
      { intros x. change (cbf hhead s3 x) with (cbf hhead s2 x). unfold s2. rewrite cbf_keep by done. unfold s1. by rewrite cbf_alter. }
      assert (Fn : forall x, cbf hnext s3 x = if decide (x = c) then c else cbf hnext s x).
      { intros x. change (cbf hnext s3 x) with (cbf hnext s2 x). unfold s2. rewrite cbf_alter by done. case_decide; [done |].
        unfold s1. by rewrite cbf_keep. }
      assert (Fp : forall x, cbf hprev s3 x = if decide (x = c) then c else cbf hprev s x).
      { intros x. change (cbf hprev s3 x) with (cbf hprev s2 x). unfold s2. rewrite cbf_alter by done. case_decide; [done |].
        unfold s1. by rewrite cbf_keep. }
      assert (Hkc : cbf hhead s3 c = h) by (rewrite Ft; by rewrite decide_True).
      destruct (rings_add _ _ _ _ (cbf hnext s3) (cbf hprev s3) (cbf hhead s3) (host_list s3) _ C L c R Hc) as [L' [R1 R2 R3]].
      * by rewrite Hkc.
      * intros x Hx. rewrite Ft, decide_False by by apply Hne. done.
      * rewrite Hkc, decide_True by done. split; [unfold s3; rewrite host_list_set by done; by rewrite decide_True |].
        rewrite Fn, Fp, !decide_True by done. split; [done | split; [done |]]. intros x Hx.
        rewrite Fn, Fp, !decide_False by by apply Hne. done.
      * rewrite Hkc. intros i Hi Hit. unfold s3. rewrite host_list_set by done. by rewrite decide_False.
      * exists L'. split; [split; [intros i Hi%K3; by apply R1 | intros i Hi%K3; by apply R2 | intros i x Hi%K3; by apply R3] |].
        intros x [-> %elem_of_singleton | Hx]%elem_of_union; rewrite K3.
        -- split; [done | split; [| by rewrite Hkc]]. by apply (is_cb_alter s1).
        -- destruct (Hd x Hx) as (X1 & X2 & X3). rewrite Ft, decide_False by by apply Hne. split; [done | split; [| done]].
           by apply (is_cb_alter s1), I1.
  - destruct (rings_head _ _ _ _ _ _ _ h R Hk Et) as [Hh Hp]. fold b in Hh, Hp. set (p := cbf hprev s b) in *.
    destruct (Hd b Hh) as (Hh0 & Hhb & _), (Hd p Hp) as (Hp0 & Hpb & _).
    rewrite (proj2 (Z.eqb_neq b 0) Hh0). set (s2 := with_CB (alter (fun c' => set_hnext b (set_hprev p c')) c) s1).
    set (s3 := with_CB (alter (set_hnext c) p) s2). set (s4 := with_CB (alter (set_hprev c) b) s3).
    assert (I2 : forall x, is_cb s2 x <-> is_cb s x) by (intros; rewrite <- I1; apply is_cb_alter).
    assert (I3 : forall x, is_cb s3 x <-> is_cb s x) by (intros; rewrite <- I2; apply is_cb_alter).
    assert (U4 : unhosted s4 = unhosted s1) by (unfold s4, s3, s2; by rewrite !unhosted_alter).
    assert (K4 : forall x, known s4 x <-> known s x) by (intros x; rewrite (unhosted_known s1 s4); [done | exact U4]).
    assert (Hpp : cbf hprev s1 b = p) by (unfold s1; by rewrite cbf_keep).
    exists s4. split; [| split; [| done]].
    + rewrite (bind_ok _ _ _ _ _ (get_cb_ok s1 b (proj2 (I1 b) Hhb))). change (hprev (cbf id s1 b)) with (cbf hprev s1 b). rewrite Hpp.
      rewrite (bind_ok _ _ _ _ _ (mod_cb_ok s1 c _ Hcb1)). fold s2.
      rewrite (bind_ok _ _ _ _ _ (mod_cb_ok s2 p _ (proj2 (I2 p) Hpb))). fold s3. apply mod_cb_ok. by apply I3.
    + assert (Ft : forall x, cbf hhead s4 x = if decide (x = c) then h else cbf hhead s x).
      { intros x. unfold s4, s3, s2. rewrite !cbf_keep by done. unfold s1. by rewrite cbf_alter. }
      assert (Fn : forall x, cbf hnext s4 x = if decide (x = p) then c else if decide (x = c) then b else cbf hnext s x).
      { intros x. unfold s4. rewrite cbf_keep by done. unfold s3. rewrite cbf_alter by by apply I2. case_decide; [done |].
        unfold s2. rewrite cbf_alter by done. case_decide; [done |]. unfold s1. by rewrite cbf_keep. }
      assert (Fp : forall x, cbf hprev s4 x = if decide (x = b) then c else if decide (x = c) then p else cbf hprev s x).
      { intros x. unfold s4. rewrite cbf_alter by by apply I3. case_decide; [done |].
        unfold s3. rewrite cbf_keep by done. unfold s2. rewrite cbf_alter by done. case_decide; [done |]. unfold s1. by rewrite cbf_keep. }
      assert (Hkc : cbf hhead s4 c = h) by (rewrite Ft; by rewrite decide_True).
      pose proof (Hne b Hh) as Hhc. pose proof (Hne p Hp) as Hpc.
      destruct (rings_add _ _ _ _ (cbf hnext s4) (cbf hprev s4) (cbf hhead s4) (host_list s4) _ C L c R Hc) as [L' [R1 R2 R3]].
      * by rewrite Hkc.
      * intros x Hx. rewrite Ft, decide_False by by apply Hne. done.
      * rewrite Hkc, decide_False by done. change (host_list s4 h) with b. fold b. cbn zeta. rewrite !Fn, !Fp. fold p.
        rewrite (decide_False (P := c = p)), !(decide_True (P := c = c)), (decide_False (P := c = b)), (decide_True (P := b = b)) by done.
        do 4 (split; [done |]). split; intros x Hx.
        -- rewrite Fn. case_decide; [done |]. by rewrite decide_False by by apply Hne.
        -- intros Hxh. rewrite Fp, decide_False by done. by rewrite decide_False by by apply Hne.
      * done.
      * exists L'. split; [split; [intros i Hi%K4; by apply R1 | intros i Hi%K4; by apply R2 | intros i x Hi%K4; by apply R3] |].
        intros x [-> %elem_of_singleton | Hx]%elem_of_union; rewrite K4.
        -- rewrite Hkc. split; [done | split; [| done]]. by apply is_cb_alter, I3.
        -- destruct (Hd x Hx) as (X1 & X2 & X3). rewrite Ft, decide_False by by apply Hne. split; [done | split; [| done]].
           by apply is_cb_alter, I3.
Qed.
