(* ===== verification/CallbackFiles.v ===== *)
(** The callbacks of each file: the lists and the hash table of the file
    entries, the free entries, and what the operations on them do. *)
From S2P Require Import Prelude Rings Monad Callback CallbackSpec.

#[local] Open Scope monad_scope.

(** ** The entries in use and the free ones *)

Record bounds (s : cbstate) (C E : gset Z) : Prop := {
  bd_size : 0 <= nblks s < 2147483648;
  bd_cb : forall c, is_cb s c <-> 1 <= c <= nblks s;
  bd_fe : forall f, is_fe s f <-> 1 <= f <= nblks s;
  bd_used : forall c, c ∈ C -> is_cb s c;
  bd_files : forall f, f ∈ E -> is_fe s f
}.
Record tables (s : cbstate) (C E : gset Z) : Prop := {
  tb_bounds : bounds s C E;
  tb_cbfree : NoDup (CBfree s) /\ forall c, c ∈ CBfree s <-> is_cb s c /\ c ∉ C;
  tb_fefree : NoDup (FEfree s) /\ forall f, f ∈ FEfree s <-> is_fe s f /\ f ∉ E
}.
Arguments tb_bounds {s C E} _.

Lemma tb_size s C E : tables s C E -> 0 <= nblks s < 2147483648.
Proof. intros [B _ _]. apply B. Qed.
Lemma tb_cb s C E : tables s C E -> forall c, is_cb s c <-> 1 <= c <= nblks s.
Proof. intros [B _ _]. apply B. Qed.
Lemma tb_fe s C E : tables s C E -> forall f, is_fe s f <-> 1 <= f <= nblks s.
Proof. intros [B _ _]. apply B. Qed.
Lemma tb_used s C E : tables s C E -> forall c, c ∈ C -> is_cb s c.
Proof. intros [B _ _]. apply B. Qed.
Lemma tb_files s C E : tables s C E -> forall f, f ∈ E -> is_fe s f.
Proof. intros [B _ _]. apply B. Qed.

(** Entries with FE_LATER are not found. *)
Definition later (s : cbstate) (f : Z) : bool := Z.land (fef fstatus s f) FE_LATER =? FE_LATER.

Record lists (s : cbstate) (C E : gset Z) (FL : Z -> list Z) : Prop := {
  ls_list : forall f, f ∈ E -> linked (cbf cnext s) (fef firstcb s f) (FL f);
  ls_nodup : forall f, f ∈ E -> NoDup (FL f);
  ls_elem : forall f c, f ∈ E -> c ∈ FL f <-> c ∈ C /\ cbf fhead s c = f;
  ls_head : forall c, c ∈ C -> cbf fhead s c ∈ E;
  ls_one : forall c d, c ∈ C -> d ∈ C -> cbf fhead s c = cbf fhead s d -> cbf hhead s c = cbf hhead s d -> c = d;
  ls_count : forall f, f ∈ E -> fef ncbs s f = Z.of_nat (length (FL f))
}.

Record buckets (s : cbstate) (E : gset Z) (BL : Z -> list Z) : Prop := {
  bk_chain : forall h, linked (fef fnext s) (bucket s h) (BL h);
  bk_once : forall h, NoDup (BL h);
  bk_bucket : forall h f, f ∈ BL h <-> f ∈ E /\ fid_hash (fef fe_fid s f) = h;
  bk_fid : forall f g, f ∈ E -> g ∈ E -> fef fe_fid s f = fef fe_fid s g -> later s f = false -> later s g = false -> f = g
}.

Definition files (s : cbstate) (C E : gset Z) (FL BL : Z -> list Z) : Prop := lists s C E FL /\ buckets s E BL.
Definition filed (s : cbstate) (C E : gset Z) : Prop := exists FL BL, files s C E FL BL.

Lemma nodup_bounded (l : list Z) n : NoDup l -> (forall x, x ∈ l -> 1 <= x <= n) -> (length l <= Z.to_nat n)%nat.
Proof.
  intros HN Hx. assert (Hs : l ⊆+ seqZ 1 n).
  { apply NoDup_submseteq; [done |]. intros x Hin. apply elem_of_seqZ. specialize (Hx x Hin). lia. }
  apply submseteq_length in Hs. by rewrite length_seqZ in Hs.
Qed.

Lemma bucket_short s C E BL h : bounds s C E -> buckets s E BL -> (length (BL h) <= Z.to_nat (nblks s))%nat.
Proof.
  intros T B. apply nodup_bounded; [by apply (bk_once _ _ _ B) |]. intros x Hx.
  apply (bk_bucket _ _ _ B) in Hx as [Hx _]. apply (bd_fe _ _ _ T). by apply (bd_files _ _ _ T).
Qed.

Section tables.
Context (s : cbstate) (C E : gset Z) (FL BL : Z -> list Z) (T : bounds s C E) (F : files s C E FL BL).

Lemma cb_nonzero c : c ∈ C -> c <> 0.
Proof. intros Hc%(bd_used _ _ _ T)%(bd_cb _ _ _ T). lia. Qed.
Lemma fe_nonzero f : f ∈ E -> f <> 0.
Proof. intros Hc%(bd_files _ _ _ T)%(bd_fe _ _ _ T). lia. Qed.

Lemma list_short f : f ∈ E -> (length (FL f) <= Z.to_nat (nblks s))%nat.
Proof.
  intros Hf. apply nodup_bounded; [by apply (ls_nodup _ _ _ _ (proj1 F)) |]. intros x Hx.
  apply (ls_elem _ _ _ _ (proj1 F)) in Hx as [Hx _]; [| done]. apply (bd_cb _ _ _ T). by apply (bd_used _ _ _ T).
Qed.

(** *** Finding a file *)

Lemma find_fe_ok fid l : forall fei fuel, linked (fef fnext s) fei l -> (forall f, f ∈ l -> f ∈ E) -> (length l < fuel)%nat ->
  exists r, find_fe fid fei fuel s = Some (r, s)
    /\ (r = 0 /\ (forall f, f ∈ l -> fef fe_fid s f = fid -> later s f = true)
        \/ r ∈ l /\ fef fe_fid s r = fid /\ later s r = false).
Proof.
  induction l as [| f l IH]; intros fei fuel HL Hl Hf; cbn [linked length] in *; (destruct fuel as [| fuel]; [lia |]).
  - subst fei. cbn. exists 0. split; [done |]. left. split; [done |]. by intros f Hin%not_elem_of_nil.
  - destruct HL as [-> HL]. assert (Hin : f ∈ E) by (apply Hl; left). cbn [find_fe].
    rewrite (proj2 (Z.eqb_neq f 0)) by by apply fe_nonzero.
    rewrite (bind_ok _ _ _ _ _ (get_fe_ok s f (bd_files _ _ _ T f Hin))).
    change (fe_fid (fef id s f)) with (fef fe_fid s f). change (fnext (fef id s f)) with (fef fnext s f).
    change (Z.land (fstatus (fef id s f)) FE_LATER =? FE_LATER) with (later s f).
    destruct (bool_decide_reflect (fef fe_fid s f = fid)) as [Ei | Ei]; cbn [andb].
    + destruct (later s f) eqn:El; cbn [negb].
      * destruct (IH _ fuel HL (fun g Hg => Hl g (list_elem_of_further _ _ _ Hg)) ltac:(lia)) as (r & -> & [[-> Hr] | (Hr & Hr')]).
        -- exists 0. split; [done |]. left. split; [done |]. intros g [-> | Hg]%elem_of_cons Eg; [done | by apply Hr].
        -- exists r. split; [done |]. right. split; [by right | done].
      * exists f. split; [done |]. right. split; [left | done].
    + destruct (IH _ fuel HL (fun g Hg => Hl g (list_elem_of_further _ _ _ Hg)) ltac:(lia)) as (r & -> & [[-> Hr] | (Hr & Hr')]).
      * exists 0. split; [done |]. left. split; [done |]. intros g [-> | Hg]%elem_of_cons Eg; [done | by apply Hr].
      * exists r. split; [done |]. right. split; [by right | done].
Qed.

Lemma FindFE_ok fid : exists r, FindFE fid s = Some (r, s)
  /\ (r = 0 /\ (forall f, f ∈ E -> fef fe_fid s f = fid -> later s f = true)
      \/ r ∈ E /\ fef fe_fid s r = fid /\ later s r = false).
Proof.
  destruct (find_fe_ok fid (BL (fid_hash fid)) (bucket s (fid_hash fid)) (fuel_of s)) as (r & Er & Hr).
  - apply (bk_chain _ _ _ (proj2 F)).
  - by intros f [Hf _]%(bk_bucket _ _ _ (proj2 F)).
  - pose proof (bucket_short s C E BL (fid_hash fid) T (proj2 F)). unfold fuel_of. lia.
  - exists r. split; [done |]. destruct Hr as [[-> Hr] | (Hr & Hr')].
    + left. split; [done |]. intros f Hf Ef. apply Hr; [| done]. apply (bk_bucket _ _ _ (proj2 F)). by rewrite Ef.
    + right. by apply (bk_bucket _ _ _ (proj2 F)) in Hr as [Hr _].
Qed.

(** *** Finding a place in the list of a file *)

Definition place (l : link) (l1 : list Z) : link := match last l1 with Some y => Next y | None => l end.

Lemma place_cons l x l1 : place (Next x) l1 = place l (x :: l1).
Proof. unfold place. rewrite last_cons. by destruct (last l1). Qed.

Lemma find_link_ok wanted L : forall l fuel v, read_link l s = Some (v, s) -> linked (cbf cnext s) v L ->
  (forall c, c ∈ L -> c ∈ C) -> (length L <= fuel)%nat ->
  exists l1 l2, L = l1 ++ l2 /\ find_link wanted l fuel s = Some (place l l1, s)
    /\ (forall x, x ∈ l1 -> wanted x (cbf id s x) = false) /\ (forall x, head l2 = Some x -> wanted x (cbf id s x) = true).
Proof.
  induction L as [| c L IH]; intros l fuel v Hv HL Hin Hf; cbn [linked length] in *.
  - subst v. exists [], []. split; [done |]. split; [| split; [by intros x Hx%not_elem_of_nil | done]].
    destruct fuel; cbn [find_link]; by rewrite (bind_ok _ _ _ _ _ Hv).
  - destruct HL as [-> HL]. assert (Hc : c ∈ C) by (apply Hin; left). pose proof (bd_used _ _ _ T c Hc) as Hcb.
    destruct fuel as [| fuel]; [lia |]. cbn [find_link]. rewrite (bind_ok _ _ _ _ _ Hv).
    rewrite (proj2 (Z.eqb_neq c 0)) by by apply cb_nonzero. rewrite (bind_ok _ _ _ _ _ (get_cb_ok s c Hcb)).
    destruct (wanted c (cbf id s c)) eqn:Ew.
    + exists [], (c :: L). split; [done |]. split; [done |]. split; [by intros x Hx%not_elem_of_nil | by intros x [= <-]].
    + assert (Hr : read_link (Next c) s = Some (cbf cnext s c, s)).
      { cbn [read_link]. by rewrite (bind_ok _ _ _ _ _ (get_cb_ok s c Hcb)). }
      destruct (IH (Next c) fuel _ Hr HL (fun g Hg => Hin g (list_elem_of_further _ _ _ Hg)) ltac:(lia)) as (l1 & l2 & -> & El & H1 & H2).
      exists (c :: l1), l2. split; [done |]. split; [by rewrite El, (place_cons l) |]. split; [| done].
      intros x [-> | Hx]%elem_of_cons; [done | by apply H1].
Qed.

Lemma read_first f : f ∈ E -> read_link (First f) s = Some (fef firstcb s f, s).
Proof. intros Hf. cbn [read_link]. by rewrite (bind_ok _ _ _ _ _ (get_fe_ok s f (bd_files _ _ _ T f Hf))). Qed.

Lemma find_in_file wanted f fuel : f ∈ E -> (Z.to_nat (nblks s) <= fuel)%nat ->
  exists l1 l2, FL f = l1 ++ l2 /\ find_link wanted (First f) fuel s = Some (place (First f) l1, s)
    /\ (forall x, x ∈ l1 -> wanted x (cbf id s x) = false) /\ (forall x, head l2 = Some x -> wanted x (cbf id s x) = true).
Proof.
  intros Hf Hn. pose proof (list_short f Hf). apply (find_link_ok wanted (FL f) (First f) fuel (fef firstcb s f)).
  - by apply read_first.
  - by apply (ls_list _ _ _ _ (proj1 F)).
  - intros c Hc. by apply (ls_elem _ _ _ _ (proj1 F)) in Hc as [Hc _].
  - lia.
Qed.

(** What a place leads to. *)
Lemma read_place f l1 l2 : f ∈ E -> FL f = l1 ++ l2 -> read_link (place (First f) l1) s = Some (default 0 (head l2), s).
Proof.
  intros Hf EL. pose proof (ls_list _ _ _ _ (proj1 F) f Hf) as HL. rewrite EL in HL. unfold place.
  destruct l1 as [| x l1 _] using rev_ind.
  - cbn [last app] in *. rewrite read_first by done. destruct l2; cbn in *; [by rewrite HL | by destruct HL as [-> _]].
  - rewrite last_snoc. rewrite <- app_assoc in HL. cbn [app] in HL.
    assert (Hx : x ∈ C) by (apply (ls_elem _ _ _ _ (proj1 F) f x Hf); rewrite EL; set_solver).
    cbn [read_link]. rewrite (bind_ok _ _ _ _ _ (get_cb_ok s x (bd_used _ _ _ T x Hx))). unfold ret. f_equal. f_equal.
    change (cnext (cbf id s x)) with (cbf cnext s x). revert HL. generalize (fef firstcb s f). clear.
    induction l1 as [| y l1 IH]; cbn [app linked]; intros h [-> HL]; [destruct l2; cbn in *; [done | by destruct HL] | by eapply IH].
Qed.
End tables.

(** ** Taking a file out of its bucket *)

Lemma unchain_ok s f v b2 b1 : forall p fuel, linked (fef fnext s) p (b1 ++ f :: b2) -> b1 <> [] -> f ∉ b1 ->
  (forall x, x ∈ b1 -> is_fe s x) -> (length b1 <= fuel)%nat ->
  exists y, last b1 = Some y /\ unchain f p v fuel s = Some (tt, with_FE (alter (set_fnext v) y) s).
Proof.
  induction b1 as [| x b1 IH]; intros p fuel HL Hb Hf Hx Hfu; [done |]. cbn [app linked length] in *. destruct HL as [-> HL].
  destruct fuel as [| fuel]; [lia |]. cbn [unchain]. assert (Hxe : is_fe s x) by (apply Hx; left).
  rewrite (bind_ok _ _ _ _ _ (get_fe_ok s x Hxe)). change (fnext (fef id s x)) with (fef fnext s x).
  destruct b1 as [| z b1]; cbn [app linked] in HL; destruct HL as [E HL]; rewrite E in *.
  - rewrite Z.eqb_refl. exists x. split; [done |]. by apply mod_fe_ok.
  - rewrite (proj2 (Z.eqb_neq z f)) by (intros ->; apply Hf; right; left).
    destruct (IH z fuel) as (y & Hy & ->); [by split | done | set_solver | set_solver | cbn [length] in *; lia |].
    exists y. split; [| done]. by rewrite last_cons, Hy.
Qed.

(** A file is taken out of its bucket: the entry before it, or the bucket, leads
    to the next. *)
Lemma buckets_without s s' E BL f b1 b2 : buckets s E BL -> f ∈ E ->
  BL (fid_hash (fef fe_fid s f)) = b1 ++ f :: b2 ->
  (forall x, fef fe_fid s' x = fef fe_fid s x /\ later s' x = later s x) ->
  (forall y, fef fnext s' y = if decide (last b1 = Some y) then fef fnext s f else fef fnext s y) ->
  (forall h, bucket s' h = if decide (h = fid_hash (fef fe_fid s f) /\ b1 = []) then fef fnext s f else bucket s h) ->
  buckets s' (E ∖ {[f]}) (fun i => if decide (i = fid_hash (fef fe_fid s f)) then b1 ++ b2 else BL i).
Proof.
  intros B Hf Hb He Hn Hh. set (h := fid_hash (fef fe_fid s f)) in *.
  pose proof (bk_once _ _ _ B h) as HN. rewrite Hb in HN.
  assert (Hfb : f ∉ b1 ++ b2).
  { apply NoDup_app in HN as (_ & H1 & H2). apply NoDup_cons in H2 as [H2 _]. intros [H | H]%elem_of_app; [| done].
    apply (H1 f H). left. }
  split.
  - intros i. pose proof (bk_chain _ _ _ B i) as HL. case_decide as Ei.
    + subst i. rewrite Hb in HL. apply (linked_drop _ _ f b2 b1 (bucket s h) _ HL HN); [intros y _; apply Hn |].
      rewrite Hh. by repeat case_decide; naive_solver.
    + rewrite Hh, decide_False by naive_solver. apply (links_frame (fef fnext s)); [done |]. intros x Hx. rewrite Hn.
      case_decide as El; [| done]. exfalso. apply Ei. apply (bk_bucket _ _ _ B) in Hx as [_ <-].
      apply last_Some_elem_of in El. assert (Hx : x ∈ BL h) by (rewrite Hb; set_solver).
      by apply (bk_bucket _ _ _ B) in Hx as [_ Hx].
  - intros i. case_decide; [| by apply (bk_once _ _ _ B)]. apply NoDup_app in HN as (N1 & N2 & N3). apply NoDup_cons in N3 as [_ N3].
    apply NoDup_app. split; [done | split; [| done]]. intros x Hx Hx'. apply (N2 x Hx). by right.
  - intros i x. destruct (He x) as (-> & _). case_decide as Ei.
    + subst i. assert (Hx : x ∈ BL h <-> x = f \/ x ∈ b1 ++ b2) by (rewrite Hb; set_solver).
      rewrite (bk_bucket _ _ _ B) in Hx. rewrite elem_of_difference, not_elem_of_singleton.
      split; [intros H; split; [| by apply Hx; right] | naive_solver].
      split; [by apply Hx; right | intros ->; done].
    + rewrite (bk_bucket _ _ _ B), elem_of_difference, not_elem_of_singleton. naive_solver.
  - intros g g' [Hg _]%elem_of_difference [Hg' _]%elem_of_difference.
    destruct (He g) as (-> & ->), (He g') as (-> & ->). by apply (bk_fid _ _ _ B).
Qed.

Lemma tables_free_fe s s' C E f : tables s C E -> f ∈ E -> nblks s' = nblks s -> (forall x, is_cb s' x <-> is_cb s x) ->
  (forall x, is_fe s' x <-> is_fe s x) -> CBfree s' = CBfree s -> FEfree s' = f :: FEfree s -> tables s' C (E ∖ {[f]}).
Proof.
  intros T Hf En Ic Ie Ec Ee. destruct (tb_fefree _ _ _ T) as [N1 N2]. split; [split | |].
  - rewrite En. apply (tb_size _ _ _ T).
  - intros c. rewrite Ic, En. apply (tb_cb _ _ _ T).
  - intros x. rewrite Ie, En. apply (tb_fe _ _ _ T).
  - intros c Hc. apply Ic. by apply (tb_used _ _ _ T).
  - intros x [Hx _]%elem_of_difference. apply Ie. by apply (tb_files _ _ _ T).
  - rewrite Ec. destruct (tb_cbfree _ _ _ T) as [H1 H2]. split; [done |]. intros c. by rewrite Ic.
  - rewrite Ee. split.
    + apply NoDup_cons. split; [by rewrite N2; intros [_ ?] | done].
    + intros x. rewrite elem_of_cons, N2, Ie, elem_of_difference, not_elem_of_singleton. split.
      * intros [-> | [H1 H2]]; [split; [by apply (tb_files _ _ _ T) |]; by intros [_ ?] | naive_solver].
      * intros [H1 H2]. destruct (decide (x = f)); [by left | right; split; [done |]]. intros H. by apply H2.
Qed.

(** The place that leads on after the entries [b1] of a bucket. *)
Definition fplace (h : Z) (b1 : list Z) : felink := match last b1 with Some y => NextFE y | None => Bucket h end.

Lemma read_fplace s h b2 b1 : linked (fef fnext s) (bucket s h) (b1 ++ b2) -> (forall x, x ∈ b1 -> is_fe s x) ->
  read_felink (fplace h b1) s = Some (default 0 (head b2), s).
Proof.
  intros HL Hx. assert (Hn : forall nxt v, linked nxt v b2 -> v = default 0 (head b2)) by (intros nxt v; destruct b2; cbn [linked]; naive_solver).
  unfold fplace. destruct (last b1) as [y |] eqn:Ey.
  - apply last_Some in Ey as [l ->]. cbn [read_felink]. rewrite (bind_ok _ _ _ _ _ (get_fe_ok s y (Hx y ltac:(set_solver)))).
    change (fnext (fef id s y)) with (fef fnext s y). rewrite <- app_assoc in HL. unfold ret. f_equal. f_equal. revert HL. generalize (bucket s h).
    induction l as [| z l IH]; intros v HL; destruct HL as [_ HL]; [by apply (Hn _ _ HL) | apply (IH ltac:(set_solver) _ HL)].
  - apply last_None in Ey as ->. cbn [read_felink]. unfold gets. f_equal. f_equal. by apply (Hn _ _ HL).
Qed.

Lemma write_fplace_ok s E BL f b1 b2 : (forall x, x ∈ E -> is_fe s x) -> buckets s E BL -> f ∈ E ->
  let h := fid_hash (fef fe_fid s f) in BL h = b1 ++ f :: b2 -> exists s', write_felink (fplace h b1) (fef fnext s f) s = Some (tt, s')
    /\ buckets s' (E ∖ {[f]}) (fun i => if decide (i = h) then b1 ++ b2 else BL i) /\ unfiled s' = unfiled s
    /\ CB s' = CB s /\ FEfree s' = FEfree s /\ (forall x, is_fe s' x <-> is_fe s x)
    /\ forall x, fef firstcb s' x = fef firstcb s x /\ fef ncbs s' x = fef ncbs s x.
Proof.
  intros T B Hf h Hb. set (v := fef fnext s f). unfold fplace. destruct (last b1) as [y |] eqn:Hy; cbn [write_felink].
  - assert (Hye : is_fe s y).
    { apply T. apply last_Some_elem_of in Hy. assert (Hx' : y ∈ BL h) by (rewrite Hb; set_solver).
      by apply (bk_bucket _ _ _ B) in Hx' as [Hx' _]. }
    set (s1 := with_FE (alter (set_fnext v) y) s). exists s1. split; [by apply mod_fe_ok |].
    assert (K : forall A (g : FileEntry -> A) x, (forall e, g (set_fnext v e) = g e) -> fef g s1 x = fef g s x)
      by (intros A g x Hg; by apply fef_keep).
    split; [| split; [by apply unfiled_alter_fe | split; [done | split; [done | split; [intros x; apply is_fe_alter | intros x; by rewrite !K]]]]].
    apply (buckets_without s _ E BL f b1 b2); try done.
    + intros x. unfold later. by rewrite !K.
    + intros x. unfold s1. rewrite fef_alter by done. rewrite Hy. repeat case_decide; naive_solver.
    + intros i. fold h. rewrite decide_False; [done |]. intros [_ ->]. done.
  - apply last_None in Hy as ->. exists (with_HashTable <[h := v]> s). split; [done |].
    split; [| by repeat split]. apply (buckets_without s _ E BL f [] b2); try done. intros i. unfold bucket at 1. cbn [HashTable with_HashTable].
    fold h. destruct (decide (i = h)) as [-> | Hi]; [by rewrite lookup_insert_eq, decide_True | by rewrite lookup_insert_ne, decide_False by naive_solver].
Qed.

Lemma unlink_fe_ok s C E BL f b1 b2 : tables s C E -> buckets s E BL -> f ∈ E -> let h := fid_hash (fef fe_fid s f) in BL h = b1 ++ f :: b2 ->
  exists s', (write_felink (fplace h b1) (fef fnext s f) ;; iFreeFE f) s = Some (tt, s') /\ tables s' C (E ∖ {[f]})
    /\ buckets s' (E ∖ {[f]}) (fun i => if decide (i = h) then b1 ++ b2 else BL i) /\ unfiled s' = unfiled s /\ CB s' = CB s
    /\ (forall x, fef firstcb s' x = fef firstcb s x /\ fef ncbs s' x = fef ncbs s x).
Proof.
  intros T B Hf h Hb. destruct (write_fplace_ok s E BL f b1 b2 (tb_files _ _ _ T) B Hf Hb) as (s1 & E1 & B1 & U1 & C1 & F1 & I1 & X1).
  fold h in E1. rewrite (bind_ok _ _ _ _ _ E1). exists (with_FEfree (f :: FEfree s1) s1).
  split; [done | split; [| split; [by destruct B1; split | split; [exact U1 | split; [done | exact X1]]]]].
  apply (tables_free_fe s); [done | done | exact (f_equal nblks U1) | | done | exact (f_equal CBfree U1) | cbn; by rewrite F1].
  intros x. unfold is_cb. cbn. by rewrite C1.
Qed.

Lemma FDel_ok s C E BL f : tables s C E -> buckets s E BL -> f ∈ E ->
  exists s' BL', FDel f s = Some (tt, s') /\ tables s' C (E ∖ {[f]}) /\ buckets s' (E ∖ {[f]}) BL' /\ unfiled s' = unfiled s /\ CB s' = CB s
    /\ forall x, fef firstcb s' x = fef firstcb s x /\ fef ncbs s' x = fef ncbs s x.
Proof.
  intros T B Hf. pose proof (tb_files _ _ _ T f Hf) as Hfe. set (h := fid_hash (fef fe_fid s f)). set (v := fef fnext s f).
  assert (Hin : f ∈ BL h) by by apply (bk_bucket _ _ _ B). apply list_elem_of_split in Hin as (b1 & b2 & Hb).
  destruct (unlink_fe_ok s C E BL f b1 b2 T B Hf Hb) as (s' & E' & T' & B' & U' & C' & X'). fold h v in E'. exists s', (fun i => if decide (i = h) then b1 ++ b2 else BL i).
  split; [| done]. rewrite <- E'. unfold FDel. rewrite (bind_ok _ _ _ _ _ (get_fe_ok s f Hfe)).
  change (fe_fid (fef id s f)) with (fef fe_fid s f). change (fnext (fef id s f)) with v. fold h. unfold gets at 1 2, mbind_ at 1 2.
  pose proof (bk_chain _ _ _ B h) as HL. pose proof (bk_once _ _ _ B h) as HN.
  pose proof (bucket_short s C E BL h (tb_bounds T) B) as Hs. rewrite Hb in HL, HN, Hs. rewrite length_app in Hs. cbn [length] in Hs.
  assert (Hf1 : f ∉ b1) by (intros H; apply NoDup_app in HN as (_ & HN & _); apply (HN f H); left).
  destruct (decide (b1 = [])) as [-> | Hb1]; [destruct HL as [-> _]; by rewrite Z.eqb_refl |].
  rewrite (proj2 (Z.eqb_neq (bucket s h) f)).
  2:{ intros Eq. destruct b1 as [| x b1]; [done |]. destruct HL as [HL _]. apply Hf1. rewrite Eq in HL. subst x. left. }
  assert (Hx : forall x, x ∈ b1 -> is_fe s x).
  { intros x Hx. apply (tb_files _ _ _ T). assert (Hx' : x ∈ BL h) by (rewrite Hb; set_solver). by apply (bk_bucket _ _ _ B) in Hx' as [Hx' _]. }
  destruct (unchain_ok s f v b2 b1 (bucket s h) (fuel_of s)) as (y & Hy & Eu); [done | done | done | done | unfold fuel_of; lia |].
  rewrite (bind_ok _ _ _ _ _ Eu). unfold fplace. rewrite Hy. cbn [write_felink].
  by rewrite (bind_ok _ _ _ _ _ (mod_fe_ok s y _ (Hx y ltac:(by apply last_Some_elem_of)))).
Qed.

(** ** Taking a callback out of the list of its file *)

Lemma lists_without s s' C E FL f c l1 l2 : lists s C E FL -> f ∈ E -> FL f = l1 ++ c :: l2 ->
  (forall x, cbf fhead s' x = cbf fhead s x /\ cbf hhead s' x = cbf hhead s x
     /\ cbf cnext s' x = if decide (last l1 = Some x) then cbf cnext s c else cbf cnext s x) ->
  (forall g, fef ncbs s' g = (if decide (g = f) then fef ncbs s f - 1 else fef ncbs s g)
     /\ fef firstcb s' g = if decide (g = f /\ l1 = []) then cbf cnext s c else fef firstcb s g) ->
  lists s' (C ∖ {[c]}) E (fun g => if decide (g = f) then l1 ++ l2 else FL g).
Proof.
  intros F Hf Hb Hc He. pose proof (ls_nodup _ _ _ _ F f Hf) as HN. rewrite Hb in HN.
  assert (Hcf : c ∉ l1 ++ l2).
  { apply NoDup_app in HN as (_ & H1 & H2). apply NoDup_cons in H2 as [H2 _]. intros [H | H]%elem_of_app; [| done].
    apply (H1 c H). left. }
  assert (HL : forall x, x ∈ FL f <-> x = c \/ x ∈ l1 ++ l2) by (intros x; rewrite Hb; set_solver).
  assert (Hcin : c ∈ C /\ cbf fhead s c = f) by (apply (ls_elem _ _ _ _ F); [done | apply HL; by left]).
  split.
  - intros g Hg. destruct (He g) as (_ & E1). pose proof (ls_list _ _ _ _ F g Hg) as HL'. cbn beta; destruct (decide (g = f)) as [Eg | Eg].
    + subst g. rewrite Hb in HL'. apply (linked_drop _ _ c l2 l1 (fef firstcb s f) _ HL' HN); [intros y _; apply Hc |].
      rewrite E1. by repeat case_decide; naive_solver.
    + rewrite E1, decide_False by naive_solver. apply (links_frame (cbf cnext s)); [done |]. intros x Hx.
      destruct (Hc x) as (_ & _ & ->). destruct (decide (last l1 = Some x)) as [El | El]; [| done]. exfalso. apply Eg.
      apply (ls_elem _ _ _ _ F) in Hx as [_ <-]; [| done]. apply last_Some_elem_of in El.
      assert (Hx : x ∈ FL f) by (apply HL; set_solver). by apply (ls_elem _ _ _ _ F) in Hx as [_ Hx].
  - intros g Hg. cbn beta; destruct (decide (g = f)); [| by apply (ls_nodup _ _ _ _ F)]. apply NoDup_app in HN as (N1 & N2 & N3). apply NoDup_cons in N3 as [_ N3].
    apply NoDup_app. split; [done | split; [| done]]. intros x Hx Hx'. apply (N2 x Hx). by right.
  - intros g x Hg. destruct (Hc x) as (-> & _ & _). rewrite elem_of_difference, not_elem_of_singleton. cbn beta; destruct (decide (g = f)) as [Eg | Eg].
    + subst g. specialize (HL x). rewrite (ls_elem _ _ _ _ F) in HL by done. split; [intros Hx | naive_solver].
      assert (x <> c) by (intros ->; done). naive_solver.
    + rewrite (ls_elem _ _ _ _ F) by done. naive_solver.
  - intros x [Hx _]%elem_of_difference. destruct (Hc x) as (-> & _ & _). by apply (ls_head _ _ _ _ F).
  - intros x y [Hx _]%elem_of_difference [Hy _]%elem_of_difference. destruct (Hc x) as (-> & -> & _), (Hc y) as (-> & -> & _).
    by apply (ls_one _ _ _ _ F).
  - intros g Hg. destruct (He g) as (-> & _). cbn beta; destruct (decide (g = f)) as [Eg | Eg]; [| by apply (ls_count _ _ _ _ F)]. subst g.
    rewrite (ls_count _ _ _ _ F), Hb by done. rewrite !length_app. cbn [length]. lia.
Qed.

Lemma lists_frame s s' C E FL : lists s C E FL ->
  (forall x, cbf cnext s' x = cbf cnext s x /\ cbf fhead s' x = cbf fhead s x /\ cbf hhead s' x = cbf hhead s x) ->
  (forall f, fef firstcb s' f = fef firstcb s f /\ fef ncbs s' f = fef ncbs s f) -> lists s' C E FL.
Proof.
  intros F Hc Hf. split.
  - intros f Hin. destruct (Hf f) as [-> _]. apply (links_frame (cbf cnext s)); [by apply (ls_list _ _ _ _ F) |]. intros x _. by destruct (Hc x) as (-> & _).
  - apply (ls_nodup _ _ _ _ F).
  - intros f c Hin. destruct (Hc c) as (_ & -> & _). by apply (ls_elem _ _ _ _ F).
  - intros c. destruct (Hc c) as (_ & -> & _). apply (ls_head _ _ _ _ F).
  - intros c d. destruct (Hc c) as (_ & -> & ->), (Hc d) as (_ & -> & ->). apply (ls_one _ _ _ _ F).
  - intros f. destruct (Hf f) as [_ ->]. apply (ls_count _ _ _ _ F).
Qed.

Lemma buckets_frame s s' E BL : buckets s E BL ->
  (forall f, fef fnext s' f = fef fnext s f /\ fef fe_fid s' f = fef fe_fid s f /\ later s' f = later s f) ->
  (forall h, bucket s' h = bucket s h) -> buckets s' E BL.
Proof.
  intros B Hf Hh. split.
  - intros i. rewrite Hh. apply (links_frame (fef fnext s)); [apply (bk_chain _ _ _ B) |]. intros x _. by destruct (Hf x) as (-> & _).
  - apply (bk_once _ _ _ B).
  - intros i x. destruct (Hf x) as (_ & -> & _). apply (bk_bucket _ _ _ B).
  - intros g g'. destruct (Hf g) as (_ & -> & ->), (Hf g') as (_ & -> & ->). apply (bk_fid _ _ _ B).
Qed.

Lemma lists_less s C E FL f : lists s C E FL -> (forall c, c ∈ C -> cbf fhead s c <> f) -> lists s C (E ∖ {[f]}) FL.
Proof.
  intros [H1 H2 H3 H4 H5 H6] Hf. split; [set_solver | set_solver | set_solver | | done | set_solver].
  intros c Hc. apply elem_of_difference. split; [by apply H4 |]. rewrite not_elem_of_singleton. by apply Hf.
Qed.

Lemma tables_free_cb s s' C E c : tables s C E -> c ∈ C -> nblks s' = nblks s -> (forall x, is_cb s' x <-> is_cb s x) ->
  (forall x, is_fe s' x <-> is_fe s x) -> CBfree s' = c :: CBfree s -> FEfree s' = FEfree s -> tables s' (C ∖ {[c]}) E.
Proof.
  intros T Hf En Ic Ie Ec Ee. destruct (tb_cbfree _ _ _ T) as [N1 N2]. split; [split | |].
  - rewrite En. apply (tb_size _ _ _ T).
  - intros x. rewrite Ic, En. apply (tb_cb _ _ _ T).
  - intros x. rewrite Ie, En. apply (tb_fe _ _ _ T).
  - intros x [Hx _]%elem_of_difference. apply Ic. by apply (tb_used _ _ _ T).
  - intros x Hx. apply Ie. by apply (tb_files _ _ _ T).
  - rewrite Ec. split.
    + apply NoDup_cons. split; [by rewrite N2; intros [_ ?] | done].
    + intros x. rewrite elem_of_cons, N2, Ic, elem_of_difference, not_elem_of_singleton. split.
      * intros [-> | [H1 H2]]; [split; [by apply (tb_used _ _ _ T) |]; by intros [_ ?] | naive_solver].
      * intros [H1 H2]. destruct (decide (x = c)); [by left | right; split; [done |]]. intros H. by apply H2.
  - rewrite Ee. destruct (tb_fefree _ _ _ T) as [H1 H2]. split; [done |]. intros f. by rewrite Ie.
Qed.

(** The files in use when a callback of [f] is gone and [gone] tells whether
    nothing is left. *)
Definition files_left (deletefe : bool) (f : Z) (left : list Z) (E : gset Z) : gset Z :=
  if decide (deletefe = true /\ left = []) then E ∖ {[f]} else E.

Lemma write_place s C E FL BL f l1 l2 v : bounds s C E -> files s C E FL BL -> f ∈ E -> FL f = l1 ++ l2 ->
  exists s', write_link (place (First f) l1) v s = Some (tt, s')
    /\ (forall A (g : CallBack -> A) x, (forall c, g (set_cnext v c) = g c) -> cbf g s' x = cbf g s x)
    /\ (forall x, cbf cnext s' x = if decide (last l1 = Some x) then v else cbf cnext s x)
    /\ (forall A (g : FileEntry -> A) x, (forall c, g (set_firstcb v c) = g c) -> fef g s' x = fef g s x)
    /\ (forall x, fef firstcb s' x = if decide (x = f /\ l1 = []) then v else fef firstcb s x)
    /\ (forall x, is_cb s' x <-> is_cb s x) /\ (forall x, is_fe s' x <-> is_fe s x)
    /\ unfiled s' = unfiled s /\ HashTable s' = HashTable s /\ FEfree s' = FEfree s.
Proof.
  intros T F Hf EL. unfold place. destruct (last l1) as [y |] eqn:Ey; cbn [write_link].
  - assert (Hy : is_cb s y).
    { apply (bd_used _ _ _ T). apply last_Some_elem_of in Ey. apply (ls_elem _ _ _ _ (proj1 F) f y Hf). rewrite EL. set_solver. }
    rewrite (mod_cb_ok s y _ Hy). eexists. split; [done |]. split; [intros; by apply cbf_keep |].
    split; [intros x; rewrite cbf_alter by done; repeat case_decide; naive_solver |]. split; [done |].
    split; [intros x; rewrite decide_False; [done |]; intros [_ ->]; done |].
    split; [intros; apply is_cb_alter |]. split; [done |]. split; [by apply unfiled_alter | done].
  - apply last_None in Ey as ->. pose proof (bd_files _ _ _ T f Hf) as Hfe. rewrite (mod_fe_ok s f _ Hfe). eexists. split; [done |].
    split; [done |]. split; [done |]. split; [intros; by apply fef_keep |].
    split; [intros x; rewrite fef_alter by done; repeat case_decide; naive_solver |].
    split; [done |]. split; [intros; apply is_fe_alter |]. split; [by apply unfiled_alter_fe | done].
Qed.

(** Nothing else is promised of the file of [c]. *)
Definition alone (s : cbstate) (C : gset Z) (c : Z) : Prop := forall d, d ∈ C -> cbf fhead s d = cbf fhead s c -> d = c.

Lemma left_alone s C E FL BL f c l1 l2 : files s C E FL BL -> f ∈ E -> FL f = l1 ++ c :: l2 -> l1 ++ l2 = [] <-> alone s C c.
Proof.
  intros F Hf EL. pose proof (ls_nodup _ _ _ _ (proj1 F) f Hf) as HN.
  assert (HL : forall d, d ∈ C /\ cbf fhead s d = f <-> d = c \/ d ∈ l1 ++ l2).
  { intros d. rewrite <- (ls_elem _ _ _ _ (proj1 F) f d Hf), EL. set_solver. }
  assert (Ec : cbf fhead s c = f) by (apply HL; by left).
  assert (Hcf : c ∉ l1 ++ l2).
  { rewrite EL in HN. apply NoDup_app in HN as (_ & N1 & N2). apply NoDup_cons in N2 as [N2 _]. intros [H | H]%elem_of_app; [| done].
    apply (N1 c H). left. }
  unfold alone. rewrite Ec. split.
  - intros Hn d Hd Ed. destruct (proj1 (HL d) (conj Hd Ed)) as [-> | Hd']; [done |]. rewrite Hn in Hd'. by apply not_elem_of_nil in Hd'.
  - intros Hall. destruct (l1 ++ l2) as [| d l] eqn:Ed; [done |]. exfalso. apply Hcf.
    destruct (proj2 (HL d)) as [Hd Hd']; [right; left |]. rewrite <- (Hall d Hd Hd'). left.
Qed.

(** Only what led to [c] is changed in the lists. *)
Definition leads_on (s s' : cbstate) (c : Z) : Prop := forall x, cbf cnext s' x = cbf cnext s x \/ cbf cnext s x = c.

Lemma linked_before nxt l1 c l2 x : forall h, linked nxt h (l1 ++ c :: l2) -> last l1 = Some x -> nxt x = c.
Proof.
  induction l1 as [| y l1 IH]; intros h HL Hx; [done |]. cbn [app linked] in HL. destruct HL as [-> HL].
  destruct l1 as [| z l1]; [injection Hx as ->; by destruct HL |]. by apply (IH _ HL).
Qed.

Lemma CDelPtr_ok s C E FL BL f c l1 l2 deletefe : tables s C E -> files s C E FL BL -> f ∈ E -> FL f = l1 ++ c :: l2 ->
  exists s', CDelPtr f (place (First f) l1) deletefe s = Some (tt, s')
    /\ tables s' (C ∖ {[c]}) (files_left deletefe f (l1 ++ l2) E) /\ filed s' (C ∖ {[c]}) (files_left deletefe f (l1 ++ l2) E)
    /\ unfiled s' = unfiled (with_CBfree (c :: CBfree s) s) /\ leads_on s s' c.
Proof.
  intros T F Hf Hb. unfold CDelPtr. rewrite (bind_ok _ _ _ _ _ (read_place s C E FL BL (tb_bounds T) F f l1 (c :: l2) Hf Hb)). change (default 0 (head (c :: l2))) with c.
  assert (Hc : c ∈ C) by (apply (ls_elem _ _ _ _ (proj1 F) f c Hf); rewrite Hb; set_solver).
  rewrite (proj2 (Z.eqb_neq c 0) (cb_nonzero s C E (tb_bounds T) c Hc)).
  rewrite (bind_ok _ _ _ _ _ (get_cb_ok s c (tb_used _ _ _ T c Hc))). change (cnext (cbf id s c)) with (cbf cnext s c).
  destruct (write_place s C E FL BL f l1 (c :: l2) (cbf cnext s c) (tb_bounds T) F Hf Hb) as (s1 & E1 & K1 & K2 & K3 & K4 & I1 & I2 & U1 & Hh & Hfr).
  rewrite (bind_ok _ _ _ _ _ E1). unfold iFreeCB, modify at 1, mbind_ at 1.
  set (s2 := with_CBfree (c :: CBfree s1) s1). pose proof (tb_files _ _ _ T f Hf) as Hfe.
  assert (Hfe2 : is_fe s2 f) by by apply I2. rewrite (bind_ok _ _ _ _ _ (get_fe_ok s2 f Hfe2)).
  change (ncbs (fef id s2 f)) with (fef ncbs s1 f). rewrite (K3 _ ncbs f) by done.
  pose proof (ls_count _ _ _ _ (proj1 F) f Hf) as Hn. rewrite Hb, length_app in Hn. cbn [length] in Hn.
  pose proof (list_short s C E FL BL (tb_bounds T) F f Hf) as Hs. rewrite Hb, length_app in Hs. cbn [length] in Hs.
  pose proof (tb_size _ _ _ T) as Hsz. rewrite u32_small by lia. set (m := fef ncbs s f - 1).
  rewrite (bind_ok _ _ _ _ _ (mod_fe_ok s2 f _ Hfe2)). set (s3 := with_FE (alter (set_ncbs m) f) s2).
  assert (I3 : forall x, is_fe s3 x <-> is_fe s x) by (intros x; unfold s3; rewrite is_fe_alter; apply I2).
  assert (U3 : unfiled s3 = unfiled (with_CBfree (c :: CBfree s) s)).
  { unfold s3. rewrite unfiled_alter_fe by done. unfold s2.
    transitivity (with_CBfree (c :: CBfree (unfiled s1)) (unfiled s1)); [done | by rewrite U1]. }
  assert (T3 : tables s3 (C ∖ {[c]}) E).
  { apply (tables_free_cb s); [done | done | exact (f_equal nblks U1) | exact I1 | exact I3 | | exact Hfr].
    exact (f_equal (fun s => c :: CBfree s) U1). }
  assert (S2 : forall A (g : FileEntry -> A) y, fef g s2 y = fef g s1 y) by done.
  assert (F3 : lists s3 (C ∖ {[c]}) E (fun g => if decide (g = f) then l1 ++ l2 else FL g)).
  { apply (lists_without s _ C E FL f c l1 l2 (proj1 F) Hf Hb).
    - intros x. change (cbf ?g s3 x) with (cbf g s1 x). rewrite !K1 by done. split; [done | split; [done | apply K2]].
    - intros x. unfold s3. rewrite (fef_keep firstcb), fef_alter, !S2, K4, (K3 _ ncbs) by done. split; [| done]. by case_decide. }
  assert (B3 : buckets s3 E BL).
  { apply (buckets_frame s); [apply F | |].
    - intros x. unfold later, s3. rewrite (fef_keep fnext), (fef_keep fe_fid), (fef_keep fstatus), !S2 by done. by rewrite !K3.
    - intros h. unfold bucket. change (HashTable s3) with (HashTable s1). by rewrite Hh. }
  assert (L3 : leads_on s s3 c).
  { intros x. change (cbf cnext s3 x) with (cbf cnext s1 x). rewrite K2. case_decide as Ex; [right | by left].
    exact (linked_before _ l1 c l2 x _ (eq_ind _ (fun l => linked _ _ l) (ls_list _ _ _ _ (proj1 F) f Hf) _ Hb) Ex). }
  unfold files_left. destruct (decide (deletefe = true /\ l1 ++ l2 = [])) as [[-> El] | Hno].
  - assert (m = 0) as ->. { unfold m. rewrite Hn. apply (f_equal length) in El. rewrite length_app in El. cbn in El. lia. }
    cbn [Z.eqb andb]. destruct (FDel_ok s3 _ _ _ f T3 B3 Hf) as (s4 & BL' & E4 & T4 & B4 & U4 & C4 & K5).
    exists s4. split; [done |]. split; [done | split; [| split; [by rewrite U4 | unfold leads_on, cbf; rewrite C4; exact L3]]].
    eexists _, BL'. split; [| done]. apply lists_less.
    + apply (lists_frame s3); [done | intros x; unfold cbf; by rewrite C4 | done].
    + intros d Hd. unfold cbf. rewrite C4. change (cbf fhead s3 d <> f). intros Ed.
      pose proof (proj2 (ls_elem _ _ _ _ F3 f d Hf) (conj Hd Ed)) as Hin. cbn beta in Hin. rewrite decide_True, El in Hin by done.
      by apply not_elem_of_nil in Hin.
  - exists s3. split; [| split; [done | split; [by eexists _, _ | split; done]]].
    destruct (Z.eqb_spec m 0) as [Em | Em]; [| done]. destruct deletefe; [| done]. exfalso. apply Hno. split; [done |].
    apply nil_length_inv. rewrite length_app. unfold m in Em. rewrite Hn in Em. lia.
Qed.

Lemma CDel_ok s C E FL BL c deletefe : tables s C E -> files s C E FL BL -> c ∈ C ->
  exists s' left, CDel c deletefe s = Some (tt, s')
    /\ tables s' (C ∖ {[c]}) (files_left deletefe (cbf fhead s c) left E) /\ filed s' (C ∖ {[c]}) (files_left deletefe (cbf fhead s c) left E)
    /\ unfiled s' = unfiled (with_CBfree (c :: CBfree s) s) /\ leads_on s s' c /\ (left = [] <-> alone s C c).
Proof.
  intros T F Hc. unfold CDel. rewrite (bind_ok _ _ _ _ _ (get_cb_ok s c (tb_used _ _ _ T c Hc))).
  change (fhead (cbf id s c)) with (cbf fhead s c). set (f := cbf fhead s c).
  assert (Hf : f ∈ E) by by apply (ls_head _ _ _ _ (proj1 F)). unfold gets at 1, mbind_ at 1.
  destruct (find_in_file s C E FL BL (tb_bounds T) F (fun v _ => v =? c) f (Z.to_nat (nblks s) + 11) Hf ltac:(lia)) as (l1 & l2 & EL & El & H1 & H2).
  rewrite (bind_ok _ _ _ _ _ El). assert (Hin : c ∈ FL f) by by apply (ls_elem _ _ _ _ (proj1 F)).
  destruct l2 as [| x l2].
  { exfalso. rewrite EL, app_nil_r in Hin. specialize (H1 c Hin). by rewrite Z.eqb_refl in H1. }
  specialize (H2 x eq_refl). cbn in H2. apply Z.eqb_eq in H2 as ->.
  destruct (CDelPtr_ok s C E FL BL f c l1 l2 deletefe T F Hf EL) as (s' & E' & T' & F' & U' & L').
  exists s', (l1 ++ l2). split; [done |]. split; [done | split; [done | split; [done | split; [done |]]]]. by apply (left_alone s C E FL BL f).
Qed.

(** ** A callback added to the list of a file, a file to its bucket *)

Lemma lists_with s s' C E FL f c : lists s C E FL -> f ∈ E -> c ∉ C ->
  (forall x, x ∈ C -> cbf fhead s' x = cbf fhead s x /\ cbf hhead s' x = cbf hhead s x
     /\ cbf cnext s' x = if decide (last (FL f) = Some x) then c else cbf cnext s x) ->
  cbf fhead s' c = f -> cbf cnext s' c = 0 -> (forall d, d ∈ C -> cbf fhead s d = f -> cbf hhead s d <> cbf hhead s' c) ->
  (forall g, fef ncbs s' g = (if decide (g = f) then fef ncbs s f + 1 else fef ncbs s g)
     /\ fef firstcb s' g = if decide (g = f /\ FL f = []) then c else fef firstcb s g) ->
  lists s' ({[c]} ∪ C) E (fun g => if decide (g = f) then FL f ++ [c] else FL g).
Proof.
  intros F Hf Hc Hx Hfc Hnc Hd Hg. assert (HC : forall g x, g ∈ E -> x ∈ FL g -> x ∈ C) by (intros g x H1 H2; by apply (ls_elem _ _ _ _ F) in H2 as [? _]).
  assert (Hcf : forall g, g ∈ E -> c ∉ FL g) by (intros g H1 H2; by apply Hc, (HC g)).
  split.
  - intros g Hin. destruct (Hg g) as [_ Eg]. pose proof (ls_list _ _ _ _ F g Hin) as HL. destruct (decide (g = f)) as [-> | Hgf].
    + apply (linked_end (cbf cnext s) _ _ _ (fef firstcb s f)); [done | by apply (ls_nodup _ _ _ _ F) | | done |].
      * intros y Hy. apply Hx. by apply (HC f).
      * rewrite Eg. by repeat case_decide; naive_solver.
    + rewrite Eg, decide_False by naive_solver. apply (links_frame (cbf cnext s)); [done |]. intros x Hin'.
      destruct (Hx x (HC g x Hin Hin')) as (_ & _ & ->). destruct (decide (last (FL f) = Some x)) as [El | El]; [| done].
      apply last_Some_elem_of in El. apply (ls_elem _ _ _ _ F) in El as [_ <-]; [| done].
      apply (ls_elem _ _ _ _ F) in Hin' as [_ Hin']; [| done]. by rewrite Hin' in Hgf.
  - intros g Hin. destruct (decide (g = f)) as [-> | _]; [| by apply (ls_nodup _ _ _ _ F)]. apply NoDup_app.
    split; [by apply (ls_nodup _ _ _ _ F) | split; [| apply NoDup_singleton]]. intros x H1 H2%list_elem_of_singleton. subst x. by apply (Hcf f).
  - intros g x Hin. destruct (decide (x = c)) as [-> | Hxc].
    + rewrite Hfc. split.
      * intros Hy. split; [set_solver |]. destruct (decide (g = f)) as [-> | _]; [done |]. by apply Hcf in Hy.
      * intros [_ ->]. rewrite decide_True by done. set_solver.
    + assert (E1 : x ∈ {[c]} ∪ C <-> x ∈ C) by set_solver. rewrite E1.
      transitivity (x ∈ FL g); [destruct (decide (g = f)) as [-> | _]; [| done]; rewrite elem_of_app, list_elem_of_singleton; naive_solver |].
      rewrite (ls_elem _ _ _ _ F) by done. split; intros [H1 H2]; (split; [done |]); destruct (Hx x H1) as (H3 & _); congruence.
  - intros x [-> %elem_of_singleton | Hin]%elem_of_union; [by rewrite Hfc |]. destruct (Hx x Hin) as (-> & _). by apply (ls_head _ _ _ _ F).
  - intros x y [-> %elem_of_singleton | Hin]%elem_of_union [-> %elem_of_singleton | Hin']%elem_of_union; [done | | |].
    + destruct (Hx y Hin') as (-> & -> & _). rewrite Hfc. intros H1 H2. exfalso. by apply (Hd y Hin').
    + destruct (Hx x Hin) as (-> & -> & _). rewrite Hfc. intros H1 H2. exfalso. by apply (Hd x Hin).
    + destruct (Hx x Hin) as (-> & -> & _), (Hx y Hin') as (-> & -> & _). by apply (ls_one _ _ _ _ F).
  - intros g Hin. destruct (Hg g) as [-> _]. destruct (decide (g = f)) as [-> | _]; [| by apply (ls_count _ _ _ _ F)].
    rewrite (ls_count _ _ _ _ F), length_app by done. cbn [length]. lia.
Qed.

Lemma bounds_more s s' C C' E E' : bounds s C E -> nblks s' = nblks s -> (forall x, is_cb s' x <-> is_cb s x) -> (forall x, is_fe s' x <-> is_fe s x) ->
  (forall x, x ∈ C' -> is_cb s x) -> (forall x, x ∈ E' -> is_fe s x) -> bounds s' C' E'.
Proof.
  intros [B1 B2 B3 B4 B5] En Ic Ie HC HE. split; rewrite ?En; [done | | | |]; intros x; rewrite ?Ic, ?Ie; auto.
Qed.

(** A new entry, first in its bucket. *)
Lemma new_fe_ok s C E FL BL f fid : bounds s C E -> files s C E FL BL -> is_fe s f -> f ∉ E ->
  (forall g, g ∈ E -> fef fe_fid s g = fid -> later s g = true) ->
  exists s' BL', new_fe f fid s = Some (tt, s') /\ bounds s' C ({[f]} ∪ E)
    /\ files s' C ({[f]} ∪ E) (fun g => if decide (g = f) then [] else FL g) BL'
    /\ CB s' = CB s /\ timeout s' = timeout s /\ hosts s' = hosts s /\ CBfree s' = CBfree s /\ FEfree s' = FEfree s
    /\ nblks s' = nblks s /\ tfirst s' = tfirst s /\ now s' = now s /\ codes s' = codes s /\ calls s' = calls s /\ hostList s' = hostList s
    /\ fef fe_fid s' f = fid /\ later s' f = false /\ (forall x, is_fe s' x <-> is_fe s x)
    /\ (forall g, g <> f -> fef id s' g = fef id s g) /\ fef ncbs s' f = 0.
Proof.
  intros B [F Bk] Hf HfE Hno. set (h := fid_hash fid). set (e := FileE fid (bucket s h) 0 0 0).
  set (s1 := with_FE (alter (fun _ => e) f) s). set (s2 := with_HashTable <[h := f]> s1).
  assert (X : forall A (g : FileEntry -> A) x, fef g s2 x = if decide (x = f) then g e else fef g s x).
  { intros A g x. change (fef g s2 x) with (fef g s1 x). unfold s1. by rewrite fef_alter. }
  assert (Hne : forall g, g ∈ E -> g <> f) by (intros g Hg ->; done).
  assert (I : forall x, is_fe s2 x <-> is_fe s x) by (intros x; apply is_fe_alter).
  assert (Hbk : forall i, bucket s2 i = if decide (i = h) then f else bucket s i).
  { intros i. unfold bucket. cbn. case_decide as Ei; [subst i; by rewrite lookup_insert_eq | by rewrite lookup_insert_ne]. }
  exists s2, (fun i => if decide (i = h) then f :: BL h else BL i). split.
  { unfold new_fe. rewrite (bind_ok _ _ s (bucket s h) s) by done. by rewrite (bind_ok _ _ _ _ _ (mod_fe_ok s f _ Hf)). }
  split.
  { apply (bounds_more s s2 C C E); [done | done | done | done | apply (bd_used _ _ _ B) |].
    intros x [-> %elem_of_singleton | Hx]%elem_of_union; [done | by apply (bd_files _ _ _ B)]. }
  split.
  { split; split.
    - intros g Hg. rewrite X. destruct (decide (g = f)) as [-> | Hgf]; [done |]. apply (ls_list _ _ _ _ F). set_solver.
    - intros g Hg. destruct (decide (g = f)); [apply NoDup_nil_2 |]. apply (ls_nodup _ _ _ _ F). set_solver.
    - intros g c Hg. change (cbf fhead s2 c) with (cbf fhead s c). destruct (decide (g = f)) as [-> | Hgf].
      + split; [by intros ?%not_elem_of_nil |]. intros [H1 H2]. apply (ls_head _ _ _ _ F) in H1. by rewrite H2 in H1.
      + apply (ls_elem _ _ _ _ F). set_solver.
    - intros c Hc. apply elem_of_union_r. by apply (ls_head _ _ _ _ F).
    - apply (ls_one _ _ _ _ F).
    - intros g Hg. rewrite X. destruct (decide (g = f)) as [-> | Hgf]; [done |]. apply (ls_count _ _ _ _ F). set_solver.
    - intros i. rewrite Hbk. pose proof (bk_chain _ _ _ Bk i) as HL.
      assert (HL' : forall l, linked (fef fnext s) (bucket s i) l -> (forall x, x ∈ l -> x ∈ E) -> linked (fef fnext s2) (bucket s i) l).
      { intros l Hl Hin. apply (links_frame (fef fnext s)); [done |]. intros x Hx. rewrite X. by rewrite decide_False by by apply Hne, Hin. }
      assert (Hin : forall x, x ∈ BL i -> x ∈ E) by (intros x Hx; by apply (bk_bucket _ _ _ Bk) in Hx as [Hx _]).
      destruct (decide (i = h)) as [-> | Hi]; [| by apply HL']. split; [done |]. rewrite X, decide_True by done. by apply HL'.
    - intros i. destruct (decide (i = h)) as [-> | Hi]; [| by apply (bk_once _ _ _ Bk)]. apply NoDup_cons. split; [| by apply (bk_once _ _ _ Bk)].
      intros Hx. by apply (bk_bucket _ _ _ Bk) in Hx as [Hx _].
    - intros i g. rewrite X, elem_of_union, elem_of_singleton. pose proof (bk_bucket _ _ _ Bk i g) as Hb.
      destruct (decide (g = f)) as [-> | Hgf], (decide (i = h)) as [-> | Hi]; rewrite ?elem_of_cons, Hb; naive_solver.
    - intros g g'. unfold later. rewrite !X, !elem_of_union, !elem_of_singleton.
      destruct (decide (g = f)) as [-> | Hgf], (decide (g' = f)) as [-> | Hgf']; [done | | |].
      + intros _ [? | Hg'] Eq _ Hl; [done |]. exfalso. specialize (Hno g' Hg' (eq_sym Eq)). unfold later in Hno. by rewrite Hno in Hl.
      + intros [? | Hg] _ Eq Hl _; [done |]. exfalso. specialize (Hno g Hg Eq). unfold later in Hno. by rewrite Hno in Hl.
      + intros [? | Hg] [? | Hg']; [done | done | done |]. by apply (bk_fid _ _ _ Bk). }
  do 11 (split; [done |]). split; [by rewrite X, decide_True |]. split; [unfold later; by rewrite X, decide_True |]. split; [done |].
  split; [intros g Hg; by rewrite X, decide_False | by rewrite X, decide_True].
Qed.
