(* ===== verification/CallbackOps.v ===== *)
(** What the file server promises: a map from the callback entries in use to
    promises, which the tables keep, and the operations that make and remove
    promises as operations on that map. *)
From S2P Require Import Prelude Rings Monad Callback CallbackSpec CallbackFiles.

#[local] Open Scope monad_scope.

(** ** Promises *)

Record promise := Promise { p_fid : AFSFid; p_later : bool; p_host : Z; p_status : Z; p_queue : Z }.

Definition promise_at (s : cbstate) (c : Z) : promise :=
  Promise (fef fe_fid s (cbf fhead s c)) (later s (cbf fhead s c)) (cbf hhead s c) (cbf status s c) (cbf thead s c).

(** File entries in use may be left without a callback: those that are known to
    be allowed to. *)
Class Leaked := leaked : gset Z.

Section leaks.
Context {lk : Leaked}.

(** The tables keep these promises: the entries in use are on the list of their
    file, of their host and of their time, and all others are free; and each file
    entry in use has a callback, unless it is leaked. *)
Record kept (s : cbstate) (P : gmap Z promise) (E : gset Z) : Prop := {
  kp_tables : tables s (dom P) E;
  kp_filed : filed s (dom P) E;
  kp_promise : forall c p, P !! c = Some p -> p = promise_at s c;
  kp_full : forall f, f ∈ E -> f ∉ leaked -> exists c, c ∈ dom P /\ cbf fhead s c = f
}.
Definition tables_keep (s : cbstate) (P : gmap Z promise) (E : gset Z) : Prop := kept s P E /\ timed s (dom P) /\ hosted s (dom P).

Lemma tk_tables s P E : tables_keep s P E -> tables s (dom P) E.
Proof. intros [K _]. apply K. Qed.
Lemma tk_filed s P E : tables_keep s P E -> filed s (dom P) E.
Proof. intros [K _]. apply K. Qed.
Lemma tk_promise s P E : tables_keep s P E -> forall c p, P !! c = Some p -> p = promise_at s c.
Proof. intros [K _]. apply K. Qed.
Lemma tk_full s P E : tables_keep s P E -> forall f, f ∈ E -> f ∉ leaked -> exists c, c ∈ dom P /\ cbf fhead s c = f.
Proof. intros [K _]. apply K. Qed.
Lemma tk_timed s P E : tables_keep s P E -> timed s (dom P).
Proof. by intros (_ & T & _). Qed.
Lemma tk_hosted s P E : tables_keep s P E -> hosted s (dom P).
Proof. by intros (_ & _ & H). Qed.

Definition keeps (s : cbstate) (P : gmap Z promise) : Prop := exists E, tables_keep s P E.

(** The rest of the state. *)
Definition quiet (s : cbstate) := (tfirst s, now s, codes s, calls s, hostList s, nblks s, set_cblist 0 <$> hosts s).

(** *** Frames *)

Lemma untimed_quiet s s' : untimed s' = untimed s -> quiet s' = quiet s.
Proof. intros U. exact (f_equal quiet U). Qed.
Lemma unfiled_quiet s s' : unfiled s' = unfiled s -> quiet s' = quiet s.
Proof. intros U. exact (f_equal quiet U). Qed.
Lemma unhosted_quiet s s' : unhosted s' = unhosted s -> quiet s' = quiet s.
Proof.
  intros H. assert (Q : forall s, quiet (unhosted s) = quiet s).
  { intros r. unfold quiet, unhosted. cbn. f_equal. apply map_eq. intros i. rewrite !lookup_fmap. by destruct (hosts r !! i). }
  rewrite <- (Q s'), <- (Q s). by rewrite H.
Qed.

Lemma fef_same {A} (g : FileEntry -> A) s s' x : FE s' = FE s -> fef g s' x = fef g s x.
Proof. unfold fef. by intros ->. Qed.

Lemma promise_frame s s' c : (forall x, cbf fhead s' x = cbf fhead s x /\ cbf hhead s' x = cbf hhead s x /\ cbf status s' x = cbf status s x /\ cbf thead s' x = cbf thead s x) ->
  (forall f, fef fe_fid s' f = fef fe_fid s f /\ fef fstatus s' f = fef fstatus s f) -> promise_at s' c = promise_at s c.
Proof. intros Hc Hf. unfold promise_at, later. destruct (Hc c) as (-> & -> & -> & ->). by destruct (Hf (cbf fhead s c)) as (-> & ->). Qed.

Lemma untimed_promise s s' c : untimed s' = untimed s -> promise_at s' c = promise_at s c.
Proof.
  intros U. apply promise_frame; [intros x; by rewrite !(untimed_cb _ s s' x U) |].
  intros f. by rewrite !(fef_same _ s s' f (f_equal FE U)).
Qed.
Lemma unhosted_promise s s' c : unhosted s' = unhosted s -> promise_at s' c = promise_at s c.
Proof.
  intros U. apply promise_frame; [intros x; by rewrite !(unhosted_cb _ s s' x U) |].
  intros f. by rewrite !(fef_same _ s s' f (f_equal FE U)).
Qed.
Lemma unfiled_promise s s' c : unfiled s' = unfiled s -> promise_at s' c = promise_at s c.
Proof.
  intros U. apply promise_frame; [intros x; by rewrite !(unfiled_cb _ s s' x U) |].
  intros f. by rewrite !(unfiled_fe _ s s' f U).
Qed.

Lemma tables_frame s s' C E : tables s C E -> nblks s' = nblks s -> (forall x, is_cb s' x <-> is_cb s x) ->
  (forall x, is_fe s' x <-> is_fe s x) -> CBfree s' = CBfree s -> FEfree s' = FEfree s -> tables s' C E.
Proof.
  intros [[T1 T2 T3 T4 T5] T6 T7] En Ic Ie Ec Ee. split; [split | |]; rewrite ?En, ?Ec, ?Ee; intros; rewrite ?Ic, ?Ie; auto.
  - split; [apply T6 |]. intros c. rewrite Ic. apply T6.
  - split; [apply T7 |]. intros c. rewrite Ie. apply T7.
Qed.

Lemma filed_frame s s' C E FL BL : files s C E FL BL -> FE s' = FE s -> HashTable s' = HashTable s ->
  (forall x, cbf cnext s' x = cbf cnext s x /\ cbf fhead s' x = cbf fhead s x /\ cbf hhead s' x = cbf hhead s x) -> files s' C E FL BL.
Proof.
  intros [F B] Ef Eh Hc. assert (Hf : forall A (g : FileEntry -> A) x, fef g s' x = fef g s x) by (intros; by apply fef_same).
  split; [by apply (lists_frame s) |]. apply (buckets_frame s); [done | intros f; unfold later; by rewrite !Hf |].
  intros h. unfold bucket. by rewrite Eh.
Qed.

(** What each kind of operation leaves: *)
Lemma untimed_keeps s s' C E FL BL : untimed s' = untimed s -> tables s C E -> files s C E FL BL -> tables s' C E /\ files s' C E FL BL.
Proof.
  intros U T F. split.
  - apply (tables_frame s); [done | exact (f_equal nblks U) | intros; by apply untimed_is | | exact (f_equal CBfree U) | exact (f_equal FEfree U)].
    intros x. unfold is_fe. by rewrite (f_equal FE U : FE s' = FE s).
  - apply (filed_frame s); [done | exact (f_equal FE U) | exact (f_equal HashTable U) |].
    intros x. by rewrite !(untimed_cb _ s s' x U).
Qed.
Lemma unhosted_keeps s s' C E FL BL : unhosted s' = unhosted s -> tables s C E -> files s C E FL BL -> tables s' C E /\ files s' C E FL BL.
Proof.
  intros U T F. split.
  - apply (tables_frame s); [done | exact (f_equal nblks U) | intros; by apply unhosted_is | | exact (f_equal CBfree U) | exact (f_equal FEfree U)].
    intros x. unfold is_fe. by rewrite (f_equal FE U : FE s' = FE s).
  - apply (filed_frame s); [done | exact (f_equal FE U) | exact (f_equal HashTable U) |].
    intros x. by rewrite !(unhosted_cb _ s s' x U).
Qed.
Lemma untimed_hosted s s' C L : untimed s' = untimed s -> hosted_by s C L -> hosted_by s' C L.
Proof.
  intros U H. apply (hosted_frame s); [done | intros; by apply untimed_is | | by rewrite (f_equal hosts U : hosts s' = hosts s)].
  intros x _. by rewrite !(untimed_cb _ s s' x U).
Qed.
Lemma unhosted_timed s s' C L : unhosted s' = unhosted s -> timed_by s C L -> timed_by s' C L.
Proof.
  intros U H. apply (timed_frame s); [done | intros; by apply unhosted_is | | exact (f_equal timeout U)].
  intros x _. by rewrite !(unhosted_cb _ s s' x U).
Qed.
Lemma unfiled_timed s s' C L : unfiled s' = unfiled s -> timed_by s C L -> timed_by s' C L.
Proof.
  intros U H. apply (timed_frame s); [done | intros; by apply unfiled_is | | exact (f_equal timeout U)].
  intros x _. by rewrite !(unfiled_cb _ s s' x U).
Qed.
Lemma unfiled_hosted s s' C L : unfiled s' = unfiled s -> hosted_by s C L -> hosted_by s' C L.
Proof.
  intros U H. apply (hosted_frame s); [done | intros; by apply unfiled_is | | by rewrite (f_equal hosts U : hosts s' = hosts s)].
  intros x _. by rewrite !(unfiled_cb _ s s' x U).
Qed.

(** ** Taking promises back *)

Lemma kept_untimed s s' P E : untimed s' = untimed s -> kept s P E -> kept s' P E.
Proof.
  intros U [T (FL & BL & F) H1 H2]. destruct (untimed_keeps s s' _ _ _ _ U T F) as [T' F'].
  split; [done | by exists FL, BL | intros c p Hp; rewrite (untimed_promise s s' c U); by apply H1 |].
  intros f Hf HG. destruct (H2 f Hf HG) as (c & Hc & <-). exists c. split; [done |]. by apply untimed_cb.
Qed.
Lemma kept_unhosted s s' P E : unhosted s' = unhosted s -> kept s P E -> kept s' P E.
Proof.
  intros U [T (FL & BL & F) H1 H2]. destruct (unhosted_keeps s s' _ _ _ _ U T F) as [T' F'].
  split; [done | by exists FL, BL | intros c p Hp; rewrite (unhosted_promise s s' c U); by apply H1 |].
  intros f Hf HG. destruct (H2 f Hf HG) as (c & Hc & <-). exists c. split; [done |]. by apply unhosted_cb.
Qed.

Lemma kept_without s s' P E c left : kept s P E -> is_Some (P !! c) ->
  tables s' (dom P ∖ {[c]}) (files_left true (cbf fhead s c) left E) -> filed s' (dom P ∖ {[c]}) (files_left true (cbf fhead s c) left E) ->
  (left = [] <-> alone s (dom P) c) ->
  (forall x, promise_at s' x = promise_at s x /\ cbf fhead s' x = cbf fhead s x) ->
  kept s' (delete c P) (files_left true (cbf fhead s c) left E).
Proof.
  intros K Hc T F Hl Hx. split; rewrite ?dom_delete_L; [done | done | |].
  - intros x p [_ Hp]%lookup_delete_Some. destruct (Hx x) as [-> _]. by apply (kp_promise _ _ _ K).
  - unfold files_left. intros f Hf HG. case_decide as Hd.
    + apply elem_of_difference in Hf as [Hf Hfc%not_elem_of_singleton]. destruct (kp_full _ _ _ K f Hf HG) as (d & Hd1 & Hd2).
      exists d. destruct (Hx d) as [_ ->]. split; [| done]. apply elem_of_difference. split; [done |].
      intros ->%elem_of_singleton. done.
    + destruct (decide (f = cbf fhead s c)) as [-> | Hfc].
      * assert (Hn : ~ alone s (dom P) c) by (rewrite <- Hl; naive_solver).
        destruct (decide (set_Exists (fun d => cbf fhead s d = cbf fhead s c /\ d <> c) (dom P))) as [(d & Hd1 & Hd2 & Hd3) | Hno].
        -- exists d. destruct (Hx d) as [_ ->]. set_solver.
        -- exfalso. apply Hn. intros d Hd1 Hd2. destruct (decide (d = c)) as [| Hd3]; [done |]. exfalso. apply Hno. by exists d.
      * destruct (kp_full _ _ _ K f Hf HG) as (d & Hd1 & Hd2). exists d. destruct (Hx d) as [_ ->]. split; [| done].
        apply elem_of_difference. split; [done |]. intros ->%elem_of_singleton. by apply Hfc.
Qed.

(** What taking [c] off the list of its file leaves alone. *)
Lemma unfiled_drop s s' c : unfiled s' = unfiled (with_CBfree (c :: CBfree s) s) ->
  quiet s' = quiet s /\ (forall x, promise_at s' x = promise_at s x)
  /\ (forall C L, timed_by s C L -> timed_by s' C L) /\ (forall C L, hosted_by s C L -> hosted_by s' C L)
  /\ (forall A (g : CallBack -> A) x, (forall e, g (set_cnext 0 e) = g e) -> cbf g s' x = cbf g s x).
Proof.
  intros U. split; [by rewrite (unfiled_quiet _ s' U) |]. split; [intros x; by rewrite (unfiled_promise _ s' x U) |].
  split; [intros C L H; by apply (unfiled_timed _ s' C L U) | split; [intros C L H; by apply (unfiled_hosted _ s' C L U) |]].
  intros A g x Hg. by rewrite (unfiled_cb g _ s' x U Hg).
Qed.

Lemma kept_CDel s P E c : kept s P E -> c ∈ dom P -> exists s' E',
  CDel c true s = Some (tt, s') /\ kept s' (delete c P) E' /\ unfiled s' = unfiled (with_CBfree (c :: CBfree s) s) /\ leads_on s s' c.
Proof.
  intros K Hc. destruct (kp_filed _ _ _ K) as (FL & BL & F).
  destruct (CDel_ok s _ _ _ _ c true (kp_tables _ _ _ K) F Hc) as (s' & left & E1 & T & F' & U & L & Hl).
  destruct (unfiled_drop s s' c U) as (_ & Hp & _ & _ & X). eexists s', _. split; [done |].
  split; [apply (kept_without s); [done | by apply elem_of_dom | done | done | done |] | done].
  intros x. split; [apply Hp | by apply X].
Qed.

End leaks.

(** With the file entry deleted once it has no callback, or left. *)
Lemma kept_CDel_any (lk : Leaked) s P E c deletefe : kept s P E -> c ∈ dom P -> exists (lk' : Leaked) s' E',
  CDel c deletefe s = Some (tt, s') /\ @kept lk' s' (delete c P) E' /\ unfiled s' = unfiled (with_CBfree (c :: CBfree s) s) /\ leads_on s s' c
  /\ (deletefe = true -> lk' = lk) /\ (size (delete c P) + size (@leaked lk') <= size P + size (@leaked lk))%nat.
Proof.
  intros K Hc. pose proof (proj1 (elem_of_dom P c) Hc) as Hp. assert (Hs : size P = S (size (delete c P))).
  { rewrite map_size_delete_Some by done. assert (size P <> 0%nat); [| lia]. intros Hz%map_size_empty_inv. rewrite Hz in Hp. by destruct Hp. }
  destruct deletefe.
  { destruct (kept_CDel s P E c K Hc) as (s' & E' & H1 & H2 & H3 & H4). exists lk, s', E'. do 5 (split; [done |]). lia. }
  destruct (kp_filed _ _ _ K) as (FL & BL & F).
  destruct (CDel_ok s _ _ _ _ c false (kp_tables _ _ _ K) F Hc) as (s' & left & E1 & T & F' & U & L & Hl).
  destruct (unfiled_drop s s' c U) as (_ & Hx & _ & _ & X). unfold files_left in T, F'. rewrite decide_False in T, F' by naive_solver.
  exists ({[cbf fhead s c]} ∪ @leaked lk), s', E. split; [done |]. split; [| do 2 (split; [done |]); split; [done |]].
  - split; rewrite ?dom_delete_L; [done | done | |].
    + intros x p [_ Hxp]%lookup_delete_Some. rewrite Hx. by apply (kp_promise _ _ _ K).
    + intros f Hf Hlk. apply not_elem_of_union in Hlk as [Hfc%not_elem_of_singleton Hlk]. destruct (kp_full _ _ _ K f Hf Hlk) as (d & Hd & Ed).
      exists d. rewrite (X _ fhead d) by done. split; [| done]. apply elem_of_difference. split; [done |]. intros ->%elem_of_singleton. done.
  - change (@leaked ({[cbf fhead s c]} ∪ @leaked lk)) with ({[cbf fhead s c]} ∪ @leaked lk). rewrite size_union_alt, size_singleton.
    assert (Hl2 : (size (@leaked lk ∖ {[cbf fhead s c]}) <= size (@leaked lk))%nat) by (apply subseteq_size; set_solver). rewrite Hs.
    set (a := size (delete c P)) in *. clearbody a. cbn [Nat.add] in *. lia.
Qed.

Section leaks.
Context {lk : Leaked}.

(** A promise of [c] is taken back by three operations. *)
Lemma drop_ok s P E c : tables_keep s P E -> c ∈ dom P -> exists s1 s2 s3 E',
  TDel c s = Some (tt, s1) /\ HDel c s1 = Some (tt, s2) /\ CDel c true s2 = Some (tt, s3)
  /\ tables_keep s3 (delete c P) E' /\ quiet s3 = quiet s /\ leads_on s s3 c.
Proof.
  intros (K & Ti & L & H) Hc. destruct (TDel_ok s _ c Ti Hc) as (s1 & E1 & (L1 & T1) & U1).
  destruct (HDel_ok s1 (dom P) c) as (s2 & E2 & (L2 & H2) & U2); [exists L; by apply (untimed_hosted s) | done |].
  destruct (kept_CDel s2 P E c) as (s3 & E' & E3 & K3 & U3 & L3); [| done |].
  { apply (kept_unhosted s1); [done |]. by apply (kept_untimed s). }
  destruct (unfiled_drop s2 s3 c U3) as (Q & _ & XT & XH & X). exists s1, s2, s3, E'. do 3 (split; [done |]).
  split; [split; [done |]; rewrite dom_delete_L; split | split].
  - exists L1. apply XT. by apply (unhosted_timed s1 s2).
  - exists L2. by apply XH.
  - by rewrite Q, (unhosted_quiet s1 s2 U2), (untimed_quiet s s1 U1).
  - intros x. specialize (L3 x). by rewrite (unhosted_cb cnext s1 s2 x U2), (untimed_cb cnext s s1 x U1) in L3.
Qed.

(** ** DeleteCallBack *)

(** The file, as it is found. *)
Lemma find_file s P E fid : tables_keep s P E -> exists f, FindFE fid s = Some (f, s)
  /\ (f = 0 /\ (forall c p, P !! c = Some p -> p_fid p = fid -> p_later p = true)
      \/ f <> 0 /\ f ∈ E /\ forall c p, P !! c = Some p -> cbf fhead s c = f <-> p_fid p = fid /\ p_later p = false).
Proof.
  intros K. destruct (tk_filed _ _ _ K) as (FL & BL & F). pose proof (tk_tables _ _ _ K) as T.
  assert (HE : forall c p, P !! c = Some p -> cbf fhead s c ∈ E).
  { intros c p Hp. apply (ls_head _ _ _ _ (proj1 F)). by apply elem_of_dom_2 in Hp. }
  destruct (FindFE_ok s _ _ _ _ (tb_bounds T) F fid) as (f & Ef & Hf). exists f. split; [done |].
  destruct Hf as [[-> Hf] | (Hf & Ei & El)].
  - left. split; [done |]. intros c p Hp. pose proof (tk_promise _ _ _ K c p Hp) as ->. apply Hf. by apply (HE c _ Hp).
  - right. split; [by apply (fe_nonzero s _ _ (tb_bounds T)) | split; [done |]]. intros c p Hp. pose proof (tk_promise _ _ _ K c p Hp) as ->. split.
    + intros Ec. cbn. by rewrite Ec.
    + cbn. intros [H1 H2]. apply (bk_fid _ _ _ (proj2 F)); [by apply (HE c _ Hp) | done | by rewrite Ei | done | done].
Qed.

Definition is_promise (h : Z) (fid : AFSFid) (p : promise) : Prop := p_host p = h /\ p_fid p = fid /\ p_later p = false.
#[export] Instance is_promise_dec h fid p : Decision (is_promise h fid p).
Proof. unfold is_promise. apply _. Defined.

(** The map without some promises. *)
Definition without (Q : promise -> Prop) `{forall p, Decision (Q p)} (P : gmap Z promise) : gmap Z promise := filter (fun x => ~ Q x.2) P.

Lemma without_none Q `{forall p, Decision (Q p)} P : (forall c p, P !! c = Some p -> ~ Q p) -> without Q P = P.
Proof. intros HP. apply map_filter_id. intros c p Hp. by apply (HP c). Qed.

Lemma without_one Q `{forall p, Decision (Q p)} P c p : P !! c = Some p -> Q p -> (forall d q, P !! d = Some q -> Q q -> d = c) ->
  without Q P = delete c P.
Proof.
  intros Hc Hq Hd. apply map_eq. intros d. destruct (decide (d = c)) as [-> | Hne].
  - rewrite lookup_delete_eq. apply map_lookup_filter_None. right. intros q Hp Hn. cbn in Hn. naive_solver.
  - rewrite lookup_delete_ne by done. destruct (P !! d) as [q |] eqn:Ed.
    + apply map_lookup_filter_Some. split; [done |]. cbn. intros Hq'. by apply Hne, (Hd d q).
    + apply map_lookup_filter_None. by left.
Qed.

(** One promise of a file to a host. *)
Lemma promise_once s P E c d p q h fid : tables_keep s P E -> P !! c = Some p -> P !! d = Some q ->
  is_promise h fid p -> is_promise h fid q -> c = d.
Proof.
  intros K Hp Hq (H1 & H2 & H3) (H4 & H5 & H6). destruct (tk_filed _ _ _ K) as (FL & BL & F).
  destruct (find_file s P E fid K) as (f & _ & [[_ Hf] | (_ & _ & Hf)]).
  { specialize (Hf c p Hp H2). by rewrite H3 in Hf. }
  apply (ls_one _ _ _ _ (proj1 F)); [by apply elem_of_dom_2 in Hp | by apply elem_of_dom_2 in Hq | |].
  - transitivity f; [| symmetry]; [by apply (Hf c p Hp) | by apply (Hf d q Hq)].
  - rewrite (tk_promise _ _ _ K c p Hp) in H1. rewrite (tk_promise _ _ _ K d q Hq) in H4. cbn in H1, H4. by rewrite H1, H4.
Qed.

Lemma file_member s P E FL BL f c p : tables_keep s P E -> files s (dom P) E FL BL -> f ∈ E -> P !! c = Some p -> c ∈ FL f <-> cbf fhead s c = f.
Proof. intros K F Hf Hp. rewrite (ls_elem _ _ _ _ (proj1 F)) by done. apply elem_of_dom_2 in Hp. naive_solver. Qed.

(** DeleteCallBack takes back the promise to the host, when there is one. *)
Lemma DeleteCallBack_keeps s P h fid : keeps s P ->
  exists s', DeleteCallBack h fid s = Some (tt, s') /\ keeps s' (without (is_promise h fid) P) /\ quiet s' = quiet s.
Proof.
  intros (E & K). pose proof (tk_tables _ _ _ K) as T. destruct (tk_filed _ _ _ K) as (FL & BL & F). unfold DeleteCallBack.
  destruct (find_file s P E fid K) as (f & Ef & [[-> Hno] | (Hf0 & Hf & Hp)]); rewrite (bind_ok _ _ _ _ _ Ef).
  { exists s. split; [done | split; [| done]]. rewrite without_none; [by exists E |]. intros c p Hp (_ & H1 & H2). by rewrite (Hno c p Hp H1) in H2. }
  rewrite (proj2 (Z.eqb_neq f 0) Hf0).
  destruct (find_in_file s _ E FL BL (tb_bounds T) F (fun _ cb => hhead cb =? h) f (S (Z.to_nat (nblks s))) Hf ltac:(lia)) as (l1 & l2 & EL & El & H1 & H2).
  rewrite (bind_ok _ _ s _ _ (El : FindCBPtr f h s = _)), (bind_ok _ _ _ _ _ (read_place s _ E FL BL (tb_bounds T) F f l1 l2 Hf EL)).
  destruct l2 as [| c l2].
  { exists s. split; [done | split; [| done]]. rewrite without_none; [by exists E |]. intros c p Hc (Hh & Hi).
    assert (Hin : c ∈ FL f) by (apply (file_member s P E FL BL f c p); [done | done | done | done |]; by apply (Hp c p)).
    rewrite EL, app_nil_r in Hin. specialize (H1 c Hin). rewrite (tk_promise _ _ _ K c p Hc) in Hh. apply Z.eqb_neq in H1. by apply H1. }
  change (default 0 (head (c :: l2))) with c. assert (Hin : c ∈ FL f) by (rewrite EL; set_solver).
  apply (ls_elem _ _ _ _ (proj1 F)) in Hin as [Hc Ec]; [| done]. rewrite (proj2 (Z.eqb_neq c 0)) by by apply (cb_nonzero s _ _ (tb_bounds T)).
  destruct (tk_timed _ _ _ K) as [L1 T1]. destruct (HDel_ok s (dom P) c (tk_hosted _ _ _ K) Hc) as (s1 & E1 & HH1 & U1).
  destruct (unhosted_keeps s s1 _ _ _ _ U1 T F) as [Ta1 F1].
  destruct (TDel_ok s1 (dom P) c) as (s2 & E2 & HT2 & U2); [exists L1; by apply (unhosted_timed s) | done |].
  destruct (untimed_keeps s1 s2 _ _ _ _ U2 Ta1 F1) as [Ta2 F2].
  destruct (CDelPtr_ok s2 _ _ _ _ f c l1 l2 true Ta2 F2 Hf EL) as (s3 & E3 & T3 & F3 & U3 & _).
  destruct (unfiled_drop s2 s3 c U3) as (Q & XP & XT & XH & X).
  rewrite (bind_ok _ _ _ _ _ E1), (bind_ok _ _ _ _ _ E2). exists s3. split; [done |]. rewrite <- Ec in T3, F3.
  apply elem_of_dom in Hc as [p Hc]. split; [| by rewrite Q, (untimed_quiet s1 s2 U2), (unhosted_quiet s s1 U1)].
  assert (Hpc : is_promise h fid p).
  { split; [| by apply (Hp c p)]. rewrite (tk_promise _ _ _ K c p Hc). specialize (H2 c eq_refl). by apply Z.eqb_eq in H2. }
  rewrite (without_one _ P c p Hc Hpc).
  - exists (files_left true (cbf fhead s c) (l1 ++ l2) E). split; [apply (kept_without s) | rewrite dom_delete_L; split];
      [apply K | done | done | done | by apply (left_alone s _ E FL BL f) | | |].
    + intros x. rewrite XP, (X _ fhead) by done.
      by rewrite (untimed_promise s1 s2 x U2), (unhosted_promise s s1 x U1), (untimed_cb fhead s1 s2 x U2), (unhosted_cb fhead s s1 x U1).
    + destruct HT2 as [L2 HT2]. exists L2. by apply XT.
    + destruct HH1 as [L2 HH1]. exists L2. apply XH. by apply (untimed_hosted s1 s2).
  - intros d q Hd Hq. by apply (promise_once s P E d c q p h fid K Hd Hc Hq).
Qed.

(** ** DeleteFileCallBacks *)

(** While the list of [f] is given up, the entries stay as they are, but for its
    head and the count. *)
Record still (f : Z) (s s' : cbstate) : Prop := {
  st_quiet : quiet s' = quiet s;
  st_hash : HashTable s' = HashTable s;
  st_promise : forall x, promise_at s' x = promise_at s x;
  st_cb : forall x, cbf cnext s' x = cbf cnext s x /\ cbf fhead s' x = cbf fhead s x /\ cbf hhead s' x = cbf hhead s x;
  st_fe : forall g, fef fnext s' g = fef fnext s g /\ fef fe_fid s' g = fef fe_fid s g /\ later s' g = later s g
            /\ (g <> f -> fef firstcb s' g = fef firstcb s g /\ fef ncbs s' g = fef ncbs s g)
}.

Lemma still_trans f s1 s2 s3 : still f s1 s2 -> still f s2 s3 -> still f s1 s3.
Proof.
  intros [A1 A2 A3 A4 A5] [B1 B2 B3 B4 B5]. split.
  - by rewrite B1.
  - by rewrite B2.
  - intros x. by rewrite B3.
  - intros x. destruct (B4 x) as (-> & -> & ->). apply A4.
  - intros g. destruct (B5 g) as (-> & -> & -> & H). destruct (A5 g) as (-> & -> & -> & H').
    do 3 (split; [done |]). intros Hg. destruct (H Hg) as [-> ->]. by apply H'.
Qed.

Lemma dom_minus_cons (C : gset Z) x l : C ∖ {[x]} ∖ list_to_set l = C ∖ list_to_set (x :: l).
Proof. set_solver. Qed.

(** The lists by time and by host without one entry. *)
Lemma unlist_only s C c : timed s C -> hosted s C -> c ∈ C -> exists s1 s2,
  TDel c s = Some (tt, s1) /\ HDel c s1 = Some (tt, s2)
  /\ timed s2 (C ∖ {[c]}) /\ hosted s2 (C ∖ {[c]}) /\ FE s2 = FE s /\ CBfree s2 = CBfree s /\ FEfree s2 = FEfree s
  /\ (forall x, is_cb s2 x <-> is_cb s x) /\ forall f, still f s s2.
Proof.
  intros Ti [L H] Hc. destruct (TDel_ok s _ c Ti Hc) as (s1 & E1 & [L1 T1] & U1).
  destruct (HDel_ok s1 C c) as (s2 & E2 & H2 & U2); [exists L; by apply (untimed_hosted s) | done |].
  assert (Ef : FE s2 = FE s) by (transitivity (FE s1); [exact (f_equal FE U2) | exact (f_equal FE U1)]).
  exists s1, s2. do 2 (split; [done |]). split; [exists L1; by apply (unhosted_timed s1 s2) |]. do 2 (split; [done |]).
  split; [transitivity (CBfree s1); [exact (f_equal CBfree U2) | exact (f_equal CBfree U1)] |].
  split; [transitivity (FEfree s1); [exact (f_equal FEfree U2) | exact (f_equal FEfree U1)] |].
  split; [intros x; by rewrite (unhosted_is s1 s2 x U2), (untimed_is s s1 x U1) |].
  intros f. split.
  - by rewrite (unhosted_quiet s1 s2 U2), (untimed_quiet s s1 U1).
  - transitivity (HashTable s1); [exact (f_equal HashTable U2) | exact (f_equal HashTable U1)].
  - intros x. by rewrite (unhosted_promise s1 s2 x U2), (untimed_promise s s1 x U1).
  - intros x. by rewrite !(unhosted_cb _ s1 s2 x U2), !(untimed_cb _ s s1 x U1).
  - intros g. unfold later. by rewrite !(fef_same _ s s2 g Ef).
Qed.

Lemma delete_list_ok f l : forall s C E v fuel, tables s C E -> timed s C -> hosted s C -> is_fe s f ->
  linked (cbf cnext s) v l -> NoDup l -> (forall c, c ∈ l -> c ∈ C) -> (length l < fuel)%nat ->
  exists s', delete_list f v fuel s = Some (tt, s') /\ tables s' (C ∖ list_to_set l) E
    /\ timed s' (C ∖ list_to_set l) /\ hosted s' (C ∖ list_to_set l) /\ still f s s'.
Proof.
  induction l as [| c l IH]; intros s C E v fuel T Ti Ho Hf HL HN Hin Hfu; cbn [linked length] in *; (destruct fuel as [| fuel]; [lia |]).
  - subst v. exists s. cbn. replace (C ∖ ∅) with C by set_solver. split; [done | split; [done | split; [done | split; [done |]]]].
    by split.
  - destruct HL as [-> HL]. apply NoDup_cons in HN as [Hcl HN]. assert (Hc : c ∈ C) by (apply Hin; left). cbn [delete_list].
    rewrite (proj2 (Z.eqb_neq c 0)) by by apply (cb_nonzero s C E (tb_bounds T)).
    rewrite (bind_ok _ _ _ _ _ (get_cb_ok s c (tb_used _ _ _ T c Hc))). change (cnext (cbf id s c)) with (cbf cnext s c).
    destruct (unlist_only s C c Ti Ho Hc) as (s1 & s2 & E1 & E2 & T2 & H2 & Ef & Ec & Ee & Ic & St).
    rewrite (bind_ok _ _ _ _ _ E1), (bind_ok _ _ _ _ _ E2). set (s3 := with_CBfree (c :: CBfree s2) s2).
    rewrite (bind_ok _ _ _ _ _ (eq_refl : iFreeCB c s2 = Some (tt, s3))).
    assert (Hf3 : is_fe s3 f) by (unfold is_fe; cbn; by rewrite Ef).
    rewrite (bind_ok _ _ _ _ _ (mod_fe_ok s3 f _ Hf3)). set (g := fun fe => set_ncbs (u32 (ncbs fe - 1)) fe). set (s4 := with_FE (alter g f) s3).
    assert (S4 : still f s s4).
    { apply (still_trans f s s2); [apply St |]. split; [done | done | | done |].
      - intros x. apply promise_frame; [done |]. intros y. unfold s4. by rewrite !fef_keep.
      - intros y. unfold later, s4. rewrite (fef_keep fnext), (fef_keep fe_fid), (fef_keep fstatus), (fef_keep firstcb) by done.
        do 3 (split; [done |]). intros Hy. split; [done |]. rewrite fef_alter by done. by rewrite decide_False. }
    destruct (IH s4 (C ∖ {[c]}) E (cbf cnext s c) fuel) as (s' & E' & T' & Ti' & Ho' & S').
    + apply (tables_free_cb s); [done | done | exact (f_equal (fun q => q.1.2) (st_quiet _ _ _ S4)) | exact Ic | | by cbn; rewrite Ec | done].
      intros x. unfold s4. rewrite is_fe_alter. unfold is_fe. cbn. by rewrite Ef.
    + done.
    + done.
    + by apply is_fe_alter.
    + apply (links_frame (cbf cnext s)); [done |]. intros x _. by destruct (st_cb _ _ _ S4 x) as (-> & _).
    + done.
    + intros x Hx. apply elem_of_difference. split; [apply Hin; by right |]. intros ->%elem_of_singleton. done.
    + lia.
    + exists s'. rewrite dom_minus_cons in T', Ti', Ho'. do 4 (split; [done |]). by apply (still_trans f s s4).
Qed.

Definition of_file (fid : AFSFid) (p : promise) : Prop := p_fid p = fid /\ p_later p = false.
#[export] Instance of_file_dec fid p : Decision (of_file fid p).
Proof. unfold of_file. apply _. Defined.

Lemma without_lookup Q `{forall p, Decision (Q p)} P c p : without Q P !! c = Some p <-> P !! c = Some p /\ ~ Q p.
Proof. apply map_lookup_filter_Some. Qed.

(** The map without the promises of some entries. *)
Definition drop_all (l : list Z) (P : gmap Z promise) : gmap Z promise := filter (fun x => x.1 ∉ l) P.

Lemma drop_all_lookup l P c p : drop_all l P !! c = Some p <-> P !! c = Some p /\ c ∉ l.
Proof. apply map_lookup_filter_Some. Qed.
Lemma drop_all_cons c l P : drop_all l (delete c P) = drop_all (c :: l) P.
Proof.
  apply map_eq. intros d. apply option_eq. intros p. rewrite !drop_all_lookup, lookup_delete_Some, not_elem_of_cons. naive_solver.
Qed.
Lemma drop_all_app l1 l2 P : drop_all l2 (drop_all l1 P) = drop_all (l1 ++ l2) P.
Proof. apply map_eq. intros d. apply option_eq. intros p. rewrite !drop_all_lookup, not_elem_of_app. naive_solver. Qed.
Lemma drop_all_nil P : drop_all [] P = P.
Proof. apply map_filter_id. intros c p _. apply not_elem_of_nil. Qed.
Lemma drop_all_without Q `{forall p, Decision (Q p)} P (l : list Z) : (forall c p, P !! c = Some p -> c ∈ l <-> Q p) -> drop_all l P = without Q P.
Proof.
  intros Hl. apply map_eq. intros c. apply option_eq. intros p. rewrite drop_all_lookup, without_lookup.
  split; intros [Hp Hc]; (split; [done |]); by rewrite (Hl c p Hp) in *.
Qed.
Lemma dom_drop_all (l : list Z) P : dom (drop_all l P) = dom P ∖ list_to_set l.
Proof.
  apply set_eq. intros c. rewrite elem_of_difference, elem_of_list_to_set, !elem_of_dom. unfold is_Some.
  setoid_rewrite drop_all_lookup. naive_solver.
Qed.

(** The lists and promises without a file and its callbacks, once those are off
    the lists of their hosts and queues. *)
Section unfile.
Context (s s1 s2 : cbstate) (P : gmap Z promise) (E : gset Z) (FL : Z -> list Z) (f : Z).
Context (F : lists s (dom P) E FL) (Hf : f ∈ E) (S1 : still f s s1) (C2 : CB s2 = CB s1) (U2 : unfiled s2 = unfiled s1).
Context (K2 : forall x, fef firstcb s2 x = fef firstcb s1 x /\ fef ncbs s2 x = fef ncbs s1 x).

Lemma unfile_fhead x : cbf fhead s2 x = cbf fhead s x.
Proof. unfold cbf. rewrite C2. change (cbf fhead s1 x = cbf fhead s x). by destruct (st_cb _ _ _ S1 x) as (_ & -> & _). Qed.

Lemma unfile_lists : lists s2 (dom (drop_all (FL f) P)) (E ∖ {[f]}) FL.
Proof.
  pose proof unfile_fhead as X. rewrite dom_drop_all. assert (Hg : forall g, g ∈ E ∖ {[f]} -> g ∈ E /\ g <> f) by (intros g; set_solver).
  assert (Hd : forall c, c ∈ dom P ∖ list_to_set (FL f) <-> c ∈ dom P /\ cbf fhead s c <> f).
  { intros c. rewrite elem_of_difference, elem_of_list_to_set, (ls_elem _ _ _ _ F f c Hf). naive_solver. }
  assert (Y : forall x, cbf cnext s2 x = cbf cnext s x /\ cbf hhead s2 x = cbf hhead s x).
  { intros x. unfold cbf. rewrite C2. change (cbf cnext s1 x = cbf cnext s x /\ cbf hhead s1 x = cbf hhead s x).
    by destruct (st_cb _ _ _ S1 x) as (-> & _ & ->). }
  split.
  - intros g [Hg1 Hg2]%Hg. destruct (K2 g) as [-> _]. destruct (st_fe _ _ _ S1 g) as (_ & _ & _ & Hx). destruct (Hx Hg2) as [-> _].
    apply (links_frame (cbf cnext s)); [by apply (ls_list _ _ _ _ F) |]. intros x _. apply Y.
  - intros g [Hg1 _]%Hg. by apply (ls_nodup _ _ _ _ F).
  - intros g c [Hg1 Hg2]%Hg. rewrite (ls_elem _ _ _ _ F), Hd, X by done. naive_solver.
  - intros c [Hc1 Hc2]%Hd. rewrite X. apply elem_of_difference. rewrite not_elem_of_singleton. split; [| done].
    by apply (ls_head _ _ _ _ F).
  - intros c d [Hc1 _]%Hd [Hd1 _]%Hd. rewrite !X, (proj2 (Y c)), (proj2 (Y d)). by apply (ls_one _ _ _ _ F).
  - intros g [Hg1 Hg2]%Hg. destruct (K2 g) as [_ ->]. destruct (st_fe _ _ _ S1 g) as (_ & _ & _ & Hx). destruct (Hx Hg2) as [_ ->].
    by apply (ls_count _ _ _ _ F).
Qed.

Lemma unfile_promise : (forall c p, P !! c = Some p -> p = promise_at s c) -> forall c p, drop_all (FL f) P !! c = Some p -> p = promise_at s2 c.
Proof.
  intros HP c p [Hc _]%drop_all_lookup. rewrite (unfiled_promise s1 s2 c U2), (st_promise _ _ _ S1). by apply HP.
Qed.

Lemma unfile_full : (forall g, g ∈ E -> g ∉ leaked -> exists c, c ∈ dom P /\ cbf fhead s c = g) ->
  forall g, g ∈ E ∖ {[f]} -> g ∉ leaked -> exists c, c ∈ dom (drop_all (FL f) P) /\ cbf fhead s2 c = g.
Proof.
  intros HF g [Hg1 Hg2%not_elem_of_singleton]%elem_of_difference HG. destruct (HF g Hg1 HG) as (c & Hc1 & Hc2).
  exists c. rewrite unfile_fhead, dom_drop_all. split; [| done]. apply elem_of_difference. split; [done |].
  rewrite elem_of_list_to_set, (ls_elem _ _ _ _ F f c Hf). intros [_ Hc3]. congruence.
Qed.
End unfile.

(** DeleteFileCallBacks takes back every promise of the file. *)
Lemma DeleteFileCallBacks_keeps s P fid : keeps s P ->
  exists s', DeleteFileCallBacks fid s = Some (tt, s') /\ keeps s' (without (of_file fid) P) /\ quiet s' = quiet s.
Proof.
  intros (E & K). pose proof (tk_tables _ _ _ K) as T. destruct (tk_filed _ _ _ K) as (FL & BL & F). unfold DeleteFileCallBacks.
  destruct (find_file s P E fid K) as (f & Ef & [[-> Hno] | (Hf0 & Hf & Hp)]); rewrite (bind_ok _ _ _ _ _ Ef).
  { exists s. split; [done | split; [| done]]. rewrite without_none; [by exists E |]. intros c p Hp (H1 & H2). by rewrite (Hno c p Hp H1) in H2. }
  rewrite (proj2 (Z.eqb_neq f 0) Hf0). pose proof (tb_files _ _ _ T f Hf) as Hfe.
  rewrite (bind_ok _ _ _ _ _ (get_fe_ok s f Hfe)). change (firstcb (fef id s f)) with (fef firstcb s f).
  rewrite (bind_ok _ _ s (fuel_of s) s) by done.
  destruct (delete_list_ok f (FL f) s (dom P) E (fef firstcb s f) (fuel_of s) T (tk_timed _ _ _ K) (tk_hosted _ _ _ K) Hfe) as (s1 & E1 & T1 & Ti1 & H1 & S1).
  { by apply (ls_list _ _ _ _ (proj1 F)). }
  { by apply (ls_nodup _ _ _ _ (proj1 F)). }
  { intros c Hc. by apply (ls_elem _ _ _ _ (proj1 F)) in Hc as [Hc _]. }
  { pose proof (list_short s _ E FL BL (tb_bounds T) F f Hf). unfold fuel_of. lia. }
  rewrite (bind_ok _ _ _ _ _ E1). assert (B1 : buckets s1 E BL).
  { apply (buckets_frame s); [apply F | |].
    - intros g. by destruct (st_fe _ _ _ S1 g) as (-> & -> & -> & _).
    - intros h. unfold bucket. by rewrite (st_hash _ _ _ S1). }
  destruct (FDel_ok s1 _ E BL f T1 B1 Hf) as (s2 & BL' & E2 & T2 & B2 & U2 & C2 & K2).
  assert (W : drop_all (FL f) P = without (of_file fid) P).
  { apply drop_all_without. intros c p Hc. by rewrite (file_member s P E FL BL f c p), (Hp c p). }
  assert (K3 : kept s2 (drop_all (FL f) P) (E ∖ {[f]})).
  { split; [by rewrite dom_drop_all | exists FL, BL'; split; [by apply (unfile_lists s s1 s2 P E FL f (proj1 F)) | done] | |].
    - by apply (unfile_promise s s1 s2 P FL f), (tk_promise _ _ _ K).
    - by apply (unfile_full s s1 s2 P E FL f (proj1 F)), (tk_full _ _ _ K). }
  rewrite <- W.
  exists s2. split; [done |]. split; [| by rewrite (unfiled_quiet _ s2 U2), (st_quiet _ _ _ S1)].
  exists (E ∖ {[f]}). split; [done |]. rewrite dom_drop_all.
  split; [destruct Ti1 as [L Ti1]; exists L; by apply (unfiled_timed s1) | destruct H1 as [L H1]; exists L; by apply (unfiled_hosted s1)].
Qed.

(** ** DeleteAllCallBacks_r *)

End leaks.

Lemma delete_ring_ok first deletefe l : forall (lk : Leaked) c s P E fuel, kept s P E -> timed s (dom P) ->
  segment (cbf hnext s) (cbf hprev s) c l first -> (forall x, x ∈ c :: l -> x ∈ dom P) -> NoDup (c :: l) -> first ∉ l -> (length l < fuel)%nat ->
  exists (lk' : Leaked) s' E', delete_ring first c deletefe fuel s = Some (tt, s') /\ @kept lk' s' (drop_all (c :: l) P) E' /\ timed s' (dom (drop_all (c :: l) P))
    /\ quiet s' = quiet s /\ (forall C L, hosted_by s C L -> hosted_by s' C L)
    /\ (deletefe = true -> lk' = lk) /\ (size (drop_all (c :: l) P) + size (@leaked lk') <= size P + size (@leaked lk))%nat.
Proof.
  induction l as [| d l IH]; intros lk c s P E fuel K [L T] HS Hin HN Hfi Hfu; cbn [length] in Hfu; (destruct fuel as [| fuel]; [lia |]);
    assert (Hc : c ∈ dom P) by (apply Hin; left); pose proof (tb_used _ _ _ (kp_tables _ _ _ K) c Hc) as Hcb; cbn [delete_ring];
    rewrite (bind_ok _ _ _ _ _ (get_cb_ok s c Hcb)); change (hnext (cbf id s c)) with (cbf hnext s c);
    (destruct (TDel_ok s _ c (ex_intro _ L T) Hc) as (s1 & E1 & (L1 & T1) & U1)); rewrite (bind_ok _ _ _ _ _ E1);
    (destruct (kept_CDel_any lk s1 P E c deletefe) as (lk2 & s2 & E2 & E3 & K2 & U2 & _ & Le & Ls); [by apply (kept_untimed s) | done |]); rewrite (bind_ok _ _ _ _ _ E3);
    destruct (unfiled_drop s1 s2 c U2) as (Q & _ & XT & XH & X);
    (assert (Q' : quiet s2 = quiet s) by (by rewrite Q, (untimed_quiet s s1 U1)));
    (assert (XH' : forall C L, hosted_by s C L -> hosted_by s2 C L) by (intros C L' H; apply XH; by apply (untimed_hosted s)));
    (assert (T2 : timed s2 (dom (delete c P))) by (rewrite dom_delete_L; exists L1; by apply XT)); cbn [segment] in HS.
  - destruct HS as [-> _]. rewrite Z.eqb_refl. exists lk2, s2, E2. rewrite <- drop_all_cons, drop_all_nil. done.
  - destruct HS as (-> & _ & HS). apply NoDup_cons in HN as [Hcd HN].
    rewrite (proj2 (Z.eqb_neq d first)) by (intros ->; apply Hfi; left).
    destruct (IH lk2 d s2 (delete c P) E2 fuel K2 T2) as (lk' & s' & E' & E4 & K' & T' & Q2 & XH2 & Le2 & Ls2).
    + apply (segment_frame (cbf hnext s) (cbf hprev s)); [done | | |];
        intros; rewrite (X _ _) by done; by rewrite (untimed_cb _ s s1 _ U1).
    + intros x Hx. rewrite dom_delete_L. apply elem_of_difference. split; [apply Hin; by right |]. intros ->%elem_of_singleton. done.
    + done.
    + intros H. apply Hfi. by right.
    + lia.
    + exists lk', s', E'. rewrite drop_all_cons in K', T', Ls2. rewrite Q2, Q'. split; [done |]. split; [done | split; [done | split; [done |]]].
      split; [intros C L' H; apply XH2; by apply XH' | split; [intros Ed; by rewrite (Le2 Ed), (Le Ed) | lia]].
Qed.

Section leaks.
Context {lk : Leaked}.

Definition to_host (h : Z) (p : promise) : Prop := p_host p = h.
#[export] Instance to_host_dec h p : Decision (to_host h p).
Proof. unfold to_host. apply _. Defined.

Lemma quiet_set s h v : quiet (with_hosts (alter (set_cblist v) h) s) = quiet s.
Proof. unfold quiet, with_hosts. fields. by rewrite fmap_alter_keep. Qed.

Lemma quiet_known s s' h : quiet s' = quiet s -> known s' h <-> known s h.
Proof.
  intros Q%(f_equal (fun q => q.2))%(f_equal (.!! h)). cbn in Q. rewrite !lookup_fmap in Q. unfold known.
  destruct (hosts s' !! h), (hosts s !! h); naive_solver.
Qed.

(** The list of a host, as a whole. *)
Lemma host_members s P E L h c p : tables_keep s P E -> hosted_by s (dom P) L -> known s h -> P !! c = Some p -> c ∈ L h <-> to_host h p.
Proof.
  intros K [R _] Hh Hp. rewrite (rg_elem _ _ _ _ _ _ _ R h c Hh), (tk_promise _ _ _ K c p Hp). apply elem_of_dom_2 in Hp.
  unfold to_host. cbn. naive_solver.
Qed.

Lemma hosted_drop s C L h : hosted_by s C L -> known s h -> hosted (with_hosts (alter (set_cblist 0) h) s) (C ∖ list_to_set (L h)).
Proof.
  intros [R Hd] Hh. set (s2 := with_hosts (alter (set_cblist 0) h) s).
  assert (K2 : forall x, known s2 x <-> known s x) by (intros x; apply known_alter).
  eexists. split.
  - destruct (rings_drop _ _ _ _ (cbf hnext s2) (cbf hprev s2) (cbf hhead s2) (host_list s2) _ C L h R Hh) as [R1 R2 R3].
    + done.
    + intros i Hi. by apply host_list_set.
    + split; [intros i Hi%K2; by apply R1 | intros i Hi%K2; by apply R2 | intros i x Hi%K2; by apply R3].
  - intros c [Hc _]%elem_of_difference. destruct (Hd c Hc) as (H1 & H2 & H3). by rewrite K2.
Qed.

(** DeleteAllCallBacks_r takes back every promise to the host. File entries may
    be left without a callback when it is not to delete them. *)
Lemma DeleteAllCallBacks_any s P h deletefe : keeps s P -> known s h ->
  exists (lk' : Leaked) s', DeleteAllCallBacks_r h deletefe s = Some (tt, s') /\ @keeps lk' s' (without (to_host h) P) /\ quiet s' = quiet s
    /\ (deletefe = true -> lk' = lk) /\ (size (without (to_host h) P) + size (@leaked lk') <= size P + size (@leaked lk))%nat.
Proof.
  intros (E & K) Hh. destruct (tk_hosted _ _ _ K) as (L & H). pose proof H as [R Hd]. unfold DeleteAllCallBacks_r.
  rewrite (bind_ok _ _ _ _ _ (get_host_ok s h Hh)), (host_list_hof s h Hh).
  assert (H0 : 0 ∉ dom P) by (intros H0; by apply Hd in H0 as [? _]).
  pose proof (rings_empty _ _ _ _ _ _ _ h R Hh H0) as He. pose proof (host_members s P E L h) as HM.
  pose proof (rg_ring _ _ _ _ _ _ _ R h Hh) as Hr. pose proof (rg_nodup _ _ _ _ _ _ _ R h Hh) as HN.
  pose proof (rg_elem _ _ _ _ _ _ _ R h) as Hel. destruct (L h) as [| c l] eqn:EL.
  - rewrite (proj2 He eq_refl). exists lk, s. rewrite without_none; [split; [done | split; [by exists E | done]] |].
    intros d p Hp Hq. apply (HM d p K H Hh Hp) in Hq. by apply not_elem_of_nil in Hq.
  - destruct Hr as [Eh Hs]. rewrite Eh. assert (Hc : c ∈ dom P) by (apply (Hel c Hh); left).
    rewrite (proj2 (Z.eqb_neq c 0)) by by intros ->. rewrite (bind_ok _ _ s (fuel_of s) s) by done.
    pose proof (tk_tables _ _ _ K) as T.
    destruct (delete_ring_ok c deletefe l lk c s P E (fuel_of s) (proj1 K) (tk_timed _ _ _ K) Hs) as (lk1 & s1 & E1 & Er & K1 & T1 & Q1 & X1 & Le & Ls).
    + intros x Hx. by apply (Hel x Hh).
    + done.
    + by apply NoDup_cons in HN as [? _].
    + assert (Hlen : (length (c :: l) <= Z.to_nat (nblks s))%nat).
      { apply nodup_bounded; [done |]. intros x Hx. apply (tb_cb _ _ _ T), (tb_used _ _ _ T). by apply (Hel x Hh). }
      unfold fuel_of. cbn [length] in Hlen. lia.
    + rewrite (bind_ok _ _ _ _ _ Er). assert (Hh1 : known s1 h) by by apply (quiet_known s s1).
      rewrite (mod_host_ok s1 h _ Hh1). set (s2 := with_hosts (alter (set_cblist 0) h) s1). exists lk1, s2.
      assert (U2 : unhosted s2 = unhosted s1) by apply unhosted_set.
      rewrite <- (drop_all_without (to_host h) P (c :: l)) by (intros d p Hp; by apply HM).
      split; [done | split; [| split; [unfold s2; by rewrite quiet_set | done]]]. exists E1.
      split; [by apply (kept_unhosted s1) | split].
      * destruct T1 as [L1 T1]. exists L1. by apply (unhosted_timed s1 s2).
      * rewrite dom_drop_all, <- EL. apply hosted_drop; [by apply X1 | done].
Qed.

Lemma DeleteAllCallBacks_keeps s P h : keeps s P -> known s h ->
  exists s', DeleteAllCallBacks_r h true s = Some (tt, s') /\ keeps s' (without (to_host h) P) /\ quiet s' = quiet s.
Proof. intros K Hh. destruct (DeleteAllCallBacks_any s P h true K Hh) as (lk' & s' & E & K' & Q & El & _). rewrite (El eq_refl) in K'. by exists s'. Qed.

(** ** Promises that have expired *)

(** The block of 128 seconds in which the promises of a queue expire, when those
    before [first] are gone. *)
Definition expiry (first q : Z) : Z := first + (TNorm first q - TIndex first).
Definition expired (first cbnow : Z) (p : promise) : Prop := expiry first (p_queue p) <= cbnow.
#[export] Instance expired_dec first cbnow p : Decision (expired first cbnow p).
Proof. unfold expired. apply _. Defined.

Definition in_queue (t : Z) (p : promise) : Prop := p_queue p = t.
#[export] Instance in_queue_dec t p : Decision (in_queue t p).
Proof. unfold in_queue. apply _. Defined.

#[export] Instance promise_eq_dec : EqDecision promise.
Proof. solve_decision. Defined.

Lemma TIndex_mod t : TIndex t = t mod 128 + 1.
Proof. unfold TIndex. by rewrite (Z.land_ones t 7 ltac:(lia) : Z.land t 127 = _). Qed.

Lemma TIndex_queue t : in_queues (TIndex t) = true.
Proof. rewrite TIndex_mod. pose proof (Z.mod_pos_bound t 128). unfold in_queues, CB_NUM_TIMEOUT_QUEUES. lia. Qed.

Lemma in_queues_range q : in_queues q = true -> 1 <= q <= 128.
Proof. unfold in_queues, CB_NUM_TIMEOUT_QUEUES. lia. Qed.

(** It is the first block with that index. *)
Lemma expiry_spec first q : 1 <= q <= 128 -> first <= expiry first q < first + 128 /\ TIndex (expiry first q) = q.
Proof.
  intros Hq. unfold expiry, TNorm. rewrite !TIndex_mod. pose proof (Z.mod_pos_bound first 128).
  destruct (Z.ltb_spec q (first mod 128 + 1)); split; [lia | | lia |].
  - pose proof (Z.div_mod first 128). rewrite <- (Z.mod_unique_pos _ 128 (first / 128 + 1) (q - 1)); lia.
  - pose proof (Z.div_mod first 128). rewrite <- (Z.mod_unique_pos _ 128 (first / 128) (q - 1)); lia.
Qed.

Lemma expiry_unique first t : first <= t < first + 128 -> expiry first (TIndex t) = t.
Proof.
  intros Ht. destruct (expiry_spec first (TIndex t)) as [H1 H2]; [apply in_queues_range, TIndex_queue |].
  set (e := expiry first (TIndex t)) in *. clearbody e. rewrite !TIndex_mod in H2.
  pose proof (Z.div_mod e 128). pose proof (Z.div_mod t 128). nia.
Qed.

(** One block later. *)
Lemma expiry_step first q : 1 <= q <= 128 -> q <> TIndex first -> expiry (first + 1) q = expiry first q.
Proof.
  intros Hq Hne. destruct (expiry_spec first q Hq) as [H1 H2]. rewrite <- H2 at 1. apply expiry_unique.
  assert (expiry first q <> first) by (intros E; rewrite E in H2; by apply Hne). lia.
Qed.

Lemma expired_step first cbnow p : 1 <= p_queue p <= 128 -> first <= cbnow ->
  expired first cbnow p <-> in_queue (TIndex first) p \/ expired (first + 1) cbnow p.
Proof.
  intros Hq Hc. unfold expired, in_queue. destruct (decide (p_queue p = TIndex first)) as [E | E].
  - rewrite E. rewrite expiry_unique by lia. naive_solver.
  - rewrite (expiry_step first) by done. naive_solver.
Qed.

Lemma queue_range s P E c p : tables_keep s P E -> P !! c = Some p -> 1 <= p_queue p <= 128.
Proof.
  intros K Hp. rewrite (tk_promise _ _ _ K c p Hp). apply in_queues_range. destruct (tk_timed _ _ _ K) as (L & _ & H).
  apply elem_of_dom_2 in Hp. by apply H in Hp as (_ & _ & ?).
Qed.

Lemma expire_ring_ok t first l : in_queues t = true -> forall c s P E fuel, kept s P E -> hosted s (dom P) -> queue s t = first ->
  segment (cbf tnext s) (cbf tprev s) c l first -> (forall x, x ∈ c :: l -> x ∈ dom P) -> NoDup (c :: l) -> first ∉ l -> (length l < fuel)%nat ->
  exists s' E', expire_ring t c fuel s = Some (tt, s') /\ kept s' (drop_all (c :: l) P) E' /\ hosted s' (dom (drop_all (c :: l) P))
    /\ quiet s' = quiet s /\ (forall C L, timed_by s C L -> timed_by s' C L).
Proof.
  intros Ht. induction l as [| d l IH]; intros c s P E fuel K [L T] Eq HS Hin HN Hfi Hfu; cbn [length] in Hfu; (destruct fuel as [| fuel]; [lia |]);
    assert (Hc : c ∈ dom P) by (apply Hin; left); pose proof (tb_used _ _ _ (kp_tables _ _ _ K) c Hc) as Hcb; cbn [expire_ring];
    rewrite (bind_ok _ _ _ _ _ (get_cb_ok s c Hcb)); change (tnext (cbf id s c)) with (cbf tnext s c);
    (destruct (HDel_ok s _ c (ex_intro _ L T) Hc) as (s1 & E1 & (L1 & T1) & U1)); rewrite (bind_ok _ _ _ _ _ E1);
    (destruct (kept_CDel s1 P E c) as (s2 & E2 & E3 & K2 & U2 & _); [by apply (kept_unhosted s) | done |]); rewrite (bind_ok _ _ _ _ _ E3);
    destruct (unfiled_drop s1 s2 c U2) as (Q & _ & XT & XH & X);
    (assert (Q' : quiet s2 = quiet s) by (by rewrite Q, (unhosted_quiet s s1 U1)));
    (assert (Eq2 : queue s2 t = first) by (unfold queue; rewrite (f_equal timeout U2 : timeout s2 = timeout s1), (f_equal timeout U1 : timeout s1 = timeout s); exact Eq));
    (assert (XH' : forall C L, timed_by s C L -> timed_by s2 C L) by (intros C L' H; apply XT; by apply (unhosted_timed s)));
    (assert (T2 : hosted s2 (dom (delete c P))) by (rewrite dom_delete_L; exists L1; by apply XH)); cbn [segment] in HS;
    rewrite (bind_ok _ _ _ _ _ (get_queue_ok s2 t Ht)), Eq2.
  - destruct HS as [-> _]. rewrite Z.eqb_refl. exists s2, E2. rewrite <- drop_all_cons, drop_all_nil. done.
  - destruct HS as (-> & _ & HS). apply NoDup_cons in HN as [Hcd HN].
    rewrite (proj2 (Z.eqb_neq d first)) by (intros ->; apply Hfi; left).
    destruct (IH d s2 (delete c P) E2 fuel K2 T2) as (s' & E' & E4 & K' & T' & Q2 & XH2).
    + done.
    + apply (segment_frame (cbf tnext s) (cbf tprev s)); [done | | |];
        intros; rewrite (X _ _) by done; by rewrite (unhosted_cb _ s s1 _ U1).
    + intros x Hx. rewrite dom_delete_L. apply elem_of_difference. split; [apply Hin; by right |]. intros ->%elem_of_singleton. done.
    + done.
    + intros H. apply Hfi. by right.
    + lia.
    + exists s', E'. rewrite drop_all_cons in K', T'. rewrite Q2, Q'. split; [done |]. split; [done | split; [done | split; [done |]]].
      intros C L' H. apply XH2. by apply XH'.
Qed.

Lemma queue_set s t v i : queue (with_timeout <[t := v]> s) i = if decide (i = t) then v else queue s i.
Proof.
  unfold queue. cbn [timeout with_timeout]. case_decide as E; [subst i; by rewrite lookup_insert_eq | by rewrite lookup_insert_ne].
Qed.

Lemma timed_drop s C L t : timed_by s C L -> in_queues t = true -> timed (with_timeout <[t := 0]> s) (C ∖ list_to_set (L t)).
Proof.
  intros [R Hd] Ht. eexists. split.
  - apply (rings_drop _ _ _ _ _ _ _ (queue (with_timeout <[t := 0]> s)) _ _ _ t R Ht); [done |]. intros i _. apply queue_set.
  - intros c [Hc _]%elem_of_difference. by apply Hd.
Qed.

Lemma queue_members s P E L t c p : tables_keep s P E -> timed_by s (dom P) L -> in_queues t = true -> P !! c = Some p -> c ∈ L t <-> in_queue t p.
Proof.
  intros K [R _] Hh Hp. rewrite (rg_elem _ _ _ _ _ _ _ R t c Hh), (tk_promise _ _ _ K c p Hp). apply elem_of_dom_2 in Hp.
  unfold in_queue. cbn. naive_solver.
Qed.

(** One queue. *)
Lemma expire_queue_keeps s P t : keeps s P -> in_queues t = true -> exists s',
  (if negb (queue s t =? 0) then expire_ring t (queue s t) (fuel_of s) ;; set_queue t 0 else ret tt) s = Some (tt, s')
  /\ keeps s' (without (in_queue t) P) /\ quiet s' = quiet s /\ negb (queue s t =? 0) = bool_decide (without (in_queue t) P <> P).
Proof.
  intros (E & K) Ht. destruct (tk_timed _ _ _ K) as (L & H). pose proof H as [R Hd].
  assert (H0 : 0 ∉ dom P) by (intros H0; by apply Hd in H0 as [? _]).
  pose proof (rings_empty _ _ _ _ _ _ _ t R Ht H0) as He. pose proof (queue_members s P E L t) as HM.
  pose proof (rg_ring _ _ _ _ _ _ _ R t Ht) as Hr. pose proof (rg_nodup _ _ _ _ _ _ _ R t Ht) as HN.
  pose proof (rg_elem _ _ _ _ _ _ _ R t) as Hel. destruct (L t) as [| c l] eqn:EL.
  - rewrite (proj2 He eq_refl). assert (W : without (in_queue t) P = P).
    { apply without_none. intros d p Hp Hq. apply (HM d p K H Ht Hp) in Hq. by apply not_elem_of_nil in Hq. }
    exists s. rewrite W. split; [done | split; [by exists E | split; [done |]]]. by rewrite bool_decide_eq_false_2 by naive_solver.
  - destruct Hr as [Eh Hs]. rewrite Eh. assert (Hc : c ∈ dom P) by (apply (Hel c Ht); left).
    rewrite (proj2 (Z.eqb_neq c 0)) by by intros ->. cbn [negb]. pose proof (tk_tables _ _ _ K) as T.
    destruct (expire_ring_ok t c l Ht c s P E (fuel_of s) (proj1 K) (tk_hosted _ _ _ K) Eh Hs) as (s1 & E1 & Er & K1 & T1 & Q1 & X1).
    + intros x Hx. by apply (Hel x Ht).
    + done.
    + by apply NoDup_cons in HN as [? _].
    + assert (Hlen : (length (c :: l) <= Z.to_nat (nblks s))%nat).
      { apply nodup_bounded; [done |]. intros x Hx. apply (tb_cb _ _ _ T), (tb_used _ _ _ T). by apply (Hel x Ht). }
      unfold fuel_of. cbn [length] in Hlen. lia.
    + rewrite (bind_ok _ _ _ _ _ Er), (set_queue_ok s1 t 0 Ht). set (s2 := with_timeout <[t := 0]> s1). exists s2.
      assert (U2 : untimed s2 = untimed s1) by done. split; [done |].
      assert (W : drop_all (c :: l) P = without (in_queue t) P) by (apply drop_all_without; intros d p Hp; by apply HM).
      rewrite <- W. split; [exists E1; split; [by apply (kept_untimed s1) | split] | split; [done |]].
      * rewrite dom_drop_all, <- EL. apply timed_drop; [by apply X1 | done].
      * destruct T1 as [L1 T1]. exists L1. by apply (untimed_hosted s1 s2).
      * rewrite bool_decide_eq_true_2; [done |]. intros Eq. apply elem_of_dom in Hc as [p Hc]. rewrite <- Eq in Hc.
        apply drop_all_lookup in Hc as [_ Hc]. apply Hc. left.
Qed.

(** The tables do not depend on the rest of the state. *)
Definition shelves (s : cbstate) := (FE s, CB s, HashTable s, timeout s, FEfree s, CBfree s, nblks s, cblist <$> hosts s).

Lemma shelves_cb {A} (g : CallBack -> A) s s' x : shelves s' = shelves s -> cbf g s' x = cbf g s x.
Proof. unfold shelves, cbf. by intros [= _ -> _ _ _ _ _ _]. Qed.

Lemma tables_shelves s s' P E : shelves s' = shelves s -> tables_keep s P E -> tables_keep s' P E.
Proof.
  intros Q ([T (FL & BL & F) H1 H2] & (L1 & Ti) & (L2 & Ho)). pose proof (fun A g x => shelves_cb (A := A) g s s' x Q) as X.
  injection Q as Ef Ec Eh Et Ee Eb En El.
  assert (I : forall x, is_cb s' x <-> is_cb s x) by (intros x; unfold is_cb; by rewrite Ec).
  assert (J : forall x, is_fe s' x <-> is_fe s x) by (intros x; unfold is_fe; by rewrite Ef).
  split; [split | split].
  - by apply (tables_frame s).
  - exists FL, BL. apply (filed_frame s); [done | done | done |]. intros x. by rewrite !X.
  - intros c p Hp. rewrite (H1 c p Hp). symmetry. apply promise_frame; [intros x; by rewrite !X |]. intros f. by rewrite !(fef_same _ s s' f Ef).
  - intros f Hf. setoid_rewrite X. by apply H2.
  - exists L1. apply (timed_frame s); [done | done | | done]. intros x _. by rewrite !X.
  - exists L2. apply (hosted_frame s); [done | done | | done]. intros x _. by rewrite !X.
Qed.

Lemma keeps_shelves s s' P : shelves s' = shelves s -> keeps s P -> keeps s' P.
Proof. intros Q (E & K). exists E. by apply (tables_shelves s). Qed.

Lemma without_twice Q1 Q2 Q3 `{forall p, Decision (Q1 p)} `{forall p, Decision (Q2 p)} `{forall p, Decision (Q3 p)} P :
  (forall c p, P !! c = Some p -> Q3 p <-> Q1 p \/ Q2 p) -> without Q2 (without Q1 P) = without Q3 P.
Proof.
  intros HQ. apply map_eq. intros c. apply option_eq. intros p. rewrite !without_lookup.
  split; [intros [[Hp H2] H3]; split; [done |]; rewrite (HQ c p Hp); naive_solver | intros [Hp H2]; rewrite (HQ c p Hp) in H2; naive_solver].
Qed.

Lemma without_shrinks Q1 Q2 `{forall p, Decision (Q1 p)} `{forall p, Decision (Q2 p)} P :
  bool_decide (without Q1 P <> P) || bool_decide (without Q2 (without Q1 P) <> without Q1 P) = bool_decide (without Q2 (without Q1 P) <> P).
Proof.
  destruct (decide (without Q1 P = P)) as [E | E].
  - rewrite E. by rewrite (bool_decide_eq_false_2 (P <> P)) by naive_solver.
  - rewrite (bool_decide_eq_true_2 (without Q1 P <> P)) by done. symmetry. apply bool_decide_eq_true_2. intros E2. apply E.
    apply map_eq. intros c. apply option_eq. intros p. rewrite without_lookup. split; [naive_solver |]. intros Hp. rewrite <- E2 in Hp.
    apply without_lookup in Hp as [Hp _]. by apply without_lookup in Hp.
Qed.

Lemma expire_queues_keeps n : forall s P cbnow found fuel, keeps s P -> Z.to_nat (cbnow - tfirst s + 1) = n -> (n <= fuel)%nat -> exists s',
  expire_queues cbnow found fuel s = Some (found || bool_decide (without (expired (tfirst s) cbnow) P <> P), s')
  /\ keeps s' (without (expired (tfirst s) cbnow) P) /\ quiet s' = quiet (with_tfirst (Z.max (tfirst s) (cbnow + 1)) s).
Proof.
  induction n as [| n IH]; intros s P cbnow found fuel K En Hfu.
  - assert (W : without (expired (tfirst s) cbnow) P = P).
    { apply without_none. intros c p Hp. destruct K as [E K]. pose proof (expiry_spec (tfirst s) _ (queue_range s P E c p K Hp)).
      unfold expired. lia. }
    exists s. rewrite W, bool_decide_eq_false_2, orb_false_r by naive_solver. split; [| split; [done |]].
    + destruct fuel; cbn [expire_queues]; unfold gets, mbind_; rewrite (proj2 (Z.ltb_lt cbnow (tfirst s))) by lia; done.
    + rewrite Z.max_l by lia. done.
  - destruct fuel as [| fuel]; [lia |]. cbn [expire_queues]. rewrite (bind_ok _ _ s (tfirst s) s) by done.
    rewrite (proj2 (Z.ltb_ge cbnow (tfirst s))) by lia. set (t := tfirst s).
    rewrite (bind_ok _ _ _ _ _ (get_queue_ok s (TIndex t) (TIndex_queue t))), (bind_ok _ _ s (fuel_of s) s) by done.
    destruct (expire_queue_keeps s P (TIndex t) K (TIndex_queue t)) as (s1 & E1 & K1 & Q1 & B1). rewrite (bind_ok _ _ _ _ _ E1).
    set (s2 := with_tfirst (t + 1) s1). rewrite (bind_ok _ _ s1 tt s2) by done.
    destruct (IH s2 (without (in_queue (TIndex t)) P) cbnow (found || negb (queue s (TIndex t) =? 0)) fuel) as (s' & E' & K' & Q').
    + by apply (keeps_shelves s1).
    + cbn. lia.
    + lia.
    + assert (W : without (expired (tfirst s2) cbnow) (without (in_queue (TIndex t)) P) = without (expired t cbnow) P).
      { apply without_twice. intros c p Hp. destruct K as [E K]. apply expired_step; [by apply (queue_range s P E c) | lia]. }
      exists s'. rewrite E', B1, <- orb_assoc, without_shrinks. rewrite W in *. split; [done | split; [done |]]. rewrite Q'.
      change (quiet (with_tfirst (Z.max (t + 1) (cbnow + 1)) s2)) with (quiet (with_tfirst (Z.max (t + 1) (cbnow + 1)) s1)).
      replace (Z.max t (cbnow + 1)) with (Z.max (t + 1) (cbnow + 1)) by lia. unfold quiet in *. cbn. injection Q1 as _ -> -> -> -> -> ->. done.
Qed.

(** CleanupTimedOutCallBacks_r takes back the promises that have expired, and
    tells whether there were any. *)
Lemma Cleanup_keeps s P : keeps s P -> exists s', let Q := expired (tfirst s) (CBtime (now s)) in
  CleanupTimedOutCallBacks_r s = Some (bool_decide (without Q P <> P), s') /\ keeps s' (without Q P)
  /\ quiet s' = quiet (with_tfirst (Z.max (tfirst s) (CBtime (now s) + 1)) s).
Proof.
  intros K. unfold CleanupTimedOutCallBacks_r. rewrite (bind_ok _ _ s (now s) s), (bind_ok _ _ s (tfirst s) s) by done.
  exact (expire_queues_keeps _ s P (CBtime (now s)) false _ K eq_refl (le_n _)).
Qed.
End leaks.
