(* ===== verification/CallbackAdd.v ===== *)
(** Adding a promise: AddCallBack1_r, as an operation on the map of the
    promises. *)
From S2P Require Import Prelude Rings Monad Callback CallbackSpec CallbackFiles CallbackOps.

#[local] Open Scope monad_scope.

Section leaks.
Context {lk : Leaked}.

(** ** Free entries *)

Lemma free_fe s P E : kept s P E -> Z.of_nat (size P + size leaked) < nblks s -> FEfree s <> [].
Proof.
  intros K Hr Hf. pose proof (kp_tables _ _ _ K) as T. destruct (tb_fefree _ _ _ T) as [_ H2]. rewrite Hf in H2.
  assert (L : seqZ 1 (nblks s) ⊆+ (cbf fhead s <$> elements (dom P)) ++ elements leaked).
  { apply NoDup_submseteq; [apply NoDup_seqZ |]. intros f Hin%elem_of_seqZ.
    assert (HE : f ∈ E).
    { destruct (decide (f ∈ E)) as [| Hn]; [done |]. exfalso. apply (not_elem_of_nil f). apply H2. split; [| done]. apply (tb_fe _ _ _ T). lia. }
    apply elem_of_app. destruct (decide (f ∈ leaked)) as [Hl | Hl]; [right; by apply elem_of_elements | left].
    destruct (kp_full _ _ _ K f HE Hl) as (c & Hc' & <-). apply list_elem_of_fmap_2. by apply elem_of_elements. }
  apply submseteq_length in L. rewrite length_seqZ, length_app, length_fmap in L.
  change (length (elements (dom P))) with (size (dom P)) in L. change (length (elements leaked)) with (size leaked) in L. rewrite size_dom in L. lia.
Qed.

(** ** A new callback of a host in the list of a file *)

Section add_new.
Context (s : cbstate) (C E : gset Z) (FL BL : Z -> list Z) (f c h t type : Z).
Context (B : bounds s C E) (F : files s C E FL BL) (Ti : timed s C) (Ho : hosted s C).
Context (Hf : f ∈ E) (Hc : c ∉ C) (Hc0 : c <> 0) (Hcb : is_cb s c) (Hh : known s h) (Ht : in_queues t = true).
Context (Hno : forall d, d ∈ C -> cbf fhead s d = f -> cbf hhead s d <> h).

Definition add_cb : SM cbstate unit :=
  write_link (place (First f) (FL f)) c ;;
  mod_fe f (fun e => set_ncbs (u32 (ncbs e + 1)) e) ;;
  mod_cb c (fun c => set_status type (set_fhead f (set_cnext 0 c))) ;;
  HAdd c h ;; TAdd c t.

Lemma add_new : exists s', add_cb s = Some (tt, s') /\ bounds s' ({[c]} ∪ C) E
  /\ files s' ({[c]} ∪ C) E (fun g => if decide (g = f) then FL f ++ [c] else FL g) BL
  /\ timed s' ({[c]} ∪ C) /\ hosted s' ({[c]} ∪ C) /\ quiet s' = quiet s /\ CBfree s' = CBfree s /\ FEfree s' = FEfree s
  /\ (forall x, is_cb s' x <-> is_cb s x) /\ (forall x, is_fe s' x <-> is_fe s x)
  /\ (forall x, x <> c -> promise_at s' x = promise_at s x) /\ promise_at s' c = Promise (fef fe_fid s f) (later s f) h type t
  /\ forall x, cbf fhead s' x = if decide (x = c) then f else cbf fhead s x.
Proof.
  unfold add_cb. destruct (write_place s C E FL BL f (FL f) [] c B F Hf) as (s1 & E1 & K1 & K2 & K3 & K4 & I1 & J1 & U1 & Hh1 & Hfr); [by rewrite app_nil_r |].
  rewrite (bind_ok _ _ _ _ _ E1). pose proof (bd_files _ _ _ B f Hf) as Hfe. assert (Hfe1 : is_fe s1 f) by by apply J1.
  rewrite (bind_ok _ _ _ _ _ (mod_fe_ok s1 f _ Hfe1)). set (gf := fun e => set_ncbs (u32 (ncbs e + 1)) e). set (s2 := with_FE (alter gf f) s1).
  assert (Hcb2 : is_cb s2 c) by by apply (I1 c). rewrite (bind_ok _ _ _ _ _ (mod_cb_ok s2 c _ Hcb2)).
  set (gc := fun c => set_status type (set_fhead f (set_cnext 0 c))). set (s3 := with_CB (alter gc c) s2).
  assert (I3 : forall x, is_cb s3 x <-> is_cb s x) by (intros x; unfold s3; rewrite is_cb_alter; apply I1).
  assert (T3 : timed s3 C).
  { destruct Ti as [L T]. exists L. apply (timed_frame s); [done | done | | exact (f_equal timeout U1)].
    intros x _. unfold s3. rewrite !cbf_keep by done. change (cbf ?g s2 x) with (cbf g s1 x). by rewrite !K1. }
  assert (O3 : hosted s3 C).
  { destruct Ho as [L T]. exists L. apply (hosted_frame s); [done | done | | exact (f_equal (fun q => cblist <$> hosts q) U1)].
    intros x _. unfold s3. rewrite !cbf_keep by done. change (cbf ?g s2 x) with (cbf g s1 x). by rewrite !K1. }
  destruct (HAdd_ok s3 C c h O3 Hc Hc0) as (s4 & E4 & O4 & U4); [by apply I3 | |].
  { unfold known. by rewrite (f_equal hosts U1 : hosts s3 = hosts s). }
  rewrite (bind_ok _ _ _ _ _ E4). assert (I4 : forall x, is_cb s4 x <-> is_cb s x).
  { intros x. rewrite (unhosted_is _ s4 x U4), is_cb_alter. apply I3. }
  assert (T4 : timed s4 C).
  { destruct T3 as [L T3]. exists L. apply (unhosted_timed (with_CB (alter (set_hhead h) c) s3)); [done |].
    apply (timed_frame s3); [done | intros; apply is_cb_alter | | done]. intros x _. by rewrite !cbf_keep. }
  destruct (TAdd_ok s4 C c t T4 Hc Hc0) as (s5 & E5 & T5 & U5); [by apply I4 | done |]. exists s5.
  assert (I5 : forall x, is_cb s5 x <-> is_cb s x) by (intros x; rewrite (untimed_is _ s5 x U5), is_cb_alter; apply I4).
  assert (Ff5 : FE s5 = FE s2) by (transitivity (FE s4); [exact (f_equal FE U5) | exact (f_equal FE U4)]).
  assert (J5 : forall x, is_fe s5 x <-> is_fe s x) by (intros x; unfold is_fe at 1; rewrite Ff5; change (is_fe s2 x <-> is_fe s x); unfold s2; rewrite is_fe_alter; apply J1).
  assert (X : forall A (g : CallBack -> A) x, (forall e, g (set_tprev 0 (set_tnext 0 e)) = g e) -> (forall e, g (set_thead t e) = g e) ->
    (forall e, g (set_hprev 0 (set_hnext 0 e)) = g e) -> cbf g s5 x = cbf g (with_CB (alter (set_hhead h) c) s3) x).
  { intros A g x G1 G2 G3. rewrite (untimed_cb g _ s5 x U5 G1), cbf_keep by done. by rewrite (unhosted_cb g _ s4 x U4 G3). }
  assert (Xf : forall x, cbf fhead s5 x = if decide (x = c) then f else cbf fhead s x).
  { intros x. rewrite X, cbf_keep by done. unfold s3. rewrite cbf_alter by done. case_decide; [done |]. change (cbf fhead s2 x) with (cbf fhead s1 x). by rewrite K1. }
  assert (Xn : forall x, cbf cnext s5 x = if decide (x = c) then 0 else if decide (last (FL f) = Some x) then c else cbf cnext s x).
  { intros x. rewrite X, cbf_keep by done. unfold s3. rewrite cbf_alter by done. case_decide; [done |]. apply K2. }
  assert (Xh : forall x, cbf hhead s5 x = if decide (x = c) then h else cbf hhead s x).
  { intros x. rewrite X, cbf_alter by (done || by apply I3). case_decide; [done |]. unfold s3. rewrite cbf_keep by done.
    change (cbf hhead s2 x) with (cbf hhead s1 x). by rewrite K1. }
  assert (Xs : forall x, cbf status s5 x = if decide (x = c) then type else cbf status s x).
  { intros x. rewrite X, cbf_keep by done. unfold s3. rewrite cbf_alter by done. case_decide; [done |]. change (cbf status s2 x) with (cbf status s1 x). by rewrite K1. }
  assert (Xt : forall x, cbf thead s5 x = if decide (x = c) then t else cbf thead s x).
  { intros x. rewrite (untimed_cb thead _ s5 x U5), cbf_alter by (done || by apply I4). case_decide; [done |].
    rewrite (unhosted_cb thead _ s4 x U4), cbf_keep by done. unfold s3. rewrite cbf_keep by done. change (cbf thead s2 x) with (cbf thead s1 x). by rewrite K1. }
  assert (Y : forall A (g : FileEntry -> A) x, (forall e v w, g (set_firstcb v e) = g e /\ g (set_ncbs w e) = g e) -> fef g s5 x = fef g s x).
  { intros A g x G. rewrite (fef_same g s2 s5 x Ff5). unfold s2. rewrite fef_keep by (intros e; apply (G e 0)). apply K3. intros e. by apply (G e). }
  assert (Hne : forall x, x ∈ C -> x <> c) by (intros x Hx ->; done).
  split; [done |]. split; [| split; [| split; [done | split; [| split; [| split; [| split; [| split; [done | split; [done |]]]]]]]]].
  - apply (bounds_more s s5 C _ E); [done | | done | done | | apply (bd_files _ _ _ B)].
    + transitivity (nblks s4); [exact (f_equal nblks U5) |]. transitivity (nblks s3); [exact (f_equal nblks U4) | exact (f_equal nblks U1)].
    + intros x [-> %elem_of_singleton | Hx]%elem_of_union; [done | by apply (bd_used _ _ _ B)].
  - split.
    + apply (lists_with s); [apply F | done | done | | by rewrite Xf, decide_True | by rewrite Xn, decide_True | |].
      * intros x Hx. rewrite Xf, Xn, Xh, !decide_False by by apply Hne. done.
      * rewrite Xh, decide_True by done. exact Hno.
      * intros g. rewrite !(fef_same _ s2 s5 g Ff5). unfold s2. rewrite (fef_keep firstcb) by done. split; [| apply K4].
        rewrite fef_alter by done. case_decide as Eg; [| by apply K3].
        change (ncbs (gf (fef id s1 f))) with (u32 (fef ncbs s1 f + 1)). rewrite (K3 _ ncbs) by done.
        rewrite (ls_count _ _ _ _ (proj1 F)) by done. pose proof (list_short s C E FL BL B F f Hf). pose proof (bd_size _ _ _ B).
        rewrite u32_small by lia. done.
    + apply (buckets_frame s); [apply F | |].
      * intros g. unfold later. by rewrite !Y.
      * intros i. unfold bucket. rewrite (f_equal HashTable U5 : HashTable s5 = HashTable s4), (f_equal HashTable U4 : HashTable s4 = HashTable s1). by rewrite Hh1.
  - destruct O4 as [L O4]. exists L. apply (hosted_frame s4); [done | | |].
    + intros x. by rewrite I5, I4.
    + intros x _. by rewrite !(untimed_cb _ _ s5 x U5), !cbf_keep.
    + exact (f_equal (fun q => cblist <$> hosts q) U5).
  - transitivity (quiet s4); [exact (untimed_quiet _ s5 U5) |]. transitivity (quiet s3); [exact (unhosted_quiet _ s4 U4) | exact (unfiled_quiet _ s1 U1)].
  - transitivity (CBfree s4); [exact (f_equal CBfree U5) |]. transitivity (CBfree s3); [exact (f_equal CBfree U4) | exact (f_equal CBfree U1)].
  - transitivity (FEfree s4); [exact (f_equal FEfree U5) |]. transitivity (FEfree s3); [exact (f_equal FEfree U4) | exact Hfr].
  - split; [| split; [| done]].
    + intros x Hx. unfold promise_at, later. rewrite Xf, Xh, Xs, Xt, !decide_False by done. by rewrite !Y.
    + unfold promise_at, later. rewrite Xf, Xh, Xs, Xt, !decide_True by done. by rewrite !Y.
Qed.
End add_new.

(** ** A promise made again *)

Definition renewed_status (type old : Z) : Z := if old =? CB_DELAYED then old else type.
Definition renewed_queue (first q old : Z) : Z := if TNorm first old <? TNorm first q then q else old.

Lemma renew_ok s C E FL BL x q type first : files s C E FL BL -> timed s C -> hosted s C -> x ∈ C -> in_queues q = true ->
  exists sA s',
  (if negb (cbf status s x =? CB_DELAYED) then mod_cb x (set_status type) else ret tt) s = Some (tt, sA)
  /\ (if TNorm first (cbf thead s x) <? TNorm first q then TDel x ;; TAdd x q else ret tt) sA = Some (tt, s')
  /\ tfirst sA = tfirst s /\ files s' C E FL BL /\ timed s' C /\ hosted s' C /\ quiet s' = quiet s /\ CBfree s' = CBfree s /\ FEfree s' = FEfree s
  /\ (forall y, is_cb s' y <-> is_cb s y) /\ (forall y, is_fe s' y <-> is_fe s y) /\ (forall y, cbf fhead s' y = cbf fhead s y)
  /\ (forall y, y <> x -> promise_at s' y = promise_at s y)
  /\ promise_at s' x = Promise (fef fe_fid s (cbf fhead s x)) (later s (cbf fhead s x)) (cbf hhead s x)
       (renewed_status type (cbf status s x)) (renewed_queue first q (cbf thead s x)).
Proof.
  intros F [L T] [L' H] Hx Hq. assert (Hcb : is_cb s x) by (by apply T).
  set (sA := if negb (cbf status s x =? CB_DELAYED) then with_CB (alter (set_status type) x) s else s). exists sA.
  assert (KA : forall A (g : CallBack -> A) y, (forall v e, g (set_status v e) = g e) -> cbf g sA y = cbf g s y).
  { intros A g y G. unfold sA. destruct (negb _); [by apply cbf_keep | done]. }
  assert (SA : forall y, cbf status sA y = if decide (y = x) then renewed_status type (cbf status s x) else cbf status s y).
  { intros y. unfold sA, renewed_status. destruct (cbf status s x =? CB_DELAYED); cbn [negb]; [case_decide; by subst |]. by rewrite cbf_alter. }
  assert (IA : forall y, is_cb sA y <-> is_cb s y) by (intros y; unfold sA; destruct (negb _); [apply is_cb_alter | done]).
  assert (RA : FE sA = FE s /\ HashTable sA = HashTable s /\ timeout sA = timeout s /\ hosts sA = hosts s /\ quiet sA = quiet s
    /\ CBfree sA = CBfree s /\ FEfree sA = FEfree s /\ tfirst sA = tfirst s) by (unfold sA; by destruct (negb _)).
  destruct RA as (R1 & R2 & R3 & R4 & R5 & R6 & R7 & R8).
  assert (TA : timed sA C) by (exists L; apply (timed_frame s); [done | done | intros y _; by rewrite !KA | done]).
  assert (HA : hosted_by sA C L') by (apply (hosted_frame s); [done | done | intros y _; by rewrite !KA | by rewrite R4]).
  assert (FA : files sA C E FL BL) by (apply (filed_frame s); [done | done | done | intros y; by rewrite !KA]).
  set (b := TNorm first (cbf thead s x) <? TNorm first q).
  assert (HB : exists s', (if b then TDel x ;; TAdd x q else ret tt) sA = Some (tt, s') /\ timed s' C
    /\ untimed s' = untimed (if b then with_CB (alter (set_thead q) x) sA else sA)).
  { destruct b; [| by exists sA]. destruct (TDel_ok sA C x TA Hx) as (sB & EB & TB & UB). rewrite (bind_ok _ _ _ _ _ EB).
    destruct (TAdd_ok sB (C ∖ {[x]}) x q TB) as (s' & E' & T' & U'); [set_solver | by apply T | | done |].
    { rewrite (untimed_is sA sB x UB). by apply IA. }
    exists s'. split; [done |]. replace C with ({[x]} ∪ C ∖ {[x]}).
    2:{ apply set_eq. intros y. destruct (decide (y = x)); set_solver. }
    split; [done |]. by rewrite U', !untimed_commute, UB. }
  destruct HB as (s' & E' & T' & U'). exists s'. split.
  { unfold sA. destruct (negb _); [by apply mod_cb_ok | done]. }
  set (sC := if b then with_CB (alter (set_thead q) x) sA else sA) in *.
  assert (KC : forall A (g : CallBack -> A) y, (forall v e, g (set_thead v e) = g e) -> cbf g sC y = cbf g sA y).
  { intros A g y G. unfold sC. destruct b; [by apply cbf_keep | done]. }
  assert (SC : forall y, cbf thead sC y = if decide (y = x) then renewed_queue first q (cbf thead s x) else cbf thead s y).
  { intros y. unfold sC, renewed_queue. fold b. destruct b; [| rewrite KA by done; case_decide; by subst].
    rewrite cbf_alter by by apply IA. case_decide; [done |]. by apply KA. }
  assert (IC : forall y, is_cb sC y <-> is_cb s y) by (intros y; rewrite <- IA; unfold sC; destruct b; [apply is_cb_alter | done]).
  assert (RC : FE sC = FE sA /\ HashTable sC = HashTable sA /\ hosts sC = hosts sA /\ quiet sC = quiet sA
    /\ CBfree sC = CBfree sA /\ FEfree sC = FEfree sA) by (unfold sC; by destruct b).
  destruct RC as (C1 & C2 & C4 & C5 & C6 & C7).
  assert (FF : FE s' = FE s) by (rewrite <- R1, <- C1; exact (f_equal FE U')).
  assert (XF : forall A (g : FileEntry -> A) y, fef g s' y = fef g s y) by (intros; by apply fef_same).
  assert (X : forall y, cbf fhead s' y = cbf fhead s y /\ cbf hhead s' y = cbf hhead s y /\ cbf status s' y = cbf status sA y /\ cbf thead s' y = cbf thead sC y).
  { intros y. rewrite !(untimed_cb _ sC s' y U') by done. rewrite (KC _ fhead), (KC _ hhead), (KC _ status), (KA _ fhead), (KA _ hhead) by done. done. }
  split; [done | split; [done |]]. split; [| split; [done | split; [| split; [| split; [| split; [| split; [| split; [| split; [| split]]]]]]]]].
  - apply (filed_frame s); [done | done | |].
    + rewrite <- R2, <- C2. exact (f_equal HashTable U').
    + intros y. rewrite !(untimed_cb _ sC s' y U') by done. by rewrite !KC, !KA.
  - exists L'. apply (untimed_hosted sC); [done |]. apply (hosted_frame s); [done | done | | by rewrite C4, R4].
    intros y _. by rewrite !KC, !KA.
  - by rewrite (untimed_quiet sC s' U'), C5.
  - rewrite <- R6, <- C6. exact (f_equal CBfree U').
  - rewrite <- R7, <- C7. exact (f_equal FEfree U').
  - intros y. by rewrite (untimed_is sC s' y U').
  - intros y. unfold is_fe. by rewrite FF.
  - intros y. apply X.
  - intros y Hy. unfold promise_at, later. destruct (X y) as (-> & -> & -> & ->). by rewrite SA, SC, !decide_False, !XF by done.
  - unfold promise_at, later. destruct (X x) as (-> & -> & -> & ->). by rewrite SA, SC, !decide_True, !XF by done.
Qed.

(** ** AddCallBack1_r *)

(** How many promises there are of a file, as its entry counts them. *)
Definition count (fid : AFSFid) (P : gmap Z promise) : Z := Z.of_nat (size (filter (fun x => of_file fid x.2) P)).

(** The map with a promise for one more host, or for one that had it: then the
    promise stays delayed when it was, and expires when the later of the two
    does. *)
Inductive added (first h : Z) (fid : AFSFid) (type q : Z) (P : gmap Z promise) : gmap Z promise -> Prop :=
  | added_new c : P !! c = None -> (forall d p, P !! d = Some p -> ~ is_promise h fid p) ->
      added first h fid type q P (<[c := Promise fid false h type q]> P)
  | added_again c p : P !! c = Some p -> is_promise h fid p ->
      added first h fid type q P (<[c := Promise fid false h (renewed_status type (p_status p)) (renewed_queue first q (p_queue p))]> P).

Lemma find_file_in s (P : gmap Z promise) E FL BL fid : bounds s (dom P) E -> files s (dom P) E FL BL -> (forall c p, P !! c = Some p -> p = promise_at s c) ->
  exists f, FindFE fid s = Some (f, s)
  /\ (f = 0 /\ (forall g, g ∈ E -> fef fe_fid s g = fid -> later s g = true) /\ (forall c p, P !! c = Some p -> p_fid p = fid -> p_later p = true)
      \/ f <> 0 /\ f ∈ E /\ fef fe_fid s f = fid /\ later s f = false
         /\ forall c p, P !! c = Some p -> cbf fhead s c = f <-> p_fid p = fid /\ p_later p = false).
Proof.
  intros B F HP.
  assert (HE : forall c p, P !! c = Some p -> cbf fhead s c ∈ E).
  { intros c p Hp. apply (ls_head _ _ _ _ (proj1 F)). by apply elem_of_dom_2 in Hp. }
  destruct (FindFE_ok s _ _ _ _ B F fid) as (f & Ef & Hf). exists f. split; [done |].
  destruct Hf as [[-> Hf] | (Hf & Ei & El)].
  - left. split; [done | split; [done |]]. intros c p Hp. pose proof (HP c p Hp) as ->. apply Hf. by apply (HE c _ Hp).
  - right. split; [by apply (fe_nonzero s _ _ B) |]. do 3 (split; [done |]). intros c p Hp. pose proof (HP c p Hp) as ->. split.
    + intros Ec. cbn. by rewrite Ec.
    + cbn. intros [H1 H2]. apply (bk_fid _ _ _ (proj2 F)); [by apply (HE c _ Hp) | done | by rewrite Ei | done | done].
Qed.

Lemma count_list s (P : gmap Z promise) E FL BL f fid : files s (dom P) E FL BL -> f ∈ E ->
  (forall c p, P !! c = Some p -> cbf fhead s c = f <-> p_fid p = fid /\ p_later p = false) -> Z.of_nat (length (FL f)) = count fid P.
Proof.
  intros F Hf HP. unfold count. f_equal. pose proof (ls_nodup _ _ _ _ (proj1 F) f Hf) as HN.
  rewrite <- (size_list_to_set (C := gset Z)), <- (size_dom (D := gset Z)) by done. f_equal. apply set_eq. intros c.
  rewrite elem_of_list_to_set, (ls_elem _ _ _ _ (proj1 F)), !elem_of_dom by done. unfold is_Some. setoid_rewrite map_lookup_filter_Some. cbn. split.
  - intros [[p Hp] Ec]. exists p. split; [done |]. by apply (HP c p Hp).
  - intros (p & Hp & Hq). split; [by exists p |]. by apply (HP c p Hp).
Qed.

Lemma count_none fid P : (forall c p, P !! c = Some p -> p_fid p = fid -> p_later p = true) -> count fid P = 0.
Proof.
  intros HP. unfold count. replace (filter _ P) with (∅ : gmap Z promise); [done |]. symmetry. apply map_empty. intros c.
  apply map_lookup_filter_None. right. intros p Hp [H1 H2]. cbn in *. specialize (HP c p Hp H1). congruence.
Qed.

(** A free entry, taken. *)
Lemma free_popped (l : list Z) x (C : gset Z) (ok : Z -> Prop) : NoDup (x :: l) -> (forall y, y ∈ x :: l <-> ok y /\ y ∉ C) ->
  NoDup l /\ forall y, y ∈ l <-> ok y /\ y ∉ {[x]} ∪ C.
Proof.
  intros [Hx HN]%NoDup_cons Hl. split; [done |]. intros y. specialize (Hl y). rewrite elem_of_cons in Hl.
  rewrite not_elem_of_union, not_elem_of_singleton. split; [intros Hy | naive_solver].
  destruct (proj1 Hl (or_intror Hy)) as [H1 H2]. split; [done | split; [| done]]. intros ->. done.
Qed.

Lemma fresh_dom (P : gmap Z promise) c p : dom (<[c := p]> P) = {[c]} ∪ dom P.
Proof. apply dom_insert_L. Qed.

(** The promises after a new one. *)
Lemma promises_insert s s' (P : gmap Z promise) c p : (forall d q, P !! d = Some q -> q = promise_at s d) -> p = promise_at s' c ->
  (forall d, d <> c -> promise_at s' d = promise_at s d) -> forall d q, <[c := p]> P !! d = Some q -> q = promise_at s' d.
Proof.
  intros HP Hc Hd d q [[<- <-] | [Hne Hq]]%lookup_insert_Some; [done |]. rewrite Hd by done. by apply HP.
Qed.

Lemma get_entry_first (get : M Z) s s' h space c : get s = Some (c, s') -> c <> 0 -> get_entry get h space s = Some (c, s').
Proof.
  intros E Hc. unfold get_entry. cbn [repeat try_entry]. replace (with_now (now s) s) with s by (by destruct s).
  by rewrite E, (proj2 (Z.eqb_neq c 0) Hc).
Qed.
Lemma get_free_cb s h space c l : CBfree s = c :: l -> c <> 0 -> get_entry iGetCB h space s = Some (c, with_CBfree l s).
Proof. intros E. apply get_entry_first. unfold iGetCB. by rewrite E. Qed.
Lemma get_free_fe s h space c l : FEfree s = c :: l -> c <> 0 -> get_entry iGetFE h space s = Some (c, with_FEfree l s).
Proof. intros E. apply get_entry_first. unfold iGetFE. by rewrite E. Qed.

(** The queue of a promise, and what the client is told. *)
Definition queue_of (type clock n t : Z) : Z := match time_out_of type clock n with Some time => TIndex (CBtime time) | None => t end.
Definition told (type clock n : Z) : Z := match time_out_of type clock n with Some time => u32 (time - ServerBias) | None => 0 end.

(** A type that has a time of its own, or a queue that is given. *)
Definition timed_type (type t : Z) : Prop := type = CB_NORMAL \/ type = CB_VOLUME \/ type = CB_BULK \/ in_queues t = true.

Lemma queue_of_ok type clock n t : timed_type type t -> in_queues (queue_of type clock n t) = true.
Proof.
  unfold queue_of. intros Ht. destruct (time_out_of type clock n) eqn:E; [apply TIndex_queue |].
  destruct Ht as [-> | [-> | [-> | ?]]]; [discriminate | discriminate | discriminate | done].
Qed.

Lemma free_room s P : keeps s P -> Z.of_nat (size P) < nblks s -> CBfree s <> [].
Proof.
  intros (E & K) Hr Hn. pose proof (tk_tables _ _ _ K) as T. destruct (tb_cbfree _ _ _ T) as [_ H1]. rewrite Hn in H1.
  assert (L : seqZ 1 (nblks s) ⊆+ elements (dom P)).
  { apply NoDup_submseteq; [apply NoDup_seqZ |]. intros c Hin%elem_of_seqZ. apply elem_of_elements.
    destruct (decide (c ∈ dom P)) as [| Hd]; [done |]. exfalso. apply (not_elem_of_nil c), H1. split; [| done]. apply (tb_cb _ _ _ T). lia. }
  apply submseteq_length in L. rewrite length_seqZ in L. change (length (elements (dom P))) with (size (dom P)) in L. rewrite size_dom in L. lia.
Qed.

Lemma find_host_ok s C E FL BL f h : bounds s C E -> files s C E FL BL -> f ∈ E -> exists l, find_host f h s = Some (l, s)
  /\ ((exists x, read_link l s = Some (x, s) /\ x ∈ C /\ cbf fhead s x = f /\ cbf hhead s x = h)
      \/ l = place (First f) (FL f) /\ read_link l s = Some (0, s) /\ forall d, d ∈ C -> cbf fhead s d = f -> cbf hhead s d <> h).
Proof.
  intros B F Hf. destruct (find_in_file s C E FL BL B F (fun _ cb => hhead cb =? h) f (S (Z.to_nat (nblks s))) Hf ltac:(lia)) as (l1 & l2 & EL & El & H1 & H2).
  pose proof (read_place s C E FL BL B F f l1 l2 Hf EL) as Hr. exists (place (First f) l1). split; [exact El |].
  destruct l2 as [| x l2].
  - right. rewrite app_nil_r in EL. rewrite EL in *. split; [done | split; [exact Hr |]]. intros d Hd Ed.
    assert (Hin : d ∈ FL f) by (by apply (ls_elem _ _ _ _ (proj1 F))). rewrite EL in Hin. specialize (H1 d Hin). by apply Z.eqb_neq in H1.
  - left. exists x. split; [exact Hr |]. assert (Hin : x ∈ FL f) by (rewrite EL; set_solver).
    apply (ls_elem _ _ _ _ (proj1 F)) in Hin as [Hx Ex]; [| done]. do 2 (split; [done |]). specialize (H2 x eq_refl). by apply Z.eqb_eq in H2.
Qed.

(** The state with both entries taken. *)
Record taken (s0 s : cbstate) (P : gmap Z promise) (E : gset Z) (FL BL : Z -> list Z) (c f : Z) (cl fl : list Z) : Prop := {
  tn_cbfree0 : CBfree s0 = c :: cl;
  tn_fefree0 : FEfree s0 = f :: fl;
  tn_cbfree : CBfree s = cl;
  tn_fefree : FEfree s = fl;
  tn_tables : tables s0 (dom P) E;
  tn_bounds : bounds s (dom P) E;
  tn_files : files s (dom P) E FL BL;
  tn_timed : timed s (dom P);
  tn_hosted : hosted s (dom P);
  tn_promise : forall d p, P !! d = Some p -> p = promise_at s d;
  tn_full : forall g, g ∈ E -> g ∉ leaked -> exists d, d ∈ dom P /\ cbf fhead s d = g;
  tn_quiet : quiet s = quiet s0;
  tn_isc : forall x, is_cb s x <-> is_cb s0 x;
  tn_isf : forall x, is_fe s x <-> is_fe s0 x
}.

Lemma take_ok s P E : tables_keep s P E -> Z.of_nat (size P + size leaked) < nblks s -> exists c f cl fl FL BL,
  taken s (with_FEfree fl (with_CBfree cl s)) P E FL BL c f cl fl
  /\ c ∉ dom P /\ f ∉ E /\ c <> 0 /\ f <> 0 /\ is_cb s c /\ is_fe s f.
Proof.
  intros K Hr. pose proof (free_room s P (ex_intro _ E K) ltac:(lia)) as H1. pose proof (free_fe s P E (proj1 K) Hr) as H2.
  destruct (CBfree s) as [| c cl] eqn:Ec; [done |]. destruct (FEfree s) as [| f fl] eqn:Ef; [done |].
  pose proof (tk_tables _ _ _ K) as T. destruct (tk_filed _ _ _ K) as (FL & BL & F).
  assert (Hc : is_cb s c /\ c ∉ dom P) by (apply (tb_cbfree _ _ _ T); rewrite Ec; left).
  assert (Hf : is_fe s f /\ f ∉ E) by (apply (tb_fefree _ _ _ T); rewrite Ef; left).
  exists c, f, cl, fl, FL, BL. split.
  - split; try done.
    + by destruct (tb_bounds T).
    + by apply (filed_frame s).
    + apply (tk_timed _ _ _ K).
    + apply (tk_hosted _ _ _ K).
    + apply (tk_promise _ _ _ K).
    + apply (tk_full _ _ _ K).
  - destruct Hc as [Hc1 Hc2], Hf as [Hf1 Hf2]. pose proof (proj1 (tb_cb _ _ _ T c) Hc1). pose proof (proj1 (tb_fe _ _ _ T f) Hf1).
    do 2 (split; [done |]). split; [lia | split; [lia | done]].
Qed.

(** The host had a promise. *)
Lemma add_again s0 s P E FL BL c f cl fl fe fid h type q x : taken s0 s P E FL BL c f cl fl -> fe ∈ E -> fef fe_fid s fe = fid -> later s fe = false ->
  x ∈ dom P -> cbf fhead s x = fe -> cbf hhead s x = h -> in_queues q = true -> exists sA s' P',
  (if negb (cbf status s x =? CB_DELAYED) then mod_cb x (set_status type) else ret tt) s = Some (tt, sA)
  /\ (if TNorm (tfirst s0) (cbf thead s x) <? TNorm (tfirst s0) q then TDel x ;; TAdd x q else ret tt) sA = Some (tt, s')
  /\ tfirst sA = tfirst s0
  /\ keeps (with_FEfree (f :: FEfree s') (with_CBfree (c :: CBfree s') s')) P' /\ added (tfirst s0) h fid type q P P' /\ quiet s' = quiet s0.
Proof.
  intros [T1 T2 T3 T4 T B F Ti Ho HP Hfull Q Ic If] Hfe Ei El Hx Ex Eh Hq.
  destruct (renew_ok s _ _ _ _ x q type (tfirst s0) F Ti Ho Hx Hq)
    as (sA & s' & EA & EB & Et & F' & Ti' & Ho' & Q' & Ec & Ef & Ic' & If' & Xf & Hn & Hp).
  apply elem_of_dom in Hx as [p Hx]. pose proof (HP x p Hx) as Hpx.
  set (p' := Promise fid false h (renewed_status type (p_status p)) (renewed_queue (tfirst s0) q (p_queue p))).
  assert (Hp' : p' = promise_at s' x) by (rewrite Hp; unfold p'; rewrite Hpx; cbn; by rewrite Ex, Ei, El, Eh).
  assert (D : dom (<[x := p']> P) = dom P) by (rewrite dom_insert_L; apply elem_of_dom_2 in Hx; set_solver).
  exists sA, s', (<[x := p']> P). split; [done | split; [done |]].
  split; [rewrite Et; exact (f_equal (fun r => r.1.1.1.1.1.1) Q) |]. split; [| split; [| by rewrite Q']].
  - exists E. split; [split | rewrite D; split; [exact Ti' | exact Ho']]; rewrite ?D.
    + split.
      * destruct (bounds_more s s' (dom P) (dom P) E E B (f_equal (fun r => r.1.2) Q') Ic' If' (bd_used _ _ _ B) (bd_files _ _ _ B)) as [G1 G2 G3 G4 G5]. by split.
      * cbn. rewrite Ec, T3, <- T1. destruct (tb_cbfree _ _ _ T) as [N1 N2]. split; [done |]. intros y. rewrite N2.
        change (is_cb (with_FEfree _ (with_CBfree _ s')) y) with (is_cb s' y). by rewrite Ic', Ic.
      * cbn. rewrite Ef, T4, <- T2. destruct (tb_fefree _ _ _ T) as [N1 N2]. split; [done |]. intros y. rewrite N2.
        change (is_fe (with_FEfree _ (with_CBfree _ s')) y) with (is_fe s' y). by rewrite If', If.
    + exists FL, BL. by apply (filed_frame s').
    + exact (promises_insert s s' P x p' HP Hp' Hn).
    + intros g Hg Hl. destruct (Hfull g Hg Hl) as (d & Hd & Ed). exists d. split; [done |]. change (cbf fhead s' d = g). by rewrite Xf.
  - apply added_again; [done |]. rewrite Hpx. split; [done | cbn; by rewrite Ex].
Qed.

(** The host had none. *)
Lemma add_first s (P : gmap Z promise) E FL BL c cl ff fe fid h type q :
  bounds s (dom P) E -> files s (dom P) E FL BL -> timed s (dom P) -> hosted s (dom P) -> (forall d p, P !! d = Some p -> p = promise_at s d) ->
  (forall g, g ∈ E -> g ∉ leaked -> g <> fe -> exists d, d ∈ dom P /\ cbf fhead s d = g) -> CBfree s = cl ->
  (NoDup (c :: cl) /\ forall x, x ∈ c :: cl <-> is_cb s x /\ x ∉ dom P) -> (NoDup ff /\ forall x, x ∈ ff <-> is_fe s x /\ x ∉ E) ->
  c <> 0 -> fe ∈ E -> fef fe_fid s fe = fid -> later s fe = false -> known s h -> in_queues q = true ->
  (forall d, d ∈ dom P -> cbf fhead s d = fe -> cbf hhead s d <> h) -> exists s' P',
  add_cb FL fe c h q type s = Some (tt, s') /\ keeps (with_FEfree ff s') P' /\ added (tfirst s) h fid type q P P' /\ quiet s' = quiet s
  /\ FEfree s' = FEfree s.
Proof.
  intros B F Ti Ho HP Hfull Ecl [HN Hcl] Hff Hc0 Hfe Ei El Hk Hq Hno. assert (Hc : is_cb s c /\ c ∉ dom P) by (apply Hcl; left).
  destruct Hc as [Hcb Hc].
  destruct (add_new s (dom P) E FL BL fe c h q type B F Ti Ho Hfe Hc Hc0 Hcb Hk Hq Hno)
    as (s' & E' & B' & F' & Ti' & Ho' & Q' & Ec & Ef & Ic & If & Hn & Hp & Xf).
  rewrite Ei, El in Hp. set (p' := Promise fid false h type q) in *. exists s', (<[c := p']> P). split; [done |].
  assert (D : dom (<[c := p']> P) = {[c]} ∪ dom P) by apply fresh_dom.
  split; [| split; [| done]].
  - exists E. split; [split | rewrite D; split; [exact Ti' | exact Ho']]; rewrite ?D.
    + split; [by destruct B' as [G1 G2 G3 G4 G5] | |].
      * cbn. rewrite Ec, Ecl. destruct (free_popped cl c (dom P) (is_cb s) HN Hcl) as [N1 N2]. split; [done |]. intros x. rewrite N2.
        change (is_cb (with_FEfree ff s') x) with (is_cb s' x). by rewrite Ic.
      * cbn. destruct Hff as [N1 N2]. split; [done |]. intros x. rewrite N2. change (is_fe (with_FEfree ff s') x) with (is_fe s' x). by rewrite If.
    + eexists _, BL. apply (filed_frame s' (with_FEfree ff s') _ _ _ _ F'); done.
    + exact (promises_insert s s' P c p' HP (eq_sym Hp) Hn).
    + intros g Hg Hl. destruct (decide (g = fe)) as [-> | Hgf].
      * exists c. split; [set_solver |]. change (cbf fhead s' c = fe). by rewrite Xf, decide_True.
      * destruct (Hfull g Hg Hl Hgf) as (d & Hd & Ed). exists d. split; [set_solver |]. change (cbf fhead s' d = g). rewrite Xf, decide_False; [done |]. by intros ->.
  - apply added_new; [by apply not_elem_of_dom |]. intros d p Hd (P1 & P2 & P3). pose proof (HP d p Hd) as ->. cbn in *.
    assert (Hd' : d ∈ dom P) by by apply elem_of_dom_2 in Hd. apply (Hno d Hd'); [| done].
    apply (bk_fid _ _ _ (proj2 F)); [by apply (ls_head _ _ _ _ (proj1 F)) | done | by rewrite P2, Ei | done | done].
Qed.

(** AddCallBack1_r makes one promise, or renews the one there is. *)
Lemma AddCallBack1_keeps s P space h fid t type : keeps s P -> Z.of_nat (size P + size leaked) < nblks s -> known s h -> timed_type type t ->
  exists s' P', AddCallBack1_r space h fid t type s = Some (told type (now s) (count fid P), s') /\ keeps s' P'
    /\ added (tfirst s) h fid type (queue_of type (now s) (count fid P) t) P P' /\ quiet s' = quiet s.
Proof.
  intros (E & K) Hr Hk Ht. destruct (take_ok s P E K Hr) as (c & f & cl & fl & FL & BL & N & Hc & HfE & Hc0 & Hf0 & Hcb & Hfe).
  set (s2 := with_FEfree fl (with_CBfree cl s)) in *. unfold AddCallBack1_r.
  rewrite (bind_ok _ _ _ _ _ (get_free_cb s h space c cl (tn_cbfree0 _ _ _ _ _ _ _ _ _ _ N) Hc0)).
  rewrite (bind_ok _ _ _ _ _ (get_free_fe (with_CBfree cl s) h space f fl (tn_fefree0 _ _ _ _ _ _ _ _ _ _ N) Hf0)). fold s2.
  pose proof (tn_bounds _ _ _ _ _ _ _ _ _ _ N) as B. pose proof (tn_files _ _ _ _ _ _ _ _ _ _ N) as F.
  pose proof (tn_promise _ _ _ _ _ _ _ _ _ _ N) as HP.
  pose proof (fun x => queue_of_ok type (now s) x t Ht) as Hq.
  destruct (find_file_in s2 P E FL BL fid B F HP) as (fe & Ef & [(-> & Hno & HnoP) | (Hfe0 & HfeE & Ei & El & Hp)]); rewrite (bind_ok _ _ _ _ _ Ef).
  - rewrite (count_none fid P HnoP). cbn [Z.eqb negb]. rewrite (bind_ok _ _ s2 0 s2), (bind_ok _ _ s2 (now s) s2) by done.
    destruct (new_fe_ok s2 (dom P) E FL BL f fid B F Hfe HfE Hno)
      as (s3 & BL' & E3 & B3 & F3 & C3 & X1 & X2 & X3 & X4 & X5 & X6 & X7 & X8 & X9 & X10 & X11 & X12 & X13 & X14 & X15).
    rewrite (bind_ok _ _ _ _ _ E3). assert (Xc : forall A (g : CallBack -> A) x, cbf g s3 x = cbf g s2 x) by (intros; unfold cbf; by rewrite C3).
    assert (Hne : forall d, d ∈ dom P -> cbf fhead s2 d <> f) by (intros d Hd Ed; apply HfE; rewrite <- Ed; by apply (ls_head _ _ _ _ (proj1 F))).
    assert (HfE3 : f ∈ {[f]} ∪ E) by set_solver.
    destruct (find_host_ok s3 _ _ _ _ f h B3 F3 HfE3) as (l & El & [(x & _ & Hx & Ex & _) | (-> & Er & Hd)]).
    { exfalso. apply (Hne x Hx). by rewrite <- Xc. }
    rewrite (bind_ok _ _ _ _ _ El), (bind_ok _ _ _ _ _ Er). cbn [Z.eqb negb]. fold (queue_of type (now s) 0 t). set (q := queue_of type (now s) 0 t).
    destruct (add_first s3 P ({[f]} ∪ E) _ BL' c cl fl f fid h type q B3 F3) as (s' & P' & E' & K' & A' & Q' & Efr).
    + destruct (tn_timed _ _ _ _ _ _ _ _ _ _ N) as [L T]. exists L. apply (timed_frame s2); [done | | | by rewrite X1].
      { intros x. unfold is_cb. by rewrite C3. } intros x _. by rewrite !Xc.
    + destruct (tn_hosted _ _ _ _ _ _ _ _ _ _ N) as [L T]. exists L. apply (hosted_frame s2); [done | | | by rewrite X2].
      { intros x. unfold is_cb. by rewrite C3. } intros x _. by rewrite !Xc.
    + intros d p Hd'. rewrite (HP d p Hd'). unfold promise_at, later. rewrite !Xc. assert (Hdf : cbf fhead s2 d <> f) by (apply Hne; by apply elem_of_dom_2 in Hd').
      change (fef fe_fid s3 ?g) with (fe_fid (fef id s3 g)). change (fef fstatus s3 ?g) with (fstatus (fef id s3 g)). by rewrite !(X14 _ Hdf).
    + intros g Hg Hl Hgf. assert (Hg' : g ∈ E) by set_solver. destruct (tn_full _ _ _ _ _ _ _ _ _ _ N g Hg' Hl) as (d & Hd' & Ed). exists d. by rewrite Xc.
    + rewrite X3. apply (tn_cbfree _ _ _ _ _ _ _ _ _ _ N).
    + rewrite <- (tn_cbfree0 _ _ _ _ _ _ _ _ _ _ N). destruct (tb_cbfree _ _ _ (tk_tables _ _ _ K)) as [N1 N2]. split; [done |].
      intros x. rewrite N2. unfold is_cb. by rewrite C3.
    + destruct (tb_fefree _ _ _ (tk_tables _ _ _ K)) as [N1 N2]. rewrite (tn_fefree0 _ _ _ _ _ _ _ _ _ _ N) in N1, N2.
      destruct (free_popped fl f E (is_fe s) N1 N2) as [N3 N4]. split; [done |]. intros x. by rewrite N4, X13.
    + done.
    + done.
    + done.
    + done.
    + unfold known. by rewrite X2.
    + apply Hq.
    + exact Hd.
    + exists s', P'. unfold add_cb in E'. rewrite (bind_ok _ _ _ _ _ E'). rewrite (bind_ok _ _ s' tt s') by done.
      split; [done |]. split; [| split].
      * replace s' with (with_FEfree fl s'); [done |]. assert (Efl : FEfree s' = fl) by (rewrite Efr, X4; apply (tn_fefree _ _ _ _ _ _ _ _ _ _ N)).
        rewrite <- Efl. by destruct s'.
      * by rewrite X6 in A'.
      * rewrite Q'. unfold quiet. rewrite X6, X7, X8, X9, X10, X5, X2. done.
  - assert (Hcount : Z.of_nat (length (FL fe)) = count fid P) by by apply (count_list s2 P E FL BL).
    rewrite (proj2 (Z.eqb_neq fe 0) Hfe0). cbn [negb].
    assert (E1 : (let* e := get_fe fe in ret (ncbs e)) s2 = Some (count fid P, s2)).
    { rewrite (bind_ok _ _ _ _ _ (get_fe_ok s2 fe (bd_files _ _ _ B fe HfeE))). unfold ret. f_equal. f_equal.
      change (fef ncbs s2 fe = count fid P). by rewrite (ls_count _ _ _ _ (proj1 F)). }
    rewrite (bind_ok _ _ _ _ _ E1), (bind_ok _ _ s2 (now s) s2), (bind_ok _ _ s2 tt s2) by done.
    fold (queue_of type (now s) (count fid P) t). set (q := queue_of type (now s) (count fid P) t).
    destruct (find_host_ok s2 _ _ _ _ fe h B F HfeE) as (l & Efl & [(x & Er & Hx & Ex & Eh) | (-> & Er & Hd)]);
      rewrite (bind_ok _ _ _ _ _ Efl), (bind_ok _ _ _ _ _ Er).
    + rewrite (proj2 (Z.eqb_neq x 0)) by by apply (cb_nonzero s2 _ _ B). cbn [negb].
      destruct (add_again s s2 P E FL BL c f cl fl fe fid h type q x N HfeE Ei El Hx Ex Eh (Hq _)) as (sA & s' & P' & EA & EB & Et & K' & A' & Q').
      exists (with_FEfree (f :: FEfree s') (with_CBfree (c :: CBfree s') s')), P'. split; [| done].
      rewrite (bind_ok _ _ s2 tt (with_CBfree (c :: CBfree s') s')); [done |].
      rewrite (bind_ok _ _ _ _ _ (get_cb_ok s2 x (bd_used _ _ _ B x Hx))), (bind_ok _ _ _ _ _ EA), (bind_ok _ _ sA (tfirst s) sA) by (unfold gets; by rewrite Et).
      by rewrite (bind_ok _ _ _ _ _ EB).
    + cbn [Z.eqb negb].
      destruct (add_first s2 P E FL BL c cl (f :: fl) fe fid h type q B F) as (s' & P' & E' & K' & A' & Q' & Efr).
      * apply (tn_timed _ _ _ _ _ _ _ _ _ _ N).
      * apply (tn_hosted _ _ _ _ _ _ _ _ _ _ N).
      * done.
      * intros g Hg Hl _. by apply (tn_full _ _ _ _ _ _ _ _ _ _ N).
      * done.
      * rewrite <- (tn_cbfree0 _ _ _ _ _ _ _ _ _ _ N). apply (tk_tables _ _ _ K).
      * rewrite <- (tn_fefree0 _ _ _ _ _ _ _ _ _ _ N). apply (tk_tables _ _ _ K).
      * done.
      * done.
      * done.
      * done.
      * done.
      * apply Hq.
      * exact Hd.
      * exists (with_FEfree (f :: FEfree s') s'), P'. unfold add_cb in E'. rewrite (bind_ok _ _ _ _ _ E'). split; [done |].
        rewrite Efr. done.
Qed.
End leaks.
