(* ===== verification/CallbackBreak.v ===== *)
(** Breaking the promises of a file: BreakCallBack, with the calls it makes to
    the hosts and what becomes of the promises to those that do not answer. *)
From S2P Require Import Prelude Rings Monad Callback CallbackSpec CallbackFiles CallbackOps CallbackAdd.

#[local] Open Scope monad_scope.

Section leaks.
Context {lk : Leaked}.

(** ** Whom to call *)

Definition callable (xhost : Z) (flag : bool) (p : promise) : Prop :=
  (p_host p <> xhost \/ flag = true) /\ (p_status p = CB_BULK \/ p_status p = CB_NORMAL \/ p_status p = CB_VOLUME).
#[export] Instance callable_dec xhost flag p : Decision (callable xhost flag p).
Proof. unfold callable. apply _. Defined.

Definition delayed (p : promise) : promise := Promise (p_fid p) (p_later p) (p_host p) CB_DELAYED (p_queue p).

Definition down (s : cbstate) (h : Z) : Prop := has_flag VENUSDOWN (hof s h) = true.
Definition host_deleted (s : cbstate) (h : Z) : Prop := has_flag HOSTDELETED (hof s h) = true.
Definition reset_done (s : cbstate) (h : Z) : Prop := has_flag RESETDONE (hof s h) = true.
Definition has_later (s : cbstate) (h : Z) : Prop := has_flag HFE_LATER (hof s h) = true.

(** One pass, on the map. *)
Fixpoint collected (is_down : Z -> bool) (xhost : Z) (flag : bool) (l : list Z) (n : nat) (P : gmap Z promise) : list (Z * Z) * gmap Z promise :=
  match l, n with
  | [], _ | _, O => ([], P)
  | c :: l', S n' =>
      match P !! c with
      | Some p =>
          if decide (callable xhost flag p) then
            if is_down (p_host p) then collected is_down xhost flag l' n (<[c := delayed p]> P)
            else let r := collected is_down xhost flag l' n' (delete c P) in ((p_host p, p_queue p) :: r.1, r.2)
          else collected is_down xhost flag l' n P
      | None => collected is_down xhost flag l' n P
      end
  end.

Lemma quiet_flag s s' h f : quiet s' = quiet s -> has_flag f (hof s' h) = has_flag f (hof s h).
Proof.
  intros Q%(f_equal (fun q => q.2))%(f_equal (.!! h)). cbn in Q. rewrite !lookup_fmap in Q. unfold hof.
  destruct (hosts s' !! h) as [g' |], (hosts s !! h) as [g |]; cbn in Q; [| done | done | done].
  injection Q as E _ _. unfold has_flag. cbn. by rewrite E.
Qed.

Lemma quiet_nblks s s' : quiet s' = quiet s -> nblks s' = nblks s.
Proof. intros Q. exact (f_equal (fun q => q.1.2) Q). Qed.

(** A promise delayed where it is. *)
Lemma delay_ok s P E c p : tables_keep s P E -> P !! c = Some p -> exists s', mod_cb c (set_status CB_DELAYED) s = Some (tt, s')
  /\ tables_keep s' (<[c := delayed p]> P) E /\ quiet s' = quiet s /\ forall x, cbf cnext s' x = cbf cnext s x.
Proof.
  intros (K & (L & T) & (L' & H)) Hp. assert (Hcb : is_cb s c) by (apply (tb_used _ _ _ (kp_tables _ _ _ K)); by apply elem_of_dom_2 in Hp).
  set (s' := with_CB (alter (set_status CB_DELAYED) c) s). exists s'. split; [by apply mod_cb_ok |].
  assert (X : forall A (g : CallBack -> A) x, (forall v e, g (set_status v e) = g e) -> cbf g s' x = cbf g s x) by (intros A g x G; by apply cbf_keep).
  assert (Xs : forall x, cbf status s' x = if decide (x = c) then CB_DELAYED else cbf status s x) by (intros x; unfold s'; by rewrite cbf_alter).
  assert (D : dom (<[c := delayed p]> P) = dom P) by (rewrite dom_insert_L; apply elem_of_dom_2 in Hp; set_solver).
  assert (I : forall x, is_cb s' x <-> is_cb s x) by (intros x; apply is_cb_alter).
  split; [split; [split | rewrite D; split] | split; [done | intros x; by apply X]]; rewrite ?D.
  - by apply (tables_frame s _ _ _ (kp_tables _ _ _ K)).
  - destruct (kp_filed _ _ _ K) as (FL & BL & F). exists FL, BL. apply (filed_frame s); [done | done | done |]. intros x. by rewrite !X.
  - apply (promises_insert s); [apply (kp_promise _ _ _ K) | |].
    + rewrite (kp_promise _ _ _ K c p Hp). unfold delayed, promise_at, later. cbn. rewrite (X _ fhead), (X _ hhead), (X _ thead), Xs by done.
      by rewrite decide_True.
    + intros d Hd. unfold promise_at, later. rewrite (X _ fhead), (X _ hhead), (X _ thead), Xs by done. by rewrite decide_False.
  - intros f Hf Hl. setoid_rewrite X; [| done]. by apply (kp_full _ _ _ K).
  - exists L. apply (timed_frame s); [done | done | | done]. intros x _. by rewrite !X.
  - exists L'. apply (hosted_frame s); [done | done | | done]. intros x _. by rewrite !X.
Qed.

Lemma linked_next nxt l : forall h x, linked nxt h l -> x ∈ l -> nxt x = 0 \/ nxt x ∈ l.
Proof.
  induction l as [| y l IH]; intros h x HL Hx; [by apply not_elem_of_nil in Hx |]. destruct HL as [-> HL].
  apply elem_of_cons in Hx as [-> | Hx].
  - destruct l as [| z l]; cbn in HL; [by left |]. destruct HL as [-> _]. right. right. left.
  - destruct (IH _ x HL Hx) as [H | H]; [by left | right; by right].
Qed.

Lemma known_host s P E c p : tables_keep s P E -> P !! c = Some p -> known s (p_host p).
Proof.
  intros K Hp. rewrite (tk_promise _ _ _ K c p Hp). destruct (tk_hosted _ _ _ K) as (L & _ & H). apply elem_of_dom_2 in Hp. by apply H in Hp as (_ & _ & ?).
Qed.

Lemma status_test st : ((st =? CB_BULK) || (st =? CB_NORMAL) || (st =? CB_VOLUME)) = bool_decide (st = CB_BULK \/ st = CB_NORMAL \/ st = CB_VOLUME).
Proof. destruct (bool_decide_reflect (st = CB_BULK \/ st = CB_NORMAL \/ st = CB_VOLUME)); unfold CB_BULK, CB_NORMAL, CB_VOLUME in *; lia. Qed.

Lemma callable_test xhost flag p : (negb (p_host p =? xhost) || flag)
  && ((p_status p =? CB_BULK) || (p_status p =? CB_NORMAL) || (p_status p =? CB_VOLUME)) = bool_decide (callable xhost flag p).
Proof.
  rewrite status_test. unfold callable. destruct (Z.eqb_spec (p_host p) xhost), flag; cbn [negb orb andb];
    [apply bool_decide_ext; naive_solver | symmetry; apply bool_decide_eq_false; naive_solver | apply bool_decide_ext; naive_solver ..].
Qed.

Lemma collect_ok xhost flag l : forall s P E v n fuel, tables_keep s P E -> linked (cbf cnext s) v l -> NoDup l -> (forall c, c ∈ l -> c ∈ dom P) ->
  (length l <= fuel)%nat -> exists s' w E', let r := collected (fun h => has_flag VENUSDOWN (hof s h)) xhost flag l n P in
  collect xhost flag v n fuel s = Some ((r.1, w), s') /\ tables_keep s' r.2 E' /\ quiet s' = quiet s.
Proof.
  induction l as [| c l IH]; intros s P E v n fuel K HL HN Hin Hfu; cbn [linked length] in *.
  - subst v. exists s, 0, E. by destruct fuel.
  - destruct HL as [-> HL]. assert (Hc : c ∈ dom P) by (apply Hin; left). destruct n as [| n].
    { exists s, c, E. cbn. split; [| done]. by destruct fuel; cbn [collect]; rewrite orb_true_r. }
    destruct fuel as [| fuel]; [lia |]. pose proof (tk_tables _ _ _ K) as T. apply NoDup_cons in HN as [Hcl HN].
    cbn [collect collected]. rewrite (proj2 (Z.eqb_neq c 0)) by by apply (cb_nonzero s _ _ (tb_bounds T)). cbn [Nat.eqb orb].
    rewrite (bind_ok _ _ _ _ _ (get_cb_ok s c (tb_used _ _ _ T c Hc))). pose proof (proj1 (elem_of_dom P c) Hc) as [p Hp]. rewrite Hp.
    pose proof (tk_promise _ _ _ K c p Hp) as Hpc.
    assert (Eh : hhead (cbf id s c) = p_host p) by by rewrite Hpc. assert (Es : status (cbf id s c) = p_status p) by by rewrite Hpc.
    assert (Et : thead (cbf id s c) = p_queue p) by by rewrite Hpc. rewrite Eh, Es, Et, callable_test.
    change (cnext (cbf id s c)) with (cbf cnext s c).
    assert (Hin' : forall x, x ∈ l -> x ∈ dom P) by (intros x Hx; apply Hin; by right).
    destruct (decide (callable xhost flag p)) as [Hca | Hca]; [rewrite bool_decide_eq_true_2 by done | rewrite bool_decide_eq_false_2 by done].
    2:{ apply (IH s P E (cbf cnext s c) (S n) fuel); [done | done | done | done | lia]. }
    rewrite (bind_ok _ _ _ _ _ (get_host_ok s _ (known_host s P E c p K Hp))).
    destruct (has_flag VENUSDOWN (hof s (p_host p))) eqn:Ed.
    + destruct (delay_ok s P E c p K Hp) as (s1 & E1 & K1 & Q1 & X1). rewrite (bind_ok _ _ _ _ _ E1).
      destruct (IH s1 _ E (cbf cnext s c) (S n) fuel K1) as (s' & w & E' & Ec & K' & Q').
      { by apply (links_frame (cbf cnext s)). } { done. }
      { intros x Hx. rewrite dom_insert_L. apply elem_of_union_r. by apply Hin'. } { lia. }
      assert (W : forall m Q, collected (fun h => has_flag VENUSDOWN (hof s1 h)) xhost flag l m Q = collected (fun h => has_flag VENUSDOWN (hof s h)) xhost flag l m Q).
      { clear -Q1. induction l as [| x l IH]; intros m Q; cbn; [done |]. destruct m; [done |]. rewrite !IH.
        destruct (Q !! x) as [q |]; [| done]. case_decide; [| done]. rewrite (quiet_flag s s1 _ _ Q1), IH. done. }
      cbn zeta in *. rewrite W in *. exists s', w, E'. split; [exact Ec | split; [exact K' |]]. by rewrite Q'.
    + destruct (drop_ok s P E c K Hc) as (s1 & s2 & s3 & E3 & D1 & D2 & D3 & K3 & Q3 & L3).
      rewrite (bind_ok _ _ _ _ _ D1), (bind_ok _ _ _ _ _ D2), (bind_ok _ _ _ _ _ D3).
      destruct (IH s3 _ E3 (cbf cnext s c) n fuel K3) as (s' & w & E' & Ec & K' & Q').
      { apply (links_frame (cbf cnext s)); [done |]. intros x Hx. destruct (L3 x) as [| Hx']; [done |]. exfalso.
        destruct (linked_next _ _ _ x HL Hx) as [H | H]; rewrite Hx' in H; [| done]. by apply (cb_nonzero s _ _ (tb_bounds T) c). }
      { done. } { intros x Hx. rewrite dom_delete_L. apply elem_of_difference. split; [by apply Hin' |]. intros ->%elem_of_singleton. done. } { lia. }
      assert (W : forall m Q, collected (fun h => has_flag VENUSDOWN (hof s3 h)) xhost flag l m Q = collected (fun h => has_flag VENUSDOWN (hof s h)) xhost flag l m Q).
      { clear -Q3. induction l as [| x l IH]; intros m Q; cbn; [done |]. destruct m; [done |]. rewrite !IH.
        destruct (Q !! x) as [q |]; [| done]. case_decide; [| done]. rewrite (quiet_flag s s3 _ _ Q3), IH. done. }
      cbn zeta in *. rewrite W in *. replace (S n - 1)%nat with n by lia. exists s', w, E'. rewrite (bind_ok _ _ _ _ _ Ec).
      cbn [fst snd]. split; [done | split; [exact K' |]]. by rewrite Q'.
Qed.

(** ** What a pass does to the map *)

Section collected.
Context (is_down : Z -> bool) (xhost : Z) (flag : bool).

Lemma collected_out l : forall n P c, c ∉ l -> (collected is_down xhost flag l n P).2 !! c = P !! c.
Proof.
  induction l as [| d l IH]; intros n P c Hc; [done |]. apply not_elem_of_cons in Hc as [Hcd Hc]. destruct n; cbn [collected]; [done |].
  destruct (P !! d) as [p |]; [| by apply IH]. case_decide; [| by apply IH]. destruct (is_down _); cbn [snd]; rewrite IH by done.
  - by rewrite lookup_insert_ne.
  - by rewrite lookup_delete_ne.
Qed.

(** An entry is as it was, or its promise was to be broken: it is delayed when
    the host is down, and gone when the host is to be called. *)
Lemma collected_in l : forall n P c, NoDup l -> (collected is_down xhost flag l n P).2 !! c = P !! c
  \/ exists p, P !! c = Some p /\ callable xhost flag p /\ c ∈ l
     /\ ((is_down (p_host p) = true /\ (collected is_down xhost flag l n P).2 !! c = Some (delayed p))
         \/ ((collected is_down xhost flag l n P).2 !! c = None /\ (p_host p, p_queue p) ∈ (collected is_down xhost flag l n P).1)).
Proof.
  induction l as [| d l IH]; intros n P c HN; [by left |]. apply NoDup_cons in HN as [Hd HN]. destruct n as [| n]; cbn [collected]; [by left |].
  destruct (P !! d) as [p |] eqn:Ep; [case_decide as Hca |]; [destruct (is_down (p_host p)) eqn:Ed | |].
  - destruct (decide (c = d)) as [-> | Hcd].
    + right. exists p. rewrite collected_out, lookup_insert_eq by done. split; [done | split; [done | split; [left | by left]]].
    + destruct (IH (S n) (<[d := delayed p]> P) c HN) as [E | (q & Hq & H1 & H2 & H3)]; rewrite lookup_insert_ne in * by done; [by left |].
      right. exists q. split; [done | split; [done | split; [by right | done]]].
  - cbn [fst snd]. destruct (decide (c = d)) as [-> | Hcd].
    + right. exists p. rewrite collected_out, lookup_delete_eq by done. split; [done | split; [done | split; [left | right; split; [done | left]]]].
    + destruct (IH n (delete d P) c HN) as [E | (q & Hq & H1 & H2 & H3)]; rewrite lookup_delete_ne in * by done; [by left |].
      right. exists q. split; [done | split; [done | split; [by right |]]]. destruct H3 as [H3 | [H3 H4]]; [by left | right; split; [done | by right]].
  - destruct (IH (S n) P c HN) as [E | (q & Hq & H1 & H2 & H3)]; [by left | right; exists q; split; [done | split; [done | split; [by right | done]]]].
  - destruct (IH (S n) P c HN) as [E | (q & Hq & H1 & H2 & H3)]; [by left | right; exists q; split; [done | split; [done | split; [by right | done]]]].
Qed.

(** Where those to be called come from. *)
Lemma collected_from l : forall n P x, NoDup l -> x ∈ (collected is_down xhost flag l n P).1 ->
  exists c p, c ∈ l /\ P !! c = Some p /\ callable xhost flag p /\ x = (p_host p, p_queue p) /\ (collected is_down xhost flag l n P).2 !! c = None.
Proof.
  induction l as [| d l IH]; intros n P x HN Hx; [by apply not_elem_of_nil in Hx |]. apply NoDup_cons in HN as [Hd HN].
  destruct n as [| n]; cbn [collected] in *; [by apply not_elem_of_nil in Hx |].
  assert (Hne : forall c, c ∈ l -> c <> d) by (intros c Hc ->; done).
  destruct (P !! d) as [p |] eqn:Ep; [case_decide as Hca |]; [destruct (is_down (p_host p)) eqn:Ed | |].
  - destruct (IH (S n) _ x HN Hx) as (c & q & H1 & H2 & H3). rewrite lookup_insert_ne in H2 by (symmetry; by apply Hne).
    exists c, q. split; [by right | done].
  - cbn [fst snd] in *. apply elem_of_cons in Hx as [-> | Hx].
    + exists d, p. split; [left | split; [done | split; [done | split; [done |]]]]. by rewrite collected_out, lookup_delete_eq.
    + destruct (IH n _ x HN Hx) as (c & q & H1 & H2 & H3). rewrite lookup_delete_ne in H2 by (symmetry; by apply Hne).
      exists c, q. split; [by right | done].
  - destruct (IH (S n) _ x HN Hx) as (c & q & H1 & H2). exists c, q. split; [by right | done].
  - destruct (IH (S n) _ x HN Hx) as (c & q & H1 & H2). exists c, q. split; [by right | done].
Qed.

Lemma collected_size l : forall n P, (size (collected is_down xhost flag l n P).2 + length (collected is_down xhost flag l n P).1 = size P)%nat
  /\ (length (collected is_down xhost flag l n P).1 <= n)%nat.
Proof.
  induction l as [| d l IH]; intros n P; [cbn; lia |]. destruct n as [| n]; cbn [collected]; [cbn; lia |].
  destruct (P !! d) as [p |] eqn:Ep; [case_decide as Hca |]; [destruct (is_down (p_host p)) eqn:Ed | apply IH | apply IH].
  - destruct (IH (S n) (<[d := delayed p]> P)) as [E1 E2]. rewrite map_size_insert_Some in E1 by (by exists p). done.
  - cbn [fst snd length]. destruct (IH n (delete d P)) as [E1 E2]. rewrite map_size_delete_Some in E1 by (by exists p).
    assert (size P <> 0%nat) by (intros Hz; apply map_size_empty_inv in Hz; by rewrite Hz in Ep). lia.
Qed.

(** A pass that is not full has seen all. *)
Lemma collected_all l : forall n P c p, NoDup l -> (length (collected is_down xhost flag l n P).1 < n)%nat -> c ∈ l ->
  (collected is_down xhost flag l n P).2 !! c = Some p -> ~ callable xhost flag p.
Proof.
  induction l as [| d l IH]; intros n P c p HN Hn Hc Hp; [by apply not_elem_of_nil in Hc |]. apply NoDup_cons in HN as [Hd HN].
  destruct n as [| n]; [lia |]. cbn [collected] in *.
  destruct (P !! d) as [q |] eqn:Ep; [case_decide as Hca |]; [destruct (is_down (p_host q)) eqn:Ed | |].
  - apply elem_of_cons in Hc as [-> | Hc]; [| by apply (IH (S n) (<[d := delayed q]> P) c)].
    rewrite collected_out, lookup_insert_eq in Hp by done. injection Hp as <-. unfold callable. cbn. unfold CB_DELAYED, CB_BULK, CB_NORMAL, CB_VOLUME. lia.
  - cbn [fst snd length] in *. apply elem_of_cons in Hc as [-> | Hc]; [| apply (IH n (delete d P) c); [done | lia | done | done]].
    by rewrite collected_out, lookup_delete_eq in Hp.
  - apply elem_of_cons in Hc as [-> | Hc]; [| by apply (IH (S n) P c)]. rewrite collected_out, Ep in Hp by done. by injection Hp as <-.
  - apply elem_of_cons in Hc as [-> | Hc]; [| by apply (IH (S n) P c)]. rewrite collected_out, Ep in Hp by done. done.
Qed.

Lemma collected_hosts l : forall n P, NoDup l ->
  (forall c d p q, c ∈ l -> d ∈ l -> P !! c = Some p -> P !! d = Some q -> p_host p = p_host q -> c = d) ->
  NoDup (collected is_down xhost flag l n P).1.*1.
Proof.
  induction l as [| d l IH]; intros n P HN HH; [apply NoDup_nil_2 |]. apply NoDup_cons in HN as [Hd HN].
  destruct n as [| n]; cbn [collected]; [apply NoDup_nil_2 |]. assert (Hne : forall c, c ∈ l -> d <> c) by (intros c Hc ->; done).
  assert (HP : forall n, NoDup (collected is_down xhost flag l n P).1.*1).
  { intros m. apply IH; [done |]. intros x y p q Hx Hy. apply HH; by right. }
  destruct (P !! d) as [q |] eqn:Ep; [case_decide as Hca |]; [destruct (is_down (p_host q)) eqn:Ed | apply HP | apply HP].
  - apply IH; [done |]. intros x y p r Hx Hy. rewrite !lookup_insert_ne by by apply Hne. apply HH; by right.
  - cbn [fst fmap list_fmap]. apply NoDup_cons. split.
    + intros Hin. apply list_elem_of_fmap_1 in Hin as ([a b] & Ea & Hin). cbn in Ea. subst a.
      destruct (collected_from l n _ _ HN Hin) as (c & p & Hc & Hp & _ & [= E _] & _). rewrite lookup_delete_ne in Hp by by apply Hne.
      apply (Hne c Hc). apply (HH d c q p); [left | by right | done | done | done].
    + apply IH; [done |]. intros x y p r Hx Hy. rewrite !lookup_delete_ne by by apply Hne. apply HH; by right.
Qed.
End collected.

(** ** Calling the hosts *)

(** The host knows: a call about the file had no error. *)
Definition informed (h : Z) (fid : AFSFid) (m : message) : Prop := m = CallBackMsg h [fid] 0 \/ m = AlternateMsg h [fid] 0.

(** While hosts are called: more calls are made, and hosts may be marked down. *)
Record grows (s s' : cbstate) (new : list message) : Prop := {
  gr_calls : calls s' = new ++ calls s;
  gr_known : forall h, known s' h <-> known s h;
  gr_deleted : forall h, host_deleted s' h <-> host_deleted s h;
  gr_down : forall h, down s h -> down s' h;
  gr_rest : tfirst s' = tfirst s /\ now s' = now s /\ nblks s' = nblks s /\ hostList s' = hostList s;
  gr_reset : forall h, reset_done s' h <-> reset_done s h;
  gr_later : forall h, has_later s' h <-> has_later s h
}.

Lemma grows_trans s1 s2 s3 n1 n2 : grows s1 s2 n1 -> grows s2 s3 n2 -> grows s1 s3 (n2 ++ n1).
Proof.
  intros [A1 A2 A3 A4 (A5 & A6 & A7 & A8) A9 A10] [B1 B2 B3 B4 (B5 & B6 & B7 & B8) B9 B10]. split.
  - by rewrite B1, A1, app_assoc.
  - intros h. by rewrite B2.
  - intros h. by rewrite B3.
  - intros h Hd. by apply B4, A4.
  - by rewrite B5, B6, B7, B8.
  - intros h. by rewrite B9.
  - intros h. by rewrite B10.
Qed.

Lemma grows_quiet s s' : quiet s' = quiet s -> grows s s' [].
Proof.
  intros Q. split.
  - exact (f_equal (fun q => q.1.1.1.2) Q).
  - intros h. by apply quiet_known.
  - intros h. unfold host_deleted. by rewrite (quiet_flag s s').
  - intros h. unfold down. by rewrite (quiet_flag s s').
  - split; [exact (f_equal (fun q => q.1.1.1.1.1.1) Q) | split; [exact (f_equal (fun q => q.1.1.1.1.1.2) Q) |]].
    split; [exact (f_equal (fun q => q.1.2) Q) | exact (f_equal (fun q => q.1.1.2) Q)].
  - intros h. unfold reset_done. by rewrite (quiet_flag s s').
  - intros h. unfold has_later. by rewrite (quiet_flag s s').
Qed.

Lemma call_host_ok m s : exists code, call_host m s = Some (code, with_calls (tl (codes s)) (m code) s).
Proof. by eexists. Qed.

Lemma grows_call s l m : grows s (with_calls l m s) [m].
Proof. by split. Qed.

Lemma has_flag_set f g e : has_flag f (set_flag g e) = negb (Z.lor (Z.land (hostFlags e) f) (Z.land g f) =? 0).
Proof. unfold has_flag, set_flag. cbn. by rewrite Z.land_lor_distr_l. Qed.

Lemma mark_down s h : known s h -> exists s', mod_host h (set_flag VENUSDOWN) s = Some (tt, s') /\ grows s s' [] /\ down s' h
  /\ shelves s' = shelves s.
Proof.
  intros Hk. set (s' := with_hosts (alter (set_flag VENUSDOWN) h) s). exists s'. split; [by apply mod_host_ok |].
  assert (X : forall x, hof s' x = if decide (x = h) then set_flag VENUSDOWN (hof s h) else hof s x).
  { intros x. unfold hof, s'. cbn [hosts with_hosts]. destruct Hk as [e He]. case_decide as Ex.
    - subst x. by rewrite lookup_alter_eq, He.
    - by rewrite lookup_alter_ne. }
  assert (Hd : has_flag VENUSDOWN (set_flag VENUSDOWN (hof s h)) = true).
  { rewrite has_flag_set. change (Z.land VENUSDOWN VENUSDOWN) with 8. apply negb_true_iff, Z.eqb_neq. intros E.
    apply Z.lor_eq_0_iff in E as [_ E]. discriminate. }
  split; [split | split].
  - done.
  - intros x. apply known_alter.
  - intros x. unfold host_deleted. rewrite X. case_decide as Ex; [subst x | done]. rewrite has_flag_set.
    change (Z.land VENUSDOWN HOSTDELETED) with 0. by rewrite Z.lor_0_r.
  - intros x Hx. unfold down in *. rewrite X. by case_decide.
  - done.
  - intros x. unfold reset_done. rewrite X. case_decide as Ex; [subst x | done]. rewrite has_flag_set.
    change (Z.land VENUSDOWN RESETDONE) with 0. by rewrite Z.lor_0_r.
  - intros x. unfold has_later. rewrite X. case_decide as Ex; [subst x | done]. rewrite has_flag_set.
    change (Z.land VENUSDOWN HFE_LATER) with 0. by rewrite Z.lor_0_r.
  - unfold down. by rewrite X, decide_True.
  - unfold shelves, s', with_hosts. fields. by rewrite fmap_alter_keep.
Qed.

(** What became of a promise that was to be broken. *)
Definition broken (s s' : cbstate) (P' : gmap Z promise) (new : list message) (fid : AFSFid) (h q : Z) : Prop :=
  host_deleted s h \/ (exists m, m ∈ new /\ informed h fid m) \/ (down s' h /\ exists c, P' !! c = Some (Promise fid false h CB_DELAYED q)).

Lemma break_one_ok s P space fid h q : keeps s P -> Z.of_nat (size P + size leaked) < nblks s -> known s h -> in_queues q = true ->
  (forall c p, P !! c = Some p -> ~ is_promise h fid p) -> exists s' P' new,
  break_one space fid (h, q) s = Some (tt, s') /\ keeps s' P' /\ grows s s' new
  /\ (P' = P \/ down s' h /\ exists c, P !! c = None /\ P' = <[c := Promise fid false h CB_DELAYED q]> P) /\ broken s s' P' new fid h q.
Proof.
  intros K Hr Hk Hq Hno. unfold break_one. cbn [fst snd]. rewrite (bind_ok _ _ _ _ _ (get_host_ok s h Hk)).
  destruct (has_flag HOSTDELETED (hof s h)) eqn:Ed.
  { exists s, P, []. split; [done | split; [done | split; [by apply grows_quiet | split; [by left | by left]]]]. }
  destruct (call_host_ok (CallBackMsg h [fid]) s) as [code E1]. rewrite (bind_ok _ _ _ _ _ E1).
  set (s1 := with_calls (tl (codes s)) (CallBackMsg h [fid] code) s). pose proof (grows_call s (tl (codes s)) (CallBackMsg h [fid] code)) as G1.
  fold s1 in G1. assert (K1 : keeps s1 P) by by apply (keeps_shelves s). assert (Hq0 : q <> 0) by (intros ->; done).
  rewrite (proj2 (Z.eqb_neq q 0) Hq0), orb_false_r. destruct (Z.eqb_spec code 0) as [-> | Hc1].
  { exists s1, P, [CallBackMsg h [fid] 0]. split; [done | split; [done | split; [done | split; [by left |]]]]. right. left.
    eexists. split; [left | by left]. }
  destruct (call_host_ok (AlternateMsg h [fid]) s1) as [code2 E2]. rewrite (bind_ok _ _ _ _ _ E2).
  set (s2 := with_calls (tl (codes s1)) (AlternateMsg h [fid] code2) s1). pose proof (grows_call s1 (tl (codes s1)) (AlternateMsg h [fid] code2)) as G2.
  fold s2 in G2. pose proof (grows_trans _ _ _ _ _ G1 G2) as G. assert (K2 : keeps s2 P) by by apply (keeps_shelves s1).
  destruct (Z.eqb_spec code2 0) as [-> | Hc2].
  { eexists s2, P, _. split; [done | split; [done | split; [done | split; [by left |]]]]. right. left. eexists. split; [left | by right]. }
  destruct (mark_down s2 h Hk) as (s3 & E3 & G3 & D3 & Sh3). rewrite (bind_ok _ _ _ _ _ E3).
  pose proof (grows_trans _ _ _ _ _ G G3) as G'. assert (K3 : keeps s3 P) by by apply (keeps_shelves s2).
  destruct (gr_rest _ _ _ G') as (R1 & R2 & R3 & R4).
  destruct (AddCallBack1_keeps s3 P space h fid q CB_DELAYED K3) as (s4 & P' & E4 & K4 & A4 & Q4); [by rewrite R3 | by apply (gr_known _ _ _ G') | by do 3 right |].
  rewrite (bind_ok _ _ _ _ _ E4). pose proof (grows_trans _ _ _ _ _ G' (grows_quiet _ _ Q4)) as G4. eexists s4, P', _. split; [done | split; [done | split; [done |]]].
  change (queue_of CB_DELAYED (now s3) (count fid P) q) with q in A4. destruct A4 as [c Hc Hnew | c p Hc Hp]; [| by exfalso; apply (Hno c p)].
  assert (D4 : down s4 h) by by apply (gr_down _ _ _ (grows_quiet _ _ Q4)).
  split; [right; split; [done | by exists c] |]. right. right. split; [done |]. exists c. by rewrite lookup_insert_eq.
Qed.

Lemma multi_ok space fid l : forall s P, keeps s P -> Z.of_nat (size P + length l + size leaked) <= nblks s -> NoDup l.*1 ->
  (forall x, x ∈ l -> known s x.1 /\ in_queues x.2 = true /\ forall c p, P !! c = Some p -> ~ is_promise x.1 fid p) -> exists s' P' new,
  for_each (break_one space fid) l s = Some (tt, s') /\ keeps s' P' /\ grows s s' new
  /\ (forall c p, P !! c = Some p -> P' !! c = Some p)
  /\ (forall c p, P' !! c = Some p -> P !! c = Some p \/ exists x, x ∈ l /\ p = Promise fid false x.1 CB_DELAYED x.2 /\ down s' x.1)
  /\ (size P' <= size P + length l)%nat
  /\ (forall x, x ∈ l -> broken s s' P' new fid x.1 x.2).
Proof.
  induction l as [| [h q] l IH]; intros s P K Hr HN Hx; cbn [for_each].
  - exists s, P, []. split; [done | split; [done | split; [by apply grows_quiet | split; [done | split; [by left | split; [lia |]]]]]]. by intros x ?%not_elem_of_nil.
  - destruct (Hx (h, q) ltac:(left)) as (Hk & Hq & Hno). cbn [fst snd length fmap list_fmap] in *. apply NoDup_cons in HN as [Hh HN].
    destruct (break_one_ok s P space fid h q K ltac:(lia) Hk Hq Hno) as (s1 & P1 & n1 & E1 & K1 & G1 & H1 & B1).
    rewrite (bind_ok _ _ _ _ _ E1).
    assert (X1 : forall c p, P !! c = Some p -> P1 !! c = Some p).
    { intros c p Hp. destruct H1 as [-> | (_ & d & Hd & ->)]; [done |]. rewrite lookup_insert_ne; [done |]. intros ->. by rewrite Hd in Hp. }
    assert (X2 : forall c p, P1 !! c = Some p -> P !! c = Some p \/ p = Promise fid false h CB_DELAYED q /\ down s1 h).
    { intros c p Hp. destruct H1 as [-> | (Hd1 & d & Hd & ->)]; [by left |]. apply lookup_insert_Some in Hp as [[_ <-] | [_ Hp]]; [by right | by left]. }
    destruct (gr_rest _ _ _ G1) as (_ & _ & R3 & _).
    assert (Hsz : (size P1 <= S (size P))%nat) by (destruct H1 as [-> | (_ & d & Hd & ->)]; [lia |]; by rewrite map_size_insert_None).
    destruct (IH s1 P1 K1) as (s2 & P2 & n2 & E2 & K2 & G2 & Y1 & Y2 & Z2 & B2).
    + rewrite R3. lia.
    + done.
    + intros x Hin. destruct (Hx x ltac:(by right)) as (Hk' & Hq' & Hno'). split; [by apply (gr_known _ _ _ G1) | split; [done |]].
      intros c p Hp. destruct (X2 c p Hp) as [Hp' | [-> _]]; [by apply (Hno' c) |]. intros [E _]. cbn in E. apply Hh. rewrite E.
      by apply list_elem_of_fmap_2.
    + exists s2, P2, (n2 ++ n1). split; [done | split; [done | split; [by apply (grows_trans s s1) |]]].
      split; [intros c p Hp; by apply Y1, X1 |]. split; [| split; [lia |]].
      * intros c p Hp. destruct (Y2 c p Hp) as [Hp' | (x & Hin & E & Hd)]; [| right; exists x; split; [by right | done]].
        destruct (X2 c p Hp') as [| [-> Hd]]; [by left |]. right. exists (h, q). split; [left | split; [done |]]. by apply (gr_down _ _ _ G2).
      * intros x [-> | Hin]%elem_of_cons.
        -- destruct B1 as [B1 | [(m & Hm & Hi) | (Hd & c & Hc)]]; [by left | right; left; exists m; split; [set_solver | done] |].
           right. right. split; [by apply (gr_down _ _ _ G2) |]. exists c. by apply Y1.
        -- destruct (B2 x Hin) as [B | [(m & Hm & Hi) | B]]; [left; by apply (gr_deleted _ _ _ G1) | right; left; exists m; split; [set_solver | done] |].
           right. by right.
Qed.

Lemma sort_perm l : sort_cba l ≡ₚ l.
Proof.
  assert (I : forall x l, insert_cba x l ≡ₚ x :: l).
  { intros x k. induction k as [| y k IH]; cbn [insert_cba]; [done |]. case_match; [done |]. rewrite IH. constructor. }
  induction l as [| x l IH]; [done |]. cbn. rewrite I. by constructor.
Qed.

(** ** BreakCallBack *)

Definition to_break (xhost : Z) (fid : AFSFid) (flag : bool) (p : promise) : Prop := of_file fid p /\ callable xhost flag p.
#[export] Instance to_break_dec xhost fid flag p : Decision (to_break xhost fid flag p).
Proof. unfold to_break. apply _. Defined.

(** Nothing is left to break; other promises are as they were; and for each that
    was to be broken the host is gone, or was informed, or is marked down and the
    promise is delayed. *)
Record broke (xhost : Z) (fid : AFSFid) (flag : bool) (s : cbstate) (P : gmap Z promise) (s' : cbstate) (P' : gmap Z promise) (new : list message) : Prop := {
  br_none : forall c p, P' !! c = Some p -> ~ to_break xhost fid flag p;
  br_others : forall c p, P !! c = Some p -> ~ to_break xhost fid flag p -> P' !! c = Some p;
  br_from : forall c p, P' !! c = Some p -> P !! c = Some p
            \/ exists d q, P !! d = Some q /\ to_break xhost fid flag q /\ p = delayed q /\ down s' (p_host p);
  br_each : forall c p, P !! c = Some p -> to_break xhost fid flag p -> broken s s' P' new fid (p_host p) (p_queue p)
}.

Lemma size_bound s P E : tables_keep s P E -> Z.of_nat (size P) <= nblks s.
Proof.
  intros K. pose proof (tk_tables _ _ _ K) as T. pose proof (tb_size _ _ _ T).
  assert (L : (length (elements (dom P)) <= Z.to_nat (nblks s))%nat).
  { apply nodup_bounded; [apply NoDup_elements |]. intros x Hx%elem_of_elements. apply (tb_cb _ _ _ T). by apply (tb_used _ _ _ T). }
  change (length (elements (dom P))) with (size (dom P)) in L. rewrite size_dom in L. lia.
Qed.

Lemma delayed_not xhost fid flag p : p_status p = CB_DELAYED -> ~ to_break xhost fid flag p.
Proof. intros E [_ [_ H]]. rewrite E in H. unfold CB_DELAYED, CB_BULK, CB_NORMAL, CB_VOLUME in H. lia. Qed.

Section break.
Context (space : nat) (xhost : Z) (fid : AFSFid) (flag : bool).

Lemma only_xhost_ok s P E FL BL f : tables_keep s P E -> files s (dom P) E FL BL -> f ∈ E ->
  (forall c p, P !! c = Some p -> cbf fhead s c = f <-> of_file fid p) ->
  exists b, only_xhost xhost flag (fef id s f) s = Some (b, s) /\ (b = true -> forall c p, P !! c = Some p -> ~ to_break xhost fid flag p).
Proof.
  intros K F Hf Hp. unfold only_xhost. change (firstcb (fef id s f)) with (fef firstcb s f). change (ncbs (fef id s f)) with (fef ncbs s f).
  pose proof (ls_list _ _ _ _ (proj1 F) f Hf) as HL. pose proof (ls_count _ _ _ _ (proj1 F) f Hf) as Hn.
  assert (HM : forall c p, P !! c = Some p -> to_break xhost fid flag p -> c ∈ FL f).
  { intros c p Hc [H1 _]. apply (file_member s P E FL BL f c p K F Hf Hc). by apply (Hp c p). }
  assert (HC : forall c, c ∈ FL f -> c ∈ dom P) by (intros c Hc; by apply (ls_elem _ _ _ _ (proj1 F)) in Hc as [? _]).
  destruct (FL f) as [| c l].
  - cbn [linked] in HL. rewrite HL. exists true. split; [done |]. intros _ c p Hc Hb. specialize (HM c p Hc Hb). by apply not_elem_of_nil in HM.
  - destruct HL as [-> HL]. pose proof (tk_tables _ _ _ K) as T. assert (Hc : c ∈ dom P) by (apply HC; left).
    rewrite (proj2 (Z.eqb_neq c 0)) by by apply (cb_nonzero s _ _ (tb_bounds T)).
    rewrite (bind_ok _ _ _ _ _ (get_cb_ok s c (tb_used _ _ _ T c Hc))). eexists. split; [done |]. intros Hb. bool_hyps.
    assert (l = []) as -> by (apply nil_length_inv; rewrite Hn in *; cbn [length] in *; lia).
    intros d p Hd Ht. pose proof (HM d p Hd Ht) as Hin%list_elem_of_singleton. subst d. destruct Ht as [_ [[Hx | Hx] _]]; [| by rewrite Hx in *].
    apply Hx. rewrite (tk_promise _ _ _ K c p Hd). done.
Qed.

Lemma break_rounds_ok fuel : forall s P, keeps s P -> Z.of_nat (size P + size leaked) <= nblks s -> (size (filter (fun x => to_break xhost fid flag x.2) P) < fuel)%nat ->
  exists s' P' new, break_rounds space xhost fid flag fuel s = Some (tt, s') /\ keeps s' P' /\ grows s s' new /\ broke xhost fid flag s P s' P' new.
Proof.
  induction fuel as [| fuel IH]; intros s P (E & K) Hrm Hfu; [lia |]. cbn [break_rounds].
  destruct (find_file s P E fid K) as (f & Ef & [[-> Hno] | (Hf0 & Hf & Hp)]); rewrite (bind_ok _ _ _ _ _ Ef).
  { exists s, P, []. split; [done | split; [by exists E | split; [by apply grows_quiet |]]].
    assert (Hnb : forall c p, P !! c = Some p -> ~ to_break xhost fid flag p).
    { intros c p Hc [[H1 H2] _]. by rewrite (Hno c p Hc H1) in H2. }
    split; [done | done | by left |]. intros c p Hc Hb. by destruct (Hnb c p Hc Hb). }
  rewrite (proj2 (Z.eqb_neq f 0) Hf0). pose proof (tk_tables _ _ _ K) as T. destruct (tk_filed _ _ _ K) as (FL & BL & F).
  rewrite (bind_ok _ _ _ _ _ (get_fe_ok s f (tb_files _ _ _ T f Hf))).
  destruct (only_xhost_ok s P E FL BL f K F Hf Hp) as (b & Eb & Hb). rewrite (bind_ok _ _ _ _ _ Eb). destruct b.
  { exists s, P, []. split; [done | split; [by exists E | split; [by apply grows_quiet |]]].
    specialize (Hb eq_refl). split; [done | done | by left |]. intros c p Hc Ht. by destruct (Hb c p Hc Ht). }
  clear Hb. rewrite (bind_ok _ _ s (fuel_of s) s) by done. change (firstcb (fef id s f)) with (fef firstcb s f).
  pose proof (ls_list _ _ _ _ (proj1 F) f Hf) as HL. pose proof (ls_nodup _ _ _ _ (proj1 F) f Hf) as HN.
  assert (HM : forall c p, P !! c = Some p -> c ∈ FL f <-> of_file fid p).
  { intros c p Hc. rewrite (file_member s P E FL BL f c p K F Hf Hc). apply (Hp c p Hc). }
  assert (HC : forall c, c ∈ FL f -> c ∈ dom P) by (intros c Hc; by apply (ls_elem _ _ _ _ (proj1 F)) in Hc as [? _]).
  pose proof (list_short s _ E FL BL (tb_bounds T) F f Hf) as Hlen.
  destruct (collect_ok xhost flag (FL f) s P E (fef firstcb s f) MAX_CB_HOSTS (fuel_of s) K HL HN HC ltac:(unfold fuel_of; lia)) as (s1 & w & E1 & Ec & K1 & Q1).
  cbn zeta in *. set (isd := fun h => has_flag VENUSDOWN (hof s h)) in *.
  pose proof (collected_in isd xhost flag (FL f) MAX_CB_HOSTS P) as I1. pose proof (collected_out isd xhost flag (FL f) MAX_CB_HOSTS P) as I2.
  pose proof (collected_from isd xhost flag (FL f) MAX_CB_HOSTS P) as I3. pose proof (collected_size isd xhost flag (FL f) MAX_CB_HOSTS P) as [I4 I5].
  pose proof (fun c p => collected_all isd xhost flag (FL f) MAX_CB_HOSTS P c p HN) as I6.
  assert (I7 : NoDup (collected isd xhost flag (FL f) MAX_CB_HOSTS P).1.*1).
  { apply collected_hosts; [done |]. intros c d p q Hc Hd Hpc Hqd Eh. apply (promise_once s P E c d p q (p_host p) fid K Hpc Hqd).
    - destruct (proj1 (HM c p Hpc) Hc). done.
    - destruct (proj1 (HM d q Hqd) Hd). done. }
  rewrite (bind_ok _ _ _ _ _ Ec). cbn [fst snd]. set (r := (collected isd xhost flag (FL f) MAX_CB_HOSTS P).1) in *.
  set (P1 := (collected isd xhost flag (FL f) MAX_CB_HOSTS P).2) in *.
  pose proof (grows_quiet s s1 Q1) as G1.
  assert (J : forall c p, P !! c = Some p -> ~ to_break xhost fid flag p -> P1 !! c = Some p).
  { intros c p Hc Hb. destruct (I1 c HN) as [-> | (p' & Hc' & H1 & H2 & _)]; [done |]. rewrite Hc in Hc'. injection Hc' as <-.
    exfalso. apply Hb. split; [| done]. by apply (HM c p). }
  assert (JF : forall c p, P1 !! c = Some p -> P !! c = Some p
    \/ exists d q, P !! d = Some q /\ to_break xhost fid flag q /\ p = delayed q /\ down s1 (p_host p)).
  { intros c p Hc. destruct (I1 c HN) as [<- | (p' & Hc' & Hca & Hin & [[Hd Hc1] | [Hc1 _]])]; [by left | | by rewrite Hc1 in Hc].
    rewrite Hc1 in Hc. injection Hc as <-. right. exists c, p'. split; [done | split; [split; [by apply (HM c p') | done] | split; [done |]]].
    by apply (gr_down _ _ _ G1). }
  destruct (Nat.eqb_spec (length r) 0) as [Er | Er].
  - exists s1, P1, []. split; [done | split; [by exists E1 | split; [done |]]]. apply nil_length_inv in Er. split; [| done | done |].
    + intros c p Hc [Ho Hca]. destruct (decide (c ∈ FL f)) as [Hin | Hin].
      * apply (I6 c p); [unfold r in *; rewrite Er; cbn; unfold MAX_CB_HOSTS; lia | done | done | done].
      * rewrite I2 in Hc by done. apply Hin. by apply (HM c p).
    + intros c p Hc [Ho Hca]. destruct (I1 c HN) as [Eq | (p' & Hc' & _ & Hin & [[Hd Hc1] | [_ Hr]])].
      * exfalso. apply (I6 c p); [unfold r in *; rewrite Er; cbn; unfold MAX_CB_HOSTS; lia | by apply (HM c p) | by rewrite Eq | done].
      * rewrite Hc in Hc'. injection Hc' as <-. right. right. split; [by apply (gr_down _ _ _ G1) |]. exists c.
        destruct p as [a b h t q], Ho as [O1 O2]. cbn in *. by rewrite Hc1, O1, O2.
      * fold r in Hr. rewrite Er in Hr. by apply not_elem_of_nil in Hr.
  - pose proof (sort_perm r) as Hs. destruct (multi_ok space fid (sort_cba r) s1 P1) as (s2 & P2 & n2 & E2 & K2 & G2 & Y1 & Y2 & YS & B2).
    + by exists E1.
    + rewrite Hs, (quiet_nblks s s1 Q1). lia.
    + by rewrite Hs.
    + intros x Hx. rewrite Hs in Hx. destruct (I3 x HN Hx) as (c & p & Hin & Hc & Hca & -> & Hg). cbn [fst snd].
      split; [apply (quiet_known s s1); [done |]; by apply (known_host s P E c) | split].
      * pose proof (queue_range s P E c p K Hc). unfold in_queues, CB_NUM_TIMEOUT_QUEUES. lia.
      * intros d q Hd Hq. assert (Ho : of_file fid p) by by apply (HM c p). destruct (I1 d HN) as [Eq | (p' & Hd' & _ & Hind & [[_ Hd1] | [Hd1 _]])].
        -- rewrite Eq in Hd. assert (c = d) as ->; [| by rewrite Hg in Eq; rewrite <- Eq in Hd].
           by apply (promise_once s P E c d p q (p_host p) fid K Hc Hd).
        -- assert (c = d) as ->; [| by rewrite Hg in Hd1].
           apply (promise_once s P E c d p p' (p_host p) fid K Hc Hd'); [done |]. rewrite Hd1 in Hd. injection Hd as <-. exact Hq.
        -- by rewrite Hd1 in Hd.
    + unfold MultiBreakCallBack_r. rewrite (bind_ok _ _ _ _ _ E2).
      destruct (IH s2 P2 K2) as (s3 & P3 & n3 & E3 & K3 & G3 & [Z1 Z2 ZF Z3]).
      { rewrite Hs in YS. destruct (gr_rest _ _ _ G2) as (_ & _ & -> & _). rewrite (quiet_nblks s s1 Q1). lia. }
      { destruct r as [| x r'] eqn:Exr; [done |]. destruct (I3 x HN) as (c & p & Hin & Hc & Hca & -> & Hg); [first [by left | rewrite Exr; by left] |].
        assert (Hsub : dom (filter (fun x => to_break xhost fid flag x.2) P2) ⊂ dom (filter (fun x => to_break xhost fid flag x.2) P)).
        { assert (Hkeep : forall d q, P2 !! d = Some q -> to_break xhost fid flag q -> P1 !! d = Some q /\ P !! d = Some q).
          { intros d q Hd Hq. destruct (Y2 d q Hd) as [Hd1 | (x & _ & -> & _)]; [| by apply (delayed_not xhost fid flag) in Hq]. split; [done |].
            destruct (I1 d HN) as [<- | (p' & Hd' & _ & _ & [[_ Hd2] | [Hd2 _]])]; [done | |].
            - rewrite Hd2 in Hd1. injection Hd1 as <-. by apply (delayed_not xhost fid flag) in Hq.
            - by rewrite Hd2 in Hd1. }
          split.
          - intros d (q & [Hd Hq]%map_lookup_filter_Some)%elem_of_dom. cbn in Hq. apply elem_of_dom. exists q.
            apply map_lookup_filter_Some. split; [by apply (Hkeep d q) | done].
          - intros Hsub. assert (Hin' : c ∈ dom (filter (fun x => to_break xhost fid flag x.2) P)).
            { apply elem_of_dom. exists p. apply map_lookup_filter_Some. split; [done |]. split; [by apply (HM c p) | done]. }
            apply Hsub, elem_of_dom in Hin' as (q & [Hd Hq]%map_lookup_filter_Some). destruct (Hkeep c q Hd Hq) as [H1 _].
            by rewrite Hg in H1. }
        apply subset_size in Hsub. rewrite !size_dom in Hsub. lia. }
      exists s3, P3, (n3 ++ n2). split; [done | split; [done |]].
      split; [apply (grows_trans s s2); [| done]; replace n2 with (n2 ++ []) by apply app_nil_r; by apply (grows_trans s s1) |].
      assert (B3 : forall h q, broken s1 s2 P2 n2 fid h q -> broken s s3 P3 (n3 ++ n2) fid h q).
      { intros h q [B | [(m & Hm & Hi) | (Hd & c & Hc)]].
        - left. by apply (gr_deleted _ _ _ G1).
        - right. left. exists m. split; [set_solver | done].
        - right. right. split; [by apply (gr_down _ _ _ G3) |]. exists c. apply Z2; [done |]. by apply delayed_not. }
      split; [done | | |].
      * intros c p Hc Hb. apply Z2; [| done]. by apply Y1, J.
      * assert (F2 : forall c p, P2 !! c = Some p -> P !! c = Some p
          \/ exists d q, P !! d = Some q /\ to_break xhost fid flag q /\ p = delayed q /\ down s2 (p_host p)).
        { intros c p Hc. destruct (Y2 c p Hc) as [Hc1 | (x & Hin & -> & Hd)].
          - destruct (JF c p Hc1) as [| (d & q & H1 & H2 & H3 & H4)]; [by left |]. right. exists d, q.
            do 3 (split; [done |]). by apply (gr_down _ _ _ G2).
          - rewrite Hs in Hin. destruct (I3 x HN Hin) as (d & q & H1 & H2 & H3 & -> & _). right. exists d, q.
            assert (Ho : of_file fid q) by by apply (HM d q). split; [done | split; [done | split; [| done]]].
            destruct Ho as [<- <-]. done. }
        intros c p Hc. destruct (ZF c p Hc) as [Hc2 | (d & q & H1 & H2 & H3 & H4)].
        -- destruct (F2 c p Hc2) as [| (d & q & H1 & H2 & H3 & H4)]; [by left |]. right. exists d, q.
           do 3 (split; [done |]). by apply (gr_down _ _ _ G3).
        -- destruct (F2 d q H1) as [| (d' & q' & _ & _ & -> & _)]; [right; by exists d, q |]. exfalso. by apply (delayed_not xhost fid flag) in H2.
      * intros c p Hc Hb. destruct (I1 c HN) as [Eq | (p' & Hc' & _ & Hin & [[Hd Hc1] | [_ Hr]])].
        -- assert (Hc2 : P2 !! c = Some p) by (apply Y1; by rewrite Eq).
           destruct (Z3 c p Hc2 Hb) as [B | [(m & Hm & Hi) | (Hd & c' & Hc')]].
           ++ left. apply (gr_deleted _ _ _ G1). by apply (gr_deleted _ _ _ G2).
           ++ right. left. exists m. split; [set_solver | done].
           ++ right. right. split; [done | by exists c'].
        -- rewrite Hc in Hc'. injection Hc' as <-. right. right. split; [by apply (gr_down _ _ _ G3), (gr_down _ _ _ G2), (gr_down _ _ _ G1) |].
           exists c. apply Z2; [| by apply delayed_not]. apply Y1. destruct p as [a b h t q], (proj1 Hb) as [O1 O2]. cbn in *. by rewrite Hc1, O1, O2.
        -- rewrite Hc in Hc'. injection Hc' as <-. apply B3. apply (B2 (p_host p, p_queue p)). by rewrite Hs.
Qed.
End break.

Lemma BreakCallBack_ok s P space xhost fid flag : keeps s P -> Z.of_nat (size P + size leaked) <= nblks s -> exists s' P' new,
  BreakCallBack space xhost fid flag s = Some (tt, s') /\ keeps s' P' /\ grows s s' new /\ broke xhost fid flag s P s' P' new.
Proof.
  intros K Hr. unfold BreakCallBack. rewrite (bind_ok _ _ s (fuel_of s) s) by done. apply break_rounds_ok; [done | done |].
  destruct K as (E & K). pose proof (size_bound s P E K). unfold fuel_of.
  assert (size (filter (fun x => to_break xhost fid flag x.2) P) <= size P)%nat; [| lia].
  rewrite <- !(size_dom (D := gset Z)). apply subseteq_size. apply dom_filter_subseteq.
Qed.
End leaks.
