(* ===== verification/CallbackServe.v ===== *)
(** The promises of the file server over time: the tables at the start, when a
    promise expires for the client and for the server, making space, and the
    theorems about the operations, with a small server. *)
From S2P Require Import Prelude Rings Monad Callback CallbackSpec CallbackFiles CallbackOps CallbackAdd CallbackBreak.

#[local] Open Scope monad_scope.

Section leaks.
Context {lk : Leaked}.

(** ** The start *)

Lemma blank_lookup {A} (b : A) n i : (list_to_map (map (fun i => (i, b)) (map Z.of_nat (seq 1 n))) : gmap Z A) !! i
  = if decide (1 <= i <= Z.of_nat n) then Some b else None.
Proof.
  assert (HN : NoDup (map Z.of_nat (seq 1 n))) by (apply NoDup_fmap_2; [intros a c; lia | apply NoDup_seq]).
  destruct (decide (1 <= i <= Z.of_nat n)) as [Hi | Hi].
  - apply elem_of_list_to_map.
    + rewrite <- list_fmap_compose. by rewrite (list_fmap_ext _ id), list_fmap_id by done.
    + apply list_elem_of_fmap. exists i. split; [done |]. apply list_elem_of_fmap. exists (Z.to_nat i). split; [lia |]. apply elem_of_seq. lia.
  - apply not_elem_of_list_to_map. intros ([j b'] & E & Hin)%list_elem_of_fmap. cbn in E. subst j.
    apply list_elem_of_fmap in Hin as (j & E & Hin). injection E as <- _. apply list_elem_of_fmap in Hin as (k & -> & Hk). apply elem_of_seq in Hk. lia.
Qed.

(** Nothing is promised. *)
Lemma InitCallBack_keeps n s : 0 <= n < 2147483648 -> HashTable s = ∅ -> timeout s = ∅ -> (forall h g, hosts s !! h = Some g -> cblist g = 0) ->
  keeps (InitCallBack n s) ∅.
Proof.
  intros Hn Hh Ht Hl. set (s0 := InitCallBack n s).
  assert (Ic : forall x, is_cb s0 x <-> 1 <= x <= n).
  { intros x. unfold is_cb, s0, InitCallBack. cbn [CB]. rewrite blank_lookup. case_decide; split; try lia; [done | by intros [? ?]]. }
  assert (If : forall x, is_fe s0 x <-> 1 <= x <= n).
  { intros x. unfold is_fe, s0, InitCallBack. cbn [FE]. rewrite blank_lookup. case_decide; split; try lia; [done | by intros [? ?]]. }
  assert (HNs : NoDup (map Z.of_nat (seq 1 (Z.to_nat n))) /\ forall x, x ∈ map Z.of_nat (seq 1 (Z.to_nat n)) <-> 1 <= x <= n).
  { split; [apply NoDup_fmap_2; [intros a c; lia | apply NoDup_seq] |]. intros x. rewrite list_elem_of_fmap. split.
    - intros (k & -> & Hk%elem_of_seq). lia.
    - intros Hx. exists (Z.to_nat x). split; [lia |]. apply elem_of_seq. lia. }
  destruct HNs as [HN HE]. assert (N : forall x : Z, x ∉ (∅ : gset Z)) by (intros x; apply not_elem_of_empty).
  assert (D : dom (∅ : gmap Z promise) = (∅ : gset Z)) by apply dom_empty_L.
  exists ∅. split; [split | split]; rewrite ?D.
  - split; [split; [done | exact Ic | exact If | by intros c ?%N | by intros c ?%N] | |].
    + split; [exact HN |]. intros x. change (CBfree s0) with (map Z.of_nat (seq 1 (Z.to_nat n))). rewrite HE, Ic. naive_solver.
    + split; [exact HN |]. intros x. change (FEfree s0) with (map Z.of_nat (seq 1 (Z.to_nat n))). rewrite HE, If. naive_solver.
  - exists (fun _ => []), (fun _ => []). split.
    + split; [by intros f ?%N | by intros f ?%N | by intros f c ?%N | by intros c ?%N | by intros c d ?%N | by intros f ?%N].
    + split.
      * intros h. unfold bucket. cbn [HashTable s0 InitCallBack]. by rewrite Hh, lookup_empty.
      * intros h. apply NoDup_nil_2.
      * intros h f. split; [by intros ?%not_elem_of_nil | by intros [?%N _]].
      * by intros f g ?%N.
  - intros c p Hp. by rewrite lookup_empty in Hp.
  - by intros f ?%N.
  - exists (fun _ => []). split; [| by intros c ?%N]. split.
    + intros i _. unfold queue. cbn [timeout s0 InitCallBack]. by rewrite Ht, lookup_empty.
    + intros i _. apply NoDup_nil_2.
    + intros i x _. split; [by intros ?%not_elem_of_nil | by intros [?%N _]].
  - exists (fun _ => []). split; [| by intros c ?%N]. split.
    + intros i [g Hg]. unfold host_list. cbn [hosts s0 InitCallBack] in *. rewrite Hg. cbn. by apply (Hl i).
    + intros i _. apply NoDup_nil_2.
    + intros i x _. split; [by intros ?%not_elem_of_nil | by intros [?%N _]].
Qed.

(** ** When a promise expires *)

Lemma TimeCeiling_spec t : 0 <= t -> t + 127 < 4294967296 -> t <= TimeCeiling t <= t + 127 /\ TimeCeiling t mod 128 = 0.
Proof.
  intros H1 H2. unfold TimeCeiling. rewrite u32_small by lia.
  assert (E : Z.land (t + 127) (Z.lnot 127) = (t + 127) - (t + 127) mod 128).
  { change 127 with (Z.ones 7) at 2. rewrite <- Z.ldiff_land, Z.ldiff_ones_r, Z.shiftr_div_pow2, Z.shiftl_mul_pow2 by lia.
    change (2 ^ 7) with 128. pose proof (Z.div_mod (t + 127) 128). lia. }
  rewrite E. pose proof (Z.mod_pos_bound (t + 127) 128). split; [lia |].
  pose proof (Z.div_mod (t + 127) 128). rewrite <- (Z.mod_unique_pos _ 128 ((t + 127) / 128) 0); lia.
Qed.

Lemma TimeOut_range n : 0 <= n -> 420 <= TimeOut n <= 14400.
Proof.
  intros Hn. unfold TimeOut, MinTimeOut. case_test; [lia |]. assert (Hs : 0 <= Z.shiftr n 3 < 8) by (rewrite Z.shiftr_div_pow2 by lia; change (2 ^ 3) with 8; zdiv).
  set (k := Z.shiftr n 3) in *. assert (Hk : k = 0 \/ k = 1 \/ k = 2 \/ k = 3 \/ k = 4 \/ k = 5 \/ k = 6 \/ k = 7) by lia.
  destruct Hk as [-> | [-> | [-> | [-> | [-> | [-> | [-> | ->]]]]]]]; split; vm_compute; discriminate.
Qed.

(** The time of the server, in whole blocks. *)
Lemma time_out_range type clock n time : time_out_of type clock n = Some time -> 0 <= n -> 0 <= clock < 4294952000 ->
  clock + 600 <= time <= clock + 14707 /\ time mod 128 = 0.
Proof.
  unfold time_out_of, ServerBias. intros Ht Hn Hc. pose proof (TimeOut_range n Hn). pose proof (TimeOut_range (22 + n) ltac:(lia)).
  repeat case_test_in Ht; [| | | done]; injection Ht as <-.
  - destruct (TimeCeiling_spec (clock + TimeOut n + 180)); [lia | lia |]. lia.
  - destruct (TimeCeiling_spec (60 * 120 + clock + 180)); [lia | lia |]. lia.
  - destruct (TimeCeiling_spec (clock + 180 + TimeOut (22 + n))); [lia | lia |]. lia.
Qed.

Lemma CBtime_div t : CBtime t = t / 128.
Proof. unfold CBtime. by rewrite Z.shiftr_div_pow2 by lia. Qed.

(** ** Making space *)

Lemma lih_none fresh hs l : fold_left (lih fresh None hs) l None = None.
Proof. induction l as [| i l IH]; [done |]. cbn [fold_left]. unfold lih at 2. by destruct (hs !! i). Qed.

Lemma lih_host_none fresh s : lih_host fresh None s = Some (None, s).
Proof. unfold lih_host, gets. by rewrite lih_none. Qed.

(** No other host is ever selected: the first host of a pass would have to be
    newer than the last, and there is none yet. *)
Lemma clear_others_none h s fuel : (2 <= fuel)%nat -> clear_others 0 h None fuel s = Some (false, s).
Proof.
  intros Hf. destruct fuel as [| [| fuel]]; [lia | lia |]. cbn [clear_others]. rewrite (bind_ok _ _ _ _ _ (lih_host_none _ s)). cbn [Nat.eqb].
  by rewrite (bind_ok _ _ _ _ _ (lih_host_none _ s)).
Qed.

(** What calls and flags leave. *)
Definition steady (s s' : cbstate) : Prop :=
  tfirst s' = tfirst s /\ now s' = now s /\ nblks s' = nblks s /\ hostList s' = hostList s /\ forall h, known s' h <-> known s h.

Lemma steady_trans s1 s2 s3 : steady s1 s2 -> steady s2 s3 -> steady s1 s3.
Proof. intros (A1 & A2 & A3 & A4 & A5) (B1 & B2 & B3 & B4 & B5). unfold steady. rewrite B1, B2, B3, B4. do 4 (split; [done |]). intros h. by rewrite B5. Qed.

Lemma steady_quiet s s' : quiet s' = quiet s -> steady s s'.
Proof. intros Q. destruct (grows_quiet s s' Q) as [_ K _ _ (R1 & R2 & R3 & R4) _]. done. Qed.

(** No other host was called, and [h] at most to forget all. *)
Definition only_reset (h : Z) (s s' : cbstate) : Prop :=
  exists new, calls s' = new ++ calls s /\ Forall (fun m => exists code, m = InitCallBackStateMsg h code) new.

#[export] Instance only_reset_preorder h : PreOrder (only_reset h).
Proof.
  split; [intros s; by exists [] |]. intros s1 s2 s3 (n1 & E1 & F1) (n2 & E2 & F2). exists (n2 ++ n1).
  by rewrite E2, E1, app_assoc, Forall_app.
Qed.

Definition settles (h : Z) (s s' : cbstate) : Prop := steady s s' /\ only_reset h s s'.

Lemma settles_trans h s1 s2 s3 : settles h s1 s2 -> settles h s2 s3 -> settles h s1 s3.
Proof. intros [A1 A2] [B1 B2]. split; [by apply (steady_trans s1 s2) | by transitivity s2]. Qed.
Lemma settles_quiet h s s' : quiet s' = quiet s -> settles h s s'.
Proof. intros Q. split; [by apply steady_quiet |]. exists []. split; [by injection Q | done]. Qed.

Lemma mod_flags x s h f P : known s h -> keeps s P -> (forall g, cblist (f g) = cblist g) -> exists s', mod_host h f s = Some (tt, s') /\ keeps s' P /\ settles x s s'.
Proof.
  intros Hk K Hf. exists (with_hosts (alter f h) s). split; [by apply mod_host_ok | split].
  - apply (keeps_shelves s); [| done]. unfold shelves, with_hosts. fields. by rewrite fmap_alter_keep.
  - split; [| by exists []]. do 4 (split; [done |]). intros y. apply known_alter.
Qed.

Lemma ClearHostCallbacks_keeps s P h : keeps s P -> known s h -> exists s', ClearHostCallbacks_r h s = Some (tt, s')
  /\ keeps s' (without (to_host h) P) /\ settles h s s'.
Proof.
  intros K Hk. unfold ClearHostCallbacks_r. destruct (DeleteAllCallBacks_keeps s P h K Hk) as (s1 & E1 & K1 & Q1).
  pose proof (settles_quiet h _ _ Q1) as S1. assert (Hk1 : known s1 h) by (by apply (quiet_known s s1)).
  rewrite (bind_ok _ _ _ _ _ E1), (bind_ok _ _ _ _ _ (get_host_ok s1 h Hk1)). destruct (has_flag VENUSDOWN (hof s1 h)).
  - destruct (mod_flags h s1 h (clear_flag RESETDONE) _ Hk1 K1) as (s2 & E2 & K2 & S2); [done |]. exists s2.
    split; [done | split; [done | by apply (settles_trans h s s1)]].
  - destruct (mod_flags h s1 h (clear_flag ALTADDR) _ Hk1 K1) as (s2 & E2 & K2 & S2); [done |]. rewrite (bind_ok _ _ _ _ _ E2).
    destruct (call_host_ok (InitCallBackStateMsg h) s2) as [code E3]. rewrite (bind_ok _ _ _ _ _ E3). set (s3 := with_calls _ _ s2).
    assert (K3 : keeps s3 (without (to_host h) P)) by by apply (keeps_shelves s2).
    assert (S3 : settles h s s3).
    { apply (settles_trans h s s1); [done |]. apply (settles_trans h s1 s2); [done |]. split; [done |].
      exists [InitCallBackStateMsg h code]. split; [done |]. constructor; [by exists code | constructor]. }
    assert (Hk3 : known s3 h) by by apply S3.
    destruct (mod_flags h s3 h (set_flag ALTADDR) _ Hk3 K3) as (s4 & E4 & K4 & S4); [done |]. rewrite (bind_ok _ _ _ _ _ E4).
    pose proof (settles_trans h _ _ _ S3 S4) as S5. assert (Hk4 : known s4 h) by by apply S5. destruct (negb (code =? 0)).
    + destruct (mod_flags h s4 h (fun g => clear_flag RESETDONE (set_flag VENUSDOWN g)) _ Hk4 K4) as (s5 & E5 & K5 & S6); [done |].
      exists s5. split; [done | split; [done | by apply (settles_trans h s s4)]].
    + destruct (mod_flags h s4 h (set_flag RESETDONE) _ Hk4 K4) as (s5 & E5 & K5 & S6); [done |].
      exists s5. split; [done | split; [done | by apply (settles_trans h s s4)]].
Qed.

(** Whatever the time, a round of making space ends. When nothing expires
    until then it gives up the host's own promises only; otherwise what
    expires, and nothing else. *)
Definition none_expired (s : cbstate) (P : gmap Z promise) (t : Z) : Prop := forall c p, P !! c = Some p -> ~ expired (tfirst s) (CBtime t) p.

Lemma GetSomeSpace_none s P h : keeps s P -> known s h -> none_expired s P (now s) -> exists s', GetSomeSpace_r h s = Some (tt, s')
  /\ keeps s' (without (to_host h) P) /\ nblks s' = nblks s /\ tfirst s' = Z.max (tfirst s) (CBtime (now s) + 1)
  /\ (forall x, known s' x <-> known s x) /\ only_reset h s s'.
Proof.
  intros K Hk Ha. unfold GetSomeSpace_r. destruct (Cleanup_keeps s P K) as (s1 & E1 & K1 & Q1).
  rewrite (without_none (expired (tfirst s) (CBtime (now s))) P Ha) in E1, K1. rewrite bool_decide_eq_false_2 in E1 by naive_solver.
  rewrite (bind_ok _ _ _ _ _ E1), (bind_ok _ _ s1 (length (hostList s1)) s1) by done.
  rewrite (bind_ok _ _ _ _ _ (clear_others_none h s1 (2 * length (hostList s1) + 3) ltac:(lia))). pose proof (steady_quiet _ _ Q1) as (R1 & R2 & R3 & R4 & R5).
  destruct (ClearHostCallbacks_keeps s1 P h K1) as (s2 & E2 & K2 & (T1 & T2 & T3 & T4 & T5) & C2); [by apply R5 |]. exists s2.
  split; [done | split; [done |]]. rewrite T1, T3, R1, R3. cbn. split; [done | split; [done | split]].
  - intros x. by rewrite T5, R5.
  - destruct C2 as (new & C2 & F). exists new. split; [| done]. rewrite C2. f_equal. by injection Q1.
Qed.

Lemma GetSomeSpace_some s P h : keeps s P -> ~ none_expired s P (now s) -> exists s', GetSomeSpace_r h s = Some (tt, s')
  /\ keeps s' (without (expired (tfirst s) (CBtime (now s))) P) /\ nblks s' = nblks s
  /\ (size (without (expired (tfirst s) (CBtime (now s))) P) < size P)%nat.
Proof.
  intros K Ha. unfold GetSomeSpace_r. destruct (Cleanup_keeps s P K) as (s1 & E1 & K1 & Q1). set (Q := without _ P) in *.
  assert (Hlt : Q ⊂ P).
  { split; [apply map_filter_subseteq |]. intros Hs. apply Ha. intros c p Hp He. pose proof (lookup_weaken _ _ _ _ Hp Hs) as H.
    unfold Q, without in H. by apply map_lookup_filter_Some in H as [_ []]. }
  rewrite bool_decide_eq_true_2 in E1 by (intros E; rewrite E in Hlt; by apply (irreflexivity (⊂) P)).
  rewrite (bind_ok _ _ _ _ _ E1). exists s1. split; [done | split; [done | split; [by injection Q1 | by apply map_subset_size]]].
Qed.

Lemma full_tables s P : keeps s P -> Z.of_nat (size P) = nblks s -> CBfree s = [].
Proof.
  intros (E & K) Hs. pose proof (tk_tables _ _ _ K) as T. destruct (CBfree s) as [| c l] eqn:Ec; [done |]. exfalso.
  destruct (tb_cbfree _ _ _ T) as [_ H1]. assert (Hc : is_cb s c /\ c ∉ dom P) by (apply H1; rewrite Ec; left). destruct Hc as [Hc1 Hc2].
  assert (L : (length (c :: elements (dom P)) <= Z.to_nat (nblks s))%nat).
  { apply nodup_bounded.
    - apply NoDup_cons. split; [by rewrite elem_of_elements | apply NoDup_elements].
    - intros x [-> | Hx]%elem_of_cons; [by apply (tb_cb _ _ _ T) |]. apply elem_of_elements in Hx. by apply (tb_cb _ _ _ T), (tb_used _ _ _ T). }
  cbn [length] in L. change (length (elements (dom P))) with (size (dom P)) in L. rewrite size_dom in L. lia.
Qed.

(** Once the queues were looked at up to now, what has not expired will when it would have. *)
Lemma expiry_later first first' q : 1 <= q <= 128 -> first <= first' <= expiry first q -> expiry first' q = expiry first q.
Proof. intros Hq Hf. destruct (expiry_spec first q Hq) as [H1 H2]. rewrite <- H2 at 1. apply expiry_unique. lia. Qed.

Lemma none_expired_later s s' P u t : keeps s P -> tfirst s' = Z.max (tfirst s) (CBtime u + 1) -> none_expired s P u ->
  none_expired s' P t <-> none_expired s P t.
Proof.
  intros (E & K) Ht Hu. unfold none_expired, expired in *. rewrite Ht.
  split; intros H c p Hp; specialize (H c p Hp); specialize (Hu c p Hp); pose proof (queue_range s P E c p K Hp) as Hq;
    destruct (expiry_spec (tfirst s) _ Hq); rewrite (expiry_later (tfirst s)) in * by (done || lia); done.
Qed.

Lemma keeps_now t s P : keeps s P -> keeps (with_now t s) P.
Proof. by apply keeps_shelves. Qed.

Lemma try_entry_starves h P clock : forall s, keeps s P -> known s h -> Z.of_nat (size P) = nblks s ->
  (forall c p, P !! c = Some p -> p_host p <> h) -> (forall t, t ∈ clock -> none_expired s P t) ->
  exists s', try_entry iGetCB h clock s = None_yet s' /\ keeps s' P /\ known s' h /\ nblks s' = nblks s
    /\ (forall t, none_expired s' P t <-> none_expired s P t) /\ only_reset h s s'
    /\ forall more, try_entry iGetCB h (clock ++ more) s = try_entry iGetCB h more s'.
Proof.
  induction clock as [| t clock IH]; intros s K Hk Hs Hh Ht; cbn [try_entry app]; [by exists s |].
  pose proof (keeps_now t s P K) as K0. assert (E0 : iGetCB (with_now t s) = Some (0, with_now t s)) by (unfold iGetCB; by rewrite (full_tables _ P K0 Hs)).
  rewrite E0. cbn [Z.eqb negb]. destruct (GetSomeSpace_none (with_now t s) P h K0 Hk) as (s1 & E1 & K1 & N1 & T1 & N2 & C1); [apply Ht; left |].
  rewrite E1. rewrite (without_none (to_host h) P) in K1 by exact Hh.
  assert (HX : forall u, none_expired s1 P u <-> none_expired s P u).
  { intros u. apply (none_expired_later (with_now t s) s1 P t u); [done | done | apply Ht; left]. }
  destruct (IH s1) as (s2 & E2 & K2 & Hk2 & N3 & X2 & C2 & M2); [done | by apply N2 | by rewrite N1 | done | intros u Hu; apply HX, Ht; by right |].
  exists s2. split; [done | split; [done | split; [done | split; [by rewrite N3 | split; [intros u; by rewrite X2 | split; [by transitivity s1 | done]]]]]].
Qed.

(** A time at which something has expired ends it. *)
Lemma try_entry_gets h P t s : keeps s P -> known s h -> Z.of_nat (size P) = nblks s -> ~ none_expired s P t ->
  exists c s', try_entry iGetCB h [t; t] s = Got c s' /\ c <> 0.
Proof.
  intros K Hk Hs Ht. cbn [try_entry]. pose proof (keeps_now t s P K) as K0.
  assert (E0 : iGetCB (with_now t s) = Some (0, with_now t s)) by (unfold iGetCB; by rewrite (full_tables _ P K0 Hs)). rewrite E0. cbn [Z.eqb negb].
  destruct (GetSomeSpace_some (with_now t s) P h K0 Ht) as (s1 & E1 & K1 & N1 & Hlt). rewrite E1. set (P1 := without _ P) in *.
  pose proof (keeps_now t s1 P1 K1) as K2. pose proof (free_room (with_now t s1) P1 K2) as Hr. change (nblks (with_now t s1)) with (nblks s1) in Hr.
  rewrite N1 in Hr. change (nblks (with_now t s)) with (nblks s) in Hr. unfold iGetCB.
  destruct (CBfree (with_now t s1)) as [| c l] eqn:Ef; [exfalso; apply Hr; [lia | done] |].
  assert (Hc : c <> 0).
  { destruct K2 as (E2 & K2). pose proof (tk_tables _ _ _ K2) as T. destruct (tb_cbfree _ _ _ T) as [_ H1].
    assert (Hc : is_cb (with_now t s1) c) by (apply H1; rewrite Ef; left). apply (tb_cb _ _ _ T) in Hc. lia. }
  rewrite (proj2 (Z.eqb_neq c 0) Hc). cbn [negb]. by eexists _, _.
Qed.

End leaks.

(** ** What the operations do

    Every file entry in use has a callback. *)

#[local] Instance no_leak : Leaked := (∅ : gset Z).

Lemma no_leaks : size (@leaked no_leak) = 0%nat.
Proof. apply size_empty. Qed.

(** C15. AddCallBack1_r, while an entry is free, never fails: afterwards the tables
    keep one promise more, for the host and the file, or the promise the host had
    is renewed, its time only ever prolonged and a delayed one left delayed; all
    other promises, the hosts and the calls are as they were, and the client is
    told the time of the promise less the bias. *)
Theorem AddCallBack1_spec s P space h fid t type : keeps s P -> Z.of_nat (size P) < nblks s -> known s h -> timed_type type t ->
  exists s' P', AddCallBack1_r space h fid t type s = Some (told type (now s) (count fid P), s') /\ keeps s' P'
    /\ added (tfirst s) h fid type (queue_of type (now s) (count fid P) t) P P' /\ quiet s' = quiet s.
Proof. intros K Hr Hk Ht. apply AddCallBack1_keeps; [done | by rewrite no_leaks, Nat.add_0_r | done | done]. Qed.

(** C16. The three deletions never fail and take back exactly what they are for:
    the promise of a file to a host, all of a file, all to a host; the tables keep
    the other promises, and the rest of the state is as it was. *)
Theorem deletions_spec s P h fid : keeps s P -> known s h ->
  (exists s', DeleteCallBack h fid s = Some (tt, s') /\ keeps s' (without (is_promise h fid) P) /\ quiet s' = quiet s)
  /\ (exists s', DeleteFileCallBacks fid s = Some (tt, s') /\ keeps s' (without (of_file fid) P) /\ quiet s' = quiet s)
  /\ (exists s', DeleteAllCallBacks_r h true s = Some (tt, s') /\ keeps s' (without (to_host h) P) /\ quiet s' = quiet s).
Proof.
  intros K Hk. split; [by apply DeleteCallBack_keeps | split; [by apply DeleteFileCallBacks_keeps | by apply DeleteAllCallBacks_keeps]].
Qed.

(** C17. CleanupTimedOutCallBacks_r ends after the queues up to the present one,
    however many those are, and takes back exactly the promises that have
    expired; it tells whether there were any. *)
Theorem Cleanup_spec s P : keeps s P -> exists s', let Q := expired (tfirst s) (CBtime (now s)) in
  CleanupTimedOutCallBacks_r s = Some (bool_decide (without Q P <> P), s') /\ keeps s' (without Q P)
  /\ quiet s' = quiet (with_tfirst (Z.max (tfirst s) (CBtime (now s) + 1)) s).
Proof. apply Cleanup_keeps. Qed.

(** The client's promise ends before the server's: provided the queues were
    cleaned up in the last 25 minutes, the promise put into a queue when it was
    made expires at the server exactly when the time that the client was told has
    passed by the bias of 180 seconds. *)
Theorem client_expires_first type clock n t first later_now p : 0 <= n -> 0 <= clock < 4294952000 ->
  type = CB_NORMAL \/ type = CB_VOLUME \/ type = CB_BULK -> CBtime clock - 12 <= first <= CBtime clock + 1 ->
  p_queue p = queue_of type clock n t -> expired first (CBtime later_now) p <-> told type clock n + ServerBias <= later_now.
Proof.
  intros Hn Hc Hty Hf Hq. unfold expired. rewrite Hq. unfold queue_of, told.
  destruct (time_out_of type clock n) as [time |] eqn:Et.
  2:{ destruct Hty as [-> | [-> | ->]]; discriminate. }
  destruct (time_out_range _ _ _ _ Et Hn Hc) as [Hr Hm]. unfold ServerBias. rewrite u32_small by lia. rewrite !CBtime_div in *.
  pose proof (Z.div_mod clock 128). pose proof (Z.div_mod time 128). pose proof (Z.div_mod later_now 128).
  pose proof (Z.mod_pos_bound clock 128). pose proof (Z.mod_pos_bound later_now 128).
  rewrite expiry_unique by lia. lia.
Qed.


(** C18. Waiting for an entry in AddCallBack1_r when every entry is promised to
    other hosts. Whatever times the clock shows at the tries, as long as no promise
    has expired at one of them each try ends, there is no entry yet and all
    promises are as they were: no other host is asked to give up its promises, and
    none of them is called; the host itself at most is, to forget all. A time at
    which a promise has expired ends the wait at the next try. *)
Theorem AddCallBack1_starves s P h : keeps s P -> known s h -> Z.of_nat (size P) = nblks s -> (forall c p, P !! c = Some p -> p_host p <> h) ->
  forall clock, (forall t, t ∈ clock -> none_expired s P t) ->
  (exists s', try_entry iGetCB h clock s = None_yet s' /\ keeps s' P /\ iGetCB s' = Some (0, s') /\ only_reset h s s')
  /\ forall t, ~ none_expired s P t -> exists c s', try_entry iGetCB h (clock ++ [t; t]) s = Got c s' /\ c <> 0.
Proof.
  intros K Hk Hs Hh clock Ht. destruct (try_entry_starves h P clock s K Hk Hs Hh Ht) as (s' & E & K' & Hk' & N' & X & C & M). split.
  - exists s'. split; [done | split; [done | split; [| done]]]. unfold iGetCB. by rewrite (full_tables s' P K') by (by rewrite N').
  - intros t Hn. rewrite M. apply (try_entry_gets h P t s' K' Hk'); [by rewrite N' |]. by rewrite X.
Qed.

(** ** A small server

    Three entries and three hosts; the first call has an error, and so has the
    second. *)
Definition base : cbstate :=
  CbState ∅ ∅ ∅ ∅ 0 [] [] 0 {[1 := Host 0 0 5 false; 2 := Host 0 0 7 false; 3 := Host 0 0 9 false]} [1; 2; 3] 1000000 [1; 1] [].
Definition file_a : AFSFid := Fid 536870912 2 11.
Definition file_b : AFSFid := Fid 536870912 4 12.
Definition s0 : cbstate := InitCallBack 3 base.
Definition after {A} (r : option (A * cbstate)) : cbstate := match r with Some (_, s) => s | None => base end.
Definition s1 : cbstate := after (AddCallBack1_r 0 1 file_a 0 CB_NORMAL s0).
Definition s2 : cbstate := after (AddCallBack1_r 0 2 file_a 0 CB_BULK s1).
Definition s3 : cbstate := after (AddCallBack1_r 0 1 file_b 0 CB_NORMAL s2).

Lemma s0_keeps : keeps s0 ∅.
Proof.
  apply InitCallBack_keeps; [lia | reflexivity | reflexivity |]. intros h g Hg. cbn [hosts base] in Hg.
  apply lookup_insert_Some in Hg as [[_ <-] | [_ Hg]]; [done |].
  apply lookup_insert_Some in Hg as [[_ <-] | [_ Hg]]; [done |]. by apply lookup_singleton_Some in Hg as [_ <-].
Qed.

Lemma after_ok {A} (r : option (A * cbstate)) : match r with Some _ => true | None => false end = true -> exists v, r = Some (v, after r).
Proof. destruct r as [[v s] |]; [by exists v | done]. Qed.

Lemma s0_known h : h = 1 \/ h = 2 \/ h = 3 -> known s0 h.
Proof. intros [-> | [-> | ->]]; eexists; reflexivity. Qed.

(** A promise more, in a state that is computed. *)
Lemma grown s P n h fid type : keeps s P -> quiet s = quiet s0 -> (size P <= n)%nat -> (n < 3)%nat -> h = 1 \/ h = 2 -> type = CB_NORMAL \/ type = CB_BULK ->
  match AddCallBack1_r 0 h fid 0 type s with Some _ => true | None => false end = true ->
  exists P', keeps (after (AddCallBack1_r 0 h fid 0 type s)) P' /\ quiet (after (AddCallBack1_r 0 h fid 0 type s)) = quiet s0 /\ (size P' <= S n)%nat
    /\ added (tfirst s) h fid type (queue_of type (now s) (count fid P) 0) P P'.
Proof.
  intros K Q Hs Hn Hh Ht Hr. destruct (after_ok _ Hr) as [r E].
  destruct (AddCallBack1_keeps s P 0 h fid 0 type K) as (s'' & P' & E' & K' & A & Q').
  - rewrite no_leaks, (quiet_nblks s0 s Q). change (nblks s0) with 3. lia.
  - apply (quiet_known s0 s); [done |]. apply s0_known. destruct Hh as [-> | ->]; [by left | right; by left].
  - destruct Ht as [-> | ->]; [by left | right; right; by left].
  - rewrite E in E'. injection E' as _ E'. rewrite E'. exists P'. split; [done | split; [by rewrite Q' | split; [| done]]].
    destruct A as [c Hc _ | c p Hc _]; [rewrite map_size_insert_None by done; lia | rewrite map_size_insert_Some by (by exists p); lia].
Qed.

Lemma s1_keeps : exists P, keeps s1 P /\ quiet s1 = quiet s0 /\ (size P <= 1)%nat.
Proof.
  destruct (grown s0 ∅ 0 1 file_a CB_NORMAL s0_keeps eq_refl) as (P & K & Q & Hs & _).
  - rewrite map_size_empty. apply le_n.
  - apply Nat.lt_0_succ.
  - left. exact eq_refl.
  - left. exact eq_refl.
  - vm_compute. exact eq_refl.
  - exists P. exact (conj K (conj Q Hs)).
Qed.
Lemma s2_keeps : exists P, keeps s2 P /\ quiet s2 = quiet s0 /\ (size P <= 2)%nat.
Proof.
  destruct s1_keeps as (P & K & Q & Hs). destruct (grown s1 P 1 2 file_a CB_BULK K Q Hs) as (P' & K' & Q' & Hs' & _).
  - apply (proj1 (Nat.ltb_lt 1 3) eq_refl).
  - right. exact eq_refl.
  - right. exact eq_refl.
  - vm_compute. exact eq_refl.
  - exists P'. exact (conj K' (conj Q' Hs')).
Qed.
Lemma s3_keeps : exists P, keeps s3 P /\ quiet s3 = quiet s0 /\ (size P <= 3)%nat.
Proof.
  destruct s2_keeps as (P & K & Q & Hs). destruct (grown s2 P 2 1 file_b CB_NORMAL K Q Hs) as (P' & K' & Q' & Hs' & _).
  - apply (proj1 (Nat.ltb_lt 2 3) eq_refl).
  - left. exact eq_refl.
  - left. exact eq_refl.
  - vm_compute. exact eq_refl.
  - exists P'. exact (conj K' (conj Q' Hs')).
Qed.

(** The promises of the last state are those of the entries 1 to 3. *)
Lemma s3_promise P c p : keeps s3 P -> P !! c = Some p -> c = 1 \/ c = 2 \/ c = 3.
Proof.
  intros (E & K) Hp. pose proof (tk_tables _ _ _ K) as T. apply elem_of_dom_2 in Hp. apply (tb_used _ _ _ T), (tb_cb _ _ _ T) in Hp.
  assert (En : nblks s3 = 3) by (vm_compute; exact eq_refl). rewrite En in Hp. lia.
Qed.
Lemma s3_all P (Q : promise -> bool) : keeps s3 P -> Q (promise_at s3 1) && Q (promise_at s3 2) && Q (promise_at s3 3) = true ->
  forall c p, P !! c = Some p -> Q p = true.
Proof.
  intros K HQ c p Hp. pose proof (s3_promise P c p K Hp) as Hc. destruct K as (E & K). rewrite (tk_promise _ _ _ K c p Hp).
  apply andb_prop in HQ as [[H1 H2]%andb_prop H3]. destruct Hc as [-> | [-> | ->]]; [exact H1 | exact H2 | exact H3].
Qed.

(** *** Witnesses *)

Lemma AddCallBack1_spec_witness : exists P, keeps s2 P /\ exists s' P',
  AddCallBack1_r 0 1 file_b 0 CB_NORMAL s2 = Some (told CB_NORMAL (now s2) (count file_b P), s') /\ keeps s' P'
    /\ added (tfirst s2) 1 file_b CB_NORMAL (queue_of CB_NORMAL (now s2) (count file_b P) 0) P P' /\ quiet s' = quiet s2.
Proof.
  destruct s2_keeps as (P & K & Q & Hs). exists P. split; [exact K |]. apply (AddCallBack1_spec s2 P 0 1 file_b 0 CB_NORMAL K).
  - rewrite (quiet_nblks s0 s2 Q). change (nblks s0) with 3. lia.
  - apply (quiet_known s0 s2 1 Q), s0_known. left. exact eq_refl.
  - left. exact eq_refl.
Defined.

Lemma deletions_spec_witness : exists P, keeps s3 P /\
  (exists s', DeleteCallBack 1 file_a s3 = Some (tt, s') /\ keeps s' (without (is_promise 1 file_a) P) /\ quiet s' = quiet s3)
  /\ (exists s', DeleteFileCallBacks file_a s3 = Some (tt, s') /\ keeps s' (without (of_file file_a) P) /\ quiet s' = quiet s3)
  /\ (exists s', DeleteAllCallBacks_r 1 true s3 = Some (tt, s') /\ keeps s' (without (to_host 1) P) /\ quiet s' = quiet s3).
Proof.
  destruct s3_keeps as (P & K & Q & Hs). exists P. split; [exact K |]. apply (deletions_spec s3 P 1 file_a K).
  apply (quiet_known s0 s3 1 Q), s0_known. left. exact eq_refl.
Defined.

Lemma Cleanup_spec_witness : exists P, keeps s3 P /\ exists s', let Q := expired (tfirst s3) (CBtime (now s3)) in
  CleanupTimedOutCallBacks_r s3 = Some (bool_decide (without Q P <> P), s') /\ keeps s' (without Q P)
  /\ quiet s' = quiet (with_tfirst (Z.max (tfirst s3) (CBtime (now s3) + 1)) s3).
Proof. destruct s3_keeps as (P & K & _). exists P. split; [exact K |]. apply (Cleanup_spec s3 P K). Defined.

Lemma client_expires_first_witness : expired 7813 (CBtime 1004000) (Promise file_a false 1 CB_NORMAL 12)
  <-> told CB_NORMAL 1000000 40 + ServerBias <= 1004000.
Proof.
  apply (client_expires_first CB_NORMAL 1000000 40 0 7813 1004000); [lia | lia | left; exact eq_refl | vm_compute; split; discriminate |].
  vm_compute. exact eq_refl.
Defined.


(** The calls that it makes, and the promise that is delayed. *)
Example break_calls : calls (after (BreakCallBack 0 2 file_a false s3)) = [AlternateMsg 1 [file_a] 1; CallBackMsg 1 [file_a] 1].
Proof. vm_compute. reflexivity. Qed.
Example break_delays : cbf status (after (BreakCallBack 0 2 file_a false s3)) 1 = CB_DELAYED.
Proof. vm_compute. reflexivity. Qed.

(** Nothing has expired a minute and a quarter of an hour on; five hours on it has. *)
Lemma AddCallBack1_starves_witness : exists P, keeps s3 P
  /\ (exists s', try_entry iGetCB 3 [1000000; 1000060; 1000900] s3 = None_yet s' /\ keeps s' P /\ iGetCB s' = Some (0, s') /\ only_reset 3 s3 s')
  /\ exists c s', try_entry iGetCB 3 ([1000000; 1000060; 1000900] ++ [1020000; 1020000]) s3 = Got c s' /\ c <> 0.
Proof.
  destruct s3_keeps as (P & K & Q & Hs). exists P. split; [exact K |].
  assert (Hn : Z.of_nat (size P) = nblks s3).
  { pose proof (free_room s3 P K) as Hr. rewrite (quiet_nblks s0 s3 Q) in *. change (nblks s0) with 3 in *.
    assert (Ef : CBfree s3 = []) by (vm_compute; exact eq_refl). destruct (Z.lt_ge_cases (Z.of_nat (size P)) 3) as [Hlt | Hge]; [| lia].
    exfalso. exact (Hr Hlt Ef). }
  destruct (AddCallBack1_starves s3 P 3 K) with (clock := [1000000; 1000060; 1000900]) as [H1 H2].
  - apply (quiet_known s0 s3 3 Q), s0_known. right. right. exact eq_refl.
  - exact Hn.
  - intros c p Hp. pose proof (s3_all P (fun p => negb (p_host p =? 3)) K ltac:(vm_compute; exact eq_refl) c p Hp) as H.
    apply negb_true_iff, Z.eqb_neq in H. exact H.
  - intros t Ht c p Hp.
    pose proof (s3_all P (fun p => forallb (fun t => negb (bool_decide (expired (tfirst s3) (CBtime t) p))) [1000000; 1000060; 1000900]) K) as H.
    specialize (H ltac:(vm_compute; exact eq_refl) c p Hp). apply forallb_forall with (x := t) in H; [| apply list_elem_of_In, Ht].
    apply negb_true_iff, bool_decide_eq_false in H. exact H.
  - split; [exact H1 |]. apply (H2 1020000). intros Hx. destruct (map_choose P) as (c & p & Hp); [intros EP; rewrite EP, map_size_empty in Hn; discriminate (eq_trans Hn (quiet_nblks s0 s3 Q)) |].
    apply (Hx c p Hp). pose proof (s3_all P (fun p => bool_decide (expired (tfirst s3) (CBtime 1020000) p)) K ltac:(vm_compute; exact eq_refl) c p Hp) as H.
    apply bool_decide_eq_true in H. exact H.
Defined.
