(* ===== verification/CallbackDelay.v ===== *)
(** Promises whose breaking was delayed: BreakDelayedCallBacks_r, which tells a
    host that is heard of again what it has missed, and ClearHostCallbacks_r, with
    what becomes of the flags of the host. *)
From S2P Require Import Prelude Rings Monad Callback CallbackSpec CallbackFiles CallbackOps CallbackAdd CallbackBreak CallbackServe.

#[local] Open Scope monad_scope.

Section leaks.
Context {lk : Leaked}.

(** ** Flags *)

Lemma flag_set f e : f <> 0 -> has_flag f (set_flag f e) = true.
Proof.
  intros Hf. rewrite has_flag_set, Z.land_diag. apply negb_true_iff, Z.eqb_neq. intros [_ E]%Z.lor_eq_0_iff. by apply Hf.
Qed.
Lemma flag_set_other f g e : Z.land g f = 0 -> has_flag f (set_flag g e) = has_flag f e.
Proof. intros Hf. by rewrite has_flag_set, Hf, Z.lor_0_r. Qed.
Lemma flag_clear f e : has_flag f (clear_flag f e) = false.
Proof. unfold has_flag, clear_flag. cbn [hostFlags set_hostFlags]. by rewrite <- Z.land_assoc, (Z.land_comm (Z.lnot f)), Z.land_lnot_diag, Z.land_0_r. Qed.
Lemma flag_clear_other f g e : Z.land g f = 0 -> has_flag f (clear_flag g e) = has_flag f e.
Proof.
  intros Hf. unfold has_flag, clear_flag. cbn [hostFlags set_hostFlags]. rewrite <- Z.land_assoc.
  assert (E : Z.land (Z.lnot g) f = f); [| by rewrite E]. apply Z.bits_inj'. intros i Hi.
  apply (f_equal (fun z => Z.testbit z i)) in Hf. rewrite Z.land_spec, Z.bits_0 in Hf. rewrite Z.land_spec, Z.lnot_spec by done.
  by destruct (Z.testbit g i), (Z.testbit f i).
Qed.

Lemma hof_alter s h f x : known s h -> hof (with_hosts (alter f h) s) x = if decide (x = h) then f (hof s h) else hof s x.
Proof.
  intros [e He]. unfold hof. cbn [hosts with_hosts]. destruct (decide (x = h)) as [-> | Hx].
  - by rewrite lookup_alter_eq, He.
  - by rewrite lookup_alter_ne.
Qed.

(** What is said to one host, and what may change by it: only the flags of that
    host. *)
Record tells (h : Z) (s s' : cbstate) (new : list message) : Prop := {
  tl_calls : calls s' = new ++ calls s;
  tl_steady : steady s s';
  tl_others : forall x f, x <> h -> has_flag f (hof s' x) = has_flag f (hof s x);
  tl_deleted : host_deleted s' h <-> host_deleted s h
}.

Lemma tells_trans h s1 s2 s3 n1 n2 : tells h s1 s2 n1 -> tells h s2 s3 n2 -> tells h s1 s3 (n2 ++ n1).
Proof.
  intros [A1 A2 A3 A4] [B1 B2 B3 B4]. split.
  - by rewrite B1, A1, app_assoc.
  - by apply (steady_trans s1 s2).
  - intros x f Hx. by rewrite B3, A3.
  - by rewrite B4.
Qed.

Lemma tells_quiet h s s' : quiet s' = quiet s -> tells h s s' [].
Proof.
  intros Q. split; [by apply (gr_calls _ _ _ (grows_quiet s s' Q)) | by apply steady_quiet | intros; by apply quiet_flag |].
  by apply (gr_deleted _ _ _ (grows_quiet s s' Q)).
Qed.

Lemma tells_known h s s' new x : tells h s s' new -> known s' x <-> known s x.
Proof. intros T. apply (tl_steady _ _ _ _ T). Qed.

(** Flags changed, and a call made. *)
Lemma flags_ok s P h f : keeps s P -> known s h -> (forall g, cblist (f g) = cblist g) ->
  (forall g, has_flag HOSTDELETED (f g) = has_flag HOSTDELETED g) ->
  exists s', mod_host h f s = Some (tt, s') /\ keeps s' P /\ tells h s s' [] /\ hof s' h = f (hof s h).
Proof.
  intros K Hk Hl Hd. destruct (mod_flags h s h f P Hk K Hl) as (s' & E & K' & [S' _]). exists s'.
  rewrite (mod_host_ok s h f Hk) in E. injection E as <-.
  assert (X : hof (with_hosts (alter f h) s) h = f (hof s h)) by (rewrite hof_alter by done; by rewrite decide_True).
  split; [by apply mod_host_ok | split; [done | split; [| done]]]. split; [done | done | |].
  - intros x g Hx. rewrite hof_alter by done. by rewrite decide_False.
  - unfold host_deleted. by rewrite X, Hd.
Qed.

Lemma call_ok s P h m : keeps s P -> exists code s', call_host m s = Some (code, s') /\ keeps s' P /\ tells h s s' [m code]
  /\ (forall x, hof s' x = hof s x).
Proof.
  intros K. exists (hd 0 (codes s)), (with_calls (tl (codes s)) (m (hd 0 (codes s))) s). split; [done | split; [by apply (keeps_shelves s) |]].
  split; [| done]. by split.
Qed.

(** What ClearHostCallbacks_r leaves: no promise, and either a host that was told
    to forget all, or one that must be when it is heard of. *)
Record cleared (h : Z) (s s' : cbstate) (new : list message) : Prop := {
  cl_tells : tells h s s' new;
  cl_was_down : down s h -> down s' h;
  cl_after : down s' h /\ ~ reset_done s' h \/ ~ down s' h /\ reset_done s' h /\ new = [InitCallBackStateMsg h 0]
}.

Lemma ClearHost_ok s P h : keeps s P -> known s h -> exists s' new, ClearHostCallbacks_r h s = Some (tt, s')
  /\ keeps s' (without (to_host h) P) /\ cleared h s s' new.
Proof.
  intros K Hk. unfold ClearHostCallbacks_r. destruct (DeleteAllCallBacks_keeps s P h K Hk) as (s1 & E1 & K1 & Q1).
  pose proof (tells_quiet h _ _ Q1) as T1. assert (Hk1 : known s1 h) by (by apply (tells_known h s s1 [])).
  assert (F1 : forall f, has_flag f (hof s1 h) = has_flag f (hof s h)) by (intros f; by apply quiet_flag).
  rewrite (bind_ok _ _ _ _ _ E1), (bind_ok _ _ _ _ _ (get_host_ok s1 h Hk1)). destruct (has_flag VENUSDOWN (hof s1 h)) eqn:Ed.
  - destruct (flags_ok s1 _ h (clear_flag RESETDONE) K1 Hk1) as (s2 & E2 & K2 & T2 & X2); [done | intros g; by apply flag_clear_other |].
    exists s2, []. split; [done | split; [done |]]. assert (D2 : down s2 h) by (unfold down; rewrite X2, flag_clear_other by done; exact Ed).
    split; [exact (tells_trans _ _ _ _ _ _ T1 T2) | done |]. left. split; [done |]. unfold reset_done. by rewrite X2, flag_clear.
  - destruct (flags_ok s1 _ h (clear_flag ALTADDR) K1 Hk1) as (s2 & E2 & K2 & T2 & X2); [done | intros g; by apply flag_clear_other |].
    rewrite (bind_ok _ _ _ _ _ E2). destruct (call_ok s2 _ h (InitCallBackStateMsg h) K2) as (code & s3 & E3 & K3 & T3 & X3).
    rewrite (bind_ok _ _ _ _ _ E3). pose proof (tells_trans _ _ _ _ _ _ (tells_trans _ _ _ _ _ _ T1 T2) T3) as T.
    assert (Hk3 : known s3 h) by (by apply (tells_known h s s3 _ h T)).
    destruct (flags_ok s3 _ h (set_flag ALTADDR) K3 Hk3) as (s4 & E4 & K4 & T4 & X4); [done | intros g; by apply flag_set_other |].
    rewrite (bind_ok _ _ _ _ _ E4). assert (Hk4 : known s4 h) by (by apply (tells_known h s3 s4 _ h T4)).
    pose proof (tells_trans _ _ _ _ _ _ T T4) as T'. assert (Hd : ~ down s h) by (unfold down; by rewrite <- F1, Ed).
    destruct (Z.eqb_spec code 0) as [-> | Hcode]; cbn [negb].
    + destruct (flags_ok s4 _ h (set_flag RESETDONE) K4 Hk4) as (s5 & E5 & K5 & T5 & X5); [done | intros g; by apply flag_set_other |].
      exists s5, [InitCallBackStateMsg h 0]. split; [done | split; [done |]].
      split; [exact (tells_trans _ _ _ _ _ _ T' T5) | done |]. right. unfold down, reset_done. rewrite X5. split; [| split; [by apply flag_set | done]].
      rewrite flag_set_other, X4, flag_set_other, X3, X2, flag_clear_other by done. by rewrite Ed.
    + destruct (flags_ok s4 _ h (fun g => clear_flag RESETDONE (set_flag VENUSDOWN g)) K4 Hk4) as (s5 & E5 & K5 & T5 & X5);
        [done | intros g; by rewrite flag_clear_other, flag_set_other |].
      exists s5, [InitCallBackStateMsg h code]. split; [done | split; [done |]].
      split; [exact (tells_trans _ _ _ _ _ _ T' T5) | done |]. left. unfold down, reset_done. rewrite X5.
      rewrite flag_clear, flag_clear_other, flag_set by done. done.
Qed.

(** ** The delayed promises of a host *)

Definition delayed_to (h : Z) (p : promise) : Prop := p_host p = h /\ p_status p = CB_DELAYED.
#[export] Instance delayed_to_dec h p : Decision (delayed_to h p).
Proof. unfold delayed_to. apply _. Defined.

(** The next of a node: the one after it, or the head. *)
Lemma ring_next n p h V c R : ring n p h (V ++ c :: R) -> h = default c (head V) /\ n c = default h (head R).
Proof.
  destruct V as [| x V]; cbn [app ring head default]; intros [-> H].
  - split; [done |]. destruct R as [| d R]; cbn [segment] in H; by destruct H as [-> _].
  - split; [done |]. apply segment_app in H as [_ H]. destruct R as [| d R]; cbn [segment] in H; by destruct H as [-> _].
Qed.

(** An entry taken off the lists of its host, its queue and its file. *)
Lemma hdrop_ok s P E L c : kept s P E -> timed s (dom P) -> hosted_by s (dom P) L -> c ∈ dom P -> exists s1 s2 s3 E' L',
  HDel c s = Some (tt, s1) /\ TDel c s1 = Some (tt, s2) /\ CDel c true s2 = Some (tt, s3)
  /\ kept s3 (delete c P) E' /\ timed s3 (dom (delete c P)) /\ hosted_by s3 (dom (delete c P)) L'
  /\ (forall h, known s h -> L' h = filter (fun x => x <> c) (L h)) /\ quiet s3 = quiet s.
Proof.
  intros K [LT T] H Hc. destruct (HDel_at s (dom P) L c H Hc) as (s1 & L' & E1 & H1 & U1 & X1).
  destruct (TDel_ok s1 (dom P) c) as (s2 & E2 & (L2 & T2) & U2); [exists LT; by apply (unhosted_timed s s1) | done |].
  destruct (kept_CDel s2 P E c) as (s3 & E' & E3 & K3 & U3 & _); [| done |].
  { apply (kept_untimed s1); [done |]. by apply (kept_unhosted s). }
  destruct (unfiled_drop s2 s3 c U3) as (Q & _ & XT & XH & _). exists s1, s2, s3, E', L'. do 4 (split; [done |]).
  rewrite dom_delete_L. split; [exists L2; by apply XT | split; [| split; [done |]]].
  - apply XH. by apply (untimed_hosted s1 s2).
  - by rewrite Q, (untimed_quiet s1 s2 U2), (unhosted_quiet s s1 U1).
Qed.

(** What one pass picks out of the list: at most [n] of the delayed, and all when
    there are fewer. *)
Record picked (P : gmap Z promise) (l : list Z) (n : nat) (D : list Z) (fids : list AFSFid) : Prop := {
  pk_in : forall d, d ∈ D -> d ∈ l /\ exists p, P !! d = Some p /\ p_status p = CB_DELAYED /\ p_fid p ∈ fids;
  pk_length : length fids = length D;
  pk_all : (length D < n)%nat -> forall d p, d ∈ l -> P !! d = Some p -> p_status p = CB_DELAYED -> d ∈ D
}.

Lemma picked_one P c p n : P !! c = Some p -> p_status p = CB_DELAYED -> picked P [c] n [c] [p_fid p].
Proof. intros Hc Hp. split; [| done | done]. intros d ->%list_elem_of_singleton. split; [left |]. exists p. split; [done | split; [done | left]]. Qed.

Lemma picked_skip P c p l n D fids : P !! c = Some p -> p_status p <> CB_DELAYED -> picked P l n D fids -> picked P (c :: l) n D fids.
Proof.
  intros Hc Hp [H1 H2 H3]. split; [| done |].
  - intros d Hd. destruct (H1 d Hd) as [Hl Hx]. split; [by right | done].
  - intros Hn d q Hd Hq Hs. apply elem_of_cons in Hd as [-> | Hd]; [congruence | by apply (H3 Hn d q)].
Qed.

Lemma picked_take P c p l n D fids : P !! c = Some p -> p_status p = CB_DELAYED -> c ∉ l -> picked (delete c P) l (n - 1) D fids ->
  picked P (c :: l) n (c :: D) (p_fid p :: fids).
Proof.
  intros Hc Hp Hl [H1 H2 H3]. split.
  - intros d [-> | Hd]%elem_of_cons; [split; [left |]; exists p; split; [done | split; [done | left]] |].
    destruct (H1 d Hd) as (Hdl & q & Hq & Hs & Hf). apply lookup_delete_Some in Hq as [_ Hq].
    split; [by right | exists q; split; [done | split; [done | by right]]].
  - cbn. by rewrite H2.
  - cbn [length]. intros Hn d q [-> | Hd]%elem_of_cons Hq Hs; [left | right]. apply (H3 ltac:(lia) d q); [done | | done].
    rewrite lookup_delete_ne; [done |]. by intros ->.
Qed.

Lemma collect_delayed_ok h R : forall s P E L V c n fuel, kept s P E -> timed s (dom P) -> hosted_by s (dom P) L -> known s h ->
  L h = V ++ c :: R -> (length R < fuel)%nat -> n <> 0%nat ->
  exists s' E' D fids, collect_delayed h c n fuel s = Some (fids, s') /\ kept s' (drop_all D P) E' /\ timed s' (dom (drop_all D P))
    /\ hosted s' (dom (drop_all D P)) /\ quiet s' = quiet s /\ picked P (c :: R) n D fids.
Proof.
  induction R as [| d R IH]; intros s P E L V c n fuel K T H Hk EL Hfu Hn; cbn [length] in Hfu; (destruct fuel as [| fuel]; [lia |]).
  all: pose proof H as [RG Hd]; pose proof (rg_nodup _ _ _ _ _ _ _ RG h Hk) as HN; pose proof (rg_ring _ _ _ _ _ _ _ RG h Hk) as HR;
    rewrite EL in HN, HR; apply ring_next in HR as [Hfirst Hnext].
  all: assert (Hin : forall x, x ∈ L h -> x ∈ dom P) by (intros x Hx; by apply (rg_elem _ _ _ _ _ _ _ RG h) in Hx as [? _]).
  all: assert (Hc : c ∈ dom P) by (apply Hin; rewrite EL; set_solver).
  all: pose proof (tb_used _ _ _ (kp_tables _ _ _ K) c Hc) as Hcb; pose proof (proj1 (elem_of_dom P c) Hc) as [p Hp].
  all: pose proof (kp_promise _ _ _ K c p Hp) as Hpc.
  all: cbn [collect_delayed]; rewrite (bind_ok _ _ _ _ _ (get_host_ok s h Hk)), (host_list_hof s h Hk), (bind_ok _ _ _ _ _ (get_cb_ok s c Hcb));
    change (hnext (cbf id s c)) with (cbf hnext s c); change (fhead (cbf id s c)) with (cbf fhead s c);
    assert (Es : status (cbf id s c) = p_status p) by (by rewrite Hpc); rewrite Es, Hnext; clear Es.
  all: assert (Hfe : get_fe (cbf fhead s c) s = Some (fef id s (cbf fhead s c), s)).
  1, 3: apply get_fe_ok, (tb_files _ _ _ (kp_tables _ _ _ K)); destruct (kp_filed _ _ _ K) as (FL & BL & F); by apply (ls_head _ _ _ _ (proj1 F)).
  all: assert (Hfid : fe_fid (fef id s (cbf fhead s c)) = p_fid p) by by rewrite Hpc.
  - change (default (host_list s h) (head [])) with (host_list s h). destruct (Z.eqb_spec (p_status p) CB_DELAYED) as [Hs | Hs].
    + destruct (hdrop_ok s P E L c K T H Hc) as (s1 & s2 & s3 & E3 & L3 & E1 & E2 & E4 & K3 & T3 & H3 & X3 & Q3).
      rewrite (bind_ok _ _ s [p_fid p] s3).
      2:{ rewrite (bind_ok _ _ _ _ _ Hfe), (bind_ok _ _ _ _ _ E1), (bind_ok _ _ _ _ _ E2), (bind_ok _ _ _ _ _ E4). by rewrite Hfid. }
      rewrite Z.eqb_refl, andb_false_r. exists s3, E3, [c], [p_fid p]. rewrite <- drop_all_cons, drop_all_nil.
      split; [done | split; [done | split; [done | split; [by exists L3 | split; [done |]]]]]. by apply picked_one.
    + rewrite (bind_ok _ _ s [] s) by done. rewrite Z.eqb_refl, andb_false_r. exists s, E, [], []. rewrite drop_all_nil.
      split; [done | split; [done | split; [done | split; [by exists L | split; [done |]]]]].
      apply (picked_skip P c p); [done | done |]. split; [by intros x ?%not_elem_of_nil | done | by intros _ x q ?%not_elem_of_nil].
  - assert (Hd0 : d <> 0) by (apply Hd, Hin; rewrite EL; set_solver).
    assert (Hdf : d <> host_list s h).
    { rewrite Hfirst. apply NoDup_app in HN as (_ & N1 & N2). destruct V as [| v V]; cbn.
      - intros ->. apply NoDup_cons in N2 as [N2 _]. apply N2. left.
      - intros ->. apply (N1 v ltac:(left)). right. left. }
    change (default (host_list s h) (head (d :: R))) with d. rewrite (proj2 (Z.eqb_neq d 0) Hd0), (proj2 (Z.eqb_neq d _) Hdf). cbn [negb andb].
    assert (Hcd : c ∉ d :: R) by (apply NoDup_app in HN as (_ & _ & N2); by apply NoDup_cons in N2 as [? _]).
    destruct (Z.eqb_spec (p_status p) CB_DELAYED) as [Hs | Hs].
    + destruct (hdrop_ok s P E L c K T H Hc) as (s1 & s2 & s3 & E3 & L3 & E1 & E2 & E4 & K3 & T3 & H3 & X3 & Q3).
      rewrite (bind_ok _ _ s [p_fid p] s3).
      2:{ rewrite (bind_ok _ _ _ _ _ Hfe), (bind_ok _ _ _ _ _ E1), (bind_ok _ _ _ _ _ E2), (bind_ok _ _ _ _ _ E4). by rewrite Hfid. }
      cbn [length]. destruct (Nat.eqb_spec (n - 1) 0) as [En | En]; cbn [negb].
      * exists s3, E3, [c], [p_fid p]. rewrite <- drop_all_cons, drop_all_nil.
        split; [done | split; [done | split; [done | split; [by exists L3 | split; [done |]]]]].
        apply (picked_take P c p _ n [] []); [done | done | done |]. split; [by intros x ?%not_elem_of_nil | done | cbn; lia].
      * destruct (IH s3 _ E3 L3 V d (n - 1)%nat fuel K3 T3 H3) as (s' & E' & D & fids & E5 & K' & T' & H' & Q' & Pk).
        { by apply (quiet_known s s3). }
        { rewrite (X3 h Hk), EL, filter_app, filter_cons_False, !filter_all; [done | | | naive_solver].
          - intros x Hx ->. by apply Hcd.
          - intros x Hx ->. apply NoDup_app in HN as (_ & N1 & _). apply (N1 c Hx). left. }
        { lia. } { done. }
        rewrite (bind_ok _ _ _ _ _ E5). exists s', E', (c :: D), (p_fid p :: fids). rewrite <- drop_all_cons. rewrite Q'.
        split; [done | split; [done | split; [done | split; [done | split; [done |]]]]]. by apply picked_take.
    + rewrite (bind_ok _ _ s [] s) by done. cbn [length]. rewrite Nat.sub_0_r, (proj2 (Nat.eqb_neq n 0) Hn). cbn [negb].
      destruct (IH s P E L (V ++ [c]) d n fuel K T H Hk) as (s' & E' & D & fids & E5 & K' & T' & H' & Q' & Pk);
        [by rewrite <- app_assoc | lia | done |].
      rewrite (bind_ok _ _ _ _ _ E5). exists s', E', D, fids. split; [done | split; [done | split; [done | split; [done | split; [done |]]]]].
      by apply (picked_skip P c p).
Qed.

Lemma drop_all_size (D : list Z) P d : d ∈ D -> is_Some (P !! d) -> (size (drop_all D P) < size P)%nat.
Proof.
  intros Hd Hp. rewrite <- !(size_dom (D := gset Z)). apply subset_size. rewrite dom_drop_all. apply elem_of_dom in Hp.
  split; [intros x Hx; by apply elem_of_difference in Hx as [? _] |]. intros Hs. apply Hs, elem_of_difference in Hp as [_ Hp].
  by apply Hp, elem_of_list_to_set.
Qed.

(** What breaking the delayed promises comes to. *)
Inductive undelayed (h : Z) (s : cbstate) (P : gmap Z promise) (s' : cbstate) (new : list message) : gmap Z promise -> Prop :=
  | ud_deleted : host_deleted s h -> s' = s -> undelayed h s P s' new P
  | ud_told : ~ host_deleted s h -> ~ down s' h -> (reset_done s' h <-> reset_done s h) ->
      (forall c p, P !! c = Some p -> delayed_to h p -> exists fids, CallBackMsg h fids 0 ∈ new /\ p_fid p ∈ fids) ->
      undelayed h s P s' new (without (delayed_to h) P)
  | ud_failed : ~ host_deleted s h -> down s' h -> ~ reset_done s' h -> undelayed h s P s' new (without (to_host h) P).

Lemma picked_delayed P l D fids h : (forall c p, P !! c = Some p -> c ∈ l <-> to_host h p) -> picked P l AFSCBMAX D fids ->
  (length D < AFSCBMAX)%nat -> drop_all D P = without (delayed_to h) P.
Proof.
  intros Hl [H1 _ H3] Hn. apply drop_all_without. intros c p Hp. split.
  - intros Hc. destruct (H1 c Hc) as (Hcl & q & Hq & Hs & _). rewrite Hp in Hq. injection Hq as <-. split; [by apply (Hl c p) | done].
  - intros [Hh Hs]. apply (H3 Hn c p); [by apply (Hl c p) | done | done].
Qed.

(** A pass, from the flags on: the call that it makes, and who is told. *)
Lemma picked_told P l D fids h c p : (forall c p, P !! c = Some p -> c ∈ l <-> to_host h p) -> picked P l AFSCBMAX D fids ->
  P !! c = Some p -> delayed_to h p -> p_fid p ∈ fids \/ (AFSCBMAX <= length D)%nat /\ drop_all D P !! c = Some p.
Proof.
  intros Hl [H1 _ H3] Hp [Hh Hs]. destruct (decide (c ∈ D)) as [Hc | Hc].
  - left. destruct (H1 c Hc) as (_ & q & Hq & _ & Hf). congruence.
  - right. split; [| by apply drop_all_lookup]. destruct (Nat.lt_ge_cases (length D) AFSCBMAX) as [Hlt |]; [| done].
    exfalso. apply Hc. apply (H3 Hlt c p); [by apply (Hl c p) | done | done].
Qed.

Lemma drop_then_without Q `{forall p, Decision (Q p)} D P : (forall c p, c ∈ D -> P !! c = Some p -> Q p) ->
  without Q (drop_all D P) = without Q P.
Proof.
  intros HD. apply map_eq. intros c. apply option_eq. intros p. rewrite !without_lookup, drop_all_lookup. split; [naive_solver |].
  intros [Hp Hq]. split; [split; [done |] | done]. intros Hc. by apply Hq, (HD c p).
Qed.

Lemma break_delayed_ok h fuel : forall s P, keeps s P -> known s h -> (size P < fuel)%nat ->
  exists s' new P', break_delayed h fuel s = Some (tt, s') /\ keeps s' P' /\ tells h s s' new /\ undelayed h s P s' new P'.
Proof.
  induction fuel as [| fuel IH]; intros s P K Hk Hfu; [lia |]. cbn [break_delayed].
  rewrite (bind_ok _ _ _ _ _ (get_host_ok s h Hk)). destruct (has_flag HOSTDELETED (hof s h)) eqn:Ed.
  { exists s, [], P. split; [done | split; [done | split; [by apply tells_quiet |]]]. by apply ud_deleted. }
  assert (Nd : ~ host_deleted s h) by (unfold host_deleted; by rewrite Ed).
  destruct (flags_ok s P h (clear_flag VENUSDOWN) K Hk) as (s1 & E1 & K1 & T1 & X1); [done | intros g; by apply flag_clear_other |].
  assert (Hk1 : known s1 h) by (by apply (tells_known h s s1 [])).
  assert (L1 : cblist (hof s h) = host_list s1 h) by by rewrite <- (host_list_hof s1 h Hk1), X1.
  rewrite (bind_ok _ _ _ _ _ E1), L1. destruct K1 as (E & K1). destruct (tk_hosted _ _ _ K1) as (L & H). pose proof H as [RG Hd].
  assert (H0 : 0 ∉ dom P) by (intros H0; by apply Hd in H0 as [? _]).
  pose proof (rings_empty _ _ _ _ _ _ _ h RG Hk1 H0) as He.
  assert (HM : forall c p, P !! c = Some p -> c ∈ L h <-> to_host h p) by (intros c p Hp; by apply (host_members s1 P E)).
  assert (U1 : ~ down s1 h) by (unfold down; rewrite X1; by rewrite flag_clear).
  assert (R1 : reset_done s1 h <-> reset_done s h) by (unfold reset_done; rewrite X1; by rewrite flag_clear_other).
  destruct (L h) as [| c R] eqn:EL.
  { rewrite (proj2 He eq_refl). assert (N : forall c p, P !! c = Some p -> ~ delayed_to h p).
    { intros c p Hp [Hh _]. apply (HM c p Hp) in Hh. by apply not_elem_of_nil in Hh. }
    exists s1, [], (without (delayed_to h) P). rewrite without_none by done. split; [done | split; [by exists E | split; [done |]]].
    rewrite <- (without_none (delayed_to h) P N) at 2. apply ud_told; [done | done | done |]. intros c p Hp Hq. by destruct (N c p Hp Hq). }
  pose proof (rg_ring _ _ _ _ _ _ _ RG h Hk1) as HR. rewrite EL in HR. destruct HR as [Eh _]. rewrite Eh.
  assert (Hc : c ∈ dom P) by (apply (rg_elem _ _ _ _ _ _ _ RG h c Hk1); rewrite EL; left).
  rewrite (proj2 (Z.eqb_neq c 0)) by by intros ->. rewrite (bind_ok _ _ s1 (fuel_of s1) s1) by done.
  destruct (collect_delayed_ok h R s1 P E L [] c AFSCBMAX (fuel_of s1) (proj1 K1) (tk_timed _ _ _ K1) H Hk1 EL) as (s2 & E2 & D & fids & Ec & K2 & T2 & H2 & Q2 & Pk).
  { pose proof (rg_nodup _ _ _ _ _ _ _ RG h Hk1) as HN. pose proof (tk_tables _ _ _ K1) as T. rewrite EL in HN.
    assert (Hlen : (length (c :: R) <= Z.to_nat (nblks s1))%nat).
    { apply nodup_bounded; [done |]. intros x Hx. apply (tb_cb _ _ _ T), (tb_used _ _ _ T), (rg_elem _ _ _ _ _ _ _ RG h x Hk1). by rewrite EL. }
    unfold fuel_of. cbn [length] in Hlen. lia. } { done. }
  rewrite (bind_ok _ _ _ _ _ Ec). assert (K3 : keeps s2 (drop_all D P)) by by exists E2.
  pose proof (tells_trans _ _ _ _ _ _ T1 (tells_quiet h _ _ Q2)) as T3. cbn [app] in T3.
  assert (F2 : forall f, has_flag f (hof s2 h) = has_flag f (hof s1 h)) by (intros f; by apply quiet_flag).
  assert (U2 : ~ down s2 h) by (unfold down; by rewrite F2).
  assert (R2 : reset_done s2 h <-> reset_done s h) by (unfold reset_done; rewrite F2; exact R1).
  pose proof (pk_length _ _ _ _ _ Pk) as Hlen. pose proof (picked_delayed P _ D fids h HM Pk) as HD. rewrite Hlen.
  pose proof (fun c p => picked_told P _ D fids h c p HM Pk) as HT.
  destruct (Nat.eqb_spec (length D) 0) as [E0 | E0].
  { exists s2, [], (without (delayed_to h) P). rewrite <- HD by (rewrite E0; unfold AFSCBMAX; lia).
    split; [done | split; [done | split; [done |]]]. rewrite HD by (rewrite E0; unfold AFSCBMAX; lia). apply ud_told; [done | done | done |].
    intros x p Hp Hq. destruct (HT x p Hp Hq) as [Hf | [Hn _]]; [| unfold AFSCBMAX in Hn; lia].
    apply nil_length_inv in E0. subst D. apply nil_length_inv in Hlen. subst fids. by apply not_elem_of_nil in Hf. }
  assert (Hk2 : known s2 h) by by apply (quiet_known s1 s2).
  destruct (call_ok s2 _ h (CallBackMsg h fids) K3) as (code & s3 & E3 & K4 & T4 & X4). rewrite (bind_ok _ _ _ _ _ E3).
  assert (Hk3 : known s3 h) by (by apply (tells_known h s2 s3 _ h T4)). pose proof (tells_trans _ _ _ _ _ _ T3 T4) as T5.
  destruct (Z.eqb_spec code 0) as [-> | Hcode]; cbn [negb].
  - assert (U3 : ~ down s3 h) by (unfold down; by rewrite X4). assert (R3 : reset_done s3 h <-> reset_done s h) by (unfold reset_done; by rewrite X4).
    destruct (Nat.ltb_spec (length D) AFSCBMAX) as [Hlt | Hge].
    + exists s3, [CallBackMsg h fids 0], (without (delayed_to h) P). rewrite <- HD by done. split; [done | split; [done | split; [done |]]].
      rewrite HD by done. apply ud_told; [done | done | done |]. intros x p Hp Hq. destruct (HT x p Hp Hq) as [Hf | [Hn _]]; [| lia].
      exists fids. split; [left | done].
    + destruct (head D) as [d |] eqn:EDD; [| by apply head_None in EDD; subst D].
      assert (Hdd : d ∈ D) by by apply head_Some_elem_of. destruct (pk_in _ _ _ _ _ Pk d Hdd) as (_ & pd & Hpd & _).
      destruct (IH s3 (drop_all D P) K4 Hk3) as (s4 & n4 & P4 & E4 & K5 & T6 & U6).
      { pose proof (drop_all_size D P d Hdd (ex_intro _ pd Hpd)). lia. }
      exists s4, (n4 ++ [CallBackMsg h fids 0]), P4. split; [done | split; [done | split; [exact (tells_trans _ _ _ _ _ _ T5 T6) |]]].
      assert (Nd3 : ~ host_deleted s3 h) by (rewrite (tl_deleted _ _ _ _ T5); done).
      assert (WD : forall c p, c ∈ D -> P !! c = Some p -> delayed_to h p).
      { intros x p Hx Hp. destruct (pk_in _ _ _ _ _ Pk x Hx) as (Hxl & q & Hq & Hs & _). rewrite Hp in Hq. injection Hq as <-.
        split; [by apply (HM x p) | done]. }
      destruct U6 as [Hdel | _ Hdn Hr Ht | _ Hdn Hr].
      * done.
      * rewrite (drop_then_without (delayed_to h)) by done. apply ud_told; [done | done | by rewrite Hr |].
        intros x p Hp Hq. destruct (HT x p Hp Hq) as [Hf | [_ Hx]].
        -- exists fids. split; [apply elem_of_app; right; left | done].
        -- destruct (Ht x p Hx Hq) as (l & Hl & Hpl). exists l. split; [apply elem_of_app; by left | done].
      * rewrite (drop_then_without (to_host h)) by (intros x p Hx Hp; by destruct (WD x p Hx Hp)). by apply ud_failed.
  - destruct (flags_ok s3 _ h (set_flag VENUSDOWN) K4 Hk3) as (s4 & E4 & K5 & T6 & X6); [done | intros g; by apply flag_set_other |].
    rewrite (bind_ok _ _ _ _ _ E4). assert (Hk4 : known s4 h) by (by apply (tells_known h s3 s4 _ h T6)).
    destruct (ClearHost_ok s4 _ h K5 Hk4) as (s5 & n5 & E5 & K6 & [T7 D7 A7]). rewrite E5.
    assert (Dn : down s5 h) by (apply D7; unfold down; rewrite X6; by apply flag_set).
    destruct A7 as [[_ Rn] | [An _]]; [| done]. eexists s5, _, (without (to_host h) P). split; [done |].
    rewrite <- (drop_then_without (to_host h) D P) at 1.
    + split; [exact K6 | split; [exact (tells_trans _ _ _ _ _ _ T5 (tells_trans _ _ _ _ _ _ T6 T7)) |]]. by apply ud_failed.
    + intros x p Hx Hp. destruct (pk_in _ _ _ _ _ Pk x Hx) as (Hxl & _). by apply (HM x p).
Qed.

(** ** BreakDelayedCallBacks_r *)

(** What the host is told: all that was delayed, or to forget all when that has
    to be; or it does not answer, and will have to forget all. *)
Inductive caught_up (h : Z) (s : cbstate) (P : gmap Z promise) (s' : cbstate) (new : list message) : gmap Z promise -> Prop :=
  | cu_deleted : host_deleted s h -> (down s' h <-> down s h) -> (reset_done s' h <-> reset_done s h) -> caught_up h s P s' new P
  | cu_reset : ~ host_deleted s h -> ~ reset_done s h -> ~ down s' h -> reset_done s' h -> new = [InitCallBackStateMsg h 0] ->
      caught_up h s P s' new P
  | cu_unreached : ~ host_deleted s h -> ~ reset_done s h -> down s' h -> ~ reset_done s' h -> caught_up h s P s' new P
  | cu_told : ~ host_deleted s h -> reset_done s h -> ~ down s' h -> reset_done s' h ->
      (forall c p, P !! c = Some p -> delayed_to h p -> exists fids, CallBackMsg h fids 0 ∈ new /\ p_fid p ∈ fids) ->
      caught_up h s P s' new (without (delayed_to h) P)
  | cu_failed : ~ host_deleted s h -> reset_done s h -> down s' h -> ~ reset_done s' h -> caught_up h s P s' new (without (to_host h) P).

Lemma flag_dec f s h : has_flag f (hof s h) = true \/ ~ has_flag f (hof s h) = true.
Proof. destruct (has_flag f (hof s h)); [by left | by right]. Qed.

(** The call to forget all. *)
Lemma reset_ok s P h : keeps s P -> known s h -> exists s' new,
  (mod_host h (clear_flag ALTADDR) ;;
   let* code := call_host (InitCallBackStateMsg h) in
   mod_host h (set_flag ALTADDR) ;;
   if negb (code =? 0) then mod_host h (set_flag VENUSDOWN)
   else mod_host h (fun g => clear_flag VENUSDOWN (set_flag RESETDONE g))) s = Some (tt, s')
  /\ keeps s' P /\ tells h s s' new
  /\ (~ down s' h /\ reset_done s' h /\ new = [InitCallBackStateMsg h 0] \/ down s' h /\ (reset_done s' h <-> reset_done s h)).
Proof.
  intros K Hk. destruct (flags_ok s P h (clear_flag ALTADDR) K Hk) as (s1 & E1 & K1 & T1 & X1); [done | intros g; by apply flag_clear_other |].
  rewrite (bind_ok _ _ _ _ _ E1). destruct (call_ok s1 P h (InitCallBackStateMsg h) K1) as (code & s2 & E2 & K2 & T2 & X2).
  rewrite (bind_ok _ _ _ _ _ E2). pose proof (tells_trans _ _ _ _ _ _ T1 T2) as T3.
  assert (Hk2 : known s2 h) by (by apply (tells_known h s s2 _ h T3)).
  destruct (flags_ok s2 P h (set_flag ALTADDR) K2 Hk2) as (s3 & E3 & K3 & T4 & X3); [done | intros g; by apply flag_set_other |].
  rewrite (bind_ok _ _ _ _ _ E3). pose proof (tells_trans _ _ _ _ _ _ T3 T4) as T5.
  assert (Hk3 : known s3 h) by (by apply (tells_known h s s3 _ h T5)).
  destruct (Z.eqb_spec code 0) as [-> | Hcode]; cbn [negb].
  - destruct (flags_ok s3 P h (fun g => clear_flag VENUSDOWN (set_flag RESETDONE g)) K3 Hk3) as (s4 & E4 & K4 & T6 & X4);
      [done | intros g; by rewrite flag_clear_other, flag_set_other |].
    exists s4, [InitCallBackStateMsg h 0]. split; [done | split; [done | split; [exact (tells_trans _ _ _ _ _ _ T5 T6) |]]]. left.
    unfold down, reset_done. rewrite X4, flag_clear, flag_clear_other, flag_set by done. done.
  - destruct (flags_ok s3 P h (set_flag VENUSDOWN) K3 Hk3) as (s4 & E4 & K4 & T6 & X4); [done | intros g; by apply flag_set_other |].
    exists s4, [InitCallBackStateMsg h code]. split; [done | split; [done | split; [exact (tells_trans _ _ _ _ _ _ T5 T6) |]]]. right.
    unfold down, reset_done. rewrite X4, flag_set, flag_set_other, X3, flag_set_other, X2, X1, flag_clear_other by done. done.
Qed.

Lemma BreakDelayed_ok s P h : keeps s P -> known s h -> exists b s' new P', BreakDelayedCallBacks_r h s = Some (b, s') /\ keeps s' P'
  /\ tells h s s' new /\ (b = true <-> down s' h) /\ (~ down s' h -> ~ has_later s' h) /\ caught_up h s P s' new P'.
Proof.
  intros K Hk. unfold BreakDelayedCallBacks_r. rewrite (bind_ok _ _ _ _ _ (get_host_ok s h Hk)).
  set (body := if negb (has_flag RESETDONE (hof s h)) && negb (has_flag HOSTDELETED (hof s h)) then _ else _).
  assert (B : exists s1 new P', body s = Some (tt, s1) /\ keeps s1 P' /\ tells h s s1 new /\ caught_up h s P s1 new P').
  { unfold body. destruct (flag_dec RESETDONE s h) as [Hr | Hr], (flag_dec HOSTDELETED s h) as [Hd | Hd];
      try apply not_true_is_false in Hr as Hr'; try apply not_true_is_false in Hd as Hd';
      rewrite ?Hr, ?Hd, ?Hr', ?Hd'; cbn [negb andb].
    4:{ destruct (reset_ok s P h K Hk) as (s1 & new & E & K1 & T & [(H1 & H2 & ->) | [H1 H2]]); exists s1; eexists _, P;
        (split; [exact E | split; [done | split; [done |]]]); [by apply cu_reset | apply cu_unreached; [done | done | done |]].
      rewrite H2. done. }
    all: rewrite (bind_ok _ _ s (fuel_of s) s) by done; destruct (break_delayed_ok h (fuel_of s) s P K Hk) as (s1 & new & P' & E & K1 & T & U);
      [destruct K as (EE & K); pose proof (size_bound s P EE K); unfold fuel_of; lia |].
    all: exists s1, new, P'; split; [done | split; [done | split; [done |]]].
    all: destruct U as [H1 -> | H1 H2 H3 H4 | H1 H2 H3]; try done.
    all: first [by apply cu_deleted | apply cu_told; [done | done | done | by apply H3 | done] | by apply cu_failed]. }
  destruct B as (s1 & new & P' & E1 & K1 & T1 & C1). rewrite (bind_ok _ _ _ _ _ E1).
  assert (Hk1 : known s1 h) by (by apply (tells_known h s s1 _ h T1)). rewrite (bind_ok _ _ _ _ _ (get_host_ok s1 h Hk1)).
  assert (B : exists s2, (if negb (has_flag VENUSDOWN (hof s1 h)) then mod_host h (clear_flag HFE_LATER) else ret tt) s1 = Some (tt, s2)
    /\ keeps s2 P' /\ tells h s1 s2 [] /\ (down s2 h <-> down s1 h) /\ (reset_done s2 h <-> reset_done s1 h)
    /\ (~ down s2 h -> ~ has_later s2 h)).
  { destruct (has_flag VENUSDOWN (hof s1 h)) eqn:Ev; cbn [negb].
    1: { exists s1. split; [done | split; [done | split; [by apply tells_quiet | by repeat split]]]. }
    - destruct (flags_ok s1 P' h (clear_flag HFE_LATER) K1 Hk1) as (s2 & E2 & K2 & T2 & X2); [done | intros g; by apply flag_clear_other |].
      exists s2. split; [done | split; [done | split; [done |]]]. unfold down, reset_done, has_later. rewrite X2, !flag_clear_other, flag_clear by done. done. }
  destruct B as (s2 & E2 & K2 & T2 & D2 & R2 & L2). rewrite (bind_ok _ _ _ _ _ E2).
  assert (Hk2 : known s2 h) by (by apply (tells_known h s1 s2 _ h T2)). rewrite (bind_ok _ _ _ _ _ (get_host_ok s2 h Hk2)).
  exists (has_flag VENUSDOWN (hof s2 h)), s2, new, P'. split; [done | split; [done | split; [exact (tells_trans _ _ _ _ _ _ T1 T2) | split; [done | split; [done |]]]]].
  destruct C1 as [H1 H2 H3 | H1 H2 H3 H4 H5 | H1 H2 H3 H4 | H1 H2 H3 H4 H5 | H1 H2 H3 H4].
  - apply cu_deleted; [done | by rewrite D2 | by rewrite R2].
  - apply cu_reset; [done | done | by rewrite D2 | by rewrite R2 | done].
  - apply cu_unreached; [done | done | by rewrite D2 | by rewrite R2].
  - apply cu_told; [done | done | by rewrite D2 | by rewrite R2 | done].
  - apply cu_failed; [done | done | by rewrite D2 | by rewrite R2].
Qed.
End leaks.
