(* ===== verification/CallbackLater.v ===== *)
(** The promises of a whole volume, broken later: BreakVolumeCallBacksLater marks
    them, and BreakLaterCallBacks takes the file entries that are marked out of
    their buckets, and frees them with what was promised of them. *)
From S2P Require Import Prelude Rings Monad Callback CallbackSpec CallbackFiles CallbackOps CallbackAdd CallbackBreak CallbackServe CallbackDelay.

#[local] Open Scope monad_scope.

Section leaks.
Context {lk : Leaked}.

(** ** Marking *)

(** What marking leaves as it is: all but the status of entries and the flags
    HFE_LATER, and those are only ever set. *)
Record marks (s s' : cbstate) : Prop := {
  mk_rest : (HashTable s', FEfree s', CBfree s', tfirst s', now s', codes s', calls s', hostList s', nblks s')
            = (HashTable s, FEfree s, CBfree s, tfirst s, now s, codes s, calls s, hostList s, nblks s);
  mk_cb : forall x, cbf cnext s' x = cbf cnext s x /\ cbf fhead s' x = cbf fhead s x;
  mk_fe : forall g, fef fnext s' g = fef fnext s g /\ fef fe_fid s' g = fef fe_fid s g /\ fef firstcb s' g = fef firstcb s g;
  mk_known : forall h, known s' h <-> known s h;
  mk_flags : forall h f, Z.land HFE_LATER f = 0 -> has_flag f (hof s' h) = has_flag f (hof s h);
  mk_later : forall h, has_later s h -> has_later s' h
}.

#[export] Instance marks_preorder : PreOrder marks.
Proof.
  split; [intros s; by split |]. intros s1 s2 s3 [A1 A2 A3 A4 A5 A6] [B1 B2 B3 B4 B5 B6]. split.
  - by rewrite B1.
  - intros x. destruct (B2 x) as [-> ->]. apply A2.
  - intros g. destruct (B3 g) as (-> & -> & ->). apply A3.
  - intros h. by rewrite B4.
  - intros h f Hf. by rewrite B5, A5.
  - intros h H. by apply B6, A6.
Qed.

Definition put_off (p : promise) : promise := Promise (p_fid p) true (p_host p) CB_DELAYED (p_queue p).

(** Some of the promises are put off, and their hosts marked. *)
Record defers (Q : Z -> AFSFid -> Prop) `{forall c fid, Decision (Q c fid)} (s : cbstate) (P : gmap Z promise) (s' : cbstate) (P' : gmap Z promise) : Prop := {
  df_map : forall c, P' !! c = (fun p => if decide (Q c (p_fid p)) then put_off p else p) <$> P !! c;
  df_hosts : forall c p, P !! c = Some p -> Q c (p_fid p) -> has_later s' (p_host p)
}.

Lemma defers_dom Q `{forall c fid, Decision (Q c fid)} s P s' P' : defers Q s P s' P' -> dom P' = dom P.
Proof. intros D. apply set_eq. intros c. rewrite !elem_of_dom, (df_map _ _ _ _ _ D). by rewrite fmap_is_Some. Qed.

Lemma defers_trans Q1 Q2 Q3 `{forall c fid, Decision (Q1 c fid)} `{forall c fid, Decision (Q2 c fid)} `{forall c fid, Decision (Q3 c fid)} s1 P1 s2 P2 s3 P3 :
  defers Q1 s1 P1 s2 P2 -> defers Q2 s2 P2 s3 P3 -> marks s2 s3 ->
  (forall c p, P1 !! c = Some p -> Q3 c (p_fid p) <-> Q1 c (p_fid p) \/ Q2 c (p_fid p)) -> defers Q3 s1 P1 s3 P3.
Proof.
  intros A B Mk HQ. split.
  - intros c. rewrite (df_map _ _ _ _ _ B), (df_map _ _ _ _ _ A). destruct (P1 !! c) as [p |] eqn:Ep; [| done]. cbn.
    specialize (HQ c p Ep). repeat case_decide; cbn [put_off p_fid] in *; try done; naive_solver.
  - intros c p Hp Hq. apply (HQ c p Hp) in Hq as [Hq | Hq]; [by apply (mk_later _ _ Mk), (df_hosts _ _ _ _ _ A c p) |].
    pose proof (df_map _ _ _ _ _ A c) as Hc. rewrite Hp in Hc. cbn in Hc. destruct (decide (Q1 c (p_fid p))) as [Hq1 | Hq1].
    + by apply (df_hosts _ _ _ _ _ B c _ Hc).
    + by apply (df_hosts _ _ _ _ _ B c _ Hc).
Qed.

Lemma mark_host s P E h : tables_keep s P E -> known s h -> exists s', mod_host h (set_flag HFE_LATER) s = Some (tt, s')
  /\ tables_keep s' P E /\ marks s s' /\ has_later s' h /\ FE s' = FE s /\ CB s' = CB s.
Proof.
  intros K Hk. set (s' := with_hosts (alter (set_flag HFE_LATER) h) s). exists s'. split; [by apply mod_host_ok |].
  split; [apply (tables_shelves s); [| done]; unfold shelves, s', with_hosts; fields; by rewrite fmap_alter_keep |].
  assert (X : forall x, hof s' x = if decide (x = h) then set_flag HFE_LATER (hof s h) else hof s x) by (intros x; by apply hof_alter).
  assert (Hl : has_later s' h) by (unfold has_later; rewrite X, decide_True by done; by apply flag_set).
  split; [| done]. split; [done | done | done | | |].
  - intros x. apply known_alter.
  - intros x f Hf. rewrite X. case_decide; [subst x | done]. by apply flag_set_other.
  - intros x Hx. destruct (decide (x = h)) as [-> | Hne]; [done |]. unfold has_later. by rewrite X, decide_False.
Qed.

(** The entries of a list delayed. *)
Lemma delay_list_ok l : forall s P E v fuel, tables_keep s P E -> linked (cbf cnext s) v l -> (forall c, c ∈ l -> c ∈ dom P) -> (length l < fuel)%nat ->
  exists s' P', delay_list v fuel s = Some (tt, s') /\ tables_keep s' P' E /\ marks s s' /\ FE s' = FE s
  /\ (forall c, P' !! c = (fun p => if decide (c ∈ l) then delayed p else p) <$> P !! c)
  /\ forall c p, P !! c = Some p -> c ∈ l -> has_later s' (p_host p).
Proof.
  induction l as [| c l IH]; intros s P E v fuel K HL Hin Hfu; cbn [linked length] in *; (destruct fuel as [| fuel]; [lia |]); cbn [delay_list].
  - subst v. exists s, P. split; [done | split; [done | split; [done | split; [done | split]]]].
    + intros c. destruct (P !! c); cbn; [| done]. rewrite decide_False by apply not_elem_of_nil. done.
    + by intros c p _ ?%not_elem_of_nil.
  - destruct HL as [-> HL]. assert (Hc : c ∈ dom P) by (apply Hin; left). pose proof (tk_tables _ _ _ K) as T.
    rewrite (proj2 (Z.eqb_neq c 0)) by by apply (cb_nonzero s _ _ (tb_bounds T)).
    rewrite (bind_ok _ _ _ _ _ (get_cb_ok s c (tb_used _ _ _ T c Hc))). pose proof (proj1 (elem_of_dom P c) Hc) as [p Hp].
    change (cnext (cbf id s c)) with (cbf cnext s c). pose proof (tk_promise _ _ _ K c p Hp) as Hpc.
    assert (Eh : hhead (cbf id s c) = p_host p) by by rewrite Hpc. rewrite Eh.
    destruct (mark_host s P E (p_host p) K (known_host s P E c p K Hp)) as (s1 & E1 & K1 & M1 & L1 & F1 & C1). rewrite (bind_ok _ _ _ _ _ E1).
    destruct (delay_ok s1 P E c p K1 Hp) as (s2 & E2 & K2 & Q2 & X2). rewrite (bind_ok _ _ _ _ _ E2).
    assert (S2 : s2 = with_CB (alter (set_status CB_DELAYED) c) s1).
    { rewrite (mod_cb_ok s1 c _) in E2; [by injection E2 | apply (tb_used _ _ _ (tk_tables _ _ _ K1) c Hc)]. }
    assert (M2 : marks s1 s2) by (rewrite S2; split; try done; intros x; by rewrite !cbf_keep).
    assert (Ef2 : FE s2 = FE s) by (rewrite S2; exact F1). assert (M02 : marks s s2) by by transitivity s1.
    destruct (IH s2 (<[c := delayed p]> P) E (cbf cnext s c) fuel K2) as (s3 & P3 & E3 & K3 & M3 & F3 & H3 & L3).
    + apply (links_frame (cbf cnext s)); [done |]. intros x _. apply (mk_cb _ _ M02).
    + intros x Hx. rewrite dom_insert_L. apply elem_of_union_r, Hin. by right.
    + lia.
    + exists s3, P3. split; [done | split; [done | split; [by transitivity s2 | split; [by rewrite F3 | split]]]].
      * intros d. rewrite H3. destruct (decide (d = c)) as [-> | Hd].
        -- rewrite lookup_insert_eq, Hp. cbn. rewrite (decide_True (P := c ∈ c :: l)) by left. by case_decide.
        -- rewrite lookup_insert_ne by done. destruct (P !! d) as [q |]; [| done]. cbn. f_equal.
           destruct (decide (d ∈ l)) as [Hl | Hl]; [by rewrite decide_True by by right | rewrite decide_False; [done |]].
           by intros [? | ?]%elem_of_cons.
      * intros d q Hq [-> | Hd]%elem_of_cons.
        -- assert (q = p) as -> by congruence. by apply (mk_later _ _ M3), (mk_later _ _ M2).
        -- destruct (decide (d = c)) as [-> | Hne]; [assert (q = p) as -> by congruence; by apply (mk_later _ _ M3), (mk_later _ _ M2) |].
           apply (L3 d q); [by rewrite lookup_insert_ne | done].
Qed.

(** A file marked. *)
Definition late (p : promise) : promise := Promise (p_fid p) true (p_host p) (p_status p) (p_queue p).

Lemma later_lor x : (Z.land (Z.lor x FE_LATER) FE_LATER =? FE_LATER) = true.
Proof.
  apply Z.eqb_eq, Z.bits_inj'. intros i _. rewrite Z.land_spec, Z.lor_spec. by destruct (Z.testbit FE_LATER i); rewrite ?orb_true_r, ?andb_false_r.
Qed.

Lemma late_ok s P E f : tables_keep s P E -> f ∈ E -> exists s' P',
  mod_fe f (fun e => set_fstatus (Z.lor (fstatus e) FE_LATER) e) s = Some (tt, s') /\ tables_keep s' P' E /\ marks s s'
  /\ forall c, P' !! c = (fun p => if decide (cbf fhead s c = f) then late p else p) <$> P !! c.
Proof.
  intros (K & (L & Ti) & (L' & Ho)) Hf. pose proof (tb_files _ _ _ (kp_tables _ _ _ K) f Hf) as Hfe.
  set (g := fun e => set_fstatus (Z.lor (fstatus e) FE_LATER) e). set (s' := with_FE (alter g f) s).
  set (P' := map_imap (fun c p => Some (if decide (cbf fhead s c = f) then late p else p)) P). exists s', P'.
  assert (HP : forall c, P' !! c = (fun p => if decide (cbf fhead s c = f) then late p else p) <$> P !! c).
  { intros c. unfold P'. rewrite map_lookup_imap. by destruct (P !! c). }
  assert (D : dom P' = dom P) by (apply set_eq; intros c; rewrite !elem_of_dom, HP; by rewrite fmap_is_Some).
  assert (X : forall A (h : FileEntry -> A) x, (forall v e, h (set_fstatus v e) = h e) -> fef h s' x = fef h s x).
  { intros A h x Hh. apply fef_keep. intros e. apply Hh. }
  assert (Xl : forall x, later s' x = if decide (x = f) then true else later s x).
  { intros x. unfold later, s'. rewrite fef_alter by done. case_decide; [| done]. cbn [g fstatus set_fstatus]. apply later_lor. }
  assert (I : forall x, is_fe s' x <-> is_fe s x) by (intros x; apply is_fe_alter).
  split; [by apply mod_fe_ok | split; [split; [split | rewrite D; split] | split; [| exact HP]]]; rewrite ?D.
  - by apply (tables_frame s _ _ _ (kp_tables _ _ _ K)).
  - destruct (kp_filed _ _ _ K) as (FL & BL & F & B). exists FL, BL. split.
    + apply (lists_frame s); [done | done |]. intros x. by rewrite !X.
    + split.
      * intros h. apply (links_frame (fef fnext s)); [apply (bk_chain _ _ _ B) |]. intros x _. by apply X.
      * apply (bk_once _ _ _ B).
      * intros h x. rewrite X by done. apply (bk_bucket _ _ _ B).
      * intros x y Hx Hy. rewrite !X, !Xl by done. do 2 case_decide; [done | done | done |]. by apply (bk_fid _ _ _ B).
  - intros c p' Hp'. rewrite HP in Hp'. apply fmap_Some in Hp' as (p & Hp & ->). rewrite (kp_promise _ _ _ K c p Hp).
    unfold promise_at. rewrite X, Xl by done. change (cbf ?h s' c) with (cbf h s c). case_decide; done.
  - apply (kp_full _ _ _ K).
  - exists L. by apply (timed_frame s).
  - exists L'. by apply (hosted_frame s).
  - split; [done | done | | done | done | done]. intros x. by rewrite !X.
Qed.

Definition on_files (s : cbstate) (R : list Z) (volume c : Z) (fid : AFSFid) : Prop := Volume fid = volume /\ cbf fhead s c ∈ R.
#[export] Instance on_files_dec s R volume c fid : Decision (on_files s R volume c fid).
Proof. unfold on_files. apply _. Defined.

Lemma defer_file_ok s P E volume f : tables_keep s P E -> f ∈ E -> Volume (fef fe_fid s f) = volume -> exists s' P',
  (delay_list (fef firstcb s f) (fuel_of s) ;; mod_fe f (fun e => set_fstatus (Z.lor (fstatus e) FE_LATER) e)) s = Some (tt, s')
  /\ tables_keep s' P' E /\ marks s s' /\ defers (on_files s [f] volume) s P s' P'.
Proof.
  intros K Hf Hv. destruct (tk_filed _ _ _ K) as (FL & BL & F). pose proof (tk_tables _ _ _ K) as T.
  destruct (delay_list_ok (FL f) s P E (fef firstcb s f) (fuel_of s) K) as (s1 & P1 & E1 & K1 & M1 & F1 & H1 & L1).
  - by apply (ls_list _ _ _ _ (proj1 F)).
  - intros c Hc. by apply (ls_elem _ _ _ _ (proj1 F)) in Hc as [Hc _].
  - pose proof (list_short s _ E FL BL (tb_bounds T) F f Hf). unfold fuel_of. lia.
  - rewrite (bind_ok _ _ _ _ _ E1). destruct (late_ok s1 P1 E f K1 Hf) as (s2 & P2 & E2 & K2 & M2 & H2).
    exists s2, P2. split; [done | split; [done | split; [by transitivity s1 |]]].
    assert (HM : forall c p, P !! c = Some p -> on_files s [f] volume c (p_fid p) <-> c ∈ FL f).
    { intros c p Hp. rewrite (file_member s P E FL BL f c p K F Hf Hp). unfold on_files. rewrite list_elem_of_singleton. split; [by intros [_ ?] |].
      intros Ec. split; [| done]. rewrite (tk_promise _ _ _ K c p Hp). cbn. by rewrite Ec. }
    split.
    + intros c. rewrite H2, H1. destruct (P !! c) as [p |] eqn:Ep; [| done]. cbn. f_equal. specialize (HM c p Ep).
      destruct (mk_cb _ _ M1 c) as [_ Eh]. rewrite Eh. pose proof (file_member s P E FL BL f c p K F Hf Ep) as HF.
      repeat case_decide; try done; exfalso; naive_solver.
    + intros c p Hp Hq. apply (mk_later _ _ M2), (L1 c p Hp). by apply (HM c p Hp).
Qed.

Lemma delay_bucket_ok volume R : forall s P E v fuel, tables_keep s P E -> linked (fef fnext s) v R -> (forall x, x ∈ R -> x ∈ E) -> (length R < fuel)%nat ->
  exists b s' P', delay_bucket volume v fuel s = Some (b, s') /\ tables_keep s' P' E /\ marks s s' /\ defers (on_files s R volume) s P s' P'.
Proof.
  induction R as [| f R IH]; intros s P E v fuel K HL Hin Hfu; cbn [linked length] in *; (destruct fuel as [| fuel]; [lia |]); cbn [delay_bucket].
  - subst v. exists false, s, P. split; [done | split; [done | split; [done |]]]. split.
    + intros c. destruct (P !! c); [| done]. cbn. rewrite decide_False; [done |]. by intros [_ ?%not_elem_of_nil].
    + by intros c p _ [_ ?%not_elem_of_nil].
  - destruct HL as [-> HL]. assert (Hf : f ∈ E) by (apply Hin; left). pose proof (tk_tables _ _ _ K) as T.
    rewrite (proj2 (Z.eqb_neq f 0)) by by apply (fe_nonzero s _ _ (tb_bounds T)).
    rewrite (bind_ok _ _ _ _ _ (get_fe_ok s f (tb_files _ _ _ T f Hf))).
    change (fe_fid (fef id s f)) with (fef fe_fid s f). change (firstcb (fef id s f)) with (fef firstcb s f). change (fnext (fef id s f)) with (fef fnext s f).
    assert (B : exists s1 P1, (if Volume (fef fe_fid s f) =? volume then
        let* n := gets fuel_of in delay_list (fef firstcb s f) n ;; mod_fe f (fun e => set_fstatus (Z.lor (fstatus e) FE_LATER) e)
      else ret tt) s = Some (tt, s1) /\ tables_keep s1 P1 E /\ marks s s1 /\ defers (on_files s [f] volume) s P s1 P1).
    { destruct (Z.eqb_spec (Volume (fef fe_fid s f)) volume) as [Ev | Ev].
      - rewrite (bind_ok _ _ s (fuel_of s) s) by done. by apply defer_file_ok.
      - exists s, P. split; [done | split; [done | split; [done |]]].
        assert (N : forall c p, P !! c = Some p -> ~ on_files s [f] volume c (p_fid p)).
        { intros c p Hp [Hv Hc%list_elem_of_singleton]. apply Ev. rewrite (tk_promise _ _ _ K c p Hp) in Hv. cbn in Hv. by rewrite Hc in Hv. }
        split; [| intros c p Hp Hq; by destruct (N c p Hp)]. intros c. destruct (P !! c) as [p |] eqn:Ep; [| done]. cbn.
        by rewrite decide_False by by apply N. }
    destruct B as (s1 & P1 & E1 & K1 & M1 & D1). rewrite (bind_ok _ _ _ _ _ E1).
    destruct (IH s1 P1 E (fef fnext s f) fuel K1) as (b & s2 & P2 & E2 & K2 & M2 & D2).
    + apply (links_frame (fef fnext s)); [done |]. intros x _. apply (mk_fe _ _ M1).
    + intros x Hx. apply Hin. by right.
    + lia.
    + rewrite (bind_ok _ _ _ _ _ E2). eexists _, s2, P2. split; [done | split; [done | split; [by transitivity s1 |]]].
      apply (defers_trans _ _ _ s P s1 P1 s2 P2 D1 D2 M2). intros c p _. unfold on_files. destruct (mk_cb _ _ M1 c) as [_ ->].
      rewrite elem_of_cons, list_elem_of_singleton. naive_solver.
Qed.

(** All buckets. *)
Lemma fid_hash_bucket fid : fid_hash fid ∈ all_buckets.
Proof.
  unfold fid_hash, FEHash, all_buckets. change (FEHASH_SIZE - 1) with (Z.ones 9). rewrite Z.land_ones by lia.
  pose proof (Z.mod_pos_bound (u32 (Volume fid + Unique fid)) (2 ^ 9)). set (x := _ mod _) in *. change (2 ^ 9) with 512 in *.
  apply list_elem_of_fmap. exists (Z.to_nat x). split; [lia |]. apply elem_of_seq. change FEHASH_SIZE with 512. lia.
Qed.

Definition of_volume (volume : Z) (p : promise) : Prop := Volume (p_fid p) = volume.
#[export] Instance of_volume_dec volume p : Decision (of_volume volume p).
Proof. unfold of_volume. apply _. Defined.

Definition in_buckets (volume : Z) (hs : list Z) (_ : Z) (fid : AFSFid) : Prop := Volume fid = volume /\ fid_hash fid ∈ hs.
#[export] Instance in_buckets_dec volume hs c fid : Decision (in_buckets volume hs c fid).
Proof. unfold in_buckets. apply _. Defined.

Lemma delay_buckets_ok volume hs : forall s P E, tables_keep s P E -> exists b s' P', delay_buckets volume hs s = Some (b, s')
  /\ tables_keep s' P' E /\ marks s s' /\ defers (in_buckets volume hs) s P s' P'.
Proof.
  induction hs as [| h hs IH]; intros s P E K; cbn [delay_buckets].
  - exists false, s, P. split; [done | split; [done | split; [done |]]]. split.
    + intros c. destruct (P !! c); [| done]. cbn. rewrite decide_False; [done |]. by intros [_ ?%not_elem_of_nil].
    + by intros c p _ [_ ?%not_elem_of_nil].
  - rewrite (bind_ok _ _ s (bucket s h) s), (bind_ok _ _ s (fuel_of s) s) by done.
    destruct (tk_filed _ _ _ K) as (FL & BL & F). pose proof (tk_tables _ _ _ K) as T.
    destruct (delay_bucket_ok volume (BL h) s P E (bucket s h) (fuel_of s) K) as (b1 & s1 & P1 & E1 & K1 & M1 & D1).
    + apply (bk_chain _ _ _ (proj2 F)).
    + by intros x [Hx _]%(bk_bucket _ _ _ (proj2 F)).
    + pose proof (bucket_short s _ E BL h (tb_bounds T) (proj2 F)). unfold fuel_of. lia.
    + rewrite (bind_ok _ _ _ _ _ E1). destruct (IH s1 P1 E K1) as (b2 & s2 & P2 & E2 & K2 & M2 & D2).
      rewrite (bind_ok _ _ _ _ _ E2). eexists _, s2, P2. split; [done | split; [done | split; [by transitivity s1 |]]].
      apply (defers_trans _ _ _ s P s1 P1 s2 P2 D1 D2 M2). intros c p Hp. unfold in_buckets, on_files.
      rewrite elem_of_cons, (bk_bucket _ _ _ (proj2 F)), (tk_promise _ _ _ K c p Hp). cbn.
      assert (He : cbf fhead s c ∈ E) by (apply (ls_head _ _ _ _ (proj1 F)); by apply elem_of_dom_2 in Hp). naive_solver.
Qed.

(** BreakVolumeCallBacksLater puts off every promise of the volume, and marks the
    hosts. *)
Definition volume_later (volume : Z) (P : gmap Z promise) : gmap Z promise := (fun p => if decide (of_volume volume p) then put_off p else p) <$> P.

Lemma VolumeLater_ok volume s P : keeps s P -> exists b s', BreakVolumeCallBacksLater volume s = Some (b, s')
  /\ keeps s' (volume_later volume P) /\ marks s s' /\ forall c p, P !! c = Some p -> of_volume volume p -> has_later s' (p_host p).
Proof.
  intros (E & K). destruct (delay_buckets_ok volume all_buckets s P E K) as (b & s' & P' & E1 & K1 & M1 & D1). exists b, s'.
  assert (EP : P' = volume_later volume P).
  { apply map_eq. intros c. unfold volume_later. rewrite (df_map _ _ _ _ _ D1), lookup_fmap. destruct (P !! c) as [p |]; [| done]. cbn. f_equal.
    apply decide_ext. split; [by intros [? _] | intros Hv; split; [done | apply fid_hash_bucket]]. }
  rewrite <- EP. split; [exact E1 | split; [by exists E | split; [done |]]]. intros c p Hp Hv. apply (df_hosts _ _ _ _ _ D1 c p Hp).
  split; [done | apply fid_hash_bucket].
Qed.

(** ** Taking the marked entries out of their buckets *)

(** Which are taken: those of the first volume that is seen. *)
Definition file_volume (s : cbstate) (f : Z) : Z := Volume (fef fe_fid s f).

Fixpoint picks (is_later : Z -> bool) (vol : Z -> Z) (R : list Z) (v : Z) : list Z * Z :=
  match R with
  | [] => ([], v)
  | f :: R' =>
      if is_later f && ((v =? 0) || (v =? vol f)) then let r := picks is_later vol R' (vol f) in (r.1 ++ [f], r.2)
      else picks is_later vol R' v
  end.

Section picks.
Context (is_later : Z -> bool) (vol : Z -> Z).

Lemma picks_app R1 R2 : forall v, picks is_later vol (R1 ++ R2) v =
  let r1 := picks is_later vol R1 v in let r2 := picks is_later vol R2 r1.2 in (r2.1 ++ r1.1, r2.2).
Proof.
  induction R1 as [| f R1 IH]; intros v; cbn [app picks fst snd]; [rewrite app_nil_r; by destruct (picks is_later vol R2 v) |].
  destruct (is_later f && _); [| apply IH]. rewrite IH. cbn zeta. cbn [fst snd]. by rewrite app_assoc.
Qed.

Lemma picks_volume R : forall v, v <> 0 -> (picks is_later vol R v).2 = v /\ forall f, f ∈ (picks is_later vol R v).1 -> vol f = v.
Proof.
  induction R as [| f R IH]; intros v Hv; cbn [picks]; [split; [done | by intros f ?%not_elem_of_nil] |].
  destruct (is_later f); cbn [andb]; [| by apply IH]. rewrite (proj2 (Z.eqb_neq v 0) Hv). cbn [orb].
  destruct (Z.eqb_spec v (vol f)) as [Ev | Ev]; [| by apply IH]. rewrite <- Ev. destruct (IH v Hv) as [H1 H2]. split; [exact H1 |].
  intros x [Hx | ->%list_elem_of_singleton]%elem_of_app; [by apply H2 | done].
Qed.

Lemma picks_in R : forall v f, f ∈ (picks is_later vol R v).1 ->
  f ∈ R /\ is_later f = true /\ (vol f = (picks is_later vol R v).2 \/ vol f = 0).
Proof.
  induction R as [| g R IH]; intros v f; cbn [picks]; [by intros ?%not_elem_of_nil |].
  destruct (is_later g && ((v =? 0) || (v =? vol g))) eqn:Eg; cbn [fst snd].
  - apply andb_prop in Eg as [Eg _]. intros [Hf | ->%list_elem_of_singleton]%elem_of_app.
    + destruct (IH (vol g) f Hf) as (H1 & H2). split; [by right | done].
    + split; [left | split; [done |]]. destruct (decide (vol g = 0)) as [E0 | E0]; [by right | left]. symmetry. by apply picks_volume.
  - intros Hf. destruct (IH v f Hf) as (H1 & H2). split; [by right | done].
Qed.

Lemma picks_all R : forall v f, f ∈ R -> is_later f = true -> vol f = (picks is_later vol R v).2 -> f ∈ (picks is_later vol R v).1.
Proof.
  induction R as [| g R IH]; intros v f Hf Hl Hv; [by apply not_elem_of_nil in Hf |]. cbn [picks] in *.
  destruct (is_later g && ((v =? 0) || (v =? vol g))) eqn:Eg; cbn [fst snd] in *; apply elem_of_cons in Hf as [-> | Hf].
  - apply elem_of_app. right. left.
  - apply elem_of_app. left. by apply IH.
  - rewrite Hl in Eg. cbn [andb] in Eg. apply orb_false_iff in Eg as [E1%Z.eqb_neq E2%Z.eqb_neq].
    rewrite (proj1 (picks_volume R v E1)) in Hv. congruence.
  - by apply IH.
Qed.

Lemma picks_none R v : v = 0 -> (picks is_later vol R v).1 = [] -> (forall f, f ∈ R -> is_later f = false) /\ (picks is_later vol R v).2 = v.
Proof.
  intros ->. induction R as [| g R IH]; intros Hn; [split; [by intros f ?%not_elem_of_nil | done] |]. cbn [picks] in *.
  rewrite Z.eqb_refl, orb_true_l, andb_true_r in *. destruct (is_later g) eqn:Eg; cbn [fst] in Hn; [by apply app_eq_nil in Hn as [_ ?] |].
  destruct (IH Hn) as [H1 H2]. split; [| done]. intros f [-> | Hf]%elem_of_cons; [done | by apply H1].
Qed.

Lemma picks_nodup R : forall v, NoDup R -> NoDup (picks is_later vol R v).1.
Proof.
  induction R as [| g R IH]; intros v HN; [apply NoDup_nil_2 |]. apply NoDup_cons in HN as [Hg HN]. cbn [picks].
  destruct (is_later g && _); [| by apply IH]. cbn [fst]. apply NoDup_app. split; [by apply IH | split; [| apply NoDup_singleton]].
  intros x Hx ->%list_elem_of_singleton. by apply picks_in in Hx as [? _].
Qed.
End picks.

Lemma picks_ext l1 l2 v1 v2 R : (forall f, l2 f = l1 f) -> (forall f, v2 f = v1 f) -> forall v, picks l2 v2 R v = picks l1 v1 R v.
Proof. intros Hl Hv. induction R as [| f R IH]; intros v; [done |]. cbn [picks]. by rewrite Hl, Hv, !IH. Qed.

Lemma unfiled_picks s s' R v : unfiled s' = unfiled s -> picks (later s') (file_volume s') R v = picks (later s) (file_volume s) R v.
Proof.
  intros U. apply picks_ext; intros x; [unfold later; by rewrite (unfiled_fe fstatus s s' x U) | unfold file_volume; by rewrite (unfiled_fe fe_fid s s' x U)].
Qed.

(** The tables with some of the file entries out of their buckets. *)
Record loose (s : cbstate) (P : gmap Z promise) (E U : gset Z) (FL BL : Z -> list Z) : Prop := {
  lo_tables : tables s (dom P) E;
  lo_lists : lists s (dom P) E FL;
  lo_buckets : buckets s (E ∖ U) BL;
  lo_promise : forall c p, P !! c = Some p -> p = promise_at s c;
  lo_full : forall f, f ∈ E -> f ∉ leaked -> exists c, c ∈ dom P /\ cbf fhead s c = f;
  lo_timed : timed s (dom P);
  lo_hosted : hosted s (dom P)
}.

Lemma loose_none s P E FL BL : tables_keep s P E -> files s (dom P) E FL BL -> loose s P E ∅ FL BL.
Proof. intros ([K1 _ K3 K4] & T & H) [F B]. split; try done. by rewrite difference_empty_L. Qed.
Lemma loose_all s P E FL BL : loose s P E ∅ FL BL -> tables_keep s P E.
Proof.
  intros [L1 L2 L3 L4 L5 L6 L7]. rewrite difference_empty_L in L3. split; [split; [done | by exists FL, BL | done | done] | done].
Qed.

Lemma later_test x : negb (Z.land x FE_LATER =? 0) = (Z.land x FE_LATER =? FE_LATER).
Proof. unfold FE_LATER. rewrite (Z.land_ones x 1 ltac:(lia) : Z.land x 1 = _). pose proof (Z.mod_pos_bound x (2 ^ 1)). change (2 ^ 1) with 2 in *. lia. Qed.

(** One entry. *)
Lemma unchain_one s P E U FL BL h V f R : loose s P E U FL BL -> BL h = V ++ f :: R -> exists s', write_felink (fplace h V) (fef fnext s f) s = Some (tt, s')
  /\ loose s' P E (U ∪ {[f]}) FL (fun i => if decide (i = h) then V ++ R else BL i) /\ unfiled s' = unfiled s.
Proof.
  intros [L1 L2 L3 L4 L5 (LT & L6) (LH & L7)] Eb. assert (Hf : f ∈ BL h) by (rewrite Eb; set_solver).
  apply (bk_bucket _ _ _ L3) in Hf as [Hf Eh]. subst h. set (h := fid_hash (fef fe_fid s f)) in *.
  destruct (write_fplace_ok s (E ∖ U) BL f V R) as (s' & E1 & B1 & U1 & C1 & F1 & I1 & X1); [| done | done | done |].
  { intros x [Hx _]%elem_of_difference. by apply (tb_files _ _ _ L1). }
  exists s'. split; [done | split; [| done]].
  assert (X : forall A (g : CallBack -> A) x, cbf g s' x = cbf g s x) by (intros; unfold cbf; by rewrite C1). split.
  - apply (tables_frame s); [done | exact (f_equal nblks U1) | intros x; unfold is_cb; by rewrite C1 | done | exact (f_equal CBfree U1) | done].
  - apply (lists_frame s); [done | intros x; by rewrite !X | done].
  - replace (E ∖ (U ∪ {[f]})) with (E ∖ U ∖ {[f]}) by set_solver. done.
  - intros c p Hp. rewrite (unfiled_promise s s' c U1). by apply L4.
  - intros g Hg Hl. setoid_rewrite X. by apply L5.
  - exists LT. by apply (unfiled_timed s).
  - exists LH. by apply (unfiled_hosted s).
Qed.

Lemma unchain_later_ok h R : forall V s P E U FL BL v fuel, loose s P E U FL BL -> BL h = V ++ R -> (length R < fuel)%nat -> exists s' BL',
  let r := picks (later s) (file_volume s) R v in unchain_later (fplace h V) v fuel s = Some (r, s')
  /\ loose s' P E (U ∪ list_to_set r.1) FL BL' /\ (forall i, i <> h -> BL' i = BL i) /\ unfiled s' = unfiled s.
Proof.
  induction R as [| f R IH]; intros V s P E U FL BL v fuel L Eb Hfu; cbn [length] in Hfu; (destruct fuel as [| fuel]; [lia |]);
    pose proof (lo_tables _ _ _ _ _ _ L) as T; pose proof (lo_buckets _ _ _ _ _ _ L) as B; pose proof (bk_chain _ _ _ B h) as HL; rewrite Eb in HL;
    (assert (HE : forall x, x ∈ BL h -> is_fe s x) by (intros x [[Hx _]%elem_of_difference _]%(bk_bucket _ _ _ B); by apply (tb_files _ _ _ T)));
    (assert (HV : forall x, x ∈ V -> is_fe s x) by (intros x Hx; apply HE; rewrite Eb; set_solver)); cbn [unchain_later];
    rewrite (bind_ok _ _ _ _ _ (read_fplace s h _ V HL HV)).
  - exists s, BL. cbn. rewrite union_empty_r_L. done.
  - assert (Hf : is_fe s f) by (apply HE; rewrite Eb; set_solver). change (default 0 (head (f :: R))) with f.
    rewrite (proj2 (Z.eqb_neq f 0)) by (apply (tb_fe _ _ _ T) in Hf; lia). rewrite (bind_ok _ _ _ _ _ (get_fe_ok s f Hf)), later_test.
    change (fnext (fef id s f)) with (fef fnext s f). change (Volume (fe_fid (fef id s f))) with (file_volume s f).
    change (Z.land (fstatus (fef id s f)) FE_LATER =? FE_LATER) with (later s f). cbn [picks].
    destruct (later s f && ((v =? 0) || (v =? file_volume s f))).
    + destruct (unchain_one s P E U FL BL h V f R L Eb) as (s1 & E1 & L1 & U1). rewrite (bind_ok _ _ _ _ _ E1).
      destruct (IH V s1 P E _ FL _ (file_volume s f) fuel L1) as (s2 & BL2 & E2 & L2 & X2 & U2); [by rewrite decide_True | lia |].
      cbn zeta in E2, L2. rewrite (unfiled_picks s s1 R _ U1) in E2, L2.
      rewrite (bind_ok _ _ _ _ _ E2). exists s2, BL2. cbn zeta. cbn [fst snd]. split; [done | split; [| split; [| by rewrite U2]]].
      * rewrite list_to_set_app_L. cbn [list_to_set]. rewrite union_empty_r_L. replace (U ∪ _) with (U ∪ {[f]} ∪ list_to_set (picks (later s) (file_volume s) R (file_volume s f)).1); [done |].
        set_solver.
      * intros i Hi. rewrite X2, decide_False by done. done.
    + destruct (IH (V ++ [f]) s P E U FL BL v fuel L) as (s2 & BL2 & E2 & H2); [by rewrite <- app_assoc | lia |].
      unfold fplace in E2. rewrite last_snoc in E2. by exists s2, BL2.
Qed.

Lemma unchain_all_ok hs : forall s P E U FL BL v, NoDup hs -> loose s P E U FL BL -> exists s' BL',
  let r := picks (later s) (file_volume s) (concat (map BL hs)) v in unchain_all hs v s = Some (r, s')
  /\ loose s' P E (U ∪ list_to_set r.1) FL BL' /\ unfiled s' = unfiled s.
Proof.
  induction hs as [| h hs IH]; intros s P E U FL BL v HN L; cbn [unchain_all map concat].
  - exists s, BL. cbn. rewrite union_empty_r_L. done.
  - apply NoDup_cons in HN as [Hh HN]. rewrite (bind_ok _ _ s (fuel_of s) s) by done.
    destruct (unchain_later_ok h (BL h) [] s P E U FL BL v (fuel_of s) L eq_refl) as (s1 & BL1 & E1 & L1 & X1 & U1).
    { pose proof (lo_buckets _ _ _ _ _ _ L) as B. assert (H : (length (BL h) <= Z.to_nat (nblks s))%nat); [| unfold fuel_of; lia].
      apply nodup_bounded; [apply (bk_once _ _ _ B) |]. intros x [[Hx _]%elem_of_difference _]%(bk_bucket _ _ _ B).
      pose proof (lo_tables _ _ _ _ _ _ L) as T. apply (tb_fe _ _ _ T). by apply (tb_files _ _ _ T). }
    change (fplace h []) with (Bucket h) in E1. cbn zeta in E1, L1. rewrite (bind_ok _ _ _ _ _ E1).
    set (r1 := picks (later s) (file_volume s) (BL h) v) in *.
    destruct (IH s1 P E _ FL BL1 r1.2 HN L1) as (s2 & BL2 & E2 & L2 & U2). cbn zeta in E2, L2.
    assert (Em : map BL1 hs = map BL hs) by (apply map_ext_in; intros i Hi; apply X1; intros ->; by apply Hh, list_elem_of_In).
    rewrite Em, (unfiled_picks s s1 _ _ U1) in E2, L2.
    rewrite (bind_ok _ _ _ _ _ E2). exists s2, BL2. rewrite picks_app. fold r1. cbn zeta. cbn [fst snd].
    split; [done | split; [| by rewrite U2]]. rewrite list_to_set_app_L.
    replace (U ∪ (list_to_set (picks (later s) (file_volume s) (concat (map BL hs)) r1.2).1 ∪ list_to_set r1.1))
      with (U ∪ list_to_set r1.1 ∪ list_to_set (picks (later s) (file_volume s) (concat (map BL hs)) r1.2).1) by set_solver. done.
Qed.

(** ** What is gathered: the hosts, and the latest queue *)

Record gathered (first : Z) (P : gmap Z promise) (D : list Z) (t : Z) (hs : list Z) (t' : Z) : Prop := {
  ga_hosts : forall h, h ∈ hs <-> exists c p, c ∈ D /\ P !! c = Some p /\ p_host p = h;
  ga_in : forall c, c ∈ D -> is_Some (P !! c);
  ga_queue : t' = t \/ exists c p, c ∈ D /\ P !! c = Some p /\ t' = p_queue p;
  ga_before : t <> 0 -> t' <> 0 /\ TNorm first t <= TNorm first t';
  ga_latest : forall c p, c ∈ D -> P !! c = Some p -> t' <> 0 /\ TNorm first (p_queue p) <= TNorm first t'
}.

Lemma gathered_none first P t : gathered first P [] t [] t.
Proof.
  split; [| by intros c ?%not_elem_of_nil | by left | done | by intros c p ?%not_elem_of_nil].
  intros h. split; [by intros ?%not_elem_of_nil | by intros (c & p & ?%not_elem_of_nil & _)].
Qed.

Lemma later_queue_spec first t q : q <> 0 -> later_queue first t q <> 0 /\ TNorm first q <= TNorm first (later_queue first t q)
  /\ (t <> 0 -> TNorm first t <= TNorm first (later_queue first t q)) /\ (later_queue first t q = t \/ later_queue first t q = q).
Proof.
  intros Hq. unfold later_queue. destruct (Z.eqb_spec t 0) as [-> | Ht]; cbn [orb]; [split; [done | split; [lia | split; [done | by right]]] |].
  destruct (Z.ltb_spec (TNorm first t) (TNorm first q)); [split; [done | split; [lia | split; [lia | by right]]] | split; [done | split; [lia | split; [lia | by left]]]].
Qed.

Lemma gathered_one first P c p t : P !! c = Some p -> p_queue p <> 0 -> gathered first P [c] t [p_host p] (later_queue first t (p_queue p)).
Proof.
  intros Hp Hq. destruct (later_queue_spec first t _ Hq) as (H1 & H2 & H3 & H4). split.
  - intros h. rewrite list_elem_of_singleton. split; [intros ->; exists c, p; split; [left | done] |].
    intros (d & q & ->%list_elem_of_singleton & Hd & <-). congruence.
  - intros d ->%list_elem_of_singleton. by exists p.
  - destruct H4 as [-> | ->]; [by left | right]. exists c, p. split; [left | done].
  - intros Ht. split; [done | by apply H3].
  - intros d q ->%list_elem_of_singleton Hd. assert (q = p) as -> by congruence. done.
Qed.

Lemma gathered_app first P P2 D1 D2 t hs1 hs2 t1 t2 : gathered first P D1 t hs1 t1 -> gathered first P2 D2 t1 hs2 t2 ->
  (forall c, c ∈ D2 -> P2 !! c = P !! c) -> gathered first P (D1 ++ D2) t (hs1 ++ hs2) t2.
Proof.
  intros [A1 A2 A3 A4 A5] [B1 B2 B3 B4 B5] E. split.
  - intros h. rewrite elem_of_app, A1, B1. setoid_rewrite elem_of_app. split.
    + intros [(c & p & Hc & Hp) | (c & p & Hc & Hp & Hh)]; [exists c, p; split; [by left | done] |].
      exists c, p. split; [by right |]. by rewrite <- E.
    + intros (c & p & [Hc | Hc] & Hp & Hh); [left; by exists c, p | right]. exists c, p. rewrite E by done. done.
  - intros c [Hc | Hc]%elem_of_app; [by apply A2 |]. rewrite <- E by done. by apply B2.
  - destruct B3 as [-> | (c & p & Hc & Hp & ->)].
    + destruct A3 as [-> | (c & p & Hc & Hp & ->)]; [by left | right; exists c, p; split; [apply elem_of_app; by left | done]].
    + right. exists c, p. rewrite <- E by done. split; [apply elem_of_app; by right | done].
  - intros Ht. destruct (A4 Ht) as [H1 H2], (B4 (proj1 (A4 Ht))) as [H3 H4]. split; [done | lia].
  - intros c p [Hc | Hc]%elem_of_app Hp.
    + destruct (A5 c p Hc Hp) as [H1 H2]. destruct (B4 H1) as [H3 H4]. split; [done | lia].
    + apply (B5 c p Hc). by rewrite E.
Qed.

(** ** Freeing them *)

(** The first callback of a file deleted, the file left. *)
Lemma CDel_first_ok s c f : c <> 0 -> is_cb s c -> is_fe s f -> cbf fhead s c = f -> fef firstcb s f = c -> exists s', CDel c false s = Some (tt, s')
  /\ still f s s' /\ fef firstcb s' f = cbf cnext s c /\ CBfree s' = c :: CBfree s /\ FEfree s' = FEfree s /\ CB s' = CB s
  /\ (forall x, is_fe s' x <-> is_fe s x) /\ unfiled s' = unfiled (with_CBfree (c :: CBfree s) s).
Proof.
  intros Hc0 Hc Hf Eh Ec. unfold CDel, CDelPtr. rewrite (bind_ok _ _ _ _ _ (get_cb_ok s c Hc)), (bind_ok _ _ s (nblks s) s) by done.
  change (fhead (cbf id s c)) with (cbf fhead s c). rewrite Eh.
  assert (Er : read_link (First f) s = Some (c, s)).
  { cbn [read_link]. rewrite (bind_ok _ _ _ _ _ (get_fe_ok s f Hf)). unfold ret. f_equal. f_equal. exact Ec. }
  assert (El : find_link (fun v _ => v =? c) (First f) (Z.to_nat (nblks s) + 11) s = Some (First f, s)).
  { replace (Z.to_nat (nblks s) + 11)%nat with (S (Z.to_nat (nblks s) + 10)) by lia. cbn [find_link]. rewrite (bind_ok _ _ _ _ _ Er).
    rewrite (proj2 (Z.eqb_neq c 0) Hc0), (bind_ok _ _ _ _ _ (get_cb_ok s c Hc)). by rewrite Z.eqb_refl. }
  rewrite (bind_ok _ _ _ _ _ El), (bind_ok _ _ _ _ _ Er), (proj2 (Z.eqb_neq c 0) Hc0), (bind_ok _ _ _ _ _ (get_cb_ok s c Hc)).
  change (cnext (cbf id s c)) with (cbf cnext s c). cbn [write_link]. rewrite (bind_ok _ _ _ _ _ (mod_fe_ok s f _ Hf)).
  set (s1 := with_FE (alter (set_firstcb (cbf cnext s c)) f) s). set (s2 := with_CBfree (c :: CBfree s1) s1).
  rewrite (bind_ok _ _ s1 tt s2) by done. assert (Hf2 : is_fe s2 f) by by apply is_fe_alter.
  rewrite (bind_ok _ _ _ _ _ (get_fe_ok s2 f Hf2)), (bind_ok _ _ _ _ _ (mod_fe_ok s2 f _ Hf2)), andb_false_r. eexists. split; [done |].
  set (m := u32 _). set (s3 := with_FE (alter (set_ncbs m) f) s2).
  assert (X : forall A (h : FileEntry -> A) x, (forall v e, h (set_ncbs v e) = h e) -> (forall v e, h (set_firstcb v e) = h e) -> fef h s3 x = fef h s x).
  { intros A h x H1 H2. unfold s3. rewrite fef_keep by done. change (fef h s1 x = fef h s x). unfold s1. by rewrite fef_keep. }
  split; [split; try done | split; [| split; [done | split; [done | split; [done | split]]]]].
  - intros x. apply promise_frame; [done |]. intros y. by rewrite !X.
  - intros g. unfold later. rewrite !X by done. do 3 (split; [done |]). intros Hg.
    unfold s3. rewrite (fef_keep firstcb), fef_alter, decide_False by done. change (fef ?h s2 g) with (fef h s1 g). unfold s1.
    by rewrite (fef_keep ncbs), fef_alter, decide_False.
  - unfold s3. rewrite (fef_keep firstcb) by done. change (fef firstcb s1 f = cbf cnext s c). unfold s1. rewrite fef_alter by done. by rewrite decide_True.
  - intros x. unfold s3. rewrite is_fe_alter. apply is_fe_alter.
  - unfold s3. rewrite unfiled_alter_fe by done. transitivity (with_CBfree (c :: CBfree (unfiled s1)) (unfiled s1)); [done |].
    unfold s1. by rewrite unfiled_alter_fe.
Qed.

Lemma free_delayed_ok f l : forall s (P : gmap Z promise) C E v t fuel, tables s C E -> timed s C -> hosted s C ->
  (forall c, c ∈ C -> P !! c = Some (promise_at s c)) -> is_fe s f -> fef firstcb s f = v ->
  (forall c, c ∈ l -> c ∈ C /\ cbf fhead s c = f /\ cbf status s c = CB_DELAYED) ->
  linked (cbf cnext s) v l -> NoDup l -> (length l < fuel)%nat ->
  exists s' hs t', free_delayed v t fuel s = Some ((hs, t'), s') /\ gathered (tfirst s) P l t hs t' /\ tables s' (C ∖ list_to_set l) E
    /\ timed s' (C ∖ list_to_set l) /\ hosted s' (C ∖ list_to_set l) /\ still f s s'.
Proof.
  induction l as [| c l IH]; intros s P C E v t fuel T Ti Ho HP Hf Ev Hin HL HN Hfu; cbn [linked length] in *; (destruct fuel as [| fuel]; [lia |]).
  - assert (v = 0) as -> by done. exists s, [], t. cbn. replace (C ∖ ∅) with C by set_solver.
    split; [done | split; [apply gathered_none | split; [done | split; [done | split; [done | by split]]]]].
  - destruct HL as [Evc HL]. rewrite Evc in *. clear Evc v. apply NoDup_cons in HN as [Hcl HN].
    destruct (Hin c ltac:(left)) as (Hc & Eh & Es). cbn [free_delayed]. pose proof (cb_nonzero s C E (tb_bounds T) c Hc) as Hc0.
    rewrite (proj2 (Z.eqb_neq c 0) Hc0). pose proof (tb_used _ _ _ T c Hc) as Hcb.
    rewrite (bind_ok _ _ _ _ _ (get_cb_ok s c Hcb)), (bind_ok _ _ s (tfirst s) s) by done.
    change (status (cbf id s c)) with (cbf status s c). rewrite Es. change (CB_DELAYED =? CB_DELAYED) with true. cbn iota.
    change (cnext (cbf id s c)) with (cbf cnext s c). change (thead (cbf id s c)) with (p_queue (promise_at s c)).
    change (hhead (cbf id s c)) with (p_host (promise_at s c)).
    destruct (unlist_only s C c Ti Ho Hc) as (s1 & s2 & E1 & E2 & T2 & H2 & Ef & Ecb & Ee & Ic & St).
    rewrite (bind_ok _ _ _ _ _ E1), (bind_ok _ _ _ _ _ E2). pose proof (St f) as S2.
    assert (X2 : forall A (h : FileEntry -> A) x, fef h s2 x = fef h s x) by (intros; by apply fef_same).
    destruct (CDel_first_ok s2 c f Hc0) as (s3 & E3 & S3 & F3 & B3 & D3 & C3 & I3 & U3).
    { by apply Ic. } { unfold is_fe. by rewrite Ef. } { by destruct (st_cb _ _ _ S2 c) as (_ & -> & _). } { by rewrite X2. }
    rewrite (bind_ok _ _ _ _ _ E3). pose proof (still_trans f s s2 s3 S2 S3) as S13.
    assert (Hq : p_queue (promise_at s c) <> 0).
    { destruct Ti as (L & _ & Hd). destruct (Hd c Hc) as (_ & _ & Hr%in_queues_range). cbn. lia. }
    pose proof (gathered_one (tfirst s) P c _ t (HP c Hc) Hq) as G1. destruct (unfiled_drop s2 s3 c U3) as (_ & _ & XT & XH & _).
    assert (Hs : forall x, x ∈ l -> x ∈ C ∖ {[c]}).
    { intros x Hx. apply elem_of_difference. split; [apply Hin; by right |]. intros ->%elem_of_singleton. done. }
    assert (Ecn : cbf cnext s2 c = cbf cnext s c) by by destruct (st_cb _ _ _ S2 c) as (-> & _).
    destruct (IH s3 P (C ∖ {[c]}) E (cbf cnext s c) (later_queue (tfirst s) t (p_queue (promise_at s c))) fuel)
      as (s' & hs & t' & E' & G' & T' & Ti' & Ho' & S').
    + apply (tables_free_cb s); [done | done | exact (f_equal (fun q => q.1.2) (st_quiet _ _ _ S13)) | | | by rewrite B3, Ecb | by rewrite D3].
      { intros x. unfold is_cb at 1. rewrite C3. apply Ic. } { intros x. rewrite I3. unfold is_fe. by rewrite Ef. }
    + destruct T2 as [L2 T2]. exists L2. by apply XT.
    + destruct H2 as [L2 H2]. exists L2. by apply XH.
    + intros x [Hx _]%elem_of_difference. rewrite (st_promise _ _ _ S13). by apply HP.
    + apply I3. unfold is_fe. by rewrite Ef.
    + by rewrite F3.
    + intros x Hx. destruct (Hin x ltac:(by right)) as (_ & H3 & H4). split; [by apply Hs | split; [by destruct (st_cb _ _ _ S13 x) as (_ & -> & _) |]].
      exact (eq_trans (f_equal p_status (st_promise _ _ _ S13 x)) H4).
    + apply (links_frame (cbf cnext s)); [done |]. intros x _. by destruct (st_cb _ _ _ S13 x) as (-> & _).
    + done.
    + lia.
    + rewrite (bind_ok _ _ _ _ _ E'). exists s', (p_host (promise_at s c) :: hs), t'. rewrite dom_minus_cons in T', Ti', Ho'.
      assert (Eq : tfirst s3 = tfirst s) by exact (f_equal (fun q => q.1.1.1.1.1.1) (st_quiet _ _ _ S13)). rewrite Eq in G'.
      split; [done |]. split; [exact (gathered_app _ P P [c] l t _ _ _ _ G1 G' (fun _ _ => eq_refl)) |].
      do 3 (split; [done |]). by apply (still_trans f s s3).
Qed.

(** A file that is out of its bucket. *)
Lemma free_one_ok s P E U FL BL f t : loose s P E U FL BL -> f ∈ U -> f ∈ E -> (forall c p, P !! c = Some p -> cbf fhead s c = f -> p_status p = CB_DELAYED) ->
  exists s1 s2 hs t', free_delayed (fef firstcb s f) t (fuel_of s) s = Some ((hs, t'), s1) /\ iFreeFE f s1 = Some (tt, s2)
  /\ loose s2 (drop_all (FL f) P) (E ∖ {[f]}) (U ∖ {[f]}) FL BL /\ gathered (tfirst s) P (FL f) t hs t' /\ quiet s2 = quiet s
  /\ forall x, cbf fhead s2 x = cbf fhead s x.
Proof.
  intros [L1 L2 L3 L4 L5 L6 L7] HfU Hf Hd. assert (Hmem : forall c, c ∈ FL f <-> c ∈ dom P /\ cbf fhead s c = f) by (intros c; by apply (ls_elem _ _ _ _ L2)).
  destruct (free_delayed_ok f (FL f) s P (dom P) E (fef firstcb s f) t (fuel_of s) L1 L6 L7) as (s1 & hs & t' & E1 & G & T1 & Ti1 & H1 & S1).
  { intros c [p Hp]%elem_of_dom. by rewrite <- (L4 c p Hp). } { by apply (tb_files _ _ _ L1). } { done. }
  { intros c [Hc Eh]%Hmem. split; [done | split; [done |]]. apply elem_of_dom in Hc as [p Hp]. pose proof (Hd c p Hp Eh) as Hs. by rewrite (L4 c p Hp) in Hs. }
  { by apply (ls_list _ _ _ _ L2). } { by apply (ls_nodup _ _ _ _ L2). }
  { assert (H : (length (FL f) <= Z.to_nat (nblks s))%nat); [| unfold fuel_of; lia]. apply nodup_bounded; [by apply (ls_nodup _ _ _ _ L2) |].
    intros x [Hx _]%Hmem. apply (tb_cb _ _ _ L1). by apply (tb_used _ _ _ L1). }
  set (s2 := with_FEfree (f :: FEfree s1) s1). exists s1, s2, hs, t'. split; [done | split; [done |]].
  assert (U2 : unfiled s2 = unfiled s1) by done.
  split; [split | split; [done | split; [exact (st_quiet _ _ _ S1) | intros x; exact (unfile_fhead s s1 s2 f S1 eq_refl x)]]].
  - rewrite dom_drop_all. by apply (tables_free_fe s1).
  - by apply (unfile_lists s s1 s2 P E FL f L2).
  - replace (E ∖ {[f]} ∖ (U ∖ {[f]})) with (E ∖ U).
    + apply (buckets_frame s); [done | |].
      * intros g. by destruct (st_fe _ _ _ S1 g) as (? & ? & ? & _).
      * intros h. unfold bucket. change (HashTable s2) with (HashTable s1). by rewrite (st_hash _ _ _ S1).
    + apply set_eq. intros x. rewrite !elem_of_difference, elem_of_singleton. destruct (decide (x = f)) as [-> | Hx]; naive_solver.
  - by apply (unfile_promise s s1 s2 P FL f S1 U2).
  - by apply (unfile_full s s1 s2 P E FL f L2 Hf S1 eq_refl).
  - rewrite dom_drop_all. destruct Ti1 as [L Ti1]. exists L. by apply (unfiled_timed s1 s2).
  - rewrite dom_drop_all. destruct H1 as [L H1]. exists L. by apply (unfiled_hosted s1 s2).
Qed.

Lemma free_later_ok l : forall s P E FL BL t, loose s P E (list_to_set l) FL BL -> NoDup l -> (forall f, f ∈ l -> f ∈ E) ->
  (forall c p, P !! c = Some p -> cbf fhead s c ∈ l -> p_status p = CB_DELAYED) ->
  exists s' E' D hs t', free_later l t s = Some ((hs, t'), s') /\ tables_keep s' (drop_all D P) E' /\ quiet s' = quiet s
  /\ gathered (tfirst s) P D t hs t' /\ forall c p, P !! c = Some p -> c ∈ D <-> cbf fhead s c ∈ l.
Proof.
  induction l as [| f l IH]; intros s P E FL BL t L HN Hin Hd; cbn [free_later list_to_set] in *.
  - exists s, E, [], [], t. rewrite drop_all_nil. split; [done | split; [by apply (loose_all s P E FL BL) | split; [done | split; [apply gathered_none |]]]].
    intros c p _. by rewrite !elem_of_nil.
  - apply NoDup_cons in HN as [Hfl HN]. assert (Hf : f ∈ E) by (apply Hin; left).
    rewrite (bind_ok _ _ _ _ _ (get_fe_ok s f (tb_files _ _ _ (lo_tables _ _ _ _ _ _ L) f Hf))), (bind_ok _ _ s (fuel_of s) s) by done.
    change (firstcb (fef id s f)) with (fef firstcb s f).
    destruct (free_one_ok s P E _ FL BL f t L) as (s1 & s2 & hs & t1 & E1 & E2 & L2 & G & Q2 & X2); [set_solver | done | |].
    { intros c p Hp Eh. apply (Hd c p Hp). rewrite Eh. left. }
    rewrite (bind_ok _ _ _ _ _ E1), (bind_ok _ _ _ _ _ E2). cbn [fst snd].
    replace (({[f]} ∪ list_to_set l) ∖ {[f]} : gset Z) with (list_to_set l : gset Z) in L2 by set_solver.
    destruct (IH s2 _ _ FL BL t1 L2 HN) as (s3 & E3 & D & hs2 & t2 & X3 & K3 & Q3 & G3 & HD).
    { intros x Hx. apply elem_of_difference. split; [apply Hin; by right |]. intros ->%elem_of_singleton. done. }
    { intros c p [Hp _]%drop_all_lookup Hx. apply (Hd c p Hp). right. by rewrite <- X2. }
    rewrite (bind_ok _ _ _ _ _ X3). exists s3, E3, (FL f ++ D), (hs ++ hs2), t2. rewrite <- drop_all_app.
    assert (Et : tfirst s2 = tfirst s) by exact (f_equal (fun q => q.1.1.1.1.1.1) Q2). rewrite Et in G3.
    split; [done | split; [done | split; [by rewrite Q3 | split]]].
    + apply (gathered_app _ P _ _ _ _ _ _ _ _ G G3). intros c [p Hp]%(ga_in _ _ _ _ _ _ G3). rewrite Hp. by apply drop_all_lookup in Hp as [-> _].
    + intros c p Hp. rewrite elem_of_app, elem_of_cons. assert (HF : c ∈ FL f <-> cbf fhead s c = f).
      { rewrite (ls_elem _ _ _ _ (lo_lists _ _ _ _ _ _ L)) by done. apply elem_of_dom_2 in Hp. naive_solver. }
      rewrite HF. split.
      * intros [Hc | Hc]; [by left | right]. pose proof Hc as [q Hq]%(ga_in _ _ _ _ _ _ G3). apply (HD c q Hq) in Hc. by rewrite X2 in Hc.
      * intros [Hc | Hc]; [by left |]. destruct (decide (cbf fhead s c = f)) as [Ef | Ef]; [by left | right].
        apply (HD c p); [apply drop_all_lookup; split; [done | by rewrite HF] | by rewrite X2].
Qed.

(** ** What is freed of the promises *)

Definition pending (volume : Z) (p : promise) : Prop := p_later p = true /\ Volume (p_fid p) = volume.
#[export] Instance pending_dec volume p : Decision (pending volume p).
Proof. unfold pending. apply _. Defined.

(** The first volume that is seen: every promise that was put off is taken back; or
    none is left. *)
Lemma free_pending_ok s P : keeps s P ->
  (forall c p, P !! c = Some p -> p_later p = true -> p_status p = CB_DELAYED /\ Volume (p_fid p) <> 0) ->
  exists feis v s1, unchain_all all_buckets 0 s = Some ((feis, v), s1)
  /\ (feis = [] /\ keeps s1 P /\ quiet s1 = quiet s /\ (forall c p, P !! c = Some p -> p_later p = false)
      \/ feis <> [] /\ exists s2 hs t D, free_later feis 0 s1 = Some ((hs, t), s2) /\ keeps s2 (without (pending v) P) /\ quiet s2 = quiet s
         /\ gathered (tfirst s) P D 0 hs t /\ forall c p, P !! c = Some p -> c ∈ D <-> pending v p).
Proof.
  intros (E & K) HP. destruct (tk_filed _ _ _ K) as (FL & BL & F). set (R := concat (map BL all_buckets)).
  destruct (unchain_all_ok all_buckets s P E ∅ FL BL 0) as (s1 & BL1 & E1 & L1 & U1); [| by apply loose_none |].
  { unfold all_buckets. apply NoDup_fmap_2; [intros a b; lia | apply NoDup_seq]. }
  cbn zeta in E1, L1. fold R in E1, L1. rewrite union_empty_l_L in L1. pose proof (unfiled_quiet s s1 U1) as Q1.
  assert (HR : forall f, f ∈ R <-> f ∈ E).
  { intros f. unfold R. rewrite list_elem_of_In, in_concat. split.
    - intros (l & Hl & Hf). apply in_map_iff in Hl as (h & <- & _). apply list_elem_of_In, (bk_bucket _ _ _ (proj2 F)) in Hf. apply Hf.
    - intros Hf. exists (BL (fid_hash (fef fe_fid s f))). split; [apply in_map, list_elem_of_In, fid_hash_bucket |].
      apply list_elem_of_In, (bk_bucket _ _ _ (proj2 F)). done. }
  assert (HE : forall c p, P !! c = Some p -> cbf fhead s c ∈ E /\ later s (cbf fhead s c) = p_later p /\ file_volume s (cbf fhead s c) = Volume (p_fid p)).
  { intros c p Hp. rewrite (tk_promise _ _ _ K c p Hp). split; [| done]. apply (ls_head _ _ _ _ (proj1 F)). by apply elem_of_dom_2 in Hp. }
  set (r := picks (later s) (file_volume s) R 0) in *. exists r.1, r.2, s1. split; [rewrite E1; by destruct r |].
  destruct (decide (r.1 = [])) as [Er | Er].
  - left. rewrite Er in L1. split; [done | split; [exists E; exact (loose_all s1 P E FL BL1 L1) | split; [done |]]].
    intros c p Hp. destruct (HE c p Hp) as (H1 & <- & _). apply (picks_none (later s) (file_volume s) R 0 eq_refl Er). by apply HR.
  - right. split; [done |]. pose proof (picks_in (later s) (file_volume s) R 0) as Pi. pose proof (picks_all (later s) (file_volume s) R 0) as Pa. fold r in Pi, Pa.
    assert (X1 : forall x, cbf fhead s1 x = cbf fhead s x) by (intros x; exact (unfiled_cb fhead s s1 x U1 (fun _ => eq_refl))).
    assert (HD : forall c p, P !! c = Some p -> cbf fhead s1 c ∈ r.1 <-> pending r.2 p).
    { intros c p Hp. rewrite X1. destruct (HE c p Hp) as (H1 & H2 & H3). split.
      - intros Hc. destruct (Pi _ Hc) as (_ & Hl & Hv). rewrite H2 in Hl. rewrite H3 in Hv. split; [done |].
        destruct Hv as [Hv | Hv]; [done |]. by destruct (HP c p Hp Hl).
      - intros [Hl Hv]. apply Pa; [by apply HR | by rewrite H2 | by rewrite H3]. }
    destruct (free_later_ok r.1 s1 P E FL BL1 0 L1) as (s2 & E2 & D & hs & t & X2 & K2 & Q2 & G & HD').
    + apply picks_nodup. unfold R. clear -F. assert (HN : NoDup all_buckets) by (apply NoDup_fmap_2; [intros a b; lia | apply NoDup_seq]).
      revert HN. generalize all_buckets as hs. induction hs as [| h hs IH]; intros HN; cbn [map concat]; [apply NoDup_nil_2 |].
      apply NoDup_cons in HN as [Hh HN]. apply NoDup_app. split; [apply (bk_once _ _ _ (proj2 F)) | split; [| by apply IH]].
      intros x [_ Hx]%(bk_bucket _ _ _ (proj2 F)) Hx'. apply list_elem_of_In, in_concat in Hx' as (l & Hl & Hx').
      apply in_map_iff in Hl as (i & <- & Hi). apply list_elem_of_In, (bk_bucket _ _ _ (proj2 F)) in Hx' as [_ Hx'].
      apply Hh. rewrite <- Hx, Hx'. by apply list_elem_of_In.
    + intros f Hf. apply HR. by apply Pi.
    + intros c p Hp Hc. apply (HD c p Hp) in Hc as [Hl _]. by apply (HP c p Hp).
    + exists s2, hs, t, D. assert (HDp : forall c p, P !! c = Some p -> c ∈ D <-> pending r.2 p) by (intros c p Hp; rewrite (HD' c p Hp); by apply HD).
      split; [exact X2 |]. rewrite <- (drop_all_without (pending r.2) P D HDp). split; [by exists E2 | split; [by rewrite Q2 | split; [| done]]].
      assert (Et : tfirst s1 = tfirst s) by exact (f_equal (fun q => q.1.1.1.1.1.1) Q1). by rewrite <- Et.
Qed.
End leaks.
