(* ===== verification/CallbackVolume.v ===== *)
(** Breaking the promises of a whole volume that were put off: BreakLaterCallBacks
    takes them back, and calls the hosts that had one about the volume. *)
From S2P Require Import Prelude Rings Monad Callback CallbackSpec CallbackFiles CallbackOps CallbackAdd CallbackBreak CallbackServe CallbackDelay CallbackLater.

#[local] Open Scope monad_scope.

(** ** Calling the hosts *)

Section volume.
Context (volume : Z).
Let fid : AFSFid := Fid volume 0 0.

(** What the calls may change: promises about the volume are made to hosts that
    are marked down; a host that was down before keeps none, and is to be reset. *)
Record called (s : cbstate) (P : gmap Z promise) (s' : cbstate) (P' : gmap Z promise) (new : list message) : Prop := {
  ca_calls : calls s' = new ++ calls s;
  ca_steady : steady s s';
  ca_deleted : forall h, host_deleted s' h <-> host_deleted s h;
  ca_down : forall h, down s h -> down s' h;
  ca_reset : forall h, reset_done s' h -> reset_done s h;
  ca_lost : forall h, ~ reset_done s' h -> reset_done s h -> down s' h /\ forall c p, P' !! c = Some p -> p_host p <> h;
  ca_from : forall c p, P' !! c = Some p -> P !! c = Some p
    \/ p = Promise fid false (p_host p) CB_DELAYED (p_queue p) /\ down s' (p_host p) /\ reset_done s' (p_host p);
  ca_kept : forall c p, P !! c = Some p -> P' !! c = Some p \/ ~ reset_done s' (p_host p);
  ca_later : forall h, has_later s' h <-> has_later s h
}.

Lemma called_trans s1 P1 s2 P2 s3 P3 n1 n2 : called s1 P1 s2 P2 n1 -> called s2 P2 s3 P3 n2 -> called s1 P1 s3 P3 (n2 ++ n1).
Proof.
  intros [A1 A2 A3 A4 A5 A6 A7 A8 A9] [B1 B2 B3 B4 B5 B6 B7 B8 B9]. split.
  - by rewrite B1, A1, app_assoc.
  - by apply (steady_trans s1 s2).
  - intros h. by rewrite B3.
  - intros h Hd. by apply B4, A4.
  - intros h Hr. by apply A5, B5.
  - intros h Hn Hr. destruct (flag_dec RESETDONE s2 h) as [H2 | H2]; [by apply B6 |]. destruct (A6 h H2 Hr) as [Hd Hp].
    split; [by apply B4 |]. intros c p Hc E. destruct (B7 c p Hc) as [Hc2 | (_ & _ & Hr3)]; [by apply (Hp c p) |]. by rewrite E in Hr3.
  - intros c p Hc. destruct (B7 c p Hc) as [Hc2 | Hx]; [| by right]. destruct (A7 c p Hc2) as [Hc1 | (Hp & Hd & Hr)]; [by left |]. right.
    split; [done | split; [by apply B4 |]]. destruct (flag_dec RESETDONE s3 (p_host p)) as [H3 | H3]; [done |].
    destruct (B6 _ H3 Hr) as [_ Hno]. by destruct (Hno c p Hc).
  - intros c p Hc. destruct (A8 c p Hc) as [Hc2 | Hn]; [by apply B8 |]. right. intros H3. by apply Hn, B5.
  - intros h. by rewrite B9.
Qed.

Lemma called_none s P : called s P s P [].
Proof. split; [done | by apply steady_quiet | done | done | done | done | by left | by left | done]. Qed.

(** What became of a host that had a promise. *)
Definition outcome (s' : cbstate) (P' : gmap Z promise) (new : list message) (t h : Z) : Prop :=
  host_deleted s' h \/ (exists m, m ∈ new /\ informed h fid m)
  \/ (down s' h /\ exists c, P' !! c = Some (Promise fid false h CB_DELAYED t)) \/ ~ reset_done s' h.

Lemma outcome_later s1 P1 s2 P2 n1 n2 t h : called s1 P1 s2 P2 n2 -> outcome s1 P1 n1 t h -> outcome s2 P2 (n2 ++ n1) t h.
Proof.
  intros C [H | [(m & Hm & Hi) | [(Hd & c & Hc) | H]]].
  - left. by apply (ca_deleted _ _ _ _ _ C).
  - right. left. exists m. split; [apply elem_of_app; by right | done].
  - right. right. destruct (ca_kept _ _ _ _ _ C c _ Hc) as [Hc' | Hn]; [left; split; [by apply (ca_down _ _ _ _ _ C) | by exists c] | by right].
  - right. right. right. intros H2. by apply H, (ca_reset _ _ _ _ _ C).
Qed.

Context (space : nat) (t : Z) (Ht : in_queues t = true) (deletefe : bool).

(** The hosts to call are known, were reset and have no promise about the volume. *)
Definition to_call (s : cbstate) (P : gmap Z promise) (h : Z) : Prop :=
  known s h /\ reset_done s h /\ forall c p, P !! c = Some p -> ~ is_promise h fid p.

Lemma multi_called (lk : Leaked) s P l : keeps s P -> Z.of_nat (size P + length l + size leaked) <= nblks s -> NoDup l ->
  (forall h, h ∈ l -> to_call s P h) -> exists s' P' new, MultiBreakCallBack_r space (map (fun h => (h, t)) l) fid s = Some (tt, s')
  /\ keeps s' P' /\ called s P s' P' new /\ (size P' <= size P + length l)%nat /\ (forall h, h ∈ l -> outcome s' P' new t h)
  /\ (forall h, reset_done s' h <-> reset_done s h)
  /\ (forall h, h ∉ l -> (forall c p, P !! c = Some p -> ~ is_promise h fid p) -> forall c p, P' !! c = Some p -> ~ is_promise h fid p).
Proof.
  intros K Hr HN Hl. set (cba := map (fun h => (h, t)) l). pose proof (sort_perm cba) as Hs.
  assert (Ef : cba.*1 = l) by (unfold cba; rewrite <- list_fmap_compose; by apply list_fmap_id).
  assert (Hin : forall x, x ∈ sort_cba cba -> x.1 ∈ l /\ x.2 = t).
  { intros x Hx. rewrite Hs in Hx. apply list_elem_of_fmap in Hx as (h & -> & Hh). done. }
  destruct (multi_ok space fid (sort_cba cba) s P K) as (s' & P' & new & E & K' & G & Y1 & Y2 & YS & B).
  - rewrite Hs. unfold cba. rewrite length_map. done.
  - rewrite Hs, Ef. done.
  - intros x Hx. destruct (Hin x Hx) as [H1 H2]. destruct (Hl _ H1) as (H3 & H4 & H5). rewrite H2. done.
  - rewrite Hs in YS. unfold cba in YS. rewrite length_map in YS. destruct G as [G1 G2 G3 G4 (R1 & R2 & R3 & R4) G6 G7].
    exists s', P', new. split; [done | split; [done | split; [| split; [done | split; [| split; [done |]]]]]].
    + split; [done | done | done | done | by intros h; rewrite G6 | | | | done].
      * intros h Hn Hd. by rewrite G6 in Hn.
      * intros c p Hc. destruct (Y2 c p Hc) as [Hp | (x & Hx & -> & Hd)]; [by left |]. right. split; [done | split; [done |]].
        cbn. rewrite G6. by apply (Hl x.1), Hin.
      * intros c p Hc. left. by apply Y1.
    + intros h Hh. assert (Hx : (h, t) ∈ sort_cba cba) by (rewrite Hs; unfold cba; apply list_elem_of_fmap; by exists h).
      destruct (B _ Hx) as [H | [H | H]]; [left; by apply G3 | right; by left | right; right; by left].
    + intros h Hh Hno c p Hc Hp. destruct (Y2 c p Hc) as [Hp' | (x & Hx & -> & _)]; [by apply (Hno c p) |].
      destruct Hp as (<- & _). by apply Hh, Hin.
Qed.

Definition no_promise (P : gmap Z promise) (h : Z) : Prop := forall c p, P !! c = Some p -> ~ is_promise h fid p.
Definition cba_of (l : list Z) : list (Z * Z) := map (fun h => (h, t)) l.

(** One host that was held. *)
Lemma break_volume_host (lk : Leaked) s P l h : keeps s P -> NoDup (l ++ [h]) -> (forall x, x ∈ l -> to_call s P x) ->
  known s h -> (~ host_deleted s h -> reset_done s h) -> no_promise P h -> Z.of_nat (size P + length l + 1 + size leaked) <= nblks s ->
  exists (lk' : Leaked) s' P' new l', MultiBreakVolumeCallBack_r space fid t deletefe (cba_of l) h s = Some (cba_of l', s') /\ @keeps lk' s' P' /\ called s P s' P' new
    /\ NoDup l' /\ (forall x, x ∈ l' -> x ∈ l ++ [h] /\ to_call s' P' x) /\ (size P' + length l' + size (@leaked lk') <= size P + length l + 1 + size (@leaked lk))%nat
    /\ (forall x, x ∈ l ++ [h] -> outcome s' P' new t x \/ x ∈ l')
    /\ (forall x, x ∉ l ++ [h] -> (reset_done s' x <-> reset_done s x) /\ (no_promise P x -> no_promise P' x)).
Proof.
  intros K HN Hl Hk Hr Hno Hsz. unfold MultiBreakVolumeCallBack_r. rewrite (bind_ok _ _ _ _ _ (get_host_ok s h Hk)).
  pose proof HN as (N1 & N2 & _)%NoDup_app. assert (Hin : forall x, x ∈ l -> x ∈ l ++ [h]) by (intros x Hx; apply elem_of_app; by left).
  destruct (has_flag HOSTDELETED (hof s h)) eqn:Ed.
  { exists lk, s, P, [], l. split; [done | split; [done | split; [apply called_none | split; [done | split; [by intros x Hx; split; [apply Hin | apply Hl] |]]]]].
    split; [lia | split; [| done]]. intros x [Hx | ->%list_elem_of_singleton]%elem_of_app; [by right | left; by left]. }
  assert (Nd : ~ host_deleted s h) by (unfold host_deleted; by rewrite Ed). specialize (Hr Nd).
  destruct (has_flag VENUSDOWN (hof s h)) eqn:Eu.
  - destruct (DeleteAllCallBacks_any s P h deletefe K Hk) as (lk1 & s1 & E1 & K1 & Q1 & _ & Hsize). rewrite (bind_ok _ _ _ _ _ E1).
    assert (Hk1 : known s1 h) by by apply (quiet_known s s1).
    destruct (flags_ok s1 _ h (clear_flag RESETDONE) K1 Hk1) as (s2 & E2 & K2 & T2 & X2); [done | intros g; by apply flag_clear_other |].
    rewrite (bind_ok _ _ _ _ _ E2). pose proof (tells_trans _ _ _ _ _ _ (tells_quiet h s s1 Q1) T2) as T. cbn [app] in T.
    assert (D2 : down s2 h) by (unfold down; rewrite X2, flag_clear_other by done; by rewrite (quiet_flag s s1)).
    assert (R2 : ~ reset_done s2 h) by (unfold reset_done; by rewrite X2, flag_clear).
    assert (Ro : forall x, x <> h -> reset_done s2 x <-> reset_done s x) by (intros x Hx; unfold reset_done; by rewrite (tl_others _ _ _ _ T)).
    assert (Hsub : forall c p, without (to_host h) P !! c = Some p -> P !! c = Some p) by (intros c p Hp; by apply without_lookup in Hp as [? _]).
    exists lk1, s2, (without (to_host h) P), [], l. split; [done | split; [done | split; [| split; [done | split; [| split; [lia | split]]]]]].
    + split.
      * apply (tl_calls _ _ _ _ T).
      * apply (tl_steady _ _ _ _ T).
      * intros x. destruct (decide (x = h)) as [-> | Hx]; [apply (tl_deleted _ _ _ _ T) |]. unfold host_deleted. by rewrite (tl_others _ _ _ _ T).
      * intros x Hx. destruct (decide (x = h)) as [-> | Hne]; [done |]. unfold down. by rewrite (tl_others _ _ _ _ T).
      * intros x Hx. destruct (decide (x = h)) as [-> | Hne]; [done |]. by apply Ro.
      * intros x Hn Hy. destruct (decide (x = h)) as [-> | Hne]; [| by exfalso; apply Hn, Ro]. split; [done |].
        intros c p Hc E. by apply without_lookup in Hc as [_ []].
      * intros c p Hc. left. by apply Hsub.
      * intros c p Hc. destruct (decide (p_host p = h)) as [-> | Hne]; [by right | left]. by apply without_lookup.
      * intros x. unfold has_later. destruct (decide (x = h)) as [-> | Hne]; [| by rewrite (tl_others _ _ _ _ T)].
        by rewrite X2, flag_clear_other, (quiet_flag s s1).
    + intros x Hx. split; [by apply Hin |]. destruct (Hl x Hx) as (H1 & H2 & H3).
      assert (Hne : x <> h) by (intros ->; apply (N2 h Hx); left).
      split; [by apply (tells_known h s s2 []) | split; [by apply Ro |]]. intros c p Hc. apply (H3 c p). by apply Hsub.
    + intros x [Hx | ->%list_elem_of_singleton]%elem_of_app; [by right | left]. right. right. by right.
    + intros x Hx. split; [apply Ro; intros ->; apply Hx; apply elem_of_app; right; left |]. intros Hp c p Hc. apply (Hp c p). by apply Hsub.
  - unfold cba_of at 1 2. rewrite !length_map. destruct (Nat.eqb_spec (length l) MAX_CB_HOSTS) as [El | El].
    + destruct (multi_called lk s P l K) as (s1 & P1 & n1 & E1 & K1 & C1 & Z1 & O1 & R1 & X1); [lia | done | done |].
      rewrite (bind_ok _ _ _ _ _ E1). assert (Hh : h ∉ l) by (intros Hx; apply (N2 h Hx); left).
      exists lk, s1, P1, n1, [h]. split; [done | split; [done | split; [done | split; [apply NoDup_singleton | split; [| split; [cbn [length]; lia | split]]]]]].
      * intros x ->%list_elem_of_singleton. split; [apply elem_of_app; right; left |].
        destruct (ca_steady _ _ _ _ _ C1) as (_ & _ & _ & _ & S5). split; [by apply S5 | split; [by apply R1 | exact (X1 h Hh Hno)]].
      * intros x [Hx | ->%list_elem_of_singleton]%elem_of_app; [left; by apply O1 | right; left].
      * intros x Hx. split; [apply R1 |]. intros Hp. refine (X1 x _ Hp). intros Hx'. by apply Hx, Hin.
    + exists lk, s, P, [], (l ++ [h]). split; [unfold cba_of; by rewrite map_app | split; [done | split; [apply called_none | split; [done | split; [| split; [rewrite length_app; cbn; lia | split]]]]]].
      * intros x Hx. split; [done |]. apply elem_of_app in Hx as [Hx | ->%list_elem_of_singleton]; [by apply Hl | done].
      * intros x Hx. by right.
      * done.
Qed.

(** All that were. *)
Lemma enumerate_ok held hs : forall (lk : Leaked) s P l, keeps s P -> NoDup (l ++ hs) -> (forall x, x ∈ l -> to_call s P x) ->
  (forall h, h ∈ hs -> h ∈ held -> known s h /\ (~ host_deleted s h -> reset_done s h) /\ no_promise P h) ->
  Z.of_nat (size P + length l + length (filter (fun h => h ∈ held) hs) + size leaked) <= nblks s ->
  exists (lk' : Leaked) s' P' new l', enumerate_held (MultiBreakVolumeCallBack_r space fid t deletefe) held hs (cba_of l) s = Some (cba_of l', s')
    /\ @keeps lk' s' P' /\ called s P s' P' new /\ NoDup l' /\ (forall x, x ∈ l' -> to_call s' P' x) /\ Z.of_nat (size P' + length l' + size (@leaked lk')) <= nblks s'
    /\ forall x, x ∈ l \/ x ∈ hs /\ x ∈ held -> outcome s' P' new t x \/ x ∈ l'.
Proof.
  induction hs as [| h hs IH]; intros lk s P l K HN Hl Hh Hsz; cbn [enumerate_held].
  - exists lk, s, P, [], l. rewrite app_nil_r in HN. split; [done | split; [done | split; [apply called_none | split; [done | split; [done | split; [cbn in Hsz; lia |]]]]]].
    intros x [Hx | [Hx _]]; [by right | by apply not_elem_of_nil in Hx].
  - assert (HN' : NoDup (l ++ [h]) /\ (forall x, x ∈ hs -> x ∉ l ++ [h]) /\ NoDup hs /\ NoDup (l ++ hs)).
    { change (h :: hs) with ([h] ++ hs) in HN. rewrite app_assoc in HN. apply NoDup_app in HN as (H1 & H2 & H3).
      split; [done | split; [intros x Hx Hx'; by apply (H2 x Hx') | split; [done |]]]. apply NoDup_app in H1 as (H1 & _ & _).
      apply NoDup_app. split; [done | split; [| done]]. intros x Hx. apply H2, elem_of_app. by left. }
    destruct HN' as (N1 & N2 & N3 & N4). destruct (bool_decide_reflect (h ∈ held)) as [Hd | Hd].
    + rewrite filter_cons_True in Hsz by done. cbn [length] in Hsz. destruct (Hh h ltac:(left) Hd) as (H1 & H2 & H3).
      destruct (break_volume_host lk s P l h K N1 Hl H1 H2 H3 ltac:(lia)) as (lk1 & s1 & P1 & n1 & l1 & E1 & K1 & C1 & M1 & T1 & Z1 & O1 & X1).
      rewrite (bind_ok _ _ _ _ _ E1). destruct (ca_steady _ _ _ _ _ C1) as (S1 & S2 & S3 & S4 & S5).
      destruct (IH lk1 s1 P1 l1 K1) as (lk2 & s2 & P2 & n2 & l2 & E2 & K2 & C2 & M2 & T2 & Z2 & O2).
      * apply NoDup_app. split; [done | split; [| done]]. intros x Hx Hx'. by apply (N2 x Hx'), T1.
      * intros x Hx. by apply T1.
      * intros x Hx Hxd. destruct (Hh x ltac:(by right) Hxd) as (Y1 & Y2 & Y3). destruct (X1 x (N2 x Hx)) as [R1 Q1].
        split; [by apply S5 | split; [| by apply Q1]]. intros Hn. apply R1, Y2. by rewrite <- (ca_deleted _ _ _ _ _ C1).
      * rewrite S3. lia.
      * exists lk2, s2, P2, (n2 ++ n1), l2. split; [done | split; [done | split; [by apply (called_trans s P s1 P1) | split; [done | split; [done | split; [done |]]]]]].
        intros x Hx. destruct (decide (x ∈ hs)) as [Hxh | Hxh].
        -- destruct Hx as [Hx | [_ Hx]]; [by exfalso; apply (N2 x Hxh), elem_of_app; left |].
           destruct (O2 x ltac:(by right)) as [O | O]; [| by right]. left. destruct O as [O | [(m & Hm & Hi) | O]]; [by left | | right; by right].
           right. left. exists m. split; [apply elem_of_app; by left | done].
        -- assert (Hx' : x ∈ l ++ [h]).
           { destruct Hx as [Hx | [[-> | Hx]%elem_of_cons _]]; [apply elem_of_app; by left | apply elem_of_app; right; left | done]. }
           destruct (O1 x Hx') as [O | O]; [left; by apply (outcome_later s1 P1) |].
           destruct (O2 x ltac:(by left)) as [O' | O']; [| by right]. left. destruct O' as [O' | [(m & Hm & Hi) | O']]; [by left | | right; by right].
           right. left. exists m. split; [apply elem_of_app; by left | done].
    + rewrite filter_cons_False in Hsz by done. rewrite (bind_ok _ _ s (cba_of l) s) by done.
      destruct (IH lk s P l K N4 Hl) as (lk2 & s2 & P2 & n2 & l2 & E2 & K2 & C2 & M2 & T2 & Z2 & O2); [intros x Hx; apply Hh; by right | done |].
      exists lk2, s2, P2, n2, l2. do 6 (split; [done |]). intros x [Hx | [[-> | Hx]%elem_of_cons Hx']]; [apply O2; by left | done | apply O2; by right].
Qed.

Lemma call_volume_ok (lk : Leaked) held s P : keeps s P -> NoDup (hostList s) ->
  (forall h, h ∈ hostList s -> h ∈ held -> known s h /\ (~ host_deleted s h -> reset_done s h) /\ no_promise P h) ->
  Z.of_nat (size P + length (filter (fun h => h ∈ held) (hostList s)) + size leaked) <= nblks s ->
  exists (lk' : Leaked) s' P' new, call_volume space volume held t deletefe s = Some (tt, s') /\ @keeps lk' s' P' /\ called s P s' P' new
    /\ forall h, h ∈ hostList s -> h ∈ held -> outcome s' P' new t h.
Proof.
  intros K HN Hh Hsz. unfold call_volume. rewrite (bind_ok _ _ s (hostList s) s) by done.
  destruct (enumerate_ok held (hostList s) lk s P [] K HN) as (lk1 & s1 & P1 & n1 & l & E1 & K1 & C1 & M1 & T1 & Z1 & O1);
    [by intros x ?%not_elem_of_nil | done | cbn; lia |].
  change (cba_of []) with (@nil (Z * Z)) in E1. rewrite (bind_ok _ _ _ _ _ E1). unfold cba_of. rewrite length_map.
  destruct (Nat.eqb_spec (length l) 0) as [El%nil_length_inv | El].
  - exists lk1, s1, P1, n1. split; [done | split; [done | split; [done |]]]. intros h H1 H2. destruct (O1 h ltac:(by right)) as [O | O]; [done |].
    rewrite El in O. by apply not_elem_of_nil in O.
  - destruct (multi_called lk1 s1 P1 l K1) as (s2 & P2 & n2 & E2 & K2 & C2 & _ & O2 & _); [lia | done | done |].
    exists lk1, s2, P2, (n2 ++ n1). split; [done | split; [done | split; [by apply (called_trans s P s1 P1) |]]].
    intros h H1 H2. destruct (O1 h ltac:(by right)) as [O | O]; [by apply (outcome_later s1 P1) |].
    destruct (O2 h O) as [O' | [(m & Hm & Hi) | O']]; [by left | | right; by right].
    right. left. exists m. split; [apply elem_of_app; by left | done].
Qed.
End volume.

(** ** BreakLaterCallBacks *)

Lemma hosts_count (P P1 : gmap Z promise) (l : list Z) : P1 ⊆ P -> NoDup l ->
  (forall h, h ∈ l -> exists c p, P !! c = Some p /\ P1 !! c = None /\ p_host p = h) -> (size P1 + length l <= size P)%nat.
Proof.
  intros HP HN Hl. set (host_of := fun c => match P !! c with Some p => p_host p | None => 0 end).
  assert (Hs : l ⊆+ host_of <$> elements (dom P ∖ dom P1)).
  { apply NoDup_submseteq; [done |]. intros h Hh. destruct (Hl h Hh) as (c & p & Hc & Hn & <-). apply list_elem_of_fmap. exists c.
    split; [unfold host_of; by rewrite Hc |]. apply elem_of_elements, elem_of_difference. split; [by apply elem_of_dom_2 in Hc |].
    by apply not_elem_of_dom. }
  apply submseteq_length in Hs. rewrite length_fmap in Hs. change (length (elements (dom P ∖ dom P1))) with (size (dom P ∖ dom P1)) in Hs.
  rewrite size_difference in Hs by (by apply subseteq_dom). rewrite !size_dom in Hs.
  assert (size P1 <= size P)%nat; [| lia]. rewrite <- !(size_dom (D := gset Z)). by apply subseteq_size, subseteq_dom.
Qed.

Lemma called_quiet volume s s' P : quiet s' = quiet s -> called volume s P s' P [].
Proof.
  intros Q. pose proof (grows_quiet s s' Q) as [G1 G2 G3 G4 G5 G6 G7]. split; [done | by apply steady_quiet | done | done | by intros h; rewrite G6 | | by left | by left | done].
  intros h Hn Hr. by rewrite G6 in Hn.
Qed.

Lemma TNorm_expiry first q t : TNorm first q <= TNorm first t -> expiry first q <= expiry first t.
Proof. unfold expiry. lia. Qed.

(** One volume is dealt with, if any is pending: its promises are taken back, and
    the hosts are called. *)
Lemma BreakLater_ok {lk : Leaked} space s P : keeps s P -> Z.of_nat (size P + size leaked) <= nblks s ->
  NoDup (hostList s) -> (forall h, known s h -> h ∈ hostList s) ->
  (forall c p, P !! c = Some p -> ~ host_deleted s (p_host p) -> reset_done s (p_host p)) ->
  (forall c p, P !! c = Some p -> p_later p = true -> p_status p = CB_DELAYED /\ Volume (p_fid p) <> 0) ->
  (forall c d p q, P !! c = Some p -> P !! d = Some q -> Vnode (p_fid p) = 0 -> p_later p = false -> p_later q = true -> Volume (p_fid q) <> Volume (p_fid p)) ->
  (exists s', BreakLaterCallBacks space s = Some (false, s') /\ keeps s' P /\ quiet s' = quiet s /\ forall c p, P !! c = Some p -> p_later p = false)
  \/ exists (lk' : Leaked) volume s' P' new, BreakLaterCallBacks space s = Some (true, s') /\ @keeps lk' s' P'
     /\ called volume s (without (pending volume) P) s' P' new
     /\ forall c p, P !! c = Some p -> pending volume p -> exists t, expiry (tfirst s) (p_queue p) <= expiry (tfirst s) t
        /\ outcome volume s' P' new t (p_host p).
Proof.
  intros K Hsz HN HL HR HP HV. pose proof K as (E0 & K0). unfold BreakLaterCallBacks.
  destruct (free_pending_ok s P K HP) as (feis & volume & s0 & E0' & [(-> & H1 & H2 & H3) | (Hf & s1 & hs & t & D & E1 & K1 & Q1 & G & HD)]);
    rewrite (bind_ok _ _ _ _ _ E0').
  { left. by exists s0. }
  right. rewrite (proj2 (Nat.eqb_neq (length feis) 0)) by (intros Hz%nil_length_inv; by apply Hf). rewrite (bind_ok _ _ _ _ _ E1). cbn [fst snd].
  set (P1 := without (pending volume) P) in *.
  pose proof (called_quiet volume s s1 P1 Q1) as C1. destruct (steady_quiet s s1 Q1) as (S1 & S2 & S3 & S4 & S5).
  destruct (Z.eqb_spec t 0) as [Et | Et].
  { exists lk, volume, s1, P1, []. split; [done | split; [done | split; [done |]]]. intros c p Hp Hv. apply (HD c p Hp) in Hv.
    by destruct (ga_latest _ _ _ _ _ _ G c p Hv Hp). }
  assert (Ht : in_queues t = true).
  { destruct (ga_queue _ _ _ _ _ _ G) as [-> | (c & p & Hc & Hp & ->)]; [done |].
    pose proof (queue_range s P E0 c p K0 Hp). unfold in_queues, CB_NUM_TIMEOUT_QUEUES. lia. }
  destruct (call_volume_ok volume space t Ht false lk hs s1 P1 K1) as (lk2 & s2 & P2 & new & E2 & K2 & C2 & O2).
  - by rewrite S4.
  - intros h Hin Hh. apply (ga_hosts _ _ _ _ _ _ G) in Hh as (c & p & Hc & Hp & <-).
    split; [apply S5; by apply (known_host s P E0 c) | split].
    + rewrite (ca_deleted _ _ _ _ _ _ C1). intros Hd. unfold reset_done. rewrite (quiet_flag s s1 _ _ Q1). by apply (HR c p).
    + intros d q Hd (_ & Hf' & Hl). apply without_lookup in Hd as [Hd _]. apply (HD c p Hp) in Hc as [Hc1 Hc2].
      apply (HV d c q p Hd Hp); [by rewrite Hf' | done | done | by rewrite Hf', Hc2].
  - rewrite S3, S4. assert (Hc : (size P1 + length (filter (fun h => h ∈ hs) (hostList s)) <= size P)%nat); [| lia].
    apply hosts_count; [apply map_filter_subseteq | by apply NoDup_filter |].
    intros h [Hh _]%list_elem_of_filter. apply (ga_hosts _ _ _ _ _ _ G) in Hh as (c & p & Hc & Hp & <-). exists c, p.
    split; [done | split; [| done]]. destruct (P1 !! c) as [q |] eqn:Eq; [| done]. exfalso. apply without_lookup in Eq as [Eq Hq].
    rewrite Hp in Eq. injection Eq as <-. by apply Hq, (HD c p Hp).
  - rewrite (bind_ok _ _ _ _ _ E2). exists lk2, volume, s2, P2, new. split; [done | split; [done | split]].
    + replace new with (new ++ []) by apply app_nil_r. by apply (called_trans volume s P1 s1 P1).
    + intros c p Hp Hv. exists t. apply (HD c p Hp) in Hv. destruct (ga_latest _ _ _ _ _ _ G c p Hv Hp) as [_ Hq].
      split; [by apply TNorm_expiry |]. apply O2.
      * rewrite S4. apply HL. exact (known_host s P E0 c p K0 Hp).
      * apply (ga_hosts _ _ _ _ _ _ G). by exists c, p.
Qed.

(** Nothing is to be done later. *)
Lemma BreakLater_none {lk : Leaked} space s P s' : keeps s P ->
  (forall c p, P !! c = Some p -> p_later p = true -> p_status p = CB_DELAYED /\ Volume (p_fid p) <> 0) ->
  BreakLaterCallBacks space s = Some (false, s') -> forall c p, P !! c = Some p -> p_later p = false.
Proof.
  intros K HP E. unfold BreakLaterCallBacks in E.
  destruct (free_pending_ok s P K HP) as (feis & volume & s0 & E0 & [(_ & _ & _ & H) | (Hf & s1 & hs & t & D & E1 & _)]); [done |]. exfalso.
  rewrite (bind_ok _ _ _ _ _ E0), (proj2 (Nat.eqb_neq (length feis) 0)), (bind_ok _ _ _ _ _ E1) in E by (intros Hz%nil_length_inv; by apply Hf).
  unfold mbind_, ret in E. cbn [fst snd] in E. destruct (t =? 0); [done |]. by destruct (call_volume _ _ _ _ _ s1) as [[? ?] |].
Qed.
