(* ===== verification/Coherence.v ===== *)
(** Cache consistency: the file server with its clients as a transition system.
    Each client believes that what it has of some files is current until some
    time; the steps are the operations of the server that a call of a client, the
    clock, the network, the volume package or the fsync thread leads to. What is
    shown: while entries are free, a host that the server takes for up, and that is
    not still to be told of a volume, never believes in what has changed; and that
    it may, when they are not. *)
From S2P Require Import Prelude Rings Monad Callback CallbackSpec CallbackFiles CallbackOps CallbackAdd CallbackBreak CallbackServe CallbackDelay CallbackLater CallbackVolume.

#[local] Open Scope monad_scope.

(** ** The world *)

#[export] Instance fid_countable : Countable AFSFid :=
  inj_countable' (fun f => (Volume f, Vnode f, Unique f)) (fun x => Fid x.1.1 x.1.2 x.2) ltac:(by intros []).

(** What a host has of a file: its version, and until when it may rely on it. *)
Record belief := Belief { b_version : Z; b_expires : Z }.

Record world := World { server : cbstate; versions : gmap AFSFid Z; beliefs : gmap (Z * AFSFid) belief }.
Definition version (V : gmap AFSFid Z) (fid : AFSFid) : Z := default 0 (V !! fid).

(** An identifier stands for its file, or with vnode 0 for all files of a volume. *)
Definition covers (q fid : AFSFid) : Prop := q = fid \/ Vnode q = 0 /\ Volume q = Volume fid.
#[export] Instance covers_dec q fid : Decision (covers q fid).
Proof. unfold covers. apply _. Defined.

(** A client that answers a message without an error does what it says; of one
    with an error nothing is known. *)
Definition hears (m : message) (h : Z) (fid : AFSFid) : Prop :=
  match m with
  | CallBackMsg i fids code | AlternateMsg i fids code => i = h /\ code = 0 /\ Exists (fun q => covers q fid) fids
  | InitCallBackStateMsg i code => i = h /\ code = 0
  end.
#[export] Instance hears_dec m h fid : Decision (hears m h fid).
Proof. destruct m; cbn; apply _. Defined.

Definition hearing (new : list message) (B : gmap (Z * AFSFid) belief) : gmap (Z * AFSFid) belief :=
  filter (fun x => Forall (fun m => ~ hears m x.1.1 x.1.2) new) B.

(** The calls made from one state to another. *)
Definition news (s s' : cbstate) : list message := take (length (calls s') - length (calls s)) (calls s').
Definition heard (s s' : cbstate) (B : gmap (Z * AFSFid) belief) := hearing (news s s') B.

Definition with_codes (l : list Z) (s : cbstate) : cbstate :=
  CbState (FE s) (CB s) (HashTable s) (timeout s) (tfirst s) (FEfree s) (CBfree s) (nblks s) (hosts s) (hostList s) (now s) l (calls s).

(** The file entries in use that have no callback. *)
Definition without_cb (s : cbstate) : gset Z := filter (fun f => fef firstcb s f = 0 /\ f ∉ FEfree s) (dom (FE s)).

(** The steps. The clock goes on, the queues being cleaned up at least every 25
    minutes; the calls to come will have any codes; a client forgets; a host does
    not answer a probe, or is to be deleted; space is made; files of a volume are
    changed, as when it is restored, and the volume's promises put off
    (V_BreakVolumeCallbacks); the fsync thread deals with a volume; and a client
    calls: for nothing else, to fetch a file, to change one, or to give up what it
    was promised of one file or of all. Volumes and vnodes of files are not 0.
    With [room], a promise is made only while there are more free callback entries
    than file entries without a callback, which are none unless the fsync thread
    has left some; and when a file is changed, or a volume dealt with, not fewer. *)
Inductive step (room : bool) : world -> world -> Prop :=
  | st_wait s V B t : now s <= t < 4294952000 -> CBtime t - 12 <= tfirst s -> step room (World s V B) (World (with_now t s) V B)
  | st_answers s V B l : step room (World s V B) (World (with_codes l s) V B)
  | st_forget s V B k : step room (World s V B) (World s V (delete k B))
  | st_unreachable s V B h s' : mod_host h (set_flag VENUSDOWN) s = Some (tt, s') -> step room (World s V B) (World s' V B)
  | st_dead s V B h s' : mod_host h (set_flag HOSTDELETED) s = Some (tt, s') -> step room (World s V B) (World s' V B)
  | st_cleanup s V B b s' : CleanupTimedOutCallBacks_r s = Some (b, s') -> step room (World s V B) (World s' V B)
  | st_space s V B h s' : known s h -> GetSomeSpace_r h s = Some (tt, s') -> step room (World s V B) (World s' V (heard s s' B))
  | st_volume s V B volume V' b s' : volume <> 0 -> (forall fid, Volume fid <> volume -> version V' fid = version V fid) ->
      BreakVolumeCallBacksLater volume s = Some (b, s') -> step room (World s V B) (World s' V' (heard s s' B))
  | st_fsync s V B space b s' : (room = true -> (size (without_cb s) <= length (CBfree s))%nat) ->
      BreakLaterCallBacks space s = Some (b, s') -> step room (World s V B) (World s' V (heard s s' B))
  | st_call s V B probed h code s' : CallPreamble probed h s = Some (code, s') -> step room (World s V B) (World s' V (heard s s' B))
  | st_fetch s V B probed h fid type space s1 t s2 : CallPreamble probed h s = Some (0, s1) ->
      Vnode fid <> 0 -> type = CB_NORMAL \/ type = CB_VOLUME \/ type = CB_BULK ->
      (room = true -> (size (without_cb s1) < length (CBfree s1))%nat) ->
      AddCallBack1_r space h fid 0 type s1 = Some (t, s2) ->
      step room (World s V B) (World s2 V (<[(h, fid) := Belief (version V fid) t]> (heard s s2 B)))
  | st_store s V B probed h fid flag space s1 s2 : CallPreamble probed h s = Some (0, s1) ->
      (room = true -> (size (without_cb s1) <= length (CBfree s1))%nat) ->
      BreakCallBack space h fid flag s1 = Some (tt, s2) ->
      step room (World s V B) (World s2 (<[fid := version V fid + 1]> V)
        (if flag then heard s s2 B else alter (fun b => Belief (version V fid + 1) (b_expires b)) (h, fid) (heard s s2 B)))
  | st_giveup s V B probed h fid s1 s2 : CallPreamble probed h s = Some (0, s1) -> DeleteCallBack h fid s1 = Some (tt, s2) ->
      step room (World s V B) (World s2 V (delete (h, fid) (heard s s2 B)))
  | st_giveup_all s V B probed h s1 s2 : CallPreamble probed h s = Some (0, s1) -> DeleteAllCallBacks_r h true s1 = Some (tt, s2) ->
      step room (World s V B) (World s2 V (filter (fun x => x.1.1 <> h) (heard s s2 B))).

(** At the start nothing is promised, and the hosts that are up have nothing that
    another instance of the server promised. *)
Inductive initial : world -> Prop :=
  | initial_world n s : 0 <= n < 2147483648 -> HashTable s = ∅ -> timeout s = ∅ -> (forall h g, hosts s !! h = Some g -> cblist g = 0) ->
      0 <= now s < 4294952000 -> NoDup (hostList s) -> (forall h, known s h -> h ∈ hostList s) ->
      (forall h, known s h -> ~ host_deleted s h -> ~ down s h -> reset_done s h) ->
      initial (World (InitCallBack n s) ∅ ∅).

Definition reachable (room : bool) (w : world) : Prop := exists w0, initial w0 /\ rtc (step room) w0 w.

(** ** The invariant *)

Section leaks.
Context {lk : Leaked}.

(** A belief is backed by a promise that lasts as long: one for the file while it
    has not changed, or a delayed one for the file or its volume; unless the belief
    is over, or the host is going to be told to forget all. *)
Definition backs (h : Z) (fid : AFSFid) (p : promise) : Prop := p_host p = h /\ covers (p_fid p) fid.
Definition backed (s : cbstate) (P : gmap Z promise) (v h : Z) (fid : AFSFid) (b : belief) : Prop :=
  host_deleted s h \/ ~ reset_done s h \/ b_expires b + ServerBias <= now s
  \/ exists c p, P !! c = Some p /\ backs h fid p /\ b_expires b + ServerBias <= 128 * expiry (tfirst s) (p_queue p)
     /\ (p_later p = false /\ p_fid p = fid /\ b_version b = v \/ p_status p = CB_DELAYED).

Record coherent (s : cbstate) (V : gmap AFSFid Z) (B : gmap (Z * AFSFid) belief) (P : gmap Z promise) : Prop := {
  co_keeps : keeps s P;
  co_clock : 0 <= now s < 4294952000 /\ CBtime (now s) - 12 <= tfirst s <= CBtime (now s) + 1;
  co_status : forall c p, P !! c = Some p -> p_status p = CB_NORMAL \/ p_status p = CB_DELAYED \/ p_status p = CB_VOLUME \/ p_status p = CB_BULK;
  co_reset : forall c p, P !! c = Some p -> ~ host_deleted s (p_host p) -> reset_done s (p_host p);
  co_delayed : forall c p, P !! c = Some p -> ~ host_deleted s (p_host p) -> p_status p = CB_DELAYED -> down s (p_host p) \/ p_later p = true;
  co_later : forall c p, P !! c = Some p -> p_later p = true ->
    p_status p = CB_DELAYED /\ Volume (p_fid p) <> 0 /\ (~ host_deleted s (p_host p) -> has_later s (p_host p));
  co_whole : forall c d p q, P !! c = Some p -> P !! d = Some q -> Vnode (p_fid p) = 0 -> p_later p = false -> p_later q = true ->
    Volume (p_fid q) <> Volume (p_fid p);
  co_hosts : NoDup (hostList s) /\ forall h, known s h -> h ∈ hostList s;
  co_up : forall h, known s h -> ~ host_deleted s h -> ~ down s h -> reset_done s h;
  co_backed : forall h fid b, B !! (h, fid) = Some b -> known s h /\ backed s P (version V fid) h fid b
}.

(** It is what keeps the hosts that are up from relying on what has changed. *)
Lemma coherent_current s V B P h fid b : coherent s V B P -> B !! (h, fid) = Some b -> ~ host_deleted s h -> ~ down s h ->
  ~ has_later s h \/ (forall c p, P !! c = Some p -> p_later p = false) -> now s < b_expires b + ServerBias -> b_version b = version V fid.
Proof.
  intros C Hb Hd Hu Hl Ht. destruct (co_backed _ _ _ _ C h fid b Hb) as (Hk & [H | [H | [H | (c & p & Hc & (Hh & _) & _ & [(_ & _ & H) | H])]]]).
  - done.
  - by destruct H; apply (co_up _ _ _ _ C).
  - lia.
  - done.
  - rewrite <- Hh in Hd, Hu, Hl. destruct (co_delayed _ _ _ _ C c p Hc Hd H) as [? | Hp]; [done |].
    destruct Hl as [Hl | Hl]; [| by rewrite (Hl c p Hc) in Hp]. destruct Hl. by apply (co_later _ _ _ _ C c p Hc Hp).
Qed.

(** A delayed promise that was not put off is one to a host that is down. *)
Lemma delayed_down s V B P c p : coherent s V B P -> P !! c = Some p -> ~ host_deleted s (p_host p) -> p_status p = CB_DELAYED ->
  p_later p = false -> down s (p_host p).
Proof. intros C Hp Hd Hs Hl. destruct (co_delayed _ _ _ _ C c p Hp Hd Hs) as [| Hl']; [done |]. congruence. Qed.

Lemma hearing_lookup new B h fid b : hearing new B !! (h, fid) = Some b <-> B !! (h, fid) = Some b /\ forall m, m ∈ new -> ~ hears m h fid.
Proof. unfold hearing. rewrite map_lookup_filter_Some, Forall_forall. done. Qed.
Lemma hearing_sub new B : hearing new B ⊆ B.
Proof. apply map_filter_subseteq. Qed.
Lemma hearing_app n2 n1 B : hearing (n2 ++ n1) B = hearing n2 (hearing n1 B).
Proof.
  apply map_eq. intros [h fid]. apply option_eq. intros b. rewrite !hearing_lookup. setoid_rewrite elem_of_app. naive_solver.
Qed.
Lemma hearing_nil B : hearing [] B = B.
Proof. apply map_filter_id. intros k x _. apply Forall_nil_2. Qed.
Lemma news_ok s s' new : calls s' = new ++ calls s -> news s s' = new.
Proof. intros E. unfold news. rewrite E, length_app. by rewrite take_app_length' by lia. Qed.

(** ** What the steps keep *)

Lemma backed_frame s s' P P' v h fid b : (host_deleted s h -> host_deleted s' h) -> (reset_done s' h -> reset_done s h) ->
  now s' = now s -> tfirst s' = tfirst s -> (forall c p, P !! c = Some p -> backs h fid p -> P' !! c = Some p) ->
  backed s P v h fid b -> backed s' P' v h fid b.
Proof.
  intros Hd Hr En Et HP. unfold backed. rewrite En, Et. intros [H | [H | [H | (c & p & Hc & Hp & Hx)]]].
  - left. by apply Hd.
  - right. left. intros R. by apply H, Hr.
  - right. right. by left.
  - right. right. right. exists c, p. split; [by apply HP | done].
Qed.

Lemma coherent_fewer s V B B' P : coherent s V B P -> B' ⊆ B -> coherent s V B' P.
Proof.
  intros C HB. destruct C as [C1 C2 C3 C4 C5 C9 C10 C8 C6 C7]. split; try done. intros h fid b Hb. apply C7. by apply (lookup_weaken _ _ _ _ Hb).
Qed.

(** What concerns one host. *)
Section one_host.
Context (h : Z) (s s' : cbstate) (P P' : gmap Z promise) (V : gmap AFSFid Z) (B B' : gmap (Z * AFSFid) belief) (new : list message).
Context (C : coherent s V B P) (K : keeps s' P') (T : tells h s s' new).
Context (Hsub : forall c p, P' !! c = Some p -> P !! c = Some p).
Context (Hother : forall c p, P !! c = Some p -> p_host p <> h -> P' !! c = Some p).
Context (HB : B' ⊆ B).
Context (Hup : ~ host_deleted s h -> ~ down s' h -> reset_done s' h).
Context (Hown : forall c p, P' !! c = Some p -> p_host p = h -> ~ host_deleted s h ->
  reset_done s' h /\ (p_status p = CB_DELAYED -> down s' h \/ p_later p = true) /\ (p_later p = true -> has_later s' h)).
Context (Hback : forall fid b, B' !! (h, fid) = Some b -> backed s' P' (version V fid) h fid b).

Lemma one_deleted x : host_deleted s' x <-> host_deleted s x.
Proof. destruct (decide (x = h)) as [-> | Hx]; [apply (tl_deleted _ _ _ _ T) |]. unfold host_deleted. by rewrite (tl_others _ _ _ _ T x _ Hx). Qed.

Lemma one_host_coherent : coherent s' V B' P'.
Proof.
  destruct (tl_steady _ _ _ _ T) as (R1 & R2 & R3 & R4 & R5). pose proof (tl_others _ _ _ _ T) as X. split.
  - exact K.
  - rewrite R1, R2. apply (co_clock _ _ _ _ C).
  - intros c p Hp. by apply (co_status _ _ _ _ C c), Hsub.
  - intros c p Hp Hd. rewrite one_deleted in Hd. destruct (decide (p_host p = h)) as [E | E].
    + rewrite E in *. by destruct (Hown c p Hp E Hd) as (? & _).
    + unfold reset_done. rewrite X by done. by apply (co_reset _ _ _ _ C c p); [apply Hsub |].
  - intros c p Hp Hd Hs. rewrite one_deleted in Hd. destruct (decide (p_host p = h)) as [E | E].
    + rewrite E in *. destruct (Hown c p Hp E Hd) as (_ & H & _). by apply H.
    + unfold down. rewrite X by done. by apply (co_delayed _ _ _ _ C c p); [apply Hsub | |].
  - intros c p Hp Hl. destruct (co_later _ _ _ _ C c p (Hsub c p Hp) Hl) as (L1 & L2 & L3). split; [done | split; [done |]].
    intros Hd. rewrite one_deleted in Hd. destruct (decide (p_host p = h)) as [E | E].
    + rewrite E in *. destruct (Hown c p Hp E Hd) as (_ & _ & H). by apply H.
    + unfold has_later. rewrite X by done. by apply L3.
  - intros c d p q Hp Hq. apply (co_whole _ _ _ _ C c d); by apply Hsub.
  - rewrite R4. destruct (co_hosts _ _ _ _ C) as [N L]. split; [done |]. intros x Hx. apply L. by apply R5.
  - intros x Hk Hd Hu. rewrite one_deleted in Hd. destruct (decide (x = h)) as [-> | E]; [by apply Hup |].
    unfold reset_done, down in *. rewrite X in * by done. apply (co_up _ _ _ _ C); [by apply R5 | done | done].
  - intros x fid b Hb. assert (Hb' : B !! (x, fid) = Some b) by by apply (lookup_weaken _ _ _ _ Hb).
    destruct (co_backed _ _ _ _ C x fid b Hb') as [Hk Hx]. split; [by apply R5 |].
    destruct (decide (x = h)) as [-> | E]; [by apply Hback |]. apply (backed_frame s s' P P'); [by rewrite one_deleted | | done | done | | done].
    + unfold reset_done. by rewrite X.
    + intros c p Hc (Hh & _). apply Hother; [done | congruence].
Qed.
End one_host.

Lemma get_known h s g s' : get_host h s = Some (g, s') -> known s h.
Proof. unfold get_host, entry. destruct (hosts s !! h) as [e |] eqn:E; [by exists e | done]. Qed.

(** A host that is told what it has missed. *)
Lemma BreakDelayed_coherent s V B P h : coherent s V B P -> known s h -> exists b s' new P', BreakDelayedCallBacks_r h s = Some (b, s')
  /\ coherent s' V (hearing new B) P' /\ tells h s s' new /\ (b = true <-> down s' h) /\ (~ down s' h -> ~ has_later s' h).
Proof.
  intros C Hk. destruct (BreakDelayed_ok s P h (co_keeps _ _ _ _ C) Hk) as (b & s' & new & P' & E & K & T & Hb & Hlt & U).
  exists b, s', new, P'. split; [done | split; [| done]]. pose proof (co_reset _ _ _ _ C) as CR. pose proof (co_delayed _ _ _ _ C) as CD.
  assert (Hback : forall fid b, hearing new B !! (h, fid) = Some b -> backed s P (version V fid) h fid b /\ forall m, m ∈ new -> ~ hears m h fid).
  { intros fid x [Hx Hm]%hearing_lookup. by destruct (co_backed _ _ _ _ C h fid x Hx). }
  assert (Hd : host_deleted s h -> host_deleted s' h) by by rewrite (tl_deleted _ _ _ _ T).
  destruct (tl_steady _ _ _ _ T) as (R1 & R2 & _).
  destruct U as [H1 H2 H3 | H1 H2 H3 H4 Enew | H1 H2 H3 H4 | H1 H2 H3 H4 Ht | H1 H2 H3 H4].
  - apply (one_host_coherent h s s' P P V B _ new C K T); [done | done | apply hearing_sub | done | done |]. intros fid x Hx. left. by apply Hd.
  - apply (one_host_coherent h s s' P P V B _ new C K T); [done | done | apply hearing_sub | done | |].
    + intros c p Hp E'. rewrite <- E' in *. intros _. by destruct H2; apply (CR c p).
    + intros fid x Hx. apply Hback in Hx as [_ Hx]. exfalso. apply (Hx (InitCallBackStateMsg h 0)); [rewrite Enew; left | done].
  - apply (one_host_coherent h s s' P P V B _ new C K T); [done | done | apply hearing_sub | done | |].
    + intros c p Hp E'. rewrite <- E' in *. intros _. by destruct H2; apply (CR c p).
    + intros fid x Hx. right. by left.
  - apply (one_host_coherent h s s' P (without (delayed_to h) P) V B _ new C K T); [| | apply hearing_sub | done | |].
    + intros c p Hp. by apply without_lookup in Hp as [? _].
    + intros c p Hp Hne. apply without_lookup. split; [done |]. by intros [? _].
    + intros c p Hp E' _. apply without_lookup in Hp as [Hp Hn]. assert (Hs : p_status p <> CB_DELAYED) by (intros Hs; by apply Hn).
      split; [done | split; [done |]]. intros Hl. by destruct Hs; apply (co_later _ _ _ _ C c p Hp Hl).
    + intros fid x Hx. apply Hback in Hx as [Hx Hm]. destruct Hx as [Hx | [Hx | [Hx | (c & p & Hc & Hp & Hq & Hv)]]]; [done | done | |].
      * right. right. left. by rewrite R2.
      * right. right. right. destruct (decide (delayed_to h p)) as [Hy | Hy].
        -- destruct (Ht c p Hc Hy) as (fids & Hin & Hf). exfalso. apply (Hm _ Hin). destruct Hp as (_ & Hp).
           split; [done | split; [done |]]. apply Exists_exists. by exists (p_fid p).
        -- exists c, p. rewrite R1. split; [by apply without_lookup | done].
  - apply (one_host_coherent h s s' P (without (to_host h) P) V B _ new C K T); [| | apply hearing_sub | done | |].
    + intros c p Hp. by apply without_lookup in Hp as [? _].
    + intros c p Hp Hne. apply without_lookup. split; [done |]. done.
    + intros c p Hp E' _. by apply without_lookup in Hp as [_ []].
    + intros fid x Hx. right. by left.
Qed.

Lemma CallPreamble_coherent s V B P probed h code s' : coherent s V B P -> CallPreamble probed h s = Some (code, s') -> exists new P',
  coherent s' V (hearing new B) P' /\ tells h s s' new /\ known s h /\ (code = 0 -> ~ host_deleted s' h /\ ~ down s' h /\ ~ has_later s' h).
Proof.
  intros C E. assert (Hk : known s h).
  { unfold CallPreamble, mbind_ at 1 in E. destruct (get_host h s) as [[g s0] |] eqn:Eg; [by apply get_known in Eg | done]. }
  unfold CallPreamble in E. rewrite (bind_ok _ _ _ _ _ (get_host_ok s h Hk)) in E.
  destruct (has_flag HOSTDELETED (hof s h)) eqn:Ed.
  { injection E as <- <-. exists [], P. rewrite hearing_nil. split; [done | split; [by apply tells_quiet | by split]]. }
  assert (Nd : ~ host_deleted s h) by (unfold host_deleted; by rewrite Ed).
  destruct (has_flag VENUSDOWN (hof s h)) eqn:Eu; [| destruct (has_flag HFE_LATER (hof s h)) eqn:El].
  3:{ injection E as <- <-. exists [], P. rewrite hearing_nil. split; [done | split; [by apply tells_quiet | split; [done |]]].
      intros _. split; [done |]. unfold down, has_later. by rewrite Eu, El. }
  all: cbn [orb] in E; destruct (BreakDelayed_coherent s V B P h C Hk) as (b1 & s1 & n1 & P1 & E1 & C1 & T1 & D1 & L1); rewrite (bind_ok _ _ _ _ _ E1) in E;
    (assert (Nd1 : ~ host_deleted s1 h) by by rewrite (tl_deleted _ _ _ _ T1)); destruct b1.
  all: try (injection E as <- <-; exists n1, P1; split; [done | split; [done | split; [done |]]]; intros _; (assert (U1 : ~ down s1 h) by by rewrite <- D1); split; [done | split; [done | by apply L1]]).
  all: destruct probed; cbn [negb] in E; [| by injection E as <- <-; exists n1, P1].
  all: destruct (BreakDelayed_coherent s1 V _ P1 h C1) as (b2 & s2 & n2 & P2 & E2 & C2 & T2 & D2 & L2); [by apply (tells_known h s s1 n1) |];
    rewrite (bind_ok _ _ _ _ _ E2) in E; injection E as <- <-; exists (n2 ++ n1), P2; rewrite hearing_app.
  all: split; [done | split; [by apply (tells_trans _ s s1) | split; [done |]]]; intros Hb; (assert (U2 : ~ down s2 h) by (rewrite <- D2; by destruct b2)); rewrite (tl_deleted _ _ _ _ T2); split; [done | split; [done | by apply L2]].
Qed.

(** Making space. *)
Lemma ClearHost_coherent s V B P h : coherent s V B P -> known s h -> exists s' new P', ClearHostCallbacks_r h s = Some (tt, s')
  /\ coherent s' V (hearing new B) P' /\ tells h s s' new.
Proof.
  intros C Hk. destruct (ClearHost_ok s P h (co_keeps _ _ _ _ C) Hk) as (s' & new & E & K & [T D A]).
  exists s', new, (without (to_host h) P). split; [done | split; [| done]].
  apply (one_host_coherent h s s' P (without (to_host h) P) V B _ new C K T); [| | apply hearing_sub | | |].
  - intros c p Hp. by apply without_lookup in Hp as [? _].
  - intros c p Hp Hne. apply without_lookup. split; [done |]. done.
  - intros _ Hu. by destruct A as [[? _] | (_ & ? & _)].
  - intros c p Hp E' _. by apply without_lookup in Hp as [_ []].
  - intros fid x [_ Hx]%hearing_lookup. destruct A as [[_ Hr] | (_ & _ & En)]; [right; by left |].
    exfalso. apply (Hx (InitCallBackStateMsg h 0)); [rewrite En; left | done].
Qed.

(** The rest of the state as it was, but for what the queues hold. *)
Lemma flags_coherent s s' V B P P' : coherent s V B P -> keeps s' P' -> (forall h f, has_flag f (hof s' h) = has_flag f (hof s h)) ->
  (forall h, known s' h <-> known s h) -> hostList s' = hostList s -> 0 <= now s' < 4294952000 /\ CBtime (now s') - 12 <= tfirst s' <= CBtime (now s') + 1 ->
  (forall c p, P' !! c = Some p -> P !! c = Some p) ->
  (forall h fid b, B !! (h, fid) = Some b -> backed s P (version V fid) h fid b -> backed s' P' (version V fid) h fid b) ->
  coherent s' V B P'.
Proof.
  intros [C1 C2 C3 C4 C5 C9 C10 C8 C6 C7] K F Hk El Hc HP HB. unfold host_deleted, reset_done, down, has_later in *. split; unfold host_deleted, reset_done, down, has_later; try done.
  - intros c p Hp. apply (C3 c). by apply HP.
  - intros c p Hp. rewrite !F. intros Hd. apply (C4 c p); [by apply HP | done].
  - intros c p Hp. rewrite !F. intros Hd Hs. apply (C5 c p); [by apply HP | done | done].
  - intros c p Hp. rewrite !F. apply (C9 c p). by apply HP.
  - intros c d p q Hp Hq. apply (C10 c d); by apply HP.
  - rewrite El. destruct C8 as [N L]. split; [done |]. intros x Hx. by apply L, Hk.
  - intros h Hh. rewrite !F. apply C6. by apply Hk.
  - intros h fid b Hb. destruct (C7 h fid b Hb) as [H1 H2]. split; [by apply Hk | by apply HB].
Qed.

Lemma same_flags s s' : (forall h f, has_flag f (hof s' h) = has_flag f (hof s h)) -> forall h,
  (host_deleted s' h <-> host_deleted s h) /\ (reset_done s' h <-> reset_done s h).
Proof. intros F h. unfold host_deleted, reset_done. by rewrite !F. Qed.

Lemma wait_coherent s V B P t : coherent s V B P -> now s <= t < 4294952000 -> CBtime t - 12 <= tfirst s -> coherent (with_now t s) V B P.
Proof.
  intros C Ht Hc. pose proof (co_clock _ _ _ _ C) as [Hn Hf].
  apply (flags_coherent s (with_now t s) V B P P C); [by apply (keeps_shelves s), C | done | done | done | | done |].
  - cbn. split; [lia |]. rewrite !CBtime_div in *. pose proof (Z.div_le_mono (now s) t 128). lia.
  - intros h fid b _ [H | [H | [H | (c & p & Hp)]]]; [by left | right; by left | right; right; left; cbn; lia |]. right. right. right. by exists c, p.
Qed.

Lemma answers_coherent s V B P l : coherent s V B P -> coherent (with_codes l s) V B P.
Proof. intros C. apply (flags_coherent s (with_codes l s) V B P P C); try done; [by apply (keeps_shelves s), C | apply C]. Qed.

Lemma Cleanup_coherent s V B P : coherent s V B P -> exists b s' P', CleanupTimedOutCallBacks_r s = Some (b, s') /\ coherent s' V B P'
  /\ calls s' = calls s /\ (forall h, known s' h <-> known s h).
Proof.
  intros C. destruct (Cleanup_keeps s P (co_keeps _ _ _ _ C)) as (s' & E & K & Q). cbn zeta in *.
  eexists _, s', _. split; [exact E |]. pose proof (co_clock _ _ _ _ C) as [Hn Hf].
  pose proof (f_equal (fun q => q.1.1.1.1.1.1) Q) as Qt. pose proof (f_equal (fun q => q.1.1.1.1.1.2) Q) as Qn.
  pose proof (f_equal (fun q => q.1.1.1.2) Q) as Qc. cbn in Qt, Qn, Qc.
  assert (F : forall h f, has_flag f (hof s' h) = has_flag f (hof s h)).
  { intros h f. exact (quiet_flag (with_tfirst (Z.max (tfirst s) (CBtime (now s) + 1)) s) s' h f Q). }
  assert (Hk : forall h, known s' h <-> known s h) by (intros h; exact (quiet_known _ s' h Q)).
  split; [| done]. apply (flags_coherent s s' V B P _ C K F Hk); [exact (f_equal (fun q => q.1.1.2) Q) | | |].
  - rewrite Qt, Qn. lia.
  - intros c p Hp. by apply without_lookup in Hp as [? _].
  - intros h fid b _. destruct (same_flags s s' F h) as [Fd Fr]. unfold backed. rewrite Fd, Fr, Qn. intros [H | [H | [H | (c & p & Hp & Hi & Hx & Hv)]]];
      [by left | right; by left | right; right; by left |]. right. right.
    destruct (decide (expired (tfirst s) (CBtime (now s)) p)) as [He | He].
    + left. unfold expired in He. rewrite CBtime_div in He. pose proof (Z.div_mod (now s) 128). pose proof (Z.mod_pos_bound (now s) 128). lia.
    + right. exists c, p. split; [by apply without_lookup | split; [done | split; [| done]]].
      destruct (co_keeps _ _ _ _ C) as (E0 & K0). pose proof (queue_range s P E0 c p K0 Hp) as Hq. unfold expired in He.
      destruct (expiry_spec (tfirst s) _ Hq). rewrite Qt, (expiry_later (tfirst s)); [done | done | lia].
Qed.

Lemma GetSomeSpace_coherent s V B P h : coherent s V B P -> known s h -> exists s' new P', GetSomeSpace_r h s = Some (tt, s')
  /\ coherent s' V (hearing new B) P' /\ calls s' = new ++ calls s.
Proof.
  intros C Hk. unfold GetSomeSpace_r. destruct (Cleanup_coherent s V B P C) as (b & s1 & P1 & E1 & C1 & Ec & Hk1). rewrite (bind_ok _ _ _ _ _ E1).
  destruct b; [exists s1, [], P1; by rewrite hearing_nil |]. rewrite (bind_ok _ _ s1 (length (hostList s1)) s1) by done.
  rewrite (bind_ok _ _ _ _ _ (clear_others_none h s1 (2 * length (hostList s1) + 3) ltac:(lia))).
  destruct (ClearHost_coherent s1 V B P1 h C1) as (s2 & new & P2 & E2 & C2 & T); [by apply Hk1 |].
  exists s2, new, P2. split; [done | split; [done |]]. by rewrite (tl_calls _ _ _ _ T), Ec.
Qed.

(** A host that is marked. *)
Lemma mark_coherent s V B P h flag s' : coherent s V B P -> flag = VENUSDOWN \/ flag = HOSTDELETED ->
  mod_host h (set_flag flag) s = Some (tt, s') -> coherent s' V B P.
Proof.
  intros C Hf E. assert (Hk : known s h).
  { unfold mod_host, mbind_ in E. destruct (get_host h s) as [[g s0] |] eqn:Eg; [by apply get_known in Eg | done]. }
  rewrite (mod_host_ok s h _ Hk) in E. injection E as <-. set (s' := with_hosts (alter (set_flag flag) h) s).
  assert (X : forall x, hof s' x = if decide (x = h) then set_flag flag (hof s h) else hof s x) by (intros x; by apply hof_alter).
  assert (K' : keeps s' P) by (apply (keeps_shelves s); [unfold shelves, s', with_hosts; fields; by rewrite fmap_alter_keep | apply C]).
  assert (Xr : forall x, reset_done s' x <-> reset_done s x).
  { intros x. unfold reset_done. rewrite X. case_decide; [subst x | done]. destruct Hf as [-> | ->]; by rewrite flag_set_other. }
  assert (Xd : forall x, host_deleted s x -> host_deleted s' x).
  { intros x Hx. unfold host_deleted in *. rewrite X. case_decide; [subst x | done]. destruct Hf as [-> | ->]; [by rewrite flag_set_other | by apply flag_set]. }
  assert (Xu : forall x, down s x -> down s' x).
  { intros x Hx. unfold down in *. rewrite X. case_decide; [subst x | done]. destruct Hf as [-> | ->]; [by apply flag_set | by rewrite flag_set_other]. }
  assert (Xk : forall x, known s' x <-> known s x) by (intros x; apply known_alter).
  assert (Xlt : forall x, has_later s x -> has_later s' x).
  { intros x Hx. unfold has_later in *. rewrite X. case_decide; [subst x | done]. destruct Hf as [-> | ->]; by rewrite flag_set_other. }
  destruct C as [C1 C2 C3 C4 C5 C9 C10 C8 C6 C7]. split; [done | done | done | | | | | | |].
  - intros c p Hp Hd. rewrite Xr. apply (C4 c p Hp). intros H. by apply Hd, Xd.
  - intros c p Hp Hd Hs. destruct (C5 c p Hp) as [H | H]; [intros H; by apply Hd, Xd | done | left; by apply Xu | by right].
  - intros c p Hp Hl. destruct (C9 c p Hp Hl) as (H1 & H2 & H3). split; [done | split; [done |]]. intros Hd. apply Xlt, H3. intros H. by apply Hd, Xd.
  - done.
  - destruct C8 as [N L]. split; [done |]. intros x Hx. by apply L, Xk.
  - intros x Hx Hd Hu. rewrite Xr. apply C6; [by apply Xk | intros H; by apply Hd, Xd | intros H; by apply Hu, Xu].
  - intros x fid b Hb. destruct (C7 x fid b Hb) as [H1 H2]. split; [by apply Xk |].
    apply (backed_frame s s' P P); [apply Xd | apply Xr | done | done | done | done].
Qed.

(** A client that gives up what it was promised. *)
Lemma giveup_coherent s V B P h fid : coherent s V B P -> known s h -> ~ host_deleted s h -> ~ down s h -> exists s' P', DeleteCallBack h fid s = Some (tt, s')
  /\ coherent s' V (delete (h, fid) B) P' /\ calls s' = calls s.
Proof.
  intros C Hk Nd Nu. destruct (DeleteCallBack_keeps s P h fid (co_keeps _ _ _ _ C)) as (s' & E & K & Q). exists s', (without (is_promise h fid) P).
  split; [done | split; [| exact (f_equal (fun q => q.1.1.1.2) Q)]]. pose proof (tells_quiet h s s' Q) as T.
  assert (F : forall f, has_flag f (hof s' h) = has_flag f (hof s h)) by (intros f; by apply quiet_flag).
  destruct (tl_steady _ _ _ _ T) as (R1 & R2 & _).
  apply (one_host_coherent h s s' P (without (is_promise h fid) P) V B _ [] C K T).
  - intros c p Hp. by apply without_lookup in Hp as [? _].
  - intros c p Hp Hne. apply without_lookup. split; [done |]. by intros [? _].
  - apply delete_subseteq.
  - unfold reset_done, down. rewrite !F. by apply (co_up _ _ _ _ C).
  - intros c p Hp <- Hd. apply without_lookup in Hp as [Hp _]. unfold reset_done, down, has_later. rewrite !F.
    split; [by apply (co_reset _ _ _ _ C c p) | split; [by apply (co_delayed _ _ _ _ C c p) |]]. intros Hl. by apply (co_later _ _ _ _ C c p).
  - intros f b Hb. apply lookup_delete_Some in Hb as [Hne Hb]. destruct (co_backed _ _ _ _ C h f b Hb) as [_ Hx].
    destruct Hx as [Hx | [Hx | [Hx | (c & p & Hp & Hb' & Hl & Hv)]]].
    + left. by rewrite (tl_deleted _ _ _ _ T).
    + right. left. unfold reset_done. by rewrite F.
    + right. right. left. by rewrite R2.
    + right. right. right. exists c, p. rewrite R1. split; [| done]. apply without_lookup. split; [done |]. intros (Hh & Hf & Hnl).
      destruct Hv as [(_ & Hv & _) | Hv]; [by apply Hne; rewrite <- Hf, Hv |]. apply Nu. rewrite <- Hh in Nd |- *. by apply (delayed_down s V B P c p).
Qed.

Lemma giveup_all_coherent s V B P h : coherent s V B P -> known s h -> exists s' P', DeleteAllCallBacks_r h true s = Some (tt, s')
  /\ coherent s' V (filter (fun x => x.1.1 <> h) B) P' /\ calls s' = calls s.
Proof.
  intros C Hk. destruct (DeleteAllCallBacks_keeps s P h (co_keeps _ _ _ _ C) Hk) as (s' & E & K & Q). exists s', (without (to_host h) P).
  split; [done | split; [| exact (f_equal (fun q => q.1.1.1.2) Q)]]. pose proof (tells_quiet h s s' Q) as T.
  assert (F : forall f, has_flag f (hof s' h) = has_flag f (hof s h)) by (intros f; by apply quiet_flag).
  apply (one_host_coherent h s s' P (without (to_host h) P) V B _ [] C K T).
  - intros c p Hp. by apply without_lookup in Hp as [? _].
  - intros c p Hp Hne. apply without_lookup. split; [done |]. done.
  - apply map_filter_subseteq.
  - unfold reset_done, down. rewrite !F. by apply (co_up _ _ _ _ C).
  - intros c p Hp <- Hd. by apply without_lookup in Hp as [_ []].
  - intros f b Hb. apply map_lookup_filter_Some in Hb as [_ Hb]. done.
Qed.

(** *** A promise made *)

Lemma renewed_later first q q0 : 1 <= q <= 128 -> 1 <= q0 <= 128 ->
  expiry first q <= expiry first (renewed_queue first q q0) /\ expiry first q0 <= expiry first (renewed_queue first q q0).
Proof. intros H1 H2. unfold renewed_queue, expiry. destruct (Z.ltb_spec (TNorm first q0) (TNorm first q)); lia. Qed.

(** The time that the client is told, and the block in which the promise expires. *)
Lemma told_expiry type clock first n : type = CB_NORMAL \/ type = CB_VOLUME \/ type = CB_BULK -> 0 <= n -> 0 <= clock < 4294952000 ->
  CBtime clock - 12 <= first <= CBtime clock + 1 ->
  told type clock n + ServerBias = 128 * expiry first (queue_of type clock n 0) /\ 1 <= queue_of type clock n 0 <= 128.
Proof.
  intros Hty Hn Hc Hf. split; [| apply in_queues_range, queue_of_ok; by destruct Hty as [-> | [-> | ->]]; [left | right; left | right; right; left]].
  unfold told, queue_of. destruct (time_out_of type clock n) as [time |] eqn:Et; [| by destruct Hty as [-> | [-> | ->]]].
  destruct (time_out_range _ _ _ _ Et Hn Hc) as [Hr Hm]. unfold ServerBias. rewrite u32_small by lia. rewrite !CBtime_div in *.
  pose proof (Z.div_mod clock 128). pose proof (Z.div_mod time 128). pose proof (Z.mod_pos_bound clock 128).
  rewrite expiry_unique by lia. lia.
Qed.

(** The callbacks that are not promised are free. *)
Lemma free_count s P : keeps s P -> Z.of_nat (size P + length (CBfree s)) = nblks s.
Proof.
  intros (E & K). pose proof (tk_tables _ _ _ K) as T. destruct (tb_cbfree _ _ _ T) as [N H].
  assert (Hp : elements (dom P) ++ CBfree s ≡ₚ seqZ 1 (nblks s)).
  { apply NoDup_Permutation; [| apply NoDup_seqZ |].
    - apply NoDup_app. split; [apply NoDup_elements | split; [| done]]. intros c Hc%elem_of_elements [_ Hn]%H. done.
    - intros c. rewrite elem_of_app, elem_of_elements, H, elem_of_seqZ. pose proof (tb_cb _ _ _ T c) as Hb. pose proof (tb_used _ _ _ T c) as Hu.
      destruct (decide (c ∈ dom P)) as [Hc | Hc]; [specialize (Hu Hc); rewrite Hb in Hu; split; [lia | by left] |].
      rewrite Hb. split; [intros [? | [? _]]; [done | lia] | intros Hr; right; split; [lia | done]]. }
  apply Permutation_length in Hp. rewrite length_app, length_seqZ in Hp. change (length (elements (dom P))) with (size (dom P)) in Hp.
  rewrite size_dom in Hp. pose proof (tb_size _ _ _ T). lia.
Qed.

Lemma fetch_coherent s V B P space h fid type t s' : coherent s V B P -> known s h -> ~ host_deleted s h -> ~ down s h ->
  Vnode fid <> 0 -> type = CB_NORMAL \/ type = CB_VOLUME \/ type = CB_BULK -> (size leaked < length (CBfree s))%nat ->
  AddCallBack1_r space h fid 0 type s = Some (t, s') -> exists P',
  coherent s' V (<[(h, fid) := Belief (version V fid) t]> B) P' /\ quiet s' = quiet s.
Proof.
  intros C Hk Nd Nu Hvn Hty Hf E. pose proof (co_keeps _ _ _ _ C) as K. destruct (co_clock _ _ _ _ C) as [Hn Hc].
  destruct (AddCallBack1_keeps s P space h fid 0 type K) as (s1 & P' & E' & K' & A & Q);
    [pose proof (free_count s P K); lia | done | by destruct Hty as [-> | [-> | ->]]; [left | right; left | right; right; left] |].
  rewrite E in E'. injection E' as -> <-. exists P'. split; [| done].
  destruct (told_expiry type (now s) (tfirst s) (count fid P) Hty ltac:(unfold count; lia) Hn Hc) as [Ht Hq].
  set (q := queue_of type (now s) (count fid P) 0) in *. set (e := told type (now s) (count fid P)) in *.
  pose proof (co_up _ _ _ _ C h Hk Nd Nu) as Hr. pose proof (tells_quiet h s s' Q) as T. destruct (tl_steady _ _ _ _ T) as (R1 & R2 & _ & R4 & R5).
  assert (F : forall x f, has_flag f (hof s' x) = has_flag f (hof s x)) by (intros; by apply quiet_flag).
  assert (Hst : type <> CB_DELAYED) by (by destruct Hty as [-> | [-> | ->]]).
  (* the promise that is made, and what becomes of the others *)
  assert (HP : exists c p', P' !! c = Some p' /\ is_promise h fid p' /\ 128 * expiry (tfirst s) (p_queue p') >= e + ServerBias
      /\ p_status p' = type /\ (forall d p, d <> c -> P' !! d = Some p <-> P !! d = Some p)
      /\ (forall p, P !! c = Some p -> is_promise h fid p)).
  { destruct A as [c Hcn Hno | c p Hp Hi].
    - exists c, (Promise fid false h type q). rewrite lookup_insert_eq. split; [done | split; [done | split; [cbn; lia | split; [done | split]]]].
      + intros d p Hd. by rewrite lookup_insert_ne.
      + intros p Hp. by rewrite Hcn in Hp.
    - eexists c, _. rewrite lookup_insert_eq. split; [done | split; [done | split; [| split; [| split]]]].
      + cbn. destruct K as (EE & K). pose proof (queue_range s P EE c p K Hp) as Hq0.
        destruct (renewed_later (tfirst s) q (p_queue p) Hq Hq0). lia.
      + cbn. unfold renewed_status. destruct (Z.eqb_spec (p_status p) CB_DELAYED) as [Hs | Hs]; [| done]. exfalso. apply Nu.
        destruct Hi as (Hh & _ & Hnl). rewrite <- Hh in *. by apply (delayed_down s V B P c p).
      + intros d p' Hd. by rewrite lookup_insert_ne.
      + intros p' Hp'. rewrite Hp in Hp'. by injection Hp' as <-. }
  destruct HP as (c & p' & Hc' & Hi & Hx & Hs & Ho & Hown). split.
  - done.
  - rewrite R1, R2. done.
  - intros d p Hp. destruct (decide (d = c)) as [-> | Hd].
    + rewrite Hc' in Hp. injection Hp as <-. rewrite Hs. destruct Hty as [-> | [-> | ->]]; [by left | by right; right; left | by do 3 right].
    + by apply (co_status _ _ _ _ C d), Ho.
  - intros d p Hp. unfold host_deleted, reset_done. rewrite !F. destruct (decide (d = c)) as [-> | Hd].
    + rewrite Hc' in Hp. injection Hp as <-. destruct Hi as (-> & _). done.
    + apply (co_reset _ _ _ _ C d). by apply Ho.
  - intros d p Hp. unfold host_deleted, down. rewrite !F. destruct (decide (d = c)) as [-> | Hd].
    + rewrite Hc' in Hp. injection Hp as <-. by rewrite Hs.
    + apply (co_delayed _ _ _ _ C d). by apply Ho.
  - intros d p Hp. unfold host_deleted, has_later. rewrite !F. destruct (decide (d = c)) as [-> | Hd].
    + rewrite Hc' in Hp. injection Hp as <-. destruct Hi as (_ & _ & ->). done.
    + apply (co_later _ _ _ _ C d). by apply Ho.
  - intros d1 d2 p1 p2 H1 H2. destruct Hi as (_ & I2 & I3). destruct (decide (d1 = c)) as [-> | Hd1].
    + rewrite Hc' in H1. injection H1 as <-. by rewrite I2.
    + destruct (decide (d2 = c)) as [-> | Hd2]; [rewrite Hc' in H2; injection H2 as <-; by rewrite I3 |].
      apply (co_whole _ _ _ _ C d1 d2); by apply Ho.
  - rewrite R4. destruct (co_hosts _ _ _ _ C) as [N L]. split; [done |]. intros x Hx'. by apply L, R5.
  - intros x Hx'. unfold host_deleted, down, reset_done. rewrite !F. apply (co_up _ _ _ _ C). by apply R5.
  - intros x f b Hb. destruct (decide ((x, f) = (h, fid))) as [[= -> ->] | Hne].
    + rewrite lookup_insert_eq in Hb. injection Hb as <-. split; [by apply R5 |]. right. right. right. exists c, p'. rewrite R1. cbn.
      destruct Hi as (I1 & I2 & I3). split; [done | split; [split; [done | by left] | split; [lia | by left]]].
    + rewrite lookup_insert_ne in Hb by done. destruct (co_backed _ _ _ _ C x f b Hb) as [H1 H2]. split; [by apply R5 |].
      destruct H2 as [H2 | [H2 | [H2 | (d & p & Hp & Hj & Hl & Hv)]]].
      * left. unfold host_deleted. by rewrite F.
      * right. left. unfold reset_done. by rewrite F.
      * right. right. left. by rewrite R2.
      * right. right. right. exists d, p. rewrite R1. split; [| done]. destruct (decide (d = c)) as [-> | Hd]; [| by apply Ho]. exfalso.
        destruct (Hown p Hp) as (Hh & Hfi & Hnl), Hj as (Hh' & _). destruct Hv as [(_ & Hv & _) | Hv]; [apply Hne; congruence |].
        apply Nu. rewrite <- Hh in Nd |- *. by apply (delayed_down s V B P c p).
Qed.

(** *** A file changed *)

Definition written (flag : bool) (v h : Z) (fid : AFSFid) (B : gmap (Z * AFSFid) belief) : gmap (Z * AFSFid) belief :=
  if flag then B else alter (fun b => Belief v (b_expires b)) (h, fid) B.

Lemma written_lookup flag v h fid B x f b : written flag v h fid B !! (x, f) = Some b ->
  exists b0, B !! (x, f) = Some b0 /\ b_expires b = b_expires b0 /\ ((x, f) = (h, fid) /\ flag = false /\ b_version b = v
    \/ ~ (x = h /\ f = fid /\ flag = false) /\ b_version b = b_version b0).
Proof.
  unfold written. destruct flag; [intros Hb; exists b; split; [done | split; [done |]]; right; split; [by intros (_ & _ & ?) | done] |].
  intros [(E & b0 & Hb & ->) | [E Hb]]%lookup_alter_Some.
  - exists b0. split; [done | split; [done |]]. by left.
  - exists b. split; [done | split; [done |]]. right. split; [| done]. intros (-> & -> & _). by apply E.
Qed.

Lemma version_insert V fid v f : version (<[fid := v]> V) f = if decide (f = fid) then v else version V f.
Proof. unfold version. case_decide as Ef; [subst f; by rewrite lookup_insert_eq | by rewrite lookup_insert_ne]. Qed.

Lemma store_coherent s V B P space h fid flag : coherent s V B P -> known s h -> ~ host_deleted s h -> ~ down s h ->
  (size leaked <= length (CBfree s))%nat -> exists s' new P',
  BreakCallBack space h fid flag s = Some (tt, s') /\ calls s' = new ++ calls s
  /\ coherent s' (<[fid := version V fid + 1]> V) (written flag (version V fid + 1) h fid (hearing new B)) P'.
Proof.
  intros C Hk Nd Nu Hr. destruct (BreakCallBack_ok s P space h fid flag (co_keeps _ _ _ _ C)) as (s' & P' & new & E & K & G & [B1 B2 B3 B4]).
  { pose proof (free_count s P (co_keeps _ _ _ _ C)). lia. }
  destruct G as [G1 G2 G3 G4 (R1 & R2 & _ & R4) G6 G7]. exists s', new, P'. split; [done | split; [done |]].
  assert (HF : forall c p, P' !! c = Some p -> exists d q, P !! d = Some q /\ p_host p = p_host q
    /\ p_fid p = p_fid q /\ p_later p = p_later q /\ (p = q \/ p_status p = CB_DELAYED /\ p_later p = false /\ down s' (p_host p))).
  { intros c p Hp. destruct (B3 c p Hp) as [Hp' | (d & q & Hq & Hbr & -> & Hd)]; [exists c, p; do 4 (split; [done |]); by left |].
    exists d, q. do 4 (split; [done |]). right. split; [done | split; [apply Hbr | done]]. }
  split.
  - done.
  - rewrite R1, R2. apply C.
  - intros c p Hp. destruct (HF c p Hp) as (d & q & Hq & _ & _ & _ & [-> | [Hs _]]); [by apply (co_status _ _ _ _ C d) |]. by right; left.
  - intros c p Hp. rewrite G3, G6. destruct (HF c p Hp) as (d & q & Hq & -> & _). by apply (co_reset _ _ _ _ C d).
  - intros c p Hp. rewrite G3. destruct (HF c p Hp) as (d & q & Hq & Eh & _ & _ & [-> | (_ & _ & Hd)]); [| by left]. intros Hd Hs.
    destruct (co_delayed _ _ _ _ C d q Hq Hd Hs); [left; by apply G4 | by right].
  - intros c p Hp Hl. rewrite G3, G7. destruct (HF c p Hp) as (d & q & Hq & _ & _ & _ & [-> | (_ & Hn & _)]); [by apply (co_later _ _ _ _ C d) | congruence].
  - intros c1 c2 p1 p2 H1 H2. destruct (HF c1 p1 H1) as (d1 & q1 & Hq1 & _ & -> & -> & _), (HF c2 p2 H2) as (d2 & q2 & Hq2 & _ & -> & -> & _).
    by apply (co_whole _ _ _ _ C d1 d2).
  - rewrite R4. destruct (co_hosts _ _ _ _ C) as [N L]. split; [done |]. intros x Hx. by apply L, G2.
  - intros x Hx Hd Hu. rewrite G6. apply (co_up _ _ _ _ C); [by apply G2 | by rewrite <- G3 | intros H; by apply Hu, G4].
  - intros x f b Hb. destruct (written_lookup _ _ _ _ _ _ _ _ Hb) as (b0 & [Hb0 Hm]%hearing_lookup & Ee & Hv).
    destruct (co_backed _ _ _ _ C x f b0 Hb0) as [Hx Hy]. split; [by apply G2 |]. unfold backed. rewrite G3, G6, R1, R2, Ee.
    destruct Hy as [H | [H | [H | (c & p & Hc & Hp & Hq & Hcur)]]]; [by left | right; by left | right; right; by left |].
    destruct (decide (to_break h fid flag p)) as [Hbr | Hbr].
    + destruct Hp as (Hh & Hf). pose proof (proj1 (proj1 Hbr)) as Hfid. pose proof (B4 c p Hc Hbr) as HB4. rewrite Hh in HB4. rewrite Hfid in Hf.
      destruct HB4 as [H | [(m & Hin & Hm') | (Hd & d & Hd')]]; [by left | |].
      * exfalso. apply (Hm m Hin). destruct Hm' as [-> | ->]; (split; [done | split; [done | by left]]).
      * right. right. right. eexists d, _. split; [done | split; [by split | split; [done | by right]]].
    + right. right. right. exists c, p. split; [by apply B2 | split; [done | split; [done |]]]. rewrite version_insert.
      destruct Hcur as [(Hl & Hf & Hcur) | Hcur]; [| by right]. destruct Hv as [([= -> ->] & _ & ->) | [Hn ->]]; [left; by rewrite decide_True |].
      destruct (decide (f = fid)) as [-> | Hne]; [| by left]. right. destruct Hp as (Hh & _).
      destruct (co_status _ _ _ _ C c p Hc) as [Hs | [Hs | [Hs | Hs]]]; [| done | |]; exfalso; apply Hbr; (split; [done |]); (split;
        [destruct flag; [by right | left; rewrite Hh; intros ->; by apply Hn] |]); [right; by left | by right; right | by left].
Qed.

(** *** A volume changed *)

Lemma covers_volume q fid : covers q fid -> Volume q = Volume fid.
Proof. by intros [-> | [_ ?]]. Qed.

(** Its promises are put off, and the hosts are marked. *)
Lemma volume_coherent s V V' B P volume : coherent s V B P -> volume <> 0 -> (forall fid, Volume fid <> volume -> version V' fid = version V fid) ->
  exists b s' P', BreakVolumeCallBacksLater volume s = Some (b, s') /\ calls s' = calls s /\ coherent s' V' B P'.
Proof.
  intros C H0 HV. destruct (VolumeLater_ok volume s P (co_keeps _ _ _ _ C)) as (b & s' & E & K & M & HL).
  exists b, s', (volume_later volume P). pose proof (mk_rest _ _ M) as Q. injection Q as _ _ _ Q1 Q2 _ Q3 Q4 _.
  split; [done | split; [done |]].
  assert (F : forall h f, f = HOSTDELETED \/ f = RESETDONE \/ f = VENUSDOWN -> has_flag f (hof s' h) = has_flag f (hof s h)).
  { intros h f Hf. apply (mk_flags _ _ M). by destruct Hf as [-> | [-> | ->]]. }
  assert (Fd : forall h, host_deleted s' h <-> host_deleted s h) by (intros h; unfold host_deleted; rewrite F; [done | by left]).
  assert (Fr : forall h, reset_done s' h <-> reset_done s h) by (intros h; unfold reset_done; rewrite F; [done | by right; left]).
  assert (Fu : forall h, down s' h <-> down s h) by (intros h; unfold down; rewrite F; [done | by right; right]).
  assert (HP : forall c p', volume_later volume P !! c = Some p' -> exists p, P !! c = Some p /\ p_host p' = p_host p /\ p_fid p' = p_fid p
    /\ (of_volume volume p /\ p' = put_off p \/ ~ of_volume volume p /\ p' = p)).
  { intros c p'. unfold volume_later. rewrite lookup_fmap. intros (p & Hp & ->)%fmap_Some. exists p. split; [done |].
    destruct (decide (of_volume volume p)) as [Hv | Hv]; (do 2 (split; [done |])); [by left | by right]. }
  split.
  - done.
  - rewrite Q1, Q2. apply C.
  - intros c p' Hp'. destruct (HP c p' Hp') as (p & Hp & _ & _ & [[_ ->] | [_ ->]]); [by right; left | by apply (co_status _ _ _ _ C c)].
  - intros c p' Hp'. destruct (HP c p' Hp') as (p & Hp & -> & _). rewrite Fd, Fr. by apply (co_reset _ _ _ _ C c).
  - intros c p' Hp'. rewrite Fd, Fu. destruct (HP c p' Hp') as (p & Hp & _ & _ & [[_ ->] | [_ ->]]); [by right | by apply (co_delayed _ _ _ _ C c)].
  - intros c p' Hp' Hl. rewrite Fd. destruct (HP c p' Hp') as (p & Hp & _ & _ & [[Hv ->] | [_ ->]]).
    + split; [done | split; [by rewrite <- Hv in H0 |]]. intros _. by apply (HL c p).
    + destruct (co_later _ _ _ _ C c p Hp Hl) as (L1 & L2 & L3). split; [done | split; [done |]]. intros Hd. by apply (mk_later _ _ M), L3.
  - intros c d p' q' Hp' Hq' Hvn Hl Hl'. destruct (HP c p' Hp') as (p & Hp & _ & Ef & [[_ ->] | [Hv ->]]); [done |].
    destruct (HP d q' Hq') as (q & Hq & _ & Eg & [[Hv' ->] | [_ ->]]); [| by apply (co_whole _ _ _ _ C c d)].
    cbn [put_off p_fid]. rewrite Hv'. intros Ev. by apply Hv.
  - rewrite Q4. destruct (co_hosts _ _ _ _ C) as [N L]. split; [done |]. intros h Hh. by apply L, (mk_known _ _ M).
  - intros h Hh. rewrite Fd, Fu, Fr. apply (co_up _ _ _ _ C). by apply (mk_known _ _ M).
  - intros h fid x Hx. destruct (co_backed _ _ _ _ C h fid x Hx) as [Hk Hy]. split; [by apply (mk_known _ _ M) |].
    unfold backed. rewrite Fd, Fr, Q1, Q2. destruct Hy as [H | [H | [H | (c & p & Hc & (Hh & Hf) & Hq & Hcur)]]];
      [by left | right; by left | right; right; by left |]. right. right. right.
    assert (Hc' : volume_later volume P !! c = Some (if decide (of_volume volume p) then put_off p else p)) by (unfold volume_later; by rewrite lookup_fmap, Hc).
    exists c, (if decide (of_volume volume p) then put_off p else p). split; [done |]. case_decide as Hv.
    + split; [done | split; [done | by right]].
    + split; [done | split; [done |]]. destruct Hcur as [(H1 & H2 & H3) | H]; [left | by right]. split; [done | split; [done |]].
      rewrite HV; [done |]. rewrite <- (covers_volume _ _ Hf). exact Hv.
Qed.
End leaks.

(** What was put off is done: the hosts of one volume are called. File entries may
    be left without a callback by it. *)
Lemma fsync_coherent {lk : Leaked} s V B P space : coherent s V B P -> (size leaked <= length (CBfree s))%nat ->
  exists (lk' : Leaked) b s' new P', BreakLaterCallBacks space s = Some (b, s') /\ calls s' = new ++ calls s /\ @coherent lk' s' V (hearing new B) P'.
Proof.
  intros C Hr. destruct (co_hosts _ _ _ _ C) as [N L]. pose proof (co_keeps _ _ _ _ C) as K.
  destruct (BreakLater_ok space s P K) as [(s' & E & K' & Q & _) | (lk' & volume & s' & P' & new & E & K' & A & O)].
  { pose proof (free_count s P K). lia. } { done. } { done. } { apply (co_reset _ _ _ _ C). }
  { intros c p Hp Hl. by destruct (co_later _ _ _ _ C c p Hp Hl) as (? & ? & _). } { apply (co_whole _ _ _ _ C). }
  { exists lk, false, s', [], P. rewrite hearing_nil. pose proof (steady_quiet s s' Q) as (R1 & R2 & R3 & R4 & R5).
    split; [done | split; [by apply (gr_calls _ _ _ (grows_quiet s s' Q)) |]]. apply (flags_coherent s s' V B P P C); [done | | done | done | | done |].
    - intros h f. by apply quiet_flag.
    - rewrite R1, R2. apply C.
    - intros h fid b _. unfold backed, host_deleted, reset_done. rewrite !(quiet_flag s s' _ _ Q), R1, R2. done. }
  exists lk', true, s', new, P'. split; [done | split; [apply (ca_calls _ _ _ _ _ _ A) |]]. destruct (ca_steady _ _ _ _ _ _ A) as (R1 & R2 & R3 & R4 & R5).
  pose proof (ca_deleted _ _ _ _ _ _ A) as XD. pose proof (ca_down _ _ _ _ _ _ A) as XU. pose proof (ca_lost _ _ _ _ _ _ A) as XL.
  assert (HF : forall c p, P' !! c = Some p -> P !! c = Some p /\ ~ pending volume p
    \/ p_fid p = Fid volume 0 0 /\ p_later p = false /\ p_status p = CB_DELAYED /\ down s' (p_host p) /\ reset_done s' (p_host p)).
  { intros c p Hp. destruct (ca_from _ _ _ _ _ _ A c p Hp) as [Hp' | (Ep & H)]; [left; by apply without_lookup in Hp' | right]. by rewrite Ep. }
  split.
  - done.
  - rewrite R1, R2. apply C.
  - intros c p Hp. destruct (HF c p Hp) as [[Hp' _] | (_ & _ & Hs & _)]; [by apply (co_status _ _ _ _ C c) | by right; left].
  - intros c p Hp Hd. rewrite XD in Hd. destruct (HF c p Hp) as [[Hp' _] | (_ & _ & _ & _ & Hr')]; [| done].
    destruct (flag_dec RESETDONE s' (p_host p)) as [Hr' | Hr']; [done |].
    destruct (XL _ Hr' (co_reset _ _ _ _ C c p Hp' Hd)) as [_ Hno]. by destruct (Hno c p Hp).
  - intros c p Hp Hd Hs. rewrite XD in Hd. destruct (HF c p Hp) as [[Hp' _] | (_ & _ & _ & Hdn & _)]; [| by left].
    destruct (co_delayed _ _ _ _ C c p Hp' Hd Hs); [left; by apply XU | by right].
  - intros c p Hp Hl. destruct (HF c p Hp) as [[Hp' _] | (_ & Hl' & _)]; [| congruence]. rewrite XD, (ca_later _ _ _ _ _ _ A). by apply (co_later _ _ _ _ C c).
  - intros c d p q Hp Hq Hvn Hl Hl'. destruct (HF d q Hq) as [[Hq' Hnp] | (_ & Hl2 & _)]; [| congruence].
    destruct (HF c p Hp) as [[Hp' _] | (-> & _)]; [by apply (co_whole _ _ _ _ C c d) |]. cbn. intros Hv. by apply Hnp.
  - rewrite R4. split; [done |]. intros h Hh. by apply L, R5.
  - intros h Hh Hd Hu. rewrite XD in Hd. assert (Hr' : reset_done s h) by (apply (co_up _ _ _ _ C); [by apply R5 | done | intros H; by apply Hu, XU]).
    destruct (flag_dec RESETDONE s' h) as [Hr2 | Hr2]; [done |]. by destruct (XL h Hr2 Hr') as [Hdn _].
  - intros h fid b [Hb Hm]%hearing_lookup. destruct (co_backed _ _ _ _ C h fid b Hb) as [Hk Hx]. split; [by apply R5 |].
    unfold backed. rewrite XD, R1, R2. destruct Hx as [H | [H | [H | (c & p & Hc & Hp & Hq & Hcur)]]];
      [by left | right; left; intros Hr'; by apply H, (ca_reset _ _ _ _ _ _ A) | right; right; by left |].
    destruct Hp as (Hh & Hf). destruct (decide (pending volume p)) as [Hv | Hv].
    + destruct (O c p Hc Hv) as (t & Ht & Ho). rewrite Hh in Ho.
      assert (Hcv : covers (Fid volume 0 0) fid) by (right; split; [done | cbn; rewrite <- (covers_volume _ _ Hf); by destruct Hv]).
      destruct Ho as [Ho | [(m & Hin & Hi) | [(Hd & d & Hd') | Ho]]]; [left; by apply XD | | | right; by left].
      * exfalso. apply (Hm m Hin). destruct Hi as [-> | ->]; (split; [done | split; [done | by left]]).
      * right. right. right. eexists d, _. split; [done | split; [by split |]]. cbn. split; [lia | by right].
    + assert (Hc1 : without (pending volume) P !! c = Some p) by by apply without_lookup.
      destruct (ca_kept _ _ _ _ _ _ A c p Hc1) as [Hc' | Hr']; [| right; left; by rewrite Hh in Hr'].
      right. right. right. by exists c, p.
Qed.

(** ** Every reachable world *)

(** The file entries without a callback are those that may be left so. *)
Lemma keeps_without_cb {lk : Leaked} s P : keeps s P -> @keeps (without_cb s) s P.
Proof.
  intros (E & [T F HP _] & Ti & Ho). exists E. split; [split; [done | done | done |] | done]. intros f Hf Hl. destruct F as (FL & BL & F & _).
  pose proof (ls_list _ _ _ _ F f Hf) as HL. pose proof (ls_elem _ _ _ _ F f) as He. destruct (FL f) as [| c l]; cbn [linked] in HL.
  - exfalso. apply Hl. apply elem_of_filter. split; [split; [done |] | by apply elem_of_dom, (tb_files _ _ _ T)].
    destruct (tb_fefree _ _ _ T) as [_ H]. by intros [_ ?]%H.
  - exists c. apply (He c Hf). left.
Qed.

Lemma coherent_without_cb {lk : Leaked} s V B P : coherent s V B P -> @coherent (without_cb s) s V B P.
Proof. intros [C1 C2 C3 C4 C5 C6 C7 C8 C9 C10]. split; [by apply (keeps_without_cb s P) | done ..]. Qed.

Definition sound (w : world) : Prop := exists (lk : Leaked) P, coherent (server w) (versions w) (beliefs w) P.

Lemma initial_coherent w : initial w -> sound w.
Proof.
  intros [n s Hn Hh Ht Hl Hc HN HL Hu]. exists (∅ : gset Z), ∅. cbn [server versions beliefs]. split; try (intros c p Hp; by rewrite lookup_empty in Hp).
  - by apply InitCallBack_keeps.
  - cbn. lia.
  - intros c d p q Hp. by rewrite lookup_empty in Hp.
  - split; [done |]. intros h Hk. by apply HL.
  - intros h Hk. by apply Hu.
  - intros h fid b Hb. by rewrite lookup_empty in Hb.
Qed.

Lemma step_coherent w w' : step true w w' -> sound w -> sound w'.
Proof.
  intros S (lk & P & C). destruct S as [s V B t Ht Hc | s V B l | s V B k | s V B h s' E | s V B h s' E | s V B b s' E | s V B h s' Hk E |
    s V B volume V' b s' H0 HV E | s V B space b s' Hr E | s V B probed h code s' E | s V B probed h fid type space s1 t s2 E Hvn Hty Hr E2 |
    s V B probed h fid flag space s1 s2 E Hr E2 | s V B probed h fid s1 s2 E E2 | s V B probed h s1 s2 E E2]; cbn [server versions beliefs] in *.
  - exists lk, P. by apply wait_coherent.
  - exists lk, P. by apply answers_coherent.
  - exists lk, P. apply (coherent_fewer s V B _ P C), delete_subseteq.
  - exists lk, P. apply (mark_coherent s V B P h VENUSDOWN); [done | by left | done].
  - exists lk, P. apply (mark_coherent s V B P h HOSTDELETED); [done | by right | done].
  - destruct (Cleanup_coherent s V B P C) as (b' & s1 & P' & E' & C' & _). rewrite E in E'. injection E' as _ ->. by exists lk, P'.
  - destruct (GetSomeSpace_coherent s V B P h C Hk) as (s1 & new & P' & E' & C' & Ec). rewrite E in E'. injection E' as ->.
    exists lk, P'. unfold heard. cbn. by rewrite (news_ok s s1 new).
  - destruct (volume_coherent s V V' B P volume C H0 HV) as (b1 & s1 & P' & E' & Ec & C'). rewrite E in E'. injection E' as _ ->.
    exists lk, P'. unfold heard. cbn. rewrite (news_ok s s1 []) by done. by rewrite hearing_nil.
  - destruct (fsync_coherent (lk := without_cb s) s V B P space (coherent_without_cb s V B P C) (Hr eq_refl)) as (lk' & b1 & s1 & new & P' & E' & Ec & C').
    rewrite E in E'. injection E' as _ ->. exists lk', P'. unfold heard. cbn. by rewrite (news_ok s s1 new).
  - destruct (CallPreamble_coherent s V B P probed h code s' C E) as (new & P' & C' & T & _). exists lk, P'. unfold heard. cbn.
    by rewrite (news_ok s s' new (tl_calls _ _ _ _ T)).
  - destruct (CallPreamble_coherent s V B P probed h 0 s1 C E) as (new & P1 & C1 & T & Hk & Hs). destruct (Hs eq_refl) as (Nd & Nu & _).
    apply coherent_without_cb in C1. exists (without_cb s1).
    destruct (fetch_coherent (lk := without_cb s1) s1 V _ P1 space h fid type t s2 C1) as (P' & C' & Q);
      [by apply (tells_known h s s1 new) | done | done | done | done | by apply Hr | done |]. exists P'. unfold heard. cbn.
    rewrite (news_ok s s2 new); [done |]. rewrite <- (tl_calls _ _ _ _ T). exact (f_equal (fun q => q.1.1.1.2) Q).
  - destruct (CallPreamble_coherent s V B P probed h 0 s1 C E) as (new & P1 & C1 & T & Hk & Hs). destruct (Hs eq_refl) as (Nd & Nu & _).
    apply coherent_without_cb in C1. exists (without_cb s1).
    destruct (store_coherent (lk := without_cb s1) s1 V _ P1 space h fid flag C1) as (s3 & n2 & P' & E' & Ec & C');
      [by apply (tells_known h s s1 new) | done | done | by apply Hr |].
    rewrite E2 in E'. injection E' as <-. exists P'. unfold heard. cbn. rewrite (news_ok s s2 (n2 ++ new)), hearing_app; [done |].
    by rewrite Ec, (tl_calls _ _ _ _ T), app_assoc.
  - destruct (CallPreamble_coherent s V B P probed h 0 s1 C E) as (new & P1 & C1 & T & Hk & Hs).
    destruct (Hs eq_refl) as (Nd & Nu & _). exists lk.
    destruct (giveup_coherent s1 V _ P1 h fid C1) as (s3 & P' & E' & C' & Ec); [by apply (tells_known h s s1 new) | done | done |].
    rewrite E2 in E'. injection E' as <-. exists P'. unfold heard. cbn. rewrite (news_ok s s2 new); [done |]. by rewrite Ec, (tl_calls _ _ _ _ T).
  - destruct (CallPreamble_coherent s V B P probed h 0 s1 C E) as (new & P1 & C1 & T & Hk & Hs). exists lk.
    destruct (giveup_all_coherent s1 V _ P1 h C1) as (s3 & P' & E' & C' & Ec); [by apply (tells_known h s s1 new) |].
    rewrite E2 in E'. injection E' as <-. exists P'. unfold heard. cbn. rewrite (news_ok s s2 new); [done |]. by rewrite Ec, (tl_calls _ _ _ _ T).
Qed.

Lemma reachable_coherent w : reachable true w -> sound w.
Proof.
  intros (w0 & I & R). apply initial_coherent in I. induction R as [w | w1 w2 w3 S R IH]; [done |]. by apply IH, (step_coherent w1 w2).
Qed.

(** ** Theorems *)

(** C11. Cache consistency. The promises of a volume that changes are only put off
    (BreakVolumeCallBacksLater), and broken when the fsync thread gets to them.
    While promises are made only when there is room for them, whatever the clients
    do, whichever files and volumes change, whenever the fsync thread runs,
    whatever the calls to clients come to, and however time goes by: what a host
    that the server takes for up may still rely on, even with a clock three minutes
    behind, is the version that the server has, unless the host is marked HFE_LATER
    and the fsync thread still has something to do. And a host whose call goes
    through relies on nothing that has changed, be it marked or not. *)
Theorem cache_consistency w h fid b : reachable true w -> beliefs w !! (h, fid) = Some b -> now (server w) < b_expires b + ServerBias ->
  (~ host_deleted (server w) h -> ~ down (server w) h ->
     ~ has_later (server w) h \/ (exists space s', BreakLaterCallBacks space (server w) = Some (false, s')) -> b_version b = version (versions w) fid)
  /\ forall probed s', CallPreamble probed h (server w) = Some (0, s') -> heard (server w) s' (beliefs w) !! (h, fid) = Some b ->
     b_version b = version (versions w) fid.
Proof.
  intros R Hb Ht. destruct (reachable_coherent w R) as (lk & P & C). split.
  - intros Hd Hu Hl. apply (coherent_current _ _ _ P h fid b C Hb Hd Hu); [| done]. destruct Hl as [Hl | (space & s' & E)]; [by left | right].
    apply (BreakLater_none space (server w) P s' (co_keeps _ _ _ _ C)); [| done]. intros c p Hp Hpl.
    by destruct (co_later _ _ _ _ C c p Hp Hpl) as (? & ? & _).
  - intros probed s' E Hh. destruct (CallPreamble_coherent _ _ _ P probed h 0 s' C E) as (new & P' & C' & T & _ & Hs).
    destruct (Hs eq_refl) as (Hd & Hu & Hl). unfold heard in Hh. rewrite (news_ok _ s' new (tl_calls _ _ _ _ T)) in Hh.
    apply (coherent_current _ _ _ P' h fid b C'); [done | done | done | by left |]. destruct (tl_steady _ _ _ _ T) as (_ & -> & _). done.
Qed.

(** C12. BreakDelayedCallBacks_r ends, fails exactly when the host is marked down
    afterwards, and concerns no other host: a host that is up afterwards was told
    of every file whose promise was delayed, and keeps the other promises, or was
    told to forget all; one that does not answer keeps no promise, or will have to
    forget all. *)
Theorem BreakDelayed_spec {lk : Leaked} s P h : keeps s P -> known s h -> exists failed s' new P', BreakDelayedCallBacks_r h s = Some (failed, s')
  /\ keeps s' P' /\ tells h s s' new /\ (failed = true <-> down s' h) /\ caught_up h s P s' new P'.
Proof.
  intros K Hk. destruct (BreakDelayed_ok s P h K Hk) as (b & s' & new & P' & E & K' & T & Hb & _ & U). by exists b, s', new, P'.
Qed.

(** ** Runs

    Two hosts, and two entries. *)
Definition two_hosts (l : list Z) : cbstate :=
  CbState ∅ ∅ ∅ ∅ 0 [] [] 0 {[1 := Host 0 RESETDONE 5 false; 2 := Host 0 RESETDONE 7 false]} [1; 2] 1000000 l [].
Definition file_c : AFSFid := Fid 536870912 6 13.
Definition file_d : AFSFid := Fid 536870915 2 14.
Definition start (l : list Z) : world := World (InitCallBack 2 (two_hosts l)) ∅ ∅.

Lemma start_initial l : initial (start l).
Proof.
  assert (Hh : forall h g, hosts (two_hosts l) !! h = Some g -> cblist g = 0 /\ hostFlags g = RESETDONE).
  { intros h g Hg. cbn [hosts two_hosts] in Hg. apply lookup_insert_Some in Hg as [[_ <-] | [_ Hg]]; [done |].
    by apply lookup_singleton_Some in Hg as [_ <-]. }
  apply initial_world; [done | done | done | intros h g Hg; by destruct (Hh h g Hg) | done | | |].
  { apply (bool_decide_unpack _). vm_compute. exact I. }
  { intros h [g Hg]. cbn [hosts two_hosts hostList] in *. apply lookup_insert_Some in Hg as [[<- _] | [_ Hg]]; [left |].
    apply lookup_singleton_Some in Hg as [<- _]. right. left. }
  intros h [g Hg] _ _. unfold reset_done, hof. rewrite Hg. change (has_flag RESETDONE g = true). unfold has_flag. by rewrite (proj2 (Hh h g Hg)).
Qed.

(** The steps of a run, computed: whether one can be made, and where it leads. *)
Definition is_some {A} (o : option A) : bool := match o with Some _ => true | None => false end.
Definition served (h : Z) (w : world) : bool := match CallPreamble false h (server w) with Some (c, _) => c =? 0 | None => false end.
Definition met (h : Z) (w : world) : cbstate := after (CallPreamble false h (server w)).

Definition fetch (h : Z) (fid : AFSFid) (w : world) : world :=
  match AddCallBack1_r 3 h fid 0 CB_NORMAL (met h w) with
  | Some (t, s2) => World s2 (versions w) (<[(h, fid) := Belief (version (versions w) fid) t]> (heard (server w) s2 (beliefs w)))
  | None => w
  end.
Definition roomy (room : bool) (n : nat) (s : cbstate) : bool := negb room || (size (without_cb s) + n <=? length (CBfree s))%nat.
Definition can_fetch (room : bool) (h : Z) (fid : AFSFid) (w : world) : bool :=
  served h w && negb (Vnode fid =? 0) && roomy room 1 (met h w) && is_some (AddCallBack1_r 3 h fid 0 CB_NORMAL (met h w)).

Definition store (h : Z) (fid : AFSFid) (w : world) : world :=
  let v := version (versions w) fid + 1 in let s2 := after (BreakCallBack 3 h fid false (met h w)) in
  World s2 (<[fid := v]> (versions w)) (alter (fun b => Belief v (b_expires b)) (h, fid) (heard (server w) s2 (beliefs w))).
Definition can_store (room : bool) (h : Z) (fid : AFSFid) (w : world) : bool :=
  served h w && roomy room 0 (met h w) && is_some (BreakCallBack 3 h fid false (met h w)).

(** A volume restored, with a new version of one of its files; and the fsync thread. *)
Definition restore (fid : AFSFid) (w : world) : world :=
  let s' := after (BreakVolumeCallBacksLater (Volume fid) (server w)) in
  World s' (<[fid := version (versions w) fid + 1]> (versions w)) (heard (server w) s' (beliefs w)).
Definition can_restore (fid : AFSFid) (w : world) : bool := negb (Volume fid =? 0) && is_some (BreakVolumeCallBacksLater (Volume fid) (server w)).
Definition fsync (w : world) : world :=
  let s' := after (BreakLaterCallBacks 3 (server w)) in World s' (versions w) (heard (server w) s' (beliefs w)).
Definition can_fsync (room : bool) (w : world) : bool := roomy room 0 (server w) && is_some (BreakLaterCallBacks 3 (server w)).

Definition call (h : Z) (w : world) : world := World (met h w) (versions w) (heard (server w) (met h w) (beliefs w)).

Lemma met_ok h w : served h w = true -> CallPreamble false h (server w) = Some (0, met h w).
Proof. unfold served, met. destruct (CallPreamble false h (server w)) as [[c s] |]; [| done]. by intros ->%Z.eqb_eq. Qed.

Lemma roomy_ok room n s : roomy room n s = true -> room = true -> (size (without_cb s) + n <= length (CBfree s))%nat.
Proof. unfold roomy. intros H ->. by apply Nat.leb_le. Qed.

Lemma fetch_step room h fid w : can_fetch room h fid w = true -> step room w (fetch h fid w).
Proof.
  intros [[[Hs Hv%negb_true_iff%Z.eqb_neq]%andb_prop Hr]%andb_prop Ha]%andb_prop. apply met_ok in Hs. unfold fetch.
  destruct (AddCallBack1_r 3 h fid 0 CB_NORMAL (met h w)) as [[t s2] |] eqn:E; [| done].
  destruct w as [s V B]. apply (st_fetch room s V B false h fid CB_NORMAL 3 (met h (World s V B)) t s2); [done | done | by left | | done].
  intros Er. pose proof (roomy_ok _ _ _ Hr Er). lia.
Qed.
Lemma store_step room h fid w : can_store room h fid w = true -> step room w (store h fid w).
Proof.
  intros [[Hs Hr]%andb_prop Ha]%andb_prop. apply met_ok in Hs. unfold store. destruct (BreakCallBack 3 h fid false (met h w)) as [[[] s2] |] eqn:E; [| done].
  destruct w as [s V B]. apply (st_store room s V B false h fid false 3 _ s2 Hs); [| exact E]. intros Er. pose proof (roomy_ok _ _ _ Hr Er). lia.
Qed.
Lemma restore_step room fid w : can_restore fid w = true -> step room w (restore fid w).
Proof.
  intros [Hv%negb_true_iff%Z.eqb_neq Ha]%andb_prop. unfold restore. destruct (BreakVolumeCallBacksLater (Volume fid) (server w)) as [[b s2] |] eqn:E; [| done].
  destruct w as [s V B]. apply (st_volume room s V B (Volume fid) _ b s2 Hv); [| exact E]. intros f Hf. rewrite version_insert, decide_False; [done |]. by intros ->.
Qed.
Lemma fsync_step room w : can_fsync room w = true -> step room w (fsync w).
Proof.
  intros [Hr Ha]%andb_prop. unfold fsync. destruct (BreakLaterCallBacks 3 (server w)) as [[b s2] |] eqn:E; [| done].
  destruct w as [s V B]. cbn [server] in Hr. apply (st_fsync room s V B 3 b s2); [| exact E]. intros Er. pose proof (roomy_ok _ _ _ Hr Er). lia.
Qed.
Lemma call_step room h w : served h w = true -> step room w (call h w).
Proof. intros Hs. apply met_ok in Hs. destruct w as [s V B]. exact (st_call room s V B false h 0 _ Hs). Qed.

Lemma reachable_step room w w' : reachable room w -> step room w w' -> reachable room w'.
Proof. intros (w0 & I & R) S. exists w0. split; [done |]. by apply (rtc_r w0 w w'). Qed.
Lemma reachable_start room l : reachable room (start l).
Proof. exists (start l). split; [apply start_initial | apply rtc_refl]. Qed.

(** One host has a file; the other changes it, and the two calls to the first have
    errors; the first is heard of, is told, and fetches the file again,
    and one of another volume. Then the first volume is restored; until the fsync
    thread gets to it the host relies on what it has, and then it is told. *)
Definition missed : world := store 2 file_b (fetch 1 file_b (start [1; 1])).
Definition restored : world := restore file_b (fetch 1 file_d (fetch 1 file_b (call 1 missed))).
Definition told_later : world := fsync restored.

Lemma missed_reachable : reachable true missed.
Proof.
  apply (reachable_step true (fetch 1 file_b (start [1; 1]))); [| apply store_step; vm_compute; exact eq_refl].
  apply (reachable_step true (start [1; 1])); [apply reachable_start |]. apply fetch_step. vm_compute. exact eq_refl.
Qed.

Lemma told_later_reachable : reachable true told_later.
Proof.
  apply (reachable_step true restored); [| apply fsync_step; vm_compute; exact eq_refl].
  apply (reachable_step true (fetch 1 file_d (fetch 1 file_b (call 1 missed)))); [| apply restore_step; vm_compute; exact eq_refl].
  apply (reachable_step true (fetch 1 file_b (call 1 missed))); [| apply fetch_step; vm_compute; exact eq_refl].
  apply (reachable_step true (call 1 missed)); [| apply fetch_step; vm_compute; exact eq_refl].
  apply (reachable_step true missed); [apply missed_reachable | apply call_step; vm_compute; exact eq_refl].
Qed.

(** Until it is heard of it relies on the old version, and is marked down. *)
Example missed_stale : beliefs missed !! (1, file_b) = Some (Belief 0 1014476) /\ version (versions missed) file_b = 1
  /\ has_flag VENUSDOWN (hof (server missed) 1) = true.
Proof. vm_compute. done. Qed.
Example told_of : beliefs (call 1 missed) !! (1, file_b) = None.
Proof. vm_compute. reflexivity. Qed.

(** The window, in which it is up and has not yet been told. *)
Example restored_stale : beliefs restored !! (1, file_b) = Some (Belief 1 1014476) /\ version (versions restored) file_b = 2
  /\ has_flag VENUSDOWN (hof (server restored) 1) = false /\ has_flag HFE_LATER (hof (server restored) 1) = true.
Proof. vm_compute. done. Qed.
Example told_of_volume : beliefs told_later !! (1, file_b) = None.
Proof. vm_compute. reflexivity. Qed.

(** When the host is down by then, all its callbacks are deleted, but the entry of
    its other file stays in use. *)
Definition unreachable (h : Z) (w : world) : world := World (after (mod_host h (set_flag VENUSDOWN) (server w))) (versions w) (beliefs w).
Example entry_leaked : let w := fsync (restore file_b (unreachable 1 (fetch 1 file_d (fetch 1 file_b (start []))))) in
  length (CBfree (server w)) = 2%nat /\ length (FEfree (server w)) = 1%nat /\ size (without_cb (server w)) = 1%nat.
Proof. vm_compute. done. Qed.

(** C13. Without room it may be otherwise. When all entries are in use, a promise
    is made to the host whose callbacks were just cleared to make space, even when
    the call that told it so has failed and the host has been marked down and to be
    reset. Once delayed, that promise outlives the reset, later promises of the file
    to the host stay delayed, and when the file changes the host is not called: it
    is up, has been reset, and relies on a version that is no more. *)
Theorem stale_without_room : exists w h fid b, reachable false w /\ beliefs w !! (h, fid) = Some b /\ now (server w) < b_expires b
  /\ known (server w) h /\ ~ host_deleted (server w) h /\ ~ down (server w) h /\ reset_done (server w) h
  /\ b_version b <> version (versions w) fid.
Proof.
  set (w1 := fetch 1 file_b (fetch 1 file_c (fetch 1 file_a (start [1])))). set (w2 := call 1 (store 2 file_b w1)).
  exists (store 2 file_b (fetch 1 file_b w2)), 1, file_b, (Belief 1 1014476).
  assert (R1 : reachable false w1).
  { apply (reachable_step false (fetch 1 file_c (fetch 1 file_a (start [1])))); [| apply fetch_step; vm_compute; exact eq_refl].
    apply (reachable_step false (fetch 1 file_a (start [1]))); [| apply fetch_step; vm_compute; exact eq_refl].
    apply (reachable_step false (start [1])); [apply reachable_start | apply fetch_step; vm_compute; exact eq_refl]. }
  assert (R2 : reachable false w2).
  { apply (reachable_step false (store 2 file_b w1)); [| apply call_step; vm_compute; exact eq_refl].
    apply (reachable_step false w1); [done | apply store_step; vm_compute; exact eq_refl]. }
  split.
  { apply (reachable_step false (fetch 1 file_b w2)); [| apply store_step; vm_compute; exact eq_refl].
    apply (reachable_step false w2); [done | apply fetch_step; vm_compute; exact eq_refl]. }
  split; [vm_compute; exact eq_refl |]. split; [vm_compute; exact eq_refl |].
  split; [eexists; vm_compute; exact eq_refl |]. split; [vm_compute; discriminate |]. split; [vm_compute; discriminate |].
  split; [vm_compute; exact eq_refl |]. vm_compute. discriminate.
Qed.

(** *** Witnesses *)

Lemma cache_consistency_witness : reachable true told_later /\ beliefs told_later !! (1, file_d) = Some (Belief 0 1014476)
  /\ has_later (server told_later) 1 /\ b_version (Belief 0 1014476) = version (versions told_later) file_d.
Proof.
  split; [exact told_later_reachable |]. assert (Hb : beliefs told_later !! (1, file_d) = Some (Belief 0 1014476)) by (vm_compute; exact eq_refl).
  split; [exact Hb |]. split; [vm_compute; exact eq_refl |].
  apply (proj1 (cache_consistency told_later 1 file_d (Belief 0 1014476) told_later_reachable Hb ltac:(vm_compute; exact eq_refl))).
  - vm_compute. discriminate.
  - vm_compute. discriminate.
  - right. exists 3%nat. eexists. vm_compute. exact eq_refl.
Defined.

Lemma BreakDelayed_spec_witness : exists (lk : Leaked) P, keeps (server missed) P /\ exists failed s' new P',
  BreakDelayedCallBacks_r 1 (server missed) = Some (failed, s') /\ keeps s' P' /\ tells 1 (server missed) s' new /\ (failed = true <-> down s' 1)
  /\ caught_up 1 (server missed) P s' new P'.
Proof.
  destruct (reachable_coherent missed missed_reachable) as (lk & P & C). exists lk, P. split; [exact (co_keeps _ _ _ _ C) |].
  apply (BreakDelayed_spec (server missed) P 1 (co_keeps _ _ _ _ C)). eexists. vm_compute. exact eq_refl.
Defined.
