(* ===== verification/LHash.v ===== *)
(** The linear hash table of src/util/afs_lhash.c. A chain is the list of its
    buckets, the table the list of its chains. Memory is got from outside: an
    operation that may allocate is told by [bool]s whether it gets what it asks
    for. [None] as the result of an operation is an assertion that fails
    ([CHECK_INVARIANTS], on in user space). *)
From S2P Require Import Prelude.

Definition LOAD_FACTOR : Z := 5.
Definition prime : Z := 1048583.

(** [1024 / sizeof *lh->table] with 8 bytes to a pointer. *)
Definition ntable_inc : Z := 1024 / 8.

Record bucket (A : Type) := Bucket { bkey : Z; bdata : A }.
Arguments Bucket {A} _ _.
Arguments bkey {A} _.
Arguments bdata {A} _.

Record afs_lhash (A : Type) := LHash {
  p : Z; maxp : Z; ndata : Z; ltable : Z; ntable : Z; table : list (list (bucket A));
  search_calls : Z; search_tests : Z; remove_calls : Z; remove_tests : Z
}.
Arguments LHash {A} _ _ _ _ _ _ _ _ _ _.
Arguments p {A} _.
Arguments maxp {A} _.
Arguments ndata {A} _.
Arguments ltable {A} _.
Arguments ntable {A} _.
Arguments table {A} _.
Arguments search_calls {A} _.
Arguments search_tests {A} _.
Arguments remove_calls {A} _.
Arguments remove_tests {A} _.

Section lhash.
Context {A : Type} (equal : A -> A -> bool).
Implicit Types (lh : afs_lhash A) (chain : list (bucket A)).

Definition chain_at lh (k : Z) : list (bucket A) := default [] (table lh !! Z.to_nat k).
Definition set_table (t : list (list (bucket A))) lh : afs_lhash A :=
  LHash (p lh) (maxp lh) (ndata lh) (ltable lh) (ntable lh) t
    (search_calls lh) (search_tests lh) (remove_calls lh) (remove_tests lh).
Definition set_chain (k : Z) (c : list (bucket A)) lh : afs_lhash A := set_table (<[Z.to_nat k := c]> (table lh)) lh.
Definition set_ndata (n : Z) lh : afs_lhash A :=
  LHash (p lh) (maxp lh) n (ltable lh) (ntable lh) (table lh)
    (search_calls lh) (search_tests lh) (remove_calls lh) (remove_tests lh).

(** ** Growing *)

Fixpoint larger (max_index new_ntable : Z) (fuel : nat) : Z :=
  match fuel with
  | O => new_ntable
  | S f => if max_index <? new_ntable then new_ntable else larger max_index (new_ntable + ntable_inc) f
  end.

Definition afs_lhash_accomodate (ok : bool) (max_index : Z) lh : option (afs_lhash A) :=
  if max_index <? ntable lh then Some lh
  else
    let new_ntable := larger max_index (if ntable lh =? 0 then ntable_inc else ntable lh) (Z.to_nat (max_index + 1)) in
    if ok then
      Some (LHash (p lh) (maxp lh) (ndata lh) (ltable lh) new_ntable
              (table lh ++ replicate (Z.to_nat (new_ntable - ntable lh)) [])
              (search_calls lh) (search_tests lh) (remove_calls lh) (remove_tests lh))
    else None.

Definition afs_lhash_address lh (key : Z) : Z :=
  let h := key mod prime in
  let address := h mod maxp lh in
  if address <? p lh then h mod (2 * maxp lh) else address.

(** The chain at [old] taken apart: what stays and what goes to [new], both in
    their order. *)
Fixpoint relocate lh (old new : Z) chain : option (list (bucket A) * list (bucket A)) :=
  match chain with
  | [] => Some ([], [])
  | b :: c =>
      let addr := afs_lhash_address lh (bkey b) in
      match relocate lh old new c with
      | None => None
      | Some (stay, go) =>
          if addr =? new then Some (stay, b :: go)
          else if addr =? old then Some (b :: stay, go)
          else None
      end
  end.

Definition afs_lhash_expand (ok : bool) lh : option (afs_lhash A) :=
  let old_address := p lh in
  let new_address := maxp lh + p lh in
  match afs_lhash_accomodate ok new_address lh with
  | None => Some lh
  | Some lh =>
      let p1 := p lh + 1 in
      let '(p2, maxp2) := if p1 =? maxp lh then (0, maxp lh * 2) else (p1, maxp lh) in
      let lh := LHash p2 maxp2 (ndata lh) (ltable lh + 1) (ntable lh) (table lh)
                  (search_calls lh) (search_tests lh) (remove_calls lh) (remove_tests lh) in
      if (ltable lh - 1 =? new_address) && (ltable lh <=? ntable lh) then
        match relocate lh old_address new_address (chain_at lh old_address) with
        | None => None
        | Some (stay, go) => Some (set_chain old_address stay (set_chain new_address go lh))
        end
      else None
  end.

(** ** The operations *)

(** [ok_lh] for the structure, [ok_table] for the table, [ok_list] for the list
    the buckets come from, whose absence is asserted and not handled. *)
Definition afs_lhash_create (ok_lh ok_table ok_list : bool) : option (option (afs_lhash A)) :=
  if ok_lh then
    match afs_lhash_accomodate ok_table (16 - 1) (LHash 0 16 0 16 0 [] 0 0 0 0) with
    | None => Some None
    | Some lh => if (ltable lh <=? ntable lh) && ok_list then Some (Some lh) else None
    end
  else Some None.

Definition afs_lhash_iter {S : Type} (f : S -> Z -> Z -> A -> S) (s : S) lh : option S :=
  if ltable lh <=? ntable lh then Some (fold_left (fun s i => fold_left (fun s b => f s (Z.of_nat i) (bkey b) (bdata b)) (chain_at lh (Z.of_nat i)) s)
    (seq 0 (Z.to_nat (ltable lh))) s)
  else None.

(** The walk down a chain: the buckets before the one that is equal, that one,
    and those after it; and the comparisons. *)
Fixpoint chain_walk (data : A) (before chain : list (bucket A)) (tests : Z) : option (list (bucket A) * bucket A * list (bucket A)) * Z :=
  match chain with
  | [] => (None, tests)
  | b :: c =>
      if equal data (bdata b) then (Some (before, b, c), tests + 1)
      else chain_walk data (before ++ [b]) c (tests + 1)
  end.

Definition afs_lhash_search (key : Z) (data : A) lh : option A * afs_lhash A :=
  let k := afs_lhash_address lh key in
  let '(r, tests) := chain_walk data [] (chain_at lh k) (search_tests lh) in
  let lh := LHash (p lh) (maxp lh) (ndata lh) (ltable lh) (ntable lh) (table lh)
              (search_calls lh + 1) tests (remove_calls lh) (remove_tests lh) in
  match r with
  | None => (None, lh)
  | Some (before, b, after) =>
      (Some (bdata b), match before with [] => lh | _ => set_chain k (b :: before ++ after) lh end)
  end.

Definition afs_lhash_rosearch (key : Z) (data : A) lh : option A :=
  match (chain_walk data [] (chain_at lh (afs_lhash_address lh key)) 0).1 with
  | None => None
  | Some (_, b, _) => Some (bdata b)
  end.

Definition afs_lhash_remove (key : Z) (data : A) lh : option A * afs_lhash A :=
  let k := afs_lhash_address lh key in
  let '(r, tests) := chain_walk data [] (chain_at lh k) (remove_tests lh) in
  let lh := LHash (p lh) (maxp lh) (ndata lh) (ltable lh) (ntable lh) (table lh)
              (search_calls lh) (search_tests lh) (remove_calls lh + 1) tests in
  match r with
  | None => (None, lh)
  | Some (before, b, after) => (Some (bdata b), set_ndata (ndata lh - 1) (set_chain k (before ++ after) lh))
  end.

(** [got] for the bucket, [ok] for a larger table. *)
Definition afs_lhash_enter (got ok : bool) (key : Z) (data : A) lh : option (Z * afs_lhash A) :=
  if got then
    let k := afs_lhash_address lh key in
    let lh := set_ndata (ndata lh + 1) (set_chain k (Bucket key data :: chain_at lh k) lh) in
    match (if LOAD_FACTOR * ltable lh <? ndata lh then afs_lhash_expand ok lh else Some lh) with
    | None => None
    | Some lh => if ndata lh <=? LOAD_FACTOR * ltable lh then Some (0, lh) else None
    end
  else Some (-1, lh).

(** The shortest and the longest chain, the chains and the records. *)
Definition stat_step (acc : Z * Z * Z) (len : Z) : Z * Z * Z :=
  let '(min, max, records) := acc in
  let min := if min =? -1 then len else min in
  let max := if max =? -1 then len else max in
  (if len <? min then len else min, if max <? len then len else max, records + len).

Definition afs_lhash_stat lh : option (Z * Z * Z * Z) :=
  let '(min, max, records) :=
    fold_left stat_step (map (fun i => Z.of_nat (length (chain_at lh (Z.of_nat i)))) (seq 0 (Z.to_nat (ltable lh)))) (-1, -1, 0) in
  if (ltable lh <=? ntable lh) && (ndata lh =? records) then Some (min, max, ltable lh, records) else None.
End lhash.
