(* ===== verification/LHashSpec.v ===== *)
(** The linear hash table as a bag of records: the invariant of its shape, and
    that entering, searching and removing work on the bag, however the table
    has grown. *)
From S2P Require Import Prelude LHash.

(** ** Tables of chains *)

Lemma concat_delete {X} (T : list (list X)) k c : T !! k = Some c -> concat T ≡ₚ c ++ concat (delete k T).
Proof.
  intros H. rewrite <- (take_drop_middle T k c H) at 1. rewrite delete_take_drop, !concat_app. cbn [concat].
  rewrite !app_assoc. f_equiv. apply Permutation_app_comm.
Qed.

Lemma concat_replace {X} (T : list (list X)) k c c' : T !! k = Some c ->
  concat (<[k := c']> T) ≡ₚ c' ++ concat (delete k T).
Proof.
  intros H. pose proof (lookup_lt_Some _ _ _ H). rewrite (concat_delete _ k c') by by apply list_lookup_insert_eq.
  f_equiv. rewrite !delete_take_drop. by rewrite take_insert_ge, drop_insert_lt by lia.
Qed.

Lemma concat_blank {X} n : concat (replicate n ([] : list X)) = [].
Proof. by induction n. Qed.

Lemma elem_chains {X} (T : list (list X)) (x : X) : x ∈ concat T <-> exists k c, T !! k = Some c /\ x ∈ c.
Proof.
  rewrite (list_elem_of_In (concat T) x), in_concat. split.
  - intros (c & Hc & Hx). apply list_elem_of_In, list_elem_of_lookup_1 in Hc as [k Hk]. exists k, c.
    by rewrite (list_elem_of_In c x).
  - intros (k & c & Hk & Hx). exists c. split; apply list_elem_of_In; [| done]. by eapply list_elem_of_lookup_2.
Qed.

(** ** The invariant *)

Section spec.
Context {A : Type} (equal : A -> A -> bool).
Implicit Types (lh : afs_lhash A) (b : bucket A).

Definition records lh : list (bucket A) := concat (table lh).

Record shape lh : Prop := {
  i_p : 0 <= p lh < maxp lh;
  i_ltable : ltable lh = maxp lh + p lh;
  i_ntable : ltable lh <= ntable lh;
  i_length : Z.of_nat (length (table lh)) = ntable lh;
  i_address : forall k c b, table lh !! k = Some c -> b ∈ c -> afs_lhash_address lh (bkey b) = Z.of_nat k;
  i_count : ndata lh = Z.of_nat (length (records lh))
}.

Lemma half h m : 0 < m -> 0 <= h mod m < m /\ (h mod (2 * m) = h mod m \/ h mod (2 * m) = m + h mod m).
Proof.
  intros Hm. split; [apply Z.mod_pos_bound; lia |]. rewrite (Z.mul_comm 2), Z.rem_mul_r by lia.
  pose proof (Z.mod_pos_bound (h / m) 2 ltac:(lia)).
  assert ((h / m) mod 2 = 0 \/ (h / m) mod 2 = 1) as [-> | ->] by lia; lia.
Qed.

Lemma address_range lh key : 0 <= p lh < maxp lh -> 0 <= afs_lhash_address lh key < maxp lh + p lh.
Proof.
  intros Hp. unfold afs_lhash_address. cbv zeta. destruct (half (key mod prime) (maxp lh)) as [H1 H2]; [lia |].
  destruct (Z.ltb_spec ((key mod prime) mod maxp lh) (p lh)); lia.
Qed.

Lemma chain_there lh key : shape lh ->
  table lh !! Z.to_nat (afs_lhash_address lh key) = Some (chain_at lh (afs_lhash_address lh key)).
Proof.
  intros [H1 H2 H3 H4 _ _]. pose proof (address_range lh key H1). unfold chain_at.
  destruct (lookup_lt_is_Some_2 (table lh) (Z.to_nat (afs_lhash_address lh key))) as [c Hc]; [lia |]. by rewrite Hc.
Qed.

(** An equal record is in the chain of the key it was entered with. *)
Lemma in_its_chain lh b : shape lh -> b ∈ records lh -> b ∈ chain_at lh (afs_lhash_address lh (bkey b)).
Proof.
  intros Hs Hb. apply elem_chains in Hb as (k & c & Hk & Hc). pose proof (i_address _ Hs k c b Hk Hc) as E.
  unfold chain_at. rewrite E, Nat2Z.id, Hk. done.
Qed.

Lemma chain_record lh key b : shape lh -> b ∈ chain_at lh (afs_lhash_address lh key) -> b ∈ records lh.
Proof.
  intros Hs Hb. apply elem_chains. exists (Z.to_nat (afs_lhash_address lh key)), (chain_at lh (afs_lhash_address lh key)).
  split; [by apply chain_there | done].
Qed.

(** A new chain for a key, its buckets being of that key's chain. *)
Lemma replace_chain lh key c n lh' : shape lh ->
  (forall b, b ∈ c -> afs_lhash_address lh (bkey b) = afs_lhash_address lh key) ->
  p lh' = p lh -> maxp lh' = maxp lh -> ltable lh' = ltable lh -> ntable lh' = ntable lh ->
  table lh' = <[Z.to_nat (afs_lhash_address lh key) := c]> (table lh) -> ndata lh' = n ->
  n = ndata lh - Z.of_nat (length (chain_at lh (afs_lhash_address lh key))) + Z.of_nat (length c) ->
  shape lh' /\ records lh' ≡ₚ c ++ concat (delete (Z.to_nat (afs_lhash_address lh key)) (table lh)).
Proof.
  intros Hs Hc E1 E2 E3 E4 E5 E6 En. pose proof (chain_there lh key Hs) as Hk. set (k := afs_lhash_address lh key) in *.
  assert (Er : records lh' ≡ₚ c ++ concat (delete (Z.to_nat k) (table lh))) by (unfold records; rewrite E5; by eapply concat_replace).
  assert (Ea : forall x, afs_lhash_address lh' x = afs_lhash_address lh x) by (intros x; unfold afs_lhash_address; by rewrite E1, E2).
  split; [| done]. destruct Hs as [H1 H2 H3 H4 H5 H6]. split; rewrite ?E1, ?E2, ?E3, ?E4; try done.
  - by rewrite E5, length_insert.
  - intros i c' b Hi Hb. rewrite Ea. rewrite E5 in Hi. destruct (decide (i = Z.to_nat k)) as [-> | Hne].
    + rewrite list_lookup_insert_eq in Hi by by eapply lookup_lt_Some. injection Hi as <-. rewrite Hc by done.
      pose proof (address_range lh key H1). subst k. lia.
    + rewrite list_lookup_insert_ne in Hi by done. by eapply H5.
  - rewrite E6, Er, length_app, En, H6. unfold records. rewrite (concat_delete _ _ _ Hk), length_app. lia.
Qed.

(** ** Growing *)

Lemma larger_spec m : forall fuel n, m < n + Z.of_nat fuel * ntable_inc -> n <= larger m n fuel /\ m < larger m n fuel.
Proof.
  unfold ntable_inc. change (1024 / 8) with 128. induction fuel as [| fuel IH]; intros n Hn; cbn [larger]; [lia |].
  destruct (Z.ltb_spec m n); [lia |]. change ntable_inc with 128. specialize (IH (n + 128)). lia.
Qed.

Lemma accomodate_spec ok m lh : shape lh -> 0 <= m ->
  match afs_lhash_accomodate ok m lh with
  | Some lh' => shape lh' /\ m < ntable lh' /\ records lh' = records lh /\ p lh' = p lh /\ maxp lh' = maxp lh
      /\ ltable lh' = ltable lh /\ ndata lh' = ndata lh
      /\ (forall k, chain_at lh' k = chain_at lh k)
  | None => ok = false /\ ntable lh <= m
  end.
Proof.
  intros Hs Hm. unfold afs_lhash_accomodate. destruct (Z.ltb_spec m (ntable lh)) as [Hlt | Hge]; [done |].
  destruct ok; [| done]. pose proof Hs as [H1 H2 H3 H4 H5 H6].
  assert (Hl : ntable lh <= larger m (if ntable lh =? 0 then ntable_inc else ntable lh) (Z.to_nat (m + 1))
            /\ m < larger m (if ntable lh =? 0 then ntable_inc else ntable lh) (Z.to_nat (m + 1))).
  { destruct (Z.eqb_spec (ntable lh) 0); [lia |]. apply larger_spec. unfold ntable_inc. change (1024 / 8) with 128. lia. }
  set (n := larger _ _ _) in *.
  assert (Er : concat (table lh ++ replicate (Z.to_nat (n - ntable lh)) []) = concat (table lh))
    by (by rewrite concat_app, concat_blank, app_nil_r).
  assert (Hlk : forall k c, (table lh ++ replicate (Z.to_nat (n - ntable lh)) []) !! k = Some c -> table lh !! k = Some c \/ c = []).
  { intros k c Hk. apply lookup_app_Some in Hk as [Hk | [_ Hk]]; [by left | right]. by apply lookup_replicate_1 in Hk as [-> _]. }
  split; [| split; [cbn; lia |]; split; [exact Er |]; do 4 (split; [done |])].
  - split; cbn [p maxp ltable ntable table ndata]; try done; try lia.
    + rewrite length_app, length_replicate. lia.
    + intros k c b Hk Hb. destruct (Hlk k c Hk) as [Hk' | ->]; [by eapply (H5 k c b) | by apply not_elem_of_nil in Hb].
    + unfold records. cbn [table]. by rewrite Er.
  - intros k. unfold chain_at. cbn [table]. destruct (table lh !! Z.to_nat k) as [c |] eqn:E.
    + by rewrite (lookup_app_l_Some _ _ _ _ E).
    + destruct ((table lh ++ _) !! Z.to_nat k) as [c |] eqn:E'; [| done].
      destruct (Hlk _ _ E') as [? | ->]; [congruence | done].
Qed.

(** Moving the bound moves only the keys at the address that is split. *)
Lemma address_split lh lh' key : 0 <= p lh < maxp lh ->
  (p lh', maxp lh') = (if p lh + 1 =? maxp lh then (0, maxp lh * 2) else (p lh + 1, maxp lh)) ->
  afs_lhash_address lh' key = afs_lhash_address lh key /\ afs_lhash_address lh key <> p lh
  \/ afs_lhash_address lh key = p lh
     /\ (afs_lhash_address lh' key = p lh \/ afs_lhash_address lh' key = maxp lh + p lh).
Proof.
  intros Hp E. unfold afs_lhash_address. cbv zeta. set (h := key mod prime). destruct (half h (maxp lh)) as [H1 H2]; [lia |].
  destruct (Z.eqb_spec (p lh + 1) (maxp lh)) as [Em | Em]; injection E as -> ->.
  - rewrite (Z.mul_comm (maxp lh) 2). pose proof (Z.mod_pos_bound h (2 * maxp lh) ltac:(lia)).
    destruct (Z.ltb_spec (h mod (2 * maxp lh)) 0), (Z.ltb_spec (h mod maxp lh) (p lh)); lia.
  - destruct (Z.ltb_spec (h mod maxp lh) (p lh + 1)), (Z.ltb_spec (h mod maxp lh) (p lh)); lia.
Qed.

Lemma relocate_ok lh old new chain : old <> new ->
  (forall b, b ∈ chain -> afs_lhash_address lh (bkey b) = old \/ afs_lhash_address lh (bkey b) = new) ->
  exists stay go, relocate lh old new chain = Some (stay, go) /\ chain ≡ₚ stay ++ go
    /\ (forall b, b ∈ stay -> afs_lhash_address lh (bkey b) = old)
    /\ (forall b, b ∈ go -> afs_lhash_address lh (bkey b) = new).
Proof.
  intros Hne. induction chain as [| b c IH]; intros Hc; cbn [relocate].
  - exists [], []. repeat split; [done | |]; intros b Hb; by apply not_elem_of_nil in Hb.
  - destruct IH as (stay & go & -> & Hp & Hs & Hg); [intros x Hx; apply Hc; by right |].
    pose proof (Hc b ltac:(left)) as Hb. destruct (Z.eqb_spec (afs_lhash_address lh (bkey b)) new) as [E | E].
    + exists stay, (b :: go). split; [done |]. split; [by rewrite Hp, Permutation_middle |]. split; [done |].
      intros x Hx. apply elem_of_cons in Hx as [-> | Hx]; auto.
    + destruct Hb as [Hb | Hb]; [| done]. rewrite (proj2 (Z.eqb_eq _ _) Hb). exists (b :: stay), go.
      split; [done |]. split; [by rewrite Hp |]. split; [| done].
      intros x Hx. apply elem_of_cons in Hx as [-> | Hx]; auto.
Qed.

(** Two chains for one, when the second is empty. *)
Lemma split_chain {X} (T : list (list X)) old new c stay go : old <> new ->
  T !! old = Some c -> T !! new = Some [] -> c ≡ₚ stay ++ go ->
  concat (<[old := stay]> (<[new := go]> T)) ≡ₚ concat T.
Proof.
  intros Hne Ho Hn Hc. assert (Ho' : <[new := go]> T !! old = Some c) by by rewrite list_lookup_insert_ne.
  rewrite (concat_replace _ _ c) by done. pose proof (concat_delete _ _ _ Ho') as E.
  rewrite (concat_replace _ _ [] _ Hn) in E. pose proof (concat_delete _ _ _ Hn) as E'. cbn in E'. rewrite <- E', Hc in E.
  apply (Permutation_app_inv_l go). rewrite E. rewrite !app_assoc. f_equiv. apply Permutation_app_comm.
Qed.
Lemma expand_spec ok lh : shape lh -> exists lh', afs_lhash_expand ok lh = Some lh'
  /\ shape lh' /\ records lh' ≡ₚ records lh /\ ndata lh' = ndata lh
  /\ ltable lh' = ltable lh + (if ok || (ltable lh <? ntable lh) then 1 else 0).
Proof.
  intros Hs. unfold afs_lhash_expand. pose proof Hs as [H1 H2 _ _ _ _].
  pose proof (accomodate_spec ok (maxp lh + p lh) lh Hs ltac:(lia)) as Hacc.
  destruct (afs_lhash_accomodate ok _ lh) as [m |] eqn:Em.
  2: { destruct Hacc as [-> Hn]. exists lh. rewrite (proj2 (Z.ltb_ge _ _)) by lia. cbn. split; [done |].
    split; [done |]. split; [done |]. lia. }
  destruct Hacc as (Hm & Hmn & Er & Ep & Ex & El & En & Ek).
  assert (Hok : ok || (ltable lh <? ntable lh) = true).
  { destruct ok; [done |]. unfold afs_lhash_accomodate in Em. destruct (Z.ltb_spec (maxp lh + p lh) (ntable lh)); [| done].
    cbn. apply Z.ltb_lt. lia. }
  rewrite Hok, Ep, Ex.
  assert (Eb : exists p2 x2, (if p lh + 1 =? maxp lh then (0, maxp lh * 2) else (p lh + 1, maxp lh)) = (p2, x2)
             /\ 0 <= p2 < x2 /\ x2 + p2 = ltable lh + 1).
  { destruct (Z.eqb_spec (p lh + 1) (maxp lh)); eexists _, _; (split; [done | lia]). }
  destruct Eb as (p2 & x2 & Eb & Hb & Ht). rewrite Eb. cbn zeta. rewrite El. set (m1 := LHash p2 x2 _ _ _ _ _ _ _ _).
  destruct Hm as [M1 M2 M3 M4 M5 M6].
  change (ltable m1) with (ltable lh + 1). change (ntable m1) with (ntable m).
  rewrite (proj2 (Z.eqb_eq (ltable lh + 1 - 1) _)) by lia. rewrite (proj2 (Z.leb_le (ltable lh + 1) _)) by lia. cbn [andb].
  assert (Ha : forall key, afs_lhash_address m1 key = afs_lhash_address m key /\ afs_lhash_address m key <> p lh
     \/ afs_lhash_address m key = p lh /\ (afs_lhash_address m1 key = p lh \/ afs_lhash_address m1 key = maxp lh + p lh)).
  { intros key. rewrite <- Ep, <- Ex. apply address_split; [done |]. subst m1. cbn [p maxp]. by rewrite Ep, Ex, <- Eb. }
  destruct (lookup_lt_is_Some_2 (table m) (Z.to_nat (p lh))) as [c Hc]; [lia |].
  destruct (lookup_lt_is_Some_2 (table m) (Z.to_nat (maxp lh + p lh))) as [c0 Hc0]; [lia |].
  assert (E0 : c0 = []).
  { destruct c0 as [| b c0]; [done |]. pose proof (M5 _ _ b Hc0 ltac:(left)). pose proof (address_range m (bkey b) M1). lia. }
  subst c0. assert (Hat : chain_at m1 (p lh) = c) by (unfold chain_at; subst m1; cbn [table]; by rewrite Hc). rewrite Hat.
  destruct (relocate_ok m1 (p lh) (maxp lh + p lh) c ltac:(lia)) as (stay & go & -> & Hp & Hst & Hgo).
  { intros b Hbc. pose proof (M5 _ _ b Hc Hbc). destruct (Ha (bkey b)) as [[_ Hn] | [_ ?]]; [lia | done]. }
  eexists. split; [done |].
  assert (Hr : records (set_chain (p lh) stay (set_chain (maxp lh + p lh) go m1)) ≡ₚ records lh).
  { rewrite <- Er. unfold records. subst m1. cbn [set_chain set_table table]. apply (split_chain _ _ _ c); [lia | done..]. }
  split; [| split; [done | split; [exact En | cbn; lia]]].
  split; cbn [set_chain set_table p maxp ltable ntable ndata table]; [done | cbn; lia | cbn; lia | | |].
  - rewrite !length_insert. exact M4.
  - intros k c' b Hk Hbc. change (afs_lhash_address m1 (bkey b) = Z.of_nat k). change (table m1) with (table m) in Hk.
    apply list_lookup_insert_Some in Hk as [(<- & <- & _) | [Hne Hk]]; [rewrite Hst by done; lia |].
    apply list_lookup_insert_Some in Hk as [(<- & <- & _) | [Hne' Hk]]; [rewrite Hgo by done; lia |].
    pose proof (M5 _ _ b Hk Hbc). destruct (Ha (bkey b)) as [[-> _] | [? _]]; [done | lia].
  - rewrite Hr, <- Er, <- M6. done.
Qed.
(** ** The operations *)

Lemma chain_walk_spec data chain : forall before tests, exists n,
  match chain_walk equal data before chain tests with
  | (Some (l, b, r), t) => exists m, l = before ++ m /\ chain = m ++ b :: r /\ equal data (bdata b) = true
      /\ (forall x, x ∈ m -> equal data (bdata x) = false) /\ t = tests + n
      /\ (forall t0, (chain_walk equal data before chain t0).1 = Some (l, b, r))
  | (None, t) => (forall x, x ∈ chain -> equal data (bdata x) = false) /\ t = tests + n
      /\ (forall t0, (chain_walk equal data before chain t0).1 = None)
  end.
Proof.
  induction chain as [| b c IH]; intros before tests; cbn [chain_walk].
  - exists 0. split; [intros x Hx; by apply not_elem_of_nil in Hx |]. split; [lia | done].
  - destruct (equal data (bdata b)) eqn:E.
    + exists 1. exists []. rewrite app_nil_r. do 3 (split; [done |]). split; [intros x Hx; by apply not_elem_of_nil in Hx | done].
    + destruct (IH (before ++ [b]) (tests + 1)) as [n IHn]. exists (1 + n).
      assert (Hcons : forall m x, x ∈ b :: m -> (forall y, y ∈ m -> equal data (bdata y) = false) -> equal data (bdata x) = false).
      { intros m x Hx Hm. apply elem_of_cons in Hx as [-> | Hx]; auto. }
      destruct (chain_walk equal data _ c (tests + 1)) as [[[[l b'] r] |] t].
      * destruct IHn as (m & -> & -> & H1 & H2 & -> & H3). exists (b :: m). rewrite <- app_assoc. do 3 (split; [done |]).
        split; [intros x Hx; by apply (Hcons m) |]. split; [lia |]. intros t0. rewrite H3. by rewrite <- app_assoc.
      * destruct IHn as (H1 & -> & H2). split; [intros x Hx; by apply (Hcons c) |]. split; [lia | done].
Qed.

(** The records that are equal to the sought one were entered with the key it
    is sought with. *)
Definition keyed (key : Z) (data : A) lh : Prop := forall b, b ∈ records lh -> equal data (bdata b) = true -> bkey b = key.

Definition load_ok lh : Prop := ndata lh <= LOAD_FACTOR * ltable lh.

(** What an operation that looks for a record finds in the bag. *)
Definition finds (data : A) (bag : list (bucket A)) (r : option A) : Prop :=
  match r with
  | Some d => exists b, b ∈ bag /\ bdata b = d /\ equal data d = true
  | None => forall b, b ∈ bag -> equal data (bdata b) = false
  end.

(** A search that finds nothing in its chain finds nothing in the bag. *)
Lemma missed lh key data : shape lh -> keyed key data lh ->
  (forall x, x ∈ chain_at lh (afs_lhash_address lh key) -> equal data (bdata x) = false) -> finds data (records lh) None.
Proof.
  intros Hs Hk Hc b Hb. destruct (equal data (bdata b)) eqn:E; [| done].
  pose proof (in_its_chain lh b Hs Hb) as Hin. rewrite (Hk b Hb E) in Hin. rewrite Hc in E; done.
Qed.

Lemma its_chain lh key b : shape lh -> b ∈ chain_at lh (afs_lhash_address lh key) ->
  afs_lhash_address lh (bkey b) = afs_lhash_address lh key.
Proof.
  intros Hs Hb. rewrite (i_address _ Hs _ _ b (chain_there lh key Hs) Hb), Z2Nat.id; [done |].
  pose proof (address_range lh key (i_p _ Hs)). lia.
Qed.

(** The shape of a table depends on no counter. *)
Lemma recount lh s1 s2 r1 r2 : shape lh -> shape (LHash (p lh) (maxp lh) (ndata lh) (ltable lh) (ntable lh) (table lh) s1 s2 r1 r2).
Proof. intros [H1 H2 H3 H4 H5 H6]. by split. Qed.

(** [afs_lhash_search], which moves what it finds to the head of its chain,
    and [afs_lhash_rosearch], which does not, return the same: a record of the
    table equal to the one sought, or nothing when the table, in all its
    chains, has none. The search keeps the records and the shape. *)
Theorem search_spec key data lh : shape lh -> keyed key data lh ->
  let '(r, lh') := afs_lhash_search equal key data lh in
  shape lh' /\ records lh' ≡ₚ records lh /\ ndata lh' = ndata lh /\ ltable lh' = ltable lh
  /\ finds data (records lh) r /\ afs_lhash_rosearch equal key data lh = r.
Proof.
  intros Hs Hk. unfold afs_lhash_search, afs_lhash_rosearch. set (k := afs_lhash_address lh key).
  destruct (chain_walk_spec data (chain_at lh k) [] (search_tests lh)) as [n Hw].
  destruct (chain_walk equal data [] (chain_at lh k) (search_tests lh)) as [[[[l b] r] |] t].
  2: { destruct Hw as (Hno & -> & Hro). rewrite Hro. split; [by apply recount |]. do 3 (split; [done |]).
    split; [by apply (missed lh key) | done]. }
  destruct Hw as (m & -> & Hch & He & _ & -> & Hro). cbn [app] in *. rewrite Hro.
  assert (Hf : finds data (records lh) (Some (bdata b))).
  { exists b. split; [| done]. apply (chain_record lh key); [done |]. fold k. rewrite Hch. set_solver. }
  destruct m as [| a m]; [split; [by apply recount | done] |]. cbn [fst].
  set (lh1 := LHash (p lh) _ _ _ _ _ _ _ _ _).
  pose proof (recount lh (search_calls lh + 1) (search_tests lh + n) (remove_calls lh) (remove_tests lh) Hs : shape lh1) as Hs1.
  assert (Hp : b :: (a :: m) ++ r ≡ₚ chain_at lh k) by by rewrite Hch, Permutation_middle.
  destruct (replace_chain lh1 key (b :: (a :: m) ++ r) (ndata lh) (set_chain k (b :: (a :: m) ++ r) lh1) Hs1) as [H1 H2]; try done.
  { intros x Hx. apply its_chain; [done |]. change (x ∈ chain_at lh k). by rewrite <- Hp. }
  { rewrite Hp. change (chain_at lh1 _) with (chain_at lh k). cbn. lia. }
  split; [done |]. split; [| done]. rewrite H2, Hp. symmetry.
  apply (concat_delete (table lh)), (chain_there lh key Hs).
Qed.
(** [afs_lhash_remove] takes exactly the one record it returns out of the
    bag, a record equal to the one sought, and changes nothing when it says that
    there is none. The table keeps its shape and its count, and does not
    shrink. *)
Theorem remove_spec key data lh : shape lh -> keyed key data lh ->
  let '(r, lh') := afs_lhash_remove equal key data lh in
  shape lh' /\ ltable lh' = ltable lh
  /\ match r with
     | Some d => exists b, records lh ≡ₚ b :: records lh' /\ bdata b = d /\ equal data d = true
     | None => table lh' = table lh /\ finds data (records lh) None
     end.
Proof.
  intros Hs Hk. unfold afs_lhash_remove. set (k := afs_lhash_address lh key).
  destruct (chain_walk_spec data (chain_at lh k) [] (remove_tests lh)) as [n Hw].
  destruct (chain_walk equal data [] (chain_at lh k) (remove_tests lh)) as [[[[l b] r] |] t].
  2: { destruct Hw as (Hno & -> & _). split; [by apply recount |]. do 2 (split; [done |]). by apply (missed lh key). }
  destruct Hw as (m & -> & Hch & He & _ & -> & _). cbn [app]. set (lh1 := LHash (p lh) _ _ _ _ _ _ _ _ _).
  pose proof (recount lh (search_calls lh) (search_tests lh) (remove_calls lh + 1) (remove_tests lh + n) Hs : shape lh1) as Hs1.
  destruct (replace_chain lh1 key (m ++ r) (ndata lh - 1) (set_ndata (ndata lh1 - 1) (set_chain k (m ++ r) lh1)) Hs1)
    as [H1 H2]; try done.
  { intros x Hx. apply its_chain; [done |]. change (x ∈ chain_at lh k). rewrite Hch. set_solver. }
  { change (chain_at lh1 _) with (chain_at lh k). rewrite Hch, !length_app. cbn. lia. }
  split; [done |]. split; [done |]. exists b. split; [| done]. rewrite H2. unfold records at 1.
  rewrite (concat_delete (table lh) _ _ (chain_there lh key Hs)). fold k. by rewrite Hch, <- Permutation_middle.
Qed.

(** [afs_lhash_enter] adds its record to the bag, at most one address being
    split on the way, and keeps the shape and the load factor; it fails, with
    nothing changed, when there is no memory for the bucket. It aborts (an
    assertion fails) exactly when the record takes the load over the limit at
    the moment the table fills its memory and there is no more for a larger
    one. *)
Theorem enter_spec (got ok : bool) key (data : A) lh : shape lh -> load_ok lh ->
  match afs_lhash_enter got ok key data lh with
  | Some (code, lh') =>
      shape lh' /\ load_ok lh'
      /\ (code = -1 /\ got = false /\ lh' = lh
         \/ code = 0 /\ got = true /\ records lh' ≡ₚ Bucket key data :: records lh
            /\ ltable lh <= ltable lh' <= ltable lh + 1)
  | None => got = true /\ ok = false /\ ndata lh = LOAD_FACTOR * ltable lh /\ ltable lh = ntable lh
  end.
Proof.
  intros Hs Hl. unfold afs_lhash_enter. destruct got; [| split; [done | split; [done |]]; by left].
  set (k := afs_lhash_address lh key). set (m := set_ndata _ _).
  destruct (replace_chain lh key (Bucket key data :: chain_at lh k) (ndata lh + 1) m Hs) as [Hm Hr]; try done.
  { intros x Hx. apply elem_of_cons in Hx as [-> | Hx]; [done | by apply its_chain]. }
  { subst k. cbn [length]. lia. }
  assert (Hb : records m ≡ₚ Bucket key data :: records lh).
  { rewrite Hr. cbn [app]. f_equiv. symmetry. apply (concat_delete (table lh)), (chain_there lh key Hs). }
  change (ndata m) with (ndata lh + 1). change (ltable m) with (ltable lh). unfold load_ok, LOAD_FACTOR in *.
  destruct (Z.ltb_spec (5 * ltable lh) (ndata lh + 1)) as [Hlt | Hge].
  - destruct (expand_spec ok m Hm) as (m' & -> & Hm' & Hr' & En & El). change (ndata m) with (ndata lh + 1) in En.
    change (ltable m) with (ltable lh) in El. change (ntable m) with (ntable lh) in El.
    rewrite En, El. pose proof (i_ntable _ Hs). destruct (ok || (ltable lh <? ntable lh)) eqn:Eg.
    + rewrite (proj2 (Z.leb_le _ _)) by lia. split; [done |]. split; [lia |]. right. do 2 (split; [done |]).
      split; [by rewrite Hr' | lia].
    + rewrite (proj2 (Z.leb_gt _ _)) by lia. apply orb_false_iff in Eg as [-> Eg]. apply Z.ltb_ge in Eg.
      do 2 (split; [done |]). lia.
  - change (ndata m) with (ndata lh + 1). change (ltable m) with (ltable lh). rewrite (proj2 (Z.leb_le _ _)) by lia.
    split; [done |]. split; [exact Hge |]. right. do 2 (split; [done |]). split; [done |]. cbn. lia.
Qed.

(** ** The beginning, and the statistics *)

Lemma create_spec ok_lh ok_table ok_list :
  match afs_lhash_create (A := A) ok_lh ok_table ok_list with
  | Some (Some lh) => shape lh /\ load_ok lh /\ records lh = []
  | Some None => ok_lh && ok_table = false
  | None => ok_list = false
  end.
Proof.
  unfold afs_lhash_create. destruct ok_lh; [| done].
  destruct ok_table; [| done]. cbn [afs_lhash_accomodate]. destruct ok_list; [| done].
  vm_compute (afs_lhash_accomodate _ _ _). cbn [ltable ntable]. change (16 <=? 128) with true. cbn [andb].
  assert (E : forall k (c : list (bucket A)), replicate 128 [] !! k = Some c -> c = []).
  { intros k c Hk. by apply lookup_replicate_1 in Hk as [-> _]. }
  split; [| split; done]. split; try (cbn; lia).
  intros k c b Hk Hb. rewrite (E k c Hk) in Hb. by apply not_elem_of_nil in Hb.
Qed.

(** The walk over the chains counts every record of the table once. *)
Lemma stat_counts (l : list (list (bucket A))) : forall acc,
  (fold_left stat_step (map (fun c => Z.of_nat (length c)) l) acc).2 = acc.2 + Z.of_nat (length (concat l)).
Proof.
  induction l as [| c l IH]; intros [[mn mx] n]; [cbn; lia |].
  cbn [map fold_left concat]. rewrite IH, length_app. unfold stat_step. cbn [snd]. lia.
Qed.

Lemma chains_are lh n : map (chain_at lh ∘ Z.of_nat) (seq 0 n) = take n (table lh ++ replicate n []).
Proof.
  apply list_eq. intros i. change (map ?f ?l) with (f <$> l). rewrite list_lookup_fmap.
  destruct (decide (i < n)%nat) as [Hi | Hi].
  - rewrite lookup_seq_lt, lookup_take_lt by done. cbn. unfold chain_at. rewrite Nat2Z.id.
    destruct (table lh !! i) as [c |] eqn:E; [by rewrite (lookup_app_l_Some _ _ _ _ E) |].
    apply lookup_ge_None in E. rewrite lookup_app_r, lookup_replicate_2 by lia. done.
  - rewrite lookup_take_ge by lia. by rewrite (proj2 (lookup_ge_None _ _)) by (rewrite length_seq; lia).
Qed.

Lemma stat_records lh : shape lh -> exists mn mx, afs_lhash_stat lh = Some (mn, mx, ltable lh, ndata lh).
Proof.
  intros Hs. unfold afs_lhash_stat. pose proof Hs as [H1 H2 H3 H4 H5 H6].
  pose proof (stat_counts (map (chain_at lh ∘ Z.of_nat) (seq 0 (Z.to_nat (ltable lh)))) (-1, -1, 0)) as E.
  rewrite map_map in E. unfold compose in E at 1. destruct (fold_left _ _ _) as [[mn mx] n]. cbn [snd] in E.
  assert (Ec : concat (map (chain_at lh ∘ Z.of_nat) (seq 0 (Z.to_nat (ltable lh)))) = concat (table lh)).
  { rewrite chains_are, take_app_le by lia. rewrite <- (take_drop (Z.to_nat (ltable lh)) (table lh)) at 2. rewrite concat_app.
    enough (En : concat (drop (Z.to_nat (ltable lh)) (table lh)) = []) by (by rewrite En, app_nil_r).
    destruct (concat (drop _ _)) as [| b l] eqn:Eb; [done |]. assert (Hb : b ∈ b :: l) by left. rewrite <- Eb in Hb.
    apply elem_chains in Hb as (k & c & Hk & Hb). rewrite lookup_drop in Hk.
    pose proof (H5 _ _ _ Hk Hb). pose proof (address_range lh (bkey b) H1). lia. }
  rewrite Ec in E. unfold records in H6. exists mn, mx. rewrite (proj2 (Z.leb_le _ _)) by done.
  assert (En : n = ndata lh) by lia. rewrite En, Z.eqb_refl. done.
Qed.
End spec.

(** ** At a table that grows *)

Definition shapeb {A} (lh : afs_lhash A) : bool :=
  (0 <=? p lh) && (p lh <? maxp lh) && (ltable lh =? maxp lh + p lh) && (ltable lh <=? ntable lh)
  && (Z.of_nat (length (table lh)) =? ntable lh) && (ndata lh =? Z.of_nat (length (records lh)))
  && forallb (fun k => forallb (fun b => afs_lhash_address lh (bkey b) =? Z.of_nat k) (default [] (table lh !! k)))
       (seq 0 (length (table lh))).

Lemma shapeb_ok {A} (lh : afs_lhash A) : shapeb lh = true -> shape lh.
Proof.
  unfold shapeb. rewrite !andb_true_iff, !Z.eqb_eq, !Z.leb_le, !Z.ltb_lt, forallb_forall.
  intros ((((((H1 & H2) & H3) & H4) & H5) & H6) & H7). split; try lia.
  intros k c b Hk Hb. specialize (H7 k). rewrite forallb_forall, Hk in H7. apply Z.eqb_eq, H7.
  - apply in_seq. apply lookup_lt_Some in Hk. lia.
  - by apply list_elem_of_In.
Qed.

(** A table the code builds, from [afs_lhash_create] on: sixteen chains for
    eighty records, so that the next splits the first chain. *)
Definition entered {A} (lh : option (afs_lhash A)) (kd : Z * A) : option (afs_lhash A) :=
  match lh with
  | Some lh => match afs_lhash_enter true true kd.1 kd.2 lh with Some (_, lh) => Some lh | None => None end
  | None => None
  end.

Definition full_table : afs_lhash Z :=
  default (LHash 0 0 0 0 0 [] 0 0 0 0)
    (fold_left entered (map (fun i => (Z.of_nat i * 7, Z.of_nat i)) (seq 0 80)) (default None (afs_lhash_create true true true))).

Example full_load : (ndata full_table, ltable full_table, ntable full_table) = (80, 16, 128).
Proof. vm_compute. reflexivity. Qed.

Lemma enter_spec_witness :
  match afs_lhash_enter true true 1000 1000 full_table with
  | Some (0, lh') => shape lh' /\ records lh' ≡ₚ Bucket 1000 1000 :: records full_table /\ ltable lh' = 17
      /\ chain_at lh' 0 = [Bucket 448 64; Bucket 224 32; Bucket 0 0]
      /\ chain_at lh' 16 = [Bucket 336 48; Bucket 112 16]
  | _ => False
  end.
Proof.
  pose proof (enter_spec true true 1000 1000 full_table (shapeb_ok full_table eq_refl) ltac:(vm_compute; discriminate)) as H.
  assert (E : option_map (fun '(c, lh') => (c, ltable lh', chain_at lh' 0, chain_at lh' 16)) (afs_lhash_enter true true 1000 1000 full_table)
     = Some (0, 17, [Bucket 448 64; Bucket 224 32; Bucket 0 0], [Bucket 336 48; Bucket 112 16])) by (vm_compute; reflexivity).
  destruct (afs_lhash_enter true true 1000 1000 full_table) as [[c lh'] |]; [| discriminate E].
  cbn [option_map] in E. injection E as -> E1 E2 E3. destruct H as (Hs & _ & [(H & _) | (_ & _ & Hr & _)]); [discriminate H |].
  exact (conj Hs (conj Hr (conj E1 (conj E2 E3)))).
Defined.

(** The data is the key here, up to the factor. *)
Lemma full_keyed n : 0 <= n < 80 -> keyed Z.eqb (n * 7) n full_table.
Proof.
  intros Hn b Hb E. apply Z.eqb_eq in E.
  assert (H : forallb (fun b => bkey b =? bdata b * 7) (records full_table) = true) by (vm_compute; reflexivity).
  rewrite forallb_forall in H. apply list_elem_of_In, H, Z.eqb_eq in Hb. lia.
Qed.

Lemma search_spec_witness :
  keyed Z.eqb 112 16 full_table
  /\ (let '(r, lh') := afs_lhash_search Z.eqb 112 16 full_table in
      r = Some 16 /\ chain_at full_table 0 = [Bucket 448 64; Bucket 336 48; Bucket 224 32; Bucket 112 16; Bucket 0 0]
      /\ chain_at lh' 0 = [Bucket 112 16; Bucket 448 64; Bucket 336 48; Bucket 224 32; Bucket 0 0]
      /\ shape lh' /\ records lh' ≡ₚ records full_table).
Proof.
  pose proof (full_keyed 16 ltac:(lia)) as Hk. split; [exact Hk |].
  pose proof (search_spec Z.eqb 112 16 full_table (shapeb_ok full_table eq_refl) Hk) as H.
  destruct (afs_lhash_search Z.eqb 112 16 full_table) as [r lh'] eqn:E. destruct H as (H1 & H2 & _).
  assert (E' : (fst (r, lh'), chain_at (snd (r, lh')) 0) = (Some 16, [Bucket 112 16; Bucket 448 64; Bucket 336 48; Bucket 224 32; Bucket 0 0])).
  { rewrite <- E. vm_compute. reflexivity. }
  injection E' as -> ->. split; [reflexivity |]. split; [vm_compute; reflexivity |]. split; [reflexivity |]. exact (conj H1 H2).
Defined.

Lemma remove_spec_witness :
  let '(r, lh') := afs_lhash_remove Z.eqb 112 16 full_table in
  r = Some 16 /\ ndata lh' = 79 /\ shape lh' /\ exists b, records full_table ≡ₚ b :: records lh' /\ bdata b = 16.
Proof.
  pose proof (remove_spec Z.eqb 112 16 full_table (shapeb_ok full_table eq_refl) (full_keyed 16 ltac:(lia))) as H.
  destruct (afs_lhash_remove Z.eqb 112 16 full_table) as [r lh'] eqn:E. destruct H as (H1 & _ & H2).
  assert (E' : (fst (r, lh'), ndata (snd (r, lh'))) = (Some 16, 79)) by (rewrite <- E; vm_compute; reflexivity).
  injection E' as -> ->. destruct H2 as (b & Hb & Hd & _).
  exact (conj eq_refl (conj eq_refl (conj H1 (ex_intro _ b (conj Hb Hd))))).
Defined.
