(* ===== verification/BnodeParse.v ===== *)
(** The command lines of the processes that the bosserver runs: bnode_ParseLine
    of src/bozo/bnode.c cuts a line into words in a buffer of 256 bytes. *)
From Stdlib Require Import Ascii.
From stdpp Require Import strings.
From S2P Require Import Prelude.

#[local] Open Scope string_scope.
#[local] Open Scope list_scope.
#[local] Arguments String.append !_ _ / : simpl nomatch.

Definition tbuffer_size : nat := 256.

Definition space (x : Ascii.ascii) : bool :=
  bool_decide (x = "000"%char) || bool_decide (x = " "%char) || bool_decide (x = "009"%char) || bool_decide (x = "010"%char).

(** What comes of a line: its tokens, or -1 as one is too long for the buffer, or
    a byte is written past its end. *)
Inductive parsed := Tokens (l : list string) | TooLong | Overrun.

(** [tok] is what is in the buffer, the last character first, when a token is being
    copied; [toks] the tokens so far, the last first. The null at the end of a token
    goes into the buffer too, without a look at whether there is room. *)
Fixpoint parse_from (tok : option (list Ascii.ascii)) (toks : list string) (aline : string) : parsed :=
  let flush k := match tok with
    | Some cs => if (length cs <? tbuffer_size)%nat then k (String.string_of_list_ascii (rev cs) :: toks) else Overrun
    | None => k toks
    end in
  match aline with
  | EmptyString => flush (fun ts => Tokens (rev ts))
  | String tc aline' =>
      if space tc then flush (fun ts => parse_from None ts aline')
      else let cs := match tok with Some cs => cs | None => [] end in
        if (tbuffer_size <=? length cs)%nat then TooLong else parse_from (Some (tc :: cs)) toks aline'
  end.
Definition bnode_ParseLine (aline : string) : parsed := parse_from None [] aline.

(** ** What a line of words is cut into *)

Definition word (w : string) : Prop := w <> EmptyString /\ Forall (fun c => space c = false) (String.list_ascii_of_string w).
Definition blank (b : string) : Prop := Forall (fun c => space c = true) (String.list_ascii_of_string b).

#[export] Instance word_dec w : Decision (word w).
Proof. unfold word. apply _. Defined.
#[export] Instance blank_dec b : Decision (blank b).
Proof. unfold blank. apply _. Defined.

(** A line: blanks, then words with blanks after each, at least one between two. *)
Fixpoint line_of (l : list (string * string)) : string :=
  match l with [] => EmptyString | (w, b) :: l' => String.append w (String.append b (line_of l')) end.
Inductive spaced : list (string * string) -> Prop :=
  | spaced_nil : spaced []
  | spaced_last w b : word w -> blank b -> spaced [(w, b)]
  | spaced_cons w b l : word w -> blank b -> b <> EmptyString -> spaced l -> spaced ((w, b) :: l).

Lemma parse_blank b toks rest : blank b -> parse_from None toks (String.append b rest) = parse_from None toks rest.
Proof.
  unfold blank. induction b as [| c b IH]; [done |]. cbn [String.list_ascii_of_string]. intros [Hc Hb]%Forall_cons.
  cbn [String.append parse_from].  rewrite Hc. by apply IH.
Qed.

(** The characters of a word go into the buffer one by one. *)
Lemma parse_word w : forall cs toks rest, Forall (fun c => space c = false) (String.list_ascii_of_string w) ->
  w <> EmptyString ->
  parse_from (Some cs) toks (String.append w rest)
  = if (tbuffer_size <? length cs + String.length w)%nat then TooLong
    else parse_from (Some (rev (String.list_ascii_of_string w) ++ cs)) toks rest.
Proof.
  induction w as [| c w IH]; intros cs toks rest Hw Hne; [done |]. cbn [String.list_ascii_of_string] in Hw.
  apply Forall_cons in Hw as [Hc Hw]. cbn [String.append parse_from]. rewrite Hc.
  destruct (Nat.leb_spec tbuffer_size (length cs)) as [Hl | Hl].
  { cbn [String.length]. by rewrite (proj2 (Nat.ltb_lt _ _)) by lia. }
  destruct w as [| c' w'].
  - cbn [String.append String.length String.list_ascii_of_string rev app]. rewrite (proj2 (Nat.ltb_ge _ _)) by lia. done.
  - rewrite IH by done. cbn [length String.length]. replace (S (length cs) + S (String.length w'))%nat with (length cs + S (S (String.length w')))%nat by lia.
    case_test; [done |]. f_equal. f_equal. cbn [String.list_ascii_of_string rev]. by rewrite <- !app_assoc.
Qed.

Lemma parse_word_start w toks rest : word w ->
  parse_from None toks (String.append w rest)
  = if (tbuffer_size <? String.length w)%nat then TooLong
    else parse_from (Some (rev (String.list_ascii_of_string w))) toks rest.
Proof.
  intros [Hne Hw]. destruct w as [| c w]; [done |]. generalize (parse_word (String c w) [] toks rest Hw Hne).
  cbn [String.list_ascii_of_string String.append parse_from length Nat.leb tbuffer_size app]. rewrite app_nil_r.
  apply Forall_cons in Hw as [Hc _]. by rewrite Hc.
Qed.

(** After a word, a blank or the end of the line flushes it. *)
Lemma parse_flush cs toks b rest : blank b -> b <> EmptyString \/ rest = EmptyString ->
  parse_from (Some cs) toks (String.append b rest)
  = if (length cs <? tbuffer_size)%nat then parse_from None (String.string_of_list_ascii (rev cs) :: toks) rest else Overrun.
Proof.
  intros Hb H. destruct b as [| c b].
  - destruct H as [| ->]; [done |]. done.
  - unfold blank in Hb. cbn [String.list_ascii_of_string] in Hb. apply Forall_cons in Hb as [Hc Hb].
    cbn [String.append parse_from]. rewrite Hc. destruct (_ <? _)%nat; [| done]. by apply parse_blank.
Qed.

Lemma length_list_ascii w : length (String.list_ascii_of_string w) = String.length w.
Proof. induction w as [| c w IH]; [done |]. cbn. by rewrite IH. Qed.

Lemma parse_word_blank w b toks rest : word w -> blank b -> b <> EmptyString \/ rest = EmptyString ->
  parse_from None toks (String.append w (String.append b rest))
  = if (String.length w <? tbuffer_size)%nat then parse_from None (w :: toks) rest
    else if (String.length w =? tbuffer_size)%nat then Overrun else TooLong.
Proof.
  intros Hw Hb H. rewrite parse_word_start, parse_flush by done. rewrite length_rev, rev_involutive, length_list_ascii, String.string_of_list_ascii_of_string.
  unfold tbuffer_size.
  destruct (Nat.ltb_spec 256 (String.length w)), (Nat.ltb_spec (String.length w) 256), (Nat.eqb_spec (String.length w) 256); done || lia.
Qed.

(** The line is cut into the words that it was made of, up to one that does not fit. *)
Fixpoint fits (ws : list string) (toks : list string) : parsed :=
  match ws with
  | [] => Tokens (rev toks)
  | w :: ws' => if (String.length w <? tbuffer_size)%nat then fits ws' (w :: toks)
      else if (String.length w =? tbuffer_size)%nat then Overrun else TooLong
  end.

Lemma parse_spaced l toks : spaced l -> parse_from None toks (line_of l) = fits l.*1 toks.
Proof.
  intros H. revert toks. induction H as [| w b Hw Hb | w b l Hw Hb Hne Hl IH]; intros toks.
  - done.
  - cbn [line_of]. rewrite parse_word_blank by (done || by right). cbn. by repeat case_test.
  - cbn [line_of]. rewrite parse_word_blank by (done || by left). cbn. by rewrite IH.
Qed.

Lemma fits_all ws toks : Forall (fun w => (String.length w < tbuffer_size)%nat) ws -> fits ws toks = Tokens (rev toks ++ ws).
Proof.
  revert toks. induction ws as [| w ws IH]; intros toks H; [by cbn; rewrite app_nil_r |]. apply Forall_cons in H as [Hw H].
  cbn [fits]. rewrite (proj2 (Nat.ltb_lt _ _)), IH by done. cbn [rev]. by rewrite <- app_assoc.
Qed.

(** A line of words that are shorter than the buffer is cut into them, whatever the
    blanks. *)
Lemma ParseLine_fits b l : blank b -> spaced l -> Forall (fun w => (String.length w < tbuffer_size)%nat) l.*1 ->
  bnode_ParseLine (String.append b (line_of l)) = Tokens l.*1.
Proof. intros Hb Hl H. unfold bnode_ParseLine. by rewrite parse_blank, parse_spaced, fits_all. Qed.

(** It runs past its buffer exactly for a word of as many characters as that holds. *)
Lemma ParseLine_spec b l : blank b -> spaced l -> bnode_ParseLine (String.append b (line_of l)) = fits l.*1 [].
Proof. intros Hb Hl. unfold bnode_ParseLine. by rewrite parse_blank, parse_spaced. Qed.

Fixpoint letters (n : nat) : string := match n with O => EmptyString | S n' => String "a" (letters n') end.

Lemma ParseLine_overruns : bnode_ParseLine (letters 256) = Overrun /\ bnode_ParseLine (letters 255) = Tokens [letters 255]
  /\ bnode_ParseLine (letters 257) = TooLong.
Proof. by vm_compute. Qed.

Example ParseLine_run : bnode_ParseLine " /usr/afs/bin/fileserver  -p 23 " = Tokens ["/usr/afs/bin/fileserver"; "-p"; "23"].
Proof. reflexivity. Qed.
