(* ===== verification/Bnode.v ===== *)
(** The processes that the bosserver keeps running: src/bozo/bnode.c with the
    bnodes of type "fs" and "dafs" (fsbnodeops.c) and "simple" (ezbnodeops.c). The
    operating system is part of the state: the child processes, with the log of
    what was started, signalled and collected, and the files SALVAGE.<instance>.
    [None] is an access to memory that is not, or not any more, the bnode's. *)
From stdpp Require Import strings functions.
From S2P Require Import Prelude Monad BnodeParse.

#[local] Open Scope monad_scope.
#[local] Open Scope string_scope.
#[local] Open Scope Z_scope.
#[local] Open Scope list_scope.

(** ** Constants *)

Definition BSTAT_SHUTDOWN : Z := 0.
Definition BSTAT_NORMAL : Z := 1.
Definition BSTAT_SHUTTINGDOWN : Z := 2.
Definition BSTAT_STARTINGUP : Z := 3.
Definition POLLTIME : Z := 20.
Definition SDTIME : Z := 60.
Definition FSSDTIME : Z := 30 * 60.
Definition SIGQUIT : Z := 3.
Definition SIGKILL : Z := 9.
Definition SIGTERM : Z := 15.
Definition BZNOTACTIVE : Z := 39424.
Definition BZNOENT : Z := 39425.
Definition BZBUSY : Z := 39426.
Definition BZEXISTS : Z := 39427.
Definition BZNOCREATE : Z := 39428.

Definition s16 (z : Z) : Z := (z + 32768) mod 65536 - 32768.

(** ** Data *)

(** The processes of a bnode; a simple one has only [R_main]. *)
Inductive role := R_file | R_vol | R_salsrv | R_salv | R_scan | R_main.
#[export] Instance role_eq_dec : EqDecision role.
Proof. solve_decision. Defined.

Definition coreName_of (r : role) : option string :=
  match r with R_file => Some "file" | R_vol => Some "vol" | R_salsrv => Some "salsrv" | R_salv => Some "salv" | R_scan => Some "scanner" | R_main => None end.

(** What is kept for status reports. *)
Record stats := Stats {
  procStartTime : Z; procStarts : Z; lastAnyExit : Z; lastErrorExit : Z; errorCode : Z; errorSignal : Z; lastErrorName : option string
}.

(** [struct bnode]; the bits of its [flags] are the fields in capitals. *)
Record bnode := Bnode {
  name : string; nextTimeout : Z; period : Z; rsTime : Z; rsCount : Z; statistics : stats; refCount : Z;
  NEEDTIMEOUT : bool; ACTIVE : bool; WAIT : bool; DELETE : bool; ERRORSTOP : bool; goal : Z; fileGoal : Z
}.

(** What a bnode keeps of one of its processes: [fileProc], [fileRunning],
    [fileSDW], [fileKillSent] and [lastFileStart], and so on; in a [struct ezbnode]
    [proc], [running], [waitingForShutdown], [killSent] and [lastStart]. *)
Record slot := Slot { proc : option Z; running : bool; SDW : bool; killSent : bool; lastStart : Z }.
Definition no_slot : slot := Slot None false false false 0.

(** [struct fsbnode] after its header; [cmd] is [filecmd], [volcmd], [salsrvcmd],
    [salcmd] and [scancmd]. *)
Record fsbnode := Fsbnode { cmd : role -> option string; slots : role -> slot; timeSDStarted : Z; needsSalvage : bool; needsClock : bool }.
Record ezbnode := Ezbnode { command : string; ez_slot : slot }.
Inductive bnode_ops := Fs (f : fsbnode) | Ez (e : ezbnode).
Record node := Node { hdr : bnode; ops : bnode_ops }.

Record bnode_proc := BnodeProc { bnode_of : Z; comLine : string; coreName : option string; pid : Z; lastExit : Z; lastSignal : Z; BPROC_STARTED : bool; BPROC_EXITED : bool }.

(** How a process ended. *)
Inductive wstatus := Exited (code : Z) | Signaled (sig : Z).

(** What happened to the processes: the last comes first. A panic is a crash of the
    machine. *)
Inductive event :=
  | EvSpawn (instance : string) (core : option string) (comline : string) (p : Z)
  | EvKill (p sig : Z)
  | EvReap (p : Z) (status : wstatus)
  | EvPanic.

(** The operating system: the children that were not waited for, with how they
    ended if they did; what the calls of spawnprocve to come will return, -1 once
    that is used up; the time; the files SALVAGE.<instance>, and whether one can be
    created. *)
Record osys := Osys {
  children : gmap Z (option wstatus); spawns : list Z; now : Z; salfiles : gset string; can_create : bool; log : list event
}.

(** The bosserver: its bnodes by address, [allBnodes] and [allProcs] in order. *)
Record bos := Bos {
  bnodes : gmap Z node; allBnodes : list Z; allProcs : list (Z * bnode_proc); nextAddr : Z; weirdPids : Z; emergency : bool; os : osys
}.

(** ** Changing the parts of the state *)

Definition set_timer (t p : Z) (need : bool) (b : bnode) : bnode :=
  Bnode (name b) t p (rsTime b) (rsCount b) (statistics b) (refCount b) need (ACTIVE b) (WAIT b) (DELETE b) (ERRORSTOP b) (goal b) (fileGoal b).
Definition set_rs (t c : Z) (b : bnode) : bnode :=
  Bnode (name b) (nextTimeout b) (period b) t c (statistics b) (refCount b) (NEEDTIMEOUT b) (ACTIVE b) (WAIT b) (DELETE b) (ERRORSTOP b) (goal b) (fileGoal b).
Definition set_stats (f : stats -> stats) (b : bnode) : bnode :=
  Bnode (name b) (nextTimeout b) (period b) (rsTime b) (rsCount b) (f (statistics b)) (refCount b) (NEEDTIMEOUT b) (ACTIVE b) (WAIT b) (DELETE b) (ERRORSTOP b) (goal b) (fileGoal b).
Definition set_refCount (n : Z) (b : bnode) : bnode :=
  Bnode (name b) (nextTimeout b) (period b) (rsTime b) (rsCount b) (statistics b) n (NEEDTIMEOUT b) (ACTIVE b) (WAIT b) (DELETE b) (ERRORSTOP b) (goal b) (fileGoal b).
Definition set_WAIT (w : bool) (b : bnode) : bnode :=
  Bnode (name b) (nextTimeout b) (period b) (rsTime b) (rsCount b) (statistics b) (refCount b) (NEEDTIMEOUT b) (ACTIVE b) w (DELETE b) (ERRORSTOP b) (goal b) (fileGoal b).
Definition set_DELETE (d : bool) (b : bnode) : bnode :=
  Bnode (name b) (nextTimeout b) (period b) (rsTime b) (rsCount b) (statistics b) (refCount b) (NEEDTIMEOUT b) (ACTIVE b) (WAIT b) d (ERRORSTOP b) (goal b) (fileGoal b).
Definition set_ERRORSTOP (e : bool) (b : bnode) : bnode :=
  Bnode (name b) (nextTimeout b) (period b) (rsTime b) (rsCount b) (statistics b) (refCount b) (NEEDTIMEOUT b) (ACTIVE b) (WAIT b) (DELETE b) e (goal b) (fileGoal b).
Definition set_goal (g : Z) (b : bnode) : bnode :=
  Bnode (name b) (nextTimeout b) (period b) (rsTime b) (rsCount b) (statistics b) (refCount b) (NEEDTIMEOUT b) (ACTIVE b) (WAIT b) (DELETE b) (ERRORSTOP b) g (fileGoal b).
Definition set_fileGoal (g : Z) (b : bnode) : bnode :=
  Bnode (name b) (nextTimeout b) (period b) (rsTime b) (rsCount b) (statistics b) (refCount b) (NEEDTIMEOUT b) (ACTIVE b) (WAIT b) (DELETE b) (ERRORSTOP b) (goal b) g.

Definition on_hdr (f : bnode -> bnode) (nd : node) : node := Node (f (hdr nd)) (ops nd).
Definition on_slot (r : role) (g : slot -> slot) (nd : node) : node :=
  Node (hdr nd) (match ops nd with
    | Fs f => Fs (Fsbnode (cmd f) (<[r := g (slots f r)]> (slots f)) (timeSDStarted f) (needsSalvage f) (needsClock f))
    | Ez e => Ez (Ezbnode (command e) (g (ez_slot e)))
    end).
Definition on_fs (g : fsbnode -> fsbnode) (nd : node) : node :=
  Node (hdr nd) (match ops nd with Fs f => Fs (g f) | o => o end).
Definition set_timeSD (t : Z) (f : fsbnode) : fsbnode := Fsbnode (cmd f) (slots f) t (needsSalvage f) (needsClock f).
Definition set_needsSalvage (v : bool) (f : fsbnode) : fsbnode := Fsbnode (cmd f) (slots f) (timeSDStarted f) v (needsClock f).
Definition set_needsClock (v : bool) (f : fsbnode) : fsbnode := Fsbnode (cmd f) (slots f) (timeSDStarted f) (needsSalvage f) v.

Definition set_lastStart (t : Z) (sl : slot) : slot := Slot (proc sl) (running sl) (SDW sl) (killSent sl) t.
Definition set_running (p : Z) (sl : slot) : slot := Slot (Some p) true (SDW sl) (killSent sl) (lastStart sl).
Definition set_SDW (sl : slot) : slot := Slot (proc sl) (running sl) true (killSent sl) (lastStart sl).
Definition set_killSent (sl : slot) : slot := Slot (proc sl) (running sl) (SDW sl) true (lastStart sl).
Definition clear_slot (sl : slot) : slot := Slot None false false false (lastStart sl).

Definition slot_of (nd : node) (r : role) : slot :=
  match ops nd, r with
  | Fs f, R_main => no_slot
  | Fs f, _ => slots f r
  | Ez e, R_main => ez_slot e
  | Ez e, _ => no_slot
  end.

Definition with_bnodes (m : gmap Z node) (s : bos) : bos := Bos m (allBnodes s) (allProcs s) (nextAddr s) (weirdPids s) (emergency s) (os s).
Definition with_list (l : list Z) (s : bos) : bos := Bos (bnodes s) l (allProcs s) (nextAddr s) (weirdPids s) (emergency s) (os s).
Definition with_procs (l : list (Z * bnode_proc)) (s : bos) : bos := Bos (bnodes s) (allBnodes s) l (nextAddr s) (weirdPids s) (emergency s) (os s).
Definition with_addr (a : Z) (s : bos) : bos := Bos (bnodes s) (allBnodes s) (allProcs s) a (weirdPids s) (emergency s) (os s).
Definition with_weird (n : Z) (s : bos) : bos := Bos (bnodes s) (allBnodes s) (allProcs s) (nextAddr s) n (emergency s) (os s).
Definition with_emergency (s : bos) : bos := Bos (bnodes s) (allBnodes s) (allProcs s) (nextAddr s) (weirdPids s) true (os s).
Definition with_os (o : osys) (s : bos) : bos := Bos (bnodes s) (allBnodes s) (allProcs s) (nextAddr s) (weirdPids s) (emergency s) o.
Definition with_children (m : gmap Z (option wstatus)) (o : osys) : osys := Osys m (spawns o) (now o) (salfiles o) (can_create o) (log o).
Definition with_spawns (l : list Z) (o : osys) : osys := Osys (children o) l (now o) (salfiles o) (can_create o) (log o).
Definition with_salfiles (S : gset string) (o : osys) : osys := Osys (children o) (spawns o) (now o) S (can_create o) (log o).
Definition with_event (e : event) (o : osys) : osys := Osys (children o) (spawns o) (now o) (salfiles o) (can_create o) (e :: log o).

Definition get (a : Z) : SM bos node := fun s => match bnodes s !! a with Some nd => Some (nd, s) | None => None end.
Definition put (a : Z) (nd : node) : SM bos unit := modify (fun s => with_bnodes (<[a := nd]> (bnodes s)) s).
Definition upd (a : Z) (f : node -> node) : SM bos unit := let* nd := get a in put a (f nd).
Definition get_fs (a : Z) : SM bos fsbnode := let* nd := get a in match ops nd with Fs f => ret f | Ez _ => crash end.
Definition get_ez (a : Z) : SM bos ezbnode := let* nd := get a in match ops nd with Ez e => ret e | Fs _ => crash end.
Definition get_proc (tp : option Z) : SM bos bnode_proc := fun s =>
  match tp ≫= fun p => list_find (fun x => x.1 = p) (allProcs s) with Some (_, (_, pr)) => Some (pr, s) | None => None end.
Definition upd_proc (p : Z) (f : bnode_proc -> bnode_proc) : SM bos unit :=
  modify (fun s => with_procs (map (fun x => if decide (x.1 = p) then (x.1, f x.2) else x) (allProcs s)) s).
Definition FT_ApproxTime : SM bos Z := gets (fun s => now (os s)).
Definition when (c : bool) (m : SM bos unit) : SM bos unit := if c then m else ret tt.

(** ** The operating system *)

Definition spawnprocve (n : string) (core : option string) (com : string) : SM bos Z := fun s =>
  match spawns (os s) with
  | [] => Some (-1, s)
  | p :: l => if p =? -1 then Some (-1, with_os (with_spawns l (os s)) s)
      else Some (p, with_os (with_event (EvSpawn n core com p) (with_children (<[p := None]> (children (os s))) (with_spawns l (os s)))) s)
  end.
Definition kill (p sig : Z) : SM bos Z := fun s =>
  if decide (is_Some (children (os s) !! p)) then Some (0, with_os (with_event (EvKill p sig) (os s)) s) else Some (-1, s).

(** A child that ended is collected. *)
Definition waitpid (p : Z) : SM bos wstatus := fun s =>
  match children (os s) !! p with
  | Some (Some st) => Some (st, with_os (with_event (EvReap p st) (with_children (delete p (children (os s))) (os s))) s)
  | _ => None
  end.

(** ** bnode.c: for the types *)

Definition bnode_Check (a : Z) : SM bos unit := let* nd := get a in when (WAIT (hdr nd)) (upd a (on_hdr (set_WAIT false))).

Definition bnode_SetTimeout (a atimeout : Z) : SM bos unit :=
  if negb (atimeout =? 0) then
    let* t := FT_ApproxTime in
    upd a (on_hdr (fun b => set_timer (s32 (t + atimeout)) atimeout true b))
  else upd a (on_hdr (fun b => set_timer (nextTimeout b) (period b) false b)).

Definition bnode_PendingTimeout (a : Z) : SM bos bool := let* nd := get a in ret (NEEDTIMEOUT (hdr nd)).

(** The address of the new [bnode_proc], or [None] for an error. *)
Definition bnode_NewProc (a : Z) (aexecString : string) (core : option string) : SM bos (option Z) :=
  match bnode_ParseLine aexecString with
  | Overrun => crash
  | TooLong => ret None
  | Tokens tlist =>
      let* nd := get a in
      let* t := FT_ApproxTime in
      upd a (on_hdr (set_stats (fun st => Stats t (s32 (procStarts st + 1)) (lastAnyExit st) (lastErrorExit st) (errorCode st) (errorSignal st) (lastErrorName st)))) ;;
      let* cpid := spawnprocve (name (hdr nd)) core aexecString in
      if cpid =? -1 then ret None
      else
        let* tp := gets nextAddr in
        modify (fun s => with_addr (tp + 1) (with_procs ((tp, BnodeProc a aexecString core cpid 0 0 true false) :: allProcs s) s)) ;;
        bnode_Check a ;; ret (Some tp)
  end.

Definition bnode_StopProc (tp : option Z) (asignal : Z) : SM bos Z :=
  let* aproc := get_proc tp in
  if negb (BPROC_STARTED aproc) || BPROC_EXITED aproc then ret BZNOTACTIVE
  else let* code := kill (pid aproc) asignal in bnode_Check (bnode_of aproc) ;; ret code.

Definition bnode_Hold (a : Z) : SM bos unit := upd a (on_hdr (fun b => set_refCount (s16 (refCount b + 1)) b)).
Definition bnode_SetGoal (a agoal : Z) : SM bos unit := upd a (on_hdr (set_goal (s8 agoal))) ;; bnode_Check a.

(** ** fsbnodeops.c *)

Definition is_cmd (c : option string) : bool := match c with Some _ => true | None => false end.

Definition SetSalFlag (a : Z) (aflag : bool) : SM bos unit :=
  let* nd := get a in
  let* f := get_fs a in
  when (negb (is_cmd (cmd f R_salsrv)))
    (upd a (on_fs (set_needsSalvage aflag)) ;;
     modify (fun s => with_os (with_salfiles
       (if aflag then (if can_create (os s) then {[name (hdr nd)]} ∪ salfiles (os s) else salfiles (os s))
        else salfiles (os s) ∖ {[name (hdr nd)]}) (os s)) s)).

Definition RestoreSalFlag (a : Z) : SM bos unit :=
  let* nd := get a in
  let* f := get_fs a in
  let* there := gets (fun s => bool_decide (name (hdr nd) ∈ salfiles (os s))) in
  upd a (on_fs (set_needsSalvage (if is_cmd (cmd f R_salsrv) then false else there))).

(** All processes that are to run do. *)
Definition all_up (f : fsbnode) : bool :=
  running (slots f R_file) && running (slots f R_vol)
  && (negb (is_cmd (cmd f R_scan)) || running (slots f R_scan)) && (negb (is_cmd (cmd f R_salsrv)) || running (slots f R_salsrv)).

Definition SetNeedsClock (a : Z) : SM bos unit :=
  let* nd := get a in
  let* f := get_fs a in
  let needs :=
    if (goal (hdr nd) =? 1) && all_up f then false
    else if (goal (hdr nd) =? 0) && negb (running (slots f R_file)) && negb (running (slots f R_vol))
      && negb (running (slots f R_salv)) && negb (running (slots f R_scan)) && negb (running (slots f R_salsrv)) then false
    else true in
  upd a (on_fs (set_needsClock needs)) ;;
  let* pending := bnode_PendingTimeout a in
  when (needs && negb pending) (bnode_SetTimeout a POLLTIME) ;;
  when (negb needs) (bnode_SetTimeout a 0).

(** A process that does not end in its time is killed. *)
Definition kill_late (a : Z) (r : role) (t limit : Z) : SM bos unit :=
  let* f := get_fs a in
  when (SDW (slots f r) && (negb (killSent (slots f r)) && (limit <? s32 (t - timeSDStarted f))))
    (bnode_StopProc (proc (slots f r)) SIGKILL ;; upd a (on_slot r set_killSent)).

Definition fs_timeout (a : Z) : SM bos unit :=
  let* t := FT_ApproxTime in
  kill_late a R_vol t SDTIME ;; kill_late a R_salv t SDTIME ;; kill_late a R_file t FSSDTIME ;;
  kill_late a R_salsrv t SDTIME ;; kill_late a R_scan t SDTIME ;;
  SetNeedsClock a.

Definition fs_getstat (f : fsbnode) : Z :=
  if SDW (slots f R_vol) || SDW (slots f R_file) || SDW (slots f R_salv) || SDW (slots f R_scan) || SDW (slots f R_salsrv) then BSTAT_SHUTTINGDOWN
  else if running (slots f R_salv) then BSTAT_NORMAL
  else if running (slots f R_vol) && running (slots f R_file)
    && (negb (is_cmd (cmd f R_scan)) || running (slots f R_scan)) && (negb (is_cmd (cmd f R_salsrv)) || running (slots f R_salsrv)) then BSTAT_NORMAL
  else if negb (running (slots f R_salv)) && negb (running (slots f R_vol)) && negb (running (slots f R_file))
    && negb (running (slots f R_scan)) && negb (running (slots f R_salsrv)) then BSTAT_SHUTDOWN
  else BSTAT_STARTINGUP.

(** One process is started: whether it was. There is no time kept for the salvager. *)
Definition start (a : Z) (r : role) : SM bos bool :=
  let* t := FT_ApproxTime in
  when (negb (bool_decide (r = R_salv))) (upd a (on_slot r (set_lastStart t))) ;;
  let* f := get_fs a in
  match cmd f r with
  | None => crash
  | Some c =>
      let* code := bnode_NewProc a c (coreName_of r) in
      match code with Some tp => upd a (on_slot r (set_running tp)) ;; ret true | None => ret false end
  end.
Definition start_idle (a : Z) (r : role) : SM bos unit :=
  let* f := get_fs a in
  when (match r with R_salsrv | R_scan => is_cmd (cmd f r) | _ => true end && negb (running (slots f r))) (start a r ;; ret tt).

Definition term_signal (r : role) : Z := match r with R_file => SIGQUIT | _ => SIGTERM end.

(** To make way for the salvager, and to shut down. *)
Definition evict (a : Z) (r : role) (t : Z) : SM bos unit :=
  let* f := get_fs a in
  when (running (slots f r))
    (bnode_StopProc (proc (slots f r)) (term_signal r) ;;
     let* f := get_fs a in
     when (negb (SDW (slots f r))) (upd a (on_fs (set_timeSD t))) ;;
     upd a (on_slot r set_SDW)).
Definition stop (a : Z) (r : role) (t : Z) : SM bos unit :=
  let* f := get_fs a in
  when (running (slots f r) && negb (SDW (slots f r)))
    (bnode_StopProc (proc (slots f r)) (term_signal r) ;; upd a (on_slot r set_SDW) ;; upd a (on_fs (set_timeSD t))).

Definition start_file (a : Z) : SM bos unit :=
  let* f := get_fs a in
  when (negb (running (slots f R_file))) (let* ok := start a R_file in when ok (SetSalFlag a true)).

Definition NudgeProcs (a : Z) : SM bos Z :=
  let* t := FT_ApproxTime in
  let* nd := get a in
  let* f := get_fs a in
  if goal (hdr nd) =? 1 then
    if running (slots f R_file) then
      if running (slots f R_salv) then
        modify with_emergency ;; bnode_SetGoal a BSTAT_SHUTDOWN ;; bnode_StopProc (proc (slots f R_salv)) SIGKILL ;;
        SetNeedsClock a ;; ret (-1)
      else start_idle a R_vol ;; start_idle a R_salsrv ;; start_idle a R_scan ;; SetNeedsClock a ;; ret 0
    else if negb (needsSalvage f) || is_cmd (cmd f R_salsrv) then
      start_file a ;; start_idle a R_vol ;; start_idle a R_salsrv ;; start_idle a R_scan ;; SetNeedsClock a ;; ret 0
    else
      evict a R_vol t ;; evict a R_file t ;; evict a R_scan t ;;
      let* f := get_fs a in
      if running (slots f R_vol) || running (slots f R_file) || running (slots f R_scan) then ret 0
      else start_idle a R_salv ;; SetNeedsClock a ;; ret 0
  else
    stop a R_salv t ;; stop a R_file t ;; stop a R_vol t ;; stop a R_salsrv t ;; stop a R_scan t ;;
    SetNeedsClock a ;; ret 0.

Definition fs_setstat (a astatus : Z) : SM bos Z := NudgeProcs a.

Definition is_proc (f : fsbnode) (r : role) (p : Z) : bool := bool_decide (proc (slots f r) = Some p).
Definition fs_procexit (a p : Z) : SM bos Z :=
  let* f := get_fs a in
  (if is_proc f R_vol p then upd a (on_slot R_vol clear_slot)
   else if is_proc f R_file p then
     let* aproc := get_proc (Some p) in
     when (SDW (slots f R_file) && negb (killSent (slots f R_file)) && (lastSignal aproc =? 0)) (SetSalFlag a false) ;;
     upd a (on_slot R_file clear_slot)
   else if is_proc f R_salv p then
     when (negb (SDW (slots f R_salv))) (SetSalFlag a false) ;;
     upd a (on_slot R_salv clear_slot)
   else if is_proc f R_scan p then upd a (on_slot R_scan clear_slot)
   else if is_proc f R_salsrv p then upd a (on_slot R_salsrv clear_slot)
   else ret tt) ;;
  NudgeProcs a.

(** ** ezbnodeops.c *)

Definition ez_timeout (a : Z) : SM bos unit :=
  let* e := get_ez a in
  when (SDW (ez_slot e))
    (bnode_StopProc (proc (ez_slot e)) SIGKILL ;; upd a (on_slot R_main set_killSent) ;; bnode_SetTimeout a 0).

Definition ez_getstat (e : ezbnode) : Z :=
  if SDW (ez_slot e) then BSTAT_SHUTTINGDOWN else if running (ez_slot e) then BSTAT_NORMAL else BSTAT_SHUTDOWN.

Definition ez_setstat (a astatus : Z) : SM bos Z :=
  let* e := get_ez a in
  if SDW (ez_slot e) then ret BZBUSY
  else if (astatus =? BSTAT_NORMAL) && negb (running (ez_slot e)) then
    let* t := FT_ApproxTime in
    upd a (on_slot R_main (set_lastStart t)) ;;
    let* code := bnode_NewProc a (command e) None in
    match code with Some tp => upd a (on_slot R_main (set_running tp)) ;; ret 0 | None => ret (-1) end
  else if (astatus =? BSTAT_SHUTDOWN) && running (ez_slot e) then
    bnode_StopProc (proc (ez_slot e)) SIGTERM ;; upd a (on_slot R_main set_SDW) ;; bnode_SetTimeout a SDTIME ;; ret 0
  else ret 0.

Definition ez_procexit (a p : Z) : SM bos Z :=
  upd a (on_slot R_main clear_slot) ;; bnode_SetTimeout a 0 ;;
  let* nd := get a in
  if negb (goal (hdr nd) =? 0) then ez_setstat a BSTAT_NORMAL else ret 0.

(** ** bnode.c: the bnodes *)

Definition BOP_TIMEOUT (a : Z) : SM bos unit := let* nd := get a in match ops nd with Fs _ => fs_timeout a | Ez _ => ez_timeout a end.
Definition BOP_GETSTAT (a : Z) : SM bos Z := let* nd := get a in ret match ops nd with Fs f => fs_getstat f | Ez e => ez_getstat e end.
Definition BOP_SETSTAT (a st : Z) : SM bos Z := let* nd := get a in match ops nd with Fs _ => fs_setstat a st | Ez _ => ez_setstat a st end.
Definition BOP_PROCEXIT (a p : Z) : SM bos Z := let* nd := get a in match ops nd with Fs _ => fs_procexit a p | Ez _ => ez_procexit a p end.

Definition bnode_SetStat (a agoal : Z) : SM bos Z :=
  upd a (on_hdr (set_goal (s8 agoal))) ;; bnode_Check a ;; BOP_SETSTAT a agoal ;;
  upd a (on_hdr (set_ERRORSTOP false)) ;; ret 0.

(** WriteBozoFile only writes what is kept here to a file. *)
Definition bnode_SetFileGoal (a agoal : Z) : SM bos unit :=
  let* nd := get a in when (negb (fileGoal (hdr nd) =? agoal)) (upd a (on_hdr (set_fileGoal (s8 agoal)))).

Definition bnode_FindInstance (n : string) : SM bos (option Z) :=
  gets (fun s => (list_find (fun a => (name ∘ hdr <$> bnodes s !! a) = Some n) (allBnodes s)) ≫= fun x => Some x.2).

(** Deletion and release call each other: the release of a bnode to be deleted
    deletes it, and its deletion holds it for a while. The fuel of 2 is enough,
    as that flag is cleared first. *)
Definition delete_with (Release : Z -> SM bos unit) (a : Z) : SM bos Z :=
  let* nd := get a in
  if negb (refCount (hdr nd) =? 0) then upd a (on_hdr (set_DELETE true)) ;; ret 0
  else
    bnode_Hold a ;; let* temp := BOP_GETSTAT a in Release a ;;
    if negb (temp =? BSTAT_SHUTDOWN) then ret BZBUSY
    else
      modify (fun s => with_list (filter (fun x => x <> a) (allBnodes s)) s) ;;
      modify (fun s => with_bnodes (delete a (bnodes s)) s) ;; ret 0.
Fixpoint release_with (fuel : nat) (a : Z) : SM bos unit :=
  match fuel with
  | O => crash
  | S fuel' =>
      upd a (on_hdr (fun b => set_refCount (s16 (refCount b - 1)) b)) ;;
      let* nd := get a in
      when ((refCount (hdr nd) =? 0) && DELETE (hdr nd))
        (upd a (on_hdr (set_DELETE false)) ;; delete_with (release_with fuel') a ;; ret tt)
  end.
Definition bnode_Release (a : Z) : SM bos unit := release_with 2 a.
Definition bnode_Delete (a : Z) : SM bos Z := delete_with (release_with 2) a.
Definition bnode_DeleteName (n : string) : SM bos Z :=
  let* tb := bnode_FindInstance n in match tb with None => ret BZNOENT | Some a => bnode_Delete a end.

Definition bnode_InitBnode (o : bnode_ops) (n : string) : SM bos Z :=
  let* a := gets nextAddr in
  modify (with_addr (a + 1)) ;;
  put a (Node (Bnode n 0 0 0 0 (Stats 0 0 0 0 0 0 None) 0 false true false false false BSTAT_SHUTDOWN BSTAT_NORMAL) o) ;;
  modify (fun s => with_list (allBnodes s ++ [a]) s) ;; ret a.

(** What a bnode is made from: its type and the commands, as local paths. *)
Inductive btype := T_fs | T_dafs | T_simple.
#[export] Instance btype_eq_dec : EqDecision btype.
Proof. solve_decision. Defined.

(** The binary that restartp looks at is the first word; that of fs_create is what
    sscanf takes for one. *)
Definition binary (com : string) : option string := match bnode_ParseLine com with Tokens (w :: _) => Some w | _ => None end.
Definition isspace (c : Ascii.ascii) : bool := let n := Ascii.nat_of_ascii c in (n =? 32)%nat || (9 <=? n)%nat && (n <=? 13)%nat.
Fixpoint word_at (com : string) : string :=
  match com with String c com' => if isspace c then EmptyString else String c (word_at com') | EmptyString => EmptyString end.
Fixpoint sscanf_s (com : string) : option string :=
  match com with String c com' => if isspace c then sscanf_s com' else Some (String c (word_at com')) | EmptyString => None end.

Section files.
(** The time that the inode of a file was changed, for a file that is there. *)
Context (stat : string -> option Z).

(** The binaries have to be there, the scanner if it has a command; [cmdname] is not set by
    a command without a word. *)
Fixpoint check_binaries (l : list string) : SM bos bool :=
  match l with
  | [] => ret true
  | com :: l' => match sscanf_s com with
      | None => crash
      | Some cmdname => match stat cmdname with Some _ => check_binaries l' | None => ret false end
      end
  end.

(** fs_create and dafs_create, the latter with a [salsrvcmd]. *)
Definition fs_create (n filecmd volcmd : string) (salsrvcmd : option string) (salcmd : string) (scancmd : option string) : SM bos (option Z) :=
  let scan := match scancmd with Some EmptyString => None | x => x end in
  let* ok := check_binaries ([filecmd; volcmd] ++ from_option (fun c => [c]) [] salsrvcmd ++ [salcmd] ++ from_option (fun c => [c]) [] scan) in
  if negb ok then ret None
  else
    let c r := match r with
      | R_file => Some filecmd | R_vol => Some volcmd | R_salsrv => salsrvcmd | R_salv => Some salcmd | R_scan => scan | R_main => None end in
    let* a := bnode_InitBnode (Fs (Fsbnode c (fun _ => no_slot) 0 false false)) n in
    bnode_SetTimeout a POLLTIME ;; RestoreSalFlag a ;; SetNeedsClock a ;; ret (Some a).
Definition ez_create (n com : string) : SM bos (option Z) :=
  let* a := bnode_InitBnode (Ez (Ezbnode com no_slot)) n in ret (Some a).

Definition type_create (t : btype) (n ap1 ap2 ap3 ap4 : string) (ap5 : option string) : SM bos (option Z) :=
  match t with
  | T_fs => fs_create n ap1 ap2 None ap3 (Some ap4)
  | T_dafs => fs_create n ap1 ap2 (Some ap3) ap4 ap5
  | T_simple => ez_create n ap1
  end.

(** Whether a bnode has a binary that was changed after the process was started. *)
Definition restartp1 (com : string) (last : Z) : option bool :=
  match binary com ≫= stat with Some ctime => Some (last <? ctime) | None => None end.
Definition fs_restartp (f : fsbnode) : bool :=
  let test r last k := match cmd f r with
    | None => k false
    | Some c => match restartp1 c last with None => false | Some yes => k yes end end in
  test R_file (lastStart (slots f R_file)) (fun yes => if yes then true else
  test R_vol (lastStart (slots f R_vol)) (fun yes => if yes then true else
  let scan code := match cmd f R_scan with
    | None => code
    | Some c => match restartp1 c (lastStart (slots f R_scan)) with None => false | Some yes => yes end end in
  test R_salsrv (lastStart (slots f R_scan)) scan)).
Definition ez_restartp (e : ezbnode) : bool := match restartp1 (command e) (lastStart (ez_slot e)) with Some yes => yes | None => false end.

(** Without a notifier. *)
Definition bnode_Create (t : btype) (n ap1 ap2 ap3 ap4 : string) (ap5 : option string) (fgoal : Z) : SM bos (Z * option Z) :=
  let* found := bnode_FindInstance n in
  match found with
  | Some _ => ret (BZEXISTS, None)
  | None =>
      let* tb := type_create t n ap1 ap2 ap3 ap4 ap5 in
      match tb with
      | None => ret (BZNOCREATE, None)
      | Some a =>
          upd a (on_hdr (set_fileGoal (s8 fgoal))) ;;
          let* nd := get a in
          bnode_SetStat a (goal (hdr nd)) ;; ret (0, Some a)
      end
  end.
End files.

(** ** The bnode-manager thread *)

Definition note_exit (st : wstatus) (t : Z) (core : option string) (x : stats) : stats :=
  match st with
  | Exited code => if code =? 0 then x else Stats (procStartTime x) (procStarts x) (lastAnyExit x) t code 0 core
  | Signaled sig => if negb (sig =? SIGQUIT) && negb (sig =? SIGTERM) && negb (sig =? SIGKILL)
      then Stats (procStartTime x) (procStarts x) (lastAnyExit x) t (errorCode x) sig core else x
  end.
Definition proc_exited (st : wstatus) (pr : bnode_proc) : bnode_proc :=
  let (e, g) := match st with Exited code => (code, 0) | Signaled sig => (0, sig) end in
  BnodeProc (bnode_of pr) (comLine pr) (coreName pr) (pid pr) e g (BPROC_STARTED pr) (BPROC_EXITED pr).
Definition DeleteProc (p : Z) : SM bos unit := modify (fun s => with_procs (filter (fun x => x.1 <> p) (allProcs s)) s).

(** A child is collected: one pass of the loop over waitpid in bproc, at time [t]. *)
Definition bproc_exit (t code : Z) : SM bos unit :=
  let* status := waitpid code in
  let* found := gets (fun s => list_find (fun x => pid x.2 = code) (allProcs s)) in
  match found with
  | None => modify (fun s => with_weird (s32 (weirdPids s + 1)) s)
  | Some (_, (tp, pr)) =>
      let tb := bnode_of pr in
      bnode_Hold tb ;;
      let* nd := get tb in
      when (s32 (rsTime (hdr nd) + 30) <? t) (upd tb (on_hdr (set_rs t 0))) ;;
      upd_proc tp (proc_exited status) ;;
      let* t' := FT_ApproxTime in
      upd tb (on_hdr (set_stats (note_exit status t' (coreName pr)))) ;;
      upd tb (on_hdr (set_stats (fun x => Stats (procStartTime x) (procStarts x) t' (lastErrorExit x) (errorCode x) (errorSignal x) (lastErrorName x)))) ;;
      BOP_PROCEXIT tb tp ;;
      bnode_Check tb ;;
      let* nd := get tb in
      let old := rsCount (hdr nd) in
      upd tb (on_hdr (fun b => set_rs (rsTime b) (s32 (old + 1)) b)) ;;
      when (10 <? old) (upd tb (on_hdr (set_ERRORSTOP true)) ;; bnode_SetGoal tb BSTAT_SHUTDOWN) ;;
      bnode_Release tb ;; DeleteProc tp
  end.

(** The timeouts at time [t], bnode by bnode: only that at hand may go away. *)
Definition bproc_timeout (t a : Z) : SM bos unit :=
  let* nd := get a in
  when (NEEDTIMEOUT (hdr nd) && (nextTimeout (hdr nd) <? t))
    (bnode_Hold a ;; BOP_TIMEOUT a ;; bnode_Check a ;;
     let* nd := get a in
     when (NEEDTIMEOUT (hdr nd))
       (let* t' := FT_ApproxTime in upd a (on_hdr (fun b => set_timer (s32 (t' + period b)) (period b) (NEEDTIMEOUT b) b))) ;;
     bnode_Release a).
Fixpoint each {A} (f : A -> SM bos unit) (l : list A) : SM bos unit :=
  match l with [] => ret tt | x :: l' => f x ;; each f l' end.
Definition bproc (pids : list Z) : SM bos unit :=
  let* t := FT_ApproxTime in
  let* l := gets allBnodes in
  each (bproc_timeout t) l ;; each (bproc_exit t) pids.

(** ** bosoprocs.c: what the calls do once authorized *)

Definition SBOZO_SetTStatus (n : string) (astatus : Z) : SM bos Z :=
  let* tb := bnode_FindInstance n in
  match tb with
  | None => ret BZNOENT
  | Some a => bnode_Hold a ;; let* code := bnode_SetStat a astatus in bnode_Release a ;; ret code
  end.
Definition SBOZO_SetStatus (n : string) (astatus : Z) : SM bos Z :=
  let* tb := bnode_FindInstance n in
  match tb with
  | None => ret BZNOENT
  | Some a => bnode_Hold a ;; bnode_SetFileGoal a astatus ;; let* code := bnode_SetStat a astatus in bnode_Release a ;; ret code
  end.
Definition SBOZO_CreateBnode (stat : string -> option Z) (t : btype) (n ap1 ap2 ap3 ap4 : string) (ap5 : option string) : SM bos Z :=
  let* r := bnode_Create stat t n ap1 ap2 ap3 ap4 ap5 BSTAT_NORMAL in
  match r with
  | (0, Some a) => bnode_SetStat a BSTAT_NORMAL ;; ret 0
  | (code, _) => ret code
  end.

(** A turn of the loop of bnode_WaitStatus: its result, or [None] when it blocks. *)
Definition WaitStatus_turn (a astatus : Z) : SM bos (option Z) :=
  let* stat := BOP_GETSTAT a in
  if stat =? astatus then bnode_Release a ;; ret (Some 0)
  else
    let* nd := get a in
    if negb (astatus =? goal (hdr nd)) then bnode_Release a ;; ret (Some (-1))
    else upd a (on_hdr (set_WAIT true)) ;; ret None.

(** SBOZO_Restart up to where it waits, and from each wakeup on: whether it is done. *)
Definition Restart_turn (a : Z) : SM bos bool :=
  let* code := WaitStatus_turn a BSTAT_SHUTDOWN in
  match code with
  | None => ret false
  | Some _ => bnode_SetStat a BSTAT_NORMAL ;; bnode_Release a ;; ret true
  end.
Definition Restart_begin (a : Z) : SM bos bool :=
  bnode_Hold a ;; bnode_SetStat a BSTAT_SHUTDOWN ;; bnode_Hold a ;; Restart_turn a.

(** bnode_ApplyInstance with a function that does not block. *)
Definition sdproc (a : Z) : SM bos unit := bnode_Hold a ;; bnode_SetStat a BSTAT_SHUTDOWN ;; bnode_Release a.
Definition stproc (a : Z) : SM bos unit :=
  let* nd := get a in
  when (negb (fileGoal (hdr nd) =? BSTAT_SHUTDOWN)) (bnode_Hold a ;; bnode_SetStat a BSTAT_NORMAL ;; bnode_Release a).
Definition SBOZO_ShutdownAll : SM bos unit := let* l := gets allBnodes in each sdproc l.
Definition SBOZO_StartupAll : SM bos unit := let* l := gets allBnodes in each stproc l.

(** bnode_ApplyInstance with swproc, which blocks: [nb] was read before. *)
Inductive applying := Applied | Waiting (tb : Z) (nb : option Z).
Fixpoint after (a : Z) (l : list Z) : option Z :=
  match l with x :: l' => if x =? a then head l' else after a l' | [] => None end.
Definition next_of (a : Z) : SM bos (option Z) := let* _ := get a in gets (fun s => after a (allBnodes s)).
Fixpoint swproc_from (fuel : nat) (tb : option Z) : SM bos applying :=
  match fuel, tb with
  | _, None => ret Applied
  | O, Some _ => crash
  | S fuel', Some a =>
      let* nb := next_of a in
      let* nd := get a in
      if goal (hdr nd) =? BSTAT_NORMAL then swproc_from fuel' nb
      else
        bnode_Hold a ;; bnode_Hold a ;;
        let* code := WaitStatus_turn a BSTAT_SHUTDOWN in
        match code with None => ret (Waiting a nb) | Some _ => bnode_Release a ;; swproc_from fuel' nb end
  end.
Definition swproc_wakes (fuel : nat) (a : Z) (nb : option Z) : SM bos applying :=
  let* code := WaitStatus_turn a BSTAT_SHUTDOWN in
  match code with None => ret (Waiting a nb) | Some _ => bnode_Release a ;; swproc_from fuel nb end.
