(* ===== verification/BnodeSpec.v ===== *)
(** What the bosserver owes to its processes, as a property of the log alone; and
    the invariant that ties the bnodes to the log. *)
From stdpp Require Import strings functions.
From S2P Require Import Prelude Monad BnodeParse Bnode.

#[local] Open Scope monad_scope.
#[local] Open Scope string_scope.
#[local] Open Scope Z_scope.
#[local] Open Scope list_scope.

(** ** What the log says *)

(** A process not yet collected: its instance, its part in it, the signals it was sent. *)
Record pinfo := Pinfo { p_inst : string; p_core : option string; p_sigs : list Z }.

(** [unsalvaged] are the instances whose file server was started and whose partitions
    were not left clean since. *)
Record view := View { live : gmap Z pinfo; unsalvaged : gset string }.

(** The partitions are clean when the file server ends by itself, asked to and not
    killed, or when the salvager ends that was not told to stop. *)
Definition settles (i : pinfo) (st : wstatus) : bool :=
  if bool_decide (p_core i = Some "file") then
    bool_decide (SIGQUIT ∈ p_sigs i) && bool_decide (SIGKILL ∉ p_sigs i) && match st with Exited _ => true | Signaled _ => false end
  else if bool_decide (p_core i = Some "salv") then bool_decide (p_sigs i = [])
  else false.

Definition observe (e : event) (v : view) : view :=
  match e with
  | EvSpawn n c _ p => View (<[p := Pinfo n c []]> (live v)) (if bool_decide (c = Some "file") then {[n]} ∪ unsalvaged v else unsalvaged v)
  | EvKill p sig => View (alter (fun i => Pinfo (p_inst i) (p_core i) (sig :: p_sigs i)) p (live v)) (unsalvaged v)
  | EvReap p st => View (delete p (live v))
      (match live v !! p with Some i => if settles i st then unsalvaged v ∖ {[p_inst i]} else unsalvaged v | None => unsalvaged v end)
  | EvPanic => View ∅ (unsalvaged v)
  end.
Definition watch (l : list event) : view := foldr observe (View ∅ ∅) l.

Section types.
(** The type of each instance; a name is not used again for another type. *)
Context (types : string -> btype).

(** What may happen. An instance has one process of a kind. The salvager runs alone.
    A file server, but one with demand attach, is started only on clean partitions.
    Only children get signals, and none is killed before it was asked to end. *)
Definition allowed (v : view) (e : event) : Prop :=
  match e with
  | EvSpawn n c _ p => live v !! p = None
      /\ (forall q i, live v !! q = Some i -> p_inst i = n -> p_core i <> c /\ p_core i <> Some "salv" /\ c <> Some "salv")
      /\ (c = Some "file" -> types n = T_fs -> n ∉ unsalvaged v)
  | EvKill p sig => exists i, live v !! p = Some i /\ (sig = SIGKILL -> p_sigs i <> [])
  | EvReap p _ => is_Some (live v !! p)
  | EvPanic => True
  end.
Fixpoint protocol (l : list event) : Prop :=
  match l with [] => True | e :: l' => allowed (watch l') e /\ protocol l' end.

(** ** The invariant *)

Definition cmd_of (nd : node) (r : role) : option string :=
  match ops nd, r with Fs f, _ => cmd f r | Ez e, R_main => Some (command e) | Ez e, _ => None end.
Definition needs (nd : node) : bool := match ops nd with Fs f => needsSalvage f | Ez _ => false end.
Definition is_fs (nd : node) : bool := match ops nd with Fs _ => true | Ez _ => false end.

Definition good_cmd (c : string) : Prop := exists w ws, bnode_ParseLine c = Tokens (w :: ws).
Definition type_of (nd : node) : btype :=
  match ops nd with Fs f => if is_cmd (cmd f R_salsrv) then T_dafs else T_fs | Ez _ => T_simple end.

(** A slot and the process in it. The process [x] has ended and is on the way out. *)
Definition proc_ok (a : Z) (n : string) (r : role) (sl : slot) (pr : bnode_proc) (L : gmap Z pinfo) : Prop :=
  bnode_of pr = a /\ coreName pr = coreName_of r /\ BPROC_STARTED pr = true /\ BPROC_EXITED pr = false
  /\ exists sigs, L !! pid pr = Some (Pinfo n (coreName_of r) sigs)
     /\ (SDW sl = true <-> sigs <> []) /\ (killSent sl = true <-> SIGKILL ∈ sigs) /\ (SDW sl = true -> term_signal r ∈ sigs).
Definition slot_ok (x : option Z) (a : Z) (n : string) (r : role) (sl : slot) (ps : list (Z * bnode_proc)) (L : gmap Z pinfo) : Prop :=
  match proc sl with
  | Some p => running sl = true /\ Some p <> x /\ exists pr, (p, pr) ∈ ps /\ proc_ok a n r sl pr L
  | None => running sl = false /\ SDW sl = false /\ killSent sl = false
  end.

Record node_ok (nd : node) : Prop := {
  n_type : types (name (hdr nd)) = type_of nd;
  n_cmds : forall r c, cmd_of nd r = Some c -> good_cmd c;
  n_cmd : if is_fs nd then is_Some (cmd_of nd R_file) /\ is_Some (cmd_of nd R_vol) /\ is_Some (cmd_of nd R_salv) else True;
  n_slots : forall r, running (slot_of nd r) = true -> is_Some (cmd_of nd r);
  n_salv : running (slot_of nd R_salv) = true -> type_of nd = T_fs /\ forall r, r <> R_salv -> running (slot_of nd r) = false
}.

Definition viewed (s : bos) : view := watch (log (os s)).

Definition spawns_ok (o : osys) : Prop :=
  NoDup (filter (fun p => p <> -1) (spawns o)) /\ forall p, p ∈ spawns o -> p <> -1 -> children o !! p = None.

Record base (x : option Z) (s : bos) : Prop := {
  b_all : NoDup (allBnodes s) /\ forall a, a ∈ allBnodes s <-> is_Some (bnodes s !! a);
  b_name : forall a a' nd nd', bnodes s !! a = Some nd -> bnodes s !! a' = Some nd' -> name (hdr nd) = name (hdr nd') -> a = a';
  b_addr : (forall a, is_Some (bnodes s !! a) -> a < nextAddr s) /\ (forall p, p ∈ (allProcs s).*1 -> p < nextAddr s);
  b_procs : NoDup (allProcs s).*1;
  b_out : forall p, x = Some p -> p ∈ (allProcs s).*1;
  b_owner : forall p pr, (p, pr) ∈ allProcs s -> Some p <> x -> exists nd r, bnodes s !! bnode_of pr = Some nd /\ proc (slot_of nd r) = Some p;
  b_slot : forall a nd r, bnodes s !! a = Some nd -> slot_ok x a (name (hdr nd)) r (slot_of nd r) (allProcs s) (live (viewed s));
  b_live : forall q, is_Some (live (viewed s) !! q) -> exists p pr, (p, pr) ∈ allProcs s /\ Some p <> x /\ pid pr = q;
  b_kids : forall q, is_Some (children (os s) !! q) <-> is_Some (live (viewed s) !! q);
  b_spawns : spawns_ok (os s);
  b_prot : protocol (log (os s));
  b_nodes : forall a nd, bnodes s !! a = Some nd -> node_ok nd;
  b_emergency : emergency s = false
}.

(** The SALVAGE files: they say which partitions are not clean. *)
Record sal (s : bos) : Prop := {
  s_create : can_create (os s) = true;
  s_file : forall n, n ∈ unsalvaged (viewed s) -> types n = T_fs -> n ∈ salfiles (os s);
  s_flag : forall a nd, bnodes s !! a = Some nd -> type_of nd = T_fs -> needs nd = bool_decide (name (hdr nd) ∈ salfiles (os s));
  s_run : forall a nd, bnodes s !! a = Some nd -> type_of nd = T_fs ->
    running (slot_of nd R_file) = true \/ running (slot_of nd R_salv) = true -> needs nd = true
}.

(** The references: of the calls that wait, and no other between steps. *)
Record refs (held : Z -> Z) (s : bos) : Prop := {
  r_count : forall a nd, bnodes s !! a = Some nd -> refCount (hdr nd) = held a /\ 0 <= held a < 30000;
  r_delete : forall a nd, bnodes s !! a = Some nd -> DELETE (hdr nd) = true -> held a <> 0;
  r_held : forall a, held a <> 0 -> is_Some (bnodes s !! a)
}.

(** ** Consequences *)

Lemma coreName_inj r r' : coreName_of r = coreName_of r' -> r = r'.
Proof. by destruct r, r'. Qed.

Lemma slot_running x a n r sl ps L : slot_ok x a n r sl ps L -> running sl = bool_decide (is_Some (proc sl)).
Proof. unfold slot_ok. destruct (proc sl); [by intros [-> _] | by intros [-> _]]. Qed.

Lemma procs_unique x s p pr pr' : base x s -> (p, pr) ∈ allProcs s -> (p, pr') ∈ allProcs s -> pr = pr'.
Proof.
  intros B H H'. apply list_elem_of_lookup in H as [i Hi], H' as [j Hj].
  assert (i = j) as ->. { eapply NoDup_lookup; [exact (b_procs _ _ B) | |]; rewrite list_lookup_fmap, ?Hi, ?Hj; done. }
  by simplify_eq.
Qed.

(** A process not yet collected is in a slot of its instance. *)
Lemma live_slot x s q i : base x s -> live (viewed s) !! q = Some i -> exists a nd r p pr,
  bnodes s !! a = Some nd /\ proc (slot_of nd r) = Some p /\ (p, pr) ∈ allProcs s /\ pid pr = q
  /\ name (hdr nd) = p_inst i /\ coreName_of r = p_core i /\ Some p <> x /\ bnode_of pr = a.
Proof.
  intros B Hq. destruct (b_live _ _ B q) as (p & pr & Hp & Hx & <-); [eauto |].
  destruct (b_owner _ _ B p pr Hp Hx) as (nd & r & Hnd & Hr). pose proof (b_slot _ _ B _ _ r Hnd) as S.
  unfold slot_ok in S. rewrite Hr in S. destruct S as (_ & _ & pr' & Hp' & Ho). assert (pr' = pr) as -> by by eapply procs_unique.
  destruct Ho as (_ & Hc & _ & _ & sigs & HL & _). rewrite Hq in HL. injection HL as ->.
  exists (bnode_of pr), nd, r, p, pr. done.
Qed.

(** A slot holds a process for which it was made. *)
Lemma slot_proc x s a nd r p : base x s -> bnodes s !! a = Some nd -> proc (slot_of nd r) = Some p ->
  Some p <> x /\ running (slot_of nd r) = true /\ exists pr, (p, pr) ∈ allProcs s /\ proc_ok a (name (hdr nd)) r (slot_of nd r) pr (live (viewed s)).
Proof. intros B Hnd Hp. pose proof (b_slot _ _ B _ _ r Hnd) as S. unfold slot_ok in S. rewrite Hp in S. tauto. Qed.

Lemma slot_apart x s a nd r a' nd' r' p : base x s -> bnodes s !! a = Some nd -> bnodes s !! a' = Some nd' ->
  proc (slot_of nd r) = Some p -> proc (slot_of nd' r') = Some p -> a = a' /\ r = r'.
Proof.
  intros B Hnd Hnd' Hp Hp'. destruct (slot_proc _ _ _ _ _ _ B Hnd Hp) as (_ & _ & pr & H & Ha & Hc & _).
  destruct (slot_proc _ _ _ _ _ _ B Hnd' Hp') as (_ & _ & pr' & H' & Ha' & Hc' & _).
  assert (pr' = pr) as -> by by eapply procs_unique. split; [congruence | apply coreName_inj; congruence].
Qed.

Lemma pid_apart x s a nd r p pr a' nd' r' p' pr' : base x s -> bnodes s !! a = Some nd -> bnodes s !! a' = Some nd' ->
  proc (slot_of nd r) = Some p -> proc (slot_of nd' r') = Some p' -> (p, pr) ∈ allProcs s -> (p', pr') ∈ allProcs s ->
  pid pr = pid pr' -> a = a' /\ r = r'.
Proof.
  intros B Hnd Hnd' Hp Hp' H H' E. destruct (slot_proc _ _ _ _ _ _ B Hnd Hp) as (_ & _ & pr1 & H1 & _ & _ & _ & _ & sigs & HL & _).
  destruct (slot_proc _ _ _ _ _ _ B Hnd' Hp') as (_ & _ & pr2 & H2 & _ & _ & _ & _ & sigs' & HL' & _).
  assert (pr1 = pr) as -> by by eapply procs_unique. assert (pr2 = pr') as -> by by eapply procs_unique.
  rewrite <- E, HL in HL'. injection HL' as Hn Hc _. split; [| by apply coreName_inj].
  by eapply (b_name _ _ B).
Qed.

(** ** Changes that the invariant does not see *)

Definition key (sl : slot) : option Z * bool * bool * bool := (proc sl, running sl, SDW sl, killSent sl).

(** The same but for one slot, or for none. *)
Record like (k : option role) (nd nd' : node) : Prop := {
  al_name : name (hdr nd') = name (hdr nd);
  al_type : type_of nd' = type_of nd;
  al_cmd : forall r, cmd_of nd' r = cmd_of nd r;
  al_fs : is_fs nd' = is_fs nd;
  al_key : forall r, Some r <> k -> key (slot_of nd' r) = key (slot_of nd r)
}.
Notation alike := (like None).

Lemma like_refl k nd : like k nd nd.
Proof. by split. Qed.
Lemma like_trans k n1 n2 n3 : like k n1 n2 -> like k n2 n3 -> like k n1 n3.
Proof. intros [A1 A2 A3 A4 A5] [B1 B2 B3 B4 B5]. split; intros; [congruence.. |]. by rewrite B5, A5. Qed.
Lemma like_weaken k nd nd' : alike nd nd' -> like k nd nd'.
Proof. intros [A1 A2 A3 A4 A5]. split; [done.. |]. intros r _. by apply A5. Qed.

Lemma key_running sl sl' : key sl' = key sl -> running sl' = running sl.
Proof. unfold key. congruence. Qed.
Lemma key_proc sl sl' : key sl' = key sl -> proc sl' = proc sl.
Proof. unfold key. congruence. Qed.

Lemma like_running k nd nd' r : like k nd nd' -> Some r <> k -> running (slot_of nd' r) = running (slot_of nd r).
Proof. intros A H. by apply key_running, (al_key _ _ _ A). Qed.
Lemma like_proc k nd nd' r : like k nd nd' -> Some r <> k -> proc (slot_of nd' r) = proc (slot_of nd r).
Proof. intros A H. by apply key_proc, (al_key _ _ _ A). Qed.

Lemma slot_ok_key x a n r sl sl' ps L : key sl' = key sl -> slot_ok x a n r sl ps L -> slot_ok x a n r sl' ps L.
Proof.
  unfold key, slot_ok, proc_ok. intros E. injection E as -> -> -> ->. done.
Qed.

Lemma node_ok_like k nd nd' : like k nd nd' -> (forall r, running (slot_of nd' r) = running (slot_of nd r)) -> node_ok nd -> node_ok nd'.
Proof.
  intros [A1 A2 A3 A4 _] E [B1 B2 B3 B5 B4]. split.
  - congruence.
  - intros r c. rewrite A3. apply B2.
  - by rewrite A4, !A3.
  - intros r. rewrite A3, E. apply B5.
  - rewrite E, A2. intros H. destruct (B4 H) as [? R]. split; [done |]. intros r. rewrite E. apply R.
Qed.
Lemma alike_running nd nd' : alike nd nd' -> forall r, running (slot_of nd' r) = running (slot_of nd r).
Proof. intros A r. by apply key_running, (al_key _ _ _ A). Qed.

(** The state with another bnode at an address, and another state of the system. *)
Definition touch (a : Z) (nd : node) (o : osys) (s : bos) : bos := with_os o (with_bnodes (<[a := nd]> (bnodes s)) s).

Lemma touch_touch a nd o nd' o' s : touch a nd' o' (touch a nd o s) = touch a nd' o' s.
Proof. unfold touch, with_os, with_bnodes. cbn. by rewrite insert_insert_eq. Qed.
Lemma touch_get a nd o s : bnodes (touch a nd o s) !! a = Some nd.
Proof. apply lookup_insert_eq. Qed.
Lemma touch_id a nd s : bnodes s !! a = Some nd -> touch a nd (os s) s = s.
Proof. intros H. unfold touch, with_os, with_bnodes. cbn. rewrite insert_id by done. by destruct s. Qed.

(** What is left to show of a state with another bnode at an address. *)
Lemma base_change x s x' s' a nd nd' : base x s -> bnodes s !! a = Some nd -> bnodes s' = <[a := nd']> (bnodes s) ->
  name (hdr nd') = name (hdr nd) -> node_ok nd' -> allBnodes s' = allBnodes s -> emergency s' = emergency s -> nextAddr s <= nextAddr s' ->
  (forall p, p ∈ (allProcs s').*1 -> p < nextAddr s') -> NoDup (allProcs s').*1 ->
  (forall p, x' = Some p -> p ∈ (allProcs s').*1) ->
  (forall p pr, (p, pr) ∈ allProcs s' -> Some p <> x' -> exists n r, bnodes s' !! bnode_of pr = Some n /\ proc (slot_of n r) = Some p) ->
  (forall r, slot_ok x' a (name (hdr nd)) r (slot_of nd' r) (allProcs s') (live (viewed s'))) ->
  (forall b n r, b <> a -> bnodes s !! b = Some n -> slot_ok x' b (name (hdr n)) r (slot_of n r) (allProcs s') (live (viewed s'))) ->
  (forall q, is_Some (live (viewed s') !! q) -> exists p pr, (p, pr) ∈ allProcs s' /\ Some p <> x' /\ pid pr = q) ->
  (forall q, is_Some (children (os s') !! q) <-> is_Some (live (viewed s') !! q)) ->
  spawns_ok (os s') -> protocol (log (os s')) -> base x' s'.
Proof.
  intros B Hnd Eb En Hok El Ee Ha Hp Hn Hx Ho Hs Hs' Hl Hk Hw Hr.
  assert (E : forall b n', bnodes s' !! b = Some n' -> exists n, bnodes s !! b = Some n /\ name (hdr n') = name (hdr n)).
  { rewrite Eb. intros b n' Hb. destruct (decide (b = a)) as [-> |]; [rewrite lookup_insert_eq in Hb; simplify_eq; eauto |].
    rewrite lookup_insert_ne in Hb by done. eauto. }
  split; try done.
  - rewrite El, Eb. split; [apply (b_all _ _ B) |]. intros b. rewrite (proj2 (b_all _ _ B)). destruct (decide (b = a)) as [-> |].
    + rewrite lookup_insert_eq, Hnd. split; by eexists.
    + by rewrite lookup_insert_ne.
  - intros b b' n n' Hb Hb' E'. apply E in Hb as (m & Hm & Am), Hb' as (m' & Hm' & Am').
    apply (b_name _ _ B b b' m m'); [done.. |]. by rewrite <- Am, <- Am'.
  - split; [| done]. intros b [n Hb]. apply E in Hb as (m & Hm & _). pose proof (proj1 (b_addr _ _ B) b ltac:(by exists m)). lia.
  - rewrite Eb. intros b n r Hb. destruct (decide (b = a)) as [-> |].
    + rewrite lookup_insert_eq in Hb. simplify_eq. rewrite En. apply Hs.
    + rewrite lookup_insert_ne in Hb by done. by apply Hs'.
  - rewrite Eb. intros b n Hb. destruct (decide (b = a)) as [-> |].
    + rewrite lookup_insert_eq in Hb. by simplify_eq.
    + rewrite lookup_insert_ne in Hb by done. by apply (b_nodes _ _ B b).
  - rewrite Ee. apply (b_emergency _ _ B).
Qed.

(** Processes stay with their slots. *)
Lemma owner_kept x s a nd nd' : base x s -> bnodes s !! a = Some nd -> (forall r, proc (slot_of nd' r) = proc (slot_of nd r)) ->
  forall p pr, (p, pr) ∈ allProcs s -> Some p <> x -> exists n r, <[a := nd']> (bnodes s) !! bnode_of pr = Some n /\ proc (slot_of n r) = Some p.
Proof.
  intros B Hnd E p pr Hp Hx. destruct (b_owner _ _ B p pr Hp Hx) as (n & r & Hn & Hr). destruct (decide (bnode_of pr = a)) as [Ea |].
  - subst a. simplify_eq. exists nd', r. by rewrite lookup_insert_eq, E.
  - exists n, r. by rewrite lookup_insert_ne.
Qed.

Lemma base_alike x s a nd nd' : base x s -> bnodes s !! a = Some nd -> alike nd nd' -> base x (touch a nd' (os s) s).
Proof.
  intros B Hnd A. eapply (base_change x s _ _ a nd nd' B); try done.
  - apply A.
  - eapply node_ok_like, (b_nodes _ _ B a); [exact A | by apply alike_running | done].
  - exact (proj2 (b_addr _ _ B)).
  - exact (b_procs _ _ B).
  - exact (b_out _ _ B).
  - refine (owner_kept _ _ _ _ _ B Hnd _). intros r. by apply key_proc, (al_key _ _ _ A).
  - intros r. eapply slot_ok_key; [by apply (al_key _ _ _ A) |]. by apply (b_slot _ _ B).
  - intros b n r _. apply (b_slot _ _ B).
  - exact (b_live _ _ B).
  - exact (b_kids _ _ B).
  - exact (b_spawns _ _ B).
  - exact (b_prot _ _ B).
Qed.

Lemma sal_alike s a nd nd' : sal s -> bnodes s !! a = Some nd -> alike nd nd' -> needs nd' = needs nd -> sal (touch a nd' (os s) s).
Proof.
  intros [S1 S2 S3 S4] Hnd A N. pose proof (alike_running _ _ A) as E. destruct A as [A1 A2 A3 A4 A5].
  split; [done.. | |]; cbn; intros b n Hb T; (destruct (decide (b = a)) as [-> |];
    [rewrite lookup_insert_eq in Hb; simplify_eq; rewrite ?E, N, ?A1; rewrite A2 in T; eauto | rewrite lookup_insert_ne in Hb by done; eauto]).
Qed.

(** ** A signal *)

Definition killed (q sig : Z) (s : bos) : osys := with_event (EvKill q sig) (os s).

Lemma live_killed q sig s q' : live (watch (log (killed q sig s))) !! q'
  = (if decide (q' = q) then (fun i => Pinfo (p_inst i) (p_core i) (sig :: p_sigs i)) <$> live (viewed s) !! q else live (viewed s) !! q').
Proof.
  cbn. case_decide as E; [subst; apply lookup_alter_eq | by apply lookup_alter_ne].
Qed.

Lemma base_signal x s a nd nd' r p pr sig : base x s -> bnodes s !! a = Some nd -> proc (slot_of nd r) = Some p -> (p, pr) ∈ allProcs s ->
  like (Some r) nd nd' -> proc (slot_of nd' r) = Some p -> running (slot_of nd' r) = true -> SDW (slot_of nd' r) = true ->
  (killSent (slot_of nd' r) = true <-> sig = SIGKILL \/ killSent (slot_of nd r) = true) ->
  sig = term_signal r \/ SDW (slot_of nd r) = true ->
  base x (touch a nd' (killed (pid pr) sig s) s).
Proof.
  intros B Hnd Hp Hpr A Hp' Hr' Hs' Hk Hsig. destruct (slot_proc _ _ _ _ _ _ B Hnd Hp) as (Hx & Hr & pr' & Hpr' & O).
  assert (pr' = pr) as -> by by eapply procs_unique. destruct O as (O1 & O2 & O3 & O4 & sigs & HL & Q1 & Q2 & Q3).
  assert (P : forall r', proc (slot_of nd' r') = proc (slot_of nd r')).
  { intros r'. destruct (decide (r' = r)) as [-> |]; [congruence |]. apply key_proc, (al_key _ _ _ A). congruence. }
  assert (K : forall b n r', bnodes s !! b = Some n -> (b <> a \/ r' <> r) ->
    slot_ok x b (name (hdr n)) r' (slot_of n r') (allProcs s) (live (watch (log (killed (pid pr) sig s))))).
  { intros b n r' Hb Hne. pose proof (b_slot _ _ B b n r' Hb) as S. unfold slot_ok in *. destruct (proc (slot_of n r')) as [p' |] eqn:Ep; [| done].
    destruct S as (S1 & S2 & pr' & S3 & (T1 & T2 & T3 & T4 & sigs' & T5 & T6)). split; [done |]. split; [done |]. exists pr'. split; [done |].
    repeat split; try done. exists sigs'. rewrite live_killed. rewrite decide_False; [done |]. intros Epid.
    destruct (pid_apart _ _ _ _ _ _ _ _ _ _ _ _ B Hb Hnd Ep Hp S3 Hpr Epid). naive_solver. }
  eapply (base_change x s _ _ a nd nd' B); try done.
  - apply A.
  - eapply node_ok_like, (b_nodes _ _ B a); [exact A | | done]. intros r'. destruct (decide (r' = r)) as [-> |]; [congruence |].
    apply key_running, (al_key _ _ _ A). congruence.
  - exact (proj2 (b_addr _ _ B)).
  - exact (b_procs _ _ B).
  - exact (b_out _ _ B).
  - exact (owner_kept _ _ _ _ _ B Hnd P).
  - intros r'. destruct (decide (r' = r)) as [-> |].
    + unfold slot_ok. rewrite Hp'. split; [done |]. split; [done |]. exists pr. split; [done |]. repeat split; try done.
      exists (sig :: sigs). change (live (viewed (touch a nd' (killed (pid pr) sig s) s))) with (live (watch (log (killed (pid pr) sig s)))).
      rewrite live_killed, decide_True, HL by done. split; [done |]. split; [by rewrite Hs' |]. split.
      * rewrite Hk, Q2, elem_of_cons. intuition congruence.
      * intros _. rewrite elem_of_cons. destruct Hsig as [-> | Hsd]; [by left | right; auto].
    + eapply slot_ok_key; [apply (al_key _ _ _ A); congruence |]. apply K; [done | by right].
  - intros b n r' Hne Hb. apply K; [done | by left].
  - intros q. change (live (viewed (touch a nd' (killed (pid pr) sig s) s))) with (live (watch (log (killed (pid pr) sig s)))).
    rewrite live_killed. case_decide; [subst; rewrite fmap_is_Some |]; apply (b_live _ _ B).
  - intros q. change (live (viewed (touch a nd' (killed (pid pr) sig s) s))) with (live (watch (log (killed (pid pr) sig s)))).
    change (children (os (touch a nd' (killed (pid pr) sig s) s))) with (children (os s)).
    rewrite live_killed, (b_kids _ _ B). case_decide; [subst; by rewrite fmap_is_Some | done].
  - exact (b_spawns _ _ B).
  - split; [| apply (b_prot _ _ B)]. exists (Pinfo (name (hdr nd)) (coreName_of r) sigs). split; [done |]. cbn. intros ->.
    apply Q1. destruct Hsig as [Hsig |]; [by destruct r | done].
Qed.

Lemma sal_signal k s a nd nd' q sig : sal s -> bnodes s !! a = Some nd -> like k nd nd' -> (forall r, running (slot_of nd' r) = running (slot_of nd r)) ->
  needs nd' = needs nd -> sal (touch a nd' (killed q sig s) s).
Proof.
  intros [S1 S2 S3 S4] Hnd A E N. destruct A as [A1 A2 A3 A4 A5].
  split; [done.. | |]; cbn; intros b n Hb T; (destruct (decide (b = a)) as [-> |];
    [rewrite lookup_insert_eq in Hb; simplify_eq; rewrite ?E, N, ?A1; rewrite A2 in T; eauto | rewrite lookup_insert_ne in Hb by done; eauto]).
Qed.

(** ** A new process *)

Definition fork (n : string) (c : option string) (com : string) (q : Z) (l : list Z) (s : bos) : osys :=
  with_event (EvSpawn n c com q) (with_children (<[q := None]> (children (os s))) (with_spawns l (os s))).
Definition spawned (a : Z) (nd' : node) (n : string) (c : option string) (com : string) (q : Z) (l : list Z) (s : bos) : bos :=
  Bos (<[a := nd']> (bnodes s)) (allBnodes s) ((nextAddr s, BnodeProc a com c q 0 0 true false) :: allProcs s) (nextAddr s + 1)
    (weirdPids s) (emergency s) (fork n c com q l s).

Lemma elem_fst {A B} (x : A) (y : B) l : (x, y) ∈ l -> x ∈ l.*1.
Proof. intros H. apply list_elem_of_fmap. by exists (x, y). Qed.

Lemma spawn_allowed x s a nd nd' r q com : base x s -> bnodes s !! a = Some nd -> proc (slot_of nd r) = None -> like (Some r) nd nd' ->
  running (slot_of nd' r) = true -> node_ok nd' -> live (viewed s) !! q = None ->
  (coreName_of r = Some "file" -> types (name (hdr nd)) = T_fs -> name (hdr nd) ∉ unsalvaged (viewed s)) ->
  allowed (viewed s) (EvSpawn (name (hdr nd)) (coreName_of r) com q).
Proof.
  intros B Hnd Hp A Hr' Hok Hlive Hfile. split; [done |]. split; [| done].
  intros q' i Hi En. destruct (live_slot _ _ _ _ B Hi) as (b & m & r' & p & pr & Hm & Hr1 & _ & _ & En' & Ec & _).
  assert (b = a) as -> by (eapply (b_name _ _ B); [done.. | by rewrite En']). simplify_eq.
  assert (Hrr : r' <> r) by congruence. assert (Hrun : running (slot_of nd' r') = true).
  { rewrite (like_running _ _ _ _ A) by congruence. by destruct (slot_proc _ _ _ _ _ _ B Hnd Hr1) as (_ & ? & _). }
  rewrite <- Ec. split; [intros E; by apply coreName_inj in E |]. split.
  - intros E. assert (r' = R_salv) as -> by by apply coreName_inj. destruct (n_salv _ Hok Hrun) as [_ H]. rewrite H in Hr'; [done | congruence].
  - intros E. assert (r = R_salv) as -> by by apply coreName_inj. destruct (n_salv _ Hok Hr') as [_ H]. by rewrite H in Hrun.
Qed.

Lemma base_spawn x s a nd nd' r com q l : base x s -> bnodes s !! a = Some nd -> proc (slot_of nd r) = None ->
  spawns (os s) = q :: l -> q <> -1 -> like (Some r) nd nd' ->
  proc (slot_of nd' r) = Some (nextAddr s) -> running (slot_of nd' r) = true -> SDW (slot_of nd' r) = false -> killSent (slot_of nd' r) = false ->
  node_ok nd' -> (coreName_of r = Some "file" -> types (name (hdr nd)) = T_fs -> name (hdr nd) ∉ unsalvaged (viewed s)) ->
  base x (spawned a nd' (name (hdr nd)) (coreName_of r) com q l s).
Proof.
  intros B Hnd Hp Hq Hq1 A Hp' Hr' Hs' Hk Hok Hfile. set (n := name (hdr nd)).
  assert (Hlive : live (viewed s) !! q = None).
  { apply eq_None_not_Some. rewrite <- (b_kids _ _ B). destruct (b_spawns _ _ B) as [_ H]. rewrite (H q); [by intros [] | by rewrite Hq; left | done]. }
  assert (K : forall b m r', bnodes s !! b = Some m -> (b <> a \/ r' <> r) -> slot_ok x b (name (hdr m)) r' (slot_of m r')
    ((nextAddr s, BnodeProc a com (coreName_of r) q 0 0 true false) :: allProcs s) (<[q := Pinfo n (coreName_of r) []]> (live (viewed s)))).
  { intros b m r' Hb _. pose proof (b_slot _ _ B b m r' Hb) as S. unfold slot_ok in *. destruct (proc (slot_of m r')) as [p' |] eqn:Ep; [| done].
    destruct S as (S1 & S2 & pr' & S3 & (T1 & T2 & T3 & T4 & sigs' & T5 & T6)). split; [done |]. split; [done |]. exists pr'. split; [by right |].
    repeat split; try done. exists sigs'. rewrite lookup_insert_ne; [done |]. congruence. }
  assert (P : forall r', r' <> r -> proc (slot_of nd' r') = proc (slot_of nd r')).
  { intros r' Hr. apply key_proc, (al_key _ _ _ A). congruence. }
  eapply (base_change x s _ _ a nd nd' B); try done.
  - apply A.
  - cbn. lia.
  - cbn. intros p [-> | Hin]%elem_of_cons; [lia |]. pose proof (proj2 (b_addr _ _ B) p Hin). lia.
  - cbn. apply NoDup_cons. split; [| exact (b_procs _ _ B)]. intros Hin. pose proof (proj2 (b_addr _ _ B) _ Hin). lia.
  - cbn. intros p E. right. exact (b_out _ _ B p E).
  - cbn. intros p pr [E | Hin]%elem_of_cons Hx.
    + simplify_eq. cbn. exists nd', r. by rewrite lookup_insert_eq.
    + destruct (b_owner _ _ B p pr Hin Hx) as (m & r' & Hm & Hr1). destruct (decide (bnode_of pr = a)) as [Ea |].
      * subst a. simplify_eq. exists nd', r'. rewrite lookup_insert_eq. split; [done |]. rewrite P; [done |]. congruence.
      * exists m, r'. by rewrite lookup_insert_ne.
  - intros r'. destruct (decide (r' = r)) as [-> |].
    + unfold slot_ok. rewrite Hp'. split; [done |]. split.
      { intros <-. pose proof (b_out _ _ B _ eq_refl) as Hin. pose proof (proj2 (b_addr _ _ B) _ Hin). lia. }
      eexists. split; [by left |]. repeat split; try done. exists []. cbn. rewrite lookup_insert_eq, Hs', Hk.
      split; [done |]. split; [by split |]. split; [| done]. split; [done | by intros ?%elem_of_nil].
    + eapply slot_ok_key; [apply (al_key _ _ _ A); congruence |]. apply K; [done | by right].
  - intros b m r' Hne Hb. apply K; [done | by left].
  - cbn. intros q'. destruct (decide (q' = q)) as [-> |].
    + intros _. eexists _, _. split; [by left |]. split; [| done]. intros <-.
      pose proof (b_out _ _ B _ eq_refl) as Hin. pose proof (proj2 (b_addr _ _ B) _ Hin). lia.
    + rewrite lookup_insert_ne by done. intros H. destruct (b_live _ _ B q' H) as (p & pr & ? & ? & ?). exists p, pr. split; [by right | done].
  - cbn. intros q'. destruct (decide (q' = q)) as [-> |]; [rewrite !lookup_insert_eq; split; by eexists |].
    rewrite !lookup_insert_ne by done. apply (b_kids _ _ B).
  - destruct (b_spawns _ _ B) as [H1 H2]. rewrite Hq in H1, H2. rewrite filter_cons_True in H1 by done. apply NoDup_cons in H1 as [H1 H3].
    split; [done |]. cbn. intros p Hin Hp1. destruct (decide (p = q)) as [-> |].
    + destruct H1. apply list_elem_of_filter. done.
    + rewrite lookup_insert_ne by done. apply H2; [by right | done].
  - cbn. split; [| apply (b_prot _ _ B)]. exact (spawn_allowed x s a nd nd' r q com B Hnd Hp A Hr' Hok Hlive Hfile).
Qed.

(** The files do not change: the flags neither, if the file server and the salvager
    are only started when they say so. *)
Lemma sal_spawn s a nd nd' r com q l : sal s -> bnodes s !! a = Some nd -> like (Some r) nd nd' -> needs nd' = needs nd ->
  types (name (hdr nd)) = type_of nd -> (r = R_file -> type_of nd <> T_fs) ->
  (r = R_salv -> needs nd = true) -> sal (spawned a nd' (name (hdr nd)) (coreName_of r) com q l s).
Proof.
  intros [S1 S2 S3 S4] Hnd A N Ht Hr Hs. split; cbn.
  - done.
  - intros n. case_bool_decide as Ec; [| apply S2]. assert (r = R_file) as -> by by destruct r. intros [->%elem_of_singleton | Hn]%elem_of_union; [| by apply S2].
    rewrite Ht. intros E. by destruct Hr.
  - intros b n Hb T. destruct (decide (b = a)) as [-> |]; [| rewrite lookup_insert_ne in Hb by done; eauto].
    rewrite lookup_insert_eq in Hb. simplify_eq. rewrite N, (al_name _ _ _ A). rewrite (al_type _ _ _ A) in T. eauto.
  - intros b n Hb T. destruct (decide (b = a)) as [-> |]; [| rewrite lookup_insert_ne in Hb by done; eauto].
    rewrite lookup_insert_eq in Hb. simplify_eq. rewrite N. rewrite (al_type _ _ _ A) in T.
    destruct (decide (r = R_salv)) as [-> |]; [by intros _; apply Hs |]. destruct (decide (r = R_file)) as [-> |]; [by destruct Hr |].
    rewrite !(like_running _ _ _ _ A) by congruence. by apply (S4 a).
Qed.

(** ** The SALVAGE file *)

Definition flagged (v : bool) (nd : node) : node := on_fs (set_needsSalvage v) nd.
Lemma alike_flagged v nd : alike nd (flagged v nd).
Proof. split; unfold flagged, on_fs, type_of, cmd_of, is_fs, slot_of; by destruct (ops nd). Qed.
Lemma needs_flagged v nd : is_fs nd = true -> needs (flagged v nd) = v.
Proof. unfold is_fs, needs, flagged, on_fs. by destruct (ops nd). Qed.

(** The flag of an instance is set with its file, and what holds of the others stays so. *)
Lemma sal_flag x s s' a nd nd' v : base x s -> bnodes s !! a = Some nd -> can_create (os s') = true ->
  bnodes s' = <[a := nd']> (bnodes s) -> name (hdr nd') = name (hdr nd) -> needs nd' = v -> sal s ->
  salfiles (os s') = (if v then {[name (hdr nd)]} ∪ salfiles (os s) else salfiles (os s) ∖ {[name (hdr nd)]}) ->
  (forall n, n ∈ unsalvaged (viewed s') -> n = name (hdr nd) /\ v = true \/ n <> name (hdr nd) /\ n ∈ unsalvaged (viewed s)) ->
  (v = false -> running (slot_of nd' R_file) = false /\ running (slot_of nd' R_salv) = false) -> sal s'.
Proof.
  intros B Hnd Hc Eb En Ev [S1 S2 S3 S4] Ef Eu Er.
  assert (F : forall b n, b <> a -> bnodes s !! b = Some n -> bool_decide (name (hdr n) ∈ salfiles (os s')) = bool_decide (name (hdr n) ∈ salfiles (os s))).
  { intros b n Hne Hb. assert (name (hdr n) <> name (hdr nd)) by (intros E; by apply Hne, (b_name _ _ B b a n nd)).
    apply bool_decide_ext. rewrite Ef. destruct v; set_solver. }
  split; [done | | |].
  - intros n Hn Ht. rewrite Ef. destruct (Eu n Hn) as [[-> ->] | [Hne Hu]]; [set_solver |]. pose proof (S2 n Hu Ht). destruct v; set_solver.
  - rewrite Eb. intros b n Hb T. destruct (decide (b = a)) as [-> |].
    + rewrite lookup_insert_eq in Hb. injection Hb as <-. rewrite Ev, En, Ef. symmetry. destruct v; [apply bool_decide_true | apply bool_decide_false]; set_solver.
    + rewrite lookup_insert_ne in Hb by done. rewrite (F b) by done. eauto.
  - rewrite Eb. intros b n Hb T. destruct (decide (b = a)) as [-> |].
    + rewrite lookup_insert_eq in Hb. injection Hb as <-. rewrite Ev. destruct v; [done |]. destruct (Er eq_refl) as [-> ->]. by intros [].
    + rewrite lookup_insert_ne in Hb by done. eauto.
Qed.

(** ** A process that ended *)

Definition cleared (r : role) (nd : node) : node := on_slot r clear_slot nd.
Definition collect (q : Z) (st : wstatus) (s : bos) : osys := with_event (EvReap q st) (with_children (delete q (children (os s))) (os s)).

(** The slots that a bnode has. *)
Definition has_slot (nd : node) (r : role) : Prop := match ops nd with Fs _ => r <> R_main | Ez _ => r = R_main end.

Lemma running_has_slot nd r : running (slot_of nd r) = true -> has_slot nd r.
Proof. unfold has_slot, slot_of. destruct (ops nd); by destruct r. Qed.

Lemma slot_of_on_slot nd r g r' : has_slot nd r -> slot_of (on_slot r g nd) r' = if decide (r' = r) then g (slot_of nd r) else slot_of nd r'.
Proof.
  unfold has_slot, slot_of, on_slot. destruct (ops nd) as [f | e]; cbn.
  - intros H. case_decide as E; [subst; destruct r; try done; by rewrite fn_lookup_insert |].
    destruct r'; try done; by rewrite fn_lookup_insert_ne.
  - intros ->. case_decide as E; [by subst |]. by destruct r'.
Qed.

Lemma like_on_slot nd r g : has_slot nd r -> like (Some r) nd (on_slot r g nd).
Proof.
  intros H. split; try (by unfold on_slot, type_of, cmd_of, is_fs; destruct (ops nd)).
  intros r' Hr. rewrite slot_of_on_slot by done. rewrite decide_False by congruence. done.
Qed.
Lemma needs_on_slot nd r g : needs (on_slot r g nd) = needs nd.
Proof. unfold needs, on_slot. by destruct (ops nd). Qed.
Lemma hdr_on_slot nd r g : hdr (on_slot r g nd) = hdr nd.
Proof. done. Qed.

(** What a process leaves when its exit is seen: an empty slot, and its record with
    nothing to it. *)
Lemma base_reap s a nd r p pr st : base None s -> bnodes s !! a = Some nd -> proc (slot_of nd r) = Some p -> (p, pr) ∈ allProcs s ->
  base (Some p) (touch a (cleared r nd) (collect (pid pr) st s) s).
Proof.
  intros B Hnd Hp Hpr. destruct (slot_proc _ _ _ _ _ _ B Hnd Hp) as (_ & Hr & pr' & Hpr' & O).
  assert (pr' = pr) as -> by by eapply procs_unique. destruct O as (O1 & O2 & O3 & O4 & sigs & HL & _).
  pose proof (running_has_slot _ _ Hr) as Hv. pose proof (like_on_slot nd r clear_slot Hv) as A.
  assert (K : forall b n r', bnodes s !! b = Some n -> (b <> a \/ r' <> r) ->
    slot_ok (Some p) b (name (hdr n)) r' (slot_of n r') (allProcs s) (delete (pid pr) (live (viewed s)))).
  { intros b n r' Hb Hne. pose proof (b_slot _ _ B b n r' Hb) as S. unfold slot_ok in *. destruct (proc (slot_of n r')) as [p' |] eqn:Ep; [| done].
    destruct S as (S1 & _ & pr' & S3 & (T1 & T2 & T3 & T4 & sigs' & T5 & T6)). split; [done |]. split.
    { intros E. simplify_eq. destruct (slot_apart _ _ _ _ _ _ _ _ _ B Hb Hnd Ep Hp). naive_solver. }
    exists pr'. split; [done |]. repeat split; try done. exists sigs'. rewrite lookup_delete_ne; [done |]. intros Epid.
    destruct (pid_apart _ _ _ _ _ _ _ _ _ _ _ _ B Hnd Hb Hp Ep Hpr S3 Epid). naive_solver. }
  eapply (base_change None s _ _ a nd _ B); try done.
  - unfold cleared. destruct (b_nodes _ _ B a nd Hnd) as [N1 N2 N3 N5 N4]. split.
    + by rewrite (al_type _ _ _ A).
    + intros r' c. rewrite (al_cmd _ _ _ A). apply N2.
    + by rewrite (al_fs _ _ _ A), !(al_cmd _ _ _ A).
    + intros r'. rewrite slot_of_on_slot, (al_cmd _ _ _ A) by done. case_decide as E; [done | apply N5].
    + rewrite slot_of_on_slot, (al_type _ _ _ A) by done. case_decide as E; [done |]. intros H. destruct (N4 H) as [? R].
      split; [done |]. intros r' Hr'. rewrite slot_of_on_slot by done. case_decide; [done | by apply R].
  - exact (proj2 (b_addr _ _ B)).
  - exact (b_procs _ _ B).
  - intros p' E. injection E as <-. by eapply elem_fst.
  - intros p' pr' Hp' Hx. destruct (b_owner _ _ B p' pr' Hp') as (n & r' & Hn & Hr'); [done |]. cbn. destruct (decide (bnode_of pr' = a)) as [Ea |].
    + subst a. rewrite Ea in Hn. simplify_eq. exists (cleared r nd), r'. rewrite Ea, lookup_insert_eq. split; [done |]. unfold cleared. rewrite slot_of_on_slot by done.
      case_decide; [congruence | done].
    + exists n, r'. by rewrite lookup_insert_ne.
  - intros r'. unfold cleared. rewrite slot_of_on_slot by done. case_decide; [done |]. apply K; [done | by right].
  - intros b n r' Hne Hb. apply K; [done | by left].
  - cbn. intros q Hq. destruct (decide (q = pid pr)) as [-> |]; [rewrite lookup_delete_eq in Hq; by destruct Hq |].
    rewrite lookup_delete_ne in Hq by done. destruct (b_live _ _ B q Hq) as (p' & pr' & H1 & _ & H2). exists p', pr'. split; [done |].
    split; [| done]. intros E. simplify_eq. assert (pr' = pr) as -> by by eapply procs_unique. done.
  - cbn. intros q. destruct (decide (q = pid pr)) as [-> |].
    + rewrite !lookup_delete_eq. split; by intros [].
    + rewrite !lookup_delete_ne by done. apply (b_kids _ _ B).
  - destruct (b_spawns _ _ B) as [H1 H2]. split; [done |]. cbn. intros q Hin Hq. apply lookup_delete_None. right. by apply H2.
  - cbn. split; [| apply (b_prot _ _ B)]. eexists. exact HL.
Qed.
End types.
