(* ===== verification/BnodeExec.v ===== *)
(** What the operations that a bnode's handlers are made of do: they end without an
    access to what is not there, and keep the invariant. *)
From stdpp Require Import strings functions.
From S2P Require Import Prelude Monad BnodeParse Bnode BnodeSpec.

#[local] Open Scope monad_scope.
#[local] Open Scope string_scope.
#[local] Open Scope Z_scope.
#[local] Open Scope list_scope.

(** ** Total correctness *)

Definition wp {A} (m : SM bos A) (Q : A -> bos -> Prop) (s : bos) : Prop :=
  match m s with Some (x, s') => Q x s' | None => False end.

Lemma wp_bind {A B} (m : SM bos A) (k : A -> SM bos B) Q s : wp m (fun x s' => wp (k x) Q s') s -> wp (mbind_ m k) Q s.
Proof. unfold wp, mbind_. by destruct (m s) as [[x s'] |]. Qed.
Lemma wp_mono {A} (m : SM bos A) (Q Q' : A -> bos -> Prop) s : wp m Q s -> (forall x s', Q x s' -> Q' x s') -> wp m Q' s.
Proof. unfold wp. destruct (m s) as [[x s'] |]; eauto. Qed.
Lemma wp_ret {A} (x : A) (Q : A -> bos -> Prop) s : Q x s -> wp (ret x) Q s.
Proof. done. Qed.
Lemma wp_when c m (Q : unit -> bos -> Prop) s : (c = true -> wp m Q s) -> (c = false -> Q tt s) -> wp (when c m) Q s.
Proof. intros H1 H2. destruct c; [by apply H1 | by apply H2]. Qed.
Lemma wp_get a (Q : node -> bos -> Prop) s nd : bnodes s !! a = Some nd -> Q nd s -> wp (get a) Q s.
Proof. unfold wp, get. by intros ->. Qed.
Lemma wp_get_fs a (Q : fsbnode -> bos -> Prop) s nd f : bnodes s !! a = Some nd -> ops nd = Fs f -> Q f s -> wp (get_fs a) Q s.
Proof. unfold wp, get_fs, mbind_, get. intros -> ->. done. Qed.
Lemma wp_get_ez a (Q : ezbnode -> bos -> Prop) s nd e : bnodes s !! a = Some nd -> ops nd = Ez e -> Q e s -> wp (get_ez a) Q s.
Proof. unfold wp, get_ez, mbind_, get. intros -> ->. done. Qed.
Lemma wp_upd a f (Q : unit -> bos -> Prop) s nd : bnodes s !! a = Some nd -> Q tt (touch a (f nd) (os s) s) -> wp (upd a f) Q s.
Proof. unfold wp, upd, mbind_, get. intros ->. by destruct s. Qed.

(** ** What the handlers leave alone *)

Record hd_same (b b' : bnode) : Prop := {
  h_name : name b' = name b; h_ref : refCount b' = refCount b; h_del : DELETE b' = DELETE b; h_goal : goal b' = goal b;
  h_fgoal : fileGoal b' = fileGoal b; h_err : ERRORSTOP b' = ERRORSTOP b; h_rst : rsTime b' = rsTime b; h_rsc : rsCount b' = rsCount b
}.
Lemma hd_same_refl b : hd_same b b.
Proof. by split. Qed.
Lemma hd_same_trans b1 b2 b3 : hd_same b1 b2 -> hd_same b2 b3 -> hd_same b1 b3.
Proof. intros [] []. split; congruence. Qed.

Definition quiet (nd nd' : node) : Prop := ops nd' = ops nd /\ hd_same (hdr nd) (hdr nd').
Lemma quiet_refl nd : quiet nd nd.
Proof. split; [done | apply hd_same_refl]. Qed.
Lemma quiet_trans n1 n2 n3 : quiet n1 n2 -> quiet n2 n3 -> quiet n1 n3.
Proof. intros [E1 H1] [E2 H2]. split; [congruence | by eapply hd_same_trans]. Qed.
Lemma ops_like k nd nd' : ops nd' = ops nd -> name (hdr nd') = name (hdr nd) -> like k nd nd'.
Proof. intros E H. split; unfold type_of, cmd_of, is_fs, slot_of; by rewrite ?E. Qed.
Lemma quiet_like k nd nd' : quiet nd nd' -> like k nd nd'.
Proof. intros [E H]. apply ops_like; [done | apply H]. Qed.
Lemma quiet_needs nd nd' : quiet nd nd' -> needs nd' = needs nd.
Proof. intros [E _]. unfold needs. by rewrite E. Qed.
Lemma quiet_slot nd nd' r : quiet nd nd' -> slot_of nd' r = slot_of nd r.
Proof. intros [E _]. unfold slot_of. by rewrite E. Qed.

(** The other bnodes, the list of all, the time; processes are only added, and none is
    collected. *)
Record kept (a : Z) (s s' : bos) : Prop := {
  k_other : forall b, b <> a -> bnodes s' !! b = bnodes s !! b;
  k_list : allBnodes s' = allBnodes s;
  k_procs : exists new, allProcs s' = new ++ allProcs s;
  k_now : now (os s') = now (os s);
  k_kids : forall q v, children (os s) !! q = Some v -> children (os s') !! q = Some v
}.
Lemma kept_refl a s : kept a s s.
Proof. split; try done. by exists []. Qed.
Lemma kept_trans a s1 s2 s3 : kept a s1 s2 -> kept a s2 s3 -> kept a s1 s3.
Proof.
  intros [A1 A2 [l A3] A4 A5] [B1 B2 [l' B3] B4 B5]. split; [| congruence | | congruence | by auto].
  - intros b Hb. by rewrite B1, A1.
  - exists (l' ++ l). by rewrite B3, A3, app_assoc.
Qed.
Lemma kept_touch a nd o s : now o = now (os s) -> children o = children (os s) -> kept a s (touch a nd o s).
Proof. intros E Ek. split; try done; cbn; [intros b Hb; by rewrite lookup_insert_ne | by exists [] | by rewrite Ek]. Qed.
Lemma kept_spawned types x a nd n c com q l s : base types x s -> spawns (os s) = q :: l -> q <> -1 -> kept a s (spawned a nd n c com q l s).
Proof.
  intros B E Hq. split; try done; cbn; [intros b Hb; by rewrite lookup_insert_ne | by eexists [_] |].
  intros q' v Hv. rewrite lookup_insert_ne; [done |]. intros <-. destruct (b_spawns _ _ _ B) as [_ H]. rewrite (H q) in Hv; [done | rewrite E; by left | done].
Qed.

(** ** Signals *)

Section types.
Context (types : string -> btype).
Notation base := (base types).
Notation sal := (sal types).

Lemma get_proc_ok x s p pr : base x s -> (p, pr) ∈ allProcs s -> get_proc (Some p) s = Some (pr, s).
Proof.
  intros B H. unfold get_proc. cbn. destruct (list_find (fun x => x.1 = p) (allProcs s)) as [[i [p' pr']] |] eqn:E.
  - apply list_find_Some in E as (Hi & Ep & _). cbn in Ep. subst p'. assert (pr' = pr) as ->; [| done].
    eapply procs_unique; [exact B | by eapply list_elem_of_lookup_2 | done].
  - apply list_find_None in E. rewrite Forall_forall in E. by destruct (E _ H).
Qed.

Lemma Check_ok a s nd : bnodes s !! a = Some nd ->
  wp (bnode_Check a) (fun _ s' => exists nd', s' = touch a nd' (os s) s /\ quiet nd nd') s.
Proof.
  intros H. unfold bnode_Check. apply wp_bind, (wp_get _ _ _ _ H), wp_when; intros W.
  - apply (wp_upd _ _ _ _ _ H). eexists. split; [done |]. by split.
  - exists nd. by rewrite touch_id.
Qed.

Lemma SetTimeout_ok a t s nd : bnodes s !! a = Some nd ->
  wp (bnode_SetTimeout a t) (fun _ s' => exists nd', s' = touch a nd' (os s) s /\ quiet nd nd' /\ NEEDTIMEOUT (hdr nd') = negb (t =? 0)) s.
Proof.
  intros H. unfold bnode_SetTimeout. destruct (t =? 0); cbn [negb].
  - apply (wp_upd _ _ _ _ _ H). eexists. split; [done |]. by split; [split |].
  - apply wp_bind. cbn. apply (wp_upd _ _ _ _ _ H). eexists. split; [done |]. by split; [split |].
Qed.

Lemma StopProc_ok x s a nd r p pr sig : base x s -> bnodes s !! a = Some nd -> proc (slot_of nd r) = Some p -> (p, pr) ∈ allProcs s ->
  wp (bnode_StopProc (Some p) sig) (fun _ s' => exists nd', s' = touch a nd' (killed (pid pr) sig s) s /\ quiet nd nd') s.
Proof.
  intros B Hnd Hp Hpr. destruct (slot_proc _ _ _ _ _ _ _ B Hnd Hp) as (_ & _ & pr' & Hpr' & O).
  assert (pr' = pr) as -> by by eapply procs_unique. destruct O as (<- & _ & O3 & O4 & sigs & HL & _).
  assert (is_Some (children (os s) !! pid pr)) as Hk by (apply (b_kids _ _ _ B); eauto).
  unfold bnode_StopProc. apply wp_bind. unfold wp at 1. rewrite (get_proc_ok _ _ _ _ B Hpr), O3, O4. cbn [negb orb].
  apply wp_bind. unfold wp at 1, kill. rewrite decide_True by done. apply wp_bind.
  eapply wp_mono; [apply (Check_ok (bnode_of pr) _ nd); done |]. cbn. intros _ s' (nd' & -> & Q). exists nd'. split; [| done].
  unfold touch, with_os, with_bnodes. done.
Qed.

(** A process is asked to end, or killed, and that is noted. *)
Definition marked (r : role) (nd nd' : node) : Prop :=
  like (Some r) nd nd' /\ hd_same (hdr nd) (hdr nd') /\ needs nd' = needs nd
  /\ proc (slot_of nd' r) = proc (slot_of nd r) /\ running (slot_of nd' r) = running (slot_of nd r)
  /\ (SDW (slot_of nd r) = true -> SDW (slot_of nd' r) = true) /\ (killSent (slot_of nd r) = true -> killSent (slot_of nd' r) = true).

Lemma marked_refl r nd : marked r nd nd.
Proof. split; [apply like_refl |]. split; [apply hd_same_refl | done]. Qed.
Lemma marked_quiet r nd nd' : quiet nd nd' -> marked r nd nd'.
Proof.
  intros Q. split; [by apply quiet_like |]. split; [apply Q |]. split; [by apply quiet_needs |]. rewrite (quiet_slot _ _ _ Q). done.
Qed.
Lemma marked_running r nd nd' : marked r nd nd' -> forall r', running (slot_of nd' r') = running (slot_of nd r').
Proof.
  intros (A & _ & _ & _ & E & _) r'. destruct (decide (r' = r)) as [-> |]; [done |]. eapply like_running; [exact A | congruence].
Qed.
Lemma marked_proc r nd nd' : marked r nd nd' -> forall r', proc (slot_of nd' r') = proc (slot_of nd r').
Proof.
  intros (A & _ & _ & E & _) r'. destruct (decide (r' = r)) as [-> |]; [done |]. eapply like_proc; [exact A | congruence].
Qed.

(** The handlers' steps end with the invariant, the same bnodes and what is said of
    that bnode. *)
Definition good (x : option Z) (a : Z) (P : node -> Prop) (s s' : bos) : Prop :=
  base x s' /\ sal s' /\ kept a s s' /\ exists nd', bnodes s' !! a = Some nd' /\ P nd'.

Lemma signal_good x s a nd nd' r p pr sig : base x s -> sal s -> bnodes s !! a = Some nd -> proc (slot_of nd r) = Some p -> (p, pr) ∈ allProcs s ->
  marked r nd nd' -> SDW (slot_of nd' r) = true -> (killSent (slot_of nd' r) = true <-> sig = SIGKILL \/ killSent (slot_of nd r) = true) ->
  sig = term_signal r \/ SDW (slot_of nd r) = true -> good x a (fun n => n = nd') s (touch a nd' (killed (pid pr) sig s) s).
Proof.
  intros B S Hnd Hp Hpr M Hs Hk Hsig. pose proof (marked_running _ _ _ M) as E. destruct M as (A & Hh & N & P & R & _).
  destruct (slot_proc _ _ _ _ _ _ _ B Hnd Hp) as (_ & Hr & _).
  split; [| split; [| split]].
  - eapply base_signal; try done; congruence.
  - by eapply sal_signal.
  - by apply kept_touch.
  - exists nd'. split; [apply touch_get | done].
Qed.

Lemma on_fs_ops nd f g : ops nd = Fs f -> ops (on_fs g nd) = Fs (g f).
Proof. intros E. unfold on_fs. cbn. by rewrite E. Qed.
Lemma fs_slot nd f r : ops nd = Fs f -> r <> R_main -> slot_of nd r = slots f r.
Proof. unfold slot_of. intros -> H. by destruct r. Qed.

Lemma marked_timeSD r t nd : marked r nd (on_fs (set_timeSD t) nd).
Proof.
  unfold marked. split; [split; unfold on_fs, type_of, cmd_of, is_fs, slot_of; by destruct (ops nd) |].
  split; [apply hd_same_refl |]. unfold needs, on_fs, slot_of. by destruct (ops nd).
Qed.
Lemma marked_trans r n1 n2 n3 : marked r n1 n2 -> marked r n2 n3 -> marked r n1 n3.
Proof.
  intros (A1 & H1 & N1 & P1 & R1 & S1 & K1) (A2 & H2 & N2 & P2 & R2 & S2 & K2). split; [by eapply like_trans |].
  split; [by eapply hd_same_trans |]. split; [congruence |]. split; [congruence |]. split; [congruence |]. auto.
Qed.
Lemma marked_on_slot r g nd : has_slot nd r -> (forall sl, proc (g sl) = proc sl /\ running (g sl) = running sl /\
  (SDW sl = true -> SDW (g sl) = true) /\ (killSent sl = true -> killSent (g sl) = true)) -> marked r nd (on_slot r g nd).
Proof.
  intros H G. split; [by apply like_on_slot |]. split; [apply hd_same_refl |]. rewrite needs_on_slot, slot_of_on_slot, decide_True by done.
  split; [done |]. apply G.
Qed.
Lemma marked_has_slot r nd nd' r' : marked r nd nd' -> has_slot nd r' -> has_slot nd' r'.
Proof.
  intros (A & _). unfold has_slot. pose proof (al_fs _ _ _ A) as E. unfold is_fs in E. by destruct (ops nd), (ops nd').
Qed.
End types.
