(* ===== verification/BnodeNudge.v ===== *)
(** The handlers of the bnodes of type "fs" and "dafs": each keeps the invariant,
    and what it does to the processes. *)
From stdpp Require Import strings functions.
From S2P Require Import Prelude Monad BnodeParse Bnode BnodeSpec BnodeExec.

#[local] Open Scope monad_scope.
#[local] Open Scope string_scope.
#[local] Open Scope Z_scope.
#[local] Open Scope list_scope.

Section types.
Context (types : string -> btype).
Notation base := (base types).
Notation sal := (sal types).
Notation good := (good types).
Notation alike := (like None).

Lemma good_mono x a (P P' : node -> Prop) s s' : good x a P s s' -> (forall nd, P nd -> P' nd) -> good x a P' s s'.
Proof. intros (B & S & K & nd & H & HP) HI. split; [done |]. split; [done |]. split; [done |]. exists nd. auto. Qed.
Lemma good_trans x a P P' s1 s2 s3 : good x a P s1 s2 -> good x a P' s2 s3 -> good x a P' s1 s3.
Proof.
  intros (_ & _ & K & _) (B & S & K' & H). split; [done |]. split; [done |]. split; [by eapply kept_trans | done].
Qed.
Lemma good_touch x a s nd nd' : base x s -> sal s -> bnodes s !! a = Some nd -> alike nd nd' -> needs nd' = needs nd ->
  good x a (fun n => n = nd') s (touch a nd' (os s) s).
Proof.
  intros B S H A N. split; [by eapply base_alike |]. split; [by eapply sal_alike |]. split; [by apply kept_touch |].
  exists nd'. split; [apply touch_get | done].
Qed.
Lemma good_refl x a s nd : base x s -> sal s -> bnodes s !! a = Some nd -> good x a (fun n => n = nd) s s.
Proof. intros B S H. split; [done |]. split; [done |]. split; [apply kept_refl |]. eauto. Qed.

(** A stage follows another: what it needs of the bnode is what that left. *)
Lemma good_seq {A B} x a (P Q : node -> Prop) (m : SM bos A) (k : A -> SM bos B) s :
  wp m (fun _ s' => good x a P s s') s ->
  (forall y s' nd, base x s' -> sal s' -> kept a s s' -> bnodes s' !! a = Some nd -> P nd -> wp (k y) (fun _ s'' => good x a Q s' s'') s') ->
  wp (mbind_ m k) (fun _ s' => good x a Q s s') s.
Proof.
  intros Hm Hk. apply wp_bind. eapply wp_mono; [exact Hm |]. cbn. intros y s' (Bs & S & K & nd & Hnd & HP).
  eapply wp_mono; [by eapply Hk |]. cbn. intros _ s'' G. eapply good_trans; [| exact G]. split; [done |]. split; [done |]. split; [done |]. by exists nd.
Qed.

(** The record of the process of a slot. *)
Lemma slot_record x s a nd r : base x s -> bnodes s !! a = Some nd -> running (slot_of nd r) = true ->
  exists p pr, proc (slot_of nd r) = Some p /\ (p, pr) ∈ allProcs s.
Proof.
  intros B H R. pose proof (b_slot _ _ _ B _ _ r H) as S. unfold slot_ok in S. destruct (proc (slot_of nd r)) as [p |]; [| by destruct S; congruence].
  destruct S as (_ & _ & pr & Hpr & _). eauto.
Qed.

(** ** Stopping *)

(** Only slots in the way of [r] are marked: a shorthand for what is left to say. *)
Definition stopped (r : role) (nd nd' : node) : Prop := marked r nd nd' /\ (running (slot_of nd r) = true -> SDW (slot_of nd' r) = true).

Lemma slot_idle_or x s a nd r : base x s -> bnodes s !! a = Some nd -> SDW (slot_of nd r) = true -> running (slot_of nd r) = true.
Proof.
  intros B H D. pose proof (b_slot _ _ _ B _ _ r H) as S. unfold slot_ok in S. destruct (proc (slot_of nd r)); [by destruct S | destruct S as (_ & E & _); congruence].
Qed.

Lemma set_SDW_marks sl : proc (set_SDW sl) = proc sl /\ running (set_SDW sl) = running sl /\
  (SDW sl = true -> SDW (set_SDW sl) = true) /\ (killSent sl = true -> killSent (set_SDW sl) = true).
Proof. done. Qed.
Lemma set_killSent_marks sl : proc (set_killSent sl) = proc sl /\ running (set_killSent sl) = running sl /\
  (SDW sl = true -> SDW (set_killSent sl) = true) /\ (killSent sl = true -> killSent (set_killSent sl) = true).
Proof. done. Qed.

Lemma set_SDW_kill r sl : killSent (set_SDW sl) = true <-> term_signal r = SIGKILL \/ killSent sl = true.
Proof. split; [by right | intros [H | H]; [by destruct r | done]]. Qed.

Lemma slot_timeSD t nd r : slot_of (on_fs (set_timeSD t) nd) r = slot_of nd r.
Proof. unfold on_fs, slot_of. by destruct (ops nd). Qed.

(** The slot of a running process is changed, after what does not concern it. *)
Lemma slot_marked r g nd nd1 : marked r nd nd1 -> running (slot_of nd r) = true -> slot_of nd1 r = slot_of nd r ->
  (forall sl, proc (g sl) = proc sl /\ running (g sl) = running sl /\ (SDW sl = true -> SDW (g sl) = true) /\ (killSent sl = true -> killSent (g sl) = true)) ->
  marked r nd (on_slot r g nd1) /\ slot_of (on_slot r g nd1) r = g (slot_of nd r).
Proof.
  intros M R E G. assert (V : has_slot nd1 r) by (eapply marked_has_slot; [exact M | by apply running_has_slot]).
  split; [eapply marked_trans; [exact M | by apply marked_on_slot] |]. by rewrite slot_of_on_slot, decide_True, E.
Qed.

Lemma stop_ok x s a nd f r t : base x s -> sal s -> bnodes s !! a = Some nd -> ops nd = Fs f -> r <> R_main ->
  wp (stop a r t) (fun _ s' => good x a (stopped r nd) s s') s.
Proof.
  intros B S Hnd Hf Hr. unfold stop. apply wp_bind, (wp_get_fs _ _ _ _ _ Hnd Hf). rewrite <- (fs_slot nd f r) by done.
  apply wp_when; intros C; bool_hyps.
  - destruct (slot_record _ _ _ _ _ B Hnd H) as (p & pr & Hp & Hpr). rewrite Hp. apply wp_bind.
    eapply wp_mono; [by eapply StopProc_ok |]. cbn. intros _ s1 (nd1 & -> & Q). apply wp_bind.
    apply (wp_upd _ _ _ _ _ (touch_get _ _ _ _)). apply (wp_upd _ _ _ _ _ (touch_get _ _ _ _)). rewrite !touch_touch. cbn [os touch with_os with_bnodes].
    destruct (slot_marked r set_SDW nd nd1) as [M E]; [by apply marked_quiet | done | by apply quiet_slot | apply set_SDW_marks |].
    eapply good_mono; [eapply signal_good with (sig := term_signal r); [done.. | | | |] |].
    + eapply marked_trans; [exact M | apply marked_timeSD].
    + by rewrite slot_timeSD, E.
    + by rewrite slot_timeSD, E, <- set_SDW_kill.
    + by left.
    + cbn. intros n ->. split; [eapply marked_trans; [exact M | apply marked_timeSD] |]. intros _. by rewrite slot_timeSD, E.
  - eapply good_mono; [by apply (good_refl x a s nd) |]. intros n ->. split; [apply marked_refl |]. intros R. rewrite R in C. cbn in C. by destruct (SDW (slot_of nd r)).
Qed.

Lemma evict_ok x s a nd f r t : base x s -> sal s -> bnodes s !! a = Some nd -> ops nd = Fs f -> r <> R_main ->
  wp (evict a r t) (fun _ s' => good x a (stopped r nd) s s') s.
Proof.
  intros B S Hnd Hf Hr. unfold evict. apply wp_bind, (wp_get_fs _ _ _ _ _ Hnd Hf). rewrite <- (fs_slot nd f r) by done.
  apply wp_when; intros C.
  - destruct (slot_record _ _ _ _ _ B Hnd C) as (p & pr & Hp & Hpr). rewrite Hp. apply wp_bind.
    eapply wp_mono; [by eapply StopProc_ok |]. cbn. intros _ s1 (nd1 & -> & Q).
    apply wp_bind, (wp_get_fs _ _ _ _ f (touch_get _ _ _ _)); [by rewrite (proj1 Q) |].
    apply wp_bind. eapply wp_mono with (Q := fun _ s' => exists nd2, s' = touch a nd2 (killed (pid pr) (term_signal r) s) s
      /\ marked r nd nd2 /\ slot_of nd2 r = slot_of nd r).
    { apply wp_when; intros _.
      - apply (wp_upd _ _ _ _ _ (touch_get _ _ _ _)). rewrite touch_touch. eexists. split; [done |].
        split; [eapply marked_trans; [by apply marked_quiet | apply marked_timeSD] |]. rewrite slot_timeSD. by apply quiet_slot.
      - exists nd1. split; [done |]. split; [by apply marked_quiet | by apply quiet_slot]. }
    cbn. intros _ s2 (nd2 & -> & M2 & E2). apply (wp_upd _ _ _ _ _ (touch_get _ _ _ _)). rewrite !touch_touch. cbn [os touch with_os with_bnodes].
    destruct (slot_marked r set_SDW nd nd2) as [M E]; [done.. | apply set_SDW_marks |].
    eapply good_mono; [eapply signal_good with (sig := term_signal r); [done.. | exact M | | |] |].
    + by rewrite E.
    + by rewrite E, <- set_SDW_kill.
    + by left.
    + cbn. intros n ->. split; [exact M |]. intros _. by rewrite E.
  - eapply good_mono; [by apply (good_refl x a s nd) |]. intros n ->. split; [apply marked_refl |]. congruence.
Qed.

(** A process that was asked to end and is late is killed. *)
Definition overdue (nd : node) (r : role) (t limit : Z) : bool :=
  match ops nd with Fs f => SDW (slots f r) && (limit <? s32 (t - timeSDStarted f)) | Ez _ => false end.

Lemma kill_late_ok x s a nd f r t limit : base x s -> sal s -> bnodes s !! a = Some nd -> ops nd = Fs f -> r <> R_main ->
  wp (kill_late a r t limit) (fun _ s' => good x a (fun nd' => marked r nd nd' /\ (overdue nd r t limit = true -> killSent (slot_of nd' r) = true)
    /\ exists f', ops nd' = Fs f' /\ timeSDStarted f' = timeSDStarted f /\ (forall r', SDW (slots f' r') = SDW (slots f r'))) s s') s.
Proof.
  intros B S Hnd Hf Hr. unfold kill_late. apply wp_bind, (wp_get_fs _ _ _ _ _ Hnd Hf).
  apply wp_when; intros C; rewrite <- (fs_slot nd f r) in C by done.
  - bool_hyps. rewrite <- (fs_slot nd f r) by done. pose proof (slot_idle_or _ _ _ _ _ B Hnd H) as R.
    destruct (slot_record _ _ _ _ _ B Hnd R) as (p & pr & Hp & Hpr). rewrite Hp. apply wp_bind.
    eapply wp_mono; [by eapply StopProc_ok |]. cbn. intros _ s1 (nd1 & -> & Q).
    apply (wp_upd _ _ _ _ _ (touch_get _ _ _ _)). rewrite !touch_touch. cbn [os touch with_os with_bnodes].
    destruct (slot_marked r set_killSent nd nd1) as [M E]; [by apply marked_quiet | done | by apply quiet_slot | apply set_killSent_marks |].
    eapply good_mono; [eapply signal_good with (sig := SIGKILL); [done.. | exact M | | |] |].
    + by rewrite E.
    + rewrite E. cbn. split; [by left | done].
    + by right.
    + cbn. intros n ->. split; [exact M |]. split; [by rewrite E |]. unfold on_slot. cbn. rewrite (proj1 Q), Hf. eexists. split; [done |]. split; [done |].
      intros r'. cbn. destruct (decide (r' = r)) as [-> |]; [by rewrite fn_lookup_insert | by rewrite fn_lookup_insert_ne].
  - eapply good_mono; [by apply (good_refl x a s nd) |]. intros n ->. split; [apply marked_refl |]. split; [| by exists f].
    unfold overdue. rewrite Hf, <- (fs_slot nd f r) by done. intros O. bool_hyps. rewrite H in C.
    destruct (killSent (slot_of nd r)); [done |]. cbn in C. destruct (Z.ltb_spec limit (s32 (t - timeSDStarted f))); [done | lia].
Qed.

(** ** The clock *)

Definition needs_clock (nd : node) : bool :=
  match ops nd with
  | Fs f =>
      if (goal (hdr nd) =? 1) && all_up f then false
      else if (goal (hdr nd) =? 0) && negb (running (slots f R_file)) && negb (running (slots f R_vol))
        && negb (running (slots f R_salv)) && negb (running (slots f R_scan)) && negb (running (slots f R_salsrv)) then false
      else true
  | Ez _ => false
  end.

Definition clocked (nd nd' : node) : Prop :=
  alike nd nd' /\ hd_same (hdr nd) (hdr nd') /\ needs nd' = needs nd /\ (forall r, slot_of nd' r = slot_of nd r)
  /\ NEEDTIMEOUT (hdr nd') = needs_clock nd.

Lemma alike_needsClock b nd : alike nd (on_fs (set_needsClock b) nd).
Proof. split; unfold on_fs, type_of, cmd_of, is_fs, slot_of; by destruct (ops nd). Qed.

Lemma SetNeedsClock_ok x s a nd f : base x s -> sal s -> bnodes s !! a = Some nd -> ops nd = Fs f ->
  wp (SetNeedsClock a) (fun _ s' => good x a (clocked nd) s s') s.
Proof.
  intros B S Hnd Hf. unfold SetNeedsClock, clocked. apply wp_bind, (wp_get _ _ _ _ Hnd), wp_bind, (wp_get_fs _ _ _ _ _ Hnd Hf).
  assert (E : needs_clock nd = if (goal (hdr nd) =? 1) && all_up f then false
      else if (goal (hdr nd) =? 0) && negb (running (slots f R_file)) && negb (running (slots f R_vol))
        && negb (running (slots f R_salv)) && negb (running (slots f R_scan)) && negb (running (slots f R_salsrv)) then false
      else true) by (unfold needs_clock; by rewrite Hf).
  rewrite <- E. set (c := needs_clock nd). clearbody c. apply wp_bind, (wp_upd _ _ _ _ _ Hnd). set (nd1 := on_fs (set_needsClock c) nd).
  assert (forall nd2, quiet nd1 nd2 -> NEEDTIMEOUT (hdr nd2) = c -> good x a (fun nd' => alike nd nd' /\ hd_same (hdr nd) (hdr nd') /\ needs nd' = needs nd
      /\ (forall r, slot_of nd' r = slot_of nd r) /\ NEEDTIMEOUT (hdr nd') = c) s (touch a nd2 (os s) s)) as Done.
  { intros nd2 Q Hc. assert (alike nd nd2) as A by (eapply like_trans; [apply alike_needsClock | by apply (quiet_like _ nd1)]).
    assert (needs nd2 = needs nd) as N by (rewrite (quiet_needs _ _ Q); unfold nd1, needs, on_fs; by destruct (ops nd)).
    eapply good_mono; [by apply (good_touch x a s nd nd2) |]. intros n ->. split; [done |]. split; [apply Q |]. split; [done |]. split; [| done].
    intros r. rewrite (quiet_slot _ _ _ Q). unfold nd1, slot_of, on_fs. by destruct (ops nd). }
  apply wp_bind. unfold bnode_PendingTimeout. apply wp_bind, (wp_get _ _ _ _ (touch_get _ _ _ _)), wp_ret, wp_bind.
  eapply wp_mono with (Q := fun _ s' => exists nd2, s' = touch a nd2 (os s) s /\ quiet nd1 nd2 /\ (c = true -> NEEDTIMEOUT (hdr nd2) = true)).
  { apply wp_when; intros C.
    - eapply wp_mono; [apply (SetTimeout_ok _ _ _ _ (touch_get _ _ _ _)) |]. cbn. intros _ s' (nd2 & -> & Q & T). rewrite touch_touch. eauto.
    - exists nd1. split; [done |]. split; [apply quiet_refl |]. intros ->. change (hdr nd1) with (hdr nd) in *. by destruct (NEEDTIMEOUT (hdr nd)). }
  cbn beta. intros _ s1 (nd2 & -> & Q & T). apply wp_when; intros C.
  - eapply wp_mono; [apply (SetTimeout_ok _ _ _ _ (touch_get _ _ _ _)) |]. cbn. intros _ s' (nd3 & -> & Q' & T'). rewrite touch_touch.
    apply Done; [by eapply quiet_trans |]. rewrite T'. by destruct c.
  - apply Done; [done |]. destruct c; [by apply T | done].
Qed.

(** ** Starting *)

Lemma NewProc_ok x s a nd c core : base x s -> bnodes s !! a = Some nd -> good_cmd c ->
  wp (bnode_NewProc a c core) (fun res s' => exists nd', quiet nd nd' /\
    match res with
    | Some tp => exists q l, tp = nextAddr s /\ spawns (os s) = q :: l /\ q <> -1 /\ s' = spawned a nd' (name (hdr nd)) core c q l s
    | None => exists l, s' = touch a nd' (with_spawns l (os s)) s /\ (spawns (os s) = l \/ spawns (os s) = -1 :: l)
    end) s.
Proof.
  intros B Hnd (w & ws & Hc). unfold bnode_NewProc. rewrite Hc. apply wp_bind, (wp_get _ _ _ _ Hnd), wp_bind. unfold wp at 1. cbn.
  apply wp_bind, (wp_upd _ _ _ _ _ Hnd). set (nd1 := on_hdr _ nd). assert (Q : quiet nd nd1) by by split. clearbody nd1.
  apply wp_bind. unfold wp at 1, spawnprocve. cbn [os touch with_os with_bnodes]. destruct (spawns (os s)) as [| q l] eqn:E.
  - cbn [Z.eqb Pos.eqb]. apply wp_ret. exists nd1. split; [done |]. exists []. split; [| by left].
    assert (with_spawns [] (os s) = os s) as -> by (destruct (os s); cbn in *; by subst). done.
  - destruct (Z.eqb_spec q (-1)) as [-> | Hq].
    + apply wp_ret. exists nd1. split; [done |]. exists l. split; [done | by right].
    + rewrite (proj2 (Z.eqb_neq q (-1))) by done. apply wp_bind. unfold wp at 1. cbn. apply wp_bind. unfold wp at 1. cbn. apply wp_bind.
      eapply wp_mono; [apply (Check_ok a _ nd1); apply lookup_insert_eq |]. cbn. intros _ s' (nd2 & -> & Q2).
      exists nd2. split; [by eapply quiet_trans |]. exists q, l. split; [done |]. split; [done |]. split; [done |].
      unfold touch, spawned, with_os, with_bnodes, with_addr, with_procs. cbn. by rewrite insert_insert_eq.
Qed.
End types.
