(* ===== verification/BnodeFs.v ===== *)
(** The bnodes of type "fs" and "dafs": what starting a process does, and the
    handlers as a whole. *)
From stdpp Require Import strings functions.
From S2P Require Import Prelude Monad BnodeParse Bnode BnodeSpec BnodeExec BnodeNudge.

#[local] Open Scope monad_scope.
#[local] Open Scope string_scope.
#[local] Open Scope Z_scope.
#[local] Open Scope list_scope.

Section types.
Context (types : string -> btype).
Notation base := (base types).
Notation sal := (sal types).
Notation good := (good types).
Notation alike := (like None).

(** ** The system goes on *)

Lemma base_os x s o : base x s -> log o = log (os s) -> (forall q, is_Some (children o !! q) <-> is_Some (children (os s) !! q)) ->
  spawns_ok o -> base x (with_os o s).
Proof.
  intros [B1 B2 B3 B4 B5 B6 B7 B8 B9 B10 B11 B12 B13] El Ek Es.
  assert (E : viewed (with_os o s) = viewed s) by (unfold viewed; cbn; by rewrite El). split; try done.
  - intros a nd r H. rewrite E. by apply B7.
  - intros q. rewrite E. apply B8.
  - intros q. rewrite E. cbn. rewrite Ek. apply B9.
  - cbn. by rewrite El.
Qed.
Lemma sal_os s o : sal s -> log o = log (os s) -> salfiles o = salfiles (os s) -> can_create o = can_create (os s) -> sal (with_os o s).
Proof.
  intros [S1 S2 S3 S4] El Ef Ec. assert (E : viewed (with_os o s) = viewed s) by (unfold viewed; cbn; by rewrite El).
  split; rewrite ?E; cbn; rewrite ?Ef, ?Ec; done.
Qed.

Lemma spawns_used o l : spawns_ok o -> spawns o = l \/ spawns o = -1 :: l -> spawns_ok (with_spawns l o).
Proof.
  intros [H1 H2] [E | E]; rewrite E in H1, H2; split; cbn; try done.
  - intros p Hp. apply H2. by right.
Qed.

Lemma good_unstarted x s a nd nd' l : base x s -> sal s -> bnodes s !! a = Some nd -> alike nd nd' -> needs nd' = needs nd ->
  spawns (os s) = l \/ spawns (os s) = -1 :: l -> good x a (fun n => n = nd') s (touch a nd' (with_spawns l (os s)) s).
Proof.
  intros B S Hnd A N E. destruct (good_touch types x a s nd nd' B S Hnd A N) as (B' & S' & _ & _).
  split; [exact (base_os _ _ (with_spawns l (os s)) B' eq_refl (fun _ => iff_refl _) (spawns_used _ _ (b_spawns _ _ _ B) E)) |].
  split; [exact (sal_os _ (with_spawns l (os s)) S' eq_refl eq_refl eq_refl) |]. split; [exact (kept_touch a nd' (with_spawns l (os s)) s eq_refl eq_refl) |]. exists nd'. split; [apply touch_get | done].
Qed.

(** ** Starting a process *)

(** What it leaves of the bnode, whether or not the process was started. *)
Definition begun (r : role) (nd nd' : node) : Prop :=
  like (Some r) nd nd' /\ hd_same (hdr nd) (hdr nd') /\ needs nd' = needs nd
  /\ (running (slot_of nd r) = true -> key (slot_of nd' r) = key (slot_of nd r)).

Lemma begun_like r nd nd' : begun r nd nd' -> like (Some r) nd nd'.
Proof. by intros []. Qed.

Lemma slot_lastStart r t nd : has_slot nd r -> alike nd (on_slot r (set_lastStart t) nd).
Proof.
  intros H. split; try apply (like_on_slot nd r (set_lastStart t) H). intros r' _. rewrite slot_of_on_slot by done. case_decide as E; [by subst | done].
Qed.

Lemma start_run x s a nd f r c : base x s -> bnodes s !! a = Some nd -> ops nd = Fs f -> r <> R_main -> proc (slot_of nd r) = None -> cmd f r = Some c ->
  wp (start a r) (fun ok s' => exists nd', begun r nd nd' /\ is_fs nd' = true /\
    if (ok : bool) then proc (slot_of nd' r) = Some (nextAddr s) /\ running (slot_of nd' r) = true /\ SDW (slot_of nd' r) = false /\ killSent (slot_of nd' r) = false
      /\ exists q l, spawns (os s) = q :: l /\ q <> -1 /\ s' = spawned a nd' (name (hdr nd)) (coreName_of r) c q l s
    else alike nd nd' /\ exists l, s' = touch a nd' (with_spawns l (os s)) s /\ (spawns (os s) = l \/ spawns (os s) = -1 :: l)) s.
Proof.
  intros B Hnd Hf Hr Hp Hc. pose proof (b_slot _ _ _ B _ _ r Hnd) as Sl. unfold slot_ok in Sl. rewrite Hp in Sl. destruct Sl as (Hrun & Hs & Hk).
  assert (V : has_slot nd r) by (unfold has_slot; by rewrite Hf).
  assert (Hgood : good_cmd c) by (apply (n_cmds _ _ (b_nodes _ _ _ B a nd Hnd) r); unfold cmd_of; by rewrite Hf).
  unfold start. apply wp_bind. cbn beta. apply wp_bind.
  eapply wp_mono with (Q := fun _ s1 => exists nd1, s1 = touch a nd1 (os s) s /\ alike nd nd1 /\ hd_same (hdr nd) (hdr nd1) /\ needs nd1 = needs nd
    /\ exists f1, ops nd1 = Fs f1 /\ cmd f1 = cmd f).
  { apply wp_when; intros _.
    - apply (wp_upd _ _ _ _ _ Hnd). eexists. split; [done |]. split; [by apply slot_lastStart |]. split; [apply hd_same_refl |]. split; [apply needs_on_slot |].
      unfold on_slot. cbn. rewrite Hf. by eexists.
    - exists nd. rewrite touch_id by done. split; [done |]. split; [apply like_refl |]. split; [apply hd_same_refl |]. split; [done |]. by exists f. }
  cbn beta. intros _ s1 (nd1 & -> & A1 & H1 & N1 & f1 & Hf1 & Ef1). apply wp_bind, (wp_get_fs _ _ _ _ _ (touch_get _ _ _ _) Hf1). rewrite Ef1, Hc.
  assert (B1 : base x (touch a nd1 (os s) s)) by by eapply base_alike.
  assert (V1 : has_slot nd1 r) by (unfold has_slot; by rewrite Hf1).
  assert (K1 : key (slot_of nd1 r) = key (slot_of nd r)) by by apply (al_key _ _ _ A1).
  apply wp_bind. eapply wp_mono; [apply (NewProc_ok _ _ _ _ _ _ _ B1 (touch_get _ _ _ _) Hgood) |]. cbn beta.
  intros [tp |] s2 (nd2 & Q & E).
  - destruct E as (q & l & -> & El & Hq & ->). assert (Q' : ops nd2 = ops nd1) by apply Q.
    assert (V2 : has_slot nd2 r) by (unfold has_slot; by rewrite Q', Hf1).
    apply wp_bind, (wp_upd _ _ _ _ nd2); [apply lookup_insert_eq |]. apply wp_ret. exists (on_slot r (set_running (nextAddr s)) nd2).
    assert (L : like (Some r) nd (on_slot r (set_running (nextAddr s)) nd2)).
    { eapply like_trans; [by apply like_weaken, A1 |]. eapply like_trans; [by apply quiet_like |]. by apply like_on_slot. }
    split; [split; [done |]; split; [eapply hd_same_trans; [exact H1 | apply Q] |]; split; [by rewrite needs_on_slot, (quiet_needs _ _ Q) | congruence] |].
    split; [unfold is_fs, on_slot; cbn; by rewrite Q', Hf1 |].
    rewrite !slot_of_on_slot, !decide_True, (quiet_slot _ _ _ Q) by done. unfold key in K1. injection K1 as _ _ K1 K2. cbn. rewrite K1, K2.
    split; [done |]. split; [done |]. split; [done |]. split; [done |]. exists q, l. split; [done |]. split; [done |].
    unfold touch, spawned, with_os, with_bnodes. cbn. rewrite (al_name _ _ _ A1), !insert_insert_eq. done.
  - destruct E as (l & -> & El). apply wp_ret. exists nd2. rewrite touch_touch.
    assert (L : alike nd nd2) by (eapply like_trans; [exact A1 | by apply quiet_like]).
    split; [split; [by apply like_weaken |]; split; [eapply hd_same_trans; [exact H1 | apply Q] |]; split; [by rewrite (quiet_needs _ _ Q) | congruence] |].
    split; [unfold is_fs; by rewrite (proj1 Q), Hf1 |]. split; [done |]. exists l. done.
Qed.

(** The salvager is not there, for another to start; or nothing else is, for it. *)
Definition may_start (nd : node) (r : role) : Prop := is_Some (cmd_of nd r) /\
  if decide (r = R_salv) then type_of nd = T_fs /\ needs nd = true /\ forall r', r' <> R_salv -> running (slot_of nd r') = false
  else running (slot_of nd R_salv) = false.

Lemma node_ok_begun r nd nd' : node_ok types nd -> begun r nd nd' -> may_start nd r -> node_ok types nd'.
Proof.
  intros [N1 N2 N3 N5 N4] (A & H & N & _) [Mc M]. split.
  - by rewrite (al_name _ _ _ A), (al_type _ _ _ A).
  - intros r' c. rewrite (al_cmd _ _ _ A). apply N2.
  - by rewrite (al_fs _ _ _ A), !(al_cmd _ _ _ A).
  - intros r'. rewrite (al_cmd _ _ _ A). destruct (decide (r' = r)) as [-> |]; [done |]. rewrite (like_running _ _ _ _ A) by congruence. apply N5.
  - rewrite (al_type _ _ _ A). case_decide as E.
    + subst r. intros _. split; [apply M |]. intros r' Hr'. rewrite (like_running _ _ _ _ A) by congruence. by apply M.
    + rewrite (like_running _ _ _ _ A) by congruence. congruence.
Qed.

Lemma start_good x s a nd f r c : base x s -> sal s -> bnodes s !! a = Some nd -> ops nd = Fs f -> r <> R_main -> r <> R_file ->
  running (slot_of nd r) = false -> cmd f r = Some c -> may_start nd r ->
  wp (start a r) (fun _ s' => good x a (begun r nd) s s') s.
Proof.
  intros B S Hnd Hf Hr Hr' Hrun Hc M. pose proof (b_slot _ _ _ B _ _ r Hnd) as Sl. unfold slot_ok in Sl.
  assert (proc (slot_of nd r) = None) as Hp by (destruct (proc (slot_of nd r)); [destruct Sl; congruence | done]).
  eapply wp_mono; [by eapply start_run |]. cbn beta. intros [] s' (nd' & Bg & _ & E).
  - destruct E as (E1 & E2 & E3 & E4 & q & l & El & Hq & ->). split; [| split; [| split]].
    + eapply base_spawn; try done; [apply Bg | by eapply node_ok_begun, M; [apply (b_nodes _ _ _ B a) |] |]. intros Ec. by destruct r.
    + eapply sal_spawn; try done; [apply Bg | apply Bg | exact (n_type _ _ (b_nodes _ _ _ B a nd Hnd)) |]. intros ->. destruct M as [_ M]. rewrite decide_True in M by done. tauto.
    + by eapply kept_spawned.
    + exists nd'. split; [apply lookup_insert_eq | done].
  - destruct E as (A & l & -> & El). eapply good_mono; [eapply good_unstarted; [done.. | exact A | apply Bg | done] |]. by intros n ->.
Qed.

Lemma start_idle_ok x s a nd f r : base x s -> sal s -> bnodes s !! a = Some nd -> ops nd = Fs f -> r <> R_main -> r <> R_file ->
  (is_Some (cmd_of nd r) -> may_start nd r) -> wp (start_idle a r) (fun _ s' => good x a (begun r nd) s s') s.
Proof.
  intros B S Hnd Hf Hr Hr' M. unfold start_idle. apply wp_bind, (wp_get_fs _ _ _ _ _ Hnd Hf). rewrite <- (fs_slot nd f r) by done.
  assert (good x a (begun r nd) s s) as Same.
  { eapply good_mono; [by apply (good_refl types x a s nd) |]. intros n ->. split; [apply like_refl |]. by split; [apply hd_same_refl |]. }
  apply wp_when; intros C; [| done]. apply andb_prop in C as [C1 C2]. apply negb_true_iff in C2. apply wp_bind.
  assert (exists c, cmd f r = Some c) as [c Hc].
  { pose proof (n_cmd _ _ (b_nodes _ _ _ B a nd Hnd)) as N. unfold is_fs, cmd_of in N. rewrite Hf in N. destruct N as (N1 & N2 & N3).
    destruct r; try done; unfold is_cmd in C1; destruct (cmd f _); eauto; try done; by destruct N2 || by destruct N3. }
  eapply wp_mono; [eapply start_good; [done.. | exact Hc | apply M] |]; [unfold cmd_of; rewrite Hf; by exists c |].
  cbn beta. intros _ s' G. by apply wp_ret.
Qed.

(** ** The file server *)

Lemma SetSalFlag_run a v s nd f : bnodes s !! a = Some nd -> ops nd = Fs f ->
  wp (SetSalFlag a v) (fun _ s' => s' = if is_cmd (cmd f R_salsrv) then s else
    touch a (flagged v nd) (with_salfiles (if v then (if can_create (os s) then {[name (hdr nd)]} ∪ salfiles (os s) else salfiles (os s))
      else salfiles (os s) ∖ {[name (hdr nd)]}) (os s)) s) s.
Proof.
  intros Hnd Hf. unfold SetSalFlag. apply wp_bind, (wp_get _ _ _ _ Hnd), wp_bind, (wp_get_fs _ _ _ _ _ Hnd Hf).
  apply wp_when; intros C; destruct (is_cmd (cmd f R_salsrv)); try done. apply wp_bind, (wp_upd _ _ _ _ _ Hnd). done.
Qed.

Lemma type_dafs nd f : ops nd = Fs f -> type_of nd = if is_cmd (cmd f R_salsrv) then T_dafs else T_fs.
Proof. unfold type_of. by intros ->. Qed.

(** The file server is started on clean partitions, or with demand attach, and its
    SALVAGE file made. *)
Lemma start_file_ok x s a nd f : base x s -> sal s -> bnodes s !! a = Some nd -> ops nd = Fs f ->
  needs nd = false \/ type_of nd = T_dafs -> running (slot_of nd R_salv) = false ->
  wp (start_file a) (fun _ s' => good x a (fun nd' => like (Some R_file) nd nd' /\ hd_same (hdr nd) (hdr nd')) s s') s.
Proof.
  intros B S Hnd Hf Hclean Hsalv. unfold start_file. apply wp_bind, (wp_get_fs _ _ _ _ _ Hnd Hf). rewrite <- (fs_slot nd f R_file) by done.
  assert (good x a (fun nd' => like (Some R_file) nd nd' /\ hd_same (hdr nd) (hdr nd')) s s) as Same.
  { eapply good_mono; [by apply (good_refl types x a s nd) |]. intros n ->. split; [apply like_refl | apply hd_same_refl]. }
  apply wp_when; intros C; [| done]. apply negb_true_iff in C. pose proof (b_slot _ _ _ B _ _ R_file Hnd) as Sl. unfold slot_ok in Sl.
  assert (proc (slot_of nd R_file) = None) as Hp by (destruct (proc (slot_of nd R_file)); [destruct Sl; congruence | done]).
  pose proof (b_nodes _ _ _ B a nd Hnd) as Nd. assert (exists c, cmd f R_file = Some c) as [c Hc].
  { pose proof (n_cmd _ _ Nd) as N. unfold is_fs, cmd_of in N. rewrite Hf in N. by destruct N as ([c Hc] & _); exists c. }
  assert (M : may_start nd R_file) by (split; [unfold cmd_of; rewrite Hf; by exists c | done]).
  apply wp_bind. eapply wp_mono; [by eapply start_run |]. cbn beta. intros [] s' (nd' & Bg & Hfs & E).
  - destruct E as (E1 & E2 & E3 & E4 & q & l & El & Hq & ->). unfold when.
    destruct (ops nd') as [f' |] eqn:Hf'; [| by unfold is_fs in Hfs; rewrite Hf' in Hfs].
    assert (base x (spawned a nd' (name (hdr nd)) (coreName_of R_file) c q l s)) as B'.
    { eapply base_spawn; try done; [apply Bg | by eapply node_ok_begun |]. intros _ Ht Hin.
      rewrite (n_type _ _ Nd) in Ht. destruct Hclean as [Hn | Hn]; [| congruence]. rewrite (s_flag _ _ S a nd Hnd Ht) in Hn.
      apply bool_decide_eq_false in Hn. apply Hn, (s_file _ _ S); [done |]. by rewrite (n_type _ _ Nd). }
    pose proof (begun_like _ _ _ Bg) as L. pose proof (al_type _ _ _ L) as Et. rewrite (type_dafs _ _ Hf') in Et.
    eapply wp_mono; [apply (SetSalFlag_run a true _ nd' f'); [apply lookup_insert_eq | done] |]. cbn beta. intros _ s'' ->.
    destruct (is_cmd (cmd f' R_salsrv)).
    + split; [done |]. split; [| split; [by eapply kept_spawned |]].
      * eapply sal_spawn; try done; [apply Bg | apply (n_type _ _ Nd) |]. by rewrite <- Et.
      * exists nd'. split; [apply lookup_insert_eq |]. split; [done | apply Bg].
    + pose proof (base_alike _ _ _ _ _ (flagged true nd') B' (lookup_insert_eq _ _ _) (alike_flagged _ _)) as B''.
      split; [| split; [| split]].
      * refine (base_os _ _ _ B'' _ _ _); [done | done |]. exact (b_spawns _ _ _ B').
      * eapply (sal_flag _ x s _ a nd (flagged true nd') true); try done.
        -- exact (s_create _ _ S).
        -- cbn. by rewrite insert_insert_eq.
        -- exact (al_name _ _ _ L).
        -- by apply needs_flagged.
        -- cbn. rewrite (s_create _ _ S), (al_name _ _ _ L). done.
        -- cbn. intros n [->%elem_of_singleton | Hn]%elem_of_union; [by left |]. destruct (decide (n = name (hdr nd))) as [-> |]; [by left | by right].
      * eapply kept_trans; [by eapply kept_spawned | by apply kept_touch].
      * exists (flagged true nd'). split; [apply touch_get |]. split; [| apply Bg].
        eapply like_trans; [exact L |]. apply like_weaken, alike_flagged.
  - destruct E as (A & l & -> & El). cbn [when]. apply wp_ret. eapply good_mono; [eapply good_unstarted; [done.. | exact A | apply Bg | done] |].
    intros n ->. split; apply Bg.
Qed.

(** ** Nudging *)

Definition same_kind (nd nd' : node) : Prop :=
  hd_same (hdr nd) (hdr nd') /\ type_of nd' = type_of nd /\ (forall r, cmd_of nd' r = cmd_of nd r) /\ is_fs nd' = is_fs nd.
Lemma same_kind_like k nd nd' : like k nd nd' -> hd_same (hdr nd) (hdr nd') -> same_kind nd nd'.
Proof. intros [A1 A2 A3 A4 A5] H. done. Qed.
Lemma same_kind_trans n1 n2 n3 : same_kind n1 n2 -> same_kind n2 n3 -> same_kind n1 n3.
Proof. intros (A1 & A2 & A3 & A4) (B1 & B2 & B3 & B4). split; [by eapply hd_same_trans |]. split; [congruence |]. split; [congruence | congruence]. Qed.
Lemma same_kind_fs nd nd' f : same_kind nd nd' -> ops nd = Fs f -> exists f', ops nd' = Fs f'.
Proof. intros (_ & _ & _ & E) Ef. unfold is_fs in E. rewrite Ef in E. destruct (ops nd'); [eauto | done]. Qed.

(** The processes are the same, and those of [rs] were asked to end. *)
Definition slots_told (rs : list role) (nd nd' : node) : Prop :=
  (forall r, proc (slot_of nd' r) = proc (slot_of nd r) /\ running (slot_of nd' r) = running (slot_of nd r)
    /\ (SDW (slot_of nd r) = true -> SDW (slot_of nd' r) = true) /\ (killSent (slot_of nd r) = true -> killSent (slot_of nd' r) = true))
  /\ forall r, r ∈ rs -> running (slot_of nd r) = true -> SDW (slot_of nd' r) = true.
Definition told (rs : list role) (nd nd' : node) : Prop := same_kind nd nd' /\ needs nd' = needs nd /\ slots_told rs nd nd'.

Lemma told_refl nd : told [] nd nd.
Proof. split; [by eapply same_kind_like, hd_same_refl; apply (like_refl None) |]. split; [done |]. split; [done |]. by intros r ?%elem_of_nil. Qed.
Lemma marked_told r nd nd' : marked r nd nd' -> told [] nd nd'.
Proof.
  intros M. pose proof M as (A & H & N & P & R & D & K). split; [by eapply same_kind_like |]. split; [done |]. split; [| by intros r' ?%elem_of_nil].
  intros r'. destruct (decide (r' = r)) as [-> |]; [done |]. pose proof (al_key _ _ _ A r' ltac:(congruence)) as E. unfold key in E.
  injection E as E1 E2 E3 E4. rewrite E1, E2, E3, E4. done.
Qed.
Lemma told_trans rs rs' n1 n2 n3 : told rs n1 n2 -> told rs' n2 n3 -> told (rs' ++ rs) n1 n3.
Proof.
  intros (S1 & N1 & R1 & T1) (S2 & N2 & R2 & T2). split; [by eapply same_kind_trans |]. split; [congruence |]. split.
  - intros r. destruct (R1 r) as (P1 & E1 & D1 & K1), (R2 r) as (P2 & E2 & D2 & K2). split; [congruence |]. split; [congruence |]. auto.
  - intros r [Hr | Hr]%elem_of_app H.
    + apply T2; [done |]. by rewrite (proj1 (proj2 (R1 r))).
    + by apply R2, T1.
Qed.
Lemma told_step r rs n1 n2 n3 : told rs n1 n2 -> stopped r n2 n3 -> told (r :: rs) n1 n3.
Proof.
  intros T [M D]. apply (told_trans rs [r] n1 n2 n3 T). pose proof (marked_told _ _ _ M) as (A & B & C & _). split; [done |]. split; [done |]. split; [done |].
  by intros r' ->%list_elem_of_singleton.
Qed.
Lemma clocked_told nd nd' : clocked nd nd' -> told [] nd nd'.
Proof.
  intros (A & H & N & E & _). split; [by eapply same_kind_like |]. split; [done |]. split; [| by intros r ?%elem_of_nil]. intros r. by rewrite E.
Qed.

(** A chain of stops: what is left of the handler, after those so far. *)
Lemma stop_seq x s a nd0 nd f r t rs Q (k : SM bos Z) : base x s -> sal s -> bnodes s !! a = Some nd -> ops nd0 = Fs f -> told rs nd0 nd -> r <> R_main ->
  (forall s' nd', base x s' -> sal s' -> bnodes s' !! a = Some nd' -> told (r :: rs) nd0 nd' -> wp k (fun _ s'' => good x a Q s' s'') s') ->
  wp (mbind_ (stop a r t) (fun _ => k)) (fun _ s' => good x a Q s s') s.
Proof.
  intros B S Hnd Hf T Hr Hk. destruct (same_kind_fs _ _ _ (proj1 T) Hf) as [f' Hf']. eapply good_seq; [by eapply stop_ok |]. cbn beta.
  intros _ s' nd' B' S' K' Hnd' St. eapply Hk; [done.. |]. by eapply told_step.
Qed.
Lemma evict_seq x s a nd0 nd f r t rs Q (k : SM bos Z) : base x s -> sal s -> bnodes s !! a = Some nd -> ops nd0 = Fs f -> told rs nd0 nd -> r <> R_main ->
  (forall s' nd', base x s' -> sal s' -> bnodes s' !! a = Some nd' -> told (r :: rs) nd0 nd' -> wp k (fun _ s'' => good x a Q s' s'') s') ->
  wp (mbind_ (evict a r t) (fun _ => k)) (fun _ s' => good x a Q s s') s.
Proof.
  intros B S Hnd Hf T Hr Hk. destruct (same_kind_fs _ _ _ (proj1 T) Hf) as [f' Hf']. eapply good_seq; [by eapply evict_ok |]. cbn beta.
  intros _ s' nd' B' S' K' Hnd' St. eapply Hk; [done.. |]. by eapply told_step.
Qed.

(** A chain of starts, while the salvager does not run. *)
Definition unsalvaging (nd nd' : node) : Prop := same_kind nd nd' /\ running (slot_of nd' R_salv) = false.

Lemma start_seq x s a nd0 nd f r Q (k : SM bos Z) : base x s -> sal s -> bnodes s !! a = Some nd -> ops nd0 = Fs f -> unsalvaging nd0 nd ->
  r ∈ [R_vol; R_salsrv; R_scan] ->
  (forall s' nd', base x s' -> sal s' -> bnodes s' !! a = Some nd' -> unsalvaging nd0 nd' -> wp k (fun _ s'' => good x a Q s' s'') s') ->
  wp (mbind_ (start_idle a r) (fun _ => k)) (fun _ s' => good x a Q s s') s.
Proof.
  intros B S Hnd Hf [St U] Hr Hk. destruct (same_kind_fs _ _ _ St Hf) as [f' Hf'].
  assert (r <> R_main /\ r <> R_file /\ r <> R_salv) as (N1 & N2 & N3) by (by destruct r; repeat (apply elem_of_cons in Hr as [Hr | Hr]; [done |]); apply elem_of_nil in Hr).
  eapply good_seq; [eapply start_idle_ok; [done.. |]; intros Hc; split; [done |]; by rewrite decide_False |]. cbn beta.
  intros _ s' nd' B' S' K' Hnd' (L & H & _). eapply Hk; [done.. |]. split; [eapply same_kind_trans; [exact St | by eapply same_kind_like] |].
  rewrite (like_running _ _ _ _ L) by congruence. done.
Qed.

(** What the handlers do when the bnode is to stop: every process was asked to end,
    none is started, and the clock runs as long as there is one. *)
Definition nudged (nd nd' : node) : Prop :=
  same_kind nd nd' /\ (goal (hdr nd) <> 1 -> slots_told [R_scan; R_salsrv; R_vol; R_file; R_salv] nd nd' /\ NEEDTIMEOUT (hdr nd') = needs_clock nd').

Lemma needs_clock_told nd nd' : same_kind nd nd' -> (forall r, running (slot_of nd' r) = running (slot_of nd r)) -> needs_clock nd' = needs_clock nd.
Proof.
  intros (H & Ht & Hc & Hf) Hr. unfold needs_clock, is_fs in *. destruct (ops nd) as [f |] eqn:E, (ops nd') as [f' |] eqn:E'; try done.
  assert (forall r, r <> R_main -> running (slots f' r) = running (slots f r)) as Es by (intros r Hm; rewrite <- !(fs_slot _ _ _ E), <- !(fs_slot _ _ _ E') by done; apply Hr).
  assert (forall r, cmd f' r = cmd f r) as Ec by (intros r; generalize (Hc r); unfold cmd_of; by rewrite E, E').
  unfold all_up. by rewrite !Es, !Ec, (h_goal _ _ H) by done.
Qed.

Lemma clock_end x s a nd0 nd f (P : node -> Prop) v : base x s -> sal s -> bnodes s !! a = Some nd -> ops nd0 = Fs f -> same_kind nd0 nd ->
  (forall nd', clocked nd nd' -> P nd') -> wp (SetNeedsClock a ;; ret v) (fun (_ : Z) s' => good x a P s s') s.
Proof.
  intros B S Hnd Hf St HP. destruct (same_kind_fs _ _ _ St Hf) as [f' Hf']. eapply good_seq; [by eapply SetNeedsClock_ok |].
  cbn beta. intros _ s' nd' B' S' K' Hnd' C. apply wp_ret. eapply good_mono; [by apply (good_refl types x a s' nd') |]. intros n ->. by apply HP.
Qed.

(** With the goal to run: not of the same kind in a name, the four ways there are. *)
Lemma Nudge_up x s a nd0 nd f Q : base x s -> sal s -> bnodes s !! a = Some nd -> ops nd0 = Fs f -> unsalvaging nd0 nd ->
  (forall nd', same_kind nd0 nd' -> Q nd') ->
  wp (start_idle a R_vol ;; start_idle a R_salsrv ;; start_idle a R_scan ;; SetNeedsClock a ;; ret 0) (fun _ s' => good x a Q s s') s.
Proof.
  intros B S Hnd Hf U HQ. eapply start_seq; [done.. | set_solver |]. intros s1 n1 B1 S1 H1 U1. eapply start_seq; [done.. | set_solver |].
  intros s2 n2 B2 S2 H2 U2. eapply start_seq; [done.. | set_solver |]. intros s3 n3 B3 S3 H3 U3.
  eapply clock_end; [done.. | apply U3 |]. intros n' (A & H & _). apply HQ. eapply same_kind_trans; [apply U3 | by eapply same_kind_like].
Qed.

Lemma running_salv_needs s a nd f : sal s -> base None s \/ (exists x, base x s) -> bnodes s !! a = Some nd -> ops nd = Fs f ->
  running (slot_of nd R_salv) = true -> needs nd = true /\ type_of nd = T_fs /\ running (slot_of nd R_file) = false.
Proof.
  intros S B Hnd Hf R. assert (exists x, base x s) as [x Bx] by (destruct B; eauto). destruct (n_salv _ _ (b_nodes _ _ _ Bx a nd Hnd) R) as [T E].
  split; [| split; [done | by apply E]]. apply (s_run _ _ S a nd Hnd T). by right.
Qed.

Theorem NudgeProcs_ok x s a nd f : base x s -> sal s -> bnodes s !! a = Some nd -> ops nd = Fs f ->
  wp (NudgeProcs a) (fun _ s' => good x a (nudged nd) s s') s.
Proof.
  intros B S Hnd Hf. pose proof (b_nodes _ _ _ B a nd Hnd) as Nd. unfold NudgeProcs. apply wp_bind. unfold wp at 1. cbn [FT_ApproxTime gets].
  apply wp_bind, (wp_get _ _ _ _ Hnd), wp_bind, (wp_get_fs _ _ _ _ _ Hnd Hf). rewrite <- !(fs_slot nd f) by done.
  assert (St : same_kind nd nd) by apply (told_refl nd).
  destruct (Z.eqb_spec (goal (hdr nd)) 1) as [G | G].
  - assert (HQ : forall nd', same_kind nd nd' -> nudged nd nd') by done. destruct (running (slot_of nd R_file)) eqn:Rf.
    + destruct (running (slot_of nd R_salv)) eqn:Rs. { destruct (n_salv _ _ Nd Rs) as [_ E]. by rewrite E in Rf. }
      by eapply Nudge_up.
    + destruct (negb (needsSalvage f) || is_cmd (cmd f R_salsrv)) eqn:C.
      * assert (needs nd = false \/ type_of nd = T_dafs) as Hc.
        { unfold needs. rewrite (type_dafs _ _ Hf), Hf. apply orb_prop in C as [C | ->]; [left; by apply negb_true_iff in C | by right]. }
        assert (running (slot_of nd R_salv) = false) as Rs.
        { destruct (running (slot_of nd R_salv)) eqn:Rs; [| done]. destruct (running_salv_needs s a nd f S) as (E1 & E2 & _); [eauto | done.. |].
          destruct Hc; congruence. }
        eapply good_seq; [by eapply start_file_ok |]. cbn beta. intros _ s1 n1 B1 S1 K1 H1 [L H].
        eapply Nudge_up; [done.. | | exact HQ]. split; [by eapply same_kind_like |]. by rewrite (like_running _ _ _ _ L).
      * apply orb_false_iff in C as [C1 C2]. apply negb_false_iff in C1. eapply evict_seq; [done.. | apply told_refl | done |].
        intros s1 n1 B1 S1 H1 T1. eapply evict_seq; [done.. |]. intros s2 n2 B2 S2 H2 T2. eapply evict_seq; [done.. |]. intros s3 n3 B3 S3 H3 T3.
        destruct (same_kind_fs _ _ _ (proj1 T3) Hf) as [f3 Hf3]. apply wp_bind, (wp_get_fs _ _ _ _ _ H3 Hf3). rewrite <- !(fs_slot n3 f3) by done.
        case_test; [apply wp_ret; eapply good_mono; [by apply (good_refl types x a s3 n3) | intros n ->; split; [apply T3 | done]] |].
        eapply good_seq; [eapply start_idle_ok; [done.. |] |]; cbn beta.
        -- intros Hc. split; [done |]. destruct T3 as ((_ & Et & Ec & _) & En & _ & _). rewrite decide_True, Et, En, (type_dafs _ _ Hf), C2 by done.
           split; [done |]. split; [unfold needs; by rewrite Hf |]. intros r Hr. destruct r; try done.
           ++ destruct (running (slot_of n3 R_salsrv)) eqn:E; [| done]. apply (n_slots _ _ (b_nodes _ _ _ B3 a n3 H3)) in E as [c E].
              rewrite Ec in E. unfold cmd_of in E. rewrite Hf in E. by rewrite E in C2.
           ++ unfold slot_of. by rewrite Hf3.
        -- intros _ s4 n4 B4 S4 K4 Hn4 (L & Hh4 & _). eapply clock_end with (nd0 := nd); [done.. | |].
           ++ eapply same_kind_trans; [apply T3 | by eapply same_kind_like].
           ++ intros n' (A & Hh & _). split; [| done]. eapply same_kind_trans; [apply T3 |]. eapply same_kind_trans; by eapply same_kind_like.
  - eapply stop_seq; [done.. | apply told_refl | done |]. intros s1 n1 B1 S1 H1 T1. eapply stop_seq; [done.. |]. intros s2 n2 B2 S2 H2 T2.
    eapply stop_seq; [done.. |]. intros s3 n3 B3 S3 H3 T3. eapply stop_seq; [done.. |]. intros s4 n4 B4 S4 H4 T4.
    eapply stop_seq; [done.. |]. intros s5 n5 B5 S5 H5 T5. eapply clock_end; [done.. | apply T5 |].
    intros n' C. pose proof (told_trans _ _ _ _ _ T5 (clocked_told _ _ C)) as T. split; [apply T |]. intros _. split; [apply T |].
    destruct C as (A & H & N & E & ->). symmetry. apply needs_clock_told; [by eapply same_kind_like |]. intros r. by rewrite E.
Qed.
End types.
