(* ===== verification/BnodeExit.v ===== *)
(** The timeouts and the exits of processes, and the handlers of the simple bnodes. *)
From stdpp Require Import strings functions.
From S2P Require Import Prelude Monad BnodeParse Bnode BnodeSpec BnodeExec BnodeNudge BnodeFs.

#[local] Open Scope monad_scope.
#[local] Open Scope string_scope.
#[local] Open Scope Z_scope.
#[local] Open Scope list_scope.

Section types.
Context (types : string -> btype).
Notation base := (base types).
Notation sal := (sal types).
Notation good := (good types).
Notation alike := (like None).

(** ** Timeouts *)

(** The bnode after some processes were looked at: those that are late were killed. *)
Definition looked (t : Z) (l : list (role * Z)) (nd nd' : node) : Prop :=
  told [] nd nd'
  /\ (exists f f', ops nd = Fs f /\ ops nd' = Fs f' /\ timeSDStarted f' = timeSDStarted f /\ forall r, SDW (slots f' r) = SDW (slots f r))
  /\ forall r limit, (r, limit) ∈ l -> overdue nd r t limit = true -> killSent (slot_of nd' r) = true.

Lemma kill_seq x s a nd0 nd r t limit l Q (k : SM bos unit) : base x s -> sal s -> bnodes s !! a = Some nd -> looked t l nd0 nd -> r <> R_main ->
  (forall s' nd', base x s' -> sal s' -> bnodes s' !! a = Some nd' -> looked t ((r, limit) :: l) nd0 nd' -> wp k (fun _ s'' => good x a Q s' s'') s') ->
  wp (mbind_ (kill_late a r t limit) (fun _ => k)) (fun _ s' => good x a Q s s') s.
Proof.
  intros B S Hnd (T & (f & f1 & Hf & Hf1 & E1 & E2) & L) Hr Hk. eapply good_seq; [by eapply kill_late_ok |]. cbn beta.
  intros _ s' nd' B' S' K' Hnd' (M & O & f2 & Hf2 & E3 & E4). eapply Hk; [done.. |].
  pose proof (told_trans _ _ _ _ _ T (marked_told _ _ _ M)) as T'. split; [done |]. split.
  - exists f, f2. split; [done |]. split; [done |]. split; [congruence |]. intros r'. by rewrite E4.
  - intros r' limit' [E | Hin]%elem_of_cons Ho.
    + injection E as -> ->. apply O. unfold overdue in *. rewrite Hf in Ho. rewrite Hf1. by rewrite E1, E2.
    + destruct (marked_told _ _ _ M) as (_ & _ & K & _). apply K. by eapply L.
Qed.

Definition patience (r : role) : Z := match r with R_file => FSSDTIME | _ => SDTIME end.
Definition timed (t : Z) (nd nd' : node) : Prop :=
  told [] nd nd' /\ (forall r, r <> R_main -> overdue nd r t (patience r) = true -> killSent (slot_of nd' r) = true) /\ NEEDTIMEOUT (hdr nd') = needs_clock nd'.

Lemma fs_timeout_ok x s a nd f : base x s -> sal s -> bnodes s !! a = Some nd -> ops nd = Fs f ->
  wp (fs_timeout a) (fun _ s' => good x a (timed (now (os s)) nd) s s') s.
Proof.
  intros B S Hnd Hf. unfold fs_timeout. apply wp_bind. unfold wp at 1. cbn [FT_ApproxTime gets].
  assert (L0 : looked (now (os s)) [] nd nd).
  { split; [apply told_refl |]. split; [by exists f, f |]. by intros r limit ?%elem_of_nil. }
  eapply kill_seq; [done.. |]. intros s1 n1 B1 S1 H1 L1. eapply kill_seq; [done.. |]. intros s2 n2 B2 S2 H2 L2.
  eapply kill_seq; [done.. |]. intros s3 n3 B3 S3 H3 L3. eapply kill_seq; [done.. |]. intros s4 n4 B4 S4 H4 L4.
  eapply kill_seq; [done.. |]. intros s5 n5 B5 S5 H5 L5. pose proof L5 as (T & (f0 & f5 & Hf0 & Hf5 & E1 & E2) & L).
  eapply wp_mono; [by eapply SetNeedsClock_ok |]. cbn beta. intros _ s' G. eapply good_mono; [exact G |]. intros n' C.
  pose proof (clocked_told _ _ C) as T'. destruct C as (A & H & N & E & Ec). split; [exact (told_trans _ _ _ _ _ T T') |]. split.
  - intros r Hr O. rewrite E. eapply L; [| exact O]. destruct r; cbn; set_solver.
  - rewrite Ec. symmetry. apply needs_clock_told; [apply T' |]. intros r. by rewrite E.
Qed.

(** ** Exits *)

Lemma cleared_flagged r v nd : cleared r (flagged v nd) = flagged v (cleared r nd).
Proof. unfold cleared, flagged, on_slot, on_fs. cbn. by destruct (ops nd). Qed.

(** The SALVAGE file goes, while neither the file server nor the salvager runs. *)
Lemma unflag_good x s a nd : base x s -> sal s -> bnodes s !! a = Some nd -> is_fs nd = true ->
  running (slot_of nd R_file) = false -> running (slot_of nd R_salv) = false -> name (hdr nd) ∉ unsalvaged (viewed s) ->
  good x a (fun n => n = flagged false nd) s (touch a (flagged false nd) (with_salfiles (salfiles (os s) ∖ {[name (hdr nd)]}) (os s)) s).
Proof.
  intros B S Hnd Hfs Rf Rs Hu. pose proof (base_alike _ _ _ _ _ _ B Hnd (alike_flagged false nd)) as B'. split; [| split; [| split]].
  - refine (base_os _ _ _ (with_salfiles _ (os s)) B' _ _ _); [done | done | exact (b_spawns _ _ _ B)].
  - eapply (sal_flag _ x s _ a nd (flagged false nd) false); try done.
    + exact (s_create _ _ S).
    + by apply needs_flagged.
    + intros n Hn. right. split; [| done]. by intros ->.
    + intros _. by rewrite !(alike_running _ _ (alike_flagged false nd)).
  - by apply kept_touch.
  - eexists. split; [apply touch_get | done].
Qed.

Lemma get_proc_elem s p pr : NoDup (allProcs s).*1 -> (p, pr) ∈ allProcs s -> get_proc (Some p) s = Some (pr, s).
Proof.
  intros N H. unfold get_proc. cbn. destruct (list_find (fun x => x.1 = p) (allProcs s)) as [[i [p' pr']] |] eqn:E.
  - apply list_find_Some in E as (Hi & Ep & _). cbn in Ep. subst p'. apply list_elem_of_lookup in H as [j Hj].
    assert (i = j) as -> by (eapply NoDup_lookup; [exact N | |]; rewrite list_lookup_fmap, ?Hi, ?Hj; done). by simplify_eq.
  - apply list_find_None in E. rewrite Forall_forall in E. by destruct (E _ H).
Qed.

(** The state in which the slot of the process is empty, though the handler has not
    come to that yet. *)
Definition emptied (a : Z) (r : role) (nd : node) (s : bos) : bos := touch a (cleared r nd) (os s) s.

(** What the file server and the salvager leave clean. *)
Definition leaves_clean (r : role) (nd : node) (sig : Z) (v : view) : Prop :=
  (r = R_file -> SDW (slot_of nd r) && negb (killSent (slot_of nd r)) && (sig =? 0) = true -> name (hdr nd) ∉ unsalvaged v)
  /\ (r = R_salv -> SDW (slot_of nd r) = false -> name (hdr nd) ∉ unsalvaged v).

Lemma fs_procexit_ok s a nd f r p pr : base (Some p) (emptied a r nd s) -> sal (emptied a r nd s) -> bnodes s !! a = Some nd -> ops nd = Fs f -> r <> R_main ->
  (forall r', proc (slot_of nd r') = Some p <-> r' = r) -> (p, pr) ∈ allProcs s ->
  running (slot_of (cleared r nd) R_salv) = false \/ r <> R_file -> running (slot_of (cleared r nd) R_file) = false \/ r <> R_salv ->
  leaves_clean r nd (lastSignal pr) (viewed s) ->
  wp (fs_procexit a p) (fun _ s' => good (Some p) a (nudged (cleared r nd)) (emptied a r nd s) s') s.
Proof.
  intros B S Hnd Hf Hr Hp Hpr X1 X2 [C1 C2]. assert (V : has_slot nd r) by (unfold has_slot; by rewrite Hf).
  assert (Hfc : is_fs (cleared r nd) = true) by (unfold is_fs, cleared, on_slot; cbn; by rewrite Hf).
  assert (Hcl : forall r', slot_of (cleared r nd) r' = if decide (r' = r) then clear_slot (slot_of nd r) else slot_of nd r') by (intros r'; by apply slot_of_on_slot).
  unfold fs_procexit. apply wp_bind, (wp_get_fs _ _ _ _ _ Hnd Hf).
  apply wp_bind. eapply wp_mono with (Q := fun _ s' => good (Some p) a (fun nd' => like None (cleared r nd) nd' /\ hd_same (hdr nd) (hdr nd') /\ forall r', slot_of nd' r' = slot_of (cleared r nd) r') (emptied a r nd s) s').
  - assert (Plain : wp (upd a (on_slot r clear_slot)) (fun _ s' => good (Some p) a (fun nd' => like None (cleared r nd) nd' /\ hd_same (hdr nd) (hdr nd') /\ forall r', slot_of nd' r' = slot_of (cleared r nd) r') (emptied a r nd s) s') s).
    { apply (wp_upd _ _ _ _ _ Hnd). eapply good_mono; [apply (good_refl types _ _ _ (cleared r nd) B S), touch_get |]. intros n ->.
      split; [apply like_refl |]. by split; [apply hd_same_refl |]. }
    assert (Clean : name (hdr nd) ∉ unsalvaged (viewed s) -> running (slot_of (cleared r nd) R_file) = false -> running (slot_of (cleared r nd) R_salv) = false ->
      wp (SetSalFlag a false ;; upd a (on_slot r clear_slot)) (fun _ s' => good (Some p) a (fun nd' => like None (cleared r nd) nd' /\ hd_same (hdr nd) (hdr nd') /\ forall r', slot_of nd' r' = slot_of (cleared r nd) r') (emptied a r nd s) s') s).
    { intros Hu R1 R2. apply wp_bind. eapply wp_mono; [by apply SetSalFlag_run |]. cbn beta. intros _ s1 ->.
      destruct (is_cmd (cmd f R_salsrv)); [done |]. apply (wp_upd _ _ _ _ _ (touch_get _ _ _ _)). rewrite touch_touch. change (on_slot r clear_slot (flagged false nd)) with (cleared r (flagged false nd)). rewrite cleared_flagged.
      pose proof (unflag_good _ _ _ _ B S (touch_get _ _ _ _) Hfc R1 R2 Hu) as G.
      rewrite <- (touch_touch a (cleared r nd) (os s)). eapply good_mono; [exact G |]. intros n ->. split; [apply alike_flagged |]. split; [done |].
      intros r'. unfold flagged, on_fs, slot_of. by destruct (ops (cleared r nd)). }
    assert (Is : forall r', r' <> R_main -> is_proc f r' p = bool_decide (r' = r)).
    { intros r' Hm. unfold is_proc. rewrite <- (fs_slot _ _ _ Hf) by done. apply bool_decide_ext, Hp. }
    rewrite !Is by done. destruct r; try done; rewrite ?bool_decide_false, ?bool_decide_true by done; try exact Plain.
    + apply wp_bind. unfold wp at 1. rewrite (get_proc_elem s p pr (b_procs _ _ _ B) Hpr). cbn beta iota.
      rewrite <- (fs_slot nd f R_file) by done. unfold when. case_test; [apply Clean | exact Plain].
      * by apply C1.
      * by rewrite Hcl, decide_True.
      * by destruct X1.
    + rewrite <- (fs_slot nd f R_salv) by done. unfold when. case_test; [apply Clean | exact Plain].
      * by apply C2.
      * by destruct X2.
      * by rewrite Hcl, decide_True.
  - cbn beta. intros _ s1 (B1 & S1 & K1 & n1 & Hn1 & A1 & H1 & E1).
    assert (exists f1, ops n1 = Fs f1) as [f1 Hf1].
    { pose proof (al_fs _ _ _ A1) as E. rewrite Hfc in E. unfold is_fs in E. destruct (ops n1); [eauto | done]. }
    eapply wp_mono; [by eapply NudgeProcs_ok |]. cbn beta. intros _ s2 (B2 & S2 & K2 & n2 & Hn2 & N2).
    split; [done |]. split; [done |]. split; [by eapply kept_trans |]. exists n2. split; [done |].
    assert (K : same_kind (cleared r nd) n1) by by eapply same_kind_like. destruct N2 as [N2 T2]. split; [by eapply same_kind_trans |].
    intros G. destruct T2 as [T2 Ec]; [by rewrite (h_goal _ _ H1) |]. split; [| done].
    destruct T2 as [Tr Td]. split; [intros r'; rewrite <- (E1 r'); apply Tr |]. intros r' Hin. rewrite <- (E1 r'). by apply Td.
Qed.

(** ** Simple bnodes *)

Definition is_spawn (e : event) : bool := match e with EvSpawn _ _ _ _ => true | _ => false end.
Definition starts (s : bos) : nat := length (filter (fun e => is_spawn e = true) (log (os s))).

Lemma starts_spawned a nd n c com q l s : starts (spawned a nd n c com q l s) = S (starts s).
Proof. unfold starts. cbn [os spawned fork log with_event]. by rewrite filter_cons_True. Qed.

Lemma ez_slot_of nd e : ops nd = Ez e -> slot_of nd R_main = ez_slot e.
Proof. unfold slot_of. by intros ->. Qed.
Lemma ez_has_slot nd e : ops nd = Ez e -> has_slot nd R_main.
Proof. unfold has_slot. by intros ->. Qed.
Lemma ez_salv nd e : ops nd = Ez e -> running (slot_of nd R_salv) = false.
Proof. unfold slot_of. by intros ->. Qed.

(** A signal, the mark and the timer. *)
Lemma ez_signal x s a nd e sig g t : base x s -> sal s -> bnodes s !! a = Some nd -> ops nd = Ez e -> running (ez_slot e) = true ->
  (forall sl, proc (g sl) = proc sl /\ running (g sl) = running sl /\ (SDW sl = true -> SDW (g sl) = true) /\ (killSent sl = true -> killSent (g sl) = true)) ->
  SDW (g (ez_slot e)) = true -> (killSent (g (ez_slot e)) = true <-> sig = SIGKILL \/ killSent (ez_slot e) = true) ->
  sig = SIGTERM \/ SDW (ez_slot e) = true ->
  wp (bnode_StopProc (proc (ez_slot e)) sig ;; upd a (on_slot R_main g) ;; bnode_SetTimeout a t)
    (fun _ s' => good x a (fun nd' => marked R_main nd nd' /\ slot_of nd' R_main = g (ez_slot e) /\ NEEDTIMEOUT (hdr nd') = negb (t =? 0)) s s' /\ starts s' = starts s) s.
Proof.
  intros B S Hnd He R G Hs Hk Hsig. rewrite <- (ez_slot_of nd e) in * by done.
  destruct (slot_record _ _ _ _ _ _ B Hnd R) as (p & pr & Hp & Hpr). rewrite Hp. apply wp_bind.
  eapply wp_mono; [by eapply StopProc_ok |]. cbn beta. intros _ s1 (nd1 & -> & Q). apply wp_bind, (wp_upd _ _ _ _ _ (touch_get _ _ _ _)). rewrite touch_touch.
  destruct (slot_marked R_main g nd nd1) as [M E]; [by apply marked_quiet | done | by apply quiet_slot | exact G |].
  eapply wp_mono; [apply (SetTimeout_ok _ _ _ _ (touch_get _ _ _ _)) |]. cbn beta. intros _ s2 (nd2 & -> & Q2 & T). rewrite touch_touch. split; [| done].
  assert (M2 : marked R_main nd nd2) by (eapply marked_trans; [exact M | by apply marked_quiet]).
  eapply good_mono; [eapply signal_good with (sig := sig); [done.. | exact M2 | | | exact Hsig] |].
  - by rewrite (quiet_slot _ _ _ Q2), E.
  - by rewrite (quiet_slot _ _ _ Q2), E.
  - intros n ->. split; [done |]. by rewrite (quiet_slot _ _ _ Q2), E.
Qed.

Lemma ez_timeout_ok x s a nd e : base x s -> sal s -> bnodes s !! a = Some nd -> ops nd = Ez e ->
  wp (ez_timeout a) (fun _ s' => good x a (fun nd' => marked R_main nd nd' /\ (SDW (ez_slot e) = true -> killSent (slot_of nd' R_main) = true)) s s') s.
Proof.
  intros B S Hnd He. unfold ez_timeout. apply wp_bind, (wp_get_ez _ _ _ _ _ Hnd He). apply wp_when; intros C.
  - rewrite <- (ez_slot_of nd e) in C by done. pose proof (slot_idle_or _ _ _ _ _ _ B Hnd C) as R. rewrite (ez_slot_of nd e) in * by done.
    eapply wp_mono; [eapply (ez_signal _ _ _ _ _ _ set_killSent); [done.. | | by right] |]; [cbn; split; [by left | done] |].
    cbn beta. intros _ s' [G _]. eapply good_mono; [exact G |]. intros n (M & E & _). split; [done |]. by rewrite E.
  - eapply good_mono; [by apply (good_refl types x a s nd) |]. intros n ->. split; [apply marked_refl | congruence].
Qed.

Lemma ez_setstat_ok x s a nd e (st : Z) : base x s -> sal s -> bnodes s !! a = Some nd -> ops nd = Ez e ->
  wp (ez_setstat a st) (fun _ s' => good x a (same_kind nd) s s' /\ (starts s' <= starts s + if (st =? BSTAT_NORMAL)%Z then 1 else 0)%nat) s.
Proof.
  intros B S Hnd He. assert (Same : good x a (same_kind nd) s s).
  { eapply good_mono; [by apply (good_refl types x a s nd) |]. intros n ->. apply (told_refl nd). }
  unfold ez_setstat. apply wp_bind, (wp_get_ez _ _ _ _ _ Hnd He). case_test; [apply wp_ret; split; [done | lia] |]. case_test; bool_hyps.
  - rewrite <- (ez_slot_of nd e) in * by done. pose proof (ez_has_slot _ _ He) as V. apply wp_bind. unfold wp at 1. cbn [FT_ApproxTime gets].
    apply wp_bind, (wp_upd _ _ _ _ _ Hnd). set (nd1 := on_slot R_main _ nd). assert (A1 : alike nd nd1) by by apply slot_lastStart.
    assert (B1 : base x (touch a nd1 (os s) s)) by by eapply base_alike. assert (V1 : has_slot nd1 R_main) by (unfold has_slot, nd1, on_slot; cbn; by rewrite He).
    assert (S1 : sal (touch a nd1 (os s) s)) by (eapply sal_alike; [done.. | apply needs_on_slot]).
    assert (K1 : key (slot_of nd1 R_main) = key (slot_of nd R_main)) by by apply (al_key _ _ _ A1).
    assert (N1 : needs nd1 = needs nd) by apply needs_on_slot. assert (H1 : hdr nd1 = hdr nd) by done. clearbody nd1.
    pose proof (b_nodes _ _ _ B a nd Hnd) as Nd. assert (Hc : cmd_of nd R_main = Some (command e)) by (unfold cmd_of; by rewrite He).
    pose proof (b_slot _ _ _ B _ _ R_main Hnd) as Sl. unfold slot_ok in Sl. destruct (proc (slot_of nd R_main)) eqn:Hp; [destruct Sl; congruence |].
    assert (E1 : slot_ok x a (name (hdr nd)) R_main (slot_of nd1 R_main) (allProcs s) (live (viewed s))) by (eapply slot_ok_key; [exact K1 | by apply (b_slot _ _ _ B)]).
    apply wp_bind. eapply wp_mono; [apply (NewProc_ok _ _ _ _ _ _ _ B1 (touch_get _ _ _ _)); by apply (n_cmds _ _ Nd R_main) |]. cbn beta.
    intros [tp |] s2 (nd2 & Q & E).
    + destruct E as (q & l & -> & El & Hq & ->). set (nd3 := on_slot R_main (set_running (nextAddr s)) nd2).
      assert (V2 : has_slot nd2 R_main) by (unfold has_slot; rewrite (proj1 Q); exact V1). assert (L : like (Some R_main) nd nd3).
      { eapply like_trans; [by apply like_weaken, A1 |]. eapply like_trans; [by apply quiet_like |]. by apply like_on_slot. }
      assert (Hh : hd_same (hdr nd) (hdr nd3)) by (rewrite <- H1; exact (proj2 Q)).
      assert (Bg : begun R_main nd nd3) by (split; [done |]; split; [done |]; split; [unfold nd3; by rewrite needs_on_slot, (quiet_needs _ _ Q), N1 | congruence]).
      assert (M : may_start nd R_main) by (split; [by eexists | by apply (ez_salv _ e)]).
      assert (Es : slot_of nd3 R_main = set_running (nextAddr s) (slot_of nd1 R_main)) by (unfold nd3; rewrite slot_of_on_slot, decide_True by done; by rewrite (quiet_slot _ _ _ Q)).
      unfold key in K1. injection K1 as _ _ K1 K2. destruct Sl as (_ & Sl1 & Sl2).
      apply wp_bind, (wp_upd _ _ _ _ nd2); [apply lookup_insert_eq |]. apply wp_ret.
      assert (Eq : touch a nd3 (os (spawned a nd2 (name (hdr nd1)) None (command e) q l (touch a nd1 (os s) s)))
        (spawned a nd2 (name (hdr nd1)) None (command e) q l (touch a nd1 (os s) s)) = spawned a nd3 (name (hdr nd)) (coreName_of R_main) (command e) q l s).
      { unfold touch, spawned, with_os, with_bnodes. cbn. by rewrite (al_name _ _ _ A1), !insert_insert_eq. }
      change (nextAddr (touch a nd1 (os s) s)) with (nextAddr s). fold nd3. rewrite Eq. split; [split; [| split; [| split]] |].
      * eapply base_spawn; try done; [by rewrite Es | by rewrite Es | by rewrite Es; cbn; rewrite K1 | by rewrite Es; cbn; rewrite K2 | by eapply node_ok_begun].
      * eapply sal_spawn; try done; [apply Bg | by apply (n_type _ _ Nd)].
      * by eapply kept_spawned.
      * exists nd3. split; [apply lookup_insert_eq | by eapply same_kind_like].
      * rewrite (proj2 (Z.eqb_eq st BSTAT_NORMAL)) by done. rewrite starts_spawned. lia.
    + destruct E as (l & -> & El). apply wp_ret. rewrite touch_touch. split; [| unfold starts; cbn; lia].
      eapply good_mono; [eapply (good_unstarted types x s a nd nd2 l); [done.. | | | exact El] |].
      * eapply like_trans; [exact A1 | by apply quiet_like].
      * by rewrite (quiet_needs _ _ Q), N1.
      * intros n ->. eapply same_kind_like; [| rewrite <- H1; exact (proj2 Q)]. eapply like_trans; [exact A1 | by apply (quiet_like None)].
  - case_test; bool_hyps; [| apply wp_ret; split; [done | lia]].
    rewrite (proj2 (Z.eqb_neq st BSTAT_NORMAL)) by (subst; done).
    assert (Hrun : running (ez_slot e) = true) by done.
    pose proof (ez_signal x s a nd e SIGTERM set_SDW SDTIME B S Hnd He Hrun set_SDW_marks eq_refl (set_SDW_kill R_main _) (or_introl eq_refl)) as W.
    assert (Eq : (bnode_StopProc (proc (ez_slot e)) SIGTERM ;; upd a (on_slot R_main set_SDW) ;; bnode_SetTimeout a SDTIME ;; ret 0) s
      = ((bnode_StopProc (proc (ez_slot e)) SIGTERM ;; upd a (on_slot R_main set_SDW) ;; bnode_SetTimeout a SDTIME) ;; ret 0) s).
    { unfold mbind_. destruct (bnode_StopProc _ _ s) as [[? s1] |]; [| done]. destruct (upd _ _ s1) as [[? s2] |]; [| done]. by destruct (bnode_SetTimeout _ _ s2) as [[? s3] |]. }
    unfold wp at 1. rewrite Eq. clear Eq. fold (wp (mbind_ (bnode_StopProc (proc (ez_slot e)) SIGTERM ;; upd a (on_slot R_main set_SDW) ;; bnode_SetTimeout a SDTIME) (fun _ => ret 0))
      (fun _ s' => good x a (same_kind nd) s s' /\ (starts s' <= starts s + 0)%nat) s).
    apply wp_bind. eapply wp_mono; [exact W |]. cbn beta. intros _ s' [G E]. apply wp_ret. split; [| lia].
    eapply good_mono; [exact G |]. intros n (M & _). apply (marked_told _ _ _ M).
Qed.

Lemma ez_procexit_ok s a nd e p : base (Some p) (emptied a R_main nd s) -> sal (emptied a R_main nd s) -> bnodes s !! a = Some nd -> ops nd = Ez e ->
  wp (ez_procexit a p) (fun _ s' => good (Some p) a (same_kind (cleared R_main nd)) (emptied a R_main nd s) s'
    /\ (starts s' <= starts s + if (goal (hdr nd) =? 0)%Z then 0 else 1)%nat) s.
Proof.
  intros B S Hnd He. unfold ez_procexit. apply wp_bind, (wp_upd _ _ _ _ _ Hnd). change (touch a (on_slot R_main clear_slot nd) (os s) s) with (emptied a R_main nd s).
  assert (Hc : bnodes (emptied a R_main nd s) !! a = Some (cleared R_main nd)) by apply touch_get.
  apply wp_bind. eapply wp_mono; [by apply SetTimeout_ok |]. cbn beta. intros _ s1 (nd1 & -> & Q & _). set (s0 := emptied a R_main nd s) in *.
  assert (G1 : good (Some p) a (fun n => n = nd1) s0 (touch a nd1 (os s0) s0)) by (apply good_touch with (nd := cleared R_main nd); [done.. | by apply (quiet_like None) | by apply quiet_needs]).
  apply wp_bind, (wp_get _ _ _ _ (touch_get _ _ _ _)). rewrite (h_goal _ _ (proj2 Q)). cbn [cleared on_slot hdr].
  assert (K1 : same_kind (cleared R_main nd) nd1) by (eapply same_kind_like; [by apply (quiet_like None) | apply Q]).
  destruct (goal (hdr nd) =? 0) eqn:G; cbn [negb].
  - apply wp_ret. split; [| unfold starts; cbn; lia]. eapply good_mono; [exact G1 |]. by intros n ->.
  - destruct G1 as (B1 & S1 & K & _). eapply wp_mono; [apply (ez_setstat_ok _ _ _ nd1 (Ezbnode (command e) (clear_slot (ez_slot e))) _ B1 S1 (touch_get _ _ _ _)) |].
    + rewrite (proj1 Q). unfold cleared, on_slot. cbn. by rewrite He.
    + cbn beta. intros _ s2 [(B2 & S2 & K2 & n2 & Hn2 & N2) St]. split; [| exact St]. split; [done |]. split; [done |]. split; [by eapply kept_trans |].
      exists n2. split; [done |]. by eapply same_kind_trans.
Qed.
End types.
