(* ===== verification/BnodeManage.v ===== *)
(** The generic part of bnode.c: references and deletion, and the goal of a bnode. *)
From stdpp Require Import strings functions.
From S2P Require Import Prelude Monad BnodeParse Bnode BnodeSpec BnodeExec BnodeNudge BnodeFs BnodeExit.

#[local] Open Scope monad_scope.
#[local] Open Scope string_scope.
#[local] Open Scope Z_scope.
#[local] Open Scope list_scope.

Section types.
Context (types : string -> btype).
Notation base := (base types).
Notation sal := (sal types).
Notation good := (good types).
Notation alike := (like None).

(** ** Status *)

Definition status (nd : node) : Z := match ops nd with Fs f => fs_getstat f | Ez e => ez_getstat e end.

Lemma GETSTAT_ok a s nd (Q : Z -> bos -> Prop) : bnodes s !! a = Some nd -> Q (status nd) s -> wp (BOP_GETSTAT a) Q s.
Proof. intros H HQ. unfold BOP_GETSTAT. apply wp_bind, (wp_get _ _ _ _ H), wp_ret, HQ. Qed.

(** A bnode is shut down when it has no process. *)
Lemma status_shutdown x s a nd : base x s -> bnodes s !! a = Some nd -> (status nd = BSTAT_SHUTDOWN <-> forall r, running (slot_of nd r) = false).
Proof.
  intros B H. unfold status. destruct (ops nd) as [f | e] eqn:E.
  - assert (D : forall r, running (slot_of nd r) = false -> SDW (slot_of nd r) = false).
    { intros r R. destruct (SDW (slot_of nd r)) eqn:D; [| done]. rewrite (slot_idle_or _ _ _ _ _ _ B H D) in R. done. }
    unfold fs_getstat. rewrite <- !(fs_slot nd f) by done. split.
    + destruct (SDW (slot_of nd R_vol) || SDW (slot_of nd R_file) || SDW (slot_of nd R_salv) || SDW (slot_of nd R_scan) || SDW (slot_of nd R_salsrv)); [done |].
      destruct (running (slot_of nd R_salv)) eqn:R1; [done |].
      destruct (running (slot_of nd R_vol)) eqn:R2, (running (slot_of nd R_file)) eqn:R3, (running (slot_of nd R_scan)) eqn:R4, (running (slot_of nd R_salsrv)) eqn:R5;
        cbn [andb orb negb]; repeat case_match; try done. intros _ [| | | | |]; try done. unfold slot_of. by rewrite E.
    + intros R. rewrite !(D _ (R _)), !R. done.
  - unfold ez_getstat. rewrite <- !(ez_slot_of nd e) by done. split.
    + destruct (SDW (slot_of nd R_main)); [done |]. destruct (running (slot_of nd R_main)) eqn:R; [done |]. intros _ []; unfold slot_of in *; by rewrite E in *.
    + intros R. destruct (SDW (slot_of nd R_main)) eqn:D; [| by rewrite R]. pose proof (slot_idle_or _ _ _ _ _ _ B H D). rewrite R in H0. done.
Qed.

(** ** Deletion *)

Definition removed (a : Z) (s : bos) : bos := with_bnodes (delete a (bnodes s)) (with_list (filter (fun x => x <> a) (allBnodes s)) s).

Lemma base_remove x s a nd : base x s -> bnodes s !! a = Some nd -> (forall r, running (slot_of nd r) = false) -> base x (removed a s).
Proof.
  intros B H R. assert (E : forall b n, delete a (bnodes s) !! b = Some n -> b <> a /\ bnodes s !! b = Some n).
  { intros b n Hb. by apply lookup_delete_Some in Hb as [? ?]. }
  assert (P : forall r, proc (slot_of nd r) = None).
  { intros r. pose proof (slot_running _ _ _ _ _ _ _ (b_slot _ _ _ B a nd r H)) as S. rewrite R in S. symmetry in S. apply bool_decide_eq_false in S. by apply eq_None_not_Some. }
  destruct B as [B1 B2 B3 B4 B5 B6 B7 B8 B9 B10 B11 B12 B13]. split; try done; cbn.
  - split; [by apply NoDup_filter, B1 |]. intros b. rewrite list_elem_of_filter, (proj2 B1). split.
    + intros [Hne Hb]. by rewrite lookup_delete_ne.
    + intros [n Hb]. apply E in Hb as [Hne Hb]. eauto.
  - intros b b' n n' Hb Hb'. apply E in Hb as [_ Hb], Hb' as [_ Hb']. eauto.
  - split; [| apply B3]. intros b [n Hb]. apply E in Hb as [_ Hb]. apply (proj1 B3). by exists n.
  - intros p pr Hp Hx. destruct (B6 p pr Hp Hx) as (n & r & Hn & Hr). exists n, r. split; [| done]. rewrite lookup_delete_ne; [done |].
    intros Ea. rewrite <- Ea, H in Hn. injection Hn as <-. by rewrite P in Hr.
  - intros b n r Hb. apply E in Hb as [_ Hb]. by apply B7.
  - intros b n Hb. apply E in Hb as [_ Hb]. by apply (B12 b).
Qed.
Lemma sal_remove s a : sal s -> sal (removed a s).
Proof.
  intros [S1 S2 S3 S4]. split; [done.. | |]; cbn; intros b n Hb; apply lookup_delete_Some in Hb as [_ Hb]; eauto.
Qed.

(** What a release or a deletion comes to: the bnode is still there, with another
    header, or it had no process and is not. *)
Definition ref_to (n : Z) (nd nd' : node) : Prop :=
  ops nd' = ops nd /\ refCount (hdr nd') = n /\ name (hdr nd') = name (hdr nd) /\ goal (hdr nd') = goal (hdr nd)
  /\ rsTime (hdr nd') = rsTime (hdr nd) /\ rsCount (hdr nd') = rsCount (hdr nd) /\ ERRORSTOP (hdr nd') = ERRORSTOP (hdr nd) /\ NEEDTIMEOUT (hdr nd') = NEEDTIMEOUT (hdr nd).
Definition let_go (a n : Z) (P : node -> Prop) (s s' : bos) : Prop :=
  (exists nd', s' = touch a nd' (os s) s /\ P nd' /\ refCount (hdr nd') = n /\ (DELETE (hdr nd') = true -> n <> 0))
  \/ (n = 0 /\ exists nd', s' = removed a (touch a nd' (os s) s) /\ P nd' /\ forall r, running (slot_of nd' r) = false).

Lemma s16_small z : 0 <= z < 30100 -> s16 z = z.
Proof. intros H. unfold s16. rewrite Z.mod_small by lia. lia. Qed.
Lemma ref_to_refl nd : ref_to (refCount (hdr nd)) nd nd.
Proof. done. Qed.
Lemma ref_to_like n nd nd' : ref_to n nd nd' -> alike nd nd'.
Proof. intros (E & _ & N & _). by apply ops_like. Qed.

(** Deletion of a bnode that nothing refers to. *)
Lemma delete_ok x s a nd k : base x s -> bnodes s !! a = Some nd -> refCount (hdr nd) = 0 -> DELETE (hdr nd) = false ->
  wp (delete_with (release_with (S k)) a) (fun _ s' => let_go a 0 (ref_to 0 nd) s s') s.
Proof.
  intros B H Hr Hd. unfold delete_with. apply wp_bind, (wp_get _ _ _ _ H). rewrite Hr. cbn [Z.eqb negb].
  apply wp_bind. unfold bnode_Hold. apply (wp_upd _ _ _ _ _ H). set (nd1 := on_hdr _ nd).
  assert (R1 : refCount (hdr nd1) = s16 (refCount (hdr nd) + 1)) by done. rewrite Hr in R1.
  apply wp_bind, (GETSTAT_ok _ _ nd1); [apply touch_get |]. change (status nd1) with (status nd).
  apply wp_bind. cbn [release_with]. apply wp_bind, (wp_upd _ _ _ _ _ (touch_get _ _ _ _)). rewrite touch_touch. set (nd2 := on_hdr _ nd1).
  assert (R2 : refCount (hdr nd2) = s16 (refCount (hdr nd1) - 1)) by done. rewrite R1 in R2.
  assert (D2 : DELETE (hdr nd2) = false) by done. assert (T : ref_to 0 nd nd2) by done. clearbody nd2.
  cbn [os touch with_os with_bnodes]. fold (touch a nd2 (os s) s). apply wp_bind, (wp_get _ _ _ _ (touch_get _ _ _ _)). apply wp_when; rewrite D2, andb_false_r; [done |]. intros _.
  destruct (Z.eqb_spec (status nd) BSTAT_SHUTDOWN) as [E | E]; cbn [negb].
  - pose proof (proj1 (status_shutdown _ _ _ _ B H) E) as E'. right. split; [done |]. exists nd2. split; [done |]. split; [done |].
    intros r. rewrite <- (E' r). unfold slot_of. by rewrite (proj1 T).
  - apply wp_ret. left. exists nd2. split; [done |]. split; [done |]. split; [done |]. by rewrite D2.
Qed.

Lemma Release_ok x s a nd n : base x s -> bnodes s !! a = Some nd -> refCount (hdr nd) = n + 1 -> 0 <= n < 30000 ->
  wp (bnode_Release a) (fun _ s' => let_go a n (ref_to n nd) s s') s.
Proof.
  intros B H Hr Hn. unfold bnode_Release. cbn [release_with]. apply wp_bind, (wp_upd _ _ _ _ _ H). set (nd1 := on_hdr _ nd).
  assert (R1 : refCount (hdr nd1) = s16 (refCount (hdr nd) - 1)) by done. rewrite Hr, s16_small in R1 by lia. replace (n + 1 - 1) with n in R1 by lia.
  assert (T1 : ref_to n nd nd1) by by split. apply wp_bind, (wp_get _ _ _ _ (touch_get _ _ _ _)), wp_when; intros C.
  - apply andb_prop in C as [C1 C2]. rewrite R1 in C1. apply Z.eqb_eq in C1 as ->. apply wp_bind, (wp_upd _ _ _ _ _ (touch_get _ _ _ _)). rewrite touch_touch. cbn [os touch with_os with_bnodes].
    set (nd2 := on_hdr (set_DELETE false) nd1). fold (touch a nd2 (os s) s). assert (T2 : ref_to 0 nd nd2) by by split.
    apply wp_bind. eapply wp_mono; [apply (delete_ok x _ a nd2 0); [by eapply base_alike, ref_to_like | apply touch_get | apply T2 | done] |].
    cbn beta. intros _ s' [(nd3 & -> & T3 & R3 & D3) | (_ & nd3 & -> & T3 & R3)]; apply wp_ret; rewrite touch_touch.
    + left. exists nd3. split; [done |]. split; [| done]. destruct T2 as (? & ? & ? & ? & ? & ? & ? & ?), T3 as (? & ? & ? & ? & ? & ? & ? & ?). repeat split; congruence.
    + right. split; [done |]. exists nd3. split; [done |]. split; [| done]. destruct T2 as (? & ? & ? & ? & ? & ? & ? & ?), T3 as (? & ? & ? & ? & ? & ? & ? & ?). repeat split; congruence.
  - left. exists nd1. split; [done |]. split; [done |]. split; [done |]. intros D ->. by rewrite R1, D in C.
Qed.

(** The references to the other bnodes. *)
Definition others_ok (held : Z -> Z) (a : Z) (s : bos) : Prop :=
  (forall b m, b <> a -> bnodes s !! b = Some m -> refCount (hdr m) = held b /\ 0 <= held b < 30000 /\ (DELETE (hdr m) = true -> held b <> 0))
  /\ (forall b, b <> a -> held b <> 0 -> is_Some (bnodes s !! b)).
Lemma refs_others held a s : refs held s -> others_ok held a s.
Proof.
  intros [R1 R2 R3]. split; [| intros b _; apply R3]. intros b m _ Hb. destruct (R1 b m Hb). split; [done |]. split; [done |]. by apply R2.
Qed.
Lemma others_same held a s s' : (forall b, b <> a -> bnodes s' !! b = bnodes s !! b) -> others_ok held a s -> others_ok held a s'.
Proof. intros E [O1 O2]. split; [intros b m Hne; rewrite E by done; by apply O1 | intros b Hne; rewrite E by done; by apply O2]. Qed.
Lemma others_touch held a nd o s : others_ok held a s -> others_ok held a (touch a nd o s).
Proof. apply others_same. intros b Hne. cbn. by rewrite lookup_insert_ne. Qed.

(** The references are right when they are for one bnode and for the others. *)
Lemma refs_of held a s : others_ok held a s ->
  match bnodes s !! a with Some nd => refCount (hdr nd) = held a /\ 0 <= held a < 30000 /\ (DELETE (hdr nd) = true -> held a <> 0) | None => held a = 0 end ->
  refs held s.
Proof.
  intros [O1 O2] H. split.
  - intros b m Hb. destruct (decide (b = a)) as [-> |]; [rewrite Hb in H; tauto | by destruct (O1 b m) as (? & ? & ?)].
  - intros b m Hb. destruct (decide (b = a)) as [-> |]; [rewrite Hb in H; tauto | by destruct (O1 b m) as (? & ? & ?)].
  - intros b Hb. destruct (decide (b = a)) as [-> |]; [destruct (bnodes s !! a); [by eexists | done] | by apply O2].
Qed.

Lemma let_go_inv x held s s' a nd P n : base x s -> sal s -> bnodes s !! a = Some nd -> n = held a -> 0 <= held a < 30000 -> others_ok held a s ->
  (forall nd', P nd' -> ops nd' = ops nd /\ name (hdr nd') = name (hdr nd)) -> let_go a n P s s' -> base x s' /\ sal s' /\ refs held s'.
Proof.
  intros B S H -> Hn O HP [(nd' & -> & Hp & Hr & Hd) | (E0 & nd' & -> & Hp & Hrun)].
  - destruct (HP _ Hp) as [E1 E2]. assert (A : alike nd nd') by by apply ops_like. split; [by eapply base_alike |]. split.
    { eapply sal_alike; [done.. |]. unfold needs. by rewrite E1. }
    apply (refs_of held a); [by apply others_touch |]. by rewrite touch_get.
  - destruct (HP _ Hp) as [E1 E2]. assert (A : alike nd nd') by by apply ops_like. split; [| split].
    + eapply base_remove; [by eapply base_alike | apply touch_get | done].
    + apply sal_remove. eapply sal_alike; [done.. |]. unfold needs. by rewrite E1.
    + apply (refs_of held a); [| by cbn; rewrite lookup_delete_eq]. eapply others_same; [| exact O]. intros b Hne. cbn. by rewrite lookup_delete_ne, lookup_insert_ne.
Qed.
End types.
