(* ===== verification/BnodeRun.v ===== *)
(** The operations on bnodes as a whole, for both types: new goals, timeouts, and the
    exits that the bnode-manager collects. *)
From stdpp Require Import strings functions.
From S2P Require Import Prelude Monad BnodeParse Bnode BnodeSpec BnodeExec BnodeNudge BnodeFs BnodeExit BnodeManage.

#[local] Open Scope monad_scope.
#[local] Open Scope string_scope.
#[local] Open Scope Z_scope.
#[local] Open Scope list_scope.

Section types.
Context (types : string -> btype).
Notation base := (base types).
Notation sal := (sal types).
Notation good := (good types).
Notation alike := (like None).

(** ** By type *)

Lemma SETSTAT_ok x s a nd st : base x s -> sal s -> bnodes s !! a = Some nd ->
  wp (BOP_SETSTAT a st) (fun _ s' => good x a (fun nd' => same_kind nd nd' /\ (is_fs nd = true -> nudged nd nd')) s s') s.
Proof.
  intros B S H. unfold BOP_SETSTAT. apply wp_bind, (wp_get _ _ _ _ H). destruct (ops nd) as [f | e] eqn:E.
  - eapply wp_mono; [by eapply NudgeProcs_ok |]. cbn beta. intros _ s' G. eapply good_mono; [exact G |]. intros n N. split; [apply N | done].
  - eapply wp_mono; [by eapply ez_setstat_ok |]. cbn beta. intros _ s' [G _]. eapply good_mono; [exact G |]. intros n N. split; [done |]. unfold is_fs. by rewrite E.
Qed.

Lemma TIMEOUT_ok x s a nd : base x s -> sal s -> bnodes s !! a = Some nd ->
  wp (BOP_TIMEOUT a) (fun _ s' => good x a (fun nd' => told [] nd nd' /\ (is_fs nd = true -> timed (now (os s)) nd nd')) s s') s.
Proof.
  intros B S H. unfold BOP_TIMEOUT. apply wp_bind, (wp_get _ _ _ _ H). destruct (ops nd) as [f | e] eqn:E.
  - eapply wp_mono; [by eapply fs_timeout_ok |]. cbn beta. intros _ s' G. eapply good_mono; [exact G |]. intros n N. split; [apply N | done].
  - eapply wp_mono; [by eapply ez_timeout_ok |]. cbn beta. intros _ s' G. eapply good_mono; [exact G |]. intros n [M _]. split; [by apply marked_told in M |]. unfold is_fs. by rewrite E.
Qed.

(** ** A new goal *)

Definition same_id (nd nd' : node) : Prop :=
  name (hdr nd') = name (hdr nd) /\ refCount (hdr nd') = refCount (hdr nd) /\ DELETE (hdr nd') = DELETE (hdr nd)
  /\ rsTime (hdr nd') = rsTime (hdr nd) /\ rsCount (hdr nd') = rsCount (hdr nd) /\ type_of nd' = type_of nd
  /\ (forall r, cmd_of nd' r = cmd_of nd r) /\ is_fs nd' = is_fs nd.
Definition all_roles : list role := [R_scan; R_salsrv; R_vol; R_file; R_salv].

(** Every process was asked to end, and the clock runs. *)
Definition halting (nd nd' : node) : Prop := slots_told all_roles nd nd' /\ NEEDTIMEOUT (hdr nd') = needs_clock nd'.
Definition has_goal (g : Z) (nd nd' : node) : Prop :=
  same_id nd nd' /\ goal (hdr nd') = g /\ ERRORSTOP (hdr nd') = false /\ (is_fs nd = true -> g <> 1 -> halting nd nd').

Lemma needs_clock_ops nd nd' : ops nd' = ops nd -> goal (hdr nd') = goal (hdr nd) -> needs_clock nd' = needs_clock nd.
Proof. unfold needs_clock. by intros -> ->. Qed.

Lemma SetStat_ok x s a nd g : base x s -> sal s -> bnodes s !! a = Some nd ->
  wp (bnode_SetStat a g) (fun _ s' => good x a (has_goal (s8 g) nd) s s') s.
Proof.
  intros B S H. unfold bnode_SetStat. apply wp_bind, (wp_upd _ _ _ _ _ H). set (nd1 := on_hdr _ nd).
  apply wp_bind. eapply wp_mono; [apply (Check_ok _ _ nd1), touch_get |]. cbn beta. intros _ s1 (nd2 & -> & Q). rewrite touch_touch. cbn [os touch with_os with_bnodes]. fold (touch a nd2 (os s) s).
  assert (A2 : alike nd nd2) by (apply ops_like; [apply Q | apply (h_name _ _ (proj2 Q))]).
  assert (G2 : good x a (fun n => n = nd2) s (touch a nd2 (os s) s)) by (apply good_touch with (nd := nd); [done.. |]; unfold needs; by rewrite (proj1 Q)).
  apply wp_bind. eapply wp_mono; [eapply SETSTAT_ok; [apply G2 | apply G2 | apply touch_get] |]. cbn beta. intros _ s3 (B3 & S3 & K3 & nd3 & H3 & N3 & N3').
  apply wp_bind, (wp_upd _ _ _ _ _ H3), wp_ret. set (nd4 := on_hdr (set_ERRORSTOP false) nd3).
  assert (A4 : alike nd3 nd4) by by apply ops_like. destruct (good_touch types x a s3 nd3 nd4 B3 S3 H3 A4) as (B4 & S4 & K4 & _); [done |].
  split; [done |]. split; [done |]. split; [eapply kept_trans; [apply G2 |]; by eapply kept_trans |]. exists nd4. split; [apply touch_get |].
  destruct N3 as ([h1 h2 h3 h4 h5 h6 h7 h8] & Nt & Nc & Nf), Q as [Qo [q1 q2 q3 q4 q5 q6 q7 q8]]. destruct A2 as [_ A2t A2c A2f _].
  assert (G4 : goal (hdr nd4) = s8 g). { change (goal (hdr nd3) = s8 g). rewrite h4, q4. done. }
  split; [| split; [exact G4 | split; [done |]]].
  - split; [| split; [| split; [| split; [| split; [| split; [| split]]]]]]; change (hdr nd4) with (set_ERRORSTOP false (hdr nd3)); cbn.
    + by rewrite h1, q1.
    + by rewrite h2, q2.
    + by rewrite h3, q3.
    + by rewrite h7, q7.
    + by rewrite h8, q8.
    + rewrite <- A2t, <- Nt. done.
    + intros r. rewrite <- A2c, <- Nc. done.
    + rewrite <- A2f, <- Nf. done.
  - intros F Hg. rewrite <- A2f in F. destruct (N3' F) as [_ N]. destruct N as [T C].
    { rewrite q4. exact Hg. }
    assert (E : forall r, slot_of nd2 r = slot_of nd r) by (intros r; unfold slot_of; by rewrite Qo). split.
    + destruct T as [T1 T2]. split; intros r; [rewrite <- E; apply T1 | rewrite <- E; apply T2].
    + change (NEEDTIMEOUT (hdr nd3) = needs_clock nd4). rewrite C. done.
Qed.
End types.
