(* ===== verification/BnodeCollect.v ===== *)
(** The exit of a process, from when the bnode-manager collects it. *)
From stdpp Require Import strings functions.
From S2P Require Import Prelude Monad BnodeParse Bnode BnodeSpec BnodeExec BnodeNudge BnodeFs BnodeExit BnodeManage BnodeRun.

#[local] Open Scope monad_scope.
#[local] Open Scope string_scope.
#[local] Open Scope Z_scope.
#[local] Open Scope list_scope.

Section types.
Context (types : string -> btype).
Notation base := (base types).
Notation sal := (sal types).
Notation good := (good types).
Notation alike := (like None).

(** ** The record of the process *)

Lemma base_note p s f : base (Some p) s ->
  base (Some p) (with_procs (map (fun x => if decide (x.1 = p) then (x.1, f x.2) else x) (allProcs s)) s).
Proof.
  intros [B1 B2 B3 B4 B5 B6 B7 B8 B9 B10 B11 B12 B13]. set (g := fun x : Z * bnode_proc => if decide (x.1 = p) then (x.1, f x.2) else x).
  assert (E : forall l, (map g l).*1 = l.*1).
  { intros l. induction l as [| [q pr] l IH]; [done |]. cbn. rewrite <- IH. f_equal. unfold g. cbn. by case_decide. }
  assert (I : forall q pr, q <> p -> (q, pr) ∈ map g (allProcs s) <-> (q, pr) ∈ allProcs s).
  { intros q pr Hq. change (map g (allProcs s)) with (g <$> allProcs s). rewrite list_elem_of_fmap. split.
    - intros ([q' pr'] & Eq & H). unfold g in Eq. cbn in Eq. case_decide; simplify_eq; done.
    - intros H. exists (q, pr). split; [| done]. unfold g. cbn. by rewrite decide_False. }
  split; try done; cbn [allProcs with_procs]; rewrite ?E; try done.
  - intros q pr Hq Hx. apply I in Hq; [by apply B6 | congruence].
  - intros a nd r H. pose proof (B7 a nd r H) as S. unfold slot_ok in *. destruct (proc (slot_of nd r)) as [q |]; [| done].
    destruct S as (S1 & S2 & pr & S3 & S4). split; [done |]. split; [done |]. exists pr. split; [| done]. apply I; [congruence | done].
  - intros q Hq. destruct (B8 q Hq) as (q' & pr & H1 & H2 & H3). exists q', pr. split; [| done]. apply I; [congruence | done].
Qed.
Lemma sal_procs s l : sal s -> sal (with_procs l s).
Proof. intros [S1 S2 S3 S4]. by split. Qed.

Lemma base_DeleteProc p s : base (Some p) s -> base None (with_procs (filter (fun x => x.1 <> p) (allProcs s)) s).
Proof.
  intros [B1 B2 B3 B4 B5 B6 B7 B8 B9 B10 B11 B12 B13]. set (l := filter _ (allProcs s)).
  assert (I : forall q pr, (q, pr) ∈ l <-> q <> p /\ (q, pr) ∈ allProcs s) by (intros q pr; unfold l; by rewrite list_elem_of_filter).
  assert (N : NoDup l.*1 /\ forall q, q ∈ l.*1 -> q ∈ (allProcs s).*1).
  { unfold l. clear -B4. induction (allProcs s) as [| [q pr] m IH]; [split; [constructor | done] |]. cbn in B4. apply NoDup_cons in B4 as [Hq B4].
    destruct (IH B4) as [IH1 IH2]. rewrite filter_cons. case_decide; cbn.
    - split; [apply NoDup_cons; split; [intros H'; by apply Hq, IH2 | done] |]. intros q' [-> | H']%elem_of_cons; [by left | right; by apply IH2].
    - split; [done |]. intros q' H'. right. by apply IH2. }
  split; try done; cbn [allProcs with_procs].
  - split; [apply B3 |]. intros q Hq. by apply B3, N.
  - apply N.
  - intros q pr [Hne Hq]%I _. apply B6; [done | congruence].
  - intros a nd r H. pose proof (B7 a nd r H) as S. unfold slot_ok in *. destruct (proc (slot_of nd r)) as [q |]; [| done].
    destruct S as (S1 & S2 & pr & S3 & S4). split; [done |]. split; [done |]. exists pr. split; [| done]. apply I. split; [congruence | done].
  - intros q Hq. destruct (B8 q Hq) as (q' & pr & H1 & H2 & H3). exists q', pr. split; [| done]. apply I. split; [congruence | done].
Qed.

(** ** The SALVAGE files at an exit *)

Lemma cleared_running r nd r' : has_slot nd r -> running (slot_of (cleared r nd) r') = true -> running (slot_of nd r') = true.
Proof. intros V. unfold cleared. rewrite slot_of_on_slot by done. by case_decide. Qed.

Lemma sal_reap s a nd r q st : sal s -> bnodes s !! a = Some nd -> has_slot nd r -> sal (touch a (cleared r nd) (collect q st s) s).
Proof.
  intros [S1 S2 S3 S4] H V. pose proof (like_on_slot nd r clear_slot V) as A. split; cbn.
  - done.
  - intros n Hn Ht. apply S2; [| done]. revert Hn. unfold viewed. fold (watch (log (os s))). destruct (live (watch (log (os s))) !! q) as [i |]; [| done]. destruct (settles i st); set_solver.
  - intros b n Hb T. destruct (decide (b = a)) as [-> |]; [| rewrite lookup_insert_ne in Hb by done; eauto].
    rewrite lookup_insert_eq in Hb. injection Hb as <-. unfold cleared. rewrite needs_on_slot. exact (S3 a nd H (eq_trans (eq_sym (al_type _ _ _ A)) T)).
  - intros b n Hb T. destruct (decide (b = a)) as [-> |]; [| rewrite lookup_insert_ne in Hb by done; eauto].
    rewrite lookup_insert_eq in Hb. injection Hb as <-. intros R. unfold cleared. rewrite needs_on_slot. apply (S4 a nd H (eq_trans (eq_sym (al_type _ _ _ A)) T)).
    destruct R as [R | R]; [left | right]; by apply cleared_running in R.
Qed.

(** A file server that went as asked, and a salvager that came to its end, leave the
    partitions clean. *)
Lemma leaves_clean_ok x s a nd r p pr st : base x s -> bnodes s !! a = Some nd -> proc (slot_of nd r) = Some p -> (p, pr) ∈ allProcs s ->
  (forall g, st = Signaled g -> g <> 0) -> leaves_clean r nd (lastSignal (proc_exited st pr)) (watch (log (collect (pid pr) st s))).
Proof.
  intros B H Hp Hpr Hst. destruct (slot_proc _ _ _ _ _ _ _ B H Hp) as (_ & Hr & pr' & Hpr' & O).
  assert (pr' = pr) as -> by by eapply procs_unique. destruct O as (_ & _ & _ & _ & sigs & HL & Q1 & Q2 & Q3).
  assert (E : settles (Pinfo (name (hdr nd)) (coreName_of r) sigs) st = true -> name (hdr nd) ∉ unsalvaged (watch (log (collect (pid pr) st s)))).
  { intros E. cbn. fold (watch (log (os s))). unfold viewed in HL. rewrite HL, E. cbn. set_solver. }
  split; intros -> C; apply E; unfold settles; cbn.
  - rewrite bool_decide_true by done. bool_hyps. rewrite !bool_decide_true.
    + destruct st as [code | g]; [done |]. cbn in *. destruct (Hst g); done.
    + intros K. apply Q2 in K. congruence.
    + by apply Q3.
  - rewrite bool_decide_false, bool_decide_true by done. apply bool_decide_true. destruct sigs; [done |]. assert (SDW (slot_of nd R_salv) = true) by by apply Q1. congruence.
Qed.

(** ** The handler *)

Lemma PROCEXIT_ok s a nd r p pr : base (Some p) (emptied a r nd s) -> sal (emptied a r nd s) -> bnodes s !! a = Some nd -> has_slot nd r ->
  (forall r', proc (slot_of nd r') = Some p <-> r' = r) -> (p, pr) ∈ allProcs s ->
  running (slot_of (cleared r nd) R_salv) = false \/ r <> R_file -> running (slot_of (cleared r nd) R_file) = false \/ r <> R_salv ->
  leaves_clean r nd (lastSignal pr) (viewed s) ->
  wp (BOP_PROCEXIT a p) (fun _ s' => good (Some p) a (fun nd' => same_kind (cleared r nd) nd' /\ (is_fs nd = true -> nudged (cleared r nd) nd')) (emptied a r nd s) s'
    /\ (is_fs nd = false -> (starts s' <= starts s + if (goal (hdr nd) =? 0)%Z then 0 else 1)%nat)) s.
Proof.
  intros B S H V Hp Hpr X1 X2 C. unfold BOP_PROCEXIT. apply wp_bind, (wp_get _ _ _ _ H). unfold is_fs, has_slot in *. destruct (ops nd) as [f | e] eqn:E.
  - eapply wp_mono; [by eapply fs_procexit_ok |]. cbn beta. intros _ s' G. split; [| done]. eapply good_mono; [exact G |]. intros n N. split; [apply N | done].
  - subst r. eapply wp_mono; [by eapply ez_procexit_ok |]. cbn beta. intros _ s' [G St]. split; [| done]. eapply good_mono; [exact G |]. by intros n N.
Qed.

(** ** The exit as a whole *)

(** The window in which exits are counted, as it is at time [t]. *)
Definition window (t : Z) (nd : node) : Z * Z := if s32 (rsTime (hdr nd) + 30) <? t then (t, 0) else (rsTime (hdr nd), rsCount (hdr nd)).

(** What an exit leaves of the bnode, if it is not deleted. *)
Record exited (t : Z) (r : role) (nd nd' : node) : Prop := {
  ex_name : name (hdr nd') = name (hdr nd);
  ex_type : type_of nd' = type_of nd;
  ex_fs : is_fs nd' = is_fs nd;
  ex_time : rsTime (hdr nd') = (window t nd).1;
  ex_count : rsCount (hdr nd') = s32 ((window t nd).2 + 1);
  ex_goal : goal (hdr nd') = if 10 <? (window t nd).2 then BSTAT_SHUTDOWN else goal (hdr nd);
  ex_error : ERRORSTOP (hdr nd') = ERRORSTOP (hdr nd) || (10 <? (window t nd).2);
  ex_slots : is_fs nd = true -> goal (hdr nd) <> 1 -> slots_told all_roles (cleared r nd) nd'
}.

(** The header of the bnode before the handler runs. *)
Definition noted (t : Z) (nd nd' : node) : Prop :=
  ops nd' = ops nd /\ name (hdr nd') = name (hdr nd) /\ refCount (hdr nd') = s16 (refCount (hdr nd) + 1) /\ DELETE (hdr nd') = DELETE (hdr nd)
  /\ goal (hdr nd') = goal (hdr nd) /\ ERRORSTOP (hdr nd') = ERRORSTOP (hdr nd) /\ rsTime (hdr nd') = (window t nd).1 /\ rsCount (hdr nd') = (window t nd).2.

Lemma note_good s a nd r p pr q st nd2 f : base None s -> sal s -> bnodes s !! a = Some nd -> proc (slot_of nd r) = Some p -> (p, pr) ∈ allProcs s -> pid pr = q ->
  ops nd2 = ops nd -> name (hdr nd2) = name (hdr nd) ->
  let s2 := with_procs (map (fun x => if decide (x.1 = p) then (x.1, f x.2) else x) (allProcs s)) (touch a nd2 (collect q st s) s) in
  base (Some p) (emptied a r nd2 s2) /\ sal (emptied a r nd2 s2) /\ (p, f pr) ∈ allProcs s2.
Proof.
  intros B S H Hp Hpr <- Eo En s2. destruct (slot_proc _ _ _ _ _ _ _ B H Hp) as (_ & Hr & _). pose proof (running_has_slot _ _ Hr) as V.
  assert (A : alike (cleared r nd) (cleared r nd2)).
  { apply ops_like; [unfold cleared, on_slot; cbn; by rewrite Eo | done]. }
  pose proof (base_reap _ _ _ _ _ _ _ st B H Hp Hpr) as B1. pose proof (sal_reap s a nd r (pid pr) st S H V) as S1.
  pose proof (base_alike _ _ _ _ _ _ B1 (touch_get _ _ _ _) A) as B2. rewrite touch_touch in B2.
  assert (S2 : sal (touch a (cleared r nd2) (os (touch a (cleared r nd) (collect (pid pr) st s) s)) (touch a (cleared r nd) (collect (pid pr) st s) s))).
  { eapply sal_alike; [exact S1 | apply touch_get | exact A |]. unfold cleared. rewrite !needs_on_slot. unfold needs. by rewrite Eo. }
  rewrite touch_touch in S2. pose proof (base_note p _ f B2) as B3. pose proof (sal_procs _ (map (fun x => if decide (x.1 = p) then (x.1, f x.2) else x) (allProcs s)) S2) as S3.
  assert (E : emptied a r nd2 s2 = with_procs (map (fun x => if decide (x.1 = p) then (x.1, f x.2) else x) (allProcs s)) (touch a (cleared r nd2) (collect (pid pr) st s) s)).
  { unfold emptied, s2, touch, with_procs, with_os, with_bnodes. cbn. by rewrite insert_insert_eq. }
  rewrite E. split; [exact B3 |]. split; [exact S3 |]. cbn.
  apply list_elem_of_In, in_map_iff. exists (p, pr). cbn. rewrite decide_True by done. split; [done |]. by apply list_elem_of_In.
Qed.

(** After the handler: the exit is counted, the bnode may stop for good, and the
    record goes. *)
Definition counted (nd nd' : node) : Prop :=
  ops nd' = ops nd /\ name (hdr nd') = name (hdr nd) /\ rsTime (hdr nd') = rsTime (hdr nd) /\ rsCount (hdr nd') = s32 (rsCount (hdr nd) + 1)
  /\ goal (hdr nd') = (if 10 <? rsCount (hdr nd) then BSTAT_SHUTDOWN else goal (hdr nd)) /\ ERRORSTOP (hdr nd') = ERRORSTOP (hdr nd) || (10 <? rsCount (hdr nd)).
Definition exit_tail (a p : Z) : SM bos unit :=
  bnode_Check a ;;
  let* nd := get a in
  let old := rsCount (hdr nd) in
  upd a (on_hdr (fun b => set_rs (rsTime b) (s32 (old + 1)) b)) ;;
  when (10 <? old) (upd a (on_hdr (set_ERRORSTOP true)) ;; bnode_SetGoal a BSTAT_SHUTDOWN) ;;
  bnode_Release a ;; DeleteProc p.

Lemma exit_tail_ok held p s a nd : base (Some p) s -> sal s -> bnodes s !! a = Some nd -> refCount (hdr nd) = held a + 1 -> 0 <= held a < 30000 -> others_ok held a s ->
  wp (exit_tail a p) (fun _ s' => base None s' /\ sal s' /\ refs held s' /\ os s' = os s /\ allProcs s' = filter (fun x => x.1 <> p) (allProcs s) /\ (forall b, b <> a -> bnodes s' !! b = bnodes s !! b)
    /\ (forall nd', bnodes s' !! a = Some nd' -> counted nd nd')) s.
Proof.
  intros B S H Hr Hh O. unfold exit_tail. apply wp_bind. eapply wp_mono; [by apply Check_ok |]. cbn beta. intros _ s1 (nd1 & -> & Q).
  apply wp_bind, (wp_get _ _ _ _ (touch_get _ _ _ _)), wp_bind, (wp_upd _ _ _ _ _ (touch_get _ _ _ _)). rewrite touch_touch. cbn [os touch with_os with_bnodes].
  destruct Q as [Qo [q1 q2 q3 q4 q5 q6 q7 q8]]. rewrite q8. set (old := rsCount (hdr nd)). set (nd2 := on_hdr _ nd1). fold (touch a nd2 (os s) s).
  apply wp_bind. eapply wp_mono with (Q := fun _ s' => exists nd3, s' = touch a nd3 (os s) s /\ counted nd nd3 /\ refCount (hdr nd3) = held a + 1).
  { apply wp_when; intros C.
    - apply wp_bind, (wp_upd _ _ _ _ _ (touch_get _ _ _ _)). rewrite touch_touch. cbn [os touch with_os with_bnodes]. unfold bnode_SetGoal. set (nd3 := on_hdr _ nd2). fold (touch a nd3 (os s) s).
      apply wp_bind, (wp_upd _ _ _ _ _ (touch_get _ _ _ _)). rewrite touch_touch. cbn [os touch with_os with_bnodes]. set (nd4 := on_hdr _ nd3). fold (touch a nd4 (os s) s).
      eapply wp_mono; [apply (Check_ok _ _ nd4), touch_get |]. cbn beta. intros _ s' (nd5 & -> & Qo' & [p1 p2 p3 p4 p5 p6 p7 p8]). rewrite touch_touch. exists nd5. split; [done |].
      split; [| by rewrite p2; change (refCount (hdr nd1) = held a + 1); rewrite q2]. unfold counted. fold old. rewrite C, Qo', p1, p7, p8, p4, p6, orb_true_r.
      split; [exact Qo |]. split; [exact q1 |]. split; [exact q7 |]. done.
    - exists nd2. split; [done |]. split; [| by change (refCount (hdr nd1) = held a + 1); rewrite q2]. unfold counted. fold old. rewrite C, orb_false_r.
      split; [exact Qo |]. split; [exact q1 |]. split; [exact q7 |]. split; [done |]. split; [exact q4 | exact q6]. }
  cbn beta. intros _ s2 (nd3 & -> & C3 & R3).
  assert (A3 : alike nd nd3) by (apply ops_like; apply C3). assert (B3 : base (Some p) (touch a nd3 (os s) s)) by by eapply base_alike.
  assert (S3 : sal (touch a nd3 (os s) s)) by (eapply sal_alike; [done.. |]; unfold needs; by rewrite (proj1 C3)).
  apply wp_bind. eapply wp_mono; [by apply (Release_ok types (Some p) _ a nd3 (held a) B3 (touch_get _ _ _ _)) |]. cbn beta. intros _ s4 L.
  destruct (let_go_inv types (Some p) held _ s4 a nd3 (ref_to (held a) nd3) (held a) B3 S3 (touch_get _ _ _ _) eq_refl Hh) as (B4 & S4 & R4); [by apply others_touch | | exact L |].
  { intros nd' T. split; apply T. }
  unfold DeleteProc. cbn. split; [by apply base_DeleteProc |]. split; [by apply sal_procs |]. split; [split; apply R4 |].
  assert (F : forall nd', ref_to (held a) nd3 nd' -> counted nd nd').
  { intros nd' (t1 & _ & t3 & t4 & t5 & t6 & t7 & _). destruct C3 as (c1 & c2 & c3 & c4 & c5 & c6). unfold counted. by rewrite t1, t3, t4, t5, t6, t7. }
  destruct L as [(nd4 & -> & T & _) | (_ & nd4 & -> & T & _)].
  - split; [done |]. split; [done |]. split; [intros b Hb; cbn; by rewrite !lookup_insert_ne |]. intros nd'. cbn. rewrite lookup_insert_eq. intros [= <-]. by apply F.
  - split; [done |]. split; [done |]. split; [intros b Hb; cbn; by rewrite lookup_delete_ne, !lookup_insert_ne |]. intros nd'. cbn. by rewrite lookup_delete_eq.
Qed.

Lemma find_child x s q : base x s -> x = None -> is_Some (children (os s) !! q) -> exists a nd r p pr,
  bnodes s !! a = Some nd /\ proc (slot_of nd r) = Some p /\ (p, pr) ∈ allProcs s /\ pid pr = q /\ bnode_of pr = a
  /\ exists i, list_find (fun x => pid x.2 = q) (allProcs s) = Some (i, (p, pr)).
Proof.
  intros B -> Hk. apply (b_kids _ _ _ B) in Hk as [i Hi]. destruct (live_slot _ _ _ _ _ B Hi) as (a & nd & r & p & pr & H & Hp & Hpr & Hq & _ & _ & _ & Ha).
  exists a, nd, r, p, pr. do 5 (split; [done |]). destruct (list_find (fun x => pid x.2 = q) (allProcs s)) as [[j [p' pr']] |] eqn:E.
  - apply list_find_Some in E as (Hj & Ep & _). cbn in Ep. apply list_elem_of_lookup_2 in Hj.
    destruct (b_owner _ _ _ B p' pr' Hj) as (nd' & r' & H' & Hp'); [done |].
    destruct (pid_apart _ _ _ _ _ _ _ _ _ _ _ _ _ B H H' Hp Hp' Hpr Hj) as [-> ->]; [congruence |]. rewrite H in H'. injection H' as <-. rewrite Hp in Hp'. injection Hp' as <-.
    assert (pr' = pr) as -> by by eapply procs_unique. by exists j.
  - apply list_find_None in E. rewrite Forall_forall in E. by destruct (E _ Hpr).
Qed.

(** Up to the handler. *)
Definition exit_head (t code : Z) (k : Z -> Z -> SM bos unit) : SM bos unit :=
  let* status := waitpid code in
  let* found := gets (fun s => list_find (fun x => pid x.2 = code) (allProcs s)) in
  match found with
  | None => modify (fun s => with_weird (s32 (weirdPids s + 1)) s)
  | Some (_, (tp, pr)) =>
      let tb := bnode_of pr in
      bnode_Hold tb ;;
      let* nd := get tb in
      when (s32 (rsTime (hdr nd) + 30) <? t) (upd tb (on_hdr (set_rs t 0))) ;;
      upd_proc tp (proc_exited status) ;;
      let* t' := FT_ApproxTime in
      upd tb (on_hdr (set_stats (note_exit status t' (coreName pr)))) ;;
      upd tb (on_hdr (set_stats (fun x => Stats (procStartTime x) (procStarts x) t' (lastErrorExit x) (errorCode x) (errorSignal x) (lastErrorName x)))) ;;
      k tb tp
  end.
Lemma bproc_exit_parts t code : bproc_exit t code = exit_head t code (fun tb tp => BOP_PROCEXIT tb tp ;; exit_tail tb tp).
Proof. done. Qed.

Lemma exit_head_ok s a nd r p pr q st t k Q : base None s -> bnodes s !! a = Some nd -> proc (slot_of nd r) = Some p -> (p, pr) ∈ allProcs s -> pid pr = q -> bnode_of pr = a ->
  (exists i, list_find (fun x => pid x.2 = q) (allProcs s) = Some (i, (p, pr))) -> children (os s) !! q = Some (Some st) ->
  (forall nd2, noted t nd nd2 -> wp (k a p) Q (with_procs (map (fun x => if decide (x.1 = p) then (x.1, proc_exited st x.2) else x) (allProcs s)) (touch a nd2 (collect q st s) s))) ->
  wp (exit_head t q k) Q s.
Proof.
  intros B H Hp Hpr Hq Ha [i Hi] Hk HQ. unfold exit_head. apply wp_bind. unfold wp at 1, waitpid. rewrite Hk. cbn beta iota. change (with_os _ s) with (with_os (collect q st s) s).
  apply wp_bind. unfold wp at 1, gets. cbn [allProcs with_os]. rewrite Hi. rewrite Ha. set (s1 := with_os (collect q st s) s).
  assert (H1 : bnodes s1 !! a = Some nd) by done. apply wp_bind. unfold bnode_Hold. apply (wp_upd _ _ _ _ _ H1). set (nd1 := on_hdr _ nd).
  apply wp_bind, (wp_get _ _ _ _ (touch_get _ _ _ _)), wp_bind.
  eapply wp_mono with (Q := fun _ s' => exists nd2, s' = touch a nd2 (collect q st s) s /\ noted t nd nd2).
  { apply wp_when; intros C; change (rsTime (hdr nd1)) with (rsTime (hdr nd)) in C.
    - apply (wp_upd _ _ _ _ _ (touch_get _ _ _ _)). eexists. split; [unfold s1, touch, with_os, with_bnodes; cbn; by rewrite insert_insert_eq |].
      unfold noted, window. by rewrite C.
    - exists nd1. split; [done |]. unfold noted, window. by rewrite C. }
  cbn beta. intros _ s2 (nd2 & -> & N). apply wp_bind. unfold upd_proc, wp at 1, modify. cbn beta iota. set (s3 := with_procs _ _).
  assert (H3 : bnodes s3 !! a = Some nd2) by apply lookup_insert_eq. apply wp_bind. unfold wp at 1. cbn [FT_ApproxTime gets].
  apply wp_bind, (wp_upd _ _ _ _ _ H3), wp_bind, (wp_upd _ _ _ _ _ (touch_get _ _ _ _)). rewrite touch_touch. cbn [os touch with_os with_bnodes].
  set (nd3 := on_hdr _ (on_hdr _ nd2)). assert (N3 : noted t nd nd3) by exact N.
  generalize (HQ nd3 N3). unfold s3, touch, with_procs, with_os, with_bnodes. cbn. by rewrite insert_insert_eq.
Qed.

Lemma exit_ok held s q st t : base None s -> sal s -> refs held s -> children (os s) !! q = Some (Some st) -> (forall g, st = Signaled g -> g <> 0) ->
  exists a nd r p pr, bnodes s !! a = Some nd /\ proc (slot_of nd r) = Some p /\ (p, pr) ∈ allProcs s /\ pid pr = q /\
  wp (bproc_exit t q) (fun _ s' => base None s' /\ sal s' /\ refs held s' /\ now (os s') = now (os s) /\ (forall b, b <> a -> bnodes s' !! b = bnodes s !! b)
    /\ (forall q' v, q' <> q -> children (os s) !! q' = Some v -> children (os s') !! q' = Some v)
    /\ (forall p' pr', p' <> p -> (p', pr') ∈ allProcs s -> (p', pr') ∈ allProcs s')
    /\ (forall nd', bnodes s' !! a = Some nd' -> exited t r nd nd')
    /\ (is_fs nd = false -> (starts s' <= starts s + if (goal (hdr nd) =? 0)%Z then 0 else 1)%nat)) s.
Proof.
  intros B S R Hk Hst. destruct (find_child None s q B eq_refl) as (a & nd & r & p & pr & H & Hp & Hpr & Hq & Ha & Hi); [eauto |].
  exists a, nd, r, p, pr. do 4 (split; [done |]). rewrite bproc_exit_parts. eapply exit_head_ok; [done.. |].
  intros nd2 (n1 & n2 & n3 & n4 & n5 & n6 & n7 & n8). destruct (r_count _ _ R a nd H) as [Rc Rh]. pose proof (b_nodes _ _ _ B a nd H) as Nd.
  destruct (slot_proc _ _ _ _ _ _ _ B H Hp) as (_ & Hr & _). pose proof (running_has_slot _ _ Hr) as V.
  destruct (note_good s a nd r p pr q st nd2 (proc_exited st) B S H Hp Hpr Hq n1 n2) as (B2 & S2 & Hpr2). set (s2 := with_procs _ _) in *.
  assert (Sl : forall r', slot_of nd2 r' = slot_of nd r') by (intros r'; unfold slot_of; by rewrite n1).
  assert (V2 : has_slot nd2 r) by (unfold has_slot; rewrite n1; exact V).
  assert (H2 : bnodes s2 !! a = Some nd2) by apply lookup_insert_eq.
  apply wp_bind. eapply wp_mono; [apply (PROCEXIT_ok s2 a nd2 r p (proc_exited st pr) B2 S2 H2 V2) |].
  - intros r'. rewrite Sl. split; [| by intros ->]. intros Hp'. by destruct (slot_apart _ _ _ _ _ _ _ _ _ _ B H H Hp' Hp).
  - exact Hpr2.
  - destruct (decide (r = R_file)) as [-> |]; [left | by right]. destruct (running (slot_of (cleared R_file nd2) R_salv)) eqn:E; [| done].
    apply cleared_running in E; [| done]. rewrite Sl in E. destruct (n_salv _ _ Nd E) as [_ E']. by rewrite E' in Hr.
  - destruct (decide (r = R_salv)) as [-> |]; [left | by right]. destruct (running (slot_of (cleared R_salv nd2) R_file)) eqn:E; [| done].
    apply cleared_running in E; [| done]. rewrite Sl in E. destruct (n_salv _ _ Nd Hr) as [_ E']. by rewrite E' in E.
  - destruct (leaves_clean_ok _ _ _ _ _ _ _ st B H Hp Hpr Hst) as [C1 C2]. rewrite Hq in C1, C2. unfold leaves_clean. rewrite !Sl, n2. split; [exact C1 | exact C2].
  - cbn beta. intros _ s3 [(B3 & S3 & K3 & nd3 & H3 & N3 & N3') St]. destruct N3 as ([h1 h2 h3 h4 h5 h6 h7 h8] & Nt & Nc & Nf).
    assert (O2 : others_ok held a s2) by (eapply others_same; [| exact (refs_others held a s R)]; intros b Hne; cbn; by rewrite lookup_insert_ne).
    assert (O3 : others_ok held a s3) by (eapply others_same; [| exact O2]; intros b Hne; rewrite (k_other _ _ _ K3) by done; cbn; by rewrite lookup_insert_ne).
    eapply wp_mono; [apply (exit_tail_ok held p s3 a nd3 B3 S3 H3); [| done | done] |].
    { rewrite h2. change (refCount (hdr nd2) = held a + 1). rewrite n3, Rc. apply s16_small. lia. }
    cbn beta. intros _ s4 (B4 & S4 & R4 & E4 & P4 & O4 & C4). split; [done |]. split; [done |]. split; [done |]. rewrite E4.
    split; [by rewrite (k_now _ _ _ K3) |]. split; [intros b Hb; rewrite O4, (k_other _ _ _ K3) by done; cbn; by rewrite !lookup_insert_ne |]. split; [| split; [| split]].
    + intros q' v Hne Hv. apply (k_kids _ _ _ K3). cbn. by rewrite lookup_delete_ne.
    + intros p' pr' Hne Hp'. rewrite P4, list_elem_of_filter. split; [done |]. destruct (k_procs _ _ _ K3) as [new ->]. rewrite elem_of_app. right. cbn.
      apply list_elem_of_In, in_map_iff. exists (p', pr'). cbn. rewrite decide_False by done. split; [done |]. by apply list_elem_of_In.
    + intros nd' H'. destruct (C4 nd' H') as (c1 & c2 & c3 & c4 & c5 & c6). assert (G : goal (hdr nd3) = goal (hdr nd)) by (rewrite h4; exact n5).
      assert (L : rsCount (hdr nd3) = (window t nd).2) by (rewrite h8; exact n8). split.
      * rewrite c2, h1. exact n2.
      * transitivity (type_of nd3); [unfold type_of; by rewrite c1 |]. rewrite Nt. unfold type_of, cleared, on_slot. cbn. rewrite n1. by destruct (ops nd).
      * transitivity (is_fs nd3); [unfold is_fs; by rewrite c1 |]. rewrite Nf. unfold is_fs, cleared, on_slot. cbn. rewrite n1. by destruct (ops nd).
      * rewrite c3, h7. exact n7.
      * by rewrite c4, L.
      * by rewrite c5, L, G.
      * rewrite c6, L, h6. change (ERRORSTOP (hdr (cleared r nd2))) with (ERRORSTOP (hdr nd2)). by rewrite n6.
      * intros F Hg. assert (F2 : is_fs nd2 = true) by (unfold is_fs; rewrite n1; exact F). destruct (N3' F2) as [_ N]. destruct N as [[T1 T2] _]; [change (goal (hdr nd2) <> 1); by rewrite n5 |].
        assert (E : forall r', slot_of nd' r' = slot_of nd3 r') by (intros r'; unfold slot_of; by rewrite c1).
        assert (E0 : forall r', slot_of (cleared r nd2) r' = slot_of (cleared r nd) r') by (intros r'; unfold cleared, on_slot, slot_of; cbn; by rewrite n1).
        split; intros r'; rewrite E, <- E0; [apply T1 | apply T2].
    + intros F. assert (F2 : is_fs nd2 = false) by (unfold is_fs; rewrite n1; exact F). pose proof (St F2) as St'. rewrite n5 in St'. unfold starts in *. rewrite E4. exact St'.
Qed.
End types.
