(* ===== verification/BnodeCalls.v ===== *)
(** The calls of the bosserver and the timeouts: each keeps the invariant, and the
    references that calls that wait have. *)
From stdpp Require Import strings functions.
From S2P Require Import Prelude Monad BnodeParse Bnode BnodeSpec BnodeExec BnodeNudge BnodeFs BnodeExit BnodeManage BnodeRun BnodeCollect.

#[local] Open Scope monad_scope.
#[local] Open Scope string_scope.
#[local] Open Scope Z_scope.
#[local] Open Scope list_scope.

Section types.
Context (types : string -> btype).
Notation base := (base types).
Notation sal := (sal types).
Notation good := (good types).
Notation alike := (like None).

(** The invariant, with the references counted. *)
Record inv (held : Z -> Z) (s : bos) : Prop := { i_base : base None s; i_sal : sal s; i_refs : refs held s }.

(** One more reference, or fewer, to one bnode: its count is [n], the others' are right. *)
Definition inv_but (held : Z -> Z) (a n : Z) (nd : node) (s : bos) : Prop :=
  base None s /\ sal s /\ bnodes s !! a = Some nd /\ refCount (hdr nd) = n /\ others_ok held a s.

Lemma inv_inv_but held s a nd : inv held s -> bnodes s !! a = Some nd -> inv_but held a (held a) nd s.
Proof.
  intros [B S R] H. destruct (r_count _ _ R a nd H). split; [done |]. split; [done |]. split; [done |]. split; [done |]. by apply refs_others.
Qed.

Lemma good_others held x a P s s' : others_ok held a s -> good x a P s s' -> others_ok held a s'.
Proof. intros O (_ & _ & K & _). eapply others_same; [apply (k_other _ _ _ K) | done]. Qed.

Lemma Hold_ok held a n nd s : inv_but held a n nd s -> 0 <= n < 30050 ->
  wp (bnode_Hold a) (fun _ s' => exists nd', ops nd' = ops nd /\ hdr nd' = set_refCount (n + 1) (hdr nd) /\ s' = touch a nd' (os s) s /\ inv_but held a (n + 1) nd' s') s.
Proof.
  intros (B & S & H & <- & O) Hn. unfold bnode_Hold. apply (wp_upd _ _ _ _ _ H). set (nd1 := on_hdr _ nd).
  assert (E : hdr nd1 = set_refCount (refCount (hdr nd) + 1) (hdr nd)) by (change (hdr nd1) with (set_refCount (s16 (refCount (hdr nd) + 1)) (hdr nd)); by rewrite s16_small by lia).
  assert (A : alike nd nd1) by by apply ops_like. exists nd1. split; [done |]. split; [done |]. split; [done |].
  split; [by eapply base_alike |]. split; [by eapply sal_alike |]. split; [apply touch_get |]. split; [by rewrite E |]. by apply others_touch.
Qed.

(** What [n] references more than those that wait amount to, when one goes. *)
Lemma Release_inv held a nd s : inv_but held a (held a + 1) nd s -> 0 <= held a < 30000 ->
  wp (bnode_Release a) (fun _ s' => inv held s' /\ os s' = os s /\ (forall b, b <> a -> bnodes s' !! b = bnodes s !! b)
    /\ (forall nd', bnodes s' !! a = Some nd' -> ref_to (held a) nd nd')) s.
Proof.
  intros (B & S & H & Hr & O) Hh. eapply wp_mono; [by eapply Release_ok |]. cbn beta. intros _ s' L.
  destruct (let_go_inv types None held s s' a nd (ref_to (held a) nd) (held a) B S H eq_refl Hh O) as (B' & S' & R'); [| exact L |]; [intros nd' T; split; apply T |].
  split; [by split |]. destruct L as [(nd4 & -> & T & _) | (_ & nd4 & -> & T & _)].
  - split; [done |]. split; [intros b Hb; cbn; by rewrite !lookup_insert_ne |]. intros nd'. cbn. rewrite lookup_insert_eq. by intros [= <-].
  - split; [done |]. split; [intros b Hb; cbn; by rewrite lookup_delete_ne, !lookup_insert_ne |]. intros nd'. cbn. by rewrite lookup_delete_eq.
Qed.
Lemma Release_but held a n nd s : inv_but held a (n + 1) nd s -> 0 < n < 30000 ->
  wp (bnode_Release a) (fun _ s' => exists nd', ref_to n nd nd' /\ s' = touch a nd' (os s) s /\ inv_but held a n nd' s') s.
Proof.
  intros (B & S & H & Hr & O) Hn. eapply wp_mono; [eapply Release_ok; [done.. | lia] |]. cbn beta.
  intros _ s' [(nd' & -> & T & Rn & _) | (E & _)]; [| lia]. exists nd'. split; [done |]. split; [done |].
  pose proof (ref_to_like _ _ _ T) as A. split; [by eapply base_alike |]. split; [eapply sal_alike; [done.. |]; unfold needs; by rewrite (proj1 T) |].
  split; [apply touch_get |]. split; [done | by apply others_touch].
Qed.

Lemma SetStat_but held a n nd s g : inv_but held a n nd s ->
  wp (bnode_SetStat a g) (fun _ s' => exists nd', has_goal (s8 g) nd nd' /\ inv_but held a n nd' s' /\ kept a s s') s.
Proof.
  intros (B & S & H & Hr & O). eapply wp_mono; [by eapply SetStat_ok |]. cbn beta. intros _ s' G.
  pose proof (good_others _ _ _ _ _ _ O G) as O'. destruct G as (B' & S' & K & nd' & H' & N). exists nd'. split; [done |]. split; [| done].
  split; [done |]. split; [done |]. split; [done |]. split; [| done]. destruct N as [N _]. rewrite (proj1 (proj2 N)). done.
Qed.

(** ** Timeouts *)

Lemma timeout_ok held s a nd t : inv held s -> bnodes s !! a = Some nd ->
  wp (bproc_timeout t a) (fun _ s' => inv held s' /\ (forall b, b <> a -> bnodes s' !! b = bnodes s !! b)
    /\ (forall q v, children (os s) !! q = Some v -> children (os s') !! q = Some v)
    /\ (forall nd', bnodes s' !! a = Some nd' -> slots_told [] nd nd' /\ goal (hdr nd') = goal (hdr nd)
       /\ (is_fs nd = true -> NEEDTIMEOUT (hdr nd) = true -> nextTimeout (hdr nd) < t -> forall r, r <> R_main -> overdue nd r (now (os s)) (patience r) = true -> killSent (slot_of nd' r) = true))) s.
Proof.
  intros I H. destruct (r_count _ _ (i_refs _ _ I) a nd H) as [Rc Rh]. unfold bproc_timeout. apply wp_bind, (wp_get _ _ _ _ H), wp_when; intros C.
  - apply wp_bind. eapply wp_mono; [apply (Hold_ok held a (held a) nd); [by apply inv_inv_but | lia] |]. cbn beta. intros _ s1 (nd1 & E1 & Eh & -> & (B1 & S1 & H1 & R1 & O1)).
    apply wp_bind. eapply wp_mono; [by eapply TIMEOUT_ok |]. cbn beta. intros _ s2 G. pose proof (good_others _ _ _ _ _ _ O1 G) as O2. destruct G as (B2 & S2 & K2 & nd2 & H2 & T2 & L2).
    apply wp_bind. eapply wp_mono; [by apply Check_ok |]. cbn beta. intros _ s3 (nd3 & -> & Q3).
    apply wp_bind, (wp_get _ _ _ _ (touch_get _ _ _ _)). apply wp_bind.
    eapply wp_mono with (Q := fun _ s' => exists nd4, s' = touch a nd4 (os s2) s2 /\ quiet nd3 nd4).
    { apply wp_when; intros D; [| exists nd3; split; [done | apply quiet_refl]]. apply wp_bind. unfold wp at 1. cbn [FT_ApproxTime gets].
      apply (wp_upd _ _ _ _ _ (touch_get _ _ _ _)). rewrite touch_touch. eexists. split; [done |]. by split. }
    cbn beta. intros _ s4 (nd4 & -> & Q4). pose proof (quiet_trans _ _ _ Q3 Q4) as Q.
    eapply wp_mono; [apply (Release_inv held a nd4); [| done] |].
    + split; [eapply base_alike; [done.. | by apply quiet_like] |]. split; [eapply sal_alike; [done.. | by apply quiet_like | by apply quiet_needs] |].
      split; [apply touch_get |]. split; [| by apply others_touch]. rewrite (h_ref _ _ (proj2 Q)), (h_ref _ _ (proj1 (proj1 T2))), Eh. done.
    + cbn beta. intros _ s5 (I5 & E5 & O5 & T5). split; [done |]. split.
      { intros b Hb. rewrite O5 by done. cbn. rewrite !lookup_insert_ne by done. rewrite (k_other _ _ _ K2) by done. cbn. by rewrite lookup_insert_ne. }
      split; [intros q v Hv; rewrite E5; by apply (k_kids _ _ _ K2) |]. intros nd' H'. pose proof (T5 nd' H') as (e1 & _ & _ & e4 & _). assert (Sl : forall r, slot_of nd' r = slot_of nd2 r) by (intros r; unfold slot_of; by rewrite e1, (proj1 Q)).
      assert (S0 : forall r, slot_of nd1 r = slot_of nd r) by (intros r; unfold slot_of; by rewrite E1). split; [| split].
      * destruct T2 as (_ & _ & T21 & _). split; [| by intros r ?%elem_of_nil]. intros r. rewrite Sl, <- S0. apply T21.
      * rewrite e4, (h_goal _ _ (proj2 Q)), (h_goal _ _ (proj1 (proj1 T2))), Eh. done.
      * intros F _ _ r Hr Ho. assert (F1 : is_fs nd1 = true) by (unfold is_fs; rewrite E1; exact F). destruct (L2 F1) as (_ & L & _). rewrite Sl. apply L; [done |].
        unfold overdue. rewrite E1. exact Ho.
  - split; [done |]. split; [done |]. split; [done |]. intros nd' H'. rewrite H in H'. injection H' as <-. split; [by apply (told_refl nd) |]. split; [done |].
    intros _ N Ht. rewrite N in C. apply Z.ltb_ge in C. lia.
Qed.

(** ** Status calls *)

Lemma FindInstance_ok held s n : inv held s ->
  wp (bnode_FindInstance n) (fun tb s' => s' = s /\ match tb with
    | Some a => exists nd, bnodes s !! a = Some nd /\ name (hdr nd) = n
    | None => forall a nd, bnodes s !! a = Some nd -> name (hdr nd) <> n
    end) s.
Proof.
  intros [B _ _]. unfold bnode_FindInstance, wp, gets. split; [done |].
  destruct (list_find (fun a => (name ∘ hdr <$> bnodes s !! a) = Some n) (allBnodes s)) as [[i a] |] eqn:E; cbn.
  - apply list_find_Some in E as (_ & E & _). apply fmap_Some in E as (nd & H & En). eauto.
  - intros a nd H En. apply list_find_None in E. rewrite Forall_forall in E. apply (E a).
    + apply (proj2 (b_all _ _ _ B)). by exists nd.
    + by rewrite H; cbn; rewrite En.
Qed.

(** The part of a call that is done on a bnode, with a reference of its own. *)
Lemma held_call {A} held s a nd (m : SM bos A) (P : node -> node -> Prop) : inv held s -> bnodes s !! a = Some nd ->
  (forall nd1 s1, ops nd1 = ops nd -> hdr nd1 = set_refCount (held a + 1) (hdr nd) -> inv_but held a (held a + 1) nd1 s1 ->
    wp m (fun _ s2 => exists nd2, P nd1 nd2 /\ inv_but held a (held a + 1) nd2 s2 /\ kept a s1 s2) s1) ->
  wp (bnode_Hold a ;; let* r := m in bnode_Release a ;; ret r) (fun _ s' => inv held s' /\ (forall b, b <> a -> bnodes s' !! b = bnodes s !! b)
    /\ (forall nd', bnodes s' !! a = Some nd' -> exists nd1 nd2, ops nd1 = ops nd /\ hdr nd1 = set_refCount (held a + 1) (hdr nd) /\ P nd1 nd2 /\ ref_to (held a) nd2 nd')) s.
Proof.
  intros I H Hm. destruct (r_count _ _ (i_refs _ _ I) a nd H) as [Rc Rh].
  apply wp_bind. eapply wp_mono; [apply (Hold_ok held a (held a) nd); [by apply inv_inv_but | lia] |]. cbn beta. intros _ s1 (nd1 & E1 & Eh & E & I1).
  apply wp_bind. eapply wp_mono; [by eapply Hm |]. cbn beta. intros x s2 (nd2 & HP & I2 & K). apply wp_bind. eapply wp_mono; [by eapply Release_inv |].
  cbn beta. intros _ s3 (I3 & _ & O3 & T3). apply wp_ret. split; [done |]. split.
  - intros b Hb. rewrite O3, (k_other _ _ _ K) by done. subst s1. cbn. by rewrite lookup_insert_ne.
  - intros nd' H'. exists nd1, nd2. auto.
Qed.

(** What a bnode is like after a call that gives it a goal. *)
Definition given_goal (g : Z) (nd nd' : node) : Prop :=
  name (hdr nd') = name (hdr nd) /\ type_of nd' = type_of nd /\ is_fs nd' = is_fs nd /\ goal (hdr nd') = g /\ ERRORSTOP (hdr nd') = false
  /\ rsTime (hdr nd') = rsTime (hdr nd) /\ rsCount (hdr nd') = rsCount (hdr nd)
  /\ (is_fs nd = true -> g <> 1 -> halting nd nd').

Lemma given_goal_of g n nd nd1 nd2 nd' : ops nd1 = ops nd -> hdr nd1 = set_refCount n (hdr nd) -> has_goal g nd1 nd2 -> ref_to (n - 1) nd2 nd' -> given_goal g nd nd'.
Proof.
  intros E1 Eh ((i1 & _ & _ & i4 & i5 & i6 & i7 & i8) & G & Er & L) (t1 & _ & t3 & t4 & t5 & t6 & t7 & t8). unfold given_goal.
  rewrite t3, i1, t4, G, t5, t6, i4, i5, t7, Er, Eh. split; [done |]. split; [| split; [| do 4 (split; [done |])]].
  - transitivity (type_of nd2); [unfold type_of; by rewrite t1 |]. rewrite i6. unfold type_of. by rewrite E1.
  - transitivity (is_fs nd2); [unfold is_fs; by rewrite t1 |]. rewrite i8. unfold is_fs. by rewrite E1.
  - intros F Hg. assert (F1 : is_fs nd1 = true) by (unfold is_fs; rewrite E1; exact F). destruct (L F1 Hg) as [[T1 T2] C].
    assert (S1 : forall r, slot_of nd1 r = slot_of nd r) by (intros r; unfold slot_of; by rewrite E1).
    assert (S2 : forall r, slot_of nd' r = slot_of nd2 r) by (intros r; unfold slot_of; by rewrite t1). split.
    + split; intros r; rewrite S2, <- S1; [apply T1 | apply T2].
    + rewrite t8, C. symmetry. apply needs_clock_ops; [done | congruence].
Qed.

Lemma SetTStatus_ok held s n g : inv held s ->
  wp (SBOZO_SetTStatus n g) (fun _ s' => inv held s' /\ (forall b nd', bnodes s' !! b = Some nd' -> exists nd, bnodes s !! b = Some nd /\ name (hdr nd) = name (hdr nd'))
    /\ forall a nd, bnodes s !! a = Some nd -> name (hdr nd) = n -> forall nd', bnodes s' !! a = Some nd' -> given_goal (s8 g) nd nd') s.
Proof.
  intros I. unfold SBOZO_SetTStatus. apply wp_bind. eapply wp_mono; [by apply (FindInstance_ok held) |]. cbn beta. intros [a |] s' [-> F].
  - destruct F as (nd & H & <-). eapply wp_mono; [apply (held_call held s a nd (bnode_SetStat a g) (has_goal (s8 g)) I H) |].
    + intros nd1 s1 _ _ I1. by apply SetStat_but.
    + cbn beta. intros _ s' (I' & O & T). split; [done |].
      assert (G : forall nd', bnodes s' !! a = Some nd' -> given_goal (s8 g) nd nd').
      { intros nd' H'. destruct (T nd' H') as (nd1 & nd2 & E1 & Eh & HP & TT). eapply (given_goal_of _ (held a + 1)); [done.. |].
        by replace (held a + 1 - 1) with (held a) by lia. }
      split.
      * intros b nd' Hb. destruct (decide (b = a)) as [-> | Hne]; [exists nd; split; [done |]; symmetry; by apply G | rewrite O in Hb by done; eauto].
      * intros b m Hb Hn nd' H'. assert (b = a) as -> by by eapply (b_name _ _ _ (i_base _ _ I)). rewrite H in Hb. injection Hb as <-. by apply G.
  - apply wp_ret. split; [done |]. split; [eauto |]. intros a nd H Hn. by destruct (F a nd H).
Qed.

Lemma SetFileGoal_but held a n nd s g : inv_but held a n nd s ->
  wp (bnode_SetFileGoal a g) (fun _ s' => exists nd', ops nd' = ops nd /\ hdr nd' = set_fileGoal (fileGoal (hdr nd')) (hdr nd) /\ inv_but held a n nd' s' /\ kept a s s') s.
Proof.
  intros (B & S & H & Hr & O). unfold bnode_SetFileGoal. apply wp_bind, (wp_get _ _ _ _ H), wp_when; intros C.
  - apply (wp_upd _ _ _ _ _ H). set (nd1 := on_hdr _ nd). assert (A : alike nd nd1) by by apply ops_like. exists nd1. split; [done |]. split; [done |].
    split; [| by apply kept_touch]. split; [by eapply base_alike |]. split; [by eapply sal_alike |]. split; [apply touch_get |]. split; [done | by apply others_touch].
  - exists nd. split; [done |]. split; [by destruct nd as [[]] |]. split; [done | apply kept_refl].
Qed.

Lemma SetStatus_ok held s n g : inv held s -> wp (SBOZO_SetStatus n g) (fun _ s' => inv held s') s.
Proof.
  intros I. unfold SBOZO_SetStatus. apply wp_bind. eapply wp_mono; [by apply (FindInstance_ok held) |]. cbn beta. intros [a |] s' [-> F]; [| by apply wp_ret].
  destruct F as (nd & H & <-). destruct (r_count _ _ (i_refs _ _ I) a nd H) as [Rc Rh].
  apply wp_bind. eapply wp_mono; [apply (Hold_ok held a (held a) nd); [by apply inv_inv_but | lia] |]. cbn beta. intros _ s1 (nd1 & _ & _ & _ & I1).
  apply wp_bind. eapply wp_mono; [by eapply SetFileGoal_but |]. cbn beta. intros _ s2 (nd2 & _ & _ & I2 & _).
  apply wp_bind. eapply wp_mono; [by eapply SetStat_but |]. cbn beta. intros c s3 (nd3 & _ & I3 & _).
  apply wp_bind. eapply wp_mono; [by eapply Release_inv |]. cbn beta. intros _ s4 (I4 & _). by apply wp_ret.
Qed.

Lemma DeleteName_ok held s n : inv held s -> wp (bnode_DeleteName n) (fun _ s' => inv held s') s.
Proof.
  intros I. unfold bnode_DeleteName. apply wp_bind. eapply wp_mono; [by apply (FindInstance_ok held) |]. cbn beta. intros [a |] s' [-> F]; [| by apply wp_ret].
  destruct F as (nd & H & <-). destruct (r_count _ _ (i_refs _ _ I) a nd H) as [Rc Rh]. unfold bnode_Delete. destruct (decide (held a = 0)) as [E | E].
  - assert (D : DELETE (hdr nd) = false) by (destruct (DELETE (hdr nd)) eqn:D; [by destruct (r_delete _ _ (i_refs _ _ I) a nd H D) | done]).
    eapply wp_mono; [apply (delete_ok types None s a nd 1 (i_base _ _ I) H); [congruence | done] |]. cbn beta. intros _ s' L.
    assert (HP : forall nd', ref_to 0 nd nd' -> ops nd' = ops nd /\ name (hdr nd') = name (hdr nd)) by (intros nd' T; split; apply T).
    destruct (let_go_inv types None held s s' a nd (ref_to 0 nd) 0 (i_base _ _ I) (i_sal _ _ I) H (eq_sym E) Rh (refs_others held a s (i_refs _ _ I)) HP L) as (B' & S' & R'). by split.
  - unfold delete_with. apply wp_bind, (wp_get _ _ _ _ H). rewrite Rc, (proj2 (Z.eqb_neq _ _)) by done. cbn [negb]. apply wp_bind, (wp_upd _ _ _ _ _ H), wp_ret.
    set (nd1 := on_hdr _ nd). assert (A : alike nd nd1) by by apply ops_like. destruct I as [B S R]. split; [by eapply base_alike | by eapply sal_alike |].
    apply (refs_of held a); [by apply others_touch, refs_others |]. rewrite touch_get. split; [done |]. by split.
Qed.
End types.
