(* ===== verification/BnodeWait.v ===== *)
(** Calls that wait for a bnode, calls on all bnodes, and new bnodes. *)
From stdpp Require Import strings functions.
From S2P Require Import Prelude Monad BnodeParse Bnode BnodeSpec BnodeExec BnodeNudge BnodeFs BnodeExit BnodeManage BnodeRun BnodeCollect BnodeCalls.

#[local] Open Scope monad_scope.
#[local] Open Scope string_scope.
#[local] Open Scope Z_scope.
#[local] Open Scope list_scope.

Section types.
Context (types : string -> btype).
Notation base := (base types).
Notation sal := (sal types).
Notation good := (good types).
Notation inv := (inv types).
Notation inv_but := (inv_but types).
Notation alike := (like None).

(** ** Waiting *)

(** A call to restart a bnode holds it twice while it waits. *)
Definition held (W : list Z) (a : Z) : Z := 2 * Z.of_nat (length (filter (fun b => b = a) W)).

Lemma held_cons a W b : held (a :: W) b = if decide (b = a) then held W b + 2 else held W b.
Proof. unfold held. rewrite filter_cons. repeat case_decide; subst; try done; cbn [length]; lia. Qed.
Lemma held_perm W W' a : W ≡ₚ W' -> held W a = held W' a.
Proof. intros P. unfold held. by rewrite P. Qed.
Lemma held_pos W a : 0 <= held W a.
Proof. unfold held. lia. Qed.

Lemma inv_ext h h' s : (forall a, h a = h' a) -> inv h s -> inv h' s.
Proof.
  intros E [B S [R1 R2 R3]]. split; [done.. |]. split; [intros a nd H; rewrite <- E; by apply R1 | intros a nd H; rewrite <- E; by apply (R2 a nd H) | intros a; rewrite <- E; apply R3].
Qed.
Lemma inv_of_but h h' a n nd s : inv_but h a n nd s -> 0 < n < 30000 -> (forall b, h' b = if decide (b = a) then n else h b) -> inv h' s.
Proof.
  intros (B & S & H & R & [O1 O2]) Hn E. split; [done.. |]. apply (refs_of h' a).
  - split; [intros b m Hne; rewrite E, decide_False by done; by apply O1 | intros b Hne; rewrite E, decide_False by done; by apply O2].
  - rewrite H, E, decide_True by done. split; [done |]. split; [lia | intros _; lia].
Qed.

Lemma WaitStatus_but h a n nd s st : inv_but h a (n + 1) nd s -> 0 < n < 30000 ->
  wp (WaitStatus_turn a st) (fun code s' => match code with
    | Some _ => exists nd', inv_but h a n nd' s'
    | None => exists nd', inv_but h a (n + 1) nd' s' end) s.
Proof.
  intros I Hn. pose proof I as (B & S & H & R & O). unfold WaitStatus_turn. apply wp_bind, (GETSTAT_ok _ _ nd); [done |].
  assert (Rel : forall c : Z, wp (bnode_Release a ;; ret (Some c)) (fun code s' => match code with
    | Some _ => exists nd', inv_but h a n nd' s' | None => exists nd', inv_but h a (n + 1) nd' s' end) s).
  { intros c. apply wp_bind. eapply wp_mono; [by eapply Release_but |]. cbn beta. intros _ s' (nd' & _ & _ & I'). apply wp_ret. eauto. }
  case_test; [apply Rel |]. apply wp_bind, (wp_get _ _ _ _ H). case_test; [apply Rel |]. apply wp_bind, (wp_upd _ _ _ _ _ H), wp_ret.
  set (nd1 := on_hdr _ nd). assert (A : alike nd nd1) by by apply ops_like. exists nd1. split; [by eapply base_alike |]. split; [by eapply sal_alike |].
  split; [apply touch_get |]. split; [done |]. by apply others_touch.
Qed.

Lemma Restart_turn_ok h a nd s : inv_but h a (h a + 2) nd s -> 0 <= h a < 29000 ->
  wp (Restart_turn a) (fun fin s' => if (fin : bool) then inv h s' else exists nd', inv_but h a (h a + 2) nd' s') s.
Proof.
  intros I Hh. unfold Restart_turn. apply wp_bind. replace (h a + 2) with (h a + 1 + 1) in * by lia.
  eapply wp_mono; [apply (WaitStatus_but h a (h a + 1) nd _ _ I); lia |]. cbn beta. intros [c |] s' (nd' & I'); [| apply wp_ret; eauto].
  apply wp_bind. eapply wp_mono; [by eapply SetStat_but |]. cbn beta. intros _ s2 (nd2 & _ & I2 & _).
  apply wp_bind. eapply wp_mono; [eapply Release_inv; [exact I2 | lia] |]. cbn beta. intros _ s3 (I3 & _). by apply wp_ret.
Qed.

Lemma Restart_begin_ok h a nd s : inv h s -> bnodes s !! a = Some nd -> h a < 29000 ->
  wp (Restart_begin a) (fun fin s' => if (fin : bool) then inv h s' else exists nd', inv_but h a (h a + 2) nd' s') s.
Proof.
  intros I H Hh. destruct (r_count _ _ (i_refs _ _ _ I) a nd H) as [Rc Rh]. unfold Restart_begin. apply wp_bind.
  eapply wp_mono; [apply (Hold_ok types h a (h a) nd); [by apply inv_inv_but | lia] |]. cbn beta. intros _ s1 (nd1 & _ & _ & _ & I1).
  apply wp_bind. eapply wp_mono; [by eapply SetStat_but |]. cbn beta. intros _ s2 (nd2 & _ & I2 & _).
  apply wp_bind. eapply wp_mono; [eapply (Hold_ok types h a (h a + 1)); [exact I2 | lia] |]. cbn beta. intros _ s3 (nd3 & _ & _ & _ & I3).
  apply (Restart_turn_ok h a nd3); [| lia]. by replace (h a + 2) with (h a + 1 + 1) by lia.
Qed.

(** ** Calls on all bnodes *)

Lemma each_ok h (f : Z -> SM bos unit) l s : (forall a s nd, inv h s -> bnodes s !! a = Some nd -> wp (f a) (fun _ s' => inv h s' /\ forall b, b <> a -> bnodes s' !! b = bnodes s !! b) s) ->
  NoDup l -> (forall a, a ∈ l -> is_Some (bnodes s !! a)) -> inv h s -> wp (each f l) (fun _ s' => inv h s') s.
Proof.
  intros Hf. revert s. induction l as [| a l IH]; intros s Nl Hl I; [done |]. apply NoDup_cons in Nl as [Ha Nl]. cbn [each]. destruct (Hl a) as [nd H]; [by left |].
  apply wp_bind. eapply wp_mono; [by eapply Hf |]. cbn beta. intros _ s' [I' O]. apply IH; [done | | done].
  intros b Hb. rewrite O by (by intros ->). apply Hl. by right.
Qed.
Lemma all_present h s : inv h s -> NoDup (allBnodes s) /\ forall a, a ∈ allBnodes s -> is_Some (bnodes s !! a).
Proof. intros [B _ _]. split; [apply (b_all _ _ _ B) |]. intros a Ha. by apply (b_all _ _ _ B). Qed.

Lemma proc_ok h g a s nd : inv h s -> bnodes s !! a = Some nd ->
  wp (bnode_Hold a ;; bnode_SetStat a g ;; bnode_Release a) (fun _ s' => inv h s' /\ forall b, b <> a -> bnodes s' !! b = bnodes s !! b) s.
Proof.
  intros I H. destruct (r_count _ _ (i_refs _ _ _ I) a nd H) as [Rc Rh]. apply wp_bind.
  eapply wp_mono; [apply (Hold_ok types h a (h a) nd); [by apply inv_inv_but | lia] |]. cbn beta. intros _ s1 (nd1 & _ & _ & E1 & I1).
  apply wp_bind. eapply wp_mono; [by eapply SetStat_but |]. cbn beta. intros _ s2 (nd2 & _ & I2 & K2).
  eapply wp_mono; [eapply Release_inv; [exact I2 | done] |]. cbn beta. intros _ s3 (I3 & _ & O3 & _). split; [done |].
  intros b Hb. rewrite O3, (k_other _ _ _ K2) by done. subst s1. cbn. by rewrite lookup_insert_ne.
Qed.
Lemma ShutdownAll_ok h s : inv h s -> wp SBOZO_ShutdownAll (fun _ s' => inv h s') s.
Proof.
  intros I. unfold SBOZO_ShutdownAll. apply wp_bind. unfold wp at 1. cbn [gets]. destruct (all_present h s I). apply each_ok; [| done..].
  intros a s' nd I' H'. by eapply proc_ok.
Qed.
Lemma StartupAll_ok h s : inv h s -> wp SBOZO_StartupAll (fun _ s' => inv h s') s.
Proof.
  intros I. unfold SBOZO_StartupAll. apply wp_bind. unfold wp at 1. cbn [gets]. destruct (all_present h s I). apply each_ok; [| done..].
  intros a s' nd I' H'. unfold stproc. apply wp_bind, (wp_get _ _ _ _ H'), wp_when; intros _; [by eapply proc_ok | done].
Qed.

(** ** New bnodes *)

Definition added (nd : node) (s : bos) : bos :=
  Bos (<[nextAddr s := nd]> (bnodes s)) (allBnodes s ++ [nextAddr s]) (allProcs s) (nextAddr s + 1) (weirdPids s) (emergency s) (os s).

Lemma base_added s nd : base None s -> node_ok types nd -> (forall r, slot_of nd r = no_slot) ->
  (forall a m, bnodes s !! a = Some m -> name (hdr m) <> name (hdr nd)) -> base None (added nd s).
Proof.
  intros B N E Hn. pose proof (proj1 (b_addr _ _ _ B)) as Ha. assert (Hfree : bnodes s !! nextAddr s = None).
  { apply eq_None_not_Some. intros H. apply Ha in H. lia. }
  assert (L : forall b m, bnodes (added nd s) !! b = Some m -> b = nextAddr s /\ m = nd \/ b <> nextAddr s /\ bnodes s !! b = Some m).
  { cbn. intros b m Hb. destruct (decide (b = nextAddr s)) as [-> |]; [rewrite lookup_insert_eq in Hb; injection Hb as <-; by left |].
    rewrite lookup_insert_ne in Hb by done. by right. }
  destruct B as [B1 B2 B3 B4 B5 B6 B7 B8 B9 B10 B11 B12 B13]. split; try done.
  - cbn. split.
    + apply NoDup_app. split; [apply B1 |]. split; [| apply NoDup_singleton]. intros b Hb Hb'%list_elem_of_singleton. subst b. apply (proj2 B1) in Hb. rewrite Hfree in Hb. by destruct Hb.
    + intros b. rewrite elem_of_app, list_elem_of_singleton, (proj2 B1). destruct (decide (b = nextAddr s)) as [-> |].
      * rewrite lookup_insert_eq. split; [by eexists | by right].
      * rewrite lookup_insert_ne by done. split; [by intros [] | by left].
  - intros b b' m m' Hb Hb' En. apply L in Hb as [[-> ->] | [Hb1 Hb]], Hb' as [[-> ->] | [Hb1' Hb']]; [done | | | by eapply B2].
    + by destruct (Hn b' m' Hb').
    + by destruct (Hn b m Hb).
  - split; cbn [nextAddr added].
    + intros b [m Hb]. apply L in Hb as [[-> ->] | [_ Hb]]; [lia |]. pose proof (Ha b ltac:(by exists m)). lia.
    + intros p Hp. pose proof (proj2 B3 p Hp). lia.
  - intros p pr Hp Hx. destruct (B6 p pr Hp Hx) as (m & r & Hm & Hr). exists m, r. split; [| done]. cbn. rewrite lookup_insert_ne; [done |]. congruence.
  - intros b m r Hb. apply L in Hb as [[-> ->] | [_ Hb]]; [rewrite E; done | by apply B7].
  - intros b m Hb. apply L in Hb as [[-> ->] | [_ Hb]]; [done | by apply (B12 b)].
Qed.

Lemma sal_added s nd : sal s -> (type_of nd = T_fs -> needs nd = bool_decide (name (hdr nd) ∈ salfiles (os s))) -> (forall r, slot_of nd r = no_slot) -> sal (added nd s).
Proof.
  intros [S1 S2 S3 S4] N E. split; [done.. | |]; cbn; intros b m Hb T; (destruct (decide (b = nextAddr s)) as [-> |];
    [rewrite lookup_insert_eq in Hb; injection Hb as <- | rewrite lookup_insert_ne in Hb by done; eauto]).
  - by apply N.
  - rewrite !E. by intros [].
Qed.

Definition usable_cmd (c : string) : Prop := good_cmd c /\ is_Some (sscanf_s c).

Lemma check_binaries_ok stat l s : Forall usable_cmd l -> wp (check_binaries stat l) (fun _ s' => s' = s) s.
Proof.
  induction l as [| c l IH]; [done |]. intros [[_ [w Hw]] Hl]%Forall_cons. cbn [check_binaries]. rewrite Hw. destruct (stat w); [by apply IH | done].
Qed.

Lemma touch_added nd nd' s : touch (nextAddr s) nd' (os s) (added nd s) = added nd' s.
Proof. unfold touch, added, with_os, with_bnodes. cbn. by rewrite insert_insert_eq. Qed.
Lemma added_get nd s : bnodes (added nd s) !! nextAddr s = Some nd.
Proof. apply lookup_insert_eq. Qed.

Lemma inv_added h s nd : inv h s -> node_ok types nd -> (forall r, slot_of nd r = no_slot) -> (forall a m, bnodes s !! a = Some m -> name (hdr m) <> name (hdr nd)) ->
  (type_of nd = T_fs -> needs nd = bool_decide (name (hdr nd) ∈ salfiles (os s))) -> refCount (hdr nd) = 0 -> DELETE (hdr nd) = false -> inv h (added nd s).
Proof.
  intros [B S R] N E Hn Hf Hr Hd. assert (Hfree : bnodes s !! nextAddr s = None).
  { apply eq_None_not_Some. intros H. apply (proj1 (b_addr _ _ _ B)) in H. lia. }
  assert (H0 : h (nextAddr s) = 0).
  { destruct (decide (h (nextAddr s) = 0)) as [| H]; [done |]. apply (r_held _ _ R) in H. rewrite Hfree in H. by destruct H. }
  split; [by apply base_added | by apply sal_added |]. apply (refs_of h (nextAddr s)).
  - eapply others_same; [| exact (refs_others h (nextAddr s) s R)]. intros b Hne. cbn. by rewrite lookup_insert_ne.
  - rewrite added_get, H0, Hd. split; [done |]. split; [lia | done].
Qed.

Definition new_hdr (n : string) : bnode := Bnode n 0 0 0 0 (Stats 0 0 0 0 0 0 None) 0 false true false false false BSTAT_SHUTDOWN BSTAT_NORMAL.
Lemma InitBnode_ok o n s : wp (bnode_InitBnode o n) (fun a s' => a = nextAddr s /\ s' = added (Node (new_hdr n) o) s) s.
Proof. by split. Qed.

(** A bnode that was just made: it is not to run yet. *)
Definition made (h : Z -> Z) (n : string) (s : bos) (tb : option Z) (s' : bos) : Prop :=
  match tb with
  | None => s' = s
  | Some a => a = nextAddr s /\ inv h s' /\ exists nd, bnodes s' !! a = Some nd /\ name (hdr nd) = n
  end.

Lemma fs_create_ok h stat s n fc vc sv sc scan : inv h s -> (forall a m, bnodes s !! a = Some m -> name (hdr m) <> n) ->
  usable_cmd fc -> usable_cmd vc -> usable_cmd sc -> (forall c, sv = Some c -> usable_cmd c) -> (forall c, scan = Some c -> c <> EmptyString -> usable_cmd c) ->
  types n = (if is_cmd sv then T_dafs else T_fs) -> wp (fs_create stat n fc vc sv sc scan) (made h n s) s.
Proof.
  intros I Hn U1 U2 U3 U4 U5 Ht. unfold fs_create. set (scan' := match scan with Some EmptyString => None | x => x end).
  assert (U6 : forall c, scan' = Some c -> usable_cmd c).
  { unfold scan'. intros c. destruct scan as [[| x y] |]; [done | | done]. intros [= <-]. by apply U5. }
  clearbody scan'. clear U5. apply wp_bind. eapply wp_mono; [apply check_binaries_ok |].
  { assert (Uo : forall o, (forall c, o = Some c -> usable_cmd c) -> Forall usable_cmd (from_option (fun c => [c]) [] o)).
    { intros [c |] Uc; cbn; [constructor; [by apply Uc | done] | done]. }
    cbn [app]. constructor; [done |]. constructor; [done |]. apply Forall_app. split; [by apply Uo |]. cbn [app]. constructor; [done | by apply Uo]. }
  cbn beta. intros ok s' ->. destruct ok; cbn [negb]; [| done].
  set (c := fun r => match r with R_file => Some fc | R_vol => Some vc | R_salsrv => sv | R_salv => Some sc | R_scan => scan' | R_main => None end).
  set (f := Fsbnode c (fun _ => no_slot) 0 false false). apply wp_bind. eapply wp_mono; [apply InitBnode_ok |]. cbn beta. intros a s1 [-> ->].
  set (nd0 := Node (new_hdr n) (Fs f)). apply wp_bind. eapply wp_mono; [apply (SetTimeout_ok _ _ _ nd0), added_get |]. cbn beta. intros _ s1 (nd1 & -> & Q & _).
  change (os (added nd0 s)) with (os s). rewrite touch_added. assert (Hf1 : ops nd1 = Fs f) by apply Q. assert (En : name (hdr nd1) = n) by apply (h_name _ _ (proj2 Q)).
  apply wp_bind. unfold RestoreSalFlag. apply wp_bind, (wp_get _ _ _ _ (added_get _ _)), wp_bind, (wp_get_fs _ _ _ _ _ (added_get _ _) Hf1), wp_bind. unfold wp at 1, gets. cbn beta iota.
  change (os (added nd1 s)) with (os s). rewrite En. change (cmd f R_salsrv) with sv. set (v := if is_cmd sv then false else bool_decide (n ∈ salfiles (os s))).
  apply (wp_upd _ _ _ _ _ (added_get _ _)). change (os (added nd1 s)) with (os s). rewrite touch_added. fold (flagged v nd1). set (nd2 := flagged v nd1).
  assert (Ho : ops nd2 = Fs (set_needsSalvage v f)) by (unfold nd2, flagged, on_fs; cbn; by rewrite Hf1).
  assert (Hs : forall r, slot_of nd2 r = no_slot) by (intros []; unfold slot_of; by rewrite Ho).
  assert (I2 : inv h (added nd2 s)).
  { apply inv_added; try done.
    - split.
      + change (name (hdr nd2)) with (name (hdr nd1)). rewrite En, Ht. unfold type_of. by rewrite Ho.
      + intros r c'. unfold cmd_of. rewrite Ho. cbn. destruct r; try done; intros E; try (injection E as <-); [apply U1 | apply U2 | by apply (U4 c') | apply U3 | by apply (U6 c')].
      + unfold is_fs, cmd_of. rewrite Ho. split; [by eexists |]. split; by eexists.
      + intros r. by rewrite Hs.
      + by rewrite Hs.
    - intros b m Hb. change (name (hdr nd2)) with (name (hdr nd1)). rewrite En. by eapply Hn.
    - unfold type_of, needs. rewrite Ho. change (name (hdr nd2)) with (name (hdr nd1)). rewrite En. cbn. unfold v. by destruct (is_cmd sv).
    - exact (h_ref _ _ (proj2 Q)).
    - exact (h_del _ _ (proj2 Q)). }
  apply wp_bind. eapply wp_mono; [apply (SetNeedsClock_ok types None _ _ nd2 _ (i_base _ _ _ I2) (i_sal _ _ _ I2) (added_get _ _) Ho) |]. cbn beta. intros _ s3 G. apply wp_ret.
  destruct (inv_inv_but _ _ _ _ _ I2 (added_get nd2 s)) as (_ & _ & _ & R2 & O2). pose proof (good_others _ _ _ _ _ _ _ O2 G) as O3. destruct G as (B3 & S3 & K3 & nd3 & H3 & C3).
  destruct C3 as (_ & Hh & _). split; [done |]. split; [split; [done | done |]; apply (refs_of h (nextAddr s)); [done |] |].
  - rewrite H3, (h_ref _ _ Hh), (h_del _ _ Hh). destruct (r_count _ _ (i_refs _ _ _ I2) _ _ (added_get nd2 s)) as [E1 E2]. split; [done |]. split; [done |].
    apply (r_delete _ _ (i_refs _ _ _ I2) _ _ (added_get nd2 s)).
  - exists nd3. split; [done |]. rewrite (h_name _ _ Hh). exact En.
Qed.

Lemma ez_create_ok h n com s : inv h s -> (forall a m, bnodes s !! a = Some m -> name (hdr m) <> n) -> good_cmd com -> types n = T_simple ->
  wp (ez_create n com) (made h n s) s.
Proof.
  intros I Hn U Ht. unfold ez_create. apply wp_bind. eapply wp_mono; [apply InitBnode_ok |]. cbn beta. intros a s1 [-> ->]. apply wp_ret.
  set (nd0 := Node (new_hdr n) (Ez (Ezbnode com no_slot))). split; [done |]. split; [| exists nd0; split; [apply added_get | done]].
  apply inv_added; try done; [| by intros []]. split; try done; [| by intros []]. intros r c. unfold cmd_of. cbn. destruct r; try done. by intros [= <-].
Qed.

(** What makes a bnode of the type that its name stands for, from usable commands. *)
Definition create_args (t : btype) (n ap1 ap2 ap3 ap4 : string) (ap5 : option string) : Prop :=
  types n = t /\ match t with
  | T_fs => usable_cmd ap1 /\ usable_cmd ap2 /\ usable_cmd ap3 /\ (ap4 <> EmptyString -> usable_cmd ap4)
  | T_dafs => usable_cmd ap1 /\ usable_cmd ap2 /\ usable_cmd ap3 /\ usable_cmd ap4 /\ (forall c, ap5 = Some c -> c <> EmptyString -> usable_cmd c)
  | T_simple => good_cmd ap1
  end.

Lemma inv_but_inv h s a nd0 nd s' : inv h s -> bnodes s !! a = Some nd0 -> (DELETE (hdr nd) = true -> h a <> 0) -> inv_but h a (h a) nd s' -> inv h s'.
Proof.
  intros I H0 D (B & S & H & R & O). destruct (r_count _ _ (i_refs _ _ _ I) a nd0 H0) as [_ Rh]. split; [done.. |].
  apply (refs_of h a); [done |]. by rewrite H.
Qed.

Lemma CreateBnode_ok h stat t n ap1 ap2 ap3 ap4 ap5 s : inv h s -> create_args t n ap1 ap2 ap3 ap4 ap5 ->
  wp (SBOZO_CreateBnode stat t n ap1 ap2 ap3 ap4 ap5) (fun _ s' => inv h s') s.
Proof.
  intros I [Ht U]. unfold SBOZO_CreateBnode, bnode_Create. apply wp_bind, wp_bind. eapply wp_mono; [by apply (FindInstance_ok types h) |]. cbn beta.
  intros [a |] s' [-> F]; [by do 2 apply wp_ret |]. apply wp_bind. eapply wp_mono with (Q := made h n s).
  { destruct t; cbn [type_create].
    - destruct U as (U1 & U2 & U3 & U4). apply fs_create_ok; try done. by intros c [= <-].
    - destruct U as (U1 & U2 & U3 & U4 & U5). apply fs_create_ok; try done. by intros c [= <-].
    - by apply ez_create_ok. }
  intros [a |] s' M; cbn in M; [| subst; by do 2 apply wp_ret]. destruct M as (-> & I' & nd & H & En). pose proof (inv_inv_but _ _ _ _ _ I' H) as I1.
  set (a := nextAddr s) in *. apply wp_bind, (wp_upd _ _ _ _ _ H). set (nd1 := on_hdr _ nd).
  assert (I2 : inv_but h a (h a) nd1 (touch a nd1 (os s') s')).
  { destruct I1 as (B & S & _ & R & O). assert (A : alike nd nd1) by by apply ops_like. split; [by eapply base_alike |]. split; [by eapply sal_alike |].
    split; [apply touch_get |]. split; [done | by apply others_touch]. }
  eapply wp_mono with (Q := fun r s'' => r = (0, Some a) /\ exists m, DELETE (hdr m) = DELETE (hdr nd) /\ inv_but h a (h a) m s'').
  { apply wp_bind, (wp_get _ _ _ _ (touch_get _ _ _ _)), wp_bind. eapply wp_mono; [by eapply SetStat_but |]. cbn beta. intros _ s2 (nd2 & G & I3 & _). apply wp_ret. split; [done |]. exists nd2. split; [apply G | done]. }
  cbn beta. intros r s2 [-> (m & D & I3)]. cbn iota. apply wp_bind. eapply wp_mono; [by eapply SetStat_but |]. cbn beta. intros _ s3 (nd3 & G & I4 & _). apply wp_ret.
  eapply inv_but_inv; [exact I' | exact H | | exact I4]. destruct G as [(_ & _ & E & _) _]. rewrite E, D. apply (r_delete _ _ (i_refs _ _ _ I') a nd H).
Qed.
End types.
