(* ===== verification/BnodeSafe.v ===== *)
(** The bosserver with the world around it: calls, ends of processes, the passes of
    the bnode-manager and crashes of the machine, in any order. What it owes to its
    processes holds in every state that can be reached. *)
From stdpp Require Import strings functions.
From S2P Require Import Prelude Monad BnodeParse Bnode BnodeSpec BnodeExec BnodeNudge BnodeFs BnodeExit BnodeManage BnodeRun BnodeCollect BnodeCalls BnodeWait.

#[local] Open Scope monad_scope.
#[local] Open Scope string_scope.
#[local] Open Scope Z_scope.
#[local] Open Scope list_scope.

(** ** The world *)

(** [waiters] are the bnodes that calls to restart them wait for. *)
Record world := World { st : bos; waiters : list Z }.

Inductive action :=
  | A_create (t : btype) (n ap1 ap2 ap3 ap4 : string) (ap5 : option string)
  | A_tstatus (n : string) (g : Z)
  | A_status (n : string) (g : Z)
  | A_delete (n : string)
  | A_shutdownall
  | A_startupall
  | A_restart (n : string)
  | A_wake (a : Z)
  | A_bproc (pids : list Z)
  | A_end (q : Z) (how : wstatus)
  | A_later (t : Z)
  | A_answers (l : list Z)
  | A_panic.

(** SBOZO_Restart up to where it waits: for which bnode, if it does. *)
Definition SBOZO_Restart (n : string) : SM bos (option Z) :=
  let* tb := bnode_FindInstance n in
  match tb with None => ret None | Some a => let* fin := Restart_begin a in ret (if (fin : bool) then None else Some a) end.

Definition with_now (t : Z) (o : osys) : osys := Osys (children o) (spawns o) t (salfiles o) (can_create o) (log o).
Definition ended (q : Z) (how : wstatus) (o : osys) : osys := with_children (<[q := Some how]> (children o)) o.
Definition panicked (s : bos) : bos :=
  Bos ∅ [] [] (nextAddr s) 0 false (Osys ∅ (spawns (os s)) (now (os s)) (salfiles (os s)) (can_create (os s)) (EvPanic :: log (os s))).

Definition settle (W : list Z) {A} (r : option (A * bos)) : option world := match r with Some (_, s') => Some (World s' W) | None => None end.
Fixpoint forget (a : Z) (W : list Z) : list Z := match W with [] => [] | b :: W' => if b =? a then W' else b :: forget a W' end.

Section world.
Context (types : string -> btype) (stat : string -> option Z).

(** [None] is an access to memory that is not a bnode's. *)
Definition perform (act : action) (w : world) : option world :=
  let (s, W) := w in
  match act with
  | A_create t n ap1 ap2 ap3 ap4 ap5 => settle W (SBOZO_CreateBnode stat t n ap1 ap2 ap3 ap4 ap5 s)
  | A_tstatus n g => settle W (SBOZO_SetTStatus n g s)
  | A_status n g => settle W (SBOZO_SetStatus n g s)
  | A_delete n => settle W (bnode_DeleteName n s)
  | A_shutdownall => settle W (SBOZO_ShutdownAll s)
  | A_startupall => settle W (SBOZO_StartupAll s)
  | A_restart n => match SBOZO_Restart n s with
      | Some (None, s') => Some (World s' W) | Some (Some a, s') => Some (World s' (a :: W)) | None => None end
  | A_wake a => match Restart_turn a s with
      | Some (true, s') => Some (World s' (forget a W)) | Some (false, s') => Some (World s' W) | None => None end
  | A_bproc pids => settle W (bproc pids s)
  | A_end q how => Some (World (with_os (ended q how (os s)) s) W)
  | A_later t => Some (World (with_os (with_now t (os s)) s) W)
  | A_answers l => Some (World (with_os (with_spawns l (os s)) s) W)
  | A_panic => Some (World (panicked s) [])
  end.

(** A process that a signal ended was ended by one that there is. *)
Definition over (s : bos) (q : Z) : Prop := exists how, children (os s) !! q = Some (Some how) /\ forall g, how = Signaled g -> g <> 0.

(** Bnodes are made of commands that can be used; at most 14000 calls wait; a pass
    collects processes that are over; new processes have numbers that are free. *)
Definition enabled (act : action) (w : world) : Prop :=
  let (s, W) := w in
  match act with
  | A_create t n ap1 ap2 ap3 ap4 ap5 => create_args types t n ap1 ap2 ap3 ap4 ap5
  | A_restart n => Z.of_nat (length W) < 14000
  | A_wake a => a ∈ W
  | A_bproc pids => NoDup pids /\ forall q, q ∈ pids -> over s q
  | A_end q how => children (os s) !! q = Some None
  | A_answers l => spawns_ok (with_spawns l (os s))
  | _ => True
  end.

(** A new bosserver, with the SALVAGE files that were left. *)
Definition fresh (S : gset string) (t : Z) : world := World (Bos ∅ [] [] 1 0 false (Osys ∅ [] t S true [])) [].
Inductive reachable : world -> Prop :=
  | r_fresh S t : reachable (fresh S t)
  | r_step act w w' : reachable w -> enabled act w -> perform act w = Some w' -> reachable w'.

(** ** The invariant *)

Notation base := (base types).
Notation sal := (sal types).
Notation inv := (inv types).

Definition winv (w : world) : Prop := inv (held (waiters w)) (st w) /\ Z.of_nat (length (waiters w)) <= 14000.

Lemma wp_eq {A} (m : SM bos A) Q s x s' : wp m Q s -> m s = Some (x, s') -> Q x s'.
Proof. unfold wp. by intros H E; rewrite E in H. Qed.

Lemma inv_os h s o : inv h s -> log o = log (os s) -> (forall q, is_Some (children o !! q) <-> is_Some (children (os s) !! q)) ->
  spawns_ok o -> salfiles o = salfiles (os s) -> can_create o = can_create (os s) -> inv h (with_os o s).
Proof. intros [B S [R1 R2 R3]] El Ek Es Ef Ec. split; [by apply base_os | by apply sal_os | by split]. Qed.

Lemma forget_perm a W : a ∈ W -> W ≡ₚ a :: forget a W.
Proof.
  induction W as [| b W IH]; [by intros ?%elem_of_nil |]. cbn [forget]. destruct (Z.eqb_spec b a) as [-> | Hne]; [done |].
  intros [-> | H]%elem_of_cons; [done |]. rewrite (IH H) at 1. apply perm_swap.
Qed.
Lemma held_bound W a : held W a <= 2 * Z.of_nat (length W).
Proof. unfold held. pose proof (length_filter (fun b => b = a) W). lia. Qed.

(** A pass of the bnode-manager. *)
Lemma timeouts_ok h t l s : inv h s -> NoDup l -> (forall a, a ∈ l -> is_Some (bnodes s !! a)) ->
  wp (each (bproc_timeout t) l) (fun _ s' => inv h s' /\ forall q v, children (os s) !! q = Some v -> children (os s') !! q = Some v) s.
Proof.
  revert s. induction l as [| a l IH]; intros s I Nl Hl; [done |]. apply NoDup_cons in Nl as [Ha Nl]. cbn [each]. destruct (Hl a) as [nd H]; [by left |].
  apply wp_bind. eapply wp_mono; [by eapply timeout_ok |]. cbn beta. intros _ s1 (I1 & O1 & K1 & _).
  eapply wp_mono; [apply IH; [done | done |] |].
  - intros b Hb. rewrite O1 by (by intros ->). apply Hl. by right.
  - cbn beta. intros _ s2 [I2 K2]. split; [done |]. intros q v Hv. by apply K2, K1.
Qed.

Lemma exit_one h t q s : inv h s -> over s q ->
  wp (bproc_exit t q) (fun _ s' => inv h s' /\ forall q', q' <> q -> over s q' -> over s' q') s.
Proof.
  intros [B S R] (how & Hk & Hr). destruct (exit_ok types h s q how t B S R Hk Hr) as (a & nd & r & p & pr & _ & _ & _ & _ & W).
  eapply wp_mono; [exact W |]. cbn beta. intros _ s' (B' & S' & R' & _ & _ & K & _). split; [done |].
  intros q' Hne (how' & Hk' & Hr'). exists how'. split; [by apply K | done].
Qed.
Lemma exits_ok h t pids s : inv h s -> NoDup pids -> (forall q, q ∈ pids -> over s q) -> wp (each (bproc_exit t) pids) (fun _ s' => inv h s') s.
Proof.
  revert s. induction pids as [| q l IH]; intros s I Nl Hl; [done |]. apply NoDup_cons in Nl as [Hq Nl]. cbn [each].
  apply wp_bind. eapply wp_mono; [apply exit_one; [done | apply Hl; by left] |]. cbn beta. intros _ s1 (I1 & O1).
  apply IH; [done | done |]. intros q' Hq'. apply O1; [by intros -> |]. apply Hl. by right.
Qed.
Lemma bproc_ok h pids s : inv h s -> NoDup pids -> (forall q, q ∈ pids -> over s q) -> wp (bproc pids) (fun _ s' => inv h s') s.
Proof.
  intros I N O. unfold bproc. apply wp_bind. unfold wp at 1. cbn [FT_ApproxTime gets]. apply wp_bind. unfold wp at 1. cbn [gets].
  destruct (all_present types h s I) as [Nl Hl]. apply wp_bind. eapply wp_mono; [by apply timeouts_ok |]. cbn beta. intros _ s1 [I1 K1].
  apply exits_ok; [done | done |]. intros q (how & Hk & Hr)%O. exists how. split; [by apply K1 | done].
Qed.

Lemma Restart_ok W n s : inv (held W) s -> Z.of_nat (length W) < 14000 ->
  wp (SBOZO_Restart n) (fun tb s' => inv (held (match tb with Some a => a :: W | None => W end)) s') s.
Proof.
  intros I L. unfold SBOZO_Restart. apply wp_bind. eapply wp_mono; [by apply (FindInstance_ok types (held W)) |]. cbn beta. intros [a |] s' [-> F]; [| by apply wp_ret].
  destruct F as (nd & H & _). pose proof (held_bound W a). pose proof (held_pos W a). apply wp_bind. eapply wp_mono; [apply (Restart_begin_ok types (held W) a nd _ I H); lia |]. cbn beta.
  intros [] s1 I1; apply wp_ret; [done |]. destruct I1 as [nd' I1]. eapply inv_of_but; [exact I1 | lia |]. intros b. rewrite held_cons. by case_decide; [subst |].
Qed.
Lemma wake_ok W a s : inv (held W) s -> Z.of_nat (length W) <= 14000 -> a ∈ W ->
  wp (Restart_turn a) (fun fin s' => inv (held (if (fin : bool) then forget a W else W)) s') s.
Proof.
  intros I L Ha. pose proof (forget_perm a W Ha) as P. set (W' := forget a W) in *.
  assert (E : forall b, held W b = if decide (b = a) then held W' b + 2 else held W' b) by (intros b; by rewrite (held_perm _ _ b P), held_cons).
  assert (Ea : held W a = held W' a + 2) by (by rewrite E, decide_True).
  assert (L' : length W = S (length W')) by (by rewrite (Permutation_length P)). pose proof (held_bound W' a). pose proof (held_pos W' a).
  destruct (r_held _ _ (i_refs _ _ _ I) a) as [nd Hnd]; [lia |].
  pose proof (inv_inv_but _ _ _ _ _ I Hnd) as (B & S & H1 & R & [O1 O2]).
  assert (I' : inv_but types (held W') a (held W' a + 2) nd s).
  { split; [done |]. split; [done |]. split; [done |]. split; [lia |].
    split; [intros b m Hne Hb; generalize (O1 b m Hne Hb); by rewrite E, decide_False | intros b Hne; generalize (O2 b Hne); by rewrite E, decide_False]. }
  eapply wp_mono; [eapply Restart_turn_ok; [exact I' | lia] |]. cbn beta. intros [] s' I2; [done |].
  destruct I2 as [nd' I2]. eapply inv_of_but; [exact I2 | lia |]. intros b. rewrite E. by case_decide; [subst |].
Qed.

Lemma panicked_inv h s : inv h s -> inv (held []) (panicked s).
Proof.
  intros [[B1 B2 B3 B4 B5 B6 B7 B8 B9 [B10 B10'] B11 B12 B13] [S1 S2 S3 S4] _]. split; split; try done; cbn.
  - split; [constructor |]. intros a. rewrite lookup_empty. split; [by intros ?%elem_of_nil | by intros []].
  - split; [intros a; rewrite lookup_empty; by intros [] | by intros p ?%elem_of_nil].
  - constructor.
  - intros p pr H. by apply elem_of_nil in H.
  - intros q. rewrite lookup_empty. by intros [].
  - intros q. by rewrite !lookup_empty.
Qed.

Lemma fresh_inv S t : winv (fresh S t).
Proof.
  split; [| cbn; lia]. split; split; try done; cbn.
  - split; [constructor |]. intros a. rewrite lookup_empty. split; [by intros ?%elem_of_nil | by intros []].
  - split; [intros a; rewrite lookup_empty; by intros [] | by intros p ?%elem_of_nil].
  - constructor.
  - intros p pr H. by apply elem_of_nil in H.
  - intros q. rewrite lookup_empty. by intros [].
  - intros q. by rewrite !lookup_empty.
  - split; [constructor | by intros p ?%elem_of_nil].
Qed.

(** Every action that can happen comes to an end and keeps the invariant. *)
Lemma perform_ok act w : winv w -> enabled act w -> exists w', perform act w = Some w' /\ winv w'.
Proof.
  destruct w as [s W]. intros [I L] En. cbn [waiters st] in *.
  assert (Done : forall A (m : SM bos A), wp m (fun _ s' => inv (held W) s') s -> exists w', settle W (m s) = Some w' /\ winv w').
  { intros A m. unfold wp. destruct (m s) as [[x s'] |]; [| done]. intros I'. eexists. split; [done |]. by split. }
  destruct act; cbn [perform enabled] in *.
  - by apply Done, CreateBnode_ok.
  - apply Done. eapply wp_mono; [by apply SetTStatus_ok |]. by intros ? ? [].
  - by apply Done, SetStatus_ok.
  - by apply Done, DeleteName_ok.
  - by apply Done, ShutdownAll_ok.
  - by apply Done, StartupAll_ok.
  - generalize (Restart_ok W n s I En). unfold wp. destruct (SBOZO_Restart n s) as [[[a |] s'] |]; [| | done]; intros I'; (eexists; split; [done |]; split; [done |]; cbn; lia).
  - generalize (wake_ok W a s I L En). unfold wp. destruct (Restart_turn a s) as [[[] s'] |]; [| | done]; intros I'; (eexists; split; [done |]; split; [done |]; cbn); [| done].
    pose proof (Permutation_length (forget_perm a W En)) as E. cbn in E. lia.
  - destruct En. by apply Done, bproc_ok.
  - eexists. split; [done |]. split; [| done]. apply inv_os; try done.
    + intros q'. cbn. destruct (decide (q' = q)) as [-> |]; [rewrite lookup_insert_eq, En; split; by eexists | by rewrite lookup_insert_ne].
    + destruct (b_spawns _ _ _ (i_base _ _ _ I)) as [N F]. split; [done |]. intros p Hp Hp1. pose proof (F p Hp Hp1) as E. cbn. rewrite lookup_insert_ne; [done |]. congruence.
  - eexists. split; [done |]. split; [| done]. apply inv_os; try done. exact (b_spawns _ _ _ (i_base _ _ _ I)).
  - eexists. split; [done |]. split; [| done]. by apply inv_os.
  - eexists. split; [done |]. split; [by eapply panicked_inv | cbn; lia].
Qed.

Lemma reachable_inv w : reachable w -> winv w.
Proof.
  induction 1 as [| act w w' _ IH En E]; [apply fresh_inv |]. destruct (perform_ok act w IH En) as (w1 & E1 & I1). rewrite E in E1. by injection E1 as ->.
Qed.
End world.
