(* ===== verification/BnodeProps.v ===== *)
(** What the bosserver guarantees: the salvage protocol, that no call goes wrong,
    that a shutdown comes to its end, and that restarts are bounded. *)
From stdpp Require Import strings functions.
From S2P Require Import Prelude Monad BnodeParse Bnode BnodeSpec BnodeExec BnodeNudge BnodeFs BnodeExit BnodeManage BnodeRun BnodeCollect BnodeCalls BnodeWait BnodeSafe.

#[local] Open Scope monad_scope.
#[local] Open Scope string_scope.
#[local] Open Scope Z_scope.
#[local] Open Scope list_scope.

(** The system goes on while the bosserver does nothing: processes end, time passes. *)
Record meanwhile (o o' : osys) : Prop := {
  mw_log : log o' = log o;
  mw_kids : forall q, is_Some (children o' !! q) <-> is_Some (children o !! q);
  mw_spawns : spawns_ok o';
  mw_files : salfiles o' = salfiles o;
  mw_create : can_create o' = can_create o
}.

Lemma meanwhile_end q how o : children o !! q = Some None -> spawns_ok o -> meanwhile o (ended q how o).
Proof.
  intros H [N F]. split; try done.
  - intros q'. cbn. destruct (decide (q' = q)) as [-> |]; [rewrite lookup_insert_eq, H; split; by eexists | by rewrite lookup_insert_ne].
  - split; [done |]. intros p Hp Hp1. pose proof (F p Hp Hp1) as E. cbn. rewrite lookup_insert_ne; [done | congruence].
Qed.

(** The process of a simple bnode ends [k] times, each time collected by [limit]. *)
Inductive crashes (a limit : Z) : nat -> bos -> bos -> Prop :=
  | cr_none s : crashes a limit 0 s s
  | cr_one k s nd p pr o' t s1 s2 : bnodes s !! a = Some nd -> proc (slot_of nd R_main) = Some p -> (p, pr) ∈ allProcs s ->
      meanwhile (os s) o' -> over (with_os o' s) (pid pr) -> t <= limit ->
      bproc_exit t (pid pr) (with_os o' s) = Some (tt, s1) -> crashes a limit k s1 s2 -> crashes a limit (S k) s s2.

Section types.
Context (types : string -> btype) (stat : string -> option Z).
Notation base := (base types).
Notation inv := (inv types).
Notation reachable := (reachable types stat).

Lemma meanwhile_inv h s o' : inv h s -> meanwhile (os s) o' -> inv h (with_os o' s).
Proof. intros I [M1 M2 M3 M4 M5]. by apply inv_os. Qed.

(** ** Shutting down *)

(** The instance is to be down, and its processes are among [l]. *)
Definition down (n : string) (l : list Z) (s : bos) : Prop := forall a nd, bnodes s !! a = Some nd -> name (hdr nd) = n ->
  is_fs nd = true /\ goal (hdr nd) <> 1 /\ forall r p pr, proc (slot_of nd r) = Some p -> (p, pr) ∈ allProcs s -> pid pr ∈ l.

Lemma exit_down h t n q l s : inv h s -> over s q -> down n (q :: l) s ->
  wp (bproc_exit t q) (fun _ s' => inv h s' /\ down n l s' /\ forall q', q' <> q -> over s q' -> over s' q') s.
Proof.
  intros [B S R] (how & Hk & Hr) D. destruct (exit_ok types h s q how t B S R Hk Hr) as (a & nd & r & p & pr & H & Hp & Hpr & Hq & W).
  eapply wp_mono; [exact W |]. cbn beta. intros _ s' (B' & S' & R' & _ & O & K & P & X & _). split; [done |]. split.
  2: { intros q' Hne (how' & Hk' & Hr'). exists how'. split; [by apply K | done]. }
  assert (T : forall b m r' p' pr', bnodes s !! b = Some m -> name (hdr m) = n -> proc (slot_of m r') = Some p' -> (b <> a \/ r' <> r) -> (p', pr') ∈ allProcs s' -> pid pr' ∈ l).
  { intros b m r' p' pr' Hb Hn Hp' Hne Hpr'. destruct (slot_proc _ _ _ _ _ _ _ B Hb Hp') as (_ & _ & pr0 & Hpr0 & _).
    assert (p' <> p). { intros ->. destruct (slot_apart _ _ _ _ _ _ _ _ _ _ B Hb H Hp' Hp). naive_solver. }
    assert (pr' = pr0) as -> by (eapply procs_unique; [exact B' | done | by apply P]).
    destruct (D b m Hb Hn) as (_ & _ & F). pose proof (F r' p' pr0 Hp' Hpr0) as C. apply elem_of_cons in C as [E | C]; [| exact C].
    destruct (pid_apart _ _ _ _ _ _ _ _ _ _ _ _ _ B Hb H Hp' Hp Hpr0 Hpr) as []; [congruence | naive_solver]. }
  intros b m Hb Hn. destruct (decide (b = a)) as [-> | Hne].
  - pose proof (X m Hb) as [x1 x2 x3 x4 x5 x6 x7 x8]. rewrite x1 in Hn. destruct (D a nd H Hn) as (F & G & _). rewrite x3. split; [done |].
    split; [rewrite x6; by destruct (10 <? _) |]. intros r' p' pr' Hp' Hpr'. destruct (x8 F G) as [Q _]. rewrite (proj1 (Q r')) in Hp'.
    destruct (slot_proc _ _ _ _ _ _ _ B H Hp) as (_ & Hrun & _). pose proof (running_has_slot _ _ Hrun) as V.
    unfold cleared in Hp'. rewrite slot_of_on_slot in Hp' by done. case_decide; [done |]. eapply T; [exact H | exact Hn | exact Hp' | by right | exact Hpr'].
  - rewrite O in Hb by done. destruct (D b m Hb Hn) as (F & G & _). split; [done |]. split; [done |]. intros r' p' pr' Hp'. eapply T; [exact Hb | done | exact Hp' | by left].
Qed.

Lemma exits_down h t n l s : inv h s -> NoDup l -> (forall q, q ∈ l -> over s q) -> down n l s ->
  wp (each (bproc_exit t) l) (fun _ s' => inv h s' /\ down n [] s') s.
Proof.
  revert s. induction l as [| q l IH]; intros s I Nl Hl D; [done |]. apply NoDup_cons in Nl as [Hq Nl]. cbn [each].
  apply wp_bind. eapply wp_mono; [apply (exit_down h t n q l); [done | apply Hl; by left | done] |]. cbn beta. intros _ s1 (I1 & D1 & O1).
  apply IH; [done | done | | done]. intros q' Hq'. apply O1; [by intros -> |]. apply Hl. by right.
Qed.

Lemma down_status h n s a nd : inv h s -> down n [] s -> bnodes s !! a = Some nd -> name (hdr nd) = n -> BOP_GETSTAT a s = Some (BSTAT_SHUTDOWN, s).
Proof.
  intros [B _ _] D H Hn. assert (E : status nd = BSTAT_SHUTDOWN).
  { apply (status_shutdown types None s a nd B H). intros r. rewrite (slot_running _ _ _ _ _ _ _ (b_slot _ _ _ B a nd r H)). apply bool_decide_eq_false. intros [p Hp].
    destruct (slot_proc _ _ _ _ _ _ _ B H Hp) as (_ & _ & pr & Hpr & _). destruct (D a nd H Hn) as (_ & _ & F). pose proof (F r p pr Hp Hpr) as C. by apply elem_of_nil in C. }
  pose proof (GETSTAT_ok a s nd (fun x s' => x = BSTAT_SHUTDOWN /\ s' = s) H (conj E eq_refl)) as W. unfold wp in W.
  destruct (BOP_GETSTAT a s) as [[x s'] |]; [| done]. by destruct W as [-> ->].
Qed.

Lemma live_down h n s : inv h s -> forall l : list Z, (forall q i, live (viewed s) !! q = Some i -> p_inst i = n -> q ∈ l) ->
  forall a nd, bnodes s !! a = Some nd -> name (hdr nd) = n -> forall r p pr, proc (slot_of nd r) = Some p -> (p, pr) ∈ allProcs s -> pid pr ∈ l.
Proof.
  intros [B _ _] l Hl a nd H Hn r p pr Hp Hpr. destruct (slot_proc _ _ _ _ _ _ _ B H Hp) as (_ & _ & pr' & Hpr' & _ & _ & _ & _ & sigs & HL & _).
  assert (pr' = pr) as -> by by eapply procs_unique. eapply Hl; [exact HL | done].
Qed.

(** A process that is to end was told so. *)
Lemma live_told h n a nd s : inv h s -> bnodes s !! a = Some nd -> name (hdr nd) = n -> (forall r, running (slot_of nd r) = true -> SDW (slot_of nd r) = true) ->
  forall q i, live (viewed s) !! q = Some i -> p_inst i = n -> p_sigs i <> [].
Proof.
  intros [B _ _] H Hn T q i Hq Hi. destruct (live_slot _ _ _ _ _ B Hq) as (b & m & r & p & pr & Hb & Hp & Hpr & <- & En & _).
  assert (b = a) as -> by (eapply (b_name _ _ _ B); [done.. | congruence]). rewrite H in Hb. injection Hb as <-.
  destruct (slot_proc _ _ _ _ _ _ _ B H Hp) as (_ & Hrun & pr' & Hpr' & _ & _ & _ & _ & sigs & HL & Q & _).
  assert (pr' = pr) as -> by by eapply procs_unique. rewrite Hq in HL. injection HL as ->. by apply Q, T.
Qed.

Lemma clock_runs nd r : is_fs nd = true -> goal (hdr nd) = 0 -> running (slot_of nd r) = true -> needs_clock nd = true.
Proof.
  unfold is_fs, needs_clock, slot_of. intros F -> R. destruct (ops nd) as [f |]; [| done]. cbn.
  destruct r; rewrite ?R; cbn; rewrite ?andb_false_r; done.
Qed.

Lemma fs_role nd r : is_fs nd = true -> running (slot_of nd r) = true -> r ∈ all_roles.
Proof. unfold is_fs, slot_of. destruct (ops nd); [| done]. intros _ R. destruct r; [.. | done]; unfold all_roles; set_solver. Qed.

(** ** Crashes *)

Lemma exit_counts h s a nd p pr t : inv h s -> bnodes s !! a = Some nd -> is_fs nd = false -> proc (slot_of nd R_main) = Some p -> (p, pr) ∈ allProcs s -> over s (pid pr) ->
  0 <= rsCount (hdr nd) < 2147483647 -> t <= s32 (rsTime (hdr nd) + 30) ->
  wp (bproc_exit t (pid pr)) (fun _ s' => inv h s'
    /\ (starts s' <= starts s + if (goal (hdr nd) =? 0)%Z then 0 else 1)%nat
    /\ forall nd', bnodes s' !! a = Some nd' -> is_fs nd' = false /\ rsTime (hdr nd') = rsTime (hdr nd) /\ rsCount (hdr nd') = rsCount (hdr nd) + 1
      /\ goal (hdr nd') = (if 10 <? rsCount (hdr nd) then BSTAT_SHUTDOWN else goal (hdr nd)) /\ ERRORSTOP (hdr nd') = ERRORSTOP (hdr nd) || (10 <? rsCount (hdr nd))) s.
Proof.
  intros [B S R] H F Hp Hpr (how & Hk & Hr) Hc Ht. destruct (exit_ok types h s (pid pr) how t B S R Hk Hr) as (a1 & nd1 & r & p1 & pr1 & H1 & Hp1 & Hpr1 & Hq & W).
  destruct (pid_apart _ _ _ _ _ _ _ _ _ _ _ _ _ B H1 H Hp1 Hp Hpr1 Hpr Hq) as [-> ->]. rewrite H in H1. injection H1 as <-.
  eapply wp_mono; [exact W |]. cbn beta. intros _ s' (B' & S' & R' & _ & _ & _ & _ & X & St). split; [done |]. split; [by apply St |].
  intros nd' H'. destruct (X nd' H') as [x1 x2 x3 x4 x5 x6 x7 _]. assert (E : window t nd = (rsTime (hdr nd), rsCount (hdr nd))).
  { unfold window. rewrite (proj2 (Z.ltb_ge _ _)) by lia. done. }
  rewrite E in *. cbn in *. rewrite x3, x4, x5, x6, x7. split; [done |]. split; [done |]. split; [| done]. unfold s32. rewrite Z.mod_small; lia.
Qed.

Lemma crashes_bound h a limit k s s' nd : crashes a limit k s s' -> inv h s -> bnodes s !! a = Some nd -> is_fs nd = false -> limit = s32 (rsTime (hdr nd) + 30) ->
  0 <= rsCount (hdr nd) -> rsCount (hdr nd) + Z.of_nat k < 2147483648 ->
  Z.of_nat (starts s') <= Z.of_nat (starts s) + (if goal (hdr nd) =? 0 then 0 else Z.max 1 (12 - rsCount (hdr nd)))
  /\ ((0 < k)%nat -> 12 <= rsCount (hdr nd) + Z.of_nat k -> forall nd', bnodes s' !! a = Some nd' -> goal (hdr nd') = BSTAT_SHUTDOWN /\ ERRORSTOP (hdr nd') = true).
Proof.
  intros C. revert nd. induction C as [s | k s nd0 p pr o' t s1 s2 H0 Hp Hpr M O Ht E C IH]; intros nd I H F El Hc Hk.
  - split; [case_match; lia | lia].
  - rewrite H in H0. injection H0 as <-. pose proof (exit_counts h (with_os o' s) a nd p pr t (meanwhile_inv _ _ _ I M) H F Hp Hpr O ltac:(lia) ltac:(lia)) as W.
    apply (wp_eq _ _ _ _ _ W) in E as (I1 & St & X). assert (E0 : starts (with_os o' s) = starts s) by (unfold starts; cbn; by rewrite (mw_log _ _ M)). rewrite E0 in St.
    destruct (bnodes s1 !! a) as [nd1 |] eqn:H1.
    + destruct (X nd1 eq_refl) as (F1 & T1 & C1 & G1 & E1). destruct (IH nd1 I1 eq_refl F1) as [IH1 IH2]; [by rewrite T1 | lia | lia |]. split.
      * rewrite G1, C1 in IH1. destruct (Z.ltb_spec 10 (rsCount (hdr nd))), (Z.eqb_spec (goal (hdr nd)) 0); cbn in IH1; lia.
      * intros _ H12. destruct k; [| apply IH2; lia]. inversion C; subst. intros nd' H'. rewrite H1 in H'. injection H' as <-.
        rewrite G1, E1, (proj2 (Z.ltb_lt _ _)) by lia. split; [done | apply orb_true_r].
    + inversion C; subst; [| congruence]. split; [| intros; congruence]. destruct (goal (hdr nd) =? 0); lia.
Qed.

(** ** The properties *)

(** C36. As long as SALVAGE files can be created ([salvage_skipped] is what happens
    otherwise), the log keeps to the protocol in every state that can be reached, even over
    crashes of the machine. An instance of type fs starts its file server only on clean
    partitions, and has its SALVAGE file when they are not clean; nothing of that is asked
    of type dafs. The other clauses of [allowed] are for every type. *)
Theorem salvage_protocol w : reachable w ->
  protocol types (log (os (st w))) /\ emergency (st w) = false
  /\ forall n, n ∈ unsalvaged (viewed (st w)) -> types n = T_fs -> n ∈ salfiles (os (st w)).
Proof.
  intros [[B S R] _]%reachable_inv. split; [apply (b_prot _ _ _ B) |]. split; [apply (b_emergency _ _ _ B) | apply (s_file _ _ S)].
Qed.

(** C37. Each [action] comes to its end without an access to memory that is not a bnode's
    or a process record's: the calls to create, set, delete, restart, shut down and start
    up, and the passes of the bnode-manager. Not among them are the calls that wait over
    all bnodes, of which [RestartAll_uses_freed] is one. *)
Theorem actions_defined w act : reachable w -> enabled types act w -> is_Some (perform stat act w).
Proof. intros I%reachable_inv En. destruct (perform_ok types stat act w I En) as (w' & E & _). by exists w'. Qed.

(** C38. A file server that is to shut down tells all its processes and has a timeout to come
    while one runs; when all are collected, in any order, it is shut down. *)
Theorem shutdown_completes w a nd : reachable w -> bnodes (st w) !! a = Some nd -> is_fs nd = true ->
  exists c s1, SBOZO_SetTStatus (name (hdr nd)) BSTAT_SHUTDOWN (st w) = Some (c, s1)
  /\ (forall q i, live (viewed s1) !! q = Some i -> p_inst i = name (hdr nd) -> p_sigs i <> [])
  /\ (forall nd1 r, bnodes s1 !! a = Some nd1 -> running (slot_of nd1 r) = true -> NEEDTIMEOUT (hdr nd1) = true)
  /\ forall o t pids, meanwhile (os s1) o -> NoDup pids -> (forall q, q ∈ pids -> over (with_os o s1) q) ->
    (forall q i, live (viewed s1) !! q = Some i -> p_inst i = name (hdr nd) -> q ∈ pids) ->
    exists s2, each (bproc_exit t) pids (with_os o s1) = Some (tt, s2)
    /\ forall b nd2, bnodes s2 !! b = Some nd2 -> name (hdr nd2) = name (hdr nd) -> BOP_GETSTAT b s2 = Some (BSTAT_SHUTDOWN, s2).
Proof.
  intros [I _]%reachable_inv H F. generalize (SetTStatus_ok types _ _ (name (hdr nd)) BSTAT_SHUTDOWN I). unfold wp at 1.
  destruct (SBOZO_SetTStatus (name (hdr nd)) BSTAT_SHUTDOWN (st w)) as [[c s1] |]; [| done]. intros (I1 & N & T). exists c, s1. split; [done |].
  assert (Only : forall b m, bnodes s1 !! b = Some m -> name (hdr m) = name (hdr nd) -> b = a /\ given_goal 0 nd m).
  { intros b m Hb En. destruct (N b m Hb) as (m0 & Hm0 & E0). assert (b = a) as -> by (eapply (b_name _ _ _ (i_base _ _ _ I)); [done.. | congruence]).
    rewrite H in Hm0. injection Hm0 as <-. split; [done | by apply (T a nd H)]. }
  split; [| split].
  - intros q i Hq Hi. destruct (live_slot _ _ _ _ _ (i_base _ _ _ I1) Hq) as (b & m & _ & _ & _ & Hb & _ & _ & _ & En & _).
    destruct (Only b m Hb) as [-> (_ & _ & Fm & _ & _ & _ & _ & L)]; [congruence |]. destruct (L F) as [[L1 L2] _]; [done |].
    eapply (live_told _ (name (hdr nd))); [exact I1 | exact Hb | congruence | | exact Hq | exact Hi].
    intros r R. apply L2; [apply (fs_role m); [congruence | done] |]. rewrite <- (proj1 (proj2 (L1 r))). exact R.
  - intros m r Hm R. destruct (Only a m Hm) as [_ (_ & _ & Fm & G & _ & _ & _ & L)]; [by apply (T a nd H) |]. destruct (L F) as [_ C]; [done |].
    rewrite C. eapply clock_runs; [congruence | done | exact R].
  - intros o t pids M Np Ho Hl. assert (D : down (name (hdr nd)) pids (with_os o s1)).
    { intros b m Hb En. destruct (Only b m Hb En) as [-> (_ & _ & Fm & G & _)]. split; [congruence |]. split; [by rewrite G |].
      by eapply (live_down _ _ s1 I1). }
    generalize (exits_down _ t (name (hdr nd)) pids _ (meanwhile_inv _ _ _ I1 M) Np Ho D). unfold wp.
    destruct (each (bproc_exit t) pids (with_os o s1)) as [[[] s2] |]; [| done]. intros [I2 D2]. exists s2. split; [done |].
    intros b m Hb En. by eapply down_status.
Qed.

(** C39. A process that was asked to end and is late, at a timeout of its file server, has
    the signal that it cannot ignore. *)
Theorem late_killed w a nd r t : reachable w -> bnodes (st w) !! a = Some nd -> is_fs nd = true -> NEEDTIMEOUT (hdr nd) = true -> nextTimeout (hdr nd) < t ->
  r <> R_main -> overdue nd r (now (os (st w))) (patience r) = true ->
  exists s', bproc_timeout t a (st w) = Some (tt, s')
  /\ forall q i, live (viewed s') !! q = Some i -> p_inst i = name (hdr nd) -> p_core i = coreName_of r -> SIGKILL ∈ p_sigs i.
Proof.
  intros [I _]%reachable_inv H F Nt Ht Hr Ho. generalize (timeout_ok types _ _ a nd t I H). unfold wp.
  destruct (bproc_timeout t a (st w)) as [[[] s'] |]; [| done]. intros (I1 & O & _ & T). exists s'. split; [done |].
  intros q i Hq Hi Hc. destruct (live_slot _ _ _ _ _ (i_base _ _ _ I1) Hq) as (b & m & r' & p & pr & Hb & Hp & Hpr & <- & En & Ec & _).
  assert (r' = r) as -> by (apply coreName_inj; congruence). destruct (decide (b = a)) as [-> | Hne].
  - destruct (T m Hb) as (_ & _ & K). destruct (slot_proc _ _ _ _ _ _ _ (i_base _ _ _ I1) Hb Hp) as (_ & _ & pr' & Hpr' & _ & _ & _ & _ & sigs & HL & _ & Q & _).
    assert (pr' = pr) as -> by (by eapply procs_unique; [apply (i_base _ _ _ I1) | |]). rewrite Hq in HL. injection HL as ->. by apply Q, K.
  - rewrite O in Hb by done. destruct Hne. eapply (b_name _ _ _ (i_base _ _ _ I)); [done.. | congruence].
Qed.

(** C40. While the window of its first exit lasts, a simple bnode that exits again and again
    is started at most twelve times, and then stays down in error. *)
Theorem restart_bound w a nd k s' : reachable w -> bnodes (st w) !! a = Some nd -> is_fs nd = false ->
  0 <= rsCount (hdr nd) -> rsCount (hdr nd) + Z.of_nat k < 2147483648 -> crashes a (s32 (rsTime (hdr nd) + 30)) k (st w) s' ->
  Z.of_nat (starts s') <= Z.of_nat (starts (st w)) + Z.max 1 (12 - rsCount (hdr nd))
  /\ ((0 < k)%nat -> 12 <= rsCount (hdr nd) + Z.of_nat k -> forall nd', bnodes s' !! a = Some nd' -> goal (hdr nd') = BSTAT_SHUTDOWN /\ ERRORSTOP (hdr nd') = true).
Proof.
  intros [I _]%reachable_inv H F Hc Hk C. destruct (crashes_bound _ _ _ _ _ _ nd C I H F eq_refl Hc Hk) as [B E]. split; [| exact E]. case_match; lia.
Qed.
End types.

(** ** Runs *)

Definition no_file (_ : string) : option Z := Some 0.
Definition names (n : string) : btype := if bool_decide (n = "fs") then T_fs else T_simple.
Definition nowhere : world := World (Bos ∅ [] [] 1 0 false (Osys ∅ [] 0 ∅ true [])) [].
Notation reached := (reachable names no_file).

(** The world after an action. *)
Definition after_action (w : world) (act : action) : world := from_option id nowhere (perform no_file act w).
Definition played (acts : list action) (w : world) : world := foldl after_action w acts.

Lemma after_reached w act : reached w -> enabled names act w -> reached (after_action w act).
Proof.
  intros R En. destruct (perform_ok names no_file act w (reachable_inv names no_file w R) En) as (w' & E & _). unfold after_action. rewrite E. by eapply r_step.
Qed.

Lemma enabled_create t n ap1 ap2 ap3 ap4 ap5 w : create_args names t n ap1 ap2 ap3 ap4 ap5 -> enabled names (A_create t n ap1 ap2 ap3 ap4 ap5) w.
Proof. by destruct w. Qed.
Lemma usable_word c w : bnode_ParseLine c = Tokens [w] -> sscanf_s c = Some w -> usable_cmd c.
Proof. intros E1 E2. split; [by exists w, [] | by exists w]. Qed.

(** A file server and a simple instance are made. *)
Definition create_fs : action := A_create T_fs "fs" "/f" "/v" "/s" EmptyString None.
Definition create_ka : action := A_create T_simple "ka" "/k" EmptyString EmptyString EmptyString None.
Definition ready : world := after_action nowhere (A_answers [100; 101; 102; 103; 104]).
Definition up : world := after_action (after_action ready create_fs) create_ka.

Lemma up_reached : reached up.
Proof.
  apply after_reached; [apply after_reached; [apply after_reached |] |].
  - exact (r_fresh names no_file ∅ 0).
  - split; [by apply (bool_decide_unpack _); vm_compute |]. intros p _ _. apply lookup_empty.
  - apply enabled_create. split; [done |]. split; [by eapply usable_word |]. split; [by eapply usable_word |]. split; [by eapply usable_word |]. done.
  - apply enabled_create. split; [done |]. by exists "/k", [].
Qed.

Lemma salvage_protocol_witness : log (os (st up)) = [EvSpawn "ka" None "/k" 102; EvSpawn "fs" (Some "vol") "/v" 101; EvSpawn "fs" (Some "file") "/f" 100]
  /\ protocol names (log (os (st up))) /\ emergency (st up) = false
  /\ forall n, n ∈ unsalvaged (viewed (st up)) -> names n = T_fs -> n ∈ salfiles (os (st up)).
Proof. split; [by vm_compute | exact (salvage_protocol names no_file up up_reached)]. Defined.

Lemma enabled_shutdownall w : enabled names A_shutdownall w.
Proof. by destruct w. Qed.
Lemma actions_defined_witness : is_Some (perform no_file A_shutdownall up).
Proof. exact (actions_defined names no_file up A_shutdownall up_reached (enabled_shutdownall _)). Defined.

(** The bnode at an address, of a state that was computed. *)
Lemma computed_bnode {B} (f : node -> B) (b : B) (o : option node) : f <$> o = Some b -> exists nd, o = Some nd /\ f nd = b.
Proof. intros (nd & -> & ->)%fmap_Some. eauto. Qed.

Lemma shutdown_completes_witness : exists nd, bnodes (st up) !! 1 = Some nd /\ exists c s1, SBOZO_SetTStatus (name (hdr nd)) BSTAT_SHUTDOWN (st up) = Some (c, s1)
  /\ (forall q i, live (viewed s1) !! q = Some i -> p_inst i = name (hdr nd) -> p_sigs i <> []).
Proof.
  destruct (computed_bnode is_fs true (bnodes (st up) !! 1)) as (nd & H & F); [by vm_compute |]. exists nd. split; [exact H |].
  destruct (shutdown_completes names no_file up 1 nd up_reached H F) as (c & s1 & E & T & _). exists c, s1. split; [exact E | exact T].
Defined.

Definition late : world := after_action (after_action up (A_tstatus "fs" BSTAT_SHUTDOWN)) (A_later 3000).
Lemma enabled_tstatus n g w : enabled names (A_tstatus n g) w.
Proof. by destruct w. Qed.
Lemma enabled_later t w : enabled names (A_later t) w.
Proof. by destruct w. Qed.
Lemma late_reached : reached late.
Proof. apply after_reached; [apply after_reached; [exact up_reached | apply enabled_tstatus] | apply enabled_later]. Qed.
Lemma late_killed_witness : exists s', bproc_timeout 3000 1 (st late) = Some (tt, s')
  /\ forall q i, live (viewed s') !! q = Some i -> p_inst i = "fs" -> p_core i = Some "file" -> SIGKILL ∈ p_sigs i.
Proof.
  destruct (computed_bnode (fun nd => (is_fs nd, NEEDTIMEOUT (hdr nd), nextTimeout (hdr nd) <? 3000, overdue nd R_file (now (os (st late))) FSSDTIME, name (hdr nd)))
    (true, true, true, true, "fs") (bnodes (st late) !! 1)) as (nd & H & E); [by vm_compute |].
  injection E as E1 E2 E3 E4 E5. apply Z.ltb_lt in E3.
  destruct (late_killed names no_file late 1 nd R_file 3000 late_reached H E1 E2 E3 ltac:(done) E4) as (s' & R & K).
  exists s'. split; [exact R |]. intros q i Hq Hi. apply (K q i Hq). rewrite E5. exact Hi.
Defined.

(** One exit of the simple instance, that is at address 4 with its process 102. *)
Definition over1 : osys := ended 102 (Exited 1) (os (st up)).
Definition crashed : bos := from_option snd (st nowhere) (bproc_exit 1 102 (with_os over1 (st up))).
Lemma ran (m : SM bos unit) s d : (if m s then true else false) = true -> m s = Some (tt, from_option snd d (m s)).
Proof. by destruct (m s) as [[[] s'] |]. Qed.
Lemma restart_bound_witness : exists nd, bnodes (st up) !! 4 = Some nd /\ name (hdr nd) = "ka"
  /\ Z.of_nat (starts crashed) <= Z.of_nat (starts (st up)) + Z.max 1 (12 - rsCount (hdr nd)).
Proof.
  destruct (computed_bnode (fun nd => (is_fs nd, proc (slot_of nd R_main), rsTime (hdr nd), rsCount (hdr nd), name (hdr nd))) (false, Some 5, 0, 0, "ka") (bnodes (st up) !! 4))
    as (nd & H & E); [by vm_compute |]. injection E as E1 E2 E3 E4 E5. exists nd. split; [exact H |]. split; [exact E5 |].
  refine (proj1 (restart_bound names no_file up 4 nd 1 crashed up_reached H E1 _ _ _)); [lia | lia |].
  eapply (cr_one _ _ 0 _ nd 5 (BnodeProc 4 "/k" None 102 0 0 true false) over1 1 crashed); [exact H | exact E2 | | | | by rewrite E3 | | apply cr_none].
  - replace (allProcs (st up)) with [(5, BnodeProc 4 "/k" None 102 0 0 true false); (3, BnodeProc 1 "/v" (Some "vol") 101 0 0 true false); (2, BnodeProc 1 "/f" (Some "file") 100 0 0 true false)] by by vm_compute. by left.
  - apply meanwhile_end; [by vm_compute |]. exact (b_spawns _ _ _ (i_base _ _ _ (proj1 (reachable_inv names no_file _ up_reached)))).
  - exists (Exited 1). split; [by vm_compute | done].
  - apply ran. by vm_compute.
Defined.

(** ** What the code does not do *)

(** A simple bnode that failed too often is to be down, but the process that its last exit
    started runs on. *)
Fixpoint failing (n : nat) (q : Z) : list action :=
  match n with O => [] | S n' => [A_end q (Exited 1); A_bproc [q]] ++ failing n' (q + 1) end.
Definition failed : world := played ([A_answers (map Z.of_nat (seq 100 20)); create_ka] ++ failing 12 100) nowhere.
Lemma error_stop_runs : (fun nd => (goal (hdr nd), ERRORSTOP (hdr nd), status nd)) <$> bnodes (st failed) !! 1 = Some (BSTAT_SHUTDOWN, true, BSTAT_NORMAL)
  /\ starts (st failed) = 13%nat.
Proof. by vm_compute. Qed.

(** When the file SALVAGE cannot be made, a file server is started on partitions that
    are not clean after a crash of the machine. *)
Definition no_room : world := World (Bos ∅ [] [] 1 0 false (Osys ∅ [] 0 ∅ false [])) [].
Lemma salvage_skipped : log (os (st (played [A_answers [100; 101]; create_fs; A_panic; A_answers [100; 101]; create_fs] no_room)))
  = [EvSpawn "fs" (Some "vol") "/v" 101; EvSpawn "fs" (Some "file") "/f" 100; EvPanic; EvSpawn "fs" (Some "vol") "/v" 101; EvSpawn "fs" (Some "file") "/f" 100].
Proof. by vm_compute. Qed.

(** A call to restart all bnodes, while it waits for one, remembers the next one, which may be deleted. *)
Definition stopping : world := after_action up (A_tstatus "fs" BSTAT_SHUTDOWN).
Definition waits_for_all : option (applying * bos) := swproc_from 2 (head (allBnodes (st stopping))) (st stopping).
Definition then_deleted : world :=
  played [A_tstatus "ka" BSTAT_SHUTDOWN; A_end 102 (Signaled SIGTERM); A_bproc [102]; A_delete "ka"; A_end 100 (Exited 0); A_end 101 (Exited 0); A_bproc [100; 101]]
    (World (from_option snd (st nowhere) waits_for_all) []).
Lemma RestartAll_uses_freed : fst <$> waits_for_all = Some (Waiting 1 (Some 4)) /\ allBnodes (st then_deleted) = [1]
  /\ (if swproc_wakes 2 1 (Some 4) (st then_deleted) then true else false) = false.
Proof. by vm_compute. Qed.
